(* ===== verification/_CoqProject ===== *)
-Q . S2P
Prelude.v
Bitfield.v
Mmu.v
Alloc.v
Heap.v
Libc.v
Hash.v
Scheduler.v
SchedulerInv.v
SchedulerOps.v
SchedulerFork.v
SchedulerSpec.v
SchedulerReach.v
SchedulerWitness.v
Fs.v
FsState.v
Devices.v
Ramfs.v
RamfsSpec.v
Fat32.v
Fat32Spec.v
Fat32DirSpec.v
Vfs.v
OpTables.v
VfsSpec.v
VfsFiles.v
FatFiles.v
MountSpec.v
FsWitness.v
Elf.v
ElfSpec.v
FsInv.v
Keeps.v
Exec.v
Syscalls.v
SystemInv.v
TreeInv.v
ExecSpec.v
FamilySpec.v
Kernel.v
SystemExamples.v
KernelSpec.v
KernelFs.v
InitSpec.v
SystemWitness.v
Format.v
Log.v
Stdio.v
StdioSpec.v
Usr.v
UsrCalls.v
UsrSpec.v
Lucifer.v
Programs.v
ProgramsSpec.v
ShellSpec.v
UsrFiles.v
CatSpec.v
FileCalls.v
LsSpec.v
DiskFiles.v
ProgramsWitness.v
DiskWitness.v
Peripherals.v
PeripheralsSpec.v
SdHost.v
SdHostSpec.v
Loader.v
LoaderSpec.v
Boards.v
Cpu.v
Vectors.v
CpuSpec.v
ContextSwitch.v
VectorsSpec.v
Privilege.v
MachineSpec.v
Boot.v
BootSpec.v
MachineWitness.v
