(* ===== verification/Prelude.v ===== *)
(** * Satan OS: a Unix-like kernel for the Raspberry Pi Zero W, verified

    This library models the kernel under [src/src/kernel], the boot loader and the user
    library as Rocq functions and proves what their parts promise, up to the invariant of
    the whole system from reset on.

    ** The program

    [kernel.c] boots: it sets up the allocators, the MMU, the drivers, the scheduler and
    the virtual file system, mounts the FAT32 volume of the SD card on [/] and a RAM file
    system on [/dev], and starts [/bin/init].  From then on the kernel runs only in its
    exception vectors: system calls ([syscalls.c]), the timer's interrupts and memory
    faults.  Each saves the registers of the current process, does its work and lets the
    scheduler choose the process that is resumed.  A process owns one section of a
    megabyte, mapped at 0x00800000, a translation table, and 16 file descriptors.

    ** Conventions

    A piece of C code is a computation in the monad [M S A] over its state [S]:
    [S → outcome (A * S)], where [Fatal] is [kernel_fatal_error] or a failed
    [KERNEL_ASSERT] (the machine reboots), [Fault] is an access that C leaves undefined,
    and [Timeout] is fuel that ran out or a wait that never ends.  Functions carry the
    names of the source.  Integers are [Z], with the wrap-around of [uint32_t] and
    [int32_t] written as [u32] and [s32]; pointers are addresses, NULL is 0; a struct
    allocated on the kernel heap is an entry of a store, keyed by the address that the
    model of the allocator returned.  The class [Has S C] places a component's state in a
    bigger one, and [zoom] runs the component's operations there.

    ** Files and what they model

    - [Prelude]: the monad, machine integers, bits, arrays.
    - [Bitfield] ([memory/bitfield.c]), [Alloc] ([section_allocator.c],
      [translation_table_allocator.c]; what both promise is the class [SlotAllocator]),
      [Mmu] ([hardware/mmu.c]), [Heap] ([memory_allocator.c]).
    - [Libc] ([arm_runtime/eabi_rt.c], [kernel/lib/str.c], [userland/lib/string.c], on a
      byte memory), [Hash] ([lib/hashmap.c], [lib/fnv_hash.c], [utils.c]).
    - [Scheduler] ([scheduler/scheduler.c] but exec), for any file system of class
      [Files]; [SchedulerInv] (the invariant [wf]), [SchedulerOps], [SchedulerFork] (each
      operation on states that satisfy it), [SchedulerSpec] (properties of fork, exit,
      wait, task switches, address spaces), [SchedulerReach] (reachability, descriptors),
      [SchedulerWitness] (concrete states).
    - [Fs] ([vfs/inode.c], [vfs/fs_utils.c] and the structs), [FsState] (the state of all
      file systems and devices), [Devices] ([vfs/dev], [driver_registry.c]), [Ramfs]
      ([ramfs.c]), [Fat32] ([fat32_fs.c], [fat32_internals.h]), [Vfs] ([vfs.c]), [OpTables]
      (the tables of operations, and that [Vfs] calls what they hold), with
      their properties in [RamfsSpec], [Fat32Spec], [Fat32DirSpec] (directories as encoded
      lists of entries), [VfsSpec], [VfsFiles], [FatFiles] (from a path to an open file of a
      FAT32 volume), [MountSpec] (mounting, new entries, device nodes); [FsWitness]
      holds concrete states.
    - [Elf] ([elf_loader]), [ElfSpec] (its contract for any file of class [Readable],
      which RAM and FAT32 files are), [Exec] (exec in [scheduler.c]), [ExecSpec].
    - [Syscalls] ([syscalls.c], the calls made by [hardware/interupts.S], and
      [scheduler_start]), [FsInv] (the invariant of the kernel's heap and of the objects in
      it), [Keeps] (a logic for what computations leave alone: every operation of the file
      systems keeps objects and [FsInv]), [SystemInv] (every system call, interrupt and fault
      keeps the scheduler's invariant), [TreeInv] (and those of the heap and of the tree of
      cached directory entries),
      [FamilySpec] (fork, wait and exit composed, in every interleaving).
    - [Kernel] ([kernel.c]), [SystemExamples] (a card with a FAT32 volume, a program and a
      text, booted by running the model), [KernelSpec] (the boot, the invariant of all that
      follows), [KernelFs] (what the boot asks of the card, and the tree it mounts), [InitSpec]
      (the start of init, up to its first instruction), [SystemWitness].
    - [Format] (digits and format strings, which [log.c] and [stdio.c] share), [Log]
      ([log/log.c]).
    - [Stdio] ([userland/lib]: [stdio.c], [stdlib.c], [dirent.c]), for any operating system
      of the classes [Os] and [OsProc]; [StdioSpec] (streams on any descriptor of class
      [Sink]); [Usr] ([usr_syscalls.c]: the kernel as an [Os]), [UsrCalls] (every system
      call on files, by a process that runs alone), [UsrSpec] (the terminal as a [Sink]),
      [UsrFiles] (a file, the terminal and the calls together, for files of class
      [OpenFile]), [FileCalls] (a RAM file through the calls).
    - [Lucifer] and [Programs] ([userland/bin]); [ProgramsSpec] (from a program's start to
      its exit, and the contracts [TextFile] and [TextDir] of cat and ls), [ShellSpec] (the
      contract [Session] of the shell), [CatSpec] and [LsSpec] (the kernel keeps the
      contracts of cat and ls, for files and directories of both file systems), [DiskFiles]
      (from the sectors of a disk to the terminal); [ProgramsWitness] and [DiskWitness].
    - [Peripherals] ([hardware/gpio.c], [mini_uart.c], [system_timer.c], [interupts.c],
      [watchdog.c]) and [SdHost] ([hardware/sd_host]), on any hardware of class [Mmio];
      [PeripheralsSpec] and [SdHostSpec] state the contracts of the hardware ([Uart],
      [Gpio], [Emmc]) and what the drivers make of them; [Loader] and [LoaderSpec]
      ([src/src/serial_loader], with [tools/serial_boot.py] at the other end of the
      line); [Boards] holds machines that keep the contracts.
    - [Cpu]: the ARM processor as far as the kernel's assembly uses it (banked registers,
      status registers, translation registers, memory, exceptions; a call of a C function
      is the model of the function, after which the registers that the calling convention
      does not preserve, the flags and the memory below the stack are arbitrary).
      [Vectors]: [hardware/boot.S], [interupts.S], [mmu.S], [cpu.S], [cpu_modes.inc] and
      [scheduler/scheduler.S], instruction by instruction; [Boot]: [_reset_handler] and
      [kernel_main] with what they do to the processor.  [CpuSpec] (what instructions and
      calls do in an exception's mode), [ContextSwitch] (the restore of a context),
      [VectorsSpec] (each handler follows its model in [Syscalls]), [Privilege] (every
      saved status is one of user mode), [MachineSpec] (the machine refines the system),
      [BootSpec] (power on to the first program), [MachineWitness].

    ** State

    [Exec.system] is the whole machine: both allocators' bit fields, the translation
    tables, the memory of the processes' sections byte by byte, [_scheduler], and
    [Vfs.vstate]: the kernel heap, the stores of inodes, files, super blocks and of the
    file systems' private structs, the block devices, the RAM disk, the card, the bytes
    typed at and written to the terminal, and [_vfs] with the directory entries.
    [Stdio.user] is a program: the cursor of its heap, its streams and directories, and
    the operating system behind it.  The registers of the peripherals are not part of
    [Exec.system], which sees a card as a function from block numbers to blocks and the
    terminal as two streams: [SdHostSpec.sdhost_read_refines] and
    [PeripheralsSpec.uart_refines] justify that.  [Loader.boot] is the hardware and the
    memory before there is a kernel.  [Cpu.machine] is the processor with the memory of the
    kernel's stacks, the vectors, the variable [kernel_translation_table], and
    [Exec.system] as the part of the state that the C code works on.

    ** Groups of theorems

    - The machine: [BootSpec.machine_boots] (from power on, with a card that holds a volume
      with [dev] and [bin/init], to init's first instruction), [machine_safe] (from power on,
      programs run unprivileged under their own table, the exceptions' stacks are empty
      between exceptions, and the system's state is one of the model's),
      [MachineSpec.svc_refines] and [irq_refines] (what the assembly does is what the system
      model says), [interrupt_transparent], [usr_syscall_refines].
    - The system: [KernelSpec.system_invariant] (in every reachable state a process runs,
      [wf] holds, the cached directory entries are a tree, and the heap with its objects is
      well-formed), [InitSpec.boot_correct] (the boot of the kernel's model: mounts, terminal,
      init), [kernel_init_correct], [ExecSpec.exec_correct] and [exec_argv_roundtrip].
    - Processes: [FamilySpec.fork_wait_exit] (a parent and its child in every
      interleaving); fork, exit, wait, task switches (fair, round robin), isolation of
      address spaces, file descriptors.
    - Files: [FileCalls.save_and_load] (from a program's memory through calls, VFS and RAM
      file system to the heap and back); round trip through the VFS, RAM files,
      directories, FAT32 reading and seeking, FAT32 directories (listing decodes what is
      encoded),
      [FatFiles.fat32_open_correct] (what a directory's sectors encode is what a path opens),
      the tree of cached entries, block devices.
    - Memory and libraries: allocators, heap, translation tables, hash map, memmove,
      division, strings.
    - Text: numerals read back, formats are typed, [printf] prints what [kernel_log] prints,
      streams append to their descriptor, and [printf] of a process reaches the terminal
      through library, system call, file system and driver.
    - Programs: cat sends a file, ls a directory, from start to exit on the kernel;
      [DiskFiles.disk_to_terminal] (for a path into a FAT32 volume, what the disk's sectors
      say is what is sent); a session of the shell writes what its specification says.
    - Hardware: the drivers of the serial line and of the SD card refine the models the
      kernel works with, the card is initialised, waiting for a command ends on any
      hardware, the pins; the serial transfer of a kernel between both programs.

    ** Fuel

    Loops with an obvious bound recurse on it: the bytes of a buffer, the table of
    processes, the sections of a table, the program headers ([load_loop]), the 8 rows
    for arguments ([copy_argv]; a ninth is a [Fault]), the characters of a path.
    [Ramfs.grow] gets 33 turns, as 32 doublings exceed or zero any [uint32_t]; the theorem
    about endless growth is for any fuel.  Walks of a FAT chain get one turn per entry of
    the FAT, directory iteration one per entry that the volume could hold.  A C string of
    a process cannot be longer than all sections together.  A number has at most 32
    digits; [fwrite] takes two turns for each byte at most, the tokenizer one for each
    character of its line.  Theorems about results show that this fuel suffices; none has
    a hypothesis about it.  The mains of cat, ls and the shell read to the end of a file, a
    directory or their input: they take [fuel], and their theorems ask for a turn for every
    512 bytes, entry or line, and one for the end; init has no end.  Loops that only the
    hardware ends - polling a status bit, the reset of the SD controller, powering up the
    card, the start signal of a transfer - have a parameter [fuel]; their theorems ask that
    it be at least the number of polls in which the contract of the hardware promises the
    bit ([patience]), and that it exceed what has to be skipped or repeated.

    ** Not modelled

    The data and instruction caches, and the processor's timing: of the translation buffer
    the model keeps whether it is stale.  The instructions of compiled C code are not
    modelled: the assembly calls the models of the functions.  The table that is active
    while the kernel runs must be the kernel's when C code touches more than its stack and
    [kernel_translation_table] ([Cpu.kernel_mapped]); accesses of the assembly itself, to
    stacks and vectors, are to memory that every table maps to itself, which the machine
    takes for granted.  Log messages are left out where they are
    written ([Log] models how they are printed), and so are the registers of peripherals
    outside of the drivers.  A system call that lets another process run first has no
    result in [Usr] ([Timeout]): what the others do is in [KernelSpec] and [FamilySpec], so
    [UsrFiles], [FileCalls], [CatSpec] and [LsSpec] are about a process that runs alone, and
    [ShellSpec], which forks and waits, is about any operating system that keeps [Session].  [vfs/dev/zero.c] is commented out in the source. *)
From Stdlib Require Export ZArith Lia.
From stdpp Require Export base tactics numbers list gmap strings.

Open Scope Z_scope.

(** [lia] also reasons about [/] and [mod] by a constant. *)
Ltac Zify.zify_post_hook ::= Z.to_euclidean_division_equations.

Declare Scope c_scope.
Delimit Scope c_scope with C.
Open Scope c_scope.

(** ** Outcomes of a C computation *)

(** What running a piece of the kernel can come to:
    - [Ret a]: it returns [a];
    - [Fatal r]: it called [kernel_fatal_error r] (also through
      [KERNEL_ASSERT]), which prints [r] and reboots: control never comes back;
    - [Fault]: it read or wrote outside an object, or through a pointer to no
      object: undefined behaviour of C;
    - [Timeout]: the fuel given to a loop of the model ran out. *)
Inductive outcome (A : Type) : Type :=
| Ret (a : A)
| Fatal (reason : string)
| Fault
| Timeout.
Arguments Ret {A} _.
Arguments Fatal {A} _.
Arguments Fault {A}.
Arguments Timeout {A}.

Definition obind {A B} (o : outcome A) (f : A → outcome B) : outcome B :=
  match o with
  | Ret a => f a
  | Fatal r => Fatal r
  | Fault => Fault
  | Timeout => Timeout
  end.

Notation "'let?' p ':=' m 'in' k" := (obind m (λ p, k))
  (at level 10, p as pattern, m at level 100, k at level 200) : c_scope.

(** [KERNEL_ASSERT(b)] *)
Definition oassert (b : bool) (reason : string) : outcome unit :=
  if b then Ret () else Fatal reason.

(** [sat F Q o]: [o] neither faults nor runs out of fuel, a returned value
    satisfies [Q], and a fatal error has a reason in [F]. *)
Definition sat {A} (F : string → Prop) (Q : A → Prop) (o : outcome A) : Prop :=
  match o with
  | Ret a => Q a
  | Fatal r => F r
  | Fault => False
  | Timeout => False
  end.

(** ** Stateful computations *)

Definition M (S A : Type) : Type := S → outcome (A * S).

Definition ret {S A} (a : A) : M S A := λ s, Ret (a, s).
Definition bind {S A B} (m : M S A) (f : A → M S B) : M S B :=
  λ s, match m s with
       | Ret (a, s') => f a s'
       | Fatal r => Fatal r
       | Fault => Fault
       | Timeout => Timeout
       end.
Definition fatal {S A} (reason : string) : M S A := λ _, Fatal reason.
Definition fault {S A} : M S A := λ _, Fault.
Definition gets {S A} (f : S → A) : M S A := λ s, Ret (f s, s).
Definition modify {S} (f : S → S) : M S unit := λ s, Ret ((), f s).
Definition lift {S A} (o : outcome A) : M S A :=
  λ s, match o with
       | Ret a => Ret (a, s)
       | Fatal r => Fatal r
       | Fault => Fault
       | Timeout => Timeout
       end.
Definition kassert {S} (b : bool) (reason : string) : M S unit :=
  if b then ret () else fatal reason.
Definition deref {S A} (o : option A) : M S A :=
  match o with Some a => ret a | None => fault end.

Notation "'let*' p ':=' m 'in' k" := (bind m (λ p, k))
  (at level 10, p as pattern, m at level 100, k at level 200) : c_scope.

(** ** Components of a bigger state *)

(** A component state [C] inside a system state [S]. *)
Class Has (S C : Type) : Type := {
  comp_get : S → C;
  comp_set : C → S → S;
  comp_get_set : ∀ c s, comp_get (comp_set c s) = c;
  comp_set_get : ∀ s, comp_set (comp_get s) s = s;
  comp_set_set : ∀ c c' s, comp_set c (comp_set c' s) = comp_set c s;
}.

(** Run a component's operation inside the system. *)
Definition zoom {S C A} `{!Has S C} (m : M C A) : M S A :=
  λ s, match m (comp_get s) with
       | Ret (a, c) => Ret (a, comp_set c s)
       | Fatal r => Fatal r
       | Fault => Fault
       | Timeout => Timeout
       end.

Lemma zoom_Ret {S C A} `{!Has S C} (m : M C A) (s : S) a c :
  m (comp_get s) = Ret (a, c) → zoom m s = Ret (a, comp_set c s).
Proof. intros E. unfold zoom. by rewrite E. Qed.

(** ** Rules of the two monads *)

Section rules.
Context {S A B : Type}.
Implicit Types (m : M S A) (f : A → M S B) (s : S).

Lemma obind_inv (o : outcome A) (g : A → outcome B) b :
  obind o g = Ret b ↔ ∃ a, o = Ret a ∧ g a = Ret b.
Proof. destruct o; simpl; naive_solver. Qed.

Lemma bind_Ret m f s a s' : m s = Ret (a, s') → bind m f s = f a s'.
Proof. intros E. unfold bind. by rewrite E. Qed.

Lemma bind_Fatal m f s r : m s = Fatal r → bind m f s = Fatal r.
Proof. intros E. unfold bind. by rewrite E. Qed.

Lemma bind_if (b : bool) m f s a s' r : m s = (if b then Ret (a, s') else Fatal r) →
  bind m f s = if b then f a s' else Fatal r.
Proof. intros E. unfold bind. rewrite E. by destruct b. Qed.

Lemma bind_inv m f s r :
  bind m f s = Ret r ↔ ∃ a s', m s = Ret (a, s') ∧ f a s' = Ret r.
Proof.
  unfold bind. destruct (m s) as [[a s']| | |] eqn:E; naive_solver.
Qed.

Lemma lift_Ret (o : outcome A) s a s' :
  lift o s = Ret (a, s') ↔ o = Ret a ∧ s' = s.
Proof. unfold lift. destruct o; naive_solver. Qed.

Lemma sat_obind F (o : outcome A) (g : A → outcome B) (Q : B → Prop) :
  sat F (λ a, sat F Q (g a)) o → sat F Q (obind o g).
Proof. by destruct o. Qed.

Lemma sat_bind F m f s (Q : B * S → Prop) :
  sat F (λ '(a, s'), sat F Q (f a s')) (m s) → sat F Q (bind m f s).
Proof. unfold bind. by destruct (m s) as [[]| | |]. Qed.

Lemma sat_mono F (P Q : A → Prop) (o : outcome A) :
  sat F P o → (∀ a, P a → Q a) → sat F Q o.
Proof. destruct o; simpl; auto. Qed.

Lemma sat_Ret_inv F (Q : A → Prop) (o : outcome A) a :
  sat F Q o → o = Ret a → Q a.
Proof. by intros H ->. Qed.
End rules.

(** Step through a computation that is known to return. *)
Ltac inv_run :=
  repeat match goal with
  | H : obind _ _ = Ret _ |- _ =>
      apply obind_inv in H; destruct H as (? & ? & H)
  | H : bind _ _ _ = Ret _ |- _ =>
      apply bind_inv in H; destruct H as (? & ? & ? & H)
  | H : ret _ _ = Ret _ |- _ => unfold ret in H
  | H : gets _ _ = Ret _ |- _ => unfold gets in H
  | H : modify _ _ = Ret _ |- _ => unfold modify in H
  | H : lift _ _ = Ret _ |- _ => apply lift_Ret in H; destruct H as [H ->]
  | H : fault _ = Ret _ |- _ => discriminate H
  | H : fatal _ _ = Ret _ |- _ => discriminate H
  | H : Ret _ = Ret _ |- _ => injection H as H; simplify_eq
  | _ => progress simplify_eq/=
  end.

(** ** Machine integers *)

Definition u8 (z : Z) : Z := z `mod` 0x100.
Definition u16 (z : Z) : Z := z `mod` 0x10000.
Definition u32 (z : Z) : Z := z `mod` 0x100000000.
Definition u64 (z : Z) : Z := z `mod` 0x10000000000000000.
Definition s32 (z : Z) : Z := (z + 0x80000000) `mod` 0x100000000 - 0x80000000.

Definition is_u8 (z : Z) : Prop := 0 ≤ z < 0x100.
Definition is_u32 (z : Z) : Prop := 0 ≤ z < 0x100000000.

Create HintDb satan discriminated.

Lemma u8_range z : is_u8 (u8 z).
Proof. unfold is_u8, u8. lia. Qed.
Lemma u32_range z : is_u32 (u32 z).
Proof. unfold is_u32, u32. lia. Qed.
Lemma s32_range z : -0x80000000 ≤ s32 z < 0x80000000.
Proof. unfold s32. lia. Qed.
#[export] Hint Resolve u8_range u32_range s32_range : satan.

Lemma u8_small z : 0 ≤ z < 0x100 → u8 z = z.
Proof. unfold u8. lia. Qed.
Lemma u16_small z : 0 ≤ z < 0x10000 → u16 z = z.
Proof. unfold u16. lia. Qed.
Lemma u32_small z : 0 ≤ z < 0x100000000 → u32 z = z.
Proof. unfold u32. lia. Qed.
Lemma s32_small z : -0x80000000 ≤ z < 0x80000000 → s32 z = z.
Proof. unfold s32. lia. Qed.
Lemma u32_s32 z : u32 (s32 z) = u32 z.
Proof. unfold u32, s32. rewrite Zminus_mod_idemp_l. f_equal. lia. Qed.
Lemma s32_u32 z : s32 (u32 z) = s32 z.
Proof. unfold u32, s32. by rewrite Zplus_mod_idemp_l. Qed.
Lemma u32_u32 z : u32 (u32 z) = u32 z.
Proof. unfold u32. by rewrite Zmod_mod. Qed.

(** Drop the wrap-arounds that [lia] shows to be the identity. *)
Ltac unwrap :=
  repeat first
    [ rewrite u8_small by lia | rewrite u16_small by lia
    | rewrite u32_small by lia | rewrite s32_small by lia ].

(** ** Bits *)

Section bits.
Implicit Types b n k : Z.

Lemma testbit_land_pow2 b k :
  0 ≤ k → (Z.land (Z.shiftl 1 k) b =? 0) = negb (Z.testbit b k).
Proof.
  intros Hk. rewrite Z.shiftl_1_l.
  destruct (Z.testbit b k) eqn:E; simpl.
  - apply Z.eqb_neq. intros H.
    assert (Z.testbit (Z.land (2 ^ k) b) k = false) as H' by (by rewrite H, Z.bits_0).
    by rewrite Z.land_spec, Z.pow2_bits_true, E in H' by lia.
  - apply Z.eqb_eq, Z.bits_inj'. intros n Hn.
    rewrite Z.land_spec, Z.bits_0, Z.pow2_bits_eqb by lia.
    destruct (Z.eqb_spec k n); [by subst; rewrite E | done].
Qed.

Lemma testbit_set b k n :
  0 ≤ k → Z.testbit (Z.lor b (Z.shiftl 1 k)) n = Z.testbit b n || (n =? k).
Proof.
  intros Hk. rewrite Z.lor_spec, Z.shiftl_1_l, Z.pow2_bits_eqb by lia.
  by rewrite (Z.eqb_sym k n).
Qed.

Lemma testbit_clear b k n :
  0 ≤ k → 0 ≤ n →
  Z.testbit (Z.land b (Z.lnot (Z.shiftl 1 k))) n = Z.testbit b n && negb (n =? k).
Proof.
  intros Hk Hn.
  rewrite Z.land_spec, Z.lnot_spec, Z.shiftl_1_l, Z.pow2_bits_eqb by lia.
  by rewrite (Z.eqb_sym k n).
Qed.

Lemma testbit_high b k n : 0 ≤ n ≤ k → 0 ≤ b < 2 ^ n → Z.testbit b k = false.
Proof.
  intros Hk Hb. rewrite <- (Z.mod_small b (2 ^ n)) by done.
  apply Z.mod_pow2_bits_high. lia.
Qed.

(** A non-negative number is below [2 ^ n] when its bits from [n] up are clear. *)
Lemma bits_bounded b n :
  0 ≤ n → 0 ≤ b → (∀ k, n ≤ k → Z.testbit b k = false) → b < 2 ^ n.
Proof.
  intros Hn Hb H.
  assert (b = b `mod` 2 ^ n) as ->; [|apply Z.mod_pos_bound; lia].
  apply Z.bits_inj'. intros k Hk.
  destruct (Z.lt_ge_cases k n).
  - by rewrite Z.mod_pow2_bits_low by lia.
  - rewrite Z.mod_pow2_bits_high by lia. auto.
Qed.

(** A bit field of [n] bits at position [k]. *)
Lemma land_field e k n :
  0 ≤ k → 0 ≤ n →
  Z.land e (Z.shiftl (Z.ones n) k) = (e / 2 ^ k) `mod` 2 ^ n * 2 ^ k.
Proof.
  intros Hk Hn. rewrite <- Z.shiftl_mul_pow2, <- Z.land_ones by lia.
  rewrite <- Z.shiftr_div_pow2 by lia. apply Z.bits_inj'. intros i Hi.
  destruct (Z.lt_ge_cases i k).
  - rewrite Z.land_spec, !Z.shiftl_spec_low by lia. apply andb_false_r.
  - rewrite Z.land_spec, !Z.shiftl_spec_high, Z.land_spec, Z.shiftr_spec by lia.
    do 2 f_equal. lia.
Qed.

(** [|] of two numbers with no common bit is [+]. *)
Lemma lor_add a b n :
  0 ≤ n → a `mod` 2 ^ n = 0 → 0 ≤ b < 2 ^ n → Z.lor a b = a + b.
Proof.
  intros Hn Ha Hb.
  assert (Z.land a b = 0) as H.
  { apply Z.bits_inj'. intros i Hi. rewrite Z.land_spec, Z.bits_0.
    destruct (Z.lt_ge_cases i n).
    - rewrite <- (Z.mod_pow2_bits_low a n i), Ha, Z.bits_0 by lia. done.
    - rewrite (testbit_high b i n) by lia. apply andb_false_r. }
  by rewrite Z.add_nocarry_lxor, Z.lxor_lor.
Qed.

Lemma lor_set_u8 b k : is_u8 b → 0 ≤ k < 8 → is_u8 (Z.lor b (Z.shiftl 1 k)).
Proof.
  intros [Hb1 Hb2] Hk. split.
  - apply Z.lor_nonneg. rewrite Z.shiftl_1_l. lia.
  - apply (bits_bounded _ 8); [lia| |].
    + apply Z.lor_nonneg. rewrite Z.shiftl_1_l. lia.
    + intros j Hj. rewrite testbit_set, (testbit_high b j 8) by (simpl; lia).
      simpl. lia.
Qed.

Lemma land_clear_u8 b k : is_u8 b → 0 ≤ k → is_u8 (Z.land b (Z.lnot (Z.shiftl 1 k))).
Proof.
  intros [Hb1 Hb2] Hk. split; [apply Z.land_nonneg; lia|].
  apply (bits_bounded _ 8); [lia|apply Z.land_nonneg; lia|].
  intros j Hj. by rewrite testbit_clear, (testbit_high b j 8) by (simpl; lia).
Qed.

Lemma byte_full b : is_u8 b → (∀ k, 0 ≤ k < 8 → Z.testbit b k = true) → b = 0xFF.
Proof.
  intros [Hb1 Hb2] H. apply Z.bits_inj'. intros k Hk.
  change 0xFF with (Z.ones 8). rewrite Z.testbit_ones_nonneg by lia.
  destruct (Z.ltb_spec k 8); [by apply H; lia|].
  apply (testbit_high b k 8); simpl; lia.
Qed.
End bits.
#[export] Hint Resolve lor_set_u8 land_clear_u8 : satan.

(** ** Bytes of words *)

(** The bytes of a [uint32_t]. *)
Definition word_bytes (v : Z) : list Z :=
  [u8 v; u8 (Z.shiftr v 8); u8 (Z.shiftr v 16); u8 (Z.shiftr v 24)].

(** The little endian words of a list of bytes. *)
Fixpoint le_words (l : list Z) : list Z :=
  match l with
  | a :: b :: c :: d :: l => a + 0x100 * b + 0x10000 * c + 0x1000000 * d :: le_words l
  | _ => []
  end.

Lemma map_u8 l : Forall is_u8 l → map u8 l = l.
Proof. induction 1 as [|b l Hb _ IH]; [done|]. cbn [map]. rewrite IH. f_equal. by apply u8_small. Qed.

Lemma word_bytes_u8 l : Forall is_u8 (concat (map word_bytes l)).
Proof.
  induction l as [|x l IH]; [constructor|]. cbn [map concat]. apply Forall_app. split; [|done].
  unfold word_bytes. do 4 (apply Forall_cons; split; [apply u8_range|]). by apply Forall_nil.
Qed.

Lemma length_words l : length (concat (map word_bytes l)) = (4 * length l)%nat.
Proof. induction l as [|x l IH]; [done|]. cbn [map concat]. rewrite length_app, IH. simpl. lia. Qed.

Lemma word_bytes_u32 w : word_bytes (u32 w) = word_bytes w.
Proof.
  unfold word_bytes. rewrite !Z.shiftr_div_pow2 by lia.
  change (2 ^ 8) with 0x100. change (2 ^ 16) with 0x10000. change (2 ^ 24) with 0x1000000.
  unfold u8, u32. apply (f_equal2 cons); [lia|]. apply (f_equal2 cons); [lia|].
  apply (f_equal2 cons); [lia|]. apply (f_equal2 cons); [lia|done].
Qed.

Lemma word_bytes_word a b c d : is_u8 a → is_u8 b → is_u8 c → is_u8 d →
  word_bytes (a + 0x100 * b + 0x10000 * c + 0x1000000 * d) = [a; b; c; d].
Proof.
  unfold is_u8. intros. unfold word_bytes. rewrite !Z.shiftr_div_pow2 by lia.
  change (2 ^ 8) with 0x100. change (2 ^ 16) with 0x10000. change (2 ^ 24) with 0x1000000.
  unfold u8. repeat f_equal; lia.
Qed.

Lemma words_bytes n l : length l = (4 * n)%nat → Forall is_u8 l →
  concat (map word_bytes (le_words l)) = l ∧ length (le_words l) = n ∧ Forall is_u32 (le_words l).
Proof.
  revert l. induction n as [|n IH]; intros l Hl Hu; [by destruct l|].
  destruct l as [|a [|b [|c [|d l]]]]; simpl in Hl; try lia.
  repeat (apply Forall_cons in Hu as [? Hu]).
  destruct (IH l ltac:(lia) Hu) as (E & L & F). cbn [le_words map concat length].
  rewrite word_bytes_word, E, L by done. split; [done|]. split; [done|].
  constructor; [|done]. unfold is_u32, is_u8 in *. lia.
Qed.

(** ** Arrays *)

(** [a[i]] and [a[i] = x]: an index outside the array is undefined. *)
Definition arr_get {A} (l : list A) (i : Z) : outcome A :=
  if (0 <=? i) then match l !! Z.to_nat i with Some a => Ret a | None => Fault end
  else Fault.

Definition arr_set {A} (l : list A) (i : Z) (a : A) : outcome (list A) :=
  if (0 <=? i) && (i <? Z.of_nat (length l)) then Ret (<[Z.to_nat i := a]> l) else Fault.

Section arrays.
Context {A : Type}.
Implicit Types (l : list A) (i : Z).

Lemma arr_get_Ret l i a : arr_get l i = Ret a ↔ 0 ≤ i ∧ l !! Z.to_nat i = Some a.
Proof.
  unfold arr_get. destruct (Z.leb_spec 0 i).
  - destruct (l !! Z.to_nat i); naive_solver.
  - split; [done|lia].
Qed.

Lemma arr_get_lookup l i a : 0 ≤ i → l !! Z.to_nat i = Some a → arr_get l i = Ret a.
Proof. intros. by apply arr_get_Ret. Qed.

Lemma arr_get_ok l i :
  0 ≤ i < Z.of_nat (length l) → ∃ a, arr_get l i = Ret a ∧ l !! Z.to_nat i = Some a.
Proof.
  intros Hi. destruct (lookup_lt_is_Some_2 l (Z.to_nat i)) as [a Ha]; [lia|].
  exists a. split; [|done]. apply arr_get_Ret. split; [lia|done].
Qed.

Lemma arr_get_Fault l i : ¬ (0 ≤ i < Z.of_nat (length l)) → arr_get l i = Fault.
Proof.
  intros Hi. unfold arr_get. destruct (Z.leb_spec 0 i); [|done].
  by rewrite lookup_ge_None_2 by lia.
Qed.

Lemma arr_set_Ret l i a :
  0 ≤ i < Z.of_nat (length l) → arr_set l i a = Ret (<[Z.to_nat i := a]> l).
Proof.
  intros Hi. unfold arr_set.
  by rewrite (proj2 (Z.leb_le _ _)), (proj2 (Z.ltb_lt _ _)) by lia.
Qed.

Lemma arr_set_inv l i a l' :
  arr_set l i a = Ret l' →
  0 ≤ i < Z.of_nat (length l) ∧ l' = <[Z.to_nat i := a]> l.
Proof.
  unfold arr_set. destruct (Z.leb_spec 0 i); simpl; [|done].
  destruct (Z.ltb_spec i (Z.of_nat (length l))); naive_solver lia.
Qed.
End arrays.
