(* ===== verification/Bitfield.v ===== *)
(** * Bit fields: [kernel/memory/bitfield.c]

    An array of bytes in which bit [i] says that slot [i] is in use, and the
    slot allocator on top of it.  Slot [i] is bit [i mod 8] of byte [i / 8]. *)
From S2P Require Import Prelude.

Module Bitfield.

(** ** The code *)

(** The inner loop of [bitfield_acquire_first]: the first clear bit of a byte. *)
Fixpoint scan_bits (n : nat) (bit_index bitfield : Z) : option Z :=
  match n with
  | O => None
  | S n =>
      if Z.land (Z.shiftl 1 bit_index) bitfield =? 0 then Some bit_index
      else scan_bits n (bit_index + 1) bitfield
  end.

(** The outer loop, with [n] bytes left to visit from [bitfield_index] on. *)
Fixpoint acquire_loop (n : nat) (bitfield_index : Z) (bitfields : list Z)
    : outcome (Z * list Z) :=
  match n with
  | O => Ret (-1, bitfields)
  | S n =>
      let? bitfield := arr_get bitfields bitfield_index in
      if bitfield =? 0xFF then acquire_loop n (bitfield_index + 1) bitfields
      else match scan_bits 8 0 bitfield with
           | Some bit_index =>
               let? bitfields := arr_set bitfields bitfield_index
                                   (Z.lor bitfield (Z.shiftl 1 bit_index)) in
               Ret (s32 (u32 (bit_index + 8 * bitfield_index)), bitfields)
           | None => acquire_loop n (bitfield_index + 1) bitfields
           end
  end.

Definition bitfield_acquire_first (bitfields : list Z) (bitfield_count : Z)
    : outcome (Z * list Z) :=
  acquire_loop (Z.to_nat bitfield_count) 0 bitfields.

Definition bitfield_clear (bitfields : list Z) (bitfield_count bit_index : Z)
    : outcome (list Z) :=
  let bitfield_index := Z.shiftr bit_index 3 in
  let local_bit_index := Z.land bit_index 0x7 in
  if bitfield_index >? bitfield_count then Ret bitfields
  else
    let? bitfield := arr_get bitfields bitfield_index in
    arr_set bitfields bitfield_index
      (Z.land bitfield (Z.lnot (Z.shiftl 1 local_bit_index))).

Definition bitfield_bit (bitfields : list Z) (bitfield_count bit_index : Z)
    : outcome Z :=
  let bitfield_index := Z.shiftr bit_index 3 in
  let local_bit_index := Z.land bit_index 0x7 in
  if bitfield_index >? bitfield_count then Ret 0
  else
    let? bitfield := arr_get bitfields bitfield_index in
    Ret (if Z.land bitfield (Z.shiftl 1 local_bit_index) =? 0 then 0 else 1).

Definition bitfield_allocator_alloc (base size : Z) (bitfields : list Z)
    (bitfield_count : Z) : outcome (Z * list Z) :=
  let? (index, bitfields) := bitfield_acquire_first bitfields bitfield_count in
  if index <? 0 then Ret (0, bitfields)
  else Ret (u32 (base + index * size), bitfields).

(** [index] is a [size_t] quotient; the division is [__aeabi_uidiv], see
    [Libc.uidiv_spec]. *)
Definition bitfield_allocator_free (base size : Z) (bitfields : list Z)
    (bitfield_count ptr : Z) : outcome (list Z) :=
  if ptr <? base then
    Fatal "bitfield allocator: free: tried to free memory before base"
  else
    let u8offset := ptr - base in
    let index := u8offset / size in
    bitfield_clear bitfields bitfield_count index.

(** ** What a bit field says *)

(** The array is the code's: [count] bytes, few enough for its [int32_t]. *)
Definition wf (count : Z) (bf : list Z) : Prop :=
  Z.of_nat (length bf) = count ∧ count ≤ 0x1000000 ∧ Forall is_u8 bf.

Definition used (bf : list Z) (i : Z) : bool :=
  match bf !! Z.to_nat (i / 8) with
  | Some b => Z.testbit b (i `mod` 8)
  | None => false
  end.

(** ** Facts about the loops *)

Lemma scan_bits_spec n k b :
  0 ≤ k →
  match scan_bits n k b with
  | Some j => k ≤ j < k + Z.of_nat n ∧ Z.testbit b j = false ∧
              ∀ i, k ≤ i < j → Z.testbit b i = true
  | None => ∀ i, k ≤ i < k + Z.of_nat n → Z.testbit b i = true
  end.
Proof.
  revert k. induction n as [|n IH]; intros k Hk; simpl; [lia|].
  rewrite testbit_land_pow2 by lia.
  destruct (Z.testbit b k) eqn:E; simpl; [|split; [lia|split; [done|lia]]].
  specialize (IH (k + 1) ltac:(lia)).
  assert (∀ i, k ≤ i → (k + 1 ≤ i → Z.testbit b i = true) → Z.testbit b i = true) as Hk1.
  { intros i Hi H. destruct (Z.eq_dec i k); [by subst|apply H; lia]. }
  destruct (scan_bits n (k + 1) b) as [j|].
  - destruct IH as (? & ? & IH). split; [lia|]. split; [done|].
    intros i Hi. apply Hk1; [lia|]. intros. apply IH. lia.
  - intros i Hi. apply Hk1; [lia|]. intros. apply IH. lia.
Qed.

Lemma wf_lookup count bf i :
  wf count bf → 0 ≤ i < count → ∃ b, bf !! Z.to_nat i = Some b ∧ is_u8 b.
Proof.
  intros (Hlen & _ & Hb) Hi.
  destruct (lookup_lt_is_Some_2 bf (Z.to_nat i)) as [b Hi']; [lia|].
  exists b. split; [done|]. by eapply Forall_lookup_1 in Hb.
Qed.

Lemma wf_insert count bf i b : wf count bf → is_u8 b → wf count (<[i:=b]> bf).
Proof.
  intros (? & ? & ?) ?. split; [by rewrite length_insert|].
  split; [done|]. by apply Forall_insert.
Qed.

Lemma used_out_of_range count bf i : wf count bf → 8 * count ≤ i → used bf i = false.
Proof.
  intros (? & _ & _) ?. unfold used. by rewrite lookup_ge_None_2 by lia.
Qed.

(** Storing byte [i] changes the bits of that byte only. *)
Lemma used_insert count bf i b j :
  wf count bf → 0 ≤ i < count → 0 ≤ j →
  used (<[Z.to_nat i := b]> bf) j =
  if j / 8 =? i then Z.testbit b (j `mod` 8) else used bf j.
Proof.
  intros (Hlen & _ & _) Hi Hj. unfold used. destruct (Z.eqb_spec (j / 8) i) as [<-|].
  - by rewrite list_lookup_insert_eq by lia.
  - rewrite list_lookup_insert_ne by lia. done.
Qed.

Definition acquire_post (bf : list Z) (lo hi : Z) (r : Z * list Z) : Prop :=
  let '(i, bf') := r in
  (i = -1 ∧ bf' = bf ∧ ∀ j, lo ≤ j < hi → used bf j = true) ∨
  (lo ≤ i < hi ∧ used bf i = false ∧ (∀ j, lo ≤ j < i → used bf j = true) ∧
   ∀ j, 0 ≤ j → used bf' j = used bf j || (j =? i)).

Lemma acquire_loop_spec count n k bf :
  wf count bf → 0 ≤ k → k + Z.of_nat n = count →
  ∃ r, acquire_loop n k bf = Ret r ∧ wf count r.2 ∧
       acquire_post bf (8 * k) (8 * count) r.
Proof.
  intros Hwf. revert k. induction n as [|n IH]; intros k Hk Hn.
  { exists (-1, bf). split; [done|]. split; [done|]. left. split_and!; [done..|lia]. }
  cbn [acquire_loop].
  destruct (wf_lookup count bf k Hwf) as (b & Hb & Hu8); [lia|].
  rewrite (proj2 (arr_get_Ret bf k b)) by done. cbn [obind].
  assert (∀ j, 8 * k ≤ j < 8 * k + 8 → used bf j = Z.testbit b (j - 8 * k)) as Hbyte.
  { intros j Hj. unfold used. replace (j / 8) with k by lia. rewrite Hb. f_equal. lia. }
  (* a full byte: go on with the next one *)
  assert ((∀ j, 0 ≤ j < 8 → Z.testbit b j = true) →
    ∃ r, acquire_loop n (k + 1) bf = Ret r ∧ wf count r.2 ∧
         acquire_post bf (8 * k) (8 * count) r) as Hnext.
  { intros Hfull. destruct (IH (k + 1)) as ([i bf'] & Hr & Hwf' & Hpost); [lia..|].
    exists (i, bf'). split; [done|]. split; [done|].
    assert (∀ j, 8 * k ≤ j < 8 * (k + 1) → used bf j = true) as Hused.
    { intros j Hj. rewrite Hbyte by lia. apply Hfull. lia. }
    assert (∀ P, (∀ j, 8 * (k + 1) ≤ j < P → used bf j = true) →
      ∀ j, 8 * k ≤ j < P → used bf j = true) as Hext.
    { intros P HP j Hj. destruct (Z.lt_ge_cases j (8 * (k + 1)));
        [apply Hused; lia|apply HP; lia]. }
    destruct Hpost as [(? & ? & ?)|(? & ? & ? & ?)]; [left|right]; split_and!; first [lia | by apply Hext | by auto]. }
  destruct (Z.eqb_spec b 0xFF) as [->|Hne].
  { apply Hnext. intros j Hj. change 0xFF with (Z.ones 8).
    rewrite Z.testbit_ones_nonneg by lia. lia. }
  pose proof (scan_bits_spec 8 0 b ltac:(lia)) as Hscan.
  destruct (scan_bits 8 0 b) as [c|]; [|apply Hnext; intros; apply Hscan; lia].
  destruct Hscan as (Hc & Hfree & Hbefore).
  pose proof Hwf as (Hlen & Hsmall & Hbytes). rewrite arr_set_Ret by lia. cbn [obind].
  rewrite u32_small, s32_small by lia.
  exists (c + 8 * k, <[Z.to_nat k := Z.lor b (Z.shiftl 1 c)]> bf). split; [done|].
  split; [apply wf_insert; [done|apply lor_set_u8; [done|lia]]|].
  right. split_and!; [lia..| | |].
  - rewrite Hbyte by lia. by replace (c + 8 * k - 8 * k) with c by lia.
  - intros j Hj. rewrite Hbyte by lia. apply Hbefore. lia.
  - intros j Hj. rewrite (used_insert count) by (done || lia).
    destruct (Z.eqb_spec (j / 8) k).
    + rewrite testbit_set by lia. rewrite Hbyte by lia.
      replace (j - 8 * k) with (j `mod` 8) by lia. f_equal.
      destruct (Z.eqb_spec (j `mod` 8) c), (Z.eqb_spec j (c + 8 * k)); lia.
    + destruct (Z.eqb_spec j (c + 8 * k)); [lia|]. by rewrite orb_false_r.
Qed.

Lemma acquire_spec count bf :
  wf count bf →
  ∃ i bf', bitfield_acquire_first bf count = Ret (i, bf') ∧ wf count bf' ∧
           acquire_post bf 0 (8 * count) (i, bf').
Proof.
  intros Hwf. unfold bitfield_acquire_first. pose proof Hwf as (? & _ & _).
  destruct (acquire_loop_spec count (Z.to_nat count) 0 bf) as ([i bf'] & ? & ? & ?);
    [done|lia..|eauto].
Qed.

Lemma index_split i : 0 ≤ i → Z.shiftr i 3 = i / 8 ∧ Z.land i 0x7 = i `mod` 8.
Proof.
  intros. split; [by rewrite Z.shiftr_div_pow2 by lia|].
  change 0x7 with (Z.ones 3). by rewrite Z.land_ones by lia.
Qed.

Lemma clear_spec count bf i :
  wf count bf → 0 ≤ i < 8 * count →
  ∃ bf', bitfield_clear bf count i = Ret bf' ∧ wf count bf' ∧
         ∀ j, 0 ≤ j → used bf' j = used bf j && negb (j =? i).
Proof.
  intros Hwf Hi. unfold bitfield_clear.
  destruct (index_split i) as [-> ->]; [lia|].
  destruct (Z.gtb_spec (i / 8) count); [lia|].
  destruct (wf_lookup count bf (i / 8) Hwf) as (b & Hb & Hu8); [lia|].
  rewrite (proj2 (arr_get_Ret bf (i / 8) b)) by (split; [lia|done]). cbn [obind].
  pose proof Hwf as (Hlen & _ & _). rewrite arr_set_Ret by lia.
  eexists. split; [done|].
  split; [apply wf_insert; [done|apply land_clear_u8; [done|lia]]|].
  intros j Hj. rewrite (used_insert count) by (done || lia).
  destruct (Z.eqb_spec (j / 8) (i / 8)) as [E|].
  - rewrite testbit_clear by lia. unfold used. rewrite E, Hb. f_equal. f_equal.
    destruct (Z.eqb_spec (j `mod` 8) (i `mod` 8)), (Z.eqb_spec j i); lia.
  - destruct (Z.eqb_spec j i); [by subst|]. by rewrite andb_true_r.
Qed.

Lemma bit_spec count bf i :
  wf count bf → 0 ≤ i < 8 * count →
  bitfield_bit bf count i = Ret (if used bf i then 1 else 0).
Proof.
  intros Hwf Hi. unfold bitfield_bit, used.
  destruct (index_split i) as [-> ->]; [lia|].
  destruct (Z.gtb_spec (i / 8) count); [lia|].
  destruct (wf_lookup count bf (i / 8) Hwf) as (b & Hb & Hu8); [lia|].
  rewrite (proj2 (arr_get_Ret bf (i / 8) b)) by (split; [lia|done]). cbn [obind].
  rewrite Hb, Z.land_comm, testbit_land_pow2 by lia. by destruct (Z.testbit _ _).
Qed.

(** Far out of range the guard works ... *)
Lemma bit_far count bf i : 8 * (count + 1) ≤ i → bitfield_bit bf count i = Ret 0.
Proof.
  intros Hi. unfold bitfield_bit. destruct (Z.lt_ge_cases i 0).
  - rewrite Z.shiftr_div_pow2 by lia. change (2 ^ 3) with 8.
    by destruct (Z.gtb_spec (i / 8) count); [|lia].
  - destruct (index_split i) as [-> _]; [lia|].
    by destruct (Z.gtb_spec (i / 8) count); [|lia].
Qed.

End Bitfield.
