(* ===== verification/Mmu.v ===== *)
(** * The MMU tables: [kernel/hardware/mmu.c] and [mmu.h]

    A level 1 translation table is an array of 4096 words; word [i] says how the
    virtual megabyte [i] (a "section") is mapped. *)
From S2P Require Import Prelude.

Module Mmu.

(** ** Constants of [mmu.h] *)

Definition MMU_L1_ENTRY_COUNT : Z := 0x1000.
Definition MMU_L1_TYPE_MASK : Z := 0x03.
Definition MMU_L1_TYPE_SECTION : Z := 0x02.
Definition MMU_L1_SECTION_AP_MASK : Z := 0x00000C00.
Definition MMU_L1_SECTION_AP_KERNEL_RW_USER_NONE : Z := 0x00000400.
Definition MMU_L1_SECTION_AP_KERNEL_RW_USER_RW : Z := 0x00000C00.
Definition MMU_SECTION_SIZE : Z := 0x00100000.

(** ** The code *)

Definition mmu_translate_virtual_address (translation_table : list Z)
    (virtual_address : Z) : outcome Z :=
  if virtual_address =? 0 then Ret 0
  else
    let section_index := Z.shiftr virtual_address 20 in
    let? translation := arr_get translation_table section_index in
    if negb (Z.land translation MMU_L1_TYPE_MASK =? MMU_L1_TYPE_SECTION) then
      Fatal "mmu: translation: invalid L1 type"
    else
      let mem_protection := Z.land translation MMU_L1_SECTION_AP_MASK in
      if negb (mem_protection =? MMU_L1_SECTION_AP_KERNEL_RW_USER_RW) then
        Fatal "mmu: translation: unauthorized access"
      else
        let section_address := Z.land translation 0xFFF00000 in
        let section_offset := Z.land virtual_address 0xFFFFF in
        Ret (Z.lor section_address section_offset).

(** The loop of [translation_table_add_identity_mapping]; [section_address] is
    a [uint32_t], so it wraps. *)
Fixpoint identity_loop (fuel : nat) (translation_table : list Z)
    (section_address end_address mem_protection : Z) : outcome (list Z) :=
  if section_address <? end_address then
    match fuel with
    | O => Timeout
    | S fuel =>
        let section_index := Z.shiftr section_address 20 in
        let? translation_table := arr_set translation_table section_index
          (Z.lor (Z.lor section_address mem_protection) MMU_L1_TYPE_SECTION) in
        identity_loop fuel translation_table
          (u32 (section_address + MMU_SECTION_SIZE)) end_address mem_protection
    end
  else Ret translation_table.

(** 4096 turns visit every section once. *)
Definition translation_table_add_identity_mapping (translation_table : list Z)
    (start_address end_address mem_protection : Z) : outcome (list Z) :=
  identity_loop 4096 translation_table start_address end_address mem_protection.

Definition translation_table_add_single_section (translation_table : list Z)
    (memory_section virtual_section_address mem_protection : Z) : outcome (list Z) :=
  let section_address := Z.land memory_section 0xFFF00000 in
  let section_index := Z.shiftr virtual_section_address 20 in
  arr_set translation_table section_index
    (Z.lor (Z.lor section_address mem_protection) MMU_L1_TYPE_SECTION).

(** ** What an entry means *)

Definition section_entry (section prot : Z) : Z :=
  Z.lor (Z.lor section prot) MMU_L1_TYPE_SECTION.

(** User mode may read and write through the entry. *)
Definition user_rw (entry : Z) : bool :=
  (Z.land entry MMU_L1_TYPE_MASK =? MMU_L1_TYPE_SECTION) &&
  (Z.land entry MMU_L1_SECTION_AP_MASK =? MMU_L1_SECTION_AP_KERNEL_RW_USER_RW).

(** [t] gives user mode the section [sec] at virtual section [vsec], and nothing
    else. *)
Definition grants_only (t : list Z) (vsec sec : Z) : Prop :=
  length t = 4096%nat ∧
  t !! Z.to_nat vsec = Some (section_entry sec MMU_L1_SECTION_AP_KERNEL_RW_USER_RW) ∧
  ∀ i e, t !! i = Some e → i ≠ Z.to_nat vsec → user_rw e = false.

(** ** Facts *)

Lemma section_entry_fields sec prot :
  0 ≤ sec < 0x100000000 → sec `mod` 0x100000 = 0 → 0 ≤ prot < 0x1000 → prot `mod` 4 = 0 →
  let e := section_entry sec prot in
  Z.land e MMU_L1_TYPE_MASK = MMU_L1_TYPE_SECTION ∧
  Z.land e MMU_L1_SECTION_AP_MASK = Z.land prot MMU_L1_SECTION_AP_MASK ∧
  Z.land e 0xFFF00000 = sec.
Proof.
  intros Hsec Hal Hprot Hp4. unfold section_entry.
  assert (Z.lor (Z.lor sec prot) MMU_L1_TYPE_SECTION = sec + prot + 2) as ->.
  { rewrite (lor_add sec prot 20) by (simpl; lia).
    unfold MMU_L1_TYPE_SECTION. rewrite (lor_add _ 2 2) by (simpl; lia). done. }
  change MMU_L1_TYPE_MASK with (Z.shiftl (Z.ones 2) 0).
  change MMU_L1_SECTION_AP_MASK with (Z.shiftl (Z.ones 2) 10).
  change 0xFFF00000 with (Z.shiftl (Z.ones 12) 20).
  rewrite !land_field by lia. unfold MMU_L1_TYPE_SECTION.
  change (2 ^ 0) with 1; change (2 ^ 2) with 4; change (2 ^ 10) with 1024;
  change (2 ^ 12) with 4096; change (2 ^ 20) with 0x100000.
  split_and!; lia.
Qed.

Lemma user_rw_kernel_only sec :
  0 ≤ sec < 0x100000000 → sec `mod` 0x100000 = 0 →
  user_rw (section_entry sec MMU_L1_SECTION_AP_KERNEL_RW_USER_NONE) = false.
Proof.
  intros H1 H2. unfold user_rw.
  destruct (section_entry_fields sec MMU_L1_SECTION_AP_KERNEL_RW_USER_NONE)
    as (-> & -> & _); unfold MMU_L1_SECTION_AP_KERNEL_RW_USER_NONE; done || lia.
Qed.

Lemma user_rw_user sec :
  0 ≤ sec < 0x100000000 → sec `mod` 0x100000 = 0 →
  user_rw (section_entry sec MMU_L1_SECTION_AP_KERNEL_RW_USER_RW) = true.
Proof.
  intros H1 H2. unfold user_rw.
  destruct (section_entry_fields sec MMU_L1_SECTION_AP_KERNEL_RW_USER_RW)
    as (-> & -> & _); unfold MMU_L1_SECTION_AP_KERNEL_RW_USER_RW; done || lia.
Qed.

Lemma vaddr_split va :
  0 ≤ va → Z.shiftr va 20 = va / 0x100000 ∧ Z.land va 0xFFFFF = va `mod` 0x100000.
Proof.
  intros. split; [by rewrite Z.shiftr_div_pow2 by lia|].
  change 0xFFFFF with (Z.ones 20). by rewrite Z.land_ones by lia.
Qed.

(** Translation through an entry that gives user mode the section [sec]. *)
Lemma translate_hit t va sec :
  0 < va → 0 ≤ sec < 0x100000000 → sec `mod` 0x100000 = 0 →
  t !! Z.to_nat (va / 0x100000) =
    Some (section_entry sec MMU_L1_SECTION_AP_KERNEL_RW_USER_RW) →
  mmu_translate_virtual_address t va = Ret (sec + va `mod` 0x100000).
Proof.
  intros Hva Hsec Hal Ht. unfold mmu_translate_virtual_address.
  destruct (Z.eqb_spec va 0); [lia|]. destruct (vaddr_split va) as [-> ->]; [lia|].
  rewrite (arr_get_lookup t (va / 0x100000) _ ltac:(lia) Ht). cbn [obind].
  destruct (section_entry_fields sec MMU_L1_SECTION_AP_KERNEL_RW_USER_RW)
    as (-> & -> & ->); [done..|]. simpl negb. cbv iota.
  f_equal. apply (lor_add _ _ 20); [lia|done|simpl; lia].
Qed.

(** Translation through any other entry is refused. *)
Lemma translate_miss t va e :
  0 < va → t !! Z.to_nat (va / 0x100000) = Some e → user_rw e = false →
  ∃ r, mmu_translate_virtual_address t va = Fatal r.
Proof.
  intros Hva Ht He. unfold mmu_translate_virtual_address.
  destruct (Z.eqb_spec va 0); [lia|]. destruct (vaddr_split va) as [-> _]; [lia|].
  rewrite (arr_get_lookup t (va / 0x100000) _ ltac:(lia) Ht). cbn [obind].
  unfold user_rw in He. destruct (Z.land e MMU_L1_TYPE_MASK =? _); simpl in *; [|eauto].
  rewrite He. simpl. eauto.
Qed.

Lemma single_section_spec t sec va prot :
  0 ≤ va < 0x100000000 → length t = 4096%nat → 0 ≤ sec < 0x100000000 →
  sec `mod` 0x100000 = 0 →
  translation_table_add_single_section t sec va prot =
    Ret (<[Z.to_nat (va / 0x100000) := section_entry sec prot]> t).
Proof.
  intros Hva Hlen Hsec Hal. unfold translation_table_add_single_section.
  destruct (vaddr_split va) as [-> _]; [lia|].
  change 0xFFF00000 with (Z.shiftl (Z.ones 12) 20). rewrite land_field by lia.
  change (2 ^ 12) with 4096; change (2 ^ 20) with 0x100000.
  replace ((sec / 0x100000) `mod` 4096 * 0x100000) with sec by lia.
  apply arr_set_Ret. lia.
Qed.

Lemma identity_loop_spec fuel t a e prot :
  length t = 4096%nat → 0 ≤ a → e ≤ 0xFFF00000 →
  (e - a + 0xFFFFF) / 0x100000 ≤ Z.of_nat fuel → a `mod` 0x100000 = 0 →
  ∃ t', identity_loop fuel t a e prot = Ret t' ∧ length t' = 4096%nat ∧
    ∀ i, t' !! i =
      if decide (a ≤ Z.of_nat i * 0x100000 < e)
      then Some (section_entry (Z.of_nat i * 0x100000) prot) else t !! i.
Proof.
  revert t a. induction fuel as [|fuel IH]; intros t a Hlen Ha He Hfuel Hal; cbn [identity_loop].
  - destruct (Z.ltb_spec a e); [lia|]. exists t. split; [done|]. split; [done|].
    intros i. rewrite decide_False by lia. done.
  - destruct (Z.ltb_spec a e).
    2: { exists t. split; [done|]. split; [done|].
         intros i. rewrite decide_False by lia. done. }
    destruct (vaddr_split a) as [-> _]; [lia|]. rewrite arr_set_Ret by lia. cbn [obind].
    unfold MMU_SECTION_SIZE. rewrite u32_small by lia.
    destruct (IH (<[Z.to_nat (a / 0x100000) := section_entry a prot]> t) (a + 0x100000))
      as (t' & Ht' & Hlen' & Hlook); [by rewrite length_insert|lia..|].
    exists t'. split; [done|]. split; [done|]. intros i. rewrite Hlook.
    destruct (decide (i = Z.to_nat (a / 0x100000))) as [->|Hne].
    + rewrite decide_False by lia. rewrite decide_True by lia.
      rewrite list_lookup_insert_eq by lia. do 2 f_equal. lia.
    + rewrite list_lookup_insert_ne by done. repeat case_decide; done || lia.
Qed.

(** Mapping [[start, end)] on itself: those entries and no others change. *)
Lemma identity_mapping_spec t start end_ prot :
  length t = 4096%nat → 0 ≤ start → start `mod` 0x100000 = 0 → end_ ≤ 0xFFF00000 →
  ∃ t', translation_table_add_identity_mapping t start end_ prot = Ret t' ∧
    length t' = 4096%nat ∧
    ∀ i, t' !! i =
      if decide (start ≤ Z.of_nat i * 0x100000 < end_)
      then Some (section_entry (Z.of_nat i * 0x100000) prot) else t !! i.
Proof. intros. apply identity_loop_spec; done || lia. Qed.

Lemma identity_loop_diverges fuel t a e prot :
  length t = 4096%nat → 0 ≤ a < 0x100000000 → 0xFFF00000 < e → a `mod` 0x100000 = 0 →
  identity_loop fuel t a e prot = Timeout.
Proof.
  revert t a. induction fuel as [|fuel IH]; intros t a Hlen Ha He Hal; cbn [identity_loop];
    destruct (Z.ltb_spec a e); try lia; [done|].
  destruct (vaddr_split a) as [-> _]; [lia|]. rewrite arr_set_Ret by lia. cbn [obind].
  apply IH; [by rewrite length_insert|apply u32_range|done|].
  unfold u32, MMU_SECTION_SIZE. lia.
Qed.

(** A table that grants one section translates its addresses, and refuses all
    others (but the null pointer, which is passed through). *)
Lemma grants_only_translate t vsec sec va :
  grants_only t vsec sec → 0 ≤ vsec < 4096 → 0 ≤ va < 0x100000000 →
  0 ≤ sec < 0x100000000 → sec `mod` 0x100000 = 0 →
  if decide (va = 0) then mmu_translate_virtual_address t va = Ret 0
  else if decide (va / 0x100000 = vsec)
  then mmu_translate_virtual_address t va = Ret (sec + va `mod` 0x100000)
  else ∃ r, mmu_translate_virtual_address t va = Fatal r.
Proof.
  intros (Hlen & Hsec & Hothers) Hv Hva Hs Hal. case_decide; [by subst|]. case_decide.
  - subst. apply translate_hit; done || lia.
  - destruct (lookup_lt_is_Some_2 t (Z.to_nat (va / 0x100000))) as [e He]; [lia|].
    apply (translate_miss t va e); [lia|done|]. eapply Hothers; [done|lia].
Qed.

(** Patching the granted entry moves the grant to another section. *)
Lemma grants_only_patch t vsec sec sec' :
  grants_only t vsec sec → 0 ≤ vsec < 4096 →
  grants_only (<[Z.to_nat vsec := section_entry sec' MMU_L1_SECTION_AP_KERNEL_RW_USER_RW]> t)
    vsec sec'.
Proof.
  intros (Hlen & Hsec & Hothers) Hv. split; [by rewrite length_insert|].
  split; [by rewrite list_lookup_insert_eq by lia|].
  intros i e Hi Hne. rewrite list_lookup_insert_ne in Hi by done. by eapply Hothers.
Qed.

(** [translation_table_add_identity_mapping] makes every section from
    [start] on that begins below [end] map to itself with the protection, and
    leaves the other entries alone, as long as [end] is not in the last megabyte;
    beyond that it never returns, since [section_address] wraps around. *)
Theorem identity_mapping_correct t start end_ prot :
  length t = 4096%nat → 0 ≤ start < 0x100000000 → start `mod` 0x100000 = 0 →
  (end_ ≤ 0xFFF00000 →
   ∃ t', translation_table_add_identity_mapping t start end_ prot = Ret t' ∧
     length t' = 4096%nat ∧
     ∀ i, t' !! i =
       if decide (start ≤ Z.of_nat i * 0x100000 < end_)
       then Some (section_entry (Z.of_nat i * 0x100000) prot) else t !! i) ∧
  (0xFFF00000 < end_ → ∀ fuel, identity_loop fuel t start end_ prot = Timeout).
Proof.
  intros Hlen Hstart Hal. split; intros Hend.
  - apply identity_mapping_spec; done || lia.
  - intros fuel. by apply identity_loop_diverges.
Qed.

Lemma identity_mapping_correct_witness :
  ∃ t', translation_table_add_identity_mapping (replicate 4096 0) 0 0x00800000
          MMU_L1_SECTION_AP_KERNEL_RW_USER_NONE = Ret t' ∧ length t' = 4096%nat.
Proof.
  destruct (identity_mapping_correct (replicate 4096 0) 0 0x00800000
    MMU_L1_SECTION_AP_KERNEL_RW_USER_NONE (length_replicate _ _) ltac:(lia) eq_refl)
    as [H _].
  destruct (H ltac:(lia)) as (t' & E & Hlen & _). exists t'. auto.
Defined.

End Mmu.
