(* ===== verification/Alloc.v ===== *)
(** * Section and translation table allocators

    [kernel/memory/section_allocator.c] hands out megabyte sections and
    [kernel/memory/translation_table_allocator.c] hands out level 1 tables; both
    keep a bit field of 64 slots.  What they promise to the scheduler and to the
    VFS is the class [SlotAllocator]. *)
From S2P Require Import Prelude Bitfield Mmu.

(** ** The contract of a slot allocator *)

Class SlotAllocator (S : Type) : Type := {
  slot_alloc : M S Z;
  slot_free : Z → M S unit;
  slot_inv : S → Prop;
  slot_owned : S → Z → bool;
  (** an allocation returns a pointer that was not handed out, or NULL when
      every slot is; it hands out nothing else *)
  slot_alloc_ok s : slot_inv s →
    ∃ p s', slot_alloc s = Ret (p, s') ∧ slot_inv s' ∧
      ((p = 0 ∧ ∀ q, slot_owned s' q = slot_owned s q) ∨
       (p ≠ 0 ∧ slot_owned s p = false ∧
        ∀ q, slot_owned s' q = slot_owned s q || (q =? p)));
  (** freeing a pointer that was handed out takes back that one only *)
  slot_free_ok s p : slot_inv s → slot_owned s p = true →
    ∃ s', slot_free p s = Ret ((), s') ∧ slot_inv s' ∧
      ∀ q, slot_owned s' q = slot_owned s q && negb (q =? p);
  (** NULL is never handed out *)
  slot_null s : slot_inv s → slot_owned s 0 = false;
}.

(** ** Slots of [size] bytes from [base] on *)

Module Slots.
Section slots.
Context (base size count : Z).

Definition owned (bf : list Z) (p : Z) : bool :=
  (base <=? p) && ((p - base) `mod` size =? 0) && Bitfield.used bf ((p - base) / size).

Hypothesis Hbase : 0 < base.
Hypothesis Hsize : 0 < size.

Lemma owned_slot bf i : 0 ≤ i → owned bf (base + i * size) = Bitfield.used bf i.
Proof.
  intros Hi. unfold owned. replace (base + i * size - base) with (i * size) by lia.
  rewrite Z.mod_mul, Z.div_mul by lia.
  destruct (Z.leb_spec base (base + i * size)); [done|nia].
Qed.

Lemma owned_inv bf p :
  Bitfield.wf count bf → owned bf p = true →
  ∃ i, 0 ≤ i < 8 * count ∧ p = base + i * size ∧ Bitfield.used bf i = true.
Proof.
  intros Hwf H. unfold owned in H. apply andb_prop in H as [H Hused].
  apply andb_prop in H as [Hb Hm]. apply Z.leb_le in Hb. apply Z.eqb_eq in Hm.
  exists ((p - base) / size). pose proof (Z.div_mod (p - base) size ltac:(lia)) as Hd.
  assert (0 ≤ (p - base) / size) by (apply Z.div_pos; lia).
  split_and!; [done| |lia|done].
  destruct (Z.lt_ge_cases ((p - base) / size) (8 * count)); [done|].
  by rewrite (Bitfield.used_out_of_range count) in Hused by done.
Qed.

(** A change of bit [i] of the field is a change of slot [base + i * size]. *)
Lemma owned_ext bf bf' (f : bool → bool → bool) i :
  0 ≤ i → (∀ b, f b false = b) → (∀ j, 0 ≤ j → Bitfield.used bf' j = f (Bitfield.used bf j) (j =? i)) →
  ∀ q, owned bf' q = if q =? base + i * size then f (owned bf q) true else owned bf q.
Proof.
  intros Hi Hf Hbits q. unfold owned.
  destruct (Z.leb_spec base q); simpl.
  2: { destruct (Z.eqb_spec q (base + i * size)); [nia|done]. }
  destruct (Z.eqb_spec ((q - base) `mod` size) 0) as [Hm|Hm]; simpl.
  - rewrite Hbits by (apply Z.div_pos; lia).
    pose proof (Z.div_mod (q - base) size ltac:(lia)) as Hd.
    destruct (Z.eqb_spec ((q - base) / size) i), (Z.eqb_spec q (base + i * size));
      try done; nia || (exfalso; subst; apply n; rewrite Z.add_simpl_l, Z.div_mul; lia).
  - destruct (Z.eqb_spec q (base + i * size)) as [->|]; [|done].
    exfalso. apply Hm. rewrite Z.add_simpl_l, Z.mod_mul; lia.
Qed.

(** Acquiring a bit hands out its slot. *)
Lemma owned_acquire bf bf' i :
  0 ≤ i → (∀ j, 0 ≤ j → Bitfield.used bf' j = Bitfield.used bf j || (j =? i)) →
  ∀ q, owned bf' q = owned bf q || (q =? base + i * size).
Proof.
  intros Hi H q.
  rewrite (owned_ext bf bf' orb i) by (done || by intros []).
  destruct (Z.eqb_spec q (base + i * size)); by rewrite ?orb_true_r, ?orb_false_r.
Qed.

(** Clearing a bit takes back its slot. *)
Lemma owned_clear bf bf' i :
  0 ≤ i → (∀ j, 0 ≤ j → Bitfield.used bf' j = Bitfield.used bf j && negb (j =? i)) →
  ∀ q, owned bf' q = owned bf q && negb (q =? base + i * size).
Proof.
  intros Hi H q.
  rewrite (owned_ext bf bf' (λ b e, b && negb e) i) by (done || by intros []).
  destruct (Z.eqb_spec q (base + i * size)); simpl; by rewrite ?andb_true_r, ?andb_false_r.
Qed.

(** Below the base nothing is handed out. *)
Lemma owned_null bf : owned bf 0 = false.
Proof using Hbase. clear Hsize. unfold owned. destruct (Z.leb_spec base 0); [lia|done]. Qed.

End slots.
End Slots.

(** ** [section_allocator.c] *)

Module SectionAllocator.

Definition SECTION_ALLOCATOR_BITFIELD_COUNT : Z := 8.

Record section_allocator_t : Type := mk {
  alloc_bitfields : list Z;
  sections_base : Z;
}.

(** [memset] to zero, then the base *)
Definition section_allocator_init (sections_base : Z) : section_allocator_t :=
  mk (replicate (Z.to_nat SECTION_ALLOCATOR_BITFIELD_COUNT) 0) sections_base.

Definition section_allocator_alloc : M section_allocator_t Z := λ s,
  let? (section_index, bf) :=
    Bitfield.bitfield_acquire_first (alloc_bitfields s) SECTION_ALLOCATOR_BITFIELD_COUNT in
  let s := mk bf (sections_base s) in
  if section_index <? 0 then Ret (0, s)
  else
    let section := u32 (sections_base s + section_index * Mmu.MMU_SECTION_SIZE) in
    Ret (section, s).

Definition section_allocator_free (section : Z) : M section_allocator_t unit := λ s,
  let address := section in
  let section_offset := u32 (address - sections_base s) in
  let section_index := Z.shiftr section_offset 20 in
  let? bf := Bitfield.bitfield_clear (alloc_bitfields s)
               SECTION_ALLOCATOR_BITFIELD_COUNT section_index in
  Ret ((), mk bf (sections_base s)).

(** The base is above NULL and the 64 sections lie below 4 GiB. *)
Definition inv (s : section_allocator_t) : Prop :=
  Bitfield.wf 8 (alloc_bitfields s) ∧
  0 < sections_base s ∧ sections_base s + 64 * 0x100000 ≤ 0x100000000 ∧
  sections_base s `mod` 0x100000 = 0.

Definition owned (s : section_allocator_t) (p : Z) : bool :=
  Slots.owned (sections_base s) Mmu.MMU_SECTION_SIZE (alloc_bitfields s) p.

Lemma init_inv base :
  0 < base → base + 64 * 0x100000 ≤ 0x100000000 → base `mod` 0x100000 = 0 →
  inv (section_allocator_init base) ∧ ∀ p, owned (section_allocator_init base) p = false.
Proof.
  intros. split.
  - split_and!; try done. split_and!; [done|done|]. apply Forall_replicate. done.
  - intros p. unfold owned, Slots.owned, Bitfield.used. simpl.
    apply andb_false_intro2.
    destruct (_ !! _) as [b|] eqn:E; [|done].
    apply (lookup_replicate_1 8 0) in E as [-> _]. apply Z.bits_0.
Qed.

Lemma owned_section s p :
  inv s → owned s p = true →
  p `mod` 0x100000 = 0 ∧ sections_base s ≤ p < sections_base s + 64 * 0x100000.
Proof.
  intros (Hwf & H0 & Hb & Hm) Ho.
  destruct (Slots.owned_inv (sections_base s) Mmu.MMU_SECTION_SIZE 8 ltac:(done) _ _ Hwf Ho)
    as (i & Hi & -> & _).
  unfold Mmu.MMU_SECTION_SIZE. lia.
Qed.

Lemma section_alloc_ok s : inv s →
  ∃ p s', section_allocator_alloc s = Ret (p, s') ∧ inv s' ∧
    ((p = 0 ∧ ∀ q, owned s' q = owned s q) ∨
     (p ≠ 0 ∧ owned s p = false ∧ ∀ q, owned s' q = owned s q || (q =? p))).
Proof.
  intros (Hwf & H0 & Hb & Hm). unfold section_allocator_alloc.
  destruct (Bitfield.acquire_spec 8 (alloc_bitfields s) Hwf)
    as (i & bf & Hacq & Hwf' & Hpost).
  unfold SECTION_ALLOCATOR_BITFIELD_COUNT. rewrite Hacq. cbn [obind sections_base].
  destruct Hpost as [(-> & -> & _)|(Hi & Hfree & _ & Hset)].
  - simpl. do 2 eexists. split; [done|]. split; [done|]. by left.
  - destruct (Z.ltb_spec i 0); [lia|].
    unfold Mmu.MMU_SECTION_SIZE. rewrite u32_small by lia.
    do 2 eexists. split; [done|]. split; [done|]. right.
    split; [lia|]. split.
    + unfold owned, Mmu.MMU_SECTION_SIZE. rewrite Slots.owned_slot by lia. done.
    + intros q. unfold owned. simpl. by apply Slots.owned_acquire; [|lia|].
Qed.

Lemma section_free_ok s p : inv s → owned s p = true →
  ∃ s', section_allocator_free p s = Ret ((), s') ∧ inv s' ∧
    ∀ q, owned s' q = owned s q && negb (q =? p).
Proof.
  intros (Hwf & H0 & Hb & Hm) Ho.
  destruct (Slots.owned_inv (sections_base s) Mmu.MMU_SECTION_SIZE 8 ltac:(done) _ _ Hwf Ho)
    as (i & Hi & -> & _).
  unfold section_allocator_free, Mmu.MMU_SECTION_SIZE.
  rewrite Z.add_simpl_l, u32_small by lia. rewrite Z.shiftr_div_pow2 by lia.
  change (2 ^ 20) with 0x100000. rewrite Z.div_mul by done.
  destruct (Bitfield.clear_spec 8 (alloc_bitfields s) i Hwf Hi) as (bf & Hcl & Hwf' & Hbits).
  unfold SECTION_ALLOCATOR_BITFIELD_COUNT. rewrite Hcl. cbn [obind].
  eexists. split; [done|]. split; [done|].
  intros q. unfold owned. simpl. by apply Slots.owned_clear; [|lia|].
Qed.

Lemma section_null_ok s : inv s → owned s 0 = false.
Proof. intros (_ & ? & _). by apply Slots.owned_null. Qed.

(** A section allocation that fails means that all 64 sections are handed
    out; one that succeeds gives the lowest free section, aligned, in range and not
    handed out before; freeing it gives the allocator's state back. *)
Theorem alloc_free_roundtrip s : inv s →
  (section_allocator_alloc s = Ret (0, s) ∧
     ∀ i, 0 ≤ i < 64 → owned s (sections_base s + i * 0x100000) = true) ∨
  ∃ p s' s'', section_allocator_alloc s = Ret (p, s') ∧ inv s' ∧
    p `mod` 0x100000 = 0 ∧ sections_base s ≤ p < sections_base s + 64 * 0x100000 ∧
    owned s p = false ∧ owned s' p = true ∧
    (∀ q, sections_base s ≤ q < p → q `mod` 0x100000 = 0 → owned s q = true) ∧
    section_allocator_free p s' = Ret ((), s'') ∧ inv s'' ∧ ∀ q, owned s'' q = owned s q.
Proof.
  intros Hinv. pose proof Hinv as (Hwf & H0 & Hb & Hm).
  destruct (Bitfield.acquire_spec 8 (alloc_bitfields s) Hwf)
    as (i & bf & Hacq & Hwf' & Hpost).
  assert (section_allocator_alloc s =
    let s' := mk bf (sections_base s) in
    if i <? 0 then Ret (0, s')
    else Ret (u32 (sections_base s + i * Mmu.MMU_SECTION_SIZE), s')) as E.
  { unfold section_allocator_alloc, SECTION_ALLOCATOR_BITFIELD_COUNT. rewrite Hacq. simpl.
    by destruct (i <? 0). }
  destruct (section_alloc_ok s Hinv) as (p & s' & Ea & Hinv' & _). rewrite E in Ea.
  destruct Hpost as [(-> & -> & Hfull)|(Hi & Hfree & Hlow & Hset)].
  - left. split; [rewrite E; by destruct s|]. intros i Hi. unfold owned, Mmu.MMU_SECTION_SIZE.
    rewrite Slots.owned_slot by lia. apply Hfull. lia.
  - right. simpl in Ea. destruct (Z.ltb_spec i 0); [lia|]. rewrite E. simpl.
    destruct (Z.ltb_spec i 0); [lia|]. unfold Mmu.MMU_SECTION_SIZE in *.
    rewrite u32_small in Ea |- * by lia. injection Ea as <- <-.
    assert (∀ q, owned (mk bf (sections_base s)) q =
      owned s q || (q =? sections_base s + i * 0x100000)) as Hown.
    { intros q. unfold owned. simpl. by apply Slots.owned_acquire; [|lia|]. }
    assert (owned s (sections_base s + i * 0x100000) = false) as Hfr.
    { unfold owned, Mmu.MMU_SECTION_SIZE. by rewrite Slots.owned_slot by lia. }
    assert (owned (mk bf (sections_base s)) (sections_base s + i * 0x100000) = true) as Htaken.
    { by rewrite Hown, Z.eqb_refl, orb_true_r. }
    destruct (section_free_ok _ _ Hinv' Htaken) as (s2 & Ef & Hinv2 & Hown2).
    exists (sections_base s + i * 0x100000), (mk bf (sections_base s)), s2.
    split_and!; try done; try lia.
    + intros q Hq Hqm. replace q with (sections_base s + (q - sections_base s) / 0x100000 * 0x100000) by lia.
      unfold owned, Mmu.MMU_SECTION_SIZE. rewrite Slots.owned_slot by lia. apply Hlow. lia.
    + intros q. rewrite Hown2, Hown.
      destruct (Z.eqb_spec q (sections_base s + i * 0x100000)) as [->|]; simpl.
      * by rewrite Hfr.
      * by rewrite orb_false_r, andb_true_r.
Qed.

Lemma alloc_free_roundtrip_witness :
  ∃ p s', section_allocator_alloc (section_allocator_init 0x01000000) = Ret (p, s') ∧ inv s' ∧
    p `mod` 0x100000 = 0.
Proof.
  assert (inv (section_allocator_init 0x01000000)) as H by (apply init_inv; done || lia).
  destruct (alloc_free_roundtrip _ H) as [[E _]|(p & s' & _ & E & Hinv & Hm & _)].
  - vm_compute in E. discriminate.
  - exists p, s'. auto.
Defined.

#[global] Instance section_slots : SlotAllocator section_allocator_t := {
  slot_alloc := section_allocator_alloc;
  slot_free := section_allocator_free;
  slot_inv := inv;
  slot_owned := owned;
  slot_alloc_ok := section_alloc_ok;
  slot_free_ok := section_free_ok;
  slot_null := section_null_ok;
}.

End SectionAllocator.

(** ** [translation_table_allocator.c] *)

Module TranslationTableAllocator.

Definition TRANSLATION_TABLE_ALLOCATOR_BITFIELD_COUNT : Z := 8.

(** [tables] is the memory the allocator manages: the 4096 words of each table,
    by address.  [memory_section_base] is a [uint32_t *], so an offset of one
    is four bytes. *)
Record translation_table_allocator_t : Type := mk {
  alloc_bitfields : list Z;
  memory_section_base : Z;
  tables : gmap Z (list Z);
}.

Definition translation_table_allocator_init (memory_section : Z)
    (tables : gmap Z (list Z)) : translation_table_allocator_t :=
  mk (replicate (Z.to_nat TRANSLATION_TABLE_ALLOCATOR_BITFIELD_COUNT) 0)
     memory_section tables.

Definition zero_table : list Z := replicate (Z.to_nat Mmu.MMU_L1_ENTRY_COUNT) 0.

Lemma length_zero_table : length zero_table = 4096%nat.
Proof. exact (length_replicate _ _). Qed.

Definition translation_table_allocator_alloc : M translation_table_allocator_t Z := λ s,
  let? (table_index, bf) :=
    Bitfield.bitfield_acquire_first (alloc_bitfields s)
      TRANSLATION_TABLE_ALLOCATOR_BITFIELD_COUNT in
  if table_index <? 0 then Ret (0, mk bf (memory_section_base s) (tables s))
  else
    let translation_table :=
      u32 (memory_section_base s + 4 * (table_index * Mmu.MMU_L1_ENTRY_COUNT)) in
    Ret (translation_table,
         mk bf (memory_section_base s) (<[translation_table := zero_table]> (tables s))).

Definition translation_table_allocator_free (translation_table : Z)
    : M translation_table_allocator_t unit := λ s,
  let table_offset := u32 ((translation_table - memory_section_base s) / 4) in
  let table_index := table_offset / Mmu.MMU_L1_ENTRY_COUNT in
  let? bf := Bitfield.bitfield_clear (alloc_bitfields s)
               TRANSLATION_TABLE_ALLOCATOR_BITFIELD_COUNT table_index in
  Ret ((), mk bf (memory_section_base s) (tables s)).

Definition TABLE_SIZE : Z := 4 * Mmu.MMU_L1_ENTRY_COUNT.

Definition owned (s : translation_table_allocator_t) (p : Z) : bool :=
  Slots.owned (memory_section_base s) TABLE_SIZE (alloc_bitfields s) p.

(** The 64 tables of 16 KiB lie in one megabyte, below 4 GiB and above NULL;
    the tables handed out have 4096 entries. *)
Definition inv (s : translation_table_allocator_t) : Prop :=
  Bitfield.wf 8 (alloc_bitfields s) ∧
  0 < memory_section_base s ∧ memory_section_base s + 0x100000 ≤ 0x100000000 ∧
  ∀ p, owned s p = true → ∃ t, tables s !! p = Some t ∧ length t = 4096%nat.

Lemma owned_table s p : inv s → owned s p = true →
  ∃ i, 0 ≤ i < 64 ∧ p = memory_section_base s + i * TABLE_SIZE.
Proof.
  intros (Hwf & H0 & _) Ho.
  destruct (Slots.owned_inv (memory_section_base s) TABLE_SIZE 8 ltac:(done) _ _ Hwf Ho)
    as (i & ? & ? & _). eauto.
Qed.

Lemma table_alloc_ok s : inv s →
  ∃ p s', translation_table_allocator_alloc s = Ret (p, s') ∧ inv s' ∧
    ((p = 0 ∧ ∀ q, owned s' q = owned s q) ∨
     (p ≠ 0 ∧ owned s p = false ∧ ∀ q, owned s' q = owned s q || (q =? p))).
Proof.
  intros (Hwf & H0 & Hb & Htab). unfold translation_table_allocator_alloc.
  destruct (Bitfield.acquire_spec 8 (alloc_bitfields s) Hwf)
    as (i & bf & Hacq & Hwf' & Hpost).
  unfold TRANSLATION_TABLE_ALLOCATOR_BITFIELD_COUNT. rewrite Hacq. cbn [obind].
  destruct Hpost as [(-> & -> & _)|(Hi & Hfree & _ & Hset)].
  - simpl. do 2 eexists. split; [done|]. split; [done|]. by left.
  - destruct (Z.ltb_spec i 0); [lia|].
    unfold Mmu.MMU_L1_ENTRY_COUNT. rewrite u32_small by lia.
    replace (4 * (i * 0x1000)) with (i * TABLE_SIZE)
      by (unfold TABLE_SIZE, Mmu.MMU_L1_ENTRY_COUNT; lia).
    assert (∀ q, owned (mk bf (memory_section_base s)
        (<[memory_section_base s + i * TABLE_SIZE := zero_table]> (tables s))) q =
      owned s q || (q =? memory_section_base s + i * TABLE_SIZE)) as Hown.
    { intros q. unfold owned. simpl. by apply Slots.owned_acquire; [|lia|]. }
    do 2 eexists. split; [done|]. split.
    + split_and!; try done. intros p Hp. simpl. destruct (decide (p = memory_section_base s + i * TABLE_SIZE)) as [->|Hne].
      * exists zero_table. by rewrite lookup_insert_eq.
      * rewrite lookup_insert_ne by done. apply Htab. rewrite Hown in Hp.
        destruct (Z.eqb_spec p (memory_section_base s + i * TABLE_SIZE)); [done|].
        by rewrite orb_false_r in Hp.
    + right. split; [unfold TABLE_SIZE, Mmu.MMU_L1_ENTRY_COUNT; lia|]. split; [|done].
      unfold owned. rewrite Slots.owned_slot by (done || lia). done.
Qed.

Lemma table_free_ok s p : inv s → owned s p = true →
  ∃ s', translation_table_allocator_free p s = Ret ((), s') ∧ inv s' ∧
    ∀ q, owned s' q = owned s q && negb (q =? p).
Proof.
  intros Hinv Ho. destruct (owned_table s p Hinv Ho) as (i & Hi & ->).
  destruct Hinv as (Hwf & H0 & Hb & Htab).
  unfold translation_table_allocator_free. rewrite Z.add_simpl_l.
  replace (u32 (i * TABLE_SIZE / 4) / Mmu.MMU_L1_ENTRY_COUNT) with i
    by (unfold u32, TABLE_SIZE, Mmu.MMU_L1_ENTRY_COUNT; lia).
  destruct (Bitfield.clear_spec 8 (alloc_bitfields s) i Hwf Hi) as (bf & Hcl & Hwf' & Hbits).
  unfold TRANSLATION_TABLE_ALLOCATOR_BITFIELD_COUNT. rewrite Hcl. cbn [obind].
  assert (∀ q, owned (mk bf (memory_section_base s) (tables s)) q =
    owned s q && negb (q =? memory_section_base s + i * TABLE_SIZE)) as Hown.
  { intros q. unfold owned. simpl. by apply Slots.owned_clear; [|lia|]. }
  eexists. split; [done|]. split; [|done]. split_and!; try done.
  intros q Hq. apply Htab. rewrite Hown in Hq. by apply andb_prop in Hq as [? _].
Qed.

Lemma table_null_ok s : inv s → owned s 0 = false.
Proof. intros (_ & ? & _). by apply Slots.owned_null. Qed.

(** A new translation table has 4096 null entries, through which user mode
    reaches nothing; the tables handed out before keep their entries. *)
Theorem alloc_zeroed s : inv s →
  ∃ p s', translation_table_allocator_alloc s = Ret (p, s') ∧ inv s' ∧
    (∀ q, owned s q = true → owned s' q = true ∧ tables s' !! q = tables s !! q) ∧
    (p ≠ 0 → owned s p = false ∧ owned s' p = true ∧
       ∃ t, tables s' !! p = Some t ∧ length t = 4096%nat ∧
         ∀ i e, t !! i = Some e → e = 0 ∧ Mmu.user_rw e = false).
Proof.
  intros Hinv. destruct (table_alloc_ok s Hinv) as (p & s' & E & Hinv' & Hcases).
  exists p, s'. split; [done|]. split; [done|].
  pose proof Hinv as (Hwf & H0 & Hb & _).
  destruct (Bitfield.acquire_spec 8 (alloc_bitfields s) Hwf) as (i & bf & Hacq & _ & Hpost).
  unfold translation_table_allocator_alloc, TRANSLATION_TABLE_ALLOCATOR_BITFIELD_COUNT in E.
  rewrite Hacq in E. cbn [obind] in E. destruct (Z.ltb_spec i 0) as [Hneg|Hpos].
  - injection E as <- <-. split; [|done]. intros q Hq. split; [|done].
    destruct Hcases as [[_ Hown]|[? _]]; [by rewrite Hown|done].
  - assert (0 ≤ i < 64) as Hi by (destruct Hpost as [(-> & _)|[? _]]; lia).
    unfold Mmu.MMU_L1_ENTRY_COUNT in E. rewrite u32_small in E by lia.
    injection E as <- <-. set (p := memory_section_base s + 4 * (i * 0x1000)) in *.
    destruct Hcases as [[? _]|(Hp & Hfree & Hown)]; [lia|]. split.
    + intros q Hq. split; [by rewrite Hown, Hq|]. simpl. apply lookup_insert_ne. congruence.
    + intros _. split; [done|]. split; [by rewrite Hown, Z.eqb_refl, orb_true_r|].
      exists zero_table. split; [apply lookup_insert_eq|]. split; [exact length_zero_table|].
      intros j e He. unfold zero_table in He. apply lookup_replicate_1 in He as [-> _]. done.
Qed.

Lemma alloc_zeroed_witness :
  ∃ p s', translation_table_allocator_alloc (translation_table_allocator_init 0x00A00000 ∅)
            = Ret (p, s') ∧ inv s' ∧ owned s' 0x00A00000 = true.
Proof.
  assert (inv (translation_table_allocator_init 0x00A00000 ∅)) as H.
  { split_and!; [split_and!; [done|done|by apply (Forall_replicate is_u8 8 0)]|simpl; lia|simpl; lia|].
    intros p Hp. exfalso. unfold owned, Slots.owned, Bitfield.used in Hp. simpl in Hp.
    apply andb_prop in Hp as [_ Hp]. destruct (_ !! _) as [b|] eqn:E; [|done].
    apply (lookup_replicate_1 8 0) in E as [-> _]. by rewrite Z.bits_0 in Hp. }
  destruct (alloc_zeroed _ H) as (p & s' & E & Hinv & _ & Hp).
  exists p, s'. split; [exact E|]. split; [exact Hinv|].
  assert (p = 0x00A00000) as ->.
  { vm_compute in E. injection E as <- _. reflexivity. }
  apply Hp. discriminate.
Defined.

#[global] Instance table_slots : SlotAllocator translation_table_allocator_t := {
  slot_alloc := translation_table_allocator_alloc;
  slot_free := translation_table_allocator_free;
  slot_inv := inv;
  slot_owned := owned;
  slot_alloc_ok := table_alloc_ok;
  slot_free_ok := table_free_ok;
  slot_null := table_null_ok;
}.

End TranslationTableAllocator.
