(* ===== verification/Heap.v ===== *)
(** * The kernel heap: [kernel/memory/memory_allocator.c]

    A bump allocator in one megabyte section.  A block is a header word (its
    size) followed by its data; [memory_free] does nothing. *)
From S2P Require Import Prelude Mmu Alloc.

Module Heap.

(** [block_size] are the header words, by the address of the block's data;
    [block_data] the bytes of the blocks. *)
Record heap : Type := mk {
  memory_cursor : Z;
  section_end : Z;
  block_size : gmap Z Z;
  block_data : gmap Z (list Z);
}.

Definition SIZEOF_SIZE_T : Z := 4.

(** ** The code *)

Definition memory_allocator_init : M SectionAllocator.section_allocator_t heap :=
  let* section := SectionAllocator.section_allocator_alloc in
  let* _ := kassert (negb (section =? 0))
              "memory allocator: failed to allocate a section" in
  ret (mk section (u32 (section + Mmu.MMU_SECTION_SIZE)) ∅ ∅).

(** [new_cursor] is computed on [uint32_t]. *)
Definition memory_alloc (size : Z) : M heap Z := λ h,
  let new_cursor :=
    Z.land (u32 (memory_cursor h + SIZEOF_SIZE_T + size + 0x3)) 0xFFFFFFFC in
  if new_cursor >? section_end h then Ret (0, h)
  else
    let data := memory_cursor h + SIZEOF_SIZE_T in
    Ret (data, mk new_cursor (section_end h) (<[data := size]> (block_size h))
                  (block_data h)).

(** The [memset] writes [size] bytes from [mem] on: past the end of the heap's
    section there is no object to write to. *)
Definition memory_calloc (size : Z) : M heap Z :=
  let* mem := memory_alloc size in
  if mem =? 0 then ret 0
  else λ h,
    if mem + size <=? section_end h then
      Ret (mem, mk (memory_cursor h) (section_end h) (block_size h)
                  (<[mem := replicate (Z.to_nat size) 0]> (block_data h)))
    else Fault.

(** The [_memcpy] of the old block's bytes over the start of the new one. *)
Definition memory_realloc (mem size : Z) : M heap Z :=
  let* old_size := λ h, deref (block_size h !! mem) h in
  if size <? old_size then ret mem
  else
    let* new_mem := memory_calloc size in
    let* old := λ h, deref (block_data h !! mem) h in
    let* new := λ h, deref (block_data h !! new_mem) h in
    λ h, Ret (new_mem,
              mk (memory_cursor h) (section_end h) (block_size h)
                 (<[new_mem := take (Z.to_nat old_size) old ++
                               drop (Z.to_nat old_size) new]> (block_data h))).

Definition memory_free (ptr : Z) : M heap unit := ret ().

(** ** The heap's invariant *)

Definition disjoint_blocks (p sz q sz' : Z) : Prop :=
  p + sz ≤ q - SIZEOF_SIZE_T ∨ q + sz' ≤ p - SIZEOF_SIZE_T.

Record inv (h : heap) : Prop := {
  inv_cursor : 0 < memory_cursor h ≤ section_end h;
  inv_align : memory_cursor h `mod` 4 = 0;
  inv_end : section_end h < 0x100000000;
  inv_block : ∀ p sz, block_size h !! p = Some sz →
    SIZEOF_SIZE_T < p ∧ 0 ≤ sz ∧ p + sz ≤ memory_cursor h;
  inv_disjoint : ∀ p sz q sz', block_size h !! p = Some sz →
    block_size h !! q = Some sz' → p ≠ q → disjoint_blocks p sz q sz';
  inv_data : ∀ p d, block_data h !! p = Some d →
    block_size h !! p = Some (Z.of_nat (length d));
}.

(** The request does not make the cursor wrap around 2^32. *)
Definition fits_word (h : heap) (size : Z) : Prop :=
  0 ≤ size ∧ memory_cursor h + size + 7 < 0x100000000.

(** ** Facts *)

Lemma align4 x : 0 ≤ x < 0x100000000 → Z.land x 0xFFFFFFFC = x / 4 * 4.
Proof.
  intros. change 0xFFFFFFFC with (Z.shiftl (Z.ones 30) 2). rewrite land_field by lia.
  change (2 ^ 2) with 4. change (2 ^ 30) with 0x40000000. lia.
Qed.

Lemma fresh_block h p sz : inv h → block_size h !! p = Some sz →
  p ≠ memory_cursor h + SIZEOF_SIZE_T.
Proof. intros Hi H ->. apply (inv_block h Hi) in H. unfold SIZEOF_SIZE_T in *. lia. Qed.

(** Adding a block right above the cursor keeps the blocks apart. *)
Lemma inv_push h size c data :
  inv h → fits_word h size →
  memory_cursor h + SIZEOF_SIZE_T + size ≤ c ≤ section_end h → c `mod` 4 = 0 →
  data = block_data h ∨ data = <[memory_cursor h + SIZEOF_SIZE_T :=
                               replicate (Z.to_nat size) 0]> (block_data h) →
  inv (mk c (section_end h)
         (<[memory_cursor h + SIZEOF_SIZE_T := size]> (block_size h)) data).
Proof.
  intros Hi [Hsz Hfit] Hc Hal Hdata. pose proof (inv_cursor h Hi).
  unfold SIZEOF_SIZE_T in *. split; simpl; unfold SIZEOF_SIZE_T in *; [lia|done|by apply inv_end| | |].
  - intros p sz Hp. apply lookup_insert_Some in Hp as [[<- <-]|[? Hp]]; [lia|].
    apply (inv_block h Hi) in Hp. unfold SIZEOF_SIZE_T in *. lia.
  - intros p sz q sz' Hp Hq Hne. unfold disjoint_blocks, SIZEOF_SIZE_T.
    apply lookup_insert_Some in Hp as [[<- <-]|[? Hp]];
      apply lookup_insert_Some in Hq as [[<- <-]|[? Hq]]; [done|..].
    + apply (inv_block h Hi) in Hq. lia.
    + apply (inv_block h Hi) in Hp. lia.
    + by apply (inv_disjoint h Hi).
  - intros p d Hp. destruct (decide (p = memory_cursor h + 4)) as [->|Hne].
    + rewrite lookup_insert_eq. destruct Hdata as [->| ->].
      * apply (inv_data h Hi) in Hp. by destruct (fresh_block h _ _ Hi Hp).
      * rewrite lookup_insert_eq in Hp. simplify_eq. rewrite length_replicate. f_equal. lia.
    + rewrite lookup_insert_ne by done. apply (inv_data h Hi).
      destruct Hdata as [->| ->]; [done|]. by rewrite lookup_insert_ne in Hp.
Qed.

(** What [memory_calloc] does as long as the cursor cannot wrap. *)
Lemma calloc_spec h size :
  inv h → fits_word h size →
  let p := memory_cursor h + SIZEOF_SIZE_T in
  (memory_calloc size h = Ret (0, h) ∧
     section_end h < (memory_cursor h + size + 7) / 4 * 4) ∨
  (∃ h', memory_calloc size h = Ret (p, h') ∧ inv h' ∧ p `mod` 4 = 0 ∧
     block_size h !! p = None ∧
     block_size h' = <[p := size]> (block_size h) ∧
     block_data h' = <[p := replicate (Z.to_nat size) 0]> (block_data h) ∧
     p + size ≤ memory_cursor h' ≤ p + size + 3 ∧ section_end h' = section_end h).
Proof.
  intros Hi Hfit. pose proof Hfit as [Hsz Hw]. pose proof (inv_cursor h Hi).
  pose proof (inv_align h Hi).
  unfold memory_calloc, memory_alloc, bind, SIZEOF_SIZE_T.
  rewrite u32_small, align4 by lia.
  replace (memory_cursor h + 4 + size + 3) with (memory_cursor h + size + 7) by lia.
  destruct (Z.gtb_spec ((memory_cursor h + size + 7) / 4 * 4) (section_end h)); [by left|].
  right. destruct (Z.eqb_spec (memory_cursor h + 4) 0); [lia|]. simpl.
  destruct (Z.leb_spec (memory_cursor h + 4 + size) (section_end h)); [|lia].
  eexists. split; [done|]. split.
  { eapply (inv_push h size); [done|done|unfold SIZEOF_SIZE_T; lia|lia|by right]. }
  split_and!; simpl; try done; try lia.
  destruct (block_size h !! (memory_cursor h + 4)) as [sz|] eqn:E; [|done].
  by destruct (fresh_block h _ _ Hi E).
Qed.

(** What clients that allocate typed objects rely on: the pointer is NULL or new. *)
Lemma calloc_fresh h size :
  inv h → fits_word h size →
  ∃ p h', memory_calloc size h = Ret (p, h') ∧ inv h' ∧
    ((p = 0 ∧ h' = h) ∨
     (0 < p ∧ block_size h !! p = None ∧ block_size h' = <[p := size]> (block_size h) ∧
      block_data h' = <[p := replicate (Z.to_nat size) 0]> (block_data h) ∧
      memory_cursor h' ≤ memory_cursor h + size + 7)).
Proof.
  intros Hi Hfit. pose proof (inv_cursor h Hi).
  destruct (calloc_spec h size Hi Hfit) as [[-> _]|(h' & -> & Hi' & _ & Hnew & Hs & Hd & Hc & _)].
  - exists 0, h. auto.
  - exists (memory_cursor h + SIZEOF_SIZE_T), h'. unfold SIZEOF_SIZE_T in *.
    split; [done|]. split; [done|]. right. split_and!; done || lia.
Qed.

(** Growing a block keeps its bytes, zeroes the rest and moves it to a new
    block, leaving every other block alone. *)
Lemma realloc_grow h mem old size :
  inv h → block_data h !! mem = Some old → fits_word h size →
  Z.of_nat (length old) ≤ size →
  (memory_cursor h + size + 7) / 4 * 4 ≤ section_end h →
  ∃ h', memory_realloc mem size h = Ret (memory_cursor h + SIZEOF_SIZE_T, h') ∧ inv h' ∧
    block_data h' !! (memory_cursor h + SIZEOF_SIZE_T) =
      Some (old ++ replicate (Z.to_nat size - length old) 0) ∧
    (∀ q, q ≠ memory_cursor h + SIZEOF_SIZE_T → block_data h' !! q = block_data h !! q) ∧
    block_size h' = <[memory_cursor h + SIZEOF_SIZE_T := size]> (block_size h).
Proof.
  intros Hi Hold Hfit Hle Hroom.
  pose proof (inv_data h Hi _ _ Hold) as Hsz.
  destruct (calloc_spec h size Hi Hfit) as [[_ ?]|(h1 & E & Hi1 & Hp4 & Hnew & Hs & Hd & Hc & He)];
    [lia|].
  set (p := memory_cursor h + SIZEOF_SIZE_T) in *.
  unfold memory_realloc. rewrite (bind_Ret _ _ _ (Z.of_nat (length old)) h) by (by rewrite Hsz).
  destruct (Z.ltb_spec size (Z.of_nat (length old))); [lia|].
  rewrite (bind_Ret _ _ _ _ _ E).
  assert (mem ≠ p) as Hne by (intros ->; congruence).
  rewrite (bind_Ret _ _ _ old h1) by (by rewrite Hd, lookup_insert_ne, Hold by done).
  rewrite (bind_Ret _ _ _ (replicate (Z.to_nat size) 0) h1)
    by (by rewrite Hd, lookup_insert_eq).
  eexists. split; [done|].
  assert (take (Z.to_nat (Z.of_nat (length old))) old ++
          drop (Z.to_nat (Z.of_nat (length old))) (replicate (Z.to_nat size) 0) =
          old ++ replicate (Z.to_nat size - length old) 0) as ->.
  { by rewrite Nat2Z.id, take_ge, drop_replicate by lia. }
  split; [|split_and!; simpl].
  - destruct Hi1 as [??????]. split; simpl; try done. intros q d Hq.
    apply lookup_insert_Some in Hq as [[<- <-]|[? Hq]]; [|auto].
    rewrite Hs, lookup_insert_eq, length_app, length_replicate. f_equal. lia.
  - by rewrite lookup_insert_eq.
  - intros q Hq. by rewrite lookup_insert_ne, Hd, lookup_insert_ne by done.
  - exact Hs.
Qed.

(** Overwriting the bytes of a block. *)
Lemma inv_set_data h b bytes bytes' :
  inv h → block_data h !! b = Some bytes → length bytes' = length bytes →
  inv (mk (memory_cursor h) (section_end h) (block_size h) (<[b := bytes']> (block_data h))).
Proof.
  intros [] Hb Hl. split; simpl; try done. intros p d Hp.
  apply lookup_insert_Some in Hp as [[<- <-]|[_ Hp]]; [|auto]. rewrite Hl. auto.
Qed.

(** [memory_calloc] returns NULL and changes nothing when the block does not
    fit, or else a zeroed, word-aligned block of the requested size inside the
    section, which overlaps no block handed out before; those keep their bytes. *)
Theorem memory_calloc_correct h size :
  inv h → fits_word h size →
  (memory_calloc size h = Ret (0, h) ∧
     section_end h < (memory_cursor h + size + 7) / 4 * 4) ∨
  ∃ p h', memory_calloc size h = Ret (p, h') ∧ inv h' ∧ p `mod` 4 = 0 ∧
    block_data h' !! p = Some (replicate (Z.to_nat size) 0) ∧
    memory_cursor h < p ∧ p + size ≤ section_end h ∧
    (∀ q sz, block_size h !! q = Some sz → disjoint_blocks q sz p size) ∧
    ∀ q d, block_data h !! q = Some d → block_data h' !! q = Some d.
Proof.
  intros Hi Hfit.
  destruct (calloc_spec h size Hi Hfit) as [?|(h' & E & Hi' & Hal & Hnew & Hs & Hd & Hc & He)];
    [by left|right].
  exists (memory_cursor h + SIZEOF_SIZE_T), h'. pose proof (inv_cursor h' Hi').
  split_and!; try done.
  - by rewrite Hd, lookup_insert_eq.
  - unfold SIZEOF_SIZE_T. lia.
  - rewrite <- He. lia.
  - intros q sz Hq. apply (inv_disjoint h' Hi'); rewrite ?Hs.
    + rewrite lookup_insert_ne; [done|congruence].
    + apply lookup_insert_eq.
    + congruence.
  - intros q d Hq. rewrite Hd, lookup_insert_ne; [done|]. intros <-.
    apply (inv_data h Hi) in Hq. congruence.
Qed.

(** A heap right after [memory_allocator_init]. *)
Definition empty_heap (section : Z) : heap := mk section (section + 0x100000) ∅ ∅.

Lemma empty_heap_inv section :
  0 < section → section + 0x100000 < 0x100000000 → section `mod` 4 = 0 → inv (empty_heap section).
Proof.
  intros. split; simpl; try lia; intros *; rewrite lookup_empty; discriminate.
Qed.

Lemma memory_calloc_correct_witness :
  ∃ p h', memory_calloc 40 (empty_heap 0x01000000) = Ret (p, h') ∧ inv h' ∧ p = 0x01000004.
Proof.
  assert (inv (empty_heap 0x01000000)) as Hi by (apply empty_heap_inv; [lia|lia|reflexivity]).
  assert (fits_word (empty_heap 0x01000000) 40) as Hf by (split; simpl; lia).
  destruct (memory_calloc_correct _ 40 Hi Hf) as [[E _]|(p & h' & E & Hi' & _)].
  - vm_compute in E. discriminate.
  - exists p, h'. split; [exact E|]. split; [exact Hi'|]. vm_compute in E. congruence.
Defined.

(** Growing a block with [memory_realloc] moves it to a new block that starts
    with the old bytes and is zero beyond, and leaves the other blocks alone. *)
Theorem memory_realloc_correct h mem old size :
  inv h → block_data h !! mem = Some old → fits_word h size →
  Z.of_nat (length old) ≤ size →
  (memory_cursor h + size + 7) / 4 * 4 ≤ section_end h →
  ∃ p h', memory_realloc mem size h = Ret (p, h') ∧ inv h' ∧ block_data h !! p = None ∧
    block_data h' !! p = Some (old ++ replicate (Z.to_nat size - length old) 0) ∧
    ∀ q, q ≠ p → block_data h' !! q = block_data h !! q.
Proof.
  intros Hi Hold Hfit Hle Hroom.
  destruct (realloc_grow h mem old size Hi Hold Hfit Hle Hroom) as (h' & E & Hi' & Hnew & Hsame & _).
  exists (memory_cursor h + SIZEOF_SIZE_T), h'. split_and!; try done.
  destruct (block_data h !! (memory_cursor h + SIZEOF_SIZE_T)) as [d|] eqn:Ed; [|done].
  apply (inv_data h Hi) in Ed. by destruct (fresh_block h _ _ Hi Ed).
Qed.

Lemma memory_realloc_correct_witness :
  ∃ p h', memory_realloc 0x01000004 8
            (mk 0x01000008 0x01100000 {[ 0x01000004 := 4 ]} {[ 0x01000004 := [1; 2; 3; 4] ]})
          = Ret (p, h') ∧ block_data h' !! p = Some [1; 2; 3; 4; 0; 0; 0; 0].
Proof.
  set (h := mk _ _ _ _).
  assert (inv h) as Hi.
  { split; simpl; try lia; try done.
    - intros p sz [<- <-]%lookup_singleton_Some. unfold SIZEOF_SIZE_T. lia.
    - intros p sz q sz' [<- _]%lookup_singleton_Some [<- _]%lookup_singleton_Some. done.
    - intros p d [<- <-]%lookup_singleton_Some. done. }
  destruct (memory_realloc_correct h 0x01000004 [1; 2; 3; 4] 8 Hi) as (p & h' & E & _ & _ & Hd & _).
  - reflexivity.
  - split; simpl; lia.
  - simpl. lia.
  - simpl. lia.
  - exists p, h'. split; [exact E|exact Hd].
Defined.

End Heap.
