(* ===== verification/Libc.v ===== *)
(** * The C runtime and string library

    [arm_runtime/eabi_rt.c] and [kernel/lib/str.c], on a byte memory;
    [userland/lib/string.c] and the serial loader's [loader_memcpy] are the same
    loops again. *)
From S2P Require Import Prelude.

Module Libc.

(** ** Byte memory *)

(** The bytes of the objects that exist, by address. *)
Abbreviation mem := (gmap Z Z).
Implicit Types (m : mem).

Definition load (m : mem) (p : Z) : outcome Z :=
  match m !! p with Some b => Ret b | None => Fault end.

Definition store (m : mem) (p v : Z) : outcome mem :=
  match m !! p with Some _ => Ret (<[p := u8 v]> m) | None => Fault end.

(** [n] bytes from [p] on exist. *)
Definition mapped (m : mem) (p n : Z) : Prop := ∀ i, 0 ≤ i < n → is_Some (m !! (p + i)).

(** The memory holds bytes: every cell is a [uint8_t]. *)
Definition bytes_ok (m : mem) : Prop := ∀ p b, m !! p = Some b → is_u8 b.

(** The bytes [l] are stored from [p] on. *)
Definition bytes_at (m : mem) (p : Z) (l : list Z) : Prop :=
  ∀ i b, l !! i = Some b → m !! (p + Z.of_nat i) = Some b.

(** [p] is the address of the C string [s]. *)
Definition cstr (m : mem) (p : Z) (s : list Z) : Prop :=
  bytes_at m p (s ++ [0]) ∧ Forall (λ b, 0 < b < 0x100) s.

(** ** [eabi_rt.c] *)

(** [for (i = 0; i < n; ++i) bd[i] = bs[i]], with [k] turns to go *)
Fixpoint copy_up (k : nat) (i dest src : Z) (m : mem) : outcome mem :=
  match k with
  | O => Ret m
  | S k =>
      let? b := load m (src + i) in
      let? m := store m (dest + i) b in
      copy_up k (i + 1) dest src m
  end.

(** [for (i = k - 1; i >= 0; i--) bd[i] = bs[i]] *)
Fixpoint copy_down (k : nat) (dest src : Z) (m : mem) : outcome mem :=
  match k with
  | O => Ret m
  | S k =>
      let? b := load m (src + Z.of_nat k) in
      let? m := store m (dest + Z.of_nat k) b in
      copy_down k dest src m
  end.

(** [for (i = 0; i < n; ++i) bs[i] = c] *)
Fixpoint fill_up (k : nat) (i dst c : Z) (m : mem) : outcome mem :=
  match k with
  | O => Ret m
  | S k => let? m := store m (dst + i) c in fill_up k (i + 1) dst c m
  end.

Definition __aeabi_memcpy (dest src n : Z) (m : mem) : outcome mem :=
  copy_up (Z.to_nat n) 0 dest src m.

Definition __aeabi_memcpy4 := __aeabi_memcpy.
Definition __aeabi_memcpy8 := __aeabi_memcpy.

(** The backward loop counts with an [int32_t] that starts at [n - 1]. *)
Definition __aeabi_memmove (dest src n : Z) (m : mem) : outcome mem :=
  if dest <? src then copy_up (Z.to_nat n) 0 dest src m
  else let i := s32 (u32 (n - 1)) in copy_down (Z.to_nat (i + 1)) dest src m.

Definition __aeabi_memmove4 := __aeabi_memmove.
Definition __aeabi_memmove8 := __aeabi_memmove.

Definition __aeabi_memset (dst n c : Z) (m : mem) : outcome mem :=
  fill_up (Z.to_nat n) 0 dst c m.

(** [__aeabi_memset4(dest, n, c)] calls [__aeabi_memset(dest, c, n)]. *)
Definition __aeabi_memset4 (dest n c : Z) (m : mem) : outcome mem :=
  __aeabi_memset dest (u32 c) (s32 n) m.
Definition __aeabi_memset8 (dest n c : Z) (m : mem) : outcome mem :=
  __aeabi_memset dest (u32 c) (s32 n) m.

Definition __aeabi_memclr (dest n : Z) (m : mem) : outcome mem :=
  __aeabi_memset dest n 0 m.
Definition __aeabi_memclr4 (dest n : Z) (m : mem) : outcome mem :=
  __aeabi_memset4 dest n 0 m.
Definition __aeabi_memclr8 (dest n : Z) (m : mem) : outcome mem :=
  __aeabi_memset8 dest n 0 m.

Fixpoint uidiv_loop (fuel : nat) (numerator denominator quo : Z) : outcome Z :=
  if numerator >=? denominator then
    match fuel with
    | O => Timeout
    | S fuel => uidiv_loop fuel (numerator - denominator) denominator (u32 (quo + 1))
    end
  else Ret quo.

Definition __aeabi_uidiv (fuel : nat) (numerator denominator : Z) : outcome Z :=
  if denominator =? 0 then Ret 0 else uidiv_loop fuel numerator denominator 0.

(** ** [str.c] *)

Definition _memcpy (destination source size : Z) (m : mem) : outcome (Z * mem) :=
  let? m := __aeabi_memcpy destination source size m in Ret (destination, m).
Definition _memset (destination c size : Z) (m : mem) : outcome (Z * mem) :=
  let? m := __aeabi_memset destination size c m in Ret (destination, m).
Definition _memmove (destination source size : Z) (m : mem) : outcome (Z * mem) :=
  let? m := __aeabi_memmove destination source size m in Ret (destination, m).

(** The loop stops before the last byte, which the [return] compares. *)
Fixpoint memcmp_loop (fuel : nat) (index sb1 sb2 n : Z) (m : mem) : outcome Z :=
  let result :=
    let? b1 := load m sb1 in let? b2 := load m sb2 in Ret (b1 - b2) in
  let index := u32 (index + 1) in
  if index <? n then
    let? b1 := load m sb1 in
    let? b2 := load m sb2 in
    if b1 =? b2 then
      match fuel with
      | O => Timeout
      | S fuel => memcmp_loop fuel index (sb1 + 1) (sb2 + 1) n m
      end
    else result
  else result.

Definition _memcmp (s1 s2 n : Z) (m : mem) : outcome Z :=
  memcmp_loop (Z.to_nat n) 0 s1 s2 n m.

Fixpoint strlen_loop (fuel : nat) (size s : Z) (m : mem) : outcome Z :=
  let? b := load m s in
  if b =? 0 then Ret size
  else match fuel with
       | O => Timeout
       | S fuel => strlen_loop fuel (u32 (size + 1)) (s + 1) m
       end.
Definition _strlen (fuel : nat) (s : Z) (m : mem) : outcome Z := strlen_loop fuel 0 s m.

Fixpoint strcpy_loop (fuel : nat) (dst src : Z) (m : mem) : outcome mem :=
  let? b := load m src in
  let? m := store m dst b in
  if b =? 0 then Ret m
  else match fuel with
       | O => Timeout
       | S fuel => strcpy_loop fuel (dst + 1) (src + 1) m
       end.
Definition _strcpy (fuel : nat) (dst src : Z) (m : mem) : outcome (Z * mem) :=
  let? m := strcpy_loop fuel dst src m in Ret (dst, m).

Definition _strcat (fuel : nat) (dst src : Z) (m : mem) : outcome (Z * mem) :=
  let? dst_len := _strlen fuel dst m in
  let? (_, m) := _strcpy fuel (dst + dst_len) src m in
  Ret (dst, m).

Fixpoint _strcmp (fuel : nat) (s1 s2 : Z) (m : mem) : outcome Z :=
  let? b1 := load m s1 in
  let? b2 := load m s2 in
  if negb (b1 =? 0) && (b1 =? b2) then
    match fuel with
    | O => Timeout
    | S fuel => _strcmp fuel (s1 + 1) (s2 + 1) m
    end
  else Ret (b1 - b2).

Fixpoint strncmp_loop (fuel : nat) (index s1 s2 count : Z) (m : mem) : outcome Z :=
  let result :=
    let? b1 := load m s1 in let? b2 := load m s2 in Ret (b1 - b2) in
  let index := u32 (index + 1) in
  if index <? count then
    let? b1 := load m s1 in
    if b1 =? 0 then result
    else
      let? b2 := load m s2 in
      if b1 =? b2 then
        match fuel with
        | O => Timeout
        | S fuel => strncmp_loop fuel index (s1 + 1) (s2 + 1) count m
        end
      else result
  else result.
Definition _strncmp (s1 s2 count : Z) (m : mem) : outcome Z :=
  strncmp_loop (Z.to_nat count) 0 s1 s2 count m.

(** NULL is 0. *)
Fixpoint _strchr (fuel : nat) (str ch : Z) (m : mem) : outcome Z :=
  let? b := load m str in
  if b =? 0 then Ret 0
  else if b =? ch then Ret str
  else match fuel with
       | O => Timeout
       | S fuel => _strchr fuel (str + 1) ch m
       end.

Fixpoint strrchr_loop (fuel : nat) (last str ch : Z) (m : mem) : outcome Z :=
  let? b := load m str in
  if b =? 0 then Ret last
  else
    let last := if b =? ch then str else last in
    match fuel with
    | O => Timeout
    | S fuel => strrchr_loop fuel last (str + 1) ch m
    end.
Definition _strrchr (fuel : nat) (str ch : Z) (m : mem) : outcome Z :=
  strrchr_loop fuel 0 str ch m.

(** ** The functions on the strings themselves *)

(** [strcmp] of two strings: the difference at the first place they differ. *)
Fixpoint cstrcmp (s1 s2 : list Z) : Z :=
  match s1, s2 with
  | [], [] => 0
  | [], b :: _ => 0 - b
  | a :: _, [] => a
  | a :: s1, b :: s2 => if a =? b then cstrcmp s1 s2 else a - b
  end.

(** [strchr]: the index of the first [c]. *)
Fixpoint cstrchr (s : list Z) (c : Z) : option nat :=
  match s with
  | [] => None
  | b :: s => if b =? c then Some O else S <$> cstrchr s c
  end.

(** ** Facts: memory *)

Lemma load_mapped m p n i : mapped m p n → 0 ≤ i < n → ∃ b, load m (p + i) = Ret b ∧ m !! (p + i) = Some b.
Proof. intros H Hi. destruct (H i Hi) as [b Hb]. exists b. unfold load. by rewrite Hb. Qed.

Lemma store_mapped m p n i v : mapped m p n → 0 ≤ i < n →
  store m (p + i) v = Ret (<[p + i := u8 v]> m).
Proof. intros H Hi. destruct (H i Hi) as [b Hb]. unfold store. by rewrite Hb. Qed.

Lemma mapped_insert m p n q v : mapped m p n → mapped (<[q := v]> m) p n.
Proof.
  intros H i Hi. destruct (decide (q = p + i)) as [->|].
  - rewrite lookup_insert_eq. eauto.
  - rewrite lookup_insert_ne by done. by apply H.
Qed.

Lemma bytes_ok_insert m q v : bytes_ok m → bytes_ok (<[q := u8 v]> m).
Proof.
  intros H p b Hb. apply lookup_insert_Some in Hb as [[_ <-]|[_ ?]]; [apply u8_range|eauto].
Qed.

Lemma u8_byte m p b : bytes_ok m → m !! p = Some b → u8 b = b.
Proof. intros H Hb. apply u8_small, (H _ _ Hb). Qed.

(** ** Facts: copying *)

(** The outcome of a copy: the destination holds the source's old bytes,
    everything else is as before. *)
Definition copied (m m' : mem) (dest src n : Z) : Prop :=
  ∀ q, m' !! q = if decide (dest ≤ q < dest + n) then m !! (src + (q - dest)) else m !! q.

(** Going up is right when the destination does not overwrite source bytes that
    are still to be read. *)
Lemma copy_up_spec k i dest src n m0 m :
  bytes_ok m0 → bytes_ok m → 0 ≤ i → i + Z.of_nat k = n →
  mapped m src n → mapped m dest n →
  dest ≤ src ∨ src + n ≤ dest →
  (∀ q, m !! q = if decide (dest ≤ q < dest + i) then m0 !! (src + (q - dest)) else m0 !! q) →
  ∃ m', copy_up k i dest src m = Ret m' ∧ copied m0 m' dest src n.
Proof.
  intros Hok0. revert i m. induction k as [|k IH]; intros i m Hok Hi Hn Hs Hd Hov Hm;
    cbn [copy_up].
  { exists m. split; [done|]. intros q. rewrite Hm. replace n with i by lia. done. }
  destruct (load_mapped m src n i) as (b & -> & Hb); [done|lia|]. cbn [obind].
  rewrite (store_mapped m dest n i) by (done || lia). cbn [obind].
  apply IH; [by apply bytes_ok_insert|lia|lia|by apply mapped_insert..|done|].
  intros q. rewrite (u8_byte m (src + i)) by done.
  destruct (decide (q = dest + i)) as [->|Hne].
  - rewrite lookup_insert_eq, decide_True by lia.
    rewrite <- Hb, Hm. rewrite decide_False by lia. f_equal. lia.
  - rewrite lookup_insert_ne by done. rewrite Hm.
    destruct (decide (dest ≤ q < dest + i)); destruct (decide (dest ≤ q < dest + (i + 1)));
      done || lia.
Qed.

Lemma copy_down_spec k dest src n m0 m :
  bytes_ok m0 → bytes_ok m → Z.of_nat k ≤ n → mapped m src n → mapped m dest n → src ≤ dest →
  (∀ q, m !! q = if decide (dest + Z.of_nat k ≤ q < dest + n)
                 then m0 !! (src + (q - dest)) else m0 !! q) →
  ∃ m', copy_down k dest src m = Ret m' ∧ copied m0 m' dest src n.
Proof.
  intros Hok0. revert m. induction k as [|k IH]; intros m Hok Hn Hs Hd Hov Hm;
    cbn [copy_down].
  { exists m. split; [done|]. intros q. rewrite Hm.
    destruct (decide (dest + Z.of_nat 0 ≤ q < dest + n)), (decide (dest ≤ q < dest + n));
      done || lia. }
  destruct (load_mapped m src n (Z.of_nat k)) as (b & -> & Hb); [done|lia|]. cbn [obind].
  rewrite (store_mapped m dest n) by (done || lia). cbn [obind].
  apply IH; [by apply bytes_ok_insert|lia|by apply mapped_insert..|done|].
  intros q. rewrite (u8_byte m (src + Z.of_nat k)) by done.
  destruct (decide (q = dest + Z.of_nat k)) as [->|Hne].
  - rewrite lookup_insert_eq, decide_True by lia.
    rewrite <- Hb, Hm. rewrite decide_False by lia. f_equal. lia.
  - rewrite lookup_insert_ne by done. rewrite Hm.
    destruct (decide (dest + Z.of_nat (S k) ≤ q < dest + n));
      destruct (decide (dest + Z.of_nat k ≤ q < dest + n)); done || lia.
Qed.

Lemma fill_up_spec k i dst c n m0 m :
  0 ≤ i → i + Z.of_nat k = n → mapped m dst n →
  (∀ q, m !! q = if decide (dst ≤ q < dst + i) then Some (u8 c) else m0 !! q) →
  ∃ m', fill_up k i dst c m = Ret m' ∧
    ∀ q, m' !! q = if decide (dst ≤ q < dst + n) then Some (u8 c) else m0 !! q.
Proof.
  revert i m. induction k as [|k IH]; intros i m Hi Hn Hd Hm; cbn [fill_up].
  { exists m. split; [done|]. intros q. rewrite Hm. by replace n with i by lia. }
  rewrite (store_mapped m dst n i) by (done || lia). cbn [obind].
  apply IH; [lia|lia|by apply mapped_insert|]. intros q.
  destruct (decide (q = dst + i)) as [->|Hne].
  - rewrite lookup_insert_eq, decide_True by lia. done.
  - rewrite lookup_insert_ne by done. rewrite Hm.
    destruct (decide (dst ≤ q < dst + i)), (decide (dst ≤ q < dst + (i + 1))); done || lia.
Qed.

Lemma uidiv_loop_spec fuel a d q :
  0 < d → 0 ≤ a → 0 ≤ q → q + a / d < 0x100000000 → a / d ≤ Z.of_nat fuel →
  uidiv_loop fuel a d q = Ret (q + a / d).
Proof.
  revert a q. induction fuel as [|fuel IH]; intros a q Hd Ha Hq Hb Hf; cbn [uidiv_loop].
  - destruct (Z.geb_spec a d).
    + pose proof (Z.div_le_mono d a d ltac:(lia) ltac:(lia)) as H1.
      rewrite Z.div_same in H1; lia.
    + by rewrite Z.div_small, Z.add_0_r by lia.
  - destruct (Z.geb_spec a d).
    + assert (a / d = (a - d) / d + 1) as E.
      { rewrite <- Z.div_add by lia. f_equal. lia. }
      assert (0 ≤ (a - d) / d) by (apply Z.div_pos; lia).
      rewrite u32_small by lia. rewrite IH by lia. f_equal. lia.
    + by rewrite Z.div_small, Z.add_0_r by lia.
Qed.

(** ** Facts: strings *)

Lemma bytes_at_head m p b l : bytes_at m p (b :: l) → load m p = Ret b ∧ bytes_at m (p + 1) l.
Proof.
  intros H. split.
  - unfold load. specialize (H O b eq_refl). rewrite Z.add_0_r in H. by rewrite H.
  - intros i c Hc. specialize (H (S i) c Hc).
    by replace (p + 1 + Z.of_nat i) with (p + Z.of_nat (S i)) by lia.
Qed.

Lemma cstr_nil m p : cstr m p [] → load m p = Ret 0.
Proof. intros [H _]. by apply bytes_at_head in H as [? _]. Qed.

Lemma cstr_cons m p b s : cstr m p (b :: s) → load m p = Ret b ∧ 0 < b < 0x100 ∧ cstr m (p + 1) s.
Proof.
  intros [H Hs]. apply bytes_at_head in H as [? ?].
  apply Forall_cons in Hs as [Hb ?]. split; [done|]. split; [exact Hb|by split].
Qed.

Lemma strlen_spec fuel size p s m :
  cstr m p s → 0 ≤ size → size + Z.of_nat (length s) < 0x100000000 → (length s ≤ fuel)%nat →
  strlen_loop fuel size p m = Ret (size + Z.of_nat (length s)).
Proof.
  revert fuel size p. induction s as [|b s IH]; intros fuel size p Hs Hsz Hw Hf.
  - destruct fuel; cbn [strlen_loop]; rewrite (cstr_nil m p Hs); simpl; f_equal; lia.
  - apply cstr_cons in Hs as (Hl & Hb & Hs). simpl in Hf, Hw.
    destruct fuel as [|fuel]; [lia|]. cbn [strlen_loop]. rewrite Hl. cbn [obind].
    destruct (Z.eqb_spec b 0); [lia|]. rewrite u32_small by lia.
    rewrite IH; [|exact Hs|lia|lia|lia]. f_equal. simpl. lia.
Qed.

Lemma strcmp_spec fuel p1 p2 s1 s2 m :
  cstr m p1 s1 → cstr m p2 s2 → (length s1 ≤ fuel)%nat →
  _strcmp fuel p1 p2 m = Ret (cstrcmp s1 s2).
Proof.
  revert fuel p1 p2 s2. induction s1 as [|a s1 IH]; intros fuel p1 p2 s2 H1 H2 Hf.
  - assert (load m p1 = Ret 0) as Hl1 by (by apply cstr_nil).
    destruct s2 as [|b s2].
    + destruct fuel; cbn [_strcmp]; rewrite Hl1, (cstr_nil _ _ H2); done.
    + apply cstr_cons in H2 as (Hl2 & _ & _).
      destruct fuel; cbn [_strcmp]; rewrite Hl1, Hl2; done.
  - apply cstr_cons in H1 as (Hl1 & Ha & H1). simpl in Hf.
    destruct fuel as [|fuel]; [lia|]. cbn [_strcmp cstrcmp]. rewrite Hl1. cbn [obind].
    destruct s2 as [|b s2].
    + rewrite (cstr_nil _ _ H2). cbn [obind].
      destruct (Z.eqb_spec a 0); [lia|]. simpl. f_equal. lia.
    + apply cstr_cons in H2 as (Hl2 & Hb & H2). rewrite Hl2. cbn [obind].
      destruct (Z.eqb_spec a 0); [lia|]. simpl.
      destruct (Z.eqb_spec a b); [|done]. apply IH; done || lia.
Qed.

Lemma cstrcmp_0 s1 s2 :
  Forall (λ b, 0 < b < 0x100) s1 → Forall (λ b, 0 < b < 0x100) s2 →
  cstrcmp s1 s2 = 0 ↔ s1 = s2.
Proof.
  intros H1. revert s2. induction H1 as [|a s1 Ha H1 IH]; intros [|b s2] H2; simpl.
  - done.
  - apply Forall_cons in H2 as [? ?]. split; [lia|done].
  - split; [lia|done].
  - apply Forall_cons in H2 as [? ?]. destruct (Z.eqb_spec a b) as [->|].
    + rewrite IH by done. naive_solver.
    + split; [lia|naive_solver].
Qed.

Lemma strcpy_spec fuel dst src s m :
  bytes_ok m → cstr m src s → mapped m dst (Z.of_nat (length s) + 1) →
  (dst + Z.of_nat (length s) < src ∨ src + Z.of_nat (length s) < dst) →
  (length s ≤ fuel)%nat →
  ∃ m', strcpy_loop fuel dst src m = Ret m' ∧
    bytes_at m' dst (s ++ [0]) ∧
    ∀ q, ¬ (dst ≤ q ≤ dst + Z.of_nat (length s)) → m' !! q = m !! q.
Proof.
  revert fuel dst src m. induction s as [|b s IH]; intros fuel dst src m Hok Hs Hd Hov Hf.
  - assert (∃ m', strcpy_loop fuel dst src m = Ret m' ∧ m' = <[dst := 0]> m) as (m' & Hr & ->).
    { pose proof (store_mapped m dst _ 0 0 Hd ltac:(simpl; lia)) as Hst. rewrite Z.add_0_r in Hst.
      destruct fuel; cbn [strcpy_loop]; rewrite (cstr_nil _ _ Hs); cbn [obind];
        rewrite Hst; eauto. }
    exists (<[dst := 0]> m). split; [done|]. split.
    + intros [|i] c Hc; simplify_eq/=. by rewrite Z.add_0_r, lookup_insert_eq.
    + intros q Hq. simpl in Hq. by rewrite lookup_insert_ne by lia.
  - apply cstr_cons in Hs as (Hl & Hb & Hs). simpl in Hf, Hov.
    destruct fuel as [|fuel]; [lia|]. cbn [strcpy_loop]. rewrite Hl. cbn [obind].
    pose proof (store_mapped m dst _ 0 b Hd ltac:(simpl; lia)) as Hst. rewrite Z.add_0_r in Hst.
    rewrite Hst. cbn [obind]. destruct (Z.eqb_spec b 0); [lia|].
    destruct (IH fuel (dst + 1) (src + 1) (<[dst := u8 b]> m)) as (m' & Hr & Hb' & Hsame).
    + by apply bytes_ok_insert.
    + destruct Hs as [Hs ?]. split; [|done]. intros i c Hc.
      apply lookup_lt_Some in Hc as Hlt. rewrite length_app in Hlt. simpl in Hlt.
      rewrite lookup_insert_ne by lia. by apply Hs.
    + intros i Hi. replace (dst + 1 + i) with (dst + (i + 1)) by lia.
      apply mapped_insert with (n := Z.of_nat (length (b :: s)) + 1); [done|simpl; lia].
    + lia.
    + lia.
    + exists m'. split; [done|]. split.
      * intros [|i] c Hc; simplify_eq/=.
        -- rewrite Z.add_0_r, Hsame by lia. rewrite lookup_insert_eq. by rewrite u8_small by lia.
        -- specialize (Hb' i c Hc). by replace (dst + Z.of_nat (S i)) with (dst + 1 + Z.of_nat i) by lia.
      * intros q Hq. simpl in Hq. rewrite Hsame by lia. by rewrite lookup_insert_ne by lia.
Qed.

Lemma strchr_spec fuel p s c m :
  cstr m p s → 0 < c → (length s ≤ fuel)%nat →
  _strchr fuel p c m =
    Ret (match cstrchr s c with Some i => p + Z.of_nat i | None => 0 end).
Proof.
  revert fuel p. induction s as [|b s IH]; intros fuel p Hs Hc Hf.
  - destruct fuel; cbn [_strchr]; by rewrite (cstr_nil _ _ Hs).
  - apply cstr_cons in Hs as (Hl & Hb & Hs). simpl in Hf.
    destruct fuel as [|fuel]; [lia|]. cbn [_strchr cstrchr]. rewrite Hl. cbn [obind].
    destruct (Z.eqb_spec b 0); [lia|]. destruct (Z.eqb_spec b c).
    + f_equal. lia.
    + rewrite IH by (done || lia). destruct (cstrchr s c); simpl; f_equal; lia.
Qed.

(** [_memcmp] on two buffers of [n] bytes, [n] not 0: 0 exactly when they are
    equal. *)
Lemma memcmp_loop_spec fuel i p1 p2 n l1 l2 m :
  bytes_at m p1 l1 → bytes_at m p2 l2 →
  length l1 = length l2 → l1 ≠ [] → 0 ≤ i → n = i + Z.of_nat (length l1) → n < 0x100000000 →
  (length l1 ≤ S fuel)%nat →
  ∃ r, memcmp_loop fuel i p1 p2 n m = Ret r ∧ (r = 0 ↔ l1 = l2).
Proof.
  revert fuel i p1 p2 l2. induction l1 as [|a l1 IH]; [done|].
  intros fuel i p1 p2 [|b l2] H1 H2 Hlen _ Hi Hn Hw Hf; [done|].
  apply bytes_at_head in H1 as [Ha H1]. apply bytes_at_head in H2 as [Hb H2].
  simpl in Hlen, Hf, Hn. injection Hlen as Hlen.
  destruct l1 as [|a' l1].
  - assert (memcmp_loop fuel i p1 p2 n m = Ret (a - b)) as ->.
    { simpl in Hn. assert ((u32 (i + 1) <? n) = false) as E.
      { rewrite u32_small by lia. lia. }
      destruct fuel; cbn [memcmp_loop]; rewrite E, Ha, Hb; done. }
    exists (a - b). split; [done|]. destruct l2; [|done]. split; [|naive_solver lia].
    intros. f_equal. lia.
  - destruct fuel as [|fuel]; [simpl in Hf; lia|]. cbn [memcmp_loop].
    rewrite u32_small by (simpl in Hn; lia).
    destruct (Z.ltb_spec (i + 1) n); [|simpl in Hn; lia].
    rewrite Ha, Hb. cbn [obind]. destruct (Z.eqb_spec a b) as [->|].
    + destruct (IH fuel (i + 1) (p1 + 1) (p2 + 1) l2) as (r & Hr & Hiff); try done || lia.
      exists r. split; [done|]. rewrite Hiff. naive_solver.
    + exists (a - b). split; [done|]. split; [lia|naive_solver].
Qed.

(** ** Properties *)

(** [__aeabi_memmove] copies [n] bytes from [src] to [dest] whatever the two
    ranges' overlap: afterwards [dest] holds what [src] held before, and every
    other byte is unchanged. *)
Theorem memmove_correct m dest src n :
  bytes_ok m → mapped m src n → mapped m dest n → 0 ≤ n < 0x80000000 →
  ∃ m', __aeabi_memmove dest src n m = Ret m' ∧ copied m m' dest src n.
Proof.
  intros Hok Hs Hd Hn. unfold __aeabi_memmove. destruct (Z.ltb_spec dest src).
  - apply (copy_up_spec _ 0 dest src n m m); try done || lia.
    intros q. by rewrite decide_False by lia.
  - destruct (Z.eq_dec n 0) as [->|].
    + exists m. split; [done|]. intros q. by rewrite decide_False by lia.
    + rewrite u32_small, s32_small by lia.
      replace (n - 1 + 1) with n by lia.
      apply (copy_down_spec _ dest src n m m); try done || lia.
      intros q. by rewrite decide_False by lia.
Qed.

(** The bytes [l] at [p], the rest of the memory empty. *)
Definition mem_of (p : Z) (l : list Z) : mem :=
  list_to_map (imap (λ i b, (p + Z.of_nat i, b)) l).

Lemma memmove_correct_witness :
  ∃ m', __aeabi_memmove 12 10 3 (mem_of 10 [1; 2; 3; 4; 5]) = Ret m' ∧
        copied (mem_of 10 [1; 2; 3; 4; 5]) m' 12 10 3.
Proof.
  apply memmove_correct.
  - apply map_Forall_lookup. by apply (bool_decide_unpack _).
  - intros i Hi. assert (i = 0 ∨ i = 1 ∨ i = 2) as [->|[->| ->]] by lia; by eexists.
  - intros i Hi. assert (i = 0 ∨ i = 1 ∨ i = 2) as [->|[->| ->]] by lia; by eexists.
  - lia.
Defined.

(** [__aeabi_uidiv] is unsigned division for every non-zero divisor, and
    needs no more turns than its result; a zero divisor gives 0. *)
Theorem uidiv_correct fuel a d :
  is_u32 a → is_u32 d → (Z.to_nat (a / d) ≤ fuel)%nat →
  __aeabi_uidiv fuel a d = Ret (a / d).
Proof.
  intros Ha Hd Hf. unfold __aeabi_uidiv, is_u32 in *. destruct (Z.eqb_spec d 0) as [->|].
  - by rewrite Z.div_0_r.
  - assert (0 ≤ a / d) by (apply Z.div_pos; lia).
    assert (a / d ≤ a) by (apply Z.div_le_upper_bound; nia).
    rewrite uidiv_loop_spec by lia. done.
Qed.

Lemma uidiv_correct_witness : __aeabi_uidiv 14 100 7 = Ret (100 / 7).
Proof. apply (uidiv_correct 14 100 7); unfold is_u32; vm_compute; try done; try lia; intuition discriminate. Defined.

(** On two C strings [_strcmp] stops within the first one, and returns 0
    exactly when they are equal; [_strcpy] then makes its destination equal in
    that sense, writing only the bytes of the string and its terminator. *)
Theorem strcmp_strcpy fuel dst src s m :
  bytes_ok m → cstr m src s → mapped m dst (Z.of_nat (length s) + 1) →
  dst + Z.of_nat (length s) < src ∨ src + Z.of_nat (length s) < dst →
  (length s ≤ fuel)%nat →
  (∀ p t, cstr m p t → ∃ r, _strcmp fuel src p m = Ret r ∧ (r = 0 ↔ s = t)) ∧
  ∃ m', _strcpy fuel dst src m = Ret (dst, m') ∧ _strcmp fuel dst src m' = Ret 0 ∧
    ∀ q, ¬ (dst ≤ q ≤ dst + Z.of_nat (length s)) → m' !! q = m !! q.
Proof.
  intros Hok Hs Hd Hov Hf. pose proof Hs as [Hbytes Hrange]. split.
  - intros p t Ht. exists (cstrcmp s t). split; [by apply strcmp_spec|].
    apply cstrcmp_0; [done|]. by destruct Ht.
  - destruct (strcpy_spec fuel dst src s m) as (m' & Hr & Hb & Hsame); [done..|].
    exists m'. unfold _strcpy. rewrite Hr. split; [done|]. split; [|done].
    rewrite (strcmp_spec fuel dst src s s m'); try done.
    + f_equal. by apply cstrcmp_0.
    + split; [|done]. intros i b Hi. pose proof (lookup_lt_Some _ _ _ Hi) as Hlt.
      rewrite length_app in Hlt. simpl in Hlt. rewrite Hsame by lia. by apply Hbytes.
Qed.

Lemma strcmp_strcpy_witness :
  let m := mem_of 10 [72; 105; 0; 0; 0; 0] in
  (∀ p t, cstr m p t → ∃ r, _strcmp 2 10 p m = Ret r ∧ (r = 0 ↔ [72; 105] = t)) ∧
  ∃ m', _strcpy 2 13 10 m = Ret (13, m') ∧ _strcmp 2 13 10 m' = Ret 0 ∧
    ∀ q, ¬ (13 ≤ q ≤ 15) → m' !! q = m !! q.
Proof.
  apply (strcmp_strcpy 2 13 10 [72; 105] (mem_of 10 [72; 105; 0; 0; 0; 0])).
  - apply map_Forall_lookup. by apply (bool_decide_unpack _).
  - split; [|repeat constructor].
    intros i b Hi. pose proof (lookup_lt_Some _ _ _ Hi) as Hlt. simpl in Hlt.
    destruct i as [|[|[|]]]; simplify_eq/=; done.
  - intros i Hi. simpl in Hi. assert (i = 0 ∨ i = 1 ∨ i = 2) as [->|[->| ->]] by lia; by eexists.
  - right. simpl. lia.
  - simpl. lia.
Defined.

(** [__aeabi_memclr4] and [__aeabi_memclr8] leave the memory as it is,
    whatever they are asked to clear: [__aeabi_memset4] and [__aeabi_memset8]
    pass the byte (0) to [__aeabi_memset] as the count. *)
Theorem memclr_words_clear_nothing dest n m :
  __aeabi_memclr4 dest n m = Ret m ∧ __aeabi_memclr8 dest n m = Ret m.
Proof. by split. Qed.

End Libc.

(** [userland/lib/string.c] and [serial_loader/lib.c] have the same bodies. *)
Module UserString.
Definition memcpy := Libc._memcpy.
Definition memset := Libc._memset.
Definition memmove := Libc._memmove.
Definition strlen := Libc._strlen.
Definition strcmp := Libc._strcmp.
Definition strcpy := Libc._strcpy.
Definition strcat := Libc._strcat.
Definition loader_memcpy := Libc._memcpy.
End UserString.
