(* ===== verification/Hash.v ===== *)
(** * Hashes and the hash map

    [kernel/lib/fnv_hash.c], the small functions of [kernel/utils.c], and
    [kernel/lib/hashmap.c]: a table of 64 entries with linear probing that does not
    wrap around, shown to implement a finite map from keys to pointers. *)
From S2P Require Import Prelude Mmu Alloc Heap.

Module Hash.

(** ** [fnv_hash.c] and [utils.c] *)

Definition FNV_HASH_PRIME_32 : Z := 0x01000193.
Definition FNV_HASH_OFFSET_BASIS_32 : Z := 0x811C9DC5.
Definition FNV_HASH_PRIME_64 : Z := 0x00000100000001B3.
Definition FNV_HASH_OFFSET_BASIS_64 : Z := 0xCBF29CE484222325.

(** [data] are the [len] bytes hashed. *)
Definition fnv1a_hash_32 (data : list Z) : Z :=
  fold_left (λ h b, u32 (Z.lxor h b * FNV_HASH_PRIME_32)) data FNV_HASH_OFFSET_BASIS_32.

Definition fnv1a_hash_64 (data : list Z) : Z :=
  fold_left (λ h b, u64 (Z.lxor h b * FNV_HASH_PRIME_64)) data FNV_HASH_OFFSET_BASIS_64.

Definition off_t_min (a b : Z) : Z := if a <=? b then a else b.
Definition off_t_max (a b : Z) : Z := if a >=? b then a else b.
Definition size_t_max (a b : Z) : Z := if a >=? b then a else b.
Definition size_t_min (a b : Z) : Z := if a <=? b then a else b.

Definition xor_hash (data : list Z) : Z := fold_left (λ hash b, u8 (Z.lxor hash b)) data 0.

(** The published test vectors of FNV-1a. *)
Example fnv1a_32_a : fnv1a_hash_32 [0x61] = 0xE40C292C.
Proof. reflexivity. Qed.
Example fnv1a_32_foobar : fnv1a_hash_32 [0x66; 0x6f; 0x6f; 0x62; 0x61; 0x72] = 0xBF9CF968.
Proof. reflexivity. Qed.
Example fnv1a_64_a : fnv1a_hash_64 [0x61] = 0xAF63DC4C8601EC8C.
Proof. reflexivity. Qed.

(** ** [hashmap.c] *)

Definition HASH_MAP_DEFAULT_CAPACITY : Z := 64.
Definition HASH_MAP_MAX_KEY_SIZE : Z := 16.

(** [kv_pair_t]; the value NULL is 0 and marks a free entry. *)
Record kv_pair_t : Type := mkpair {
  key : list Z;
  key_size : Z;
  key_hash : Z;
  value : Z;
}.

Record hash_map : Type := mkmap {
  pairs : list kv_pair_t;
  capacity : Z;
}.

Definition zero_pair : kv_pair_t := mkpair (replicate (Z.to_nat HASH_MAP_MAX_KEY_SIZE) 0) 0 0 0.

(** [sizeof(hash_map_t)] and [sizeof(kv_pair_t)] on a 32 bit machine *)
Definition SIZEOF_HASH_MAP : Z := 8.
Definition SIZEOF_KV_PAIR : Z := 28.

(** The status and, unless it failed before, the map stored through the pointer;
    the status is -1 in every case. *)
Definition hash_map_create : M Heap.heap (Z * option hash_map) :=
  let* hm := Heap.memory_calloc SIZEOF_HASH_MAP in
  if hm =? 0 then ret (-1, None)
  else
    let* pairs := Heap.memory_calloc (u32 (HASH_MAP_DEFAULT_CAPACITY * SIZEOF_KV_PAIR)) in
    if pairs =? 0 then
      let* _ := Heap.memory_free hm in
      ret (-1, None)
    else
      ret (-1, Some (mkmap (replicate (Z.to_nat HASH_MAP_DEFAULT_CAPACITY) zero_pair)
                      HASH_MAP_DEFAULT_CAPACITY)).

(** The pointers of the map and of its table; NULL is 0. *)
Definition hash_map_free (h h_pairs : Z) : M Heap.heap Z :=
  if h =? 0 then ret (-1)
  else
    let* _ := if negb (h_pairs =? 0) then Heap.memory_free h_pairs else ret () in
    let* _ := Heap.memory_free h in
    ret 0.

(** [_memcmp] (see [Libc._memcmp]) on two arrays, [n] bytes *)
Fixpoint array_memcmp (fuel : nat) (index : Z) (a b : list Z) (n : Z) : outcome Z :=
  let? x := arr_get a index in
  let? y := arr_get b index in
  if (index + 1 <? n) && (x =? y) then
    match fuel with
    | O => Timeout
    | S fuel => array_memcmp fuel (index + 1) a b n
    end
  else Ret (x - y).

(** The condition both loops test: only compare keys if hash and size match. *)
Definition pair_matches (kv : kv_pair_t) (hash : Z) (k : list Z) : outcome bool :=
  let keysize := Z.of_nat (length k) in
  if (key_hash kv =? hash) && (key_size kv =? keysize) then
    let? c := array_memcmp (length k) 0 (key kv) k keysize in
    Ret (c =? 0)
  else Ret false.

(** The loop of [hash_map_get], with [n] entries to go. *)
Fixpoint get_loop (n : nat) (index hash : Z) (k : list Z) (h : hash_map) : outcome Z :=
  match n with
  | O => Ret 0
  | S n =>
      let? kv := arr_get (pairs h) index in
      if value kv =? 0 then Ret 0
      else
        let? found := pair_matches kv hash k in
        if found then Ret (value kv) else get_loop n (index + 1) hash k h
  end.

(** [k] are the [keysize] bytes of the key. *)
Definition hash_map_get (h : hash_map) (k : list Z) : outcome Z :=
  let hash := fnv1a_hash_32 k in
  let index := hash `mod` capacity h in
  get_loop (Z.to_nat (capacity h - index)) index hash k h.

(** The loop of [hash_map_set]: where it stops, [capacity] when nowhere. *)
Fixpoint set_loop (n : nat) (index hash : Z) (k : list Z) (h : hash_map) : outcome Z :=
  match n with
  | O => Ret index
  | S n =>
      let? kv := arr_get (pairs h) index in
      if value kv =? 0 then Ret index
      else
        let? found := pair_matches kv hash k in
        if found then Ret index else set_loop n (index + 1) hash k h
  end.

Definition hash_map_set (k : list Z) (v : Z) : M hash_map Z := λ h,
  let keysize := Z.of_nat (length k) in
  if v =? 0 then Fatal "cannot insert NULL in hashmap"
  else if keysize >? HASH_MAP_MAX_KEY_SIZE then
    Fatal "hashmap: keysize exeed max supported limit"
  else
    let hash := fnv1a_hash_32 k in
    let index := hash `mod` capacity h in
    let? index := set_loop (Z.to_nat (capacity h - index)) index hash k h in
    if index =? capacity h then Ret (-1, h)
    else
      let? kv := arr_get (pairs h) index in
      let? ps := arr_set (pairs h) index
        (mkpair (k ++ drop (length k) (key kv)) keysize hash v) in
      Ret (0, mkmap ps (capacity h)).

(** ** The finite map a table stands for *)

(** The key of an entry, and the entry where probing for it starts. *)
Definition pair_key (p : kv_pair_t) : list Z := take (Z.to_nat (key_size p)) (key p).
Definition home (k : list Z) : nat := Z.to_nat (fnv1a_hash_32 k `mod` HASH_MAP_DEFAULT_CAPACITY).

Definition in_use (p : kv_pair_t) : Prop := value p ≠ 0.

Definition valid_key (k : list Z) : Prop := (1 ≤ length k ≤ 16)%nat.

(** An entry in use is well formed and can be reached: the entries from the home
    of its key up to it are in use with other keys. *)
Record wf (h : hash_map) : Prop := {
  wf_capacity : capacity h = 64;
  wf_pairs : length (pairs h) = 64%nat;
  wf_key : ∀ i p, pairs h !! i = Some p → length (key p) = 16%nat;
  wf_pair : ∀ i p, pairs h !! i = Some p → in_use p →
    1 ≤ key_size p ≤ 16 ∧ key_hash p = fnv1a_hash_32 (pair_key p);
  wf_reach : ∀ i p, pairs h !! i = Some p → in_use p →
    (home (pair_key p) ≤ i)%nat ∧
    ∀ j, (home (pair_key p) ≤ j < i)%nat →
      ∃ q, pairs h !! j = Some q ∧ in_use q ∧ pair_key q ≠ pair_key p;
}.

Definition holds (h : hash_map) (k : list Z) (v : Z) : Prop :=
  ∃ i p, pairs h !! i = Some p ∧ in_use p ∧ pair_key p = k ∧ value p = v.

Definition represents (h : hash_map) (m : gmap (list Z) Z) : Prop :=
  wf h ∧ ∀ k v, m !! k = Some v ↔ holds h k v.

(** ** Facts *)

Lemma fnv_range k : is_u32 (fnv1a_hash_32 k).
Proof.
  unfold fnv1a_hash_32. assert (is_u32 FNV_HASH_OFFSET_BASIS_32) as H by (by split).
  revert H. generalize FNV_HASH_OFFSET_BASIS_32. induction k as [|b k IH]; intros h H; [done|].
  simpl. apply IH, u32_range.
Qed.

Lemma home_range k : (home k < 64)%nat.
Proof.
  unfold home, HASH_MAP_DEFAULT_CAPACITY.
  pose proof (Z.mod_pos_bound (fnv1a_hash_32 k) 64 ltac:(lia)). lia.
Qed.

(** [memcmp] from [i] on is 0 exactly when the rest agrees. *)
Lemma array_memcmp_spec fuel i a b n :
  0 ≤ i < n → n ≤ Z.of_nat (length a) → n ≤ Z.of_nat (length b) → (Z.to_nat (n - i) ≤ S fuel)%nat →
  ∃ c, array_memcmp fuel i a b n = Ret c ∧
    (c = 0 ↔ ∀ j, i ≤ j < n → a !! Z.to_nat j = b !! Z.to_nat j).
Proof.
  revert i. induction fuel as [|fuel IH]; intros i Hi Ha Hb Hf;
    destruct (arr_get_ok a i) as (x & Ex & Hx); try lia;
    destruct (arr_get_ok b i) as (y & Ey & Hy); try lia;
    cbn [array_memcmp]; rewrite Ex, Ey; cbn [obind].
  - destruct (Z.ltb_spec (i + 1) n) as [Hlt|Hge]; [lia|]. simpl. exists (x - y). split; [done|].
    split; [|intros H; specialize (H i ltac:(lia)); rewrite Hx, Hy in H; simplify_eq; lia].
    intros Hxy j Hj. replace j with i by lia. rewrite Hx, Hy. f_equal. lia.
  - destruct (Z.ltb_spec (i + 1) n) as [Hlt|Hge]; simpl.
    + destruct (Z.eqb_spec x y) as [->|Hne].
      * destruct (IH (i + 1)) as (c & -> & Hc); try lia. exists c. split; [done|]. rewrite Hc.
        split; intros H j Hj; [|apply H; lia].
        destruct (Z.eq_dec j i) as [->|]; [congruence|apply H; lia].
      * exists (x - y). split; [done|].
        split; [lia|]. intros H. specialize (H i ltac:(lia)). congruence.
    + exists (x - y). split; [done|].
      split; [|intros H; specialize (H i ltac:(lia)); rewrite Hx, Hy in H; simplify_eq; lia].
      intros Hxy j Hj. replace j with i by lia. rewrite Hx, Hy. f_equal. lia.
Qed.

Lemma pair_matches_spec p k :
  length (key p) = 16%nat → valid_key k → 1 ≤ key_size p ≤ 16 →
  key_hash p = fnv1a_hash_32 (pair_key p) →
  pair_matches p (fnv1a_hash_32 k) k = Ret (bool_decide (pair_key p = k)).
Proof.
  intros Hlen [Hk1 Hk2] Hsz Hhash. unfold pair_matches.
  assert (length (pair_key p) = Z.to_nat (key_size p)) as Hpk.
  { unfold pair_key. rewrite length_take. lia. }
  destruct (Z.eqb_spec (key_hash p) (fnv1a_hash_32 k)) as [Hh|Hh]; simpl.
  2: { rewrite bool_decide_eq_false_2; [done|]. congruence. }
  destruct (Z.eqb_spec (key_size p) (Z.of_nat (length k))) as [Hs|Hs].
  2: { rewrite bool_decide_eq_false_2; [done|]. intros <-. lia. }
  destruct (array_memcmp_spec (length k) 0 (key p) k (Z.of_nat (length k)))
    as (c & -> & Hc); try lia. cbn [obind].
  replace (c =? 0) with (bool_decide (pair_key p = k)); [done|].
  symmetry. destruct (Z.eqb_spec c 0) as [E|E].
  - rewrite bool_decide_eq_true_2; [done|]. apply list_eq. intros i. unfold pair_key.
    destruct (decide (i < length k)%nat).
    + rewrite lookup_take_lt by lia. pose proof (proj1 Hc E (Z.of_nat i) ltac:(lia)) as H.
      by rewrite Nat2Z.id in H.
    + rewrite !lookup_ge_None_2; [done|lia|]. fold (pair_key p). lia.
  - rewrite bool_decide_eq_false_2; [done|]. intros Heq. apply E, Hc. intros j Hj.
    rewrite <- Heq. unfold pair_key. rewrite lookup_take_lt by lia. done.
Qed.

(** What the loop of [set] looks for. *)
Definition stops_at (h : hash_map) (k : list Z) (i : nat) : Prop :=
  ∃ p, pairs h !! i = Some p ∧ (¬ in_use p ∨ pair_key p = k).
Definition passes (h : hash_map) (k : list Z) (i : nat) : Prop :=
  ∃ p, pairs h !! i = Some p ∧ in_use p ∧ pair_key p ≠ k.

Lemma set_loop_spec n i k h :
  wf h → valid_key k → 0 ≤ i → (Z.to_nat i + n = 64)%nat →
  ∃ j, set_loop n i (fnv1a_hash_32 k) k h = Ret j ∧ i ≤ j ≤ 64 ∧
    (∀ x, (Z.to_nat i ≤ x < Z.to_nat j)%nat → passes h k x) ∧
    (j < 64 → stops_at h k (Z.to_nat j)).
Proof.
  intros H Hk. revert i. induction n as [|n IH]; intros i Hi Hn; cbn [set_loop].
  { exists i. split; [done|]. split; [lia|]. split; [lia|lia]. }
  destruct (arr_get_ok (pairs h) i) as (p & -> & Hp); [rewrite (wf_pairs h H); lia|].
  cbn [obind]. destruct (Z.eqb_spec (value p) 0) as [Hv|Hv].
  { exists i. split; [done|]. split; [lia|]. split; [lia|].
    intros _. exists p. split; [done|]. left. by intros []. }
  destruct (wf_pair h H _ p Hp Hv) as [Hsz Hhash].
  rewrite pair_matches_spec by (done || by eapply wf_key). cbn [obind].
  case_bool_decide as Heq.
  { exists i. split; [done|]. split; [lia|]. split; [lia|]. intros _. exists p. auto. }
  destruct (IH (i + 1)) as (j & -> & Hj & Hpass & Hstop); [lia|lia|].
  exists j. split; [done|]. split; [lia|]. split; [|done].
  intros x Hx. destruct (decide (x = Z.to_nat i)) as [->|]; [exists p; auto|apply Hpass; lia].
Qed.

(** [get] stops where [set] does. *)
Lemma get_loop_set_loop n i hash k h j :
  0 ≤ i → (Z.to_nat i + n = length (pairs h))%nat → set_loop n i hash k h = Ret j →
  (∃ p, pairs h !! Z.to_nat j = Some p ∧ get_loop n i hash k h = Ret (value p)) ∨
  (j = Z.of_nat (length (pairs h)) ∧ get_loop n i hash k h = Ret 0).
Proof.
  revert i. induction n as [|n IH]; intros i Hi Hn E; cbn [set_loop get_loop] in *.
  { injection E as <-. right. split; [lia|done]. }
  destruct (arr_get_ok (pairs h) i) as (p & Ep & Hp); [lia|]. rewrite Ep in E |- *.
  cbn [obind] in *. destruct (Z.eqb_spec (value p) 0) as [Hv|Hv].
  { injection E as <-. left. exists p. by rewrite Hv. }
  destruct (pair_matches p hash k) as [[]| | |]; try done; cbn [obind] in *.
  - injection E as <-. left. by exists p.
  - apply IH; [lia|lia|done].
Qed.

(** An entry in use with key [k] is where probing for [k] stops. *)
Lemma stop_unique h k i j p :
  wf h → (home k ≤ j)%nat → (∀ x, (home k ≤ x < j)%nat → passes h k x) →
  pairs h !! i = Some p → in_use p → pair_key p = k → (j ≤ 64)%nat → stops_at h k j ∨ j = 64%nat →
  i = j.
Proof.
  intros H Hj Hpass Hp Hu Hk Hj64 Hstop.
  destruct (wf_reach h H i p Hp Hu) as [Hhome Hpath]. rewrite Hk in *.
  apply lookup_lt_Some in Hp as Hlt. rewrite (wf_pairs h H) in Hlt.
  destruct (Nat.lt_trichotomy i j) as [Hij|[?|Hij]]; [|done|].
  - destruct (Hpass i ltac:(lia)) as (q & Hq & _ & Hne). congruence.
  - destruct Hstop as [(q & Hq & Hqs)|]; [|lia].
    destruct (Hpath j ltac:(lia)) as (q' & Hq' & Hu' & Hne). simplify_eq. tauto.
Qed.

(** Where probing for [k] ends. *)
Lemma probe h k : wf h → valid_key k →
  ∃ j : nat, set_loop (Z.to_nat (64 - fnv1a_hash_32 k `mod` 64)) (fnv1a_hash_32 k `mod` 64)
      (fnv1a_hash_32 k) k h = Ret (Z.of_nat j) ∧
    (home k ≤ j ≤ 64)%nat ∧ (∀ x, (home k ≤ x < j)%nat → passes h k x) ∧
    (stops_at h k j ∨ j = 64%nat) ∧
    ∀ i p, pairs h !! i = Some p → in_use p → pair_key p = k → i = j.
Proof.
  intros H Hk. pose proof (Z.mod_pos_bound (fnv1a_hash_32 k) 64 ltac:(lia)).
  destruct (set_loop_spec (Z.to_nat (64 - fnv1a_hash_32 k `mod` 64)) (fnv1a_hash_32 k `mod` 64) k h)
    as (j & E & Hj & Hpass & Hstop); [done|done|lia|lia|].
  exists (Z.to_nat j). rewrite Z2Nat.id by lia. split; [done|].
  assert (home k = Z.to_nat (fnv1a_hash_32 k `mod` 64)) as Hh by done.
  assert (stops_at h k (Z.to_nat j) ∨ Z.to_nat j = 64%nat) as Hend.
  { destruct (Z.eq_dec j 64) as [->|]; [by right|]. left. apply Hstop. lia. }
  split; [lia|]. split; [intros x Hx; apply Hpass; lia|]. split; [done|].
  intros i p Hp Hu Hpk.
  assert (∀ x, (home k ≤ x < Z.to_nat j)%nat → passes h k x) as Hpass'.
  { intros x Hx. apply Hpass. lia. }
  exact (stop_unique h k i (Z.to_nat j) p H ltac:(lia) Hpass' Hp Hu Hpk ltac:(lia) Hend).
Qed.

Lemma hash_map_get_run h k : wf h → valid_key k →
  ∃ v, hash_map_get h k = Ret v ∧ (∀ x, holds h k x ↔ v ≠ 0 ∧ x = v).
Proof.
  intros H Hk. destruct (probe h k H Hk) as (j & E & Hj & Hpass & Hstop & Huniq).
  pose proof (Z.mod_pos_bound (fnv1a_hash_32 k) 64 ltac:(lia)).
  unfold hash_map_get. rewrite (wf_capacity h H).
  assert (Z.to_nat (fnv1a_hash_32 k `mod` 64) + Z.to_nat (64 - fnv1a_hash_32 k `mod` 64) =
    length (pairs h))%nat as Hn by (rewrite (wf_pairs h H); lia).
  destruct (get_loop_set_loop _ _ _ _ _ _ (proj1 (Z.mod_pos_bound (fnv1a_hash_32 k) 64 eq_refl)) Hn E)
    as [(p & Hp & ->)|[Hend ->]].
  - rewrite Nat2Z.id in Hp. exists (value p). split; [done|]. intros x. split.
    + intros (i & q & Hq & Hu & Hqk & <-). pose proof (Huniq i q Hq Hu Hqk). subst i.
      simplify_eq. done.
    + intros [Hv ->]. destruct Hstop as [(q & Hq & [Hnu|Hqk])| ->].
      * simplify_eq. by destruct Hnu.
      * simplify_eq. exists j, q. done.
      * apply lookup_lt_Some in Hp. rewrite (wf_pairs h H) in Hp. lia.
  - exists 0. split; [done|]. intros x. split; [|by intros [? _]].
    intros (i & q & Hq & Hu & Hqk & <-). pose proof (Huniq i q Hq Hu Hqk). subst i.
    apply lookup_lt_Some in Hq. lia.
Qed.

(** The entry [set] writes. *)
Definition new_pair (k : list Z) (v : Z) (old : kv_pair_t) : kv_pair_t :=
  mkpair (k ++ drop (length k) (key old)) (Z.of_nat (length k)) (fnv1a_hash_32 k) v.

Lemma new_pair_key k v old : pair_key (new_pair k v old) = k.
Proof. unfold pair_key. simpl. by rewrite Nat2Z.id, take_app_length. Qed.

Lemma wf_set h k v j old :
  wf h → valid_key k → v ≠ 0 → pairs h !! j = Some old → (home k ≤ j)%nat →
  (∀ x, (home k ≤ x < j)%nat → passes h k x) → (¬ in_use old ∨ pair_key old = k) →
  wf (mkmap (<[j := new_pair k v old]> (pairs h)) (capacity h)).
Proof.
  intros [Hcap Hlen Hkey Hpair Hreach] [Hk1 Hk2] Hv Hj Hhome Hpass Hold.
  pose proof (Hkey j old Hj) as Hol.
  split; simpl; [done|by rewrite length_insert| | |].
  - intros i p Hp. apply list_lookup_insert_Some in Hp as [(<- & <- & _)|[_ Hp]]; [|eauto].
    simpl. rewrite length_app, length_drop. lia.
  - intros i p Hp Hu. apply list_lookup_insert_Some in Hp as [(<- & <- & _)|[_ Hp]]; [|eauto].
    rewrite new_pair_key. simpl. split; [lia|done].
  - intros i p Hp Hu. apply list_lookup_insert_Some in Hp as [(<- & <- & _)|[Hne Hp]].
    + rewrite new_pair_key. split; [done|]. intros x Hx.
      destruct (Hpass x Hx) as (q & Hq & ?). exists q. rewrite list_lookup_insert_ne by lia. done.
    + destruct (Hreach i p Hp Hu) as [Hh Hpath]. split; [done|]. intros x Hx.
      destruct (Hpath x Hx) as (q & Hq & Huq & Hqk). destruct (decide (x = j)) as [->|].
      * simplify_eq. destruct Hold as [?|<-]; [done|].
        exists (new_pair (pair_key old) v old). rewrite list_lookup_insert_eq by (by eapply lookup_lt_Some).
        split; [done|]. split; [done|]. by rewrite new_pair_key.
      * exists q. by rewrite list_lookup_insert_ne.
Qed.

Lemma holds_set h k v j old k' v' :
  v ≠ 0 → pairs h !! j = Some old → (¬ in_use old ∨ pair_key old = k) →
  (∀ i p, pairs h !! i = Some p → in_use p → pair_key p = k → i = j) →
  holds (mkmap (<[j := new_pair k v old]> (pairs h)) (capacity h)) k' v' ↔
  (k' = k ∧ v' = v) ∨ (k' ≠ k ∧ holds h k' v').
Proof.
  intros Hv Hj Hold Huniq. apply lookup_lt_Some in Hj as Hlt. split.
  - intros (i & p & Hp & Hu & Hpk & Hpv). simpl in Hp.
    apply list_lookup_insert_Some in Hp as [(<- & <- & _)|[Hne Hp]].
    + rewrite new_pair_key in Hpk. left. done.
    + right. split; [|by exists i, p]. intros ->. by destruct Hne, (Huniq i p).
  - intros [[-> ->]|[Hne (i & p & Hp & Hu & Hpk & Hpv)]].
    + exists j, (new_pair k v old). rewrite new_pair_key. simpl.
      by rewrite list_lookup_insert_eq.
    + exists i, p. simpl. rewrite list_lookup_insert_ne; [done|]. intros <-.
      simplify_eq. naive_solver.
Qed.

Lemma empty_represents : represents (mkmap (replicate 64 zero_pair) 64) ∅.
Proof.
  assert (∀ i p, replicate 64 zero_pair !! i = Some p → p = zero_pair) as Hz.
  { intros i p Hp. by apply lookup_replicate_1 in Hp as [-> _]. }
  split.
  - split; [done|done| | |]; intros i p ->%Hz; [done|intros []; done..].
  - intros k v. rewrite lookup_empty. split; [done|].
    intros (i & p & Hp & Hu & _). apply Hz in Hp as ->. by destruct Hu.
Qed.

(** C23. The hash map implements a finite map from keys of 1 to 16 bytes: [get]
    returns the value of the key, or NULL; [set] updates the map, or fails without
    a change, and only when the key is absent and all the entries from its home to
    the end of the table are taken by other keys. *)
Theorem hash_map_refines h m k :
  represents h m → valid_key k →
  hash_map_get h k = Ret (default 0 (m !! k)) ∧
  ∀ v, v ≠ 0 →
    (∃ h', hash_map_set k v h = Ret (0, h') ∧ represents h' (<[k := v]> m)) ∨
    (hash_map_set k v h = Ret (-1, h) ∧ m !! k = None ∧
     ∀ i, (home k ≤ i < 64)%nat → passes h k i).
Proof.
  intros [H Hm] Hk. split.
  - destruct (hash_map_get_run h k H Hk) as (v & -> & Hv). f_equal.
    destruct (m !! k) as [x|] eqn:E; simpl.
    + apply Hm, Hv in E as [_ ->]. done.
    + destruct (Z.eq_dec v 0) as [|Hne]; [done|].
      assert (m !! k = Some v) by (apply Hm, Hv; done). congruence.
  - intros v Hv. destruct (probe h k H Hk) as (j & E & Hj & Hpass & Hstop & Huniq).
    unfold hash_map_set. destruct (Z.eqb_spec v 0); [done|].
    destruct (Z.gtb_spec (Z.of_nat (length k)) HASH_MAP_MAX_KEY_SIZE) as [Hgt|_].
    { destruct Hk. unfold HASH_MAP_MAX_KEY_SIZE in Hgt. lia. }
    rewrite (wf_capacity h H), E. cbn [obind]. pose proof (wf_pairs h H).
    destruct Hstop as [(old & Hold & Hcase)| ->].
    + left. apply lookup_lt_Some in Hold as Hlt.
      destruct (Z.eqb_spec (Z.of_nat j) 64); [lia|].
      rewrite (arr_get_lookup _ _ old) by (rewrite ?Nat2Z.id; done || lia). cbn [obind].
      rewrite arr_set_Ret, Nat2Z.id by lia. cbn [obind].
      fold (new_pair k v old). eexists. split; [done|].
      pose proof (wf_set h k v j old H Hk Hv Hold ltac:(lia) Hpass Hcase) as Hwf.
      rewrite (wf_capacity h H) in Hwf. split; [done|]. intros k' v'.
      rewrite <- (wf_capacity h H), (holds_set h k v j old) by done.
      rewrite lookup_insert_Some, Hm. naive_solver.
    + right. destruct (Z.eqb_spec (Z.of_nat 64) 64); [|lia]. split; [done|].
      split; [|intros i Hi; apply Hpass; lia].
      destruct (m !! k) as [x|] eqn:Ex; [|done]. exfalso.
      apply Hm in Ex as (i & p & Hp & Hu & Hpk & _). pose proof (Huniq i p Hp Hu Hpk). subst i.
      apply lookup_lt_Some in Hp. lia.
Qed.

Lemma hash_map_refines_witness :
  hash_map_get (mkmap (replicate 64 zero_pair) 64) [1; 2] = Ret 0 ∧
  ∃ h', hash_map_set [1; 2] 7 (mkmap (replicate 64 zero_pair) 64) = Ret (0, h') ∧
        represents h' (<[[1; 2] := 7]> ∅).
Proof.
  destruct (hash_map_refines _ ∅ [1; 2] empty_represents) as [Hget Hset].
  { split; simpl; lia. }
  split; [exact Hget|].
  destruct (Hset 7 ltac:(lia)) as [(h' & E & Hr)|[E _]]; [exists h'; auto|].
  vm_compute in E. discriminate.
Defined.

(** [hash_map_create] returns -1 also when it has built the map. *)
Theorem hash_map_create_fails h :
  Heap.inv h → Heap.fits_word h 0x800 →
  ∃ r h', hash_map_create h = Ret ((-1, r), h') ∧
    ∀ hm, r = Some hm → represents hm ∅.
Proof.
  intros Hi Hfit. unfold hash_map_create.
  destruct (Heap.calloc_fresh h SIZEOF_HASH_MAP Hi) as (p & h1 & E1 & Hi1 & Hc1).
  { destruct Hfit. split; unfold SIZEOF_HASH_MAP; lia. }
  rewrite (bind_Ret _ _ _ _ _ E1). destruct (Z.eqb_spec p 0) as [|Hp].
  { exists None, h1. split; [done|]. done. }
  destruct Hc1 as [[? _]|(_ & _ & _ & _ & Hcur)]; [done|].
  destruct (Heap.calloc_fresh h1 (u32 (HASH_MAP_DEFAULT_CAPACITY * SIZEOF_KV_PAIR)) Hi1)
    as (q & h2 & E2 & Hi2 & _).
  { destruct Hfit. unfold SIZEOF_HASH_MAP, HASH_MAP_DEFAULT_CAPACITY, SIZEOF_KV_PAIR in *.
    change (u32 (64 * 28)) with 1792. split; lia. }
  rewrite (bind_Ret _ _ _ _ _ E2). destruct (Z.eqb_spec q 0).
  { exists None, h2. split; [done|]. done. }
  eexists _, h2. split; [done|]. intros hm [= <-]. apply empty_represents.
Qed.

Lemma hash_map_create_fails_witness :
  ∃ r h', hash_map_create (Heap.empty_heap 0x01000000) = Ret ((-1, r), h').
Proof.
  destruct (hash_map_create_fails (Heap.empty_heap 0x01000000)) as (r & h' & E & _).
  - apply Heap.empty_heap_inv; [lia|lia|reflexivity].
  - split; simpl; lia.
  - exists r, h'. exact E.
Defined.

End Hash.
