(* ===== verification/Scheduler.v ===== *)
(** * The scheduler: [kernel/scheduler/scheduler.c]

    The process table and the operations on it: fork, wait, exit, task
    switching, file descriptors.  [exec], which needs the ELF loader, is in
    [Exec].  A [process_t *] is the process' index in the table. *)
From S2P Require Import Prelude Bitfield Mmu Alloc.

(** ** What the scheduler needs of the file system *)

(** The reference count of an open [file_t], by the file's address. *)
Class Files (F : Type) : Type := {
  fd_count : F → Z → option Z;
  set_fd_count : Z → Z → F → F;
  fd_count_set f n s g : is_Some (fd_count s f) →
    fd_count (set_fd_count f n s) g = if decide (g = f) then Some n else fd_count s g;
}.

Module Scheduler.

(** ** Constants *)

Definition PROCESS_SECTION_VIRTUAL_ADDRRESS : Z := 0x00800000.
Definition PROCESS_STACK_VIRTUAL_ADDRRESS : Z := 0x0083FFFC.
Definition PROCESS_PROGRAM_START_VADRR : Z := 0x00840000.
Definition PROCESS_PROGRAM_END_VADRR : Z := 0x00880000.
Definition MAX_FILE_DESCRIPTOR_COUNT : Z := 16.
Definition FD_BITFIELD_COUNT : Z := MAX_FILE_DESCRIPTOR_COUNT / 8.
Definition SCHEDULER_MAX_TASK_COUNT : Z := 32.
Definition INIT_PROC_ID : Z := 1.
Definition CPU_CPSR_MODE_MASK : Z := 0x1F.
Definition CPU_CPSR_MODE_USER : Z := 0x10.
Definition CPU_CPSR_DISABLE_FIQ : Z := Z.shiftl 1 6.

(** ** Data *)

(** [task_context_t]: the saved registers *)
Record task_context : Type := mkctx {
  r0 : Z; lr_usr : Z; sp : Z; spsr : Z;
  r1 : Z; r2 : Z; r3 : Z; r4 : Z; r5 : Z; r6 : Z;
  r7 : Z; r8 : Z; r9 : Z; r10 : Z; r11 : Z; r12 : Z;
  lr : Z;
}.

Definition zero_context : task_context := mkctx 0 0 0 0 0 0 0 0 0 0 0 0 0 0 0 0 0.

Definition set_r0 (v : Z) (c : task_context) : task_context :=
  mkctx v (lr_usr c) (sp c) (spsr c) (r1 c) (r2 c) (r3 c) (r4 c) (r5 c) (r6 c)
        (r7 c) (r8 c) (r9 c) (r10 c) (r11 c) (r12 c) (lr c).

(** [schedule_state_t]: the tag with the member of the union it selects; the
    code reads no other member. *)
Inductive schedule_state_t : Type :=
| PROC_SCHEDULED
| PROC_SUSPENDED (wait_pid wstatus_ref : Z)
| PROC_EXITED (wstatus : Z).

(** [process_t]; [files] are addresses of [file_t], NULL is 0. *)
Record process : Type := mkproc {
  context : task_context;
  id : Z;
  parent_id : Z;
  schedule_state : schedule_state_t;
  translation_table : Z;
  memory_section : Z;
  files : list Z;
  files_bitfield : list Z;
}.

Definition with_context (c : task_context) (p : process) : process :=
  mkproc c (id p) (parent_id p) (schedule_state p) (translation_table p)
         (memory_section p) (files p) (files_bitfield p).
Definition with_parent (pid : Z) (p : process) : process :=
  mkproc (context p) (id p) pid (schedule_state p) (translation_table p)
         (memory_section p) (files p) (files_bitfield p).
Definition with_state (st : schedule_state_t) (p : process) : process :=
  mkproc (context p) (id p) (parent_id p) st (translation_table p)
         (memory_section p) (files p) (files_bitfield p).
Definition with_resources (table section : Z) (p : process) : process :=
  mkproc (context p) (id p) (parent_id p) (schedule_state p) table section
         (files p) (files_bitfield p).
Definition with_files (fs bf : list Z) (p : process) : process :=
  mkproc (context p) (id p) (parent_id p) (schedule_state p) (translation_table p)
         (memory_section p) fs bf.

(** [memset(proc, 0, sizeof(process_t))] *)
Definition zero_process : process :=
  mkproc zero_context 0 0 PROC_SCHEDULED 0 0
         (replicate (Z.to_nat MAX_FILE_DESCRIPTOR_COUNT) 0)
         (replicate (Z.to_nat FD_BITFIELD_COUNT) 0).

Record scheduler_t : Type := mksched {
  processes : list process;
  proc_count : Z;
  current_proc : Z;
  id_gen : Z;
}.

(** The megabyte sections of RAM in use, by base address: the bytes by offset,
    0 where there is none. *)
Abbreviation ram_t := (gmap Z (gmap Z Z)).

(** ** The state the scheduler works on *)

Section scheduler.
Context {F : Type} `{!Files F}.

Record world : Type := mkworld {
  sections : SectionAllocator.section_allocator_t;
  ttables : TranslationTableAllocator.translation_table_allocator_t;
  ram : ram_t;
  sched : scheduler_t;
  filesys : F;
}.

#[global] Program Instance world_sections : Has world SectionAllocator.section_allocator_t := {
  comp_get := sections;
  comp_set c w := mkworld c (ttables w) (ram w) (sched w) (filesys w);
}.
Solve All Obligations with by intros; destruct_all world || done.

#[global] Program Instance world_ttables :
    Has world TranslationTableAllocator.translation_table_allocator_t := {
  comp_get := ttables;
  comp_set c w := mkworld (sections w) c (ram w) (sched w) (filesys w);
}.
Solve All Obligations with by intros; destruct_all world || done.

#[global] Program Instance world_sched : Has world scheduler_t := {
  comp_get := sched;
  comp_set c w := mkworld (sections w) (ttables w) (ram w) c (filesys w);
}.
Solve All Obligations with by intros; destruct_all world || done.

#[global] Program Instance world_filesys : Has world F := {
  comp_get := filesys;
  comp_set c w := mkworld (sections w) (ttables w) (ram w) (sched w) c;
}.
Solve All Obligations with by intros; destruct_all world || done.

#[global] Program Instance world_ram : Has world ram_t := {
  comp_get := ram;
  comp_set c w := mkworld (sections w) (ttables w) c (sched w) (filesys w);
}.
Solve All Obligations with by intros; destruct_all world || done.

Abbreviation MW := (M (world)).

(** ** Physical memory *)

Definition ram_store (a b : Z) (m : ram_t) : outcome ram_t :=
  let section := a / 0x100000 * 0x100000 in
  match m !! section with
  | Some s => Ret (<[section := <[a `mod` 0x100000 := u8 b]> s]> m)
  | None => Fault
  end.

Definition ram_load (a : Z) (m : ram_t) : outcome Z :=
  match m !! (a / 0x100000 * 0x100000) with
  | Some s => Ret (default 0 (s !! (a `mod` 0x100000)))
  | None => Fault
  end.

(** A 32 bit word, little endian. *)
Definition ram_store_word (a v : Z) (m : ram_t) : outcome ram_t :=
  let? m := ram_store a v m in
  let? m := ram_store (a + 1) (Z.shiftr v 8) m in
  let? m := ram_store (a + 2) (Z.shiftr v 16) m in
  ram_store (a + 3) (Z.shiftr v 24) m.

Definition ram_load_word (a : Z) (m : ram_t) : outcome Z :=
  let? b0 := ram_load a m in
  let? b1 := ram_load (a + 1) m in
  let? b2 := ram_load (a + 2) m in
  let? b3 := ram_load (a + 3) m in
  Ret (b0 + 0x100 * b1 + 0x10000 * b2 + 0x1000000 * b3).

(** [*ptr = v] on a [uint32_t *] into a process section *)
Definition store_word (ptr v : Z) : MW unit := λ w,
  let? m := ram_store_word ptr v (ram w) in
  Ret ((), mkworld (sections w) (ttables w) m (sched w) (filesys w)).

(** [memset(section, 0, MMU_SECTION_SIZE)] *)
Definition clear_section (section : Z) : MW unit := λ w,
  Ret ((), mkworld (sections w) (ttables w) (<[section := ∅]> (ram w)) (sched w) (filesys w)).

(** [memcpy(dst, src, MMU_SECTION_SIZE)] *)
Definition copy_section (dst src : Z) : MW unit := λ w,
  match ram w !! src with
  | Some s => Ret ((), mkworld (sections w) (ttables w) (<[dst := s]> (ram w)) (sched w) (filesys w))
  | None => Fault
  end.

(** ** Translation tables *)

Definition get_table (table : Z) : MW (list Z) := λ w,
  deref (TranslationTableAllocator.tables (ttables w) !! table) w.

(** Run [f] on the table at [table] and store the result. *)
Definition on_table (table : Z) (f : list Z → outcome (list Z)) : MW unit :=
  let* t := get_table table in
  let* t' := lift (f t) in
  λ w, let tt_ := ttables w in
    Ret ((), mkworld (sections w)
      (TranslationTableAllocator.mk (TranslationTableAllocator.alloc_bitfields tt_)
        (TranslationTableAllocator.memory_section_base tt_)
        (<[table := t']> (TranslationTableAllocator.tables tt_)))
      (ram w) (sched w) (filesys w)).

(** ** The process table *)

Definition set_sched (s : scheduler_t) (w : world) : world :=
  mkworld (sections w) (ttables w) (ram w) s (filesys w).

Definition get_proc (i : Z) : MW process := λ w,
  lift (arr_get (processes (sched w)) i) w.

Definition set_proc (i : Z) (p : process) : MW unit := λ w,
  let s := sched w in
  let? ps := arr_set (processes s) i p in
  Ret ((), set_sched (mksched ps (proc_count s) (current_proc s) (id_gen s)) w).

Definition upd_proc (i : Z) (f : process → process) : MW unit :=
  let* p := get_proc i in set_proc i (f p).

Definition set_proc_count (n : Z) : MW unit :=
  modify (λ w, let s := sched w in
    set_sched (mksched (processes s) n (current_proc s) (id_gen s)) w).

Definition set_current (n : Z) : MW unit :=
  modify (λ w, let s := sched w in
    set_sched (mksched (processes s) (proc_count s) n (id_gen s)) w).

(** [++_scheduler->id_gen], read as an [int32_t] *)
Definition next_pid : MW Z := λ w,
  let s := sched w in
  let n := u32 (id_gen s + 1) in
  Ret (s32 n, set_sched (mksched (processes s) (proc_count s) (current_proc s) n) w).

(** The [memmove] of the entries above [index] one place down: the table keeps
    its size, and the last entry in use stays behind as it was. *)
Definition memmove_down (index count : nat) (ps : list process) : list process :=
  take index ps ++ take (count - (index + 1)) (drop (index + 1) ps) ++ drop (count - 1) ps.

Definition _remove_process (index : Z) : MW unit :=
  let* s := gets sched in
  if index >=? proc_count s then
    fatal "trying to remove a process outside of process table"
  else
    let* proc := get_proc index in
    let* _ := kassert (memory_section proc =? 0) "proc->memory_section == NULL" in
    let* _ := kassert (translation_table proc =? 0) "proc->translation_table == NULL" in
    let* _ := modify (λ w,
      set_sched (mksched
        (memmove_down (Z.to_nat index) (Z.to_nat (proc_count s)) (processes s))
        (u32 (proc_count s - 1)) (current_proc s) (id_gen s)) w) in
    let* s := gets sched in
    if index =? current_proc s then
      if index =? 0 then set_current (u32 (proc_count s - 1))
      else set_current (u32 (current_proc s - 1))
    else ret ().

Definition _get_current_proc : MW Z :=
  let* s := gets sched in
  if current_proc s >=? proc_count s then
    fatal "scheduluer: get current proc: index is beyond proc count"
  else ret (current_proc s).

(** The loop of [_find_proc_by_pid], with [n] entries to go from [i] on. *)
Fixpoint find_loop (n : nat) (i pid : Z) (ps : list process) : outcome (option Z) :=
  match n with
  | O => Ret None
  | S n =>
      let? proc := arr_get ps i in
      if id proc =? pid then Ret (Some i) else find_loop n (i + 1) pid ps
  end.

(** NULL is [None]. *)
Definition _find_proc_by_pid (pid : Z) : MW (option Z) := λ w,
  lift (find_loop (Z.to_nat (proc_count (sched w))) 0 pid (processes (sched w))) w.

Definition _proc_context_init (stack_address entry argv : Z) : task_context :=
  mkctx argv 0 stack_address (Z.lor CPU_CPSR_MODE_USER CPU_CPSR_DISABLE_FIQ)
        0 0 0 0 0 0 0 0 0 0 0 0 entry.

Definition _proc_init_resources (new_proc proc_id parent_proc_id : Z) : MW unit :=
  let* _ := set_proc new_proc zero_process in
  let* _ := upd_proc new_proc (λ p,
    mkproc (context p) proc_id parent_proc_id PROC_SCHEDULED
           (translation_table p) (memory_section p) (files p) (files_bitfield p)) in
  let* section := zoom SectionAllocator.section_allocator_alloc in
  let* _ := upd_proc new_proc (λ p, with_resources (translation_table p) section p) in
  let* _ := if section =? 0 then fatal "failed to allocate a process memory section"
            else ret () in
  let* _ := clear_section section in
  let* table := zoom TranslationTableAllocator.translation_table_allocator_alloc in
  let* _ := upd_proc new_proc (λ p, with_resources table (memory_section p) p) in
  if table =? 0 then fatal "failed to allocate a process transaction table" else ret ().

(** ** File descriptors *)

(** [file->fd_count++], [file->fd_count--] *)
Definition add_fd_count (file delta : Z) : M F unit := λ f,
  match fd_count f file with
  | Some n => Ret ((), set_fd_count file (u32 (n + delta)) f)
  | None => Fault
  end.

Definition _proc_add_fd (proc file : Z) : MW Z :=
  let* p := get_proc proc in
  let* r := lift (Bitfield.bitfield_acquire_first (files_bitfield p) FD_BITFIELD_COUNT) in
  let '(fd, bf) := r in
  let* _ := upd_proc proc (λ p, with_files (files p) bf p) in
  if fd >=? 0 then
    let* _ := zoom (add_fd_count file 1) in
    let* p := get_proc proc in
    let* fs := lift (arr_set (files p) fd file) in
    let* _ := upd_proc proc (λ p, with_files fs (files_bitfield p) p) in
    ret fd
  else ret fd.

(** [fd] is passed as a [uint32_t]. *)
Definition _proc_rem_fd (proc fd : Z) : MW unit :=
  let* p := get_proc proc in
  let* b := lift (Bitfield.bitfield_bit (files_bitfield p) FD_BITFIELD_COUNT (u32 fd)) in
  if b =? 0 then ret ()
  else
    let* file := lift (arr_get (files p) fd) in
    let* n := λ w, deref (fd_count (filesys w) file) w in
    let* _ := kassert (n >? 0) "file->fd_count > 0" in
    let* _ := zoom (add_fd_count file (-1)) in
    let* bf := lift (Bitfield.bitfield_clear (files_bitfield p) FD_BITFIELD_COUNT (u32 fd)) in
    upd_proc proc (λ p, with_files (files p) bf p).

(** The file's address, or NULL (0). *)
Definition _proc_get_fd (proc fd : Z) : MW Z :=
  let* p := get_proc proc in
  let* b := lift (Bitfield.bitfield_bit (files_bitfield p) FD_BITFIELD_COUNT (u32 fd)) in
  if b =? 0 then ret 0 else lift (arr_get (files p) fd).

(** ** Scheduling *)

(** The loop of [_select_next_scheduled_proc], with [n] turns to go. *)
Fixpoint select_loop (n : nat) : MW Z :=
  match n with
  | O => fatal "no more scheduled processes"
  | S n =>
      let* s := gets sched in
      let* _ := set_current (u32 (current_proc s + 1)) in
      let* s := gets sched in
      let* _ := if current_proc s =? proc_count s then set_current 0 else ret () in
      let* cur := _get_current_proc in
      let* p := get_proc cur in
      match schedule_state p with
      | PROC_SCHEDULED => ret cur
      | _ => select_loop n
      end
  end.

Definition _select_next_scheduled_proc : MW Z :=
  let* s := gets sched in select_loop (Z.to_nat (proc_count s)).

Definition _cleanup_proc_resources (proc : Z) : MW unit :=
  let* p := get_proc proc in
  let* _ := zoom (TranslationTableAllocator.translation_table_allocator_free
                    (translation_table p)) in
  let* _ := upd_proc proc (λ p, with_resources 0 (memory_section p) p) in
  let* _ := zoom (SectionAllocator.section_allocator_free (memory_section p)) in
  upd_proc proc (λ p, with_resources (translation_table p) 0 p).

Definition scheduler_save_current_context (current_context : task_context) : MW unit :=
  let* cur := _get_current_proc in
  upd_proc cur (with_context current_context).

(** The log reads the old pid from the table. *)
Definition scheduler_switch_task : MW Z :=
  let* s := gets sched in
  let* _ := get_proc (current_proc s) in
  _select_next_scheduled_proc.

Definition scheduler_cur_proc_set_syscall_status (status : Z) : MW unit :=
  let* cur := _get_current_proc in
  upd_proc cur (λ p, with_context (set_r0 (u32 status) (context p)) p).

Definition scheduler_cur_proc_to_kernel_address (process_virtual_address : Z) : MW Z :=
  let* cur := _get_current_proc in
  let* p := get_proc cur in
  let* t := get_table (translation_table p) in
  lift (Mmu.mmu_translate_virtual_address t process_virtual_address).

(** ** fork, wait, exit *)

(** The loop of fork that shares the open files, with [n] descriptors to go. *)
Fixpoint copy_files (n : nat) (index src dst : Z) : MW unit :=
  match n with
  | O => ret ()
  | S n =>
      let* p := get_proc src in
      let* b := lift (Bitfield.bitfield_bit (files_bitfield p) FD_BITFIELD_COUNT index) in
      let* _ :=
        if b =? 0 then
          let* q := get_proc dst in
          let* fs := lift (arr_set (files q) index 0) in
          upd_proc dst (λ q, with_files fs (files_bitfield q) q)
        else
          let* file := lift (arr_get (files p) index) in
          let* _ := zoom (add_fd_count file 1) in
          let* q := get_proc dst in
          let* fs := lift (arr_set (files q) index file) in
          upd_proc dst (λ q, with_files fs (files_bitfield q) q) in
      copy_files n (index + 1) src dst
  end.

Definition scheduler_cur_proc_fork : MW Z :=
  let* s := gets sched in
  if proc_count s >=? SCHEDULER_MAX_TASK_COUNT then ret (-1)
  else
    let* cur := _get_current_proc in
    let* new_proc_id := next_pid in
    let new_index := proc_count s in
    let* _ := set_proc_count (u32 (new_index + 1)) in
    let* p := get_proc cur in
    let* _ := _proc_init_resources new_index new_proc_id (id p) in
    let* p := get_proc cur in
    let* _ := upd_proc new_index (with_context (context p)) in
    let* _ := upd_proc new_index (λ q, with_context (set_r0 0 (context q)) q) in
    let* q := get_proc new_index in
    let* _ := copy_section (memory_section q) (memory_section p) in
    let* _ := copy_files (Z.to_nat MAX_FILE_DESCRIPTOR_COUNT) 0 cur new_index in
    let* _ := upd_proc new_index (λ q, with_files (files q) (files_bitfield p) q) in
    let* t := get_table (translation_table p) in
    let* _ := on_table (translation_table q) (λ _, Ret t) in
    let* _ := on_table (translation_table q) (λ t,
      Mmu.translation_table_add_single_section t (memory_section q)
        PROCESS_SECTION_VIRTUAL_ADDRRESS Mmu.MMU_L1_SECTION_AP_KERNEL_RW_USER_RW) in
    ret new_proc_id.

Definition scheduler_cur_proc_wait_id (pid wstatus : Z) : MW Z :=
  let* cur := _get_current_proc in
  if pid =? -1 then ret (-1)
  else
    let* child := _find_proc_by_pid pid in
    match child with
    | None => ret (-1)
    | Some child =>
        let* c := get_proc child in
        match schedule_state c with
        | PROC_EXITED st =>
            let* _ := store_word wstatus st in
            let* _ := _remove_process child in
            ret pid
        | _ =>
            let* _ := upd_proc cur (with_state (PROC_SUSPENDED pid wstatus)) in
            ret 0
        end
    end.

(** The loop of exit that hands the children over to init. *)
Fixpoint reparent_loop (n : nat) (i cur : Z) : MW unit :=
  match n with
  | O => ret ()
  | S n =>
      let* p := get_proc i in
      let* c := get_proc cur in
      let* _ := if parent_id p =? id c then upd_proc i (with_parent INIT_PROC_ID)
                else ret () in
      reparent_loop n (i + 1) cur
  end.

(** The end of exit, from the comment "reshedule parent if relevant" on. *)
Definition exit_reschedule_parent (cur status : Z) : MW unit :=
  let* c := get_proc cur in
  let* parent := _find_proc_by_pid (parent_id c) in
  match parent with
  | None => fatal "found a non init proc without a parent"
  | Some parent =>
      let* p := get_proc parent in
      match schedule_state p with
      | PROC_SUSPENDED wait_pid wstatus_ref =>
          if wait_pid =? id c then
            let* _ := store_word wstatus_ref (u32 status) in
            let* _ := upd_proc parent (with_state PROC_SCHEDULED) in
            let* _ := upd_proc parent (λ p, with_context (set_r0 (u32 (id c)) (context p)) p) in
            _remove_process cur
          else ret ()
      | _ => ret ()
      end
  end.

Definition scheduler_cur_proc_exit (status : Z) : MW unit :=
  let* cur := _get_current_proc in
  let* c := get_proc cur in
  if id c =? 1 then fatal "scheduler: init proc was exited"
  else
    let* _ := upd_proc cur (with_state (PROC_EXITED (u32 status))) in
    let* _ := _cleanup_proc_resources cur in
    let* s := gets sched in
    let* _ := reparent_loop (Z.to_nat (proc_count s)) 0 cur in
    exit_reschedule_parent cur status.

Definition scheduler_cur_proc_get_id : MW Z :=
  let* cur := _get_current_proc in let* p := get_proc cur in ret (id p).
Definition scheduler_cur_proc_get_parent_id : MW Z :=
  let* cur := _get_current_proc in let* p := get_proc cur in ret (parent_id p).
Definition scheduler_cur_proc_add_fd (file : Z) : MW Z :=
  let* cur := _get_current_proc in _proc_add_fd cur file.
Definition scheduler_cur_proc_rem_fd (fd : Z) : MW unit :=
  let* cur := _get_current_proc in _proc_rem_fd cur fd.
Definition scheduler_cur_proc_get_fd (fd : Z) : MW Z :=
  let* cur := _get_current_proc in _proc_get_fd cur fd.

(** A fault in user mode kills the process, one in the kernel is fatal. *)
Definition scheduler_data_exception (spsr : Z) : MW unit :=
  let cpu_mode := u8 (Z.land spsr CPU_CPSR_MODE_MASK) in
  if cpu_mode =? CPU_CPSR_MODE_USER then scheduler_cur_proc_exit 1
  else fatal "data exception was thrown from kernel code".

(** [scheduler_start] up to the file descriptors: the init process with its
    address space. *)
Definition start_init_proc : MW Z :=
  let* _ := set_current 0 in
  let* _ := set_proc_count 1 in
  let* init_process_pid := next_pid in
  let* _ := if negb (init_process_pid =? INIT_PROC_ID)
            then fatal "scheduler: unexpected init process pid" else ret () in
  let* _ := _proc_init_resources 0 init_process_pid 0 in
  let* p := get_proc 0 in
  let* _ := on_table (translation_table p) (λ t,
    Mmu.translation_table_add_identity_mapping t 0x00000000 0x00800000
      Mmu.MMU_L1_SECTION_AP_KERNEL_RW_USER_NONE) in
  let* _ := on_table (translation_table p) (λ t,
    Mmu.translation_table_add_single_section t (memory_section p)
      PROCESS_SECTION_VIRTUAL_ADDRRESS Mmu.MMU_L1_SECTION_AP_KERNEL_RW_USER_RW) in
  ret 0.

(** Standard input, output and error on the terminal's file. *)
Definition start_init_fds (tty : Z) : MW unit :=
  let* _ := if tty =? 0 then fatal "scheduler: init: failed to open tty device at /dev/tty"
            else ret () in
  let* stdin := _proc_add_fd 0 tty in
  let* stdout := _proc_add_fd 0 tty in
  let* stderr := _proc_add_fd 0 tty in
  if negb (stdin =? 0) || negb (stdout =? 1) || negb (stderr =? 2)
  then fatal "scheduler: init: unexpected fd num for standard IOs" else ret ().

End scheduler.
Arguments world : clear implicits.
End Scheduler.
