(* ===== verification/SchedulerInv.v ===== *)
(** * The scheduler's invariant

    What holds of the process table between two operations of the scheduler,
    with the lemmas by which the operations are shown to keep it. *)
From S2P Require Import Prelude Bitfield Mmu Alloc Scheduler.
Import Scheduler.

Module SchedulerInv.

(** The process has not exited. *)
Definition alive (p : process) : bool :=
  match schedule_state p with PROC_EXITED _ => false | _ => true end.

(** ** The shape of the table *)

(** Processes stand in the order of their creation, init first; every other
    process has a parent, created before it, that has not exited. *)
Record ids_ok (gen : Z) (l : list process) : Prop := {
  ids_init : ∃ p, l !! O = Some p ∧ id p = INIT_PROC_ID ∧ alive p = true;
  ids_sorted : ∀ i j p q, l !! i = Some p → l !! j = Some q → (i < j)%nat → id p < id q;
  ids_range : ∀ i p, l !! i = Some p → 1 ≤ id p ≤ gen;
  ids_parent : ∀ i p, l !! i = Some p → i ≠ O →
    ∃ j q, l !! j = Some q ∧ (j < i)%nat ∧ id q = parent_id p ∧ alive q = true;
}.

(** No two live processes share a section or a translation table. *)
Definition exclusive (l : list process) : Prop :=
  ∀ i j p q, l !! i = Some p → l !! j = Some q → i ≠ j → alive p = true → alive q = true →
    memory_section p ≠ memory_section q ∧ translation_table p ≠ translation_table q.

(** The [wstatus] pointer of a suspended process is in its own section. *)
Definition ref_ok (p : process) : Prop :=
  match schedule_state p with
  | PROC_SUSPENDED _ ref =>
      memory_section p ≤ ref ∧ ref + 4 ≤ memory_section p + 0x100000
  | _ => True
  end.

(** What a live process owns; an exited one owns nothing. *)
Definition res_ok (s : SectionAllocator.section_allocator_t)
    (t : TranslationTableAllocator.translation_table_allocator_t) (m : ram_t)
    (p : process) : Prop :=
  if alive p then
    slot_owned s (memory_section p) = true ∧
    slot_owned t (translation_table p) = true ∧
    is_Some (m !! memory_section p) ∧
    (∃ tb, TranslationTableAllocator.tables t !! translation_table p = Some tb ∧
           Mmu.grants_only tb 8 (memory_section p)) ∧
    ref_ok p
  else memory_section p = 0 ∧ translation_table p = 0.

(** The descriptor table; a descriptor in use stands for an existing file. *)
Definition fds_ok {F} `{!Files F} (fs : F) (p : process) : Prop :=
  length (files p) = 16%nat ∧ Bitfield.wf 2 (files_bitfield p) ∧
  ∀ fd, 0 ≤ fd < 16 → Bitfield.used (files_bitfield p) fd = true →
    ∃ file, files p !! Z.to_nat fd = Some file ∧ is_Some (fd_count fs file).

Definition live (s : scheduler_t) : list process :=
  take (Z.to_nat (proc_count s)) (processes s).

Section inv.
Context {F : Type} `{!Files F}.
Implicit Types (w : world F).

Record wf (w : world F) : Prop := {
  wf_sections : slot_inv (sections w);
  wf_ttables : slot_inv (ttables w);
  wf_table : length (processes (sched w)) = 32%nat;
  wf_count : 1 ≤ proc_count (sched w) ≤ 32;
  wf_current : 0 ≤ current_proc (sched w) < proc_count (sched w);
  wf_gen : 1 ≤ id_gen (sched w) < 0x80000000;
  wf_ids : ids_ok (id_gen (sched w)) (live (sched w));
  wf_excl : exclusive (live (sched w));
  wf_res : Forall (res_ok (sections w) (ttables w) (ram w)) (live (sched w));
  wf_fds : Forall (fds_ok (filesys w)) (live (sched w));
}.

(** The running process: the current one, when it is scheduled. *)
Definition running (w : world F) (p : process) : Prop :=
  live (sched w) !! Z.to_nat (current_proc (sched w)) = Some p ∧
  schedule_state p = PROC_SCHEDULED.

(** ** The live part of the table *)

Lemma live_length s : length (processes s) = 32%nat → 0 ≤ proc_count s ≤ 32 →
  length (live s) = Z.to_nat (proc_count s).
Proof. intros H1 H2. unfold live. rewrite length_take. lia. Qed.

Lemma live_lookup s i p : live s !! i = Some p →
  processes s !! i = Some p ∧ (i < Z.to_nat (proc_count s))%nat.
Proof. intros H. by apply lookup_take_Some in H. Qed.

(** Changing one entry. *)
Lemma live_upd ps n c g c' g' i p :
  live (mksched (<[i := p]> ps) n c g) = <[i := p]> (live (mksched ps n c' g')).
Proof.
  unfold live. simpl. destruct (decide (i < Z.to_nat n)%nat).
  - by rewrite take_insert_lt.
  - rewrite take_insert_ge by lia.
    rewrite list_insert_ge; [done|]. rewrite length_take. lia.
Qed.

(** Adding an entry behind the last one. *)
Lemma live_push ps n c g c' g' p :
  length ps = 32%nat → 0 ≤ n < 32 →
  live (mksched (<[Z.to_nat n := p]> ps) (n + 1) c g) = live (mksched ps n c' g') ++ [p].
Proof.
  intros Hlen Hn. unfold live. simpl.
  replace (Z.to_nat (n + 1)) with (S (Z.to_nat n)) by lia.
  rewrite (take_S_r _ _ p); [|by rewrite list_lookup_insert_eq by lia].
  by rewrite take_insert_ge by lia.
Qed.

(** [memmove_down] deletes an entry. *)
Lemma take_memmove_down ps i n :
  (i < n)%nat → (n ≤ length ps)%nat →
  take (n - 1) (memmove_down i n ps) = delete i (take n ps).
Proof.
  intros Hi Hn. unfold memmove_down.
  rewrite delete_take_drop, take_take, skipn_firstn_comm, Nat.min_l by lia.
  rewrite app_assoc, take_app_le.
  2: { rewrite length_app, !length_take, length_drop. lia. }
  rewrite take_ge.
  2: { rewrite length_app, !length_take, length_drop. lia. }
  by replace (S i) with (i + 1)%nat by lia.
Qed.

Lemma length_memmove_down ps i n :
  (i < n)%nat → (n ≤ length ps)%nat → length (memmove_down i n ps) = length ps.
Proof.
  intros Hi Hn. unfold memmove_down.
  rewrite !length_app, !length_take, !length_drop. lia.
Qed.

End inv.

(** ** Keeping the shape *)

Implicit Types (l : list process).

(** [q] is [p] as far as the shape of the table goes. *)
Definition same_role (p q : process) : Prop :=
  id q = id p ∧ parent_id q = parent_id p ∧ alive q = alive p.

Lemma lookup_insert_role (R : process → process → Prop) l i p q j x :
  (∀ x, R x x) → l !! i = Some p → R p q → <[i := q]> l !! j = Some x →
  ∃ y, l !! j = Some y ∧ R y x.
Proof.
  intros Hrefl Hi HR Hj. apply list_lookup_insert_Some in Hj as [(<- & <- & _)|[Hne Hj]].
  - eauto.
  - eauto.
Qed.

Lemma lookup_insert_role_2 (R : process → process → Prop) l i p q j y :
  (∀ x, R x x) → l !! i = Some p → R p q → l !! j = Some y →
  ∃ x, <[i := q]> l !! j = Some x ∧ R y x.
Proof.
  intros Hrefl Hi HR Hj. destruct (decide (i = j)) as [->|Hne].
  - exists q. rewrite list_lookup_insert_eq by (by eapply lookup_lt_Some). naive_solver.
  - exists y. rewrite list_lookup_insert_ne by done. auto.
Qed.

Lemma same_role_refl p : same_role p p.
Proof. done. Qed.

Lemma ids_ok_insert gen l i p q :
  ids_ok gen l → l !! i = Some p → same_role p q → ids_ok gen (<[i := q]> l).
Proof.
  intros [Hinit Hsort Hrange Hpar] Hi Hrole.
  pose proof (lookup_insert_role same_role l i p q) as Hback.
  pose proof (lookup_insert_role_2 same_role l i p q) as Hfwd.
  split.
  - destruct Hinit as (p0 & H0 & ? & ?).
    destruct (Hfwd O p0 same_role_refl Hi Hrole H0) as (x & Hx & ? & ? & ?).
    exists x. split; [done|]. split; congruence.
  - intros j k x y Hx Hy Hlt.
    destruct (Hback j x same_role_refl Hi Hrole Hx) as (x' & Hx' & -> & _).
    destruct (Hback k y same_role_refl Hi Hrole Hy) as (y' & Hy' & -> & _). eauto.
  - intros j x Hx. destruct (Hback j x same_role_refl Hi Hrole Hx) as (x' & Hx' & -> & _). eauto.
  - intros j x Hx Hne.
    destruct (Hback j x same_role_refl Hi Hrole Hx) as (x' & Hx' & _ & -> & _).
    destruct (Hpar j x' Hx' Hne) as (k & y & Hy & Hlt & Hid & Hal).
    destruct (Hfwd k y same_role_refl Hi Hrole Hy) as (y' & Hy' & ? & ? & ?).
    exists k, y'. split; [done|]. split; [done|]. split; congruence.
Qed.

Lemma ids_ok_inj gen l i j p q :
  ids_ok gen l → l !! i = Some p → l !! j = Some q → id p = id q → i = j.
Proof.
  intros H Hi Hj Heq. destruct (Nat.lt_trichotomy i j) as [Hlt|[?|Hlt]]; [|done|].
  - pose proof (ids_sorted _ _ H i j p q Hi Hj Hlt). lia.
  - pose proof (ids_sorted _ _ H j i q p Hj Hi Hlt). lia.
Qed.

Lemma ids_ok_push gen l p par i :
  ids_ok gen l → l !! i = Some par → alive par = true →
  id p = gen + 1 → parent_id p = id par → ids_ok (gen + 1) (l ++ [p]).
Proof.
  intros [Hinit Hsort Hrange Hpar] Hi Hal Hid Hpid. split.
  - destruct Hinit as (p0 & H0 & ?). exists p0. split; [|done]. by apply lookup_app_l_Some.
  - intros j k x y Hx Hy Hlt.
    apply lookup_app_Some in Hx as [Hx|[? Hx]]; apply lookup_app_Some in Hy as [Hy|[? Hy]].
    + eauto.
    + apply list_lookup_singleton_Some in Hy as [? <-]. apply Hrange in Hx. lia.
    + apply lookup_lt_Some in Hy. lia.
    + apply list_lookup_singleton_Some in Hy as [? _].
      apply list_lookup_singleton_Some in Hx as [? _]. lia.
  - intros j x Hx. apply lookup_app_Some in Hx as [Hx|[? Hx]].
    + apply Hrange in Hx. lia.
    + apply list_lookup_singleton_Some in Hx as [? <-]. apply Hrange in Hi. lia.
  - intros j x Hx Hne. apply lookup_app_Some in Hx as [Hx|[? Hx]].
    + destruct (Hpar j x Hx Hne) as (k & y & Hy & ?). exists k, y.
      split; [|done]. by apply lookup_app_l_Some.
    + apply list_lookup_singleton_Some in Hx as [? <-]. exists i, par.
      apply lookup_lt_Some in Hi as Hlt. split; [by apply lookup_app_l_Some|]. split; [lia|done].
Qed.

(** Where the entries of [delete i l] come from. *)
Lemma lookup_delete_inv (l : list process) i j x :
  delete i l !! j = Some x →
  (l !! j = Some x ∧ (j < i)%nat) ∨ (l !! S j = Some x ∧ (i ≤ j)%nat).
Proof.
  intros H. destruct (decide (j < i)%nat).
  - rewrite list_lookup_delete_lt in H by done. auto.
  - rewrite list_lookup_delete_ge in H by lia. right. split; [done|lia].
Qed.

Lemma lookup_delete_other (l : list process) i j x :
  l !! j = Some x → j ≠ i →
  ∃ k, delete i l !! k = Some x ∧ (k ≤ j)%nat ∧ ((j < i)%nat → k = j) ∧ ((i < j)%nat → S k = j).
Proof.
  intros H Hne. destruct (decide (j < i)%nat).
  - exists j. rewrite list_lookup_delete_lt by done. split_and!; done || lia.
  - destruct j as [|j]; [lia|]. exists j. rewrite list_lookup_delete_ge by lia.
    split_and!; done || lia.
Qed.

Lemma ids_ok_delete gen l i p :
  ids_ok gen l → l !! i = Some p → alive p = false → ids_ok gen (delete i l).
Proof.
  intros H Hi Hdead. pose proof H as [Hinit Hsort Hrange Hpar]. split.
  - destruct Hinit as (p0 & H0 & Hid & Hal). exists p0. split; [|done].
    rewrite list_lookup_delete_lt; [done|].
    destruct (decide (i = 0%nat)) as [->|]; [congruence|lia].
  - intros j k x y Hx Hy Hlt. apply lookup_delete_inv in Hx, Hy.
    destruct Hx as [[Hx ?]|[Hx ?]], Hy as [[Hy ?]|[Hy ?]];
      eapply Hsort; done || lia.
  - intros j x Hx. apply lookup_delete_inv in Hx. naive_solver.
  - intros j x Hx Hne.
    assert (∃ j', l !! j' = Some x ∧ j' ≠ i ∧ (j' = j ∧ (j < i)%nat ∨ j' = S j ∧ (i ≤ j)%nat))
      as (j' & Hx' & Hnei & Hj').
    { apply lookup_delete_inv in Hx as [[? ?]|[? ?]]; eexists; (split; [done|]); lia. }
    destruct (Hpar j' x Hx') as (k & y & Hy & Hlt & Hid & Hal); [lia|].
    assert (k ≠ i) as Hki by (intros ->; congruence).
    destruct (lookup_delete_other l i k y Hy Hki) as (k' & Hk' & ? & ? & ?).
    exists k', y. split; [done|]. split; [lia|done].
Qed.

Lemma exclusive_insert l i p q :
  exclusive l → l !! i = Some p → (alive q = true → alive p = true ∧
    memory_section q = memory_section p ∧ translation_table q = translation_table p) →
  exclusive (<[i := q]> l).
Proof.
  intros H Hi Hq j k x y Hx Hy Hne Hax Hay.
  apply list_lookup_insert_Some in Hx as [(<- & <- & _)|[? Hx]];
    apply list_lookup_insert_Some in Hy as [(<- & <- & _)|[? Hy]]; [done| | |eauto].
  - destruct (Hq Hax) as (? & -> & ->). eauto.
  - destruct (Hq Hay) as (? & -> & ->). eauto.
Qed.

Lemma exclusive_delete l i : exclusive l → exclusive (delete i l).
Proof.
  intros H j k x y Hx Hy Hne. apply lookup_delete_inv in Hx, Hy.
  destruct Hx as [[Hx ?]|[Hx ?]], Hy as [[Hy ?]|[Hy ?]]; eapply H; done || lia.
Qed.

Lemma exclusive_push l p :
  exclusive l →
  (∀ i q, l !! i = Some q → alive q = true →
    memory_section q ≠ memory_section p ∧ translation_table q ≠ translation_table p) →
  exclusive (l ++ [p]).
Proof.
  intros H Hp j k x y Hx Hy Hne Hax Hay.
  apply lookup_app_Some in Hx as [Hx|[? Hx]]; apply lookup_app_Some in Hy as [Hy|[? Hy]].
  - eauto.
  - apply list_lookup_singleton_Some in Hy as [? <-]. eauto.
  - apply list_lookup_singleton_Some in Hx as [? <-]. destruct (Hp k y Hy Hay). auto.
  - apply list_lookup_singleton_Some in Hx as [? _].
    apply list_lookup_singleton_Some in Hy as [? _]. lia.
Qed.

(** Growing allocators and memory keep what a process owns. *)
Lemma res_ok_mono s s' t t' m m' p :
  (∀ q, slot_owned s q = true → slot_owned s' q = true) →
  (∀ q, slot_owned t q = true → slot_owned t' q = true ∧
     TranslationTableAllocator.tables t' !! q = TranslationTableAllocator.tables t !! q) →
  (∀ q, is_Some (m !! q) → is_Some (m' !! q)) →
  res_ok s t m p → res_ok s' t' m' p.
Proof.
  intros Hs Ht Hm. unfold res_ok. destruct (alive p); [|done].
  intros (Hsec & Htab & Hmem & (tb & Htb & Hg) & Href).
  destruct (Ht _ Htab) as [? Heq]. rewrite Heq. eauto 10.
Qed.

(** ** Running the primitives *)

Section run.
Context {F : Type} `{!Files F}.
Implicit Types (w : world F) (p : process) (i : Z).

(** The world with entry [i] of the table replaced. *)
Definition put_proc i p w : world F :=
  let s := sched w in
  set_sched (mksched (<[Z.to_nat i := p]> (processes s)) (proc_count s) (current_proc s)
               (id_gen s)) w.

Lemma get_proc_eq w i p :
  0 ≤ i → processes (sched w) !! Z.to_nat i = Some p → get_proc i w = Ret (p, w).
Proof. intros Hi Hp. unfold get_proc. by rewrite (arr_get_lookup _ _ p). Qed.

Lemma get_proc_live w i p :
  0 ≤ i → live (sched w) !! Z.to_nat i = Some p → get_proc i w = Ret (p, w).
Proof. intros Hi Hp. apply get_proc_eq; [done|]. by apply live_lookup in Hp as [? _]. Qed.

Lemma set_proc_eq w i p :
  0 ≤ i < Z.of_nat (length (processes (sched w))) → set_proc i p w = Ret ((), put_proc i p w).
Proof. intros Hi. unfold set_proc. by rewrite arr_set_Ret. Qed.

Lemma upd_proc_eq w i p f :
  0 ≤ i → processes (sched w) !! Z.to_nat i = Some p →
  upd_proc i f w = Ret ((), put_proc i (f p) w).
Proof.
  intros Hi Hp. unfold upd_proc. rewrite (bind_Ret _ _ _ p w) by (by apply get_proc_eq).
  apply set_proc_eq. apply lookup_lt_Some in Hp. lia.
Qed.

Lemma upd_proc_live w i p f :
  0 ≤ i → live (sched w) !! Z.to_nat i = Some p →
  upd_proc i f w = Ret ((), put_proc i (f p) w).
Proof. intros Hi Hp. apply upd_proc_eq; [done|]. by apply live_lookup in Hp as [? _]. Qed.

Lemma put_put i p q w : put_proc i q (put_proc i p w) = put_proc i q w.
Proof. unfold put_proc, set_sched. simpl. by rewrite list_insert_insert_eq. Qed.

Lemma put_processes i p w : processes (sched (put_proc i p w)) = <[Z.to_nat i := p]> (processes (sched w)).
Proof. done. Qed.

Lemma put_lookup i p w : 0 ≤ i < Z.of_nat (length (processes (sched w))) →
  processes (sched (put_proc i p w)) !! Z.to_nat i = Some p.
Proof. intros. rewrite put_processes, list_lookup_insert_eq by lia. done. Qed.

Lemma put_live i p w : live (sched (put_proc i p w)) = <[Z.to_nat i := p]> (live (sched w)).
Proof.
  unfold put_proc. simpl.
  rewrite (live_upd _ _ _ _ (current_proc (sched w)) (id_gen (sched w))).
  by destruct (sched w).
Qed.

Lemma get_current_eq w : wf w → _get_current_proc w = Ret (current_proc (sched w), w).
Proof.
  intros H. pose proof (wf_current w H). unfold _get_current_proc, bind, gets, ret.
  destruct (Z.geb_spec (current_proc (sched w)) (proc_count (sched w))); [lia|done].
Qed.

Lemma live_some w i : wf w → 0 ≤ i < proc_count (sched w) →
  ∃ p, live (sched w) !! Z.to_nat i = Some p.
Proof.
  intros H Hi. pose proof (wf_count w H). pose proof (wf_table w H).
  apply lookup_lt_is_Some_2. rewrite live_length by (done || lia). lia.
Qed.

(** A change that leaves the role and the resources of a process alone keeps
    the invariant. *)
Lemma wf_put w i p q :
  wf w → 0 ≤ i → live (sched w) !! Z.to_nat i = Some p → same_role p q →
  memory_section q = memory_section p → translation_table q = translation_table p →
  (ref_ok p → ref_ok q) → fds_ok (filesys w) q → wf (put_proc i q w).
Proof.
  intros [Hs Ht Hlen Hcnt Hcur Hgen Hids Hex Hres Hfds] Hi Hp Hrole Hsec Htab Href Hfd.
  split; try done.
  - simpl. by rewrite length_insert.
  - rewrite put_live. by eapply ids_ok_insert.
  - rewrite put_live. eapply exclusive_insert; [done..|].
    destruct Hrole as (_ & _ & <-). done.
  - rewrite put_live. apply Forall_insert; [done|].
    pose proof (Forall_lookup_1 _ _ _ _ Hres Hp) as Hp'. unfold res_ok in *.
    destruct Hrole as (_ & _ & ->). rewrite Hsec, Htab.
    destruct (alive p); naive_solver.
  - rewrite put_live. by apply Forall_insert.
Qed.

(** Looking a pid up. *)
Lemma find_loop_spec n i pid (ps : list process) :
  0 ≤ i → (Z.to_nat i + n ≤ length ps)%nat →
  ∃ r, find_loop n i pid ps = Ret r ∧
    match r with
    | Some j => i ≤ j < i + Z.of_nat n ∧ ∃ p, ps !! Z.to_nat j = Some p ∧ id p = pid
    | None => ∀ j p, i ≤ j < i + Z.of_nat n → ps !! Z.to_nat j = Some p → id p ≠ pid
    end.
Proof.
  revert i. induction n as [|n IH]; intros i Hi Hlen; cbn [find_loop].
  { exists None. split; [done|lia]. }
  destruct (arr_get_ok ps i) as (p & -> & Hp); [lia|]. cbn [obind].
  destruct (Z.eqb_spec (id p) pid) as [<-|Hne].
  { exists (Some i). split; [done|]. split; [lia|eauto]. }
  destruct (IH (i + 1)) as (r & -> & Hr); [lia|lia|]. exists r. split; [done|].
  destruct r as [j|]; [destruct Hr; split; [lia|done]|].
  intros j q Hj Hq. destruct (Z.eq_dec j i) as [->|]; [congruence|].
  apply (Hr j); [lia|done].
Qed.

Lemma find_proc_spec w pid : wf w →
  ∃ r, _find_proc_by_pid pid w = Ret (r, w) ∧
    match r with
    | Some j => 0 ≤ j < proc_count (sched w) ∧
                ∃ p, live (sched w) !! Z.to_nat j = Some p ∧ id p = pid
    | None => ∀ k p, live (sched w) !! k = Some p → id p ≠ pid
    end.
Proof.
  intros H. pose proof (wf_count w H). pose proof (wf_table w H).
  destruct (find_loop_spec (Z.to_nat (proc_count (sched w))) 0 pid (processes (sched w)))
    as (r & Hr & Hspec); [lia|lia|].
  exists r. unfold _find_proc_by_pid. rewrite Hr. split; [done|].
  destruct r as [j|].
  - destruct Hspec as (Hj & p & Hp & Hid). split; [lia|]. exists p. split; [|done].
    unfold live. rewrite lookup_take_lt by lia. done.
  - intros k p Hp. apply live_lookup in Hp as [Hp ?].
    apply (Hspec (Z.of_nat k)); [lia|by rewrite Nat2Z.id].
Qed.

(** The pid of a live process leads to that process. *)
Lemma find_proc_live w (k : nat) p : wf w → live (sched w) !! k = Some p →
  _find_proc_by_pid (id p) w = Ret (Some (Z.of_nat k), w).
Proof.
  intros H Hp. destruct (find_proc_spec w (id p) H) as ([j|] & -> & Hr).
  - destruct Hr as (Hj & q & Hq & Hid).
    pose proof (ids_ok_inj _ _ _ _ _ _ (wf_ids w H) Hq Hp Hid). do 3 f_equal. lia.
  - by destruct (Hr k p Hp).
Qed.

End run.
End SchedulerInv.
