(* ===== verification/SchedulerOps.v ===== *)
(** * What the scheduler's steps do

    Lemmas on the internal functions of [Scheduler], from which the properties of
    fork, wait, exit and task switching are put together. *)
From S2P Require Import Prelude Bitfield Mmu Alloc Scheduler SchedulerInv.
Import Scheduler SchedulerInv.

Module SchedulerOps.

(** The world's other parts, replaced. *)
Definition with_ram {F} (m : ram_t) (w : world F) : world F :=
  mkworld (sections w) (ttables w) m (sched w) (filesys w).
Definition with_fs {F} (fs : F) (w : world F) : world F :=
  mkworld (sections w) (ttables w) (ram w) (sched w) fs.

(** ** Physical memory *)

(** The four bytes of a word in a section. *)
Definition put_word (o v : Z) (s : gmap Z Z) : gmap Z Z :=
  <[o + 3 := u8 (Z.shiftr v 24)]> (<[o + 2 := u8 (Z.shiftr v 16)]>
    (<[o + 1 := u8 (Z.shiftr v 8)]> (<[o := u8 v]> s))).

Section memory.
Implicit Types (m : ram_t) (s : gmap Z Z).

Lemma ram_store_in m sec s o b :
  sec `mod` 0x100000 = 0 → 0 ≤ o < 0x100000 → m !! sec = Some s →
  ram_store (sec + o) b m = Ret (<[sec := <[o := u8 b]> s]> m).
Proof.
  intros Hal Ho Hm. unfold ram_store.
  replace ((sec + o) / 0x100000 * 0x100000) with sec by lia.
  replace ((sec + o) `mod` 0x100000) with o by lia. by rewrite Hm.
Qed.

Lemma ram_load_in m sec s o :
  sec `mod` 0x100000 = 0 → 0 ≤ o < 0x100000 → m !! sec = Some s →
  ram_load (sec + o) m = Ret (default 0 (s !! o)).
Proof.
  intros Hal Ho Hm. unfold ram_load.
  replace ((sec + o) / 0x100000 * 0x100000) with sec by lia.
  replace ((sec + o) `mod` 0x100000) with o by lia. by rewrite Hm.
Qed.

Lemma ram_store_word_in m sec s o v :
  sec `mod` 0x100000 = 0 → 0 ≤ o → o + 4 ≤ 0x100000 → m !! sec = Some s →
  ram_store_word (sec + o) v m = Ret (<[sec := put_word o v s]> m).
Proof.
  intros Hal Ho Ho4 Hm. unfold ram_store_word, put_word. rewrite <- !Z.add_assoc.
  rewrite (ram_store_in m sec s) by (done || lia). cbn [obind].
  do 3 (erewrite ram_store_in by (done || lia || apply lookup_insert_eq); cbn [obind];
        rewrite insert_insert_eq).
  done.
Qed.

(** A word that was stored is loaded back. *)
Lemma ram_load_word_in m sec s o v :
  sec `mod` 0x100000 = 0 → 0 ≤ o → o + 4 ≤ 0x100000 → is_u32 v →
  ram_load_word (sec + o) (<[sec := put_word o v s]> m) = Ret v.
Proof.
  intros Hal Ho Ho4 Hv. unfold ram_load_word. rewrite <- !Z.add_assoc.
  do 4 (erewrite ram_load_in by (done || lia || apply lookup_insert_eq); cbn [obind]).
  unfold put_word.
  rewrite lookup_insert_eq. rewrite 3!lookup_insert_ne by lia. rewrite lookup_insert_eq.
  rewrite 2!lookup_insert_ne by lia. rewrite lookup_insert_eq.
  rewrite lookup_insert_ne by lia. rewrite lookup_insert_eq. simpl.
  rewrite !Z.shiftr_div_pow2 by lia. unfold u8, is_u32 in *.
  change (2 ^ 8) with 0x100. change (2 ^ 16) with 0x10000. change (2 ^ 24) with 0x1000000.
  f_equal. lia.
Qed.
End memory.

Section ops.
Context {F : Type} `{!Files F}.
Implicit Types (w : world F) (p c : process) (i : Z).

(** Writing into a section that exists keeps the invariant. *)
Lemma wf_ram w sec s s' : wf w → ram w !! sec = Some s → wf (with_ram (<[sec := s']> (ram w)) w).
Proof.
  intros [Hs Ht Hlen Hcnt Hcur Hgen Hids Hex Hres Hfds] Hsec. split; try done.
  eapply Forall_impl; [exact Hres|]. intros p Hp. eapply res_ok_mono; [..|exact Hp]; try done.
  intros q Hq. simpl. destruct (decide (sec = q)) as [->|].
  - by rewrite lookup_insert_eq.
  - by rewrite lookup_insert_ne.
Qed.

(** The section of a live process: aligned, and present in memory. *)
Lemma section_of w k p : wf w → live (sched w) !! k = Some p → alive p = true →
  memory_section p `mod` 0x100000 = 0 ∧ 0 < memory_section p ∧
  memory_section p + 0x100000 ≤ 0x100000000 ∧ ∃ s, ram w !! memory_section p = Some s.
Proof.
  intros H Hk Ha. pose proof (Forall_lookup_1 _ _ _ _ (wf_res w H) Hk) as Hp.
  unfold res_ok in Hp. rewrite Ha in Hp. destruct Hp as (Hsec & _ & [s Hs] & _).
  destruct (SectionAllocator.owned_section _ _ (wf_sections w H) Hsec) as [? ?].
  pose proof (wf_sections w H) as (_ & ? & ? & ?). split_and!; [done|lia|lia|eauto].
Qed.

(** ** Removing an exited process *)

Definition removed i w : world F :=
  let s := sched w in
  set_sched (mksched
    (memmove_down (Z.to_nat i) (Z.to_nat (proc_count s)) (processes s))
    (proc_count s - 1)
    (if i =? current_proc s then current_proc s - 1 else current_proc s) (id_gen s)) w.

Lemma removed_live w i : wf w → 0 ≤ i < proc_count (sched w) →
  live (sched (removed i w)) = delete (Z.to_nat i) (live (sched w)).
Proof.
  intros H Hi. pose proof (wf_count w H). pose proof (wf_table w H).
  unfold live. rewrite <- take_memmove_down by lia. simpl. f_equal. lia.
Qed.

Lemma remove_spec w i p :
  wf w → 0 ≤ i → live (sched w) !! Z.to_nat i = Some p → alive p = false →
  _remove_process i w = Ret ((), removed i w).
Proof.
  intros H Hi Hp Hdead. pose proof (wf_count w H). pose proof (wf_current w H).
  pose proof Hp as [_ Hlt]%live_lookup.
  pose proof (Forall_lookup_1 _ _ _ _ (wf_res w H) Hp) as Hr.
  unfold res_ok in Hr. rewrite Hdead in Hr. destruct Hr as [Hsec Htab].
  unfold _remove_process. rewrite (bind_Ret _ _ _ (sched w) w) by done.
  destruct (Z.geb_spec i (proc_count (sched w))); [lia|].
  rewrite (bind_Ret _ _ _ p w) by (by apply get_proc_live).
  rewrite Hsec, Htab. unfold bind, kassert, ret, modify, gets, set_current, removed. simpl.
  rewrite (u32_small (proc_count (sched w) - 1)) by lia.
  destruct (Z.eqb_spec i (current_proc (sched w))); [|done].
  destruct (Z.eqb_spec i 0) as [->|]; [|by rewrite u32_small by lia].
  destruct (ids_init _ _ (wf_ids w H)) as (p0 & Hp0 & _ & ?). change (Z.to_nat 0) with O in Hp. congruence.
Qed.

(** The invariant is kept when the removed process is not below the current one:
    the index of the current process is not adjusted otherwise. *)
Lemma wf_removed w i p :
  wf w → 0 ≤ i → live (sched w) !! Z.to_nat i = Some p → alive p = false →
  current_proc (sched w) ≤ i → wf (removed i w).
Proof.
  intros H Hi Hp Hdead Hcur. pose proof Hp as [_ Hlt]%live_lookup.
  pose proof (removed_live w i H ltac:(lia)) as Hlive.
  destruct H as [Hs Ht Hlen Hcnt Hcu Hgen Hids Hex Hres Hfds].
  assert (i ≠ 0) as Hi0.
  { intros ->. destruct (ids_init _ _ Hids) as (p0 & Hp0 & _ & ?). change (Z.to_nat 0) with O in Hp. congruence. }
  split; try done; try rewrite Hlive.
  - simpl. rewrite length_memmove_down; [done|lia|lia].
  - simpl. lia.
  - simpl. destruct (Z.eqb_spec i (current_proc (sched w))); lia.
  - by eapply ids_ok_delete.
  - by apply exclusive_delete.
  - by apply Forall_delete.
  - by apply Forall_delete.
Qed.

(** ** Exiting *)

Definition with_allocators (s : SectionAllocator.section_allocator_t)
    (t : TranslationTableAllocator.translation_table_allocator_t) w : world F :=
  mkworld s t (ram w) (sched w) (filesys w).

(** The allocators after a process gave its section and its table back. *)
Definition released (sec tab : Z) w (s : SectionAllocator.section_allocator_t)
    (t : TranslationTableAllocator.translation_table_allocator_t) : Prop :=
  slot_inv s ∧ slot_inv t ∧
  (∀ q, slot_owned s q = slot_owned (sections w) q && negb (q =? sec)) ∧
  (∀ q, slot_owned t q = slot_owned (ttables w) q && negb (q =? tab)) ∧
  TranslationTableAllocator.tables t = TranslationTableAllocator.tables (ttables w).

Lemma table_free_tables (t t' : TranslationTableAllocator.translation_table_allocator_t) a :
  TranslationTableAllocator.translation_table_allocator_free a t = Ret ((), t') →
  TranslationTableAllocator.tables t' = TranslationTableAllocator.tables t.
Proof.
  unfold TranslationTableAllocator.translation_table_allocator_free. intros H. inv_run. done.
Qed.

Lemma zoom_sections {A} (m : M SectionAllocator.section_allocator_t A) w a s :
  m (sections w) = Ret (a, s) → zoom m w = Ret (a, with_allocators s (ttables w) w).
Proof. intros E. unfold zoom. simpl. by rewrite E. Qed.

Lemma zoom_ttables {A} (m : M TranslationTableAllocator.translation_table_allocator_t A) w a t :
  m (ttables w) = Ret (a, t) → zoom m w = Ret (a, with_allocators (sections w) t w).
Proof. intros E. unfold zoom. simpl. by rewrite E. Qed.

Lemma zoom_fs {A} (m : M F A) w a fs :
  m (filesys w) = Ret (a, fs) → zoom m w = Ret (a, with_fs fs w).
Proof. intros E. unfold zoom. simpl. by rewrite E. Qed.

Lemma cleanup_spec w i p :
  slot_inv (sections w) → slot_inv (ttables w) →
  0 ≤ i → processes (sched w) !! Z.to_nat i = Some p →
  slot_owned (sections w) (memory_section p) = true →
  slot_owned (ttables w) (translation_table p) = true →
  ∃ s t, _cleanup_proc_resources i w =
           Ret ((), with_allocators s t (put_proc i (with_resources 0 0 p) w)) ∧
         released (memory_section p) (translation_table p) w s t.
Proof.
  intros Hs Ht Hi Hp Hsec Htab.
  destruct (SectionAllocator.section_free_ok _ _ Hs Hsec) as (s & Es & Hs' & Hsown).
  destruct (TranslationTableAllocator.table_free_ok _ _ Ht Htab) as (t & Et & Ht' & Htown).
  exists s, t. split.
  2: { split_and!; try done. by eapply table_free_tables. }
  unfold _cleanup_proc_resources.
  rewrite (bind_Ret _ _ _ p w) by (by apply get_proc_eq).
  erewrite bind_Ret by (apply zoom_ttables, Et).
  erewrite bind_Ret by (by apply upd_proc_eq).
  erewrite bind_Ret by (apply zoom_sections, Es).
  erewrite upd_proc_eq; [|done|apply (put_lookup i); apply lookup_lt_Some in Hp; simpl; lia].
  f_equal. f_equal. unfold with_allocators, put_proc. simpl. by rewrite list_insert_insert_eq.
Qed.

(** The processes of which [pid] is the parent become children of init. *)
Definition reparent (pid : Z) (p : process) : process :=
  if parent_id p =? pid then with_parent INIT_PROC_ID p else p.

Definition with_processes (ps : list process) w : world F :=
  let s := sched w in set_sched (mksched ps (proc_count s) (current_proc s) (id_gen s)) w.

Lemma reparent_loop_spec n i cur pid w :
  0 ≤ i → (Z.to_nat i + n ≤ length (processes (sched w)))%nat → 0 ≤ cur →
  (∃ c, processes (sched w) !! Z.to_nat cur = Some c ∧ id c = pid) →
  ∃ ps, reparent_loop n i cur w = Ret ((), with_processes ps w) ∧
    length ps = length (processes (sched w)) ∧
    ∀ j, ps !! j =
      (if decide (Z.to_nat i ≤ j < Z.to_nat i + n)%nat then reparent pid else Datatypes.id)
      <$> processes (sched w) !! j.
Proof.
  revert i w. induction n as [|n IH]; intros i w Hi Hlen Hcur (c & Hc & Hid); cbn [reparent_loop].
  { exists (processes (sched w)). split.
    - unfold with_processes, ret. destruct w as [? ? ? []]. done.
    - split; [done|]. intros j. rewrite decide_False by lia. by rewrite option_fmap_id. }
  destruct (arr_get_ok (processes (sched w)) i) as (p & _ & Hp); [lia|].
  rewrite (bind_Ret _ _ _ p w) by (by apply get_proc_eq).
  rewrite (bind_Ret _ _ _ c w) by (by apply get_proc_eq).
  rewrite (bind_Ret _ _ _ () (put_proc i (reparent pid p) w)).
  2: { unfold reparent. rewrite Hid. destruct (parent_id p =? pid).
       - by apply upd_proc_eq.
       - unfold ret, put_proc. do 2 f_equal. rewrite list_insert_id by done.
         destruct w as [? ? ? []]. done. }
  destruct (IH (i + 1) (put_proc i (reparent pid p) w)) as (ps & Hr & Hpsn & Hps).
  - lia.
  - rewrite put_processes, length_insert. lia.
  - done.
  - rewrite put_processes. destruct (decide (i = cur)) as [->|].
    + exists (reparent pid p). rewrite list_lookup_insert_eq by lia. split; [done|].
      simplify_eq. unfold reparent. by destruct (_ =? _).
    + exists c. rewrite list_lookup_insert_ne by lia. done.
  - exists ps. split; [by rewrite Hr|].
    split; [by rewrite Hpsn, put_processes, length_insert|].
    intros j. rewrite Hps, put_processes.
    destruct (decide (j = Z.to_nat i)) as [->|].
    + rewrite list_lookup_insert_eq by lia. rewrite decide_False, decide_True by lia.
      by rewrite Hp.
    + rewrite list_lookup_insert_ne by done. f_equal.
      repeat case_decide; done || lia.
Qed.

(** The entry an exited process leaves behind. *)
Definition zombie (status : Z) (p : process) : process :=
  with_resources 0 0 (with_state (PROC_EXITED (u32 status)) p).

(** The live table after process [k] exited. *)
Definition exited_table (status : Z) (k : nat) (p : process) (l : list process) : list process :=
  reparent (id p) <$> <[k := zombie status p]> l.

Lemma exited_lookup status k p l j x :
  exited_table status k p l !! j = Some x →
  ∃ y, x = reparent (id p) y ∧ (j = k ∧ y = zombie status p ∨ j ≠ k ∧ l !! j = Some y).
Proof.
  unfold exited_table. intros H. apply list_lookup_fmap_Some in H as (y & -> & Hy).
  exists y. split; [done|].
  apply list_lookup_insert_Some in Hy as [(<- & <- & _)|[? ?]]; auto.
Qed.

Lemma exited_lookup_ne status k p l j y :
  j ≠ k → l !! j = Some y → exited_table status k p l !! j = Some (reparent (id p) y).
Proof.
  intros Hne Hy. unfold exited_table.
  by rewrite list_lookup_fmap, list_lookup_insert_ne, Hy by done.
Qed.

Lemma reparent_fields pid p :
  id (reparent pid p) = id p ∧ schedule_state (reparent pid p) = schedule_state p ∧
  memory_section (reparent pid p) = memory_section p ∧
  translation_table (reparent pid p) = translation_table p ∧
  context (reparent pid p) = context p ∧
  files (reparent pid p) = files p ∧ files_bitfield (reparent pid p) = files_bitfield p.
Proof. unfold reparent. by destruct (_ =? _). Qed.

Lemma alive_reparent pid p : alive (reparent pid p) = alive p.
Proof. unfold reparent, alive. by destruct (_ =? _). Qed.

Lemma ids_ok_exit gen l k p status :
  ids_ok gen l → l !! k = Some p → id p ≠ INIT_PROC_ID → ids_ok gen (exited_table status k p l).
Proof.
  intros H Hk Hid. pose proof H as [(p0 & Hp0 & Hid0 & Ha0) Hsort Hrange Hpar].
  assert (k ≠ 0%nat) as Hk0 by (intros ->; congruence).
  assert (∀ j x, exited_table status k p l !! j = Some x →
    ∃ y, l !! j = Some y ∧ id x = id y ∧ parent_id x = parent_id (reparent (id p) y)) as Hback.
  { intros j x Hx. apply exited_lookup in Hx as (y & -> & [[-> ->]|[? Hy]]).
    - exists p. split; [done|]. unfold reparent. simpl. by destruct (_ =? _).
    - exists y. split; [done|]. split; [apply reparent_fields|done]. }
  split.
  - exists (reparent (id p) p0). split; [by apply exited_lookup_ne|].
    rewrite alive_reparent. split; [|done]. by rewrite (proj1 (reparent_fields _ _)).
  - intros i j x y Hx Hy Hlt. destruct (Hback i x Hx) as (x' & Hx' & -> & _).
    destruct (Hback j y Hy) as (y' & Hy' & -> & _). eauto.
  - intros i x Hx. destruct (Hback i x Hx) as (x' & Hx' & -> & _). eauto.
  - intros j x Hx Hj0. destruct (Hback j x Hx) as (y & Hy & _ & ->).
    destruct (Hpar j y Hy Hj0) as (m & q & Hq & Hlt & Hqid & Hqa).
    unfold reparent. destruct (Z.eqb_spec (parent_id y) (id p)) as [Heq|Hne]; simpl.
    + exists O, (reparent (id p) p0). split; [by apply exited_lookup_ne|].
      split; [lia|]. rewrite alive_reparent. split; [|done].
      by rewrite (proj1 (reparent_fields _ _)).
    + assert (m ≠ k) as Hmk by (intros ->; congruence).
      exists m, (reparent (id p) q). split; [by apply exited_lookup_ne|]. split; [done|].
      rewrite alive_reparent. split; [|done]. by rewrite (proj1 (reparent_fields _ _)).
Qed.

Lemma exclusive_exit l k p status : exclusive l → exclusive (exited_table status k p l).
Proof.
  intros H i j x y Hx Hy Hne Hax Hay.
  apply exited_lookup in Hx as (x' & -> & Hx). apply exited_lookup in Hy as (y' & -> & Hy).
  destruct (reparent_fields (id p) x') as (_ & _ & -> & -> & _).
  destruct (reparent_fields (id p) y') as (_ & _ & -> & -> & _).
  rewrite alive_reparent in Hax, Hay.
  destruct Hx as [[-> ->]|[? Hx]]; [done|]. destruct Hy as [[-> ->]|[? Hy]]; [done|]. eauto.
Qed.

(** Giving back one process' resources takes nothing from the others. *)
Lemma res_ok_released w (k : nat) p (j : nat) q s t :
  wf w → live (sched w) !! k = Some p → alive p = true → live (sched w) !! j = Some q → j ≠ k →
  released (memory_section p) (translation_table p) w s t → res_ok s t (ram w) q.
Proof.
  intros H Hk Ha Hj Hne (Hs & Ht & Hsown & Htown & Htabs).
  pose proof (Forall_lookup_1 _ _ _ _ (wf_res w H) Hj) as Hq. unfold res_ok in *.
  destruct (alive q) eqn:Haq; [|done]. destruct Hq as (Hsec & Htab & Hmem & Hg & Href).
  destruct (wf_excl w H j k q p Hj Hk Hne Haq Ha) as [Hnsec Hntab].
  rewrite Hsown, Htown, Hsec, Htab, Htabs.
  rewrite (proj2 (Z.eqb_neq _ _) Hnsec), (proj2 (Z.eqb_neq _ _) Hntab). done.
Qed.

(** The world in the middle of exit: resources returned, children moved. *)
Lemma wf_exit w k p status s t ps :
  wf w → live (sched w) !! k = Some p → alive p = true → id p ≠ INIT_PROC_ID →
  released (memory_section p) (translation_table p) w s t →
  length ps = 32%nat →
  (∀ j, (j < Z.to_nat (proc_count (sched w)))%nat →
    ps !! j = reparent (id p) <$> <[k := zombie status p]> (processes (sched w)) !! j) →
  live (sched (with_processes ps w)) = exited_table status k p (live (sched w)) ∧
  wf (with_allocators s t (with_processes ps w)).
Proof.
  intros H Hk Ha Hid Hrel Hlen Hps.
  assert (live (sched (with_processes ps w)) = exited_table status k p (live (sched w))) as Hl.
  { pose proof (wf_table w H). pose proof (wf_count w H).
    apply list_eq. intros j. unfold live, exited_table. simpl.
    rewrite list_lookup_fmap. destruct (decide (j < Z.to_nat (proc_count (sched w)))%nat).
    - rewrite lookup_take_lt, Hps by done. f_equal.
      apply live_lookup in Hk as [Hk ?]. destruct (decide (j = k)) as [->|].
      + by rewrite !list_lookup_insert_eq by (rewrite ?length_take; lia).
      + rewrite !list_lookup_insert_ne, lookup_take_lt by done. done.
    - rewrite lookup_take_ge by lia. rewrite lookup_ge_None_2; [done|].
      rewrite length_insert, length_take. lia. }
  split; [done|]. pose proof H as [Hs Ht Hlen' Hcnt Hcur Hgen Hids Hex Hres Hfds].
  pose proof Hrel as (? & ? & _ & _ & _).
  split; try done.
  - change (ids_ok (id_gen (sched w)) (live (sched (with_processes ps w)))). rewrite Hl.
    by apply ids_ok_exit.
  - change (exclusive (live (sched (with_processes ps w)))). rewrite Hl. by apply exclusive_exit.
  - change (Forall (res_ok s t (ram w)) (live (sched (with_processes ps w)))). rewrite Hl.
    apply Forall_lookup_2. intros j x Hx. apply exited_lookup in Hx as (y & -> & Hy).
    assert (res_ok s t (ram w) y) as Hyok.
    { destruct Hy as [[-> ->]|[Hne Hy]]; [done|]. by apply (res_ok_released w k p j). }
    revert Hyok. unfold res_ok, ref_ok. rewrite alive_reparent.
    by destruct (reparent_fields (id p) y) as (_ & -> & -> & -> & _).
  - change (Forall (fds_ok (filesys w)) (live (sched (with_processes ps w)))). rewrite Hl.
    apply Forall_lookup_2. intros j x Hx. apply exited_lookup in Hx as (y & -> & Hy).
    assert (fds_ok (filesys w) y) as Hyok.
    { destruct Hy as [[-> ->]|[Hne Hy]].
      - exact (Forall_lookup_1 _ _ _ _ Hfds Hk).
      - exact (Forall_lookup_1 _ _ _ _ Hfds Hy). }
    revert Hyok. unfold fds_ok.
    by destruct (reparent_fields (id p) y) as (_ & _ & _ & _ & _ & -> & ->).
Qed.

(** ** Waking the parent *)

(** A process that waited, put back on the run queue with the pid as result. *)
Definition woken (pid : Z) (q : process) : process :=
  with_context (set_r0 (u32 pid) (context q)) (with_state PROC_SCHEDULED q).

(** Storing a wait status through the pointer of a suspended process. *)
Lemma store_wstatus w k q pid ref v :
  wf w → live (sched w) !! k = Some q → schedule_state q = PROC_SUSPENDED pid ref →
  ∃ m, store_word ref v w = Ret ((), with_ram m w) ∧ wf (with_ram m w) ∧
    (is_u32 v → ram_load_word ref m = Ret v) ∧
    ∀ sec, sec ≠ memory_section q → m !! sec = ram w !! sec.
Proof.
  intros H Hk Hst. assert (alive q = true) as Ha by (unfold alive; by rewrite Hst).
  destruct (section_of w k q H Hk Ha) as (Hal & Hpos & Hend & s & Hs).
  pose proof (Forall_lookup_1 _ _ _ _ (wf_res w H) Hk) as Hr.
  unfold res_ok in Hr. rewrite Ha in Hr. destruct Hr as (_ & _ & _ & _ & Href).
  unfold ref_ok in Href. rewrite Hst in Href.
  set (o := ref - memory_section q). replace ref with (memory_section q + o) by lia.
  exists (<[memory_section q := put_word o v s]> (ram w)).
  unfold store_word. rewrite (ram_store_word_in _ _ s) by (done || lia). cbn [obind].
  split; [done|]. split; [by eapply wf_ram|]. split.
  - intros Hv. apply ram_load_word_in; done || lia.
  - intros sec Hne. by rewrite lookup_insert_ne.
Qed.

(** A suspended process is put back on the run queue. *)
Lemma wake_spec w j pid q wait ref :
  wf w → 0 ≤ j → live (sched w) !! Z.to_nat j = Some q →
  schedule_state q = PROC_SUSPENDED wait ref →
  wf (put_proc j (woken pid q) w) ∧
  ∀ (k : unit → M (world F) unit),
    bind (upd_proc j (with_state PROC_SCHEDULED))
      (λ _, bind (upd_proc j (λ p, with_context (set_r0 (u32 pid) (context p)) p)) k) w =
    k () (put_proc j (woken pid q) w).
Proof.
  intros H Hj Hq Hst. pose proof (wf_table w H). pose proof (wf_count w H).
  pose proof Hq as [Hps Hlt]%live_lookup. split.
  - apply (wf_put w j q); try done.
    + split_and!; [done|done|]. unfold alive. by rewrite Hst.
    + exact (Forall_lookup_1 _ _ _ _ (wf_fds w H) Hq).
  - intros k. erewrite bind_Ret by (by apply upd_proc_eq).
    erewrite bind_Ret by (apply upd_proc_eq; [done|apply put_lookup; lia]).
    by rewrite put_put.
Qed.

(** ** The whole of exit *)

(** Up to the end: the resources are returned, the children moved to init. *)
Lemma exit_prefix w p status :
  wf w → running w p → id p ≠ INIT_PROC_ID →
  ∃ s t w2, released (memory_section p) (translation_table p) w s t ∧
    scheduler_cur_proc_exit status w =
      exit_reschedule_parent (current_proc (sched w)) status w2 ∧
    wf w2 ∧ sections w2 = s ∧ ttables w2 = t ∧ filesys w2 = filesys w ∧ ram w2 = ram w ∧
    current_proc (sched w2) = current_proc (sched w) ∧
    proc_count (sched w2) = proc_count (sched w) ∧
    live (sched w2) =
      exited_table status (Z.to_nat (current_proc (sched w))) p (live (sched w)).
Proof.
  intros H [Hp Hst] Hid. set (k := Z.to_nat (current_proc (sched w))) in *.
  assert (alive p = true) as Ha by (unfold alive; by rewrite Hst).
  pose proof (wf_table w H) as Hlen. pose proof (wf_count w H) as Hcnt.
  pose proof (wf_current w H) as Hcur. pose proof Hp as [Hps _]%live_lookup.
  pose proof (Forall_lookup_1 _ _ _ _ (wf_res w H) Hp) as Hr.
  unfold res_ok in Hr. rewrite Ha in Hr. destruct Hr as (Hsec & Htab & _).
  set (cur := current_proc (sched w)) in *.
  destruct (cleanup_spec (put_proc cur (with_state (PROC_EXITED (u32 status)) p) w)
    cur (with_state (PROC_EXITED (u32 status)) p)) as (s & t & Hcl & Hrel);
    [apply H|apply H|lia|apply put_lookup; lia|done|done|].
  rewrite put_put in Hcl. change (with_resources 0 0 _) with (zombie status p) in Hcl.
  set (w1 := with_allocators s t (put_proc cur (zombie status p) w)) in *.
  destruct (reparent_loop_spec (Z.to_nat (proc_count (sched w))) 0 cur (id p) w1)
    as (ps & Hloop & Hpsn & Hpsl); [lia|simpl; rewrite length_insert; lia|lia| |].
  { exists (zombie status p). split; [|done]. apply put_lookup. lia. }
  simpl in Hpsn. rewrite length_insert, Hlen in Hpsn.
  destruct (wf_exit w k p status s t ps) as [Hlive Hwf]; try done.
  { intros i Hi. rewrite Hpsl, decide_True by lia. done. }
  exists s, t, (with_allocators s t (with_processes ps w)). split; [done|].
  split; [|by split_and!].
  unfold scheduler_cur_proc_exit. rewrite (bind_Ret _ _ _ _ _ (get_current_eq w H)).
  erewrite bind_Ret by (by apply get_proc_eq; [lia|]).
  destruct (Z.eqb_spec (id p) 1); [done|].
  erewrite bind_Ret by (by apply upd_proc_eq; [lia|]).
  rewrite (bind_Ret _ _ _ _ _ Hcl). erewrite bind_Ret by done.
  change (proc_count (sched w1)) with (proc_count (sched w)).
  by rewrite (bind_Ret _ _ _ _ _ Hloop).
Qed.

(** The end: a parent [q] that waits for the zombie [z] is woken. *)
Lemma exit_reschedule_spec w cur status k j z q :
  wf w → cur = Z.of_nat k → current_proc (sched w) = cur →
  live (sched w) !! k = Some z → alive z = false →
  live (sched w) !! j = Some q → id q = parent_id z → j ≠ k →
  ∃ w', exit_reschedule_parent cur status w = Ret ((), w') ∧ wf w' ∧
    sections w' = sections w ∧ ttables w' = ttables w ∧ filesys w' = filesys w ∧
    match schedule_state q with
    | PROC_SUSPENDED pid ref =>
        if pid =? id z then
          live (sched w') = delete k (<[j := woken (id z) q]> (live (sched w))) ∧
          ram_load_word ref (ram w') = Ret (u32 status) ∧
          ∀ sec, sec ≠ memory_section q → ram w' !! sec = ram w !! sec
        else w' = w
    | _ => w' = w
    end.
Proof.
  intros H -> Hcur Hz Hdead Hq Hid Hne. unfold exit_reschedule_parent.
  erewrite bind_Ret by (apply get_proc_live; [lia|rewrite Nat2Z.id; exact Hz]).
  rewrite <- Hid, (bind_Ret _ _ _ _ _ (find_proc_live w j _ H Hq)).
  erewrite bind_Ret by (apply get_proc_live; [lia|rewrite Nat2Z.id; exact Hq]).
  destruct (schedule_state q) as [|pid ref|] eqn:Hst; [by exists w| |by exists w].
  destruct (Z.eqb_spec pid (id z)) as [->|]; [|by exists w].
  destruct (store_wstatus w j q (id z) ref (u32 status) H Hq Hst)
    as (m & Hstore & Hwf3 & Hload & Hother).
  rewrite (bind_Ret _ _ _ _ _ Hstore).
  destruct (wake_spec (with_ram m w) (Z.of_nat j) (id z) q (id z) ref)
    as [Hwf4 Hwake]; [done|lia|by rewrite Nat2Z.id|done|].
  rewrite Hwake. set (w4 := put_proc (Z.of_nat j) (woken (id z) q) (with_ram m w)) in *.
  assert (live (sched w4) = <[j := woken (id z) q]> (live (sched w))) as Hl4.
  { unfold w4. by rewrite put_live, Nat2Z.id. }
  assert (live (sched w4) !! k = Some z) as Hk4 by (by rewrite Hl4, list_lookup_insert_ne).
  assert (live (sched w4) !! Z.to_nat (Z.of_nat k) = Some z) as Hk4' by (by rewrite Nat2Z.id).
  rewrite (remove_spec w4 (Z.of_nat k) z) by (done || lia).
  eexists. split; [done|]. split.
  { eapply wf_removed; [done|lia|exact Hk4'|done|]. simpl. lia. }
  split_and!; try done; [|apply Hload, u32_range].
  pose proof Hk4 as [_ ?]%live_lookup.
  rewrite removed_live by (done || lia). by rewrite Nat2Z.id, Hl4.
Qed.

(** The parent of the running process, and its place in the table. *)
Lemma running_parent w p : wf w → running w p → id p ≠ INIT_PROC_ID →
  ∃ j q, live (sched w) !! j = Some q ∧ id q = parent_id p ∧ alive q = true ∧
    (j < Z.to_nat (current_proc (sched w)))%nat ∧ id q < id p.
Proof.
  intros H [Hp Hst] Hid.
  assert (Z.to_nat (current_proc (sched w)) ≠ 0%nat) as Hk0.
  { intros Hk. destruct (ids_init _ _ (wf_ids w H)) as (p0 & Hp0 & ? & _).
    rewrite Hk in Hp. congruence. }
  destruct (ids_parent _ _ (wf_ids w H) _ p Hp Hk0) as (j & q & Hq & Hjk & Hqid & Hqa).
  exists j, q. split_and!; try done. by eapply (ids_sorted _ _ (wf_ids w H)).
Qed.

(** ** Task switching *)

Definition with_current i w : world F :=
  let s := sched w in set_sched (mksched (processes s) (proc_count s) i (id_gen s)) w.

Lemma wf_with_current w i : wf w → 0 ≤ i < proc_count (sched w) → wf (with_current i w).
Proof. intros [] ?. by split. Qed.

Definition is_scheduled (p : process) : bool :=
  match schedule_state p with PROC_SCHEDULED => true | _ => false end.

(** Entry [i] of the table is a process that can run. *)
Definition ready w i : bool :=
  match live (sched w) !! Z.to_nat i with Some p => is_scheduled p | None => false end.

(** The entry [d] places after the current one, around the table. *)
Definition after w (d : Z) : Z := (current_proc (sched w) + d) `mod` proc_count (sched w).

Lemma after_range w d : wf w → 0 ≤ after w d < proc_count (sched w).
Proof. intros H. pose proof (wf_count w H). unfold after. apply Z.mod_pos_bound. lia. Qed.

Lemma mod_step (c n d : Z) : 0 < n → ((c + 1) `mod` n + d) `mod` n = (c + (1 + d)) `mod` n.
Proof. intros. rewrite Zplus_mod_idemp_l. f_equal. lia. Qed.

Lemma select_step w n : wf w →
  select_loop (S n) w =
    if ready w (after w 1) then Ret (after w 1, with_current (after w 1) w)
    else select_loop n (with_current (after w 1) w).
Proof.
  intros H. pose proof (wf_count w H). pose proof (wf_current w H).
  cbn [select_loop]. erewrite bind_Ret by done. erewrite bind_Ret by done.
  rewrite u32_small by lia.
  erewrite bind_Ret by done. fold (with_current (current_proc (sched w) + 1) w).
  assert ((if current_proc (sched (with_current (current_proc (sched w) + 1) w)) =?
              proc_count (sched (with_current (current_proc (sched w) + 1) w))
           then set_current 0 else ret ()) (with_current (current_proc (sched w) + 1) w) =
          Ret ((), with_current (after w 1) w)) as Hwrap.
  { simpl. unfold after. destruct (Z.eqb_spec (current_proc (sched w) + 1) (proc_count (sched w))) as [->|].
    - rewrite Z.mod_same by lia. done.
    - by rewrite Z.mod_small by lia. }
  rewrite (bind_Ret _ _ _ _ _ Hwrap).
  pose proof (after_range w 1 H) as Hr. pose proof (wf_with_current w _ H Hr) as Hwf.
  rewrite (bind_Ret _ _ _ _ _ (get_current_eq _ Hwf)). simpl current_proc.
  destruct (live_some w _ H Hr) as [p Hp].
  erewrite bind_Ret by (apply get_proc_live; [lia|exact Hp]).
  unfold ready, is_scheduled. rewrite Hp. by destruct (schedule_state p).
Qed.

Lemma after_with_current w d : wf w → after (with_current (after w 1) w) d = after w (1 + d).
Proof. intros H. pose proof (wf_count w H). unfold after. simpl. apply mod_step. lia. Qed.

Lemma select_loop_ready n w d :
  wf w → 1 ≤ d ≤ Z.of_nat n → ready w (after w d) = true →
  (∀ d', 1 ≤ d' < d → ready w (after w d') = false) →
  select_loop n w = Ret (after w d, with_current (after w d) w).
Proof.
  revert w d. induction n as [|n IH]; intros w d H Hd Hready Hskip; [lia|].
  rewrite select_step by done. destruct (Z.eq_dec d 1) as [->|].
  { by rewrite Hready. }
  rewrite Hskip by lia.
  rewrite (IH _ (d - 1)).
  - rewrite after_with_current by done. replace (1 + (d - 1)) with d by lia. done.
  - apply wf_with_current; [done|by apply after_range].
  - lia.
  - rewrite after_with_current by done. replace (1 + (d - 1)) with d by lia. done.
  - intros d' Hd'. rewrite after_with_current by done. apply Hskip. lia.
Qed.

Lemma select_loop_none n w :
  wf w → (∀ d, 1 ≤ d ≤ Z.of_nat n → ready w (after w d) = false) →
  select_loop n w = Fatal "no more scheduled processes".
Proof.
  revert w. induction n as [|n IH]; intros w H Hskip; [done|].
  rewrite select_step, Hskip by (done || lia). apply IH.
  - apply wf_with_current; [done|by apply after_range].
  - intros d' Hd'. rewrite after_with_current by done. apply Hskip. lia.
Qed.

(** The first ready place after the current one. *)
Lemma first_ready (f : Z → bool) (n : nat) :
  (∃ d, 1 ≤ d ≤ Z.of_nat n ∧ f d = true ∧ ∀ d', 1 ≤ d' < d → f d' = false) ∨
  (∀ d, 1 ≤ d ≤ Z.of_nat n → f d = false).
Proof.
  induction n as [|n [(d & ? & ? & ?)|Hnone]]; [right; lia|left; exists d; split_and!; done || lia|].
  destruct (f (Z.of_nat (S n))) eqn:E.
  - left. exists (Z.of_nat (S n)). split_and!; [lia..|done|]. intros d' ?. apply Hnone. lia.
  - right. intros d' Hd'. destruct (Z.eq_dec d' (Z.of_nat (S n))) as [->|]; [done|].
    apply Hnone. lia.
Qed.

(** Every entry is some places after the current one. *)
Lemma after_surj w i : wf w → 0 ≤ i < proc_count (sched w) →
  ∃ d, 1 ≤ d ≤ proc_count (sched w) ∧ after w d = i.
Proof.
  intros H Hi. pose proof (wf_current w H). set (n := proc_count (sched w)) in *.
  set (c := current_proc (sched w)) in *. unfold after. fold n c.
  destruct (Z.leb_spec i c).
  - exists (i + n - c). split; [lia|]. replace (c + (i + n - c)) with (i + 1 * n) by lia.
    rewrite Z.mod_add, Z.mod_small by lia. done.
  - exists (i - c). split; [lia|]. replace (c + (i - c)) with i by lia.
    by rewrite Z.mod_small by lia.
Qed.

Lemma switch_ready w i :
  wf w → 0 ≤ i < proc_count (sched w) → ready w i = true →
  ∃ d, 1 ≤ d ≤ proc_count (sched w) ∧ ready w (after w d) = true ∧
    (∀ d', 1 ≤ d' < d → ready w (after w d') = false) ∧
    scheduler_switch_task w = Ret (after w d, with_current (after w d) w).
Proof.
  intros H Hi Hready. pose proof (wf_count w H). pose proof (wf_current w H) as Hc.
  destruct (live_some w _ H Hc) as [p Hp].
  destruct (first_ready (λ d, ready w (after w d)) (Z.to_nat (proc_count (sched w))))
    as [(d & Hd & Hr & Hskip)|Hnone].
  - exists d. split; [lia|]. split; [done|]. split; [done|].
    unfold scheduler_switch_task, _select_next_scheduled_proc.
    erewrite bind_Ret by done. erewrite bind_Ret by (apply get_proc_live; [lia|exact Hp]).
    erewrite bind_Ret by done. apply select_loop_ready; try done; lia.
  - destruct (after_surj w i H Hi) as (d & Hd & <-).
    rewrite Hnone in Hready by lia. done.
Qed.

End ops.
End SchedulerOps.
