(* ===== verification/SchedulerFork.v ===== *)
(** * The steps of fork

    Resource allocation for a new process and the sharing of open files. *)
From S2P Require Import Prelude Bitfield Mmu Alloc Scheduler SchedulerInv SchedulerOps.
Import Scheduler SchedulerInv SchedulerOps.

Module SchedulerFork.

Section fork.
Context {F : Type} `{!Files F}.
Implicit Types (w : world F) (p q : process) (fs : F).

(** ** Resources for a new process *)

Lemma table_alloc_tables (t t' : TranslationTableAllocator.translation_table_allocator_t) a :
  TranslationTableAllocator.translation_table_allocator_alloc t = Ret (a, t') → a ≠ 0 →
  TranslationTableAllocator.tables t' =
    <[a := TranslationTableAllocator.zero_table]> (TranslationTableAllocator.tables t).
Proof.
  unfold TranslationTableAllocator.translation_table_allocator_alloc. intros H Ha.
  apply obind_inv in H as ([i bf] & Hb & H).
  destruct (i <? 0); inv_run; done.
Qed.

Definition fresh_process (pid ppid table section : Z) : process :=
  mkproc zero_context pid ppid PROC_SCHEDULED table section
    (replicate (Z.to_nat MAX_FILE_DESCRIPTOR_COUNT) 0)
    (replicate (Z.to_nat FD_BITFIELD_COUNT) 0).

(** [sec] and [tab] were free in [w] and are handed out in [s] and [t]. *)
Definition acquired (sec tab : Z) w (s : SectionAllocator.section_allocator_t)
    (t : TranslationTableAllocator.translation_table_allocator_t) : Prop :=
  slot_inv s ∧ slot_inv t ∧
  slot_owned (sections w) sec = false ∧ slot_owned (ttables w) tab = false ∧
  (∀ a, slot_owned s a = slot_owned (sections w) a || (a =? sec)) ∧
  (∀ a, slot_owned t a = slot_owned (ttables w) a || (a =? tab)) ∧
  TranslationTableAllocator.tables t =
    <[tab := TranslationTableAllocator.zero_table]>
      (TranslationTableAllocator.tables (ttables w)).

(** Out of sections or tables the kernel stops; otherwise the process has fresh
    ones, and its section is cleared. *)
Lemma init_resources_spec w n pid ppid :
  slot_inv (sections w) → slot_inv (ttables w) →
  0 ≤ n < Z.of_nat (length (processes (sched w))) →
  (∃ r, _proc_init_resources n pid ppid w = Fatal r) ∨
  ∃ sec tab s t,
    _proc_init_resources n pid ppid w =
      Ret ((), with_allocators s t (with_ram (<[sec := ∅]> (ram w))
                 (put_proc n (fresh_process pid ppid tab sec) w))) ∧
    acquired sec tab w s t.
Proof.
  intros Hs Ht Hn.
  destruct (SectionAllocator.section_alloc_ok _ Hs) as (sec & s & Es & Hs' & Hsown).
  destruct (TranslationTableAllocator.table_alloc_ok _ Ht) as (tab & t & Et & Ht' & Htown).
  unfold _proc_init_resources.
  rewrite (bind_Ret _ _ _ _ _ (set_proc_eq w n zero_process Hn)).
  erewrite bind_Ret by (apply upd_proc_eq; [lia|by apply put_lookup]).
  rewrite put_put. cbn [context files files_bitfield zero_process].
  erewrite bind_Ret by (apply zoom_sections, Es).
  erewrite bind_Ret by (apply upd_proc_eq; [lia|apply put_lookup; done]).
  destruct Hsown as [[-> _]|(Hsec & Hsfree & Hsown)]; [left; by eexists|].
  destruct (Z.eqb_spec sec 0); [done|]. erewrite bind_Ret by done. erewrite bind_Ret by done.
  erewrite bind_Ret by (apply zoom_ttables; simpl; exact Et).
  erewrite bind_Ret.
  2: { eapply upd_proc_eq; [lia|]. simpl. apply list_lookup_insert_eq.
       rewrite !length_insert. lia. }
  destruct Htown as [[-> _]|(Htab & Htfree & Htown)]; [left; by eexists|].
  destruct (Z.eqb_spec tab 0); [done|].
  right. exists sec, tab, s, t. split.
  - unfold ret, put_proc, with_allocators. simpl. by rewrite !list_insert_insert_eq.
  - split_and!; try done. by apply table_alloc_tables.
Qed.

(** ** Sharing the open files *)

(** How many of the [n] descriptors of [p] from [i] on stand for [file]. *)
Fixpoint refs (n : nat) (i : Z) (p : process) (file : Z) : Z :=
  match n with
  | O => 0
  | S n =>
      (if Bitfield.used (files_bitfield p) i &&
          bool_decide (files p !! Z.to_nat i = Some file) then 1 else 0)
      + refs n (i + 1) p file
  end.

(** The counts went up by the references, modulo the word size. *)
Definition counts_raised fs fs' (k : Z → Z) : Prop :=
  ∀ g c, fd_count fs g = Some c →
    ∃ c', fd_count fs' g = Some c' ∧ u32 c' = u32 (c + k g) ∧ (is_u32 c → is_u32 c').

Lemma counts_raised_exact fs fs' k g c :
  counts_raised fs fs' k → fd_count fs g = Some c → is_u32 c →
  fd_count fs' g = Some (u32 (c + k g)).
Proof.
  intros H Hc Hr. destruct (H g c Hc) as (c' & -> & <- & Hr').
  specialize (Hr' Hr). by rewrite u32_small.
Qed.

Lemma add_fd_count_spec fs file d :
  is_Some (fd_count fs file) →
  ∃ fs', add_fd_count file d fs = Ret ((), fs') ∧
    counts_raised fs fs' (λ g, if decide (g = file) then d else 0).
Proof.
  intros [n Hn]. unfold add_fd_count. rewrite Hn. eexists. split; [done|].
  intros g c Hg. rewrite fd_count_set by done. case_decide as Heq.
  - subst. simplify_eq. eexists. split; [done|]. rewrite u32_u32. split; [done|]. intros _. apply u32_range.
  - exists c. split; [done|]. by rewrite Z.add_0_r.
Qed.

Lemma counts_raised_refl fs k : (∀ g, k g = 0) → counts_raised fs fs k.
Proof. intros Hk g c Hc. exists c. by rewrite Hk, Z.add_0_r. Qed.

Lemma counts_raised_trans fs1 fs2 fs3 k1 k2 k :
  counts_raised fs1 fs2 k1 → counts_raised fs2 fs3 k2 → (∀ g, k g = k1 g + k2 g) →
  counts_raised fs1 fs3 k.
Proof.
  intros H12 H23 Hk g c Hc. destruct (H12 g c Hc) as (c2 & Hc2 & E2 & R2).
  destruct (H23 g c2 Hc2) as (c3 & Hc3 & E3 & R3). exists c3. split; [done|].
  split; [|by auto]. rewrite E3, Hk. unfold u32 in *. lia.
Qed.

Lemma counts_raised_some fs fs' k g :
  counts_raised fs fs' k → is_Some (fd_count fs g) → is_Some (fd_count fs' g).
Proof. intros H [c Hc]. destruct (H g c Hc) as (c' & -> & _). eauto. Qed.

(** The child's descriptor table after [n] turns from [i] on. *)
Definition files_copied (n : nat) (i : Z) p q (fl : list Z) : Prop :=
  length fl = length (files q) ∧
  ∀ j, fl !! j =
    if decide (Z.to_nat i ≤ j < Z.to_nat i + n)%nat
    then (if Bitfield.used (files_bitfield p) (Z.of_nat j) then files p !! j else Some 0)
    else files q !! j.

Definition with_fl (fl : list Z) q : process := with_files fl (files_bitfield q) q.

(** One turn: descriptor [i] of [q] becomes that of [p]. *)
Lemma copy_one w a b p q i :
  0 ≤ a → 0 ≤ b → 0 ≤ i < 16 →
  processes (sched w) !! Z.to_nat a = Some p → processes (sched w) !! Z.to_nat b = Some q →
  fds_ok (filesys w) p → length (files q) = 16%nat →
  ∃ v fs',
    (let* bit := lift (Bitfield.bitfield_bit (files_bitfield p) FD_BITFIELD_COUNT i) in
     if bit =? 0 then
       let* q := get_proc b in
       let* fl := lift (arr_set (files q) i 0) in
       upd_proc b (λ q, with_files fl (files_bitfield q) q)
     else
       let* file := lift (arr_get (files p) i) in
       let* _ := zoom (add_fd_count file 1) in
       let* q := get_proc b in
       let* fl := lift (arr_set (files q) i file) in
       upd_proc b (λ q, with_files fl (files_bitfield q) q)) w =
      Ret ((), with_fs fs' (put_proc b (with_fl (<[Z.to_nat i := v]> (files q)) q) w)) ∧
    (if Bitfield.used (files_bitfield p) i then files p !! Z.to_nat i else Some 0) = Some v ∧
    counts_raised (filesys w) fs' (λ g, refs 1 i p g).
Proof.
  intros Ha Hb Hi Hp Hq (Hlen & Hbf & Hopen) Hlenq.
  rewrite (bind_Ret _ _ _ (if Bitfield.used (files_bitfield p) i then 1 else 0) w).
  2: { unfold lift. by rewrite (Bitfield.bit_spec 2) by (done || lia). }
  unfold refs. destruct (Bitfield.used (files_bitfield p) i) eqn:Hu; simpl.
  - destruct (Hopen i Hi Hu) as (file & Hfile & Hsome).
    destruct (add_fd_count_spec (filesys w) file 1 Hsome) as (fs' & Hadd & Hraise).
    exists file, fs'.
    erewrite bind_Ret by (unfold lift; by rewrite (arr_get_lookup (files p) i file (proj1 Hi) Hfile)).
    erewrite bind_Ret by (apply zoom_fs, Hadd).
    erewrite bind_Ret by (apply get_proc_eq; [done|exact Hq]).
    erewrite bind_Ret by (unfold lift; by rewrite arr_set_Ret by lia).
    rewrite (upd_proc_eq _ _ q) by done. split; [done|]. split; [done|].
    eapply counts_raised_trans; [exact Hraise|by apply counts_raised_refl with (k := λ _, 0)|].
    intros g. rewrite Hfile. destruct (decide (g = file)) as [->|].
    + by rewrite bool_decide_eq_true_2.
    + rewrite bool_decide_eq_false_2; [done|]. congruence.
  - exists 0, (filesys w).
    erewrite bind_Ret by (apply get_proc_eq; [done|exact Hq]).
    erewrite bind_Ret by (unfold lift; by rewrite arr_set_Ret by lia).
    rewrite (upd_proc_eq _ _ q) by done.
    split; [by destruct w|]. split; [done|]. by apply counts_raised_refl.
Qed.

Lemma copy_files_spec n i w a b p q :
  0 ≤ a → 0 ≤ b → a ≠ b → 0 ≤ i → i + Z.of_nat n ≤ 16 →
  processes (sched w) !! Z.to_nat a = Some p → processes (sched w) !! Z.to_nat b = Some q →
  fds_ok (filesys w) p → length (files q) = 16%nat →
  ∃ fl fs', copy_files n i a b w = Ret ((), with_fs fs' (put_proc b (with_fl fl q) w)) ∧
    files_copied n i p q fl ∧ counts_raised (filesys w) fs' (refs n i p).
Proof.
  intros Ha Hb Hab. revert i w q. induction n as [|n IH]; intros i w q Hi Hin Hp Hq Hfd Hlen.
  { exists (files q), (filesys w). cbn [copy_files]. split.
    - unfold ret, put_proc, with_fl. rewrite list_insert_id by (by destruct q).
      by destruct w as [? ? ? [] ?].
    - split; [|by apply counts_raised_refl]. split; [done|]. intros j. by rewrite decide_False by lia. }
  cbn [copy_files]. rewrite (bind_Ret _ _ _ p w) by (by apply get_proc_eq).
  destruct (copy_one w a b p q i) as (v & fs1 & Hrun & Hv & Hraise); try done; [lia|].
  apply bind_inv in Hrun as (bit & w0 & Hbit & Hrun). rewrite (bind_Ret _ _ _ _ _ Hbit).
  rewrite (bind_Ret _ _ _ _ _ Hrun).
  set (w1 := with_fs fs1 (put_proc b (with_fl (<[Z.to_nat i := v]> (files q)) q) w)).
  pose proof (lookup_lt_Some _ _ _ Hq) as Hblt.
  destruct (IH (i + 1) w1 (with_fl (<[Z.to_nat i := v]> (files q)) q))
    as (fl & fs' & Hcopy & [Hflen Hfl] & Hraise'); try lia.
  - simpl. by rewrite list_lookup_insert_ne by lia.
  - apply (put_lookup b). lia.
  - destruct Hfd as (? & ? & Hopen). split_and!; [done..|]. intros fd Hfd Hu.
    destruct (Hopen fd Hfd Hu) as (file & ? & ?). exists file. split; [done|].
    by eapply counts_raised_some.
  - simpl. by rewrite length_insert.
  - exists fl, fs'. split; [|split].
    + rewrite Hcopy. f_equal. f_equal. unfold w1, with_fs, put_proc. simpl.
      by rewrite list_insert_insert_eq.
    + split; [by rewrite Hflen; simpl; rewrite length_insert|]. intros j. rewrite Hfl. simpl.
      destruct (decide (j = Z.to_nat i)) as [->|].
      * rewrite decide_False, decide_True by lia. rewrite list_lookup_insert_eq by lia.
        by rewrite Z2Nat.id, <- Hv by lia.
      * rewrite list_lookup_insert_ne by done. repeat case_decide; done || lia.
    + eapply counts_raised_trans; [exact Hraise|exact Hraise'|]. intros g. simpl. lia.
Qed.

(** ** Writing a translation table *)

Definition set_table (a : Z) (tb : list Z)
    (t : TranslationTableAllocator.translation_table_allocator_t) :=
  TranslationTableAllocator.mk (TranslationTableAllocator.alloc_bitfields t)
    (TranslationTableAllocator.memory_section_base t)
    (<[a := tb]> (TranslationTableAllocator.tables t)).

Lemma set_table_inv a tb t : slot_inv t → length tb = 4096%nat → slot_inv (set_table a tb t).
Proof.
  intros (Hwf & Hbase & Hend & Htab) Hlen. split_and!; try done. intros q Hq.
  simpl. destruct (decide (a = q)) as [->|].
  - rewrite lookup_insert_eq. eauto.
  - rewrite lookup_insert_ne by done. by apply Htab.
Qed.

Lemma set_table_owned a tb t b : slot_owned (set_table a tb t) b = slot_owned t b.
Proof. done. Qed.

Lemma set_set_table a tb tb' t : set_table a tb' (set_table a tb t) = set_table a tb' t.
Proof. unfold set_table. simpl. by rewrite insert_insert_eq. Qed.

Lemma on_table_eq w a f tb tb' :
  TranslationTableAllocator.tables (ttables w) !! a = Some tb → f tb = Ret tb' →
  on_table a f w = Ret ((), with_allocators (sections w) (set_table a tb' (ttables w)) w).
Proof.
  intros Htb Hf. unfold on_table, get_table.
  erewrite bind_Ret by (by rewrite Htb). erewrite bind_Ret by (by rewrite Hf). done.
Qed.

(** ** The whole of fork *)

Definition child_of (gen tab sec : Z) (fl : list Z) p : process :=
  mkproc (set_r0 0 (context p)) (gen + 1) (id p) PROC_SCHEDULED tab sec fl (files_bitfield p).

(** The world after a fork that succeeded. *)
Definition forked w p (sec tab : Z) (s : SectionAllocator.section_allocator_t)
    (t : TranslationTableAllocator.translation_table_allocator_t) (mem : gmap Z Z)
    (tb fl : list Z) fs : world F :=
  let sc := sched w in
  mkworld s
    (set_table tab (<[8%nat := Mmu.section_entry sec Mmu.MMU_L1_SECTION_AP_KERNEL_RW_USER_RW]> tb) t)
    (<[sec := mem]> (ram w))
    (mksched (<[Z.to_nat (proc_count sc) := child_of (id_gen sc) tab sec fl p]> (processes sc))
       (proc_count sc + 1) (current_proc sc) (id_gen sc + 1)) fs.

Lemma acquired_ne w k p sec tab s t :
  wf w → live (sched w) !! k = Some p → alive p = true → acquired sec tab w s t →
  memory_section p ≠ sec ∧ translation_table p ≠ tab.
Proof.
  intros H Hp Ha (_ & _ & Hs & Ht & _).
  pose proof (Forall_lookup_1 _ _ _ _ (wf_res w H) Hp) as Hr.
  unfold res_ok in Hr. rewrite Ha in Hr. destruct Hr as (Hsec & Htab & _).
  split; intros <-; congruence.
Qed.

Lemma acquired_section w sec tab s t : acquired sec tab w s t →
  sec `mod` 0x100000 = 0 ∧ 0 ≤ sec < 0x100000000.
Proof.
  intros (Hs & _ & _ & _ & Hown & _).
  assert (slot_owned s sec = true) as Ho by (by rewrite Hown, Z.eqb_refl, orb_true_r).
  destruct (SectionAllocator.owned_section s sec Hs Ho).
  pose proof Hs as (_ & ? & ? & _). split; [done|lia].
Qed.

Lemma fork_run w p :
  wf w → running w p → proc_count (sched w) < 32 → id_gen (sched w) + 1 < 0x80000000 →
  (∃ r, scheduler_cur_proc_fork w = Fatal r) ∨
  ∃ sec tab s t mem tb fl fs,
    scheduler_cur_proc_fork w =
      Ret (id_gen (sched w) + 1, forked w p sec tab s t mem tb fl fs) ∧
    acquired sec tab w s t ∧ ram w !! memory_section p = Some mem ∧
    TranslationTableAllocator.tables (ttables w) !! translation_table p = Some tb ∧
    Mmu.grants_only tb 8 (memory_section p) ∧
    files_copied 16 0 p zero_process fl ∧ counts_raised (filesys w) fs (refs 16 0 p).
Proof.
  intros H [Hp Hst] Hcnt Hgen. pose proof (wf_table w H) as Hlen.
  pose proof (wf_count w H). pose proof (wf_current w H) as Hcur. pose proof (wf_gen w H).
  assert (alive p = true) as Ha by (unfold alive; by rewrite Hst).
  pose proof Hp as [Hps _]%live_lookup.
  pose proof (Forall_lookup_1 _ _ _ _ (wf_res w H) Hp) as Hr. unfold res_ok in Hr. rewrite Ha in Hr.
  destruct Hr as (_ & _ & [mem Hmem] & (tb & Htb & Hg) & _).
  set (n := proc_count (sched w)) in *. set (cur := current_proc (sched w)) in *.
  set (w1 := set_sched (mksched (processes (sched w)) (n + 1) cur (id_gen (sched w) + 1)) w).
  unfold scheduler_cur_proc_fork. erewrite bind_Ret by done. fold n.
  unfold SCHEDULER_MAX_TASK_COUNT. destruct (Z.geb_spec n 32); [lia|].
  rewrite (bind_Ret _ _ _ _ _ (get_current_eq w H)). fold cur.
  rewrite (bind_Ret _ _ _ (id_gen (sched w) + 1)
    (set_sched (mksched (processes (sched w)) n cur (id_gen (sched w) + 1)) w)).
  2: { unfold next_pid. by rewrite u32_small, s32_small by lia. }
  rewrite (bind_Ret _ _ _ () w1) by (by rewrite u32_small by lia).
  rewrite (bind_Ret _ _ _ p w1) by (apply get_proc_eq; [lia|exact Hps]).
  destruct (init_resources_spec w1 n (id_gen (sched w) + 1) (id p)) as [[r E]|(sec & tab & s & t & E & Hacq)];
    [apply H|apply H|simpl; lia|left; exists r; by apply bind_Fatal|right].
  change (acquired sec tab w s t) in Hacq. rewrite (bind_Ret _ _ _ _ _ E). clear E.
  destruct (acquired_ne w _ p sec tab s t H Hp Ha Hacq) as [Hnsec Hntab].
  destruct (acquired_section w sec tab s t Hacq) as [Hal Hrange].
  set (w2 := with_allocators s t _).
  assert (∀ x, processes (sched (put_proc n x w2)) !! Z.to_nat cur = Some p) as Hpn.
  { intros x. simpl. rewrite !list_lookup_insert_ne by lia. exact Hps. }
  assert (∀ x, processes (sched (put_proc n x w2)) !! Z.to_nat n = Some x) as Hxn.
  { intros x. apply put_lookup. simpl. rewrite length_insert. lia. }
  assert (w2 = put_proc n (fresh_process (id_gen (sched w) + 1) (id p) tab sec) w2) as Hw2.
  { unfold w2, put_proc. simpl. by rewrite list_insert_insert_eq. }
  rewrite Hw2. rewrite (bind_Ret _ _ _ p _) by (apply get_proc_eq; [lia|apply Hpn]).
  erewrite bind_Ret by (apply upd_proc_eq; [lia|apply Hxn]). rewrite put_put.
  erewrite bind_Ret by (apply upd_proc_eq; [lia|apply Hxn]). rewrite put_put.
  erewrite bind_Ret by (apply get_proc_eq; [lia|apply Hxn]).
  set (c0 := with_context (set_r0 0 _) _).
  erewrite bind_Ret.
  2: { unfold copy_section. simpl. by rewrite lookup_insert_ne, Hmem by done. }
  set (w3 := mkworld _ _ _ _ _).
  destruct (copy_files_spec 16 0 w3 cur n p c0) as (fl & fs & Hcopy & Hfl & Hraise);
    [lia|lia|lia|lia|lia|apply Hpn|apply Hxn|exact (Forall_lookup_1 _ _ _ _ (wf_fds w H) Hp)|done|].
  rewrite (bind_Ret _ _ _ _ _ Hcopy).
  erewrite bind_Ret by (apply upd_proc_eq; [lia|apply put_lookup; simpl; rewrite !length_insert; lia]).
  set (w4 := put_proc n _ _).
  pose proof Hacq as (_ & _ & _ & _ & _ & _ & Htabs).
  assert (TranslationTableAllocator.tables t !! translation_table p = Some tb) as Htb2.
  { rewrite Htabs, lookup_insert_ne by done. done. }
  rewrite (bind_Ret _ _ _ tb w4).
  2: { unfold get_table. simpl. by rewrite Htb2. }
  erewrite bind_Ret.
  2: { apply on_table_eq with (tb := TranslationTableAllocator.zero_table) (tb' := tb); [|done].
       simpl. by rewrite Htabs, lookup_insert_eq. }
  erewrite bind_Ret.
  2: { eapply on_table_eq; [simpl; apply lookup_insert_eq|].
       apply Mmu.single_section_spec; [done|apply Hg|done|done]. }
  exists sec, tab, s, t, mem, tb, fl, fs. split; [|by split_and!].
  unfold ret, forked, with_allocators, w4, w3, put_proc, w2. simpl.
  rewrite set_set_table, !list_insert_insert_eq, insert_insert_eq. done.
Qed.

End fork.
End SchedulerFork.
