(* ===== verification/SchedulerSpec.v ===== *)
(** * Correctness of the scheduler

    The invariant is kept by every operation, and what fork, exit, wait and task
    switching do to the processes; isolation of the address spaces. *)
From S2P Require Import Prelude Bitfield Mmu Alloc Scheduler SchedulerInv SchedulerOps SchedulerFork.
Import Scheduler SchedulerInv SchedulerOps SchedulerFork.

Module SchedulerSpec.

Section spec.
Context {F : Type} `{!Files F}.
Implicit Types (w : world F) (p q : process) (fs : F).

(** ** Lemmas *)

Lemma forked_live w p sec tab s t mem tb fl fs : wf w → proc_count (sched w) < 32 →
  live (sched (forked w p sec tab s t mem tb fl fs)) =
  live (sched w) ++ [child_of (id_gen (sched w)) tab sec fl p].
Proof.
  intros H Hcnt. unfold forked. simpl.
  pose proof (wf_count w H). pose proof (wf_table w H).
  rewrite (live_push _ _ _ _ (current_proc (sched w)) (id_gen (sched w))) by (done || lia).
  by destruct (sched w).
Qed.

(** The child's descriptors stand for the parent's files. *)
Lemma child_files p fl fd :
  files_copied 16 0 p zero_process fl → 0 ≤ fd < 16 →
  Bitfield.used (files_bitfield p) fd = true → fl !! Z.to_nat fd = files p !! Z.to_nat fd.
Proof.
  intros [_ Hfl] Hfd Hu. rewrite Hfl, decide_True by lia. by rewrite Z2Nat.id, Hu by lia.
Qed.

Lemma child_fds fs fs' k gen tab sec fl p :
  fds_ok fs p → files_copied 16 0 p zero_process fl → counts_raised fs fs' k →
  fds_ok fs' (child_of gen tab sec fl p).
Proof.
  intros (Hlen & Hbf & Hopen) Hfl Hraise. split; [exact (proj1 Hfl)|]. split; [done|].
  intros fd Hfd Hu. simpl in Hu. destruct (Hopen fd Hfd Hu) as (file & Hfile & Hsome).
  exists file. simpl. rewrite (child_files p) by done. split; [done|].
  by eapply counts_raised_some.
Qed.

Lemma fds_ok_raised fs fs' k p : counts_raised fs fs' k → fds_ok fs p → fds_ok fs' p.
Proof.
  intros Hraise (Hlen & Hbf & Hopen). split_and!; [done..|].
  intros fd Hfd Hu. destruct (Hopen fd Hfd Hu) as (file & ? & ?). exists file. split; [done|].
  by eapply counts_raised_some.
Qed.

Lemma wf_forked w p sec tab s t mem tb fl fs k :
  wf w → running w p → proc_count (sched w) < 32 → id_gen (sched w) + 1 < 0x80000000 →
  acquired sec tab w s t → Mmu.grants_only tb 8 (memory_section p) →
  files_copied 16 0 p zero_process fl → counts_raised (filesys w) fs k →
  wf (forked w p sec tab s t mem tb fl fs).
Proof.
  intros H [Hp Hst] Hcnt Hgen Hacq Hg Hfl Hraise.
  assert (alive p = true) as Ha by (unfold alive; by rewrite Hst).
  pose proof (forked_live w p sec tab s t mem tb fl fs H Hcnt) as Hlive.
  pose proof (λ i q Hi Haq, acquired_ne w i q sec tab s t H Hi Haq Hacq) as Hne.
  pose proof H as [Hs Ht Hlen Hc Hcur Hgen' Hids Hex Hres Hfds].
  pose proof Hacq as (Hs' & Ht' & _ & _ & Hsown & Htown & Htabs).
  split; try done; try rewrite Hlive.
  - apply set_table_inv; [done|]. rewrite length_insert. apply Hg.
  - simpl. by rewrite length_insert.
  - simpl. lia.
  - simpl. lia.
  - simpl. lia.
  - by eapply ids_ok_push.
  - apply exclusive_push; [done|]. intros i q Hi Haq. apply (Hne i q Hi Haq).
  - apply Forall_app. split; [|apply Forall_singleton].
    + apply Forall_lookup_2. intros i q Hi. pose proof (Forall_lookup_1 _ _ _ _ Hres Hi) as Hq.
      unfold res_ok in Hq |- *. destruct (alive q) eqn:Haq; [|done].
      destruct Hq as (Hqs & Hqt & Hqm & Hqtb & Hqref). destruct (Hne i q Hi Haq) as [? ?].
      unfold forked. simpl. change (SectionAllocator.owned s) with (slot_owned s).
      rewrite Htabs, 2!(lookup_insert_ne _ tab) by done.
      rewrite (lookup_insert_ne _ sec) by done. split_and!; try done.
      * by rewrite Hsown, Hqs.
      * change (slot_owned t (translation_table q) = true). by rewrite Htown, Hqt.
    + unfold res_ok, forked, child_of. simpl. rewrite !lookup_insert_eq. split_and!; try done.
      * change (slot_owned s sec = true). by rewrite Hsown, Z.eqb_refl, orb_true_r.
      * change (slot_owned t tab = true). by rewrite Htown, Z.eqb_refl, orb_true_r.
      * eexists. split; [done|]. by eapply (Mmu.grants_only_patch tb 8).
  - apply Forall_app. split; [|apply Forall_singleton].
    + eapply Forall_impl; [exact Hfds|]. intros q. simpl. by apply fds_ok_raised with k.
    + eapply child_fds; [|done|exact Hraise]. exact (Forall_lookup_1 _ _ _ _ Hfds Hp).
Qed.

(** What a fork that returns leads to. *)
Lemma fork_inv w p r w' :
  wf w → running w p → proc_count (sched w) < 32 → id_gen (sched w) + 1 < 0x80000000 →
  scheduler_cur_proc_fork w = Ret (r, w') →
  wf w' ∧ ∃ tab sec fl, live (sched w') =
    live (sched w) ++ [child_of (id_gen (sched w)) tab sec fl p] ∧
    current_proc (sched w') = current_proc (sched w) ∧
    proc_count (sched w') = proc_count (sched w) + 1 ∧
    id_gen (sched w') = id_gen (sched w) + 1.
Proof.
  intros H Hp Hcnt Hgen E.
  destruct (fork_run w p H Hp Hcnt Hgen)
    as [[r' E']|(sec & tab & s & t & mem & tb & fl & fs & E' & Hacq & Hmem & Htb & Hg & Hfl & Hraise)];
    [congruence|].
  rewrite E' in E. simplify_eq. split; [by eapply wf_forked|].
  exists tab, sec, fl. split; [by apply forked_live|done].
Qed.

(** *** The wait of a child *)

Definition suspended (pid ref : Z) p : process := with_state (PROC_SUSPENDED pid ref) p.

(** The pointer the caller passes: a word of its own section. *)
Definition own_word p (ref : Z) : Prop :=
  memory_section p ≤ ref ∧ ref + 4 ≤ memory_section p + 0x100000.

Lemma store_own w k p ref v :
  wf w → live (sched w) !! k = Some p → alive p = true → own_word p ref →
  ∃ m, store_word ref v w = Ret ((), with_ram m w) ∧ wf (with_ram m w) ∧
    (is_u32 v → ram_load_word ref m = Ret v) ∧
    ∀ sec, sec ≠ memory_section p → m !! sec = ram w !! sec.
Proof.
  intros H Hk Ha [Hlo Hhi].
  destruct (section_of w k p H Hk Ha) as (Hal & Hpos & Hend & s & Hs).
  set (o := ref - memory_section p). replace ref with (memory_section p + o) by lia.
  exists (<[memory_section p := put_word o v s]> (ram w)).
  unfold store_word. rewrite (ram_store_word_in _ _ s) by (done || lia). cbn [obind].
  split; [done|]. split; [by eapply wf_ram|]. split.
  - intros Hv. apply ram_load_word_in; done || lia.
  - intros sec Hne. by rewrite lookup_insert_ne.
Qed.

Lemma wait_reap w p (k : nat) c st ref :
  wf w → running w p → own_word p ref → live (sched w) !! k = Some c → id c ≠ -1 →
  schedule_state c = PROC_EXITED st →
  ∃ m, scheduler_cur_proc_wait_id (id c) ref w =
         Ret (id c, removed (Z.of_nat k) (with_ram m w)) ∧
    wf (with_ram m w) ∧ (is_u32 st → ram_load_word ref m = Ret st).
Proof.
  intros H [Hp Hst] Href Hc Hid Hex.
  assert (alive p = true) as Ha by (unfold alive; by rewrite Hst).
  destruct (store_own w _ p ref st H Hp Ha Href) as (m & Hstore & Hwf & Hload & _).
  exists m. split; [|done]. unfold scheduler_cur_proc_wait_id.
  rewrite (bind_Ret _ _ _ _ _ (get_current_eq w H)).
  destruct (Z.eqb_spec (id c) (-1)); [done|].
  rewrite (bind_Ret _ _ _ _ _ (find_proc_live w k c H Hc)).
  erewrite bind_Ret by (apply get_proc_live; [lia|rewrite Nat2Z.id; exact Hc]).
  rewrite Hex, (bind_Ret _ _ _ _ _ Hstore).
  rewrite (bind_Ret _ _ _ () (removed (Z.of_nat k) (with_ram m w))); [done|].
  apply (remove_spec _ _ c); [done|lia|by rewrite Nat2Z.id|]. unfold alive. by rewrite Hex.
Qed.

Lemma wait_run w p pid ref :
  wf w → running w p → own_word p ref → pid = -1 ∨ id p < pid →
  ∃ r w', scheduler_cur_proc_wait_id pid ref w = Ret (r, w') ∧ wf w' ∧
    ((r = -1 ∧ w' = w ∧ (pid = -1 ∨ ∀ k c, live (sched w) !! k = Some c → id c ≠ pid)) ∨
     (∃ k c st, live (sched w) !! k = Some c ∧ id c = pid ∧ schedule_state c = PROC_EXITED st ∧
        r = pid ∧ live (sched w') = delete k (live (sched w)) ∧ running w' p ∧
        (is_u32 st → ram_load_word ref (ram w') = Ret st)) ∨
     (∃ k c, live (sched w) !! k = Some c ∧ id c = pid ∧ alive c = true ∧
        live (sched w') = <[Z.to_nat (current_proc (sched w)) := suspended pid ref p]>
                            (live (sched w)) ∧
        current_proc (sched w') = current_proc (sched w))) ∧
    sections w' = sections w ∧ ttables w' = ttables w.
Proof.
  intros H Hrun Href Hpid. pose proof Hrun as [Hp Hst]. pose proof (wf_current w H).
  destruct (Z.eq_dec pid (-1)) as [->|Hne].
  { exists (-1), w. split; [|by split; [|split; [left; auto|]]]. unfold scheduler_cur_proc_wait_id.
    by rewrite (bind_Ret _ _ _ _ _ (get_current_eq w H)). }
  destruct Hpid as [?|Hlt]; [done|].
  destruct (find_proc_spec w pid H) as ([j|] & Hfind & Hr).
  2: { exists (-1), w. split; [|by split; [|split; [left; auto|]]]. unfold scheduler_cur_proc_wait_id.
       rewrite (bind_Ret _ _ _ _ _ (get_current_eq w H)).
       destruct (Z.eqb_spec pid (-1)); [done|]. by rewrite (bind_Ret _ _ _ _ _ Hfind). }
  destruct Hr as (Hj & c & Hc & <-).
  assert (current_proc (sched w) < j) as Hcj.
  { destruct (Z.lt_ge_cases (current_proc (sched w)) j); [done|]. exfalso.
    destruct (Z.eq_dec j (current_proc (sched w))) as [->|]; [rewrite Hp in Hc; simplify_eq; lia|].
    pose proof (ids_sorted _ _ (wf_ids w H) _ _ _ _ Hc Hp). lia. }
  destruct (schedule_state c) as [| |st] eqn:Hcst.
  3: { destruct (wait_reap w p (Z.to_nat j) c st ref) as (m & E & Hwf & Hload); try done.
       rewrite Z2Nat.id in E by lia.
       assert (live (sched (removed j (with_ram m w))) = delete (Z.to_nat j) (live (sched w))) as Hl.
       { apply (removed_live (with_ram m w)); [done|simpl; lia]. }
       exists (id c), (removed j (with_ram m w)). split; [done|]. split.
       { eapply wf_removed; [done|lia|exact Hc| |simpl; lia]. unfold alive. by rewrite Hcst. }
       split; [|done]. right; left. exists (Z.to_nat j), c, st. split_and!; try done. split; [|done].
       rewrite Hl. simpl. destruct (Z.eqb_spec j (current_proc (sched w))); [lia|].
       by rewrite list_lookup_delete_lt by lia. }
  all: exists 0, (put_proc (current_proc (sched w)) (suspended (id c) ref p) w); split;
    [unfold scheduler_cur_proc_wait_id; rewrite (bind_Ret _ _ _ _ _ (get_current_eq w H));
     destruct (Z.eqb_spec (id c) (-1)); [done|]; rewrite (bind_Ret _ _ _ _ _ Hfind);
     (erewrite bind_Ret by (apply get_proc_live; [lia|exact Hc])); rewrite Hcst;
     by (erewrite bind_Ret by (apply upd_proc_live; [lia|exact Hp]))
    |split; [|split; [|done]; right; right; exists (Z.to_nat j), c; split_and!; try done;
              [unfold alive; by rewrite Hcst|apply put_live]]].
  all: apply (wf_put w _ p); try done; try lia;
    [split_and!; try done; unfold alive; by rewrite Hst
    |exact (Forall_lookup_1 _ _ _ _ (wf_fds w H) Hp)].
Qed.

Lemma switch_run w :
  wf w →
  (∃ d, 1 ≤ d ≤ proc_count (sched w) ∧ ready w (after w d) = true ∧
     (∀ d', 1 ≤ d' < d → ready w (after w d') = false) ∧
     scheduler_switch_task w = Ret (after w d, with_current (after w d) w) ∧
     wf (with_current (after w d) w)) ∨
  ((∀ i, 0 ≤ i < proc_count (sched w) → ready w i = false) ∧
   scheduler_switch_task w = Fatal "no more scheduled processes").
Proof.
  intros H. pose proof (wf_count w H). pose proof (wf_current w H) as Hc.
  destruct (first_ready (ready w) (Z.to_nat (proc_count (sched w) - 1))) as [(i & Hi & Hr & _)|Hnone].
  1: assert (0 ≤ i < proc_count (sched w) ∧ ready w i = true) as Hex by (split; [lia|done]).
  2: destruct (ready w 0) eqn:Hzero.
  2: assert (0 ≤ 0 < proc_count (sched w) ∧ ready w 0 = true) as Hex by (split; [lia|done]).
  1, 2: left; destruct Hex as [Hi' Hr'];
    destruct (switch_ready w _ H Hi' Hr') as (d & Hd & Hrd & Hskip & E);
    exists d; split_and!; try done; try lia; apply wf_with_current; [done|by apply after_range].
  right. assert (∀ i, 0 ≤ i < proc_count (sched w) → ready w i = false) as Hall.
  { intros i Hi. destruct (Z.eq_dec i 0) as [->|]; [done|]. apply Hnone. lia. }
  split; [done|]. destruct (live_some w _ H Hc) as [p Hp].
  unfold scheduler_switch_task, _select_next_scheduled_proc.
  erewrite bind_Ret by done. erewrite bind_Ret by (apply get_proc_live; [lia|exact Hp]).
  erewrite bind_Ret by done. apply select_loop_none; [done|].
  intros d Hd. apply Hall. by apply after_range.
Qed.

Lemma wf_switch w i w' : wf w → scheduler_switch_task w = Ret (i, w') → wf w'.
Proof.
  intros H E. destruct (switch_run w H) as [(d & _ & _ & _ & E' & Hwf)|[_ E']];
    rewrite E' in E; by simplify_eq.
Qed.

Lemma wf_fork_step w p r w' :
  wf w → running w p → id_gen (sched w) + 1 < 0x80000000 →
  scheduler_cur_proc_fork w = Ret (r, w') → wf w'.
Proof.
  intros H Hp Hgen E. pose proof (wf_count w H).
  destruct (Z.eq_dec (proc_count (sched w)) 32) as [Hfull|].
  - unfold scheduler_cur_proc_fork in E. erewrite bind_Ret in E by done.
    rewrite Hfull in E. simpl in E. inv_run. done.
  - eapply fork_inv; done || lia.
Qed.

(** What exit does. *)
Lemma exit_run w p status :
  wf w → running w p → id p ≠ INIT_PROC_ID →
  ∃ w' j q, scheduler_cur_proc_exit status w = Ret ((), w') ∧ wf w' ∧
    live (sched w) !! j = Some q ∧ id q = parent_id p ∧
    released (memory_section p) (translation_table p) w (sections w') (ttables w') ∧
    let k := Z.to_nat (current_proc (sched w)) in
    let l := exited_table status k p (live (sched w)) in
    match schedule_state q with
    | PROC_SUSPENDED pid ref =>
        if pid =? id p then
          live (sched w') = delete k (<[j := woken (id p) (reparent (id p) q)]> l) ∧
          ram_load_word ref (ram w') = Ret (u32 status) ∧
          ∀ sec, sec ≠ memory_section q → ram w' !! sec = ram w !! sec
        else live (sched w') = l ∧ ram w' = ram w ∧ current_proc (sched w') = current_proc (sched w)
    | _ => live (sched w') = l ∧ ram w' = ram w ∧ current_proc (sched w') = current_proc (sched w)
    end.
Proof.
  intros H Hp Hid. destruct (exit_prefix w p status H Hp Hid)
    as (s & t & w2 & Hrel & Hrun & Hwf & Es & Et & Ef & Er & Ec & En & Hlive).
  destruct (running_parent w p H Hp Hid) as (j & q & Hq & Hqid & Hqa & Hjk & Hlt).
  set (k := Z.to_nat (current_proc (sched w))) in *. destruct Hp as [Hp _].
  pose proof (wf_current w H).
  destruct (reparent_fields (id p) q) as (Hrid & Hrst & Hrsec & _).
  assert (reparent (id p) (zombie status p) = zombie status p) as Hz.
  { unfold reparent. simpl. destruct (Z.eqb_spec (parent_id p) (id p)); [lia|done]. }
  destruct (exit_reschedule_spec w2 (current_proc (sched w)) status k j (zombie status p)
              (reparent (id p) q)) as (w' & Hrun' & Hwf' & Es' & Et' & _ & Hres); try done; try lia.
  - rewrite Hlive. unfold exited_table. rewrite list_lookup_fmap, list_lookup_insert_eq
      by (by eapply lookup_lt_Some). simpl. by rewrite Hz.
  - rewrite Hlive. apply exited_lookup_ne; [lia|done].
  - simpl. congruence.
  - exists w', j, q. rewrite Hrun. split_and!; try done.
    { by rewrite Es', Et', Es, Et. }
    rewrite Hrst in Hres. simpl. destruct (schedule_state q) as [|pid ref|];
      [by subst w'; rewrite Er, Ec| |by subst w'; rewrite Er, Ec].
    simpl in Hres. destruct (pid =? id p); [|by subst w'; rewrite Er, Ec].
    rewrite Hlive, Hrsec, Er in Hres. done.
Qed.

(** ** Properties *)


(** C13. exit: the process becomes a zombie that keeps its status and owns nothing,
    its section and its table go back to their allocators and nobody else's do, its
    children become init's.  When its parent waits for it, the parent finds the
    status in memory, is scheduled again with the pid as result, and the zombie is
    gone; every other process keeps its state.  The invariant is kept. *)
Theorem exit_correct w p status :
  wf w → running w p → id p ≠ INIT_PROC_ID →
  ∃ w' j q, scheduler_cur_proc_exit status w = Ret ((), w') ∧ wf w' ∧
    live (sched w) !! j = Some q ∧ id q = parent_id p ∧
    released (memory_section p) (translation_table p) w (sections w') (ttables w') ∧
    let k := Z.to_nat (current_proc (sched w)) in
    let l := exited_table status k p (live (sched w)) in
    match schedule_state q with
    | PROC_SUSPENDED pid ref =>
        if pid =? id p then
          live (sched w') = delete k (<[j := woken (id p) (reparent (id p) q)]> l) ∧
          ram_load_word ref (ram w') = Ret (u32 status) ∧
          ∀ sec, sec ≠ memory_section q → ram w' !! sec = ram w !! sec
        else live (sched w') = l ∧ ram w' = ram w ∧ current_proc (sched w') = current_proc (sched w)
    | _ => live (sched w') = l ∧ ram w' = ram w ∧ current_proc (sched w') = current_proc (sched w)
    end.
Proof. apply exit_run. Qed.

(** C39. wait: an unknown pid, and -1, are refused; a process created after the
    caller (such as any of its children) that has exited is taken out of the
    table, its status is stored and its pid returned; one that has not exited
    suspends the caller until that pid exits.  The invariant is kept. *)
Theorem wait_correct w p pid ref :
  wf w → running w p → own_word p ref → pid = -1 ∨ id p < pid →
  ∃ r w', scheduler_cur_proc_wait_id pid ref w = Ret (r, w') ∧ wf w' ∧
    ((r = -1 ∧ w' = w ∧ (pid = -1 ∨ ∀ k c, live (sched w) !! k = Some c → id c ≠ pid)) ∨
     (∃ k c st, live (sched w) !! k = Some c ∧ id c = pid ∧ schedule_state c = PROC_EXITED st ∧
        r = pid ∧ live (sched w') = delete k (live (sched w)) ∧ running w' p ∧
        (is_u32 st → ram_load_word ref (ram w') = Ret st)) ∨
     (∃ k c, live (sched w) !! k = Some c ∧ id c = pid ∧ alive c = true ∧
        live (sched w') = <[Z.to_nat (current_proc (sched w)) := suspended pid ref p]>
                            (live (sched w)) ∧
        current_proc (sched w') = current_proc (sched w))) ∧
    sections w' = sections w ∧ ttables w' = ttables w.
Proof. apply wait_run. Qed.

(** C40. A process that waits for the pid of a zombie created before itself is
    moved off the table's current entry: [_remove_process] shifts the table down
    but adjusts [current_proc] only when it removes the current entry. *)
Theorem wait_older_zombie_loses_current w p k c st ref :
  wf w → running w p → own_word p ref → live (sched w) !! k = Some c → id c ≠ -1 →
  schedule_state c = PROC_EXITED st → id c < id p →
  ∃ w', scheduler_cur_proc_wait_id (id c) ref w = Ret (id c, w') ∧
    current_proc (sched w') = current_proc (sched w) ∧
    live (sched w') !! Z.to_nat (current_proc (sched w')) =
      live (sched w) !! S (Z.to_nat (current_proc (sched w))) ∧
    (current_proc (sched w) + 1 = proc_count (sched w) →
     ∃ r, scheduler_cur_proc_get_id w' = Fatal r).
Proof.
  intros H Hrun Href Hc Hid Hex Hlt. pose proof Hrun as [Hp Hst]. pose proof (wf_current w H).
  destruct (wait_reap w p k c st ref H Hrun Href Hc Hid Hex) as (m & E & Hwf & _).
  assert (k < Z.to_nat (current_proc (sched w)))%nat as Hk.
  { destruct (Nat.lt_trichotomy k (Z.to_nat (current_proc (sched w)))) as [?|[->|Hgt]]; [done| |].
    - rewrite Hp in Hc. simplify_eq. lia.
    - pose proof (ids_sorted _ _ (wf_ids w H) _ _ _ _ Hp Hc Hgt). lia. }
  exists (removed (Z.of_nat k) (with_ram m w)).
  assert (current_proc (sched (removed (Z.of_nat k) (with_ram m w))) = current_proc (sched w)) as Hcur.
  { simpl. destruct (Z.eqb_spec (Z.of_nat k) (current_proc (sched w))); [lia|done]. }
  split; [done|]. split; [done|]. rewrite Hcur. split.
  - rewrite removed_live by (done || simpl; lia). rewrite Nat2Z.id.
    by rewrite list_lookup_delete_ge by lia.
  - intros Hlast. eexists. unfold scheduler_cur_proc_get_id, _get_current_proc.
    apply bind_Fatal. erewrite bind_Ret by done. rewrite Hcur.
    change (proc_count (sched (removed (Z.of_nat k) (with_ram m w))))
      with (proc_count (sched w) - 1).
    destruct (Z.geb_spec (current_proc (sched w)) (proc_count (sched w) - 1)); [done|lia].
Qed.

(** Task switching goes round the table: the next process is the first one
    after the current entry that is scheduled, nothing else changes, and without
    any scheduled process the kernel stops. *)
Theorem switch_round_robin w :
  wf w →
  (∃ d, 1 ≤ d ≤ proc_count (sched w) ∧ ready w (after w d) = true ∧
     (∀ d', 1 ≤ d' < d → ready w (after w d') = false) ∧
     scheduler_switch_task w = Ret (after w d, with_current (after w d) w) ∧
     wf (with_current (after w d) w)) ∨
  ((∀ i, 0 ≤ i < proc_count (sched w) → ready w i = false) ∧
   scheduler_switch_task w = Fatal "no more scheduled processes").
Proof. apply switch_run. Qed.

(** [n] task switches in a row, the places they select. *)
Fixpoint switches (n : nat) : M (world F) (list Z) :=
  match n with
  | O => ret []
  | S n => let* i := scheduler_switch_task in let* is_ := switches n in ret (i :: is_)
  end.

Lemma after_add w i d d' : wf w → after w d = i → after (with_current i w) d' = after w (d + d').
Proof.
  intros H <-. pose proof (wf_count w H). unfold after. simpl.
  rewrite Zplus_mod_idemp_l. f_equal. lia.
Qed.

Lemma switches_total n w i : wf w → 0 ≤ i < proc_count (sched w) → ready w i = true →
  ∃ l w', switches n w = Ret (l, w') ∧ length l = n.
Proof.
  revert w. induction n as [|n IH]; intros w H Hi Hready; [by eexists [], w|].
  destruct (switch_ready w i H Hi Hready) as (d & _ & _ & _ & E).
  cbn [switches]. rewrite (bind_Ret _ _ _ _ _ E).
  destruct (IH (with_current (after w d) w)) as (l & w' & El & Hlen); try done.
  { apply wf_with_current; [done|by apply after_range]. }
  erewrite bind_Ret by exact El. eexists _, w'. split; [done|]. simpl. lia.
Qed.

Lemma switches_reach n w d :
  wf w → 1 ≤ d ≤ Z.of_nat n → ready w (after w d) = true →
  ∃ l w', switches n w = Ret (l, w') ∧ after w d ∈ l.
Proof.
  revert w d. induction n as [|n IH]; intros w d H Hd Hready; [lia|].
  pose proof (after_range w d H) as Hrange.
  destruct (switch_ready w _ H Hrange Hready) as (e & He & Hre & Hskip & E).
  cbn [switches]. rewrite (bind_Ret _ _ _ _ _ E).
  set (w1 := with_current (after w e) w).
  assert (wf w1) as Hw1 by (apply wf_with_current; [done|by apply after_range]).
  destruct (Z.lt_trichotomy e d) as [Hlt|[->|Hgt]].
  - assert (after w1 (d - e) = after w d) as Hafter.
    { unfold w1. rewrite (after_add w (after w e) e) by done. f_equal. lia. }
    destruct (IH w1 (d - e)) as (l & w' & El & Hin); [done|lia|by rewrite Hafter|].
    erewrite bind_Ret by exact El. eexists _, w'. split; [done|].
    rewrite Hafter in Hin. by apply list_elem_of_further.
  - destruct (switches_total n w1 (after w d)) as (l & w' & El & _); try done.
    erewrite bind_Ret by exact El. eexists _, w'. split; [done|]. apply list_elem_of_here.
  - by rewrite Hskip in Hready by lia.
Qed.

(** C38. No starvation: a scheduled process is selected within as many task
    switches as there are processes. *)
Theorem switch_fair w i :
  wf w → 0 ≤ i < proc_count (sched w) → ready w i = true →
  ∃ l w', switches (Z.to_nat (proc_count (sched w))) w = Ret (l, w') ∧ i ∈ l.
Proof.
  intros H Hi Hready. destruct (after_surj w i H Hi) as (d & Hd & <-).
  apply switches_reach; done || lia.
Qed.

(** C37. Isolation: whatever address a live process passes, its translation is
    refused or lies in the section of that process, which is disjoint from the
    section of every other live process; NULL alone is passed through. *)
Theorem user_addresses_isolated w i j p q va :
  wf w → live (sched w) !! i = Some p → live (sched w) !! j = Some q → i ≠ j →
  alive p = true → alive q = true → is_u32 va →
  ∃ tb, TranslationTableAllocator.tables (ttables w) !! translation_table p = Some tb ∧
    ((va = 0 ∧ Mmu.mmu_translate_virtual_address tb va = Ret 0) ∨
     (∃ r, Mmu.mmu_translate_virtual_address tb va = Fatal r) ∨
     ∃ a, Mmu.mmu_translate_virtual_address tb va = Ret a ∧
       PROCESS_SECTION_VIRTUAL_ADDRRESS ≤ va < PROCESS_SECTION_VIRTUAL_ADDRRESS + 0x100000 ∧
       a - memory_section p = va - PROCESS_SECTION_VIRTUAL_ADDRRESS ∧
       ¬ (memory_section q ≤ a < memory_section q + 0x100000)).
Proof.
  intros H Hp Hq Hne Hap Haq Hva. unfold PROCESS_SECTION_VIRTUAL_ADDRRESS.
  destruct (section_of w i p H Hp Hap) as (Halp & Hposp & Hendp & _).
  destruct (section_of w j q H Hq Haq) as (Halq & Hposq & Hendq & _).
  destruct (wf_excl w H i j p q Hp Hq Hne Hap Haq) as [Hsec _].
  pose proof (Forall_lookup_1 _ _ _ _ (wf_res w H) Hp) as Hr.
  unfold res_ok in Hr. rewrite Hap in Hr. destruct Hr as (_ & _ & _ & (tb & Htb & Hg) & _).
  exists tb. split; [done|]. unfold is_u32 in *.
  pose proof (Mmu.grants_only_translate tb 8 (memory_section p) va Hg ltac:(lia) ltac:(lia)
                ltac:(lia) Halp) as Htr.
  case_decide; [by left|]. right. case_decide; [|by left]. right.
  exists (memory_section p + va `mod` 0x100000). split; [done|]. split_and!; lia.
Qed.

End spec.
End SchedulerSpec.
