(* ===== verification/SchedulerReach.v ===== *)
(** * Reachable states of the scheduler

    The init process' start, the remaining operations, and the step relation of
    what happens between them: the invariant holds in every state reached. *)
From S2P Require Import Prelude Bitfield Mmu Alloc Scheduler SchedulerInv SchedulerOps SchedulerFork SchedulerSpec.
Import Scheduler SchedulerInv SchedulerOps SchedulerFork SchedulerSpec.

Module SchedulerReach.

Section reach.
Context {F : Type} `{!Files F}.
Implicit Types (w : world F) (p q : process) (fs : F).

(** ** The first process *)

(** What the boot code hands to [scheduler_start]: working allocators and a
    zeroed scheduler. *)
Record booted (w : world F) : Prop := {
  boot_sections : slot_inv (sections w);
  boot_ttables : slot_inv (ttables w);
  boot_table : length (processes (sched w)) = 32%nat;
  boot_gen : id_gen (sched w) = 0;
}.

(** A table with one process, as it is after [_proc_init_resources]. *)
Lemma single_process_wf (w : world F) sec tab t2 :
  slot_inv (sections w) → slot_inv (ttables w) → length (processes (sched w)) = 32%nat →
  proc_count (sched w) = 1 → current_proc (sched w) = 0 → id_gen (sched w) = 1 →
  live (sched w) = [fresh_process 1 0 tab sec] →
  slot_owned (sections w) sec = true → slot_owned (ttables w) tab = true → is_Some (ram w !! sec) →
  TranslationTableAllocator.tables (ttables w) !! tab = Some t2 → Mmu.grants_only t2 8 sec → wf w.
Proof.
  intros Hs Ht Hlen Hc Hcur Hgen Hlive Hos Hot Hram Htab Hg.
  split; rewrite ?Hc, ?Hcur, ?Hgen, ?Hlive; try done.
  - split.
    + by exists (fresh_process 1 0 tab sec).
    + intros i j x y Hx Hy. apply list_lookup_singleton_Some in Hx as [-> _].
      apply list_lookup_singleton_Some in Hy as [-> _]. lia.
    + intros i x Hx. by apply list_lookup_singleton_Some in Hx as [_ <-].
    + intros i x Hx. by apply list_lookup_singleton_Some in Hx as [-> _].
  - intros i j x y Hx Hy. apply list_lookup_singleton_Some in Hx as [-> _].
    apply list_lookup_singleton_Some in Hy as [-> _]. lia.
  - apply Forall_singleton. unfold res_ok. simpl. split_and!; try done. by exists t2.
  - apply Forall_singleton. split; [done|]. split.
    + split_and!; [done|done|by apply (Forall_replicate is_u8 2 0)].
    + clear Hram Htab. intros fd Hfd Hu. simpl in Hu. unfold Bitfield.used in Hu.
      destruct (_ !! _) as [b|] eqn:Eb; [|done].
      apply (lookup_replicate_1 2 0) in Eb as [-> _]. by rewrite Z.bits_0 in Hu.
Qed.

(** The address space built for init. *)
Lemma init_table_grants t1 t2 sec :
  Mmu.translation_table_add_identity_mapping TranslationTableAllocator.zero_table
    0 0x00800000 Mmu.MMU_L1_SECTION_AP_KERNEL_RW_USER_NONE = Ret t1 →
  0 ≤ sec < 0x100000000 → sec `mod` 0x100000 = 0 →
  Mmu.translation_table_add_single_section t1 sec PROCESS_SECTION_VIRTUAL_ADDRRESS
    Mmu.MMU_L1_SECTION_AP_KERNEL_RW_USER_RW = Ret t2 →
  Mmu.grants_only t2 8 sec.
Proof.
  intros H1 Hsec Hal H2.
  destruct (Mmu.identity_mapping_spec TranslationTableAllocator.zero_table 0 0x00800000
    Mmu.MMU_L1_SECTION_AP_KERNEL_RW_USER_NONE TranslationTableAllocator.length_zero_table)
    as (t & E & Hlen & Ht); [lia|done|lia|].
  rewrite E in H1. injection H1 as <-.
  rewrite Mmu.single_section_spec in H2;
    [|unfold PROCESS_SECTION_VIRTUAL_ADDRRESS; lia|exact Hlen|exact Hsec|exact Hal]. injection H2 as <-.
  change (Z.to_nat (PROCESS_SECTION_VIRTUAL_ADDRRESS / 0x100000)) with 8%nat.
  split; [by rewrite length_insert|]. split; [apply list_lookup_insert_eq; rewrite Hlen; lia|].
  intros i e He Hne. rewrite list_lookup_insert_ne in He by done. rewrite Ht in He.
  case_decide; [injection He as <-|].
  - apply Mmu.user_rw_kernel_only; lia.
  - apply lookup_replicate_1 in He as [-> _]. done.
Qed.

Lemma start_init_spec w :
  booted w →
  (∃ r, start_init_proc w = Fatal r) ∨
  ∃ w' p, start_init_proc w = Ret (0, w') ∧ wf w' ∧ running w' p ∧ live (sched w') = [p] ∧
    id p = INIT_PROC_ID ∧ filesys w' = filesys w ∧ id_gen (sched w') = 1 ∧
    files_bitfield p = [0; 0].
Proof.
  intros [Hs Ht Hlen Hgen].
  set (w1 := set_sched (mksched (processes (sched w)) 1 0 1) w).
  unfold start_init_proc. erewrite bind_Ret by done. erewrite bind_Ret by done.
  rewrite (bind_Ret _ _ _ 1 w1).
  2: { unfold next_pid. simpl. by rewrite Hgen. }
  erewrite bind_Ret by done.
  destruct (init_resources_spec w1 0 1 0) as [[r E]|(sec & tab & s & t & E & Hacq)];
    [done|done|simpl; lia|left; exists r; by apply bind_Fatal|right].
  change (acquired sec tab w s t) in Hacq. rewrite (bind_Ret _ _ _ _ _ E). clear E.
  destruct (acquired_section w sec tab s t Hacq) as [Hal Hrange].
  pose proof Hacq as (Hs' & Ht' & _ & _ & Hsown & Htown & Htabs).
  erewrite bind_Ret by (apply get_proc_eq; [done|apply (put_lookup 0); simpl; lia]).
  destruct (Mmu.identity_mapping_spec TranslationTableAllocator.zero_table 0 0x00800000
    Mmu.MMU_L1_SECTION_AP_KERNEL_RW_USER_NONE TranslationTableAllocator.length_zero_table)
    as (t1 & E1 & Hlen1 & _); [lia|done|lia|].
  set (t2 := <[8%nat := Mmu.section_entry sec Mmu.MMU_L1_SECTION_AP_KERNEL_RW_USER_RW]> t1).
  assert (Mmu.translation_table_add_single_section t1 sec PROCESS_SECTION_VIRTUAL_ADDRRESS
    Mmu.MMU_L1_SECTION_AP_KERNEL_RW_USER_RW = Ret t2) as E2.
  { apply Mmu.single_section_spec;
      [unfold PROCESS_SECTION_VIRTUAL_ADDRRESS; lia|exact Hlen1|exact Hrange|exact Hal]. }
  erewrite bind_Ret.
  2: { eapply on_table_eq; [|exact E1]. simpl. by rewrite Htabs, lookup_insert_eq. }
  erewrite bind_Ret.
  2: { eapply on_table_eq; [simpl; apply lookup_insert_eq|exact E2]. }
  pose proof (init_table_grants t1 t2 sec E1 Hrange Hal E2) as Hg.
  set (p := fresh_process 1 0 tab sec). eexists _, p. split; [done|].
  unfold with_allocators, with_ram, put_proc. simpl. rewrite set_set_table.
  set (w' := mkworld _ _ _ _ _).
  assert (live (sched w') = [p]) as Hlive.
  { unfold live, w'. simpl. destruct (processes (sched w)); [simpl in Hlen; lia|done]. }
  split.
  2: { split; [by split; [rewrite Hlive|]|]. by split_and!. }
  clearbody t2. clear E1 E2 Hlen1 t1. apply (single_process_wf w' sec tab t2); try done.
  - apply set_table_inv; [done|]. apply Hg.
  - simpl. by rewrite length_insert.
  - simpl. by rewrite Hsown, Z.eqb_refl, orb_true_r.
  - change (slot_owned t tab = true). by rewrite Htown, Z.eqb_refl, orb_true_r.
  - simpl. rewrite lookup_insert_eq. eauto.
  - simpl. by rewrite lookup_insert_eq.
Qed.

(** ** File descriptors *)

Lemma wf_fs w fs k : wf w → counts_raised (filesys w) fs k → wf (with_fs fs w).
Proof.
  intros [Hs Ht Hlen Hcnt Hcur Hgen Hids Hex Hres Hfds] Hk. split; try done.
  eapply Forall_impl; [exact Hfds|]. intros q. by apply fds_ok_raised with k.
Qed.

Lemma is_fd count bf i : Bitfield.wf count bf → Bitfield.used bf i = true → i < 8 * count.
Proof.
  intros Hbf Hu. destruct (Z.lt_ge_cases i (8 * count)); [done|].
  by rewrite (Bitfield.used_out_of_range count) in Hu.
Qed.

(** [_proc_add_fd]: the lowest free descriptor, or -1 when all are in use. *)
Lemma add_fd_spec w i p file :
  wf w → 0 ≤ i → live (sched w) !! Z.to_nat i = Some p → is_Some (fd_count (filesys w) file) →
  (_proc_add_fd i file w = Ret (-1, w) ∧
     ∀ fd, 0 ≤ fd < 16 → Bitfield.used (files_bitfield p) fd = true) ∨
  ∃ fd bf fs, let p' := with_files (<[Z.to_nat fd := file]> (files p)) bf p in
    _proc_add_fd i file w = Ret (fd, with_fs fs (put_proc i p' w)) ∧
    wf (with_fs fs (put_proc i p' w)) ∧
    0 ≤ fd < 16 ∧ Bitfield.used (files_bitfield p) fd = false ∧
    (∀ d, 0 ≤ d < fd → Bitfield.used (files_bitfield p) d = true) ∧
    (∀ d, 0 ≤ d → Bitfield.used bf d = Bitfield.used (files_bitfield p) d || (d =? fd)) ∧
    counts_raised (filesys w) fs (λ g, if decide (g = file) then 1 else 0).
Proof.
  intros H Hi Hp Hfile. pose proof (Forall_lookup_1 _ _ _ _ (wf_fds w H) Hp) as (Hflen & Hbf & Hopen).
  destruct (Bitfield.acquire_spec 2 _ Hbf) as (fd & bf & Hacq & Hbf' & Hpost).
  destruct (add_fd_count_spec (filesys w) file 1 Hfile) as (fs & Hadd & Hraise).
  pose proof Hp as [Hps Hlt]%live_lookup. pose proof (wf_table w H). pose proof (wf_count w H).
  unfold _proc_add_fd. rewrite (bind_Ret _ _ _ _ _ (get_proc_live w i p Hi Hp)).
  erewrite bind_Ret by (unfold lift; change FD_BITFIELD_COUNT with 2; by rewrite Hacq).
  cbn beta iota. erewrite bind_Ret by (by apply upd_proc_eq).
  destruct Hpost as [(-> & -> & Hfull)|(Hfd & Hfree & Hlow & Hset)].
  - left. split; [|exact Hfull]. cbn. unfold ret, put_proc. do 2 f_equal.
    rewrite list_insert_id by (by destruct p). by destruct w as [? ? ? [] ?].
  - right. exists fd, bf, fs. cbv zeta. rewrite (proj2 (Z.geb_le fd 0)) by lia.
    erewrite bind_Ret by (apply zoom_fs, Hadd).
    erewrite bind_Ret by (apply get_proc_eq; [done|apply (put_lookup i); lia]).
    erewrite bind_Ret by (unfold lift; simpl; by rewrite arr_set_Ret by lia).
    erewrite bind_Ret by (apply upd_proc_eq; [done|apply (put_lookup i); lia]).
    split_and!; try done; try lia.
    + unfold ret, with_fs, put_proc. simpl. by rewrite list_insert_insert_eq.
    + change (wf (put_proc i (with_files (<[Z.to_nat fd := file]> (files p)) bf p) (with_fs fs w))).
      apply (wf_put _ i p); try done; [by eapply wf_fs|].
      split_and!; [by simpl; rewrite length_insert|done|]. intros d Hd Hu. simpl in Hu |- *.
      rewrite Hset in Hu by lia. destruct (Z.eqb_spec d fd) as [->|].
      * exists file. rewrite list_lookup_insert_eq by lia. split; [done|].
        by eapply counts_raised_some.
      * rewrite orb_false_r in Hu. destruct (Hopen d Hd Hu) as (f & ? & ?). exists f.
        rewrite list_lookup_insert_ne by lia. split; [done|]. by eapply counts_raised_some.
Qed.

(** [_proc_get_fd] on the descriptors of the table. *)
Lemma get_fd_spec w i p fd :
  wf w → 0 ≤ i → live (sched w) !! Z.to_nat i = Some p → 0 ≤ fd < 16 →
  if Bitfield.used (files_bitfield p) fd
  then ∃ file, files p !! Z.to_nat fd = Some file ∧ is_Some (fd_count (filesys w) file) ∧
               _proc_get_fd i fd w = Ret (file, w)
  else _proc_get_fd i fd w = Ret (0, w).
Proof.
  intros H Hi Hp Hfd. pose proof (Forall_lookup_1 _ _ _ _ (wf_fds w H) Hp) as (Hflen & Hbf & Hopen).
  unfold _proc_get_fd. rewrite (bind_Ret _ _ _ _ _ (get_proc_live w i p Hi Hp)).
  rewrite u32_small by lia. change FD_BITFIELD_COUNT with 2.
  erewrite bind_Ret by (unfold lift; by rewrite (Bitfield.bit_spec 2) by (done || lia)).
  destruct (Bitfield.used _ fd) eqn:Hu; [|done].
  destruct (Hopen fd Hfd Hu) as (file & Hfile & Hsome). exists file. split; [done|].
  split; [done|]. simpl. unfold lift. by rewrite (arr_get_lookup _ _ file) by (done || lia).
Qed.

(** [_proc_rem_fd] on a descriptor in use whose file is counted. *)
Lemma rem_fd_spec w i p fd file n :
  wf w → 0 ≤ i → live (sched w) !! Z.to_nat i = Some p → 0 ≤ fd < 16 →
  Bitfield.used (files_bitfield p) fd = true → files p !! Z.to_nat fd = Some file →
  fd_count (filesys w) file = Some n → 0 < n →
  ∃ bf fs, let p' := with_files (files p) bf p in
    _proc_rem_fd i fd w = Ret ((), with_fs fs (put_proc i p' w)) ∧
    wf (with_fs fs (put_proc i p' w)) ∧
    (∀ d, 0 ≤ d → Bitfield.used bf d = Bitfield.used (files_bitfield p) d && negb (d =? fd)) ∧
    counts_raised (filesys w) fs (λ g, if decide (g = file) then -1 else 0).
Proof.
  intros H Hi Hp Hfd Hu Hfile Hn Hpos.
  pose proof (Forall_lookup_1 _ _ _ _ (wf_fds w H) Hp) as (Hflen & Hbf & Hopen).
  destruct (Bitfield.clear_spec 2 _ fd Hbf) as (bf & Hclear & Hbf' & Hbits); [lia|].
  destruct (add_fd_count_spec (filesys w) file (-1)) as (fs & Hadd & Hraise); [by exists n|].
  pose proof Hp as [Hps Hlt]%live_lookup.
  exists bf, fs. split_and!.
  - unfold _proc_rem_fd. rewrite (bind_Ret _ _ _ _ _ (get_proc_live w i p Hi Hp)).
    rewrite u32_small by lia. change FD_BITFIELD_COUNT with 2.
    erewrite bind_Ret by (unfold lift; by rewrite (Bitfield.bit_spec 2) by (done || lia)).
    rewrite Hu. simpl.
    erewrite bind_Ret by (unfold lift; by rewrite (arr_get_lookup _ _ file) by (done || lia)).
    erewrite bind_Ret by (by rewrite Hn).
    destruct (Z.gtb_spec n 0); [|lia]. erewrite bind_Ret by done.
    erewrite bind_Ret by (apply zoom_fs, Hadd).
    erewrite bind_Ret by (unfold lift; by rewrite Hclear).
    by rewrite (upd_proc_eq _ _ p).
  - change (wf (put_proc i (with_files (files p) bf p) (with_fs fs w))).
    apply (wf_put _ i p); try done; [by eapply wf_fs|].
    split_and!; [done|done|]. intros d Hd Hud. simpl in Hud |- *.
    rewrite Hbits in Hud by lia. apply andb_prop in Hud as [Hud _].
    destruct (Hopen d Hd Hud) as (f & ? & ?). exists f. split; [done|]. by eapply counts_raised_some.
  - done.
  - done.
Qed.

(** ** The steps of the system *)

(** What can happen to the world, one call at a time.  The running process makes
    system calls; its program writes to memory; the file system changes under
    it; an interrupt saves the registers and switches.  [exit] is not called by
    init (that stops the kernel); [wait] is for a younger process, as it is for any
    child: for an older zombie it breaks the invariant. *)
Inductive step (w : world F) : world F → Prop :=
| step_save c w' :
    scheduler_save_current_context c w = Ret ((), w') → step w w'
| step_status st w' :
    scheduler_cur_proc_set_syscall_status st w = Ret ((), w') → step w w'
| step_switch i w' :
    scheduler_switch_task w = Ret (i, w') → step w w'
| step_fork p r w' :
    running w p → id_gen (sched w) + 1 < 0x80000000 →
    scheduler_cur_proc_fork w = Ret (r, w') → step w w'
| step_exit p status w' :
    running w p → scheduler_cur_proc_exit status w = Ret ((), w') → step w w'
| step_wait p pid ref r w' :
    running w p → own_word p ref → pid = -1 ∨ id p < pid →
    scheduler_cur_proc_wait_id pid ref w = Ret (r, w') → step w w'
| step_add_fd file fd w' :
    is_Some (fd_count (filesys w) file) →
    scheduler_cur_proc_add_fd file w = Ret (fd, w') → step w w'
| step_rem_fd fd w' :
    0 ≤ fd < 16 → scheduler_cur_proc_rem_fd fd w = Ret ((), w') → step w w'
| step_filesys fs :
    (∀ f, is_Some (fd_count (filesys w) f) → is_Some (fd_count fs f)) → step w (with_fs fs w)
| step_memory m :
    (∀ sec, is_Some (ram w !! sec) → is_Some (m !! sec)) → step w (with_ram m w).

Inductive reachable (w0 : world F) : world F → Prop :=
| reach_start r w : start_init_proc w0 = Ret (r, w) → reachable w0 w
| reach_step w w' : reachable w0 w → step w w' → reachable w0 w'.

Lemma wf_put_context w i p c :
  wf w → 0 ≤ i → live (sched w) !! Z.to_nat i = Some p → wf (put_proc i (with_context c p) w).
Proof.
  intros H Hi Hp. apply (wf_put w i p); try done.
  exact (Forall_lookup_1 _ _ _ _ (wf_fds w H) Hp).
Qed.

(** Calls that only touch the registers of the current process. *)
Lemma wf_upd_context w w' f :
  wf w → (∀ p, f p = with_context (context (f p)) p) →
  (let* cur := _get_current_proc in upd_proc cur f) w = Ret ((), w') → wf w'.
Proof.
  intros H Hf E. destruct (live_some w _ H (wf_current w H)) as [p Hp].
  rewrite (bind_Ret _ _ _ _ _ (get_current_eq w H)) in E.
  pose proof (wf_current w H).
  rewrite (upd_proc_live _ _ p) in E by (done || lia). simplify_eq. rewrite Hf.
  apply wf_put_context; done || lia.
Qed.

Lemma wf_rem_fd w fd w' :
  wf w → 0 ≤ fd < 16 → scheduler_cur_proc_rem_fd fd w = Ret ((), w') → wf w'.
Proof.
  intros H Hfd E. pose proof (wf_current w H) as Hc.
  destruct (live_some w _ H Hc) as [p Hp].
  pose proof (Forall_lookup_1 _ _ _ _ (wf_fds w H) Hp) as (Hflen & Hbf & Hopen).
  unfold scheduler_cur_proc_rem_fd in E.
  rewrite (bind_Ret _ _ _ _ _ (get_current_eq w H)) in E.
  destruct (Bitfield.used (files_bitfield p) fd) eqn:Hu.
  - destruct (Hopen fd Hfd Hu) as (file & Hfile & n & Hn).
    destruct (Z.lt_ge_cases 0 n) as [Hpos|Hneg].
    + destruct (rem_fd_spec w _ p fd file n H (proj1 Hc) Hp Hfd Hu Hfile Hn Hpos)
        as (bf & fs & E' & Hwf & _). rewrite E' in E. by simplify_eq.
    + unfold _proc_rem_fd in E. rewrite (bind_Ret _ _ _ _ _ (get_proc_live w _ p (proj1 Hc) Hp)) in E.
      rewrite u32_small in E by lia. change FD_BITFIELD_COUNT with 2 in E.
      erewrite bind_Ret in E by (unfold lift; by rewrite (Bitfield.bit_spec 2) by (done || lia)).
      rewrite Hu in E. simpl in E.
      erewrite bind_Ret in E by (unfold lift; by rewrite (arr_get_lookup _ _ file) by (done || lia)).
      erewrite bind_Ret in E by (by rewrite Hn).
      destruct (Z.gtb_spec n 0); [lia|]. done.
  - unfold _proc_rem_fd in E. rewrite (bind_Ret _ _ _ _ _ (get_proc_live w _ p (proj1 Hc) Hp)) in E.
    rewrite u32_small in E by lia. change FD_BITFIELD_COUNT with 2 in E.
    erewrite bind_Ret in E by (unfold lift; by rewrite (Bitfield.bit_spec 2) by (done || lia)).
    rewrite Hu in E. simpl in E. inv_run. done.
Qed.

Lemma wf_exit_step w p status w' :
  wf w → running w p → scheduler_cur_proc_exit status w = Ret ((), w') → wf w'.
Proof.
  intros H Hp E. destruct (Z.eq_dec (id p) INIT_PROC_ID) as [Hid|Hid].
  - unfold scheduler_cur_proc_exit in E.
    rewrite (bind_Ret _ _ _ _ _ (get_current_eq w H)) in E. pose proof (wf_current w H).
    destruct Hp as [Hp _]. erewrite bind_Ret in E by (apply get_proc_live; [lia|exact Hp]).
    by rewrite Hid in E.
  - destruct (exit_prefix w p status H Hp Hid)
      as (s & t & w2 & _ & Hrun & Hwf & _ & _ & _ & _ & Ec & En & Hlive).
    destruct (running_parent w p H Hp Hid) as (j & q & Hq & Hqid & _ & Hjk & Hlt).
    pose proof (wf_current w H). destruct Hp as [Hp _].
    destruct (exit_reschedule_spec w2 (current_proc (sched w)) status
      (Z.to_nat (current_proc (sched w))) j (reparent (id p) (zombie status p))
      (reparent (id p) q)) as (w3 & Hrun' & Hwf' & _); try done; try lia.
    + rewrite Hlive. unfold exited_table. by rewrite list_lookup_fmap, list_lookup_insert_eq
        by (by eapply lookup_lt_Some).
    + by rewrite alive_reparent.
    + rewrite Hlive. apply exited_lookup_ne; [lia|done].
    + rewrite (proj1 (reparent_fields _ _)). unfold reparent. simpl.
      destruct (Z.eqb_spec (parent_id p) (id p)); [lia|done].
    + rewrite Hrun, Hrun' in E. by simplify_eq.
Qed.

Lemma wf_wait_step w p pid ref r w' :
  wf w → running w p → own_word p ref → pid = -1 ∨ id p < pid →
  scheduler_cur_proc_wait_id pid ref w = Ret (r, w') → wf w'.
Proof.
  intros H Hp Href Hpid E. destruct (wait_run w p pid ref H Hp Href Hpid) as (r' & w2 & E' & Hwf & _).
  rewrite E' in E. by simplify_eq.
Qed.

(** In every state that the system reaches from its start, the invariant
    holds: 1 to 32 processes in the order of their pids, init first; every other
    process has a live parent created before it; the live processes own sections
    and translation tables of their own, through which they reach nothing else;
    every descriptor in use stands for a file that exists. *)
Theorem reachable_wf w0 w : booted w0 → reachable w0 w → wf w.
Proof.
  intros Hboot Hreach. induction Hreach as [r w E|w w' _ IH Hstep].
  - destruct (start_init_spec w0 Hboot) as [[x E']|(w' & p & E' & Hwf & _)]; [congruence|].
    rewrite E' in E. by simplify_eq.
  - destruct Hstep as [c w' E|st w' E|i w' E|p r w' Hp Hgen E|p status w' Hp E
      |p pid ref r w' Hp Href Hpid E|file fd w' Hfile E|fd w' Hfd E|fs Hfs|m Hm].
    + by apply (wf_upd_context w w' (with_context c)).
    + by eapply (wf_upd_context w w' (λ p, with_context (set_r0 (u32 st) (context p)) p)).
    + by eapply wf_switch.
    + by eapply wf_fork_step.
    + by eapply wf_exit_step.
    + by eapply wf_wait_step.
    + unfold scheduler_cur_proc_add_fd in E.
      rewrite (bind_Ret _ _ _ _ _ (get_current_eq w IH)) in E. pose proof (wf_current w IH) as Hc.
      destruct (live_some w _ IH Hc) as [p Hp].
      destruct (add_fd_spec w _ p file IH (proj1 Hc) Hp Hfile)
        as [[E' _]|(fd' & bf & fs & E' & Hwf & _)]; rewrite E' in E; by simplify_eq.
    + by eapply wf_rem_fd.
    + destruct IH as [Hs Ht Hlen Hcnt Hcur Hgen Hids Hex Hres Hfds]. split; try done.
      eapply Forall_impl; [exact Hfds|]. intros p (? & ? & Hopen). split_and!; [done..|].
      intros fd Hfd Hu. destruct (Hopen fd Hfd Hu) as (file & ? & ?). eauto.
    + destruct IH as [Hs Ht Hlen Hcnt Hcur Hgen Hids Hex Hres Hfds]. split; try done.
      eapply Forall_impl; [exact Hres|]. intros p. by apply res_ok_mono.
Qed.

(** Closing a descriptor makes it free again. *)
Lemma close_spec w c p fd file n :
  wf w → c = current_proc (sched w) → live (sched w) !! Z.to_nat c = Some p → 0 ≤ fd < 16 →
  Bitfield.used (files_bitfield p) fd = true → files p !! Z.to_nat fd = Some file →
  fd_count (filesys w) file = Some n → 0 < n < 0x100000000 →
  ∃ w', scheduler_cur_proc_rem_fd fd w = Ret ((), w') ∧ wf w' ∧
    scheduler_cur_proc_get_fd fd w' = Ret (0, w') ∧ fd_count (filesys w') file = Some (n - 1).
Proof.
  intros H -> Hp Hfd Hu Hf Hn Hpos. pose proof (wf_current w H).
  destruct (rem_fd_spec w _ p fd file n H (proj1 (wf_current w H)) Hp Hfd Hu Hf Hn ltac:(lia))
    as (bf & fs & E & Hwf & Hbits & Hraise).
  set (p2 := with_files (files p) bf p) in *. set (w2 := with_fs fs _) in *.
  exists w2. unfold scheduler_cur_proc_rem_fd, scheduler_cur_proc_get_fd.
  rewrite (bind_Ret _ _ _ _ _ (get_current_eq w H)), (bind_Ret _ _ _ _ _ (get_current_eq w2 Hwf)).
  split; [done|]. split; [done|].
  assert (live (sched w2) !! Z.to_nat (current_proc (sched w)) = Some p2) as Hp2.
  { change (live (sched w2)) with (live (sched (put_proc (current_proc (sched w)) p2 w))).
    rewrite put_live. apply list_lookup_insert_eq. by eapply lookup_lt_Some. }
  pose proof (get_fd_spec w2 _ _ fd Hwf (proj1 (wf_current w H)) Hp2 Hfd) as Hget. simpl in Hget.
  rewrite Hbits, Z.eqb_refl, andb_false_r in Hget by lia. split; [done|].
  change (filesys w2) with fs.
  rewrite (counts_raised_exact _ _ _ _ n Hraise Hn) by (unfold is_u32; lia).
  rewrite decide_True, u32_small by (done || lia). f_equal.
Qed.

(** Descriptors: opening gives the lowest free one, and -1 only when all 16
    are in use; it then stands for the file, whose count went up by one, and the
    other descriptors are as before; closing it makes it free again and takes the
    count back. *)
Theorem fd_table_correct w p file n :
  wf w → running w p → fd_count (filesys w) file = Some n → 0 ≤ n < 0xFFFFFFFF →
  (scheduler_cur_proc_add_fd file w = Ret (-1, w) ∧
     ∀ fd, 0 ≤ fd < 16 → Bitfield.used (files_bitfield p) fd = true) ∨
  ∃ fd w' w'',
    scheduler_cur_proc_add_fd file w = Ret (fd, w') ∧ wf w' ∧
    0 ≤ fd < 16 ∧ Bitfield.used (files_bitfield p) fd = false ∧
    (∀ d, 0 ≤ d < fd → Bitfield.used (files_bitfield p) d = true) ∧
    scheduler_cur_proc_get_fd fd w' = Ret (file, w') ∧
    (∀ d f, 0 ≤ d < 16 → d ≠ fd → scheduler_cur_proc_get_fd d w = Ret (f, w) →
       scheduler_cur_proc_get_fd d w' = Ret (f, w')) ∧
    fd_count (filesys w') file = Some (n + 1) ∧
    scheduler_cur_proc_rem_fd fd w' = Ret ((), w'') ∧ wf w'' ∧
    scheduler_cur_proc_get_fd fd w'' = Ret (0, w'') ∧ fd_count (filesys w'') file = Some n.
Proof.
  intros H [Hp Hst] Hn Hrange. pose proof (wf_current w H) as Hc.
  unfold scheduler_cur_proc_add_fd. rewrite !(bind_Ret _ _ _ _ _ (get_current_eq w H)).
  destruct (add_fd_spec w _ p file H (proj1 Hc) Hp (ex_intro _ n Hn))
    as [[E Hfull]|(fd & bf & fs & E & Hwf & Hfd & Hfree & Hlow & Hbits & Hraise)]; [by left|right].
  set (c := current_proc (sched w)) in *.
  set (p' := with_files (<[Z.to_nat fd := file]> (files p)) bf p) in *.
  set (w' := with_fs fs (put_proc c p' w)) in *.
  assert (live (sched w') !! Z.to_nat c = Some p') as Hp'.
  { change (live (sched w')) with (live (sched (put_proc c p' w))). rewrite put_live.
    apply list_lookup_insert_eq. by eapply lookup_lt_Some. }
  assert (Bitfield.used bf fd = true) as Hu by (rewrite Hbits, Z.eqb_refl, orb_true_r by lia; done).
  pose proof (Forall_lookup_1 _ _ _ _ (wf_fds w H) Hp) as (Hflen & Hbf & _).
  assert (files p' !! Z.to_nat fd = Some file) as Hf' by (apply list_lookup_insert_eq; lia).
  assert (fd_count (filesys w') file = Some (n + 1)) as Hn1.
  { change (filesys w') with fs.
    rewrite (counts_raised_exact _ _ _ _ n Hraise Hn) by (unfold is_u32; lia).
    by rewrite decide_True, u32_small by (done || lia). }
  destruct (close_spec w' c p' fd file (n + 1) Hwf eq_refl Hp' Hfd Hu Hf' Hn1 ltac:(lia))
    as (w'' & Erem & Hwf'' & Eget & Hn''). replace (n + 1 - 1) with n in Hn'' by lia.
  exists fd, w', w''. split; [done|]. split; [done|]. split; [done|]. split; [done|]. split; [done|].
  split; [|split; [|done]].
  - unfold scheduler_cur_proc_get_fd. rewrite (bind_Ret _ _ _ _ _ (get_current_eq w' Hwf)).
    pose proof (get_fd_spec w' c p' fd Hwf (proj1 Hc) Hp' Hfd) as Hget. simpl in Hget.
    rewrite Hu in Hget. destruct Hget as (f & Hf & _ & E'). change (current_proc (sched w')) with c. rewrite E'. change (files p' !! Z.to_nat fd = Some f) in Hf. congruence.
  - intros d f Hd Hne. unfold scheduler_cur_proc_get_fd.
    rewrite !(bind_Ret _ _ _ _ _ (get_current_eq w H)), !(bind_Ret _ _ _ _ _ (get_current_eq w' Hwf)).
    pose proof (get_fd_spec w c p d H (proj1 Hc) Hp Hd) as Hold.
    pose proof (get_fd_spec w' c p' d Hwf (proj1 Hc) Hp' Hd) as Hnew. simpl in Hnew.
    rewrite Hbits in Hnew by lia. rewrite (proj2 (Z.eqb_neq _ _) Hne), orb_false_r in Hnew.
    rewrite list_lookup_insert_ne in Hnew by lia. fold c.
    change (current_proc (sched w')) with c.
    destruct (Bitfield.used (files_bitfield p) d); [|congruence].
    destruct Hold as (f1 & Hf1 & _ & E1), Hnew as (f2 & Hf2 & _ & E2). congruence.
Qed.

(** The guard of [bitfield_bit] lets one byte too many through: for the
    descriptors 16 to 23, which no table has, it reads past the bit field. *)
Theorem fd_past_table_faults w p fd :
  wf w → running w p → 16 ≤ fd < 24 → scheduler_cur_proc_get_fd fd w = Fault.
Proof.
  intros H [Hp _] Hfd. pose proof (wf_current w H) as Hc.
  pose proof (Forall_lookup_1 _ _ _ _ (wf_fds w H) Hp) as (Hflen & (Hlen & _) & _).
  unfold scheduler_cur_proc_get_fd. rewrite (bind_Ret _ _ _ _ _ (get_current_eq w H)).
  unfold _proc_get_fd. rewrite (bind_Ret _ _ _ _ _ (get_proc_live w _ p (proj1 Hc) Hp)).
  rewrite u32_small by lia. change FD_BITFIELD_COUNT with 2.
  unfold bind, Bitfield.bitfield_bit, lift.
  destruct (Bitfield.index_split fd) as [-> _]; [lia|].
  replace (fd / 8) with 2 by lia. simpl. by rewrite arr_get_Fault by lia.
Qed.

End reach.
End SchedulerReach.
