(* ===== verification/SchedulerWitness.v ===== *)
(** * The scheduler's theorems at concrete states

    [SchedulerExamples]: a machine from boot on, run step by step; [SchedulerWitness]: the
    properties of [SchedulerSpec] and [SchedulerReach] there. *)
From S2P Require Import Prelude Bitfield Mmu Alloc Scheduler SchedulerInv SchedulerOps SchedulerFork SchedulerSpec SchedulerReach.
Import Scheduler SchedulerInv SchedulerOps SchedulerFork SchedulerSpec SchedulerReach.

Module SchedulerExamples.

(** A file system that is nothing but the reference counts. *)
#[global] Program Instance counts_files : Files (gmap Z Z) := {
  fd_count fs f := fs !! f;
  set_fd_count f n fs := <[f := n]> fs;
}.
Next Obligation.
  intros f n s g _. case_decide; subst; [apply lookup_insert_eq|by apply lookup_insert_ne].
Qed.

Abbreviation W := (world (gmap Z Z)).

Definition is_ret {A} (o : outcome A) : bool := match o with Ret _ => true | _ => false end.
Definition run {A} (m : M W A) (w : W) : W := match m w with Ret (_, w') => w' | _ => w end.

Lemma run_eq {A} (m : M W A) w : is_ret (m w) = true → ∃ a, m w = Ret (a, run m w).
Proof. unfold run. destruct (m w) as [[a w']| | |]; simpl; [eauto|done..]. Qed.

(** The current process. *)
Definition cur (w : W) : process :=
  default zero_process (live (sched w) !! Z.to_nat (current_proc (sched w))).

Definition cur_runs (w : W) : bool :=
  match live (sched w) !! Z.to_nat (current_proc (sched w)) with
  | Some p => is_scheduled p
  | None => false
  end.

Lemma cur_running w : cur_runs w = true → running w (cur w).
Proof.
  unfold cur_runs, running, cur, is_scheduled. destruct (_ !! _) as [p|]; [|done]. simpl.
  by destruct (schedule_state p).
Qed.

(** ** Boot: 64 sections from 16 MiB, the tables at 10 MiB, the terminal's file *)

Definition boot : W :=
  mkworld (SectionAllocator.section_allocator_init 0x01000000)
    (TranslationTableAllocator.translation_table_allocator_init 0x00A00000 ∅) ∅
    (mksched (replicate 32 zero_process) 0 0 0) {[ 100 := 0 ]}.

Lemma boot_ok : booted boot.
Proof.
  split; [| |done|done].
  - apply SectionAllocator.init_inv; done || lia.
  - split_and!; [split_and!; [done|done|by apply (Forall_replicate is_u8 8 0)]|simpl; lia|simpl; lia|].
    intros p Hp. exfalso. change (TranslationTableAllocator.owned
      (TranslationTableAllocator.translation_table_allocator_init 0x00A00000 ∅) p = true) in Hp.
    unfold TranslationTableAllocator.owned, Slots.owned, Bitfield.used in Hp. simpl in Hp.
    apply andb_prop in Hp as [_ Hp]. destruct (_ !! _) as [b|] eqn:E; [|done].
    apply (lookup_replicate_1 8 0) in E as [-> _]. by rewrite Z.bits_0 in Hp.
Qed.

(** init, with the terminal on its standard descriptors *)
Definition w_start : W := run start_init_proc boot.
Definition w_init : W :=
  run (scheduler_cur_proc_add_fd 100) (run (scheduler_cur_proc_add_fd 100)
    (run (scheduler_cur_proc_add_fd 100) w_start)).
(** init has forked process 2 *)
Definition w_fork : W := run scheduler_cur_proc_fork w_init.
(** process 2 runs *)
Definition w_child : W := run scheduler_switch_task w_fork.
(** process 2 has exited with status 7, init runs *)
Definition w_zombie : W := run scheduler_switch_task (run (scheduler_cur_proc_exit 7) w_child).
(** init waits for process 2, which runs *)
Definition ref : Z := memory_section (cur w_fork) + 0x1000.
Definition w_waited : W :=
  run scheduler_switch_task (run (scheduler_cur_proc_wait_id 2 ref) w_fork).
(** init has forked 2 and 3, 2 has exited, 3 runs *)
Definition w_fork3 : W := run scheduler_switch_task (run scheduler_cur_proc_fork w_fork).
Definition w_older : W := run scheduler_switch_task (run (scheduler_cur_proc_exit 5) w_fork3).

Definition gen_ok (w : W) : Prop := id_gen (sched w) + 1 < 0x80000000.

Lemma w_start_wf : wf w_start.
Proof.
  destruct (start_init_spec boot boot_ok) as [[r E]|(w' & p & E & Hwf & _)].
  - assert (is_ret (start_init_proc boot) = true) as H by (by vm_compute). by rewrite E in H.
  - unfold w_start, run. by rewrite E.
Qed.

Lemma wf_run_fork w : wf w → cur_runs w = true → gen_ok w →
  is_ret (scheduler_cur_proc_fork w) = true → wf (run scheduler_cur_proc_fork w).
Proof.
  intros H Hc Hg Hr. destruct (run_eq _ _ Hr) as [r E].
  eapply wf_fork_step; [exact H|by apply cur_running|done|exact E].
Qed.

Lemma wf_run_switch w : wf w → is_ret (scheduler_switch_task w) = true →
  wf (run scheduler_switch_task w).
Proof. intros H Hr. destruct (run_eq _ _ Hr) as [r E]. by eapply wf_switch. Qed.

Lemma wf_run_exit w st : wf w → cur_runs w = true →
  is_ret (scheduler_cur_proc_exit st w) = true → wf (run (scheduler_cur_proc_exit st) w).
Proof.
  intros H Hc Hr. destruct (run_eq _ _ Hr) as [[] E].
  eapply wf_exit_step; [exact H|by apply cur_running|exact E].
Qed.

Lemma wf_run_wait w pid rf : wf w → cur_runs w = true → own_word (cur w) rf → id (cur w) < pid →
  is_ret (scheduler_cur_proc_wait_id pid rf w) = true →
  wf (run (scheduler_cur_proc_wait_id pid rf) w).
Proof.
  intros H Hc Href Hpid Hr. destruct (run_eq _ _ Hr) as [r E].
  eapply wf_wait_step; [exact H|by apply cur_running|exact Href|by right|exact E].
Qed.

Lemma wf_run_add_fd w f : wf w → is_Some (fd_count (filesys w) f) →
  wf (run (scheduler_cur_proc_add_fd f) w).
Proof.
  intros H Hf. pose proof (wf_current w H) as Hc. destruct (live_some w _ H Hc) as [p Hp].
  unfold run, scheduler_cur_proc_add_fd. rewrite (bind_Ret _ _ _ _ _ (get_current_eq w H)).
  destruct (add_fd_spec w _ p f H (proj1 Hc) Hp Hf) as [[-> _]|(fd' & bf & fs & -> & Hwf & _)];
    done.
Qed.

Ltac vm := vm_compute; reflexivity.

Definition is_some {A} (o : option A) : bool := match o with Some _ => true | None => false end.

Lemma is_some_true {A} (o : option A) : is_some o = true → is_Some o.
Proof. destruct o; by eauto. Qed.

Lemma w_init_wf : wf w_init.
Proof.
  unfold w_init. do 3 (apply wf_run_add_fd; [|apply is_some_true; vm]); apply w_start_wf.
Qed.

Lemma w_fork_wf : wf w_fork.
Proof. apply wf_run_fork; [apply w_init_wf|vm|vm|vm]. Qed.
Lemma w_child_wf : wf w_child.
Proof. apply wf_run_switch; [apply w_fork_wf|vm]. Qed.
Lemma w_zombie_wf : wf w_zombie.
Proof. apply wf_run_switch; [apply wf_run_exit; [apply w_child_wf|vm|vm]|vm]. Qed.
Lemma ref_own : own_word (cur w_fork) ref.
Proof. split; vm_compute; discriminate. Qed.
Lemma w_waited_wf : wf w_waited.
Proof.
  apply wf_run_switch; [apply wf_run_wait; [apply w_fork_wf|vm|apply ref_own|vm|vm]|vm].
Qed.
Lemma w_fork3_wf : wf w_fork3.
Proof. apply wf_run_switch; [apply wf_run_fork; [apply w_fork_wf|vm|vm|vm]|vm]. Qed.
Lemma w_older_wf : wf w_older.
Proof. apply wf_run_switch; [apply wf_run_exit; [apply w_fork3_wf|vm|vm]|vm]. Qed.

End SchedulerExamples.

Import SchedulerExamples.

Module SchedulerWitness.


(** Process 2 exits while init waits for it. *)
Lemma exit_correct_witness :
  ∃ w' j q, scheduler_cur_proc_exit 9 w_waited = Ret ((), w') ∧ wf w' ∧
    live (sched w_waited) !! j = Some q ∧ id q = parent_id (cur w_waited) ∧
    released (memory_section (cur w_waited)) (translation_table (cur w_waited)) w_waited
      (sections w') (ttables w').
Proof.
  destruct (exit_correct w_waited (cur w_waited) 9 w_waited_wf (cur_running w_waited ltac:(vm)))
    as (w' & j & q & E & Hwf & Hq & Hid & Hrel & _).
  - intros H. vm_compute in H. discriminate.
  - exists w', j, q. auto.
Defined.

(** init waits for process 2, which has exited with status 7. *)
Lemma wait_correct_witness :
  ∃ r w', scheduler_cur_proc_wait_id 2 (memory_section (cur w_zombie)) w_zombie = Ret (r, w') ∧
    wf w'.
Proof.
  destruct (wait_correct w_zombie (cur w_zombie) 2 (memory_section (cur w_zombie)) w_zombie_wf
    (cur_running w_zombie ltac:(vm))) as (r & w' & E & Hwf & _).
  - split; vm_compute; discriminate.
  - right. vm.
  - exists r, w'. auto.
Defined.

(** Process 3 waits for process 2, an older zombie, and is lost. *)
Lemma wait_older_zombie_loses_current_witness :
  ∃ w', scheduler_cur_proc_wait_id 2 (memory_section (cur w_older)) w_older = Ret (2, w') ∧
    ∃ r, scheduler_cur_proc_get_id w' = Fatal r.
Proof.
  destruct (live (sched w_older) !! 1%nat) as [c|] eqn:Hc; [|vm_compute in Hc; discriminate].
  assert (schedule_state c = PROC_EXITED 5 ∧ id c = 2) as [Hst Hid].
  { assert ((schedule_state <$> live (sched w_older) !! 1%nat) = Some (PROC_EXITED 5) ∧
            (id <$> live (sched w_older) !! 1%nat) = Some 2) as [H1 H2] by (split; vm).
    rewrite Hc in H1, H2. simpl in H1, H2. split; congruence. }
  destruct (wait_older_zombie_loses_current w_older (cur w_older) 1 c 5
    (memory_section (cur w_older)) w_older_wf (cur_running w_older ltac:(vm)))
    as (w' & E & _ & _ & Hlost); [split; vm_compute; discriminate|exact Hc|lia|exact Hst| |].
  - rewrite Hid. vm.
  - exists w'. rewrite Hid in E. split; [exact E|]. apply Hlost. vm.
Defined.

(** Two processes, of which one is scheduled. *)
Lemma switch_round_robin_witness :
  scheduler_switch_task w_fork = Ret (1, with_current 1 w_fork).
Proof.
  destruct (switch_round_robin w_fork w_fork_wf) as [(d & _ & _ & _ & E & _)|[_ E]].
  - rewrite E. assert (after w_fork d = 1) as ->; [|reflexivity].
    assert ((λ o : outcome (Z * W), match o with Ret (i, _) => i | _ => 0 end)
      (scheduler_switch_task w_fork) = 1) as H by vm. rewrite E in H. exact H.
  - exfalso. assert (is_ret (scheduler_switch_task w_fork) = true) as H by vm.
    rewrite E in H. discriminate.
Defined.

Lemma switch_fair_witness : ∃ l w', switches 2 w_fork = Ret (l, w') ∧ 0 ∈ l.
Proof.
  apply (switch_fair w_fork 0 w_fork_wf); [|vm].
  split; vm_compute; [discriminate|reflexivity].
Defined.

(** Two live processes, and an address the first one may use. *)
Definition two_live (va : Z) (w : W) : bool :=
  match live (sched w) with
  | p :: q :: _ =>
      alive p && alive q &&
      match TranslationTableAllocator.tables (ttables w) !! translation_table p with
      | Some tb => is_ret (Mmu.mmu_translate_virtual_address tb va)
      | None => false
      end
  | _ => false
  end.

Lemma two_live_true va w : two_live va w = true →
  ∃ p q tb a, live (sched w) !! 0%nat = Some p ∧ live (sched w) !! 1%nat = Some q ∧
    alive p = true ∧ alive q = true ∧
    TranslationTableAllocator.tables (ttables w) !! translation_table p = Some tb ∧
    Mmu.mmu_translate_virtual_address tb va = Ret a.
Proof.
  unfold two_live. destruct (live (sched w)) as [|p [|q l]]; [done|done|].
  destruct (_ !! _) as [tb|] eqn:E; [|by rewrite andb_false_r].
  destruct (Mmu.mmu_translate_virtual_address tb va) as [a| | |] eqn:Ea;
    rewrite ?andb_false_r; try done.
  rewrite andb_true_r. intros [??]%andb_prop. by exists p, q, tb, a.
Qed.

(** init and its child. *)
Lemma user_addresses_isolated_witness :
  ∃ tb a p q, live (sched w_fork) !! 0%nat = Some p ∧ live (sched w_fork) !! 1%nat = Some q ∧
    Mmu.mmu_translate_virtual_address tb 0x00800010 = Ret a ∧ a = memory_section p + 0x10 ∧
    ¬ (memory_section q ≤ a < memory_section q + 0x100000).
Proof.
  destruct (two_live_true 0x00800010 w_fork ltac:(vm))
    as (p & q & tb & a & Hp & Hq & Hap & Haq & Htb & Ha).
  exists tb, a, p, q.
  destruct (user_addresses_isolated w_fork 0 1 p q 0x00800010 w_fork_wf Hp Hq)
    as (tb' & Htb' & Hcases); [discriminate|exact Hap|exact Haq|unfold is_u32; lia|].
  rewrite Htb in Htb'. injection Htb' as <-.
  split; [exact Hp|]. split; [exact Hq|]. split; [exact Ha|].
  destruct Hcases as [[H _]|[[r E]|(a' & E & _ & Hd & Hn)]]; [discriminate H|congruence|].
  rewrite Ha in E. injection E as <-. split; [|exact Hn].
  unfold PROCESS_SECTION_VIRTUAL_ADDRRESS in Hd. lia.
Defined.

(** Traces of runs. *)
Lemma reach_run_start w : is_ret (start_init_proc w) = true → reachable w (run start_init_proc w).
Proof. intros H. destruct (run_eq _ _ H) as [r E]. by eapply reach_start. Qed.

Lemma reach_run_add_fd w0 w f : reachable w0 w → is_some (fd_count (filesys w) f) = true →
  is_ret (scheduler_cur_proc_add_fd f w) = true → reachable w0 (run (scheduler_cur_proc_add_fd f) w).
Proof.
  intros Hw Hf Hr. destruct (run_eq _ _ Hr) as [x E].
  eapply reach_step; [exact Hw|]. eapply step_add_fd; [by apply is_some_true|exact E].
Qed.

Lemma reach_run_fork w0 w : reachable w0 w → cur_runs w = true → gen_ok w →
  is_ret (scheduler_cur_proc_fork w) = true → reachable w0 (run scheduler_cur_proc_fork w).
Proof.
  intros Hw Hc Hg Hr. destruct (run_eq _ _ Hr) as [x E].
  eapply reach_step; [exact Hw|]. eapply step_fork; [by apply cur_running|exact Hg|exact E].
Qed.

Lemma reach_run_switch w0 w : reachable w0 w → is_ret (scheduler_switch_task w) = true →
  reachable w0 (run scheduler_switch_task w).
Proof.
  intros Hw Hr. destruct (run_eq _ _ Hr) as [x E].
  eapply reach_step; [exact Hw|]. by eapply step_switch.
Qed.

Lemma reach_child : reachable boot w_child.
Proof.
  apply reach_run_switch; [|vm]. apply reach_run_fork; [|vm|vm|vm].
  unfold w_init. do 3 (apply reach_run_add_fd; [|vm|vm]). apply reach_run_start. vm.
Qed.

(** A trace: boot, the standard descriptors, fork and a switch to the child. *)
Lemma reachable_wf_witness : reachable boot w_child ∧ wf w_child.
Proof. split; [exact reach_child|exact (reachable_wf boot w_child boot_ok reach_child)]. Defined.

(** The terminal's file is open on the descriptors 0 to 2 of init. *)
Lemma fd_table_correct_witness :
  ∃ w', scheduler_cur_proc_add_fd 100 w_init = Ret (3, w') ∧ wf w' ∧
    scheduler_cur_proc_get_fd 3 w' = Ret (100, w').
Proof.
  assert (fd_count (filesys w_init) 100 = Some 3) as Hn by vm.
  destruct (fd_table_correct w_init (cur w_init) 100 3 w_init_wf (cur_running w_init ltac:(vm)) Hn)
    as [[E _]|(fd & w' & w'' & E & Hwf & _ & _ & _ & Hget & _)]; [lia| |].
  - exfalso. assert (match scheduler_cur_proc_add_fd 100 w_init with
                     | Ret (fd, _) => fd | _ => 0 end = 3) as H by vm.
    rewrite E in H. discriminate.
  - assert (match scheduler_cur_proc_add_fd 100 w_init with
            | Ret (fd, _) => fd | _ => 0 end = 3) as H by vm.
    rewrite E in H. simpl in H. subst fd. exists w'. auto.
Defined.

Lemma fd_past_table_faults_witness : scheduler_cur_proc_get_fd 16 w_init = Fault.
Proof.
  apply (fd_past_table_faults w_init (cur w_init) 16 w_init_wf (cur_running w_init ltac:(vm))). lia.
Defined.

End SchedulerWitness.
