(* ===== verification/Fs.v ===== *)
(** * The objects of the file systems

    [vfs/inode.h], [vfs/super_block.h], [kernel_types.h], [vfs/inode.c],
    [vfs/fs_utils.c]: inodes, open files and super blocks, each kind in a store of
    its own by the address [memory_calloc] gave it. *)
From S2P Require Import Prelude Mmu Alloc Heap.

Module Fs.

(** ** Constants of [kernel_types.h] *)

Definition O_CREAT : Z := 0x000040.
Definition O_EXCL : Z := 0x000080.
Definition O_DIRECTORY : Z := 0x020000.
Definition SEEK_SET : Z := 0.
Definition SEEK_CUR : Z := 1.
Definition SEEK_END : Z := 2.
Definition S_IFREG : Z := 0x8000.
Definition S_IFDIR : Z := 0x4000.
Definition S_IFCHR : Z := 0x2000.
Definition S_IFBLK : Z := 0x6000.
Definition S_IFMT : Z := 0xF000.
Definition DT_CHR : Z := 2.
Definition DT_DIR : Z := 4.
Definition DT_BLK : Z := 6.
Definition DT_REG : Z := 8.
Definition MAX_DIR_NAME_LEN : Z := 31.

Definition DEV_MAJOR (dev : Z) : Z := u16 (Z.shiftr (Z.land dev 0xFFFF0000) 16).
Definition DEV_MINOR (dev : Z) : Z := u16 (Z.land dev 0xFFFF).
Definition MAKE_DEV (major minor : Z) : Z := Z.lor (Z.shiftl major 16) (Z.land minor 0xFFFF).

(** The format bits of a mode. *)
Definition fmt (mode : Z) : Z := Z.land mode S_IFMT.

(** ** Data *)

(** A C string without its NUL. *)
Abbreviation name_t := (list Z).

(** The static tables of functions an inode can point to; [NULL] when unset. *)
Inductive file_ops_t : Type :=
| NO_FILE_OPS
| DEV_TTY_OPS               (** [dev_tty_ops] *)
| BLOCK_DEVICE_FILE_OPS     (** [block_device_file_ops] *)
| RAMFS_REG_FILE_OPS        (** [_ramfs_reg_file_ops] *)
| RAMFS_DIR_FILE_OPS        (** [_ramfs_dir_file_ops] *)
| FAT32_FILE_OPS            (** the regular file table of [fat32_fs.c] *)
| FAT32_DIR_OPS.            (** its directory table *)

Inductive inode_ops_t : Type :=
| NO_INODE_OPS
| RAMFS_INODE_OPS           (** [_ramfs_inode_ops] *)
| FAT32_INODE_OPS.

(** The super block tables. *)
Inductive super_block_ops_t : Type :=
| RAMFS_SB_OPS
| FAT32_SB_OPS.

Record inode : Type := mkinode {
  ino : Z;
  device : Z;
  size : Z;
  mode : Z;
  link_count : Z;
  file_ops : file_ops_t;
  inode_ops : inode_ops_t;
  super_block : Z;
  i_private : Z;
}.

Record file : Type := mkfile {
  f_count : Z;         (** [fd_count] *)
  f_inode : Z;
  pos : Z;
  f_private : Z;
}.

Record super_block_t : Type := mksb {
  root_ino : Z;
  sb_ops : super_block_ops_t;
  sb_private : Z;
}.

Record dirent : Type := mkdirent {
  d_type : Z;
  d_name : name_t;
}.

(** What [memory_calloc] leaves in a new object. *)
Definition zero_inode : inode := mkinode 0 0 0 0 0 NO_FILE_OPS NO_INODE_OPS 0 0.
Definition zero_file : file := mkfile 0 0 0 0.

(** [sizeof], on a 32 bit ARM *)
Definition SIZEOF_INODE : Z := 40.
Definition SIZEOF_FILE : Z := 16.
Definition SIZEOF_SUPER_BLOCK : Z := 12.

Definition with_pos (p : Z) (f : file) : file := mkfile (f_count f) (f_inode f) p (f_private f).
Definition with_inode (i : Z) (f : file) : file := mkfile (f_count f) i (pos f) (f_private f).
Definition with_private (x : Z) (f : file) : file := mkfile (f_count f) (f_inode f) (pos f) x.
Definition with_count (n : Z) (f : file) : file := mkfile n (f_inode f) (pos f) (f_private f).
Definition with_size (n : Z) (i : inode) : inode :=
  mkinode (ino i) (device i) n (mode i) (link_count i) (file_ops i) (inode_ops i)
    (super_block i) (i_private i).
Definition with_super_block (sb : Z) (i : inode) : inode :=
  mkinode (ino i) (device i) (size i) (mode i) (link_count i) (file_ops i) (inode_ops i)
    sb (i_private i).

(** ** Stores of objects *)

Section store.
Context {S A : Type} `{!Has S (gmap Z A)}.

(** [*p]: NULL and every other address without an object is undefined. *)
Definition mget (p : Z) : M S A := λ s, deref (comp_get s !! p) s.

Definition mput (p : Z) (a : A) : M S unit := λ s, Ret ((), comp_set (<[p := a]> (comp_get s)) s).

Definition mupd (p : Z) (f : A → A) : M S unit := let* a := mget p in mput p (f a).

(** A new object, zeroed: [memory_calloc(sizeof(A))]. *)
Definition mnew `{!Has S Heap.heap} (sizeof : Z) (zero : A) : M S Z :=
  let* p := zoom (Heap.memory_calloc sizeof) in
  if p =? 0 then ret 0
  else let* _ := mput p zero in ret p.

Lemma mget_Ret p s a : comp_get s !! p = Some a → mget p s = Ret (a, s).
Proof. intros H. unfold mget. by rewrite H. Qed.

Lemma mget_inv p s r : mget p s = Ret r → ∃ a, comp_get s !! p = Some a ∧ r = (a, s).
Proof. unfold mget. destruct (comp_get s !! p); intros H; inv_run; eauto. Qed.

Lemma mupd_Ret p f s a : comp_get s !! p = Some a →
  mupd p f s = Ret ((), comp_set (<[p := f a]> (comp_get s)) s).
Proof. intros H. unfold mupd. by rewrite (bind_Ret _ _ _ _ _ (mget_Ret _ _ _ H)). Qed.
End store.

(** A string copied into a buffer of [n] bytes: with its NUL it must fit. *)
Definition strcpy_buf (n : Z) (s : name_t) : outcome name_t :=
  if Z.of_nat (length s) + 1 <=? n then Ret s else Fault.

(** [_strcmp(a, b) == 0], see [Libc.cstrcmp_0]. *)
Definition streq (a b : name_t) : bool := bool_decide (a = b).

(** The ASCII codes of a Rocq string. *)
Definition str (s : string) : name_t :=
  map (λ a, Z.of_N (Ascii.N_of_ascii a)) (String.list_ascii_of_string s).

(** ** [inode.c] and [fs_utils.c] *)

Section ops.
Context {S : Type} `{!Has S Heap.heap} `{!Has S (gmap Z inode)} `{!Has S (gmap Z file)}
  `{!Has S (gmap Z super_block_t)}.

Definition default_file_open (i : Z) : M S Z :=
  let* _ := kassert (negb (i =? 0)) "inode != NULL" in
  let* f := mnew SIZEOF_FILE zero_file in
  let* _ := kassert (negb (f =? 0)) "file != NULL" in
  let* _ := mupd f (with_inode i) in
  ret f.

Definition default_file_release (i f : Z) : M S Z :=
  let* _ := kassert (negb (i =? 0)) "inode != NULL" in
  let* _ := kassert (negb (f =? 0)) "file != NULL" in
  let* file := mget (A := file) f in
  let* _ := kassert (f_count file =? 0) "file->fd_count == 0u" in
  let* _ := zoom (Heap.memory_free f) in
  ret 0.

Definition get_seek_ref_offset (f whence : Z) : M S Z :=
  let* file := mget (A := file) f in
  if whence =? SEEK_SET then ret 0
  else if whence =? SEEK_END then
    let* i := mget (A := inode) (f_inode file) in ret (s32 (size i))
  else if whence =? SEEK_CUR then ret (pos file)
  else fatal "seek: invalid whence".

(** ** [sb->ops->alloc_inode(sb)] *)

Definition _ramfs_sb_alloc_inode (sb : Z) : M S Z :=
  let* i := mnew SIZEOF_INODE zero_inode in
  let* _ := kassert (negb (i =? 0)) "inode != NULL" in
  let* _ := mupd i (with_super_block sb) in
  ret i.

Definition _fat32_sb_alloc_inode (fat32_sb : Z) : M S Z :=
  let* i := mnew SIZEOF_INODE zero_inode in
  let* _ := kassert (negb (i =? 0)) "inode != NULL" in
  let* _ := mupd i (with_super_block fat32_sb) in
  ret i.

Definition sb_alloc_inode (sb : Z) : M S Z :=
  let* s := mget (A := super_block_t) sb in
  match sb_ops s with
  | RAMFS_SB_OPS => _ramfs_sb_alloc_inode sb
  | FAT32_SB_OPS => _fat32_sb_alloc_inode sb
  end.
End ops.

(** The kind of an inode in a directory listing. *)
Definition dirent_type (m : Z) : option Z :=
  if fmt m =? S_IFDIR then Some DT_DIR
  else if fmt m =? S_IFCHR then Some DT_CHR
  else if fmt m =? S_IFBLK then Some DT_BLK
  else if fmt m =? S_IFREG then Some DT_REG
  else None.

End Fs.
