(* ===== verification/FsState.v ===== *)
(** * The state of the file systems

    The private data of every file system and device driver, and the record of all
    the stores. *)
From S2P Require Import Prelude Mmu Alloc Heap Fs.
Import Fs.

Module FsState.

(** ** [ramfs.c] *)

Definition RAMFS_ROOT_NODE_ID : Z := 1.
Definition RAMFS_INODE_MAX_CHILDREN_COUNT : Z := 8.
Definition RAMFS_MAX_NAME_LEN : Z := 32.
Definition RAMFS_INITIAL_FILE_ALLOC : Z := 512.

Record ramfs_t : Type := mkramfs { ino_gen : Z }.

Record ramfs_inode_child_t : Type := mkchild {
  c_inode : Z;
  c_name : name_t;
}.

(** [child_count] is the length of [children]; there is room for eight. *)
Record ramfs_dir_private_t : Type := mkdir { children : list ramfs_inode_child_t }.

(** [data] is the address of a block of the heap. *)
Record ramfs_file_private_t : Type := mkrfile {
  r_data : Z;
  alloc_size : Z;
}.

Definition SIZEOF_RAMFS : Z := 4.
Definition SIZEOF_RAMFS_DIR : Z := 292.
Definition SIZEOF_RAMFS_FILE : Z := 8.

(** ** [fat32_fs.c] *)

Record fat32_sector_loc_t : Type := mkloc {
  start_cluster : Z;
  cluster : Z;
  sector_index : Z;
}.

Record fat32_dir_entry_loc_t : Type := mkeloc {
  sector_loc : fat32_sector_loc_t;
  entry_index : Z;
}.

Record fat32_sb_private_t : Type := mkfat {
  fat_device : Z;
  fat_sector_start : Z;
  fat_sector_count : Z;
  data_sector_start : Z;
  sectors_per_cluster : Z;
  root_cluster : Z;
}.

Record fat32_file_reg_private_t : Type := mkfreg {
  reg_loc : fat32_sector_loc_t;
  offset_in_sector : Z;
}.

(** ** Devices *)

(** The tables of functions of [ramdisk.c] and [sdcard.c]; a device that was never
    created is all zero. *)
Inductive block_device_ops_t : Type :=
| NO_BLOCK_OPS
| SECTION_RAMDISK_OPS
| SDCARD_DISK_OPS.

Record block_device_t : Type := mkblk {
  blk_ops : block_device_ops_t;
  block_size : Z;
  blk_private : Z;
}.

Definition zero_block_device : block_device_t := mkblk NO_BLOCK_OPS 0 0.

(** What the SD host reads as block [i] of the card: its 512 bytes, or an error. *)
Definition sd_card : Type := Z → option (list Z).

(** The mini UART: the bytes still to come, and those sent (latest first). *)
Record uart_t : Type := mkuart {
  uart_in : list Z;
  uart_out : list Z;
}.

(** ** The record of all of it *)

Record fs : Type := mkfs {
  fs_heap : Heap.heap;  (** the kernel heap *)
  fs_inodes : gmap Z inode;  (** inodes *)
  fs_files : gmap Z file;  (** open files *)
  fs_sbs : gmap Z super_block_t;  (** super blocks *)
  fs_ramfs : gmap Z ramfs_t;  (** [ramfs_t] *)
  fs_dirs : gmap Z ramfs_dir_private_t;  (** directories of the RAM file system *)
  fs_rfiles : gmap Z ramfs_file_private_t;  (** regular files of the RAM file system *)
  fs_fat : gmap Z fat32_sb_private_t;  (** mounted FAT32 volumes *)
  fs_fat_files : gmap Z fat32_file_reg_private_t;  (** positions of open FAT32 files *)
  fs_fat_dirs : gmap Z fat32_dir_entry_loc_t;  (** positions of open FAT32 directories *)
  fs_devices : list block_device_t;  (** [_block_devices], by major number *)
  fs_disks : gmap Z (gmap Z Z);  (** the sections of the RAM disks: bytes by offset *)
  fs_card : sd_card;  (** the card in the slot *)
  fs_uart : uart_t;  (** the serial terminal *)
}.

#[global] Program Instance has_fs_heap : Has fs (Heap.heap) := {
  comp_get := fs_heap;
  comp_set c s := mkfs c (fs_inodes s) (fs_files s) (fs_sbs s) (fs_ramfs s) (fs_dirs s)
    (fs_rfiles s) (fs_fat s) (fs_fat_files s) (fs_fat_dirs s) (fs_devices s) (fs_disks s)
    (fs_card s) (fs_uart s);
}.
Solve All Obligations with by intros; repeat match goal with s : fs |- _ => destruct s end.

#[global] Program Instance has_fs_inodes : Has fs (gmap Z inode) := {
  comp_get := fs_inodes;
  comp_set c s := mkfs (fs_heap s) c (fs_files s) (fs_sbs s) (fs_ramfs s) (fs_dirs s)
    (fs_rfiles s) (fs_fat s) (fs_fat_files s) (fs_fat_dirs s) (fs_devices s) (fs_disks s)
    (fs_card s) (fs_uart s);
}.
Solve All Obligations with by intros; repeat match goal with s : fs |- _ => destruct s end.

#[global] Program Instance has_fs_files : Has fs (gmap Z file) := {
  comp_get := fs_files;
  comp_set c s := mkfs (fs_heap s) (fs_inodes s) c (fs_sbs s) (fs_ramfs s) (fs_dirs s)
    (fs_rfiles s) (fs_fat s) (fs_fat_files s) (fs_fat_dirs s) (fs_devices s) (fs_disks s)
    (fs_card s) (fs_uart s);
}.
Solve All Obligations with by intros; repeat match goal with s : fs |- _ => destruct s end.

#[global] Program Instance has_fs_sbs : Has fs (gmap Z super_block_t) := {
  comp_get := fs_sbs;
  comp_set c s := mkfs (fs_heap s) (fs_inodes s) (fs_files s) c (fs_ramfs s) (fs_dirs s)
    (fs_rfiles s) (fs_fat s) (fs_fat_files s) (fs_fat_dirs s) (fs_devices s) (fs_disks s)
    (fs_card s) (fs_uart s);
}.
Solve All Obligations with by intros; repeat match goal with s : fs |- _ => destruct s end.

#[global] Program Instance has_fs_ramfs : Has fs (gmap Z ramfs_t) := {
  comp_get := fs_ramfs;
  comp_set c s := mkfs (fs_heap s) (fs_inodes s) (fs_files s) (fs_sbs s) c (fs_dirs s)
    (fs_rfiles s) (fs_fat s) (fs_fat_files s) (fs_fat_dirs s) (fs_devices s) (fs_disks s)
    (fs_card s) (fs_uart s);
}.
Solve All Obligations with by intros; repeat match goal with s : fs |- _ => destruct s end.

#[global] Program Instance has_fs_dirs : Has fs (gmap Z ramfs_dir_private_t) := {
  comp_get := fs_dirs;
  comp_set c s := mkfs (fs_heap s) (fs_inodes s) (fs_files s) (fs_sbs s) (fs_ramfs s) c
    (fs_rfiles s) (fs_fat s) (fs_fat_files s) (fs_fat_dirs s) (fs_devices s) (fs_disks s)
    (fs_card s) (fs_uart s);
}.
Solve All Obligations with by intros; repeat match goal with s : fs |- _ => destruct s end.

#[global] Program Instance has_fs_rfiles : Has fs (gmap Z ramfs_file_private_t) := {
  comp_get := fs_rfiles;
  comp_set c s := mkfs (fs_heap s) (fs_inodes s) (fs_files s) (fs_sbs s) (fs_ramfs s)
    (fs_dirs s) c (fs_fat s) (fs_fat_files s) (fs_fat_dirs s) (fs_devices s) (fs_disks s)
    (fs_card s) (fs_uart s);
}.
Solve All Obligations with by intros; repeat match goal with s : fs |- _ => destruct s end.

#[global] Program Instance has_fs_fat : Has fs (gmap Z fat32_sb_private_t) := {
  comp_get := fs_fat;
  comp_set c s := mkfs (fs_heap s) (fs_inodes s) (fs_files s) (fs_sbs s) (fs_ramfs s)
    (fs_dirs s) (fs_rfiles s) c (fs_fat_files s) (fs_fat_dirs s) (fs_devices s) (fs_disks s)
    (fs_card s) (fs_uart s);
}.
Solve All Obligations with by intros; repeat match goal with s : fs |- _ => destruct s end.

#[global] Program Instance has_fs_fat_files : Has fs (gmap Z fat32_file_reg_private_t) := {
  comp_get := fs_fat_files;
  comp_set c s := mkfs (fs_heap s) (fs_inodes s) (fs_files s) (fs_sbs s) (fs_ramfs s)
    (fs_dirs s) (fs_rfiles s) (fs_fat s) c (fs_fat_dirs s) (fs_devices s) (fs_disks s)
    (fs_card s) (fs_uart s);
}.
Solve All Obligations with by intros; repeat match goal with s : fs |- _ => destruct s end.

#[global] Program Instance has_fs_fat_dirs : Has fs (gmap Z fat32_dir_entry_loc_t) := {
  comp_get := fs_fat_dirs;
  comp_set c s := mkfs (fs_heap s) (fs_inodes s) (fs_files s) (fs_sbs s) (fs_ramfs s)
    (fs_dirs s) (fs_rfiles s) (fs_fat s) (fs_fat_files s) c (fs_devices s) (fs_disks s)
    (fs_card s) (fs_uart s);
}.
Solve All Obligations with by intros; repeat match goal with s : fs |- _ => destruct s end.

#[global] Program Instance has_fs_devices : Has fs (list block_device_t) := {
  comp_get := fs_devices;
  comp_set c s := mkfs (fs_heap s) (fs_inodes s) (fs_files s) (fs_sbs s) (fs_ramfs s)
    (fs_dirs s) (fs_rfiles s) (fs_fat s) (fs_fat_files s) (fs_fat_dirs s) c (fs_disks s)
    (fs_card s) (fs_uart s);
}.
Solve All Obligations with by intros; repeat match goal with s : fs |- _ => destruct s end.

#[global] Program Instance has_fs_disks : Has fs (gmap Z (gmap Z Z)) := {
  comp_get := fs_disks;
  comp_set c s := mkfs (fs_heap s) (fs_inodes s) (fs_files s) (fs_sbs s) (fs_ramfs s)
    (fs_dirs s) (fs_rfiles s) (fs_fat s) (fs_fat_files s) (fs_fat_dirs s) (fs_devices s) c
    (fs_card s) (fs_uart s);
}.
Solve All Obligations with by intros; repeat match goal with s : fs |- _ => destruct s end.

#[global] Program Instance has_fs_card : Has fs (sd_card) := {
  comp_get := fs_card;
  comp_set c s := mkfs (fs_heap s) (fs_inodes s) (fs_files s) (fs_sbs s) (fs_ramfs s)
    (fs_dirs s) (fs_rfiles s) (fs_fat s) (fs_fat_files s) (fs_fat_dirs s) (fs_devices s)
    (fs_disks s) c (fs_uart s);
}.
Solve All Obligations with by intros; repeat match goal with s : fs |- _ => destruct s end.

#[global] Program Instance has_fs_uart : Has fs (uart_t) := {
  comp_get := fs_uart;
  comp_set c s := mkfs (fs_heap s) (fs_inodes s) (fs_files s) (fs_sbs s) (fs_ramfs s)
    (fs_dirs s) (fs_rfiles s) (fs_fat s) (fs_fat_files s) (fs_fat_dirs s) (fs_devices s)
    (fs_disks s) (fs_card s) c;
}.
Solve All Obligations with by intros; repeat match goal with s : fs |- _ => destruct s end.

(** ** Well-formed states *)

(** Every object of a store lies below the cursor of the heap, where new blocks come
    from: it is one of its blocks, or a static object of the kernel. *)
Definition in_heap {A} (h : Heap.heap) (m : gmap Z A) : Prop :=
  ∀ p, is_Some (m !! p) → p ≤ Heap.memory_cursor h.

Record fs_wf (s : fs) : Prop := {
  wf_heap : Heap.inv (fs_heap s);
  wf_inodes : in_heap (fs_heap s) (fs_inodes s);
  wf_files : in_heap (fs_heap s) (fs_files s);
  wf_sbs : in_heap (fs_heap s) (fs_sbs s);
  wf_ramfs : in_heap (fs_heap s) (fs_ramfs s);
  wf_dirs : in_heap (fs_heap s) (fs_dirs s);
  wf_rfiles : in_heap (fs_heap s) (fs_rfiles s);
  wf_fat : in_heap (fs_heap s) (fs_fat s);
  wf_fat_files : in_heap (fs_heap s) (fs_fat_files s);
  wf_fat_dirs : in_heap (fs_heap s) (fs_fat_dirs s);
}.

(** Devices, terminal and the volumes that are mounted are the same. *)
Record same_rest (s s' : fs) : Prop := {
  sr_devices : fs_devices s' = fs_devices s;
  sr_disks : fs_disks s' = fs_disks s;
  sr_card : fs_card s' = fs_card s;
  sr_uart : fs_uart s' = fs_uart s;
  sr_fat : fs_fat s' = fs_fat s;
}.

Lemma same_rest_trans s1 s2 s3 : same_rest s1 s2 → same_rest s2 s3 → same_rest s1 s3.
Proof. intros [] []. split; congruence. Qed.

(** [n] more bytes fit, with their header and their padding. *)
Definition room (s : fs) (n : Z) : Prop :=
  0 ≤ n ∧ Heap.memory_cursor (fs_heap s) + n + 7 ≤ Heap.section_end (fs_heap s).

Lemma in_heap_upd {A} h (m : gmap Z A) p a :
  in_heap h m → is_Some (m !! p) → in_heap h (<[p := a]> m).
Proof.
  intros H Hp q Hq. destruct (decide (q = p)) as [->|]; [auto|].
  rewrite lookup_insert_ne in Hq by done. auto.
Qed.

Lemma in_heap_fresh {A} h (m : gmap Z A) p :
  in_heap h m → Heap.memory_cursor h < p → m !! p = None.
Proof. intros H E. apply eq_None_not_Some. intros Hp%H. lia. Qed.

(** The heap only got more blocks, in at most [n] bytes. *)
Record heap_grew (h h' : Heap.heap) (n : Z) : Prop := {
  grew_inv : Heap.inv h';
  grew_data : ∀ b d, Heap.block_data h !! b = Some d → Heap.block_data h' !! b = Some d;
  grew_mono : Heap.memory_cursor h ≤ Heap.memory_cursor h';
  grew_cursor : Heap.memory_cursor h' ≤ Heap.memory_cursor h + n;
  grew_end : Heap.section_end h' = Heap.section_end h;
}.

Lemma heap_grew_trans h h1 h2 n m :
  heap_grew h h1 n → heap_grew h1 h2 m → heap_grew h h2 (n + m).
Proof. intros [] []. split; eauto; lia. Qed.

Lemma room_grew s s' n m :
  heap_grew (fs_heap s) (fs_heap s') n → room s (n + m) → 0 ≤ m → room s' m.
Proof. intros [_ _ _ Hc He] [_ Hr] Hm. split; [done|]. rewrite He. lia. Qed.

Lemma room_le s n m : room s n → 0 ≤ m ≤ n → room s m.
Proof. intros [_ Hr] Hm. split; lia. Qed.

Lemma in_heap_le {A} h h' (m : gmap Z A) :
  in_heap h m → Heap.memory_cursor h ≤ Heap.memory_cursor h' → in_heap h' m.
Proof. intros H Hle p Hp%H. lia. Qed.

Lemma in_heap_grew {A} h h' n (m : gmap Z A) : in_heap h m → heap_grew h h' n → in_heap h' m.
Proof. intros H [] p Hp%H. lia. Qed.

(** The block that the next [memory_calloc] hands out, and the heap it leaves. *)
Lemma calloc_run (s : fs) n : fs_wf s → room s n →
  ∃ p h, zoom (Heap.memory_calloc n) s = Ret (p, comp_set h s) ∧ 0 < p ∧
    Heap.memory_cursor (fs_heap s) < p ≤ Heap.memory_cursor h ∧
    Heap.block_data h !! p = Some (replicate (Z.to_nat n) 0) ∧
    heap_grew (fs_heap s) h (n + 7).
Proof.
  intros Hwf [Hn Hr]. pose proof (wf_heap s Hwf) as Hi.
  pose proof (Heap.inv_end _ Hi). pose proof (Heap.inv_cursor _ Hi).
  destruct (Heap.calloc_spec (fs_heap s) n) as [[_ ?]|(h & E & Hi' & _ & Hf & Hs & Hd & Hc & He)];
    [done|split; lia|lia|].
  exists (Heap.memory_cursor (fs_heap s) + Heap.SIZEOF_SIZE_T), h.
  unfold Heap.SIZEOF_SIZE_T in *. split_and!.
  - by apply zoom_Ret.
  - lia.
  - lia.
  - lia.
  - by rewrite Hd, lookup_insert_eq.
  - split; [done| |lia|lia|done].
    intros b d Hb. rewrite Hd, lookup_insert_ne; [done|]. intros <-.
    apply (Heap.inv_data _ Hi) in Hb. congruence.
Qed.

(** The same for a typed object. *)
Lemma mnew_run {A} `{!Has fs (gmap Z A)} (s : fs) n (zero : A) : fs_wf s → room s n →
  ∃ p h, mnew n zero s =
      Ret (p, comp_set (<[p := zero]> (comp_get (comp_set h s))) (comp_set h s)) ∧
    0 < p ∧ Heap.memory_cursor (fs_heap s) < p ≤ Heap.memory_cursor h ∧
    heap_grew (fs_heap s) h (n + 7).
Proof.
  intros Hwf Hr. destruct (calloc_run s n Hwf Hr) as (p & h & E & Hp & Hf & _ & Hg).
  exists p, h. split; [|done]. unfold mnew. rewrite (bind_Ret _ _ _ _ _ E).
  by rewrite (proj2 (Z.eqb_neq p 0)) by lia.
Qed.

Lemma in_heap_add {A} h (m : gmap Z A) p a :
  in_heap h m → p ≤ Heap.memory_cursor h → in_heap h (<[p := a]> m).
Proof.
  intros H Hp q Hq. destruct (decide (q = p)) as [->|]; [done|].
  rewrite lookup_insert_ne in Hq by done. auto.
Qed.

(** Well-formedness after the heap grew by [Hg] and some stores got a new object. *)
Ltac fs_wf_step Hwf Hg :=
  let H := fresh in
  pose proof (grew_inv _ _ _ Hg) as H; destruct Hwf; split; simpl; try done;
  first [ by eapply in_heap_grew
        | eapply in_heap_add; [by eapply in_heap_grew|lia]
        | eapply in_heap_upd; [by eapply in_heap_grew|by eauto] ].

Lemma sb_alloc_inode_run (s : fs) sb x : fs_wf s → fs_sbs s !! sb = Some x → room s SIZEOF_INODE →
  ∃ i h, sb_alloc_inode sb s =
      Ret (i, comp_set (<[i := with_super_block sb zero_inode]> (fs_inodes s)) (comp_set h s)) ∧
    0 < i ∧ Heap.memory_cursor (fs_heap s) < i ≤ Heap.memory_cursor h ∧
    heap_grew (fs_heap s) h (SIZEOF_INODE + 7).
Proof.
  intros Hwf Hsb Hr.
  destruct (mnew_run s SIZEOF_INODE zero_inode Hwf Hr) as (i & h & E & Hi & Hf & Hg).
  exists i, h. split; [|done].
  unfold sb_alloc_inode. erewrite bind_Ret by (apply mget_Ret; exact Hsb).
  assert (∀ k, k i = (let* _ := mupd i (with_super_block sb) in ret i) →
    (let* i := mnew SIZEOF_INODE zero_inode in
     let* _ := kassert (negb (i =? 0)) "inode != NULL" in k i) s =
    Ret (i, comp_set (<[i := with_super_block sb zero_inode]> (fs_inodes s)) (comp_set h s)))
    as Hk.
  { intros k Hk. rewrite (bind_Ret _ _ _ _ _ E), (proj2 (Z.eqb_neq i 0)) by lia.
    erewrite bind_Ret by done. rewrite Hk.
    erewrite bind_Ret by (apply mupd_Ret; simpl; apply lookup_insert_eq).
    unfold ret. simpl. by rewrite insert_insert_eq. }
  destruct (sb_ops x); by apply (Hk (λ i, let* _ := mupd i (with_super_block sb) in ret i)).
Qed.

(** A state as [driver_registry_init] leaves it: no object yet. *)
Definition empty_fs (heap_section ramdisk : Z) (card : sd_card) : fs :=
  mkfs (Heap.empty_heap heap_section) ∅ ∅ ∅ ∅ ∅ ∅ ∅ ∅ ∅
    [mkblk SECTION_RAMDISK_OPS 512 ramdisk; mkblk SDCARD_DISK_OPS 512 0]
    {[ ramdisk := ∅ ]} card (mkuart [] []).

Lemma empty_fs_wf h r c : 0 < h → h + 0x100000 < 0x100000000 → h `mod` 4 = 0 →
  fs_wf (empty_fs h r c).
Proof.
  intros H1 H2 H3. split; simpl; [by apply Heap.empty_heap_inv|..];
    intros p [x Hx]; by rewrite lookup_empty in Hx.
Qed.

End FsState.
