(* ===== verification/Devices.v ===== *)
(** * Device drivers

    [vfs/driver_registry.c], [vfs/dev/ramdisk.c], [vfs/dev/sdcard.c],
    [vfs/dev/tty.c] and [vfs/dev/block_device_file_ops.c]. *)
From S2P Require Import Prelude Mmu Alloc Heap Hash Fs FsState.
Import Fs FsState.

Module Devices.

Abbreviation MF := (M fs).

Definition get_inode (p : Z) : MF inode := mget p.
Definition get_file (p : Z) : MF file := mget p.
Definition upd_inode (p : Z) (f : inode → inode) : MF unit := mupd p f.
Definition upd_file (p : Z) (f : file → file) : MF unit := mupd p f.

(** ** [ramdisk.c] *)

Definition SECTION_RAMDISK_BLOCK_COUNT : Z := 2048.
Definition SECTION_RAMDISK_BLOCK_SIZE : Z := 512.

(** The 512 bytes of a block from offset [o] on. *)
Definition section_bytes (s : gmap Z Z) (o : Z) : list Z :=
  map (λ i, default 0 (s !! (o + Z.of_nat i))) (seq 0 512).

Fixpoint put_bytes (o : Z) (l : list Z) (s : gmap Z Z) : gmap Z Z :=
  match l with
  | [] => s
  | b :: l => put_bytes (o + 1) l (<[o := b]> s)
  end.

(** The status and, when it is 1, the block read. *)
Definition _section_ramdisk_read_block (section index : Z) : MF (Z * list Z) :=
  if index >=? SECTION_RAMDISK_BLOCK_COUNT then ret (-1, [])
  else
    let* s := mget (A := gmap Z Z) section in
    ret (1, section_bytes s (index * SECTION_RAMDISK_BLOCK_SIZE)).

Definition _section_ramdisk_write_block (section index : Z) (block : list Z) : MF Z :=
  if index >=? SECTION_RAMDISK_BLOCK_COUNT then ret (-1)
  else
    let* _ := mupd (A := gmap Z Z) section
                (put_bytes (index * SECTION_RAMDISK_BLOCK_SIZE) block) in
    ret 1.

Definition create_ramdisk (mem : Z) : block_device_t :=
  mkblk SECTION_RAMDISK_OPS SECTION_RAMDISK_BLOCK_SIZE mem.

(** The status, and the device unless the allocation failed. *)
Definition create_section_ramdisk : M SectionAllocator.section_allocator_t
    (Z * option block_device_t) :=
  let* section := SectionAllocator.section_allocator_alloc in
  if section =? 0 then ret (-1, None)
  else ret (0, Some (mkblk SECTION_RAMDISK_OPS SECTION_RAMDISK_BLOCK_SIZE section)).

(** ** [sdcard.c] *)

Definition _sdcard_disk_read_block (index : Z) : MF (Z * list Z) :=
  let* card := gets fs_card in
  match card index with
  | Some block => ret (1, block)
  | None => fatal "0 == sdhost_read_block(index, block)"
  end.

Definition _sdcard_disk_write_block (index : Z) (block : list Z) : MF Z :=
  fatal "sdcard-block-device: write is not implemented".

Definition create_sdcard_disk : block_device_t := mkblk SDCARD_DISK_OPS 512 0.

(** [device->ops->read_block(device->private, index, block)] *)
Definition read_block (device : block_device_t) (index : Z) : MF (Z * list Z) :=
  match blk_ops device with
  | NO_BLOCK_OPS => fault
  | SECTION_RAMDISK_OPS => _section_ramdisk_read_block (blk_private device) index
  | SDCARD_DISK_OPS => _sdcard_disk_read_block index
  end.

(** ** [driver_registry.c] *)

Definition CHAR_DEV_MAJOR_COUNT : Z := 1.
Definition BLOCK_DEV_MAJOR_COUNT : Z := 2.

(** The two entries of [_block_devices]; a RAM disk that could not be created
    stays zero. *)
Definition driver_registry_init : M SectionAllocator.section_allocator_t (list block_device_t) :=
  let* r := create_section_ramdisk in
  ret [default zero_block_device (snd r); create_sdcard_disk].

(** The operations of the character device, [None] for NULL. *)
Definition get_char_device (dev : Z) : MF (option file_ops_t) :=
  let major := DEV_MAJOR dev in
  let minor := DEV_MINOR dev in
  if major >=? CHAR_DEV_MAJOR_COUNT then ret None
  else
    let* _ := kassert (minor =? 0) "minor == 0" in
    ret (Some DEV_TTY_OPS).

(** A pointer into [_block_devices]: entry [m] is [m + 1], NULL is 0. *)
Definition get_block_device (dev : Z) : MF Z :=
  let major := DEV_MAJOR dev in
  let minor := DEV_MINOR dev in
  if major >=? BLOCK_DEV_MAJOR_COUNT then ret 0
  else
    let* _ := kassert (minor =? 0) "minor == 0" in
    ret (major + 1).

(** The device behind such a pointer. *)
Definition block_device (ptr : Z) : MF block_device_t :=
  let* ds := gets fs_devices in lift (arr_get ds (ptr - 1)).

(** ** [tty.c] *)

(** Without input [mini_uart_getc] waits for ever. *)
Definition mini_uart_getc : MF Z :=
  let* u := gets fs_uart in
  match uart_in u with
  | [] => λ _, Timeout
  | c :: rest => λ s, Ret (c, comp_set (mkuart rest (uart_out u)) s)
  end.

Definition mini_uart_putc (c : Z) : MF unit :=
  let* u := gets fs_uart in
  λ s, Ret ((), comp_set (mkuart (uart_in u) (c :: uart_out u)) s).

(** [n] bytes to go; the bytes read, with the status. *)
Fixpoint tty_read_loop (n : nat) (buf : list Z) : MF (Z * list Z) :=
  match n with
  | O => ret (Z.of_nat (length buf), buf)
  | S n =>
      let* car := mini_uart_getc in
      let* _ := mini_uart_putc car in
      if car =? 13 then
        let* _ := mini_uart_putc 10 in
        ret (Z.of_nat (length buf) + 1, buf ++ [10])
      else tty_read_loop n (buf ++ [car])
  end.

Definition _tty_mini_uart_read (f size : Z) : MF (Z * list Z) := tty_read_loop (Z.to_nat size) [].

Fixpoint tty_write_loop (data : list Z) : MF unit :=
  match data with
  | [] => ret ()
  | c :: data =>
      let* _ := if c =? 10 then mini_uart_putc 13 else ret () in
      let* _ := mini_uart_putc c in
      tty_write_loop data
  end.

Definition _tty_mini_uart_write (f : Z) (data : list Z) : MF Z :=
  let* _ := tty_write_loop data in ret (Z.of_nat (length data)).

(** ** [block_device_file_ops.c] *)

Definition BLOCK_SIZE : Z := 512.

(** The loop of [_block_device_read]: [size] bytes to go, [data] read so far; the
    data, or [None] when the very first block fails.  Every turn reads at least one
    byte, so [size] turns are enough. *)
Fixpoint block_read_loop (fuel : nat) (device : block_device_t)
    (block_index block_offset size : Z) (data : list Z) : MF (option (list Z)) :=
  if size =? 0 then ret (Some data)
  else
    match fuel with
    | O => λ _, Timeout
    | S fuel =>
        let* r := read_block device (u32 block_index) in
        let '(status, block) := r in
        if status <? 0 then
          ret (if Z.of_nat (length data) =? 0 then None else Some data)
        else
          let read_size := Hash.size_t_min (BLOCK_SIZE - block_offset) size in
          block_read_loop fuel device (block_index + 1) 0 (size - read_size)
            (data ++ take (Z.to_nat read_size) (drop (Z.to_nat block_offset) block))
    end.

Definition _block_device_read (f size : Z) : MF (Z * list Z) :=
  let* file := get_file f in
  let* device := block_device (f_private file) in
  let* _ := kassert (BLOCK_SIZE =? block_size device) "BLOCK_SIZE == device->block_size" in
  let offset := pos file in
  let* r := block_read_loop (Z.to_nat size) device (Z.shiftr offset 9) (Z.land offset 0x1FF) size [] in
  match r with
  | None => ret (-1, [])
  | Some data =>
      let* _ := upd_file f (λ file, with_pos (s32 (pos file + Z.of_nat (length data))) file) in
      ret (s32 (Z.of_nat (length data)), data)
  end.

Definition _block_device_write (f : Z) (data : list Z) : MF Z :=
  fatal "block device file ops write is not implemented".

Definition _block_device_seek (f offset whence : Z) : MF Z :=
  fatal "block device file ops seek is not implemented".

Definition _block_device_open (i : Z) : MF Z :=
  let* file := default_file_open i in
  let* node := get_inode i in
  let* dev := get_block_device (device node) in
  let* _ := upd_file file (with_private dev) in
  ret file.

Definition _block_device_release (i f : Z) : MF Z := default_file_release i f.

(** ** Reading a block device *)

(** The [n] bytes of a section from offset [o] on. *)
Definition disk_bytes (s : gmap Z Z) (o : Z) (n : nat) : list Z :=
  map (λ i, default 0 (s !! (o + Z.of_nat i))) (seq 0 n).

Lemma disk_bytes_app s o n m :
  disk_bytes s o n ++ disk_bytes s (o + Z.of_nat n) m = disk_bytes s o (n + m).
Proof.
  revert o. induction n as [|n IH]; intros o.
  { unfold disk_bytes. simpl. apply map_ext. intros i. do 2 f_equal. lia. }
  assert (∀ k o, disk_bytes s o (S k) = default 0 (s !! o) :: disk_bytes s (o + 1) k) as HS.
  { intros k o'. unfold disk_bytes. simpl. f_equal; [do 2 f_equal; lia|].
    rewrite <- seq_shift, map_map. apply map_ext. intros i. do 2 f_equal. lia. }
  simpl Nat.add. rewrite !HS. simpl. f_equal. rewrite <- IH. do 2 f_equal. lia.
Qed.

Lemma section_bytes_slice s o b n :
  (b + n ≤ 512)%nat →
  take n (drop b (section_bytes s o)) = disk_bytes s (o + Z.of_nat b) n.
Proof.
  intros H. change (section_bytes s o) with (disk_bytes s o 512).
  replace 512%nat with (b + (n + (512 - b - n)))%nat by lia.
  rewrite <- disk_bytes_app, drop_app_length' by (unfold disk_bytes; by rewrite length_map, length_seq).
  rewrite <- disk_bytes_app, take_app_length' by (unfold disk_bytes; by rewrite length_map, length_seq).
  done.
Qed.

Lemma length_disk_bytes s o n : length (disk_bytes s o n) = n.
Proof. unfold disk_bytes. by rewrite length_map, length_seq. Qed.

Lemma ramdisk_read_run m sec s i : fs_disks s !! sec = Some m → 0 ≤ i →
  read_block (create_ramdisk sec) i s =
  Ret (if 2048 <=? i then (-1, []) else (1, disk_bytes m (i * 512) 512), s).
Proof.
  intros Hm Hi. unfold read_block, create_ramdisk, blk_ops, blk_private.
  unfold _section_ramdisk_read_block. rewrite Z.geb_leb.
  change SECTION_RAMDISK_BLOCK_COUNT with 2048.
  change SECTION_RAMDISK_BLOCK_SIZE with 512.
  destruct (2048 <=? i); [done|].
  erewrite bind_Ret by (apply mget_Ret; exact Hm). done.
Qed.

Lemma size_t_min_spec a b : Hash.size_t_min a b = Z.min a b.
Proof. unfold Hash.size_t_min. destruct (Z.leb_spec a b); lia. Qed.

(** The loop on a RAM disk whose section holds [m], from byte [i * 512 + b] on. *)
Lemma block_read_loop_spec m sec s : fs_disks s !! sec = Some m →
  ∀ fuel i b n data,
  0 ≤ i ≤ 2048 → 0 ≤ b < 512 → (i = 2048 → b = 0) → 0 ≤ n ≤ Z.of_nat fuel →
  block_read_loop fuel (create_ramdisk sec) i b n data s =
  Ret (if (0 <? n) && (i =? 2048) && (Z.of_nat (length data) =? 0) then None
       else Some (data ++ disk_bytes m (i * 512 + b)
                    (Z.to_nat (Z.min n (2048 * 512 - i * 512 - b)))), s).
Proof.
  intros Hm fuel. induction fuel as [|fuel IH]; intros i b n data Hi Hb He Hn;
    cbn [block_read_loop].
  { assert (n = 0) as -> by lia. rewrite Z.min_l by lia. simpl. by rewrite app_nil_r. }
  destruct (Z.eqb_spec n 0) as [->|Hn0].
  { rewrite Z.min_l by lia. simpl. by rewrite app_nil_r. }
  rewrite (proj2 (Z.ltb_lt 0 n)), u32_small by lia.
  rewrite (bind_Ret _ _ _ _ _ (ramdisk_read_run m sec s i Hm (proj1 Hi))).
  destruct (Z.leb_spec 2048 i) as [H|H].
  { assert (i = 2048) as -> by lia. rewrite (He eq_refl). cbn.
    destruct (_ =? 0); [done|]. unfold ret. rewrite Z.min_r by lia.
    by rewrite app_nil_r. }
  rewrite (proj2 (Z.eqb_neq i 2048)) by lia. cbn [Z.ltb Z.compare andb].
  change BLOCK_SIZE with 512. rewrite size_t_min_spec.
  change (disk_bytes m (i * 512) 512) with (section_bytes m (i * 512)).
  rewrite section_bytes_slice by lia. rewrite IH by lia.
  rewrite length_app, length_disk_bytes.
  rewrite (proj2 (Z.eqb_neq (Z.of_nat (_ + _)) 0)), andb_false_r by lia.
  do 3 f_equal. rewrite <- app_assoc. f_equal. rewrite Z2Nat.id by lia.
  destruct (Z.le_gt_cases n (512 - b)).
  - rewrite (Z.min_r (512 - b) n), Z.sub_diag, Z.min_l by lia. simpl.
    rewrite app_nil_r. f_equal. lia.
  - rewrite (Z.min_l (512 - b) n) by lia.
    replace ((i + 1) * 512 + 0) with (i * 512 + b + Z.of_nat (Z.to_nat (512 - b))) by lia.
    rewrite disk_bytes_app. f_equal. lia.
Qed.

Lemma shiftr_9 p : Z.shiftr p 9 = p / 512.
Proof. by rewrite Z.shiftr_div_pow2 by lia. Qed.

Lemma land_1FF p : Z.land p 0x1FF = p `mod` 512.
Proof. change 0x1FF with (Z.ones 9). by rewrite Z.land_ones by lia. Qed.

(** Reading [n] bytes of an open RAM disk at the position of the file: at the
    end of the disk the read fails, and before it exactly the bytes of the disk
    from the position on are returned, as many as asked for or as are left,
    across block boundaries, and the position advances by as many. *)
Theorem ramdisk_file_read s f fl sec m n :
  fs_files s !! f = Some fl →
  fs_devices s !! Z.to_nat (f_private fl - 1) = Some (create_ramdisk sec) →
  1 ≤ f_private fl → fs_disks s !! sec = Some m →
  0 ≤ pos fl ≤ 0x100000 → 0 ≤ n < 0x80000000 →
  let k := Z.min n (0x100000 - pos fl) in
  _block_device_read f n s =
  Ret (if (0 <? n) && (pos fl =? 0x100000) then ((-1, []), s)
       else ((k, disk_bytes m (pos fl) (Z.to_nat k)),
             comp_set (<[f := with_pos (pos fl + k) fl]> (fs_files s)) s)).
Proof.
  intros Hf Hd Hp Hm Hpos Hn k. unfold _block_device_read.
  erewrite bind_Ret by (apply mget_Ret; exact Hf).
  erewrite (bind_Ret (block_device _)); [|
    unfold block_device, gets, bind; by apply lift_Ret; rewrite arr_get_Ret; split; [split; [lia|exact Hd]|]].
  erewrite bind_Ret by done. rewrite shiftr_9, land_1FF.
  erewrite (bind_Ret (block_read_loop _ _ _ _ _ _)) by
    (apply (block_read_loop_spec m); [done|lia..]).
  simpl length. rewrite Z.eqb_refl, andb_true_r.
  replace (pos fl / 512 * 512 + pos fl `mod` 512) with (pos fl) by lia.
  replace (pos fl / 512 =? 2048) with (pos fl =? 0x100000)
    by (destruct (Z.eqb_spec (pos fl) 0x100000), (Z.eqb_spec (pos fl / 512) 2048); lia).
  destruct (_ && _); [done|].
  replace (2048 * 512 - pos fl / 512 * 512 - pos fl `mod` 512) with (0x100000 - pos fl) by lia.
  fold k. simpl app. rewrite length_disk_bytes, Z2Nat.id by lia.
  erewrite (bind_Ret (upd_file _ _)) by (apply mupd_Ret; exact Hf).
  unwrap. done.
Qed.

Lemma put_bytes_lookup l : ∀ o s i,
  put_bytes o l s !! i =
  if (o <=? i) && (i <? o + Z.of_nat (length l)) then l !! Z.to_nat (i - o) else s !! i.
Proof.
  induction l as [|b l IH]; intros o s i; simpl.
  { destruct (Z.leb_spec o i); simpl; [|done]. by rewrite (proj2 (Z.ltb_ge _ _)) by lia. }
  rewrite IH. destruct (Z.eq_dec i o) as [->|Hne].
  - rewrite (proj2 (Z.leb_gt (o + 1) o)), Z.leb_refl,
      (proj2 (Z.ltb_lt o (o + Z.of_nat (S (length l))))), Z.sub_diag by lia.
    simpl. by rewrite lookup_insert_eq.
  - rewrite lookup_insert_ne by lia.
    destruct (Z.leb_spec o i), (Z.leb_spec (o + 1) i); try lia; simpl; [|done].
    replace (o + 1 + Z.of_nat (length l)) with (o + Z.of_nat (S (length l))) by lia.
    destruct (_ <? _); [|done].
    replace (Z.to_nat (i - o)) with (S (Z.to_nat (i - (o + 1)))) by lia. done.
Qed.

(** A block written to a RAM disk is the block read back, and every other
    block of the disk is as it was; block 2048 and those after it can be neither
    written nor read. *)
Theorem ramdisk_write_then_read s sec m i j block :
  fs_disks s !! sec = Some m → length block = 512%nat → 0 ≤ i → 0 ≤ j →
  let dev := create_ramdisk sec in
  if i <? 2048 then
    ∃ s', _section_ramdisk_write_block sec i block s = Ret (1, s') ∧
      (i = j → read_block dev j s' = Ret ((1, block), s')) ∧
      (i ≠ j → ∃ r, read_block dev j s = Ret (r, s) ∧ read_block dev j s' = Ret (r, s'))
  else
    _section_ramdisk_write_block sec i block s = Ret (-1, s) ∧
    read_block dev i s = Ret ((-1, []), s).
Proof.
  intros Hm Hlen Hi Hj dev. unfold _section_ramdisk_write_block. rewrite Z.geb_leb.
  change SECTION_RAMDISK_BLOCK_COUNT with 2048.
  change SECTION_RAMDISK_BLOCK_SIZE with 512.
  destruct (Z.ltb_spec i 2048) as [H|H].
  2:{ rewrite (proj2 (Z.leb_le 2048 i)) by lia. split; [done|].
      unfold dev. rewrite (ramdisk_read_run m) by done.
      by rewrite (proj2 (Z.leb_le 2048 i)) by lia. }
  rewrite (proj2 (Z.leb_gt 2048 i)) by lia.
  erewrite bind_Ret by (apply mupd_Ret; exact Hm).
  eexists; split; [done|].
  set (m' := put_bytes (i * 512) block m).
  assert (fs_disks (comp_set (<[sec:=m']> (comp_get s)) s) !! sec = Some m') as Hm'
    by (simpl; by rewrite lookup_insert_eq).
  split.
  - intros <-. unfold dev. rewrite (ramdisk_read_run m') by done.
    rewrite (proj2 (Z.leb_gt 2048 i)) by lia. do 3 f_equal.
    apply list_eq. intros k. unfold disk_bytes. rewrite list_lookup_fmap.
    destruct (decide (k < 512)%nat) as [Hk|Hk].
    + rewrite lookup_seq_lt by done. simpl. unfold m'. rewrite put_bytes_lookup.
      rewrite (proj2 (Z.leb_le _ _)), (proj2 (Z.ltb_lt _ _)) by lia. simpl.
      replace (Z.to_nat _) with k by lia.
      destruct (lookup_lt_is_Some_2 block k) as [b Hb]; [lia|]. by rewrite Hb.
    + rewrite lookup_seq_ge by lia. symmetry. apply lookup_ge_None_2. lia.
  - intros Hne. eexists. split; [by apply (ramdisk_read_run m)|].
    unfold dev. rewrite (ramdisk_read_run m') by done. destruct (2048 <=? j); [done|].
    do 3 f_equal. unfold disk_bytes. apply map_ext_in. intros k Hk%in_seq.
    unfold m'. rewrite put_bytes_lookup.
    destruct (Z.leb_spec (i * 512) (j * 512 + Z.of_nat k)); [|done].
    by rewrite (proj2 (Z.ltb_ge _ _)) by nia.
Qed.

End Devices.
