(* ===== verification/Ramfs.v ===== *)
(** * The RAM file system: [vfs/filesystems/ramfs/ramfs.c]

    Files are one block of the heap that doubles as it grows; a directory is an
    array of eight names and inodes. *)
From S2P Require Import Prelude Mmu Alloc Heap Hash Fs FsState Devices.
Import Fs FsState Devices.

Module Ramfs.

(** ** The code *)

Definition _add_inode_child (priv : Z) (name : name_t) (i : Z) : MF unit :=
  let* p := mget (A := ramfs_dir_private_t) priv in
  let* _ := kassert (Z.of_nat (length (children p)) <? RAMFS_INODE_MAX_CHILDREN_COUNT)
              "priv->child_count < RAMFS_INODE_MAX_CHILDREN_COUNT" in
  let* n := lift (strcpy_buf RAMFS_MAX_NAME_LEN name) in
  mput priv (mkdir (children p ++ [mkchild i n])).

(** *** Regular files *)

Definition heap_data (p : Z) : MF (list Z) := λ s, deref (Heap.block_data (fs_heap s) !! p) s.

Definition set_heap_data (p : Z) (bytes : list Z) : MF unit := λ s,
  let h := fs_heap s in
  Ret ((), comp_set (Heap.mk (Heap.memory_cursor h) (Heap.section_end h) (Heap.block_size h)
                       (<[p := bytes]> (Heap.block_data h))) s).

(** [_memcpy(dst, o + data, n)] out of a block, and [_memcpy(o + data, src, n)] into it. *)
Definition block_read (bytes : list Z) (o n : Z) : outcome (list Z) :=
  if o + n <=? Z.of_nat (length bytes) then Ret (take (Z.to_nat n) (drop (Z.to_nat o) bytes))
  else Fault.

Definition block_write (bytes : list Z) (o : Z) (src : list Z) : outcome (list Z) :=
  if o + Z.of_nat (length src) <=? Z.of_nat (length bytes) then
    Ret (take (Z.to_nat o) bytes ++ src ++ drop (Z.to_nat o + length src) bytes)
  else Fault.

(** The status, and the bytes put in [data]. *)
Definition _ramfs_reg_file_read (f n : Z) : MF (Z * list Z) :=
  let* file := get_file f in
  let* _ := kassert (negb (f_inode file =? 0)) "file->inode != NULL" in
  let start := pos file in
  if start <? 0 then ret (-1, [])
  else
    let* i := get_inode (f_inode file) in
    let req_end := s32 (start + n) in
    let act_end := Hash.off_t_min req_end (s32 (size i)) in
    if start >=? act_end then ret (-1, [])
    else
      let act_size := act_end - start in
      let* ramfs_file := mget (A := ramfs_file_private_t) (i_private i) in
      let* bytes := heap_data (r_data ramfs_file) in
      let* data := lift (block_read bytes start act_size) in
      let* _ := upd_file f (with_pos act_end) in
      ret (act_size, data).

(** [while (alloc_size < new_size) alloc_size *= 2;] *)
Fixpoint grow (fuel : nat) (alloc new_size : Z) : outcome Z :=
  if alloc <? new_size then
    match fuel with
    | O => Timeout
    | S fuel => grow fuel (u32 (alloc * 2)) new_size
    end
  else Ret alloc.

(** After 32 turns every bit of the size has been shifted out: a loop that has not
    ended by then never does. *)
Definition GROW_FUEL : nat := 33.

(** [realloc if needed]: the block of the file, of at least [alloc] bytes. *)
Definition grown (p : Z) (ramfs_file : ramfs_file_private_t) (alloc : Z) : MF Z :=
  if alloc >? alloc_size ramfs_file then
    let* block := zoom (Heap.memory_realloc (r_data ramfs_file) alloc) in
    let* _ := kassert (negb (block =? 0)) "ramfs_file->data != NULL" in
    let* _ := mput p (mkrfile block alloc) in
    ret block
  else ret (r_data ramfs_file).

Definition _ramfs_reg_file_write (f : Z) (data : list Z) : MF Z :=
  let n := Z.of_nat (length data) in
  let* file := get_file f in
  let start := pos file in
  if start <? 0 then ret (-1)
  else
    let* i := get_inode (f_inode file) in
    if start >? size i then ret (-1)
    else
      let end_ := u32 (start + n) in
      let new_size := Hash.size_t_max end_ (u32 (size i)) in
      let* ramfs_file := mget (A := ramfs_file_private_t) (i_private i) in
      let* alloc := lift (grow GROW_FUEL (alloc_size ramfs_file) new_size) in
      let* block := grown (i_private i) ramfs_file alloc in
      let* bytes := heap_data block in
      let* bytes' := lift (block_write bytes start data) in
      let* _ := set_heap_data block bytes' in
      let* _ := upd_file f (with_pos (s32 end_)) in
      let* _ := upd_inode (f_inode file) (with_size new_size) in
      ret (s32 n).

Definition _ramfs_reg_file_seek (f offset whence : Z) : MF Z :=
  let* reference := get_seek_ref_offset f whence in
  let new_pos := s32 (reference + offset) in
  if new_pos <? 0 then ret (-1)
  else
    let* _ := upd_file f (with_pos new_pos) in
    ret new_pos.

(** *** Directories as files *)

(** The entries read, at most [n] of them. *)
Fixpoint readdir_loop (n : nat) (f : Z) (cs : list ramfs_inode_child_t) : MF (list dirent) :=
  match n with
  | O => ret []
  | S n =>
      let* file := get_file f in
      if pos file <? Z.of_nat (length cs) then
        let* child := lift (arr_get cs (pos file)) in
        let* name := lift (strcpy_buf MAX_DIR_NAME_LEN (c_name child)) in
        let* i := get_inode (c_inode child) in
        match dirent_type (mode i) with
        | None => fatal "ramfs: readdir: unhandled mode"
        | Some t =>
            let* _ := upd_file f (with_pos (pos file + 1)) in
            let* rest := readdir_loop n f cs in
            ret (mkdirent t name :: rest)
        end
      else ret []
  end.

Definition _ramfs_dir_readdir (f count : Z) : MF (Z * list dirent) :=
  let* file := get_file f in
  let* _ := kassert (negb (f_inode file =? 0)) "dir != NULL" in
  let* dir := get_inode (f_inode file) in
  let* _ := kassert (negb (i_private dir =? 0)) "priv_dir != NULL" in
  let* p := mget (A := ramfs_dir_private_t) (i_private dir) in
  (* the loop ends at the last child at the latest *)
  let* l := readdir_loop (Z.to_nat (Z.min count (Z.of_nat (length (children p))))) f
              (children p) in
  ret (Z.of_nat (length l), l).

Definition _ramfs_dir_file_seek (f offset whence : Z) : MF Z :=
  let* file := get_file f in
  let* _ := kassert (negb (f_inode file =? 0)) "dir != NULL" in
  let* dir := get_inode (f_inode file) in
  let* _ := kassert (negb (i_private dir =? 0)) "priv_dir != NULL" in
  let* p := mget (A := ramfs_dir_private_t) (i_private dir) in
  let reference :=
    if whence =? SEEK_SET then Some 0
    else if whence =? SEEK_END then Some (Z.of_nat (length (children p)))
    else if whence =? SEEK_CUR then Some (pos file)
    else None in
  match reference with
  | None => ret (-1)
  | Some reference =>
      let new_pos := s32 (reference + offset) in
      if new_pos <? 0 then ret (-1)
      else
        let* _ := upd_file f (with_pos new_pos) in
        ret new_pos
  end.

(** *** Inodes *)

Fixpoint find_child (cs : list ramfs_inode_child_t) (name : name_t) : option Z :=
  match cs with
  | [] => None
  | c :: cs => if streq (c_name c) name then Some (c_inode c) else find_child cs name
  end.

Definition _ramfs_inode_lookup (dir : Z) (name : name_t) : MF Z :=
  let* d := get_inode dir in
  let* p := mget (A := ramfs_dir_private_t) (i_private d) in
  match find_child (children p) name with
  | Some i =>
      let* _ := kassert (negb (i =? 0)) "child->inode != NULL" in
      ret i
  | None => ret 0
  end.

(** [++ramfs->ino_gen] *)
Definition next_ino (ramfs : Z) : MF Z :=
  let* r := mget (A := ramfs_t) ramfs in
  let n := u32 (ino_gen r + 1) in
  let* _ := mput ramfs (mkramfs n) in
  ret n.

Definition _ramfs_inode_create (dir : Z) (name : name_t) (m : Z) : MF Z :=
  if negb (fmt m =? S_IFREG) then ret 0
  else
    let* d := get_inode dir in
    let* sb := mget (A := super_block_t) (super_block d) in
    let* i := sb_alloc_inode (super_block d) in
    let* inode_file := mnew SIZEOF_RAMFS_FILE (mkrfile 0 0) in
    let* _ := kassert (negb (inode_file =? 0)) "inode_file != NULL" in
    let* data := zoom (Heap.memory_calloc RAMFS_INITIAL_FILE_ALLOC) in
    let* _ := kassert (negb (data =? 0)) "inode_file->data != NULL" in
    let* _ := mput inode_file (mkrfile data RAMFS_INITIAL_FILE_ALLOC) in
    let* n := next_ino (sb_private sb) in
    let* _ := upd_inode i (λ i, mkinode n 0 0 m 0 RAMFS_REG_FILE_OPS NO_INODE_OPS
                                  (super_block i) inode_file) in
    let* _ := _add_inode_child (i_private d) name i in
    ret i.

Definition _ramfs_inode_mkdir (dir : Z) (name : name_t) (m : Z) : MF Z :=
  if negb (fmt m =? S_IFDIR) then ret 0
  else
    let* old := _ramfs_inode_lookup dir name in
    if negb (old =? 0) then ret 0
    else
      let* d := get_inode dir in
      let* sb := mget (A := super_block_t) (super_block d) in
      let* i := sb_alloc_inode (super_block d) in
      let* private := mnew SIZEOF_RAMFS_DIR (mkdir []) in
      let* n := next_ino (sb_private sb) in
      let* _ := upd_inode i (λ i, mkinode n 0 0 m 0 RAMFS_DIR_FILE_OPS (inode_ops d)
                                    (super_block i) private) in
      let* _ := _add_inode_child (i_private d) name i in
      ret i.

(** The [file_ops] of the device, or nothing. *)
Definition mknod_file_ops (m dev : Z) : MF (option file_ops_t) :=
  if fmt m =? S_IFCHR then get_char_device dev
  else if fmt m =? S_IFBLK then
    let* device := get_block_device dev in
    ret (if device =? 0 then None else Some BLOCK_DEVICE_FILE_OPS)
  else ret None.

Definition _ramfs_inode_mknod (dir : Z) (name : name_t) (m dev : Z) : MF Z :=
  let* ops := mknod_file_ops m dev in
  match ops with
  | None => ret 0
  | Some ops =>
      let* d := get_inode dir in
      let* sb := mget (A := super_block_t) (super_block d) in
      let* i := sb_alloc_inode (super_block d) in
      let* n := next_ino (sb_private sb) in
      let* _ := upd_inode i (λ i, mkinode n dev 0 m 0 ops NO_INODE_OPS (super_block i) 0) in
      let* _ := _add_inode_child (i_private d) name i in
      ret i
  end.

Definition _ramfs_inode_link (src dir : Z) (new_name : name_t) : MF Z :=
  fatal "_ramfs_inode_link not implemented".

Definition _ramfs_inode_unlink (dir : Z) (name : name_t) : MF Z :=
  fatal "_ramfs_inode_unlink not implemented".

Definition _ramfs_inode_rmdir (dir : Z) (name : name_t) : MF Z :=
  fatal "_ramfs_inode_rmdir not implemented".

(** *** Super block *)

Definition _ramfs_sb_free_inode (sb i : Z) : MF unit :=
  let* _ := kassert (negb (i =? 0)) "inode!= NULL" in
  let* node := get_inode i in
  let* _ := kassert (super_block node =? sb) "inode->super_block == sb" in
  let* _ := if negb (i_private node =? 0) then zoom (Heap.memory_free (i_private node)) else ret () in
  zoom (Heap.memory_free i).

Definition _ramfs_sb_read_inode (ram_sb n i : Z) : MF Z :=
  let* _ := kassert (n =? RAMFS_ROOT_NODE_ID) "ino == RAMFS_ROOT_NODE_ID" in
  let* node := get_inode i in
  let* _ := kassert (super_block node =? ram_sb) "inode->super_block == ram_sb" in
  let* private := mnew SIZEOF_RAMFS_DIR (mkdir []) in
  let* _ := upd_inode i (λ node, mkinode RAMFS_ROOT_NODE_ID 0 0 S_IFDIR 0 RAMFS_DIR_FILE_OPS
                                   RAMFS_INODE_OPS (super_block node) private) in
  ret 0.

Definition _ramfs_sb_write_inode (sb i : Z) : MF Z :=
  fatal "_ramfs_sb_write_inode not implemented".

Definition create_ramfs_super_block : MF Z :=
  let* sb := mnew SIZEOF_SUPER_BLOCK (mksb 0 RAMFS_SB_OPS 0) in
  if sb =? 0 then ret 0
  else
    let* ramfs := mnew SIZEOF_RAMFS (mkramfs 0) in
    if ramfs =? 0 then
      let* _ := zoom (Heap.memory_free sb) in
      ret 0
    else
      let* _ := mput ramfs (mkramfs RAMFS_ROOT_NODE_ID) in
      let* _ := mput sb (mksb RAMFS_ROOT_NODE_ID RAMFS_SB_OPS ramfs) in
      ret sb.

End Ramfs.
