(* ===== verification/RamfsSpec.v ===== *)
(** * What the RAM file system promises

    A regular file is a list of bytes and a directory a list of named inodes: the
    operations of [Ramfs] implement those of the lists. *)
From S2P Require Import Prelude Mmu Alloc Heap Hash Fs FsState Devices Ramfs.
Import Fs FsState Devices Ramfs.

Module RamfsSpec.

(** ** Regular files *)

(** Inode [i], whose private data is [p], is a regular file holding [content], stored
    in block [b] of the heap. *)
Inductive rfile (s : fs) (i p b : Z) (content : list Z) : Prop :=
| mkrf node bytes :
    fs_inodes s !! i = Some node → i_private node = p →
    fs_rfiles s !! p = Some (mkrfile b (Z.of_nat (length bytes))) →
    Heap.block_data (fs_heap s) !! b = Some bytes →
    size node = Z.of_nat (length content) →
    content = take (length content) bytes →
    (0 < length bytes)%nat →
    Z.of_nat (length bytes) < 0x100000000 →
    Z.of_nat (length content) < 0x80000000 →
    rfile s i p b content.

Lemma heap_data_run s b bytes : Heap.block_data (fs_heap s) !! b = Some bytes →
  heap_data b s = Ret (bytes, s).
Proof. intros H. unfold heap_data. by rewrite H. Qed.

Lemma take_drop_prefix (bytes content : list Z) o k :
  content = take (length content) bytes → (o + k ≤ length content)%nat →
  take k (drop o bytes) = take k (drop o content).
Proof.
  intros -> H. rewrite skipn_firstn_comm, take_take.
  f_equal. rewrite length_take in *. lia.
Qed.

(** Reading a RAM file. *)
Lemma reg_read_run s f fl p b content n :
  fs_files s !! f = Some fl → f_inode fl ≠ 0 → rfile s (f_inode fl) p b content →
  0 ≤ pos fl → 0 ≤ n → pos fl + n < 0x80000000 →
  let k := Z.min n (Z.of_nat (length content) - pos fl) in
  _ramfs_reg_file_read f n s =
  Ret (if k <=? 0 then ((-1, []), s)
       else ((k, take (Z.to_nat k) (drop (Z.to_nat (pos fl)) content)),
             comp_set (<[f := with_pos (pos fl + k) fl]> (fs_files s)) s)).
Proof.
  intros Hf Hi0 Hrf Hpos Hn Hw k.
  destruct Hrf as [node bytes Hi <- Hrf Hb Hsz Hc _ _ Hbd].
  unfold _ramfs_reg_file_read.
  erewrite bind_Ret by (apply mget_Ret; exact Hf).
  rewrite (proj2 (Z.eqb_neq _ _) Hi0). erewrite bind_Ret by done.
  rewrite (proj2 (Z.ltb_ge _ _) Hpos).
  erewrite bind_Ret by (apply mget_Ret; exact Hi). rewrite Hsz. unwrap.
  assert (Hash.off_t_min (pos fl + n) (Z.of_nat (length content)) = pos fl + k) as ->.
  { unfold Hash.off_t_min, k. destruct (Z.leb_spec (pos fl + n) (Z.of_nat (length content))); lia. }
  rewrite Z.geb_leb.
  replace (pos fl + k <=? pos fl) with (k <=? 0)
    by (destruct (Z.leb_spec k 0), (Z.leb_spec (pos fl + k) (pos fl)); lia).
  destruct (Z.leb_spec k 0) as [Hk|Hk]; [done|].
  erewrite bind_Ret by (apply mget_Ret; exact Hrf). simpl r_data.
  rewrite (bind_Ret _ _ _ _ _ (heap_data_run _ _ _ Hb)).
  replace (pos fl + k - pos fl) with k by lia.
  assert ((length content ≤ length bytes)%nat) by (rewrite Hc, length_take; lia).
  assert (block_read bytes (pos fl) k =
    Ret (take (Z.to_nat k) (drop (Z.to_nat (pos fl)) content))) as E.
  { unfold block_read. rewrite (proj2 (Z.leb_le _ _)) by lia. f_equal.
    apply take_drop_prefix; [done|]. lia. }
  rewrite E. erewrite bind_Ret by done.
  erewrite bind_Ret by (apply mupd_Ret; exact Hf). done.
Qed.

(** Reading a RAM file: at or past the end, or for no byte, the read fails and
    changes nothing; before the end it returns the bytes of the file from the position
    on, as many as asked for or as are left, and the position advances by as many. *)
Theorem ramfs_read_correct s f fl p b content n :
  fs_files s !! f = Some fl → f_inode fl ≠ 0 → rfile s (f_inode fl) p b content →
  0 ≤ pos fl → 0 ≤ n → pos fl + n < 0x80000000 →
  let k := Z.min n (Z.of_nat (length content) - pos fl) in
  _ramfs_reg_file_read f n s =
  Ret (if k <=? 0 then ((-1, []), s)
       else ((k, take (Z.to_nat k) (drop (Z.to_nat (pos fl)) content)),
             comp_set (<[f := with_pos (pos fl + k) fl]> (fs_files s)) s)).
Proof. apply reg_read_run. Qed.

(** *** Growing a file *)

(** Doubling reaches any size up to 2^31, and overshoots by less than a factor two. *)
Lemma grow_spec fuel : ∀ alloc new_size,
  0 < alloc < 0x100000000 → new_size ≤ 0x80000000 → new_size ≤ alloc * 2 ^ Z.of_nat fuel →
  ∃ a, grow fuel alloc new_size = Ret a ∧ new_size ≤ a ∧ alloc ≤ a ∧
    (alloc < a → a < 2 * new_size).
Proof.
  induction fuel as [|fuel IH]; intros alloc n Ha Hn Hf; cbn [grow].
  { change (2 ^ Z.of_nat 0) with 1 in Hf. rewrite (proj2 (Z.ltb_ge _ _)) by lia.
    exists alloc. split_and!; [done|lia..]. }
  destruct (Z.ltb_spec alloc n) as [Hlt|Hge].
  - rewrite u32_small by lia.
    destruct (IH (alloc * 2) n) as (a & E & H1 & H2 & H3); [lia|lia| |].
    { rewrite Nat2Z.inj_succ, Z.pow_succ_r in Hf by lia. lia. }
    exists a. split_and!; [done|lia|lia|].
    intros _. destruct (Z.eq_dec (alloc * 2) a); lia.
  - exists alloc. split_and!; [done|lia..].
Qed.

(** No number of turns ends the loop that doubles the allocation when the file has
    to grow past 2^31 bytes: the doubled size wraps to zero. *)
Theorem grow_endless fuel alloc new_size :
  (alloc = 0 ∨ ∃ k, 0 ≤ k < 32 ∧ alloc = 2 ^ k) → 0x80000000 < new_size →
  grow fuel alloc new_size = Timeout.
Proof.
  intros Ha Hn. revert alloc Ha.
  assert (∀ alloc, (alloc = 0 ∨ ∃ k, 0 ≤ k < 32 ∧ alloc = 2 ^ k) → alloc < new_size) as Hlt.
  { intros alloc [->|(k & Hk & ->)]; [lia|].
    assert (2 ^ k ≤ 2 ^ 31) by (apply Z.pow_le_mono_r; lia). lia. }
  induction fuel as [|fuel IH]; intros alloc Ha; cbn [grow];
    rewrite (proj2 (Z.ltb_lt _ _) (Hlt alloc Ha)); [done|].
  apply IH. destruct Ha as [->|(k & Hk & ->)]; [by left|].
  destruct (Z.eq_dec k 31) as [->|]; [by left|right].
  exists (k + 1). split; [lia|]. rewrite Z.pow_add_r by lia.
  rewrite u32_small; [lia|]. split; [lia|].
  change 0x100000000 with (2 ^ 31 * 2). apply Zmult_lt_compat_r; [lia|].
  apply Z.pow_lt_mono_r; lia.
Qed.

Lemma block_write_run bytes o data content :
  content = take (length content) bytes → (o ≤ length content)%nat →
  (o + length data ≤ length bytes)%nat →
  ∃ bytes', block_write bytes (Z.of_nat o) data = Ret bytes' ∧ length bytes' = length bytes ∧
    let content' := take o content ++ data ++ drop (o + length data) content in
    content' = take (length content') bytes'.
Proof.
  intros Hc Ho Hd. unfold block_write. rewrite (proj2 (Z.leb_le _ _)), Nat2Z.id by lia.
  assert (length content ≤ length bytes)%nat by (rewrite Hc, length_take; lia).
  eexists. split; [done|]. split; [rewrite !length_app, length_take, length_drop; lia|].
  cbn zeta. assert (take o bytes = take o content) as ->.
  { rewrite Hc, take_take. f_equal. lia. }
  rewrite !length_app, length_take, length_drop.
  rewrite !firstn_app, length_take. f_equal; [|f_equal].
  - rewrite take_take. f_equal. lia.
  - rewrite take_ge; [done|lia].
  - rewrite Hc at 1. rewrite skipn_firstn_comm. f_equal. lia.
Qed.

(** *** Writing *)

Lemma grown_run s p b bytes alloc :
  fs_wf s → fs_rfiles s !! p = Some (mkrfile b (Z.of_nat (length bytes))) →
  Heap.block_data (fs_heap s) !! b = Some bytes →
  Z.of_nat (length bytes) ≤ alloc → (Z.of_nat (length bytes) < alloc → room s alloc) →
  ∃ s' b' bytes', grown p (mkrfile b (Z.of_nat (length bytes))) alloc s = Ret (b', s') ∧
    fs_wf s' ∧ Z.of_nat (length bytes') = alloc ∧ take (length bytes) bytes' = bytes ∧
    fs_rfiles s' !! p = Some (mkrfile b' alloc) ∧
    (∀ q, q ≠ p → fs_rfiles s' !! q = fs_rfiles s !! q) ∧
    Heap.block_data (fs_heap s') !! b' = Some bytes' ∧
    (∀ c d, Heap.block_data (fs_heap s) !! c = Some d → c ≠ b →
       Heap.block_data (fs_heap s') !! c = Some d ∧ c ≠ b') ∧
    fs_inodes s' = fs_inodes s ∧ fs_files s' = fs_files s.
Proof.
  intros Hwf Hp Hb Hle Hroom. unfold grown. cbn [r_data alloc_size].
  rewrite Z.gtb_ltb. destruct (Z.ltb_spec (Z.of_nat (length bytes)) alloc) as [Hlt|Hge].
  2:{ assert (alloc = Z.of_nat (length bytes)) as -> by lia.
      exists s, b, bytes. split_and!; try done. by rewrite take_ge by lia. }
  destruct (Hroom Hlt) as [Ha Hr]. pose proof (wf_heap s Hwf) as Hi.
  pose proof (Heap.inv_end _ Hi). pose proof (Heap.inv_cursor _ Hi).
  destruct (Heap.realloc_grow (fs_heap s) b bytes alloc) as (h & E & Hi' & Hnew & Hsame & Hs);
    [done|done|split; lia|lia|lia|].
  set (b' := Heap.memory_cursor (fs_heap s) + Heap.SIZEOF_SIZE_T) in *.
  assert (0 < b') by (unfold b', Heap.SIZEOF_SIZE_T; lia).
  rewrite (bind_Ret _ _ _ _ _ (zoom_Ret _ s _ _ E)).
  rewrite (proj2 (Z.eqb_neq b' 0)) by lia. erewrite bind_Ret by done.
  erewrite bind_Ret by done.
  eexists _, b', _. split; [done|]. split_and!; simpl; try done.
  - assert (is_Some (fs_rfiles s !! p)) as Hsome by eauto.
    destruct (Heap.inv_block _ Hi' b' alloc) as (_ & _ & ?); [by rewrite Hs, lookup_insert_eq|].
    assert (Heap.memory_cursor (fs_heap s) ≤ Heap.memory_cursor h)
      by (unfold b', Heap.SIZEOF_SIZE_T in *; lia).
    destruct Hwf; split; simpl; [done|..]; try by eapply in_heap_le.
    eapply in_heap_upd; [by eapply in_heap_le|done].
  - rewrite length_app, length_replicate. lia.
  - by rewrite take_app_length.
  - by rewrite lookup_insert_eq.
  - intros q Hq. by rewrite lookup_insert_ne.
  - intros c d Hc Hcb. assert (c ≠ b') as Hne.
    { intros ->. apply (Heap.inv_data _ Hi) in Hc. by destruct (Heap.fresh_block _ _ _ Hi Hc). }
    split; [|done]. by rewrite Hsame.
Qed.

(** Writing a RAM file. *)
Lemma reg_write_run s f fl p b content data :
  fs_wf s → fs_files s !! f = Some fl → rfile s (f_inode fl) p b content →
  0 ≤ pos fl ≤ Z.of_nat (length content) →
  let n := Z.of_nat (length data) in
  pos fl + n < 0x80000000 →
  room s (2 * Z.max (pos fl + n) (Z.of_nat (length content))) →
  let o := Z.to_nat (pos fl) in
  ∃ s' b', _ramfs_reg_file_write f data s = Ret (n, s') ∧ fs_wf s' ∧
    rfile s' (f_inode fl) p b' (take o content ++ data ++ drop (o + length data) content) ∧
    fs_files s' = <[f := with_pos (pos fl + n) fl]> (fs_files s) ∧
    (∀ i q c other, i ≠ f_inode fl → q ≠ p → c ≠ b →
      rfile s i q c other → rfile s' i q c other) ∧
    ∀ j, file_ops <$> fs_inodes s' !! j = file_ops <$> fs_inodes s !! j.
Proof.
  intros Hwf Hf Hrf Hpos n Hw Hroom o.
  destruct Hrf as [node bytes Hi <- Hrf Hb Hsz Hc Hpos' Hal Hlen].
  assert (length content ≤ length bytes)%nat by (rewrite Hc, length_take; lia).
  unfold _ramfs_reg_file_write. fold n.
  erewrite bind_Ret by (apply mget_Ret; exact Hf).
  rewrite (proj2 (Z.ltb_ge _ _) (proj1 Hpos)).
  erewrite bind_Ret by (apply mget_Ret; exact Hi). rewrite Hsz, Z.gtb_ltb.
  rewrite (proj2 (Z.ltb_ge _ _) (proj2 Hpos)). unwrap.
  set (new := Hash.size_t_max _ _).
  assert (new = Z.max (pos fl + n) (Z.of_nat (length content))) as Hnew.
  { unfold new, Hash.size_t_max. rewrite Z.geb_leb.
    destruct (Z.leb_spec (Z.of_nat (length content)) (pos fl + n)); lia. }
  rewrite <- Hnew in Hroom. destruct Hroom as [_ Hroom].
  erewrite bind_Ret by (apply mget_Ret; exact Hrf). cbn [alloc_size].
  destruct (grow_spec GROW_FUEL (Z.of_nat (length bytes)) new) as (a & Eg & Ha1 & Ha2 & Ha3);
    [lia|lia|change (2 ^ Z.of_nat GROW_FUEL) with 0x200000000; lia|].
  rewrite Eg. erewrite bind_Ret by done.
  destruct (grown_run s (i_private node) b bytes a) as
    (s1 & b' & bytes1 & E1 & Hwf1 & Hl1 & Hold & Hrf1 & Hrfs & Hb1 & Hbs & Hin & Hfs);
    [done..|lia| |].
  { intros Hlt. pose proof (Ha3 Hlt). split; lia. }
  rewrite (bind_Ret _ _ _ _ _ E1), (bind_Ret _ _ _ _ _ (heap_data_run _ _ _ Hb1)).
  assert (content = take (length content) bytes1) as Hc1
    by (rewrite Hc at 1; rewrite <- Hold, take_take; f_equal; lia).
  destruct (block_write_run bytes1 o data content Hc1) as (bytes2 & E2 & Hl2 & Hc2); [lia..|].
  replace (Z.of_nat o) with (pos fl) in E2 by lia. rewrite E2.
  erewrite bind_Ret by done. erewrite bind_Ret by done.
  erewrite bind_Ret by (apply mupd_Ret; simpl; rewrite Hfs; exact Hf).
  erewrite bind_Ret by (apply mupd_Ret; simpl; rewrite Hin; exact Hi).
  assert (length (take o content ++ data ++ drop (o + length data) content) = Z.to_nat new) as Hl
    by (rewrite !length_app, length_take, length_drop; lia).
  unwrap. eexists _, b'. split; [done|]. split_and!.
  - pose proof (wf_heap s1 Hwf1) as Hh.
    assert (is_Some (fs_inodes s1 !! f_inode fl)) by (rewrite Hin; eauto).
    assert (is_Some (fs_files s1 !! f)) by (rewrite Hfs; eauto).
    pose proof (Heap.inv_set_data _ _ _ bytes2 Hh Hb1 Hl2).
    destruct Hwf1; split; simpl; try done; by apply in_heap_upd.
  - apply (mkrf _ _ _ _ _ (with_size new node) bytes2); simpl; try done.
    + by rewrite lookup_insert_eq.
    + rewrite Hrf1. repeat f_equal. lia.
    + by rewrite lookup_insert_eq.
    + rewrite Hl. lia.
    + lia.
    + lia.
    + rewrite Hl. lia.
  - simpl. by rewrite Hfs.
  - intros i q c other Hii Hq Hcb [node' bytes' ? <- ? Hc' ? ? ? ? ?].
    destruct (Hbs _ _ Hc' Hcb) as [? Hcb'].
    apply (mkrf _ _ _ _ _ node' bytes'); simpl; try done.
    + rewrite lookup_insert_ne, Hin by done. done.
    + by rewrite Hrfs.
    + by rewrite lookup_insert_ne.
  - intros j. simpl. rewrite Hin. destruct (decide (j = f_inode fl)) as [->|].
    + by rewrite lookup_insert_eq, Hi.
    + by rewrite lookup_insert_ne.
Qed.

(** C29. Writing to a RAM file at a position within it: the file then holds the old
    bytes before the position, the data, and the old bytes behind the data, growing as
    needed without a gap; the position stands behind the data, no other file changes,
    and the status is the number of bytes. *)
Theorem ramfs_write_correct s f fl p b content data :
  fs_wf s → fs_files s !! f = Some fl → rfile s (f_inode fl) p b content →
  0 ≤ pos fl ≤ Z.of_nat (length content) →
  let n := Z.of_nat (length data) in
  pos fl + n < 0x80000000 →
  room s (2 * Z.max (pos fl + n) (Z.of_nat (length content))) →
  let o := Z.to_nat (pos fl) in
  ∃ s' b', _ramfs_reg_file_write f data s = Ret (n, s') ∧ fs_wf s' ∧
    rfile s' (f_inode fl) p b' (take o content ++ data ++ drop (o + length data) content) ∧
    fs_files s' = <[f := with_pos (pos fl + n) fl]> (fs_files s) ∧
    (∀ i q c other, i ≠ f_inode fl → q ≠ p → c ≠ b →
      rfile s i q c other → rfile s' i q c other) ∧
    ∀ j, file_ops <$> fs_inodes s' !! j = file_ops <$> fs_inodes s !! j.
Proof. apply reg_write_run. Qed.

(** ** Directories *)

(** Inode [d], whose private data is [p], is a directory of the RAM file system with
    children [cs]. *)
Inductive rdir (s : fs) (d p : Z) (cs : list ramfs_inode_child_t) : Prop :=
| mkrd node sb rp :
    fs_inodes s !! d = Some node → i_private node = p →
    inode_ops node = RAMFS_INODE_OPS → file_ops node = RAMFS_DIR_FILE_OPS →
    fs_dirs s !! p = Some (mkdir cs) →
    fs_sbs s !! super_block node = Some sb → sb_ops sb = RAMFS_SB_OPS →
    sb_private sb = rp → is_Some (fs_ramfs s !! rp) →
    (∀ c, c ∈ cs → c_inode c ≠ 0) →
    rdir s d p cs.

Lemma find_child_nonzero cs name i :
  (∀ c, c ∈ cs → c_inode c ≠ 0) → find_child cs name = Some i → i ≠ 0.
Proof.
  induction cs as [|c cs IH]; simpl; [done|]. intros H.
  destruct (streq _ _).
  - intros [= <-]. apply H, list_elem_of_here.
  - apply IH. intros c' Hc'. by apply H, list_elem_of_further.
Qed.

Lemma find_child_app cs name c :
  find_child (cs ++ [c]) name =
  match find_child cs name with
  | Some i => Some i
  | None => if streq (c_name c) name then Some (c_inode c) else None
  end.
Proof. induction cs as [|c' cs IH]; simpl; [done|]. by destruct (streq (c_name c') name). Qed.

(** [_ramfs_inode_lookup] finds the first child of that name. *)
Lemma lookup_run s d p cs name : rdir s d p cs →
  _ramfs_inode_lookup d name s = Ret (default 0 (find_child cs name), s).
Proof.
  intros [node sb rp Hd <- _ _ Hp _ _ _ _ Hnz]. unfold _ramfs_inode_lookup.
  erewrite bind_Ret by (apply mget_Ret; exact Hd).
  erewrite bind_Ret by (apply mget_Ret; exact Hp). cbn [children].
  destruct (find_child cs name) as [i|] eqn:E; [|done].
  apply find_child_nonzero in E; [|done].
  by rewrite (proj2 (Z.eqb_neq _ _) E).
Qed.

Lemma add_child_run (s : fs) p cs name i : fs_dirs s !! p = Some (mkdir cs) →
  (length name ≤ 31)%nat →
  _add_inode_child p name i s =
  if Z.of_nat (length cs) <? 8 then
    Ret ((), comp_set (<[p := mkdir (cs ++ [mkchild i name])]> (fs_dirs s)) s)
  else Fatal "priv->child_count < RAMFS_INODE_MAX_CHILDREN_COUNT".
Proof.
  intros Hp Hn. unfold _add_inode_child.
  erewrite bind_Ret by (apply mget_Ret; exact Hp). cbn [children].
  change RAMFS_INODE_MAX_CHILDREN_COUNT with 8.
  destruct (_ <? 8); [|done]. erewrite bind_Ret by done.
  unfold strcpy_buf. change RAMFS_MAX_NAME_LEN with 32.
  rewrite (proj2 (Z.leb_le _ _)) by lia. by erewrite bind_Ret by done.
Qed.

Lemma next_ino_run s rp r : fs_ramfs s !! rp = Some r →
  next_ino rp s = Ret (u32 (ino_gen r + 1),
    comp_set (<[rp := mkramfs (u32 (ino_gen r + 1))]> (fs_ramfs s)) s).
Proof. intros H. unfold next_ino. by erewrite bind_Ret by (apply mget_Ret; exact H). Qed.

(** What adding a child [name], inode [i], to directory [d] leaves: every file and every
    other directory is as it was. *)
Record child_added (s s' : fs) (d p : Z) (cs : list ramfs_inode_child_t) (name : name_t)
    (i : Z) : Prop := {
  added_wf : fs_wf s';
  added_new : 0 < i ∧ fs_inodes s !! i = None;
  added_dir : rdir s' d p (cs ++ [mkchild i name]);
  added_inodes : ∀ j, j ≠ i → fs_inodes s' !! j = fs_inodes s !! j;
  added_files : fs_files s' = fs_files s;
  added_rfiles : ∀ q r, fs_rfiles s !! q = Some r → fs_rfiles s' !! q = Some r;
  added_dirs : ∀ q r, q ≠ p → fs_dirs s !! q = Some r → fs_dirs s' !! q = Some r;
  added_data : ∀ b x, Heap.block_data (fs_heap s) !! b = Some x →
    Heap.block_data (fs_heap s') !! b = Some x;
  added_sbs : fs_sbs s' = fs_sbs s;
  added_cursor : Heap.memory_cursor (fs_heap s') ≤ Heap.memory_cursor (fs_heap s) + 700;
  added_end : Heap.section_end (fs_heap s') = Heap.section_end (fs_heap s);
  added_rest : same_rest s s';
}.

(** [alloc_inode] through the super block of a directory of the RAM file system. *)
Lemma rdir_alloc_run s d p cs node : rdir s d p cs → fs_inodes s !! d = Some node →
  fs_wf s → room s SIZEOF_INODE →
  ∃ i h, sb_alloc_inode (super_block node) s = Ret (i,
      comp_set (<[i := with_super_block (super_block node) zero_inode]> (fs_inodes s))
        (comp_set h s)) ∧
    0 < i ∧ fs_inodes s !! i = None ∧ d ≠ i ∧
    heap_grew (fs_heap s) h (SIZEOF_INODE + 7) ∧
    fs_wf (comp_set (<[i := with_super_block (super_block node) zero_inode]> (fs_inodes s))
        (comp_set h s)).
Proof.
  intros Hrd Hd Hwf Hr. inversion Hrd as [node' sb rp Hd' _ _ _ _ Hsb]. simplify_eq.
  destruct (sb_alloc_inode_run s _ _ Hwf Hsb Hr) as (i & h & E & Hi & Hf & Hg).
  pose proof (in_heap_fresh _ _ _ (wf_inodes s Hwf) (proj1 Hf)) as Hfi.
  exists i, h. split_and!; try done.
  - congruence.
  - fs_wf_step Hwf Hg.
Qed.

(** A state in which the new inode [i] and its private data are allocated, in at most [n]
    bytes. *)
Record prepared (s s1 : fs) (i sbp n : Z) : Prop := {
  prep_wf : fs_wf s1;
  prep_new : 0 < i ∧ fs_inodes s !! i = None;
  prep_inode : ∃ node, fs_inodes s1 !! i = Some node ∧ super_block node = sbp;
  prep_inodes : ∀ j, j ≠ i → fs_inodes s1 !! j = fs_inodes s !! j;
  prep_files : fs_files s1 = fs_files s;
  prep_rfiles : ∀ q r, fs_rfiles s !! q = Some r → fs_rfiles s1 !! q = Some r;
  prep_dirs : ∀ q r, fs_dirs s !! q = Some r → fs_dirs s1 !! q = Some r;
  prep_data : ∀ b x, Heap.block_data (fs_heap s) !! b = Some x →
    Heap.block_data (fs_heap s1) !! b = Some x;
  prep_sbs : fs_sbs s1 = fs_sbs s;
  prep_ramfs : fs_ramfs s1 = fs_ramfs s;
  prep_cursor : Heap.memory_cursor (fs_heap s1) ≤ Heap.memory_cursor (fs_heap s) + n;
  prep_end : Heap.section_end (fs_heap s1) = Heap.section_end (fs_heap s);
  prep_rest : same_rest s s1;
}.

Lemma prepared_alloc s d p cs node : rdir s d p cs → fs_inodes s !! d = Some node →
  fs_wf s → room s SIZEOF_INODE →
  ∃ i s1, sb_alloc_inode (super_block node) s = Ret (i, s1) ∧ prepared s s1 i (super_block node) 47 ∧
    (∀ m, 0 ≤ m → room s (SIZEOF_INODE + 7 + m) → room s1 m).
Proof.
  intros Hrd Hd Hwf Hr.
  destruct (rdir_alloc_run s d p cs node Hrd Hd Hwf Hr) as (i & h & E & Hi & Hf & _ & Hg & Hwf1).
  eexists i, _. split; [exact E|]. split.
  - split; try done; simpl.
    + rewrite lookup_insert_eq. by eexists.
    + intros j Hj. by rewrite lookup_insert_ne.
    + apply (grew_data _ _ _ Hg).
    + apply (grew_cursor _ _ _ Hg).
    + apply (grew_end _ _ _ Hg).
  - intros m Hm H. by eapply room_grew; [exact Hg|..].
Qed.

(** The last steps of [create], [mkdir] and [mknod]. *)
Lemma add_run s s1 d p cs name i node sb r b (g : Z → inode → inode) :
  prepared s s1 i (super_block node) b → b ≤ 700 → rdir s d p cs → fs_inodes s !! d = Some node →
  fs_sbs s !! super_block node = Some sb → fs_ramfs s !! sb_private sb = Some r →
  (length name ≤ 31)%nat →
  ∃ n old s',
    (let* n := next_ino (sb_private sb) in
     let* _ := upd_inode i (g n) in
     let* _ := _add_inode_child p name i in ret i) s1 =
    (if Z.of_nat (length cs) <? 8 then Ret (i, s')
     else Fatal "priv->child_count < RAMFS_INODE_MAX_CHILDREN_COUNT") ∧
    child_added s s' d p cs name i ∧ fs_inodes s' !! i = Some (g n old) ∧
    super_block old = super_block node ∧
    fs_heap s' = fs_heap s1 ∧ fs_rfiles s' = fs_rfiles s1 ∧
    (∀ q, q ≠ p → fs_dirs s' !! q = fs_dirs s1 !! q) ∧
    fs_ramfs s' = <[sb_private sb := mkramfs n]> (fs_ramfs s).
Proof.
  intros [Hwf [Hi Hf] (old & Hold & Hosb) Hin Hfs Hrf Hds Hda Hsbs Hrm Hcu He Hrest] Hb Hrd Hd Hsb Hr Hname.
  inversion Hrd as [node' sb' rp Hd' Hpriv Hio Hfo Hdir Hsb' Hops Hsp _ Hnz].
  simplify_eq. set (n := u32 (ino_gen r + 1)).
  set (s' := comp_set (<[i_private node := mkdir (cs ++ [mkchild i name])]> (fs_dirs s1))
    (comp_set (<[i := g n old]> (fs_inodes s1))
       (comp_set (<[sb_private sb := mkramfs n]> (fs_ramfs s1)) s1)) : fs).
  exists n, old, s'. split; [|split; [split|split_and!]].
  - erewrite bind_Ret by (apply next_ino_run; rewrite Hrm; exact Hr).
    erewrite bind_Ret by (apply mupd_Ret; exact Hold).
    erewrite bind_if by (apply add_child_run; [apply Hds, Hdir|exact Hname]). done.
  - pose proof (Hds _ _ Hdir). rewrite <- Hrm in Hr.
    destruct Hwf; split; simpl in *; try done; by (apply in_heap_upd; [assumption|eauto]).
  - done.
  - assert (d ≠ i) by congruence.
    apply (mkrd _ _ _ _ node sb (sb_private sb)); simpl; try done.
    + by rewrite lookup_insert_ne, Hin by done.
    + by rewrite lookup_insert_eq.
    + by rewrite Hsbs.
    + rewrite lookup_insert_eq. eauto.
    + intros c [Hc|Hc%list_elem_of_singleton]%elem_of_app; [by apply Hnz|]. subst c. simpl. lia.
  - intros j Hj. simpl. by rewrite lookup_insert_ne, Hin.
  - done.
  - done.
  - intros q x Hq Hx. simpl. rewrite lookup_insert_ne by done. auto.
  - done.
  - done.
  - simpl. lia.
  - done.
  - eapply same_rest_trans; [exact Hrest|by split].
  - simpl. by rewrite lookup_insert_eq.
  - done.
  - done.
  - done.
  - intros q Hq. simpl. by rewrite lookup_insert_ne.
  - simpl. by rewrite Hrm.
Qed.

Lemma added_lookup s s' d p cs name i name' : child_added s s' d p cs name i →
  _ramfs_inode_lookup d name' s' =
  Ret (default (if streq name name' then i else 0) (find_child cs name'), s').
Proof.
  intros H. rewrite (lookup_run _ _ _ _ _ (added_dir _ _ _ _ _ _ _ H)), find_child_app.
  cbn [c_name c_inode]. destruct (find_child cs name'), (streq name name'); done.
Qed.

(** The private data of a new file. *)
Lemma prepared_file s s1 i sbp n : prepared s s1 i sbp n → room s1 600 →
  ∃ pf b h, (∀ (k : Z → Z → MF Z),
      (let* pf := mnew SIZEOF_RAMFS_FILE (mkrfile 0 0) in
       let* _ := kassert (negb (pf =? 0)) "inode_file != NULL" in
       let* data := zoom (Heap.memory_calloc RAMFS_INITIAL_FILE_ALLOC) in
       let* _ := kassert (negb (data =? 0)) "inode_file->data != NULL" in
       let* _ := mput pf (mkrfile data RAMFS_INITIAL_FILE_ALLOC) in k pf data) s1 =
      k pf b (comp_set (<[pf := mkrfile b RAMFS_INITIAL_FILE_ALLOC]> (fs_rfiles s1))
                (comp_set h s1))) ∧
    prepared s (comp_set (<[pf := mkrfile b RAMFS_INITIAL_FILE_ALLOC]> (fs_rfiles s1))
                  (comp_set h s1)) i sbp (n + 534) ∧
    Heap.block_data h !! b = Some (replicate 512 0).
Proof.
  intros [Hwf Hnew Hold Hin Hfs Hrf Hds Hda Hsbs Hrm Hcu He Hrest] Hroom.
  destruct (mnew_run s1 SIZEOF_RAMFS_FILE (mkrfile 0 0) Hwf) as (pf & h2 & E2 & Hpf & Hpf1 & Hg2);
    [by eapply room_le|].
  pose proof (in_heap_fresh _ _ _ (wf_rfiles s1 Hwf) (proj1 Hpf1)) as Hfpf.
  set (s2 := comp_set _ (comp_set h2 _)) in *.
  assert (fs_wf s2) as Hwf2 by (unfold s2; fs_wf_step Hwf Hg2).
  assert (room s2 550) as Hroom2
    by (eapply room_grew; [exact Hg2|eapply room_le; [exact Hroom|]|]; done).
  destruct (calloc_run s2 RAMFS_INITIAL_FILE_ALLOC Hwf2) as (b & h3 & E3 & Hb & Hb1 & Hbd & Hg3);
    [by eapply room_le|].
  assert (fs_wf (comp_set h3 s2)) as Hwf3 by fs_wf_step Hwf2 Hg3.
  pose proof (heap_grew_trans _ _ _ _ _ Hg2 Hg3) as Hg.
  exists pf, b, h3. split; [|split; [|exact Hbd]].
  - intros k. rewrite (bind_Ret _ _ _ _ _ E2), (proj2 (Z.eqb_neq pf 0)) by lia.
    erewrite bind_Ret by done.
    rewrite (bind_Ret _ _ _ _ _ E3), (proj2 (Z.eqb_neq b 0)) by lia.
    erewrite bind_Ret by done. erewrite bind_Ret by done.
    f_equal. unfold s2. simpl. by rewrite insert_insert_eq.
  - split; simpl; try done.
    + destruct Hwf3. split; simpl in *; try done. intros q [x Hq].
      destruct (decide (q = pf)) as [->|Hne].
      * apply wf_rfiles0. rewrite lookup_insert_eq. eauto.
      * apply wf_rfiles0. rewrite lookup_insert_ne in * by done. eauto.
    + intros q x Hq. rewrite lookup_insert_ne; [auto|]. intros <-.
      apply Hrf in Hq. congruence.
    + intros c x Hc. apply (grew_data _ _ _ Hg). auto.
    + pose proof (grew_cursor _ _ _ Hg) as Hgc. simpl in Hgc.
      unfold SIZEOF_RAMFS_FILE, RAMFS_INITIAL_FILE_ALLOC in Hgc. lia.
    + rewrite <- He. apply (grew_end _ _ _ Hg).
    + eapply same_rest_trans; [exact Hrest|by split].
Qed.

(** Creating a RAM file. *)
Lemma create_run s d p cs name m :
  fs_wf s → rdir s d p cs → room s 700 → (length name ≤ 31)%nat →
  if fmt m =? S_IFREG then
    ∃ i q b s', _ramfs_inode_create d name m s =
        (if Z.of_nat (length cs) <? 8 then Ret (i, s')
         else Fatal "priv->child_count < RAMFS_INODE_MAX_CHILDREN_COUNT") ∧
      child_added s s' d p cs name i ∧ rfile s' i q b [] ∧
      (∃ node, fs_inodes s' !! i = Some node ∧ mode node = m ∧ file_ops node = RAMFS_REG_FILE_OPS) ∧
      ∀ name', _ramfs_inode_lookup d name' s' =
        Ret (default (if streq name name' then i else 0) (find_child cs name'), s')
  else _ramfs_inode_create d name m s = Ret (0, s).
Proof.
  intros Hwf Hrd Hroom Hname. unfold _ramfs_inode_create.
  destruct (fmt m =? S_IFREG); [|done]. cbn [negb].
  inversion Hrd as [node sb rp Hd Hpriv _ _ _ Hsb _ <- [r Hr] _].
  erewrite bind_Ret by (apply mget_Ret; exact Hd).
  erewrite bind_Ret by (apply mget_Ret; exact Hsb).
  destruct (prepared_alloc s d p cs node Hrd Hd Hwf) as (i & s1 & E1 & Hp1 & Hr1);
    [by eapply room_le|].
  rewrite (bind_Ret _ _ _ _ _ E1).
  destruct (prepared_file s s1 i _ _ Hp1) as (pf & b & h & E2 & Hp2 & Hb);
    [apply Hr1; [done|]; by eapply room_le|].
  rewrite E2, Hpriv.
  destruct (add_run _ _ d p cs name i node sb r _
    (λ n i, mkinode n 0 0 m 0 RAMFS_REG_FILE_OPS NO_INODE_OPS (super_block i) pf)
    Hp2 ltac:(lia) Hrd Hd Hsb Hr Hname) as (n & old & s' & E3 & Hadd & Hi & _ & Hh & Hrf & _).
  exists i, pf, b, s'. split; [exact E3|]. split; [done|]. split_and!.
  - apply (mkrf _ _ _ _ _ _ (replicate 512 0) Hi); try done.
    + rewrite Hrf. simpl. by rewrite lookup_insert_eq.
    + by rewrite Hh.
    + simpl. lia.
  - eexists. split; [exact Hi|done].
  - intros name'. by eapply added_lookup.
Qed.

(** Creating a file in a RAM directory with fewer than eight children: a new inode
    of the given mode holding an empty file, found from then on under the name, while
    every other file, directory and name is as it was.  In a full directory the kernel
    stops with a fatal error; a mode other than a regular file's is refused. *)
Theorem ramfs_create_correct s d p cs name m :
  fs_wf s → rdir s d p cs → room s 700 → (length name ≤ 31)%nat →
  if fmt m =? S_IFREG then
    ∃ i q b s', _ramfs_inode_create d name m s =
        (if Z.of_nat (length cs) <? 8 then Ret (i, s')
         else Fatal "priv->child_count < RAMFS_INODE_MAX_CHILDREN_COUNT") ∧
      child_added s s' d p cs name i ∧ rfile s' i q b [] ∧
      (∃ node, fs_inodes s' !! i = Some node ∧ mode node = m ∧ file_ops node = RAMFS_REG_FILE_OPS) ∧
      ∀ name', _ramfs_inode_lookup d name' s' =
        Ret (default (if streq name name' then i else 0) (find_child cs name'), s')
  else _ramfs_inode_create d name m s = Ret (0, s).
Proof. apply create_run. Qed.

(** Making a directory: a name that is taken is refused, and so is a mode other
    than a directory's, with nothing changed; otherwise a new empty directory is found
    under the name, and every other file, directory and name is as it was. *)
Theorem ramfs_mkdir_correct s d p cs name m :
  fs_wf s → rdir s d p cs → room s 700 → (length name ≤ 31)%nat →
  if (fmt m =? S_IFDIR) && bool_decide (find_child cs name = None) then
    ∃ i q s', _ramfs_inode_mkdir d name m s =
        (if Z.of_nat (length cs) <? 8 then Ret (i, s')
         else Fatal "priv->child_count < RAMFS_INODE_MAX_CHILDREN_COUNT") ∧
      child_added s s' d p cs name i ∧ rdir s' i q [] ∧
      ∀ name', _ramfs_inode_lookup d name' s' =
        Ret (default (if streq name name' then i else 0) (find_child cs name'), s')
  else _ramfs_inode_mkdir d name m s = Ret (0, s).
Proof.
  intros Hwf Hrd Hroom Hname. unfold _ramfs_inode_mkdir.
  destruct (fmt m =? S_IFDIR); [|done]. cbn [negb andb].
  rewrite (bind_Ret _ _ _ _ _ (lookup_run _ _ _ _ name Hrd)).
  inversion Hrd as [node sb rp Hd Hpriv Hio _ Hdir Hsb Hops <- [r Hr] Hnz].
  destruct (find_child cs name) as [c|] eqn:Ec; simpl default.
  { pose proof (find_child_nonzero _ _ _ Hnz Ec) as Hc. cbn [default].
    rewrite bool_decide_eq_false_2 by done. cbn [from_option id]. by rewrite (proj2 (Z.eqb_neq c 0) Hc). }
  rewrite bool_decide_eq_true_2, Z.eqb_refl by done. cbn [negb].
  erewrite bind_Ret by (apply mget_Ret; exact Hd).
  erewrite bind_Ret by (apply mget_Ret; exact Hsb).
  destruct (prepared_alloc s d p cs node Hrd Hd Hwf) as (i & s1 & E1 & Hp1 & Hr1);
    [by eapply room_le|].
  rewrite (bind_Ret _ _ _ _ _ E1). destruct Hp1 as [Hwf1 Hnew Hold Hin Hfs Hrf Hds Hda Hsbs Hrm Hcu He Hrest].
  destruct (mnew_run s1 SIZEOF_RAMFS_DIR (mkdir []) Hwf1) as (q & h & E2 & Hq & Hq1 & Hg);
    [apply Hr1; [done|]; by eapply room_le|].
  pose proof (in_heap_fresh _ _ _ (wf_dirs s1 Hwf1) (proj1 Hq1)) as Hfq.
  assert (p ≠ q) as Hpq by (apply Hds in Hdir; congruence).
  rewrite (bind_Ret _ _ _ _ _ E2), Hpriv.
  set (s2 := comp_set _ _) in *.
  assert (prepared s s2 i (super_block node) 400) as Hp2.
  { split; simpl; try done.
    - unfold s2. fs_wf_step Hwf1 Hg.
    - intros q' x Hx. rewrite lookup_insert_ne; [auto|]. apply Hds in Hx. congruence.
    - intros c x Hc. apply (grew_data _ _ _ Hg). auto.
    - pose proof (grew_cursor _ _ _ Hg) as Hgc. unfold SIZEOF_RAMFS_DIR in Hgc. lia.
    - rewrite <- He. apply (grew_end _ _ _ Hg).
    - eapply same_rest_trans; [exact Hrest|by split]. }
  destruct (add_run _ _ d p cs name i node sb r _
    (λ n i, mkinode n 0 0 m 0 RAMFS_DIR_FILE_OPS (inode_ops node) (super_block i) q)
    Hp2 ltac:(lia) Hrd Hd Hsb Hr Hname) as (n & old & s' & E3 & Hadd & Hi & Hosb & Hh & _ & Hdirs & Hram).
  exists i, q, s'. split; [exact E3|]. split; [done|]. split.
  2:{ intros name'. by eapply added_lookup. }
  apply (mkrd _ _ _ _ _ sb (sb_private sb) Hi); try done; simpl.
  - rewrite Hdirs by done. simpl. by rewrite lookup_insert_eq.
  - by rewrite (added_sbs _ _ _ _ _ _ _ Hadd), Hosb.
  - rewrite Hram, lookup_insert_eq. eauto.
  - intros c Hc. by apply elem_of_nil in Hc.
Qed.

(** Making a device node for a device that there is. *)
Theorem ramfs_mknod_correct s d p cs name m dev ops :
  fs_wf s → rdir s d p cs → room s 700 → (length name ≤ 31)%nat →
  mknod_file_ops m dev s = Ret (Some ops, s) →
  ∃ i n sbp s', _ramfs_inode_mknod d name m dev s =
      (if Z.of_nat (length cs) <? 8 then Ret (i, s')
       else Fatal "priv->child_count < RAMFS_INODE_MAX_CHILDREN_COUNT") ∧
    child_added s s' d p cs name i ∧
    fs_inodes s' !! i = Some (mkinode n dev 0 m 0 ops NO_INODE_OPS sbp 0).
Proof.
  intros Hwf Hrd Hroom Hname Hops. unfold _ramfs_inode_mknod. rewrite (bind_Ret _ _ _ _ _ Hops).
  inversion Hrd as [node sb rp Hd Hpriv _ _ _ Hsb _ <- [r Hr] _].
  erewrite bind_Ret by (apply mget_Ret; exact Hd).
  erewrite bind_Ret by (apply mget_Ret; exact Hsb).
  destruct (prepared_alloc s d p cs node Hrd Hd Hwf) as (i & s1 & E1 & Hp1 & _); [by eapply room_le|].
  rewrite (bind_Ret _ _ _ _ _ E1), Hpriv.
  destruct (add_run _ _ d p cs name i node sb r _
    (λ n i, mkinode n dev 0 m 0 ops NO_INODE_OPS (super_block i) 0) Hp1 ltac:(lia) Hrd Hd Hsb Hr Hname)
    as (n & old & s' & E2 & Hadd & Hi & _).
  exists i, n, (super_block old), s'. split; [exact E2|]. by split.
Qed.

(** *** Listing *)

(** The directory entry of a child. *)
Definition entry_of (s : fs) (c : ramfs_inode_child_t) : option dirent :=
  node ← fs_inodes s !! c_inode c; t ← dirent_type (mode node); Some (mkdirent t (c_name c)).

Lemma file_same (s : fs) f fl : fs_files s !! f = Some fl →
  comp_set (<[f := with_pos (pos fl) fl]> (fs_files s)) s = s.
Proof.
  intros H. assert (with_pos (pos fl) fl = fl) as -> by (by destruct fl).
  rewrite insert_id by done. exact (comp_set_get (Has := has_fs_files) s).
Qed.

Lemma readdir_loop_spec f cs n : ∀ s fl,
  fs_files s !! f = Some fl → 0 ≤ pos fl →
  (∀ c, c ∈ cs → (length (c_name c) ≤ 30)%nat ∧ is_Some (entry_of s c)) →
  let l := take n (drop (Z.to_nat (pos fl)) cs) in
  ∃ es, readdir_loop n f cs s =
    Ret (es, comp_set (<[f := with_pos (pos fl + Z.of_nat (length l)) fl]> (fs_files s)) s) ∧
    Some <$> es = entry_of s <$> l.
Proof.
  induction n as [|n IH]; intros s fl Hf Hpos Hcs l; cbn [readdir_loop].
  { exists []. split; [|done]. unfold ret, l. cbn [take length]. change (Z.of_nat 0) with 0.
    by rewrite Z.add_0_r, file_same. }
  erewrite bind_Ret by (apply mget_Ret; exact Hf).
  destruct (Z.ltb_spec (pos fl) (Z.of_nat (length cs))) as [Hlt|Hge].
  2:{ exists []. unfold l. rewrite drop_ge by lia. split; [|done].
      unfold ret. rewrite firstn_nil. cbn [length]. change (Z.of_nat 0) with 0.
      by rewrite Z.add_0_r, file_same. }
  destruct (lookup_lt_is_Some_2 cs (Z.to_nat (pos fl))) as [c Hc]; [lia|].
  destruct (Hcs c) as [Hlen [e He]]; [by eapply list_elem_of_lookup_2|].
  unfold l. rewrite (drop_S cs c) by done. cbn [take length fmap list_fmap].
  pose proof He as He'. unfold entry_of in He.
  apply bind_Some in He as (node & Hnode & (t & Ht & [= <-])%bind_Some).
  rewrite (arr_get_lookup _ _ _ Hpos Hc). erewrite bind_Ret by done.
  unfold strcpy_buf. change MAX_DIR_NAME_LEN with 31.
  rewrite (proj2 (Z.leb_le _ _)) by lia. erewrite bind_Ret by done.
  erewrite bind_Ret by (apply mget_Ret; exact Hnode). rewrite Ht.
  erewrite bind_Ret by (apply mupd_Ret; exact Hf).
  set (s1 := comp_set _ s).
  destruct (IH s1 (with_pos (pos fl + 1) fl)) as (es & E & Hes); cbn [pos with_pos].
  - simpl. by rewrite lookup_insert_eq.
  - lia.
  - intros c' Hc'. by apply Hcs.
  - rewrite (bind_Ret _ _ _ _ _ E). eexists. split.
    + unfold ret. do 2 f_equal. simpl. rewrite insert_insert_eq. unfold with_pos. simpl.
      replace (Z.to_nat (pos fl + 1)) with (S (Z.to_nat (pos fl))) by lia.
      replace (pos fl + 1 + Z.of_nat (length (take n (drop (S (Z.to_nat (pos fl))) cs))))
        with (pos fl + Z.of_nat (S (length (take n (drop (S (Z.to_nat (pos fl))) cs))))) by lia.
      done.
    + cbn [fmap list_fmap]. f_equal; [done|].
      replace (S (Z.to_nat (pos fl))) with (Z.to_nat (pos fl + 1)) by lia. exact Hes.
Qed.

(** Listing a RAM directory from position [pos]: the entries of the next children
    in the order of the directory, at most [count] of them, and the position moves
    behind them; so successive calls list every child exactly once and then return 0. *)
Theorem ramfs_readdir_correct s f fl p cs count :
  fs_files s !! f = Some fl → f_inode fl ≠ 0 → p ≠ 0 → rdir s (f_inode fl) p cs →
  0 ≤ pos fl → 0 ≤ count →
  (∀ c, c ∈ cs → (length (c_name c) ≤ 30)%nat ∧ is_Some (entry_of s c)) →
  let l := take (Z.to_nat (Z.min count (Z.of_nat (length cs)))) (drop (Z.to_nat (pos fl)) cs) in
  ∃ es, _ramfs_dir_readdir f count s =
    Ret ((Z.of_nat (length l), es),
         comp_set (<[f := with_pos (pos fl + Z.of_nat (length l)) fl]> (fs_files s)) s) ∧
    Some <$> es = entry_of s <$> l.
Proof.
  intros Hf Hi0 Hp0 [node sb rp Hd Hpriv _ _ Hdir _ _ _ _ _] Hpos Hn Hcs l.
  unfold _ramfs_dir_readdir. erewrite bind_Ret by (apply mget_Ret; exact Hf).
  rewrite (proj2 (Z.eqb_neq _ _) Hi0). erewrite bind_Ret by done.
  erewrite bind_Ret by (apply mget_Ret; exact Hd).
  rewrite Hpriv, (proj2 (Z.eqb_neq _ _) Hp0). erewrite bind_Ret by done.
  erewrite bind_Ret by (apply mget_Ret; exact Hdir). cbn [children].
  destruct (readdir_loop_spec f cs (Z.to_nat (Z.min count (Z.of_nat (length cs)))) s fl Hf Hpos Hcs)
    as (es & E & Hes). fold l in E, Hes.
  rewrite (bind_Ret _ _ _ _ _ E). exists es. split; [|done].
  assert (length es = length l) as -> by
    (rewrite <- (length_fmap (entry_of s)), <- Hes; by rewrite length_fmap). done.
Qed.

End RamfsSpec.
