(* ===== verification/Fat32.v ===== *)
(** * The FAT32 file system: [vfs/filesystems/fat32/fat32_fs.c]

    Read only.  A sector is a list of 512 bytes; the packed structures of
    [fat32_internals.h] are decoded from it. *)
From S2P Require Import Prelude Mmu Alloc Heap Hash Fs FsState Devices.
Import Fs FsState Devices.

Module Fat32.

(** ** On-disk structures *)

(** Little-endian fields at offset [o]. *)
Definition get8 (l : list Z) (o : nat) : Z := nth o l 0.
Definition le16 (l : list Z) (o : nat) : Z := get8 l o + 0x100 * get8 l (o + 1).
Definition le32 (l : list Z) (o : nat) : Z := le16 l o + 0x10000 * le16 l (o + 2).
Definition slice (l : list Z) (o n : nat) : list Z := take n (drop o l).

Record fat_boot_sector_t : Type := mkbs {
  bytes_per_sector : Z;
  bs_sectors_per_cluster : Z;
  reserved_sector_count : Z;
  fat_count : Z;
  total_sectors_16 : Z;
  table_size_16 : Z;
  total_sectors_32 : Z;
}.

Definition boot_sector (sector : list Z) : fat_boot_sector_t :=
  mkbs (le16 sector 11) (get8 sector 13) (le16 sector 14) (get8 sector 16)
    (le16 sector 19) (le16 sector 22) (le32 sector 32).

(** The extended boot sector follows the 36 bytes of the first structure. *)
Record fat_extended_boot_sector32_t : Type := mkebs {
  table_size_32 : Z;
  ebs_root_cluster : Z;
}.

Definition extended_boot_sector (sector : list Z) : fat_extended_boot_sector32_t :=
  mkebs (le32 sector 36) (le32 sector 44).

Definition FAT_ENTRY_MASK : Z := 0x0FFFFFFF.
Definition FAT_ENTRY_BEGIN : Z := 0x00000002.
Definition FAT_ENTRY_END : Z := 0x00FFFFF0.

Record fat_sfn_directory_entry_t : Type := mksfn {
  filename : list Z;
  file_extension : list Z;
  attributes : Z;
  nt_reserved : Z;
  starting_cluster_high : Z;
  starting_cluster_low : Z;
  file_size : Z;
}.

Definition sfn_entry (e : list Z) : fat_sfn_directory_entry_t :=
  mksfn (slice e 0 8) (slice e 8 3) (get8 e 11) (get8 e 12) (le16 e 20) (le16 e 26) (le32 e 28).

Definition FAT_SFN_ENTRY_NTRES_NAME_LOWER : Z := 0x08.
Definition FAT_SFN_ENTRY_NTRES_EXT_LOWER : Z := 0x10.

Record fat_lfn_directory_entry_t : Type := mklfn {
  sequence : Z;
  name1 : list Z;
  name2 : list Z;
  name3 : list Z;
}.

Definition lfn_entry (e : list Z) : fat_lfn_directory_entry_t :=
  mklfn (get8 e 0)
    (map (λ i, le16 e (1 + 2 * i)) (seq 0 5))
    (map (λ i, le16 e (14 + 2 * i)) (seq 0 6))
    (map (λ i, le16 e (28 + 2 * i)) (seq 0 2)).

Definition FAT_LFN_CHAR_COUNT : Z := 13.
Definition FAT_LFN_SEQ_LAST_LONG_ENTRY : Z := 0x40.
Definition FAT_LFN_SEQ_NUM_MASK : Z := 0x1F.
Definition FAT_DIR_ENTRY_ATTR_VOLUME_ID : Z := 0x08.
Definition FAT_DIR_ENTRY_ATTR_DIRECTORY : Z := 0x10.
Definition FAT_DIR_ENTRY_ATTR_LFN : Z := 0x0F.

(** A flag of a byte of attributes: [a & flag]. *)
Definition flag (a f : Z) : bool := negb (Z.land a f =? 0).

(** ** Constants and sizes *)

Definition FAT32_SECTOR_SIZE : Z := 512.
Definition FAT32_ROOT_INO : Z := 2.
Definition ENTRY_SIZE : Z := 32.
Definition SIZEOF_FAT32_SB : Z := 24.
Definition SIZEOF_FAT32_FILE : Z := 16.
Definition SIZEOF_FAT32_DIR : Z := 16.

(** ** Mounting *)

Definition _is_fat32_boot_sector (bs : fat_boot_sector_t) : outcome bool :=
  let? _ := oassert (bytes_per_sector bs =? FAT32_SECTOR_SIZE)
              "bs->bytes_per_sector == FAT32_SECTOR_SIZE" in
  Ret (table_size_16 bs =? 0).

Definition _fat32_cluster_sector_index (v : fat32_sb_private_t) (cluster_num : Z) : Z :=
  u32 (data_sector_start v + u32 (cluster_num - 2) * sectors_per_cluster v).

(** [device] is a pointer to the device; the result is NULL (0) on failure. *)
Definition _fat32_init_fs_private (device : Z) : MF Z :=
  let* dev := block_device device in
  let* _ := kassert (block_size dev =? FAT32_SECTOR_SIZE)
              "device->block_size == FAT32_SECTOR_SIZE" in
  let* r := read_block dev 0 in
  let '(status, sector) := r in
  let* _ := kassert (status =? 1) "status == 1u" in
  let bs := boot_sector sector in
  let* ok := lift (_is_fat32_boot_sector bs) in
  if negb ok then ret 0
  else
    let ebs := extended_boot_sector sector in
    let fat_sector_start_index := reserved_sector_count bs in
    let fat_sectors := table_size_32 ebs in
    let data_area := u32 (fat_sector_start_index + fat_count bs * fat_sectors) in
    let* p := mnew SIZEOF_FAT32_SB (mkfat 0 0 0 0 0 0) in
    if p =? 0 then ret 0
    else
      let* _ := mput p (mkfat device fat_sector_start_index fat_sectors data_area
                         (bs_sectors_per_cluster bs) (ebs_root_cluster ebs)) in
      ret p.

(** ** Names *)

Definition _to_lower (c : Z) : Z := if (65 <=? c) && (c <=? 90) then c + 32 else c.

(** The characters before the first that satisfies [stop]. *)
Fixpoint until (stop : Z → bool) (l : list Z) : list Z :=
  match l with
  | [] => []
  | c :: l => if stop c then [] else c :: until stop l
  end.

(** The C string at the start of a buffer. *)
Definition cstring (l : list Z) : name_t := until (Z.eqb 0) l.

(** The name as a C string.  The loop over the extension looks for a space in the
    file name, as the code does. *)
Definition _fat32_read_entry_filename (e : fat_sfn_directory_entry_t) : name_t :=
  let name_is_lowercase := flag (nt_reserved e) FAT_SFN_ENTRY_NTRES_NAME_LOWER in
  let ext_is_lowercase := flag (nt_reserved e) FAT_SFN_ENTRY_NTRES_EXT_LOWER in
  let name := map (λ c, if name_is_lowercase then _to_lower c else c)
                (until (Z.eqb 32) (filename e)) in
  let ext :=
    if negb (get8 (file_extension e) 0 =? 32) then
      46 :: map (λ c, if ext_is_lowercase then _to_lower c else c)
              (take (length (until (Z.eqb 32) (take 3 (filename e)))) (file_extension e))
    else [] in
  cstring (name ++ ext).

Definition _dummy_utf16_to_ascii (utf16 : Z) : Z := Z.land utf16 0xFF.

(** The characters up to and with the first NUL; each is cut to a [char] first. *)
Fixpoint copy_chars (l : list Z) : list Z :=
  match l with
  | [] => []
  | c :: l =>
      let car := u8 c in
      if car =? 0 then [0] else _dummy_utf16_to_ascii car :: copy_chars l
  end.

(** Copied over [chars], the rest of the buffer from offset [o] on. *)
Definition _copy_lfn_chars (lfn : fat_lfn_directory_entry_t) (buf : list Z) (o : Z) :
    outcome (list Z) :=
  let chars := copy_chars (name1 lfn ++ name2 lfn ++ name3 lfn) in
  if (0 <=? o) && (o + Z.of_nat (length chars) <=? Z.of_nat (length buf)) then
    Ret (take (Z.to_nat o) buf ++ chars ++ drop (Z.to_nat o + length chars) buf)
  else Fault.

(** ** Sectors *)

Definition _fat32_get_inode_start_sector (node : inode) : fat32_sector_loc_t :=
  mkloc (i_private node) (i_private node) 0.

Definition _fat32_sector_index (v : fat32_sb_private_t) (loc : fat32_sector_loc_t) : Z :=
  u32 (_fat32_cluster_sector_index v (cluster loc) + sector_index loc).

Definition _fat32_entry_loc_offset (v : fat32_sb_private_t) (l : fat32_dir_entry_loc_t) : Z :=
  u32 (_fat32_sector_index v (sector_loc l) * FAT32_SECTOR_SIZE + entry_index l * ENTRY_SIZE).

(** [device->ops->read_block(...)] on the volume's device, asserted to read a block. *)
Definition read_sector (v : fat32_sb_private_t) (index : Z) : MF (list Z) :=
  let* dev := block_device (fat_device v) in
  let* r := read_block dev index in
  let '(block_count, sector) := r in
  let* _ := kassert (block_count =? 1) "block_count == 1" in
  ret sector.

Definition _fat_read_table (v : fat32_sb_private_t) (cluster_query : Z) : MF Z :=
  let entry_offset := u32 (cluster_query * 4) in
  let entry_sector := u32 (fat_sector_start v + Z.shiftr entry_offset 9) in
  let entry_sector_offset := Z.land entry_offset 0x1FF in
  let* sector := read_sector v entry_sector in
  let entry_value := Z.land FAT_ENTRY_MASK (le32 sector (Z.to_nat entry_sector_offset)) in
  let* _ := kassert ((FAT_ENTRY_BEGIN <=? entry_value) && (entry_value <? FAT_ENTRY_END))
              "entry_value >= FAT_ENTRY_BEGIN && entry_value < FAT_ENTRY_END" in
  ret entry_value.

Definition _fat_read_sector (v : fat32_sb_private_t) (loc : fat32_sector_loc_t) : MF (list Z) :=
  read_sector v (u32 (_fat32_cluster_sector_index v (cluster loc) + sector_index loc)).

(** The location, updated. *)
Definition _fat_next_sector_location (v : fat32_sb_private_t) (loc : fat32_sector_loc_t) :
    MF fat32_sector_loc_t :=
  let index := u32 (sector_index loc + 1) in
  if index =? sectors_per_cluster v then
    let* fat_entry := _fat_read_table v (cluster loc) in
    ret (mkloc (start_cluster loc) fat_entry 0)
  else ret (mkloc (start_cluster loc) (cluster loc) index).

(** The loop that walks the chain from [prev_cluster] to the cluster before [c]. *)
Fixpoint find_prev (fuel : nat) (v : fat32_sb_private_t) (prev_cluster c : Z) : MF Z :=
  match fuel with
  | O => λ _, Timeout
  | S fuel =>
      let* fat_entry := _fat_read_table v prev_cluster in
      if fat_entry =? c then ret prev_cluster else find_prev fuel v fat_entry c
  end.

(** There are 128 entries in a sector of the FAT: a chain that does not come back to a
    cluster is no longer than the table. *)
Definition CHAIN_FUEL (v : fat32_sb_private_t) : nat := Z.to_nat (128 * fat_sector_count v).

Definition _fat_prev_sector_location (v : fat32_sb_private_t) (loc : fat32_sector_loc_t) :
    MF fat32_sector_loc_t :=
  if sector_index loc =? 0 then
    if cluster loc =? start_cluster loc then fatal "fat32: reached begin of cluster chain"
    else
      let* prev_cluster := find_prev (CHAIN_FUEL v) v (start_cluster loc) (cluster loc) in
      ret (mkloc (start_cluster loc) prev_cluster (u32 (sectors_per_cluster v - 1)))
  else ret (mkloc (start_cluster loc) (cluster loc) (sector_index loc - 1)).

(** ** Directory entries *)

Record fat_directory_entry_iterator_t : Type := mkit {
  cache_is_dirty : bool;
  entry_loc : fat32_dir_entry_loc_t;
  sector_cache : list Z;
}.

Definition fat_32_directory_entry_iterator_init (l : fat32_dir_entry_loc_t) :
    fat_directory_entry_iterator_t := mkit true l [].

(** The iterator with its sector loaded. *)
Definition iterator_load (v : fat32_sb_private_t) (it : fat_directory_entry_iterator_t) :
    MF fat_directory_entry_iterator_t :=
  if cache_is_dirty it then
    let* sector := _fat_read_sector v (sector_loc (entry_loc it)) in
    ret (mkit false (entry_loc it) sector)
  else ret it.

(** The iterator moved behind the entry it is at. *)
Definition iterator_advance (v : fat32_sb_private_t) (it : fat_directory_entry_iterator_t) :
    MF fat_directory_entry_iterator_t :=
  let index := u32 (entry_index (entry_loc it) + 1) in
  if index >=? 16 then
    let* loc := _fat_next_sector_location v (sector_loc (entry_loc it)) in
    ret (mkit true (mkeloc loc 0) (sector_cache it))
  else ret (mkit false (mkeloc (sector_loc (entry_loc it)) index) (sector_cache it)).

(** One entry with the attributes of a long file name, put into the buffer. *)
Definition read_lfn (lfn : fat_lfn_directory_entry_t) (buf : list Z) : outcome (list Z) :=
  let lfn_seq_num := u16 (Z.land (sequence lfn) FAT_LFN_SEQ_NUM_MASK) in
  let lfn_seq_pos := u16 (FAT_LFN_CHAR_COUNT * u32 (lfn_seq_num - 1)) in
  let? buf :=
    if flag (sequence lfn) FAT_LFN_SEQ_LAST_LONG_ENTRY then
      arr_set buf (u16 (FAT_LFN_CHAR_COUNT * lfn_seq_num)) 0
    else Ret buf in
  _copy_lfn_chars lfn buf lfn_seq_pos.

(** The next file or directory: its entry, inode number and name, [None] at the end of
    the directory.  [size] is that of the caller's buffer for the name, [buf] and
    [reading_lfn] the locals of the function.  Every turn passes one entry. *)
Fixpoint iterator_loop (fuel : nat) (v : fat32_sb_private_t) (size : Z)
    (it : fat_directory_entry_iterator_t) (buf : list Z) (reading_lfn : bool) :
    MF (option (fat_sfn_directory_entry_t * Z * name_t) * fat_directory_entry_iterator_t) :=
  match fuel with
  | O => λ _, Timeout
  | S fuel =>
      let* it := iterator_load v it in
      let raw := slice (sector_cache it) (Z.to_nat (entry_index (entry_loc it) * ENTRY_SIZE)) 32 in
      let entry := sfn_entry raw in
      if get8 (filename entry) 0 =? 0 then ret (None, it)
      else
        let entry_offset := _fat32_entry_loc_offset v (entry_loc it) in
        let* it := iterator_advance v it in
        if get8 (filename entry) 0 =? 0xE5 then iterator_loop fuel v size it buf reading_lfn
        else if flag (attributes entry) FAT_DIR_ENTRY_ATTR_LFN then
          let lfn := lfn_entry raw in
          let* buf := lift (read_lfn lfn buf) in
          iterator_loop fuel v size it buf
            (flag (sequence lfn) FAT_LFN_SEQ_LAST_LONG_ENTRY || reading_lfn)
        else if flag (attributes entry) FAT_DIR_ENTRY_ATTR_VOLUME_ID then
          iterator_loop fuel v size it buf reading_lfn
        else if flag (attributes entry) FAT_DIR_ENTRY_ATTR_DIRECTORY &&
                (get8 (filename entry) 0 =? 46) then
          iterator_loop fuel v size it buf reading_lfn
        else
          let* name := lift (strcpy_buf size
            (if reading_lfn then cstring buf else _fat32_read_entry_filename entry)) in
          ret (Some (entry, entry_offset, name), it)
  end.

(** As many entries as all the clusters of the volume can hold, and one more. *)
Definition DIR_FUEL (v : fat32_sb_private_t) : nat :=
  S (Z.to_nat (128 * fat_sector_count v * sectors_per_cluster v * 16)).

Definition fat_32_directory_entry_iterator_next (v : fat32_sb_private_t) (size : Z)
    (it : fat_directory_entry_iterator_t) :=
  iterator_loop (DIR_FUEL v) v size it (replicate 256 0) false.

(** ** Regular files *)

Definition _fat32_fs_reg_file_open (i : Z) : MF Z :=
  let* reg_private := mnew SIZEOF_FAT32_FILE (mkfreg (mkloc 0 0 0) 0) in
  if reg_private =? 0 then ret 0
  else
    let* f := default_file_open i in
    if f =? 0 then
      let* _ := zoom (Heap.memory_free reg_private) in ret 0
    else
      let* node := get_inode i in
      let* _ := mupd reg_private (λ r, mkfreg (_fat32_get_inode_start_sector node)
                                          (offset_in_sector r)) in
      let* _ := upd_file f (with_private reg_private) in
      ret f.

Definition _fat32_fs_reg_file_release (i f : Z) : MF Z :=
  let* file := get_file f in
  let* _ := zoom (Heap.memory_free (f_private file)) in
  default_file_release i f.

(** The volume an open file is on. *)
Definition volume_of (node : inode) : MF fat32_sb_private_t :=
  let* sb := mget (A := super_block_t) (super_block node) in
  mget (sb_private sb).

(** The loop of [read]: [p] is where the file is on the disk, [data] what has been read.
    Every turn reads at least a byte, but one at the very end of a sector, which moves to
    the next sector: [size + 1] turns are enough. *)
Fixpoint fat_read_loop (fuel : nat) (v : fat32_sb_private_t) (p : fat32_file_reg_private_t)
    (size file_remain : Z) (data : list Z) : MF (fat32_file_reg_private_t * list Z) :=
  if (0 <? size) && (0 <? file_remain) then
    match fuel with
    | O => λ _, Timeout
    | S fuel =>
        let* sector := _fat_read_sector v (reg_loc p) in
        let sector_remain := u32 (FAT32_SECTOR_SIZE - offset_in_sector p) in
        let max_readable_size := Hash.size_t_min sector_remain file_remain in
        let readable_size := Hash.size_t_min size max_readable_size in
        let data := data ++ slice sector (Z.to_nat (offset_in_sector p)) (Z.to_nat readable_size) in
        let offset := u32 (offset_in_sector p + readable_size) in
        let size := size - readable_size in
        let file_remain := file_remain - readable_size in
        if (offset =? FAT32_SECTOR_SIZE) && (0 <? file_remain) then
          let* loc := _fat_next_sector_location v (reg_loc p) in
          fat_read_loop fuel v (mkfreg loc 0) size file_remain data
        else fat_read_loop fuel v (mkfreg (reg_loc p) offset) size file_remain data
    end
  else ret (p, data).

(** The place and the position are written back after the loop: a fatal error in it
    ends the kernel. *)
Definition _fat32_fs_reg_file_read (f size : Z) : MF (Z * list Z) :=
  let* file := get_file f in
  let* _ := kassert (negb (f_inode file =? 0)) "inode != NULL" in
  let* node := get_inode (f_inode file) in
  let* v := volume_of node in
  let* _ := kassert (negb (f_private file =? 0)) "file->private != NULL" in
  let* p := mget (A := fat32_file_reg_private_t) (f_private file) in
  let file_remain := u32 (Fs.size node - pos file) in
  let* r := fat_read_loop (S (Z.to_nat size)) v p size file_remain [] in
  let '(p, data) := r in
  let* _ := mput (f_private file) p in
  let* _ := upd_file f (with_pos (s32 (pos file + Z.of_nat (length data)))) in
  ret (s32 (Z.of_nat (length data)), data).

Definition _fat32_fs_reg_file_write (f : Z) (data : list Z) : MF Z :=
  fatal "_fat32_fs_reg_file_write".

(** [n] sectors forward, or backward. *)
Fixpoint sectors_forward (n : nat) (v : fat32_sb_private_t) (loc : fat32_sector_loc_t) :
    MF fat32_sector_loc_t :=
  match n with
  | O => ret loc
  | S n => let* loc := _fat_next_sector_location v loc in sectors_forward n v loc
  end.

Fixpoint sectors_backward (n : nat) (v : fat32_sb_private_t) (loc : fat32_sector_loc_t) :
    MF fat32_sector_loc_t :=
  match n with
  | O => ret loc
  | S n => let* loc := _fat_prev_sector_location v loc in sectors_backward n v loc
  end.

Definition _fat32_fs_reg_file_seek (f offset whence : Z) : MF Z :=
  let* file := get_file f in
  let* _ := kassert (negb (f_inode file =? 0)) "inode != NULL" in
  let* node := get_inode (f_inode file) in
  let* v := volume_of node in
  let* _ := kassert (negb (f_private file =? 0)) "file->private != NULL" in
  let* reference := get_seek_ref_offset f whence in
  let new_pos := s32 (reference + offset) in
  if pos file =? new_pos then ret (pos file)
  else
    let* p := mget (A := fat32_file_reg_private_t) (f_private file) in
    let relative_offset := s32 (new_pos - pos file) in
    let total_new_offset := s32 (offset_in_sector p + relative_offset) in
    let sector_offset := Z.shiftr total_new_offset 9 in
    let* loc :=
      if 0 <=? sector_offset then sectors_forward (Z.to_nat sector_offset) v (reg_loc p)
      else sectors_backward (Z.to_nat (- sector_offset)) v (reg_loc p) in
    let* _ := mput (f_private file) (mkfreg loc (Z.land total_new_offset 0x1FF)) in
    let* _ := upd_file f (with_pos new_pos) in
    ret new_pos.

(** ** Directories *)

Definition _fat32_fs_dir_open (i : Z) : MF Z :=
  let* dir_private := mnew SIZEOF_FAT32_DIR (mkeloc (mkloc 0 0 0) 0) in
  if dir_private =? 0 then ret 0
  else
    let* f := default_file_open i in
    if f =? 0 then
      let* _ := zoom (Heap.memory_free dir_private) in ret 0
    else
      let* node := get_inode i in
      let* _ := mupd dir_private (λ d, mkeloc (_fat32_get_inode_start_sector node)
                                          (entry_index d)) in
      let* _ := upd_file f (with_private dir_private) in
      ret f.

Definition _fat32_fs_dir_release (i f : Z) : MF Z :=
  let* file := get_file f in
  let* _ := zoom (Heap.memory_free (f_private file)) in
  default_file_release i f.

(** The [filename] buffer of [readdir] has 32 bytes. *)
Fixpoint fat_readdir_loop (n : nat) (v : fat32_sb_private_t) (it : fat_directory_entry_iterator_t) :
    MF (list dirent * fat_directory_entry_iterator_t) :=
  match n with
  | O => ret ([], it)
  | S n =>
      let* r := fat_32_directory_entry_iterator_next v 32 it in
      match r with
      | (None, it) => ret ([], it)
      | (Some (entry, _, name), it) =>
          let* d_name := lift (strcpy_buf MAX_DIR_NAME_LEN name) in
          let d_type := if flag (attributes entry) FAT_DIR_ENTRY_ATTR_DIRECTORY then DT_DIR
                        else DT_REG in
          let* rest := fat_readdir_loop n v it in
          ret (mkdirent d_type d_name :: fst rest, snd rest)
      end
  end.

(** The place is written back after the loop, as in the code. *)
Definition _fat32_fs_dir_readdir (f count : Z) : MF (Z * list dirent) :=
  let* file := get_file f in
  let* _ := kassert (negb (f_inode file =? 0)) "dir != NULL" in
  let* dir := get_inode (f_inode file) in
  let* v := volume_of dir in
  let* _ := kassert (negb (f_private file =? 0)) "file->private != NULL" in
  let* entry_loc0 := mget (A := fat32_dir_entry_loc_t) (f_private file) in
  let* r := fat_readdir_loop (Z.to_nat count) v
              (fat_32_directory_entry_iterator_init entry_loc0) in
  let '(entries, it) := r in
  let n := Z.of_nat (length entries) in
  let* _ := upd_file f (with_pos (s32 (pos file + n))) in
  let* _ := mput (f_private file) (entry_loc it) in
  ret (n, entries).

Definition _fat32_fs_dir_file_seek (f offset whence : Z) : MF Z :=
  fatal "_fat32_fs_dir_file_seek".

(** ** Inodes and the super block *)

Definition _fat32_create_inode (e : fat_sfn_directory_entry_t) (sb n : Z) : MF Z :=
  let is_dir := flag (attributes e) FAT_DIR_ENTRY_ATTR_DIRECTORY in
  let cluster_num := Z.lor (starting_cluster_low e) (u32 (Z.shiftl (starting_cluster_high e) 16)) in
  let* i := sb_alloc_inode sb in
  let* _ := upd_inode i (λ i, mkinode n 0 (file_size e) (if is_dir then S_IFDIR else S_IFREG) 0
      (if is_dir then FAT32_DIR_OPS else FAT32_FILE_OPS)
      (if is_dir then FAT32_INODE_OPS else NO_INODE_OPS) (super_block i) cluster_num) in
  ret i.

Fixpoint fat_lookup_loop (fuel : nat) (v : fat32_sb_private_t) (sb : Z) (name : name_t)
    (it : fat_directory_entry_iterator_t) : MF Z :=
  match fuel with
  | O => λ _, Timeout
  | S fuel =>
      let* r := fat_32_directory_entry_iterator_next v 256 it in
      match r with
      | (None, _) => ret 0
      | (Some (entry, entry_ino, fname), it) =>
          if negb (streq fname name) then fat_lookup_loop fuel v sb name it
          else _fat32_create_inode entry sb entry_ino
      end
  end.

Definition _fat32fs_inode_lookup (dir : Z) (name : name_t) : MF Z :=
  let* d := get_inode dir in
  let* v := volume_of d in
  fat_lookup_loop (DIR_FUEL v) v (super_block d) name
    (fat_32_directory_entry_iterator_init (mkeloc (_fat32_get_inode_start_sector d) 0)).

Definition _fat32_sb_free_inode (fat32_sb i : Z) : MF unit := zoom (Heap.memory_free i).

Definition _fat32_sb_read_inode (fat32_sb n i : Z) : MF Z :=
  let* sb := mget (A := super_block_t) fat32_sb in
  let* _ := kassert (n =? root_ino sb) "ino == fat32_sb->root_ino" in
  let* node := get_inode i in
  let* _ := kassert (super_block node =? fat32_sb) "inode->super_block == fat32_sb" in
  let* v := mget (A := fat32_sb_private_t) (sb_private sb) in
  let* _ := upd_inode i (λ node, mkinode (root_ino sb) 0 0 S_IFDIR 0 FAT32_DIR_OPS
                                   FAT32_INODE_OPS (super_block node) (root_cluster v)) in
  ret 0.

Definition _fat32_sb_write_inode (fat32_sb i : Z) : MF Z :=
  fatal "_fat32_sb_write_inode is not implemented".

Definition fat32_create_filesystem (blk_dev : Z) : MF Z :=
  let* private := _fat32_init_fs_private blk_dev in
  if private =? 0 then ret 0
  else
    let* sb := mnew SIZEOF_SUPER_BLOCK (mksb 0 FAT32_SB_OPS 0) in
    if sb =? 0 then ret 0
    else
      let* _ := mput sb (mksb FAT32_ROOT_INO FAT32_SB_OPS private) in
      ret sb.

End Fat32.
