(* ===== verification/Fat32Spec.v ===== *)
(** * What the FAT32 file system promises

    A file is the bytes of the sectors of its cluster chain, one after the other:
    reading and seeking implement reading and seeking in that list of bytes. *)
From S2P Require Import Prelude Mmu Alloc Heap Hash Fs FsState Devices Fat32.
Import Fs FsState Devices Fat32.

Module Fat32Spec.

(** ** Slices of a list *)

Lemma slice_app {A} (l : list A) o n m :
  take n (drop o l) ++ take m (drop (o + n) l) = take (n + m) (drop o l).
Proof. rewrite <- take_take_drop, drop_drop. do 3 f_equal. Qed.

Lemma concat_slice (secs : list (list Z)) k b o n :
  (∀ b, b ∈ secs → length b = 512%nat) → secs !! k = Some b → (o + n ≤ 512)%nat →
  take n (drop (512 * k + o) (concat secs)) = take n (drop o b).
Proof.
  revert k. induction secs as [|b' secs IH]; intros k Hlen Hk Hn; [done|].
  assert (length b' = 512%nat) as Hb' by apply Hlen, list_elem_of_here.
  destruct k as [|k]; simpl in Hk; simplify_eq; simpl concat.
  - rewrite Nat.mul_0_r, Nat.add_0_l, drop_app_le, take_app_le by (rewrite ?length_drop; lia).
    done.
  - rewrite drop_app_ge by lia. rewrite <- (IH k).
    + do 2 f_equal. lia.
    + intros c Hc. by apply Hlen, list_elem_of_further.
    + done.
    + done.
Qed.

(** ** A file on a volume *)

Section file.
Context (v : fat32_sb_private_t) (s : fs) (chain : list Z) (secs : list (list Z)).

Local Abbreviation spc := (Z.to_nat (sectors_per_cluster v)).

(** [chain] is a cluster chain of the volume, as the table links it, and [secs] are the
    sectors of its clusters, in order. *)
Record on_volume : Prop := {
  vol_spc : 0 < sectors_per_cluster v < 0x100;
  vol_chain : ∀ j c c', chain !! j = Some c → chain !! S j = Some c' →
    _fat_read_table v c s = Ret (c', s);
  vol_len : length secs = (length chain * spc)%nat;
  vol_sec : ∀ k c b, chain !! (k / spc)%nat = Some c → secs !! k = Some b →
    _fat_read_sector v (mkloc 0 c (Z.of_nat (k mod spc))) s = Ret (b, s);
  vol_512 : ∀ b, b ∈ secs → length b = 512%nat;
  vol_distinct : NoDup chain;
  vol_short : (length chain ≤ CHAIN_FUEL v)%nat;
}.

Hypothesis Hvol : on_volume.

(** The place of the [k]-th sector of the file. *)
Definition loc_at (k : nat) : fat32_sector_loc_t :=
  mkloc (default 0 (chain !! 0%nat)) (default 0 (chain !! (k / spc)%nat)) (Z.of_nat (k mod spc)).

Lemma spc_pos : (0 < spc)%nat.
Proof using Hvol. destruct (vol_spc Hvol). lia. Qed.

Lemma chain_lookup k : (k < length secs)%nat →
  chain !! (k / spc)%nat = Some (cluster (loc_at k)).
Proof using Hvol.
  intros Hk. simpl. destruct (chain !! (k / spc)%nat) eqn:E; [done|].
  apply lookup_ge_None in E. rewrite (vol_len Hvol) in Hk. pose proof spc_pos.
  assert (k / spc < length chain)%nat by (apply Nat.Div0.div_lt_upper_bound; lia). lia.
Qed.

Lemma read_sector_run k b : secs !! k = Some b → _fat_read_sector v (loc_at k) s = Ret (b, s).
Proof using Hvol.
  intros Hb. apply (vol_sec Hvol); [|done]. apply chain_lookup. by eapply lookup_lt_Some.
Qed.

(** One sector further in the file. *)
Lemma next_sector_run k : (S k < length secs)%nat →
  _fat_next_sector_location v (loc_at k) s = Ret (loc_at (S k), s).
Proof using Hvol.
  intros Hk. pose proof spc_pos as Hs. destruct (vol_spc Hvol).
  unfold _fat_next_sector_location. cbn [sector_index loc_at start_cluster].
  pose proof (Nat.mod_upper_bound k spc ltac:(lia)).
  rewrite u32_small by lia.
  destruct (Z.eqb_spec (Z.of_nat (k mod spc) + 1) (sectors_per_cluster v)) as [He|He].
  - assert (S k / spc = S (k / spc) ∧ S k mod spc = 0)%nat as [Hq Hr].
    { pose proof (Nat.div_mod k spc ltac:(lia)).
      assert (S k = S (k / spc) * spc)%nat as -> by lia.
      split; [by apply Nat.div_mul; lia|by apply Nat.Div0.mod_mul]. }
    rewrite (bind_Ret _ _ _ (cluster (loc_at (S k))) s).
    + unfold ret, loc_at. simpl cluster. by rewrite Hq, Hr.
    + apply (vol_chain Hvol (k / spc)%nat); [by apply chain_lookup; lia|].
      rewrite <- Hq. by apply chain_lookup.
  - assert (S k / spc = k / spc ∧ S k mod spc = S (k mod spc))%nat as [Hq Hr].
    { pose proof (Nat.div_mod k spc ltac:(lia)).
      split; symmetry.
      - apply (Nat.div_unique _ _ _ (S (k mod spc))); lia.
      - apply (Nat.mod_unique _ _ (k / spc)); lia. }
    unfold ret, loc_at. rewrite Hq, Hr. do 3 f_equal. lia.
Qed.

(** The walk from the first cluster finds the cluster before the [j + 1]-th. *)
Lemma find_prev_run j : ∀ i fuel, (i ≤ j)%nat → (S j < length chain)%nat → (j - i < fuel)%nat →
  find_prev fuel v (default 0 (chain !! i)) (default 0 (chain !! S j)) s =
  Ret (default 0 (chain !! j), s).
Proof using Hvol.
  intros i fuel. revert i. induction fuel as [|fuel IH]; intros i Hij Hj Hf; [lia|].
  destruct (lookup_lt_is_Some_2 chain i) as [c Hc]; [lia|].
  destruct (lookup_lt_is_Some_2 chain (S i)) as [c' Hc']; [lia|].
  cbn [find_prev]. rewrite Hc at 1. cbn [default from_option id].
  rewrite (bind_Ret _ _ _ _ _ (vol_chain Hvol _ _ _ Hc Hc')).
  destruct (decide (i = j)) as [->|Hne].
  - rewrite Hc', Hc. cbn [default from_option id]. by rewrite Z.eqb_refl.
  - destruct (lookup_lt_is_Some_2 chain (S j)) as [d Hd]; [lia|].
    rewrite (proj2 (Z.eqb_neq c' _)).
    + rewrite <- (IH (S i)) by lia. by rewrite Hc'.
    + rewrite Hd. cbn [default from_option id]. intros ->.
      pose proof (NoDup_lookup _ _ _ _ (vol_distinct Hvol) Hc' Hd). lia.
Qed.

(** One sector back. *)
Lemma prev_sector_run k : (S k < length secs)%nat →
  _fat_prev_sector_location v (loc_at (S k)) s = Ret (loc_at k, s).
Proof using Hvol.
  intros Hk. pose proof spc_pos as Hs. destruct (vol_spc Hvol).
  pose proof (Nat.div_mod k spc ltac:(lia)) as Hdm.
  pose proof (Nat.mod_upper_bound k spc ltac:(lia)).
  unfold _fat_prev_sector_location. cbn [sector_index start_cluster cluster loc_at].
  destruct (decide (S (k mod spc) = spc)) as [He|He].
  - assert (S k / spc = S (k / spc) ∧ S k mod spc = 0)%nat as [Hq Hr].
    { assert (S k = S (k / spc) * spc)%nat as -> by lia.
      split; [by apply Nat.div_mul; lia|by apply Nat.Div0.mod_mul]. }
    rewrite Hq, Hr. change (Z.of_nat 0 =? 0) with true. cbn iota.
    pose proof (chain_lookup (S k) Hk) as Hc. rewrite Hq in Hc.
    pose proof (chain_lookup 0 ltac:(lia)) as Hc0. rewrite Nat.Div0.div_0_l in Hc0.
    assert (S (k / spc) < length chain)%nat by by eapply lookup_lt_Some.
    rewrite (proj2 (Z.eqb_neq _ _)).
    2:{ rewrite Hc, Hc0. cbn [default from_option id]. intros E. rewrite E in Hc.
        pose proof (NoDup_lookup _ _ _ _ (vol_distinct Hvol) Hc0 Hc). lia. }
    pose proof (vol_short Hvol).
    rewrite (bind_Ret _ _ _ _ _ (find_prev_run (k / spc) 0 (CHAIN_FUEL v) ltac:(lia) ltac:(lia) ltac:(lia))).
    unfold ret, loc_at. rewrite u32_small by lia. do 3 f_equal. lia.
  - assert (S k / spc = k / spc ∧ S k mod spc = S (k mod spc))%nat as [Hq Hr].
    { split; symmetry.
      - apply (Nat.div_unique _ _ _ (S (k mod spc))); lia.
      - apply (Nat.mod_unique _ _ (k / spc)); lia. }
    rewrite Hq, Hr, (proj2 (Z.eqb_neq _ 0)) by lia. unfold ret, loc_at. do 3 f_equal. lia.
Qed.

Lemma forward_run n k : (k + n < length secs)%nat →
  sectors_forward n v (loc_at k) s = Ret (loc_at (k + n), s).
Proof using Hvol.
  revert k. induction n as [|n IH]; intros k Hk; cbn [sectors_forward].
  { by rewrite Nat.add_0_r. }
  rewrite (bind_Ret _ _ _ _ _ (next_sector_run k ltac:(lia))), IH by lia.
  do 3 f_equal. lia.
Qed.

Lemma backward_run n k : (k < length secs)%nat → (n ≤ k)%nat →
  sectors_backward n v (loc_at k) s = Ret (loc_at (k - n), s).
Proof using Hvol.
  revert k. induction n as [|n IH]; intros k Hk Hn; cbn [sectors_backward].
  { by rewrite Nat.sub_0_r. }
  destruct k as [|k]; [lia|].
  by rewrite (bind_Ret _ _ _ _ _ (prev_sector_run k Hk)), IH by lia.
Qed.

(** *** The loop of [read] *)

Lemma length_content : length (concat secs) = (512 * length secs)%nat.
Proof using Hvol.
  pose proof (vol_512 Hvol) as H. clear -H.
  induction secs as [|b l IH]; [done|]. cbn [concat]. rewrite length_app, IH.
  - rewrite (H b) by apply list_elem_of_here. simpl length. lia.
  - intros c Hc. by apply H, list_elem_of_further.
Qed.

(** [p] is byte [x] of the file; right at the end of a sector it may still be in it. *)
Definition place_at (p : fat32_file_reg_private_t) (x : nat) : Prop :=
  ∃ k o, p = mkfreg (loc_at k) (Z.of_nat o) ∧ x = (512 * k + o)%nat ∧
    (k < length secs)%nat ∧ (o ≤ 512)%nat.

Lemma read_loop_run fuel : ∀ k o n remain data,
  (o ≤ 512)%nat → (k < length secs)%nat →
  (512 * k + o + remain ≤ 512 * length secs)%nat →
  (n + (if decide (o = 512%nat ∧ remain ≠ 0%nat) then 1 else 0) ≤ fuel)%nat →
  Z.of_nat remain < 0x100000000 →
  ∃ p, fat_read_loop fuel v (mkfreg (loc_at k) (Z.of_nat o)) (Z.of_nat n) (Z.of_nat remain) data s =
    Ret ((p, data ++ take (Nat.min n remain) (drop (512 * k + o) (concat secs))), s) ∧
    place_at p (512 * k + o + Nat.min n remain).
Proof using Hvol.
  induction fuel as [|fuel IH]; intros k o n remain data Ho Hk Hr Hf Hb; cbn [fat_read_loop].
  - assert (n = 0%nat) as -> by (destruct (decide _); lia). eexists. split.
    + cbn. by rewrite app_nil_r.
    + exists k, o. rewrite Nat.add_0_r. done.
  - destruct (Z.ltb_spec 0 (Z.of_nat n)), (Z.ltb_spec 0 (Z.of_nat remain)); cbn [andb].
    2-4: assert (Nat.min n remain = 0%nat) as -> by lia;
      eexists; split; [simpl; by rewrite app_nil_r|exists k, o; by rewrite Nat.add_0_r].
    destruct (lookup_lt_is_Some_2 secs k Hk) as [b Hbk].
    cbn [reg_loc offset_in_sector].
    rewrite (bind_Ret _ _ _ _ _ (read_sector_run k b Hbk)).
    change FAT32_SECTOR_SIZE with 512. rewrite (u32_small (512 - Z.of_nat o)) by lia. rewrite !size_t_min_spec.
    set (r := Nat.min n (Nat.min (512 - o) remain)).
    replace (Z.min (Z.of_nat n) (Z.min (512 - Z.of_nat o) (Z.of_nat remain))) with (Z.of_nat r) by lia.
    rewrite !Nat2Z.id. replace (Z.of_nat n - Z.of_nat r) with (Z.of_nat (n - r)) by lia.
    replace (Z.of_nat remain - Z.of_nat r) with (Z.of_nat (remain - r)) by lia.
    rewrite u32_small by lia.
    assert (slice b o r = take r (drop (512 * k + o) (concat secs))) as ->.
    { unfold slice. symmetry. apply concat_slice; [apply (vol_512 Hvol)|done|lia]. }
    assert (∀ q, data ++ take r (drop (512 * k + o) (concat secs)) ++
        take q (drop (512 * k + (o + r)) (concat secs)) =
      data ++ take (r + q) (drop (512 * k + o) (concat secs))) as Hsplit.
    { intros q. f_equal. rewrite <- slice_app. do 3 f_equal. lia. }
    destruct (Z.eqb_spec (Z.of_nat o + Z.of_nat r) 512) as [He|He]; cbn [andb].
    + destruct (Z.ltb_spec 0 (Z.of_nat (remain - r))) as [Hrem|Hrem].
      * rewrite (bind_Ret _ _ _ _ _ (next_sector_run k ltac:(lia))).
        destruct (IH (S k) 0%nat (n - r)%nat (remain - r)%nat
          (data ++ take r (drop (512 * k + o) (concat secs)))) as (p & E & Hp); try lia.
        { repeat case_decide; lia. }
        exists p. split.
        -- change 0 with (Z.of_nat 0) at 1. rewrite E, <- app_assoc.
           replace (512 * S k + 0)%nat with (512 * k + (o + r))%nat by lia.
           rewrite Hsplit. do 6 f_equal. lia.
        -- replace (512 * k + o + Nat.min n remain)%nat
             with (512 * S k + 0 + Nat.min (n - r) (remain - r))%nat by lia. done.
      * replace (Z.of_nat o + Z.of_nat r) with (Z.of_nat (o + r)) by lia.
        destruct (IH k (o + r)%nat (n - r)%nat (remain - r)%nat
          (data ++ take r (drop (512 * k + o) (concat secs)))) as (p & E & Hp); try lia.
        { repeat case_decide; lia. }
        exists p. split.
        -- rewrite E, <- app_assoc.
           replace (512 * k + (o + r))%nat with (512 * k + (o + r))%nat by lia.
           rewrite Hsplit. do 6 f_equal. lia.
        -- replace (512 * k + o + Nat.min n remain)%nat
             with (512 * k + (o + r) + Nat.min (n - r) (remain - r))%nat by lia. done.
    + replace (Z.of_nat o + Z.of_nat r) with (Z.of_nat (o + r)) by lia.
      destruct (IH k (o + r)%nat (n - r)%nat (remain - r)%nat
        (data ++ take r (drop (512 * k + o) (concat secs)))) as (p & E & Hp); try lia.
      { repeat case_decide; lia. }
      exists p. split.
      * rewrite E, <- app_assoc. rewrite Hsplit. do 6 f_equal. lia.
      * replace (512 * k + o + Nat.min n remain)%nat
          with (512 * k + (o + r) + Nat.min (n - r) (remain - r))%nat by lia. done.
Qed.

End file.
(** ** Open files *)

(** Reading the disk depends on the devices alone. *)
Definition same_disks (s s' : fs) : Prop :=
  fs_devices s' = fs_devices s ∧ fs_disks s' = fs_disks s ∧ fs_card s' = fs_card s.

Lemma block_device_same p s s' dev : same_disks s s' →
  block_device p s = Ret (dev, s) → block_device p s' = Ret (dev, s').
Proof.
  intros (Hdv & _) H. unfold block_device, gets, bind, lift in *. rewrite Hdv.
  destruct (arr_get _ _); try discriminate. by injection H as ->.
Qed.

Lemma read_block_same dev i s s' r s1 : same_disks s s' →
  read_block dev i s = Ret (r, s1) → read_block dev i s' = Ret (r, s').
Proof.
  intros (_ & Hds & Hc) E. unfold read_block in *. destruct (blk_ops dev); [discriminate| |].
  - unfold _section_ramdisk_read_block in *. destruct (_ >=? _); [unfold ret in *; by injection E as <- _|].
    unfold bind, mget, deref in *. simpl in *. rewrite Hds.
    destruct (fs_disks s !! _); [|discriminate]. unfold ret in *. by injection E as <- _.
  - unfold _sdcard_disk_read_block, gets, bind in *. rewrite Hc.
    destruct (fs_card s i); [|discriminate]. unfold ret in *. by injection E as <- _.
Qed.

Lemma read_sector_same v i s s' b : same_disks s s' →
  read_sector v i s = Ret (b, s) → read_sector v i s' = Ret (b, s').
Proof.
  intros Hs H. unfold read_sector in *. apply bind_inv in H as (dev & s1 & H1 & H).
  assert (s1 = s) as -> by (unfold block_device in H1; by inv_run).
  rewrite (bind_Ret _ _ _ _ _ (block_device_same _ _ _ _ Hs H1)).
  apply bind_inv in H as ([st sec] & s2 & E & H). rewrite (bind_Ret _ _ _ _ _ (read_block_same _ _ _ _ _ _ Hs E)).
  unfold kassert in *. destruct (Z.eqb_spec st 1) as [->|]; [|discriminate].
  by injection H as <- _.
Qed.

Lemma on_volume_same v s s' chain secs : same_disks s s' →
  on_volume v s chain secs → on_volume v s' chain secs.
Proof.
  intros Hs []. split; try done.
  - intros j c c' H1 H2. specialize (vol_chain0 j c c' H1 H2). revert vol_chain0.
    unfold _fat_read_table. intros H. apply bind_inv in H as (b & s1 & H & H').
    assert (s1 = s) as ->.
    { unfold kassert in H'. destruct (_ && _); [|discriminate]. by injection H'. }
    rewrite (bind_Ret _ _ _ _ _ (read_sector_same _ _ _ _ _ Hs H)).
    unfold kassert in *. destruct (_ && _); [|discriminate]. injection H' as H'.
    cbn. unfold ret. by rewrite H'.
  - intros k c b H1 H2. by eapply read_sector_same, vol_sec0.
Qed.

(** File [f] is open at byte [x] of a file of [n] bytes: the first bytes of the sectors
    [secs] of the chain [chain]. *)
Inductive fat_file (s : fs) (f : Z) (v : fat32_sb_private_t) (chain : list Z)
    (secs : list (list Z)) (n x : nat) : Prop :=
| mkff fl node sb p :
    on_volume v s chain secs →
    fs_files s !! f = Some fl → f_inode fl ≠ 0 → f_private fl ≠ 0 →
    fs_inodes s !! f_inode fl = Some node →
    fs_sbs s !! super_block node = Some sb → fs_fat s !! sb_private sb = Some v →
    fs_fat_files s !! f_private fl = Some p →
    pos fl = Z.of_nat x → place_at v chain secs p x →
    Fs.size node = Z.of_nat n → (n ≤ 512 * length secs)%nat →
    Z.of_nat (length secs) * 512 < 0x80000000 →
    fat_file s f v chain secs n x.

(** The bytes of the file. *)
Definition fat_content (secs : list (list Z)) (n : nat) : list Z := take n (concat secs).

Lemma volume_of_run s node sb v : fs_sbs s !! super_block node = Some sb →
  fs_fat s !! sb_private sb = Some v → volume_of node s = Ret (v, s).
Proof.
  intros H1 H2. unfold volume_of. erewrite bind_Ret by (apply mget_Ret; exact H1).
  apply mget_Ret. exact H2.
Qed.

(** The file moved to byte [y]. *)
Lemma fat_file_move s f v chain secs n x fl node sb p y :
  fat_file s f v chain secs n x → fs_files s !! f = Some fl →
  fs_inodes s !! f_inode fl = Some node →
  fs_sbs s !! super_block node = Some sb →
  place_at v chain secs p y →
  fat_file (comp_set (<[f := with_pos (Z.of_nat y) fl]> (fs_files s))
              (comp_set (<[f_private fl := p]> (fs_fat_files s)) s)) f v chain secs n y.
Proof.
  intros [fl' node' sb' p' Hv Hf Hi0 Hp0 Hi Hsb Hfat Hp Hx Hpl Hn Hle Hb] Hf' Hi' Hsb' Hpl'.
  assert (fl' = fl) as -> by congruence. assert (node' = node) as -> by congruence.
  assert (sb' = sb) as -> by congruence.
  apply (mkff _ _ _ _ _ _ _ (with_pos (Z.of_nat y) fl) node sb p); simpl; try done.
  - by apply (on_volume_same v s).
  - by rewrite lookup_insert_eq.
  - by rewrite lookup_insert_eq.
Qed.

(** The place of the open file [f] is all that changed. *)
Record same_open (s s' : fs) (f : Z) : Prop := {
  so_inodes : fs_inodes s' = fs_inodes s;
  so_uart : fs_uart s' = fs_uart s;
  so_others : ∀ g, g ≠ f → fs_files s' !! g = fs_files s !! g;
  so_file : ∀ fl, fs_files s !! f = Some fl → ∃ y, fs_files s' !! f = Some (with_pos y fl);
}.

Lemma same_open_move s s' f fl y : fs_files s !! f = Some fl → fs_inodes s' = fs_inodes s →
  fs_uart s' = fs_uart s → fs_files s' = <[f := with_pos y fl]> (fs_files s) → same_open s s' f.
Proof.
  intros Hf Hi Hu Hs. split; [done|done| |].
  - intros g Hg. by rewrite Hs, lookup_insert_ne.
  - intros fl' Hf'. exists y. rewrite Hs, lookup_insert_eq. congruence.
Qed.

Lemma same_open_id s f : same_open s s f.
Proof. split; try done. intros fl Hf. exists (pos fl). by destruct fl. Qed.

Lemma fat_read_run s f v chain secs n x m :
  fat_file s f v chain secs n x → (x ≤ n)%nat → Z.of_nat m < 0x80000000 →
  let k := Nat.min m (n - x) in
  ∃ s', _fat32_fs_reg_file_read f (Z.of_nat m) s =
      Ret ((Z.of_nat k, take k (drop x (fat_content secs n))), s') ∧
    fat_file s' f v chain secs n (x + k) ∧ same_open s s' f.
Proof.
  intros Hff Hxn Hm k. pose proof Hff as Hff'.
  destruct Hff as [fl node sb p Hv Hf Hi0 Hp0 Hi Hsb Hfat Hp Hx Hpl Hn Hle Hb].
  unfold _fat32_fs_reg_file_read. erewrite bind_Ret by (apply mget_Ret; exact Hf).
  rewrite (proj2 (Z.eqb_neq _ _) Hi0). erewrite bind_Ret by done.
  erewrite bind_Ret by (apply mget_Ret; exact Hi).
  rewrite (bind_Ret _ _ _ _ _ (volume_of_run _ _ _ _ Hsb Hfat)).
  rewrite (proj2 (Z.eqb_neq _ _) Hp0). erewrite bind_Ret by done.
  erewrite bind_Ret by (apply mget_Ret; exact Hp).
  rewrite Hn, Hx, Nat2Z.id. rewrite u32_small by lia.
  replace (Z.of_nat n - Z.of_nat x) with (Z.of_nat (n - x)) by lia.
  destruct Hpl as (i & o & -> & Hxio & Hi' & Ho).
  destruct (read_loop_run v s chain secs Hv (S m) i o m (n - x) []) as (p' & E & Hp');
    [done|done|lia|case_decide; lia|lia|].
  rewrite (bind_Ret _ _ _ _ _ E). fold k in Hp' |- *. rewrite <- Hxio in Hp' |- *.
  assert (length (take k (drop x (concat secs))) = k) as Hk.
  { rewrite length_take, length_drop, (length_content v s chain secs Hv). lia. }
  erewrite bind_Ret by done.
  erewrite bind_Ret by (apply mupd_Ret; exact Hf).
  rewrite app_nil_l, Hk. rewrite !s32_small by lia.
  replace (Z.of_nat x + Z.of_nat k) with (Z.of_nat (x + k)) by lia.
  eexists. split.
  - unfold ret. do 3 f_equal. unfold fat_content.
    rewrite skipn_firstn_comm, take_take. f_equal. lia.
  - split; [|by eapply same_open_move].
    exact (fat_file_move s f v chain secs n x fl node sb p' _ Hff' Hf Hi Hsb Hp').
Qed.

Lemma fat_seek_run s f v chain secs n x offset whence y :
  fat_file s f v chain secs n x →
  (whence = SEEK_SET ∧ offset = Z.of_nat y ∨
   whence = SEEK_CUR ∧ Z.of_nat x + offset = Z.of_nat y ∨
   whence = SEEK_END ∧ Z.of_nat n + offset = Z.of_nat y) →
  (y < 512 * length secs)%nat →
  ∃ s', _fat32_fs_reg_file_seek f offset whence s = Ret (Z.of_nat y, s') ∧
    fat_file s' f v chain secs n y ∧ same_open s s' f.
Proof.
  intros Hff Hw Hy. pose proof Hff as Hff'.
  destruct Hff as [fl node sb p Hv Hf Hi0 Hp0 Hi Hsb Hfat Hp Hx Hpl Hn Hle Hb].
  unfold _fat32_fs_reg_file_seek. erewrite bind_Ret by (apply mget_Ret; exact Hf).
  rewrite (proj2 (Z.eqb_neq _ _) Hi0). erewrite bind_Ret by done.
  erewrite bind_Ret by (apply mget_Ret; exact Hi).
  rewrite (bind_Ret _ _ _ _ _ (volume_of_run _ _ _ _ Hsb Hfat)).
  rewrite (proj2 (Z.eqb_neq _ _) Hp0). erewrite bind_Ret by done.
  assert (∃ r, get_seek_ref_offset f whence s = Ret (r, s) ∧ r + offset = Z.of_nat y)
    as (r & E & Hr).
  { unfold get_seek_ref_offset. erewrite bind_Ret by (apply mget_Ret; exact Hf).
    destruct Hw as [[-> ->]|[[-> Hw]|[-> Hw]]]; cbn [Z.eqb SEEK_SET SEEK_CUR SEEK_END Pos.eqb].
    - by exists 0.
    - exists (pos fl). split; [done|lia].
    - exists (Z.of_nat n). split; [|done].
      erewrite bind_Ret by (apply mget_Ret; exact Hi). rewrite Hn, s32_small by lia. done. }
  rewrite (bind_Ret _ _ _ _ _ E), Hr, s32_small by lia. rewrite Hx.
  destruct (Z.eqb_spec (Z.of_nat x) (Z.of_nat y)) as [Heq|Hne].
  { assert (x = y) as -> by lia. exists s. split; [done|]. split; [done|]. apply same_open_id. }
  erewrite bind_Ret by (apply mget_Ret; exact Hp).
  destruct Hpl as (i & o & -> & Hxio & Hi' & Ho). cbn [offset_in_sector reg_loc].
  rewrite (s32_small (Z.of_nat y - Z.of_nat x)), s32_small by lia.
  replace (Z.of_nat o + (Z.of_nat y - Z.of_nat x)) with (Z.of_nat y - 512 * Z.of_nat i) by lia.
  rewrite shiftr_9, land_1FF.
  replace ((Z.of_nat y - 512 * Z.of_nat i) / 512) with (Z.of_nat (y / 512) - Z.of_nat i)
    by (rewrite Nat2Z.inj_div; lia).
  replace ((Z.of_nat y - 512 * Z.of_nat i) `mod` 512) with (Z.of_nat (y mod 512))
    by (rewrite Nat2Z.inj_mod; lia).
  assert (y / 512 < length secs)%nat by (apply Nat.Div0.div_lt_upper_bound; lia).
  pose proof (Nat.div_mod y 512 ltac:(lia)) as Hdm.
  pose proof (Nat.mod_upper_bound y 512 ltac:(lia)).
  erewrite (bind_Ret (if _ : bool then _ else _) _ s (loc_at v chain (y / 512))).
  2:{ destruct (Z.leb_spec 0 (Z.of_nat (y / 512) - Z.of_nat i)).
      - rewrite (forward_run v s chain secs Hv) by lia. do 3 f_equal. lia.
      - rewrite (backward_run v s chain secs Hv) by lia. do 3 f_equal. lia. }
  erewrite bind_Ret by done.
  erewrite bind_Ret by (apply mupd_Ret; exact Hf).
  eexists. split; [done|]. split; [|by eapply same_open_move].
  apply (fat_file_move s f v chain secs n x fl node sb _ _ Hff' Hf Hi Hsb).
  exists (y / 512)%nat, (y mod 512)%nat. split_and!; try done; lia.
Qed.

(** C26. Reading [m] bytes of an open FAT32 file at byte [x]: the bytes of the file from
    there on, following the cluster chain across sectors and clusters, as many as asked
    for or as are left before the end, and the file is open behind them. *)
Theorem fat32_read_correct s f v chain secs n x m :
  fat_file s f v chain secs n x → (x ≤ n)%nat → Z.of_nat m < 0x80000000 →
  let k := Nat.min m (n - x) in
  ∃ s', _fat32_fs_reg_file_read f (Z.of_nat m) s =
      Ret ((Z.of_nat k, take k (drop x (fat_content secs n))), s') ∧
    fat_file s' f v chain secs n (x + k).
Proof.
  intros Hf Hx Hm k.
  destruct (fat_read_run s f v chain secs n x m Hf Hx Hm) as (s' & E & Hf' & _). by exists s'.
Qed.

(** Seeking in an open FAT32 file to any byte of its clusters, forwards or
    backwards along the chain, from any place: it returns the new position, and the file
    is open there. *)
Theorem fat32_seek_correct s f v chain secs n x offset whence y :
  fat_file s f v chain secs n x →
  (whence = SEEK_SET ∧ offset = Z.of_nat y ∨
   whence = SEEK_CUR ∧ Z.of_nat x + offset = Z.of_nat y ∨
   whence = SEEK_END ∧ Z.of_nat n + offset = Z.of_nat y) →
  (y < 512 * length secs)%nat →
  ∃ s', _fat32_fs_reg_file_seek f offset whence s = Ret (Z.of_nat y, s') ∧
    fat_file s' f v chain secs n y.
Proof.
  intros Hf Hw Hy.
  destruct (fat_seek_run s f v chain secs n x offset whence y Hf Hw Hy) as (s' & E & Hf' & _).
  by exists s'.
Qed.

(** ** Short names *)

Lemma until_app stop l l' : (∀ c, c ∈ l → stop c = false) →
  until stop (l ++ l') = l ++ until stop l'.
Proof.
  induction l as [|c l IH]; intros H; [done|]. simpl.
  rewrite H by apply list_elem_of_here. f_equal. apply IH.
  intros x Hx. by apply H, list_elem_of_further.
Qed.

Lemma until_all stop l : (∀ c, c ∈ l → stop c = false) → until stop l = l.
Proof. intros H. rewrite <- (app_nil_r l) at 1. rewrite until_app by done. apply app_nil_r. Qed.

(** The name of a directory entry without long name: the base name up to the
    padding, and, if the extension does not start with a blank, a dot and the extension -
    but only as many of its characters as the base name has, up to three, and with its
    padding, since the loop looks for the blank in the base name. *)
Theorem sfn_name e base ext :
  filename e = base ++ replicate (8 - length base) 32 → (length base ≤ 8)%nat →
  file_extension e = ext → length ext = 3%nat → nt_reserved e = 0 →
  (∀ c, c ∈ base ++ ext → c ≠ 0) → (∀ c, c ∈ base → c ≠ 32) →
  _fat32_read_entry_filename e =
  base ++ (if get8 ext 0 =? 32 then [] else 46 :: take (length base) ext).
Proof.
  intros Hf Hb He Hl Hn H0 H32. unfold _fat32_read_entry_filename.
  rewrite Hn, Hf, He. change (flag 0 _) with false. cbn iota. rewrite !map_id.
  assert (∀ l, (∀ c, c ∈ l → c ≠ 32) → ∀ n,
    until (Z.eqb 32) (l ++ replicate n 32) = l) as Hu.
  { intros l H n. rewrite until_app.
    - destruct n; simpl; apply app_nil_r.
    - intros c Hc. apply Z.eqb_neq. intros <-. by destruct (H 32 Hc). }
  rewrite Hu by done.
  assert (length (until (Z.eqb 32) (take 3 (base ++ replicate (8 - length base) 32))) =
    Nat.min 3 (length base)) as ->.
  { rewrite firstn_app, take_replicate, Hu.
    - by rewrite length_take.
    - intros c Hc. apply H32. by eapply subseteq_take in Hc. }
  assert (take (Nat.min 3 (length base)) ext = take (length base) ext) as ->.
  { destruct (Nat.le_gt_cases (length base) 3); [by rewrite Nat.min_r|].
    rewrite Nat.min_l, !take_ge by lia. done. }
  unfold cstring. rewrite until_all.
  - by destruct (get8 ext 0 =? 32).
  - intros c Hc. apply Z.eqb_neq. intros <-. apply elem_of_app in Hc as [Hc|Hc].
    + by apply (H0 0); [apply elem_of_app; left|].
    + destruct (negb _); [|by apply elem_of_nil in Hc].
      apply elem_of_cons in Hc as [?|Hc]; [done|]. apply (H0 0); [|done].
      apply elem_of_app. right. by eapply subseteq_take in Hc.
Qed.

End Fat32Spec.
