(* ===== verification/Fat32DirSpec.v ===== *)
(** * What the directories of the FAT32 file system promise

    A directory is the list of its entries, short or with a long name, as they are encoded
    in the sectors of a cluster chain: the iterator decodes them, [readdir] lists them, and
    [lookup] finds the first with a name. *)
From S2P Require Import Prelude Mmu Alloc Heap Hash Fs FsState Devices Fat32 Fat32Spec.
Import Fs FsState Devices Fat32 Fat32Spec.

Module Fat32DirSpec.

(** ** The encoding of a directory *)

(** A code unit of UTF-16 *)
Definition unit_bytes (c : Z) : list Z := [c mod 0x100; c / 0x100].

(** An entry of a long name: its number, the check sum of the short name, 13 units. *)
Definition lfn_bytes (ord chk : Z) (u : list Z) : list Z :=
  ord :: concat (map unit_bytes (take 5 u)) ++ [0x0F; 0; chk] ++
  concat (map unit_bytes (take 6 (drop 5 u))) ++ [0; 0] ++ concat (map unit_bytes (drop 11 u)).

(** The name, NUL, and padding *)
Definition name_units (name : name_t) : list Z := name ++ 0 :: replicate 13 0xFFFF.
Definition name_part (name : name_t) (j : nat) : list Z := take 13 (drop (13 * j) (name_units name)).
Definition lfn_count (name : name_t) : nat := ((length name + 12) / 13)%nat.

(** The entry of the part [j]; the one of the last part carries a mark. *)
Definition lfn_raw (chk : Z) (name : name_t) (j : nat) : list Z :=
  lfn_bytes (Z.of_nat (S j) + (if (S j =? lfn_count name)%nat then 0x40 else 0)) chk (name_part name j).

(** The entries of the parts below [n], last part first. *)
Fixpoint lfn_raws (chk : Z) (name : name_t) (n : nat) : list (list Z) :=
  match n with
  | O => []
  | S j => lfn_raw chk name j :: lfn_raws chk name j
  end.

(** What is in a directory: records that are passed over - deleted, or the directory and its
    parent - and the records of a file or directory. *)
Inductive dir_item : Type :=
| Skipped (raw : list Z)
| Named (long : option (Z * name_t)) (raw : list Z).

Definition item_lfns (i : dir_item) : list (list Z) :=
  match i with
  | Named (Some (chk, name)) _ => lfn_raws chk name (lfn_count name)
  | _ => []
  end.
Definition item_last (i : dir_item) : list Z := match i with Skipped raw | Named _ raw => raw end.
Definition item_raws (i : dir_item) : list (list Z) := item_lfns i ++ [item_last i].

Definition is_directory (raw : list Z) : bool :=
  flag (attributes (sfn_entry raw)) FAT_DIR_ENTRY_ATTR_DIRECTORY.
Definition plain_record (raw : list Z) : Prop :=
  flag (attributes (sfn_entry raw)) FAT_DIR_ENTRY_ATTR_LFN = false.

Definition long_ok (name : name_t) : Prop :=
  (0 < length name ≤ 247)%nat ∧ Forall (λ c, 0 < c < 0x100) name.

Definition item_ok (i : dir_item) : Prop :=
  length (item_last i) = 32%nat ∧ get8 (item_last i) 0 ≠ 0 ∧
  match i with
  | Skipped raw => get8 raw 0 = 0xE5 ∨
      get8 raw 0 = 46 ∧ plain_record raw ∧ is_directory raw = true
  | Named long raw => get8 raw 0 ≠ 0xE5 ∧ plain_record raw ∧
      (is_directory raw = true → get8 raw 0 ≠ 46) ∧
      match long with Some (_, name) => long_ok name | None => True end
  end.

Definition item_name (i : dir_item) : name_t :=
  match i with
  | Skipped _ => []
  | Named (Some (_, name)) _ => name
  | Named None raw => _fat32_read_entry_filename (sfn_entry raw)
  end.

(** *** Decoding *)

Lemma unit_back c : 0 ≤ c < 0x10000 → c mod 0x100 + 0x100 * (c / 0x100) = c.
Proof. lia. Qed.

Lemma lfn_decode ord chk u : length u = 13%nat → Forall (λ c, 0 ≤ c < 0x10000) u →
  let raw := lfn_bytes ord chk u in let e := lfn_entry raw in
  sequence e = ord ∧ name1 e ++ name2 e ++ name3 e = u ∧ length raw = 32%nat ∧
  get8 raw 0 = ord ∧ attributes (sfn_entry raw) = 0x0F.
Proof.
  intros Hu Hr. do 13 (destruct u as [|? u]; [discriminate|]). destruct u; [|discriminate].
  cbv zeta. split; [done|]. split; [|done].
  unfold lfn_entry, lfn_bytes. cbn [name1 name2 name3 map seq take drop concat app unit_bytes].
  unfold le16, get8. cbn [nth Nat.add Nat.mul app].
  repeat (apply Forall_cons in Hr as [? Hr]). by rewrite !unit_back by done.
Qed.

Lemma get8_filename raw : length raw = 32%nat → get8 (filename (sfn_entry raw)) 0 = get8 raw 0.
Proof. by destruct raw. Qed.

(** ** Reading a long name *)

Lemma copy_chars_some l : Forall (λ c, 0 < c < 0x100) l → copy_chars l = l.
Proof.
  induction 1 as [|c l Hc Hl IH]; [done|]. cbn [copy_chars]. rewrite u8_small by lia.
  rewrite (proj2 (Z.eqb_neq c 0)) by lia. rewrite IH. f_equal. unfold _dummy_utf16_to_ascii.
  change 0xFF with (Z.ones 8). rewrite Z.land_ones by lia. apply Z.mod_small. lia.
Qed.

Lemma copy_chars_end l l' : Forall (λ c, 0 < c < 0x100) l → copy_chars (l ++ 0 :: l') = l ++ [0].
Proof.
  induction 1 as [|c l Hc Hl IH]; [done|]. cbn [copy_chars app]. rewrite u8_small by lia.
  rewrite (proj2 (Z.eqb_neq c 0)) by lia. rewrite IH. f_equal. unfold _dummy_utf16_to_ascii.
  change 0xFF with (Z.ones 8). rewrite Z.land_ones by lia. apply Z.mod_small. lia.
Qed.

Lemma cstring_some l l' : Forall (λ c, 0 < c < 0x100) l → cstring (l ++ l') = l ++ cstring l'.
Proof.
  intros H. unfold cstring. apply until_app. intros c Hc. rewrite Forall_forall in H.
  apply Z.eqb_neq. apply H in Hc. lia.
Qed.

Section long.
Context (name : name_t).
Hypothesis Hok : long_ok name.

Lemma count_bounds : (0 < lfn_count name ≤ 19)%nat ∧
  (length name ≤ 13 * lfn_count name < length name + 13)%nat.
Proof using Hok.
  destruct Hok as [Hl _]. unfold lfn_count.
  pose proof (Nat.div_mod (length name + 12) 13 ltac:(lia)).
  pose proof (Nat.mod_upper_bound (length name + 12) 13 ltac:(lia)). lia.
Qed.

Lemma part_units j : (j < lfn_count name)%nat →
  length (name_part name j) = 13%nat ∧ Forall (λ c, 0 ≤ c < 0x10000) (name_part name j).
Proof using Hok.
  intros Hj. pose proof count_bounds. unfold name_part, name_units. split.
  - rewrite length_take, length_drop, length_app. simpl length. lia.
  - apply Forall_take, Forall_drop, Forall_app. split.
    + eapply Forall_impl; [apply Hok|]. simpl. lia.
    + constructor; [lia|]. apply Forall_replicate. lia.
Qed.

(** The characters of a part: the rest of the name with its NUL, or 13 of it. *)
Lemma part_chars j : (j < lfn_count name)%nat →
  copy_chars (name_part name j) =
    if (13 * S j <=? length name)%nat then take 13 (drop (13 * j) name) else drop (13 * j) name ++ [0].
Proof using Hok.
  intros Hj. pose proof count_bounds. destruct Hok as [_ Hc]. unfold name_part, name_units.
  destruct (Nat.leb_spec (13 * S j) (length name)).
  - rewrite drop_app_le, take_app_le by (rewrite ?length_drop; lia).
    by apply copy_chars_some, Forall_take, Forall_drop.
  - rewrite drop_app_le by lia.
    rewrite take_app_ge by (rewrite length_drop; lia). rewrite length_drop.
    replace (13 - (length name - 13 * j))%nat with (S (12 - (length name - 13 * j))) by lia.
    cbn [take]. apply copy_chars_end. by apply Forall_drop.
Qed.

(** When the buffer holds the parts from [j + 1] on, reading part [j] puts it before them. *)
Lemma copy_part j buf : (j < lfn_count name)%nat → length buf = 256%nat →
  cstring (drop (13 * S j) buf) = drop (13 * S j) name →
  let chars := copy_chars (name_part name j) in
  let buf' := take (13 * j) buf ++ chars ++ drop (13 * j + length chars) buf in
  (13 * j + length chars ≤ 256)%nat ∧ length buf' = 256%nat ∧
  cstring (drop (13 * j) buf') = drop (13 * j) name.
Proof using Hok.
  intros Hj Hb Hinv chars buf'. pose proof count_bounds as [Hn Hl]. pose proof Hok as [_ Hc].
  assert (length chars = if (13 * S j <=? length name)%nat then 13 else (length name - 13 * j + 1))%nat as Hlen.
  { unfold chars. rewrite part_chars by done.
    destruct (Nat.leb_spec (13 * S j) (length name)); rewrite ?length_app, ?length_take, length_drop; cbn [length]; lia. }
  assert (13 * j + length chars ≤ 256)%nat as Hfit by (destruct (Nat.leb_spec (13 * S j) (length name)); lia).
  split; [done|]. split.
  { unfold buf'. rewrite !length_app, length_take, length_drop. lia. }
  unfold buf'. rewrite drop_app_ge by (rewrite length_take; lia).
  rewrite length_take, Nat.min_l, Nat.sub_diag, drop_0 by lia.
  unfold chars in *. rewrite part_chars in * by done.
  destruct (Nat.leb_spec (13 * S j) (length name)).
  - rewrite cstring_some by (by apply Forall_take, Forall_drop). rewrite Hlen.
    replace (13 * j + 13)%nat with (13 * S j)%nat by lia. rewrite Hinv.
    rewrite <- (take_drop 13 (drop (13 * j) name)) at 2. rewrite drop_drop. do 2 f_equal. lia.
  - rewrite <- app_assoc, cstring_some by (by apply Forall_drop). simpl. apply app_nil_r.
Qed.

(** The entry of part [j], read. *)
Lemma read_lfn_run chk j buf : (j < lfn_count name)%nat → length buf = 256%nat →
  (S j = lfn_count name ∨ cstring (drop (13 * S j) buf) = drop (13 * S j) name) →
  let e := lfn_entry (lfn_raw chk name j) in
  ∃ buf', read_lfn e buf = Ret buf' ∧ length buf' = 256%nat ∧
    cstring (drop (13 * j) buf') = drop (13 * j) name ∧
    flag (sequence e) FAT_LFN_SEQ_LAST_LONG_ENTRY = (S j =? lfn_count name)%nat.
Proof using Hok.
  intros Hj Hb Hinv e. pose proof count_bounds as [Hn Hl]. destruct (part_units j Hj) as [Hp1 Hp2].
  destruct (lfn_decode (Z.of_nat (S j) + (if (S j =? lfn_count name)%nat then 0x40 else 0)) chk _ Hp1 Hp2)
    as (Hs & Hu & _). fold (lfn_raw chk name j) in Hs, Hu. fold e in Hs, Hu.
  assert (∀ b : bool, let q := Z.of_nat (S j) + (if b then 0x40 else 0) in
    Z.land q 0x1F = Z.of_nat (S j) ∧ flag q 0x40 = b) as Hq.
  { intros b q. unfold q, flag. clear -Hj Hn. assert (j < 19)%nat as H by lia.
    do 19 (destruct j as [|j]; [by destruct b|]). lia. }
  destruct (Hq (S j =? lfn_count name)%nat) as [Hland Hflag]. cbv zeta in Hland, Hflag.
  rewrite <- Hs in Hland, Hflag. unfold read_lfn. change FAT_LFN_SEQ_NUM_MASK with 0x1F.
  change FAT_LFN_SEQ_LAST_LONG_ENTRY with 0x40. rewrite Hland, Hflag.
  change FAT_LFN_CHAR_COUNT with 13.
  rewrite (u16_small (Z.of_nat (S j))), (u32_small (Z.of_nat (S j) - 1)) by lia.
  rewrite !u16_small by lia.
  assert (∃ buf0, (if (S j =? lfn_count name)%nat then arr_set buf (13 * Z.of_nat (S j)) 0 else Ret buf) = Ret buf0 ∧
    length buf0 = 256%nat ∧ cstring (drop (13 * S j) buf0) = drop (13 * S j) name) as (buf0 & -> & Hb0 & Hinv0).
  { destruct (Nat.eqb_spec (S j) (lfn_count name)) as [Hlast|Hlast].
    - rewrite arr_set_Ret by lia. eexists. split; [done|]. rewrite length_insert. split; [done|].
      replace (Z.to_nat (13 * Z.of_nat (S j))) with (13 * S j)%nat by lia.
      rewrite (drop_S _ 0 (13 * S j)) by (apply list_lookup_insert_eq; lia).
      by rewrite (drop_ge name) by lia.
    - eexists. split; [done|]. split; [done|]. destruct Hinv as [?|?]; done. }
  cbn [obind]. destruct (copy_part j buf0 Hj Hb0 Hinv0) as (Hfit & Hlen & Hc).
  unfold _copy_lfn_chars. rewrite Hu.
  rewrite (proj2 (Z.leb_le 0 _)), (proj2 (Z.leb_le _ (Z.of_nat (length buf0)))) by lia. cbn [andb].
  replace (Z.to_nat (13 * (Z.of_nat (S j) - 1))) with (13 * j)%nat by lia.
  by eexists.
Qed.
End long.

(** ** The iterator on a directory *)

Section dir.
Context (v : fat32_sb_private_t) (s : fs) (chain : list Z) (secs : list (list Z)).
Hypothesis Hvol : on_volume v s chain secs.

Definition record_at (k : nat) : list Z := take 32 (drop (32 * k) (concat secs)).

(** The place of record [k], and the inode number it gives. *)
Definition eloc_at (k : nat) : fat32_dir_entry_loc_t :=
  mkeloc (loc_at v chain (k / 16)) (Z.of_nat (k mod 16)).
Definition ino_at (k : nat) : Z := _fat32_entry_loc_offset v (eloc_at k).

Definition it_at (it : fat_directory_entry_iterator_t) (k : nat) : Prop :=
  entry_loc it = eloc_at k ∧
  (cache_is_dirty it = false → secs !! (k / 16)%nat = Some (sector_cache it)).

Lemma init_at k : it_at (fat_32_directory_entry_iterator_init (eloc_at k)) k.
Proof using. by split. Qed.

Lemma sector_load_run it k : it_at it k → (k < 16 * length secs)%nat →
  ∃ it', iterator_load v it s = Ret (it', s) ∧ it_at it' k ∧ cache_is_dirty it' = false ∧
    slice (sector_cache it') (Z.to_nat (entry_index (entry_loc it') * ENTRY_SIZE)) 32 = record_at k.
Proof using Hvol.
  intros [Hloc Hc] Hk. pose proof (Nat.div_mod k 16 ltac:(lia)). pose proof (Nat.mod_upper_bound k 16 ltac:(lia)).
  destruct (lookup_lt_is_Some_2 secs (k / 16)) as [b Hb]; [lia|].
  assert (slice b (Z.to_nat (Z.of_nat (k mod 16) * ENTRY_SIZE)) 32 = record_at k) as Hr.
  { unfold record_at, slice. change ENTRY_SIZE with 32.
    replace (Z.to_nat (Z.of_nat (k mod 16) * 32)) with (32 * (k mod 16))%nat by lia.
    replace (32 * k)%nat with (512 * (k / 16) + 32 * (k mod 16))%nat by lia.
    symmetry. apply concat_slice; [apply (vol_512 _ _ _ _ Hvol)|done|lia]. }
  unfold iterator_load. destruct (cache_is_dirty it) eqn:Hd.
  - rewrite Hloc. cbn [sector_loc eloc_at].
    rewrite (bind_Ret _ _ _ _ _ (read_sector_run v s chain secs Hvol _ b Hb)).
    eexists. split; [done|]. cbn [entry_loc cache_is_dirty sector_cache].
    split; [by split|]. split; [done|exact Hr].
  - exists it. split; [done|]. split; [split; [done|by intros _; apply Hc]|]. split; [done|].
    rewrite Hc in Hb by done. injection Hb as ->. by rewrite Hloc.
Qed.

Lemma advance_run it k : it_at it k → cache_is_dirty it = false → (S k < 16 * length secs)%nat →
  ∃ it', iterator_advance v it s = Ret (it', s) ∧ it_at it' (S k).
Proof using Hvol.
  intros [Hloc Hc] Hd Hk. pose proof (Nat.div_mod k 16 ltac:(lia)). pose proof (Nat.mod_upper_bound k 16 ltac:(lia)).
  unfold iterator_advance. rewrite Hloc. cbn [entry_index eloc_at sector_loc].
  rewrite u32_small by lia. unfold it_at, eloc_at.
  destruct (decide (k mod 16 = 15)%nat) as [He|He].
  - assert (S k / 16 = S (k / 16) ∧ S k mod 16 = 0)%nat as [-> ->].
    { split; symmetry; [apply (Nat.div_unique _ _ _ 0)|apply (Nat.mod_unique _ _ (S (k / 16)))]; lia. }
    rewrite He. change (Z.of_nat 15 + 1 >=? 16) with true. cbn iota.
    rewrite (bind_Ret _ _ _ _ _ (next_sector_run v s chain secs Hvol (k / 16) ltac:(lia))).
    by eexists.
  - assert (S k / 16 = k / 16 ∧ S k mod 16 = S (k mod 16))%nat as [-> ->].
    { split; symmetry; [apply (Nat.div_unique _ _ _ (S (k mod 16)))|apply (Nat.mod_unique _ _ (k / 16))]; lia. }
    rewrite Z.geb_leb, (proj2 (Z.leb_gt _ _)) by lia. cbn iota. eexists. split; [done|].
    cbn [entry_loc cache_is_dirty sector_cache]. split; [f_equal; lia|]. intros _. by apply Hc.
Qed.

(** One turn of the loop. *)
Lemma dir_turn_run fuel size it k buf b : it_at it k → (S k < 16 * length secs)%nat →
  let raw := record_at k in let e := sfn_entry raw in
  get8 (filename e) 0 ≠ 0 →
  ∃ it', it_at it' (S k) ∧
    iterator_loop (S fuel) v size it buf b s =
    (if get8 (filename e) 0 =? 0xE5 then iterator_loop fuel v size it' buf b
     else if flag (attributes e) FAT_DIR_ENTRY_ATTR_LFN then
       let* buf := lift (read_lfn (lfn_entry raw) buf) in
       iterator_loop fuel v size it' buf
         (flag (sequence (lfn_entry raw)) FAT_LFN_SEQ_LAST_LONG_ENTRY || b)
     else if flag (attributes e) FAT_DIR_ENTRY_ATTR_VOLUME_ID then iterator_loop fuel v size it' buf b
     else if flag (attributes e) FAT_DIR_ENTRY_ATTR_DIRECTORY && (get8 (filename e) 0 =? 46) then
       iterator_loop fuel v size it' buf b
     else
       let* name := lift (strcpy_buf size (if b then cstring buf else _fat32_read_entry_filename e)) in
       ret (Some (e, ino_at k, name), it')) s.
Proof using Hvol.
  intros Hit Hk raw e He. destruct (sector_load_run it k Hit ltac:(lia)) as (it1 & E1 & H1 & Hd & Hr).
  destruct (advance_run it1 k H1 Hd Hk) as (it2 & E2 & H2). exists it2. split; [done|].
  cbn [iterator_loop]. rewrite (bind_Ret _ _ _ _ _ E1), Hr. fold raw. fold e.
  rewrite (proj2 (Z.eqb_neq _ 0) He). rewrite (bind_Ret _ _ _ _ _ E2).
  unfold ino_at. by rewrite (proj1 H1).
Qed.

(** The end of the directory. *)
Lemma end_run fuel size it k buf b : it_at it k → (k < 16 * length secs)%nat →
  get8 (filename (sfn_entry (record_at k))) 0 = 0 →
  ∃ it', it_at it' k ∧ iterator_loop (S fuel) v size it buf b s = Ret ((None, it'), s).
Proof using Hvol.
  intros Hit Hk He. destruct (sector_load_run it k Hit Hk) as (it1 & E1 & H1 & _ & Hr).
  exists it1. split; [done|]. cbn [iterator_loop]. by rewrite (bind_Ret _ _ _ _ _ E1), Hr, He.
Qed.

(** *** Items *)

(** From record [k] on, the directory holds the items, and then the mark of its end. *)
Definition dir_from (k : nat) (items : list dir_item) : Prop :=
  Forall item_ok items ∧
  ∃ rest, drop (32 * k) (concat secs) = concat (concat (map item_raws items)) ++ 0 :: rest.

(** What is to be listed: the short entry, the inode number, the name. *)
Fixpoint listed (k : nat) (items : list dir_item) : list (fat_sfn_directory_entry_t * Z * name_t) :=
  match items with
  | [] => []
  | i :: items =>
      match i with
      | Skipped _ => []
      | Named _ raw => [(sfn_entry raw, ino_at (k + length (item_lfns i)), item_name i)]
      end ++ listed (k + length (item_raws i)) items
  end.

Definition records (items : list dir_item) : nat := length (concat (map item_raws items)).

(** Records at the head of what is left. *)
Definition holds (k : nat) (l : list (list Z)) : Prop :=
  Forall (λ r, length r = 32%nat) l ∧ ∃ rest, drop (32 * k) (concat secs) = concat l ++ 0 :: rest.

Lemma holds_bound k l : holds k l → (k + length l < 16 * length secs)%nat.
Proof using Hvol.
  intros [Hl [rest E]]. apply (f_equal length) in E.
  rewrite length_drop, length_app, (length_content _ _ _ _ Hvol) in E. cbn [length] in E.
  assert (length (concat l) = (32 * length l)%nat) as Hc.
  { clear -Hl. induction Hl as [|r l Hr _ IH]; [done|]. cbn [concat]. rewrite length_app. simpl length. lia. }
  lia.
Qed.

Lemma holds_cons k r l : holds k (r :: l) → record_at k = r ∧ length r = 32%nat ∧ holds (S k) l.
Proof using.
  intros [[Hr Hl]%Forall_cons [rest E]]. unfold record_at. rewrite E. cbn [concat].
  rewrite <- app_assoc. split; [by rewrite take_app_length'|]. split; [done|]. split; [done|].
  exists rest. replace (32 * S k)%nat with (32 * k + 32)%nat by lia.
  rewrite <- drop_drop, E. cbn [concat]. by rewrite <- app_assoc, drop_app_length'.
Qed.

Lemma holds_app k l l' : holds k (l ++ l') → holds (k + length l) l'.
Proof using.
  revert k. induction l as [|r l IH]; intros k H; [by rewrite Nat.add_0_r|].
  apply holds_cons in H as (_ & _ & H). apply IH in H. by rewrite Nat.add_succ_comm in H.
Qed.

(** The turns of a long name: the buffer holds it afterwards. *)
Lemma lfns_run chk name l fuel size n : long_ok name → (n ≤ lfn_count name)%nat →
  ∀ it k buf b, it_at it k → holds k (lfn_raws chk name n ++ l) → length buf = 256%nat →
  (n = lfn_count name ∨ cstring (drop (13 * n) buf) = drop (13 * n) name ∧ b = true) →
  ∃ it' buf', it_at it' (k + n) ∧ cstring buf' = name ∧
    iterator_loop (n + fuel) v size it buf b s = iterator_loop fuel v size it' buf' true s.
Proof using Hvol.
  intros Hok. destruct (count_bounds name Hok) as [Hcount _].
  induction n as [|j IH]; intros Hn it k buf b Hit Hh Hb Hinv.
  { destruct Hinv as [?|[Hc ->]]; [lia|]. exists it, buf. by rewrite Nat.add_0_r. }
  cbn [lfn_raws app] in Hh. pose proof (holds_bound k _ Hh) as Hk. cbn [length] in Hk.
  destruct (holds_cons k _ _ Hh) as (Hr & Hl & Hh').
  destruct (part_units name Hok j ltac:(lia)) as [Hp1 Hp2].
  destruct (lfn_decode (Z.of_nat (S j) + (if (S j =? lfn_count name)%nat then 0x40 else 0)) chk _ Hp1 Hp2)
    as (_ & _ & _ & H0 & Ha). fold (lfn_raw chk name j) in H0, Ha. rewrite <- Hr in H0, Ha, Hl.
  rewrite <- (get8_filename _ Hl) in H0.
  destruct (dir_turn_run (j + fuel) size it k buf b Hit ltac:(lia)) as (it1 & H1 & E1).
  { rewrite H0. destruct (S j =? lfn_count name)%nat; lia. }
  cbn [Nat.add]. rewrite E1, Ha, (proj2 (Z.eqb_neq _ 0xE5)).
  2:{ rewrite H0. destruct (S j =? lfn_count name)%nat; lia. }
  change (flag 0x0F FAT_DIR_ENTRY_ATTR_LFN) with true. cbn iota. rewrite Hr.
  destruct (read_lfn_run name Hok chk j buf ltac:(lia) Hb ltac:(tauto)) as (buf1 & E2 & Hb1 & Hc1 & Hf).
  rewrite (bind_Ret _ _ _ buf1 s) by (unfold lift; by rewrite E2). rewrite Hf.
  destruct (IH ltac:(lia) it1 (S k) buf1 ((S j =? lfn_count name)%nat || b) H1 Hh' Hb1)
    as (it' & buf' & H' & Hc' & E').
  { right. split; [done|]. destruct (Nat.eqb_spec (S j) (lfn_count name)); [done|].
    by destruct Hinv as [?|[_ ->]]. }
  exists it', buf'. split; [|by rewrite E']. by rewrite <- Nat.add_succ_comm.
Qed.

Lemma skipped_run raw l fuel size it k buf b : item_ok (Skipped raw) → it_at it k → holds k (raw :: l) →
  ∃ it', it_at it' (S k) ∧
    iterator_loop (S fuel) v size it buf b s = iterator_loop fuel v size it' buf b s.
Proof using Hvol.
  intros (Hlen & H0 & Hkind) Hit Hh. pose proof (holds_bound k _ Hh) as Hk. cbn [length] in Hk.
  destruct (holds_cons k _ _ Hh) as (Hr & _ & _). cbn [item_last] in *.
  pose proof (get8_filename raw Hlen) as Hg.
  destruct (dir_turn_run fuel size it k buf b Hit ltac:(lia)) as (it1 & H1 & E1); [by rewrite Hr, Hg|].
  exists it1. split; [done|]. rewrite E1, Hr, Hg. destruct Hkind as [->|(-> & Hp & Hd)]; [done|].
  change (46 =? 0xE5) with false. cbn iota. unfold plain_record in Hp. rewrite Hp.
  unfold is_directory in Hd. rewrite Hd. change (46 =? 46) with true. cbn [andb].
  destruct (flag (attributes (sfn_entry raw)) FAT_DIR_ENTRY_ATTR_VOLUME_ID); reflexivity.
Qed.

(** The volume flag is one of those that mark a long name. *)
Lemma plain_not_volume raw : plain_record raw →
  flag (attributes (sfn_entry raw)) FAT_DIR_ENTRY_ATTR_VOLUME_ID = false.
Proof using.
  unfold plain_record, flag. change FAT_DIR_ENTRY_ATTR_LFN with 0x0F.
  change FAT_DIR_ENTRY_ATTR_VOLUME_ID with (Z.land 0x0F 8). rewrite Z.land_assoc. intros H.
  apply negb_false_iff in H. by apply Z.eqb_eq in H as ->.
Qed.

Lemma last_run long raw (l : list (list Z)) fuel size it k buf (b : bool) : item_ok (Named long raw) → it_at it k →
  holds k (raw :: l) →
  let name := if b then cstring buf else _fat32_read_entry_filename (sfn_entry raw) in
  Z.of_nat (length name) < size →
  ∃ it', it_at it' (S k) ∧
    iterator_loop (S fuel) v size it buf b s = Ret ((Some (sfn_entry raw, ino_at k, name), it'), s).
Proof using Hvol.
  intros (Hlen & H0 & H5 & Hp & Hd & _) Hit Hh name Hsize. pose proof (holds_bound k _ Hh) as Hk.
  cbn [length] in Hk. destruct (holds_cons k _ _ Hh) as (Hr & _ & _). cbn [item_last] in *.
  pose proof (get8_filename raw Hlen) as Hg.
  destruct (dir_turn_run fuel size it k buf b Hit ltac:(lia)) as (it1 & H1 & E1); [by rewrite Hr, Hg|].
  exists it1. split; [done|]. rewrite E1, Hr, Hg, (proj2 (Z.eqb_neq _ 0xE5) H5).
  rewrite (plain_not_volume raw Hp). unfold plain_record in Hp. rewrite Hp.
  fold (is_directory raw). assert (is_directory raw && (get8 raw 0 =? 46) = false) as ->.
  { destruct (is_directory raw); [|done]. apply Z.eqb_neq. by apply Hd. }
  fold name. unfold strcpy_buf, bind, lift. by rewrite (proj2 (Z.leb_le _ size)) by lia.
Qed.

(** A file or directory, with or without a long name. *)
Lemma named_run long raw (l : list (list Z)) fuel size it k : let i := Named long raw in item_ok i →
  it_at it k → holds k (item_raws i ++ l) → Z.of_nat (length (item_name i)) < size →
  ∃ it', it_at it' (k + length (item_raws i)) ∧
    iterator_loop (length (item_raws i) + fuel) v size it (replicate 256 0) false s =
    Ret ((Some (sfn_entry raw, ino_at (k + length (item_lfns i)), item_name i), it'), s).
Proof using Hvol.
  intros i Hi Hit Hh Hsize. unfold item_raws in *. rewrite <- app_assoc in Hh. cbn [item_last i app] in Hh.
  rewrite length_app, Nat.add_1_r. destruct long as [[chk name]|].
  - pose proof Hi as (_ & _ & _ & _ & _ & Hok). cbn [item_lfns item_name i] in *.
    assert (length (lfn_raws chk name (lfn_count name)) = lfn_count name) as Hlen.
    { generalize (lfn_count name). intros n. induction n as [|n IH]; [done|]. simpl. by rewrite IH. }
    rewrite Hlen in *.
    destruct (lfns_run chk name (raw :: l) (S fuel) size (lfn_count name) Hok ltac:(lia) it k
      (replicate 256 0) false Hit Hh ltac:(done) ltac:(by left)) as (it1 & buf & H1 & Hc & E1).
    apply holds_app in Hh. rewrite Hlen in Hh.
    destruct (last_run _ raw l fuel size it1 _ buf true Hi H1 Hh) as (it2 & H2 & E2).
    { by rewrite Hc. }
    exists it2. rewrite Nat.add_succ_r. split; [done|].
    replace (S (lfn_count name) + fuel)%nat with (lfn_count name + S fuel)%nat by lia.
    by rewrite E1, E2, Hc.
  - cbn [item_lfns item_name i length app] in *. rewrite Nat.add_0_r, Nat.add_1_r.
    by apply (last_run _ raw l fuel size it k _ false Hi).
Qed.

Lemma dir_holds k items : dir_from k items → holds k (concat (map item_raws items)).
Proof using.
  intros [Hi Hr]. split; [|done]. clear Hr. induction Hi as [|i items (Hl & _ & Hk) _ IH]; [constructor|].
  cbn [map concat]. apply Forall_app. split; [|done]. unfold item_raws.
  apply Forall_app. split; [|by constructor].
  destruct i as [raw|[[chk name]|] raw]; try constructor. destruct Hk as (_ & _ & _ & Hok). cbn [item_lfns].
  assert (∀ n, (n ≤ lfn_count name)%nat → Forall (λ r, length r = 32%nat) (lfn_raws chk name n)) as H.
  { induction n as [|j IHn]; intros Hn; constructor; [|apply IHn; lia].
    destruct (part_units name Hok j ltac:(lia)). by apply lfn_decode. }
  by apply H.
Qed.

Lemma dir_cons k i items : dir_from k (i :: items) →
  item_ok i ∧ holds k (item_raws i ++ concat (map item_raws items)) ∧
  dir_from (k + length (item_raws i)) items.
Proof using.
  intros Hd. pose proof (dir_holds k _ Hd) as Hh. destruct Hd as [[Hi His]%Forall_cons _].
  split; [done|]. split; [done|]. cbn [map concat] in Hh. apply holds_app in Hh as [_ Hr]. by split.
Qed.

(** The next file or directory, and the place behind it. *)
Lemma next_run size : ∀ items k it fuel, it_at it k → dir_from k items →
  (records items < fuel)%nat → Forall (λ e, Z.of_nat (length e.2) < size) (listed k items) →
  ∃ it' k' items', it_at it' k' ∧ dir_from k' items' ∧ listed k' items' = tail (listed k items) ∧
    iterator_loop fuel v size it (replicate 256 0) false s = Ret ((head (listed k items), it'), s).
Proof using Hvol.
  induction items as [|i items IH]; intros k it fuel Hit Hd Hf Hs; unfold records in Hf.
  - destruct fuel as [|fuel]; [simpl in Hf; lia|]. pose proof Hd as [_ [rest Hr]].
    destruct (end_run fuel size it k (replicate 256 0) false Hit) as (it' & H' & E').
    + pose proof (holds_bound k _ (dir_holds k [] Hd)). cbn [map concat length] in *. lia.
    + unfold record_at. cbn [map concat app] in Hr. by rewrite Hr.
    + exists it', k, []. by split_and!.
  - destruct (dir_cons k i items Hd) as (Hi & Hh & Hd'). cbn [map concat] in Hf. rewrite length_app in Hf.
    destruct i as [raw|long raw].
    + cbn [item_raws item_lfns item_last app length] in *. destruct fuel as [|fuel]; [lia|].
      destruct (skipped_run raw _ fuel size it k (replicate 256 0) false Hi Hit Hh) as (it1 & H1 & E1).
      rewrite Nat.add_1_r in Hd'. cbn [listed app item_raws item_lfns item_last length] in *.
      rewrite Nat.add_1_r in *.
      destruct (IH (S k) it1 fuel H1 Hd' ltac:(unfold records; lia) Hs) as (it' & k' & items' & ? & ? & ? & E').
      exists it', k', items'. split_and!; try done. by rewrite E1, E'.
    + cbn [listed app] in Hs |- *. apply Forall_cons in Hs as [Hs _]. cbn [head tail].
      destruct (named_run long raw _ (fuel - length (item_raws (Named long raw))) size it k Hi Hit Hh Hs)
        as (it1 & H1 & E1). cbv zeta in E1.
      replace (length (item_raws (Named long raw)) + (fuel - length (item_raws (Named long raw))))%nat
        with fuel in E1 by lia.
      exists it1, (k + length (item_raws (Named long raw)))%nat, items. by split_and!.
Qed.

(** The fuel of the iterator is enough for any directory of the volume. *)
Lemma dir_fuel k items : dir_from k items → (k + records items < DIR_FUEL v)%nat.
Proof using Hvol.
  intros Hd. pose proof (holds_bound k _ (dir_holds k _ Hd)) as Hk. fold (records items) in Hk.
  rewrite (vol_len _ _ _ _ Hvol) in Hk. pose proof (vol_short _ _ _ _ Hvol) as Hs.
  destruct (vol_spc _ _ _ _ Hvol) as [Hp _]. unfold DIR_FUEL, CHAIN_FUEL in *.
  replace (Z.to_nat (128 * fat_sector_count v * sectors_per_cluster v * 16))
    with (Z.to_nat (128 * fat_sector_count v) * Z.to_nat (sectors_per_cluster v) * 16)%nat.
  - assert (length chain * Z.to_nat (sectors_per_cluster v) ≤
      Z.to_nat (128 * fat_sector_count v) * Z.to_nat (sectors_per_cluster v))%nat by (by apply Nat.mul_le_mono_r).
    lia.
  - destruct (Z.le_gt_cases 0 (128 * fat_sector_count v)); [by rewrite !Z2Nat.inj_mul by lia|].
    rewrite (Z2Nat.nonpos (128 * _)) by lia. symmetry. simpl. apply Z2Nat.nonpos. nia.
Qed.

Lemma iterate_run size items k it : it_at it k → dir_from k items →
  Forall (λ e, Z.of_nat (length e.2) < size) (listed k items) →
  ∃ it' k' items', it_at it' k' ∧ dir_from k' items' ∧ listed k' items' = tail (listed k items) ∧
    fat_32_directory_entry_iterator_next v size it s = Ret ((head (listed k items), it'), s).
Proof using Hvol. intros Hit Hd Hs. apply next_run; try done. pose proof (dir_fuel k items Hd). lia. Qed.

(** *** Listing *)

(** The line of a listing *)
Definition dirent_of (e : fat_sfn_directory_entry_t * Z * name_t) : dirent :=
  mkdirent (if flag (attributes e.1.1) FAT_DIR_ENTRY_ATTR_DIRECTORY then DT_DIR else DT_REG) e.2.

Lemma readdir_loop_run n : ∀ k items it, it_at it k → dir_from k items →
  Forall (λ e, (length e.2 ≤ 30)%nat) (listed k items) →
  ∃ it' k' items', it_at it' k' ∧ dir_from k' items' ∧ listed k' items' = drop n (listed k items) ∧
    fat_readdir_loop n v it s = Ret ((map dirent_of (take n (listed k items)), it'), s).
Proof using Hvol.
  induction n as [|n IH]; intros k items it Hit Hd Hlen.
  { exists it, k, items. by split_and!. }
  destruct (iterate_run 32 items k it Hit Hd) as (it1 & k1 & items1 & H1 & Hd1 & Hl1 & E1).
  { eapply Forall_impl; [exact Hlen|]. simpl. lia. }
  cbn [fat_readdir_loop]. rewrite (bind_Ret _ _ _ _ _ E1).
  destruct (listed k items) as [|[[e ino] name] rest] eqn:El; cbn [head tail] in *.
  - exists it1, k1, items1. by split_and!.
  - apply Forall_cons in Hlen as [Hname Hlen]. cbn [snd] in Hname. rewrite <- Hl1 in Hlen.
    destruct (IH k1 items1 it1 H1 Hd1 Hlen) as (it2 & k2 & items2 & H2 & Hd2 & Hl2 & E2).
    exists it2, k2, items2. rewrite Hl1 in Hl2, E2. split_and!; try done.
    unfold strcpy_buf. change MAX_DIR_NAME_LEN with 31. rewrite (proj2 (Z.leb_le _ 31)) by lia.
    erewrite bind_Ret by done. by rewrite (bind_Ret _ _ _ _ _ E2).
Qed.

(** *** Looking up a name *)

Definition named (name : name_t) (e : fat_sfn_directory_entry_t * Z * name_t) : bool := streq e.2 name.

Lemma lookup_loop_run sb name fuel : ∀ k items it, it_at it k → dir_from k items →
  (length (listed k items) < fuel)%nat → Forall (λ e, (length e.2 < 256)%nat) (listed k items) →
  fat_lookup_loop fuel v sb name it s =
    match find (named name) (listed k items) with
    | Some (e, ino, _) => _fat32_create_inode e sb ino s
    | None => Ret (0, s)
    end.
Proof using Hvol.
  induction fuel as [|fuel IH]; intros k items it Hit Hd Hf Hlen; [lia|].
  destruct (iterate_run 256 items k it Hit Hd) as (it1 & k1 & items1 & H1 & Hd1 & Hl1 & E1).
  { eapply Forall_impl; [exact Hlen|]. simpl. lia. }
  cbn [fat_lookup_loop]. rewrite (bind_Ret _ _ _ _ _ E1).
  destruct (listed k items) as [|[[e ino] fname] rest]; cbn [head tail find] in *; [done|].
  apply Forall_cons in Hlen as [_ Hlen]. cbn [length] in Hf. unfold named at 1. cbn [snd].
  destruct (streq fname name); [done|]. cbn [negb]. rewrite <- Hl1 in Hlen, Hf |- *.
  apply (IH k1 items1 it1 H1 Hd1); [lia|done].
Qed.
End dir.

(** Names are short enough for the buffer of [lookup]. *)
Lemma until_length stop l : (length (until stop l) ≤ length l)%nat.
Proof. induction l as [|c l IH]; [done|]. simpl. destruct (stop c); simpl; lia. Qed.

Lemma short_name_length e : (length (filename e) ≤ 8)%nat → (length (_fat32_read_entry_filename e) ≤ 12)%nat.
Proof.
  intros H. unfold _fat32_read_entry_filename, cstring.
  etransitivity; [apply until_length|]. rewrite length_app, length_map.
  pose proof (until_length (Z.eqb 32) (filename e)).
  destruct (negb _); [|simpl; lia]. cbn [length]. rewrite length_map, length_take.
  pose proof (until_length (Z.eqb 32) (take 3 (filename e))). rewrite length_take in *. lia.
Qed.

Lemma listed_names v chain : ∀ items k, Forall item_ok items →
  Forall (λ e, (length e.2 < 256)%nat) (listed v chain k items).
Proof.
  induction items as [|i items IH]; intros k Hi; [constructor|]. apply Forall_cons in Hi as [Hi His].
  cbn [listed]. apply Forall_app. split; [|by apply IH].
  destruct i as [raw|[[chk name]|] raw]; constructor; try done; cbn [snd item_name].
  - destruct Hi as (_ & _ & _ & _ & _ & [Hl _]). lia.
  - pose proof (short_name_length (sfn_entry raw)) as H. simpl in H. unfold slice in H.
    rewrite length_take in H. lia.
Qed.

Lemma listed_length v chain : ∀ items k, (length (listed v chain k items) ≤ records items)%nat.
Proof.
  induction items as [|i items IH]; intros k; [done|]. cbn [listed]. unfold records in *.
  cbn [map concat]. rewrite !length_app. specialize (IH (k + length (item_raws i))%nat).
  assert (0 < length (item_raws i))%nat by (unfold item_raws; rewrite length_app; simpl; lia).
  destruct i; simpl length at 1; lia.
Qed.

(** ** Open directories *)

(** [f] is open on a directory, of which [rest] is left to be listed. *)
Inductive fat_dir (s : fs) (f : Z) (v : fat32_sb_private_t) (chain : list Z) (secs : list (list Z))
    (rest : list (fat_sfn_directory_entry_t * Z * name_t)) : Prop :=
| mkfd fl node sb k items :
    on_volume v s chain secs →
    fs_files s !! f = Some fl → f_inode fl ≠ 0 → f_private fl ≠ 0 →
    fs_inodes s !! f_inode fl = Some node →
    fs_sbs s !! super_block node = Some sb → fs_fat s !! sb_private sb = Some v →
    fs_fat_dirs s !! f_private fl = Some (eloc_at v chain k) →
    dir_from secs k items → listed v chain k items = rest →
    fat_dir s f v chain secs rest.

Lemma fat_readdir_run s f v chain secs rest count : fat_dir s f v chain secs rest →
  Forall (λ e, (length e.2 ≤ 30)%nat) rest →
  let l := map dirent_of (take count rest) in
  ∃ s', _fat32_fs_dir_readdir f (Z.of_nat count) s = Ret ((Z.of_nat (length l), l), s') ∧
    fat_dir s' f v chain secs (drop count rest) ∧ same_open s s' f.
Proof.
  intros [fl node sb k items Hv Hf Hi0 Hp0 Hi Hsb Hfat Hd Hfrom <-] Hlen l.
  destruct (readdir_loop_run v s chain secs Hv count k items _ (init_at v chain secs k) Hfrom Hlen)
    as (it' & k' & items' & [Hit' _] & Hfrom' & Hl' & E).
  unfold _fat32_fs_dir_readdir. erewrite bind_Ret by (apply mget_Ret; exact Hf).
  rewrite (proj2 (Z.eqb_neq _ _) Hi0). erewrite bind_Ret by done.
  erewrite bind_Ret by (apply mget_Ret; exact Hi).
  rewrite (bind_Ret _ _ _ _ _ (volume_of_run _ _ _ _ Hsb Hfat)).
  rewrite (proj2 (Z.eqb_neq _ _) Hp0). erewrite bind_Ret by done.
  erewrite bind_Ret by (apply mget_Ret; exact Hd). rewrite Nat2Z.id.
  rewrite (bind_Ret _ _ _ _ _ E). fold l. cbv beta iota.
  erewrite bind_Ret by (apply mupd_Ret; exact Hf).
  eexists. split; [reflexivity|]. split; [|by eapply same_open_move].
  apply (mkfd _ _ _ _ _ _ (with_pos (s32 (pos fl + Z.of_nat (length l))) fl) node sb k' items'); simpl; try done.
  - by apply (on_volume_same v s).
  - apply lookup_insert_eq.
  - by rewrite lookup_insert_eq, Hit'.
Qed.

(** The inode that an entry describes. *)
Definition inode_of (e : fat_sfn_directory_entry_t) (sb ino : Z) : inode :=
  let dir := flag (attributes e) FAT_DIR_ENTRY_ATTR_DIRECTORY in
  mkinode ino 0 (file_size e) (if dir then S_IFDIR else S_IFREG) 0
    (if dir then FAT32_DIR_OPS else FAT32_FILE_OPS) (if dir then FAT32_INODE_OPS else NO_INODE_OPS) sb
    (Z.lor (starting_cluster_low e) (u32 (Z.shiftl (starting_cluster_high e) 16))).

(** [d] is a directory with the items. *)
Inductive fat_dir_inode (s : fs) (d : Z) (v : fat32_sb_private_t) (chain : list Z) (secs : list (list Z))
    (items : list dir_item) (sb : Z) : Prop :=
| mkfdi node x :
    on_volume v s chain secs → fs_inodes s !! d = Some node → super_block node = sb →
    fs_sbs s !! sb = Some x → fs_fat s !! sb_private x = Some v →
    chain !! 0%nat = Some (i_private node) → dir_from secs 0 items →
    fat_dir_inode s d v chain secs items sb.

(** ** Properties *)

(** C27. Listing a directory of a FAT32 volume: the sectors of its cluster chain encode a list of
    items, files and directories with short or long names between records that are passed
    over.  [readdir] from any place gives the next entries in order, up to [count] of them,
    each with its decoded name and its kind; the directory is open behind them. *)
Theorem fat32_readdir_correct s f v chain secs rest count : fat_dir s f v chain secs rest →
  Forall (λ e, (length e.2 ≤ 30)%nat) rest →
  let l := map dirent_of (take count rest) in
  ∃ s', _fat32_fs_dir_readdir f (Z.of_nat count) s = Ret ((Z.of_nat (length l), l), s') ∧
    fat_dir s' f v chain secs (drop count rest).
Proof.
  intros Hd Hlen l. destruct (fat_readdir_run s f v chain secs rest count Hd Hlen) as (s' & E & Hd' & _).
  by exists s'.
Qed.

(** Looking up a name in a directory of a FAT32 volume gives NULL when no file or directory
    of it has the name, and changes nothing; otherwise a new inode, with the kind, size, first
    cluster and number of the first that has it. *)
Theorem fat32_lookup_correct s d v chain secs items sb name : fat_dir_inode s d v chain secs items sb →
  fs_wf s → room s SIZEOF_INODE →
  match find (named name) (listed v chain 0 items) with
  | None => _fat32fs_inode_lookup d name s = Ret (0, s)
  | Some (e, ino, _) => ∃ i h,
      _fat32fs_inode_lookup d name s =
        Ret (i, comp_set (<[i := inode_of e sb ino]> (fs_inodes s)) (comp_set h s)) ∧
      Heap.memory_cursor (fs_heap s) < i ≤ Heap.memory_cursor h ∧
      heap_grew (fs_heap s) h (SIZEOF_INODE + 7)
  end.
Proof.
  intros [node x Hv Hn <- Hsb Hfat Hc Hd] Hwf Hroom. unfold _fat32fs_inode_lookup.
  assert (_fat32fs_inode_lookup d name s =
    fat_lookup_loop (DIR_FUEL v) v (super_block node) name
      (fat_32_directory_entry_iterator_init (eloc_at v chain 0)) s) as E.
  { unfold _fat32fs_inode_lookup. erewrite bind_Ret by (apply mget_Ret; exact Hn).
    rewrite (bind_Ret _ _ _ _ _ (volume_of_run _ _ _ _ Hsb Hfat)).
    unfold eloc_at, loc_at, _fat32_get_inode_start_sector.
    by rewrite !Nat.Div0.div_0_l, !Nat.Div0.mod_0_l, Hc. }
  unfold _fat32fs_inode_lookup in E. rewrite E.
  rewrite (lookup_loop_run v s chain secs Hv _ name (DIR_FUEL v) 0 items _ (init_at v chain secs 0) Hd).
  2:{ pose proof (dir_fuel v s chain secs Hv 0 items Hd). pose proof (listed_length v chain items 0). lia. }
  2:{ apply listed_names, Hd. }
  destruct (find (named name) (listed v chain 0 items)) as [[[e ino] n]|]; [|done].
  destruct (sb_alloc_inode_run s (super_block node) x Hwf Hsb Hroom) as (i & h & Ei & _ & Hi & Hg).
  exists i, h. split; [|done]. unfold _fat32_create_inode. rewrite (bind_Ret _ _ _ _ _ Ei).
  erewrite bind_Ret by (apply mupd_Ret; apply lookup_insert_eq).
  unfold ret. simpl. by rewrite insert_insert_eq.
Qed.
End Fat32DirSpec.
