(* ===== verification/Vfs.v ===== *)
(** * The virtual file system: [kernel/vfs/vfs.c]

    Paths, the cache of directory entries ([dentry_t]), mounting, and the dispatch of
    the operations on files to the file systems and drivers. *)
From S2P Require Import Prelude Bitfield Mmu Alloc Heap Hash Fs FsState Devices Ramfs Fat32.
Import Fs FsState Devices Ramfs Fat32.

Module Vfs.

(** ** State *)

Definition DENTRY_MAX_CHILREN_COUNT : Z := 8.
Definition DENTRY_MAX_NAME_LEN : Z := 16.
Definition SIZEOF_DENTRY : Z := 60.
Definition DENTRY_COUNT : Z := 72.

(** [child_count] is the length of [d_children]; NULL is 0.  An entry without inode is
    negative: it remembers that there is no such file. *)
Record dentry : Type := mkdentry {
  d_iname : name_t;
  d_inode : Z;
  d_parent : Z;
  d_children : list Z;
}.

(** [_vfs] and the entries in its section, by address. *)
Record vfs_t : Type := mkvfs {
  dentry_base : Z;
  dentry_bits : list Z;
  dentries : gmap Z dentry;
  root : Z;
}.

Record vstate : Type := mkvs {
  vs_fs : fs;
  vs_vfs : vfs_t;
}.

#[global] Program Instance has_vs_fs : Has vstate fs := {
  comp_get := vs_fs;
  comp_set c s := mkvs c (vs_vfs s);
}.
Solve All Obligations with by intros; repeat match goal with s : vstate |- _ => destruct s end.

#[global] Program Instance has_vs_vfs : Has vstate vfs_t := {
  comp_get := vs_vfs;
  comp_set c s := mkvs (vs_fs s) c;
}.
Solve All Obligations with by intros; repeat match goal with s : vstate |- _ => destruct s end.

Abbreviation MV := (M vstate).

(** An operation of the file systems. *)
Definition onfs {A} (m : MF A) : MV A := zoom m.

Definition get_dentry (p : Z) : MV dentry := λ s, deref (dentries (vs_vfs s) !! p) s.

Definition put_dentry (p : Z) (d : dentry) : MV unit := λ s,
  let v := vs_vfs s in
  Ret ((), mkvs (vs_fs s) (mkvfs (dentry_base v) (dentry_bits v) (<[p := d]> (dentries v)) (root v))).

Definition set_d_inode (i : Z) (d : dentry) : dentry :=
  mkdentry (d_iname d) i (d_parent d) (d_children d).

(** [dentry_t_x_72_bitfield_alloc] *)
Definition dentry_alloc : MV Z := λ s,
  let v := vs_vfs s in
  match Bitfield.bitfield_allocator_alloc (dentry_base v) SIZEOF_DENTRY (dentry_bits v)
          (DENTRY_COUNT / 8) with
  | Ret (p, bits) => Ret (p, mkvs (vs_fs s) (mkvfs (dentry_base v) bits (dentries v) (root v)))
  | Fatal r => Fatal r
  | Fault => Fault
  | Timeout => Timeout
  end.

(** ** Dispatch through the tables of functions *)

(** [dir->inode_ops->lookup(dir, name)]; a table or an entry that is NULL is a fatal
    error. *)
Definition inode_lookup (dir : Z) (name : name_t) : MF Z :=
  let* d := get_inode dir in
  match inode_ops d with
  | NO_INODE_OPS => fatal "parent->inode->inode_ops != NULL"
  | RAMFS_INODE_OPS => _ramfs_inode_lookup dir name
  | FAT32_INODE_OPS => _fat32fs_inode_lookup dir name
  end.

(** A call through a NULL pointer is undefined. *)
Definition inode_mknod (dir : Z) (name : name_t) (m dev : Z) : MF Z :=
  let* d := get_inode dir in
  match inode_ops d with
  | RAMFS_INODE_OPS => _ramfs_inode_mknod dir name m dev
  | _ => fault
  end.

Definition inode_mkdir (dir : Z) (name : name_t) (m : Z) : MF Z :=
  let* d := get_inode dir in
  match inode_ops d with
  | RAMFS_INODE_OPS => _ramfs_inode_mkdir dir name m
  | _ => fault
  end.

(** NULL when there is no such operation, as [vfs_file_open] has it. *)
Definition inode_create (dir : Z) (name : name_t) (m : Z) : MF Z :=
  let* d := get_inode dir in
  match inode_ops d with
  | RAMFS_INODE_OPS => _ramfs_inode_create dir name m
  | _ => ret 0
  end.

Definition sb_read_inode (sb n i : Z) : MF Z :=
  let* s := mget (A := super_block_t) sb in
  match sb_ops s with
  | RAMFS_SB_OPS => _ramfs_sb_read_inode sb n i
  | FAT32_SB_OPS => _fat32_sb_read_inode sb n i
  end.

Definition file_open (i : Z) : MF Z :=
  let* node := get_inode i in
  match file_ops node with
  | NO_FILE_OPS => fatal "inode->file_ops != NULL"
  | DEV_TTY_OPS | RAMFS_REG_FILE_OPS | RAMFS_DIR_FILE_OPS => default_file_open i
  | BLOCK_DEVICE_FILE_OPS => _block_device_open i
  | FAT32_FILE_OPS => _fat32_fs_reg_file_open i
  | FAT32_DIR_OPS => _fat32_fs_dir_open i
  end.

(** ** Looking up paths *)

Definition _dentry_is_fmt (p format : Z) : MV bool :=
  if p =? 0 then ret false
  else
    let* d := get_dentry p in
    if d_inode d =? 0 then ret false
    else
      let* node := onfs (get_inode (d_inode d)) in
      ret (fmt (mode node) =? format).

(** The first cached child of that name. *)
Fixpoint find_dentry (cs : list Z) (name : name_t) : MV (option Z) :=
  match cs with
  | [] => ret None
  | c :: cs =>
      let* d := get_dentry c in
      if streq name (d_iname d) then ret (Some c) else find_dentry cs name
  end.

Definition _vfs_dentry_child_by_name (parent : Z) (name : name_t) : MV Z :=
  let* p := get_dentry parent in
  let* found := find_dentry (d_children p) name in
  match found with
  | Some c => ret c
  | None =>
      let* child := onfs (inode_lookup (d_inode p) name) in
      let* new_dentry := dentry_alloc in
      if new_dentry =? 0 then fault
      else
        let* n := lift (strcpy_buf DENTRY_MAX_NAME_LEN name) in
        let* _ := put_dentry new_dentry (mkdentry n child parent []) in
        if Z.of_nat (length (d_children p)) =? DENTRY_MAX_CHILREN_COUNT then
          fatal "reached max dentry child cound"
        else
          let* _ := put_dentry parent (mkdentry (d_iname p) (d_inode p) (d_parent p)
                                         (d_children p ++ [new_dentry])) in
          ret new_dentry
  end.

(** [_strchr(path, '/')]: what is before the first separator and behind it. *)
Fixpoint split_path (path : name_t) : option (name_t * name_t) :=
  match path with
  | [] => None
  | c :: path =>
      if c =? 47 then Some ([], path)
      else match split_path path with
           | Some (name, rest) => Some (c :: name, rest)
           | None => None
           end
  end.

(** Every call has a shorter path. *)
Fixpoint _vfs_node_lookup_rec (fuel : nat) (p : Z) (path : name_t) : MV Z :=
  match fuel with
  | O => λ _, Timeout
  | S fuel =>
      match split_path path with
      | None =>
          match path with
          | [] => ret p
          | _ => _vfs_dentry_child_by_name p path
          end
      | Some (segment, rest) =>
          let* name := lift (strcpy_buf DENTRY_MAX_NAME_LEN segment) in
          let* child := _vfs_dentry_child_by_name p name in
          let* d := get_dentry child in
          if d_inode d =? 0 then ret 0
          else
            let* node := onfs (get_inode (d_inode d)) in
            if negb (fmt (mode node) =? S_IFDIR) then ret 0
            else _vfs_node_lookup_rec fuel child rest
      end
  end.

(** The assertion at the end of [_vfs_dentry_lookup]. *)
Definition lookup_result_ok (result : Z) : MV bool :=
  if result =? 0 then ret true
  else
    let* d := get_dentry result in
    if negb (d_inode d =? 0) then ret true
    else if d_parent d =? 0 then ret false
    else
      let* p := get_dentry (d_parent d) in
      if d_inode p =? 0 then ret false
      else
        let* node := onfs (get_inode (d_inode p)) in
        ret (fmt (mode node) =? S_IFDIR).

Definition _vfs_dentry_lookup (path : name_t) : MV Z :=
  match path with
  | 47 :: relative =>
      let* r := gets (λ s, root (vs_vfs s)) in
      let* result := _vfs_node_lookup_rec (S (length relative)) r relative in
      let* ok := lookup_result_ok result in
      let* _ := kassert ok "result == NULL || result->inode != NULL || ..." in
      ret result
  | _ => ret 0
  end.

(** ** Mounting *)

(** [device] is a pointer to a block device, NULL is 0. *)
Definition _sb_by_dev_fs_type (device : Z) (fstype : name_t) : MF Z :=
  if streq fstype (str "ramfs") then create_ramfs_super_block
  else if streq fstype (str "fat32") then
    let* _ := kassert (negb (device =? 0)) "device != NULL" in
    fat32_create_filesystem device
  else fatal "unknown fstype".

Definition _vfs_mount_dev (device target_dentry : Z) (fstype : name_t) : MV Z :=
  let* sb := onfs (_sb_by_dev_fs_type device fstype) in
  if sb =? 0 then ret (-1)
  else
    let* r := onfs (sb_alloc_inode sb) in
    let* _ := kassert (negb (r =? 0)) "root != NULL" in
    let* s := onfs (mget (A := super_block_t) sb) in
    let* load_status := onfs (sb_read_inode sb (root_ino s) r) in
    let* _ := kassert (load_status =? 0) "load_status == 0" in
    let* d := get_dentry target_dentry in
    let* _ := put_dentry target_dentry (mkdentry (d_iname d) r (d_parent d) []) in
    ret 0.

Definition vfs_mount_dev (device : Z) (target fstype : name_t) : MV Z :=
  let* target_dentry := _vfs_dentry_lookup target in
  let* ok := _dentry_is_fmt target_dentry S_IFDIR in
  if negb ok then ret (-1) else _vfs_mount_dev device target_dentry fstype.

(** [dev] is [None] for NULL. *)
Definition vfs_mount (dev : option name_t) (target fstype : name_t) : MV Z :=
  let* target_dentry := _vfs_dentry_lookup target in
  let* ok := _dentry_is_fmt target_dentry S_IFDIR in
  if negb ok then ret (-1)
  else
    match dev with
    | None => _vfs_mount_dev 0 target_dentry fstype
    | Some dev =>
        let* device_dentry := _vfs_dentry_lookup dev in
        let* ok := _dentry_is_fmt device_dentry S_IFBLK in
        if negb ok then ret (-1)
        else
          let* d := get_dentry device_dentry in
          let* node := onfs (get_inode (d_inode d)) in
          let* device := onfs (get_block_device (device node)) in
          _vfs_mount_dev device target_dentry fstype
    end.

(** [init_root_node] is the address of the static inode of that name. *)
Definition vfs_init (init_root_node : Z) (s : fs) :
    M SectionAllocator.section_allocator_t vstate :=
  let* base := SectionAllocator.section_allocator_alloc in
  if base =? 0 then fatal "vfs dentry memory section allocation failed"
  else
    let s := comp_set (<[init_root_node := mkinode 0 0 0 S_IFDIR 0 NO_FILE_OPS NO_INODE_OPS 0 0]>
                         (fs_inodes s)) s in
    let* r := lift (Bitfield.bitfield_allocator_alloc base SIZEOF_DENTRY
                      (replicate (Z.to_nat (DENTRY_COUNT / 8)) 0) (DENTRY_COUNT / 8)) in
    let '(root_dentry, bits) := r in
    ret (mkvs s (mkvfs base bits
      {[ root_dentry := mkdentry (str "root") init_root_node 0 [] ]} root_dentry)).

(** ** Making files and directories *)

(** The common part of [vfs_mknod] and [vfs_mkdir]: [make] gets the inode of the parent
    and the name. *)
Definition make_node (path : name_t) (make : Z → name_t → MF Z) : MV Z :=
  let* p := _vfs_dentry_lookup path in
  if p =? 0 then ret (-1)
  else
    let* d := get_dentry p in
    if negb (d_inode d =? 0) then ret (-1)
    else
      let* parent := get_dentry (d_parent d) in
      let* new_node := onfs (make (d_inode parent) (d_iname d)) in
      if new_node =? 0 then ret (-1)
      else
        let* _ := put_dentry p (set_d_inode new_node d) in
        ret 0.

Definition vfs_mknod (path : name_t) (m dev : Z) : MV Z :=
  make_node path (λ parent name, inode_mknod parent name m dev).

Definition vfs_mkdir (path : name_t) (m : Z) : MV Z :=
  make_node path (λ parent name, inode_mkdir parent name m).

(** ** Files *)

(** Reading the root's parent is undefined: the root has none. *)
Definition vfs_file_open (path : name_t) (flags m : Z) : MV Z :=
  let* p := _vfs_dentry_lookup path in
  if p =? 0 then ret 0
  else
    let* d := get_dentry p in
    let* parent := get_dentry (d_parent d) in
    let finish (i : Z) : MV Z :=
      let* _ := kassert (negb (i =? 0)) "inode != NULL" in
      let* node := onfs (get_inode i) in
      if flag flags O_DIRECTORY && negb (fmt (mode node) =? S_IFDIR) then ret 0
      else onfs (file_open i) in
    if d_inode d =? 0 then
      if flag flags O_CREAT && negb (flag flags O_DIRECTORY) then
        let* new_inode := onfs (inode_create (d_inode parent) (d_iname d) m) in
        if new_inode =? 0 then ret 0
        else
          let* _ := put_dentry p (set_d_inode new_inode d) in
          finish new_inode
      else ret 0
    else if flag flags O_EXCL then ret 0
    else finish (d_inode d).

Definition vfs_file_close (f : Z) : MF Z :=
  let* _ := kassert (negb (f =? 0)) "file != NULL" in
  let* file := get_file f in
  let* _ := kassert (negb (f_inode file =? 0)) "file->inode != NULL" in
  let* node := get_inode (f_inode file) in
  match file_ops node with
  | NO_FILE_OPS => fatal "file->inode->file_ops != NULL"
  | DEV_TTY_OPS | RAMFS_REG_FILE_OPS | RAMFS_DIR_FILE_OPS => default_file_release (f_inode file) f
  | BLOCK_DEVICE_FILE_OPS => _block_device_release (f_inode file) f
  | FAT32_FILE_OPS => _fat32_fs_reg_file_release (f_inode file) f
  | FAT32_DIR_OPS => _fat32_fs_dir_release (f_inode file) f
  end.

(** The table of an open file. *)
Definition ops_of (f : Z) : MF file_ops_t :=
  let* file := get_file f in
  let* node := get_inode (f_inode file) in
  ret (file_ops node).

(** The status, and the bytes read. *)
Definition vfs_file_read (f size : Z) : MF (Z * list Z) :=
  let* ops := ops_of f in
  match ops with
  | NO_FILE_OPS | RAMFS_DIR_FILE_OPS | FAT32_DIR_OPS => ret (-1, [])
  | DEV_TTY_OPS => _tty_mini_uart_read f size
  | BLOCK_DEVICE_FILE_OPS => _block_device_read f size
  | RAMFS_REG_FILE_OPS => _ramfs_reg_file_read f size
  | FAT32_FILE_OPS => _fat32_fs_reg_file_read f size
  end.

Definition vfs_file_readdir (f count : Z) : MF (Z * list dirent) :=
  let* ops := ops_of f in
  match ops with
  | RAMFS_DIR_FILE_OPS => _ramfs_dir_readdir f count
  | FAT32_DIR_OPS => _fat32_fs_dir_readdir f count
  | _ => ret (-1, [])
  end.

Definition vfs_file_write (f : Z) (data : list Z) : MF Z :=
  let* ops := ops_of f in
  match ops with
  | NO_FILE_OPS | RAMFS_DIR_FILE_OPS | FAT32_DIR_OPS => ret (-1)
  | DEV_TTY_OPS => _tty_mini_uart_write f data
  | BLOCK_DEVICE_FILE_OPS => _block_device_write f data
  | RAMFS_REG_FILE_OPS => _ramfs_reg_file_write f data
  | FAT32_FILE_OPS => _fat32_fs_reg_file_write f data
  end.

Definition vfs_file_lseek (f offset whence : Z) : MF Z :=
  let* ops := ops_of f in
  match ops with
  | NO_FILE_OPS | DEV_TTY_OPS => ret (-1)
  | BLOCK_DEVICE_FILE_OPS => _block_device_seek f offset whence
  | RAMFS_REG_FILE_OPS => _ramfs_reg_file_seek f offset whence
  | RAMFS_DIR_FILE_OPS => _ramfs_dir_file_seek f offset whence
  | FAT32_FILE_OPS => _fat32_fs_reg_file_seek f offset whence
  | FAT32_DIR_OPS => _fat32_fs_dir_file_seek f offset whence
  end.

(** [load_resource_as_file] of [utils.c] *)
Definition load_resource_as_file (path : name_t) (data : list Z) : MV unit :=
  let* f := vfs_file_open path O_CREAT S_IFREG in
  if f =? 0 then fatal "file creation failed"
  else
    let* loaded_size := onfs (vfs_file_write f data) in
    kassert (u32 loaded_size =? Z.of_nat (length data)) "(size_t)loaded_size == resource_size".

End Vfs.
