(* ===== verification/OpTables.v ===== *)
(** * The tables of operations

    The static [file_ops_t], [inode_ops_t], [super_block_ops_t] and [block_device_ops_t] of
    the file systems and drivers, field by field.  The dispatch functions of [Vfs] and
    [Devices] call what these tables hold, with the guards of [vfs.c] against NULL. *)
From S2P Require Import Prelude Bitfield Mmu Alloc Heap Hash Fs FsState Devices Ramfs Fat32 Vfs.
Import Fs FsState Devices Ramfs Fat32 Vfs.

Module OpTables.

(** ** Data

    A field is [None] for NULL. *)

(** [struct file_ops]; reading yields the status with the bytes or entries stored. *)
Record file_ops : Type := mkfops {
  fo_open : option (Z → MF Z);
  fo_release : option (Z → Z → MF Z);
  fo_read : option (Z → Z → MF (Z * list Z));
  fo_write : option (Z → list Z → MF Z);
  fo_seek : option (Z → Z → Z → MF Z);
  fo_readdir : option (Z → Z → MF (Z * list dirent));
}.

(** [struct inode_ops] *)
Record inode_ops : Type := mkiops {
  io_lookup : option (Z → name_t → MF Z);
  io_create : option (Z → name_t → Z → MF Z);
  io_mkdir : option (Z → name_t → Z → MF Z);
  io_mknod : option (Z → name_t → Z → Z → MF Z);
  io_link : option (Z → Z → name_t → MF Z);
  io_unlink : option (Z → name_t → MF Z);
  io_rmdir : option (Z → name_t → MF Z);
}.

(** [struct super_block_ops] *)
Record super_block_ops : Type := mksops {
  so_alloc_inode : Z → MF Z;
  so_free_inode : Z → Z → MF unit;
  so_read_inode : Z → Z → Z → MF Z;
  so_write_inode : Z → Z → MF Z;
}.

(** [struct block_device_ops], on the device's [private] *)
Record block_device_ops : Type := mkbops {
  bo_read_block : Z → Z → MF (Z * list Z);
  bo_write_block : Z → Z → list Z → MF Z;
}.

(** ** The tables *)

Definition dev_tty_ops : file_ops := {|
  fo_open := Some default_file_open;
  fo_release := Some default_file_release;
  fo_read := Some _tty_mini_uart_read;
  fo_write := Some _tty_mini_uart_write;
  fo_seek := None;
  fo_readdir := None;
|}.

Definition block_device_file_ops : file_ops := {|
  fo_open := Some _block_device_open;
  fo_release := Some _block_device_release;
  fo_read := Some _block_device_read;
  fo_write := Some _block_device_write;
  fo_seek := Some _block_device_seek;
  fo_readdir := None;
|}.

Definition _ramfs_reg_file_ops : file_ops := {|
  fo_open := Some default_file_open;
  fo_release := Some default_file_release;
  fo_read := Some _ramfs_reg_file_read;
  fo_write := Some _ramfs_reg_file_write;
  fo_seek := Some _ramfs_reg_file_seek;
  fo_readdir := None;
|}.

Definition _ramfs_dir_file_ops : file_ops := {|
  fo_open := Some default_file_open;
  fo_release := Some default_file_release;
  fo_read := None;
  fo_write := None;
  fo_seek := Some _ramfs_dir_file_seek;
  fo_readdir := Some _ramfs_dir_readdir;
|}.

Definition _fat32_fs_reg_file_ops : file_ops := {|
  fo_open := Some _fat32_fs_reg_file_open;
  fo_release := Some _fat32_fs_reg_file_release;
  fo_read := Some _fat32_fs_reg_file_read;
  fo_write := Some _fat32_fs_reg_file_write;
  fo_seek := Some _fat32_fs_reg_file_seek;
  fo_readdir := None;
|}.

Definition _fat32_fs_dir_file_ops : file_ops := {|
  fo_open := Some _fat32_fs_dir_open;
  fo_release := Some _fat32_fs_dir_release;
  fo_read := None;
  fo_write := None;
  fo_seek := Some _fat32_fs_dir_file_seek;
  fo_readdir := Some _fat32_fs_dir_readdir;
|}.

Definition _ramfs_inode_ops : inode_ops := {|
  io_lookup := Some _ramfs_inode_lookup;
  io_create := Some _ramfs_inode_create;
  io_mkdir := Some _ramfs_inode_mkdir;
  io_mknod := Some _ramfs_inode_mknod;
  io_link := Some _ramfs_inode_link;
  io_unlink := Some _ramfs_inode_unlink;
  io_rmdir := Some _ramfs_inode_rmdir;
|}.

Definition _fat32_fs_inode_ops : inode_ops := {|
  io_lookup := Some _fat32fs_inode_lookup;
  io_create := None;
  io_mkdir := None;
  io_mknod := None;
  io_link := None;
  io_unlink := None;
  io_rmdir := None;
|}.

Definition _ramfs_sb_ops : super_block_ops := {|
  so_alloc_inode := _ramfs_sb_alloc_inode;
  so_free_inode := _ramfs_sb_free_inode;
  so_read_inode := _ramfs_sb_read_inode;
  so_write_inode := _ramfs_sb_write_inode;
|}.

Definition _fat32fs_sb_ops : super_block_ops := {|
  so_alloc_inode := _fat32_sb_alloc_inode;
  so_free_inode := _fat32_sb_free_inode;
  so_read_inode := _fat32_sb_read_inode;
  so_write_inode := _fat32_sb_write_inode;
|}.

Definition _section_ramdisk_ops : block_device_ops := {|
  bo_read_block := _section_ramdisk_read_block;
  bo_write_block := _section_ramdisk_write_block;
|}.

(** The card's functions ignore [private]. *)
Definition _sdcard_disk_ops : block_device_ops := {|
  bo_read_block := λ _, _sdcard_disk_read_block;
  bo_write_block := λ _, _sdcard_disk_write_block;
|}.

(** ** The tables the objects point to *)

Definition file_table (ops : file_ops_t) : option file_ops :=
  match ops with
  | NO_FILE_OPS => None
  | DEV_TTY_OPS => Some dev_tty_ops
  | BLOCK_DEVICE_FILE_OPS => Some block_device_file_ops
  | RAMFS_REG_FILE_OPS => Some _ramfs_reg_file_ops
  | RAMFS_DIR_FILE_OPS => Some _ramfs_dir_file_ops
  | FAT32_FILE_OPS => Some _fat32_fs_reg_file_ops
  | FAT32_DIR_OPS => Some _fat32_fs_dir_file_ops
  end.

Definition inode_table (ops : inode_ops_t) : option inode_ops :=
  match ops with
  | NO_INODE_OPS => None
  | RAMFS_INODE_OPS => Some _ramfs_inode_ops
  | FAT32_INODE_OPS => Some _fat32_fs_inode_ops
  end.

Definition super_block_table (ops : super_block_ops_t) : super_block_ops :=
  match ops with
  | RAMFS_SB_OPS => _ramfs_sb_ops
  | FAT32_SB_OPS => _fat32fs_sb_ops
  end.

Definition block_device_table (ops : block_device_ops_t) : option block_device_ops :=
  match ops with
  | NO_BLOCK_OPS => None
  | SECTION_RAMDISK_OPS => Some _section_ramdisk_ops
  | SDCARD_DISK_OPS => Some _sdcard_disk_ops
  end.

(** A field of the table, [None] when the table or the field is NULL. *)
Definition entry {T A} (table : option T) (field : T → option A) : option A :=
  match table with
  | Some t => field t
  | None => None
  end.

(** [char_device_t]: [_char_devices[major][minor]] *)
Definition _char_devices (major minor : Z) : option file_ops_t :=
  if (major =? 0) && (minor =? 0) then Some DEV_TTY_OPS else None.

(** ** The calls of [vfs.c] through the tables *)

Definition file_field {A} (f : Z) (field : file_ops → option A) : MF (option A) :=
  let* file := get_file f in
  let* node := get_inode (f_inode file) in
  ret (entry (file_table (Fs.file_ops node)) field).

Lemma bind_cong {S A B} (m : M S A) (f g : A → M S B) s : (∀ a s', f a s' = g a s') → bind m f s = bind m g s.
Proof. intros H. unfold bind. destruct (m s) as [[a s']| | |]; done. Qed.

Lemma ops_field {A B} f (field : file_ops → option A) (k : option A → MF B) s :
  bind (file_field f field) k s = bind (ops_of f) (λ ops, k (entry (file_table ops) field)) s.
Proof.
  unfold file_field, ops_of, bind, ret. destruct (get_file f s) as [[file s1]| | |]; try done.
  by destruct (get_inode (f_inode file) s1) as [[node s2]| | |].
Qed.

(** [vfs_file_read], [readdir], [write] and [lseek] call the field of the file's table, and
    return -1 when there is none. *)
Theorem vfs_file_dispatch s f :
  (∀ n, vfs_file_read f n s =
    (let* op := file_field f fo_read in
     match op with Some read => read f n | None => ret (-1, []) end) s) ∧
  (∀ n, vfs_file_readdir f n s =
    (let* op := file_field f fo_readdir in
     match op with Some readdir => readdir f n | None => ret (-1, []) end) s) ∧
  (∀ data, vfs_file_write f data s =
    (let* op := file_field f fo_write in
     match op with Some write => write f data | None => ret (-1) end) s) ∧
  (∀ o w, vfs_file_lseek f o w s =
    (let* op := file_field f fo_seek in
     match op with Some seek => seek f o w | None => ret (-1) end) s).
Proof. split_and!; intros *; rewrite ops_field; apply bind_cong; by intros []. Qed.

(** Opening and closing assert that there is a table with the operation. *)
Theorem vfs_open_dispatch s i f :
  file_open i s =
    (let* node := get_inode i in
     match entry (file_table (Fs.file_ops node)) fo_open with
     | Some open => open i
     | None => fatal "inode->file_ops != NULL"
     end) s ∧
  vfs_file_close f s =
    (let* _ := kassert (negb (f =? 0)) "file != NULL" in
     let* file := get_file f in
     let* _ := kassert (negb (f_inode file =? 0)) "file->inode != NULL" in
     let* node := get_inode (f_inode file) in
     match entry (file_table (Fs.file_ops node)) fo_release with
     | Some release => release (f_inode file) f
     | None => fatal "file->inode->file_ops != NULL"
     end) s.
Proof.
  split; [|unfold vfs_file_close; do 3 (apply bind_cong; intros ??)];
    apply bind_cong; intros node ?; by destruct (Fs.file_ops node).
Qed.

(** Lookups assert that there is a table, [open] fails without [create], and calling
    [mkdir] and [mknod] through NULL is undefined. *)
Theorem inode_dispatch s dir name m dev :
  inode_lookup dir name s =
    (let* d := get_inode dir in
     match entry (inode_table (Fs.inode_ops d)) io_lookup with
     | Some lookup => lookup dir name
     | None => fatal "parent->inode->inode_ops != NULL"
     end) s ∧
  inode_create dir name m s =
    (let* d := get_inode dir in
     match entry (inode_table (Fs.inode_ops d)) io_create with
     | Some make => make dir name m
     | None => ret 0
     end) s ∧
  inode_mkdir dir name m s =
    (let* d := get_inode dir in
     match entry (inode_table (Fs.inode_ops d)) io_mkdir with
     | Some make => make dir name m
     | None => fault
     end) s ∧
  inode_mknod dir name m dev s =
    (let* d := get_inode dir in
     match entry (inode_table (Fs.inode_ops d)) io_mknod with
     | Some make => make dir name m dev
     | None => fault
     end) s.
Proof. split_and!; apply bind_cong; intros d ?; by destruct (Fs.inode_ops d). Qed.

Theorem super_block_dispatch s sb n i :
  sb_alloc_inode sb s =
    (let* b := mget (A := super_block_t) sb in so_alloc_inode (super_block_table (sb_ops b)) sb) s ∧
  sb_read_inode sb n i s =
    (let* b := mget (A := super_block_t) sb in so_read_inode (super_block_table (sb_ops b)) sb n i) s.
Proof. split; apply bind_cong; intros b ?; by destruct (sb_ops b). Qed.

Theorem block_device_dispatch s device i :
  read_block device i s =
    match block_device_table (blk_ops device) with
    | Some t => bo_read_block t (blk_private device) i s
    | None => Fault
    end.
Proof. unfold read_block. by destruct (blk_ops device). Qed.

(** The registry of character devices gives an entry of its array. *)
Theorem char_device_dispatch s dev r s' : get_char_device dev s = Ret (r, s') →
  s' = s ∧ r = (if DEV_MAJOR dev >=? CHAR_DEV_MAJOR_COUNT then None
                else _char_devices (DEV_MAJOR dev) (DEV_MINOR dev)).
Proof.
  unfold get_char_device, kassert. destruct (Z.geb_spec (DEV_MAJOR dev) CHAR_DEV_MAJOR_COUNT) as [|Hlt].
  { intros [= <- <-]. done. }
  destruct (Z.eqb_spec (DEV_MINOR dev) 0) as [->|]; [|done]. intros [= <- <-].
  assert (0 ≤ DEV_MAJOR dev) by (unfold DEV_MAJOR, u16; lia).
  assert (DEV_MAJOR dev = 0) as -> by (unfold CHAR_DEV_MAJOR_COUNT in *; lia). done.
Qed.
End OpTables.
