(* ===== verification/VfsSpec.v ===== *)
(** * What the virtual file system promises

    The cache of directory entries is a well-formed tree, looking a name up fills it,
    and files created in a RAM file system read back what is written to them. *)
From S2P Require Import Prelude Bitfield Mmu Alloc Heap Hash Fs FsState Devices Ramfs RamfsSpec Fat32 Vfs.
Import Fs FsState Devices Ramfs RamfsSpec Fat32 Vfs.

Module VfsSpec.

(** ** The tree of directory entries *)

Definition owned (v : vfs_t) (p : Z) : bool :=
  Slots.owned (dentry_base v) SIZEOF_DENTRY (dentry_bits v) p.

Record vfs_wf (v : vfs_t) : Prop := {
  vw_bits : Bitfield.wf 9 (dentry_bits v);
  vw_base : 0 < dentry_base v ∧ dentry_base v + 72 * SIZEOF_DENTRY < 0x100000000;
  (** every entry is in a slot that was handed out *)
  vw_owned : ∀ p, is_Some (dentries v !! p) → owned v p = true;
  vw_root : is_Some (dentries v !! root v);
  (** a child knows its parent, and a parent is an entry *)
  vw_child : ∀ p d c, dentries v !! p = Some d → c ∈ d_children d →
    ∃ dc, dentries v !! c = Some dc ∧ d_parent dc = p;
  vw_parent : ∀ p d, dentries v !! p = Some d →
    d_parent d = 0 ∨ is_Some (dentries v !! d_parent d);
  (** no more children than the array has room for, and names that fit *)
  vw_bound : ∀ p d, dentries v !! p = Some d →
    (length (d_children d) ≤ 8)%nat ∧ (length (d_iname d) ≤ 15)%nat;
}.

Lemma vfs_null v : vfs_wf v → dentries v !! 0 = None.
Proof.
  intros Hwf. apply eq_None_not_Some. intros H%(vw_owned v Hwf).
  unfold owned in H. rewrite Slots.owned_null in H; [done|]. by apply (vw_base v Hwf).
Qed.

Lemma get_dentry_run s p d : dentries (vs_vfs s) !! p = Some d → get_dentry p s = Ret (d, s).
Proof. intros H. unfold get_dentry. by rewrite H. Qed.

(** Changing the inode or the children of an entry. *)
Lemma vfs_wf_put v p d d' :
  vfs_wf v → dentries v !! p = Some d → d_parent d' = d_parent d → d_iname d' = d_iname d →
  (length (d_children d') ≤ 8)%nat →
  (∀ c, c ∈ d_children d' → c ∈ d_children d ∨
     ∃ dc, dentries v !! c = Some dc ∧ d_parent dc = p) →
  vfs_wf (mkvfs (dentry_base v) (dentry_bits v) (<[p := d']> (dentries v)) (root v)).
Proof.
  intros [Hb Hba Ho Hr Hc Hp Hbd] Hpd Hpar Hname Hlen Hch. split; simpl; try done.
  - intros q Hq. apply Ho. destruct (decide (q = p)) as [->|]; [by eauto|].
    by rewrite lookup_insert_ne in Hq.
  - destruct (decide (root v = p)) as [->|]; [rewrite lookup_insert_eq; by eauto|].
    by rewrite lookup_insert_ne.
  - assert (∀ q c, (∃ dc, dentries v !! c = Some dc ∧ d_parent dc = q) →
      ∃ dc, <[p := d']> (dentries v) !! c = Some dc ∧ d_parent dc = q) as Hlift.
    { intros q c (dc & Hdc & Hq). destruct (decide (c = p)) as [->|].
      - rewrite lookup_insert_eq. exists d'. split; [done|]. by simplify_eq.
      - rewrite lookup_insert_ne by done. eauto. }
    intros q dq c Hq Hcq. apply Hlift.
    apply lookup_insert_Some in Hq as [[<- <-]|[? Hq]]; [|by eapply Hc].
    apply Hch in Hcq as [Hcq|?]; [by eapply Hc|done].
  - intros q dq Hq.
    assert (∀ x, is_Some (dentries v !! x) → is_Some (<[p := d']> (dentries v) !! x)) as Hlift.
    { intros x Hx. destruct (decide (x = p)) as [->|];
        [rewrite lookup_insert_eq; by eauto|by rewrite lookup_insert_ne]. }
    apply lookup_insert_Some in Hq as [[<- <-]|[? Hq]].
    + rewrite Hpar. destruct (Hp _ _ Hpd); auto.
    + destruct (Hp _ _ Hq); auto.
  - intros q dq Hq. apply lookup_insert_Some in Hq as [[<- <-]|[? Hq]]; [|by eapply Hbd].
    rewrite Hname. split; [done|]. by eapply Hbd.
Qed.

(** A free slot for one more entry. *)
Definition has_slot (v : vfs_t) : Prop := ∃ j, 0 ≤ j < 72 ∧ Bitfield.used (dentry_bits v) j = false.

Lemma dentry_alloc_run s : vfs_wf (vs_vfs s) →
  ∃ p bits, let v := vs_vfs s in
    dentry_alloc s = Ret (p, mkvs (vs_fs s) (mkvfs (dentry_base v) bits (dentries v) (root v))) ∧
    Bitfield.wf 9 bits ∧
    ((p = 0 ∧ bits = dentry_bits v ∧ ¬ has_slot v) ∨
     (p ≠ 0 ∧ dentries v !! p = None ∧
      ∀ q, Slots.owned (dentry_base v) SIZEOF_DENTRY bits q = owned v q || (q =? p))).
Proof.
  intros Hwf. destruct (vw_base _ Hwf) as [Hb1 Hb2].
  destruct (Bitfield.acquire_spec 9 _ (vw_bits _ Hwf)) as (i & bits & E & Hwf' & Hpost).
  unfold dentry_alloc, Bitfield.bitfield_allocator_alloc.
  change (DENTRY_COUNT / 8) with 9. rewrite E. cbn [obind].
  destruct Hpost as [(-> & -> & Hfull)|(Hi & Hfree & _ & Hset)].
  - exists 0, (dentry_bits (vs_vfs s)). split; [done|]. split; [done|]. left. split; [done|].
    split; [done|]. intros (j & Hj & Hu). rewrite Hfull in Hu; [done|lia].
  - rewrite (proj2 (Z.ltb_ge i 0)), u32_small by (unfold SIZEOF_DENTRY in *; lia).
    eexists _, bits. split; [done|]. split; [done|]. right.
    assert (∀ q, Slots.owned (dentry_base (vs_vfs s)) SIZEOF_DENTRY bits q =
      owned (vs_vfs s) q || (q =? dentry_base (vs_vfs s) + i * SIZEOF_DENTRY)) as Ho
      by (intros q; apply Slots.owned_acquire; [done|unfold SIZEOF_DENTRY in *; lia|done]).
    split_and!; [unfold SIZEOF_DENTRY in *; lia| |done].
    apply eq_None_not_Some. intros H%(vw_owned _ Hwf). unfold owned in H.
    rewrite Slots.owned_slot in H by (unfold SIZEOF_DENTRY; lia). congruence.
Qed.

(** The first child of that name, without a search of the file system. *)
Fixpoint cached (v : vfs_t) (cs : list Z) (name : name_t) : option Z :=
  match cs with
  | [] => None
  | c :: cs =>
      match dentries v !! c with
      | Some d => if streq name (d_iname d) then Some c else cached v cs name
      | None => None
      end
  end.

Lemma find_dentry_run s cs name :
  (∀ c, c ∈ cs → is_Some (dentries (vs_vfs s) !! c)) →
  find_dentry cs name s = Ret (cached (vs_vfs s) cs name, s).
Proof.
  induction cs as [|c cs IH]; intros H; [done|]. cbn [find_dentry cached].
  destruct (H c) as [d Hd]; [apply list_elem_of_here|].
  rewrite (bind_Ret _ _ _ _ _ (get_dentry_run _ _ _ Hd)), Hd.
  destruct (streq _ _); [done|]. apply IH. intros c' Hc'. by apply H, list_elem_of_further.
Qed.

Lemma children_exist v p d : vfs_wf v → dentries v !! p = Some d →
  ∀ c, c ∈ d_children d → is_Some (dentries v !! c).
Proof. intros Hwf Hd c Hc. destruct (vw_child v Hwf _ _ _ Hd Hc) as (dc & -> & _). eauto. Qed.

Lemma cached_app v cs name c d :
  (∀ c, c ∈ cs → is_Some (dentries v !! c)) → cached v cs name = None →
  dentries v !! c = Some d → d_iname d = name → cached v (cs ++ [c]) name = Some c.
Proof.
  intros Hcs Hn Hc Hname. induction cs as [|c' cs IH]; simpl in *.
  - rewrite Hc, Hname. unfold streq. by rewrite bool_decide_eq_true_2.
  - destruct (Hcs c') as [d' Hd']; [apply list_elem_of_here|]. rewrite Hd' in *.
    destruct (streq _ _); [done|]. apply IH; [|done].
    intros x Hx. by apply Hcs, list_elem_of_further.
Qed.

Lemma cached_ext v v' cs name :
  (∀ c, c ∈ cs → d_iname <$> dentries v' !! c = d_iname <$> dentries v !! c) →
  cached v' cs name = cached v cs name.
Proof.
  induction cs as [|c cs IH]; intros H; simpl; [done|].
  pose proof (H c ltac:(apply list_elem_of_here)) as Hc.
  rewrite IH by (intros x Hx; by apply H, list_elem_of_further).
  destruct (dentries v' !! c), (dentries v !! c); simpl in Hc; try discriminate; [|done].
  injection Hc as ->. done.
Qed.

(** A new entry [c] named [name] below [parent]. *)
Definition add_dentry (v : vfs_t) (bits : list Z) (parent : Z) (d : dentry) (c : Z)
    (name : name_t) (i : Z) : vfs_t :=
  mkvfs (dentry_base v) bits
    (<[parent := mkdentry (d_iname d) (d_inode d) (d_parent d) (d_children d ++ [c])]>
       (<[c := mkdentry name i parent []]> (dentries v))) (root v).

Lemma vfs_wf_add v bits parent d c name i :
  vfs_wf v → dentries v !! parent = Some d → dentries v !! c = None → c ≠ 0 →
  Bitfield.wf 9 bits →
  (∀ q, Slots.owned (dentry_base v) SIZEOF_DENTRY bits q = owned v q || (q =? c)) →
  (length name ≤ 15)%nat → (length (d_children d) < 8)%nat →
  vfs_wf (add_dentry v bits parent d c name i).
Proof.
  intros Hwf Hd Hc Hc0 Hbits Ho Hname Hlen.
  assert (vfs_wf (mkvfs (dentry_base v) bits (<[c := mkdentry name i parent []]> (dentries v))
            (root v))) as Hwf1.
  { destruct Hwf as [Hb Hba Hown Hr Hch Hp Hbd].
    assert (∀ x, is_Some (dentries v !! x) →
      is_Some (<[c := mkdentry name i parent []]> (dentries v) !! x)) as Hlift.
    { intros x Hx. rewrite lookup_insert_ne; [done|]. intros <-. rewrite Hc in Hx.
      by destruct Hx. }
    split; simpl; try done; auto.
    - intros q Hq. unfold owned. simpl. rewrite Ho. destruct (decide (q = c)) as [->|].
      + by rewrite Z.eqb_refl, orb_true_r.
      + rewrite lookup_insert_ne in Hq by done. by rewrite Hown.
    - intros q dq x Hq Hx. apply lookup_insert_Some in Hq as [[<- <-]|[? Hq]].
      + by apply elem_of_nil in Hx.
      + destruct (Hch _ _ _ Hq Hx) as (dx & Hdx & ?). exists dx. split; [|done].
        rewrite lookup_insert_ne; [done|]. congruence.
    - intros q dq Hq. apply lookup_insert_Some in Hq as [[<- <-]|[? Hq]]; simpl.
      + right. apply Hlift. eauto.
      + destruct (Hp _ _ Hq); auto.
    - intros q dq Hq. apply lookup_insert_Some in Hq as [[<- <-]|[? Hq]]; [|by eapply Hbd].
      simpl. split; [lia|done]. }
  assert (c ≠ parent) as Hne by congruence.
  apply (vfs_wf_put _ parent d _ Hwf1); simpl; try done.
  - by rewrite lookup_insert_ne.
  - rewrite length_app. simpl. lia.
  - intros x [Hx|Hx%list_elem_of_singleton]%elem_of_app; [by left|right]. subst x.
    rewrite lookup_insert_eq. eauto.
Qed.

(** A name that was looked up before. *)
Lemma child_hit s p d name c : vfs_wf (vs_vfs s) → dentries (vs_vfs s) !! p = Some d →
  cached (vs_vfs s) (d_children d) name = Some c →
  _vfs_dentry_child_by_name p name s = Ret (c, s).
Proof.
  intros Hwf Hd Hc. unfold _vfs_dentry_child_by_name.
  rewrite (bind_Ret _ _ _ _ _ (get_dentry_run _ _ _ Hd)).
  rewrite (bind_Ret _ _ _ _ _ (find_dentry_run s _ name (children_exist _ _ _ Hwf Hd))).
  by rewrite Hc.
Qed.

(** A new name: the file system's answer [i] goes into a new entry [c]. *)
Lemma child_miss s parent d name i fs' :
  vfs_wf (vs_vfs s) → dentries (vs_vfs s) !! parent = Some d →
  cached (vs_vfs s) (d_children d) name = None →
  inode_lookup (d_inode d) name (vs_fs s) = Ret (i, fs') →
  (length name ≤ 15)%nat → (length (d_children d) < 8)%nat → has_slot (vs_vfs s) →
  ∃ c bits, let v' := add_dentry (vs_vfs s) bits parent d c name i in
    _vfs_dentry_child_by_name parent name s = Ret (c, mkvs fs' v') ∧
    vfs_wf v' ∧ dentries (vs_vfs s) !! c = None ∧ c ≠ 0 ∧
    cached v' (d_children d ++ [c]) name = Some c ∧
    ∀ q, Slots.owned (dentry_base (vs_vfs s)) SIZEOF_DENTRY bits q = owned (vs_vfs s) q || (q =? c).
Proof.
  intros Hwf Hd Hc Hl Hname Hlen Hslot.
  set (s1 := mkvs fs' (vs_vfs s)).
  destruct (dentry_alloc_run s1 Hwf) as (c & bits & E & Hbits & [(_ & _ & Hno)|(Hc0 & Hfree & Ho)]);
    [by destruct Hno|].
  exists c, bits. set (v' := add_dentry _ _ _ _ _ _ _).
  assert (c ≠ parent) as Hne by (simpl in Hfree; congruence).
  split_and!; [|by apply vfs_wf_add|done|done| |done].
  - unfold _vfs_dentry_child_by_name, onfs.
    rewrite (bind_Ret _ _ _ _ _ (get_dentry_run _ _ _ Hd)).
    rewrite (bind_Ret _ _ _ _ _ (find_dentry_run s _ name (children_exist _ _ _ Hwf Hd))), Hc.
    rewrite (bind_Ret _ _ _ _ _ (zoom_Ret (S := vstate) _ s _ _ Hl)).
    change (comp_set fs' s) with s1. rewrite (bind_Ret _ _ _ _ _ E).
    rewrite (proj2 (Z.eqb_neq c 0)) by done. unfold strcpy_buf.
    change DENTRY_MAX_NAME_LEN with 16. rewrite (proj2 (Z.leb_le _ _)) by lia.
    erewrite bind_Ret by done. erewrite bind_Ret by done.
    change DENTRY_MAX_CHILREN_COUNT with 8. rewrite (proj2 (Z.eqb_neq _ 8)) by lia.
    erewrite bind_Ret by done. done.
  - apply (cached_app _ _ _ _ (mkdentry name i parent [])); [| | |done].
    + intros x Hx. destruct (children_exist _ _ _ Hwf Hd x Hx) as [dx Hdx]. simpl.
      destruct (decide (x = parent)) as [->|]; [rewrite lookup_insert_eq; eauto|].
      rewrite lookup_insert_ne by done. rewrite lookup_insert_ne; [eauto|].
      simpl in Hfree. congruence.
    + rewrite <- Hc. apply cached_ext. intros x Hx.
      destruct (children_exist _ _ _ Hwf Hd x Hx) as [dx Hdx]. simpl in Hfree |- *.
      destruct (decide (x = parent)) as [->|]; [rewrite lookup_insert_eq; by rewrite Hd|].
      rewrite lookup_insert_ne by done. rewrite lookup_insert_ne; [done|congruence].
    + simpl. rewrite lookup_insert_ne by done. by rewrite lookup_insert_eq.
Qed.

(** Looking a name up in a directory entry.  A name that was looked up before is
    found without asking the file system and changes nothing.  For a new name the file
    system's answer is remembered in a new entry, negative if there is no such file; the
    tree stays well-formed, no other entry changes, and the next lookup of the name finds
    the entry. *)
Theorem dentry_child_correct s parent d name :
  vfs_wf (vs_vfs s) → dentries (vs_vfs s) !! parent = Some d →
  match cached (vs_vfs s) (d_children d) name with
  | Some c => _vfs_dentry_child_by_name parent name s = Ret (c, s)
  | None =>
      ∀ i fs', inode_lookup (d_inode d) name (vs_fs s) = Ret (i, fs') →
      (length name ≤ 15)%nat → (length (d_children d) < 8)%nat → has_slot (vs_vfs s) →
      ∃ c bits, let s' := mkvs fs' (add_dentry (vs_vfs s) bits parent d c name i) in
        _vfs_dentry_child_by_name parent name s = Ret (c, s') ∧
        vfs_wf (vs_vfs s') ∧ dentries (vs_vfs s) !! c = None ∧ c ≠ 0 ∧
        _vfs_dentry_child_by_name parent name s' = Ret (c, s')
  end.
Proof.
  intros Hwf Hd. destruct (cached _ _ _) as [c|] eqn:Hc; [by eapply child_hit|].
  intros i fs' Hl Hname Hlen Hslot.
  destruct (child_miss s parent d name i fs' Hwf Hd Hc Hl Hname Hlen Hslot)
    as (c & bits & E & Hwf' & Hnew & Hc0 & Hcached & _).
  exists c, bits. split_and!; try done.
  eapply child_hit; [done|simpl; by rewrite lookup_insert_eq|done].
Qed.

(** *** The tree stays well-formed *)

Lemma onfs_inv {A} (m : MF A) s r : onfs m s = Ret r →
  ∃ a fs', m (vs_fs s) = Ret (a, fs') ∧ r = (a, mkvs fs' (vs_vfs s)).
Proof.
  unfold onfs, zoom. simpl. destruct (m (vs_fs s)) as [[a fs']| | |]; intros H; try discriminate.
  injection H as <-. eauto.
Qed.

Lemma get_dentry_inv s p r : get_dentry p s = Ret r →
  ∃ d, dentries (vs_vfs s) !! p = Some d ∧ r = (d, s).
Proof.
  unfold get_dentry, deref. destruct (dentries (vs_vfs s) !! p) as [d|]; [|discriminate].
  intros [= <-]. eauto.
Qed.

(** The entries of [v] are still there, in [v']. *)
Definition tree_grew (v v' : vfs_t) : Prop :=
  vfs_wf v' ∧ root v' = root v ∧ ∀ p, is_Some (dentries v !! p) → is_Some (dentries v' !! p).

Lemma tree_grew_refl v : vfs_wf v → tree_grew v v.
Proof. intros. by split_and!. Qed.

Lemma tree_grew_trans v v1 v2 : tree_grew v v1 → tree_grew v1 v2 → tree_grew v v2.
Proof. intros (_ & H1 & H2) (? & H3 & H4). split_and!; [done|congruence|auto]. Qed.

Lemma child_by_name_wf s parent name c s' :
  vfs_wf (vs_vfs s) → _vfs_dentry_child_by_name parent name s = Ret (c, s') →
  tree_grew (vs_vfs s) (vs_vfs s') ∧ is_Some (dentries (vs_vfs s') !! c).
Proof.
  intros Hwf H. unfold _vfs_dentry_child_by_name in H.
  apply bind_inv in H as (d & s1 & H1 & H). apply get_dentry_inv in H1 as (d' & Hd & [= <- ->]).
  rewrite (bind_Ret _ _ _ _ _ (find_dentry_run s _ name (children_exist _ _ _ Hwf Hd))) in H.
  destruct (cached _ _ _) as [c'|] eqn:Hc.
  { injection H as <- <-. split; [by apply tree_grew_refl|].
    clear -Hc. induction (d_children d) as [|x l IH]; simpl in Hc; [done|].
    destruct (dentries _ !! x) as [dx|] eqn:Hx; [|done].
    destruct (streq _ _); [|auto]. injection Hc as <-. eauto. }
  apply bind_inv in H as (i & s1 & H1 & H). apply onfs_inv in H1 as (i' & fs' & _ & [= <- ->]).
  destruct (dentry_alloc_run (mkvs fs' (vs_vfs s)) Hwf) as (p & bits & E & Hbits & Hp).
  rewrite (bind_Ret _ _ _ _ _ E) in H.
  destruct (Z.eqb_spec p 0) as [->|Hp0]; [discriminate|].
  destruct Hp as [(-> & _)|(_ & Hfree & Ho)]; [done|].
  apply bind_inv in H as (n & s1 & H1 & H). apply lift_Ret in H1 as [H1 ->].
  unfold strcpy_buf in H1. destruct (Z.leb_spec (Z.of_nat (length name) + 1) DENTRY_MAX_NAME_LEN);
    [|discriminate]. injection H1 as <-.
  erewrite bind_Ret in H by done. unfold DENTRY_MAX_NAME_LEN, DENTRY_MAX_CHILREN_COUNT in *.
  pose proof (proj1 (vw_bound _ Hwf _ _ Hd)).
  destruct (Z.eqb_spec (Z.of_nat (length (d_children d))) 8); [discriminate|].
  erewrite bind_Ret in H by done. injection H as <- <-.
  assert (p ≠ parent) by (simpl in Hfree; congruence).
  split; [split; [|split; [done|]]|].
  - exact (vfs_wf_add (vs_vfs s) bits parent d p name i Hwf Hd Hfree Hp0 Hbits Ho ltac:(lia) ltac:(lia)).
  - intros q Hq. simpl. destruct (decide (q = parent)) as [->|];
      [rewrite lookup_insert_eq; eauto|rewrite lookup_insert_ne by done].
    destruct (decide (q = p)) as [->|]; [rewrite lookup_insert_eq; eauto|].
    by rewrite lookup_insert_ne.
  - simpl. rewrite lookup_insert_ne, lookup_insert_eq by done. eauto.
Qed.

Lemma lookup_rec_wf fuel : ∀ s p path r s',
  vfs_wf (vs_vfs s) → is_Some (dentries (vs_vfs s) !! p) →
  _vfs_node_lookup_rec fuel p path s = Ret (r, s') →
  tree_grew (vs_vfs s) (vs_vfs s') ∧ (r ≠ 0 → is_Some (dentries (vs_vfs s') !! r)).
Proof.
  induction fuel as [|fuel IH]; intros s p path r s' Hwf Hp H; [discriminate|].
  cbn [_vfs_node_lookup_rec] in H. destruct (split_path path) as [[seg rest]|].
  - apply bind_inv in H as (n & s1 & H1 & H). apply lift_Ret in H1 as [_ ->].
    apply bind_inv in H as (c & s1 & H1 & H).
    apply child_by_name_wf in H1 as [Hg1 Hc]; [|done].
    apply bind_inv in H as (d & s2 & H2 & H). apply get_dentry_inv in H2 as (d' & Hd & [= <- ->]).
    destruct (d_inode d =? 0); [injection H as <- <-; by split|].
    apply bind_inv in H as (node & s2 & H2 & H).
    apply onfs_inv in H2 as (node' & fs' & _ & [= <- ->]).
    destruct (negb _); [injection H as <- <-; by split|].
    destruct (IH (mkvs fs' (vs_vfs s1)) c rest r s') as [Hg2 Hr]; [apply Hg1|done|done|].
    split; [by eapply tree_grew_trans|done].
  - destruct path; [injection H as <- <-; split; [by apply tree_grew_refl|done]|].
    apply child_by_name_wf in H as [Hg Hc]; [|done]. by split.
Qed.

Lemma dentry_lookup_wf s path r s' :
  vfs_wf (vs_vfs s) → _vfs_dentry_lookup path s = Ret (r, s') →
  tree_grew (vs_vfs s) (vs_vfs s') ∧ (r ≠ 0 → is_Some (dentries (vs_vfs s') !! r)).
Proof.
  intros Hwf H. unfold _vfs_dentry_lookup in H.
  assert (ret 0 s = Ret (r, s') → tree_grew (vs_vfs s) (vs_vfs s') ∧
    (r ≠ 0 → is_Some (dentries (vs_vfs s') !! r))) as H0.
  { intros [= <- <-]. split; [by apply tree_grew_refl|done]. }
  destruct path as [|c rel]; [auto|].
  destruct (decide (c = 47)) as [->|Hne].
  2:{ apply H0. rewrite <- H. by repeat case_match. }
  apply bind_inv in H as (rt & s1 & H1 & H). injection H1 as <- <-.
  apply bind_inv in H as (res & s1 & H1 & H).
  apply lookup_rec_wf in H1 as [Hg Hr]; [|done|by apply vw_root].
  apply bind_inv in H as (ok & s2 & H2 & H).
  assert (vs_vfs s2 = vs_vfs s1) as Hs2.
  { unfold lookup_result_ok in H2.
    repeat first
      [ apply bind_inv in H2 as (? & ? & HA & H2);
        first [apply get_dentry_inv in HA as (? & _ & [= _ ->])
              |apply onfs_inv in HA as (? & ? & _ & [= _ ->])]
      | case_match ]; by injection H2 as _ <-. }
  apply bind_inv in H as (u & s3 & H3 & H). unfold kassert in H3. destruct ok; [|discriminate].
  injection H3 as _ <-. injection H as <- <-. rewrite Hs2. by split.
Qed.

Lemma put_dentry_wf s p d d' r s' :
  vfs_wf (vs_vfs s) → dentries (vs_vfs s) !! p = Some d → d_parent d' = d_parent d →
  d_iname d' = d_iname d → (∀ c, c ∈ d_children d' → c ∈ d_children d) →
  (length (d_children d') ≤ 8)%nat →
  put_dentry p d' s = Ret (r, s') → tree_grew (vs_vfs s) (vs_vfs s').
Proof.
  intros Hwf Hd Hp Hn Hc Hl [= <- <-]. split; [|split; [done|]].
  - apply (vfs_wf_put _ p d d'); auto.
  - intros q Hq. simpl. destruct (decide (q = p)) as [->|];
      [rewrite lookup_insert_eq; eauto|by rewrite lookup_insert_ne].
Qed.

Lemma set_inode_wf s p d i r s' :
  vfs_wf (vs_vfs s) → dentries (vs_vfs s) !! p = Some d →
  put_dentry p (set_d_inode i d) s = Ret (r, s') → tree_grew (vs_vfs s) (vs_vfs s').
Proof.
  intros Hwf Hd. apply (put_dentry_wf s p d); try done. simpl.
  by eapply (vw_bound _ Hwf).
Qed.

(** Step over an operation that leaves the entries alone. *)
Ltac vfs_inv H :=
  match type of H with
  | bind (get_dentry _) _ _ = Ret _ =>
      let HA := fresh in let HB := fresh in
      apply bind_inv in H as (? & ? & HA & H); apply get_dentry_inv in HA as (? & HB & [= ? ?]); subst
  | bind (onfs _) _ _ = Ret _ =>
      let HA := fresh in
      apply bind_inv in H as (? & ? & HA & H); apply onfs_inv in HA as (? & ? & _ & [= ? ?]); subst
  | bind (kassert ?b _) _ _ = Ret _ =>
      let HA := fresh in
      apply bind_inv in H as (? & ? & HA & H); unfold kassert in HA;
      destruct b; [injection HA as ? ?; subst|discriminate HA]
  | onfs _ _ = Ret _ => apply onfs_inv in H as (? & ? & _ & [= ? ?]); subst
  | ret _ _ = Ret _ => injection H as ? ?; subst
  | (if ?b then _ else _) _ = Ret _ => destruct b eqn:?
  end.

Lemma make_node_wf path make s r s' :
  vfs_wf (vs_vfs s) → make_node path make s = Ret (r, s') → tree_grew (vs_vfs s) (vs_vfs s').
Proof.
  intros Hwf H. unfold make_node in H.
  apply bind_inv in H as (p & s1 & H1 & H). apply dentry_lookup_wf in H1 as [Hg _]; [|done].
  repeat vfs_inv H; try done.
  apply bind_inv in H as (u & s2 & Eput & H). injection H as <- <-.
  eapply tree_grew_trans; [exact Hg|]. eapply (set_inode_wf (mkvs _ (vs_vfs s1))); [apply Hg| |exact Eput].
  done.
Qed.

Lemma open_wf path flags m s r s' :
  vfs_wf (vs_vfs s) → vfs_file_open path flags m s = Ret (r, s') →
  tree_grew (vs_vfs s) (vs_vfs s').
Proof.
  intros Hwf H. unfold vfs_file_open in H.
  apply bind_inv in H as (p & s1 & H1 & H). apply dentry_lookup_wf in H1 as [Hg _]; [|done].
  repeat vfs_inv H; try done.
  apply bind_inv in H as (u & s2 & Eput & H).
  assert (tree_grew (vs_vfs s) (vs_vfs s2)) as Hg2.
  { eapply tree_grew_trans; [exact Hg|].
    eapply (set_inode_wf (mkvs _ (vs_vfs s1))); [apply Hg| |exact Eput]. done. }
  repeat vfs_inv H; done.
Qed.

Lemma mount_dev_wf device t fstype s r s' :
  vfs_wf (vs_vfs s) → _vfs_mount_dev device t fstype s = Ret (r, s') →
  tree_grew (vs_vfs s) (vs_vfs s').
Proof.
  intros Hwf H. unfold _vfs_mount_dev in H. repeat vfs_inv H; try by apply tree_grew_refl.
  apply bind_inv in H as (u & s2 & Eput & H). injection H as <- <-.
  match goal with Hd : _ = Some ?d |- _ =>
    refine (put_dentry_wf (mkvs _ (vs_vfs s)) t d (mkdentry (d_iname d) _ (d_parent d) []) _ _
              Hwf Hd eq_refl eq_refl _ _ Eput) end.
  - simpl. intros c Hc. by apply elem_of_nil in Hc.
  - simpl. lia.
Qed.

Lemma is_fmt_inv p f s r s' : _dentry_is_fmt p f s = Ret (r, s') → vs_vfs s' = vs_vfs s.
Proof. unfold _dentry_is_fmt. intros H. repeat vfs_inv H; done. Qed.

Lemma mount_wf dev target fstype s r s' :
  vfs_wf (vs_vfs s) → vfs_mount dev target fstype s = Ret (r, s') →
  tree_grew (vs_vfs s) (vs_vfs s').
Proof.
  intros Hwf H. unfold vfs_mount in H.
  apply bind_inv in H as (t & s1 & H1 & H). apply dentry_lookup_wf in H1 as [Hg _]; [|done].
  apply bind_inv in H as (ok & s2 & H2 & H). apply is_fmt_inv in H2.
  rewrite <- H2 in Hg. destruct (negb ok); [by vfs_inv H|].
  destruct dev as [dev|].
  2:{ eapply tree_grew_trans; [exact Hg|]. eapply mount_dev_wf; [apply Hg|done]. }
  apply bind_inv in H as (dd & s3 & H3 & H). apply dentry_lookup_wf in H3 as [Hg3 _]; [|apply Hg].
  apply bind_inv in H as (ok' & s4 & H4 & H). apply is_fmt_inv in H4. rewrite <- H4 in Hg3.
  pose proof (tree_grew_trans _ _ _ Hg Hg3) as Hg'.
  destruct (negb ok'); [by vfs_inv H|].
  repeat vfs_inv H. eapply tree_grew_trans; [exact Hg'|].
  eapply (mount_dev_wf _ _ _ (mkvs _ (vs_vfs s4))); [apply Hg'|exact H].
Qed.

Lemma mount_dev_path_wf device target fstype s r s' :
  vfs_wf (vs_vfs s) → vfs_mount_dev device target fstype s = Ret (r, s') →
  tree_grew (vs_vfs s) (vs_vfs s').
Proof.
  intros Hwf H. unfold vfs_mount_dev in H.
  apply bind_inv in H as (t & s1 & H1 & H). apply dentry_lookup_wf in H1 as [Hg _]; [|done].
  apply bind_inv in H as (ok & s2 & H2 & H). apply is_fmt_inv in H2.
  rewrite <- H2 in Hg. destruct (negb ok); [by vfs_inv H|].
  eapply tree_grew_trans; [exact Hg|]. eapply mount_dev_wf; [apply Hg|done].
Qed.

(** What can happen to the file systems: a call of the VFS that returns, or anything
    that a file system or a driver does by itself. *)
Inductive vfs_step : vstate → vstate → Prop :=
| step_mknod path m dev r s s' : vfs_mknod path m dev s = Ret (r, s') → vfs_step s s'
| step_mkdir path m r s s' : vfs_mkdir path m s = Ret (r, s') → vfs_step s s'
| step_open path flags m r s s' : vfs_file_open path flags m s = Ret (r, s') → vfs_step s s'
| step_mount dev target fstype r s s' :
    vfs_mount dev target fstype s = Ret (r, s') → vfs_step s s'
| step_mount_dev device target fstype r s s' :
    vfs_mount_dev device target fstype s = Ret (r, s') → vfs_step s s'
| step_fs A (m : MF A) r s s' : onfs m s = Ret (r, s') → vfs_step s s'.

Lemma vfs_step_wf s s' : vfs_wf (vs_vfs s) → vfs_step s s' → tree_grew (vs_vfs s) (vs_vfs s').
Proof.
  intros Hwf H. destruct H as [? ? ? ? ? ? H|? ? ? ? ? H|? ? ? ? ? ? H|? ? ? ? ? ? H|? ? ? ? ? ? H
    |A m r s s' H].
  - by eapply make_node_wf.
  - by eapply make_node_wf.
  - by eapply open_wf.
  - by eapply mount_wf.
  - by eapply mount_dev_path_wf.
  - apply onfs_inv in H as (? & ? & _ & [= _ ->]). by apply tree_grew_refl.
Qed.

Lemma vfs_init_wf node s sec sec' v : SectionAllocator.inv sec →
  vfs_init node s sec = Ret (v, sec') → vfs_wf (vs_vfs v).
Proof.
  intros Hinv H. unfold vfs_init in H.
  destruct (SectionAllocator.section_alloc_ok sec Hinv) as (p & sec1 & E & Hinv1 & Hp).
  rewrite (bind_Ret _ _ _ _ _ E) in H.
  destruct (Z.eqb_spec p 0) as [->|Hp0]; [discriminate|].
  destruct Hp as [[-> _]|(_ & _ & Ho)]; [done|].
  assert (SectionAllocator.owned sec1 p = true) as Hown
    by (rewrite Ho, Z.eqb_refl; apply orb_true_r).
  apply SectionAllocator.owned_section in Hown as [Hal Hrange]; [|done].
  destruct Hinv1 as (_ & Hb0 & Hb1 & Hbm).
  assert (Bitfield.bitfield_allocator_alloc p SIZEOF_DENTRY
    (replicate (Z.to_nat (DENTRY_COUNT / 8)) 0) (DENTRY_COUNT / 8) =
    Ret (p, [1; 0; 0; 0; 0; 0; 0; 0; 0])) as Ea.
  { unfold Bitfield.bitfield_allocator_alloc.
    change (Bitfield.bitfield_acquire_first _ _) with (Ret (0, [1; 0; 0; 0; 0; 0; 0; 0; 0])).
    cbn [obind]. change (0 <? 0) with false. cbn iota.
    by rewrite Z.mul_0_l, Z.add_0_r, u32_small by lia. }
  rewrite Ea in H. erewrite bind_Ret in H by done. injection H as <- _.
  split; simpl.
  - split_and!; [done|lia|]. repeat constructor; unfold is_u8; lia.
  - unfold SIZEOF_DENTRY. lia.
  - intros q [d Hq]. apply lookup_singleton_Some in Hq as [<- _].
    unfold owned, Slots.owned. simpl. rewrite Z.sub_diag, Z.leb_refl. done.
  - rewrite lookup_singleton_eq. eauto.
  - intros q d c [_ <-]%lookup_singleton_Some Hc. by apply elem_of_nil in Hc.
  - intros q d [_ <-]%lookup_singleton_Some. by left.
  - intros q d [_ <-]%lookup_singleton_Some. simpl. lia.
Qed.

(** The states reachable from the one [vfs_init] makes. *)
Inductive vfs_reachable (node : Z) (s0 : fs) (sec : SectionAllocator.section_allocator_t) :
    vstate → Prop :=
| vr_init v sec' : vfs_init node s0 sec = Ret (v, sec') → vfs_reachable node s0 sec v
| vr_step v v' : vfs_reachable node s0 sec v → vfs_step v v' → vfs_reachable node s0 sec v'.


End VfsSpec.
