(* ===== verification/VfsFiles.v ===== *)
(** * Opening, writing and reading files through the VFS *)
From S2P Require Import Prelude Bitfield Mmu Alloc Heap Hash Fs FsState Devices Ramfs RamfsSpec Fat32 Vfs VfsSpec.
Import Fs FsState Devices Ramfs RamfsSpec Fat32 Vfs VfsSpec.

Module VfsFiles.

(** ** Opening *)

Lemma onfs_Ret {A} (m : MF A) s a fs' : m (vs_fs s) = Ret (a, fs') →
  onfs m s = Ret (a, mkvs fs' (vs_vfs s)).
Proof. intros H. unfold onfs, zoom. simpl. by rewrite H. Qed.

(** [default_file_open] with memory to spare. *)
Lemma default_open_run s i : fs_wf s → room s SIZEOF_FILE → i ≠ 0 →
  ∃ f h, default_file_open i s =
      Ret (f, comp_set (<[f := mkfile 0 i 0 0]> (fs_files s)) (comp_set h s)) ∧
    0 < f ∧ fs_files s !! f = None ∧ heap_grew (fs_heap s) h (SIZEOF_FILE + 7) ∧
    fs_wf (comp_set (<[f := mkfile 0 i 0 0]> (fs_files s)) (comp_set h s)).
Proof.
  intros Hwf Hr Hi.
  destruct (mnew_run s SIZEOF_FILE zero_file Hwf Hr) as (f & h & E & Hf & Hf1 & Hg).
  exists f, h. split; [|split; [done|split; [|split; [done|]]]].
  - unfold default_file_open. rewrite (proj2 (Z.eqb_neq i 0)) by done. erewrite bind_Ret by done.
    rewrite (bind_Ret _ _ _ _ _ E), (proj2 (Z.eqb_neq f 0)) by lia. erewrite bind_Ret by done.
    erewrite bind_Ret by (apply mupd_Ret; simpl; apply lookup_insert_eq).
    unfold ret. simpl. by rewrite insert_insert_eq.
  - apply (in_heap_fresh _ _ _ (wf_files s Hwf)). lia.
  - fs_wf_step Hwf Hg.
Qed.

(** A RAM file outlives the growth of the heap and changes to the open files. *)
Lemma rfile_keep s s' i p b content : rfile s i p b content →
  fs_inodes s' = fs_inodes s → fs_rfiles s' = fs_rfiles s →
  (∀ c d, Heap.block_data (fs_heap s) !! c = Some d → Heap.block_data (fs_heap s') !! c = Some d) →
  rfile s' i p b content.
Proof.
  intros [node bytes H1 H2 H3 H4 H5 H6 H7 H8 H9] Hi Hr Hd.
  apply (mkrf _ _ _ _ _ node bytes); rewrite ?Hi, ?Hr; auto.
Qed.

(** What the path stands for: a name not in use in the RAM directory [dir] with
    children [cs]; [p] is its negative entry. *)
Record missing_at (s : vstate) (p : Z) (name : name_t) (dir q : Z)
    (cs : list ramfs_inode_child_t) : Prop := {
  miss_entry : ∃ d pd, dentries (vs_vfs s) !! p = Some d ∧ d_inode d = 0 ∧ d_iname d = name ∧
    dentries (vs_vfs s) !! d_parent d = Some pd ∧ d_inode pd = dir;
  miss_nonnull : p ≠ 0;
  miss_dir : rdir (vs_fs s) dir q cs;
  miss_name : (length name ≤ 31)%nat;
  miss_room : Z.of_nat (length cs) < 8;
}.

(** The state after the file is opened: inode [i] is a new empty file, entered in the
    directory and in the cache, and [f] is open at its start. *)
Record created (s s' : vstate) (p : Z) (name : name_t) (dir q : Z)
    (cs : list ramfs_inode_child_t) (i f : Z) : Prop := {
  cr_wf : fs_wf (vs_fs s');
  cr_dir : rdir (vs_fs s') dir q (cs ++ [mkchild i name]);
  cr_entry : d_inode <$> dentries (vs_vfs s') !! p = Some i;
  cr_inode : i ≠ 0 ∧ ∃ node, fs_inodes (vs_fs s') !! i = Some node ∧
    file_ops node = RAMFS_REG_FILE_OPS;
  cr_file : f ≠ 0 ∧ fs_files (vs_fs s') !! f = Some (mkfile 0 i 0 0);
  cr_empty : ∃ pf b, rfile (vs_fs s') i pf b [];
  cr_cursor : Heap.memory_cursor (fs_heap (vs_fs s')) ≤
    Heap.memory_cursor (fs_heap (vs_fs s)) + 723;
  cr_end : Heap.section_end (fs_heap (vs_fs s')) = Heap.section_end (fs_heap (vs_fs s));
}.

Lemma open_create_run s path s1 p name dir q cs :
  _vfs_dentry_lookup path s = Ret (p, s1) → missing_at s1 p name dir q cs →
  fs_wf (vs_fs s1) → room (vs_fs s1) 800 →
  ∃ i f s2, vfs_file_open path O_CREAT S_IFREG s = Ret (f, s2) ∧
    created s1 s2 p name dir q cs i f.
Proof.
  intros Hl [(d & pd & Hd & Hd0 & Hname & Hpd & Hdir) Hp0 Hrd Hlen Hcs] Hwf Hroom.
  unfold vfs_file_open. rewrite (bind_Ret _ _ _ _ _ Hl), (proj2 (Z.eqb_neq p 0)) by done.
  rewrite (bind_Ret _ _ _ _ _ (get_dentry_run _ _ _ Hd)).
  rewrite (bind_Ret _ _ _ _ _ (get_dentry_run _ _ _ Hpd)). rewrite Hd0, Hdir, Hname.
  change (0 =? 0) with true. change (flag O_CREAT O_CREAT) with true.
  change (flag O_CREAT O_DIRECTORY) with false. cbn [andb negb].
  pose proof (create_run (vs_fs s1) dir q cs name S_IFREG Hwf Hrd) as Hc.
  destruct Hc as (i & pf & b & fs2 & E & Hadd & Hrf & (node & Hi & _ & Hops) & _);
    [by eapply room_le|done|].
  rewrite (proj2 (Z.ltb_lt _ _) Hcs) in E.
  destruct (added_new _ _ _ _ _ _ _ Hadd) as [Hi0 _].
  rewrite (bind_Ret (onfs _) _ _ i (mkvs fs2 (vs_vfs s1))).
  2:{ apply onfs_Ret. unfold inode_create.
      inversion Hrd as [dn sb rp Hdn _ Hio]. subst.
      erewrite bind_Ret by (apply mget_Ret; exact Hdn). by rewrite Hio. }
  rewrite (proj2 (Z.eqb_neq i 0)) by lia. erewrite bind_Ret by done.
  erewrite bind_Ret by done.
  erewrite bind_Ret by (apply onfs_Ret, mget_Ret; exact Hi).
  pose proof (added_wf _ _ _ _ _ _ _ Hadd) as Hwf2.
  pose proof (added_cursor _ _ _ _ _ _ _ Hadd). pose proof (added_end _ _ _ _ _ _ _ Hadd).
  destruct (default_open_run fs2 i Hwf2) as (f & h & Eo & Hf & Hfresh & Hg & Hwf3);
    [destruct Hroom; split; unfold SIZEOF_FILE; lia|lia|].
  exists i, f. eexists. split.
  { apply onfs_Ret. unfold file_open. erewrite bind_Ret by (apply mget_Ret; exact Hi).
    rewrite Hops. exact Eo. }
  split; simpl; try done.
  - destruct (added_dir _ _ _ _ _ _ _ Hadd) as [n sb rp ? ? ? ? ? ? ? ? ? ?].
    by apply (mkrd _ _ _ _ n sb rp).
  - by rewrite lookup_insert_eq.
  - split; [lia|]. eauto.
  - split; [lia|]. by rewrite lookup_insert_eq.
  - exists pf, b. eapply rfile_keep; [exact Hrf|done|done|]. apply (grew_data _ _ _ Hg).
  - pose proof (grew_cursor _ _ _ Hg). unfold SIZEOF_FILE in *. lia.
  - rewrite (grew_end _ _ _ Hg). done.
Qed.

Lemma ops_of_run s f fl node : fs_files s !! f = Some fl → fs_inodes s !! f_inode fl = Some node →
  ops_of f s = Ret (file_ops node, s).
Proof.
  intros Hf Hi. unfold ops_of. erewrite bind_Ret by (apply mget_Ret; exact Hf).
  by erewrite bind_Ret by (apply mget_Ret; exact Hi).
Qed.

(** A file that does not exist yet is created in a RAM directory by opening its
    path with O_CREAT; what is then written to it is, after seeking back to the start,
    what is read from it. *)
Theorem file_roundtrip s path s1 p name dir q cs data :
  _vfs_dentry_lookup path s = Ret (p, s1) → missing_at s1 p name dir q cs →
  fs_wf (vs_fs s1) → room (vs_fs s1) (800 + 2 * Z.of_nat (length data)) →
  (0 < length data)%nat →
  let n := Z.of_nat (length data) in
  ∃ i f s2 fs3 fs4 fs5,
    vfs_file_open path O_CREAT S_IFREG s = Ret (f, s2) ∧
    created s1 s2 p name dir q cs i f ∧
    vfs_file_write f data (vs_fs s2) = Ret (n, fs3) ∧
    vfs_file_lseek f 0 SEEK_SET fs3 = Ret (0, fs4) ∧
    vfs_file_read f n fs4 = Ret ((n, data), fs5).
Proof.
  intros Hl Hmiss Hwf Hroom Hdata n.
  destruct (open_create_run s path s1 p name dir q cs Hl Hmiss Hwf) as (i & f & s2 & Eo & Hcr);
    [eapply room_le; [exact Hroom|lia]|].
  pose proof Hcr as [Hwf2 _ _ [Hi0 (node & Hi & Hops)] [Hf0 Hf] (pf & b & Hrf) Hcu He].
  destruct Hroom as [_ Hroom]. pose proof (Heap.inv_end _ (wf_heap _ Hwf2)).
  pose proof (Heap.inv_cursor _ (wf_heap _ Hwf2)).
  destruct (reg_write_run (vs_fs s2) f _ pf b [] data Hwf2 Hf Hrf) as
    (fs3 & b' & Ew & Hwf3 & Hrf3 & Hf3 & _ & Hops3); [simpl; lia|simpl; lia| |].
  { split; simpl; lia. }
  simpl in Hrf3, Hf3. rewrite drop_nil, app_nil_r in Hrf3.
  assert (fs_files fs3 !! f = Some (mkfile 0 i n 0)) as Hf3' by (by rewrite Hf3, lookup_insert_eq).
  assert (∃ node3, fs_inodes fs3 !! i = Some node3 ∧ file_ops node3 = RAMFS_REG_FILE_OPS)
    as (node3 & Hi3 & Hops3').
  { specialize (Hops3 i). rewrite Hi in Hops3. simpl in Hops3. rewrite Hops in Hops3.
    apply fmap_Some in Hops3 as (node3 & ? & ?). eauto. }
  set (fs4 := comp_set (<[f := mkfile 0 i 0 0]> (fs_files fs3)) fs3).
  assert (rfile fs4 i pf b' data) as Hrf4 by (by eapply rfile_keep).
  assert (fs_files fs4 !! f = Some (mkfile 0 i 0 0)) as Hf4 by (simpl; by rewrite lookup_insert_eq).
  pose proof (reg_read_run fs4 f _ pf b' data n Hf4 Hi0 Hrf4 ltac:(simpl; lia) ltac:(lia)
    ltac:(simpl; lia)) as Er.
  simpl pos in Er. cbn zeta in Er. fold n in Er. rewrite Z.sub_0_r, Z.min_id, (proj2 (Z.leb_gt n 0)) in Er by lia.
  change (Z.to_nat 0) with 0%nat in Er. rewrite drop_0, take_ge in Er by lia.
  exists i, f, s2, fs3, fs4. eexists. split; [exact Eo|]. split; [exact Hcr|]. split_and!.
  - unfold vfs_file_write. by rewrite (bind_Ret _ _ _ _ _ (ops_of_run _ _ _ _ Hf Hi)), Hops.
  - unfold vfs_file_lseek. rewrite (bind_Ret _ _ _ _ _ (ops_of_run _ _ _ _ Hf3' Hi3)), Hops3'.
    unfold _ramfs_reg_file_seek, get_seek_ref_offset.
    erewrite bind_Ret by (erewrite bind_Ret by (apply mget_Ret; exact Hf3'); done).
    change (s32 (0 + 0) <? 0) with false. cbn iota.
    by erewrite bind_Ret by (apply mupd_Ret; exact Hf3').
  - unfold vfs_file_read. rewrite (bind_Ret _ _ _ _ _ (ops_of_run fs4 _ _ node3 Hf4 Hi3)), Hops3'.
    exact Er.
Qed.

(** C30. What opening a path does not do: without O_CREAT a missing file is not made,
    with O_EXCL an existing one is not opened, and with O_DIRECTORY one that is not a
    directory is not; each time the result is NULL and nothing but the cache changed.
    Opening the root is undefined behaviour: the code reads the root's parent. *)
Theorem open_refused s path s1 p d pd flags m :
  vfs_wf (vs_vfs s1) → _vfs_dentry_lookup path s = Ret (p, s1) → p ≠ 0 →
  dentries (vs_vfs s1) !! p = Some d →
  (dentries (vs_vfs s1) !! d_parent d = Some pd →
    (d_inode d = 0 → flag flags O_CREAT && negb (flag flags O_DIRECTORY) = false →
       vfs_file_open path flags m s = Ret (0, s1)) ∧
    (d_inode d ≠ 0 → flag flags O_EXCL = true → vfs_file_open path flags m s = Ret (0, s1)) ∧
    (∀ node, d_inode d ≠ 0 → flag flags O_EXCL = false →
       fs_inodes (vs_fs s1) !! d_inode d = Some node →
       flag flags O_DIRECTORY = true → fmt (mode node) ≠ S_IFDIR →
       vfs_file_open path flags m s = Ret (0, s1))) ∧
  (d_parent d = 0 → vfs_file_open path flags m s = Fault).
Proof.
  intros Hwf Hl Hp Hd.
  unfold vfs_file_open. rewrite (bind_Ret _ _ _ _ _ Hl), (proj2 (Z.eqb_neq p 0)) by done.
  rewrite (bind_Ret _ _ _ _ _ (get_dentry_run _ _ _ Hd)). split.
  - intros Hpd. rewrite (bind_Ret _ _ _ _ _ (get_dentry_run _ _ _ Hpd)). split_and!.
    + intros -> ->. done.
    + intros Hi ->. by rewrite (proj2 (Z.eqb_neq _ 0) Hi).
    + intros node Hi -> Hnode -> Hfmt. rewrite (proj2 (Z.eqb_neq _ 0) Hi).
      erewrite bind_Ret by done.
      erewrite bind_Ret by (apply onfs_Ret, mget_Ret; exact Hnode).
      rewrite (proj2 (Z.eqb_neq _ _) Hfmt). by destruct s1.
  - intros ->. unfold bind, get_dentry. by rewrite (vfs_null _ Hwf).
Qed.

End VfsFiles.
