(* ===== verification/FatFiles.v ===== *)
(** * From a path to a file of a FAT32 volume

    The VFS walks its cached entries to a directory of the volume; the file system finds
    the last name of the path in the directory's sectors; the new entry is cached, and the
    file is open at the start of its cluster chain. *)
From S2P Require Import Prelude Bitfield Mmu Alloc Heap Hash Fs FsState Devices Ramfs RamfsSpec Fat32 Fat32Spec Fat32DirSpec Vfs VfsSpec VfsFiles.
Import Fs FsState Devices Ramfs Fat32 Fat32Spec Fat32DirSpec Vfs VfsSpec VfsFiles.

Module FatFiles.

(** ** Opening an inode *)

(** [f] is a new open file on inode [i]; no other file and no inode changed. *)
Record opened (s s' : fs) (i f : Z) : Prop := {
  op_new : f ≠ 0 ∧ fs_files s !! f = None;
  op_files : ∃ p, fs_files s' = <[f := mkfile 0 i 0 p]> (fs_files s);
  op_inodes : fs_inodes s' = fs_inodes s;
  op_uart : fs_uart s' = fs_uart s;
}.

Lemma chain_start v s chain secs c : on_volume v s chain secs → chain !! 0%nat = Some c →
  (0 < length secs)%nat ∧ loc_at v chain 0 = mkloc c c 0.
Proof.
  intros [Hspc _ Hlen _ _ _ _] Hc. apply lookup_lt_Some in Hc as Hl. split; [nia|].
  unfold loc_at. by rewrite Nat.Div0.div_0_l, Nat.Div0.mod_0_l, Hc.
Qed.

Section inode.
Context (s : fs) (i : Z) (node : inode) (sb : super_block_t) (v : fat32_sb_private_t).
Context (chain : list Z) (secs : list (list Z)).
Hypothesis Hwf : fs_wf s.
Hypothesis Hroom : room s 60.
Hypothesis Hi0 : i ≠ 0.
Hypothesis Hi : fs_inodes s !! i = Some node.
Hypothesis Hsb : fs_sbs s !! super_block node = Some sb.
Hypothesis Hfat : fs_fat s !! sb_private sb = Some v.
Hypothesis Hvol : on_volume v s chain secs.
Hypothesis Hchain : chain !! 0%nat = Some (i_private node).

Lemma open_file_run n : Fs.size node = Z.of_nat n → (n ≤ 512 * length secs)%nat →
  Z.of_nat (length secs) * 512 < 0x80000000 →
  ∃ f s', _fat32_fs_reg_file_open i s = Ret (f, s') ∧ opened s s' i f ∧
    fat_file s' f v chain secs n 0.
Proof using All.
  intros Hn Hle Hbig. destruct (chain_start _ _ _ _ _ Hvol Hchain) as [Hpos Hloc].
  destruct (mnew_run s SIZEOF_FAT32_FILE (mkfreg (mkloc 0 0 0) 0) Hwf) as (p & h & Ep & Hp & Hf1 & Hg);
    [by eapply room_le|].
  set (s1 := comp_set (<[p := _]> _) _) in Ep.
  assert (fs_wf s1) as Hwf1 by (unfold s1; fs_wf_step Hwf Hg).
  destruct (default_open_run s1 i Hwf1) as (f & h1 & Ef & Hf & Hnew & _); [|done|].
  { apply (room_grew s s1 (SIZEOF_FAT32_FILE + 7) SIZEOF_FILE Hg); [by eapply room_le|done]. }
  eexists f, _. split; [|split].
  - unfold _fat32_fs_reg_file_open. rewrite (bind_Ret _ _ _ _ _ Ep), (proj2 (Z.eqb_neq p 0)) by lia.
    rewrite (bind_Ret _ _ _ _ _ Ef), (proj2 (Z.eqb_neq f 0)) by lia.
    erewrite bind_Ret by (apply mget_Ret; exact Hi).
    erewrite bind_Ret by (apply mupd_Ret; simpl; apply lookup_insert_eq).
    by erewrite bind_Ret by (apply mupd_Ret; simpl; apply lookup_insert_eq).
  - split; simpl; [split; [lia|done]| |done..]. exists p. by rewrite insert_insert_eq.
  - apply (mkff _ _ _ _ _ _ _ (mkfile 0 i 0 p) node sb (mkfreg (loc_at v chain 0) 0)); simpl;
      rewrite ?lookup_insert_eq; try done; try lia.
    + by apply (on_volume_same v s).
    + by rewrite Hloc.
    + exists 0%nat, 0%nat. split_and!; done || lia.
Qed.

Lemma open_dir_run items : dir_from secs 0 items →
  ∃ f s', _fat32_fs_dir_open i s = Ret (f, s') ∧ opened s s' i f ∧
    fat_dir s' f v chain secs (listed v chain 0 items).
Proof using All.
  intros Hd. destruct (chain_start _ _ _ _ _ Hvol Hchain) as [_ Hloc].
  destruct (mnew_run s SIZEOF_FAT32_DIR (mkeloc (mkloc 0 0 0) 0) Hwf) as (p & h & Ep & Hp & Hf1 & Hg);
    [by eapply room_le|].
  set (s1 := comp_set (<[p := _]> _) _) in Ep.
  assert (fs_wf s1) as Hwf1 by (unfold s1; fs_wf_step Hwf Hg).
  destruct (default_open_run s1 i Hwf1) as (f & h1 & Ef & Hf & Hnew & _); [|done|].
  { apply (room_grew s s1 (SIZEOF_FAT32_DIR + 7) SIZEOF_FILE Hg); [by eapply room_le|done]. }
  eexists f, _. split; [|split].
  - unfold _fat32_fs_dir_open. rewrite (bind_Ret _ _ _ _ _ Ep), (proj2 (Z.eqb_neq p 0)) by lia.
    rewrite (bind_Ret _ _ _ _ _ Ef), (proj2 (Z.eqb_neq f 0)) by lia.
    erewrite bind_Ret by (apply mget_Ret; exact Hi).
    erewrite bind_Ret by (apply mupd_Ret; simpl; apply lookup_insert_eq).
    by erewrite bind_Ret by (apply mupd_Ret; simpl; apply lookup_insert_eq).
  - split; simpl; [split; [lia|done]| |done..]. exists p. by rewrite insert_insert_eq.
  - apply (mkfd _ _ _ _ _ _ (mkfile 0 i 0 p) node sb 0 items); simpl; rewrite ?lookup_insert_eq;
      try done; try lia.
    + by apply (on_volume_same v s).
    + unfold eloc_at. by rewrite Nat.Div0.div_0_l, Hloc.
Qed.
End inode.

(** ** Paths through the cache *)

Definition is_dir_inode (s : vstate) (i : Z) : Prop :=
  i ≠ 0 ∧ ∃ node, fs_inodes (vs_fs s) !! i = Some node ∧ fmt (mode node) = S_IFDIR.

(** From the entry [p], the path leads through cached directories to the entry [q], and
    [name] is left. *)
Inductive cached_path (s : vstate) : Z → name_t → Z → name_t → Prop :=
| cp_last q name : 47 ∉ name → name ≠ [] → cached_path s q name q name
| cp_step p d seg c e rest q name :
    47 ∉ seg → (length seg ≤ 15)%nat → dentries (vs_vfs s) !! p = Some d →
    cached (vs_vfs s) (d_children d) seg = Some c → dentries (vs_vfs s) !! c = Some e →
    is_dir_inode s (d_inode e) → cached_path s c rest q name →
    cached_path s p (seg ++ 47 :: rest) q name.

Lemma onfs_id {A} (m : MF A) s a : m (vs_fs s) = Ret (a, vs_fs s) → onfs m s = Ret (a, s).
Proof. intros E. rewrite (onfs_Ret _ _ _ _ E). by destruct s. Qed.

Lemma split_none name : 47 ∉ name → split_path name = None.
Proof.
  induction name as [|c name IH]; intros [Hc Hn]%not_elem_of_cons || done. cbn [split_path].
  rewrite (proj2 (Z.eqb_neq c 47)) by congruence. by rewrite IH.
Qed.

Lemma split_some seg rest : 47 ∉ seg → split_path (seg ++ 47 :: rest) = Some (seg, rest).
Proof.
  induction seg as [|c seg IH]; [done|]. intros [Hc Hn]%not_elem_of_cons. cbn [split_path app].
  rewrite (proj2 (Z.eqb_neq c 47)) by congruence. by rewrite IH.
Qed.

Lemma cached_path_run s p path q name : vfs_wf (vs_vfs s) → cached_path s p path q name →
  ∀ fuel, (length path < fuel)%nat →
  _vfs_node_lookup_rec fuel p path s = _vfs_dentry_child_by_name q name s.
Proof.
  intros Hwf H. induction H as [q name Hn Hne|p d seg c e rest q name Hn Hl Hd Hc He Hdir _ IH];
    intros [|fuel] Hf; try lia; cbn [_vfs_node_lookup_rec].
  - rewrite split_none by done. by destruct name.
  - rewrite split_some by done. unfold strcpy_buf. change DENTRY_MAX_NAME_LEN with 16.
    rewrite (proj2 (Z.leb_le _ 16)) by lia. erewrite bind_Ret by done.
    pose proof (child_hit s p d seg c Hwf Hd Hc) as E.
    rewrite (bind_Ret _ _ _ _ _ E), (bind_Ret _ _ _ _ _ (get_dentry_run _ _ _ He)).
    destruct Hdir as [Hi0 (node & Hi & Hm)]. rewrite (proj2 (Z.eqb_neq _ 0) Hi0).
    erewrite bind_Ret by (apply onfs_id, mget_Ret; exact Hi). rewrite Hm. apply IH.
    rewrite length_app in Hf. simpl in Hf. lia.
Qed.

(** A path to a name that was not looked up before: the file system's answer [i] is
    remembered in a new entry [c]. *)
Lemma lookup_new_run s rel q d name i fs' :
  vfs_wf (vs_vfs s) → cached_path s (root (vs_vfs s)) rel q name → dentries (vs_vfs s) !! q = Some d →
  cached (vs_vfs s) (d_children d) name = None → inode_lookup (d_inode d) name (vs_fs s) = Ret (i, fs') →
  (length name ≤ 15)%nat → (length (d_children d) < 8)%nat → has_slot (vs_vfs s) →
  (i = 0 → d_inode d ≠ 0 ∧ ∃ node, fs_inodes fs' !! d_inode d = Some node ∧ fmt (mode node) = S_IFDIR) →
  ∃ c bits, let v' := add_dentry (vs_vfs s) bits q d c name i in
    _vfs_dentry_lookup (47 :: rel) s = Ret (c, mkvs fs' v') ∧
    vfs_wf v' ∧ dentries (vs_vfs s) !! c = None ∧ c ≠ 0 ∧ c ≠ q ∧
    cached v' (d_children d ++ [c]) name = Some c ∧
    ∀ x, Slots.owned (dentry_base (vs_vfs s)) SIZEOF_DENTRY bits x = VfsSpec.owned (vs_vfs s) x || (x =? c).
Proof.
  intros Hwf Hpath Hq Hnew El Hname Hlen Hslot Hdir.
  destruct (child_miss s q d name i fs' Hwf Hq Hnew El Hname Hlen Hslot)
    as (c & bits & E & Hwf' & Hfresh & Hc0 & Hcached & Ho).
  exists c, bits. set (v' := add_dentry _ _ _ _ _ _ _) in *. set (s' := mkvs fs' v') in *.
  assert (c ≠ q) as Hcq by congruence. split; [|by split_and!].
  unfold _vfs_dentry_lookup. erewrite bind_Ret by reflexivity.
  rewrite (bind_Ret _ _ _ _ _ (eq_trans (cached_path_run _ _ _ _ _ Hwf Hpath _ (Nat.lt_succ_diag_r _)) E)).
  assert (lookup_result_ok c s' = Ret (true, s')) as Eok; [|by rewrite (bind_Ret _ _ _ _ _ Eok)].
  unfold lookup_result_ok. rewrite (proj2 (Z.eqb_neq c 0) Hc0).
  rewrite (bind_Ret _ _ _ _ _ (get_dentry_run s' c (mkdentry name i q [])
    ltac:(simpl; by rewrite lookup_insert_ne, lookup_insert_eq by done))). cbn [d_inode d_parent].
  destruct (Z.eqb_spec i 0) as [Hi|]; [|done]. cbn [negb].
  assert (q ≠ 0) as Hq0 by (intros ->; by rewrite (vfs_null _ Hwf) in Hq).
  rewrite (proj2 (Z.eqb_neq q 0) Hq0).
  erewrite bind_Ret by (apply get_dentry_run; simpl; apply lookup_insert_eq). cbn [d_inode].
  destruct (Hdir Hi) as [Hi0 (node & Hnode & Hmode)]. rewrite (proj2 (Z.eqb_neq _ 0) Hi0).
  erewrite bind_Ret by (apply onfs_id, mget_Ret; exact Hnode). by rewrite Hmode.
Qed.

Lemma result_inode_run s c e : dentries (vs_vfs s) !! c = Some e → d_inode e ≠ 0 →
  lookup_result_ok c s = Ret (true, s).
Proof.
  intros He Hi. unfold lookup_result_ok. destruct (c =? 0); [done|].
  rewrite (bind_Ret _ _ _ _ _ (get_dentry_run s c e He)). by rewrite (proj2 (Z.eqb_neq _ 0) Hi).
Qed.

(** A path that is cached to its end, which is an inode. *)
Lemma lookup_cached_run s rel q d name c e :
  vfs_wf (vs_vfs s) → cached_path s (root (vs_vfs s)) rel q name → dentries (vs_vfs s) !! q = Some d →
  cached (vs_vfs s) (d_children d) name = Some c → dentries (vs_vfs s) !! c = Some e → d_inode e ≠ 0 →
  _vfs_dentry_lookup (47 :: rel) s = Ret (c, s).
Proof.
  intros Hwf Hpath Hq Hc He Hi. pose proof (child_hit s q d name c Hwf Hq Hc) as E.
  unfold _vfs_dentry_lookup. erewrite bind_Ret by reflexivity.
  rewrite (bind_Ret _ _ _ _ _ (eq_trans (cached_path_run _ _ _ _ _ Hwf Hpath _ (Nat.lt_succ_diag_r _)) E)).
  by rewrite (bind_Ret _ _ _ _ _ (result_inode_run s c e He Hi)).
Qed.

(** ** A path into a directory of a volume *)

Definition is_dir (e : fat_sfn_directory_entry_t) : bool :=
  flag (attributes e) FAT_DIR_ENTRY_ATTR_DIRECTORY.
Definition first_cluster (e : fat_sfn_directory_entry_t) : Z :=
  Z.lor (starting_cluster_low e) (u32 (Z.shiftl (starting_cluster_high e) 16)).

(** The path leads to [q], an entry [d] for a directory of the volume [v] with the items,
    and [name], which is left of it, was not looked up before.  There is room for its entry,
    its inode and the open file. *)
Record fat_path (s : vstate) (path : name_t) (q : Z) (d : dentry) (name : name_t)
    (v : fat32_sb_private_t) (chain : list Z) (secs : list (list Z)) (items : list dir_item)
    (sb : Z) : Prop := {
  fp_path : ∃ rel, path = 47 :: rel ∧ cached_path s (root (vs_vfs s)) rel q name;
  fp_entry : dentries (vs_vfs s) !! q = Some d;
  fp_new : cached (vs_vfs s) (d_children d) name = None;
  fp_space : (length name ≤ 15)%nat ∧ (length (d_children d) < 8)%nat ∧ has_slot (vs_vfs s);
  fp_dir : fat_dir_inode (vs_fs s) (d_inode d) v chain secs items sb;
  fp_node : d_inode d ≠ 0 ∧ ∃ node, fs_inodes (vs_fs s) !! d_inode d = Some node ∧
    inode_ops node = FAT32_INODE_OPS ∧ fmt (mode node) = S_IFDIR;
  fp_wf : vfs_wf (vs_vfs s) ∧ fs_wf (vs_fs s) ∧ room (vs_fs s) 120;
}.

(** The inode [i] with the contents [x] is new; neither files nor output changed. *)
Record new_inode (s s' : fs) (i : Z) (x : inode) : Prop := {
  ni_new : i ≠ 0 ∧ fs_inodes s !! i = None;
  ni_inodes : fs_inodes s' = <[i := x]> (fs_inodes s);
  ni_files : fs_files s' = fs_files s;
  ni_uart : fs_uart s' = fs_uart s;
}.

Section path.
Context (s : vstate) (path : name_t) (q : Z) (d : dentry) (name : name_t).
Context (v : fat32_sb_private_t) (chain : list Z) (secs : list (list Z)) (items : list dir_item) (sb : Z).
Hypothesis Hp : fat_path s path q d name v chain secs items sb.

(** The new entry [c], for inode [i] or negative, is what the path leads to. *)
Lemma path_run i fs' : _fat32fs_inode_lookup (d_inode d) name (vs_fs s) = Ret (i, fs') →
  fs_inodes fs' !! d_inode d = fs_inodes (vs_fs s) !! d_inode d →
  ∃ c bits, let s' := mkvs fs' (add_dentry (vs_vfs s) bits q d c name i) in
    _vfs_dentry_lookup path s = Ret (c, s') ∧ c ≠ 0 ∧ c ≠ q.
Proof using Hp.
  intros El Hkeep. destruct Hp as [(rel & -> & Hpath) Hq Hnew (Hname & Hlen & Hslot) Hdir
    [Hi0 (node & Hnode & Hops & Hmode)] (Hvwf & _ & _)].
  destruct (lookup_new_run s rel q d name i fs') as (c & bits & E & _ & _ & Hc0 & Hcq & _); try done.
  - unfold inode_lookup. erewrite bind_Ret by (apply mget_Ret; exact Hnode). by rewrite Hops.
  - intros _. split; [done|]. exists node. by rewrite Hkeep.
  - by exists c, bits.
Qed.
(** What [vfs_file_open] does once the path is looked up. *)
Definition open_inode (flags i : Z) : MV Z :=
  let* node := onfs (get_inode i) in
  if flag flags O_DIRECTORY && negb (fmt (mode node) =? S_IFDIR) then ret 0
  else onfs (file_open i).

Lemma fmt_inode_of e ino : (fmt (mode (inode_of e sb ino)) =? S_IFDIR) = is_dir e.
Proof using.
  unfold inode_of, is_dir. destruct (flag (attributes e) FAT_DIR_ENTRY_ATTR_DIRECTORY); reflexivity.
Qed.

Lemma open_dir_flag flags i s1 x : fs_inodes (vs_fs s1) !! i = Some x →
  flag flags O_DIRECTORY && negb (fmt (mode x) =? S_IFDIR) = true → open_inode flags i s1 = Ret (0, s1).
Proof using.
  intros Hi Hd. unfold open_inode. erewrite bind_Ret by (apply onfs_id, mget_Ret; exact Hi). by rewrite Hd.
Qed.

Lemma missing_run flags m : find (named name) (listed v chain 0 items) = None →
  ∃ s', vfs_file_open path flags m s = Ret (0, s') ∧ vs_fs s' = vs_fs s.
Proof using Hp.
  intros Hf. destruct Hp as [_ Hq _ _ Hdir [Hi0 (node & Hnode & Hops & Hmode)] (_ & Hwf & Hroom)].
  pose proof (fat32_lookup_correct _ _ _ _ _ _ _ name Hdir Hwf ltac:(by eapply room_le)) as El. rewrite Hf in El.
  destruct (path_run 0 _ El eq_refl) as (c & bits & E & Hc0 & Hcq). set (s' := mkvs _ _) in *.
  exists s'. split; [|done]. unfold vfs_file_open. rewrite (bind_Ret _ _ _ _ _ E), (proj2 (Z.eqb_neq c 0) Hc0).
  rewrite (bind_Ret _ _ _ _ _ (get_dentry_run s' c (mkdentry name 0 q [])
    ltac:(simpl; by rewrite lookup_insert_ne, lookup_insert_eq by done))).
  erewrite bind_Ret by (apply get_dentry_run; simpl; apply lookup_insert_eq). cbn [d_inode d_iname Z.eqb].
  destruct (_ && _); [|done].
  erewrite bind_Ret; [|apply (onfs_id _ s' 0)]; [done|].
  unfold inode_create. erewrite bind_Ret by (apply mget_Ret; exact Hnode). by rewrite Hops.
Qed.

Lemma found_run e ino l flags m : find (named name) (listed v chain 0 items) = Some (e, ino, l) →
  ∃ i (h : Heap.heap) vfs', let fs' := comp_set (<[i := inode_of e sb ino]> (fs_inodes (vs_fs s))) (comp_set h (vs_fs s)) in
    vfs_file_open path flags m s =
      (if flag flags O_EXCL then ret 0 else open_inode flags i) (mkvs fs' vfs') ∧
    i ≠ 0 ∧ fs_inodes (vs_fs s) !! i = None ∧ fs_wf fs' ∧ room fs' 60.
Proof using Hp.
  intros Hf. destruct Hp as [_ Hq _ _ Hdir [Hi0 (node & Hnode & Hops & Hmode)] (_ & Hwf & Hroom)].
  pose proof (fat32_lookup_correct _ _ _ _ _ _ _ name Hdir Hwf ltac:(by eapply room_le)) as El. rewrite Hf in El.
  destruct El as (i & h & El & Hi & Hg). pose proof (Heap.inv_cursor _ (wf_heap _ Hwf)).
  assert (fs_inodes (vs_fs s) !! i = None) as Hfresh by (apply (in_heap_fresh _ _ _ (wf_inodes _ Hwf)); lia).
  destruct (path_run i _ El) as (c & bits & E & Hc0 & Hcq).
  { simpl. apply lookup_insert_ne. congruence. }
  exists i, h, (add_dentry (vs_vfs s) bits q d c name i). cbv zeta. set (fs' := comp_set _ _) in *.
  set (s' := mkvs _ _) in *. split_and!; [|lia|done| |].
  - unfold vfs_file_open. rewrite (bind_Ret _ _ _ _ _ E), (proj2 (Z.eqb_neq c 0) Hc0).
    rewrite (bind_Ret _ _ _ _ _ (get_dentry_run s' c (mkdentry name i q [])
      ltac:(simpl; by rewrite lookup_insert_ne, lookup_insert_eq by done))).
    erewrite bind_Ret by (apply get_dentry_run; simpl; apply lookup_insert_eq). cbn [d_inode].
    rewrite (proj2 (Z.eqb_neq i 0)) by lia. destruct (flag flags O_EXCL); [done|].
    by erewrite bind_Ret by reflexivity.
  - unfold fs'. fs_wf_step Hwf Hg.
  - apply (room_grew (vs_fs s) fs' (SIZEOF_INODE + 7) 60 Hg); [by eapply room_le|done].
Qed.
(** The volume is still there when the inode was made. *)
Lemma volume_found i e ino (h : Heap.heap) :
  let fs' := comp_set (<[i := inode_of e sb ino]> (fs_inodes (vs_fs s))) (comp_set h (vs_fs s)) in
  (∃ x, fs_sbs fs' !! sb = Some x ∧ fs_fat fs' !! sb_private x = Some v) ∧
  ∀ chain' secs', on_volume v (vs_fs s) chain' secs' → on_volume v fs' chain' secs'.
Proof using Hp.
  intros fs'. destruct Hp as [_ _ _ _ [node x _ _ _ Hsb Hfat _ _] _ _]. split; [by exists x|].
  intros chain' secs'. by apply on_volume_same.
Qed.

Lemma open_found e ino l flags m chain' secs' :
  find (named name) (listed v chain 0 items) = Some (e, ino, l) → flag flags O_EXCL = false →
  on_volume v (vs_fs s) chain' secs' → chain' !! 0%nat = Some (first_cluster e) →
  (is_dir e = false → flag flags O_DIRECTORY = false → ∀ n, file_size e = Z.of_nat n →
     (n ≤ 512 * length secs')%nat → Z.of_nat (length secs') * 512 < 0x80000000 →
     ∃ f i fs1 s', vfs_file_open path flags m s = Ret (f, s') ∧ new_inode (vs_fs s) fs1 i (inode_of e sb ino) ∧
       opened fs1 (vs_fs s') i f ∧ fat_file (vs_fs s') f v chain' secs' n 0) ∧
  (is_dir e = true → ∀ items', dir_from secs' 0 items' →
     ∃ f i fs1 s', vfs_file_open path flags m s = Ret (f, s') ∧ new_inode (vs_fs s) fs1 i (inode_of e sb ino) ∧
       opened fs1 (vs_fs s') i f ∧ fat_dir (vs_fs s') f v chain' secs' (listed v chain' 0 items')).
Proof using Hp.
  intros Hf Hex Hv Hc. destruct (found_run e ino l flags m Hf) as (i & h & v' & E & Hi0 & Hnew & Hwf & Hroom).
  destruct (volume_found i e ino h) as [(x & Hsb & Hfat) Hvol]. apply Hvol in Hv.
  rewrite Hex in E. set (fs' := comp_set _ _) in *.
  assert (fs_inodes fs' !! i = Some (inode_of e sb ino)) as Hi by apply lookup_insert_eq.
  assert (new_inode (vs_fs s) fs' i (inode_of e sb ino)) as Hni by (by split).
  assert (∀ f fs2, file_open i fs' = Ret (f, fs2) →
    flag flags O_DIRECTORY && negb (is_dir e) = false →
    vfs_file_open path flags m s = Ret (f, mkvs fs2 v')) as Hopen.
  { intros f fs2 Eo Hd. rewrite E. unfold open_inode.
    erewrite bind_Ret by (apply onfs_id, mget_Ret; exact Hi).
    rewrite fmt_inode_of, Hd. exact (onfs_Ret _ (mkvs fs' v') _ _ Eo). }
  unfold inode_of in Hopen, Hi. fold (is_dir e) in Hopen, Hi.
  split; intros Hd; rewrite Hd in Hi, Hopen.
  - intros Hflag n Hsize Hle Hbig. rewrite Hflag in Hopen.
    destruct (open_file_run fs' i _ x v chain' secs' Hwf Hroom Hi0 Hi Hsb Hfat Hv Hc n Hsize Hle Hbig)
      as (f & fs2 & Eo & Ho & Hff).
    exists f, i, fs', (mkvs fs2 v'). split_and!; try done. apply Hopen; [|done].
    unfold file_open. erewrite bind_Ret by (apply mget_Ret; exact Hi). exact Eo.
  - intros items' Hitems.
    destruct (open_dir_run fs' i _ x v chain' secs' Hwf Hroom Hi0 Hi Hsb Hfat Hv Hc items' Hitems)
      as (f & fs2 & Eo & Ho & Hff).
    exists f, i, fs', (mkvs fs2 v'). split_and!; try done. apply Hopen; [|by rewrite andb_false_r].
    unfold file_open. erewrite bind_Ret by (apply mget_Ret; exact Hi). exact Eo.
Qed.
End path.

(** ** Properties *)

End FatFiles.
