(* ===== verification/MountSpec.v ===== *)
(** * Mounting

    What a volume's boot sector says is what is mounted: the directory at the mount point
    becomes the root of the volume, or an empty directory in memory; device nodes made in
    it lead to the drivers. *)
From S2P Require Import Prelude Bitfield Mmu Alloc Heap Hash Fs FsState Devices Ramfs RamfsSpec Fat32 Fat32Spec Fat32DirSpec Vfs VfsSpec VfsFiles FatFiles.
Import Fs FsState Devices Ramfs RamfsSpec Fat32 Fat32Spec Fat32DirSpec Vfs VfsSpec VfsFiles FatFiles.

Module MountSpec.

(** ** New objects *)

(** The objects of [s] are in [s'] as they were, in at most [n] more bytes; no file was
    opened and nothing was written to the outside. *)
Record fs_ext (s s' : fs) (n : Z) : Prop := {
  ext_wf : fs_wf s';
  ext_inodes : fs_inodes s ⊆ fs_inodes s';
  ext_sbs : fs_sbs s ⊆ fs_sbs s';
  ext_fat : fs_fat s ⊆ fs_fat s';
  ext_files : fs_files s' = fs_files s;
  ext_disks : same_disks s s';
  ext_uart : fs_uart s' = fs_uart s;
  ext_cursor : Heap.memory_cursor (fs_heap s') ≤ Heap.memory_cursor (fs_heap s) + n;
  ext_end : Heap.section_end (fs_heap s') = Heap.section_end (fs_heap s);
}.

Lemma ext_refl s n : fs_wf s → 0 ≤ n → fs_ext s s n.
Proof. intros. by split; try done; try lia. Qed.

Lemma ext_trans s1 s2 s3 n m : fs_ext s1 s2 n → fs_ext s2 s3 m → fs_ext s1 s3 (n + m).
Proof.
  intros [_ Hi Hs Hf Hfs (Hd1 & Hd2 & Hd3) Hu Hc He] [Hwf Hi' Hs' Hf' Hfs' (Hd1' & Hd2' & Hd3') Hu' Hc' He'].
  split; [done|by etransitivity..|congruence|split_and!; congruence|congruence|lia|congruence].
Qed.

Lemma ext_room s s' n m : fs_ext s s' n → room s (n + m) → 0 ≤ m → room s' m.
Proof. intros [] [_ Hr] Hm. split; [done|]. rewrite ext_end0. lia. Qed.

Lemma ext_le s s' n m : fs_ext s s' n → n ≤ m → fs_ext s s' m.
Proof. intros [] Hm. split; try done. lia. Qed.

Lemma ext_inode s s' n i x : fs_ext s s' n → fs_inodes s !! i = Some x → fs_inodes s' !! i = Some x.
Proof. intros H Hi. by eapply lookup_weaken, (ext_inodes _ _ _ H). Qed.

(** The volume [v] is mounted as [sb]. *)
Definition volume_at (s : fs) (sb : Z) (v : fat32_sb_private_t) : Prop :=
  ∃ x, fs_sbs s !! sb = Some x ∧ fs_fat s !! sb_private x = Some v.

Lemma ext_dir_inode s s' n d v chain secs items sb : fs_ext s s' n →
  fat_dir_inode s d v chain secs items sb → fat_dir_inode s' d v chain secs items sb.
Proof.
  intros H [node x Hv Hd Hs Hx Hf Hc Hi].
  apply (mkfdi _ _ _ _ _ _ _ node x); try done.
  - by eapply on_volume_same, Hv; apply (ext_disks _ _ _ H).
  - by eapply ext_inode.
  - by eapply lookup_weaken, (ext_sbs _ _ _ H).
  - by eapply lookup_weaken, (ext_fat _ _ _ H).
Qed.

(** *** Inserting new objects *)

(** The heap grew and one store got a new object. *)
Ltac new_object Hwf Hg :=
  split; simpl; try done;
  [ fs_wf_step Hwf Hg
  | try (apply insert_subseteq; eapply in_heap_fresh; [by destruct Hwf|lia]) ..
  | pose proof (grew_cursor _ _ _ Hg);
    unfold SIZEOF_FAT32_SB, SIZEOF_SUPER_BLOCK, SIZEOF_INODE, SIZEOF_RAMFS, SIZEOF_RAMFS_DIR in *; lia
  | apply (grew_end _ _ _ Hg) ].

(** ** FAT32 *)

(** What the boot sector of the device says. *)
Definition volume (device : Z) (sector : list Z) : fat32_sb_private_t :=
  let bs := boot_sector sector in
  let ebs := extended_boot_sector sector in
  mkfat device (reserved_sector_count bs) (table_size_32 ebs)
    (u32 (reserved_sector_count bs + fat_count bs * table_size_32 ebs))
    (bs_sectors_per_cluster bs) (ebs_root_cluster ebs).

(** The device has a FAT32 boot sector. *)
Record fat32_device (s : fs) (device : Z) (sector : list Z) : Prop := {
  fdv_device : ∃ dev, block_device device s = Ret (dev, s) ∧ block_size dev = 512 ∧
    read_block dev 0 s = Ret ((1, sector), s);
  fdv_sector : bytes_per_sector (boot_sector sector) = 512 ∧ table_size_16 (boot_sector sector) = 0;
}.

Lemma init_private_run s device sector : fat32_device s device sector → fs_wf s → room s 31 →
  ∃ p s', _fat32_init_fs_private device s = Ret (p, s') ∧ 0 < p ∧ fs_ext s s' 31 ∧
    fs_fat s' !! p = Some (volume device sector).
Proof.
  intros [(dev & Ed & Hsz & Er) (Hb & Ht)] Hwf Hroom.
  destruct (mnew_run s SIZEOF_FAT32_SB (mkfat 0 0 0 0 0 0) Hwf) as (p & h & Ep & Hp & Hf & Hg);
    [by eapply room_le|].
  eexists p, _. split; [|split; [done|split]].
  - unfold _fat32_init_fs_private. rewrite (bind_Ret _ _ _ _ _ Ed), Hsz. erewrite bind_Ret by done.
    rewrite (bind_Ret _ _ _ _ _ Er). erewrite bind_Ret by done.
    erewrite bind_Ret.
    2:{ unfold _is_fat32_boot_sector, lift. rewrite Hb, Ht. done. }
    change (negb (0 =? 0)) with false. cbn iota. rewrite (bind_Ret _ _ _ _ _ Ep), (proj2 (Z.eqb_neq p 0)) by lia.
    erewrite bind_Ret by done. done.
  - simpl. rewrite insert_insert_eq. new_object Hwf Hg.
  - simpl. by rewrite lookup_insert_eq.
Qed.

(** The super block of a new FAT32 file system. *)
Lemma fat32_create_run s device sector : fat32_device s device sector → fs_wf s → room s 60 →
  ∃ sb s', fat32_create_filesystem device s = Ret (sb, s') ∧ 0 < sb ∧ fs_ext s s' 50 ∧
    (∃ p, fs_sbs s' !! sb = Some (mksb FAT32_ROOT_INO FAT32_SB_OPS p) ∧
      fs_fat s' !! p = Some (volume device sector)).
Proof.
  intros Hdev Hwf Hroom.
  destruct (init_private_run s device sector Hdev Hwf) as (p & s1 & E1 & Hp & Hx1 & Hv); [by eapply room_le|].
  pose proof (ext_wf _ _ _ Hx1) as Hwf1.
  destruct (mnew_run s1 SIZEOF_SUPER_BLOCK (mksb 0 FAT32_SB_OPS 0) Hwf1) as (sb & h & Eb & Hb & Hf & Hg).
  { by eapply ext_room; [exact Hx1|eapply room_le; [exact Hroom|]|]. }
  eexists sb, _. split; [|split; [done|split]].
  - unfold fat32_create_filesystem. rewrite (bind_Ret _ _ _ _ _ E1), (proj2 (Z.eqb_neq p 0)) by lia.
    rewrite (bind_Ret _ _ _ _ _ Eb), (proj2 (Z.eqb_neq sb 0)) by lia. erewrite bind_Ret by done. done.
  - apply (ext_trans _ s1 _ 31 19 Hx1). simpl. rewrite insert_insert_eq. new_object Hwf1 Hg.
  - exists p. simpl. rewrite lookup_insert_eq. by split.
Qed.

(** ** The RAM file system *)

Lemma ramfs_create_super_run s : fs_wf s → room s 40 →
  ∃ sb rp s', create_ramfs_super_block s = Ret (sb, s') ∧ 0 < sb ∧ fs_ext s s' 30 ∧
    fs_sbs s' !! sb = Some (mksb RAMFS_ROOT_NODE_ID RAMFS_SB_OPS rp) ∧ is_Some (fs_ramfs s' !! rp).
Proof.
  intros Hwf Hroom.
  destruct (mnew_run s SIZEOF_SUPER_BLOCK (mksb 0 RAMFS_SB_OPS 0) Hwf) as (sb & h & Eb & Hb & Hf & Hg);
    [by eapply room_le|].
  set (s1 := comp_set _ _) in Eb.
  assert (fs_ext s s1 19) as Hx1 by (unfold s1; simpl; new_object Hwf Hg).
  pose proof (ext_wf _ _ _ Hx1) as Hwf1.
  destruct (mnew_run s1 SIZEOF_RAMFS (mkramfs 0) Hwf1) as (rp & h2 & Er & Hr & Hf2 & Hg2).
  { by eapply ext_room; [exact Hx1|eapply room_le; [exact Hroom|]|]. }
  eexists sb, rp, _. split; [|split; [done|split]].
  - unfold create_ramfs_super_block. rewrite (bind_Ret _ _ _ _ _ Eb), (proj2 (Z.eqb_neq sb 0)) by lia.
    rewrite (bind_Ret _ _ _ _ _ Er), (proj2 (Z.eqb_neq rp 0)) by lia.
    erewrite bind_Ret by done. erewrite bind_Ret by done. done.
  - simpl. rewrite !insert_insert_eq. assert (heap_grew (fs_heap s) h2 30) as Hg12.
    { eapply heap_grew_trans in Hg2; [|exact Hg]. exact Hg2. }
    pose proof (in_heap_fresh _ _ _ (wf_sbs _ Hwf) (proj1 Hf)) as Hnew.
    pose proof (grew_mono _ _ _ Hg). pose proof (grew_mono _ _ _ Hg2). simpl in Hf2.
    split; simpl; try done.
    + assert (p_le : sb ≤ Heap.memory_cursor h2) by (simpl in *; lia).
      destruct Hwf. pose proof (grew_inv _ _ _ Hg12). split; simpl; try done;
        first [by eapply in_heap_grew|eapply in_heap_add; [by eapply in_heap_grew|lia]].
    + by apply insert_subseteq.
    + pose proof (grew_cursor _ _ _ Hg12). lia.
    + apply (grew_end _ _ _ Hg12).
  - simpl. rewrite !insert_insert_eq, !lookup_insert_eq. eauto.
Qed.

(** ** Mounting on an entry *)

(** The inode of the root, as [read_inode] fills it. *)
Definition root_inode (sb : Z) (v : fat32_sb_private_t) : inode :=
  mkinode FAT32_ROOT_INO 0 0 S_IFDIR 0 FAT32_DIR_OPS FAT32_INODE_OPS sb (root_cluster v).

Section mount.
Context (s : vstate) (t : Z) (d : dentry).
Hypothesis Hwf : vfs_wf (vs_vfs s).
Hypothesis Ht : dentries (vs_vfs s) !! t = Some d.

(** The tree with inode [r] at the mount point, and what was cached below it forgotten. *)
Definition mounted (r : Z) : vfs_t :=
  let v := vs_vfs s in
  mkvfs (dentry_base v) (dentry_bits v)
    (<[t := mkdentry (d_iname d) r (d_parent d) []]> (dentries v)) (root v).

Lemma mounted_wf r : vfs_wf (mounted r).
Proof using All.
  apply (vfs_wf_put _ _ d); simpl; try done; [lia|]. intros c Hc. by apply elem_of_nil in Hc.
Qed.

(** The device's volume is mounted: the entry leads to its root directory. *)
Lemma mount_fat32_run device sector : fat32_device (vs_fs s) device sector → fs_wf (vs_fs s) →
  device ≠ 0 → room (vs_fs s) 120 →
  ∃ r sb s', let v := volume device sector in
    _vfs_mount_dev device t (str "fat32") s = Ret (0, mkvs s' (mounted r)) ∧ r ≠ 0 ∧
    fs_ext (vs_fs s) s' 110 ∧ fs_inodes s' !! r = Some (root_inode sb v) ∧ volume_at s' sb v.
Proof using All.
  intros Hdev Hwff Hd0 Hroom.
  destruct (fat32_create_run _ device sector Hdev Hwff) as (sb & s1 & E1 & Hsb0 & Hx1 & p & Hsb & Hv);
    [by eapply room_le|].
  destruct (sb_alloc_inode_run s1 sb _ (ext_wf _ _ _ Hx1) Hsb) as (r & h & E2 & Hr & Hf & Hg).
  { by eapply ext_room; [exact Hx1|eapply room_le; [exact Hroom|]|]. }
  pose proof (ext_wf _ _ _ Hx1) as Hwf1.
  eexists r, sb, _. cbv zeta. split; [|split; [lia|split]].
  - unfold _vfs_mount_dev. erewrite bind_Ret.
    2:{ apply onfs_Ret. unfold _sb_by_dev_fs_type.
        change (streq (str "fat32") (str "ramfs")) with false.
        change (streq (str "fat32") (str "fat32")) with true. cbn iota.
        rewrite (proj2 (Z.eqb_neq device 0) Hd0). erewrite bind_Ret by done. exact E1. }
    rewrite (proj2 (Z.eqb_neq sb 0)) by lia.
    erewrite bind_Ret by (apply onfs_Ret; exact E2). rewrite (proj2 (Z.eqb_neq r 0)) by lia.
    erewrite bind_Ret by done.
    erewrite bind_Ret by (apply onfs_Ret, mget_Ret; exact Hsb). cbn [root_ino].
    erewrite bind_Ret.
    2:{ apply onfs_Ret. unfold sb_read_inode. erewrite bind_Ret by (apply mget_Ret; exact Hsb). cbn [sb_ops].
        unfold _fat32_sb_read_inode. erewrite bind_Ret by (apply mget_Ret; exact Hsb). cbn [root_ino].
        erewrite bind_Ret by done.
        erewrite bind_Ret by (apply mget_Ret; simpl; apply lookup_insert_eq). cbn [super_block with_super_block].
        rewrite Z.eqb_refl. erewrite bind_Ret by done. cbn [sb_private].
        erewrite bind_Ret by (apply mget_Ret; exact Hv).
        erewrite bind_Ret by (apply mupd_Ret; simpl; apply lookup_insert_eq). done. }
    cbn [Z.eqb]. erewrite bind_Ret by done.
    erewrite bind_Ret by (apply get_dentry_run; exact Ht). erewrite bind_Ret by done. done.
  - apply (ext_trans _ s1 _ 50 60 Hx1). simpl. rewrite insert_insert_eq. new_object Hwf1 Hg.
  - simpl. rewrite lookup_insert_eq. split; [done|]. by exists (mksb FAT32_ROOT_INO FAT32_SB_OPS p).
Qed.
(** Without a device: the entry leads to a new, empty directory in memory. *)
Lemma mount_ramfs_run : fs_wf (vs_fs s) → room (vs_fs s) 500 →
  ∃ r q s', _vfs_mount_dev 0 t (str "ramfs") s = Ret (0, mkvs s' (mounted r)) ∧
    fs_ext (vs_fs s) s' 400 ∧ rdir s' r q [] ∧ is_dir_inode (mkvs s' (mounted r)) r.
Proof using All.
  intros Hwff Hroom.
  destruct (ramfs_create_super_run _ Hwff) as (sb & rp & s1 & E1 & Hsb0 & Hx1 & Hsb & Hrp);
    [by eapply room_le|].
  destruct (sb_alloc_inode_run s1 sb _ (ext_wf _ _ _ Hx1) Hsb) as (r & h & E2 & Hr & Hf & Hg).
  { by eapply ext_room; [exact Hx1|eapply room_le; [exact Hroom|]|]. }
  pose proof (ext_wf _ _ _ Hx1) as Hwf1. set (s2 := comp_set _ _) in E2.
  assert (fs_ext s1 s2 50) as Hx2 by (unfold s2; simpl; new_object Hwf1 Hg).
  pose proof (ext_trans _ _ _ _ _ Hx1 Hx2) as Hx12. pose proof (ext_wf _ _ _ Hx2) as Hwf2.
  destruct (mnew_run s2 SIZEOF_RAMFS_DIR (mkdir []) Hwf2) as (q & h2 & E3 & Hq & Hfq & Hg2).
  { by eapply ext_room; [exact Hx12|eapply room_le; [exact Hroom|]|]. }
  set (s3 := comp_set _ _) in E3.
  assert (fs_ext s2 s3 300) as Hx3 by (unfold s3; simpl in Hfq, Hg2 |- *; new_object Hwf2 Hg2).
  set (node := mkinode RAMFS_ROOT_NODE_ID 0 0 S_IFDIR 0 RAMFS_DIR_FILE_OPS RAMFS_INODE_OPS sb q).
  set (s4 := comp_set (<[r := node]> (fs_inodes s3)) s3).
  exists r, q, s4. split; [|split; [|split]].
  - unfold _vfs_mount_dev. erewrite bind_Ret.
    2:{ apply onfs_Ret. unfold _sb_by_dev_fs_type.
        change (streq (str "ramfs") (str "ramfs")) with true. cbn iota. exact E1. }
    rewrite (proj2 (Z.eqb_neq sb 0)) by lia.
    erewrite bind_Ret by (apply onfs_Ret; exact E2). rewrite (proj2 (Z.eqb_neq r 0)) by lia.
    erewrite bind_Ret by done.
    erewrite bind_Ret by (apply onfs_Ret, mget_Ret; exact Hsb). cbn [root_ino].
    erewrite bind_Ret.
    2:{ apply onfs_Ret. unfold sb_read_inode. erewrite bind_Ret by (apply mget_Ret; exact Hsb). cbn [sb_ops].
        unfold _ramfs_sb_read_inode. erewrite bind_Ret by done.
        erewrite bind_Ret by (apply mget_Ret; simpl; apply lookup_insert_eq). cbn [super_block with_super_block].
        rewrite Z.eqb_refl. erewrite bind_Ret by done. rewrite (bind_Ret _ _ _ _ _ E3).
        erewrite bind_Ret by (apply mupd_Ret; simpl; apply lookup_insert_eq). done. }
    cbn [Z.eqb]. erewrite bind_Ret by done.
    erewrite bind_Ret by (apply get_dentry_run; exact Ht). erewrite bind_Ret by done. done.
  - pose proof (heap_grew_trans _ _ _ _ _ Hg Hg2 : heap_grew (fs_heap s1) h2 346) as Hg12.
    pose proof (in_heap_fresh _ _ _ (wf_inodes _ Hwf1) (proj1 Hf)) as Hnew.
    apply (ext_trans _ s1 _ 30 370 Hx1). pose proof (ext_wf _ _ _ Hx3) as Hwf3.
    split; simpl; try done.
    + destruct Hwf3; split; simpl in *; try done. apply in_heap_upd; [done|].
      rewrite lookup_insert_eq. eauto.
    + rewrite insert_insert_eq. by apply insert_subseteq.
    + pose proof (grew_cursor _ _ _ Hg12). lia.
    + apply (grew_end _ _ _ Hg12).
  - apply (mkrd _ _ _ _ node (mksb RAMFS_ROOT_NODE_ID RAMFS_SB_OPS rp) rp); simpl; try done.
    + by rewrite lookup_insert_eq.
    + by rewrite lookup_insert_eq.
    + intros c Hc. by apply elem_of_nil in Hc.
  - split; [lia|]. exists node. simpl. by rewrite lookup_insert_eq.
Qed.
End mount.

(** ** Directories in the cache *)

(** The entries [cs] have the names [names]. *)
Definition children_named (v : vfs_t) (cs : list Z) (names : list name_t) : Prop :=
  Forall2 (λ c name, d_iname <$> dentries v !! c = Some name) cs names.

(** The entry [p], named [nm], leads to inode [i]; below it [names] are cached, in [cs]. *)
Record dir_at (v : vfs_t) (p : Z) (nm : name_t) (i par : Z) (cs : list Z) (names : list name_t) : Prop := {
  da_entry : dentries v !! p = Some (mkdentry nm i par cs);
  da_children : children_named v cs names;
}.

(** Entries keep their names. *)
Definition names_kept (v v' : vfs_t) : Prop :=
  ∀ c d, dentries v !! c = Some d → d_iname <$> dentries v' !! c = Some (d_iname d).

Lemma children_kept v v' cs names : names_kept v v' → children_named v cs names → children_named v' cs names.
Proof.
  intros H Hcs. eapply Forall2_impl; [exact Hcs|]. intros c name Hc.
  cbv beta in *. destruct (dentries v !! c) as [d|] eqn:Hd; [|done]. injection Hc as <-. by apply H.
Qed.

Lemma cached_none v cs names name : children_named v cs names → name ∉ names → cached v cs name = None.
Proof.
  induction 1 as [|c n cs names Hc _ IH]; [done|]. intros [Hn Hns]%not_elem_of_cons. simpl.
  destruct (dentries v !! c) as [d|]; [|done]. injection Hc as ->.
  unfold streq. rewrite bool_decide_eq_false_2 by done. by apply IH.
Qed.

Lemma cached_some v cs names k c name : children_named v cs names → NoDup names →
  cs !! k = Some c → names !! k = Some name → cached v cs name = Some c.
Proof.
  intros H. revert k. induction H as [|x n cs names Hx _ IH]; intros k; [done|].
  intros [Hn Hnd]%NoDup_cons. simpl. destruct (dentries v !! x) as [d|]; [|done]. injection Hx as ->.
  unfold streq. destruct k as [|k]; simpl.
  - intros [= ->] [= ->]. by rewrite bool_decide_eq_true_2.
  - intros Hc Hk. rewrite bool_decide_eq_false_2; [by eapply IH|]. intros ->.
    by apply list_elem_of_lookup_2 in Hk.
Qed.

Lemma put_names v b bits p d d' r : dentries v !! p = Some d → d_iname d' = d_iname d →
  names_kept v (mkvfs b bits (<[p := d']> (dentries v)) r).
Proof.
  intros Hp Hn c x Hc. simpl. destruct (decide (c = p)) as [->|].
  - rewrite lookup_insert_eq. simpl. congruence.
  - by rewrite lookup_insert_ne, Hc.
Qed.

Lemma add_names v bits q d c name i : dentries v !! q = Some d → dentries v !! c = None →
  names_kept v (add_dentry v bits q d c name i).
Proof.
  intros Hq Hc x dx Hx. simpl. destruct (decide (x = q)) as [->|].
  - rewrite lookup_insert_eq. simpl. congruence.
  - rewrite lookup_insert_ne by done. rewrite lookup_insert_ne by congruence. by rewrite Hx.
Qed.

(** A new entry, and what it leaves. *)
Lemma add_dir_at v bits q nm i par cs names c name j :
  dir_at v q nm i par cs names → dentries v !! c = None →
  let v' := add_dentry v bits q (mkdentry nm i par cs) c name j in
  dir_at v' q nm i par (cs ++ [c]) (names ++ [name]) ∧ dir_at v' c name j q [] [] ∧
  ∀ p nm' i' par' cs' names', p ≠ q → dir_at v p nm' i' par' cs' names' → dir_at v' p nm' i' par' cs' names'.
Proof.
  intros [Hq Hcs] Hc v'. assert (c ≠ q) as Hcq by congruence.
  pose proof (add_names v bits q _ c name j Hq Hc) as Hk. fold v' in Hk. split_and!.
  - split; [apply lookup_insert_eq|]. apply Forall2_app; [by eapply children_kept|].
    constructor; [|done]. simpl. by rewrite lookup_insert_ne, lookup_insert_eq by done.
  - split; [simpl; by rewrite lookup_insert_ne, lookup_insert_eq by done|constructor].
  - intros p nm' i' par' cs' names' Hne [Hp Hcs']. split; [|by eapply children_kept].
    simpl. rewrite lookup_insert_ne by done. by rewrite lookup_insert_ne by congruence.
Qed.

(** Another inode for an entry. *)
Lemma put_dir_at v p nm i par cs names cs2 j : dir_at v p nm i par cs names →
  (∀ c, c ∈ cs2 → c ∈ cs) →
  let v' := mkvfs (dentry_base v) (dentry_bits v) (<[p := mkdentry nm j par cs2]> (dentries v)) (root v) in
  (cs2 = cs → dir_at v' p nm j par cs names) ∧ (cs2 = [] → dir_at v' p nm j par [] []) ∧
  ∀ p' nm' i' par' cs' names', p' ≠ p → dir_at v p' nm' i' par' cs' names' → dir_at v' p' nm' i' par' cs' names'.
Proof.
  intros [Hp Hcs] Hsub v'.
  pose proof (put_names v (dentry_base v) (dentry_bits v) p _ (mkdentry nm j par cs2) (root v) Hp eq_refl) as Hk.
  fold v' in Hk. split_and!.
  - intros ->. split; [apply lookup_insert_eq|by eapply children_kept].
  - intros ->. split; [apply lookup_insert_eq|constructor].
  - intros p' nm' i' par' cs' names' Hne [Hp' Hcs']. split; [|by eapply children_kept].
    simpl. by rewrite lookup_insert_ne.
Qed.

(** At least [n] slots for entries are free. *)
Definition free_slots (v : vfs_t) (n : nat) : Prop :=
  ∃ X : gset Z, (n ≤ stdpp.base.size X)%nat ∧ ∀ j, j ∈ X → 0 ≤ j < 72 ∧ Bitfield.used (dentry_bits v) j = false.

Lemma free_has_slot v n : free_slots v (S n) → has_slot v.
Proof.
  intros (X & HX & Hfree). destruct (decide (X = ∅)) as [->|(j & Hj)%set_choose_L].
  { rewrite size_empty in HX. lia. }
  exists j. by apply Hfree.
Qed.

Lemma free_le v n m : free_slots v n → (m ≤ n)%nat → free_slots v m.
Proof. intros (X & HX & H) Hm. exists X. split; [lia|done]. Qed.

Lemma free_add v bits q d c name i n : vfs_wf v → free_slots v (S n) →
  (∀ x, Slots.owned (dentry_base v) SIZEOF_DENTRY bits x = VfsSpec.owned v x || (x =? c)) →
  free_slots (add_dentry v bits q d c name i) n.
Proof.
  intros Hwf (X & HX & Hfree) Ho. pose proof (vw_base _ Hwf) as [Hb _].
  set (j0 := (c - dentry_base v) / SIZEOF_DENTRY). exists (X ∖ {[j0]}). split.
  - rewrite size_difference_alt. assert (stdpp.base.size (X ∩ {[j0]}) ≤ 1)%nat; [|lia].
    rewrite <- (size_singleton (C := gset Z) j0). apply subseteq_size. set_solver.
  - intros j [Hj Hne]%elem_of_difference. destruct (Hfree j Hj) as [Hr Hu]. split; [done|]. simpl.
    specialize (Ho (dentry_base v + j * SIZEOF_DENTRY)). unfold VfsSpec.owned in Ho.
    rewrite !Slots.owned_slot, Hu in Ho by (unfold SIZEOF_DENTRY; lia). rewrite Ho. simpl.
    apply Z.eqb_neq. intros <-. apply Hne, elem_of_singleton. unfold j0.
    replace (dentry_base v + j * SIZEOF_DENTRY - dentry_base v) with (j * SIZEOF_DENTRY) by lia.
    by rewrite Z.div_mul by done.
Qed.

(** ** One more name in a directory of the cache *)

(** [name] is the new, last entry [c] below the directory [e], and leads to inode [j] (0: to
    nothing); every other entry is as it was; [n] slots are free. *)
Record new_entry (v v' : vfs_t) (e : Z) (nm : name_t) (i par : Z) (cs : list Z) (names : list name_t)
    (c : Z) (name : name_t) (j : Z) (n : nat) : Prop := {
  ne_wf : vfs_wf v';
  ne_root : root v' = root v;
  ne_free : free_slots v' n;
  ne_dir : dir_at v' e nm i par (cs ++ [c]) (names ++ [name]);
  ne_entry : dir_at v' c name j e [] [];
  ne_new : c ≠ 0 ∧ c ≠ e ∧ dentries v !! c = None;
  ne_others : ∀ p nm' i' par' cs' names', p ≠ e → dir_at v p nm' i' par' cs' names' →
    dir_at v' p nm' i' par' cs' names';
}.

Lemma new_entry_added v bits e nm i par cs names c name j n :
  let v' := add_dentry v bits e (mkdentry nm i par cs) c name j in
  vfs_wf v → vfs_wf v' → dir_at v e nm i par cs names → dentries v !! c = None → c ≠ 0 →
  (∀ x, Slots.owned (dentry_base v) SIZEOF_DENTRY bits x = VfsSpec.owned v x || (x =? c)) →
  free_slots v (S n) → new_entry v v' e nm i par cs names c name j n.
Proof.
  intros v' Hwf Hwf' He Hnew Hc0 Ho Hfree.
  destruct (add_dir_at v bits e nm i par cs names c name j He Hnew) as (H1 & H2 & H3).
  split; try done; [by apply free_add|]. split_and!; try done.
  intros ->. by rewrite (da_entry _ _ _ _ _ _ _ He) in Hnew.
Qed.

(** What looking up a new name comes to, in the directory and at the end of a path. *)
Lemma child_new_entry s e nm i par cs names name j fs' n :
  vfs_wf (vs_vfs s) → dir_at (vs_vfs s) e nm i par cs names →
  name ∉ names → inode_lookup i name (vs_fs s) = Ret (j, fs') →
  (length name ≤ 15)%nat → (length cs < 8)%nat → free_slots (vs_vfs s) (S n) →
  ∃ c v', _vfs_dentry_child_by_name e name s = Ret (c, mkvs fs' v') ∧
    new_entry (vs_vfs s) v' e nm i par cs names c name j n.
Proof.
  intros Hwf He Hname El Hlen Hcs Hfree.
  destruct (child_miss s e _ name j fs' Hwf (da_entry _ _ _ _ _ _ _ He)) as
    (c & bits & E & Hwf' & Hnew & Hc0 & _ & Ho); try done.
  - eapply cached_none; [apply (da_children _ _ _ _ _ _ _ He)|done].
  - by eapply free_has_slot.
  - eexists c, _. split; [exact E|]. by apply new_entry_added.
Qed.

Lemma lookup_new_entry s rel e nm i par cs names name j fs' n :
  vfs_wf (vs_vfs s) → cached_path s (root (vs_vfs s)) rel e name → dir_at (vs_vfs s) e nm i par cs names →
  name ∉ names → inode_lookup i name (vs_fs s) = Ret (j, fs') →
  (length name ≤ 15)%nat → (length cs < 8)%nat → free_slots (vs_vfs s) (S n) →
  (j = 0 → is_dir_inode (mkvs fs' (vs_vfs s)) i) →
  ∃ c v', _vfs_dentry_lookup (47 :: rel) s = Ret (c, mkvs fs' v') ∧
    new_entry (vs_vfs s) v' e nm i par cs names c name j n.
Proof.
  intros Hwf Hpath He Hname El Hlen Hcs Hfree Hdir.
  destruct (lookup_new_run s rel e _ name j fs' Hwf Hpath (da_entry _ _ _ _ _ _ _ He)) as
    (c & bits & E & Hwf' & Hnew & Hc0 & _ & _ & Ho); try done.
  - eapply cached_none; [apply (da_children _ _ _ _ _ _ _ He)|done].
  - by eapply free_has_slot.
  - eexists c, _. split; [exact E|]. by apply new_entry_added.
Qed.

(** Giving a new entry an inode. *)
Lemma new_entry_put v v' e nm i par cs names c name j j' n :
  new_entry v v' e nm i par cs names c name j n →
  new_entry v (mkvfs (dentry_base v') (dentry_bits v') (<[c := mkdentry name j' e []]> (dentries v')) (root v'))
    e nm i par cs names c name j' n.
Proof.
  intros [Hwf Hr Hf He Hc Hnew Ho].
  destruct (put_dir_at v' c name j e [] [] [] j' Hc ltac:(done)) as (H1 & _ & H3).
  split; try done.
  - apply (vfs_wf_put _ _ (mkdentry name j e [])); simpl; try done; [apply Hc|lia|].
    intros x Hx. by apply elem_of_nil in Hx.
  - apply H3; [|done]. naive_solver.
  - by apply H1.
  - intros p nm' i' par' cs' names' Hne Hp. apply H3; [|by apply Ho].
    intros ->. pose proof (da_entry _ _ _ _ _ _ _ Hp). naive_solver.
Qed.

(** *** A device node *)

Lemma added_ext s s' d p cs name i : child_added s s' d p cs name i → fs_ext s s' 700.
Proof.
  intros [Hwf [_ Hi] _ Hin Hf _ _ _ Hsb Hc He [? ? ? ? Hfat]]. split; try done.
  - apply map_subseteq_spec. intros j x Hj. rewrite Hin; [done|congruence].
  - by rewrite Hsb.
  - by rewrite Hfat.
Qed.

Lemma mknod_run s rel e nm i par cs names name p rcs m dev ops n :
  vfs_wf (vs_vfs s) → fs_wf (vs_fs s) → room (vs_fs s) 700 →
  cached_path s (root (vs_vfs s)) rel e name → dir_at (vs_vfs s) e nm i par cs names →
  name ∉ names → (length name ≤ 15)%nat → (length cs < 8)%nat → free_slots (vs_vfs s) (S n) →
  rdir (vs_fs s) i p rcs → is_dir_inode s i → find_child rcs name = None → (length rcs < 8)%nat →
  mknod_file_ops m dev (vs_fs s) = Ret (Some ops, vs_fs s) →
  ∃ c j s', vfs_mknod (47 :: rel) m dev s = Ret (0, s') ∧
    new_entry (vs_vfs s) (vs_vfs s') e nm i par cs names c name j n ∧
    fs_ext (vs_fs s) (vs_fs s') 700 ∧ rdir (vs_fs s') i p (rcs ++ [mkchild j name]) ∧
    j ≠ 0 ∧ ∃ node, fs_inodes (vs_fs s') !! j = Some node ∧ file_ops node = ops.
Proof.
  intros Hwf Hwff Hroom Hpath He Hname Hlen Hcs Hfree Hrd Hdir Hfind Hrcs Hops.
  inversion Hrd as [node sb rp Hi _ Hio _ _ _ _ _ _ _].
  assert (inode_lookup i name (vs_fs s) = Ret (0, vs_fs s)) as El.
  { unfold inode_lookup. erewrite bind_Ret by (apply mget_Ret; exact Hi).
    rewrite Hio, (lookup_run _ _ _ _ _ Hrd), Hfind. done. }
  destruct (lookup_new_entry s rel e nm i par cs names name 0 (vs_fs s) n) as (c & v' & E & Hne); try done.
  destruct (ramfs_mknod_correct (vs_fs s) i p rcs name m dev ops Hwff Hrd Hroom ltac:(lia) Hops)
    as (j & k & sbp & fs' & Em & Hadd & Hj).
  rewrite (proj2 (Z.ltb_lt (Z.of_nat (length rcs)) 8)) in Em by lia.
  destruct (added_new _ _ _ _ _ _ _ Hadd) as [Hj0 _].
  pose proof (da_entry _ _ _ _ _ _ _ (ne_entry _ _ _ _ _ _ _ _ _ _ _ _ Hne)) as Hc.
  pose proof (da_entry _ _ _ _ _ _ _ (ne_dir _ _ _ _ _ _ _ _ _ _ _ _ Hne)) as He'.
  destruct (ne_new _ _ _ _ _ _ _ _ _ _ _ _ Hne) as (Hc0 & _ & _).
  eexists c, j, (mkvs fs' _).
  split; [|split; [exact (new_entry_put _ _ _ _ _ _ _ _ _ _ 0 j n Hne)|split_and!]].
  - unfold vfs_mknod, make_node. rewrite (bind_Ret _ _ _ _ _ E), (proj2 (Z.eqb_neq c 0) Hc0).
    erewrite bind_Ret by (apply get_dentry_run; exact Hc). cbn [d_inode d_parent d_iname Z.eqb negb].
    erewrite bind_Ret by (apply get_dentry_run; exact He'). cbn [d_inode].
    erewrite bind_Ret.
    2:{ apply onfs_Ret. unfold inode_mknod. erewrite bind_Ret by (apply mget_Ret; exact Hi).
        rewrite Hio. exact Em. }
    rewrite (proj2 (Z.eqb_neq j 0)) by lia. erewrite bind_Ret by done. done.
  - by eapply added_ext.
  - by apply (added_dir _ _ _ _ _ _ _ Hadd).
  - lia.
  - eexists. by split; [exact Hj|].
Qed.

End MountSpec.
