(* ===== verification/FsWitness.v ===== *)
(** * The file systems' theorems at concrete states

    [FsExamples]: states reached by running the model - a RAM file system at the root, and
    a FAT32 volume on an SD card; [FsWitness]: the theorems there. *)
From S2P Require Import Prelude Bitfield Mmu Alloc Heap Hash Fs FsState Devices Ramfs RamfsSpec Fat32 Fat32Spec Fat32DirSpec Vfs VfsSpec VfsFiles.
Import Fs FsState Devices Ramfs RamfsSpec Fat32 Fat32Spec Vfs VfsSpec VfsFiles.

Module FsExamples.

(** ** Deciding well-formedness of a concrete state *)

Definition heap_ok (h : Heap.heap) : Prop :=
  (0 < Heap.memory_cursor h ∧ Heap.memory_cursor h ≤ Heap.section_end h) ∧
  Heap.memory_cursor h `mod` 4 = 0 ∧ Heap.section_end h < 0x100000000 ∧
  map_Forall (λ p sz, Heap.SIZEOF_SIZE_T < p ∧ 0 ≤ sz ∧ p + sz ≤ Heap.memory_cursor h)
    (Heap.block_size h) ∧
  map_Forall (λ p sz, map_Forall (λ q sz', p = q ∨ p + sz ≤ q - 4 ∨ q + sz' ≤ p - 4)
    (Heap.block_size h)) (Heap.block_size h) ∧
  map_Forall (λ p d, Heap.block_size h !! p = Some (Z.of_nat (length d))) (Heap.block_data h).

#[export] Instance heap_ok_dec h : Decision (heap_ok h).
Proof. unfold heap_ok. apply _. Defined.

Lemma heap_ok_inv h : heap_ok h → Heap.inv h.
Proof.
  intros ([] & ? & ? & Hb & Hd & Hx). split; try done.
  intros p sz q sz' Hp Hq Hne. destruct (Hd _ _ Hp _ _ Hq) as [?|?]; [done|].
  unfold Heap.disjoint_blocks, Heap.SIZEOF_SIZE_T. done.
Qed.

Definition below {A} (h : Heap.heap) (m : gmap Z A) : Prop :=
  map_Forall (λ p _, p ≤ Heap.memory_cursor h) m.

#[export] Instance below_dec {A} h (m : gmap Z A) : Decision (below h m).
Proof. unfold below. apply _. Defined.

Definition fs_ok (s : fs) : Prop :=
  let h := fs_heap s in
  heap_ok h ∧ below h (fs_inodes s) ∧ below h (fs_files s) ∧ below h (fs_sbs s) ∧
  below h (fs_ramfs s) ∧ below h (fs_dirs s) ∧ below h (fs_rfiles s) ∧ below h (fs_fat s) ∧
  below h (fs_fat_files s) ∧ below h (fs_fat_dirs s).

#[export] Instance fs_ok_dec s : Decision (fs_ok s).
Proof. unfold fs_ok. apply _. Defined.

Lemma fs_ok_wf s : fs_ok s → fs_wf s.
Proof.
  intros (Hh & H). assert (∀ A (m : gmap Z A), below (fs_heap s) m → in_heap (fs_heap s) m) as Hb.
  { intros A m Hm p [x Hx]. by apply Hm in Hx. }
  decompose [and] H. split; auto using heap_ok_inv.
Qed.

(** Prove well-formedness of a concrete state by running the check. *)
Ltac decide_wf := apply fs_ok_wf, (bool_decide_eq_true_1 (fs_ok _)); vm_compute; reflexivity.

(** ** The RAM file system *)

Definition result {A S} (d : A) (m : M S A) (s : S) : A :=
  match m s with Ret (a, _) => a | _ => d end.

Definition run {A S} (m : M S A) (s : S) : S := match m s with Ret (_, s') => s' | _ => s end.

Definition no_card : sd_card := λ _, None.

Definition sections : SectionAllocator.section_allocator_t :=
  SectionAllocator.section_allocator_init 0x00900000.

(** The state after [vfs_init]. *)
Definition v_init : vstate := Eval vm_compute in
  match vfs_init 0x8000 (empty_fs 0x01000000 0x00A00000 no_card) sections with
  | Ret (v, _) => v
  | _ => mkvs (empty_fs 0 0 no_card) (mkvfs 0 [] ∅ 0)
  end.

(** A RAM file system mounted on the root, with a directory [/tmp]. *)
Definition v_mounted : vstate := Eval vm_compute in
  run (vfs_mount None (str "/") (str "ramfs")) v_init.

Definition v_tmp : vstate := Eval vm_compute in
  run (vfs_mkdir (str "/tmp") S_IFDIR) v_mounted.

(** The entry of [/tmp/a], which does not exist yet. *)
Definition v_a : vstate := Eval vm_compute in run (_vfs_dentry_lookup (str "/tmp/a")) v_tmp.
Definition p_a : Z := Eval vm_compute in result 0 (_vfs_dentry_lookup (str "/tmp/a")) v_tmp.

(** [/tmp/a] open, with the bytes 1, 2, 3 written. *)
Definition v_open : vstate := Eval vm_compute in
  run (vfs_file_open (str "/tmp/a") O_CREAT S_IFREG) v_tmp.
Definition f_a : Z := Eval vm_compute in
  result 0 (vfs_file_open (str "/tmp/a") O_CREAT S_IFREG) v_tmp.
Definition v_written : vstate := Eval vm_compute in
  run (onfs (vfs_file_write f_a [1; 2; 3])) v_open.

Example mounted_returns : result (-1) (vfs_mount None (str "/") (str "ramfs")) v_init = 0.
Proof. reflexivity. Qed.
Example mkdir_returns : result (-1) (vfs_mkdir (str "/tmp") S_IFDIR) v_mounted = 0.
Proof. reflexivity. Qed.
Example open_returns : f_a ≠ 0 ∧ p_a ≠ 0.
Proof. by vm_compute. Qed.

End FsExamples.

Import Fat32DirSpec FsExamples.

Module FsWitness.

(** ** Devices *)

(** A RAM disk whose section starts the second block with 7, 8, 9, open two bytes before. *)
Definition disk_bytes0 : gmap Z Z := put_bytes 512 [7; 8; 9] ∅.
Definition s_disk : fs :=
  mkfs (Heap.empty_heap 0x01000000) ∅ {[ 8 := mkfile 0 4 510 1 ]} ∅ ∅ ∅ ∅ ∅ ∅ ∅
    [create_ramdisk 0x00A00000; create_sdcard_disk] {[ 0x00A00000 := disk_bytes0 ]} no_card
    (mkuart [] []).

Lemma ramdisk_file_read_witness :
  ∃ s', _block_device_read 8 4 s_disk = Ret ((4, [0; 0; 7; 8]), s').
Proof.
  eexists. rewrite (ramdisk_file_read s_disk 8 (mkfile 0 4 510 1) 0x00A00000 disk_bytes0 4).
  - reflexivity.
  - reflexivity.
  - reflexivity.
  - simpl. lia.
  - reflexivity.
  - simpl. lia.
  - lia.
Defined.

Lemma ramdisk_write_then_read_witness :
  ∃ s', _section_ramdisk_write_block 0x00A00000 1 (replicate 512 5) s_disk = Ret (1, s') ∧
    read_block (create_ramdisk 0x00A00000) 1 s' = Ret ((1, replicate 512 5), s').
Proof.
  destruct (ramdisk_write_then_read s_disk 0x00A00000 disk_bytes0 1 1 (replicate 512 5))
    as (s' & E & Hr & _).
  - reflexivity.
  - reflexivity.
  - lia.
  - lia.
  - exists s'. split; [exact E|by apply Hr].
Defined.

(** ** The RAM file system *)

Definition tmp : Z := 16777584.
Definition tmp_private : Z := 16777628.
Definition file_a : Z := 16777924.
Definition file_a_private : Z := 16777968.
Definition file_a_block : Z := 16777980.

Lemma wf_written : fs_wf (vs_fs v_written).
Proof. decide_wf. Defined.

Lemma wf_tmp : fs_wf (vs_fs v_tmp).
Proof. decide_wf. Defined.

Definition node_tmp : inode := Eval vm_compute in
  default zero_inode (fs_inodes (vs_fs v_tmp) !! tmp).
Definition node_a : inode := Eval vm_compute in
  default zero_inode (fs_inodes (vs_fs v_written) !! file_a).
Definition sb_tmp : super_block_t := Eval vm_compute in
  default (mksb 0 FAT32_SB_OPS 0) (fs_sbs (vs_fs v_tmp) !! super_block node_tmp).
Definition bytes_a : list Z := Eval vm_compute in [1; 2; 3] ++ replicate 509 0.

Lemma rdir_tmp : rdir (vs_fs v_tmp) tmp tmp_private [].
Proof.
  apply (mkrd _ _ _ _ node_tmp sb_tmp (sb_private sb_tmp)); try (vm_compute; reflexivity).
  - vm_compute. eauto.
  - intros c Hc. by apply elem_of_nil in Hc.
Defined.

Lemma rfile_a : rfile (vs_fs v_written) file_a file_a_private file_a_block [1; 2; 3].
Proof.
  apply (mkrf _ _ _ _ _ node_a bytes_a); try (vm_compute; reflexivity).
  apply Nat.ltb_lt. reflexivity.
Defined.

Definition open_a : file := mkfile 0 file_a 3 0.

(** The file, back at its second byte. *)
Definition s_seeked : fs :=
  comp_set (<[f_a := mkfile 0 file_a 1 0]> (fs_files (vs_fs v_written))) (vs_fs v_written).

Lemma ramfs_read_correct_witness :
  ∃ s', _ramfs_reg_file_read f_a 10 s_seeked = Ret ((2, [2; 3]), s').
Proof.
  eexists. rewrite (ramfs_read_correct s_seeked f_a (mkfile 0 file_a 1 0) file_a_private
    file_a_block [1; 2; 3] 10).
  - reflexivity.
  - reflexivity.
  - discriminate.
  - eapply rfile_keep; [exact rfile_a|reflexivity|reflexivity|done].
  - simpl. lia.
  - lia.
  - simpl. lia.
Defined.

Lemma ramfs_write_correct_witness :
  ∃ s' b, _ramfs_reg_file_write f_a [4; 5] (vs_fs v_written) = Ret (2, s') ∧
    rfile s' file_a file_a_private b [1; 2; 3; 4; 5].
Proof.
  destruct (ramfs_write_correct (vs_fs v_written) f_a open_a file_a_private file_a_block
    [1; 2; 3] [4; 5]) as (s' & b & E & _ & Hrf & _).
  - exact wf_written.
  - reflexivity.
  - exact rfile_a.
  - simpl. lia.
  - simpl. lia.
  - split; vm_compute; discriminate.
  - exists s', b. split; [exact E|exact Hrf].
Defined.

Lemma grow_endless_witness : grow 100 512 0x80000001 = Timeout.
Proof. apply (grow_endless 100 512 0x80000001); [right; exists 9|]; lia. Defined.

Lemma ramfs_create_correct_witness :
  ∃ i s', _ramfs_inode_create tmp (str "a") S_IFREG (vs_fs v_tmp) = Ret (i, s') ∧
    _ramfs_inode_lookup tmp (str "a") s' = Ret (i, s').
Proof.
  pose proof (ramfs_create_correct (vs_fs v_tmp) tmp tmp_private [] (str "a") S_IFREG) as H.
  destruct H as (i & q & b & s' & E & _ & _ & _ & Hl).
  - exact wf_tmp.
  - exact rdir_tmp.
  - split; vm_compute; discriminate.
  - vm_compute. lia.
  - exists i, s'. split; [exact E|exact (Hl (str "a"))].
Defined.

Lemma ramfs_mkdir_correct_witness :
  ∃ i s', _ramfs_inode_mkdir tmp (str "d") S_IFDIR (vs_fs v_tmp) = Ret (i, s') ∧
    _ramfs_inode_lookup tmp (str "d") s' = Ret (i, s').
Proof.
  pose proof (ramfs_mkdir_correct (vs_fs v_tmp) tmp tmp_private [] (str "d") S_IFDIR) as H.
  destruct H as (i & q & s' & E & _ & _ & Hl).
  - exact wf_tmp.
  - exact rdir_tmp.
  - split; vm_compute; discriminate.
  - vm_compute. lia.
  - exists i, s'. split; [exact E|exact (Hl (str "d"))].
Defined.

(** [/tmp] open as file 8. *)
Definition s_listing : fs :=
  comp_set (<[8 := mkfile 0 tmp 0 0]> (fs_files (vs_fs v_written))) (vs_fs v_written).

Lemma ramfs_readdir_correct_witness :
  ∃ s', _ramfs_dir_readdir 8 5 s_listing = Ret ((1, [mkdirent DT_REG (str "a")]), s').
Proof.
  destruct (ramfs_readdir_correct s_listing 8 (mkfile 0 tmp 0 0) tmp_private
    [mkchild file_a (str "a")] 5) as (es & E & Hes).
  - reflexivity.
  - discriminate.
  - discriminate.
  - apply (mkrd _ _ _ _ node_tmp sb_tmp (sb_private sb_tmp)); try (vm_compute; reflexivity).
    + vm_compute. eauto.
    + intros c Hc%list_elem_of_singleton. subst c. discriminate.
  - simpl. lia.
  - lia.
  - intros c Hc%list_elem_of_singleton. subst c. split; [vm_compute; lia|vm_compute; eauto].
  - eexists. rewrite E. destruct es as [|e [|? ?]]; try discriminate Hes.
    injection Hes as ->. reflexivity.
Defined.

(** ** FAT32 *)

(** A volume with one sector per cluster; cluster 3 is followed by cluster 5. *)
Definition volume : fat32_sb_private_t := mkfat 2 1 1 2 1 2.
Definition sector_a : list Z := Eval vm_compute in replicate 512 65.
Definition sector_b : list Z := Eval vm_compute in replicate 512 66.
Definition card (a b : list Z) : sd_card := λ i,
  if i =? 1 then Some (replicate 12 0 ++ [5; 0; 0; 0] ++ replicate 496 0)
  else if i =? 3 then Some a
  else if i =? 5 then Some b
  else None.

(** An inode at 16 and an open file at 48, on this volume with these two sectors. *)
Definition s_volume (a b : list Z) (node : inode) (fl : file) files dirs : fs :=
  mkfs (Heap.empty_heap 0x01000000) {[ 16 := node ]} {[ 48 := fl ]} {[ 32 := mksb 2 FAT32_SB_OPS 80 ]}
    ∅ ∅ ∅ {[ 80 := volume ]} files dirs [create_ramdisk 0x00A00000; create_sdcard_disk] ∅ (card a b)
    (mkuart [] []).

Lemma two_sectors a b node fl files dirs : length a = 512%nat → length b = 512%nat →
  on_volume volume (s_volume a b node fl files dirs) [3; 5] [a; b].
Proof.
  intros Ha Hb. split.
  - simpl. lia.
  - intros [|[|j]] c c' H1 H2; try discriminate. injection H1 as <-. injection H2 as <-.
    vm_compute. reflexivity.
  - reflexivity.
  - intros [|[|k]] c x H1 H2; try discriminate; vm_compute in H1;
      injection H1 as <-; injection H2 as <-; vm_compute; reflexivity.
  - intros x Hx. repeat (apply elem_of_cons in Hx as [->|Hx]; [done|]).
    by apply elem_of_nil in Hx.
  - by apply (bool_decide_eq_true_1 (NoDup [3; 5])).
  - apply Nat.leb_le. reflexivity.
Defined.

(** A file of 600 bytes in these clusters, open at byte 500. *)
Definition s_fat : fs :=
  s_volume sector_a sector_b (mkinode 7 0 600 S_IFREG 0 FAT32_FILE_OPS NO_INODE_OPS 32 3)
    (mkfile 0 16 500 64) {[ 64 := mkfreg (mkloc 3 3 0) 500 ]} ∅.

Lemma fat_on_volume : on_volume volume s_fat [3; 5] [sector_a; sector_b].
Proof. by apply two_sectors. Defined.

Lemma fat_opened : fat_file s_fat 48 volume [3; 5] [sector_a; sector_b] 600 500.
Proof.
  apply (mkff _ _ _ _ _ _ _ (mkfile 0 16 500 64)
    (mkinode 7 0 600 S_IFREG 0 FAT32_FILE_OPS NO_INODE_OPS 32 3) (mksb 2 FAT32_SB_OPS 80)
    (mkfreg (mkloc 3 3 0) 500)); try (vm_compute; reflexivity); try discriminate.
  - exact fat_on_volume.
  - exists 0%nat, 500%nat. split; [reflexivity|]. split; [reflexivity|].
    split; apply Nat.leb_le; reflexivity.
  - apply Nat.leb_le. reflexivity.
Defined.

Lemma fat32_read_correct_witness :
  ∃ s', _fat32_fs_reg_file_read 48 20 s_fat = Ret ((20, replicate 12 65 ++ replicate 8 66), s').
Proof.
  destruct (fat32_read_correct s_fat 48 volume [3; 5] [sector_a; sector_b] 600 500 20)
    as (s' & E & _).
  - exact fat_opened.
  - apply Nat.leb_le. reflexivity.
  - reflexivity.
  - exists s'. exact E.
Defined.

Lemma fat32_seek_correct_witness :
  ∃ s', _fat32_fs_reg_file_seek 48 (-500) SEEK_CUR s_fat = Ret (0, s') ∧
    fat_file s' 48 volume [3; 5] [sector_a; sector_b] 600 0.
Proof.
  apply (fat32_seek_correct s_fat 48 volume [3; 5] [sector_a; sector_b] 600 500 (-500) SEEK_CUR 0).
  - exact fat_opened.
  - right. left. split; reflexivity.
  - apply Nat.ltb_lt. reflexivity.
Defined.

(** A directory in these clusters: itself and its parent, ten deleted entries, a file with a
    long name, and, in the second cluster, the directory [bin]. *)
Definition sfn_raw (name : list Z) (attribute nt cluster size : Z) : list Z :=
  name ++ [attribute; nt] ++ replicate 13 0 ++ [cluster; 0; size; 0; 0; 0].
Definition long_name : name_t := Eval vm_compute in str "a file with a long name.txt".
Definition raw_file : list Z := Eval vm_compute in sfn_raw (str "AFILEW~1TXT") 0x20 0 7 200.
Definition raw_bin : list Z := Eval vm_compute in sfn_raw (str "BIN        ") 0x10 0x08 9 0.
Definition items : list dir_item :=
  [Skipped (sfn_raw (str ".          ") 0x10 0 3 0); Skipped (sfn_raw (str "..         ") 0x10 0 0 0)] ++
  replicate 10 (Skipped (sfn_raw (0xE5 :: str "LD     TXT") 0x20 0 4 1)) ++
  [Named (Some (0x5A, long_name)) raw_file; Named None raw_bin].

Definition directory_bytes : list Z := Eval vm_compute in
  let l := concat (concat (map item_raws items)) in l ++ replicate (1024 - length l) 0.
Definition dir_a : list Z := Eval vm_compute in take 512 directory_bytes.
Definition dir_b : list Z := Eval vm_compute in drop 512 directory_bytes.

Definition s_dir : fs :=
  s_volume dir_a dir_b (mkinode 7 0 0 S_IFDIR 0 FAT32_DIR_OPS FAT32_INODE_OPS 32 3)
    (mkfile 0 16 0 64) ∅ {[ 64 := mkeloc (mkloc 3 3 0) 0 ]}.

Definition entries : list (fat_sfn_directory_entry_t * Z * name_t) :=
  listed volume [3; 5] 0 items.

Lemma items_from : dir_from [dir_a; dir_b] 0 items.
Proof.
  split.
  - unfold items. cbn [app replicate]. repeat (apply Forall_cons; split); [..|by apply Forall_nil].
    all: split; [reflexivity|]; split; [discriminate|].
    all: try (left; reflexivity).
    all: try (right; split; [reflexivity|]; split; reflexivity).
    all: split; [discriminate|]; split; [reflexivity|]; split; [discriminate|].
    + split; [split; apply Nat.leb_le; reflexivity|]. repeat constructor.
    + done.
  - exists (replicate 479 0). vm_compute. reflexivity.
Defined.

Lemma dir_opened : fat_dir s_dir 48 volume [3; 5] [dir_a; dir_b] entries.
Proof.
  apply (mkfd _ _ _ _ _ _ (mkfile 0 16 0 64)
    (mkinode 7 0 0 S_IFDIR 0 FAT32_DIR_OPS FAT32_INODE_OPS 32 3) (mksb 2 FAT32_SB_OPS 80) 0 items);
    try (vm_compute; reflexivity); try discriminate.
  - by apply two_sectors.
  - exact items_from.
Defined.

Lemma fat32_readdir_correct_witness :
  ∃ s', _fat32_fs_dir_readdir 48 10 s_dir =
    Ret ((2, [mkdirent DT_REG long_name; mkdirent DT_DIR (str "bin")]), s').
Proof.
  destruct (fat32_readdir_correct s_dir 48 volume [3; 5] [dir_a; dir_b] entries 10)
    as (s' & E & _).
  - exact dir_opened.
  - repeat constructor; apply Nat.leb_le; vm_compute; reflexivity.
  - exists s'. exact E.
Defined.

Lemma s_dir_wf : fs_wf s_dir.
Proof. decide_wf. Defined.

(** [bin] is record 16 of the directory, the first of cluster 5. *)
Lemma fat32_lookup_correct_witness :
  _fat32fs_inode_lookup 16 (str "lib") s_dir = Ret (0, s_dir) ∧
  ∃ i s', _fat32fs_inode_lookup 16 (str "bin") s_dir = Ret (i, s') ∧
    fs_inodes s' !! i = Some (mkinode (5 * 512) 0 0 S_IFDIR 0 FAT32_DIR_OPS FAT32_INODE_OPS 32 9).
Proof.
  assert (fat_dir_inode s_dir 16 volume [3; 5] [dir_a; dir_b] items 32) as H.
  { apply (mkfdi _ _ _ _ _ _ _ (mkinode 7 0 0 S_IFDIR 0 FAT32_DIR_OPS FAT32_INODE_OPS 32 3)
      (mksb 2 FAT32_SB_OPS 80)); try (vm_compute; reflexivity).
    - by apply two_sectors.
    - exact items_from. }
  assert (room s_dir SIZEOF_INODE) as Hr by (split; [discriminate|vm_compute; discriminate]).
  split.
  - exact (fat32_lookup_correct _ _ _ _ _ _ _ (str "lib") H s_dir_wf Hr).
  - destruct (fat32_lookup_correct _ _ _ _ _ _ _ (str "bin") H s_dir_wf Hr) as (i & h & E & _).
    eexists i, _. split; [exact E|]. etransitivity; [apply lookup_insert_eq|]. vm_compute. reflexivity.
Defined.

(** The entry of a file [C.TXT], listed as [C.T]. *)
Lemma sfn_name_witness :
  _fat32_read_entry_filename
    (mksfn (str "C       ") (str "TXT") 0 0 0 3 10) = str "C.T".
Proof.
  rewrite (sfn_name _ (str "C") (str "TXT")); try (vm_compute; reflexivity).
  - vm_compute. lia.
  - intros c Hc. repeat (apply elem_of_cons in Hc as [->|Hc]; [discriminate|]).
    by apply elem_of_nil in Hc.
  - intros c Hc. repeat (apply elem_of_cons in Hc as [->|Hc]; [discriminate|]).
    by apply elem_of_nil in Hc.
Defined.

(** ** The VFS *)

Lemma sections_inv : SectionAllocator.inv sections.
Proof. apply SectionAllocator.init_inv; [lia|lia|reflexivity]. Defined.


Lemma tree_of_tmp : vfs_wf (vs_vfs v_tmp).
Proof.
  assert (vfs_wf (vs_vfs v_init)) as H0.
  { eapply (vfs_init_wf 0x8000 (empty_fs 0x01000000 0x00A00000 no_card) sections).
    - exact sections_inv.
    - vm_compute. reflexivity. }
  assert (vfs_wf (vs_vfs v_mounted)) as H1.
  { eapply (vfs_step_wf v_init v_mounted H0), (step_mount None (str "/") (str "ramfs") 0).
    vm_compute. reflexivity. }
  eapply (vfs_step_wf v_mounted v_tmp H1), (step_mkdir (str "/tmp") S_IFDIR 0).
  vm_compute. reflexivity.
Defined.

Definition entry_tmp_ptr : Z := 9437244.
Definition entry_tmp : dentry := Eval vm_compute in
  default (mkdentry [] 0 0 []) (dentries (vs_vfs v_tmp) !! entry_tmp_ptr).

Lemma dentry_child_correct_witness :
  ∃ c s', _vfs_dentry_child_by_name entry_tmp_ptr (str "a") v_tmp = Ret (c, s') ∧
    _vfs_dentry_child_by_name entry_tmp_ptr (str "a") s' = Ret (c, s').
Proof.
  pose proof (dentry_child_correct v_tmp entry_tmp_ptr entry_tmp (str "a") tree_of_tmp) as H.
  destruct (H ltac:(vm_compute; reflexivity) 0 (vs_fs v_tmp)) as (c & bits & E & _ & _ & _ & E').
  - vm_compute. reflexivity.
  - vm_compute. lia.
  - vm_compute. lia.
  - exists 10. split; [lia|reflexivity].
  - eexists c, _. split; [exact E|exact E'].
Defined.

Lemma file_roundtrip_witness :
  ∃ f s2 fs3 fs4 fs5, vfs_file_open (str "/tmp/a") O_CREAT S_IFREG v_tmp = Ret (f, s2) ∧
    vfs_file_write f [1; 2; 3] (vs_fs s2) = Ret (3, fs3) ∧
    vfs_file_lseek f 0 SEEK_SET fs3 = Ret (0, fs4) ∧
    vfs_file_read f 3 fs4 = Ret ((3, [1; 2; 3]), fs5).
Proof.
  destruct (file_roundtrip v_tmp (str "/tmp/a") v_a p_a (str "a") tmp tmp_private [] [1; 2; 3])
    as (i & f & s2 & fs3 & fs4 & fs5 & E1 & _ & E2 & E3 & E4).
  - vm_compute. reflexivity.
  - split.
    + eexists _, _. repeat split; vm_compute; reflexivity.
    + discriminate.
    + exact rdir_tmp.
    + vm_compute. lia.
    + reflexivity.
  - decide_wf.
  - split; vm_compute; discriminate.
  - simpl. lia.
  - exists f, s2, fs3, fs4, fs5. split; [exact E1|]. split; [exact E2|]. split; [exact E3|exact E4].
Defined.

(** The missing file is not opened without O_CREAT. *)
Lemma open_refused_witness : vfs_file_open (str "/tmp/a") 0 0 v_tmp = Ret (0, v_a).
Proof.
  destruct (open_refused v_tmp (str "/tmp/a") v_a p_a (mkdentry (str "a") 0 entry_tmp_ptr [])
    (mkdentry (d_iname entry_tmp) (d_inode entry_tmp) (d_parent entry_tmp) [p_a]) 0 0)
    as [H _].
  - apply (dentry_lookup_wf v_tmp (str "/tmp/a") p_a v_a tree_of_tmp). vm_compute. reflexivity.
  - vm_compute. reflexivity.
  - discriminate.
  - vm_compute. reflexivity.
  - destruct (H ltac:(vm_compute; reflexivity)) as (H1 & _). apply H1; reflexivity.
Defined.

End FsWitness.
