(* ===== verification/Elf.v ===== *)
(** * The ELF loader: [kernel/elf_loader/elf_loader.c]

    Opening an ELF file, checking its header, and reading its program headers one
    after the other; the packed structures of [elf_format.h] are decoded from the
    bytes read. *)
From S2P Require Import Prelude Mmu Alloc Heap Hash Fs FsState Devices Ramfs Fat32 Vfs.
Import Fs FsState Devices Ramfs Fat32 Vfs.

Module Elf.

(** ** [elf_format.h] *)

Definition ELF_MAGIC : Z := 0x464c457f.
Definition ELFCLASS32 : Z := 1.
Definition ELFDATA2LSB : Z := 1.
Definition EM_ARM : Z := 40.
Definition PT_LOAD : Z := 1.

Definition SIZEOF_ELF32_HEADER : Z := 52.
Definition SIZEOF_ELF32_PROGRAM_HEADER : Z := 32.
Definition SIZEOF_ELF32_SECTION_HEADER : Z := 40.

Record elf32_header_t : Type := mkehdr {
  id_magic : Z;
  id_class : Z;
  id_data_encoding : Z;
  id_elf_version : Z;
  id_os_abi : Z;
  id_abi_version : Z;
  type : Z;
  machine : Z;
  version : Z;
  entry : Z;
  phoff : Z;
  shoff : Z;
  eflags : Z;
  ehsize : Z;
  phentsize : Z;
  phnum : Z;
  shentsize : Z;
  shnum : Z;
  shstrndx : Z;
}.

Definition elf32_header (l : list Z) : elf32_header_t :=
  mkehdr (le32 l 0) (get8 l 4) (get8 l 5) (get8 l 6) (get8 l 7) (get8 l 8)
    (le16 l 16) (le16 l 18) (le32 l 20) (le32 l 24) (le32 l 28) (le32 l 32) (le32 l 36)
    (le16 l 40) (le16 l 42) (le16 l 44) (le16 l 46) (le16 l 48) (le16 l 50).

Record elf32_program_header_t : Type := mkphdr {
  p_type : Z;
  p_offset : Z;
  p_vaddress : Z;
  p_paddress : Z;
  p_file_size : Z;
  p_mem_size : Z;
  p_flags : Z;
  p_align : Z;
}.

Definition elf32_program_header (l : list Z) : elf32_program_header_t :=
  mkphdr (le32 l 0) (le32 l 4) (le32 l 8) (le32 l 12) (le32 l 16) (le32 l 20) (le32 l 24)
    (le32 l 28).

(** ** The code *)

Record elf32_file_t : Type := mkelf {
  elf_file : Z;
  header : elf32_header_t;
}.

Definition _elf32_check_compat (header : elf32_header_t) : bool :=
  (id_magic header =? ELF_MAGIC) &&
  (id_class header =? ELFCLASS32) &&
  (id_data_encoding header =? ELFDATA2LSB) &&
  (machine header =? EM_ARM) &&
  (phentsize header >=? SIZEOF_ELF32_PROGRAM_HEADER) &&
  (shentsize header >=? SIZEOF_ELF32_SECTION_HEADER).

Definition elf32_close (file : elf32_file_t) : MV (Z * elf32_file_t) :=
  let* status := onfs (vfs_file_close (elf_file file)) in
  if status <? 0 then ret (status, file) else ret (0, mkelf 0 (header file)).

(** The status, and the file it was opened in: the header is zeroed before it is
    read. *)
Definition elf32_open (path : name_t) : MV (Z * elf32_file_t) :=
  let* f := vfs_file_open path 0 0 in
  if f =? 0 then ret (-1, mkelf 0 (elf32_header []))
  else
    let* r := onfs (vfs_file_read f SIZEOF_ELF32_HEADER) in
    let '(status, bytes) := r in
    let file := mkelf f (elf32_header bytes) in
    if negb (status =? SIZEOF_ELF32_HEADER) || negb (_elf32_check_compat (header file)) then
      let* r := elf32_close file in
      ret (-1, snd r)
    else ret (0, file).

(** The iterator is the number of the next program header.  The status, the header
    read when it is 1, and the iterator behind it. *)
Definition elf32_program_header_iterator_read_next (elf : elf32_file_t) (current_section : Z) :
    MV (Z * elf32_program_header_t * Z) :=
  let none := elf32_program_header [] in
  if current_section >=? phnum (header elf) then ret (0, none, current_section)
  else
    let next := u32 (current_section + 1) in
    let offset := s32 (u32 (phoff (header elf) +
                            u32 (current_section * phentsize (header elf)))) in
    let* actual_offset := onfs (vfs_file_lseek (elf_file elf) offset SEEK_SET) in
    if negb (actual_offset =? offset) then ret (-1, none, next)
    else
      let* r := onfs (vfs_file_read (elf_file elf) SIZEOF_ELF32_PROGRAM_HEADER) in
      let '(status, bytes) := r in
      if status <? 0 then ret (status, none, next)
      else if negb (status =? SIZEOF_ELF32_PROGRAM_HEADER) then ret (-1, none, next)
      else ret (1, elf32_program_header bytes, next).

End Elf.
