(* ===== verification/ElfSpec.v ===== *)
(** * What the ELF loader reads

    The interface between the loader and the file systems - a file that can be read at
    any offset - with its instances for the RAM and the FAT32 file system, and the
    iteration over the program headers. *)
From S2P Require Import Prelude Mmu Alloc Heap Hash Fs FsState Devices Ramfs RamfsSpec Fat32 Fat32Spec Vfs VfsSpec VfsFiles Elf.
Import Fs FsState Devices Ramfs RamfsSpec Fat32 Fat32Spec Vfs VfsSpec VfsFiles Elf.

Module ElfSpec.

(** ** Files that can be read *)

(** In the states of [P], the open file [f] holds the bytes [content]: seeking to an
    offset and reading there gives the bytes from that offset on, closing it works; the
    states stay among those of [P]. *)
Class Readable (P : fs → Prop) (f : Z) (content : list Z) : Prop := {
  readable_at : ∀ s off n, P s → 0 ≤ off → 0 < n → off + n ≤ Z.of_nat (length content) →
    ∃ s1 s2, vfs_file_lseek f off SEEK_SET s = Ret (off, s1) ∧
      vfs_file_read f n s1 =
        Ret ((n, slice content (Z.to_nat off) (Z.to_nat n)), s2) ∧ P s2;
  readable_close : ∀ s, P s → ∃ s', vfs_file_close f s = Ret (0, s') ∧ P s';
  readable_small : ∀ s, P s → Z.of_nat (length content) < 0x80000000;
}.

Lemma default_release_run s i f fl : i ≠ 0 → f ≠ 0 → fs_files s !! f = Some fl → f_count fl = 0 →
  default_file_release i f s = Ret (0, s).
Proof.
  intros Hi Hf Hfl Hc. unfold default_file_release.
  rewrite (proj2 (Z.eqb_neq i 0) Hi), (proj2 (Z.eqb_neq f 0) Hf).
  erewrite bind_Ret by done. erewrite bind_Ret by done.
  erewrite bind_Ret by (apply mget_Ret; exact Hfl). rewrite Hc. by destruct s.
Qed.

(** Closing a file without descriptors leaves everything as it is. *)
Lemma file_close_run s f fl node : f ≠ 0 → fs_files s !! f = Some fl → f_inode fl ≠ 0 →
  f_count fl = 0 → fs_inodes s !! f_inode fl = Some node →
  file_ops node = RAMFS_REG_FILE_OPS ∨ file_ops node = RAMFS_DIR_FILE_OPS ∨
  file_ops node = FAT32_FILE_OPS ∨ file_ops node = FAT32_DIR_OPS →
  vfs_file_close f s = Ret (0, s).
Proof.
  intros Hf0 Hf Hi0 Hc Hnode Hops. unfold vfs_file_close. rewrite (proj2 (Z.eqb_neq f 0) Hf0).
  erewrite bind_Ret by done. erewrite bind_Ret by (apply mget_Ret; exact Hf).
  rewrite (proj2 (Z.eqb_neq _ 0) Hi0). erewrite bind_Ret by done.
  erewrite bind_Ret by (apply mget_Ret; exact Hnode).
  destruct Hops as [->|[->|[->| ->]]]; try by apply (default_release_run s (f_inode fl) f fl).
  all: unfold _fat32_fs_reg_file_release, _fat32_fs_dir_release;
    erewrite bind_Ret by (apply mget_Ret; exact Hf);
    erewrite bind_Ret by (by apply (zoom_Ret (Heap.memory_free (f_private fl)) s () (fs_heap s)));
    destruct s; by apply (default_release_run _ (f_inode fl) f fl).
Qed.

(** *** RAM files *)

(** [f] is open, without descriptors, on the RAM file [i]. *)
Record ram_open (f i p b : Z) (content : list Z) (s : fs) : Prop := {
  ro_file : ∃ fl, fs_files s !! f = Some fl ∧ f_inode fl = i ∧ f_count fl = 0;
  ro_inode : ∃ node, fs_inodes s !! i = Some node ∧ file_ops node = RAMFS_REG_FILE_OPS;
  ro_nonnull : i ≠ 0 ∧ f ≠ 0;
  ro_content : rfile s i p b content;
}.

Lemma ram_open_move f i p b content s fl y : ram_open f i p b content s →
  fs_files s !! f = Some fl →
  ram_open f i p b content (comp_set (<[f := with_pos y fl]> (fs_files s)) s).
Proof.
  intros [(fl' & Hf & Hi & Hc) Hn Hnn Hr] Hf'. assert (fl' = fl) as -> by congruence.
  split; [|exact Hn|exact Hnn|by eapply rfile_keep].
  exists (with_pos y fl). split; [apply lookup_insert_eq|done].
Qed.

#[export] Instance ram_readable f i p b content :
  Readable (ram_open f i p b content) f content.
Proof.
  split.
  - intros s off n Ho Hoff Hn Hle.
    pose proof Ho as [(fl & Hf & Hi & Hc) (node & Hnode & Hops) [Hi0 Hf0] Hr].
    assert (Z.of_nat (length content) < 0x80000000) as Hsmall by (by destruct Hr).
    rewrite <- Hi in Hnode.
    set (s1 := comp_set (<[f := with_pos off fl]> (fs_files s)) s).
    pose proof (ram_open_move _ _ _ _ _ _ _ off Ho Hf) as Ho1. fold s1 in Ho1.
    assert (fs_files s1 !! f = Some (with_pos off fl)) as Hf1 by apply lookup_insert_eq.
    exists s1. eexists. split; [|split].
    + unfold vfs_file_lseek. rewrite (bind_Ret _ _ _ _ _ (ops_of_run _ _ _ _ Hf Hnode)), Hops.
      unfold _ramfs_reg_file_seek, get_seek_ref_offset.
      erewrite bind_Ret by (erewrite bind_Ret by (apply mget_Ret; exact Hf); reflexivity).
      rewrite Z.add_0_l, s32_small, (proj2 (Z.ltb_ge off 0)) by lia.
      by erewrite bind_Ret by (apply mupd_Ret; exact Hf).
    + unfold vfs_file_read.
      rewrite (bind_Ret _ _ _ _ _ (ops_of_run s1 _ _ node Hf1 Hnode)), Hops.
      rewrite (reg_read_run s1 f (with_pos off fl) p b content n Hf1); simpl;
        [|by rewrite Hi|rewrite Hi; exact (ro_content _ _ _ _ _ _ Ho1)|lia|lia|lia].
      rewrite Z.min_l by lia. destruct (Z.leb_spec n 0); [lia|]. done.
    + by apply (ram_open_move _ _ _ _ _ _ _ (off + n) Ho1).
  - intros s Ho. pose proof Ho as [(fl & Hf & Hi & Hc) (node & Hnode & Hops) [Hi0 Hf0] Hr]. exists s.
    rewrite <- Hi in Hnode, Hi0. split; [apply (file_close_run s f fl node); auto|done].
  - intros s Ho. by destruct (ro_content _ _ _ _ _ _ Ho).
Qed.

(** *** FAT32 files *)

Lemma same_open_trans s1 s2 s3 f : same_open s1 s2 f → same_open s2 s3 f → same_open s1 s3 f.
Proof.
  intros [Hi Hu Ho Hf] [Hi' Hu' Ho' Hf']. split; [congruence|congruence| |].
  - intros g Hg. by rewrite Ho', Ho.
  - intros fl H. destruct (Hf _ H) as [y Hy]. destruct (Hf' _ Hy) as [z Hz]. by exists z.
Qed.

(** [f] is open, without descriptors, on a FAT32 file of [n] bytes. *)
Record fat_open (f : Z) (v : fat32_sb_private_t) (chain : list Z) (secs : list (list Z))
    (n : nat) (s : fs) : Prop := {
  fo_place : ∃ x, fat_file s f v chain secs n x;
  fo_file : ∃ fl node, fs_files s !! f = Some fl ∧ f_count fl = 0 ∧
    fs_inodes s !! f_inode fl = Some node ∧ file_ops node = FAT32_FILE_OPS;
  fo_nonnull : f ≠ 0;
}.

Lemma fat_open_move f v chain secs n s s' y : fat_open f v chain secs n s →
  same_open s s' f → fat_file s' f v chain secs n y → fat_open f v chain secs n s'.
Proof.
  intros [_ (fl & node & Hf & Hc & Hi & Hops) Hf0] [Hs _ _ Hm] Hy. destruct (Hm fl Hf) as [z Hz].
  split; [by exists y| |done]. exists (with_pos z fl), node. rewrite Hs. auto.
Qed.

Lemma fat_open_length f v chain secs n s : fat_open f v chain secs n s →
  length (fat_content secs n) = n ∧ (n ≤ 512 * length secs)%nat ∧
  Z.of_nat (length secs) * 512 < 0x80000000.
Proof.
  intros [[x [fl node sb p Hv _ _ _ _ _ _ _ _ _ _ Hle Hb]] _ _]. split_and!; [|done|done].
  unfold fat_content. rewrite length_take, (length_content v s chain secs Hv). lia.
Qed.

Lemma fat_at_run f v chain secs n s off m : fat_open f v chain secs n s → 0 ≤ off → 0 < m →
  off + m ≤ Z.of_nat (length (fat_content secs n)) →
  ∃ s1 s2, vfs_file_lseek f off SEEK_SET s = Ret (off, s1) ∧
    vfs_file_read f m s1 = Ret ((m, slice (fat_content secs n) (Z.to_nat off) (Z.to_nat m)), s2) ∧
    fat_open f v chain secs n s2 ∧ same_open s s2 f.
Proof.
  intros Ho Hoff Hm Hle. destruct (fat_open_length _ _ _ _ _ _ Ho) as (HL & Hn & Hb).
  pose proof Ho as [[x Hx] (fl & node & Hf & Hc & Hi & Hops) Hf0].
  destruct (fat_seek_run s f v chain secs n x off SEEK_SET (Z.to_nat off) Hx)
    as (s1 & E1 & Hx1 & Hs1); [left; split; [done|lia]|lia|].
  pose proof (fat_open_move _ _ _ _ _ _ _ _ Ho Hs1 Hx1) as Ho1.
  destruct (fat_read_run s1 f v chain secs n (Z.to_nat off) (Z.to_nat m) Hx1)
    as (s2 & E2 & Hx2 & Hs2); [lia|lia|].
  exists s1, s2. rewrite !Z2Nat.id in * by lia. split; [|split; [|split]].
  - unfold vfs_file_lseek. by rewrite (bind_Ret _ _ _ _ _ (ops_of_run _ _ _ _ Hf Hi)), Hops.
  - unfold vfs_file_read. destruct Ho1 as [_ (fl1 & node1 & Hf1 & _ & Hi1 & Hops1) _].
    rewrite (bind_Ret _ _ _ _ _ (ops_of_run _ _ _ _ Hf1 Hi1)), Hops1, E2.
    rewrite Nat.min_l by lia. rewrite Z2Nat.id by lia. done.
  - by eapply fat_open_move.
  - by eapply same_open_trans.
Qed.

(** In a state that differs from [s0] only in the place of the file *)
Definition fat_since (s0 : fs) (f : Z) (v : fat32_sb_private_t) (chain : list Z) (secs : list (list Z))
    (n : nat) (s : fs) : Prop := fat_open f v chain secs n s ∧ same_open s0 s f.

Lemma fat_close_run f v chain secs n s : fat_open f v chain secs n s → vfs_file_close f s = Ret (0, s).
Proof.
  intros [[x [fl node sb p _ Hf Hi0 _ _ _ _ _ _ _ _ _ _]] (fl' & node' & Hf' & Hc & Hi & Hops) Hf0].
  assert (fl' = fl) as -> by congruence. apply (file_close_run s f fl node'); auto.
Qed.

#[export] Instance fat_readable f v chain secs n :
  Readable (fat_open f v chain secs n) f (fat_content secs n).
Proof.
  split.
  - intros s off m Ho Hoff Hm Hle.
    destruct (fat_at_run _ _ _ _ _ _ _ _ Ho Hoff Hm Hle) as (s1 & s2 & E1 & E2 & Ho2 & _). by exists s1, s2.
  - intros s Ho. exists s. split; [by eapply fat_close_run|done].
  - intros s Ho. destruct (fat_open_length _ _ _ _ _ _ Ho) as (-> & ? & ?). lia.
Qed.

#[export] Instance fat_since_readable s0 f v chain secs n :
  Readable (fat_since s0 f v chain secs n) f (fat_content secs n).
Proof.
  split.
  - intros s off m [Ho Hs] Hoff Hm Hle.
    destruct (fat_at_run _ _ _ _ _ _ _ _ Ho Hoff Hm Hle) as (s1 & s2 & E1 & E2 & Ho2 & Hs2). exists s1, s2.
    split; [done|]. split; [done|]. split; [done|by eapply same_open_trans].
  - intros s [Ho Hs]. exists s. split; [by eapply fat_close_run|done].
  - intros s [Ho _]. destruct (fat_open_length _ _ _ _ _ _ Ho) as (-> & ? & ?). lia.
Qed.

(** ** Decoding *)

Lemma slice_get8 l o n k : (k < n)%nat → get8 (slice l o n) k = get8 l (o + k).
Proof. intros H. unfold get8, slice. rewrite !nth_lookup. by rewrite lookup_take_lt, lookup_drop by lia. Qed.

Lemma slice_le16 l o n k : (k + 1 < n)%nat → le16 (slice l o n) k = le16 l (o + k).
Proof. intros H. unfold le16. by rewrite !slice_get8, Nat.add_assoc by lia. Qed.

Lemma slice_le32 l o n k : (k + 3 < n)%nat → le32 (slice l o n) k = le32 l (o + k).
Proof. intros H. unfold le32. by rewrite !slice_le16, Nat.add_assoc by lia. Qed.

Lemma header_slice content : elf32_header (slice content 0 52) = elf32_header content.
Proof. unfold elf32_header. by rewrite ?slice_le32, ?slice_le16, ?slice_get8 by lia. Qed.

Lemma get8_u8 l k : Forall is_u8 l → is_u8 (get8 l k).
Proof.
  intros H. unfold get8. rewrite nth_lookup. destruct (l !! k) as [b|] eqn:E; simpl.
  - by eapply Forall_lookup_1.
  - unfold is_u8. lia.
Qed.

Lemma le16_range l k : Forall is_u8 l → 0 ≤ le16 l k < 0x10000.
Proof.
  intros H. unfold le16. pose proof (get8_u8 l k H) as H0. pose proof (get8_u8 l (k + 1) H) as H1.
  unfold is_u8 in *. lia.
Qed.

Lemma le32_range l k : Forall is_u8 l → 0 ≤ le32 l k < 0x100000000.
Proof. intros H. unfold le32. pose proof (le16_range l k H). pose proof (le16_range l (k + 2) H). lia. Qed.

(** ** ELF files *)

(** [content] is an ELF file for this machine, program headers included. *)
Record elf_image (content : list Z) : Prop := {
  ei_bytes : Forall is_u8 content;
  ei_header : 52 ≤ Z.of_nat (length content);
  ei_compat : _elf32_check_compat (elf32_header content) = true;
  ei_table : let h := elf32_header content in
    phoff h + phnum h * phentsize h ≤ Z.of_nat (length content);
}.

Definition program_header_at (content : list Z) (i : nat) : elf32_program_header_t :=
  let h := elf32_header content in
  elf32_program_header (slice content (Z.to_nat (phoff h + Z.of_nat i * phentsize h)) 32).

Definition program_headers (content : list Z) : list elf32_program_header_t :=
  map (program_header_at content) (seq 0 (Z.to_nat (phnum (elf32_header content)))).

(** The path opens as the file [f], which starts with the header of [content] and is in
    a state of [P] once that was read. *)
Definition elf_opens (P : fs → Prop) (path : name_t) (f : Z) (content : list Z)
    (v v' : vstate) : Prop :=
  ∃ v1 s2, vfs_file_open path 0 0 v = Ret (f, v1) ∧ f ≠ 0 ∧
    vfs_file_read f SIZEOF_ELF32_HEADER (vs_fs v1) = Ret ((52, slice content 0 52), s2) ∧
    P s2 ∧ v' = mkvs s2 (vs_vfs v1).

Lemma elf_open_run P path f content v v' : elf_opens P path f content v v' →
  elf_image content → elf32_open path v = Ret ((0, mkelf f (elf32_header content)), v').
Proof.
  intros (v1 & s2 & Eo & Hf & Er & _ & ->) Hi. unfold elf32_open.
  rewrite (bind_Ret _ _ _ _ _ Eo), (proj2 (Z.eqb_neq f 0) Hf).
  rewrite (bind_Ret _ _ _ _ _ (onfs_Ret _ _ _ _ Er)). cbn [header]. rewrite header_slice.
  by rewrite (ei_compat _ Hi).
Qed.

Section iterate.
Context (P : fs → Prop) (f : Z) (content : list Z) `{!Readable P f content}.
Hypothesis Himage : elf_image content.
Let h := elf32_header content.
Let elf := mkelf f h.

Lemma phent_range : 32 ≤ phentsize h < 0x10000 ∧ 0 ≤ phnum h < 0x10000 ∧ 0 ≤ phoff h.
Proof.
  pose proof (ei_bytes _ Himage) as Hb. pose proof (ei_compat _ Himage) as Hc.
  fold h in Hc. unfold _elf32_check_compat in Hc.
  apply andb_prop in Hc as [Hc _]. apply andb_prop in Hc as [_ Hc].
  apply Z.geb_le in Hc. unfold SIZEOF_ELF32_PROGRAM_HEADER in Hc.
  pose proof (le16_range content 42 Hb). pose proof (le16_range content 44 Hb).
  pose proof (le32_range content 28 Hb).
  change (phentsize h) with (le16 content 42) in *. change (phnum h) with (le16 content 44).
  change (phoff h) with (le32 content 28). lia.
Qed.

Lemma read_next_run (i : nat) v : P (vs_fs v) → Z.of_nat i < phnum h →
  ∃ s, elf32_program_header_iterator_read_next elf (Z.of_nat i) v =
      Ret ((1, program_header_at content i, Z.of_nat (S i)), mkvs s (vs_vfs v)) ∧ P s.
Proof.
  intros HP Hi. destruct phent_range as (Hent & Hnum & Hoff).
  pose proof (ei_table _ Himage) as Ht. cbv zeta in Ht. fold h in Ht.
  pose proof (readable_small _ HP) as Hsmall.
  assert (0 ≤ Z.of_nat i * phentsize h) by nia.
  assert (Z.of_nat i * phentsize h + 32 ≤ phnum h * phentsize h) by nia.
  destruct (readable_at (vs_fs v) (phoff h + Z.of_nat i * phentsize h) 32 HP)
    as (s1 & s2 & E1 & E2 & HP2); [lia..|].
  exists s2. split; [|exact HP2]. unfold elf32_program_header_iterator_read_next.
  cbn [header elf elf_file]. rewrite Z.geb_leb, (proj2 (Z.leb_gt _ _) Hi).
  rewrite (u32_small (Z.of_nat i * phentsize h)), u32_small, s32_small by lia.
  rewrite (bind_Ret _ _ _ _ _ (onfs_Ret _ _ _ _ E1)), Z.eqb_refl. cbn [negb].
  erewrite bind_Ret by (apply onfs_Ret; exact E2). rewrite u32_small by lia.
  unfold ret, program_header_at. fold h. change (Z.to_nat 32) with 32%nat.
  by replace (Z.of_nat i + 1) with (Z.of_nat (S i)) by lia.
Qed.

Lemma read_next_end v :
  elf32_program_header_iterator_read_next elf (phnum h) v =
  Ret ((0, elf32_program_header [], phnum h), v).
Proof.
  unfold elf32_program_header_iterator_read_next. cbn [header elf].
  by rewrite Z.geb_leb, (proj2 (Z.leb_le _ _) (Z.le_refl _)).
Qed.

End iterate.

End ElfSpec.
