(* ===== verification/FsInv.v ===== *)
(** * The invariant of the kernel's objects

    The heap is well-formed, every object of the file systems lies in the part of it that
    was handed out, and the blocks of RAM files have sizes that doubling leads to.  What an
    operation of the file systems does to this is [kept]: objects stay, and so does the
    invariant. *)
From S2P Require Import Prelude Heap Fs FsState.
Import Fs FsState.

Module FsInv.

(** ** The invariant *)

(** 512, doubled until it does not fit in 32 bits any more *)
Definition alloc_ok (a : Z) : Prop := a = 0 ∨ ∃ k, 0 ≤ k ≤ 22 ∧ a = 512 * 2 ^ k.

Record fs_inv (s : fs) : Prop := {
  fi_wf : fs_wf s;
  (** the heap's section is in the memory below the peripherals' registers *)
  fi_end : Heap.section_end (fs_heap s) ≤ 0x20000000;
  fi_alloc : ∀ p r, fs_rfiles s !! p = Some r → alloc_ok (alloc_size r);
}.

Lemma fs_wf_files (s : fs) f (g : file → file) : fs_wf s → fs_wf (comp_set (alter g f (fs_files s)) s).
Proof.
  intros []. split; simpl; try done. intros q [x Hx]. apply wf_files0.
  destruct (decide (q = f)) as [->|Hne].
  - rewrite lookup_alter_eq in Hx. destruct (fs_files s !! f); [by eexists|done].
  - rewrite lookup_alter_ne in Hx by done. by eexists.
Qed.

Definition dom_le {A} (m m' : gmap Z A) : Prop := ∀ p, is_Some (m !! p) → is_Some (m' !! p).

Record grows (s s' : fs) : Prop := {
  gr_inodes : dom_le (fs_inodes s) (fs_inodes s');
  gr_files : dom_le (fs_files s) (fs_files s');
  gr_sbs : dom_le (fs_sbs s) (fs_sbs s');
  gr_ramfs : dom_le (fs_ramfs s) (fs_ramfs s');
  gr_dirs : dom_le (fs_dirs s) (fs_dirs s');
  gr_rfiles : dom_le (fs_rfiles s) (fs_rfiles s');
  gr_fat : dom_le (fs_fat s) (fs_fat s');
  gr_fat_files : dom_le (fs_fat_files s) (fs_fat_files s');
  gr_fat_dirs : dom_le (fs_fat_dirs s) (fs_fat_dirs s');
}.

Definition kept (s s' : fs) : Prop := grows s s' ∧ (fs_inv s → fs_inv s').

Lemma dom_le_refl {A} (m : gmap Z A) : dom_le m m.
Proof. by intros p. Qed.
Lemma dom_le_insert {A} (m : gmap Z A) p a : dom_le m (<[p := a]> m).
Proof. intros q Hq. apply lookup_insert_is_Some'. auto. Qed.
#[export] Hint Resolve dom_le_refl dom_le_insert : core.

Lemma grows_refl s : grows s s.
Proof. by split. Qed.
#[export] Hint Resolve grows_refl : core.
Lemma grows_trans s1 s2 s3 : grows s1 s2 → grows s2 s3 → grows s1 s3.
Proof. intros [] []. split; intros p Hp; auto. Qed.

#[export] Instance kept_preorder : PreOrder kept.
Proof.
  split.
  - by intros s.
  - intros s1 s2 s3 [[] H12] [[] H23]. split; [split; intros p Hp|]; auto.
Qed.

(** ** The stores *)

(** An object may be put anywhere below the heap's cursor. *)
Class Store (A : Type) `{!Has fs (gmap Z A)} : Type := {
  store_ok : A → Prop;
  store_grows (s : fs) p (a : A) : grows s (comp_set (<[p := a]> (comp_get s)) s);
  store_put (s : fs) p a : fs_inv s → p ≤ Heap.memory_cursor (fs_heap s) → store_ok a →
    fs_inv (comp_set (<[p := a]> (comp_get s)) s);
  store_dom (s s' : fs) : grows s s' →
    dom_le (comp_get s : gmap Z A) (comp_get s');
  store_has (s : fs) p (a : A) : fs_inv s → (comp_get s : gmap Z A) !! p = Some a →
    p ≤ Heap.memory_cursor (fs_heap s) ∧ store_ok a;
}.

(** Nothing is asked of the objects themselves. *)
Class Plain (A : Type) `{Store A} : Prop := plain : ∀ a : A, store_ok a.

Ltac store_inst :=
  let H := fresh in let Hend := fresh in let Ha := fresh in let Hp := fresh in
  unshelve refine {| store_ok := λ _, True |};
  [ intros s p a; by split; simpl
  | intros s p a H Hp _; destruct H as [[] Hend Ha];
    split; [split; simpl; try done; by eapply in_heap_add|done|done]
  | by intros s s' []
  | intros s p a H Hp; split; [|done]; destruct H as [[] _ _]; eauto ].

#[export] Instance store_inode : Store inode. Proof. store_inst. Defined.
#[export] Instance store_file : Store file. Proof. store_inst. Defined.
#[export] Instance store_sb : Store super_block_t. Proof. store_inst. Defined.
#[export] Instance store_ramfs : Store ramfs_t. Proof. store_inst. Defined.
#[export] Instance store_dir : Store ramfs_dir_private_t. Proof. store_inst. Defined.
#[export] Instance store_fat : Store fat32_sb_private_t. Proof. store_inst. Defined.
#[export] Instance store_fat_file : Store fat32_file_reg_private_t. Proof. store_inst. Defined.
#[export] Instance store_fat_dir : Store fat32_dir_entry_loc_t. Proof. store_inst. Defined.

#[export] Instance store_rfile : Store ramfs_file_private_t.
Proof.
  unshelve refine {| store_ok := λ r, alloc_ok (alloc_size r) |}.
  - intros s p a. by split; simpl.
  - intros s p a H Hp Hok. destruct H as [[] Hend Ha].
    split; [split; simpl; try done; by eapply in_heap_add|done|].
    intros q r. simpl. intros [[<- <-]|[_ Hq]]%lookup_insert_Some; [done|by eapply Ha].
  - by intros s s' [].
  - intros s p a H Hp. destruct H as [[] _ Ha]. split; [eauto|by eapply Ha].
Defined.

#[export] Instance plain_inode : Plain inode := λ _, I.
#[export] Instance plain_file : Plain file := λ _, I.
#[export] Instance plain_sb : Plain super_block_t := λ _, I.
#[export] Instance plain_ramfs : Plain ramfs_t := λ _, I.
#[export] Instance plain_dir : Plain ramfs_dir_private_t := λ _, I.
#[export] Instance plain_fat : Plain fat32_sb_private_t := λ _, I.
#[export] Instance plain_fat_file : Plain fat32_file_reg_private_t := λ _, I.
#[export] Instance plain_fat_dir : Plain fat32_dir_entry_loc_t := λ _, I.

(** ** The heap *)

Lemma kept_heap s (h : Heap.heap) : Heap.inv h →
  Heap.memory_cursor (fs_heap s) ≤ Heap.memory_cursor h →
  Heap.section_end h = Heap.section_end (fs_heap s) → kept s (comp_set h s).
Proof.
  intros Hh Hc He. split; [by split|]. intros [[] Hend Ha].
  split; [split; simpl; try done; by eapply in_heap_le|simpl; lia|done].
Qed.

(** A request of at most half of the address space does not wrap around. *)
Lemma calloc_cases s n r s' : fs_inv s → 0 ≤ n ≤ 0x80000000 →
  zoom (Heap.memory_calloc n) s = Ret (r, s') →
  kept s s' ∧ (r = 0 ∨ r ≤ Heap.memory_cursor (fs_heap s') ∧
    ∃ d, Heap.block_data (fs_heap s') !! r = Some d ∧ Z.of_nat (length d) = n).
Proof.
  intros H Hn E. pose proof (wf_heap _ (fi_wf _ H)) as Hh. pose proof (Heap.inv_cursor _ Hh).
  pose proof (fi_end _ H). unfold zoom in E. simpl comp_get in E.
  destruct (Heap.calloc_spec (fs_heap s) n Hh) as
    [[E' _]|(h' & E' & Hh' & _ & _ & _ & Hd & Hc & He)]; [split; lia|..]; rewrite E' in E; inv_run.
  - split; [|by left]. by apply kept_heap.
  - unfold Heap.SIZEOF_SIZE_T in *. split; [by apply kept_heap; [|lia|]|]. right. simpl. split; [lia|].
    eexists. rewrite Hd, lookup_insert_eq. split; [done|]. rewrite length_replicate. lia.
Qed.

Lemma realloc_inv (h : Heap.heap) p n r h' : Heap.inv h → Heap.fits_word h n →
  Heap.memory_realloc p n h = Ret (r, h') →
  Heap.inv h' ∧ Heap.memory_cursor h ≤ Heap.memory_cursor h' ∧
  Heap.section_end h' = Heap.section_end h.
Proof.
  intros Hh Hn E. unfold Heap.memory_realloc in E. apply bind_inv in E as (old & h1 & Eo & E).
  destruct (Heap.block_size h !! p) as [sz|] eqn:Ep; inv_run. rename h1 into h.
  pose proof (Heap.inv_block _ Hh _ _ Ep) as (? & ? & Hold). unfold Heap.SIZEOF_SIZE_T in *.
  destruct (Z.ltb_spec n old); [inv_run; split_and!; done || lia|].
  apply bind_inv in E as (q & h3 & Eq & E).
  destruct (Heap.calloc_spec h n Hh Hn) as
    [[E' _]|(h2 & E' & Hh' & _ & _ & Hs & Hd & Hc & He)]; rewrite E' in Eq; injection Eq as <- <-;
    unfold bind, deref in E.
  - destruct (Heap.block_data h !! p); simpl in E; [|done].
    destruct (Heap.block_data h !! 0) eqn:E0; simpl in E; [|done].
    apply (Heap.inv_data _ Hh), (Heap.inv_block _ Hh) in E0. unfold Heap.SIZEOF_SIZE_T in *. lia.
  - unfold Heap.SIZEOF_SIZE_T in *. rewrite Hd, lookup_insert_ne in E by lia.
    destruct (Heap.block_data h !! p) as [l|] eqn:El; simpl in E; [|done].
    rewrite Hd, lookup_insert_eq in E. simpl in E. injection E as <- <-. split_and!; [|simpl; lia|done].
    apply (Heap.inv_set_data h2 _ (replicate (Z.to_nat n) 0)); [done|by rewrite Hd, lookup_insert_eq|].
    apply (Heap.inv_data _ Hh) in El. simplify_eq.
    rewrite length_app, length_take, length_drop, length_replicate. lia.
Qed.

Lemma fs_inv_fits s n : fs_inv s → 0 ≤ n ≤ 0x80000000 → Heap.fits_word (fs_heap s) n.
Proof.
  intros H Hn. pose proof (Heap.inv_cursor _ (wf_heap _ (fi_wf _ H))). pose proof (fi_end _ H).
  split; lia.
Qed.

Lemma realloc_kept s p n r s' : 0 ≤ n ≤ 0x80000000 →
  zoom (Heap.memory_realloc p n) s = Ret (r, s') → kept s s'.
Proof.
  intros Hn E. unfold zoom in E. simpl comp_get in E.
  destruct (Heap.memory_realloc p n (fs_heap s)) as [[x h]| | |] eqn:Er; inv_run.
  split; [by split|]. intros H. pose proof (wf_heap _ (fi_wf _ H)) as Hh.
  apply realloc_inv in Er as (? & ? & ?); [|done|by apply fs_inv_fits].
  by apply (kept_heap s h).
Qed.

(** ** What stays true *)

(** A property of states that more objects do not change. *)
Class Stable (P : fs → Prop) : Prop := stable : ∀ s s', grows s s' → P s → P s'.

(** NULL, or an object of the store. *)
Definition owned (A : Type) `{!Has fs (gmap Z A)} (p : Z) (s : fs) : Prop :=
  p = 0 ∨ is_Some ((comp_get s : gmap Z A) !! p).

#[export] Instance stable_owned A `{Store A} p : Stable (owned A p).
Proof. intros s s' Hg [->|Hp]; [by left|right]. by apply (store_dom s s' Hg). Qed.
#[export] Instance stable_and P Q : Stable P → Stable Q → Stable (λ s, P s ∧ Q s).
Proof. intros HP HQ s s' Hg [? ?]. split; by eapply stable. Qed.
#[export] Instance stable_True : Stable (λ _, True).
Proof. by intros s s' _ _. Qed.

End FsInv.
