(* ===== verification/Keeps.v ===== *)
(** * What computations leave alone

    A computation keeps a preorder when every state it returns in is related to the
    state it started from.  The file systems keep the files that are open. *)
From S2P Require Import Prelude Bitfield Mmu Alloc Heap Hash Fs FsState FsInv Devices Ramfs Fat32 Vfs.
Import Fs FsState FsInv Devices Ramfs Fat32 Vfs.

Module Keeps.

(** ** The logic *)

Definition keeps {S A} (R : relation S) (m : M S A) : Prop :=
  ∀ s a s', m s = Ret (a, s') → R s s'.

Create HintDb keeps.

Section rules.
Context {S : Type} (R : relation S) `{!PreOrder R}.

Lemma keeps_id {A} (m : M S A) : (∀ s a s', m s = Ret (a, s') → s' = s) → keeps R m.
Proof. intros H s a s' E. by rewrite (H s a s' E). Qed.

Lemma keeps_ret {A} (a : A) : keeps R (ret a).
Proof. intros s x s' E. by inv_run. Qed.

Lemma keeps_bind {A B} (m : M S A) (f : A → M S B) :
  keeps R m → (∀ a, keeps R (f a)) → keeps R (bind m f).
Proof.
  intros Hm Hf s b s' E. apply bind_inv in E as (a & s1 & E1 & E2).
  transitivity s1; [by eapply Hm|by eapply Hf].
Qed.

Lemma keeps_fatal {A} r : keeps R (fatal (A := A) r).
Proof. by intros s a s' E. Qed.
Lemma keeps_fault {A} : keeps R (fault (A := A)).
Proof. by intros s a s' E. Qed.
Lemma keeps_timeout {A} : keeps R (λ _ : S, Timeout : outcome (A * S)).
Proof. by intros s a s' E. Qed.
Lemma keeps_gets {A} (f : S → A) : keeps R (gets f).
Proof. intros s a s' E. by inv_run. Qed.
Lemma keeps_lift {A} (o : outcome A) : keeps R (lift o).
Proof. intros s a s' E. by inv_run. Qed.
Lemma keeps_kassert b r : keeps R (kassert b r).
Proof. unfold kassert. destruct b; [apply keeps_ret|apply keeps_fatal]. Qed.
Lemma keeps_deref {A} (o : option A) : keeps R (deref o).
Proof. destruct o; [apply keeps_ret|apply keeps_fault]. Qed.

(** Running a component's operation. *)
Lemma keeps_zoom {C A} `{!Has S C} (Rc : relation C) (m : M C A) :
  (∀ s c, Rc (comp_get s) c → R s (comp_set c s)) → keeps Rc m → keeps R (zoom m).
Proof.
  intros H Hm s a s' E. unfold zoom in E.
  destruct (m (comp_get s)) as [[x c]| | |] eqn:Em; inv_run. eapply H, Hm, Em.
Qed.
End rules.

#[export] Hint Resolve keeps_ret keeps_fatal keeps_fault keeps_timeout keeps_gets keeps_lift
  keeps_kassert keeps_deref : keeps.
#[export] Hint Extern 0 (PreOrder _) => apply _ : keeps.

(** Take a computation apart; what is left are calls. *)
Ltac keeps_step :=
  match goal with
  | |- PreOrder _ => apply _
  | |- keeps _ (bind _ _) => apply keeps_bind; [apply _| |intros ?]
  | |- keeps _ (λ _, Timeout) => apply keeps_timeout
  | |- keeps _ (match ?x with _ => _ end) => destruct x
  | |- keeps _ _ => solve [eauto 2 with keeps]
  end.
Ltac keeps := repeat (keeps_step; cbv beta zeta).

(** ** The file systems keep their objects and the invariant *)

Abbreviation keeps_files := (keeps kept).

(** A part of the state that the invariant does not look at. *)
Class Apart (C : Type) `{!Has fs C} : Prop := apart : ∀ s (c : C), kept s (comp_set c s).

Ltac apart_inst := intros s c; split; [by split|]; by intros [[] ? ?].
#[export] Instance apart_disks : Apart (gmap Z (gmap Z Z)). Proof. apart_inst. Qed.
#[export] Instance apart_uart : Apart uart_t. Proof. apart_inst. Qed.

Lemma keeps_mput_apart {A} `{Apart (gmap Z A)} p (a : A) : keeps_files (mput p a).
Proof. intros s x s' E. unfold mput in E. inv_run. apply apart. Qed.

Lemma keeps_mget {A} `{!Has fs (gmap Z A)} p : keeps_files (mget (A := A) p).
Proof. apply keeps_id; [apply _|]. intros s a s' E. apply mget_inv in E as (x & _ & E). congruence. Qed.
#[export] Hint Resolve keeps_mget : keeps.
#[export] Hint Extern 1 (keeps _ (mput _ _)) => apply keeps_mput_apart; apply _ : keeps.

(** Putting an object where there is one, or below the cursor. *)
Lemma put_kept {A} `{Store A} s p (a : A) : (fs_inv s → p ≤ Heap.memory_cursor (fs_heap s) ∧ store_ok a) →
  kept s (comp_set (<[p := a]> (comp_get s)) s).
Proof. intros Hp. split; [apply store_grows|]. intros Hi. by apply store_put; [|apply Hp..]. Qed.

Lemma keeps_mupd {A} `{Plain A} p (f : A → A) : keeps_files (mupd p f).
Proof.
  intros s x s' E. unfold mupd in E. apply bind_inv in E as (a & s1 & Ea & E).
  apply mget_inv in Ea as (a' & Ha & [= <- ->]). unfold mput in E. inv_run.
  apply put_kept. intros Hi. split; [by eapply store_has|apply plain].
Qed.
Lemma keeps_mupd_apart {A} `{Apart (gmap Z A)} p (f : A → A) : keeps_files (mupd p f).
Proof. unfold mupd. keeps. Qed.

Lemma keeps_calloc n : 0 ≤ n ≤ 0x80000000 → keeps_files (zoom (Heap.memory_calloc n)).
Proof.
  intros Hn s r s' E. split.
  - unfold zoom in E. destruct (Heap.memory_calloc n _) as [[? ?]| | |]; inv_run. by split.
  - intros Hi. by apply (calloc_cases s n r s' Hi Hn E).
Qed.
Lemma keeps_free p : keeps_files (zoom (Heap.memory_free p)).
Proof.
  intros s r s' E. unfold zoom, Heap.memory_free, ret in E. inv_run.
  split; [by split|]. by intros [[] ? ?].
Qed.
#[export] Hint Resolve keeps_free : keeps.
#[export] Hint Extern 1 (keeps _ (zoom (Heap.memory_calloc _))) => apply keeps_calloc; split; done : keeps.

(** A new object is below the cursor. *)
Lemma mnew_cases {A} `{Store A} n (zero : A) s p s' : 0 ≤ n ≤ 0x80000000 → store_ok zero →
  mnew n zero s = Ret (p, s') →
  kept s s' ∧ (p = 0 ∨ is_Some ((comp_get s' : gmap Z A) !! p)).
Proof.
  intros Hn Hz E. unfold mnew in E. apply bind_inv in E as (q & s1 & E1 & E).
  pose proof (keeps_calloc n Hn _ _ _ E1) as Hk.
  destruct (Z.eqb_spec q 0) as [->|Hq]; [inv_run; by split; [|left]|].
  apply bind_inv in E as (u & s2 & E2 & E). unfold mput in E2. inv_run. split.
  - destruct Hk as [Hg Hk]. split; [by eapply grows_trans, store_grows|].
    intros Hi. apply store_put; [auto| |done].
    destruct (calloc_cases s n p s1 Hi Hn E1) as [_ [->|[? _]]]; done.
  - right. rewrite comp_get_set. rewrite lookup_insert_eq. eauto.
Qed.
Lemma keeps_mnew {A} `{Store A} n (zero : A) : 0 ≤ n ≤ 0x80000000 → store_ok zero →
  keeps_files (mnew n zero).
Proof. intros Hn Hz s p s' E. by apply (mnew_cases n zero s p s' Hn Hz E). Qed.
#[export] Hint Extern 1 (keeps _ (mupd _ _)) => first [apply keeps_mupd; apply _|apply keeps_mupd_apart; apply _] : keeps.
#[export] Hint Extern 1 (keeps _ (mnew _ _)) => apply keeps_mnew; [split; done|first [exact I|by left]] : keeps.

(** *** Putting back what was got

    From a state in which [P] holds. *)
Definition keeps_on (P : fs → Prop) {A} (m : MF A) : Prop :=
  ∀ s a s', P s → m s = Ret (a, s') → kept s s'.

Lemma keeps_from {A} (m : MF A) : keeps_on (λ _, True) m → keeps_files m.
Proof. intros Hm s a s'. by apply Hm. Qed.

Section on.
Context (P : fs → Prop) `{!Stable P}.

Lemma on_keeps {A} (m : MF A) : keeps_files m → keeps_on P m.
Proof. intros Hm s a s' _. apply Hm. Qed.

Lemma on_bind {A B} (m : MF A) (f : A → MF B) :
  keeps_files m → (∀ a, keeps_on P (f a)) → keeps_on P (bind m f).
Proof.
  intros Hm Hf s b s' HP E. apply bind_inv in E as (a & s1 & E1 & E). apply Hm in E1.
  transitivity s1; [done|]. eapply Hf; [|done]. eapply stable; [apply E1|done].
Qed.

Lemma on_mget {A B} `{Store A} p (f : A → MF B) :
  (∀ a, keeps_on (λ s, P s ∧ owned A p s) (f a)) → keeps_on P (bind (mget p) f).
Proof.
  intros Hf s b s' HP E. apply bind_inv in E as (a & s1 & E1 & E).
  apply mget_inv in E1 as (x & Hx & [= <- ->]). eapply Hf; [|exact E]. split; [done|right; eauto].
Qed.

Lemma on_mnew {A B} `{Store A} n (zero : A) (f : Z → MF B) : 0 ≤ n ≤ 0x80000000 → store_ok zero →
  (∀ p, keeps_on (λ s, P s ∧ owned A p s) (f p)) → keeps_on P (bind (mnew n zero) f).
Proof.
  intros Hn Hz Hf s b s' HP E. apply bind_inv in E as (p & s1 & E1 & E).
  destruct (mnew_cases n zero s p s1 Hn Hz E1) as [Hk Hp].
  transitivity s1; [done|]. eapply Hf; [|exact E]. split; [|done]. eapply stable; [apply Hk|done].
Qed.

Lemma on_mput {A} `{Store A} p (a : A) : (∀ s, P s → owned A p s) → store_ok a → keeps_on P (mput p a).
Proof.
  intros HP Ha s x s' Hs E. unfold mput in E. inv_run. apply put_kept. intros Hi. split; [|done].
  destruct (HP s Hs) as [->|[y Hy]]; [|by eapply store_has].
  apply Z.lt_le_incl, (Heap.inv_cursor _ (wf_heap _ (fi_wf _ Hi))).
Qed.

Lemma on_mput_bind {A B} `{Store A} p (a : A) (m : MF B) :
  (∀ s, P s → owned A p s) → store_ok a → keeps_on P m → keeps_on P (bind (mput p a) (λ _, m)).
Proof.
  intros Hp Ha Hm s b s' HP E. apply bind_inv in E as ([] & s1 & E1 & E).
  apply (on_mput p a Hp Ha) in E1; [|done]. transitivity s1; [done|].
  eapply Hm; [|done]. eapply stable; [apply E1|done].
Qed.
End on.

(** The objects named by the hypotheses collected on the way. *)
Ltac owned := let H := fresh in intros ? H; tauto.

Ltac keeps_on_step :=
  match goal with
  | |- keeps_on _ (bind (mget _) _) => apply on_mget; [apply _|intros ?]
  | |- keeps_on _ (bind (mnew _ _) _) =>
      eapply on_mnew; [apply _|split; done|first [exact I|by left]|intros ?]
  | |- keeps_on _ (bind (mput _ _) _) =>
      eapply on_mput_bind; [apply _|owned|first [exact I|by left|by right; exists 0]|]
  | |- keeps_on _ (mput _ _) => eapply on_mput; [owned|first [exact I|by left]]
  | |- keeps_on _ (bind _ _) => apply on_bind; [apply _|keeps|intros ?]
  | |- keeps_on _ (match ?x with _ => _ end) => destruct x
  | |- keeps_on _ _ => apply on_keeps; solve [keeps]
  end.
Ltac keeps_on := apply keeps_from; repeat (keeps_on_step; cbv beta zeta).

Lemma keeps_get_inode p : keeps_files (get_inode p). Proof. unfold get_inode. keeps. Qed.
Lemma keeps_get_file p : keeps_files (get_file p). Proof. unfold get_file. keeps. Qed.
Lemma keeps_upd_inode p f : keeps_files (upd_inode p f). Proof. unfold upd_inode. keeps. Qed.
Lemma keeps_upd_file p f : keeps_files (upd_file p f). Proof. unfold upd_file. keeps. Qed.
#[export] Hint Resolve keeps_get_inode keeps_get_file keeps_upd_inode keeps_upd_file : keeps.

(** ** [inode.c], [fs_utils.c], the devices *)

Lemma keeps_default_open i : keeps_files (default_file_open i).
Proof. unfold default_file_open. keeps. Qed.
Lemma keeps_default_release i f : keeps_files (default_file_release i f).
Proof. unfold default_file_release. keeps. Qed.
Lemma keeps_seek_ref f w : keeps_files (get_seek_ref_offset f w).
Proof. unfold get_seek_ref_offset. keeps. Qed.
Lemma keeps_sb_alloc sb : keeps_files (sb_alloc_inode sb).
Proof. unfold sb_alloc_inode, _ramfs_sb_alloc_inode, _fat32_sb_alloc_inode. keeps. Qed.
#[export] Hint Resolve keeps_default_open keeps_default_release keeps_seek_ref keeps_sb_alloc : keeps.

Lemma keeps_read_block dev i : keeps_files (read_block dev i).
Proof. unfold read_block, _section_ramdisk_read_block, _sdcard_disk_read_block. keeps. Qed.
Lemma keeps_block_device p : keeps_files (block_device p).
Proof. unfold block_device. keeps. Qed.
Lemma keeps_get_block_device dev : keeps_files (get_block_device dev).
Proof. unfold get_block_device. keeps. Qed.
Lemma keeps_get_char_device dev : keeps_files (get_char_device dev).
Proof. unfold get_char_device. keeps. Qed.
#[export] Hint Resolve keeps_read_block keeps_block_device keeps_get_block_device
  keeps_get_char_device : keeps.

Lemma keeps_putc c : keeps_files (mini_uart_putc c).
Proof.
  unfold mini_uart_putc. keeps. intros s1 r1 s2 E. inv_run. exact (apart s1 (mkuart _ _)).
Qed.
Lemma keeps_getc : keeps_files mini_uart_getc.
Proof.
  unfold mini_uart_getc. keeps. intros s1 r1 s2 E. inv_run. exact (apart s1 (mkuart _ _)).
Qed.
#[export] Hint Resolve keeps_putc keeps_getc : keeps.

Lemma keeps_tty_read n buf : keeps_files (tty_read_loop n buf).
Proof. revert buf. induction n; intros; cbn [tty_read_loop]; keeps. Qed.
Lemma keeps_tty_write data : keeps_files (tty_write_loop data).
Proof. induction data; cbn [tty_write_loop]; keeps. Qed.
Lemma keeps_block_loop fuel dev i o n data : keeps_files (block_read_loop fuel dev i o n data).
Proof. revert i o n data. induction fuel; intros; cbn [block_read_loop]; keeps. Qed.
#[export] Hint Resolve keeps_tty_read keeps_tty_write keeps_block_loop : keeps.

(** ** [ramfs.c] *)

Lemma keeps_heap_data p : keeps_files (heap_data p).
Proof. intros s a s' E. unfold heap_data in E. destruct (_ !! _); inv_run. done. Qed.
#[export] Hint Resolve keeps_heap_data : keeps.

(** The bytes written into a block leave it as long as it was. *)
Lemma keeps_block_write {A} b start data (m : MF A) : 0 ≤ start → keeps_files m →
  keeps_files (let* bytes := heap_data b in
               let* bytes' := lift (block_write bytes start data) in
               let* _ := set_heap_data b bytes' in m).
Proof.
  intros Hstart Hm s x s' E. apply bind_inv in E as (bytes & s1 & E1 & E).
  unfold heap_data in E1. destruct (Heap.block_data (fs_heap s) !! b) eqn:Eb; inv_run.
  apply Hm in E. etransitivity; [|exact E]. unfold block_write in *.
  match goal with H : (if ?c then _ else _) = _ |- _ => destruct c eqn:Hc; inv_run end.
  unfold set_heap_data in *. inv_run. split; [by split|]. intros [[] Hend Ha]. split; [split; simpl; try done|done|done].
  eapply Heap.inv_set_data; [done|exact Eb|].
  rewrite !length_app, length_take, length_drop. lia.
Qed.

Lemma grow_alloc fuel a new a' : alloc_ok a → grow fuel a new = Ret a' → alloc_ok a'.
Proof.
  revert a. induction fuel as [|fuel IH]; intros a Ha E; cbn [grow] in E;
    (destruct (a <? new); [|by inv_run]); [done|].
  eapply IH; [|exact E]. destruct Ha as [->|(k & Hk & ->)]; [by left|].
  destruct (decide (k = 22)) as [->|]; [by left|]. right. exists (k + 1). split; [lia|].
  assert (2 ^ k ≤ 2 ^ 21) by (apply Z.pow_le_mono_r; lia). unfold u32.
  rewrite Z.pow_add_r by lia. lia.
Qed.

(** The block that holds a RAM file grows. *)
Lemma keeps_grown {A} p new (m : Z → MF A) : (∀ b, keeps_files (m b)) →
  keeps_files (let* r := mget (A := ramfs_file_private_t) p in
               let* alloc := lift (grow GROW_FUEL (alloc_size r) new) in
               let* b := grown p r alloc in m b).
Proof.
  intros Hm s x s' E. apply bind_inv in E as (r & s1 & E1 & E).
  apply mget_inv in E1 as (r' & Hr & [= <- ->]). apply bind_inv in E as (alloc & s2 & Eg & E).
  apply lift_Ret in Eg as [Eg ->]. apply bind_inv in E as (b & s3 & E3 & E). apply Hm in E.
  transitivity s3; [|done]. clear E Hm s'. unfold grown in E3.
  destruct (alloc >? alloc_size r); [|injection E3 as _ <-; done].
  apply bind_inv in E3 as (b' & s4 & E4 & E3). unfold bind, kassert, mput in E3.
  destruct (negb (b' =? 0)); [|done]. injection E3 as <- <-. split.
  - eapply grows_trans; [|exact (store_grows s4 p (mkrfile b' alloc))].
    unfold zoom in E4. destruct (Heap.memory_realloc _ _ _) as [[? ?]| | |]; [|done..].
    injection E4 as _ <-. by split.
  - intros Hi. assert (alloc_ok alloc) as Ha.
    { eapply grow_alloc; [|exact Eg]. by apply (fi_alloc _ Hi _ _ Hr). }
    assert (0 ≤ alloc ≤ 0x80000000) as Hle.
    { destruct Ha as [->|(k & Hk & ->)]; [lia|].
      assert (2 ^ k ≤ 2 ^ 22) by (apply Z.pow_le_mono_r; lia). lia. }
    destruct (realloc_kept _ _ _ _ _ Hle E4) as [Hg Hk]. destruct (gr_rfiles _ _ Hg p) as [y Hy]; [eauto|].
    refine (store_put s4 p (mkrfile b' alloc) (Hk Hi) _ Ha).
    eapply (store_has (A := ramfs_file_private_t)); [by apply Hk|exact Hy].
Qed.
Lemma keeps_add_child p n i : keeps_files (_add_inode_child p n i).
Proof. unfold _add_inode_child. keeps_on. Qed.
Lemma keeps_next_ino p : keeps_files (next_ino p).
Proof. unfold next_ino. keeps_on. Qed.
Lemma keeps_ramfs_write f data : keeps_files (_ramfs_reg_file_write f data).
Proof.
  unfold _ramfs_reg_file_write. apply keeps_bind; [apply _|keeps|]. intros file.
  destruct (Z.ltb_spec (pos file) 0); [keeps|]. apply keeps_bind; [apply _|keeps|]. intros i.
  destruct (pos file >? size i); [keeps|]. apply keeps_grown. intros b.
  apply keeps_block_write; [done|]. keeps.
Qed.
Lemma keeps_readdir n f cs : keeps_files (Ramfs.readdir_loop n f cs).
Proof. induction n; cbn [Ramfs.readdir_loop]; keeps. Qed.
Lemma keeps_ramfs_lookup d n : keeps_files (_ramfs_inode_lookup d n).
Proof. unfold _ramfs_inode_lookup. keeps. Qed.
Lemma keeps_mknod_ops m d : keeps_files (mknod_file_ops m d).
Proof. unfold mknod_file_ops. keeps. Qed.
#[export] Hint Resolve keeps_ramfs_write keeps_add_child keeps_next_ino keeps_readdir
  keeps_ramfs_lookup keeps_mknod_ops : keeps.

Lemma keeps_ramfs_create d n m : keeps_files (_ramfs_inode_create d n m).
Proof. unfold _ramfs_inode_create. keeps_on. Qed.
#[export] Hint Resolve keeps_ramfs_create : keeps.

(** ** [fat32_fs.c] *)

Lemma keeps_read_sector v i : keeps_files (read_sector v i).
Proof. unfold read_sector. keeps. Qed.
#[export] Hint Resolve keeps_read_sector : keeps.
Lemma keeps_read_table v c : keeps_files (_fat_read_table v c).
Proof. unfold _fat_read_table. keeps. Qed.
Lemma keeps_fat_sector v l : keeps_files (_fat_read_sector v l).
Proof. unfold _fat_read_sector. keeps. Qed.
#[export] Hint Resolve keeps_read_table keeps_fat_sector : keeps.
Lemma keeps_find_prev fuel v p c : keeps_files (find_prev fuel v p c).
Proof. revert p. induction fuel; intros; cbn [find_prev]; keeps. Qed.
Lemma keeps_next_sector v l : keeps_files (_fat_next_sector_location v l).
Proof. unfold _fat_next_sector_location. keeps. Qed.
#[export] Hint Resolve keeps_find_prev keeps_next_sector : keeps.
Lemma keeps_prev_sector v l : keeps_files (_fat_prev_sector_location v l).
Proof. unfold _fat_prev_sector_location. keeps. Qed.
Lemma keeps_it_load v it : keeps_files (iterator_load v it).
Proof. unfold iterator_load. keeps. Qed.
Lemma keeps_it_advance v it : keeps_files (iterator_advance v it).
Proof. unfold iterator_advance. keeps. Qed.
#[export] Hint Resolve keeps_prev_sector keeps_it_load keeps_it_advance : keeps.

Lemma keeps_iterator fuel v n it buf b : keeps_files (iterator_loop fuel v n it buf b).
Proof. revert it buf b. induction fuel; intros; cbn [iterator_loop]; keeps. Qed.
Lemma keeps_it_next v n it : keeps_files (fat_32_directory_entry_iterator_next v n it).
Proof. apply keeps_iterator. Qed.
#[export] Hint Resolve keeps_it_next : keeps.
Lemma keeps_fat_readdir n v it : keeps_files (fat_readdir_loop n v it).
Proof. revert it. induction n; intros; cbn [fat_readdir_loop]; keeps. Qed.
Lemma keeps_volume i : keeps_files (volume_of i).
Proof. unfold volume_of. keeps. Qed.
Lemma keeps_fat_read fuel v p n r d : keeps_files (fat_read_loop fuel v p n r d).
Proof. revert p n r d. induction fuel; intros; cbn [fat_read_loop]; keeps. Qed.
Lemma keeps_forward n v l : keeps_files (sectors_forward n v l).
Proof. revert l. induction n; intros; cbn [sectors_forward]; keeps. Qed.
Lemma keeps_backward n v l : keeps_files (sectors_backward n v l).
Proof. revert l. induction n; intros; cbn [sectors_backward]; keeps. Qed.
Lemma keeps_fat_inode e sb n : keeps_files (_fat32_create_inode e sb n).
Proof. unfold _fat32_create_inode. keeps. Qed.
#[export] Hint Resolve keeps_fat_readdir keeps_volume keeps_fat_read keeps_forward keeps_backward
  keeps_fat_inode : keeps.
Lemma keeps_fat_lookup fuel v sb n it : keeps_files (fat_lookup_loop fuel v sb n it).
Proof. revert it. induction fuel; intros; cbn [fat_lookup_loop]; keeps. Qed.
#[export] Hint Resolve keeps_fat_lookup : keeps.
Lemma keeps_fat_reg_open i : keeps_files (_fat32_fs_reg_file_open i).
Proof. unfold _fat32_fs_reg_file_open. keeps. Qed.
Lemma keeps_fat_dir_open i : keeps_files (_fat32_fs_dir_open i).
Proof. unfold _fat32_fs_dir_open. keeps. Qed.
Lemma keeps_block_open i : keeps_files (_block_device_open i).
Proof. unfold _block_device_open. keeps. Qed.
#[export] Hint Resolve keeps_fat_reg_open keeps_fat_dir_open keeps_block_open : keeps.

Lemma keeps_fat_reg_read f n : keeps_files (_fat32_fs_reg_file_read f n).
Proof. unfold _fat32_fs_reg_file_read. keeps_on. Qed.
Lemma keeps_fat_reg_seek f o w : keeps_files (_fat32_fs_reg_file_seek f o w).
Proof. unfold _fat32_fs_reg_file_seek. keeps_on. Qed.
Lemma keeps_fat_dir_readdir f n : keeps_files (_fat32_fs_dir_readdir f n).
Proof. unfold _fat32_fs_dir_readdir. keeps_on. Qed.
#[export] Hint Resolve keeps_fat_reg_read keeps_fat_reg_seek keeps_fat_dir_readdir : keeps.

(** ** [vfs.c] *)

Lemma keeps_close f : keeps_files (vfs_file_close f).
Proof.
  unfold vfs_file_close, _block_device_release, _fat32_fs_reg_file_release, _fat32_fs_dir_release.
  keeps.
Qed.
Lemma keeps_ops_of f : keeps_files (ops_of f).
Proof. unfold ops_of. keeps. Qed.
#[export] Hint Resolve keeps_close keeps_ops_of : keeps.
Lemma keeps_read f n : keeps_files (vfs_file_read f n).
Proof.
  unfold vfs_file_read, _tty_mini_uart_read, _block_device_read, _ramfs_reg_file_read. keeps.
Qed.
Lemma keeps_vfs_readdir f n : keeps_files (vfs_file_readdir f n).
Proof. unfold vfs_file_readdir, _ramfs_dir_readdir. keeps. Qed.
Lemma keeps_write f l : keeps_files (vfs_file_write f l).
Proof.
  unfold vfs_file_write, _tty_mini_uart_write, _block_device_write,
    _fat32_fs_reg_file_write. keeps.
Qed.
Lemma keeps_lseek f o w : keeps_files (vfs_file_lseek f o w).
Proof.
  unfold vfs_file_lseek, _block_device_seek, _ramfs_reg_file_seek, _ramfs_dir_file_seek,
    _fat32_fs_dir_file_seek. keeps.
Qed.
Lemma keeps_file_open i : keeps_files (file_open i).
Proof. unfold file_open. keeps. Qed.
Lemma keeps_inode_lookup d n : keeps_files (inode_lookup d n).
Proof. unfold inode_lookup, _fat32fs_inode_lookup. keeps. Qed.
Lemma keeps_inode_create d n m : keeps_files (inode_create d n m).
Proof. unfold inode_create. keeps. Qed.
Lemma keeps_inode_mkdir d n m : keeps_files (inode_mkdir d n m).
Proof. unfold inode_mkdir, _ramfs_inode_mkdir. keeps. Qed.
Lemma keeps_inode_mknod d n m dev : keeps_files (inode_mknod d n m dev).
Proof. unfold inode_mknod, _ramfs_inode_mknod. keeps. Qed.
#[export] Hint Resolve keeps_read keeps_vfs_readdir keeps_write keeps_lseek keeps_file_open
  keeps_inode_lookup keeps_inode_create keeps_inode_mkdir keeps_inode_mknod : keeps.

Definition vkept (s s' : vstate) : Prop := kept (vs_fs s) (vs_fs s').

#[export] Instance vkept_preorder : PreOrder vkept.
Proof. split; [by intros s; red|]. intros s1 s2 s3. apply (transitivity (R := kept)). Qed.

Lemma keeps_onfs {A} (m : MF A) : keeps_files m → keeps vkept (onfs m).
Proof. by apply keeps_zoom. Qed.
#[export] Hint Extern 1 (keeps vkept (onfs _)) => apply keeps_onfs; solve [eauto 2 with keeps] : keeps.

Lemma keeps_get_dentry p : keeps vkept (get_dentry p).
Proof. intros s a s' E. unfold get_dentry in E. destruct (_ !! _); inv_run. done. Qed.
Lemma keeps_put_dentry p d : keeps vkept (put_dentry p d).
Proof. intros s a s' E. unfold put_dentry in E. by inv_run. Qed.
Lemma keeps_dentry_alloc : keeps vkept dentry_alloc.
Proof.
  intros s a s' E. unfold dentry_alloc in E.
  destruct (Bitfield.bitfield_allocator_alloc _ _ _ _) as [[]| | |]; by inv_run.
Qed.
#[export] Hint Resolve keeps_get_dentry keeps_put_dentry keeps_dentry_alloc : keeps.

Lemma keeps_is_fmt p m : keeps vkept (_dentry_is_fmt p m).
Proof. unfold _dentry_is_fmt. keeps. Qed.
Lemma keeps_find_dentry cs n : keeps vkept (find_dentry cs n).
Proof. induction cs; cbn [find_dentry]; keeps. Qed.
#[export] Hint Resolve keeps_is_fmt keeps_find_dentry : keeps.
Lemma keeps_child p n : keeps vkept (_vfs_dentry_child_by_name p n).
Proof. unfold _vfs_dentry_child_by_name. keeps. Qed.
#[export] Hint Resolve keeps_child : keeps.
Lemma keeps_lookup_rec fuel p n : keeps vkept (_vfs_node_lookup_rec fuel p n).
Proof. revert p n. induction fuel; intros; cbn [_vfs_node_lookup_rec]; keeps. Qed.
Lemma keeps_result_ok p : keeps vkept (lookup_result_ok p).
Proof. unfold lookup_result_ok. keeps. Qed.
#[export] Hint Resolve keeps_lookup_rec keeps_result_ok : keeps.
Lemma keeps_lookup n : keeps vkept (_vfs_dentry_lookup n).
Proof. unfold _vfs_dentry_lookup. keeps. Qed.
#[export] Hint Resolve keeps_lookup : keeps.

Lemma keeps_make_node n f : (∀ p n, keeps_files (f p n)) → keeps vkept (make_node n f).
Proof. intros Hf. unfold make_node. keeps. Qed.
Lemma keeps_vfs_mkdir n m : keeps vkept (vfs_mkdir n m).
Proof. apply keeps_make_node. intros. keeps. Qed.
Lemma keeps_vfs_mknod n m d : keeps vkept (vfs_mknod n m d).
Proof. apply keeps_make_node. intros. keeps. Qed.
Lemma keeps_vfs_open n fl m : keeps vkept (vfs_file_open n fl m).
Proof. unfold vfs_file_open. keeps. Qed.
#[export] Hint Resolve keeps_vfs_mkdir keeps_vfs_mknod keeps_vfs_open : keeps.

(** *** Mounting *)

Lemma keeps_init_private dev : keeps_files (_fat32_init_fs_private dev).
Proof. unfold _fat32_init_fs_private. keeps_on. Qed.
#[export] Hint Resolve keeps_init_private : keeps.
Lemma keeps_fat32_create dev : keeps_files (fat32_create_filesystem dev).
Proof. unfold fat32_create_filesystem. keeps_on. Qed.
Lemma keeps_ramfs_super : keeps_files create_ramfs_super_block.
Proof. unfold create_ramfs_super_block. keeps_on. Qed.
#[export] Hint Resolve keeps_fat32_create keeps_ramfs_super : keeps.
Lemma keeps_sb_by_dev dev fstype : keeps_files (_sb_by_dev_fs_type dev fstype).
Proof. unfold _sb_by_dev_fs_type. keeps. Qed.
Lemma keeps_sb_read_inode sb n i : keeps_files (sb_read_inode sb n i).
Proof. unfold sb_read_inode, _ramfs_sb_read_inode, _fat32_sb_read_inode. keeps. Qed.
#[export] Hint Resolve keeps_sb_by_dev keeps_sb_read_inode : keeps.
Lemma keeps_mount dev d fstype : keeps vkept (_vfs_mount_dev dev d fstype).
Proof. unfold _vfs_mount_dev. keeps. Qed.
#[export] Hint Resolve keeps_mount : keeps.
Lemma keeps_vfs_mount_dev dev n fstype : keeps vkept (vfs_mount_dev dev n fstype).
Proof. unfold vfs_mount_dev. keeps. Qed.
Lemma keeps_vfs_mount dev n fstype : keeps vkept (vfs_mount dev n fstype).
Proof. unfold vfs_mount. keeps. Qed.
#[export] Hint Resolve keeps_vfs_mount_dev keeps_vfs_mount : keeps.

(** ** An opened file exists *)

Definition is_file (f : Z) (s : fs) : Prop := f = 0 ∨ is_Some (fs_files s !! f).

Definition gives {S A} (Q : A → S → Prop) (m : M S A) : Prop :=
  ∀ s a s', m s = Ret (a, s') → Q a s'.

Lemma gives_bind {S A B} (Q : B → S → Prop) (m : M S A) (f : A → M S B) :
  (∀ a, gives Q (f a)) → gives Q (bind m f).
Proof. intros Hf s b s' E. apply bind_inv in E as (a & s1 & _ & E). by eapply Hf. Qed.

Lemma gives_ret {S A} (Q : A → S → Prop) a : (∀ s, Q a s) → gives Q (ret a).
Proof. intros H s b s' E. by inv_run. Qed.

(** The last thing to happen to a new file is an assignment to it. *)
Lemma gives_upd f g : gives is_file (let* _ := mupd (A := file) f g in ret f).
Proof.
  intros s a s' E. inv_run. right. unfold mupd, mput in *. inv_run.
  exists (g x0). apply lookup_insert_eq.
Qed.

Lemma gives_default_open i : gives is_file (default_file_open i).
Proof. unfold default_file_open. do 3 (apply gives_bind; intros ?). apply gives_upd. Qed.

Lemma gives_file_open i : gives is_file (file_open i).
Proof.
  unfold file_open. apply gives_bind. intros node.
  destruct (file_ops node); try apply gives_default_open; [by intros ????|..].
  - unfold _block_device_open. do 3 (apply gives_bind; intros ?). apply gives_upd.
  - unfold _fat32_fs_reg_file_open. apply gives_bind. intros p. case_match.
    { apply gives_ret. by left. }
    apply gives_bind. intros f. case_match.
    + apply gives_bind. intros _. apply gives_ret. by left.
    + do 2 (apply gives_bind; intros ?). apply gives_upd.
  - unfold _fat32_fs_dir_open. apply gives_bind. intros p. case_match.
    { apply gives_ret. by left. }
    apply gives_bind. intros f. case_match.
    + apply gives_bind. intros _. apply gives_ret. by left.
    + do 2 (apply gives_bind; intros ?). apply gives_upd.
Qed.

Lemma gives_vfs_open n fl m : gives (λ f s, is_file f (vs_fs s)) (vfs_file_open n fl m).
Proof.
  assert (∀ i, gives (λ f s, is_file f (vs_fs s)) (onfs (file_open i))) as Hopen.
  { intros i s f s' E. unfold onfs, zoom in E.
    destruct (file_open i (comp_get s)) as [[x c]| | |] eqn:Eo; inv_run.
    by apply (gives_file_open _ _ _ _ Eo). }
  assert (∀ b, b = 0 → gives (λ f s, is_file f (vs_fs s)) (ret (S := vstate) b)) as Hnull.
  { intros b ->. apply gives_ret. by left. }
  unfold vfs_file_open. apply gives_bind. intros p. case_match; [by apply Hnull|].
  do 2 (apply gives_bind; intros ?). cbv zeta.
  repeat first
    [ apply Hopen | by apply Hnull
    | apply gives_bind; intros ? | case_match ].
Qed.

End Keeps.
