(* ===== verification/Exec.v ===== *)
(** * The whole system's state, user memory, and exec

    The scheduler on top of the real file system, and the part of
    [kernel/scheduler/scheduler.c] that replaces a process' image by an ELF file. *)
From S2P Require Import Prelude Bitfield Mmu Alloc Heap Hash Fs FsState Devices Ramfs Fat32 Vfs Elf Scheduler.
Import Fs FsState Devices Vfs Elf Scheduler.

Module Exec.

(** ** The file system under the scheduler *)

#[global] Program Instance vstate_files : Files vstate := {
  fd_count s f := f_count <$> fs_files (vs_fs s) !! f;
  set_fd_count f n s :=
    mkvs (comp_set (alter (with_count n) f (fs_files (vs_fs s))) (vs_fs s)) (vs_vfs s);
}.
Next Obligation.
  intros f n s g [c Hf]. simpl. apply fmap_Some in Hf as (fl & Hf & ->).
  case_decide as E.
  - subst g. by rewrite lookup_alter_eq, Hf.
  - by rewrite lookup_alter_ne.
Qed.

Abbreviation system := (world vstate).
Abbreviation MS := (M (world vstate)).

(** An operation of the VFS, and one of the file systems. *)
Definition onvfs {A} (m : MV A) : MS A := zoom m.
Definition onfile {A} (m : MF A) : MS A := onvfs (onfs m).

(** ** Reading and writing the processes' memory *)

Fixpoint cstr_loop (fuel : nat) (a : Z) (m : ram_t) : outcome name_t :=
  let? b := ram_load a m in
  if b =? 0 then Ret []
  else
    match fuel with
    | O => Timeout
    | S fuel => let? s := cstr_loop fuel (a + 1) m in Ret (b :: s)
    end.

(** The C string at [a].  It cannot be longer than all the sections together. *)
Definition load_cstr (a : Z) : MS name_t := λ w,
  lift (cstr_loop (Z.to_nat (0x100000 * Z.of_nat (base.size (ram w)))) a (ram w)) w.

Fixpoint ram_load_bytes (n : nat) (a : Z) (m : ram_t) : outcome (list Z) :=
  match n with
  | O => Ret []
  | S n =>
      let? b := ram_load a m in
      let? l := ram_load_bytes n (a + 1) m in
      Ret (b :: l)
  end.

Fixpoint ram_store_bytes (a : Z) (l : list Z) (m : ram_t) : outcome ram_t :=
  match l with
  | [] => Ret m
  | b :: l => let? m := ram_store a b m in ram_store_bytes (a + 1) l m
  end.

Definition load_bytes (a n : Z) : MS (list Z) := λ w,
  lift (ram_load_bytes (Z.to_nat n) a (ram w)) w.

Definition load_word (a : Z) : MS Z := λ w, lift (ram_load_word a (ram w)) w.

(** [memcpy] from the kernel into a process' memory *)
Definition store_bytes (a : Z) (l : list Z) : MS unit := λ w,
  let? m := ram_store_bytes a l (ram w) in
  Ret ((), mkworld (sections w) (ttables w) m (sched w) (filesys w)).

(** [mmu_translate_virtual_address(proc->translation_table, va)] *)
Definition proc_translate (proc va : Z) : MS Z :=
  let* p := get_proc proc in
  let* t := get_table (translation_table p) in
  lift (Mmu.mmu_translate_virtual_address t va).

(** ** [__load_proc_from_elf] *)

Definition PROCESS_MAX_ARG_COUNT : Z := 8.
Definition PROCESS_MAX_ARG_SIZE : Z := 32.

(** A segment is copied from the file. *)
Definition load_segment (proc : Z) (elf : elf32_file_t) (phdr : elf32_program_header_t) : MS unit :=
  let* dst_kaddr := proc_translate proc (p_vaddress phdr) in
  let* seek_st := onfile (vfs_file_lseek (elf_file elf) (s32 (p_offset phdr)) SEEK_SET) in
  let* _ := kassert (seek_st =? s32 (p_offset phdr)) "seek_st == (off_t)phdr.offset" in
  let* r := onfile (vfs_file_read (elf_file elf) (p_file_size phdr)) in
  let '(read_sz, bytes) := r in
  let* _ := store_bytes dst_kaddr bytes in
  kassert (read_sz =? s32 (p_file_size phdr)) "read_sz == (ssize_t)phdr.file_size".

(** The loop over the program headers, with [n] headers to go. *)
Fixpoint load_loop (n : nat) (proc : Z) (elf : elf32_file_t) (it : Z) : MS unit :=
  let* r := onvfs (elf32_program_header_iterator_read_next elf it) in
  let '(st, phdr, it) := r in
  if st =? 1 then
    let* _ := if negb (p_type phdr =? PT_LOAD) || (p_vaddress phdr =? 0) then ret ()
              else load_segment proc elf phdr in
    match n with
    | O => λ _, Timeout
    | S n => load_loop n proc elf it
    end
  else kassert (st =? 0) "st == 0".

(** The strings of [argv] go on the stack, one below the other: their addresses, and
    the stack pointer.  [arg_size] is a [char], which ARM has unsigned. *)
Fixpoint push_args (proc : Z) (args : list name_t) (proc_stack_pointer : Z) : MS (list Z * Z) :=
  match args with
  | [] => ret ([], proc_stack_pointer)
  | arg :: args =>
      let arg_size := u8 (Z.of_nat (length arg) + 1) in
      let proc_stack_pointer := u32 (proc_stack_pointer - arg_size) in
      let* dst_kaddr := proc_translate proc proc_stack_pointer in
      let* _ := store_bytes dst_kaddr (take (Z.to_nat arg_size) (arg ++ [0])) in
      let* r := push_args proc args proc_stack_pointer in
      ret (proc_stack_pointer :: fst r, snd r)
  end.

(** The arguments and their vector on the stack: where the stack then ends. *)
Definition load_args (proc : Z) (args : list name_t) : MS Z :=
  let argc := Z.of_nat (length args) in
  let* _ := kassert (argc <? 16) "args->argc < 16" in
  let* r := push_args proc args PROCESS_STACK_VIRTUAL_ADDRRESS in
  let '(v_argv, proc_stack_pointer) := r in
  let argv_size := 4 * (1 + argc) in
  let proc_stack_pointer := Z.land (u32 (proc_stack_pointer - argv_size)) 0xFFFFFFFC in
  let* dst_kaddr := proc_translate proc proc_stack_pointer in
  let* _ := store_bytes dst_kaddr (concat (map word_bytes (v_argv ++ [0]))) in
  ret proc_stack_pointer.

(** [path] is the kernel's address of a string, which may be in the very section that
    is cleared. *)
Definition __load_proc_from_elf (proc path : Z) (args : list name_t) : MS Z :=
  let* path := load_cstr path in
  let* r := onvfs (elf32_open path) in
  let '(status, elf) := r in
  if status <? 0 then ret status
  else
    let* p := get_proc proc in
    let* _ := clear_section (memory_section p) in
    let* _ := load_loop (Z.to_nat (phnum (header elf))) proc elf 0 in
    let* proc_stack_pointer := load_args proc args in
    let entry := entry (header elf) in
    let* _ := kassert (negb (entry =? 0)) "entry != 0u" in
    let* _ := kassert ((entry >=? PROCESS_PROGRAM_START_VADRR) &&
                       (entry <=? PROCESS_PROGRAM_END_VADRR)) "entry in the program" in
    let* _ := upd_proc proc
      (with_context (_proc_context_init proc_stack_pointer entry proc_stack_pointer)) in
    let* r := onvfs (elf32_close elf) in
    let* _ := kassert (fst r =? 0) "close_status == 0" in
    ret 0.

Definition scheduler_cur_proc_exec (path : Z) (args : list name_t) : MS Z :=
  let* current_proc := _get_current_proc in
  __load_proc_from_elf current_proc path args.

End Exec.
