(* ===== verification/Syscalls.v ===== *)
(** * System calls: [kernel/syscalls.c]

    The handlers, their dispatch, and what the exception vectors of
    [kernel/hardware/interupts.S] do around them. *)
From S2P Require Import Prelude Bitfield Mmu Alloc Heap Hash Fs FsState Devices Ramfs Fat32 Vfs Elf Scheduler Exec.
Import Fs FsState Devices Vfs Elf Scheduler Exec.

Module Syscalls.

(** ** Constants of [syscalls.h] *)

Definition SYSCALL_COUNT : Z := 17.
Definition SYSCALL__EXIT : Z := 2.
Definition SYSCALL__FORK : Z := 12.
Definition SYSCALL__WAITPID : Z := 13.
Definition SYSCALL__EXEC : Z := 14.
Definition SYSCALL_STATUS_OK : Z := 0.
Definition SYSCALL_STATUS_ERR : Z := -1.

(** ** The handlers

    The arguments are [uint32_t]. *)

Definition _syscall__YIELD (arg0 arg1 arg2 : Z) : MS Z := ret (s32 arg0).

(** [watchdog_reboot] arms the watchdog and loops until it resets the machine. *)
Definition _syscall__REBOOT (arg0 arg1 arg2 : Z) : MS Z := fatal "watchdog_reboot".

Definition _syscall__EXIT (arg0 arg1 arg2 : Z) : MS Z :=
  let* _ := scheduler_cur_proc_exit (s32 arg0) in ret SYSCALL_STATUS_OK.

Definition _syscall__OPEN (arg0 arg1 arg2 : Z) : MS Z :=
  let* path := scheduler_cur_proc_to_kernel_address arg0 in
  let* path := load_cstr path in
  let* file := onvfs (vfs_file_open path arg1 arg2) in
  if file =? 0 then ret SYSCALL_STATUS_ERR
  else
    let* fd := scheduler_cur_proc_add_fd file in
    let* _ := if fd <? 0 then let* _ := onfile (vfs_file_close file) in ret () else ret () in
    ret fd.

Definition _syscall__CLOSE (arg0 arg1 arg2 : Z) : MS Z :=
  let fd := s32 arg0 in
  let* file := scheduler_cur_proc_get_fd fd in
  if file =? 0 then ret SYSCALL_STATUS_ERR
  else
    let* _ := scheduler_cur_proc_rem_fd fd in
    let* _ := onfile (vfs_file_close file) in
    ret 0.

Definition _syscall__READ (arg0 arg1 arg2 : Z) : MS Z :=
  let* data := scheduler_cur_proc_to_kernel_address arg1 in
  let* file := scheduler_cur_proc_get_fd (s32 arg0) in
  if file =? 0 then ret SYSCALL_STATUS_ERR
  else
    let* r := onfile (vfs_file_read file arg2) in
    let* _ := store_bytes data (snd r) in
    ret (fst r).

(** The [dirent]s of an array, 32 bytes each: the kind, and the name with its NUL. *)
Fixpoint store_dirents (entries : Z) (l : list dirent) : MS unit :=
  match l with
  | [] => ret ()
  | e :: l =>
      let* _ := store_bytes entries (d_type e :: d_name e ++ [0]) in
      store_dirents (entries + 32) l
  end.

Definition _syscall__READDIR (arg0 arg1 arg2 : Z) : MS Z :=
  let* entries := scheduler_cur_proc_to_kernel_address arg1 in
  let* file := scheduler_cur_proc_get_fd (s32 arg0) in
  if file =? 0 then ret SYSCALL_STATUS_ERR
  else
    let* r := onfile (vfs_file_readdir file arg2) in
    let* _ := store_dirents entries (snd r) in
    ret (fst r).

(** Whether writing to the file gets as far as looking at the data. *)
Definition write_reads (f : Z) : MF bool :=
  let* file := get_file f in
  let* node := get_inode (f_inode file) in
  match file_ops node with
  | DEV_TTY_OPS => ret true
  | RAMFS_REG_FILE_OPS => ret ((0 <=? pos file) && (pos file <=? Fs.size node))
  | _ => ret false
  end.

Definition _syscall__WRITE (arg0 arg1 arg2 : Z) : MS Z :=
  let* data := scheduler_cur_proc_to_kernel_address arg1 in
  let* file := scheduler_cur_proc_get_fd (s32 arg0) in
  if file =? 0 then ret SYSCALL_STATUS_ERR
  else
    let* reads := onfile (write_reads file) in
    let* bytes := if reads : bool then load_bytes data arg2 else ret [] in
    onfile (vfs_file_write file bytes).

Definition _syscall__MOUNT (arg0 arg1 arg2 : Z) : MS Z :=
  let* _ := scheduler_cur_proc_to_kernel_address arg0 in
  let* _ := scheduler_cur_proc_to_kernel_address arg1 in
  let* _ := scheduler_cur_proc_to_kernel_address arg2 in
  fatal "mount syscall is not implemented".

Definition _syscall__MKDIR (arg0 arg1 arg2 : Z) : MS Z :=
  let* path := scheduler_cur_proc_to_kernel_address arg0 in
  let* path := load_cstr path in
  onvfs (vfs_mkdir path arg1).

Definition _syscall__MKNOD (arg0 arg1 arg2 : Z) : MS Z :=
  let* path := scheduler_cur_proc_to_kernel_address arg0 in
  let* path := load_cstr path in
  onvfs (vfs_mknod path arg1 arg2).

Definition _syscall__LSEEK (arg0 arg1 arg2 : Z) : MS Z :=
  let* file := scheduler_cur_proc_get_fd (s32 arg0) in
  if file =? 0 then ret SYSCALL_STATUS_ERR
  else onfile (vfs_file_lseek file (s32 arg1) (s32 arg2)).

Definition _syscall__FORK (arg0 arg1 arg2 : Z) : MS Z := scheduler_cur_proc_fork.

Definition _syscall__WAITPID (arg0 arg1 arg2 : Z) : MS Z :=
  let* wstatus := scheduler_cur_proc_to_kernel_address arg1 in
  scheduler_cur_proc_wait_id (s32 arg0) wstatus.

(** The loop of EXEC that copies the arguments into [args], which has room for [n]
    more. *)
Fixpoint copy_argv (n : nat) (argv : Z) : MS (list name_t) :=
  if argv =? 0 then ret []
  else
    let* p := load_word argv in
    if p =? 0 then ret []
    else
      let* arg := scheduler_cur_proc_to_kernel_address p in
      match n with
      | O => fault
      | S n =>
          let* s := load_cstr arg in
          let* s := lift (strcpy_buf PROCESS_MAX_ARG_SIZE s) in
          let* args := copy_argv n (argv + 4) in
          ret (s :: args)
      end.

Definition _syscall__EXEC (arg0 arg1 arg2 : Z) : MS Z :=
  let* path := scheduler_cur_proc_to_kernel_address arg0 in
  let* argv := scheduler_cur_proc_to_kernel_address arg1 in
  let* args := copy_argv (Z.to_nat PROCESS_MAX_ARG_COUNT) argv in
  scheduler_cur_proc_exec path args.

Definition _syscall__GETPPID (arg0 arg1 arg2 : Z) : MS Z := scheduler_cur_proc_get_parent_id.
Definition _syscall__GETPID (arg0 arg1 arg2 : Z) : MS Z := scheduler_cur_proc_get_id.

(** ** Dispatch *)

Definition _syscall_table : list (Z → Z → Z → MS Z) :=
  [_syscall__YIELD; _syscall__REBOOT; _syscall__EXIT; _syscall__OPEN; _syscall__CLOSE;
   _syscall__READ; _syscall__READDIR; _syscall__WRITE; _syscall__MOUNT; _syscall__MKDIR;
   _syscall__MKNOD; _syscall__LSEEK; _syscall__FORK; _syscall__WAITPID; _syscall__EXEC;
   _syscall__GETPPID; _syscall__GETPID].

Definition kernel_syscall_handler (syscall_num arg0 arg1 arg2 : Z) : MS unit :=
  if syscall_num >=? SYSCALL_COUNT then scheduler_cur_proc_set_syscall_status (-1)
  else
    let* calling_pid := scheduler_cur_proc_get_id in
    let* handler := lift (arr_get _syscall_table syscall_num) in
    let* status := handler arg0 arg1 arg2 in
    let* new_proc_id := scheduler_cur_proc_get_id in
    if negb (new_proc_id =? calling_pid) then
      kassert (syscall_num =? SYSCALL__EXIT) "syscall_num == SYSCALL__EXIT"
    else if negb ((syscall_num =? SYSCALL__EXEC) && (status =? 0)) then
      scheduler_cur_proc_set_syscall_status status
    else ret ().

(** ** The exception vectors

    What they do to the state of the kernel: each saves the interrupted process'
    registers, which are an argument here, and ends by resuming the process whose index it
    returns.  Their instructions are in [Vectors]; [MachineSpec] shows that these do this. *)

Definition _svc_handler (context : task_context) (syscall_num arg0 arg1 arg2 : Z) : MS Z :=
  let* _ := scheduler_save_current_context context in
  let* _ := kernel_syscall_handler syscall_num arg0 arg1 arg2 in
  scheduler_switch_task.

(** [irq_handler] restarts the timer. *)
Definition _irq_handler (context : task_context) : MS Z :=
  let* _ := scheduler_save_current_context context in
  scheduler_switch_task.

Definition _data_abort (spsr : Z) : MS Z :=
  let* _ := scheduler_data_exception spsr in
  scheduler_switch_task.

(** ** [scheduler_start] *)

(** [__scheduler_exec_init]: the kernel, whose registers are [context], makes the
    system call EXEC; there is nothing to come back to if that fails. *)
Definition __scheduler_exec_init (context : task_context) (exec_path_vaddr : Z) : MS Z :=
  _svc_handler context SYSCALL__EXEC exec_path_vaddr 0 0.

(** Up to the system call: the process, its files, and the path at the start of its memory. *)
Definition start_init (init_path : name_t) : MS unit :=
  let* init_proc := start_init_proc in
  let* tty := onvfs (vfs_file_open (str "/dev/tty") 0 0) in
  let* _ := start_init_fds tty in
  let* p := get_proc init_proc in
  store_bytes (memory_section p) (init_path ++ [0]).

Definition scheduler_start (context : task_context) (init_path : name_t) : MS Z :=
  let* _ := start_init init_path in
  __scheduler_exec_init context PROCESS_SECTION_VIRTUAL_ADDRRESS.

End Syscalls.
