(* ===== verification/SystemInv.v ===== *)
(** * The invariant across system calls

    Every system call, interrupt and memory fault keeps the scheduler's invariant, on
    top of the real file system: so does everything the system can do from its start. *)
From S2P Require Import Prelude Bitfield Mmu Alloc Heap Hash Fs FsState FsInv Devices Ramfs Fat32 Vfs Elf Keeps Scheduler SchedulerInv SchedulerOps SchedulerFork SchedulerSpec SchedulerReach Exec Syscalls.
Import Fs FsState FsInv Devices Vfs Elf Keeps Scheduler SchedulerInv SchedulerOps SchedulerFork
  SchedulerSpec SchedulerReach Exec Syscalls.

Module SystemInv.

Implicit Types (w : system) (p : process).

(** ** Calls that leave the scheduler alone *)

(** The process table and the allocators are the same; memory may hold other bytes;
    open files stay open. *)
Record quiet (w w' : system) : Prop := {
  quiet_sections : sections w' = sections w;
  quiet_ttables : ttables w' = ttables w;
  quiet_sched : sched w' = sched w;
  quiet_ram : ∀ sec, is_Some (ram w !! sec) → is_Some (ram w' !! sec);
  quiet_files : vkept (filesys w) (filesys w');
}.

#[export] Instance quiet_preorder : PreOrder quiet.
Proof.
  split.
  - intros w. by split.
  - intros w1 w2 w3 [] []. split; [congruence..|auto|by etransitivity].
Qed.

Lemma count_is_some (s : vstate) f : is_Some (fd_count s f) ↔ is_Some (fs_files (vs_fs s) !! f).
Proof. apply fmap_is_Some. Qed.

Lemma wf_quiet w w' : wf w → quiet w w' → wf w'.
Proof.
  intros [Hs Ht Hlen Hcnt Hcur Hgen Hids Hex Hres Hfds] [Es Et Ec Hram Hfiles].
  split; rewrite ?Ec, ?Es, ?Et; try done.
  - eapply Forall_impl; [exact Hres|]. intros p. by apply res_ok_mono.
  - eapply Forall_impl; [exact Hfds|]. intros p (? & ? & Hopen). split_and!; [done..|].
    intros fd Hfd Hu. destruct (Hopen fd Hfd Hu) as (f & ? & Hf%count_is_some).
    exists f. rewrite count_is_some. split; [done|]. by apply (gr_files _ _ (proj1 Hfiles)).
Qed.

Lemma running_quiet w w' p : running w p → quiet w w' → running w' p.
Proof. unfold running. by intros [] [_ _ -> _ _]. Qed.

(** *** The primitives *)

Lemma quiet_onvfs {A} (m : MV A) : keeps vkept m → keeps quiet (onvfs m).
Proof. apply keeps_zoom. intros w c Hc. by split. Qed.
Lemma quiet_onfile {A} (m : MF A) : keeps_files m → keeps quiet (onfile m).
Proof. intros Hm. by apply quiet_onvfs, keeps_onfs. Qed.
#[export] Hint Extern 1 (keeps quiet (onvfs _)) => apply quiet_onvfs; solve [eauto 3 with keeps] : keeps.
#[export] Hint Extern 1 (keeps quiet (onfile _)) => apply quiet_onfile; solve [eauto 3 with keeps] : keeps.

(** Computations that only read. *)
Lemma quiet_lifted {A} (f : system → outcome A) : keeps quiet (λ w, lift (f w) w).
Proof. apply keeps_id; [apply _|]. intros w a w' E. by inv_run. Qed.

Lemma quiet_get_proc i : keeps quiet (get_proc (F := vstate) i).
Proof. apply quiet_lifted. Qed.
Lemma quiet_get_table t : keeps quiet (get_table (F := vstate) t).
Proof.
  apply keeps_id; [apply _|]. intros w a w' E. unfold get_table in E. destruct (_ !! _); by inv_run.
Qed.
Lemma quiet_load_cstr a : keeps quiet (load_cstr a).
Proof. apply quiet_lifted. Qed.
Lemma quiet_load_bytes a n : keeps quiet (load_bytes a n).
Proof. apply quiet_lifted. Qed.
Lemma quiet_load_word a : keeps quiet (load_word a).
Proof. apply quiet_lifted. Qed.
#[export] Hint Resolve quiet_get_proc quiet_get_table quiet_load_cstr quiet_load_bytes
  quiet_load_word : keeps.

Lemma quiet_current : keeps quiet (_get_current_proc (F := vstate)).
Proof. unfold _get_current_proc. keeps. Qed.
#[export] Hint Resolve quiet_current : keeps.
Lemma quiet_translate i va : keeps quiet (proc_translate i va).
Proof. unfold proc_translate. keeps. Qed.
Lemma quiet_to_kernel va : keeps quiet (scheduler_cur_proc_to_kernel_address (F := vstate) va).
Proof. unfold scheduler_cur_proc_to_kernel_address. keeps. Qed.
Lemma quiet_get_fd fd : keeps quiet (scheduler_cur_proc_get_fd (F := vstate) fd).
Proof. unfold scheduler_cur_proc_get_fd, _proc_get_fd. keeps. Qed.
Lemma quiet_get_id : keeps quiet (scheduler_cur_proc_get_id (F := vstate)).
Proof. unfold scheduler_cur_proc_get_id. keeps. Qed.
Lemma quiet_get_parent : keeps quiet (scheduler_cur_proc_get_parent_id (F := vstate)).
Proof. unfold scheduler_cur_proc_get_parent_id. keeps. Qed.
#[export] Hint Resolve quiet_translate quiet_to_kernel quiet_get_fd quiet_get_id quiet_get_parent : keeps.

Lemma ram_store_kept a b m m' sec : ram_store a b m = Ret m' →
  is_Some (m !! sec) → is_Some (m' !! sec).
Proof.
  unfold ram_store. destruct (m !! _) eqn:E; [|done]. intros [= <-] Hsec.
  apply lookup_insert_is_Some'. auto.
Qed.

Lemma ram_store_bytes_kept a l m m' sec : ram_store_bytes a l m = Ret m' →
  is_Some (m !! sec) → is_Some (m' !! sec).
Proof.
  revert a m. induction l as [|b l IH]; intros a m E Hsec; simpl in E; [by inv_run|].
  apply obind_inv in E as (m1 & E1 & E2). eapply IH, ram_store_kept; done.
Qed.

Lemma quiet_store_bytes a l : keeps quiet (store_bytes a l).
Proof.
  intros w r w' E. unfold store_bytes in E. apply obind_inv in E as (m & Em & E). inv_run.
  split; try done. intros sec. simpl. by apply (ram_store_bytes_kept a l).
Qed.

Lemma quiet_clear_section sec : keeps quiet (clear_section (F := vstate) sec).
Proof.
  intros w r w' E. unfold clear_section in E. inv_run. split; try done.
  intros q Hq. simpl. apply lookup_insert_is_Some'. auto.
Qed.
#[export] Hint Resolve quiet_store_bytes quiet_clear_section : keeps.

(** *** The ELF loader and exec *)

Lemma keeps_elf_close f : keeps vkept (elf32_close f).
Proof. unfold elf32_close. keeps. Qed.
#[export] Hint Resolve keeps_elf_close : keeps.
Lemma keeps_elf_open n : keeps vkept (elf32_open n).
Proof. unfold elf32_open. keeps. Qed.
Lemma keeps_read_next e i : keeps vkept (elf32_program_header_iterator_read_next e i).
Proof. unfold elf32_program_header_iterator_read_next. keeps. Qed.
#[export] Hint Resolve keeps_elf_open keeps_read_next : keeps.

Lemma quiet_load_segment i e h : keeps quiet (load_segment i e h).
Proof. unfold load_segment. keeps. Qed.
#[export] Hint Resolve quiet_load_segment : keeps.
Lemma quiet_load_loop n i e it : keeps quiet (load_loop n i e it).
Proof. revert it. induction n; intros; cbn [load_loop]; keeps. Qed.
Lemma quiet_push_args i args sp : keeps quiet (push_args i args sp).
Proof. revert sp. induction args; intros; cbn [push_args]; keeps. Qed.
#[export] Hint Resolve quiet_load_loop quiet_push_args : keeps.
Lemma quiet_load_args i args : keeps quiet (load_args i args).
Proof. unfold load_args. keeps. Qed.
Lemma quiet_copy_argv n a : keeps quiet (copy_argv n a).
Proof. revert a. induction n; intros; cbn [copy_argv]; keeps. Qed.
Lemma quiet_store_dirents a l : keeps quiet (store_dirents a l).
Proof. revert a. induction l; intros; cbn [store_dirents]; keeps. Qed.
Lemma keeps_write_reads f : keeps_files (write_reads f).
Proof. unfold write_reads. keeps. Qed.
#[export] Hint Resolve quiet_load_args quiet_copy_argv quiet_store_dirents keeps_write_reads : keeps.

(** ** Calls that keep the invariant *)

(** The current process stays the same, and the invariant. *)
Definition wf_kept (i : Z) (w w' : system) : Prop :=
  wf w ∧ current_proc (sched w) = i → wf w' ∧ current_proc (sched w') = i.

#[export] Instance wf_kept_preorder i : PreOrder (wf_kept i).
Proof.
  split; [intros w H; exact H|]. intros w1 w2 w3 H1 H2 H. exact (H2 (H1 H)).
Qed.

Lemma wf_kept_quiet {A} i (m : MS A) : keeps quiet m → keeps (wf_kept i) m.
Proof.
  intros H w a w' E [Hwf Hi]. apply H in E. split; [by eapply wf_quiet|].
  by rewrite (quiet_sched _ _ E).
Qed.
#[export] Hint Extern 2 (keeps (wf_kept _) _) => apply wf_kept_quiet; solve [eauto 3 with keeps] : keeps.

Lemma wf_kept_context i c : keeps (wf_kept i) (upd_proc i (with_context c)).
Proof.
  intros w a w' E [Hwf Hi]. pose proof (wf_current w Hwf) as Hc. rewrite Hi in Hc.
  destruct (live_some w i Hwf Hc) as [p Hp].
  rewrite (upd_proc_live w i p) in E by (done || lia). injection E as _ <-.
  split; [|done]. apply wf_put_context; done || lia.
Qed.
#[export] Hint Resolve wf_kept_context : keeps.

Lemma wf_kept_load i path args : keeps (wf_kept i) (__load_proc_from_elf i path args).
Proof. unfold __load_proc_from_elf. keeps. Qed.

Lemma wf_exec path args w st w' : wf w →
  scheduler_cur_proc_exec path args w = Ret (st, w') → wf w'.
Proof.
  intros H E. unfold scheduler_cur_proc_exec in E.
  rewrite (bind_Ret _ _ _ _ _ (get_current_eq w H)) in E.
  by apply (wf_kept_load _ _ _ _ _ _ E).
Qed.

Lemma wf_keeps {A} (m : MS A) w a w' : keeps quiet m → m w = Ret (a, w') → wf w → wf w'.
Proof. intros Hm E H. eapply wf_quiet; [exact H|by eapply Hm]. Qed.

Lemma wf_add_fd w file fd w' : wf w → is_Some (fd_count (filesys w) file) →
  scheduler_cur_proc_add_fd file w = Ret (fd, w') → wf w'.
Proof.
  intros H Hf E. unfold scheduler_cur_proc_add_fd in E.
  rewrite (bind_Ret _ _ _ _ _ (get_current_eq w H)) in E. pose proof (wf_current w H) as Hc.
  destruct (live_some w _ H Hc) as [p Hp].
  destruct (add_fd_spec w _ p file H (proj1 Hc) Hp Hf) as [[E' _]|(fd' & bf & fs & E' & Hwf & _)];
    rewrite E' in E; by simplify_eq.
Qed.

(** A file that opening returned can be given a descriptor. *)
Lemma open_gives w n fl m f w' : onvfs (vfs_file_open n fl m) w = Ret (f, w') → f ≠ 0 →
  is_Some (fd_count (filesys w') f).
Proof.
  intros E Hf. unfold onvfs, zoom in E.
  destruct (vfs_file_open n fl m (comp_get w)) as [[x c]| | |] eqn:Eo; inv_run.
  apply count_is_some. by destruct (gives_vfs_open _ _ _ _ _ _ Eo).
Qed.

(** Only descriptors of the table lead to a file. *)
Lemma get_fd_range w fd f w' : wf w → -0x80000000 ≤ fd < 0x80000000 →
  scheduler_cur_proc_get_fd fd w = Ret (f, w') → f ≠ 0 → 0 ≤ fd < 16.
Proof.
  intros H Hr E Hf. unfold scheduler_cur_proc_get_fd in E.
  rewrite (bind_Ret _ _ _ _ _ (get_current_eq w H)) in E. pose proof (wf_current w H) as Hc.
  destruct (live_some w _ H Hc) as [p Hp].
  pose proof (Forall_lookup_1 _ _ _ _ (wf_fds w H) Hp) as (_ & (Hlen & _) & _).
  unfold _proc_get_fd in E. rewrite (bind_Ret _ _ _ _ _ (get_proc_live w _ p (proj1 Hc) Hp)) in E.
  change FD_BITFIELD_COUNT with 2 in E. destruct (Z.lt_ge_cases (u32 fd) 16) as [?|Hge].
  { unfold u32 in *. lia. }
  exfalso. unfold Bitfield.bitfield_bit in E. pose proof (u32_range fd) as Hu.
  destruct (Bitfield.index_split (u32 fd)) as [Hi _]; [lia|]. rewrite Hi in E.
  destruct (Z.gtb_spec (u32 fd / 8) 2); [inv_run; done|].
  rewrite arr_get_Fault in E by (rewrite Hlen; lia). inv_run.
Qed.

(** *** OPEN and CLOSE *)

Lemma wf_open a0 a1 a2 w st w' : wf w → _syscall__OPEN a0 a1 a2 w = Ret (st, w') → wf w'.
Proof.
  intros H E. unfold _syscall__OPEN in E.
  apply bind_inv in E as (pa & w1 & E1 & E). apply (wf_keeps _ _ _ _ (quiet_to_kernel _) E1) in H.
  apply bind_inv in E as (path & w2 & E2 & E). apply (wf_keeps _ _ _ _ (quiet_load_cstr _) E2) in H.
  apply bind_inv in E as (f & w3 & E3 & E).
  assert (wf w3) as H3 by (eapply (wf_keeps (onvfs (vfs_file_open path a1 a2))); [keeps|exact E3|done]).
  destruct (Z.eqb_spec f 0) as [|Hf]; [by inv_run|].
  apply bind_inv in E as (fd & w4 & E4 & E).
  assert (wf w4) as H4 by (eapply wf_add_fd; [exact H3|by eapply open_gives|exact E4]).
  eapply wf_keeps; [|exact E|exact H4]. keeps.
Qed.

Lemma wf_close a0 a1 a2 w st w' : wf w → _syscall__CLOSE a0 a1 a2 w = Ret (st, w') → wf w'.
Proof.
  intros H E. unfold _syscall__CLOSE in E.
  apply bind_inv in E as (f & w1 & E1 & E). pose proof (wf_keeps _ _ _ _ (quiet_get_fd _) E1 H) as H1.
  destruct (Z.eqb_spec f 0) as [|Hf]; [by inv_run|].
  apply bind_inv in E as ([] & w2 & E2 & E).
  assert (wf w2) as H2.
  { eapply wf_rem_fd; [exact H1| |exact E2].
    by apply (get_fd_range w _ f w1 H (s32_range a0)). }
  eapply wf_keeps; [|exact E|exact H2]. keeps.
Qed.

(** *** WAITPID *)

(** When an entry below the current one is removed, another process becomes current. *)
Lemma removed_below w j p :
  wf w → live (sched w) !! Z.to_nat (current_proc (sched w)) = Some p →
  0 ≤ j < current_proc (sched w) →
  ∀ x w2, scheduler_cur_proc_get_id (removed j w) = Ret (x, w2) → x ≠ id p.
Proof.
  intros H Hp Hj x w2 Ex Hx. pose proof (wf_current w H) as Hc.
  assert (current_proc (sched (removed j w)) = current_proc (sched w)) as Hcur.
  { simpl. destruct (Z.eqb_spec j (current_proc (sched w))); [lia|done]. }
  unfold scheduler_cur_proc_get_id in Ex. apply bind_inv in Ex as (i & w3 & Ei & Ex).
  unfold _get_current_proc in Ei. erewrite bind_Ret in Ei by done. rewrite Hcur in Ei.
  change (proc_count (sched (removed j w))) with (proc_count (sched w) - 1) in Ei.
  destruct (Z.geb_spec (current_proc (sched w)) (proc_count (sched w) - 1)) as [|Hlt]; [done|].
  unfold ret in Ei. injection Ei as <- <-.
  destruct (live_some w (current_proc (sched w) + 1) H ltac:(lia)) as [q Hq].
  replace (Z.to_nat (current_proc (sched w) + 1)) with (S (Z.to_nat (current_proc (sched w))))
    in Hq by lia.
  assert (live (sched (removed j w)) !! Z.to_nat (current_proc (sched w)) = Some q) as Hq'.
  { rewrite removed_live by (done || lia). by rewrite list_lookup_delete_ge by lia. }
  erewrite bind_Ret in Ex by (apply get_proc_live; [lia|exact Hq']). unfold ret in Ex.
  injection Ex as Ex _. pose proof (ids_sorted _ _ (wf_ids w H) _ _ _ _ Hp Hq ltac:(lia)). lia.
Qed.

(** Waiting keeps the invariant, or the caller is no longer the current process. *)
Lemma wait_step w p pid ref r w' :
  wf w → running w p → own_word p ref → scheduler_cur_proc_wait_id pid ref w = Ret (r, w') →
  wf w' ∨ ∀ x w2, scheduler_cur_proc_get_id w' = Ret (x, w2) → x ≠ id p.
Proof.
  intros H Hrun Href E. pose proof Hrun as [Hp Hst]. pose proof (wf_current w H) as Hc.
  destruct (decide (pid = -1 ∨ id p < pid)) as [Hpid|Hpid].
  { left. by eapply (wf_wait_step w p). }
  destruct (find_proc_spec w pid H) as ([j|] & Hfind & Hr).
  2: { left. unfold scheduler_cur_proc_wait_id in E.
       rewrite (bind_Ret _ _ _ _ _ (get_current_eq w H)) in E.
       destruct (Z.eqb_spec pid (-1)); [by inv_run|].
       rewrite (bind_Ret _ _ _ _ _ Hfind) in E. by inv_run. }
  destruct Hr as (Hj & c & Hlive & <-).
  destruct (schedule_state c) as [| |st] eqn:Hcst.
  3: { right. destruct (wait_reap w p (Z.to_nat j) c st ref H Hrun Href Hlive ltac:(lia) Hcst)
         as (m & E' & Hwf & _). rewrite E' in E. simplify_eq. rewrite Z2Nat.id by lia.
       apply (removed_below (with_ram m w) j p); [exact Hwf|exact Hp|simpl; split; [lia|]].
       destruct (Z.lt_trichotomy j (current_proc (sched w))) as [?|[->|Hgt]]; [done|congruence|].
       pose proof (ids_sorted _ _ (wf_ids w H) _ _ _ _ Hp Hlive ltac:(lia)). lia. }
  all: left; unfold scheduler_cur_proc_wait_id in E;
    rewrite (bind_Ret _ _ _ _ _ (get_current_eq w H)) in E;
    destruct (Z.eqb_spec (id c) (-1)); [by inv_run|]; rewrite (bind_Ret _ _ _ _ _ Hfind) in E;
    (erewrite bind_Ret in E by (apply get_proc_live; [lia|exact Hlive])); rewrite Hcst in E;
    (erewrite bind_Ret in E by (apply upd_proc_live; [lia|exact Hp])); unfold ret in E;
    injection E as _ <-; apply (wf_put w _ p); try done; try lia;
    [split_and!; try done; unfold alive; by rewrite Hst
    |exact (Forall_lookup_1 _ _ _ _ (wf_fds w H) Hp)].
Qed.

(** ** Every system call *)

(** What the theorems ask of a program: it does not fork once 2 ^ 31 - 1 pids have been
    used, and its [wstatus] pointer is to a whole word. *)
Definition call_ok (w : system) (num arg1 : Z) : Prop :=
  (num = SYSCALL__FORK → id_gen (sched w) + 1 < 0x80000000) ∧
  (num = SYSCALL__WAITPID → is_u32 arg1 ∧ arg1 ≠ 0 ∧ arg1 `mod` 0x100000 ≤ 0xFFFFC).

(** A translated pointer to a whole word is one to the process' own section. *)
Lemma translated_own w p va a w' : wf w → running w p →
  is_u32 va → va ≠ 0 → va `mod` 0x100000 ≤ 0xFFFFC →
  scheduler_cur_proc_to_kernel_address va w = Ret (a, w') → w' = w ∧ own_word p a.
Proof.
  intros H [Hp Hst] Hva Hnz Hfit E.
  assert (alive p = true) as Ha by (unfold alive; by rewrite Hst).
  destruct (section_of w _ p H Hp Ha) as (Hal & Hpos & Hend & _).
  pose proof (Forall_lookup_1 _ _ _ _ (wf_res w H) Hp) as Hr.
  unfold res_ok in Hr. rewrite Ha in Hr. destruct Hr as (_ & _ & _ & (tb & Htb & Hg) & _).
  unfold scheduler_cur_proc_to_kernel_address in E. pose proof (wf_current w H).
  rewrite (bind_Ret _ _ _ _ _ (get_current_eq w H)) in E.
  rewrite (bind_Ret _ _ _ _ _ (get_proc_live w _ p (proj1 (wf_current w H)) Hp)) in E.
  erewrite bind_Ret in E by (unfold get_table; rewrite Htb; done).
  unfold is_u32 in Hva.
  pose proof (Mmu.grants_only_translate tb 8 (memory_section p) va Hg ltac:(lia) ltac:(lia)
                ltac:(lia) Hal) as Htr.
  case_decide; [done|]. case_decide.
  - rewrite Htr in E. unfold lift in E. injection E as <- <-. split; [done|].
    unfold own_word. lia.
  - destruct Htr as [r Htr]. by rewrite Htr in E.
Qed.

Lemma handler_wf w p num h a0 a1 a2 st w' :
  wf w → running w p → call_ok w num a1 → arr_get _syscall_table num = Ret h →
  h a0 a1 a2 w = Ret (st, w') →
  wf w' ∨ (num ≠ SYSCALL__EXIT ∧
           ∀ x w2, scheduler_cur_proc_get_id w' = Ret (x, w2) → x ≠ id p).
Proof.
  intros H Hp [Hfork Hwait] [Hnum Hh]%arr_get_Ret E.
  assert (∀ m : MS Z, keeps quiet m → m w = Ret (st, w') → wf w') as Hquiet
    by (intros m Hm Em; by eapply wf_keeps).
  remember (Z.to_nat num) as n eqn:Hn.
  destruct n as [|[|[|[|[|[|[|[|[|[|[|[|[|[|[|[|[|n]]]]]]]]]]]]]]]]]; try done;
    injection Hh as <-;
    try (left; revert E; apply Hquiet;
         unfold _syscall__YIELD, _syscall__REBOOT, _syscall__READ, _syscall__READDIR,
           _syscall__WRITE, _syscall__MOUNT, _syscall__MKDIR, _syscall__MKNOD,
           _syscall__LSEEK, _syscall__GETPPID, _syscall__GETPID; solve [keeps]).
  - left. unfold _syscall__EXIT in E. apply bind_inv in E as ([] & w1 & E1 & E). inv_run.
    by eapply wf_exit_step.
  - left. by eapply wf_open.
  - left. by eapply wf_close.
  - left. eapply wf_fork_step; [done|exact Hp|apply Hfork; unfold SYSCALL__FORK; lia|exact E].
  - unfold _syscall__WAITPID in E. apply bind_inv in E as (ref & w1 & E1 & E).
    destruct Hwait as (Hva & Hnz & Hfit); [unfold SYSCALL__WAITPID; lia|].
    destruct (translated_own w p a1 ref w1 H Hp Hva Hnz Hfit E1) as [-> Hown].
    destruct (wait_step w p _ ref st w' H Hp Hown E) as [?|?]; [by left|right].
    split; [|done]. unfold SYSCALL__EXIT. lia.
  - left. unfold _syscall__EXEC in E.
    apply bind_inv in E as (path & w1 & E1 & E). apply (wf_keeps _ _ _ _ (quiet_to_kernel _) E1) in H.
    apply bind_inv in E as (argv & w2 & E2 & E). apply (wf_keeps _ _ _ _ (quiet_to_kernel _) E2) in H.
    apply bind_inv in E as (args & w3 & E3 & E). apply (wf_keeps _ _ _ _ (quiet_copy_argv _ _) E3) in H.
    by eapply wf_exec.
Qed.

Lemma get_id_run w p : wf w → running w p → scheduler_cur_proc_get_id w = Ret (id p, w).
Proof.
  intros H [Hp _]. pose proof (wf_current w H). unfold scheduler_cur_proc_get_id.
  rewrite (bind_Ret _ _ _ _ _ (get_current_eq w H)).
  by rewrite (bind_Ret _ _ _ _ _ (get_proc_live w _ p (proj1 (wf_current w H)) Hp)).
Qed.

Lemma wf_set_status st w w' : wf w →
  scheduler_cur_proc_set_syscall_status st w = Ret ((), w') → wf w'.
Proof. intros H. by apply (wf_upd_context w w' (λ p, with_context (set_r0 (u32 st) (context p)) p)). Qed.

Lemma syscall_wf w p num a0 a1 a2 w' :
  wf w → running w p → call_ok w num a1 →
  kernel_syscall_handler num a0 a1 a2 w = Ret ((), w') → wf w'.
Proof.
  intros H Hp Hok E. unfold kernel_syscall_handler in E.
  destruct (num >=? SYSCALL_COUNT); [by eapply wf_set_status|].
  rewrite (bind_Ret _ _ _ _ _ (get_id_run w p H Hp)) in E.
  apply bind_inv in E as (h & w1 & Eh & E). apply lift_Ret in Eh as [Eh ->].
  apply bind_inv in E as (st & w2 & Ew & E). apply bind_inv in E as (pid & w3 & Ei & E).
  destruct (handler_wf w p num h a0 a1 a2 st w2 H Hp Hok Eh Ew) as [H2|[Hne Hmoved]].
  - assert (wf w3) as H3 by (eapply wf_keeps; [apply quiet_get_id|exact Ei|exact H2]).
    destruct (negb (pid =? id p)).
    { eapply wf_keeps; [|exact E|exact H3]. keeps. }
    destruct (negb _); [by eapply wf_set_status|by inv_run].
  - apply Hmoved in Ei as Hx. rewrite (proj2 (Z.eqb_neq pid (id p)) Hx) in E. cbn [negb] in E.
    rewrite (proj2 (Z.eqb_neq num SYSCALL__EXIT) Hne) in E. done.
Qed.

(** ** The system *)

Lemma switch_running w i w' : wf w → scheduler_switch_task w = Ret (i, w') →
  wf w' ∧ ∃ p, running w' p.
Proof.
  intros H E. destruct (switch_run w H) as [(d & _ & Hr & _ & E' & Hwf)|[_ E']];
    rewrite E' in E; [|done]. injection E as <- <-. split; [done|]. unfold ready in Hr.
  destruct (live (sched w) !! Z.to_nat (after w d)) as [p|] eqn:Hp; [|done].
  exists p. split; [exact Hp|]. unfold is_scheduled in Hr. by destruct (schedule_state p).
Qed.

Lemma save_running c w p w' : wf w → running w p →
  scheduler_save_current_context c w = Ret ((), w') →
  wf w' ∧ running w' (with_context c p) ∧ id_gen (sched w') = id_gen (sched w).
Proof.
  intros H [Hp Hst] E. unfold scheduler_save_current_context in E. pose proof (wf_current w H).
  rewrite (bind_Ret _ _ _ _ _ (get_current_eq w H)) in E.
  rewrite (upd_proc_live w _ p) in E by (done || lia). injection E as <-.
  split; [apply wf_put_context; done || lia|]. split; [|done]. split; [|done].
  rewrite put_live. apply list_lookup_insert_eq. by eapply lookup_lt_Some.
Qed.

Lemma svc_step w p c num a0 a1 a2 i w' :
  wf w → running w p → call_ok w num a1 → _svc_handler c num a0 a1 a2 w = Ret (i, w') →
  wf w' ∧ ∃ q, running w' q.
Proof.
  intros H Hp [Hfork Hwait] E. unfold _svc_handler in E.
  apply bind_inv in E as ([] & w1 & E1 & E). apply bind_inv in E as ([] & w2 & E2 & E).
  destruct (save_running c w p w1 H Hp E1) as (H1 & Hp1 & Hgen).
  eapply switch_running; [|exact E]. eapply (syscall_wf w1); [exact H1|exact Hp1| |exact E2].
  split; [by rewrite Hgen|done].
Qed.

(** What happens in the system: the running process makes a system call, with any
    registers and arguments; the timer interrupts it; it touches memory it may not,
    or its program writes to its section. *)
Inductive sys_step (w : system) : system → Prop :=
| step_svc c num a0 a1 a2 i w' :
    call_ok w num a1 → _svc_handler c num a0 a1 a2 w = Ret (i, w') → sys_step w w'
| step_irq c i w' : _irq_handler c w = Ret (i, w') → sys_step w w'
| step_abort spsr i w' : _data_abort spsr w = Ret (i, w') → sys_step w w'
| step_user p s :
    running w p → sys_step w (with_ram (<[memory_section p := s]> (ram w)) w).

(** Between two steps a process runs in a well-formed state. *)
Definition sys_inv (w : system) : Prop := wf w ∧ ∃ p, running w p.

Lemma sys_step_inv w w' : sys_inv w → sys_step w w' → sys_inv w'.
Proof.
  intros [H [p Hp]] Hstep. destruct Hstep as [c num a0 a1 a2 i w' Hok E|c i w' E|spsr i w' E|q s Hq].
  - by eapply svc_step.
  - unfold _irq_handler in E. apply bind_inv in E as ([] & w1 & E1 & E).
    destruct (save_running c w p w1 H Hp E1) as (H1 & _ & _). by eapply switch_running.
  - unfold _data_abort in E. apply bind_inv in E as ([] & w1 & E1 & E).
    eapply switch_running; [|exact E]. unfold scheduler_data_exception in E1.
    destruct (_ =? _); [|done]. by eapply wf_exit_step.
  - assert (quiet w (with_ram (<[memory_section q := s]> (ram w)) w)) as Hquiet.
    { split; try done. intros sec Hs. apply lookup_insert_is_Some'. auto. }
    split; [by eapply wf_quiet|]. exists p. by eapply running_quiet.
Qed.

(** *** The start *)

(** init runs, and the file [f] exists. *)
Definition init_ready (f : Z) (w : system) : Prop :=
  wf w ∧ current_proc (sched w) = 0 ∧ is_Some (fd_count (filesys w) f) ∧ ∃ p, running w p.

Lemma init_add_fd f w fd w' : init_ready f w → _proc_add_fd 0 f w = Ret (fd, w') →
  init_ready f w'.
Proof.
  intros (H & Hc & Hf & p & Hrun) E. pose proof Hrun as [Hp Hst]. rewrite Hc in Hp.
  destruct (add_fd_spec w 0 p f H ltac:(lia) Hp Hf)
    as [[E' _]|(d & bf & fs & E' & Hwf & _ & _ & _ & _ & Hraise)]; rewrite E' in E.
  { injection E as <- <-. split_and!; eauto. }
  injection E as <- <-. split_and!; [exact Hwf|exact Hc|by eapply counts_raised_some|].
  exists (with_files (<[Z.to_nat d := f]> (files p)) bf p). split; [|exact Hst].
  change (live (sched (put_proc 0 (with_files (<[Z.to_nat d := f]> (files p)) bf p) w)) !!
    Z.to_nat (current_proc (sched w)) = Some (with_files (<[Z.to_nat d := f]> (files p)) bf p)).
  rewrite put_live, Hc. apply list_lookup_insert_eq. by eapply lookup_lt_Some.
Qed.

Lemma init_fds f w w' : wf w → current_proc (sched w) = 0 → (∃ p, running w p) →
  (f ≠ 0 → is_Some (fd_count (filesys w) f)) → start_init_fds f w = Ret ((), w') → sys_inv w'.
Proof.
  intros H Hc Hp Hf E. unfold start_init_fds in E. destruct (Z.eqb_spec f 0) as [|Hne]; [done|].
  apply bind_inv in E as ([] & w1 & E1 & E). unfold ret in E1. injection E1 as <-.
  assert (init_ready f w) as Hr by (split_and!; auto).
  do 3 (apply bind_inv in E as (? & ? & Ea & E); apply (init_add_fd _ _ _ _ Hr) in Ea;
        clear Hr; rename Ea into Hr).
  destruct (negb _ || _ || _); inv_run.
  destruct Hr as (? & _ & _ & ?). by split.
Qed.

(** The process init, ready for its program. *)
Lemma start_init_inv w0 path w : booted w0 → start_init path w0 = Ret ((), w) → sys_inv w.
Proof.
  intros Hboot E. unfold start_init in E.
  destruct (start_init_spec w0 Hboot) as [[r E']|(w1 & p & E' & H1 & Hp & Hl & _)].
  { by rewrite (bind_Fatal _ _ _ _ E') in E. }
  rewrite (bind_Ret _ _ _ _ _ E') in E. apply bind_inv in E as (tty & w2 & E2 & E).
  assert (quiet w1 w2) as Hq by (by eapply (quiet_onvfs (vfs_file_open _ _ _)); [keeps|]).
  assert (current_proc (sched w1) = 0) as Hc.
  { destruct Hp as [Hp _]. rewrite Hl in Hp. apply list_lookup_singleton_Some in Hp as [? _].
    pose proof (wf_current w1 H1). lia. }
  apply bind_inv in E as ([] & w3 & E3 & E).
  assert (sys_inv w3) as [H3 [p3 Hp3]].
  { eapply (init_fds tty w2); [by eapply wf_quiet| | | |exact E3].
    - by rewrite (quiet_sched _ _ Hq).
    - exists p. by eapply running_quiet.
    - by eapply open_gives. }
  apply bind_inv in E as (q & w4 & E4 & E). apply quiet_get_proc in E4.
  apply quiet_store_bytes in E. assert (quiet w3 w) as Hq35 by (by etransitivity).
  split; [by eapply wf_quiet|]. exists p3. by eapply running_quiet.
Qed.

Lemma start_inv w0 c path i w : booted w0 → scheduler_start c path w0 = Ret (i, w) → sys_inv w.
Proof.
  intros Hboot E. unfold scheduler_start in E. apply bind_inv in E as ([] & w1 & E1 & E).
  destruct (start_init_inv w0 path w1 Hboot E1) as [H [p Hp]].
  eapply svc_step; [exact H|exact Hp| |exact E]. by split.
Qed.

End SystemInv.
