(* ===== verification/TreeInv.v ===== *)
(** * The file systems' invariants across system calls

    The tree of directory entries of [VfsSpec] and the kernel's heap with its objects
    ([FsInv]) stay well-formed whatever the programs do: the invariants that lookups, reads
    and writes rely on hold in every state of the system. *)
From S2P Require Import Prelude Bitfield Mmu Alloc Heap Hash Fs FsState FsInv Devices Ramfs Fat32 Vfs VfsSpec Elf Keeps Scheduler SchedulerInv SchedulerOps Exec Syscalls SystemInv.
Import Fs FsState FsInv Devices Vfs VfsSpec Elf Keeps Scheduler SchedulerInv SchedulerOps Exec Syscalls SystemInv.

Module TreeInv.

Implicit Types (w : system) (s : vstate).

Definition vtree_kept s s' : Prop :=
  (vfs_wf (vs_vfs s) → vfs_wf (vs_vfs s')) ∧ (fs_inv (vs_fs s) → fs_inv (vs_fs s')).
Definition tree_kept w w' : Prop := vtree_kept (filesys w) (filesys w').

#[export] Instance vtree_kept_preorder : PreOrder vtree_kept.
Proof. split; [by intros s|]. intros s1 s2 s3 [] []. split; auto. Qed.
#[export] Instance tree_kept_preorder : PreOrder tree_kept.
Proof. split; [by intros w|]. intros w1 w2 w3. apply (transitivity (R := vtree_kept)). Qed.

(** ** The VFS *)

Lemma vtree_onfs {A} (m : MF A) : keeps_files m → keeps vtree_kept (onfs m).
Proof.
  intros Hm. apply (keeps_zoom _ kept); [|done]. intros s c [_ Hk]. by split.
Qed.
#[export] Hint Extern 1 (keeps vtree_kept (onfs _)) => apply vtree_onfs; solve [eauto 2 with keeps] : keeps.

Lemma vtree_step {A} (m : MV A) : keeps vkept m →
  (∀ s a s', m s = Ret (a, s') → vfs_step s s') → keeps vtree_kept m.
Proof.
  intros Hk Hm s a s' E. split; [|by apply (Hk s a s' E)].
  intros Hwf. by apply (vfs_step_wf s s' Hwf (Hm _ _ _ E)).
Qed.

Lemma vtree_open n fl m : keeps vtree_kept (vfs_file_open n fl m).
Proof. apply vtree_step; [keeps|]. intros s a s' E. by eapply step_open. Qed.
Lemma vtree_mkdir n m : keeps vtree_kept (vfs_mkdir n m).
Proof. apply vtree_step; [keeps|]. intros s a s' E. by eapply step_mkdir. Qed.
Lemma vtree_mknod n m d : keeps vtree_kept (vfs_mknod n m d).
Proof. apply vtree_step; [keeps|]. intros s a s' E. by eapply step_mknod. Qed.
Lemma vtree_mount dev n fstype : keeps vtree_kept (vfs_mount dev n fstype).
Proof. apply vtree_step; [keeps|]. intros s a s' E. by eapply step_mount. Qed.
Lemma vtree_mount_dev dev n fstype : keeps vtree_kept (vfs_mount_dev dev n fstype).
Proof. apply vtree_step; [keeps|]. intros s a s' E. by eapply step_mount_dev. Qed.
#[export] Hint Resolve vtree_open vtree_mkdir vtree_mknod vtree_mount vtree_mount_dev : keeps.

Lemma vtree_elf_close f : keeps vtree_kept (elf32_close f).
Proof. unfold elf32_close. keeps. Qed.
#[export] Hint Resolve vtree_elf_close : keeps.
Lemma vtree_elf_open n : keeps vtree_kept (elf32_open n).
Proof. unfold elf32_open. keeps. Qed.
Lemma vtree_read_next e i : keeps vtree_kept (elf32_program_header_iterator_read_next e i).
Proof. unfold elf32_program_header_iterator_read_next. keeps. Qed.
#[export] Hint Resolve vtree_elf_open vtree_read_next : keeps.

(** ** The scheduler *)

Lemma tree_onvfs {A} (m : MV A) : keeps vtree_kept m → keeps tree_kept (onvfs m).
Proof. by apply keeps_zoom. Qed.
Lemma tree_onfile {A} (m : MF A) : keeps_files m → keeps tree_kept (onfile m).
Proof. intros Hm. by apply tree_onvfs, vtree_onfs. Qed.
#[export] Hint Extern 1 (keeps tree_kept (onvfs _)) => apply tree_onvfs; solve [eauto 3 with keeps] : keeps.
#[export] Hint Extern 1 (keeps tree_kept (onfile _)) => apply tree_onfile; solve [eauto 3 with keeps] : keeps.

(** They are part of nothing else. *)
Lemma tree_other {A} (m : MS A) :
  (∀ w a w', m w = Ret (a, w') → filesys w' = filesys w) → keeps tree_kept m.
Proof. intros Hm w a w' E. apply Hm in E. unfold tree_kept. by rewrite E. Qed.

Lemma tree_zoom_sections {A} (m : M SectionAllocator.section_allocator_t A) : keeps tree_kept (zoom m : MS A).
Proof. apply (keeps_zoom _ (λ _ _, True)); [done|by intros ???]. Qed.
Lemma tree_zoom_ttables {A} (m : M TranslationTableAllocator.translation_table_allocator_t A) :
  keeps tree_kept (zoom m : MS A).
Proof. apply (keeps_zoom _ (λ _ _, True)); [done|by intros ???]. Qed.
Lemma tree_fd_count f d : keeps tree_kept (zoom (add_fd_count (F := vstate) f d)).
Proof.
  apply (keeps_zoom _ vtree_kept); [done|]. intros s a s' E. unfold add_fd_count in E.
  destruct (fd_count s f); inv_run. split; [done|]. intros [Hwf Hend Ha].
  split; [by apply fs_wf_files|done|done].
Qed.
Lemma tree_get_count f : keeps tree_kept (λ w, deref (fd_count (filesys w) f) w).
Proof. apply keeps_id; [apply _|]. intros w a w' E. destruct (fd_count _ _); by inv_run. Qed.
#[export] Hint Resolve tree_zoom_sections tree_zoom_ttables tree_fd_count tree_get_count : keeps.

Lemma tree_modify (f : system → system) : (∀ w, filesys (f w) = filesys w) → keeps tree_kept (modify f).
Proof. intros Hf. apply tree_other. intros w a w' [= _ <-]. by rewrite Hf. Qed.
#[export] Hint Extern 1 (keeps tree_kept (modify _)) => apply tree_modify; done : keeps.

Lemma tree_lifted {A} (f : system → outcome A) : keeps tree_kept (λ w, lift (f w) w).
Proof. apply keeps_id; [apply _|]. intros w a w' E. by inv_run. Qed.

Lemma tree_get_proc i : keeps tree_kept (get_proc (F := vstate) i).
Proof. apply tree_lifted. Qed.
Lemma tree_set_proc i p : keeps tree_kept (set_proc (F := vstate) i p).
Proof.
  apply tree_other. intros w a w' E. unfold set_proc in E. apply obind_inv in E as (ps & _ & E). by inv_run.
Qed.
Lemma tree_get_table t : keeps tree_kept (get_table (F := vstate) t).
Proof.
  apply keeps_id; [apply _|]. intros w a w' E. unfold get_table in E. destruct (_ !! _); by inv_run.
Qed.
Lemma tree_find pid : keeps tree_kept (_find_proc_by_pid (F := vstate) pid).
Proof. apply tree_lifted. Qed.
Lemma tree_load_cstr a : keeps tree_kept (load_cstr a).
Proof. apply tree_lifted. Qed.
Lemma tree_load_bytes a n : keeps tree_kept (load_bytes a n).
Proof. apply tree_lifted. Qed.
Lemma tree_load_word a : keeps tree_kept (load_word a).
Proof. apply tree_lifted. Qed.
#[export] Hint Resolve tree_get_proc tree_set_proc tree_get_table tree_find tree_load_cstr
  tree_load_bytes tree_load_word : keeps.

Lemma tree_next_pid : keeps tree_kept (next_pid (F := vstate)).
Proof. apply tree_other. intros w a w' E. unfold next_pid in E. by inv_run. Qed.
Lemma tree_store_word p v : keeps tree_kept (store_word (F := vstate) p v).
Proof.
  apply tree_other. intros w a w' E. unfold store_word in E. apply obind_inv in E as (m & _ & E). by inv_run.
Qed.
Lemma tree_store_bytes a l : keeps tree_kept (store_bytes a l).
Proof.
  apply tree_other. intros w r w' E. unfold store_bytes in E. apply obind_inv in E as (m & _ & E). by inv_run.
Qed.
Lemma tree_clear sec : keeps tree_kept (clear_section (F := vstate) sec).
Proof. apply tree_other. intros w a w' E. unfold clear_section in E. by inv_run. Qed.
Lemma tree_copy a b : keeps tree_kept (copy_section (F := vstate) a b).
Proof.
  apply tree_other. intros w r w' E. unfold copy_section in E. destruct (_ !! _); by inv_run.
Qed.
Lemma tree_store_table t (f : list Z → outcome (list Z)) : keeps tree_kept (on_table (F := vstate) t f).
Proof.
  unfold on_table. keeps. apply tree_other. intros w r w' E. by inv_run.
Qed.
#[export] Hint Resolve tree_next_pid tree_store_word tree_store_bytes tree_clear tree_copy
  tree_store_table : keeps.

Lemma tree_upd_proc i f : keeps tree_kept (upd_proc (F := vstate) i f).
Proof. unfold upd_proc. keeps. Qed.
Lemma tree_count n : keeps tree_kept (set_proc_count (F := vstate) n).
Proof. unfold set_proc_count. keeps. Qed.
Lemma tree_set_current n : keeps tree_kept (set_current (F := vstate) n).
Proof. unfold set_current. keeps. Qed.
Lemma tree_current : keeps tree_kept (_get_current_proc (F := vstate)).
Proof. unfold _get_current_proc. keeps. Qed.
#[export] Hint Resolve tree_upd_proc tree_count tree_set_current tree_current : keeps.
Lemma tree_remove i : keeps tree_kept (_remove_process (F := vstate) i).
Proof. unfold _remove_process. keeps. Qed.
Lemma tree_resources i n p : keeps tree_kept (_proc_init_resources (F := vstate) i n p).
Proof. unfold _proc_init_resources. keeps. Qed.
Lemma tree_cleanup i : keeps tree_kept (_cleanup_proc_resources (F := vstate) i).
Proof. unfold _cleanup_proc_resources. keeps. Qed.
Lemma tree_proc_add_fd i f : keeps tree_kept (_proc_add_fd (F := vstate) i f).
Proof. unfold _proc_add_fd. keeps. Qed.
Lemma tree_proc_rem_fd i f : keeps tree_kept (_proc_rem_fd (F := vstate) i f).
Proof. unfold _proc_rem_fd. keeps. Qed.
Lemma tree_proc_get_fd i f : keeps tree_kept (_proc_get_fd (F := vstate) i f).
Proof. unfold _proc_get_fd. keeps. Qed.
Lemma tree_copy_files n i a b : keeps tree_kept (copy_files (F := vstate) n i a b).
Proof. revert i. induction n; intros; cbn [copy_files]; keeps. Qed.
Lemma tree_reparent n i c : keeps tree_kept (reparent_loop (F := vstate) n i c).
Proof. revert i. induction n; intros; cbn [reparent_loop]; keeps. Qed.
Lemma tree_select n : keeps tree_kept (select_loop (F := vstate) n).
Proof. induction n; cbn [select_loop]; keeps. Qed.
#[export] Hint Resolve tree_remove tree_resources tree_cleanup tree_proc_add_fd tree_proc_rem_fd
  tree_proc_get_fd tree_copy_files tree_reparent tree_select : keeps.

Lemma tree_switch : keeps tree_kept (scheduler_switch_task (F := vstate)).
Proof. unfold scheduler_switch_task, _select_next_scheduled_proc. keeps. Qed.
Lemma tree_save c : keeps tree_kept (scheduler_save_current_context (F := vstate) c).
Proof. unfold scheduler_save_current_context. keeps. Qed.
Lemma tree_status st : keeps tree_kept (scheduler_cur_proc_set_syscall_status (F := vstate) st).
Proof. unfold scheduler_cur_proc_set_syscall_status. keeps. Qed.
Lemma tree_to_kernel va : keeps tree_kept (scheduler_cur_proc_to_kernel_address (F := vstate) va).
Proof. unfold scheduler_cur_proc_to_kernel_address. keeps. Qed.
Lemma tree_fork : keeps tree_kept (scheduler_cur_proc_fork (F := vstate)).
Proof. unfold scheduler_cur_proc_fork. keeps. Qed.
Lemma tree_wait pid st : keeps tree_kept (scheduler_cur_proc_wait_id (F := vstate) pid st).
Proof. unfold scheduler_cur_proc_wait_id. keeps. Qed.
Lemma tree_exit st : keeps tree_kept (scheduler_cur_proc_exit (F := vstate) st).
Proof. unfold scheduler_cur_proc_exit, exit_reschedule_parent. keeps. Qed.
Lemma tree_get_id : keeps tree_kept (scheduler_cur_proc_get_id (F := vstate)).
Proof. unfold scheduler_cur_proc_get_id. keeps. Qed.
Lemma tree_get_parent : keeps tree_kept (scheduler_cur_proc_get_parent_id (F := vstate)).
Proof. unfold scheduler_cur_proc_get_parent_id. keeps. Qed.
Lemma tree_add_fd f : keeps tree_kept (scheduler_cur_proc_add_fd (F := vstate) f).
Proof. unfold scheduler_cur_proc_add_fd. keeps. Qed.
Lemma tree_rem_fd f : keeps tree_kept (scheduler_cur_proc_rem_fd (F := vstate) f).
Proof. unfold scheduler_cur_proc_rem_fd. keeps. Qed.
Lemma tree_get_fd f : keeps tree_kept (scheduler_cur_proc_get_fd (F := vstate) f).
Proof. unfold scheduler_cur_proc_get_fd. keeps. Qed.
#[export] Hint Resolve tree_switch tree_save tree_status tree_to_kernel tree_fork tree_wait
  tree_exit tree_get_id tree_get_parent tree_add_fd tree_rem_fd tree_get_fd : keeps.
Lemma tree_abort spsr : keeps tree_kept (scheduler_data_exception (F := vstate) spsr).
Proof. unfold scheduler_data_exception. keeps. Qed.
#[export] Hint Resolve tree_abort : keeps.

(** ** exec *)

Lemma tree_translate i va : keeps tree_kept (proc_translate i va).
Proof. unfold proc_translate. keeps. Qed.
#[export] Hint Resolve tree_translate : keeps.
Lemma tree_load_segment i e h : keeps tree_kept (load_segment i e h).
Proof. unfold load_segment. keeps. Qed.
#[export] Hint Resolve tree_load_segment : keeps.
Lemma tree_load_loop n i e it : keeps tree_kept (load_loop n i e it).
Proof. revert it. induction n; intros; cbn [load_loop]; keeps. Qed.
Lemma tree_push_args i args sp : keeps tree_kept (push_args i args sp).
Proof. revert sp. induction args; intros; cbn [push_args]; keeps. Qed.
#[export] Hint Resolve tree_load_loop tree_push_args : keeps.
Lemma tree_load_args i args : keeps tree_kept (load_args i args).
Proof. unfold load_args. keeps. Qed.
Lemma tree_copy_argv n a : keeps tree_kept (copy_argv n a).
Proof. revert a. induction n; intros; cbn [copy_argv]; keeps. Qed.
Lemma tree_store_dirents a l : keeps tree_kept (store_dirents a l).
Proof. revert a. induction l; intros; cbn [store_dirents]; keeps. Qed.
#[export] Hint Resolve tree_load_args tree_copy_argv tree_store_dirents : keeps.
Lemma tree_load i path args : keeps tree_kept (__load_proc_from_elf i path args).
Proof. unfold __load_proc_from_elf. keeps. Qed.
#[export] Hint Resolve tree_load : keeps.
Lemma tree_exec path args : keeps tree_kept (scheduler_cur_proc_exec path args).
Proof. unfold scheduler_cur_proc_exec. keeps. Qed.
#[export] Hint Resolve tree_exec : keeps.

(** ** System calls and the other steps *)

Lemma tree_call num h a0 a1 a2 : _syscall_table !! num = Some h → keeps tree_kept (h a0 a1 a2).
Proof.
  intros Hh. destruct num as [|[|[|[|[|[|[|[|[|[|[|[|[|[|[|[|[|n]]]]]]]]]]]]]]]]]; [..|done].
  all: injection Hh as <-; unfold _syscall__YIELD, _syscall__REBOOT, _syscall__OPEN, _syscall__CLOSE, _syscall__READ,
    _syscall__READDIR, _syscall__WRITE, _syscall__MOUNT, _syscall__MKDIR, _syscall__MKNOD,
    _syscall__LSEEK, _syscall__EXEC, _syscall__GETPPID, _syscall__GETPID, _syscall__EXIT,
    _syscall__FORK, _syscall__WAITPID; keeps.
Qed.

Lemma tree_syscall num a0 a1 a2 : keeps tree_kept (kernel_syscall_handler num a0 a1 a2).
Proof.
  unfold kernel_syscall_handler. destruct (num >=? SYSCALL_COUNT); [keeps|].
  apply keeps_bind; [apply _|keeps|]. intros pid w x w' E.
  apply bind_inv in E as (h & w1 & Eh & E). apply lift_Ret in Eh as [Eh ->].
  apply arr_get_Ret in Eh as [_ Eh]. pose proof (tree_call _ h a0 a1 a2 Eh) as Hh. revert w x w' E.
  match goal with |- ∀ w x w', ?m w = _ → _ => change (keeps tree_kept m) end. keeps.
Qed.
#[export] Hint Resolve tree_syscall : keeps.

Lemma tree_start c path : keeps tree_kept (scheduler_start c path).
Proof.
  unfold scheduler_start, start_init, start_init_proc, start_init_fds, __scheduler_exec_init, _svc_handler.
  keeps.
Qed.

Lemma tree_sys_step w w' : sys_step w w' → tree_kept w w'.
Proof.
  intros [c num a0 a1 a2 i w1 _ E|c i w1 E|spsr i w1 E|p s _]; [..|done].
  - assert (keeps tree_kept (_svc_handler c num a0 a1 a2)) as H by (unfold _svc_handler; keeps). by eapply H.
  - assert (keeps tree_kept (_irq_handler c)) as H by (unfold _irq_handler; keeps). by eapply H.
  - assert (keeps tree_kept (_data_abort spsr)) as H by (unfold _data_abort; keeps). by eapply H.
Qed.
End TreeInv.
