(* ===== verification/ExecSpec.v ===== *)
(** * What exec promises

    The new image of the process is the program's segments in an otherwise cleared
    section, with the arguments on the stack, where the program finds them again. *)
From S2P Require Import Prelude Bitfield Mmu Alloc Heap Hash Fs FsState Devices Ramfs Fat32 Vfs VfsSpec VfsFiles Elf ElfSpec Keeps Scheduler SchedulerInv SchedulerOps Exec Syscalls SystemInv.
Import Fs FsState Devices Fat32 Vfs VfsFiles Elf ElfSpec Scheduler SchedulerInv SchedulerOps Exec Syscalls SystemInv.

Module ExecSpec.

Abbreviation BASE := PROCESS_SECTION_VIRTUAL_ADDRRESS.

(** ** The image *)

(** The program header asks for a segment to be loaded. *)
Definition loads (h : elf32_program_header_t) : bool :=
  (p_type h =? PT_LOAD) && negb (p_vaddress h =? 0).

Definition segment_bytes (content : list Z) (h : elf32_program_header_t) : list Z :=
  slice content (Z.to_nat (p_offset h)) (Z.to_nat (p_file_size h)).

Definition put_segment (content : list Z) (s : gmap Z Z) (h : elf32_program_header_t) : gmap Z Z :=
  if loads h then put_bytes (p_vaddress h - BASE) (segment_bytes content h) s else s.

(** The section, by offset, after the segments are loaded: 0 elsewhere. *)
Definition segments_image (content : list Z) : gmap Z Z :=
  foldl (put_segment content) ∅ (program_headers content).

(** A segment that can be loaded: its bytes are in the file, its place in the section,
    and there is at least one byte. *)
Definition segment_ok (content : list Z) (h : elf32_program_header_t) : Prop :=
  loads h = true →
    0 < p_file_size h ∧ 0 ≤ p_offset h ∧
    p_offset h + p_file_size h ≤ Z.of_nat (length content) ∧
    BASE ≤ p_vaddress h ∧ p_vaddress h + p_file_size h ≤ BASE + 0x100000.

(** The addresses of the arguments below [sp], and where they end. *)
Fixpoint args_layout (sp : Z) (args : list name_t) : list Z :=
  match args with
  | [] => []
  | arg :: args =>
      let sp := sp - (Z.of_nat (length arg) + 1) in sp :: args_layout sp args
  end.

Fixpoint args_end (sp : Z) (args : list name_t) : Z :=
  match args with
  | [] => sp
  | arg :: args => args_end (sp - (Z.of_nat (length arg) + 1)) args
  end.

Fixpoint put_args (sp : Z) (args : list name_t) (s : gmap Z Z) : gmap Z Z :=
  match args with
  | [] => s
  | arg :: args =>
      let sp := sp - (Z.of_nat (length arg) + 1) in
      put_args sp args (put_bytes (sp - BASE) (arg ++ [0]) s)
  end.

(** The address of the vector, which is the new stack pointer: aligned, below the
    strings. *)
Definition argv_ptr (args : list name_t) : Z :=
  (args_end PROCESS_STACK_VIRTUAL_ADDRRESS args - 4 * (1 + Z.of_nat (length args))) / 4 * 4.

Definition argv_words (args : list name_t) : list Z :=
  args_layout PROCESS_STACK_VIRTUAL_ADDRRESS args ++ [0].

Definition args_image (args : list name_t) (s : gmap Z Z) : gmap Z Z :=
  put_bytes (argv_ptr args - BASE) (concat (map word_bytes (argv_words args)))
    (put_args PROCESS_STACK_VIRTUAL_ADDRRESS args s).

(** Arguments as EXEC copies them: C strings for buffers of 32 bytes. *)
Definition args_ok (args : list name_t) : Prop :=
  (length args < 16)%nat ∧
  Forall (λ arg, (length arg ≤ 31)%nat ∧ Forall (λ b, 0 < b < 0x100) arg) args.

Lemma args_end_range args sp : Forall (λ arg, (length arg ≤ 31)%nat) args →
  sp - 32 * Z.of_nat (length args) ≤ args_end sp args ≤ sp.
Proof.
  intros H. revert sp. induction H as [|arg args Harg _ IH]; intros sp; cbn [args_end length]; [lia|].
  specialize (IH (sp - (Z.of_nat (length arg) + 1))). lia.
Qed.

Lemma args_short args : args_ok args → Forall (λ arg, (length arg ≤ 31)%nat) args.
Proof. intros [_ H]. eapply Forall_impl; [exact H|]. by intros ? []. Qed.

Lemma argv_range args : args_ok args →
  0x0083FD00 ≤ argv_ptr args ∧
  argv_ptr args + 4 * (1 + Z.of_nat (length args)) ≤ args_end PROCESS_STACK_VIRTUAL_ADDRRESS args ∧
  args_end PROCESS_STACK_VIRTUAL_ADDRRESS args ≤ PROCESS_STACK_VIRTUAL_ADDRRESS.
Proof.
  intros H. pose proof (args_end_range args PROCESS_STACK_VIRTUAL_ADDRRESS (args_short _ H)).
  destruct H as [Hlen _]. unfold argv_ptr, PROCESS_STACK_VIRTUAL_ADDRRESS in *. lia.
Qed.

(** ** Steps on the image *)

Lemma store_bytes_in l : ∀ m sec s o,
  sec `mod` 0x100000 = 0 → 0 ≤ o → o + Z.of_nat (length l) ≤ 0x100000 → m !! sec = Some s →
  ram_store_bytes (sec + o) l m = Ret (<[sec := put_bytes o (map u8 l) s]> m).
Proof.
  induction l as [|b l IH]; intros m sec s o Hal Ho Hlen Hm; cbn [ram_store_bytes map put_bytes].
  { by rewrite insert_id. }
  cbn [length] in Hlen. rewrite (ram_store_in m sec s) by (done || lia). cbn [obind].
  rewrite <- Z.add_assoc, (IH _ sec (<[o := u8 b]> s)) by (done || lia || apply lookup_insert_eq).
  by rewrite insert_insert_eq.
Qed.

Lemma length_layout sp args : length (args_layout sp args) = length args.
Proof. revert sp. induction args as [|a args IH]; intros sp; [done|]. simpl. by rewrite IH. Qed.

Section steps.
Context (w : system) (p : process).
Hypothesis Hwf : wf w.
Hypothesis Hrun : running w p.
Let sec := memory_section p.
Let i := current_proc (sched w).

(** The system with the section of the process replaced, and the file system. *)
Definition at_image (s : gmap Z Z) (v : vstate) : system :=
  mkworld (sections w) (ttables w) (<[sec := s]> (ram w)) (sched w) v.

Lemma sec_range : sec `mod` 0x100000 = 0 ∧ 0 < sec ∧ sec + 0x100000 ≤ 0x100000000.
Proof.
  destruct Hrun as [Hp Hst]. unfold sec.
  destruct (section_of w _ p Hwf Hp) as (? & ? & ? & _); [unfold alive; by rewrite Hst|done].
Qed.

Lemma get_proc_image s v : get_proc i (at_image s v) = Ret (p, at_image s v).
Proof.
  destruct Hrun as [Hp _]. pose proof (wf_current w Hwf).
  apply get_proc_eq; [unfold i; lia|]. by apply live_lookup in Hp as [Hp _].
Qed.

Lemma translate_image s v va : BASE ≤ va < BASE + 0x100000 →
  proc_translate i va (at_image s v) = Ret (sec + (va - BASE), at_image s v).
Proof.
  intros Hva. destruct sec_range as (Hal & Hpos & Hend). pose proof Hrun as [Hp Hst].
  pose proof (Forall_lookup_1 _ _ _ _ (wf_res w Hwf) Hp) as Hr. unfold res_ok, alive in Hr.
  rewrite Hst in Hr. destruct Hr as (_ & _ & _ & (tb & Htb & Hg) & _).
  unfold proc_translate. rewrite (bind_Ret _ _ _ _ _ (get_proc_image s v)).
  erewrite bind_Ret by (unfold get_table; simpl; rewrite Htb; done).
  unfold PROCESS_SECTION_VIRTUAL_ADDRRESS in *.
  pose proof (Mmu.grants_only_translate tb 8 sec va Hg ltac:(lia) ltac:(lia) ltac:(lia) Hal) as Htr.
  rewrite decide_False, decide_True in Htr by lia. rewrite Htr. unfold lift. do 3 f_equal. lia.
Qed.

Lemma store_image s v va l : BASE ≤ va → va + Z.of_nat (length l) ≤ BASE + 0x100000 →
  Forall is_u8 l →
  store_bytes (sec + (va - BASE)) l (at_image s v) =
  Ret ((), at_image (put_bytes (va - BASE) l s) v).
Proof.
  intros Hva Hlen Hl. destruct sec_range as (Hal & _ & _). unfold store_bytes. simpl.
  rewrite (store_bytes_in l _ sec s) by (done || lia || apply lookup_insert_eq).
  cbn [obind]. rewrite insert_insert_eq, map_u8 by done. done.
Qed.

Lemma onfile_image {A} (m : MF A) s v a fs' : m (vs_fs v) = Ret (a, fs') →
  onfile m (at_image s v) = Ret (a, at_image s (mkvs fs' (vs_vfs v))).
Proof. intros E. unfold onfile, onvfs, zoom. simpl. by rewrite (onfs_Ret _ _ _ _ E). Qed.

Lemma onvfs_image {A} (m : MV A) s v a v' : m v = Ret (a, v') →
  onvfs m (at_image s v) = Ret (a, at_image s v').
Proof. intros E. unfold onvfs, zoom. simpl. by rewrite E. Qed.

(** ** The segments *)

Section segments.
Context (P : fs → Prop) (f : Z) (content : list Z) `{!Readable P f content}.
Hypothesis Himage : elf_image content.
Let elf := mkelf f (elf32_header content).

Lemma segment_bytes_ok h : segment_ok content h → loads h = true →
  Forall is_u8 (segment_bytes content h) ∧
  Z.of_nat (length (segment_bytes content h)) = p_file_size h.
Proof.
  intros Hok Hl. destruct (Hok Hl) as (? & ? & ? & _ & _). split.
  - apply Forall_take, Forall_drop, Himage.
  - unfold segment_bytes, slice. rewrite length_take, length_drop. lia.
Qed.

Lemma load_segment_run h s v : segment_ok content h → loads h = true → P (vs_fs v) →
  ∃ fs', load_segment i elf h (at_image s v) =
    Ret ((), at_image (put_segment content s h) (mkvs fs' (vs_vfs v))) ∧ P fs'.
Proof.
  intros Hok Hl HP. destruct (Hok Hl) as (Hsz & Hoff & Hin & Hlo & Hhi).
  destruct (segment_bytes_ok h Hok Hl) as [Hb Hlen].
  pose proof (readable_small _ HP) as Hsmall.
  destruct (readable_at (vs_fs v) (p_offset h) (p_file_size h) HP) as (s1 & s2 & E1 & E2 & HP2);
    [done..|].
  exists s2. split; [|exact HP2]. unfold load_segment. cbn [elf elf_file].
  rewrite (bind_Ret _ _ _ _ _ (translate_image s v (p_vaddress h) ltac:(lia))).
  rewrite !(s32_small (p_offset h)), !(s32_small (p_file_size h)) by lia.
  rewrite (bind_Ret _ _ _ _ _ (onfile_image _ s v _ _ E1)), Z.eqb_refl. erewrite bind_Ret by done.
  rewrite (bind_Ret _ _ _ _ _ (onfile_image _ s (mkvs s1 (vs_vfs v)) _ _ E2)).
  fold (segment_bytes content h).
  rewrite (bind_Ret _ _ _ _ _ (store_image s _ (p_vaddress h) (segment_bytes content h) Hlo
    ltac:(lia) Hb)), Z.eqb_refl.
  unfold put_segment. by rewrite Hl.
Qed.

Lemma load_loop_run (n k : nat) s v :
  Z.of_nat (k + n) = phnum (elf32_header content) → P (vs_fs v) →
  Forall (segment_ok content) (map (program_header_at content) (seq k n)) →
  ∃ fs', load_loop n i elf (Z.of_nat k) (at_image s v) =
    Ret ((), at_image (foldl (put_segment content) s (map (program_header_at content) (seq k n)))
               (mkvs fs' (vs_vfs v))) ∧ P fs'.
Proof.
  revert k s v. induction n as [|n IH]; intros k s v Hn HP Hok; cbn [load_loop seq map foldl].
  - exists (vs_fs v). split; [|exact HP]. replace (Z.of_nat k) with (phnum (elf32_header content)) by lia.
    rewrite (bind_Ret _ _ _ _ _ (onvfs_image _ s v _ _ (read_next_end f content v))).
    by destruct v.
  - apply Forall_cons in Hok as [Hk Hok].
    destruct (read_next_run P f content Himage k v HP ltac:(lia)) as (s1 & E1 & HP1).
    rewrite (bind_Ret _ _ _ _ _ (onvfs_image _ s v _ _ E1)). cbn [Z.eqb Pos.eqb].
    set (h := program_header_at content k) in *.
    replace (negb (p_type h =? PT_LOAD) || (p_vaddress h =? 0)) with (negb (loads h))
      by (unfold loads; by rewrite negb_andb, negb_involutive).
    destruct (loads h) eqn:Hl; cbn [negb].
    + destruct (load_segment_run h s (mkvs s1 (vs_vfs v)) Hk Hl HP1) as (s2 & E2 & HP2).
      rewrite (bind_Ret _ _ _ _ _ E2). cbn [vs_vfs].
      apply (IH (S k) _ (mkvs s2 (vs_vfs v))); [lia|exact HP2|exact Hok].
    + erewrite bind_Ret by done. unfold put_segment at 2. rewrite Hl.
      apply (IH (S k) _ (mkvs s1 (vs_vfs v))); [lia|exact HP1|exact Hok].
Qed.

End segments.

(** ** The arguments *)

Lemma push_args_run args sp s v :
  Forall (λ arg, (length arg ≤ 31)%nat ∧ Forall (λ b, 0 < b < 0x100) arg) args →
  BASE ≤ sp - 32 * Z.of_nat (length args) → sp < BASE + 0x100000 →
  push_args i args sp (at_image s v) =
  Ret ((args_layout sp args, args_end sp args), at_image (put_args sp args s) v).
Proof.
  intros Hargs. revert sp s.
  induction Hargs as [|arg args [Hlen Hb] _ IH]; intros sp s Hlo Hhi; [done|].
  cbn [push_args args_layout args_end put_args length] in *.
  rewrite u8_small by lia. set (sp' := sp - (Z.of_nat (length arg) + 1)).
  assert (BASE ≤ sp' ∧ sp' < BASE + 0x100000) as [Hlo' Hhi'] by lia.
  rewrite u32_small by (unfold PROCESS_SECTION_VIRTUAL_ADDRRESS in *; lia). fold sp'.
  rewrite (bind_Ret _ _ _ _ _ (translate_image s v sp' (conj Hlo' Hhi'))).
  rewrite take_ge by (rewrite length_app; simpl; lia).
  erewrite bind_Ret.
  2:{ apply store_image; [done|rewrite length_app; cbn [length]; lia|].
      apply Forall_app. split; [|by apply Forall_singleton].
      eapply Forall_impl; [exact Hb|]. unfold is_u8. lia. }
  by rewrite (bind_Ret _ _ _ _ _ (IH sp' _ ltac:(lia) ltac:(lia))).
Qed.

Lemma load_args_run args s v : args_ok args →
  load_args i args (at_image s v) = Ret (argv_ptr args, at_image (args_image args s) v).
Proof.
  intros Hok. pose proof (argv_range args Hok) as (Hlo & Hmid & Hhi). pose proof Hok as [Hn Hargs].
  unfold load_args. rewrite (proj2 (Z.ltb_lt (Z.of_nat (length args)) 16)) by lia.
  erewrite bind_Ret by done.
  rewrite (bind_Ret _ _ _ _ _ (push_args_run args PROCESS_STACK_VIRTUAL_ADDRRESS s v Hargs
    ltac:(unfold PROCESS_STACK_VIRTUAL_ADDRRESS, PROCESS_SECTION_VIRTUAL_ADDRRESS; lia)
    ltac:(unfold PROCESS_STACK_VIRTUAL_ADDRRESS, PROCESS_SECTION_VIRTUAL_ADDRRESS; lia))).
  pose proof (args_end_range args PROCESS_STACK_VIRTUAL_ADDRRESS (args_short _ Hok)) as He.
  unfold PROCESS_STACK_VIRTUAL_ADDRRESS, PROCESS_SECTION_VIRTUAL_ADDRRESS in *.
  rewrite u32_small by lia. rewrite Heap.align4 by lia. fold (argv_ptr args).
  rewrite (bind_Ret _ _ _ _ _ (translate_image _ v (argv_ptr args)
    ltac:(unfold PROCESS_SECTION_VIRTUAL_ADDRRESS; lia))).
  erewrite bind_Ret; [done|].
  apply store_image; [unfold PROCESS_SECTION_VIRTUAL_ADDRRESS; lia| |apply word_bytes_u8].
  rewrite length_words, length_app, length_layout. cbn [length].
  unfold PROCESS_SECTION_VIRTUAL_ADDRRESS. lia.
Qed.

(** ** The whole *)

Definition exec_context (content : list Z) (args : list name_t) : task_context :=
  _proc_context_init (argv_ptr args) (entry (elf32_header content)) (argv_ptr args).

(** The system after exec: the new image, and the registers. *)
Definition executed (content : list Z) (args : list name_t) (v : vstate) : system :=
  put_proc i (with_context (exec_context content args) p)
    (at_image (args_image args (segments_image content)) v).

(** What exec needs: the path is that of an ELF file whose segments fit, whose entry is in
    the program's place, and the arguments fit. *)
Record exec_ok (a : Z) (args : list name_t) (P : fs → Prop) (f : Z) (content : list Z) : Prop := {
  xo_open : ∃ path v1, load_cstr a w = Ret (path, w) ∧ elf_opens P path f content (filesys w) v1;
  xo_image : elf_image content;
  xo_segments : Forall (segment_ok content) (program_headers content);
  xo_args : args_ok args;
  xo_entry : PROCESS_PROGRAM_START_VADRR ≤ entry (elf32_header content) ≤ PROCESS_PROGRAM_END_VADRR;
}.

Lemma exec_run a args P f content `{!Readable P f content} : exec_ok a args P f content →
  ∃ v2, scheduler_cur_proc_exec a args w = Ret (0, executed content args v2) ∧ P (vs_fs v2).
Proof.
  intros [(path & v1 & Epath & Hopen) Himage Hsegs Hargs Hentry].
  pose proof Hopen as (v0 & s2 & _ & _ & _ & HP & Hv1).
  assert (P (vs_fs v1)) as HP1 by (by rewrite Hv1).
  pose proof (phent_range content Himage) as (_ & Hnum & _).
  unfold scheduler_cur_proc_exec. rewrite (bind_Ret _ _ _ _ _ (get_current_eq w Hwf)). fold i.
  unfold __load_proc_from_elf. rewrite (bind_Ret _ _ _ _ _ Epath).
  erewrite (bind_Ret (onvfs _) _ _ _ (with_fs v1 w)).
  2:{ unfold onvfs, zoom. simpl comp_get.
      by rewrite (elf_open_run P path f content _ v1 Hopen Himage). }
  cbn [Z.ltb Z.compare]. erewrite (bind_Ret (get_proc i) _ _ p (with_fs v1 w)).
  2:{ destruct Hrun as [Hp _]. pose proof (wf_current w Hwf).
      apply get_proc_eq; [unfold i; lia|]. by apply live_lookup in Hp as [Hp _]. }
  rewrite (bind_Ret _ _ _ () (at_image ∅ v1)) by done. cbn [header].
  destruct (load_loop_run P f content Himage (Z.to_nat (phnum (elf32_header content))) 0 ∅ v1)
    as (s3 & E3 & HP3); [lia|exact HP1|exact Hsegs|].
  change (Z.of_nat 0) with 0 in E3. rewrite (bind_Ret _ _ _ _ _ E3). clear E3.
  fold (program_headers content). fold (segments_image content).
  rewrite (bind_Ret _ _ _ _ _ (load_args_run args _ _ Hargs)).
  unfold PROCESS_PROGRAM_START_VADRR, PROCESS_PROGRAM_END_VADRR in Hentry.
  rewrite (proj2 (Z.eqb_neq (entry (elf32_header content)) 0)) by lia. erewrite bind_Ret by done.
  rewrite (proj2 (Z.geb_le (entry (elf32_header content)) PROCESS_PROGRAM_START_VADRR)),
    (proj2 (Z.leb_le (entry (elf32_header content)) PROCESS_PROGRAM_END_VADRR))
    by (unfold PROCESS_PROGRAM_START_VADRR, PROCESS_PROGRAM_END_VADRR; lia).
  erewrite bind_Ret by done.
  erewrite bind_Ret.
  2:{ destruct Hrun as [Hp _]. pose proof (wf_current w Hwf).
      apply (upd_proc_eq _ _ p); [unfold i; lia|]. by apply live_lookup in Hp as [Hp _]. }
  destruct (readable_close s3 HP3) as (s4 & E4 & HP4).
  exists (mkvs s4 (vs_vfs v1)). split; [|exact HP4].
  rewrite (bind_Ret _ _ _ (0, mkelf 0 (elf32_header content)) (executed content args (mkvs s4 (vs_vfs v1)))).
  { done. }
  unfold onvfs, zoom, elf32_close. simpl comp_get. cbn [elf_file].
  by erewrite bind_Ret by (apply (onfs_Ret _ (mkvs s3 (vs_vfs v1))); exact E4).
Qed.

End steps.

(** ** Finding the arguments again *)

(** The bytes [l] are in the image from offset [o] on. *)
Definition has_bytes (s : gmap Z Z) (o : Z) (l : list Z) : Prop :=
  ∀ j b, l !! j = Some b → s !! (o + Z.of_nat j) = Some b.

Lemma has_put_bytes o l s : has_bytes (put_bytes o l s) o l.
Proof.
  intros j b Hj. pose proof (lookup_lt_Some _ _ _ Hj). rewrite put_bytes_lookup.
  rewrite (proj2 (Z.leb_le o (o + Z.of_nat j))) by lia.
  rewrite (proj2 (Z.ltb_lt (o + Z.of_nat j) (o + Z.of_nat (length l)))) by lia.
  cbn [andb]. by replace (Z.to_nat (o + Z.of_nat j - o)) with j by lia.
Qed.

Lemma put_bytes_out o l s x : ¬ (o ≤ x < o + Z.of_nat (length l)) → put_bytes o l s !! x = s !! x.
Proof.
  intros H. rewrite put_bytes_lookup. destruct (Z.leb_spec o x); [|done].
  by rewrite (proj2 (Z.ltb_ge x (o + Z.of_nat (length l)))) by lia.
Qed.

Lemma has_bytes_put s o l o' l' : has_bytes s o l →
  o + Z.of_nat (length l) ≤ o' ∨ o' + Z.of_nat (length l') ≤ o →
  has_bytes (put_bytes o' l' s) o l.
Proof.
  intros H Hd j b Hj. pose proof (lookup_lt_Some _ _ _ Hj).
  rewrite put_bytes_out by lia. by apply H.
Qed.

Lemma has_put_args args : ∀ sp s o l, has_bytes s o l → sp - BASE ≤ o →
  has_bytes (put_args sp args s) o l.
Proof.
  induction args as [|arg args IH]; intros sp s o l H Ho; cbn [put_args]; [done|].
  apply IH; [|lia]. apply has_bytes_put; [done|]. rewrite length_app. cbn [length]. lia.
Qed.

(** Every argument is where its address says. *)
Lemma put_args_string args : ∀ sp s k arg va,
  args !! k = Some arg → args_layout sp args !! k = Some va →
  has_bytes (put_args sp args s) (va - BASE) (arg ++ [0]) ∧
  args_end sp args ≤ va < sp ∧ va + Z.of_nat (length arg) < sp.
Proof.
  induction args as [|a args IH]; intros sp s k arg va Hk Hva; [done|].
  cbn [args_layout put_args args_end] in *. set (sp' := sp - (Z.of_nat (length a) + 1)) in *.
  assert (∀ args sp, args_end sp args ≤ sp) as Hend.
  { clear. induction args as [|a args IH]; intros sp; cbn [args_end]; [lia|].
    specialize (IH (sp - (Z.of_nat (length a) + 1))). lia. }
  destruct k as [|k].
  - injection Hk as <-. injection Hva as <-. specialize (Hend args sp'). split; [|lia].
    apply has_put_args; [apply has_put_bytes|lia].
  - destruct (IH sp' (put_bytes (sp' - BASE) (a ++ [0]) s) k arg va Hk Hva) as (? & ? & ?).
    split; [done|lia].
Qed.

Lemma words_lookup l k v j : l !! k = Some v → (j < 4)%nat →
  concat (map word_bytes l) !! (4 * k + j)%nat = word_bytes v !! j.
Proof.
  revert k. induction l as [|x l IH]; intros k Hk Hj; [done|]. destruct k as [|k]; cbn [map concat].
  - injection Hk as ->. by rewrite lookup_app_l by (simpl; lia).
  - replace (4 * S k + j)%nat with (length (word_bytes x) + (4 * k + j))%nat by (simpl; lia).
    rewrite lookup_app_r by lia. rewrite Nat.add_comm, Nat.add_sub. by apply IH.
Qed.

Lemma load_word_has m sec s o v : sec `mod` 0x100000 = 0 → 0 ≤ o → o + 4 ≤ 0x100000 →
  m !! sec = Some s → is_u32 v → has_bytes s o (word_bytes v) →
  ram_load_word (sec + o) m = Ret v.
Proof.
  intros Hal Ho Hend Hm Hv Hs. unfold ram_load_word. rewrite <- !Z.add_assoc.
  rewrite !(ram_load_in m sec s) by (done || lia). cbn [obind].
  pose proof (Hs 0%nat _ eq_refl) as H0. pose proof (Hs 1%nat _ eq_refl) as H1.
  pose proof (Hs 2%nat _ eq_refl) as H2. pose proof (Hs 3%nat _ eq_refl) as H3.
  change (Z.of_nat 0) with 0 in H0. change (Z.of_nat 1) with 1 in H1.
  change (Z.of_nat 2) with 2 in H2. change (Z.of_nat 3) with 3 in H3.
  rewrite Z.add_0_r in H0. rewrite H0, H1, H2, H3. cbn [default from_option id].
  rewrite !Z.shiftr_div_pow2 by lia. unfold u8, is_u32 in *.
  change (2 ^ 8) with 0x100. change (2 ^ 16) with 0x10000. change (2 ^ 24) with 0x1000000.
  simpl. f_equal. lia.
Qed.

Lemma cstr_loop_has m sec s l : sec `mod` 0x100000 = 0 → m !! sec = Some s → ∀ fuel o,
  Forall (λ b, 0 < b < 0x100) l → 0 ≤ o → o + Z.of_nat (length l) < 0x100000 →
  has_bytes s o (l ++ [0]) → (length l ≤ fuel)%nat → cstr_loop fuel (sec + o) m = Ret l.
Proof.
  intros Hal Hm. induction l as [|b l IH]; intros fuel o Hl Ho Hend Hs Hf; cbn [length] in *.
  - pose proof (Hs 0%nat 0 eq_refl) as H0. rewrite Z.add_0_r in H0.
    destruct fuel; cbn [cstr_loop]; rewrite (ram_load_in m sec s) by (done || lia); by rewrite H0.
  - apply Forall_cons in Hl as [Hb Hl]. destruct fuel as [|fuel]; [lia|]. cbn [cstr_loop].
    pose proof (Hs 0%nat b eq_refl) as H0. rewrite Z.add_0_r in H0.
    rewrite (ram_load_in m sec s) by (done || lia). rewrite H0. cbn [default from_option id obind].
    simpl. rewrite (proj2 (Z.eqb_neq b 0)) by lia. rewrite <- Z.add_assoc, (IH fuel (o + 1)); try done; try lia.
    intros j c Hj. replace (o + 1 + Z.of_nat j) with (o + Z.of_nat (S j)) by lia. by apply Hs.
Qed.

(** What EXEC reads of the memory of a running process. *)
Section read_back.
Context (w : system) (q : process) (s : gmap Z Z).
Hypothesis Hwf : wf w.
Hypothesis Hrun : running w q.
Hypothesis Hs : ram w !! memory_section q = Some s.

Lemma to_kernel_run va : BASE ≤ va < BASE + 0x100000 →
  scheduler_cur_proc_to_kernel_address va w = Ret (memory_section q + (va - BASE), w).
Proof.
  intros Hva. pose proof (translate_image w q Hwf Hrun s (filesys w) va Hva) as E.
  unfold at_image in E. rewrite insert_id in E by done.
  unfold scheduler_cur_proc_to_kernel_address.
  rewrite (bind_Ret _ _ _ _ _ (get_current_eq w Hwf)). destruct w. exact E.
Qed.

Lemma load_cstr_run o l : Forall (λ b, 0 < b < 0x100) l → 0 ≤ o →
  o + Z.of_nat (length l) < 0x100000 → has_bytes s o (l ++ [0]) →
  load_cstr (memory_section q + o) w = Ret (l, w).
Proof.
  intros Hl Ho Hend Hb. destruct (sec_range w q Hwf Hrun) as (Hal & _).
  unfold load_cstr, lift. rewrite (cstr_loop_has _ _ s l Hal Hs); try done.
  assert (ram w ≠ ∅) as Hne by (intros E; rewrite E in Hs; done).
  apply map_size_non_empty_iff in Hne. lia.
Qed.

(** The vector and the strings are in the image. *)
Record vector_at (o : Z) (vas : list Z) (args : list name_t) : Prop := {
  vec_low : 0 ≤ o;
  vec_high : o + 4 * (Z.of_nat (length vas) + 1) ≤ 0x100000;
  vec_words : has_bytes s o (concat (map word_bytes (vas ++ [0])));
  vec_strings : Forall2 (λ va arg, BASE ≤ va ∧ va + Z.of_nat (length arg) < BASE + 0x100000 ∧
    has_bytes s (va - BASE) (arg ++ [0])) vas args;
}.

Lemma vector_word o vas args v k : vector_at o vas args → (vas ++ [0]) !! k = Some v →
  is_u32 v → load_word (memory_section q + (o + 4 * Z.of_nat k)) w = Ret (v, w).
Proof.
  intros [Hlo Hhi Hw _] Hk Hv. destruct (sec_range w q Hwf Hrun) as (Hal & _).
  pose proof (lookup_lt_Some _ _ _ Hk) as Hlt. rewrite length_app in Hlt. cbn [length] in Hlt.
  unfold load_word, lift. rewrite (load_word_has _ _ s (o + 4 * Z.of_nat k) v); try done; try lia.
  intros j b Hj. replace (o + 4 * Z.of_nat k + Z.of_nat j) with (o + Z.of_nat (4 * k + j)) by lia.
  apply Hw. rewrite (words_lookup _ _ v) by (done || by apply lookup_lt_Some in Hj). done.
Qed.

Lemma copy_argv_run n : ∀ o vas args, vector_at o vas args →
  Forall (λ arg, (length arg ≤ 31)%nat ∧ Forall (λ b, 0 < b < 0x100) arg) args →
  (length args ≤ n)%nat → copy_argv n (memory_section q + o) w = Ret (args, w).
Proof.
  destruct (sec_range w q Hwf Hrun) as (_ & Hpos & _).
  induction n as [|n IH]; intros o vas args Hv Hargs Hn; pose proof Hv as [Hlo Hhi Hw Hstr];
    (destruct Hstr as [|va arg vas args (Hva & Hend & Hb) Hstr];
     [cbn [copy_argv]; rewrite (proj2 (Z.eqb_neq (memory_section q + o) 0)) by lia;
      pose proof (vector_word o [] [] 0 0 Hv eq_refl ltac:(unfold is_u32; lia)) as E;
      rewrite Z.add_0_r in E; by rewrite (bind_Ret _ _ _ _ _ E)|]); [simpl in Hn; lia|].
  apply Forall_cons in Hargs as [[Hlen Hne] Hargs]. cbn [copy_argv].
  rewrite (proj2 (Z.eqb_neq (memory_section q + o) 0)) by lia.
  unfold PROCESS_SECTION_VIRTUAL_ADDRRESS in *.
  pose proof (vector_word o (va :: vas) (arg :: args) va 0 Hv eq_refl
    ltac:(unfold is_u32; lia)) as E. rewrite Z.add_0_r in E.
  rewrite (bind_Ret _ _ _ _ _ E), (proj2 (Z.eqb_neq va 0)) by lia. clear E.
  rewrite (bind_Ret _ _ _ _ _ (to_kernel_run va
    ltac:(unfold PROCESS_SECTION_VIRTUAL_ADDRRESS; lia))).
  unfold PROCESS_SECTION_VIRTUAL_ADDRRESS.
  rewrite (bind_Ret _ _ _ _ _ (load_cstr_run (va - 0x00800000) arg Hne ltac:(lia) ltac:(lia) Hb)).
  erewrite bind_Ret.
  2:{ unfold lift, strcpy_buf, PROCESS_MAX_ARG_SIZE.
      by rewrite (proj2 (Z.leb_le (Z.of_nat (length arg) + 1) 32)) by lia. }
  erewrite bind_Ret; [done|]. rewrite <- Z.add_assoc.
  apply (IH (o + 4) vas args); [|done|simpl in Hn; lia]. cbn [length] in Hhi.
  split; [lia|lia| |done].
  intros j b Hj. replace (o + 4 + Z.of_nat j) with (o + Z.of_nat (4 + j)) by lia.
  apply Hw. done.
Qed.
End read_back.

(** The vector that exec leaves on the stack. *)
Lemma args_vector args s : args_ok args →
  vector_at (args_image args s) (argv_ptr args - BASE)
    (args_layout PROCESS_STACK_VIRTUAL_ADDRRESS args) args.
Proof.
  intros Hok. pose proof (argv_range args Hok) as (Hlo & Hmid & Hhi). pose proof Hok as [Hlen Hargs].
  unfold PROCESS_SECTION_VIRTUAL_ADDRRESS.
  split; rewrite ?length_layout; try (unfold PROCESS_STACK_VIRTUAL_ADDRRESS in *; lia).
  { apply has_put_bytes. }
  apply Forall2_same_length_lookup_2; [apply length_layout|].
  intros k va arg Hva Hk.
  destruct (put_args_string args PROCESS_STACK_VIRTUAL_ADDRRESS s k arg va Hk Hva)
    as (Hb & [Hv1 Hv2] & Hv3).
  unfold PROCESS_STACK_VIRTUAL_ADDRRESS, PROCESS_SECTION_VIRTUAL_ADDRRESS in *.
  split_and!; [lia|lia|]. apply has_bytes_put; [done|]. right.
  unfold argv_words, PROCESS_STACK_VIRTUAL_ADDRRESS.
  rewrite length_words, length_app, length_layout. cbn [length].
  unfold PROCESS_SECTION_VIRTUAL_ADDRRESS. lia.
Qed.

(** ** Properties *)


(** C9. The program finds its arguments: after exec, the vector that r0 points to reads
    back - by the very function with which the kernel copies the arguments of EXEC - as
    the arguments that were passed. *)
Theorem exec_argv_roundtrip w p a args P f content `{!Readable P f content} :
  wf w → running w p → exec_ok w a args P f content → (length args ≤ 8)%nat →
  ∃ w' q x, scheduler_cur_proc_exec a args w = Ret (0, w') ∧ running w' q ∧
    r0 (context q) = sp (context q) ∧
    scheduler_cur_proc_to_kernel_address (r0 (context q)) w' = Ret (x, w') ∧
    copy_argv (Z.to_nat PROCESS_MAX_ARG_COUNT) x w' = Ret (args, w').
Proof.
  intros Hwf Hrun Hok Hn. destruct (exec_run w p Hwf Hrun a args P f content Hok) as (v2 & E & _).
  pose proof (wf_exec _ _ _ _ _ Hwf E) as Hwf'.
  pose proof (xo_args _ _ _ _ _ _ Hok) as Hargs. pose proof (argv_range args Hargs) as (Hlo & Hmid & Hhi).
  set (w' := executed w p content args v2) in *.
  set (q := with_context (exec_context content args) p).
  assert (running w' q) as Hrun'.
  { destruct Hrun as [Hp Hst]. split; [|done]. unfold w', executed. rewrite put_live.
    apply list_lookup_insert_eq. by eapply lookup_lt_Some. }
  assert (ram w' !! memory_section q = Some (args_image args (segments_image content))) as Hram
    by apply lookup_insert_eq.
  exists w', q. eexists. split; [exact E|]. split; [exact Hrun'|]. split; [done|]. split.
  - apply (to_kernel_run w' q _ Hwf' Hrun' Hram).
    unfold PROCESS_SECTION_VIRTUAL_ADDRRESS, PROCESS_STACK_VIRTUAL_ADDRRESS in *. simpl. lia.
  - eapply (copy_argv_run w' q _ Hwf' Hrun' Hram); [by apply args_vector|apply Hargs|done].
Qed.

End ExecSpec.
