(* ===== verification/FamilySpec.v ===== *)
(** * fork, wait and exit together

    A process forks; it waits for its child, and the child exits, in either order, with
    timer interrupts and computations of both in between.  Whatever the interleaving, the
    parent comes to run alone again, with the child's pid as the result and its status in
    memory, and the child's section has gone back. *)
From S2P Require Import Prelude Bitfield Mmu Alloc Heap Hash Fs FsState Devices Ramfs Fat32 Vfs Keeps Scheduler SchedulerInv SchedulerOps SchedulerFork SchedulerSpec SchedulerReach Exec Syscalls SystemInv ExecSpec.
Import Fs FsState Devices Vfs Scheduler SchedulerInv SchedulerOps SchedulerFork SchedulerSpec SchedulerReach Exec Syscalls SystemInv ExecSpec.

Module FamilySpec.

Abbreviation BASE := PROCESS_SECTION_VIRTUAL_ADDRRESS.

(** ** A call, step by step *)

Lemma get_id_any (w : system) q : wf w → live (sched w) !! Z.to_nat (current_proc (sched w)) = Some q →
  scheduler_cur_proc_get_id w = Ret (id q, w).
Proof.
  intros H Hq. pose proof (wf_current w H). unfold scheduler_cur_proc_get_id.
  rewrite (bind_Ret _ _ _ _ _ (get_current_eq w H)).
  by rewrite (bind_Ret _ _ _ _ _ (get_proc_live w _ q (proj1 (wf_current w H)) Hq)).
Qed.

(** A call, when its handler has come back: in the same process, or, after EXIT, in another. *)
Lemma dispatch_run num h a0 a1 a2 w q st w' q' : 0 ≤ num < 17 → _syscall_table !! Z.to_nat num = Some h →
  wf w → live (sched w) !! Z.to_nat (current_proc (sched w)) = Some q →
  h a0 a1 a2 w = Ret (st, w') → wf w' →
  live (sched w') !! Z.to_nat (current_proc (sched w')) = Some q' →
  num ≠ SYSCALL__EXEC →
  kernel_syscall_handler num a0 a1 a2 w =
    (if negb (id q' =? id q) then kassert (num =? SYSCALL__EXIT) "syscall_num == SYSCALL__EXIT"
     else scheduler_cur_proc_set_syscall_status st) w'.
Proof.
  intros Hnum Hh H Hq E H' Hq' Hne. unfold kernel_syscall_handler, SYSCALL_COUNT.
  destruct (num >=? 17) eqn:Hge; [apply Z.geb_le in Hge; lia|].
  rewrite (bind_Ret _ _ _ _ _ (get_id_any w q H Hq)).
  erewrite bind_Ret by (apply lift_Ret; split; [apply arr_get_lookup; [lia|exact Hh]|reflexivity]).
  rewrite (bind_Ret _ _ _ _ _ E), (bind_Ret _ _ _ _ _ (get_id_any w' q' H' Hq')).
  by rewrite (proj2 (Z.eqb_neq num SYSCALL__EXEC) Hne).
Qed.

Lemma ready_at (w : system) (k : nat) q : live (sched w) !! k = Some q → is_scheduled q = true →
  ready w (Z.of_nat k) = true.
Proof. intros Hq Hs. unfold ready. by rewrite Nat2Z.id, Hq. Qed.

Lemma delete_last {A} (l : list A) a b : delete (S (length l)) (l ++ [a; b]) = l ++ [a].
Proof.
  change [a; b] with ([a] ++ [b]). rewrite app_assoc.
  replace (S (length l)) with (length (l ++ [a])) by (rewrite length_app; simpl; lia).
  rewrite delete_middle. apply app_nil_r.
Qed.

Lemma reparent_none cid l : Forall (λ q, parent_id q ≠ cid) l → reparent cid <$> l = l.
Proof.
  induction 1 as [|q l Hq _ IH]; [done|]. rewrite fmap_cons, IH. unfold reparent.
  by rewrite (proj2 (Z.eqb_neq _ _) Hq).
Qed.

Section family.
(** The processes before parent and child in the table, which sleep; the pids of both, the
    section of the parent, the sections that were taken before; the status that the child
    exits with, and the address at which the parent wants it. *)
Context (others : list process) (pid cid sec : Z) (owned0 : Z → bool) (status va : Z).
Hypothesis Hva : BASE ≤ va ∧ va + 4 ≤ BASE + 0x100000.

Abbreviation ref := (sec + (va - BASE)).
Abbreviation place := (length others).

(** ** The states in between

    [waits] says that the parent has made its call, [exits] that the child has. *)
Record family (waits exits : bool) (w : system) (p c : process) : Prop := {
  fam_wf : wf w;
  fam_live : live (sched w) = others ++ p :: (if waits && exits then [] else [c]);
  fam_asleep : Forall (λ q, is_scheduled q = false) others;
  fam_ids : id p = pid ∧ id c = cid ∧ parent_id c = pid;
  fam_section : memory_section p = sec;
  fam_parent : schedule_state p = if waits && negb exits then PROC_SUSPENDED cid ref else PROC_SCHEDULED;
  fam_child : schedule_state c = if exits then PROC_EXITED (u32 status) else PROC_SCHEDULED;
  fam_sections : ∀ a, slot_owned (sections w) a =
    owned0 a || (negb exits && (a =? memory_section c));
  fam_fresh : exits = false → owned0 (memory_section c) = false;
  fam_childless : Forall (λ q, parent_id q ≠ cid) (others ++ [p]);
}.

(** At the end. *)
Definition reunited (w : system) : Prop :=
  wf w ∧ ∃ p, running w p ∧ live (sched w) = others ++ [p] ∧ id p = pid ∧ memory_section p = sec ∧
    r0 (context p) = u32 cid ∧ ram_load_word ref (ram w) = Ret (u32 status) ∧
    ∀ a, slot_owned (sections w) a = owned0 a.

Lemma family_lookup waits exits w p c (k : nat) q : family waits exits w p c →
  live (sched w) !! k = Some q →
  (k < place)%nat ∧ is_scheduled q = false ∨ k = place ∧ q = p ∨
  k = S place ∧ q = c ∧ waits && exits = false.
Proof using.
  intros [] Hk. rewrite fam_live0 in Hk. apply lookup_app_Some in Hk as [Hk|[Hle Hk]].
  - left. split; [by eapply lookup_lt_Some|]. rewrite Forall_forall in fam_asleep0.
    by eapply fam_asleep0, list_elem_of_lookup_2.
  - right. destruct (k - place)%nat as [|[|n]] eqn:E; simpl in Hk.
    + left. injection Hk as <-. split; [lia|done].
    + right. destruct (waits && exits); [done|]. injection Hk as <-. split; [lia|done].
    + by destruct (waits && exits).
Qed.

Lemma family_parent waits exits w p c : family waits exits w p c →
  live (sched w) !! place = Some p.
Proof using. intros []. by rewrite fam_live0, lookup_app_r, Nat.sub_diag by lia. Qed.

Lemma family_child waits exits w p c : family waits exits w p c → waits && exits = false →
  live (sched w) !! S place = Some c.
Proof using.
  intros [] E. rewrite fam_live0, E, lookup_app_r by lia.
  by replace (S place - place)%nat with 1%nat by lia.
Qed.

(** Who runs *)
Lemma family_running waits exits w p c q : family waits exits w p c → running w q →
  q = p ∧ current_proc (sched w) = Z.of_nat place ∧ waits && negb exits = false ∨
  q = c ∧ current_proc (sched w) = Z.of_nat (S place) ∧ exits = false.
Proof using.
  intros Hf [Hq Hst]. pose proof (wf_current w (fam_wf _ _ _ _ _ Hf)).
  destruct (family_lookup _ _ _ _ _ _ _ Hf Hq) as [[_ Hs]|[[Hk ->]|(Hk & -> & _)]].
  - unfold is_scheduled in Hs. by rewrite Hst in Hs.
  - left. split; [done|]. split; [lia|]. rewrite (fam_parent _ _ _ _ _ Hf) in Hst.
    by destruct (waits && negb exits).
  - right. split; [done|]. split; [lia|]. rewrite (fam_child _ _ _ _ _ Hf) in Hst. by destruct exits.
Qed.

(** Their registers do not matter. *)
Lemma family_put waits exits w p c i q x : family waits exits w p c →
  live (sched w) !! Z.to_nat i = Some q → 0 ≤ i → Z.of_nat place ≤ i →
  ∃ p' c', family waits exits (put_proc i (with_context x q) w) p' c' ∧
    (i = Z.of_nat place → p' = with_context x p ∧ c' = c) ∧ ram (put_proc i (with_context x q) w) = ram w.
Proof using.
  intros Hf Hq Hi Hle. pose proof Hf as [].
  assert (wf (put_proc i (with_context x q) w)) as Hw by (apply wf_put_context; done || lia).
  destruct (family_lookup _ _ _ _ _ _ _ Hf Hq) as [[Hlt _]|[[Hk ->]|(Hk & -> & He)]]; [lia| |].
  - exists (with_context x p), c. split; [|by split]. split; try done.
    2: { rewrite !Forall_app in *. destruct fam_childless0 as [? [? _]%Forall_cons]. split; [done|].
         by constructor. }
    rewrite put_live, fam_live0, Hk, insert_app_r_alt, Nat.sub_diag by lia. done.
  - exists p, (with_context x c). split; [|by split; [lia|]]. split; try done.
    rewrite put_live, fam_live0, Hk, He, insert_app_r_alt by lia.
    by replace (S place - place)%nat with 1%nat by lia.
Qed.

(** Saving the registers of the one that runs. *)
Lemma family_save waits exits w p c q x : family waits exits w p c → running w q →
  ∃ p' c' w', scheduler_save_current_context x w = Ret ((), w') ∧ family waits exits w' p' c' ∧
    running w' (with_context x q) ∧ current_proc (sched w') = current_proc (sched w) ∧
    ram w' = ram w.
Proof using.
  intros Hf Hq. pose proof (fam_wf _ _ _ _ _ Hf) as H. pose proof (wf_current w H).
  pose proof (family_running _ _ _ _ _ _ Hf Hq) as Hr. pose proof Hq as [Hl Hst].
  destruct (family_put _ _ _ _ _ (current_proc (sched w)) q x Hf Hl) as (p' & c' & Hf' & _); [lia|lia|].
  exists p', c', (put_proc (current_proc (sched w)) (with_context x q) w).
  assert (scheduler_save_current_context x w =
    Ret ((), put_proc (current_proc (sched w)) (with_context x q) w)) as E.
  { unfold scheduler_save_current_context. rewrite (bind_Ret _ _ _ _ _ (get_current_eq w H)).
    by rewrite (upd_proc_live w _ q) by (done || lia). }
  split; [exact E|]. split; [done|]. split; [|done].
  by apply (save_running x w q).
Qed.

(** The result of a call, in the registers of whoever is the current process. *)
Lemma family_status waits exits w p c st : family waits exits w p c →
  Z.of_nat place ≤ current_proc (sched w) →
  ∃ p' c' w', scheduler_cur_proc_set_syscall_status st w = Ret ((), w') ∧ family waits exits w' p' c' ∧
    (current_proc (sched w) = Z.of_nat place → r0 (context p') = u32 st ∧ c' = c) ∧ ram w' = ram w.
Proof using.
  intros Hf Hle. pose proof (fam_wf _ _ _ _ _ Hf) as H. pose proof (wf_current w H) as Hc.
  destruct (live_some w _ H Hc) as [q Hq].
  destruct (family_put _ _ _ _ _ (current_proc (sched w)) q (set_r0 (u32 st) (context q)) Hf Hq)
    as (p' & c' & Hf' & Hp' & Hram); [lia|done|].
  exists p', c', (put_proc (current_proc (sched w)) (with_context (set_r0 (u32 st) (context q)) q) w).
  split; [|split; [done|split; [|done]]].
  - unfold scheduler_cur_proc_set_syscall_status. rewrite (bind_Ret _ _ _ _ _ (get_current_eq w H)).
    by rewrite (upd_proc_live w _ q) by (done || lia).
  - intros E. destruct (family_lookup _ _ _ _ _ _ _ Hf Hq) as [[Hlt _]|[[Hk ->]|(Hk & -> & He)]]; [lia| |lia].
    destruct (Hp' E) as [-> ->]. by split.
Qed.

(** A task switch chooses one that runs. *)
Lemma family_switch waits exits w p c i : family waits exits w p c →
  0 ≤ i → ready w i = true →
  ∃ j, scheduler_switch_task w = Ret (j, with_current j w) ∧ family waits exits (with_current j w) p c ∧
    ∃ q, running (with_current j w) q.
Proof using.
  intros Hf Hi Hr. pose proof Hf as [].
  destruct (switch_run w fam_wf0) as [(d & _ & Hd & _ & E & Hw)|[Hnone _]].
  - exists (after w d). split; [done|]. split; [by split|]. unfold ready in Hd.
    destruct (live (sched w) !! Z.to_nat (after w d)) as [q|] eqn:Hq; [|done].
    exists q. split; [exact Hq|]. unfold is_scheduled in Hd. by destruct (schedule_state q).
  - assert (i < proc_count (sched w)).
    { unfold ready in Hr. destruct (live (sched w) !! Z.to_nat i) as [q|] eqn:Hq; [|done].
      apply live_lookup in Hq as [_ ?]. lia. }
    by rewrite Hnone in Hr by lia.
Qed.

(** *** The calls *)

(** Both calls have been made, and the parent is the current process or will be. *)
Lemma family_reunited w p c i w' : family true true w p c → r0 (context p) = u32 cid →
  ram_load_word ref (ram w) = Ret (u32 status) → scheduler_switch_task w = Ret (i, w') → reunited w'.
Proof using.
  intros Hf Hr0 Hload E. pose proof (fam_parent _ _ _ _ _ Hf) as Hst.
  destruct (family_switch _ _ w p c (Z.of_nat place) Hf) as (j & E' & Hf' & q & Hq); [lia| |].
  { eapply ready_at; [by eapply family_parent|]. unfold is_scheduled. by rewrite Hst. }
  rewrite E' in E. injection E as <- <-.
  destruct (family_running _ _ _ _ _ _ Hf' Hq) as [(-> & _)|(_ & _ & ?)]; [|done].
  destruct Hf' as [H Hl _ (Hid & _) Hsec _ _ Hown _ _]. split; [done|]. exists p. split_and!; try done.
  intros a. rewrite Hown. apply orb_false_r.
Qed.

(** What a switch in the middle leaves. *)
Definition between (waits exits : bool) (w : system) : Prop :=
  (∃ p c, family waits exits w p c) ∧ ∃ q, running w q.

Lemma between_switch waits exits w p c i : family waits exits w p c → 0 ≤ i → ready w i = true →
  ∃ j w', scheduler_switch_task w = Ret (j, w') ∧ between waits exits w'.
Proof using.
  intros Hf Hi Hr. destruct (family_switch _ _ w p c i Hf Hi Hr) as (j & E & Hf' & Hq).
  exists j, (with_current j w). split; [done|]. split; [by exists p, c|done].
Qed.

Lemma between_irq waits exits w x : between waits exits w →
  ∃ j w', _irq_handler x w = Ret (j, w') ∧ between waits exits w'.
Proof using.
  intros [(p & c & Hf) [q Hq]].
  destruct (family_save _ _ w p c q x Hf Hq) as (p1 & c1 & w1 & E & Hf1 & Hq1 & _).
  destruct (between_switch _ _ w1 p1 c1 (current_proc (sched w1)) Hf1) as (j & w' & E' & Hb).
  - apply wf_current, Hf1.
  - unfold ready. destruct Hq1 as [-> Hst]. unfold is_scheduled. by rewrite Hst.
  - exists j, w'. split; [|done]. unfold _irq_handler. by rewrite (bind_Ret _ _ _ _ _ E).
Qed.

Lemma between_write waits exits w q s : between waits exits w → running w q →
  between waits exits (with_ram (<[memory_section q := s]> (ram w)) w).
Proof using.
  intros [(p & c & Hf) [q' Hq']] Hq. pose proof Hf as [].
  assert (alive q = true) as Ha by (unfold alive; by rewrite (proj2 Hq)).
  destruct (section_of w _ q fam_wf0 (proj1 Hq) Ha) as (_ & _ & _ & s0 & Hs).
  split; [|by exists q']. exists p, c. split; try done. by eapply wf_ram.
Qed.

(** *** wait *)

Lemma family_order waits exits w p c : family waits exits w p c → waits && exits = false → pid < cid.
Proof using.
  intros Hf He. destruct (fam_ids _ _ _ _ _ Hf) as (<- & <- & _).
  by eapply (ids_sorted _ _ (wf_ids _ (fam_wf _ _ _ _ _ Hf)));
    [eapply family_parent|eapply family_child|lia].
Qed.

(** Which of the two runs. *)
Lemma running_parent_at waits exits w p c q : family waits exits w p c → waits && exits = false →
  running w q → id q = pid → q = p ∧ current_proc (sched w) = Z.of_nat place.
Proof using.
  intros Hf He Hq Hid. pose proof (family_order _ _ _ _ _ Hf He).
  destruct (fam_ids _ _ _ _ _ Hf) as (_ & Hc & _).
  destruct (family_running _ _ _ _ _ _ Hf Hq) as [(-> & Hcur & _)|(-> & _)]; [done|lia].
Qed.

Lemma running_child_at waits exits w p c q : family waits exits w p c → waits && exits = false →
  running w q → id q = cid → q = c ∧ current_proc (sched w) = Z.of_nat (S place).
Proof using.
  intros Hf He Hq Hid. pose proof (family_order _ _ _ _ _ Hf He).
  destruct (fam_ids _ _ _ _ _ Hf) as (Hp & _ & _).
  destruct (family_running _ _ _ _ _ _ Hf Hq) as [(-> & _ & _)|(-> & Hcur & _)]; [lia|done].
Qed.

(** Only the child has its pid. *)
Lemma family_child_only waits exits w p c (k : nat) q : family waits exits w p c → waits && exits = false →
  live (sched w) !! k = Some q → id q = cid → k = S place ∧ q = c.
Proof using.
  intros Hf He Hq Hid. pose proof (family_child _ _ _ _ _ Hf He) as Hc.
  assert (k = S place) as ->; [|split; [done|congruence]].
  eapply (ids_ok_inj _ _ _ _ _ _ (wf_ids _ (fam_wf _ _ _ _ _ Hf)) Hq Hc).
  destruct (fam_ids _ _ _ _ _ Hf) as (_ & -> & _). exact Hid.
Qed.

Lemma family_range waits exits w p c : family waits exits w p c → waits && exits = false →
  1 ≤ cid < 0x80000000.
Proof using.
  intros Hf He. pose proof (fam_wf _ _ _ _ _ Hf) as H. pose proof (wf_gen w H).
  pose proof (ids_range _ _ (wf_ids w H) _ _ (family_child _ _ _ _ _ Hf He)) as Hr.
  destruct (fam_ids _ _ _ _ _ Hf) as (_ & <- & _). lia.
Qed.

(** The handler of WAITPID, called by the parent. *)
Lemma family_wait_handler exits w p c : family false exits w p c → running w p → id p = pid →
  ∃ st w' p', _syscall__WAITPID cid va 0 w = Ret (st, w') ∧ family true exits w' p' c ∧
    current_proc (sched w') = Z.of_nat place ∧
    (exits = true → st = cid ∧ ram_load_word ref (ram w') = Ret (u32 status)).
Proof using Hva.
  intros Hf Hp Hid. pose proof (family_range _ _ _ _ _ Hf eq_refl) as Hc.
  destruct (running_parent_at _ _ _ _ _ _ Hf eq_refl Hp Hid) as [_ Hcur].
  pose proof (family_order _ _ _ _ _ Hf eq_refl) as Hlt. pose proof Hf as [].
  assert (alive p = true) as Ha by (unfold alive; by rewrite (proj2 Hp)).
  destruct (section_of w _ p fam_wf0 (proj1 Hp) Ha) as (_ & _ & _ & s0 & Hs).
  unfold _syscall__WAITPID.
  rewrite (bind_Ret _ _ _ _ _ (to_kernel_run w p s0 fam_wf0 Hp Hs va ltac:(lia))).
  rewrite s32_small, fam_section0 by lia.
  destruct (wait_run w p cid ref fam_wf0 Hp) as (st & w' & E & H' & Hcase & Hsec & Htab).
  { unfold own_word. lia. }
  { right. lia. }
  pose proof (family_child _ _ _ _ _ Hf eq_refl) as Hch. destruct fam_ids0 as (Hi1 & Hi2 & Hi3).
  destruct Hcase as [(_ & _ & [?|Hnone])|[(k & d & sd & Hd & Hdid & Hst & -> & Hl & Hrun & Hload)|
    (k & d & Hd & Hdid & Hda & Hl & Hcur')]].
  - lia.
  - by apply Hnone in Hch.
  - destruct (family_child_only _ _ _ _ _ _ _ Hf eq_refl Hd Hdid) as [-> ->].
    rewrite fam_child0 in Hst. destruct exits; [|done]. injection Hst as <-.
    assert (family true true w' p c) as Hf'.
    { split; try done.
      - rewrite Hl, fam_live0. apply delete_last.
      - by rewrite Hsec. }
    exists cid, w', p. split_and!; [exact E|done| |].
    + destruct (family_running _ _ _ _ _ _ Hf' Hrun) as [(_ & -> & _)|(_ & _ & ?)]; done.
    + intros _. split; [done|]. apply Hload, u32_range.
  - destruct (family_child_only _ _ _ _ _ _ _ Hf eq_refl Hd Hdid) as [-> ->].
    destruct exits; [unfold alive in Hda; by rewrite fam_child0 in Hda|].
    exists st, w', (suspended cid ref p). split_and!; [exact E| |by rewrite Hcur'|done].
    split; try done.
    + rewrite Hl, fam_live0, Hcur, Nat2Z.id, insert_app_r_alt, Nat.sub_diag by lia. done.
    + by rewrite Hsec.
    + rewrite !Forall_app in *. destruct fam_childless0 as [? [? _]%Forall_cons]. split; [done|].
      by constructor.
Qed.

(** The parent waits. *)
Lemma family_wait exits w q x : between false exits w → running w q → id q = pid →
  ∃ j w', Syscalls._svc_handler x SYSCALL__WAITPID cid va 0 w = Ret (j, w') ∧
    if exits then reunited w' else between true exits w'.
Proof using Hva.
  intros [(p & c & Hf) _] Hq Hid.
  destruct (family_save _ _ w p c q x Hf Hq) as (p1 & c1 & w1 & E1 & Hf1 & Hq1 & _).
  destruct (running_parent_at _ _ _ _ _ _ Hf1 eq_refl Hq1 Hid) as [Ep1 _]. rewrite Ep1 in Hq1.
  destruct (family_wait_handler _ _ _ _ Hf1 Hq1) as (st & w2 & p2 & E2 & Hf2 & Hcur & Hload);
    [by rewrite <- Ep1|].
  destruct (family_status _ _ w2 p2 c1 st Hf2) as (p3 & c3 & w3 & E3 & Hf3 & Hp3 & Hram); [lia|].
  assert (kernel_syscall_handler SYSCALL__WAITPID cid va 0 w1 = Ret ((), w3)) as E.
  { rewrite (dispatch_run SYSCALL__WAITPID _syscall__WAITPID cid va 0 w1 p1 st w2 p2); try done.
    - destruct (fam_ids _ _ _ _ _ Hf2) as (-> & _), (fam_ids _ _ _ _ _ Hf1) as (-> & _).
      by rewrite Z.eqb_refl.
    - apply Hf1.
    - apply Hq1.
    - apply Hf2.
    - rewrite Hcur, Nat2Z.id. by eapply family_parent. }
  unfold Syscalls._svc_handler. rewrite (bind_Ret _ _ _ _ _ E1), (bind_Ret _ _ _ _ _ E).
  destruct exits.
  - destruct (Hload eq_refl) as [-> Hword]. destruct (Hp3 Hcur) as [Hr0 _].
    destruct (between_switch _ _ w3 p3 c3 (Z.of_nat place) Hf3) as (j & w4 & E4 & _); [lia| |].
    { eapply ready_at; [by eapply family_parent|]. unfold is_scheduled.
      by rewrite (fam_parent _ _ _ _ _ Hf3). }
    exists j, w4. split; [exact E4|]. eapply family_reunited; [exact Hf3|exact Hr0| |exact E4].
    by rewrite Hram.
  - apply (between_switch _ _ w3 p3 c3 (Z.of_nat (S place)) Hf3); [lia|].
    eapply ready_at; [by eapply family_child|]. unfold is_scheduled.
    by rewrite (fam_child _ _ _ _ _ Hf3).
Qed.

(** *** exit *)

(** The handler of EXIT, called by the child: when the parent waits it has its result. *)
Lemma family_exit_handler waits w p c : family waits false w p c → running w c → id c = cid →
  ∃ w' p', _syscall__EXIT status 0 0 w = Ret (0, w') ∧ family waits true w' p' (zombie status c) ∧
    if waits then r0 (context p') = u32 cid ∧ ram_load_word ref (ram w') = Ret (u32 status)
    else current_proc (sched w') = Z.of_nat (S place).
Proof using.
  intros Hf Hc Hid. assert (waits && false = false) as He by apply andb_false_r.
  pose proof (family_order _ _ _ _ _ Hf He) as Hlt.
  destruct (running_child_at _ _ _ _ _ _ Hf He Hc Hid) as [_ Hcur].
  pose proof (family_parent _ _ _ _ _ Hf) as Hp. pose proof Hf as [].
  destruct fam_ids0 as (Hi1 & Hi2 & Hi3).
  assert (1 ≤ pid) as Hpid by (rewrite <- Hi1; by eapply (ids_range _ _ (wf_ids w fam_wf0))).
  destruct (exit_run w c (s32 status) fam_wf0 Hc) as (w' & j & q & E & H' & Hj & Hqid & Hrel & Hcase).
  { unfold INIT_PROC_ID. lia. }
  assert (j = place ∧ q = p) as [-> ->].
  { assert (j = place) as ->; [|split; [done|congruence]].
    eapply (ids_ok_inj _ _ _ _ _ _ (wf_ids w fam_wf0) Hj Hp). congruence. }
  assert (zombie (s32 status) c = zombie status c) as Hz by (unfold zombie; by rewrite u32_s32).
  assert (exited_table (s32 status) (Z.to_nat (current_proc (sched w))) c (live (sched w)) =
    others ++ [p; zombie status c]) as Hexit.
  { unfold exited_table. rewrite Hcur, Nat2Z.id, fam_live0, He, insert_app_r_alt, Hz by lia.
    replace (S place - place)%nat with 1%nat by lia. cbn [insert list_insert]. rewrite Hi2.
    apply reparent_none. change [p; zombie status c] with ([p] ++ [zombie status c]).
    rewrite app_assoc. apply Forall_app. split; [done|]. constructor; [|constructor]. simpl. lia. }
  assert (∀ a, slot_owned (sections w') a = owned0 a || (negb true && (a =? memory_section (zombie status c)))) as Hown.
  { intros a. destruct Hrel as (_ & _ & Hs & _). rewrite Hs, fam_sections0. cbn [negb andb].
    destruct (Z.eqb_spec a (memory_section c)) as [->|]; cbn [negb].
    - by rewrite fam_fresh0.
    - by rewrite !orb_false_r, andb_true_r. }
  assert (_syscall__EXIT status 0 0 w = Ret (0, w')) as E'.
  { unfold _syscall__EXIT. by rewrite (bind_Ret _ _ _ _ _ E). }
  cbv zeta in Hcase. rewrite Hexit, fam_parent0 in Hcase. destruct waits; cbn [andb negb] in Hcase.
  - rewrite Hi2, Z.eqb_refl in Hcase. destruct Hcase as (Hl & Hload & _).
    exists w', (woken cid p). split; [exact E'|]. split; [|split; [done|by rewrite Hload, u32_s32]].
    assert (reparent cid p = p) as Hrp.
    { apply Forall_app in fam_childless0 as [_ [Hnp _]%Forall_cons]. unfold reparent.
      by rewrite (proj2 (Z.eqb_neq _ _) Hnp). }
    split; try done.
    + rewrite Hl, Hrp, Hcur, Nat2Z.id, insert_app_r_alt, Nat.sub_diag by lia. apply delete_last.
    + rewrite !Forall_app in *. destruct fam_childless0 as [? [? _]%Forall_cons]. split; [done|].
      by constructor.
  - destruct Hcase as (Hl & _ & Hcur'). exists w', p. split; [exact E'|].
    split; [by split|]. by rewrite Hcur'.
Qed.

(** The child exits. *)
Lemma family_exit waits w q x : between waits false w → running w q → id q = cid →
  ∃ j w', Syscalls._svc_handler x SYSCALL__EXIT status 0 0 w = Ret (j, w') ∧
    if waits then reunited w' else between waits true w'.
Proof using.
  intros [(p & c & Hf) _] Hq Hid. assert (waits && false = false) as He by apply andb_false_r.
  destruct (family_save _ _ w p c q x Hf Hq) as (p1 & c1 & w1 & E1 & Hf1 & Hq1 & _).
  destruct (running_child_at _ _ _ _ _ _ Hf1 He Hq1 Hid) as [Ec1 _]. rewrite Ec1 in Hq1.
  pose proof (family_order _ _ _ _ _ Hf1 He) as Hlt.
  assert (id c1 = cid) as Hid1 by (by rewrite <- Ec1).
  destruct (family_exit_handler _ _ _ _ Hf1 Hq1 Hid1) as (w2 & p2 & E2 & Hf2 & Hres).
  unfold Syscalls._svc_handler. rewrite (bind_Ret _ _ _ _ _ E1).
  pose proof (wf_current w2 (fam_wf _ _ _ _ _ Hf2)) as Hc2.
  destruct (live_some w2 _ (fam_wf _ _ _ _ _ Hf2) Hc2) as [q2 Hq2].
  pose proof (dispatch_run SYSCALL__EXIT _syscall__EXIT status 0 0 w1 c1 0 w2 q2
    ltac:(unfold SYSCALL__EXIT; lia) eq_refl
    (fam_wf _ _ _ _ _ Hf1) (proj1 Hq1) E2 (fam_wf _ _ _ _ _ Hf2) Hq2 ltac:(done)) as E.
  rewrite Hid1 in E. destruct waits.
  - destruct Hres as [Hr0 Hload]. rewrite (proj2 (Z.eqb_neq (id q2) cid)) in E.
    2: { destruct (family_lookup _ _ _ _ _ _ _ Hf2 Hq2) as [[Hk _]|[[_ ->]|(_ & _ & ?)]]; [| |done].
         - pose proof (family_child _ _ _ _ _ Hf1 He) as Hch.
           rewrite (fam_live _ _ _ _ _ Hf2), lookup_app_l in Hq2 by done.
           assert (live (sched w1) !! Z.to_nat (current_proc (sched w2)) = Some q2) as Hq1'
             by (rewrite (fam_live _ _ _ _ _ Hf1); by apply lookup_app_l_Some).
           pose proof (ids_sorted _ _ (wf_ids _ (fam_wf _ _ _ _ _ Hf1)) _ _ _ _ Hq1' Hch ltac:(lia)). lia.
         - destruct (fam_ids _ _ _ _ _ Hf2) as (-> & _). lia. }
    cbn [negb] in E.
    assert (kernel_syscall_handler SYSCALL__EXIT status 0 0 w1 = Ret ((), w2)) as E3 by exact E.
    rewrite (bind_Ret _ _ _ _ _ E3).
    destruct (between_switch _ _ w2 p2 _ (Z.of_nat place) Hf2) as (j & w4 & E4 & _); [lia| |].
    { eapply ready_at; [by eapply family_parent|]. unfold is_scheduled.
      by rewrite (fam_parent _ _ _ _ _ Hf2). }
    exists j, w4. split; [exact E4|]. by eapply family_reunited.
  - rewrite Hres, Nat2Z.id, (family_child _ _ _ _ _ Hf2 eq_refl) in Hq2. injection Hq2 as <-.
    change (id (zombie status c1)) with (id c1) in E. rewrite Hid1, Z.eqb_refl in E. cbn [negb] in E.
    destruct (family_status _ _ w2 p2 _ 0 Hf2) as (p3 & c3 & w3 & E3 & Hf3 & _); [lia|].
    rewrite E3 in E. rewrite (bind_Ret _ _ _ _ _ E).
    apply (between_switch _ _ w3 p3 c3 (Z.of_nat place) Hf3); [lia|].
    eapply ready_at; [by eapply family_parent|]. unfold is_scheduled.
    by rewrite (fam_parent _ _ _ _ _ Hf3).
Qed.

(** ** The interleavings

    Between the fork and the end of both calls: interrupts of whoever runs, whatever the
    programs compute and store, the parent's call of WAITPID and the child's of EXIT, each
    once. *)
Inductive interleaving (w : system) : bool → bool → system → Prop :=
| il_start : interleaving w false false w
| il_irq waits exits w1 w2 x j : interleaving w waits exits w1 → waits && exits = false →
    Syscalls._irq_handler x w1 = Ret (j, w2) → interleaving w waits exits w2
| il_write waits exits w1 q s : interleaving w waits exits w1 → waits && exits = false →
    running w1 q → interleaving w waits exits (with_ram (<[memory_section q := s]> (ram w1)) w1)
| il_wait exits w1 w2 q x j : interleaving w false exits w1 → running w1 q → id q = pid →
    Syscalls._svc_handler x SYSCALL__WAITPID cid va 0 w1 = Ret (j, w2) → interleaving w true exits w2
| il_exit waits w1 w2 q x j : interleaving w waits false w1 → running w1 q → id q = cid →
    Syscalls._svc_handler x SYSCALL__EXIT status 0 0 w1 = Ret (j, w2) → interleaving w waits true w2.

Lemma interleaving_inv w waits exits w' : between false false w → interleaving w waits exits w' →
  if waits && exits then reunited w' else between waits exits w'.
Proof using Hva.
  intros Hw. induction 1 as [|waits exits w1 w2 x j _ IH Hc E|waits exits w1 q s _ IH Hc Hq|
    exits w1 w2 q x j _ IH Hq Hid E|waits w1 w2 q x j _ IH Hq Hid E].
  - done.
  - rewrite Hc in *. destruct (between_irq _ _ w1 x IH) as (j' & w2' & E' & Hb).
    rewrite E' in E. by injection E as _ <-.
  - rewrite Hc in *. by apply between_write.
  - cbn [andb] in IH |- *. destruct (family_wait exits w1 q x IH Hq Hid) as (j' & w2' & E' & Hb).
    rewrite E' in E. by injection E as _ <-.
  - rewrite andb_false_r in IH. rewrite andb_true_r.
    destruct (family_exit waits w1 q x IH Hq Hid) as (j' & w2' & E' & Hb).
    rewrite E' in E. by injection E as _ <-.
Qed.

(** Nothing gets stuck: whichever runs can make its call, and can be interrupted. *)
Definition goes_on (waits exits : bool) (w : system) : Prop :=
  (∃ q, running w q ∧
    (id q = pid ∧ waits = false ∧
       (∀ x, ∃ j w', Syscalls._svc_handler x SYSCALL__WAITPID cid va 0 w = Ret (j, w')) ∨
     id q = cid ∧ exits = false ∧
       ∀ x, ∃ j w', Syscalls._svc_handler x SYSCALL__EXIT status 0 0 w = Ret (j, w'))) ∧
  ∀ x, ∃ j w', Syscalls._irq_handler x w = Ret (j, w').

Lemma between_goes_on waits exits w : between waits exits w → waits && exits = false →
  goes_on waits exits w.
Proof using Hva.
  intros Hb Hc. split.
  2: { intros x. destruct (between_irq _ _ w x Hb) as (j & w' & E & _). by exists j, w'. }
  pose proof Hb as [(p & c & Hf) [q Hq]]. exists q. split; [done|].
  destruct (fam_ids _ _ _ _ _ Hf) as (Hp & Hch & _).
  destruct (family_running _ _ _ _ _ _ Hf Hq) as [(-> & _ & Hw)|(-> & _ & ->)].
  - left. assert (waits = false) as -> by (destruct waits, exits; done). split_and!; try done.
    intros x. destruct (family_wait exits w p x Hb Hq Hp) as (j & w' & E & _). by exists j, w'.
  - right. split_and!; try done.
    intros x. destruct (family_exit waits w c x Hb Hq Hch) as (j & w' & E & _). by exists j, w'.
Qed.
End family.

(** ** The fork *)

(** Nobody is a child of a process that does not exist yet. *)
Lemma childless (w : system) : wf w → (∀ q, live (sched w) !! O = Some q → parent_id q = 0) →
  Forall (λ q, parent_id q ≠ id_gen (sched w) + 1) (live (sched w)).
Proof.
  intros H H0. apply Forall_lookup_2. intros i q Hq. pose proof (wf_gen w H).
  destruct (decide (i = O)) as [->|Hi]; [rewrite (H0 q Hq); lia|].
  destruct (ids_parent _ _ (wf_ids w H) i q Hq Hi) as (j & r & Hr & _ & <- & _).
  pose proof (ids_range _ _ (wf_ids w H) _ _ Hr). lia.
Qed.

Lemma fork_handler others w p r w' va : wf w → running w p → live (sched w) = others ++ [p] →
  Forall (λ q, is_scheduled q = false) others →
  (∀ q, live (sched w) !! O = Some q → parent_id q = 0) →
  proc_count (sched w) < 32 → id_gen (sched w) + 1 < 0x80000000 →
  scheduler_cur_proc_fork w = Ret (r, w') →
  let cid := id_gen (sched w) + 1 in
  ∃ c, r = cid ∧ r0 (context c) = 0 ∧ current_proc (sched w') = Z.of_nat (length others) ∧
    ∀ status, family others (id p) cid (memory_section p) (slot_owned (sections w)) status va
      false false w' p c.
Proof.
  intros H Hp Hl Hs H0 Hn Hg E cid. pose proof (childless w H H0) as Hch.
  destruct (fork_run w p H Hp Hn Hg)
    as [[s E']|(sec & tab & s & t & mem & tb & fl & fs & E' & Hacq & Hmem & Htb & Hgr & Hfl & Hraise)];
    rewrite E' in E; [done|]. injection E as <- <-.
  exists (child_of (id_gen (sched w)) tab sec fl p). split; [done|]. split; [done|]. split.
  { change (current_proc (sched w) = Z.of_nat (length others)). pose proof (wf_current w H).
    destruct Hp as [Hp Hst]. rewrite Hl in Hp. apply lookup_app_Some in Hp as [Hp|[Hle Hp]].
    - rewrite Forall_forall in Hs. apply list_elem_of_lookup_2, Hs in Hp. unfold is_scheduled in Hp.
      by rewrite Hst in Hp.
    - apply lookup_lt_Some in Hp. simpl in Hp. lia. }
  intros status. destruct Hacq as (Hi1 & Hi2 & Hown1 & Hown2 & Ho1 & Ho2 & Htabs).
  split; try done.
  - by eapply wf_forked.
  - rewrite forked_live by done. by rewrite Hl, <- app_assoc.
  - apply Hp.
  - by rewrite <- Hl.
Qed.

(** The whole call. *)
Lemma family_fork others p w x a0 a1 a2 j w1 status va :
  wf w → running w p → live (sched w) = others ++ [p] →
  Forall (λ q, is_scheduled q = false) others →
  (∀ q, live (sched w) !! O = Some q → parent_id q = 0) →
  proc_count (sched w) < 32 → id_gen (sched w) + 1 < 0x80000000 →
  Syscalls._svc_handler x SYSCALL__FORK a0 a1 a2 w = Ret (j, w1) →
  ∃ p1 c1, family others (id p) (id_gen (sched w) + 1) (memory_section p) (slot_owned (sections w))
      status va false false w1 p1 c1 ∧ (∃ q, running w1 q) ∧
    r0 (context p1) = id_gen (sched w) + 1 ∧ r0 (context c1) = 0.
Proof.
  intros H Hp Hl Hs H0 Hn Hg E. pose proof (wf_current w H) as Hwc. pose proof (wf_gen w H) as Hwg.
  set (ws := put_proc (current_proc (sched w)) (with_context x p) w).
  assert (scheduler_save_current_context x w = Ret ((), ws)) as Es.
  { unfold scheduler_save_current_context. rewrite (bind_Ret _ _ _ _ _ (get_current_eq w H)).
    by rewrite (upd_proc_live w _ p) by (apply Hp || lia). }
  destruct (save_running x w p ws H Hp Es) as (H1 & Hp1 & _).
  assert (Z.to_nat (current_proc (sched w)) = length others) as Hcur.
  { destruct Hp as [Hp Hst]. rewrite Hl in Hp. apply lookup_app_Some in Hp as [Hp|[Hle Hp]].
    - rewrite Forall_forall in Hs. apply list_elem_of_lookup_2, Hs in Hp. unfold is_scheduled in Hp.
      by rewrite Hst in Hp.
    - apply lookup_lt_Some in Hp. simpl in Hp. lia. }
  assert (live (sched ws) = others ++ [with_context x p]) as Hl1.
  { unfold ws. rewrite put_live, Hl, Hcur, insert_app_r_alt, Nat.sub_diag by lia. done. }
  assert (∀ q, live (sched ws) !! O = Some q → parent_id q = 0) as H01.
  { rewrite Hl1. rewrite Hl in H0. destruct others as [|o others]; [|exact H0].
    intros q [= <-]. exact (H0 p eq_refl). }
  unfold Syscalls._svc_handler in E. rewrite (bind_Ret _ _ _ _ _ Es) in E.
  apply bind_inv in E as ([] & w2 & E2 & E).
  destruct (scheduler_cur_proc_fork ws) as [[r wk]|e| |] eqn:Ef.
  2-4: exfalso; unfold kernel_syscall_handler in E2; change (SYSCALL__FORK >=? SYSCALL_COUNT) with false in E2; cbv iota in E2;
    rewrite (bind_Ret _ _ _ _ _ (get_id_any ws _ H1 (proj1 Hp1))) in E2;
    erewrite bind_Ret in E2 by (apply lift_Ret; split; [apply arr_get_lookup; [done|reflexivity]|reflexivity]);
    unfold bind, _syscall__FORK in E2; by rewrite Ef in E2.
  destruct (fork_handler others ws (with_context x p) r wk va H1 Hp1 Hl1 Hs H01 Hn Hg Ef)
    as (c & -> & Hc0 & Hcurk & Hf). specialize (Hf status).
  change (id_gen (sched ws)) with (id_gen (sched w)) in *.
  change (slot_owned (sections ws)) with (slot_owned (sections w)) in Hf.
  rewrite (dispatch_run SYSCALL__FORK _syscall__FORK a0 a1 a2 ws (with_context x p)
    (id_gen (sched w) + 1) wk (with_context x p))
    in E2; try done.
  2: apply Hp1.
  2: apply Hf.
  2: { rewrite Hcurk, Nat2Z.id. by eapply family_parent. }
  rewrite Z.eqb_refl in E2. cbn [negb] in E2.
  destruct (family_status _ _ _ _ _ _ _ _ _ wk _ _ (id_gen (sched w) + 1) Hf)
    as (p3 & c3 & w3 & E3 & Hf3 & Hp3 & _); [lia|].
  rewrite E3 in E2. injection E2 as <-. destruct (Hp3 Hcurk) as [Hr0 ->].
  destruct (family_switch _ _ _ _ _ _ _ _ _ w3 _ _ (Z.of_nat (length others)) Hf3)
    as (i & E4 & Hf4 & Hq); [lia| |].
  { eapply ready_at; [by eapply family_parent|]. unfold is_scheduled.
    by rewrite (fam_parent _ _ _ _ _ _ _ _ _ _ _ _ Hf3). }
  rewrite E4 in E. injection E as <- <-. exists p3, c. split_and!; try done.
  rewrite Hr0. apply u32_small. lia.
Qed.

(** ** Properties *)

(** C11. fork, wait and exit in any order: a process that runs alone forks.  Its child has the
    next pid and 0 as the result of fork.  In every interleaving of timer interrupts, of
    computations of both, of the parent's WAITPID and the child's EXIT, no call fails before
    both were made; and once they were, the parent runs alone with the child's pid as its
    result, the child's status where it asked for it, and as many sections taken as before
    the fork. *)
Theorem fork_wait_exit others p w x a0 a1 a2 j w1 status va :
  wf w → running w p → live (sched w) = others ++ [p] →
  Forall (λ q, is_scheduled q = false) others →
  (∀ q, live (sched w) !! O = Some q → parent_id q = 0) →
  proc_count (sched w) < 32 → id_gen (sched w) + 1 < 0x80000000 →
  BASE ≤ va ∧ va + 4 ≤ BASE + 0x100000 →
  Syscalls._svc_handler x SYSCALL__FORK a0 a1 a2 w = Ret (j, w1) →
  let cid := id_gen (sched w) + 1 in
  (∃ p1 c1, live (sched w1) = others ++ [p1; c1] ∧ id p1 = id p ∧ id c1 = cid ∧
    r0 (context p1) = cid ∧ r0 (context c1) = 0) ∧
  ∀ waits exits w', interleaving (id p) cid status va w1 waits exits w' →
    if waits && exits then
      reunited others (id p) cid (memory_section p) (slot_owned (sections w)) status va w'
    else goes_on (id p) cid status va waits exits w'.
Proof.
  intros H Hp Hl Hs H0 Hn Hg Hva E cid.
  destruct (family_fork others p w x a0 a1 a2 j w1 status va H Hp Hl Hs H0 Hn Hg E)
    as (p1 & c1 & Hf & Hq & Hr1 & Hr2). split.
  - exists p1, c1. destruct (fam_ids _ _ _ _ _ _ _ _ _ _ _ _ Hf) as (Hi1 & Hi2 & _).
    split; [by rewrite (fam_live _ _ _ _ _ _ _ _ _ _ _ _ Hf)|]. by split_and!.
  - intros waits exits w' Hi. eapply interleaving_inv in Hi; [|exact Hva|split; [by exists p1, c1|done]].
    destruct (waits && exits) eqn:Hb; [done|]. by eapply between_goes_on.
Qed.
End FamilySpec.
