(* ===== verification/Kernel.v ===== *)
(** * Boot: [kernel/kernel.c]

    From the reset of the machine to the start of init: the allocators, the kernel's own
    translation table, the drivers, the scheduler, the VFS, the mounted file systems.

    The initialisation of the UART and of the timer is in [Peripherals], that of the SD
    host in [SdHost]; the MMU is switched on in [Boot]; log messages are not part of the
    state. *)
From S2P Require Import Prelude Bitfield Mmu Alloc Heap Hash Fs FsState Devices Ramfs Fat32 Vfs Scheduler Exec Syscalls.
Import Fs FsState Devices Vfs Scheduler Exec Syscalls.

Module Kernel.

(** ** Constants *)

Definition KERNEL_DYN_SECTIONS_BEGIN : Z := 0x00800000.
Definition KERNEL_DYN_SECTIONS_END : Z := 0x04800000.
Definition IO_REG_START : Z := 0x20000000.
Definition IO_REG_END : Z := 0x21000000.
Definition DEV_BLK_RAMDISK : Z := MAKE_DEV 0 0.
Definition DEV_BLK_SDCARD : Z := MAKE_DEV 1 0.
Definition DEV_CHR_TTY : Z := MAKE_DEV 0 0.
Definition SIZEOF_SCHEDULER : Z := 5260.

(** ** The machine after [_kernel_clear_bss] *)

(** The kernel's variables are zero.  Outside are the card in the slot and the bytes that
    will be typed. *)
Definition reset_fs (card : sd_card) (typed : list Z) : fs :=
  mkfs (Heap.mk 0 0 ∅ ∅) ∅ ∅ ∅ ∅ ∅ ∅ ∅ ∅ ∅ [zero_block_device; zero_block_device] ∅ card
    (mkuart typed []).

Definition reset (card : sd_card) (typed : list Z) : system :=
  mkworld (SectionAllocator.mk (replicate 8 0) 0)
    (TranslationTableAllocator.mk (replicate 8 0) 0 ∅) ∅
    (mksched (replicate 32 zero_process) 0 0 0)
    (mkvs (reset_fs card typed) (mkvfs 0 [] ∅ 0)).

(** ** [_kernel_init] *)

Definition _kernel_init_translation_table (table : Z) : MS unit :=
  let* _ := on_table table (λ t,
    Mmu.translation_table_add_identity_mapping t 0x00000000 KERNEL_DYN_SECTIONS_END
      Mmu.MMU_L1_SECTION_AP_KERNEL_RW_USER_NONE) in
  on_table table (λ t,
    Mmu.translation_table_add_identity_mapping t IO_REG_START IO_REG_END
      Mmu.MMU_L1_SECTION_AP_KERNEL_RW_USER_NONE).

(** [scheduler_init]: [_scheduler] is a zeroed block of the heap. *)
Definition scheduler_init : MS unit :=
  let* p := onfile (zoom (Heap.memory_calloc SIZEOF_SCHEDULER)) in
  let* _ := kassert (negb (p =? 0)) "_scheduler != NULL" in
  modify (comp_set (mksched (replicate 32 zero_process) 0 0 0)).

Section boot.
(** The address of the static variable [init_root_node] of [vfs.c], and what the memory
    that becomes the RAM disk holds. *)
Context (init_root_node : Z) (memory : gmap Z Z).

(** Up to the kernel's translation table, which is the result: the MMU is switched on next. *)
Definition _kernel_init_memory : MS Z :=
  let* _ := modify (comp_set
    (SectionAllocator.section_allocator_init KERNEL_DYN_SECTIONS_BEGIN)) in
  let* heap := zoom Heap.memory_allocator_init in
  let* _ := onfile (modify (comp_set heap)) in
  let* process_translation_tables_section := zoom SectionAllocator.section_allocator_alloc in
  let* t := gets ttables in
  let* _ := modify (comp_set (TranslationTableAllocator.translation_table_allocator_init
    process_translation_tables_section (TranslationTableAllocator.tables t))) in
  let* kernel_translation_table :=
    zoom TranslationTableAllocator.translation_table_allocator_alloc in
  let* _ := _kernel_init_translation_table kernel_translation_table in
  ret kernel_translation_table.

(** The drivers, the scheduler and the VFS *)
Definition _kernel_init_services : MS unit :=
  let* devices := zoom driver_registry_init in
  let* _ := onfile (modify (comp_set devices)) in
  let* _ := onfile (modify (comp_set
    (list_to_map (map (λ d, (blk_private d, memory)) (take 1 devices)) : gmap Z (gmap Z Z)))) in
  let* _ := scheduler_init in
  let* s := gets (λ w, vs_fs (filesys w)) in
  let* v := zoom (vfs_init init_root_node s) in
  modify (comp_set v).

Definition _kernel_init : MS Z :=
  let* kernel_translation_table := _kernel_init_memory in
  let* _ := _kernel_init_services in
  ret kernel_translation_table.

(** ** The file systems *)

Definition _kernel_mount_root_fs : MS unit :=
  let* sdcard_device := onfile (get_block_device DEV_BLK_SDCARD) in
  let* root_mount_status := onvfs (vfs_mount_dev sdcard_device (str "/") (str "fat32")) in
  kassert (root_mount_status =? 0) "root_mount_status == 0".

Definition _kernel_mount_dev_tmpfs : MS unit :=
  let* dev_mount_status := onvfs (vfs_mount None (str "/dev") (str "ramfs")) in
  let* _ := kassert (0 =? dev_mount_status) "0 == dev_mount_status" in
  let* r := onvfs (vfs_mknod (str "/dev/tty") S_IFCHR DEV_CHR_TTY) in
  let* _ := kassert (0 =? r) "0 == vfs_mknod(/dev/tty)" in
  let* r := onvfs (vfs_mknod (str "/dev/ramdisk") S_IFBLK DEV_BLK_RAMDISK) in
  let* _ := kassert (0 =? r) "0 == vfs_mknod(/dev/ramdisk)" in
  let* r := onvfs (vfs_mknod (str "/dev/sdcard") S_IFBLK DEV_BLK_SDCARD) in
  kassert (0 =? r) "0 == vfs_mknod(/dev/sdcard)".

(** The process to resume: the kernel's registers, [context], are saved to nowhere that
    matters. *)
Definition kernel_main (context : task_context) : MS Z :=
  let* _ := _kernel_init in
  let* _ := _kernel_mount_root_fs in
  let* _ := _kernel_mount_dev_tmpfs in
  let* _ := onfile mini_uart_getc in
  scheduler_start context (str "/bin/init").
End boot.

(** ** [kernel_fatal_error] *)

(** A key is awaited before the watchdog resets the machine. *)
Definition kernel_fatal_error (reason : string) : MS unit :=
  let* _ := onfile mini_uart_getc in
  fatal reason.

End Kernel.
