(* ===== verification/SystemExamples.v ===== *)
(** * The whole system on a concrete machine

    A card with a FAT32 volume that holds [/bin/init], a small ELF file, [/bin/notes.txt], a
    text of two clusters, an empty directory [/dev], and [/doc] with an empty file; the machine booted from it, and steps of the running system.
    They are the states at which the properties of the system are instantiated. *)
From S2P Require Import Prelude Bitfield Mmu Alloc Heap Hash Fs FsState Devices Ramfs Fat32 Fat32DirSpec Vfs Elf Scheduler SchedulerInv Exec Syscalls Kernel.
Import Fs FsState Devices Fat32 Vfs Elf Scheduler SchedulerInv Exec Syscalls Kernel.

Module SystemExamples.

(** ** The card *)

Definition half (v : Z) : list Z := [u8 v; u8 (Z.shiftr v 8)].

(** An array of [n] bytes that starts with [l]. *)
Definition pad (n : nat) (l : list Z) : list Z := l ++ replicate (n - length l) 0.

(** Two instructions at 0x00840000, of which the second is a jump to itself. *)
Definition program : list Z := word_bytes 0xE3A00000 ++ word_bytes 0xEAFFFFFE.

Definition init_elf : list Z :=
  pad 16 [0x7F; 0x45; 0x4C; 0x46; 1; 1; 1] ++
  half 2 ++ half 40 ++ word_bytes 1 ++ word_bytes 0x00840000 ++ word_bytes 52 ++
  word_bytes 0 ++ word_bytes 0 ++ half 52 ++ half 32 ++ half 1 ++ half 40 ++ half 0 ++ half 0 ++
  word_bytes 1 ++ word_bytes 84 ++ word_bytes 0x00840000 ++ word_bytes 0x00840000 ++
  word_bytes 8 ++ word_bytes 8 ++ word_bytes 5 ++ word_bytes 4 ++ program.

(** One sector per cluster; the FAT is sector 1, cluster [c] is sector [c]. *)
Definition boot_block : list Z :=
  pad 512 (replicate 11 0 ++ half 512 ++ [1] ++ half 1 ++ [1] ++ replicate 19 0 ++
           word_bytes 1 ++ replicate 4 0 ++ word_bytes 2).

(** A short name entry, in lower case. *)
Definition entry_block (name : string) (attributes cluster size : Z) : list Z :=
  take 11 (str name ++ replicate 11 32) ++ [attributes; 0x08] ++ replicate 13 0 ++
  half cluster ++ word_bytes size.

(** 40 lines of 13 bytes *)
Definition notes : list Z := concat (replicate 40 (str "0123456789ab" ++ [10])).

Definition root_block : list Z :=
  pad 512 (entry_block "BIN" 0x10 3 0 ++ entry_block "DEV" 0x10 5 0 ++ entry_block "DOC" 0x10 8 0).
Definition bin_block : list Z :=
  pad 512 (entry_block "INIT" 0x20 4 (Z.of_nat (length init_elf)) ++
           concat (Fat32DirSpec.lfn_raws 0x5A (str "notes.txt") 1) ++
           entry_block "NOTES~1 TXT" 0x20 6 (Z.of_nat (length notes))).
Definition doc_block : list Z :=
  pad 512 (entry_block "." 0x10 8 0 ++ entry_block ".." 0x10 0 0 ++ entry_block "README" 0x20 0 0).

Definition card : sd_card := λ i,
  match i with
  | 0 => Some boot_block
  | 1 => Some (pad 512 (replicate 24 0 ++ word_bytes 7 ++ word_bytes 0x0FFFFFFF))
  | 2 => Some root_block
  | 3 => Some bin_block
  | 4 => Some (pad 512 init_elf)
  | 6 => Some (take 512 notes)
  | 7 => Some (pad 512 (drop 512 notes))
  | 8 => Some doc_block
  | _ => Some (replicate 512 0)
  end.

(** ** The boot *)

Definition is_ret {A} (o : outcome A) : bool := match o with Ret _ => true | _ => false end.
Definition run {A} (m : MS A) (w : system) : system := match m w with Ret (_, w') => w' | _ => w end.

Lemma run_system {A} (m : MS A) w : is_ret (m w) = true → ∃ a, m w = Ret (a, run m w).
Proof. unfold run. destruct (m w) as [[a w']| | |]; simpl; [eauto|done..]. Qed.

(** A key is pressed, then three are typed. *)
Definition w_reset : system := reset card [13; 104; 105; 13].
Definition w_boot : system := run (kernel_main 0x8000 ∅ zero_context) w_reset.

(** init's memory section *)
Definition image (w : system) : gmap Z Z :=
  match live (sched w) !! Z.to_nat (current_proc (sched w)) with
  | Some p => default ∅ (ram w !! memory_section p)
  | None => ∅
  end.

Example boot_returns : is_ret (kernel_main 0x8000 ∅ zero_context w_reset) = true.
Proof. vm_compute. reflexivity. Qed.

(** init's image is the program of the file, and its vector of no arguments. *)
Example boot_image : map (λ i, default 0 (image w_boot !! (0x40000 + i))) [0; 1; 2; 3; 4; 5; 6; 7] =
  program.
Proof. vm_compute. reflexivity. Qed.

End SystemExamples.
