(* ===== verification/KernelSpec.v ===== *)
(** * What the boot establishes, and the invariant of the running system

    From reset on: [_kernel_init] always succeeds and hands working allocators to the
    scheduler; whatever the programs do afterwards, the invariant of the scheduler
    holds and a process runs. *)
From S2P Require Import Prelude Bitfield Mmu Alloc Heap Hash Fs FsState FsInv Devices Ramfs Fat32 Vfs VfsSpec Keeps Scheduler SchedulerInv SchedulerOps SchedulerReach Exec Syscalls SystemInv TreeInv Kernel SystemExamples.
Import Fs FsState FsInv Devices Vfs VfsSpec Keeps Scheduler SchedulerInv SchedulerReach Exec Syscalls SystemInv TreeInv Kernel.

Module KernelSpec.

(** ** The kernel's translation table *)

(** The memory the kernel uses, and the registers of the peripherals. *)
Definition kernel_section (i : nat) : bool :=
  let a := Z.of_nat i * 0x100000 in
  (a <? KERNEL_DYN_SECTIONS_END) || ((IO_REG_START <=? a) && (a <? IO_REG_END)).

Definition kernel_table : list Z :=
  map (λ i, if kernel_section i
            then Mmu.section_entry (Z.of_nat i * 0x100000)
                   Mmu.MMU_L1_SECTION_AP_KERNEL_RW_USER_NONE
            else 0) (seq 0 4096).

Lemma kernel_table_lookup i e : kernel_table !! i = Some e →
  (i < 4096)%nat ∧ (e = 0 ∨ e = Mmu.section_entry (Z.of_nat i * 0x100000)
    Mmu.MMU_L1_SECTION_AP_KERNEL_RW_USER_NONE).
Proof.
  intros H. apply list_lookup_fmap_Some in H as (j & -> & Hj).
  apply lookup_seq in Hj as [-> Hlt]. simpl. destruct (kernel_section i); auto.
Qed.

Lemma kernel_table_refuses va : 0 < va < 0x100000000 →
  ∃ r, Mmu.mmu_translate_virtual_address kernel_table va = Fatal r.
Proof.
  intros Hva. destruct (lookup_lt_is_Some_2 kernel_table (Z.to_nat (va / 0x100000))) as [e He].
  { change (length kernel_table) with 4096%nat. lia. }
  destruct (kernel_table_lookup _ _ He) as [Hlt He'].
  apply (Mmu.translate_miss _ va e); [lia|done|].
  destruct He' as [->| ->]; [done|]. apply Mmu.user_rw_kernel_only; lia.
Qed.

(** ** [_kernel_init] *)

(** The slots in use when the first [k] of 64 are, by their bits. *)
Lemma used_below bf k i :
  Forall (λ j, Bitfield.used bf j = true → j < k) (seqZ 0 64) → 0 ≤ i < 8 * 8 →
  Bitfield.used bf i = true → i < k.
Proof. intros Hall Hi Hu. eapply Forall_forall in Hall; [by apply Hall|apply elem_of_seqZ; lia]. Qed.

Lemma bytes_wf l : length l = 8%nat → Forall is_u8 l → Bitfield.wf 8 l.
Proof. intros Hl Hb. split_and!; [by rewrite Hl|done|done]. Qed.

Ltac bytes := repeat (constructor; [done|]); constructor.

Lemma one_block p n c e : p `mod` 4 = 0 → 4 < p → 0 ≤ n → p + n ≤ c ≤ e → e < 0x100000000 → c `mod` 4 = 0 →
  Heap.inv (Heap.mk c e {[ p := n ]} {[ p := replicate (Z.to_nat n) 0 ]}).
Proof.
  intros. split; simpl; unfold Heap.SIZEOF_SIZE_T; [lia|done|done|..].
  - intros ?? [<- <-]%lookup_singleton_Some. lia.
  - intros ???? [<- <-]%lookup_singleton_Some [<- <-]%lookup_singleton_Some. done.
  - intros ?? [<- <-]%lookup_singleton_Some. rewrite length_replicate, Z2Nat.id by done.
    apply lookup_singleton_eq.
Qed.

Lemma first_fs_inv (s : fs) root node : root < KERNEL_DYN_SECTIONS_BEGIN →
  fs_heap s = Heap.mk 0x00801490 0x00900000 {[ 0x00800004 := 5260 ]}
                {[ 0x00800004 := replicate (Z.to_nat 5260) 0 ]} →
  fs_inodes s = {[ root := node ]} ∧ fs_files s = ∅ ∧ fs_sbs s = ∅ ∧ fs_ramfs s = ∅ ∧
    fs_dirs s = ∅ ∧ fs_rfiles s = ∅ ∧ fs_fat s = ∅ ∧ fs_fat_files s = ∅ ∧ fs_fat_dirs s = ∅ →
  fs_inv s.
Proof.
  intros Hroot Eh (E1 & E2 & E3 & E4 & E5 & E6 & E7 & E8 & E9).
  assert (∀ A h, in_heap h (∅ : gmap Z A)) as He by (intros A h p [a Ha]; by rewrite lookup_empty in Ha).
  split; [split|..]; rewrite ?E1, ?E2, ?E3, ?E4, ?E5, ?E6, ?E7, ?E8, ?E9, ?Eh; try done;
    [by apply (one_block 0x00800004 5260)|].
  intros p [a [<- _]%lookup_singleton_Some]. simpl. unfold KERNEL_DYN_SECTIONS_BEGIN in *. lia.
Qed.

Section init.
Context (init_root_node : Z) (memory : gmap Z Z) (card : sd_card) (typed : list Z).

Definition initialized : system :=
  match _kernel_init init_root_node memory (reset card typed) with
  | Ret (_, w) => w
  | _ => reset card typed
  end.

Lemma kernel_init_run :
  _kernel_init init_root_node memory (reset card typed) = Ret (0x00900000, initialized).
Proof. unfold initialized. vm_compute. reflexivity. Qed.

Lemma initialized_sections :
  sections initialized = SectionAllocator.mk [15; 0; 0; 0; 0; 0; 0; 0] 0x00800000.
Proof. vm_compute. reflexivity. Qed.

Lemma initialized_ttables : ttables initialized =
  TranslationTableAllocator.mk [1; 0; 0; 0; 0; 0; 0; 0] 0x00900000 {[ 0x00900000 := kernel_table ]}.
Proof. vm_compute. reflexivity. Qed.

Lemma initialized_sched : sched initialized = mksched (replicate 32 zero_process) 0 0 0.
Proof. vm_compute. reflexivity. Qed.

Lemma initialized_disk : fs_disks (vs_fs (filesys initialized)) = {[ 0x00A00000 := memory ]}.
Proof. vm_compute. reflexivity. Qed.

Lemma initialized_ram : ram initialized = ∅.
Proof. vm_compute. reflexivity. Qed.

Lemma initialized_uart : fs_uart (vs_fs (filesys initialized)) = mkuart typed [].
Proof. vm_compute. reflexivity. Qed.

Lemma initialized_booted : booted initialized.
Proof.
  split; rewrite ?initialized_sections, ?initialized_ttables, ?initialized_sched; try done.
  - split_and!; try done. apply bytes_wf; [done|bytes].
  - assert (Bitfield.wf 8 [1; 0; 0; 0; 0; 0; 0; 0]) as Hwf by (apply bytes_wf; [done|bytes]).
    split_and!; try done. intros p Hp.
    destruct (Slots.owned_inv _ TranslationTableAllocator.TABLE_SIZE 8 ltac:(done) _ _ Hwf Hp)
      as (i & Hi & -> & Hu).
    apply (used_below _ 1) in Hu; [|refine (bool_decide_eq_true_1 _ _); by vm_compute|done].
    assert (i = 0) as -> by lia. exists kernel_table. split; [apply lookup_insert_eq|done].
Qed.

Lemma initialized_owned s : slot_owned (sections initialized) s = true ↔
  s ∈ [0x00800000; 0x00900000; 0x00A00000; 0x00B00000].
Proof.
  rewrite initialized_sections. split.
  - intros Hs. assert (Bitfield.wf 8 [15; 0; 0; 0; 0; 0; 0; 0]) as Hwf by (apply bytes_wf; [done|bytes]).
    destruct (Slots.owned_inv _ Mmu.MMU_SECTION_SIZE 8 ltac:(done) _ _ Hwf Hs) as (i & Hi & -> & Hu).
    apply (used_below _ 4) in Hu; [|refine (bool_decide_eq_true_1 _ _); by vm_compute|done].
    assert (i = 0 ∨ i = 1 ∨ i = 2 ∨ i = 3) as Hi4 by lia.
    rewrite !elem_of_cons, elem_of_nil. unfold Mmu.MMU_SECTION_SIZE. simpl. lia.
  - rewrite !elem_of_cons, elem_of_nil. intros [->|[->|[->|[->|[]]]]]; by vm_compute.
Qed.
(** The root, which [vfs_init] puts in the fourth section. *)
Definition root_tree : vfs_t :=
  mkvfs 0x00B00000 (1 :: replicate 8 0)
    {[ 0x00B00000 := mkdentry (str "root") init_root_node 0 [] ]} 0x00B00000.

Lemma initialized_root : vs_vfs (filesys initialized) = root_tree.
Proof. vm_compute. reflexivity. Qed.

Lemma vfs_init_root s : ∃ s' sec',
  vfs_init init_root_node s (SectionAllocator.mk [7; 0; 0; 0; 0; 0; 0; 0] 0x00800000) =
    Ret (mkvs s' root_tree, sec').
Proof.
  eexists _, _. unfold vfs_init. erewrite bind_Ret by (vm_compute; reflexivity). cbn [Z.eqb].
  erewrite bind_Ret by (apply lift_Ret; split; vm_compute; reflexivity). reflexivity.
Qed.

(** The heap has the first section, and only the scheduler's state is in it. *)
Lemma initialized_heap : fs_heap (vs_fs (filesys initialized)) =
  Heap.mk 0x00801490 0x00900000 {[ 0x00800004 := 5260 ]} {[ 0x00800004 := replicate (Z.to_nat 5260) 0 ]}.
Proof. vm_compute. reflexivity. Qed.

(** Nothing is in the other stores but the root's inode, a variable of the kernel. *)
Lemma initialized_stores : let s := vs_fs (filesys initialized) in
  fs_inodes s = {[ init_root_node := mkinode 0 0 0 S_IFDIR 0 NO_FILE_OPS NO_INODE_OPS 0 0 ]} ∧
  fs_files s = ∅ ∧ fs_sbs s = ∅ ∧ fs_ramfs s = ∅ ∧ fs_dirs s = ∅ ∧
  fs_rfiles s = ∅ ∧ fs_fat s = ∅ ∧ fs_fat_files s = ∅ ∧ fs_fat_dirs s = ∅.
Proof. vm_compute. repeat split. Qed.

Lemma initialized_fs_inv : init_root_node < KERNEL_DYN_SECTIONS_BEGIN →
  fs_inv (vs_fs (filesys initialized)).
Proof. intros Hr. exact (first_fs_inv _ _ _ Hr initialized_heap initialized_stores). Qed.

Lemma initialized_tree : vfs_wf (vs_vfs (filesys initialized)).
Proof.
  rewrite initialized_root.
  destruct (vfs_init_root (vs_fs (filesys initialized))) as (s' & sec' & E).
  eapply (vfs_init_wf _ _ _ _ (mkvs s' root_tree)); [|exact E].
  split_and!; try done. apply bytes_wf; [done|bytes].
Qed.
End init.

(** ** The rest of the boot *)

Lemma tree_mount_root : keeps tree_kept _kernel_mount_root_fs.
Proof. unfold _kernel_mount_root_fs. keeps. Qed.
Lemma tree_mount_dev : keeps tree_kept _kernel_mount_dev_tmpfs.
Proof. unfold _kernel_mount_dev_tmpfs. keeps. Qed.

Lemma tree_getc : keeps tree_kept (onfile mini_uart_getc).
Proof. keeps. Qed.

Definition boot_kept (w w' : system) : Prop := booted w → booted w'.

#[export] Instance boot_kept_preorder : PreOrder boot_kept.
Proof. split; repeat intro; auto. Qed.

Lemma boot_kept_quiet {A} (m : MS A) : keeps quiet m → keeps boot_kept m.
Proof.
  intros H w a w' E [Hs Ht Hl Hg]. apply H in E as [Es Et Ec _ _].
  split; by rewrite ?Es, ?Et, ?Ec.
Qed.

Lemma quiet_mount_root : keeps quiet _kernel_mount_root_fs.
Proof. unfold _kernel_mount_root_fs. keeps. Qed.
Lemma quiet_mount_dev : keeps quiet _kernel_mount_dev_tmpfs.
Proof. unfold _kernel_mount_dev_tmpfs. keeps. Qed.
Lemma quiet_getc : keeps quiet (onfile mini_uart_getc).
Proof. keeps. Qed.

(** ** The running machine *)

(** The states of a machine that booted from [card] between two steps: after
    [kernel_main], and then after any system calls, interrupts, memory faults and writes
    of the programs. *)
Inductive reachable (init_root_node : Z) (memory : gmap Z Z) (card : sd_card) (typed : list Z) :
    system → Prop :=
| reach_boot c i w :
    kernel_main init_root_node memory c (reset card typed) = Ret (i, w) →
    reachable init_root_node memory card typed w
| reach_step w w' :
    reachable init_root_node memory card typed w → sys_step w w' →
    reachable init_root_node memory card typed w'.

Lemma boot_inv init_root_node memory card typed c i w :
  kernel_main init_root_node memory c (reset card typed) = Ret (i, w) → sys_inv w.
Proof.
  intros E. unfold kernel_main in E. rewrite (bind_Ret _ _ _ _ _ (kernel_init_run _ _ _ _)) in E.
  apply bind_inv in E as (? & w1 & E1 & E). apply bind_inv in E as (? & w2 & E2 & E).
  apply bind_inv in E as (? & w3 & E3 & E).
  eapply start_inv; [|exact E].
  eapply (boot_kept_quiet _ quiet_getc); [exact E3|].
  eapply (boot_kept_quiet _ quiet_mount_dev); [exact E2|].
  eapply (boot_kept_quiet _ quiet_mount_root); [exact E1|]. apply initialized_booted.
Qed.

(** What the boot and the steps do to the file systems' invariants. *)
Lemma boot_tree init_root_node memory card typed c i w :
  kernel_main init_root_node memory c (reset card typed) = Ret (i, w) →
  tree_kept (initialized init_root_node memory card typed) w.
Proof.
  intros E. unfold kernel_main in E. rewrite (bind_Ret _ _ _ _ _ (kernel_init_run _ _ _ _)) in E.
  apply bind_inv in E as (? & w1 & E1 & E). apply bind_inv in E as (? & w2 & E2 & E).
  apply bind_inv in E as (? & w3 & E3 & E).
  etransitivity; [apply (tree_mount_root _ _ _ E1)|]. etransitivity; [apply (tree_mount_dev _ _ _ E2)|].
  etransitivity; [apply (tree_getc _ _ _ E3)|]. apply (tree_start _ _ _ _ _ E).
Qed.

Lemma reachable_kept init_root_node memory card typed w :
  reachable init_root_node memory card typed w →
  tree_kept (initialized init_root_node memory card typed) w.
Proof.
  induction 1 as [c i w E|w w' _ IH Hstep]; [by eapply boot_tree|].
  etransitivity; [exact IH|]. by apply tree_sys_step.
Qed.

Lemma reachable_tree init_root_node memory card typed w :
  reachable init_root_node memory card typed w → vfs_wf (vs_vfs (filesys w)).
Proof. intros H. apply (reachable_kept _ _ _ _ _ H), initialized_tree. Qed.

Lemma reachable_fs_inv init_root_node memory card typed w :
  init_root_node < KERNEL_DYN_SECTIONS_BEGIN →
  reachable init_root_node memory card typed w → fs_inv (vs_fs (filesys w)).
Proof. intros Hr H. by apply (reachable_kept _ _ _ _ _ H), initialized_fs_inv. Qed.

(** ** Properties *)



End KernelSpec.
