(* ===== verification/KernelFs.v ===== *)
(** * The file systems of the booted kernel

    What the boot asks of the card, and what it leaves when the card has it: the volume's
    root directory at [/], a directory in memory at [/dev], and in it the terminal and the
    block devices. *)
From S2P Require Import Prelude Bitfield Mmu Alloc Heap Hash Fs FsState FsInv Devices Ramfs RamfsSpec Fat32 Fat32Spec Fat32DirSpec Vfs VfsSpec VfsFiles FatFiles MountSpec Scheduler SchedulerOps SchedulerReach Exec Kernel KernelSpec.
Import Fs FsState Devices Ramfs RamfsSpec Fat32 Fat32Spec Fat32DirSpec Vfs VfsSpec VfsFiles FatFiles MountSpec Scheduler SchedulerOps SchedulerReach Exec Kernel KernelSpec.

Module KernelFs.

(** ** The card *)

(** The directory that starts in [cluster] has an entry [e] of that name. *)
Definition dir_has (s : fs) (v : fat32_sb_private_t) (cluster : Z) (name : name_t)
    (e : fat_sfn_directory_entry_t) : Prop :=
  ∃ chain secs items ino l, on_volume v s chain secs ∧ chain !! 0%nat = Some cluster ∧
    dir_from secs 0 items ∧ find (named name) (listed v chain 0 items) = Some (e, ino, l).

(** The file that the entry describes has the bytes [content]. *)
Definition file_has (s : fs) (v : fat32_sb_private_t) (e : fat_sfn_directory_entry_t)
    (content : list Z) : Prop :=
  ∃ chain secs n, on_volume v s chain secs ∧ chain !! 0%nat = Some (first_cluster e) ∧
    file_size e = Z.of_nat n ∧ (n ≤ 512 * length secs)%nat ∧ Z.of_nat (length secs) * 512 < 0x80000000 ∧
    content = fat_content secs n.

(** The pointer to the card's block device. *)
Definition SDCARD : Z := 2.

(** The card holds a FAT32 volume with a directory [dev] and the file [bin/init]. *)
Record boot_volume (s : fs) (sector content : list Z) : Prop := {
  bv_device : fat32_device s SDCARD sector;
  bv_dev : ∃ e, dir_has s (volume SDCARD sector) (root_cluster (volume SDCARD sector)) (str "dev") e ∧
    is_dir e = true;
  bv_init : ∃ b e, dir_has s (volume SDCARD sector) (root_cluster (volume SDCARD sector)) (str "bin") b ∧
    is_dir b = true ∧ dir_has s (volume SDCARD sector) (first_cluster b) (str "init") e ∧
    is_dir e = false ∧ file_has s (volume SDCARD sector) e content;
}.

Lemma dir_has_same s s' v cluster name e : same_disks s s' →
  dir_has s v cluster name e → dir_has s' v cluster name e.
Proof.
  intros Hs (chain & secs & items & ino & l & Hv & H). exists chain, secs, items, ino, l.
  split; [by eapply on_volume_same|done].
Qed.

Lemma file_has_same s s' v e content : same_disks s s' → file_has s v e content → file_has s' v e content.
Proof.
  intros Hs (chain & secs & n & Hv & H). exists chain, secs, n. split; [by eapply on_volume_same|done].
Qed.

Lemma boot_volume_same s s' sector content : same_disks s s' →
  boot_volume s sector content → boot_volume s' sector content.
Proof.
  intros Hs [[(dev & Ed & Hsz & Er) Hb] (e & He & Hed) (b & i & H1 & H2 & H3 & H4 & H5)]. split.
  - split; [|done]. exists dev.
    split; [by eapply block_device_same|]. split; [done|by eapply read_block_same].
  - exists e. split; [by eapply dir_has_same|done].
  - exists b, i. split_and!; try done; [by eapply dir_has_same..|by eapply file_has_same].
Qed.

(** An inode for a directory of the volume *)
Definition dir_inode (s : fs) (v : fat32_sb_private_t) (i cluster sb : Z) : Prop :=
  volume_at s sb v ∧ ∃ node, fs_inodes s !! i = Some node ∧ super_block node = sb ∧
    i_private node = cluster ∧ inode_ops node = FAT32_INODE_OPS ∧ fmt (mode node) = S_IFDIR.

Lemma dir_inode_has s v i cluster sb name e : dir_inode s v i cluster sb → dir_has s v cluster name e →
  ∃ chain secs items ino l, fat_dir_inode s i v chain secs items sb ∧
    find (named name) (listed v chain 0 items) = Some (e, ino, l).
Proof.
  intros [(x & Hx & Hv) (node & Hn & Hsb & Hp & _)] (chain & secs & items & ino & l & Hvol & Hc & Hd & Hf).
  exists chain, secs, items, ino, l. split; [|done].
  apply (mkfdi _ _ _ _ _ _ _ node x); try done. by rewrite Hp.
Qed.

Lemma dir_inode_ext s s' n v i cluster sb : fs_ext s s' n → dir_inode s v i cluster sb → dir_inode s' v i cluster sb.
Proof.
  intros Hx [(x & Hsb & Hv) (node & Hn & H)]. split.
  - exists x. split; [by eapply lookup_weaken, (ext_sbs _ _ _ Hx)|by eapply lookup_weaken, (ext_fat _ _ _ Hx)].
  - exists node. split; [by eapply ext_inode|done].
Qed.

(** Looking up a directory of the volume in another: a new inode for it. *)
Lemma lookup_dir_run s v i cluster sb name e : dir_inode s v i cluster sb → dir_has s v cluster name e →
  is_dir e = true → fs_wf s → room s 60 →
  ∃ j s', inode_lookup i name s = Ret (j, s') ∧ j ≠ 0 ∧ fs_ext s s' 60 ∧
    dir_inode s' v j (first_cluster e) sb.
Proof.
  intros Hi He Hdir Hwf Hroom.
  destruct (dir_inode_has _ _ _ _ _ _ _ Hi He) as (chain & secs & items & ino & l & Hfd & Hf).
  pose proof (fat32_lookup_correct _ _ _ _ _ _ _ name Hfd Hwf ltac:(by eapply room_le)) as El.
  rewrite Hf in El. destruct El as (j & h & El & Hj & Hg). pose proof (Heap.inv_cursor _ (wf_heap _ Hwf)).
  destruct Hi as [Hv (node & Hn & _ & _ & Ho & _)].
  set (s' := comp_set _ _) in *.
  assert (fs_ext s s' 60) as Hx by (unfold s'; new_object Hwf Hg).
  exists j, s'. split; [|split; [lia|split; [done|]]].
  - unfold inode_lookup. erewrite bind_Ret by (apply mget_Ret; exact Hn). by rewrite Ho.
  - split; [exact Hv|]. exists (inode_of e sb ino).
    split; [apply lookup_insert_eq|]. unfold inode_of. fold (is_dir e). by rewrite Hdir.
Qed.

(** ** Paths below cached directories *)

Lemma path_below s p nm i par cs names k seg c nm' i' par' cs' names' rest q name :
  dir_at (vs_vfs s) p nm i par cs names → NoDup names → cs !! k = Some c → names !! k = Some seg →
  47 ∉ seg → (length seg ≤ 15)%nat → dir_at (vs_vfs s) c nm' i' par' cs' names' → is_dir_inode s i' →
  cached_path s c rest q name → cached_path s p (seg ++ 47 :: rest) q name.
Proof.
  intros [Hp Hcs] Hnd Hc Hseg H47 Hlen [Hc' _] Hi H.
  eapply (cp_step _ _ _ _ c); [done|done|exact Hp| |exact Hc'|exact Hi|exact H].
  by eapply cached_some.
Qed.

Lemma free_bits v v' n : dentry_bits v' = dentry_bits v → free_slots v n → free_slots v' n.
Proof. intros E (X & HX & H). exists X. rewrite E. by split. Qed.

(** ** The root *)

Lemma is_fmt_run s p nm i par cs names format : vfs_wf (vs_vfs s) → dir_at (vs_vfs s) p nm i par cs names → i ≠ 0 →
  ∀ node, fs_inodes (vs_fs s) !! i = Some node →
  _dentry_is_fmt p format s = Ret (fmt (mode node) =? format, s).
Proof.
  intros Hwf [Hp _] Hi node Hn. unfold _dentry_is_fmt.
  destruct (Z.eqb_spec p 0) as [->|_]; [by rewrite (vfs_null _ Hwf) in Hp|].
  rewrite (bind_Ret _ _ _ _ _ (get_dentry_run _ _ _ Hp)). cbn [d_inode].
  rewrite (proj2 (Z.eqb_neq i 0) Hi). by erewrite bind_Ret by (apply onfs_id, mget_Ret; exact Hn).
Qed.

Lemma root_lookup_run s nm i par cs names : vfs_wf (vs_vfs s) →
  dir_at (vs_vfs s) (root (vs_vfs s)) nm i par cs names → i ≠ 0 →
  _vfs_dentry_lookup (str "/") s = Ret (root (vs_vfs s), s).
Proof.
  intros Hwf [Hp _] Hi. change (str "/") with [47]. unfold _vfs_dentry_lookup.
  erewrite bind_Ret by reflexivity. cbn [length _vfs_node_lookup_rec split_path].
  erewrite bind_Ret by reflexivity. by rewrite (bind_Ret _ _ _ _ _ (result_inode_run _ _ _ Hp Hi)).
Qed.

Lemma mounted_dir_at s t nm i par r : dir_at (vs_vfs s) t nm i par [] [] →
  dir_at (mounted s t (mkdentry nm i par []) r) t nm r par [] [].
Proof. intros H. by destruct (put_dir_at _ _ _ _ _ _ _ [] r H ltac:(done)) as (_ & H2 & _); apply H2. Qed.

Lemma mount_root_run s nm i par sector : vfs_wf (vs_vfs s) → fs_wf (vs_fs s) → room (vs_fs s) 120 →
  dir_at (vs_vfs s) (root (vs_vfs s)) nm i par [] [] → is_dir_inode s i →
  fat32_device (vs_fs s) SDCARD sector →
  ∃ r sb s', vfs_mount_dev SDCARD (str "/") (str "fat32") s = Ret (0, s') ∧ fs_ext (vs_fs s) (vs_fs s') 110 ∧
    vfs_wf (vs_vfs s') ∧ root (vs_vfs s') = root (vs_vfs s) ∧ dentry_bits (vs_vfs s') = dentry_bits (vs_vfs s) ∧
    dir_at (vs_vfs s') (root (vs_vfs s)) nm r par [] [] ∧ r ≠ 0 ∧
    let v := volume SDCARD sector in dir_inode (vs_fs s') v r (root_cluster v) sb.
Proof.
  intros Hwf Hwff Hroom Hroot [Hi (node & Hn & Hm)] Hdev. pose proof (da_entry _ _ _ _ _ _ _ Hroot) as Hp.
  destruct (mount_fat32_run s _ _ Hwf Hp SDCARD sector Hdev Hwff ltac:(done) Hroom)
    as (r & sb & fs' & E & Hr & Hx & Hnode & Hv).
  exists r, sb, (mkvs fs' (mounted s (root (vs_vfs s)) (mkdentry nm i par []) r)). split_and!; try done.
  - unfold vfs_mount_dev. rewrite (bind_Ret _ _ _ _ _ (root_lookup_run s _ _ _ _ _ Hwf Hroot Hi)).
    rewrite (bind_Ret _ _ _ _ _ (is_fmt_run s _ _ _ _ _ _ S_IFDIR Hwf Hroot Hi node Hn)).
    rewrite Hm. exact E.
  - by apply (mounted_wf s _ _ Hwf Hp).
  - by apply (mounted_dir_at s _ nm i par r).
  - split; [exact Hv|]. by exists (root_inode sb (volume SDCARD sector)).
Qed.

(** ** [/dev] *)

Lemma mount_dev_run s nm r par v sb e n : let R := root (vs_vfs s) in
  vfs_wf (vs_vfs s) → fs_wf (vs_fs s) → room (vs_fs s) 600 → free_slots (vs_vfs s) (S n) →
  dir_at (vs_vfs s) R nm r par [] [] → r ≠ 0 → dir_inode (vs_fs s) v r (root_cluster v) sb →
  dir_has (vs_fs s) v (root_cluster v) (str "dev") e → is_dir e = true →
  ∃ c q rp s', vfs_mount None (str "/dev") (str "ramfs") s = Ret (0, s') ∧ fs_ext (vs_fs s) (vs_fs s') 500 ∧
    vfs_wf (vs_vfs s') ∧ root (vs_vfs s') = R ∧ free_slots (vs_vfs s') n ∧ c ≠ R ∧
    dir_at (vs_vfs s') R nm r par [c] [str "dev"] ∧ dir_at (vs_vfs s') c (str "dev") q R [] [] ∧
    rdir (vs_fs s') q rp [] ∧ is_dir_inode s' q.
Proof.
  intros R Hwf Hwff Hroom Hfree Hroot Hr Hdi He Hdir.
  destruct (lookup_dir_run (vs_fs s) v r _ sb (str "dev") e Hdi He Hdir Hwff) as (j & fs1 & El & Hj & Hx1 & Hdj);
    [by eapply room_le|].
  destruct (lookup_new_entry s (str "dev") R nm r par [] [] (str "dev") j fs1 n Hwf) as (c & v1 & E1 & Hne);
    try done.
  { apply cp_last; [|done]. by apply (bool_decide_eq_true_1 (47 ∉ str "dev")). }
  { apply not_elem_of_nil. }
  { apply Nat.leb_le. reflexivity. }
  { simpl. lia. }
  destruct Hne as [Hwf1 Hr1 Hf1 Hd1 Hc1 (Hc0 & HcR & _) _]. set (s1 := mkvs fs1 v1).
  destruct (mount_ramfs_run s1 c _ Hwf1 (da_entry _ _ _ _ _ _ _ Hc1) (ext_wf _ _ _ Hx1))
    as (q & rp & fs2 & E2 & Hx2 & Hrd & Hq).
  { eapply ext_room; [exact Hx1|by eapply room_le|done]. }
  exists c, q, rp, (mkvs fs2 (mounted s1 c (mkdentry (str "dev") j R []) q)). split_and!; try done.
  - unfold vfs_mount. rewrite (bind_Ret _ _ _ _ _ E1).
    destruct Hdj as [_ (node & Hn & _ & _ & _ & Hm)].
    rewrite (bind_Ret _ _ _ _ _ (is_fmt_run s1 _ _ _ _ _ _ S_IFDIR Hwf1 Hc1 Hj node Hn)). rewrite Hm. exact E2.
  - eapply ext_le; [by eapply ext_trans|lia].
  - by apply (mounted_wf s1 c _ Hwf1 (da_entry _ _ _ _ _ _ _ Hc1)).
  - destruct (put_dir_at _ _ _ _ _ _ _ [] q Hc1 ltac:(done)) as (_ & _ & H3). by apply H3.
  - by apply mounted_dir_at.
Qed.

(** ** The nodes in [/dev] *)

Section nodes.
(** The root's entry and inode, those of [/dev], and its directory. *)
Context (R : Z) (nm : name_t) (r par c q rp : Z).

(** [/dev] has the entries [cs] with the names [names]; [n] more can be made. *)
Record dev_tree (s : vstate) (cs : list Z) (names : list name_t) (rcs : list ramfs_inode_child_t)
    (n : nat) : Prop := {
  dt_wf : vfs_wf (vs_vfs s) ∧ fs_wf (vs_fs s);
  dt_top : root (vs_vfs s) = R ∧ c ≠ R;
  dt_root : dir_at (vs_vfs s) R nm r par [c] [str "dev"];
  dt_dev : dir_at (vs_vfs s) c (str "dev") q R cs names;
  dt_rdir : rdir (vs_fs s) q rp rcs;
  dt_inode : is_dir_inode s q;
  dt_free : free_slots (vs_vfs s) n;
}.

Lemma dev_path s cs names rcs n name : dev_tree s cs names rcs n → 47 ∉ name → name ≠ [] →
  cached_path s (root (vs_vfs s)) (str "dev/" ++ name) c name.
Proof using Type.
  intros [_ [-> _] Hr Hd _ Hq _] H47 Hne.
  change (str "dev/" ++ name) with (str "dev" ++ 47 :: name).
  apply (path_below s R nm r par [c] [str "dev"] 0 (str "dev") c (str "dev") q R cs names); try done.
  - apply NoDup_singleton.
  - by apply (bool_decide_eq_true_1 (47 ∉ str "dev")).
  - apply Nat.leb_le. reflexivity.
  - by apply cp_last.
Qed.

Lemma dev_node_run s cs names rcs n name m dev ops : dev_tree s cs names rcs (S n) → room (vs_fs s) 700 →
  47 ∉ name → name ≠ [] → name ∉ names → (length name ≤ 15)%nat → (length cs < 8)%nat →
  find_child rcs name = None → (length rcs < 8)%nat →
  mknod_file_ops m dev (vs_fs s) = Ret (Some ops, vs_fs s) →
  ∃ t j s', vfs_mknod (str "/dev/" ++ name) m dev s = Ret (0, s') ∧ fs_ext (vs_fs s) (vs_fs s') 700 ∧
    dev_tree s' (cs ++ [t]) (names ++ [name]) (rcs ++ [mkchild j name]) n ∧
    dir_at (vs_vfs s') t name j c [] [] ∧ (∃ node, fs_inodes (vs_fs s') !! j = Some node ∧ file_ops node = ops) ∧
    j ≠ 0 ∧ ∀ p nm' i' par' cs' names', p ≠ c → dir_at (vs_vfs s) p nm' i' par' cs' names' →
      dir_at (vs_vfs s') p nm' i' par' cs' names'.
Proof using Type.
  intros Ht Hroom H47 Hne Hname Hlen Hcs Hfind Hrcs Hops.
  pose proof (dev_path _ _ _ _ _ _ Ht H47 Hne) as Hpath.
  destruct Ht as [[Hwf Hwff] [HR HcR] Hroot Hdev Hrd Hq Hfree].
  destruct (mknod_run s _ c _ q R cs names name rp rcs m dev ops n Hwf Hwff Hroom Hpath Hdev Hname Hlen Hcs
    Hfree Hrd Hq Hfind Hrcs Hops) as (t & j & s' & E & Hn & Hx & Hrd' & Hj & Hnode).
  destruct Hn as [Hwf' Hr' Hf' Hd' Ht' _ Ho]. exists t, j, s'. split_and!; try done.
  split; try done.
  - split; [done|by destruct Hx].
  - split; [congruence|done].
  - by apply Ho.
  - destruct Hq as [Hq0 (x & Hi & Hm)]. split; [done|]. exists x. split; [by eapply ext_inode|done].
Qed.
End nodes.

(** ** The boot *)

(** The tree that init starts with: the volume is at [/]; [/dev] has three entries, and
    [tty] is the terminal.  Two more entries can be cached. *)
Record mounts_ready (s : vstate) (sector : list Z) (R r sb c t tty : Z) : Prop := {
  rd_wf : vfs_wf (vs_vfs s) ∧ root (vs_vfs s) = R ∧ free_slots (vs_vfs s) 2;
  rd_entries : ∃ nm par q cs, dir_at (vs_vfs s) R nm r par [c] [str "dev"] ∧ is_dir_inode s q ∧
    dir_at (vs_vfs s) c (str "dev") q R (t :: cs) [str "tty"; str "ramdisk"; str "sdcard"];
  rd_root : r ≠ 0 ∧ ∃ v, v = volume SDCARD sector ∧ dir_inode (vs_fs s) v r (root_cluster v) sb;
  rd_tty : dir_at (vs_vfs s) t (str "tty") tty c [] [];
  rd_node : tty ≠ 0 ∧ ∃ node, fs_inodes (vs_fs s) !! tty = Some node ∧ file_ops node = DEV_TTY_OPS;
}.

(** The tree after the mounts. *)
Definition mounted_tree (s : vstate) (sector : list Z) : Prop :=
  ∃ R r sb c t tty, mounts_ready s sector R r sb c t tty.

Lemma onvfs_run {A} (m : MV A) (w : system) a v : m (filesys w) = Ret (a, v) → onvfs m w = Ret (a, with_fs v w).
Proof. intros E. unfold onvfs, zoom. simpl. by rewrite E. Qed.

Lemma dev_fs_run (w : system) sector nm r par sb e : let s := filesys w in let R := root (vs_vfs s) in
  let v := volume SDCARD sector in
  vfs_wf (vs_vfs s) → fs_wf (vs_fs s) → room (vs_fs s) 2700 → free_slots (vs_vfs s) 6 →
  dir_at (vs_vfs s) R nm r par [] [] → r ≠ 0 → dir_inode (vs_fs s) v r (root_cluster v) sb →
  dir_has (vs_fs s) v (root_cluster v) (str "dev") e → is_dir e = true →
  ∃ s', _kernel_mount_dev_tmpfs w = Ret ((), with_fs s' w) ∧ fs_ext (vs_fs s) (vs_fs s') 2600 ∧
    ∃ c t tty, mounts_ready s' sector R r sb c t tty.
Proof.
  intros s R v Hwf Hwff Hroom Hfree Hroot Hr Hdi He Hdir.
  destruct (mount_dev_run s nm r par v sb e 5 Hwf Hwff ltac:(by eapply room_le) Hfree Hroot Hr Hdi He Hdir)
    as (c & q & rp & s1 & E1 & Hx1 & Hwf1 & HR1 & Hf1 & HcR & Hroot1 & Hc1 & Hrd1 & Hq1).
  assert (dev_tree R nm r par c q rp s1 [] [] [] 5) as H1.
  { split; try done. split; [done|apply (ext_wf _ _ _ Hx1)]. }
  pose proof (ext_room _ _ _ 2200 Hx1 ltac:(by eapply room_le) ltac:(done)) as Hroom1.
  destruct (dev_node_run _ _ _ _ _ _ _ s1 _ _ _ 4 (str "tty") S_IFCHR DEV_CHR_TTY DEV_TTY_OPS H1)
    as (t & tty & s2 & E2 & Hx2 & H2 & Ht & Hnode & Htty & _); try done; try (simpl; lia).
  { by eapply room_le. }
  { by apply (bool_decide_eq_true_1 (47 ∉ str "tty")). }
  { apply not_elem_of_nil. }
  pose proof (ext_room _ _ _ 1500 Hx2 ltac:(by eapply room_le) ltac:(done)) as Hroom2.
  destruct (dev_node_run _ _ _ _ _ _ _ s2 _ _ _ 3 (str "ramdisk") S_IFBLK DEV_BLK_RAMDISK BLOCK_DEVICE_FILE_OPS H2)
    as (k & j & s3 & E3 & Hx3 & H3 & _ & _ & _ & Ho3); try done; try (simpl; lia).
  { by eapply room_le. }
  { by apply (bool_decide_eq_true_1 (47 ∉ str "ramdisk")). }
  { by apply (bool_decide_eq_true_1 (str "ramdisk" ∉ [str "tty"])). }
  pose proof (ext_room _ _ _ 800 Hx3 ltac:(by eapply room_le) ltac:(done)) as Hroom3.
  destruct (dev_node_run _ _ _ _ _ _ _ s3 _ _ _ 2 (str "sdcard") S_IFBLK DEV_BLK_SDCARD BLOCK_DEVICE_FILE_OPS H3)
    as (d & j' & s4 & E4 & Hx4 & H4 & _ & _ & _ & Ho4); try done; try (simpl; lia).
  { by eapply room_le. }
  { by apply (bool_decide_eq_true_1 (47 ∉ str "sdcard")). }
  { by apply (bool_decide_eq_true_1 (str "sdcard" ∉ [str "tty"; str "ramdisk"])). }
  exists s4. split; [|split].
  - unfold _kernel_mount_dev_tmpfs.
    rewrite (bind_Ret _ _ _ _ _ (onvfs_run _ w _ _ E1)). erewrite bind_Ret by reflexivity.
    rewrite (bind_Ret _ _ _ _ _ (onvfs_run _ (with_fs s1 w) _ _ E2)). erewrite bind_Ret by reflexivity.
    rewrite (bind_Ret _ _ _ _ _ (onvfs_run _ (with_fs s2 w) _ _ E3)). erewrite bind_Ret by reflexivity.
    by rewrite (bind_Ret _ _ _ _ _ (onvfs_run _ (with_fs s3 w) _ _ E4)).
  - pose proof (ext_trans _ _ _ _ _ (ext_trans _ _ _ _ _ Hx2 Hx3) Hx4) as Hx.
    exact (ext_trans _ _ _ 500 2100 Hx1 Hx).
  - assert (t ≠ c) as Htc.
    { intros ->. pose proof (da_entry _ _ _ _ _ _ _ Ht) as Hx.
      rewrite (da_entry _ _ _ _ _ _ _ (dt_dev _ _ _ _ _ _ _ _ _ _ _ _ H2)) in Hx. simplify_eq. }
    destruct H4 as [[Hwf4 _] [HR4 _] Hroot4 Hdev4 _ Hq4 Hf4].
    exists c, t, tty. split.
    + by split_and!.
    + by exists nm, par, q, [k; d].
    + split; [done|]. eexists. split; [reflexivity|].
      do 4 (eapply dir_inode_ext; [eassumption|]). exact Hdi.
    + by apply Ho4, Ho3.
    + split; [done|]. destruct Hnode as (node & Hn & Hops). exists node. split; [|done].
      by do 2 (eapply ext_inode; [eassumption|]).
Qed.

(** What the kernel's initialisation hands to the rest of the boot. *)
Record kernel_ready (w : system) (root_node : Z) (typed : list Z) : Prop := {
  kr_booted : booted w;
  kr_sections : sections w = SectionAllocator.mk [15; 0; 0; 0; 0; 0; 0; 0] 0x00800000;
  kr_ttables : ttables w =
    TranslationTableAllocator.mk [1; 0; 0; 0; 0; 0; 0; 0] 0x00900000 {[ 0x00900000 := kernel_table ]};
  kr_sched : sched w = mksched (replicate 32 zero_process) 0 0 0;
  kr_ram : ram w = ∅;
  kr_root : dir_at (vs_vfs (filesys w)) (root (vs_vfs (filesys w))) (str "root") root_node 0 [] [];
  kr_inode : is_dir_inode (filesys w) root_node;
  kr_free : free_slots (vs_vfs (filesys w)) 6;
  kr_wf : vfs_wf (vs_vfs (filesys w)) ∧ fs_wf (vs_fs (filesys w)) ∧ room (vs_fs (filesys w)) 10000;
  kr_uart : fs_uart (vs_fs (filesys w)) = mkuart typed [];
}.

Lemma initial_free root_node : free_slots (root_tree root_node) 6.
Proof.
  exists (list_to_set [1; 2; 3; 4; 5; 6]). split.
  - apply Nat.leb_le. vm_compute. reflexivity.
  - intros j Hj. apply elem_of_list_to_set in Hj.
    repeat (apply elem_of_cons in Hj as [->|Hj]; [split; [done|by vm_compute]|]).
    by apply elem_of_nil in Hj.
Qed.

Lemma initialized_ready root_node memory card typed : 0 < root_node < KERNEL_DYN_SECTIONS_BEGIN →
  kernel_ready (initialized root_node memory card typed) root_node typed.
Proof.
  intros Hnode. pose proof (initialized_root root_node memory card typed) as Hr.
  destruct (initialized_stores root_node memory card typed) as [Ei _].
  split; rewrite ?Hr.
  - apply initialized_booted.
  - apply initialized_sections.
  - apply initialized_ttables.
  - apply initialized_sched.
  - apply initialized_ram.
  - split; [apply lookup_singleton_eq|constructor].
  - split; [lia|]. eexists. split; [rewrite Ei; apply lookup_singleton_eq|reflexivity].
  - apply initial_free.
  - split; [rewrite <- Hr; apply initialized_tree|]. split.
    + apply FsInv.fi_wf, initialized_fs_inv. lia.
    + unfold room. rewrite initialized_heap. split; [done|vm_compute; discriminate].
  - apply initialized_uart.
Qed.

Lemma mounts_run w node typed sector content : kernel_ready w node typed →
  boot_volume (vs_fs (filesys w)) sector content →
  ∃ s1 s2, _kernel_mount_root_fs w = Ret ((), with_fs s1 w) ∧
    _kernel_mount_dev_tmpfs (with_fs s1 w) = Ret ((), with_fs s2 w) ∧
    fs_ext (vs_fs (filesys w)) (vs_fs s2) 2710 ∧
    mounted_tree s2 sector.
Proof.
  intros [_ _ _ _ _ Hroot Hi Hfree (Hwf & Hwff & Hroom) _] [Hdev (e & He & Hdir) _].
  destruct (mount_root_run (filesys w) _ _ _ sector Hwf Hwff ltac:(by eapply room_le) Hroot Hi Hdev)
    as (r & sb & s1 & E1 & Hx1 & Hwf1 & HR1 & Hb1 & Hroot1 & Hr & Hdi).
  destruct (dev_fs_run (with_fs s1 w) sector (str "root") r 0 sb e) as (s2 & E2 & Hx2 & H); simpl.
  all: rewrite ?HR1; try done.
  - apply (ext_wf _ _ _ Hx1).
  - eapply ext_room; [exact Hx1|by eapply room_le|done].
  - by eapply free_bits.
  - eapply dir_has_same; [apply (ext_disks _ _ _ Hx1)|exact He].
  - exists s1, s2. split; [|split; [exact E2|split]].
    + unfold _kernel_mount_root_fs. erewrite (bind_Ret (onfile _) _ _ SDCARD w) by (by destruct w as [? ? ? ? []]).
      by rewrite (bind_Ret _ _ _ _ _ (onvfs_run _ w _ _ E1)).
    + exact (ext_trans _ _ _ 110 2600 Hx1 Hx2).
    + destruct H as (c & t & tty & H). eexists _, _, _, _, _, _. exact H.
Qed.

End KernelFs.
