(* ===== verification/InitSpec.v ===== *)
(** * The start of init

    From the file systems that the boot mounted to the first process: its address space,
    the terminal as its descriptors, its program. *)
From S2P Require Import Prelude Bitfield Mmu Alloc Heap Hash Fs FsState FsInv Devices Ramfs RamfsSpec Fat32 Fat32Spec Fat32DirSpec Vfs VfsSpec VfsFiles FatFiles MountSpec Elf ElfSpec Keeps Scheduler SchedulerInv SchedulerOps SchedulerFork SchedulerSpec SchedulerReach Exec Syscalls SystemInv ExecSpec Kernel KernelSpec KernelFs.
Import Fs FsState Devices Ramfs RamfsSpec Fat32 Fat32Spec Fat32DirSpec Vfs VfsSpec VfsFiles FatFiles MountSpec Elf ElfSpec Keeps Scheduler SchedulerInv SchedulerOps SchedulerFork SchedulerSpec SchedulerReach Exec Syscalls SystemInv ExecSpec Kernel KernelSpec KernelFs.

Module InitSpec.

(** ** What does not touch the tree *)

(** The entries, the inodes, the volumes and the disks are as they were. *)
Record same_tree (s s' : vstate) : Prop := {
  st_vfs : vs_vfs s' = vs_vfs s;
  st_inodes : fs_inodes (vs_fs s') = fs_inodes (vs_fs s);
  st_sbs : fs_sbs (vs_fs s') = fs_sbs (vs_fs s);
  st_fat : fs_fat (vs_fs s') = fs_fat (vs_fs s);
  st_disks : same_disks (vs_fs s) (vs_fs s');
}.

Lemma same_tree_trans s1 s2 s3 : same_tree s1 s2 → same_tree s2 s3 → same_tree s1 s3.
Proof.
  intros [? ? ? ? (? & ? & ?)] [? ? ? ? (? & ? & ?)]. split; [congruence..|split_and!; congruence].
Qed.

Lemma ready_same s s' sector R r sb c t tty : same_tree s s' →
  mounts_ready s sector R r sb c t tty → mounts_ready s' sector R r sb c t tty.
Proof.
  intros [Hv Hi Hs Hf _] [Hwf He Hr Ht Hn].
  split; unfold dir_inode, volume_at, is_dir_inode in *; by rewrite ?Hv, ?Hi, ?Hs, ?Hf.
Qed.

(** ** The terminal *)

Lemma open_tty_run s sector R r sb c t tty : mounts_ready s sector R r sb c t tty → fs_wf (vs_fs s) →
  room (vs_fs s) SIZEOF_FILE →
  ∃ f h, let fs' := comp_set (<[f := mkfile 0 tty 0 0]> (fs_files (vs_fs s))) (comp_set h (vs_fs s)) in
    vfs_file_open (str "/dev/tty") 0 0 s = Ret (f, mkvs fs' (vs_vfs s)) ∧ 0 < f ∧
    fs_files (vs_fs s) !! f = None ∧ heap_grew (fs_heap (vs_fs s)) h (SIZEOF_FILE + 7) ∧ fs_wf fs'.
Proof.
  intros [(Hwf & <- & _) (nm & par & q & cs & Hroot & Hq & Hdev) _ Ht (Htty & node & Hn & Hops)] Hwff Hroom.
  pose proof (da_entry _ _ _ _ _ _ _ Ht) as Ht'. pose proof (da_entry _ _ _ _ _ _ _ Hdev) as Hdev'.
  assert (_vfs_dentry_lookup (str "/dev/tty") s = Ret (t, s)) as El.
  { eapply (lookup_cached_run s (str "dev/tty") c) with (name := str "tty");
      [exact Hwf| |exact Hdev'| |exact Ht'|exact Htty].
    - change (str "dev/tty") with (str "dev" ++ 47 :: str "tty").
      eapply path_below with (k := 0%nat); [exact Hroot| |done|done| | |exact Hdev|exact Hq|].
      + apply NoDup_singleton.
      + by apply (bool_decide_eq_true_1 (47 ∉ str "dev")).
      + apply Nat.leb_le. reflexivity.
      + apply cp_last; [|done]. by apply (bool_decide_eq_true_1 (47 ∉ str "tty")).
    - eapply cached_some with (k := 0%nat); [apply (da_children _ _ _ _ _ _ _ Hdev)| |done|done].
      by apply (bool_decide_eq_true_1 (NoDup [str "tty"; str "ramdisk"; str "sdcard"])). }
  destruct (default_open_run (vs_fs s) tty Hwff Hroom Htty) as (f & h & Eo & Hf & Hnew & Hg & Hwf').
  exists f, h. cbv zeta. split_and!; try done.
  unfold vfs_file_open. rewrite (bind_Ret _ _ _ _ _ El).
  destruct (Z.eqb_spec t 0) as [E|_]; [by rewrite E, (vfs_null _ Hwf) in Ht'|].
  rewrite (bind_Ret _ _ _ _ _ (get_dentry_run _ _ _ Ht')). cbn [d_parent d_inode].
  rewrite (bind_Ret _ _ _ _ _ (get_dentry_run _ _ _ Hdev')).
  rewrite (proj2 (Z.eqb_neq tty 0) Htty). change (flag 0 O_EXCL) with false. cbn iota.
  erewrite bind_Ret by reflexivity. erewrite bind_Ret by (apply onfs_id, mget_Ret; exact Hn).
  change (flag 0 O_DIRECTORY) with false. cbn [andb]. apply onfs_Ret.
  unfold file_open. erewrite bind_Ret by (apply mget_Ret; exact Hn). rewrite Hops. exact Eo.
Qed.

(** ** The program *)

(** A first segment that is looked up on the way: the walk goes on in the state where it
    is cached. *)
Lemma open_through s s' seg rest c flags m : 47 ∉ seg → (length seg ≤ 15)%nat →
  root (vs_vfs s') = root (vs_vfs s) →
  _vfs_dentry_child_by_name (root (vs_vfs s)) seg s = Ret (c, s') →
  _vfs_dentry_child_by_name (root (vs_vfs s)) seg s' = Ret (c, s') →
  vfs_file_open (47 :: seg ++ 47 :: rest) flags m s = vfs_file_open (47 :: seg ++ 47 :: rest) flags m s'.
Proof.
  intros H47 Hlen HR E E'.
  assert (∀ fuel, _vfs_node_lookup_rec (S fuel) (root (vs_vfs s)) (seg ++ 47 :: rest) s =
    _vfs_node_lookup_rec (S fuel) (root (vs_vfs s)) (seg ++ 47 :: rest) s') as Er.
  { intros fuel. cbn [_vfs_node_lookup_rec]. rewrite (split_some seg rest H47).
    unfold strcpy_buf. change DENTRY_MAX_NAME_LEN with 16. rewrite (proj2 (Z.leb_le _ 16)) by lia.
    erewrite (bind_Ret (lift _) _ s) by reflexivity. erewrite (bind_Ret (lift _) _ s') by reflexivity.
    by rewrite (bind_Ret _ _ _ _ _ E), (bind_Ret _ _ _ _ _ E'). }
  assert (_vfs_dentry_lookup (47 :: seg ++ 47 :: rest) s =
    _vfs_dentry_lookup (47 :: seg ++ 47 :: rest) s') as El.
  { unfold _vfs_dentry_lookup. erewrite (bind_Ret (gets _) _ s) by reflexivity.
    erewrite (bind_Ret (gets _) _ s') by reflexivity. rewrite HR. unfold bind at 1 4. by rewrite Er. }
  unfold vfs_file_open. unfold bind at 1. rewrite El. done.
Qed.

(** [/bin] is found in the volume, and then cached. *)
Lemma bin_run s sector R r sb c t tty b : let v := volume SDCARD sector in
  mounts_ready s sector R r sb c t tty → fs_wf (vs_fs s) → room (vs_fs s) 60 →
  dir_has (vs_fs s) v (root_cluster v) (str "bin") b → is_dir b = true →
  ∃ q j nm par s1, _vfs_dentry_child_by_name R (str "bin") s = Ret (q, s1) ∧
    _vfs_dentry_child_by_name R (str "bin") s1 = Ret (q, s1) ∧
    vfs_wf (vs_vfs s1) ∧ root (vs_vfs s1) = R ∧ free_slots (vs_vfs s1) 1 ∧ j ≠ 0 ∧
    dir_at (vs_vfs s1) R nm r par [c; q] [str "dev"; str "bin"] ∧ dir_at (vs_vfs s1) q (str "bin") j R [] [] ∧
    fs_ext (vs_fs s) (vs_fs s1) 60 ∧ dir_inode (vs_fs s1) v j (first_cluster b) sb.
Proof.
  intros v [(Hwf & HR & Hfree) (nm & par & qd & cs & Hroot & _) (Hr & v' & -> & Hdi) _ _] Hwff Hroom Hb Hdir.
  destruct (lookup_dir_run _ _ _ _ _ _ _ Hdi Hb Hdir Hwff Hroom) as (j & fs1 & El & Hj & Hx & Hdj).
  destruct (child_new_entry s R nm r par [c] [str "dev"] (str "bin") j fs1 1 Hwf Hroot) as (q & v1 & E & Hn); try done.
  { by apply (bool_decide_eq_true_1 (str "bin" ∉ [str "dev"])). }
  { apply Nat.leb_le. reflexivity. }
  { simpl. lia. }
  destruct Hn as [Hwf1 Hr1 Hf1 Hd1 Hq1 _ _]. exists q, j, nm, par, (mkvs fs1 v1). split_and!; try done.
  - apply (child_hit (mkvs fs1 v1) R _ _ _ Hwf1 (da_entry _ _ _ _ _ _ _ Hd1)).
    eapply cached_some with (k := 1%nat); [apply (da_children _ _ _ _ _ _ _ Hd1)| |done|done].
    by apply (bool_decide_eq_true_1 (NoDup [str "dev"; str "bin"])).
  - simpl. congruence.
Qed.

(** A file that was just opened, without descriptors *)
Lemma opened_fat s s' i f e sb ino v chain secs n : fs_inodes s !! i = Some (inode_of e sb ino) →
  is_dir e = false → opened s s' i f → fat_file s' f v chain secs n 0 → fat_open f v chain secs n s'.
Proof.
  intros Hi Hd [[Hf _] [p Hfiles] Hin _] Hff. split; [by exists 0%nat| |done].
  exists (mkfile 0 i 0 p), (inode_of e sb ino). rewrite Hfiles, Hin, lookup_insert_eq. split_and!; try done.
  unfold inode_of. fold (is_dir e). by rewrite Hd.
Qed.

(** Apart from the new file [f], files, inodes and output are as they were. *)
Record undisturbed (s s' : fs) (f : Z) : Prop := {
  ud_inodes : fs_inodes s ⊆ fs_inodes s';
  ud_files : ∀ g x, fs_files s !! g = Some x → g ≠ f ∧ fs_files s' !! g = Some x;
  ud_uart : fs_uart s' = fs_uart s;
}.

Lemma opened_undisturbed s s1 s2 s3 s4 n i x f : fs_ext s s1 n → new_inode s1 s2 i x → opened s2 s3 i f →
  same_open s3 s4 f → undisturbed s s4 f.
Proof.
  intros [_ Hi _ _ Hf _ Hu _ _] [[_ Hnew] Hi1 Hf1 Hu1] [[_ Hfresh] [p Hf2] Hi2 Hu2] [Hi3 Hu3 Ho _].
  split; [|intros g y Hg|congruence].
  - rewrite Hi3, Hi2, Hi1. etransitivity; [exact Hi|by apply insert_subseteq].
  - assert (g ≠ f) as Hne by congruence. split; [done|]. rewrite (Ho g Hne), Hf2, lookup_insert_ne by done. congruence.
Qed.

(** The program's file is opened, and its header is read. *)
Lemma open_init_run s sector R r sb c t tty content b e : let v := volume SDCARD sector in
  mounts_ready s sector R r sb c t tty → fs_wf (vs_fs s) → room (vs_fs s) 200 →
  dir_has (vs_fs s) v (root_cluster v) (str "bin") b → is_dir b = true →
  dir_has (vs_fs s) v (first_cluster b) (str "init") e → is_dir e = false →
  file_has (vs_fs s) v e content → (52 ≤ length content)%nat →
  ∃ f chain secs n s', content = fat_content secs n ∧
    elf_opens (fat_since (vs_fs s') f v chain secs n) (str "/bin/init") f content s s' ∧
    undisturbed (vs_fs s) (vs_fs s') f.
Proof.
  intros v Hready Hwff Hroom Hb Hbd He Hed (chain & secs & n & Hvol & Hc & Hsize & Hle & Hbig & ->) Hlen.
  destruct (bin_run _ _ _ _ _ _ _ _ _ Hready Hwff ltac:(by eapply room_le) Hb Hbd)
    as (q & j & nm & par & s1 & E & E' & Hwf1 & HR1 & Hf1 & Hj & Hroot & Hq & Hx & Hdj).
  destruct Hready as [(_ & HR & _) _ _ _ _].
  eapply dir_has_same in He; [|apply (ext_disks _ _ _ Hx)]. pose proof Hdj as [_ (node & Hn & _ & _ & Ho & Hm)].
  destruct (dir_inode_has _ _ _ _ _ _ _ Hdj He) as (dchain & dsecs & items & ino & l & Hfd & Hfind).
  assert (fat_path s1 (str "/bin/init") q (mkdentry (str "bin") j R []) (str "init") v dchain dsecs items sb) as Hp.
  { split.
    - exists (str "bin" ++ 47 :: str "init"). split; [done|]. rewrite HR1.
      eapply path_below with (k := 1%nat); [exact Hroot| |done|done| | |exact Hq| |].
      + by apply (bool_decide_eq_true_1 (NoDup [str "dev"; str "bin"])).
      + by apply (bool_decide_eq_true_1 (47 ∉ str "bin")).
      + apply Nat.leb_le. reflexivity.
      + split; [done|]. by exists node.
      + apply cp_last; [|done]. by apply (bool_decide_eq_true_1 (47 ∉ str "init")).
    - apply (da_entry _ _ _ _ _ _ _ Hq).
    - done.
    - split; [apply Nat.leb_le; reflexivity|]. split; [simpl; lia|by apply (free_has_slot _ 0)].
    - exact Hfd.
    - split; [done|]. by exists node.
    - split; [done|]. split; [apply (ext_wf _ _ _ Hx)|]. by eapply ext_room; [exact Hx|eapply room_le|]. }
  destruct (open_found s1 _ _ _ _ _ _ _ _ _ Hp e ino l 0 0 chain secs Hfind eq_refl) as [Hopen _]; [|done|].
  { eapply on_volume_same; [apply (ext_disks _ _ _ Hx)|exact Hvol]. }
  destruct (Hopen Hed eq_refl n Hsize Hle Hbig) as (f & i & fs2 & s2 & E2 & Hni & Hop & Hff).
  assert (fat_open f v chain secs n (vs_fs s2)) as Hfo.
  { eapply opened_fat; [|exact Hed|exact Hop|exact Hff]. rewrite (ni_inodes _ _ _ _ Hni). apply lookup_insert_eq. }
  destruct (fat_read_run (vs_fs s2) f v chain secs n 0 52 Hff ltac:(lia) ltac:(lia)) as (s3 & E3 & Hff3 & Hsame).
  assert (length (fat_content secs n) ≤ n)%nat as Hln by (unfold fat_content; rewrite length_take; lia).
  exists f, chain, secs, n, (mkvs s3 (vs_vfs s2)). split; [done|].
  split; [|by eapply opened_undisturbed]. exists s2, s3. split_and!; [| |..].
  - rewrite <- E2. change (str "/bin/init") with (47 :: str "bin" ++ 47 :: str "init").
    apply (open_through s s1 (str "bin") (str "init") q); rewrite ?HR; try done.
    + by apply (bool_decide_eq_true_1 (47 ∉ str "bin")).
    + apply Nat.leb_le. reflexivity.
  - apply (fo_nonnull _ _ _ _ _ _ Hfo).
  - destruct (fo_file _ _ _ _ _ _ Hfo) as (fl & nd & Hf & _ & Hi & Hops). unfold vfs_file_read.
    rewrite (bind_Ret _ _ _ _ _ (ops_of_run _ _ _ _ Hf Hi)), Hops. change SIZEOF_ELF32_HEADER with (Z.of_nat 52).
    rewrite E3. rewrite Nat.sub_0_r, Nat.min_l by lia. by rewrite drop_0.
  - split; [by eapply fat_open_move|apply same_open_id].
  - done.
Qed.

(** ** The descriptors *)

(** Only how often the file [f] is used differs. *)
Record recounted (f : Z) (s s' : vstate) : Prop := {
  rc_tree : same_tree s s';
  rc_heap : fs_heap (vs_fs s') = fs_heap (vs_fs s);
  rc_uart : fs_uart (vs_fs s') = fs_uart (vs_fs s);
  rc_wf : fs_wf (vs_fs s) → fs_wf (vs_fs s');
  rc_file : ∀ fl, fs_files (vs_fs s) !! f = Some fl → ∃ n, fs_files (vs_fs s') !! f = Some (with_count n fl);
}.

Lemma recounted_refl f s : recounted f s s.
Proof. split; [by split|done|done|done|]. intros fl H. exists (f_count fl). by destruct fl. Qed.

Lemma recounted_trans f s1 s2 s3 : recounted f s1 s2 → recounted f s2 s3 → recounted f s1 s3.
Proof.
  intros [? ? ? ? H1] [? ? ? ? H2]. split; [by eapply same_tree_trans|congruence|congruence|auto|].
  intros fl Hf. destruct (H1 fl Hf) as [n Hn]. destruct (H2 _ Hn) as [m Hm]. by exists m.
Qed.

Lemma recounted_set f n s : recounted f s (set_fd_count f n s).
Proof.
  split; simpl; [by split|done|done| |].
  - intros []. split; try done. simpl. intros p [a Ha]. apply wf_files0.
    rewrite lookup_alter_Some in Ha. destruct Ha as [(_ & y & Hy & _)|[_ Hy]]; eauto.
  - intros fl Hf. exists n. by rewrite lookup_alter_eq, Hf.
Qed.

(** init is the only process and runs; its first [k] descriptors stand for the file [f]. *)
Record fds_upto (w : system) (p : process) (f k : Z) : Prop := {
  fu_wf : wf w ∧ running w p ∧ live (sched w) = [p];
  fu_used : ∀ d, 0 ≤ d < 16 → Bitfield.used (files_bitfield p) d = (d <? k);
  fu_files : ∀ d, 0 ≤ d < k → files p !! Z.to_nat d = Some f;
}.

Lemma fds_current w p f k : fds_upto w p f k → current_proc (sched w) = 0.
Proof.
  intros [(H & [Hp _] & Hl) _ _]. rewrite Hl in Hp. apply list_lookup_singleton_Some in Hp as [? _].
  pose proof (wf_current w H). lia.
Qed.

Lemma add_fd_filesys (w : system) i f fd w' : _proc_add_fd i f w = Ret (fd, w') →
  ram w' = ram w ∧ recounted f (filesys w) (filesys w').
Proof.
  unfold _proc_add_fd, upd_proc, get_proc, set_proc. intros E. inv_run. destruct x1 as [d bf]. inv_run.
  destruct (d >=? 0); inv_run; [|split; [done|apply recounted_refl]].
  match goal with H : zoom _ _ = Ret _ |- _ => rename H into Ez end. unfold zoom, add_fd_count in Ez.
  destruct (fd_count _ f) as [c|]; [|done]. injection Ez as <- <-. split; [done|].
  apply (recounted_set f (u32 (c + 1))).
Qed.

Lemma add_one w p f k : fds_upto w p f k → 0 ≤ k < 16 → is_Some (fd_count (filesys w) f) →
  ∃ w' p', _proc_add_fd 0 f w = Ret (k, w') ∧ fds_upto w' p' f (k + 1) ∧ is_Some (fd_count (filesys w') f) ∧
    memory_section p' = memory_section p ∧ ram w' = ram w ∧ recounted f (filesys w) (filesys w').
Proof.
  intros Hu Hk Hf. pose proof (fds_current _ _ _ _ Hu) as Hc. destruct Hu as [(H & [Hp Hst] & Hl) Hused Hfiles].
  rewrite Hc in Hp. destruct (add_fd_spec w 0 p f H ltac:(lia) Hp Hf)
    as [[_ Hfull]|(d & bf & fs & E & Hwf & Hd & Hfree & Hlow & Hset & Hraise)].
  { specialize (Hfull k Hk). rewrite Hused, Z.ltb_irrefl in Hfull by lia. done. }
  assert (d = k) as ->.
  { rewrite Hused in Hfree by lia. apply Z.ltb_ge in Hfree. destruct (Z.eq_dec d k); [done|].
    specialize (Hlow k ltac:(lia)). rewrite Hused, Z.ltb_irrefl in Hlow by lia. done. }
  set (p' := with_files _ bf p) in *. exists (with_fs fs (put_proc 0 p' w)), p'. split; [exact E|].
  destruct (add_fd_filesys _ _ _ _ _ E) as [Hr Hfs].
  pose proof (Forall_lookup_1 _ _ _ _ (wf_fds w H) Hp) as (Hflen & _ & _).
  split; [|split; [by eapply counts_raised_some|split; [done|split; [exact Hr|exact Hfs]]]].
  assert (live (sched (put_proc 0 p' w)) = [p']) as Hlive by (by rewrite put_live, Hl).
  split; simpl.
  - split; [exact Hwf|]. split; [|exact Hlive]. split; [|exact Hst].
    change (live (sched (put_proc 0 p' w)) !! Z.to_nat (current_proc (sched w)) = Some p').
    by rewrite Hlive, Hc.
  - intros x Hx. rewrite Hset, Hused by lia. destruct (Z.ltb_spec x k), (Z.ltb_spec x (k + 1)), (Z.eqb_spec x k); lia || done.
  - intros x Hx. destruct (Z.eq_dec x k) as [->|]; [apply list_lookup_insert_eq; lia|].
    rewrite list_lookup_insert_ne by lia. apply Hfiles. lia.
Qed.

Lemma init_fds_run w p f : fds_upto w p f 0 → f ≠ 0 → is_Some (fd_count (filesys w) f) →
  ∃ w' p', start_init_fds f w = Ret ((), w') ∧ fds_upto w' p' f 3 ∧
    memory_section p' = memory_section p ∧ ram w' = ram w ∧ recounted f (filesys w) (filesys w').
Proof.
  intros Hu Hf0 Hf. destruct (add_one w p f 0 Hu ltac:(lia) Hf) as (w1 & p1 & E1 & Hu1 & Hf1 & Hm1 & Hr1 & Hc1).
  destruct (add_one w1 p1 f 1 Hu1 ltac:(lia) Hf1) as (w2 & p2 & E2 & Hu2 & Hf2 & Hm2 & Hr2 & Hc2).
  destruct (add_one w2 p2 f 2 Hu2 ltac:(lia) Hf2) as (w3 & p3 & E3 & Hu3 & Hf3 & Hm3 & Hr3 & Hc3).
  exists w3, p3. split; [|split; [done|split; [congruence|split; [congruence|]]]].
  - unfold start_init_fds. rewrite (proj2 (Z.eqb_neq f 0) Hf0). erewrite bind_Ret by reflexivity.
    by rewrite (bind_Ret _ _ _ _ _ E1), (bind_Ret _ _ _ _ _ E2), (bind_Ret _ _ _ _ _ E3).
  - eapply recounted_trans; [|exact Hc3]. by eapply recounted_trans.
Qed.

(** ** The process *)

(** On the allocators that the kernel's initialisation leaves, init gets its resources. *)
Lemma start_proc_run w : booted w →
  sections w = SectionAllocator.mk [15; 0; 0; 0; 0; 0; 0; 0] 0x00800000 →
  ttables w = TranslationTableAllocator.mk [1; 0; 0; 0; 0; 0; 0; 0] 0x00900000 {[ 0x00900000 := kernel_table ]} →
  sched w = mksched (replicate 32 zero_process) 0 0 0 → ram w = ∅ →
  ∃ w' p, start_init_proc w = Ret (0, w') ∧ filesys w' = filesys w ∧ ∀ f, fds_upto w' p f 0.
Proof.
  intros Hb Hs Ht Hc Hr. destruct (start_init_spec w Hb) as
    [[r E]|(w' & p & E & Hwf & Hrun & Hl & _ & Hfs & _ & Hbits)].
  - exfalso. destruct w as [s t m c v]. cbn [sections ttables sched ram] in Hs, Ht, Hc, Hr. subst s t m c.
    assert (∀ v, match start_init_proc (F := vstate) (mkworld (SectionAllocator.mk [15; 0; 0; 0; 0; 0; 0; 0] 0x00800000)
      (TranslationTableAllocator.mk [1; 0; 0; 0; 0; 0; 0; 0] 0x00900000 {[ 0x00900000 := kernel_table ]}) ∅
      (mksched (replicate 32 zero_process) 0 0 0) v) with Ret _ => true | _ => false end = true) as H.
    { intros v'. vm_compute. reflexivity. }
    specialize (H v). by rewrite E in H.
  - exists w', p. split; [done|]. split; [done|]. intros f. split; [done| |lia].
    intros d Hd. rewrite Hbits. rewrite (proj2 (Z.ltb_ge d 0)) by lia.
    unfold Bitfield.used. destruct (_ !! _) as [b|] eqn:Eb; [|done].
    apply (lookup_replicate_1 2 0) in Eb as [-> _]. by rewrite Z.bits_0.
Qed.

Lemma init_image w p f k : fds_upto w p f k → ∃ s, ram w !! memory_section p = Some s.
Proof.
  intros [(H & Hrun & Hl) _ _]. assert (live (sched w) !! 0%nat = Some p) as Hp by (by rewrite Hl).
  pose proof (Forall_lookup_1 _ _ _ _ (wf_res w H) Hp) as Hres. unfold res_ok, alive in Hres.
  rewrite (proj2 Hrun) in Hres. destruct Hres as (_ & _ & [s Hs] & _). by exists s.
Qed.

(** The path is written to the start of init's memory. *)
Lemma store_path_run w p f k l : fds_upto w p f k → Forall is_u8 l → Z.of_nat (length l) ≤ 0x100000 →
  ∃ w' s, store_bytes (memory_section p) l w = Ret ((), w') ∧ fds_upto w' p f k ∧ filesys w' = filesys w ∧
    ram w' !! memory_section p = Some s ∧ has_bytes s 0 l.
Proof.
  intros Hu Hl Hlen. destruct (init_image _ _ _ _ Hu) as [s Hs]. destruct Hu as [(H & Hrun & Hlive) Hused Hfiles].
  pose proof (store_image w p H Hrun s (filesys w) PROCESS_SECTION_VIRTUAL_ADDRRESS l ltac:(lia) ltac:(lia) Hl) as E.
  rewrite Z.sub_diag, Z.add_0_r in E.
  assert (at_image w p s (filesys w) = w) as Ew by (unfold at_image; rewrite insert_id by done; by destruct w).
  rewrite Ew in E. eexists _, _. split; [exact E|]. pose proof (quiet_store_bytes _ _ _ _ _ E) as Hq.
  split; [|split; [done|split; [apply lookup_insert_eq|apply has_put_bytes]]].
  split; [|done|done]. split; [by eapply wf_quiet|]. split; [by eapply running_quiet|done].
Qed.

Lemma start_init_run w sector R r sb c t tty : booted w →
  sections w = SectionAllocator.mk [15; 0; 0; 0; 0; 0; 0; 0] 0x00800000 →
  ttables w = TranslationTableAllocator.mk [1; 0; 0; 0; 0; 0; 0; 0] 0x00900000 {[ 0x00900000 := kernel_table ]} →
  sched w = mksched (replicate 32 zero_process) 0 0 0 → ram w = ∅ →
  mounts_ready (filesys w) sector R r sb c t tty → fs_wf (vs_fs (filesys w)) → room (vs_fs (filesys w)) 300 →
  ∃ w' p f n s, start_init (str "/bin/init") w = Ret ((), w') ∧ fds_upto w' p f 3 ∧
    same_tree (filesys w) (filesys w') ∧ fs_wf (vs_fs (filesys w')) ∧ room (vs_fs (filesys w')) 200 ∧
    fs_uart (vs_fs (filesys w')) = fs_uart (vs_fs (filesys w)) ∧
    fs_files (vs_fs (filesys w')) !! f = Some (mkfile n tty 0 0) ∧
    ram w' !! memory_section p = Some s ∧ has_bytes s 0 (str "/bin/init" ++ [0]).
Proof.
  intros Hb Hs Ht Hc Hr Hready Hwff Hroom.
  destruct (start_proc_run w Hb Hs Ht Hc Hr) as (w1 & p1 & E1 & Efs & Hu1). rewrite <- Efs in *.
  destruct (open_tty_run _ _ _ _ _ _ _ _ Hready Hwff ltac:(by eapply room_le)) as (f & h & E2 & Hf0 & _ & Hg & Hwf2).
  set (s2 := comp_set _ _) in *. set (w2 := with_fs (mkvs s2 (vs_vfs (filesys w1))) w1).
  assert (onvfs (vfs_file_open (str "/dev/tty") 0 0) w1 = Ret (f, w2)) as E2' by (by apply onvfs_run).
  assert (fs_files s2 !! f = Some (mkfile 0 tty 0 0)) as Hf2 by apply lookup_insert_eq.
  assert (fds_upto w2 p1 f 0) as Hu2.
  { assert (quiet w1 w2) as Hq by (by eapply (quiet_onvfs (vfs_file_open _ _ _)); [keeps|]).
    destruct (Hu1 f) as [(Hw & Hrun & Hl) Hused Hfiles]. split; [|done|done].
    split; [by eapply wf_quiet|]. split; [by eapply running_quiet|done]. }
  destruct (init_fds_run w2 p1 f Hu2 ltac:(lia)) as (w3 & p3 & E3 & Hu3 & Hm3 & Hr3 & [Htree Hheap Huart Hwf3 Hfile]).
  { apply count_is_some. by exists (mkfile 0 tty 0 0). }
  destruct (store_path_run w3 p3 f 3 (str "/bin/init" ++ [0]) Hu3) as (w4 & s & E4 & Hu4 & Efs4 & Hs4 & Hbytes).
  { apply (bool_decide_eq_true_1 (Forall is_u8 _)). vm_compute. reflexivity. }
  { vm_compute. discriminate. }
  destruct (Hfile _ Hf2) as [n Hn]. exists w4, p3, f, n, s. rewrite Efs4. split_and!; try done.
  - unfold start_init. rewrite (bind_Ret _ _ _ _ _ E1), (bind_Ret _ _ _ _ _ E2'), (bind_Ret _ _ _ _ _ E3).
    erewrite bind_Ret; [exact E4|]. destruct Hu3 as [(_ & _ & Hl) _ _]. apply get_proc_live; [done|by rewrite Hl].
  - eapply same_tree_trans; [|exact Htree]. by split.
  - by apply Hwf3.
  - unfold room. rewrite Hheap. simpl. rewrite (grew_end _ _ _ Hg). pose proof (grew_cursor _ _ _ Hg).
    destruct Hroom as [_ Hroom]. unfold SIZEOF_FILE in *. lia.
Qed.

(** ** The first system call *)

Lemma null_run w p : wf w → running w p → scheduler_cur_proc_to_kernel_address 0 w = Ret (0, w).
Proof.
  intros H [Hp Hst]. pose proof (wf_current w H). unfold scheduler_cur_proc_to_kernel_address.
  rewrite (bind_Ret _ _ _ _ _ (get_current_eq w H)). unfold proc_translate.
  rewrite (bind_Ret _ _ _ _ _ (get_proc_live w (current_proc (sched w)) p ltac:(lia) Hp)).
  pose proof (Forall_lookup_1 _ _ _ _ (wf_res w H) Hp) as Hres. unfold res_ok, alive in Hres.
  rewrite Hst in Hres. destruct Hres as (_ & _ & _ & (tb & Htb & _) & _).
  by erewrite bind_Ret by (unfold get_table; rewrite Htb; reflexivity).
Qed.

Lemma one_ready w p : wf w → live (sched w) = [p] → is_scheduled p = true →
  scheduler_switch_task w = Ret (0, with_current 0 w) ∧ wf (with_current 0 w).
Proof.
  intros H Hl Hp. assert (proc_count (sched w) = 1) as Hn.
  { pose proof (wf_count w H). pose proof (live_length (sched w) (wf_table w H) ltac:(lia)) as Hlen.
    rewrite Hl in Hlen. simpl in Hlen. lia. }
  destruct (switch_run w H) as [(d & _ & _ & _ & E & Hwf)|[Hnone _]].
  - pose proof (after_range w d H). assert (after w d = 0) as Ha by lia. by rewrite Ha in *.
  - specialize (Hnone 0 ltac:(lia)). unfold ready in Hnone. rewrite Hl in Hnone. simpl in Hnone. congruence.
Qed.

(** What init is given to run. *)
Record program_ok (content : list Z) : Prop := {
  po_image : elf_image content;
  po_segments : Forall (segment_ok content) (program_headers content);
  po_entry : PROCESS_PROGRAM_START_VADRR ≤ entry (elf32_header content) ≤ PROCESS_PROGRAM_END_VADRR;
}.

Lemma exec_path_run w p f s P fo content v1 `{!Readable P fo content} : fds_upto w p f 3 →
  ram w !! memory_section p = Some s → has_bytes s 0 (str "/bin/init" ++ [0]) →
  elf_opens P (str "/bin/init") fo content (filesys w) v1 → program_ok content →
  ∃ v2, scheduler_cur_proc_exec (memory_section p + 0) [] w = Ret (0, executed w p content [] v2) ∧
    P (vs_fs v2) ∧ wf (executed w p content [] v2).
Proof.
  intros [(H & Hrun & _) _ _] Hs Hb Hopen [Himage Hsegs Hentry].
  destruct (exec_run w p H Hrun (memory_section p + 0) [] P fo content) as (v2 & E & HP).
  { split; [|exact Himage|exact Hsegs| |exact Hentry].
    - exists (str "/bin/init"), v1. split; [|exact Hopen].
      apply (load_cstr_run w p s H Hrun Hs 0 (str "/bin/init")); [|done| |exact Hb].
      + apply (bool_decide_eq_true_1 (Forall _ _)). vm_compute. reflexivity.
      + apply Z.ltb_lt. vm_compute. reflexivity.
    - split; [apply Nat.ltb_lt; reflexivity|constructor]. }
  exists v2. split; [exact E|]. split; [exact HP|]. by eapply wf_exec.
Qed.

Definition init_process (c : task_context) (content : list Z) (p : process) : process :=
  with_context (exec_context content []) (with_context c p).

Lemma svc_init_run w p f s c P fo content v1 `{!Readable P fo content} : fds_upto w p f 3 →
  ram w !! memory_section p = Some s → has_bytes s 0 (str "/bin/init" ++ [0]) →
  elf_opens P (str "/bin/init") fo content (filesys w) v1 → program_ok content →
  ∃ w', __scheduler_exec_init c PROCESS_SECTION_VIRTUAL_ADDRRESS w = Ret (0, w') ∧
    fds_upto w' (init_process c content p) f 3 ∧ P (vs_fs (filesys w')) ∧
    ram w' !! memory_section p = Some (args_image [] (segments_image content)).
Proof.
  intros Hu Hs Hb Hopen Hok. pose proof (fds_current _ _ _ _ Hu) as Hc.
  destruct Hu as [(H & [Hp Hst] & Hl) Hused Hfiles]. rewrite Hc in Hp.
  set (p1 := with_context c p). set (w1 := put_proc 0 p1 w).
  assert (live (sched w1) = [p1]) as Hl1 by (unfold w1; by rewrite put_live, Hl).
  assert (wf w1) as H1 by (by apply wf_put_context).
  assert (running w1 p1) as Hrun1.
  { split; [|exact Hst]. rewrite Hl1. change (current_proc (sched w1)) with (current_proc (sched w)). by rewrite Hc. }
  assert (fds_upto w1 p1 f 3) as Hu1 by (by split).
  destruct (exec_path_run w1 p1 f s P fo content v1 Hu1 Hs Hb Hopen Hok) as (v2 & E & HP & H2).
  set (w2 := executed w1 p1 content [] v2) in *.
  assert (live (sched w2) = [init_process c content p]) as Hl2.
  { unfold w2, executed. rewrite put_live. change (live (sched (at_image w1 p1 _ v2))) with (live (sched w1)).
    rewrite Hl1. change (current_proc (sched w1)) with (current_proc (sched w)). by rewrite Hc. }
  assert (running w2 (init_process c content p)) as Hrun2.
  { split; [|exact Hst]. rewrite Hl2. change (current_proc (sched w2)) with (current_proc (sched w)). by rewrite Hc. }
  destruct (one_ready w2 _ H2 Hl2) as [E3 H3]; [unfold is_scheduled; simpl; by rewrite Hst|].
  exists (with_current 0 w2). split; [|split; [split|split]].
  - unfold __scheduler_exec_init, _svc_handler.
    assert (scheduler_save_current_context c w = Ret ((), w1)) as E1.
    { unfold scheduler_save_current_context. rewrite (bind_Ret _ _ _ _ _ (get_current_eq w H)).
      rewrite Hc. by rewrite (upd_proc_live w 0 p). }
    rewrite (bind_Ret _ _ _ _ _ E1). erewrite bind_Ret; [exact E3|]. unfold kernel_syscall_handler.
    change (SYSCALL__EXEC >=? SYSCALL_COUNT) with false. cbn iota.
    rewrite (bind_Ret _ _ _ _ _ (get_id_run w1 p1 H1 Hrun1)). erewrite bind_Ret by reflexivity.
    erewrite (bind_Ret (_syscall__EXEC _ _ _)).
    2:{ unfold _syscall__EXEC.
        rewrite (bind_Ret _ _ _ _ _ (to_kernel_run w1 p1 s H1 Hrun1 Hs PROCESS_SECTION_VIRTUAL_ADDRRESS
          ltac:(unfold PROCESS_SECTION_VIRTUAL_ADDRRESS; lia))). rewrite Z.sub_diag.
        rewrite (bind_Ret _ _ _ _ _ (null_run w1 p1 H1 Hrun1)). erewrite bind_Ret by reflexivity. exact E. }
    rewrite (bind_Ret _ _ _ _ _ (get_id_run w2 _ H2 Hrun2)). simpl id. by rewrite Z.eqb_refl.
  - split; [exact H3|]. split; [|exact Hl2]. split; [|exact Hst]. simpl.
    change (live (sched w2) !! 0%nat = Some (init_process c content p)). by rewrite Hl2.
  - exact Hused.
  - exact Hfiles.
  - exact HP.
  - apply lookup_insert_eq.
Qed.

(** ** The whole boot *)

(** The open file is the terminal. *)
Definition terminal (s : fs) (f : Z) : Prop :=
  ∃ fl node, fs_files s !! f = Some fl ∧ fs_inodes s !! f_inode fl = Some node ∧ file_ops node = DEV_TTY_OPS.

(** init is the only process and runs, at the start of the program [content] in a section
    that holds its segments, with the terminal as descriptors 0, 1 and 2. *)
Record init_runs (w : system) (p : process) (f : Z) (content : list Z) : Prop := {
  ir_process : wf w ∧ running w p ∧ live (sched w) = [p];
  ir_context : context p = exec_context content [];
  ir_image : ram w !! memory_section p = Some (args_image [] (segments_image content));
  ir_used : ∀ fd, 0 ≤ fd < 16 → Bitfield.used (files_bitfield p) fd = (fd <? 3);
  ir_files : ∀ fd, 0 ≤ fd < 3 → files p !! Z.to_nat fd = Some f;
  ir_terminal : terminal (vs_fs (filesys w)) f;
}.

Lemma getc_run (w : system) u key typed : fs_uart (vs_fs (filesys w)) = u → uart_in u = key :: typed →
  onfile mini_uart_getc w = Ret (key,
    with_fs (mkvs (comp_set (mkuart typed (uart_out u)) (vs_fs (filesys w))) (vs_vfs (filesys w))) w).
Proof.
  intros <- Hu. apply onvfs_run, onfs_Ret. unfold mini_uart_getc. erewrite bind_Ret by reflexivity. by rewrite Hu.
Qed.

(** [scheduler_start] once the tree is there; [w0] is the state that the kernel's
    initialisation left. *)
Lemma scheduler_start_run w0 node typed0 v sector content R r sb c t tty :
  kernel_ready w0 node typed0 → mounts_ready v sector R r sb c t tty → fs_wf (vs_fs v) → room (vs_fs v) 300 →
  boot_volume (vs_fs v) sector content → program_ok content →
  ∃ w1, start_init (str "/bin/init") (with_fs v w0) = Ret ((), w1) ∧ ∀ ctx, ∃ w p f,
    __scheduler_exec_init ctx PROCESS_SECTION_VIRTUAL_ADDRRESS w1 = Ret (0, w) ∧ init_runs w p f content ∧
    fs_uart (vs_fs (filesys w)) = fs_uart (vs_fs v).
Proof.
  intros [[Hb1 Hb2 Hb3 Hb4] Hs Ht Hc Hr _ _ _ _ _] Hready Hwff Hroom
    [_ _ (b & e & Hbin & Hbd & Hinit & Hid & Hfile)] Hok.
  assert (booted (with_fs v w0)) as Hb by (by split).
  destruct (start_init_run (with_fs v w0) _ _ _ _ _ _ _ Hb Hs Ht Hc Hr Hready Hwff Hroom) as
    (w1 & p & f & n & s & E1 & Hu & Htree & Hwf1 & Hroom1 & Huart & Hf & Hram & Hbytes).
  pose proof (st_disks _ _ Htree) as Hdisks. pose proof (ready_same _ _ _ _ _ _ _ _ _ Htree Hready) as Hready1.
  eapply dir_has_same in Hbin; [|exact Hdisks]. eapply dir_has_same in Hinit; [|exact Hdisks].
  eapply file_has_same in Hfile; [|exact Hdisks]. pose proof (ei_header _ (po_image _ Hok)) as Hlen.
  destruct (open_init_run _ _ _ _ _ _ _ _ _ _ _ Hready1 Hwf1 Hroom1 Hbin Hbd Hinit Hid Hfile ltac:(lia))
    as (fo & chain & secs & k & v1 & -> & Hopen & [Hinodes Hfiles Hu1]).
  exists w1. split; [done|]. intros ctx.
  destruct (svc_init_run w1 p f s ctx _ fo _ v1 Hu Hram Hbytes Hopen Hok) as (w2 & E2 & Hu2 & [_ Hsame] & Hram2).
  exists w2, (init_process ctx (fat_content secs k) p), f. split; [done|]. split.
  - destruct Hu2 as [Hw Hused Hfds]. split; try done. destruct (rd_node _ _ _ _ _ _ _ _ Hready1) as [_ (node' & Hn & Hops)].
    destruct (Hfiles _ _ Hf) as [Hne Hf1]. exists (mkfile n tty 0 0), node'. split_and!; [| |done].
    + by rewrite (so_others _ _ _ Hsame f Hne).
    + rewrite (so_inodes _ _ _ Hsame). simpl. by eapply lookup_weaken.
  - rewrite (so_uart _ _ _ Hsame), Hu1. exact Huart.
Qed.

(** From the state that [_kernel_init] leaves, up to the system call and then for any
    registers *)
Lemma kernel_boot_run s0 t0 root_node memory w0 node key typed sector content :
  _kernel_init root_node memory s0 = Ret (t0, w0) → kernel_ready w0 node (key :: typed) →
  boot_volume (vs_fs (filesys w0)) sector content → program_ok content →
  ∃ v w1, (let* _ := _kernel_init root_node memory in
           let* _ := _kernel_mount_root_fs in _kernel_mount_dev_tmpfs) s0 = Ret ((), v) ∧
    mounted_tree (filesys v) sector ∧
    (let* _ := _kernel_init root_node memory in let* _ := _kernel_mount_root_fs in
     let* _ := _kernel_mount_dev_tmpfs in let* _ := onfile mini_uart_getc in
     start_init (str "/bin/init")) s0 = Ret ((), w1) ∧ ∀ ctx, ∃ w p f,
      __scheduler_exec_init ctx PROCESS_SECTION_VIRTUAL_ADDRRESS w1 = Ret (0, w) ∧
      kernel_main root_node memory ctx s0 = Ret (0, w) ∧
      init_runs w p f content ∧ fs_uart (vs_fs (filesys w)) = mkuart typed [].
Proof.
  intros E Hk Hvol Hok. destruct (mounts_run _ _ _ sector content Hk Hvol) as (s1 & s2 & E1 & E2 & Hx & Htree).
  pose proof Htree as (R & r & sb & c & t & tty & Hready).
  pose proof (kr_uart _ _ _ Hk) as Hu. rewrite <- (ext_uart _ _ _ Hx) in Hu.
  pose proof (getc_run (with_fs s2 w0) _ key typed Hu eq_refl) as E3. simpl in E3. set (v := mkvs _ _) in E3.
  destruct (kr_wf _ _ _ Hk) as (_ & _ & Hroom).
  destruct (scheduler_start_run w0 _ _ v sector content R r sb c t tty Hk) as (w1 & E4 & H).
  - apply (ready_same s2); [by split|done].
  - destruct (ext_wf _ _ _ Hx). by split.
  - exact (ext_room _ _ _ 300 Hx ltac:(by eapply room_le) ltac:(done)).
  - eapply boot_volume_same; [|exact Hvol]. exact (ext_disks _ _ _ Hx).
  - exact Hok.
  - exists (with_fs s2 w0), w1. unfold kernel_main, scheduler_start.
    rewrite !(bind_Ret _ _ _ _ _ E), !(bind_Ret _ _ _ _ _ E1), !(bind_Ret _ _ _ _ _ E2), (bind_Ret _ _ _ _ _ E3).
    split_and!; [exact E2|exact Htree|exact E4|]. intros ctx. destruct (H ctx) as (w & p & f & E5 & Hi).
    exists w, p, f. split; [exact E5|]. split; [|exact Hi].
    rewrite (bind_Ret _ _ _ _ _ E), (bind_Ret _ _ _ _ _ E1), (bind_Ret _ _ _ _ _ E2), (bind_Ret _ _ _ _ _ E3).
    rewrite (bind_Ret _ _ _ _ _ E4). exact E5.
Qed.

(** The boot brings the system up: from a card whose sectors hold a FAT32 volume with a
    directory [dev] and the ELF file [bin/init], and with a key typed, [kernel_main] returns.
    The mounts leave a tree with the volume at [/] and a file system in memory at [/dev], in
    it the terminal and the block devices; in the end init is the only process, it runs at
    the entry of its program, whose segments are what its section holds, and its descriptors
    0, 1 and 2 are the terminal. *)
Theorem boot_correct root_node memory card key typed sector content ctx :
  0 < root_node < KERNEL_DYN_SECTIONS_BEGIN →
  boot_volume (vs_fs (filesys (initialized root_node memory card (key :: typed)))) sector content →
  program_ok content →
  (∃ v, (let* _ := _kernel_init root_node memory in
         let* _ := _kernel_mount_root_fs in _kernel_mount_dev_tmpfs) (reset card (key :: typed)) = Ret ((), v) ∧
    mounted_tree (filesys v) sector) ∧
  ∃ w p f, kernel_main root_node memory ctx (reset card (key :: typed)) = Ret (0, w) ∧
    init_runs w p f content ∧ fs_uart (vs_fs (filesys w)) = mkuart typed [].
Proof.
  intros Hnode Hvol Hok. destruct (kernel_boot_run _ _ _ _ _ _ _ _ _ _
    (kernel_init_run root_node memory card (key :: typed)) (initialized_ready _ memory card _ Hnode) Hvol Hok)
    as (v & w1 & Em & Htree & _ & H). split; [exists v; by split|].
  destruct (H ctx) as (w & p & f & _ & Ek & Hi). exists w, p, f. by split.
Qed.

End InitSpec.
