(* ===== verification/SystemWitness.v ===== *)
(** * The properties of the whole system at work

    Each is instantiated at the machine of [SystemExamples], booted from a card. *)
From S2P Require Import Prelude Bitfield Mmu Alloc Heap Hash Fs FsState FsInv Devices Ramfs Fat32 Fat32Spec Vfs VfsSpec Elf ElfSpec Scheduler SchedulerInv SchedulerOps Exec Syscalls SystemInv ExecSpec FamilySpec Kernel SystemExamples KernelSpec.
Import Fs FsState Devices Fat32 Fat32Spec Vfs Elf ElfSpec Scheduler SchedulerInv SchedulerOps Exec Syscalls SystemInv ExecSpec FamilySpec Kernel SystemExamples KernelSpec.

Module SystemWitness.

(** ** The running machine *)

Lemma w_boot_run : ∃ i, kernel_main 0x8000 ∅ zero_context w_reset = Ret (i, w_boot).
Proof.
  assert (is_ret (kernel_main 0x8000 ∅ zero_context w_reset) = true) as H by (vm_compute; reflexivity).
  unfold w_boot. exact (run_system (kernel_main 0x8000 ∅ zero_context) w_reset H).
Defined.

Lemma w_boot_reachable : reachable 0x8000 ∅ card [13; 104; 105; 13] w_boot.
Proof. destruct w_boot_run as [i E]. exact (reach_boot _ _ _ _ _ _ _ E). Defined.


(** ** exec *)

(** init, with the path of its program and two arguments in its memory. *)
Definition init_proc : process := default zero_process (live (sched w_boot) !! 0%nat).
Definition w_user : system :=
  with_ram (<[memory_section init_proc :=
    put_bytes 0x100 (str "/bin/init" ++ [0]) (image w_boot)]> (ram w_boot)) w_boot.

Lemma boot_init : running w_boot init_proc.
Proof. split; vm_compute; reflexivity. Defined.

Lemma user_inv : wf w_user ∧ running w_user init_proc.
Proof.
  destruct w_boot_run as [i E].
  destruct (sys_step_inv w_boot w_user) as [Hwf _].
  - by eapply boot_inv.
  - apply step_user, boot_init.
  - split; [exact Hwf|]. split; vm_compute; reflexivity.
Qed.

(** The file, once it is open and its header was read. *)
Definition opened : outcome (Z * vstate) := vfs_file_open (str "/bin/init") 0 0 (filesys w_user).
Definition f_init : Z := Eval vm_compute in match opened with Ret (f, _) => f | _ => 0 end.
Definition v_opened : vstate := match opened with Ret (_, v) => v | _ => filesys w_user end.
Definition s_read : fs :=
  match vfs_file_read f_init SIZEOF_ELF32_HEADER (vs_fs v_opened) with
  | Ret (_, s) => s
  | _ => vs_fs v_opened
  end.

Definition the_file : file := Eval vm_compute in default zero_file (fs_files s_read !! f_init).
Definition the_inode : inode := Eval vm_compute in
  default zero_inode (fs_inodes s_read !! f_inode the_file).
Definition the_sb : super_block_t := Eval vm_compute in
  default (mksb 0 FAT32_SB_OPS 0) (fs_sbs s_read !! super_block the_inode).
Definition the_volume : fat32_sb_private_t := Eval vm_compute in
  default (mkfat 0 0 0 0 0 0) (fs_fat s_read !! sb_private the_sb).
Definition the_place : fat32_file_reg_private_t := Eval vm_compute in
  default (mkfreg (mkloc 0 0 0) 0) (fs_fat_files s_read !! f_private the_file).

Definition sector_4 : list Z := Eval vm_compute in pad 512 init_elf.

Lemma init_on_volume : on_volume the_volume s_read [4] [sector_4].
Proof.
  split.
  - vm_compute. by split.
  - intros [|[|j]] c c' H1 H2; discriminate.
  - reflexivity.
  - intros [|k] c b H1 H2; [|discriminate]. vm_compute in H1.
    injection H1 as <-. injection H2 as <-. vm_compute. reflexivity.
  - intros b Hb. apply elem_of_cons in Hb as [->|Hb]; [reflexivity|]. by apply elem_of_nil in Hb.
  - apply NoDup_singleton.
  - apply Nat.leb_le. vm_compute. reflexivity.
Defined.

Lemma init_fat_file : fat_file s_read f_init the_volume [4] [sector_4] 92 52.
Proof.
  apply (mkff _ _ _ _ _ _ _ the_file the_inode the_sb the_place);
    try (vm_compute; reflexivity); try discriminate.
  - exact init_on_volume.
  - exists 0%nat, 52%nat. split; [reflexivity|]. split; [reflexivity|].
    split; apply Nat.leb_le; reflexivity.
  - apply Nat.leb_le. reflexivity.
Defined.

Lemma init_open : fat_open f_init the_volume [4] [sector_4] 92 s_read.
Proof.
  split.
  - exists 52%nat. exact init_fat_file.
  - exists the_file, the_inode. split_and!; vm_compute; reflexivity.
  - discriminate.
Defined.

Definition path_address : Z := Eval vm_compute in memory_section init_proc + 0x100.
Definition arguments : list name_t := [str "init"; str "hi"].

Lemma exec_init_ok : exec_ok w_user path_address arguments
  (fat_open f_init the_volume [4] [sector_4] 92) f_init (fat_content [sector_4] 92).
Proof.
  split.
  - exists (str "/bin/init"), (mkvs s_read (vs_vfs v_opened)). split; [vm_compute; reflexivity|].
    exists v_opened, s_read. split; [vm_compute; reflexivity|]. split; [discriminate|].
    split; [vm_compute; reflexivity|]. split; [exact init_open|reflexivity].
  - split.
    + apply (bool_decide_eq_true_1 (Forall is_u8 _)). vm_compute. reflexivity.
    + vm_compute. discriminate.
    + vm_compute. reflexivity.
    + vm_compute. discriminate.
  - apply Forall_singleton. intros _. vm_compute. repeat split; discriminate.
  - split; [apply Nat.ltb_lt; reflexivity|].
    repeat (apply Forall_cons; split); try apply Forall_nil; try apply Nat.leb_le; try reflexivity;
      repeat constructor.
  - vm_compute. split; discriminate.
Qed.


Lemma exec_argv_roundtrip_witness :
  ∃ w' q x, scheduler_cur_proc_exec path_address arguments w_user = Ret (0, w') ∧
    scheduler_cur_proc_to_kernel_address (r0 (context q)) w' = Ret (x, w') ∧
    copy_argv (Z.to_nat PROCESS_MAX_ARG_COUNT) x w' = Ret (arguments, w').
Proof.
  destruct (exec_argv_roundtrip w_user init_proc path_address arguments _ f_init _
    (proj1 user_inv) (proj2 user_inv) exec_init_ok) as (w' & q & x & E & _ & _ & E1 & E2).
  - apply Nat.leb_le. reflexivity.
  - exists w', q, x. split; [exact E|]. split; [exact E1|exact E2].
Defined.

(** ** fork, wait and exit

    init forks; the timer interrupts the child; init waits; the child exits with 7. *)
Definition running_proc (w : system) : process :=
  default zero_process (live (sched w) !! Z.to_nat (current_proc (sched w))).
Definition status_address : Z := 0x00880000.
Definition w_forked : system := run (_svc_handler zero_context SYSCALL__FORK 0 0 0) w_boot.
Definition w_interrupted : system := run (_irq_handler zero_context) w_forked.
Definition w_waiting : system :=
  run (_svc_handler zero_context SYSCALL__WAITPID 2 status_address 0) w_interrupted.
Definition w_exited : system := run (_svc_handler zero_context SYSCALL__EXIT 7 0 0) w_waiting.

Lemma the_interleaving : interleaving 1 2 7 status_address w_forked true true w_exited.
Proof.
  assert (is_ret (_irq_handler zero_context w_forked) = true) as H1 by (vm_compute; reflexivity).
  assert (is_ret (_svc_handler zero_context SYSCALL__WAITPID 2 status_address 0 w_interrupted) = true)
    as H2 by (vm_compute; reflexivity).
  assert (is_ret (_svc_handler zero_context SYSCALL__EXIT 7 0 0 w_waiting) = true) as H3
    by (vm_compute; reflexivity).
  apply run_system in H1 as [j1 E1]. apply run_system in H2 as [j2 E2]. apply run_system in H3 as [j3 E3].
  eapply (il_exit _ _ _ _ _ true w_waiting w_exited (running_proc w_waiting) zero_context j3).
  - eapply (il_wait _ _ _ _ _ false w_interrupted w_waiting (running_proc w_interrupted) zero_context j2).
    + eapply (il_irq _ _ _ _ _ false false w_forked w_interrupted zero_context j1); [|done|exact E1].
      apply il_start.
    + split; vm_compute; reflexivity.
    + vm_compute. reflexivity.
    + exact E2.
  - split; vm_compute; reflexivity.
  - vm_compute. reflexivity.
  - exact E3.
Qed.

Lemma fork_wait_exit_witness :
  reunited [] 1 2 (memory_section init_proc) (SectionAllocator.owned (sections w_boot)) 7
    status_address w_exited.
Proof.
  assert (is_ret (_svc_handler zero_context SYSCALL__FORK 0 0 0 w_boot) = true) as H by (vm_compute; reflexivity).
  apply run_system in H as [j E].
  assert (wf w_boot) as Hwf by (destruct w_boot_run as [i Ei]; by eapply boot_inv).
  destruct (fork_wait_exit [] init_proc w_boot zero_context 0 0 0 j w_forked 7 status_address)
    as [_ Hall].
  - exact Hwf.
  - exact boot_init.
  - vm_compute. reflexivity.
  - constructor.
  - intros q Hq. vm_compute in Hq. injection Hq as <-. reflexivity.
  - vm_compute. reflexivity.
  - vm_compute. reflexivity.
  - split; vm_compute; discriminate.
  - exact E.
  - exact (Hall true true w_exited the_interleaving).
Defined.

End SystemWitness.
