(* ===== verification/Format.v ===== *)
(** * Printing numbers and format strings

    What [kernel/log/log.c] and [userland/lib/stdio.c] have in common: the loop that
    fills a buffer with digits from its end, the arguments of a variadic function, and
    the reference they are compared with - numerals, and the rendering of a format. *)
From S2P Require Import Prelude.

Module Format.

(** ** The loop of the number printers

    [do { result[--index] = car(x); x = rest(x); } while (x > 0)]: the buffer and the
    index of the first digit. *)
Fixpoint digits_loop (fuel : nat) (car rest : Z → Z) (x index : Z) (result : list Z) :
    outcome (list Z * Z) :=
  match fuel with
  | O => Timeout
  | S fuel =>
      let index := index - 1 in
      let? result := arr_set result index (car x) in
      let x := rest x in
      if x >? 0 then digits_loop fuel car rest x index result else Ret (result, index)
  end.

(** A [uint32_t] has at most 32 digits in any base. *)
Definition digits_of := digits_loop 32.

(** [static const char cars[] = "0123456789abcdef"] *)
Definition hex_cars : list Z :=
  [48; 49; 50; 51; 52; 53; 54; 55; 56; 57; 97; 98; 99; 100; 101; 102].

(** ** Arguments of a variadic function *)

Inductive va : Type :=
| VaInt (z : Z)
| VaStr (s : list Z).

(** [va_arg] with the type of an integer, as its 32 bits, and of a string: any other
    argument, or none, is undefined. *)
Definition va_int (ap : list va) : outcome (Z * list va) :=
  match ap with VaInt z :: ap => Ret (u32 z, ap) | _ => Fault end.
Definition va_str (ap : list va) : outcome (list Z * list va) :=
  match ap with VaStr s :: ap => Ret (s, ap) | _ => Fault end.

(** A character of a C string. *)
Definition is_car (c : Z) : Prop := 0 < c < 0x100.

(** ** Numerals *)

(** The digits of [x] in base [b], the most significant one first. *)
Fixpoint numeral (n : nat) (b x : Z) : list Z :=
  match n with
  | O => []
  | S n => if x <? b then [x] else numeral n b (x / b) ++ [x `mod` b]
  end.

Definition value (b : Z) (l : list Z) : Z := fold_left (λ a d, a * b + d) l 0.

Lemma value_app b l d : value b (l ++ [d]) = value b l * b + d.
Proof. unfold value. by rewrite fold_left_app. Qed.

Lemma numeral_value n b x : 1 < b → 0 ≤ x < b ^ Z.of_nat n → value b (numeral n b x) = x.
Proof.
  intros Hb. revert x. induction n as [|n IH]; intros x Hx.
  { rewrite Z.pow_0_r in Hx. unfold value. simpl. lia. }
  cbn [numeral]. destruct (Z.ltb_spec x b); [done|].
  rewrite value_app, IH.
  - pose proof (Z.div_mod x b ltac:(lia)). lia.
  - rewrite Nat2Z.inj_succ, Z.pow_succ_r in Hx by lia.
    split; [apply Z.div_pos; lia|]. apply Z.div_lt_upper_bound; lia.
Qed.

Lemma numeral_digits n b x : 1 < b → 0 ≤ x → Forall (λ d, 0 ≤ d < b) (numeral n b x).
Proof.
  intros Hb. revert x. induction n as [|n IH]; intros x Hx; [constructor|].
  cbn [numeral]. destruct (Z.ltb_spec x b); [by apply Forall_singleton|].
  apply Forall_app. split; [apply IH, Z.div_pos; lia|].
  apply Forall_singleton. apply Z.mod_pos_bound. lia.
Qed.

(** As many digits as are needed. *)
Lemma numeral_length n b x k : 1 < b → 0 ≤ x < b ^ Z.of_nat (S k) →
  (length (numeral n b x) ≤ S k)%nat.
Proof.
  intros Hb. revert x k. induction n as [|n IH]; intros x k Hx; [simpl; lia|].
  cbn [numeral]. destruct (Z.ltb_spec x b); [simpl; lia|].
  rewrite length_app. simpl. rewrite Nat2Z.inj_succ, Z.pow_succ_r in Hx by lia.
  destruct k as [|k]; [simpl in Hx; lia|].
  specialize (IH (x / b) k). rewrite Nat.add_1_r. apply le_n_S, IH.
  split; [apply Z.div_pos; lia|]. apply Z.div_lt_upper_bound; lia.
Qed.

(** A quotient has a digit less. *)
Lemma quotient_range b x n : 1 < b → 0 ≤ x < b ^ Z.of_nat (S n) → 0 ≤ x / b < b ^ Z.of_nat n.
Proof.
  intros Hb Hx. rewrite Nat2Z.inj_succ, Z.pow_succ_r in Hx by lia.
  split; [apply Z.div_pos; lia|]. apply Z.div_lt_upper_bound; lia.
Qed.

(** No leading zeroes. *)
Lemma numeral_head n b x : 1 < b → 0 < x < b ^ Z.of_nat n → head (numeral n b x) ≠ Some 0.
Proof.
  intros Hb. revert x. induction n as [|n IH]; intros x Hx; [rewrite Z.pow_0_r in Hx; lia|].
  cbn [numeral]. destruct (Z.ltb_spec x b); [simpl; intros [= ->]; lia|].
  assert (0 < x / b < b ^ Z.of_nat n) as Hd.
  { split; [apply Z.div_str_pos; lia|]. by apply quotient_range; [|split; [lia|apply Hx]]. }
  specialize (IH _ Hd). destruct n as [|n]; [rewrite Z.pow_0_r in Hd; lia|].
  destruct (numeral (S n) b (x / b)) as [|d l] eqn:E; [|done].
  exfalso. pose proof (numeral_value (S n) b (x / b) Hb ltac:(lia)) as Hv.
  rewrite E in Hv. unfold value in Hv. simpl in Hv. lia.
Qed.

(** More fuel than digits makes no difference. *)
Lemma numeral_fuel b n : ∀ m x, 1 < b → 0 ≤ x < b ^ Z.of_nat n → (0 < n ≤ m)%nat →
  numeral m b x = numeral n b x.
Proof.
  induction n as [|n IH]; intros m x Hb Hx Hm; [lia|]. destruct m as [|m]; [lia|].
  cbn [numeral]. destruct (Z.ltb_spec x b); [done|].
  pose proof (quotient_range b x n Hb Hx) as Hq. assert (0 < x / b) by (apply Z.div_str_pos; lia).
  destruct n as [|n]; [rewrite Z.pow_0_r in Hq; lia|]. f_equal. by apply IH; [| |lia].
Qed.

(** ** What the loop leaves in the buffer *)

Section digits.
Context (b : Z) (car rest digit : Z → Z).
Hypothesis Hb : 1 < b.
Hypothesis Hrest : ∀ x, 0 ≤ x → rest x = x / b.
Hypothesis Hcar : ∀ x, 0 ≤ x → car x = digit (x `mod` b).

(** [k] digits fit in front of [index]: the buffer ends up with the digits of [x] right
    before the old index, and everything behind it as it was. *)
Lemma digits_loop_spec fuel : ∀ k x index result,
  0 ≤ x < b ^ Z.of_nat k → (k ≤ fuel)%nat → (0 < k)%nat →
  Z.of_nat k ≤ index ≤ Z.of_nat (length result) →
  let ds := map digit (numeral k b x) in
  ∃ result', digits_loop fuel car rest x index result = Ret (result', index - Z.of_nat (length ds)) ∧
    length result' = length result ∧
    drop (Z.to_nat (index - Z.of_nat (length ds))) result' = ds ++ drop (Z.to_nat index) result.
Proof.
  induction fuel as [|fuel IH]; intros k x index result Hx Hk Hk0 Hi; [lia|].
  cbn [digits_loop]. rewrite (arr_set_Ret result (index - 1)) by lia. cbn [obind].
  rewrite Hrest, Hcar by lia. destruct k as [|k]; [lia|]. cbn [numeral].
  assert (drop (Z.to_nat (index - 1)) (<[Z.to_nat (index - 1) := digit (x `mod` b)]> result) =
    digit (x `mod` b) :: drop (Z.to_nat index) result) as Hdrop.
  { replace (Z.to_nat index) with (S (Z.to_nat (index - 1))) by lia.
    rewrite (drop_S _ (digit (x `mod` b)) (Z.to_nat (index - 1)));
      [|apply list_lookup_insert_eq; lia]. by rewrite drop_insert_lt by lia. }
  destruct (Z.ltb_spec x b) as [Hlt|Hge].
  - rewrite (Z.div_small x b), (Z.mod_small x b) in * by lia. simpl.
    eexists. split; [done|]. split; [by rewrite length_insert|exact Hdrop].
  - assert (0 < x / b) as Hpos by (apply Z.div_str_pos; lia).
    rewrite (proj2 (Z.gtb_lt (x / b) 0) Hpos).
    pose proof (quotient_range b x k Hb Hx) as Hq.
    destruct k as [|k]; [rewrite Z.pow_0_r in Hq; lia|].
    destruct (IH (S k) (x / b) (index - 1) (<[Z.to_nat (index - 1) := digit (x `mod` b)]> result))
      as (result' & E & Hlen & Hd); [done|lia|lia|rewrite length_insert; lia|].
    rewrite map_app, length_app. cbn [map length].
    exists result'. rewrite E. split_and!.
    + do 2 f_equal. lia.
    + by rewrite Hlen, length_insert.
    + replace (index - Z.of_nat (length (map digit (numeral (S k) b (x / b))) + 1))
        with (index - 1 - Z.of_nat (length (map digit (numeral (S k) b (x / b))))) by lia.
      by rewrite Hd, Hdrop, <- app_assoc.
Qed.
End digits.

Definition digit_car (d : Z) : Z := if d <? 10 then 48 + d else 87 + d.

(** The text of a number in base [b], in lower case. *)
Definition number (b x : Z) : list Z := map digit_car (numeral 32 b x).

Lemma digit_is_car d : 0 ≤ d < 16 → is_car (digit_car d).
Proof. unfold digit_car, is_car. destruct (Z.ltb_spec d 10); lia. Qed.

Lemma number_cars b x : 1 < b ≤ 16 → 0 ≤ x → Forall is_car (number b x).
Proof.
  intros Hb Hx. apply Forall_fmap. eapply Forall_impl; [apply (numeral_digits 32 b x); lia|].
  intros d Hd. simpl in *. apply digit_is_car. lia.
Qed.

(** The digits as the printers compute them. *)
Lemma hex_car x : 0 ≤ x → nth (Z.to_nat (Z.land x 0xF)) hex_cars 0 = digit_car (x `mod` 16).
Proof.
  intros Hx. change 0xF with (Z.ones 4). rewrite Z.land_ones by lia. change (2 ^ 4) with 16.
  pose proof (Z.mod_pos_bound x 16 ltac:(lia)) as Hm. revert Hm. generalize (x `mod` 16) as d.
  intros d Hd. assert (d ∈ seqZ 0 16) as Hin by (apply elem_of_seqZ; lia).
  clear Hd. revert d Hin. apply Forall_forall.
  apply (bool_decide_eq_true_1 (Forall (λ d, nth (Z.to_nat d) hex_cars 0 = digit_car d) _)).
  vm_compute. reflexivity.
Qed.

Lemma decimal_car x : 0 ≤ x → 48 + x `mod` 10 = digit_car (x `mod` 10).
Proof.
  intros Hx. unfold digit_car. pose proof (Z.mod_pos_bound x 10).
  by rewrite (proj2 (Z.ltb_lt (x `mod` 10) 10)) by lia.
Qed.

(** Both number printers' buffers: [k] digits are enough for the base, and fit in front
    of the last byte, which stays NUL. *)
Lemma digits_buffer b car rest k n i m x :
  1 < b ≤ 16 → i = Z.of_nat n → m = S n →
  (∀ x, 0 ≤ x → rest x = x / b) → (∀ x, 0 ≤ x → car x = digit_car (x `mod` b)) →
  0x100000000 ≤ b ^ Z.of_nat k → (0 < k ≤ n)%nat → (k ≤ 32)%nat → is_u32 x →
  ∃ r j, digits_of car rest x i (replicate m 0) = Ret (r, j) ∧
    drop (Z.to_nat j) r = number b x ++ [0].
Proof.
  intros Hb -> -> Hrest Hcar Hpow Hk Hk32 Hx. unfold is_u32 in Hx.
  destruct (digits_loop_spec b car rest digit_car ltac:(lia) Hrest Hcar 32 k x (Z.of_nat n)
    (replicate (S n) 0)) as (r & E & Hlen & Hd); [lia|lia|lia|rewrite length_replicate; lia|].
  eexists r, _. split; [exact E|].
  rewrite Hd, Nat2Z.id, drop_replicate. unfold number. rewrite (numeral_fuel b k 32 x) by lia.
  by replace (S n - n)%nat with 1%nat by lia.
Qed.

Definition signed (x : Z) : list Z :=
  if x <? 0 then 45 :: number 10 (u32 (- x)) else number 10 x.

(** A format is text with directives: [%] and a character.  A [%] at the end is
    dropped. *)
Inductive piece : Type :=
| Lit (c : Z)
| Dir (c : Z).

Fixpoint pieces (format : list Z) : list piece :=
  match format with
  | [] => []
  | c :: format =>
      if c =? 37 then
        match format with
        | [] => []
        | d :: format => Dir d :: pieces format
        end
      else Lit c :: pieces format
  end.

(** The text of the directive [%c] and the arguments left; [after] is what follows a
    number that is not signed, [other] renders what is not a directive. *)
Definition directive (after : list Z) (binary : bool) (other : Z → list Z) (c : Z) (ap : list va) :
    outcome (list Z * list va) :=
  if c =? 117 then let? (x, ap) := va_int ap in Ret (number 10 x ++ after, ap)
  else if c =? 100 then let? (x, ap) := va_int ap in Ret (signed (s32 x) ++ after, ap)
  else if c =? 120 then let? (x, ap) := va_int ap in Ret (number 16 x ++ after, ap)
  else if binary && (c =? 98) then let? (x, ap) := va_int ap in Ret (number 2 x ++ after, ap)
  else if c =? 115 then va_str ap
  else if c =? 99 then let? (x, ap) := va_int ap in Ret ([u8 x], ap)
  else Ret (other c, ap).

Fixpoint render (dir : Z → list va → outcome (list Z * list va)) (ps : list piece) (ap : list va) :
    outcome (list Z) :=
  match ps with
  | [] => Ret []
  | Lit c :: ps => let? l := render dir ps ap in Ret (c :: l)
  | Dir c :: ps =>
      let? (l, ap) := dir c ap in
      let? l' := render dir ps ap in
      Ret (l ++ l')
  end.

(** The pieces of a format that is read after a [%]. *)
Definition pieces_from (escape : bool) (format : list Z) : list piece :=
  if escape then match format with [] => [] | d :: format => Dir d :: pieces format end
  else pieces format.

(** Strings among the arguments are C strings. *)
Definition va_ok (v : va) : Prop := match v with VaInt _ => True | VaStr s => Forall is_car s end.

Lemma va_int_ok ap : Forall va_ok ap → ∀ x ap1, va_int ap = Ret (x, ap1) →
  is_u32 x ∧ Forall va_ok ap1.
Proof.
  intros Hap x ap1 E. destruct ap as [|[z|l1] ap]; [done| |done]. injection E as <- <-.
  split; [apply u32_range|by apply Forall_cons in Hap as [_ ?]].
Qed.

(** ** Types of the arguments *)

Inductive arg_type : Type := TInt | TStr.

Definition has_type (t : arg_type) (v : va) : bool :=
  match t, v with TInt, VaInt _ | TStr, VaStr _ => true | _, _ => false end.

(** What the directive [%c] takes from the arguments, if anything. *)
Definition directive_type (binary : bool) (c : Z) : option arg_type :=
  if (c =? 117) || (c =? 100) || (c =? 120) || (binary && (c =? 98)) then Some TInt
  else if c =? 115 then Some TStr
  else if c =? 99 then Some TInt
  else None.

(** The types a format asks for, in order. *)
Definition format_types (binary : bool) (ps : list piece) : list arg_type :=
  omap (λ p, match p with Lit _ => None | Dir c => directive_type binary c end) ps.

(** The arguments have these types; there may be more of them. *)
Fixpoint well_typed (ts : list arg_type) (ap : list va) : bool :=
  match ts, ap with
  | [], _ => true
  | t :: ts, v :: ap => has_type t v && well_typed ts ap
  | _ :: _, [] => false
  end.

(** A directive takes the argument of its type, and is undefined without. *)
Lemma directive_typed after binary other c ap :
  match directive_type binary c with
  | None => directive after binary other c ap = Ret (other c, ap)
  | Some t =>
      match ap with
      | v :: ap' => if has_type t v then ∃ l, directive after binary other c ap = Ret (l, ap')
                    else directive after binary other c ap = Fault
      | [] => directive after binary other c ap = Fault
      end
  end.
Proof.
  unfold directive_type, directive.
  destruct (c =? 117), (c =? 100), (c =? 120), binary, (c =? 98), (c =? 115), (c =? 99); cbn [orb andb];
    try done; destruct ap as [|[]]; cbn; eauto.
Qed.

Lemma render_typed after binary other ps ap :
  if well_typed (format_types binary ps) ap
  then ∃ l, render (directive after binary other) ps ap = Ret l
  else render (directive after binary other) ps ap = Fault.
Proof.
  revert ap. induction ps as [|[c|c] ps IH]; intros ap; [by eexists| |].
  - specialize (IH ap). cbn [render format_types omap list_omap].
    destruct (well_typed _ ap); [|by rewrite IH]. destruct IH as [l ->]. by eexists.
  - pose proof (directive_typed after binary other c ap) as Hd.
    cbn [render format_types omap list_omap]. destruct (directive_type binary c) as [t|].
    + destruct ap as [|v ap]; [by rewrite Hd|]. cbn [well_typed].
      destruct (has_type t v); [|by rewrite Hd]. destruct Hd as [l ->]. cbn [obind andb].
      specialize (IH ap). destruct (well_typed _ ap); [|by rewrite IH].
      destruct IH as [l' ->]. by eexists.
    + rewrite Hd. cbn [obind]. specialize (IH ap).
      destruct (well_typed _ ap); [|by rewrite IH]. destruct IH as [l' ->]. by eexists.
Qed.

(** ** Reading a numeral back *)

Definition car_digit (c : Z) : option Z :=
  if (48 <=? c) && (c <=? 57) then Some (c - 48)
  else if (97 <=? c) && (c <=? 102) then Some (c - 87)
  else None.

(** A numeral in base [b]: at least one digit, and nothing else. *)
Definition parse (b : Z) (l : list Z) : option Z :=
  ds ← mapM car_digit l;
  if bool_decide (ds ≠ [] ∧ Forall (λ d, d < b) ds) then Some (value b ds) else None.

Lemma car_digit_car d : 0 ≤ d < 16 → car_digit (digit_car d) = Some d.
Proof.
  intros Hd. unfold digit_car, car_digit. destruct (Z.ltb_spec d 10).
  - rewrite (proj2 (Z.leb_le 48 _)), (proj2 (Z.leb_le _ 57)) by lia. simpl. f_equal. lia.
  - rewrite (proj2 (Z.leb_gt _ 57)), andb_false_r by lia.
    rewrite (proj2 (Z.leb_le 97 _)), (proj2 (Z.leb_le _ 102)) by lia. simpl. f_equal. lia.
Qed.

Lemma parse_number b x : 1 < b ≤ 16 → is_u32 x → parse b (number b x) = Some x.
Proof.
  intros Hb Hx. unfold is_u32 in Hx. unfold parse, number.
  assert (0 ≤ x < b ^ Z.of_nat 32) as Hx'.
  { split; [lia|]. eapply Z.lt_le_trans; [apply Hx|].
    change 0x100000000 with (2 ^ Z.of_nat 32). apply Z.pow_le_mono_l. lia. }
  pose proof (numeral_digits 32 b x ltac:(lia) ltac:(lia)) as Hds.
  assert (mapM car_digit (map digit_car (numeral 32 b x)) = Some (numeral 32 b x)) as ->.
  { apply (mapM_fmap_Forall_Some car_digit digit_car). eapply Forall_impl; [exact Hds|].
    intros d Hd. apply car_digit_car. cbv beta in Hd. lia. }
  cbn [mbind option_bind]. rewrite bool_decide_eq_true_2; [by rewrite numeral_value by lia|]. split.
  - cbn [numeral]. destruct (x <? b); [done|]. intros H. by apply app_nil in H as [_ ?].
  - eapply Forall_impl; [exact Hds|]. intros d Hd. cbv beta in Hd. lia.
Qed.

(** A number prints in as many digits as it needs. *)
Lemma number_length b x k : 1 < b → 0 ≤ x < b ^ Z.of_nat (S k) →
  (length (number b x) ≤ S k)%nat.
Proof. intros. unfold number. rewrite length_map. by apply numeral_length. Qed.

End Format.
