(* ===== verification/Log.v ===== *)
(** * The kernel's log: [kernel/log/log.c]

    Text, numbers and formats printed on the serial terminal. *)
From S2P Require Import Prelude Mmu Alloc Heap Fs FsState Devices Format.
Import Fs FsState Devices Format.

Module Log.

(** ** The code *)

(** A string is an array with a NUL. *)
Fixpoint kernel_puts (s : list Z) : MF unit :=
  match s with
  | [] => fault
  | c :: s =>
      if c =? 0 then ret ()
      else let* _ := mini_uart_putc (u8 c) in kernel_puts s
  end.

Definition _mini_uart_put_uint (x : Z) : MF unit :=
  let* r := lift (digits_of (λ x, 48 + x `mod` 10) (λ x, x / 10) x 10 (replicate 11 0)) in
  kernel_puts (drop (Z.to_nat (snd r)) (fst r)).

Definition _mini_uart_put_int (x : Z) : MF unit :=
  if x <? 0 then
    let* _ := mini_uart_putc 45 in
    _mini_uart_put_uint (u32 (- x))
  else _mini_uart_put_uint (u32 x).

Definition _mini_uart_put_uint_hex (x : Z) : MF unit :=
  let* r := lift (digits_of (λ x, nth (Z.to_nat (Z.land x 0xF)) hex_cars 0)
                    (λ x, Z.shiftr x 4) x 15 (replicate 16 0)) in
  kernel_puts (drop (Z.to_nat (snd r)) (fst r)).

Definition _mini_uart_put_uint_bin (x : Z) : MF unit :=
  let* r := lift (digits_of (λ x, 48 + Z.land x 1) (λ x, Z.shiftr x 1) x 32 (replicate 33 0)) in
  kernel_puts (drop (Z.to_nat (snd r)) (fst r)).

(** A conversion of the format: the arguments left. *)
Definition log_directive (c : Z) (ap : list va) : MF (list va) :=
  if c =? 117 then
    let* r := lift (va_int ap) in
    let* _ := _mini_uart_put_uint (fst r) in ret (snd r)
  else if c =? 100 then
    let* r := lift (va_int ap) in
    let* _ := _mini_uart_put_int (s32 (fst r)) in ret (snd r)
  else if c =? 120 then
    let* r := lift (va_int ap) in
    let* _ := _mini_uart_put_uint_hex (fst r) in ret (snd r)
  else if c =? 98 then
    let* r := lift (va_int ap) in
    let* _ := _mini_uart_put_uint_bin (fst r) in ret (snd r)
  else if c =? 115 then
    let* r := lift (va_str ap) in
    let* _ := kernel_puts (fst r ++ [0]) in ret (snd r)
  else if c =? 99 then
    let* r := lift (va_int ap) in
    let* _ := mini_uart_putc (u8 (fst r)) in ret (snd r)
  else
    let* _ := mini_uart_putc 37 in ret ap.

(** The loop of [kernel_log]. *)
Fixpoint log_loop (escape : bool) (format : list Z) (ap : list va) : MF unit :=
  match format with
  | [] => fault
  | c :: format =>
      if c =? 0 then ret ()
      else if escape then
        let* ap := log_directive c ap in
        log_loop false format ap
      else if c =? 37 then log_loop true format ap
      else
        let* _ := mini_uart_putc (u8 c) in
        log_loop false format ap
  end.

Definition LOG_PREFIX : list Z := 27 :: str "[2;34m[kernel] ".
Definition LOG_SUFFIX : list Z := 27 :: str "[0m" ++ [13; 10].

Definition kernel_log (format : list Z) (ap : list va) : MF unit :=
  let* _ := kernel_puts (LOG_PREFIX ++ [0]) in
  let* _ := log_loop false (format ++ [0]) ap in
  kernel_puts (LOG_SUFFIX ++ [0]).

(** ** What is sent *)

(** The bytes [l] sent, after those that were. *)
Definition sent (l : list Z) (s : fs) : fs :=
  comp_set (mkuart (uart_in (fs_uart s)) (rev l ++ uart_out (fs_uart s))) s.

Lemma sent_nil s : sent [] s = s.
Proof. by destruct s as [????????????? []]. Qed.

Lemma sent_app l l' s : sent l' (sent l s) = sent (l ++ l') s.
Proof. unfold sent. simpl. by rewrite rev_app_distr, <- app_assoc. Qed.

Lemma putc_run c s : mini_uart_putc c s = Ret ((), sent [c] s).
Proof. done. Qed.

Lemma puts_run l t s : Forall is_car l → kernel_puts (l ++ 0 :: t) s = Ret ((), sent l s).
Proof.
  intros H. revert s. induction H as [|c l Hc _ IH]; intros s; cbn [app kernel_puts].
  { by rewrite sent_nil. }
  unfold is_car in Hc. rewrite (proj2 (Z.eqb_neq c 0)) by lia. rewrite u8_small by lia.
  rewrite (bind_Ret _ _ _ _ _ (putc_run c s)), IH. by rewrite (sent_app [c]).
Qed.

(** ** Numbers *)

(** Any of the printers: [k] digits are enough for the base, and fit in the buffer. *)
Lemma print_run b car rest k n i m x s :
  1 < b ≤ 16 → i = Z.of_nat n → m = S n → (∀ x, 0 ≤ x → rest x = x / b) → (∀ x, 0 ≤ x → car x = digit_car (x `mod` b)) →
  0x100000000 ≤ b ^ Z.of_nat k → (0 < k ≤ n)%nat → (k ≤ 32)%nat → is_u32 x →
  (let* r := lift (digits_of car rest x i (replicate m 0)) in
   kernel_puts (drop (Z.to_nat (snd r)) (fst r))) s = Ret ((), sent (number b x) s).
Proof.
  intros Hb Hi Hm Hrest Hcar Hpow Hk Hk32 Hx.
  destruct (digits_buffer b car rest k n i m x Hb Hi Hm Hrest Hcar Hpow Hk Hk32 Hx)
    as (r & j & E & Hd).
  erewrite bind_Ret by (apply lift_Ret; split; [exact E|reflexivity]).
  cbn [fst snd]. rewrite Hd. apply puts_run, number_cars; [done|apply Hx].
Qed.

Lemma put_uint_run x s : is_u32 x →
  _mini_uart_put_uint x s = Ret ((), sent (number 10 x) s).
Proof.
  intros Hx. apply (print_run 10 _ _ 10 10); try done; try lia. apply decimal_car.
Qed.

Lemma put_hex_run x s : is_u32 x →
  _mini_uart_put_uint_hex x s = Ret ((), sent (number 16 x) s).
Proof.
  intros Hx. apply (print_run 16 _ _ 8 15); try done; try lia.
  - intros y Hy. by rewrite Z.shiftr_div_pow2 by lia.
  - apply hex_car.
Qed.

Lemma put_bin_run x s : is_u32 x →
  _mini_uart_put_uint_bin x s = Ret ((), sent (number 2 x) s).
Proof.
  intros Hx. apply (print_run 2 _ _ 32 32); try done; try lia.
  - intros y Hy. by rewrite Z.shiftr_div_pow2 by lia.
  - intros y Hy. change 1 with (Z.ones 1). rewrite Z.land_ones by lia. change (2 ^ 1) with 2.
    unfold digit_car. rewrite (proj2 (Z.ltb_lt (y `mod` 2) 10)) by lia. done.
Qed.

Lemma put_int_run x s : -0x80000000 ≤ x < 0x80000000 →
  _mini_uart_put_int x s = Ret ((), sent (signed x) s).
Proof.
  intros Hx. unfold _mini_uart_put_int, signed. destruct (Z.ltb_spec x 0).
  - rewrite (bind_Ret _ _ _ _ _ (putc_run 45 s)), put_uint_run by apply u32_range.
    by rewrite (sent_app [45]).
  - rewrite u32_small by lia. apply put_uint_run. unfold is_u32. lia.
Qed.

(** ** Formats *)

(** What [kernel_log] renders: a character that is no directive prints [%]. *)
Definition log_render := render (directive [] true (λ _, [37])).

Lemma directive_run c ap l ap' s : Forall va_ok ap →
  directive [] true (λ _, [37]) c ap = Ret (l, ap') →
  log_directive c ap s = Ret (ap', sent l s) ∧ Forall va_ok ap'.
Proof.
  intros Hap E. unfold directive in E. unfold log_directive.
  pose proof (va_int_ok ap Hap) as Hint.
  repeat case_match; simplify_eq/=;
    try (apply obind_inv in E as ([x ap1] & E1 & E); injection E as <- <-; rewrite ?app_nil_r;
         destruct (Hint _ _ E1) as [Hx Hap1]; split; [|done];
         erewrite bind_Ret by (apply lift_Ret; split; [exact E1|reflexivity]); cbn [fst snd]).
  - by rewrite (bind_Ret _ _ _ _ _ (put_uint_run x s Hx)).
  - by rewrite (bind_Ret _ _ _ _ _ (put_int_run (s32 x) s (s32_range x))).
  - by rewrite (bind_Ret _ _ _ _ _ (put_hex_run x s Hx)).
  - by rewrite (bind_Ret _ _ _ _ _ (put_bin_run x s Hx)).
  - destruct ap as [|[z|l1] ap]; [done..|]. injection E as <- <-.
    apply Forall_cons in Hap as [Hl Hap]. split; [|done]. unfold va_str.
    erewrite bind_Ret by (apply lift_Ret; split; reflexivity). cbn [fst snd].
    by rewrite (bind_Ret _ _ _ _ _ (puts_run l1 [] s Hl)).
  - done.
  - done.
Qed.

Lemma log_loop_run format : ∀ escape ap l s, Forall is_car format → Forall va_ok ap →
  log_render (pieces_from escape format) ap = Ret l →
  log_loop escape (format ++ [0]) ap s = Ret ((), sent l s).
Proof.
  induction format as [|c format IH]; intros escape ap l s Hf Hap E.
  { assert (l = []) as -> by (destruct escape; by injection E). by rewrite sent_nil. }
  apply Forall_cons in Hf as [Hc Hf]. unfold is_car in Hc. cbn [app log_loop].
  rewrite (proj2 (Z.eqb_neq c 0)) by lia. destruct escape.
  - cbn in E. apply obind_inv in E as ([l1 ap1] & E1 & E).
    apply obind_inv in E as (l2 & E2 & E). injection E as <-.
    destruct (directive_run c ap l1 ap1 s Hap E1) as [Er Hap1].
    rewrite (bind_Ret _ _ _ _ _ Er), (IH false ap1 l2) by done. by rewrite sent_app.
  - cbn [pieces_from pieces] in E. destruct (c =? 37); [by apply (IH true)|].
    cbn in E. apply obind_inv in E as (l2 & E2 & E). injection E as <-.
    rewrite u8_small by lia.
    rewrite (bind_Ret _ _ _ _ _ (putc_run c s)), (IH false ap l2) by done. by rewrite (sent_app [c]).
Qed.

Lemma kernel_log_run format ap l s :
  Forall is_car format → Forall va_ok ap → log_render (pieces format) ap = Ret l →
  kernel_log format ap s = Ret ((), sent (LOG_PREFIX ++ l ++ LOG_SUFFIX) s).
Proof.
  intros Hf Hap E. unfold kernel_log.
  rewrite (bind_Ret _ _ _ _ _ (puts_run LOG_PREFIX [] s ltac:(unfold LOG_PREFIX; repeat constructor))).
  rewrite (bind_Ret _ _ _ _ _ (log_loop_run format false ap l _ Hf Hap E)).
  rewrite puts_run by (unfold LOG_SUFFIX; repeat constructor). by rewrite !sent_app.
Qed.

Lemma directive_fault c ap s :
  directive [] true (λ _, [37]) c ap = Fault → log_directive c ap s = Fault.
Proof.
  intros E. unfold directive in E. unfold log_directive, bind, lift.
  destruct (c =? 117), (c =? 100), (c =? 120), (c =? 98), (c =? 115), (c =? 99);
    destruct ap as [|[]]; cbn [va_int va_str obind andb] in *; discriminate E || reflexivity.
Qed.

Lemma log_loop_fault format : ∀ escape ap s, Forall is_car format → Forall va_ok ap →
  log_render (pieces_from escape format) ap = Fault → log_loop escape (format ++ [0]) ap s = Fault.
Proof.
  induction format as [|c format IH]; intros escape ap s Hf Hap E; [by destruct escape|].
  apply Forall_cons in Hf as [Hc Hf]. unfold is_car in Hc. cbn [app log_loop].
  rewrite (proj2 (Z.eqb_neq c 0)) by lia. unfold log_render in E, IH. destruct escape.
  - cbn [pieces_from render] in E.
    destruct (directive [] true (λ _, [37]) c ap) as [[l1 ap1]|r| |] eqn:E1; try discriminate E.
    + destruct (directive_run c ap l1 ap1 s Hap E1) as [Er Hap1].
      rewrite (bind_Ret _ _ _ _ _ Er). apply (IH false); [done..|].
      cbn [obind] in E. cbn [pieces_from]. by destruct (render _ (pieces format) ap1).
    + unfold bind. by rewrite directive_fault.
  - cbn [pieces_from pieces] in E. destruct (c =? 37); [by apply (IH true)|].
    rewrite (bind_Ret _ _ _ _ _ (putc_run _ s)). apply (IH false); [done..|].
    cbn [render] in E. cbn [pieces_from]. by destruct (render _ (pieces format) ap).
Qed.

(** ** Properties *)

(** C32. Formats are typed: [kernel_log] is defined on exactly the arguments whose types
    are those that the directives of the format ask for, in their order, and then
    prints the rendering of the format; on any other arguments it reads an argument
    that is not there, or one of the other type. *)
Theorem kernel_log_typed format ap s : Forall is_car format → Forall va_ok ap →
  if well_typed (format_types true (pieces format)) ap then
    ∃ l, log_render (pieces format) ap = Ret l ∧
      kernel_log format ap s = Ret ((), sent (LOG_PREFIX ++ l ++ LOG_SUFFIX) s)
  else kernel_log format ap s = Fault.
Proof.
  intros Hf Hap. pose proof (render_typed [] true (λ _, [37]) (pieces format) ap) as Hr.
  destruct (well_typed _ ap).
  - destruct Hr as [l Hl]. exists l. split; [done|]. by apply kernel_log_run.
  - unfold kernel_log.
    rewrite (bind_Ret _ _ _ _ _ (puts_run LOG_PREFIX [] s ltac:(unfold LOG_PREFIX; repeat constructor))).
    unfold bind. by rewrite (log_loop_fault format false ap).
Qed.

Lemma kernel_log_typed_witness :
  (∃ l, kernel_log (str "%s = %d") [VaStr (str "fd"); VaInt 3] (empty_fs 0x01000000 0x00A00000 (λ _, None)) =
    Ret ((), sent (LOG_PREFIX ++ l ++ LOG_SUFFIX) (empty_fs 0x01000000 0x00A00000 (λ _, None)))) ∧
  kernel_log (str "%s = %d") [VaInt 3] (empty_fs 0x01000000 0x00A00000 (λ _, None)) = Fault.
Proof.
  assert (Forall is_car (str "%s = %d")) as Hf by by repeat constructor.
  split.
  - destruct (kernel_log_typed (str "%s = %d") [VaStr (str "fd"); VaInt 3]
      (empty_fs 0x01000000 0x00A00000 (λ _, None)) Hf) as (l & _ & E); [by repeat constructor|].
    exists l. exact E.
  - apply (kernel_log_typed (str "%s = %d") [VaInt 3]
      (empty_fs 0x01000000 0x00A00000 (λ _, None)) Hf). by repeat constructor.
Defined.

(** C34. What the kernel prints for a [uint32_t] in decimal, hexadecimal or binary is a
    numeral that reads back as the number, in at most as many digits as the buffer has
    room for, and without leading zeroes. *)
Theorem print_parse_roundtrip x s : is_u32 x →
  let prints (m : MF unit) b n := ∃ l, m s = Ret ((), sent l s) ∧ parse b l = Some x ∧
    (length l ≤ n)%nat ∧ (x ≠ 0 → head l ≠ Some 48) in
  prints (_mini_uart_put_uint x) 10 10%nat ∧
  prints (_mini_uart_put_uint_hex x) 16 8%nat ∧
  prints (_mini_uart_put_uint_bin x) 2 32%nat.
Proof.
  intros Hx prints. pose proof Hx as Hx'. unfold is_u32 in Hx'.
  assert (∀ b n, 1 < b ≤ 16 → 0x100000000 ≤ b ^ Z.of_nat (S n) →
    parse b (number b x) = Some x ∧ (length (number b x) ≤ S n)%nat ∧
    (x ≠ 0 → head (number b x) ≠ Some 48)) as Hnum.
  { intros b n Hb Hn. split; [by apply parse_number|]. split; [apply number_length; lia|].
    intros H0 Hh. apply (numeral_head 32 b x); [lia| |].
    - split; [lia|]. eapply Z.lt_le_trans; [apply Hx|].
      change 0x100000000 with (2 ^ Z.of_nat 32). apply Z.pow_le_mono_l. lia.
    - unfold number in Hh. pose proof (numeral_digits 32 b x ltac:(lia) ltac:(lia)) as Hd.
      destruct (numeral 32 b x) as [|d l]; [done|]. injection Hh as Hh.
      apply Forall_cons in Hd as [Hd _]. unfold digit_car in Hh. cbn [head]. f_equal.
      destruct (Z.ltb_spec d 10); lia. }
  split_and!; eexists.
  - split; [by apply put_uint_run|]. by apply (Hnum 10 9%nat).
  - split; [by apply put_hex_run|]. by apply (Hnum 16 7%nat).
  - split; [by apply put_bin_run|]. by apply (Hnum 2 31%nat).
Qed.

Lemma print_parse_roundtrip_witness :
  ∃ l, _mini_uart_put_uint_hex 0xBEEF (empty_fs 0x01000000 0x00A00000 (λ _, None)) =
    Ret ((), sent l (empty_fs 0x01000000 0x00A00000 (λ _, None))) ∧ parse 16 l = Some 0xBEEF.
Proof.
  destruct (print_parse_roundtrip 0xBEEF (empty_fs 0x01000000 0x00A00000 (λ _, None)))
    as (_ & (l & E & Hp & _) & _); [split; [discriminate|reflexivity]|].
  exists l. split; [exact E|exact Hp].
Defined.

End Log.
