(* ===== verification/Stdio.v ===== *)
(** * The user programs' library: [userland/lib]

    Buffered output, formatted printing, the heap and directories of a program, on any
    operating system with the file calls of [Os]. *)
From S2P Require Import Prelude Fs Format.
Import Fs Format.

Module Stdio.

(** ** The system calls a program relies on

    Reading gives the status and the bytes put into the buffer, [readdir] the status and
    the entries. *)
Class Os (K : Type) : Type := {
  os_open : name_t → Z → Z → M K Z;
  os_close : Z → M K Z;
  os_read : Z → Z → M K (Z * list Z);
  os_write : Z → list Z → M K Z;
  os_lseek : Z → Z → Z → M K Z;
  os_readdir : Z → Z → M K (Z * list dirent);
}.

(** The calls on processes.  What they give to the process that makes them: [fork] the child's id in the
    parent and 0 in the child, [waitpid] its status and the word put in [wstatus], if any;
    [exec] only returns when it failed. *)
Class OsProc (K : Type) : Type := {
  os_exit : Z → M K Z;
  os_yield : Z → M K Z;
  os_reboot : M K Z;
  os_fork : M K Z;
  os_getpid : M K Z;
  os_waitpid : Z → M K (Z * option Z);
  os_exec : name_t → option (list name_t) → M K Z;
}.

(** ** The state of a program *)

Definition WRITE_BUFFER_SIZE : Z := 128.
Definition SIZEOF_FILE : Z := 136.
Definition SIZEOF_DIR : Z := 36.

Record FILE : Type := mkFILE {
  fd : Z;
  write_buffer_cursor : Z;
  write_buffer : list Z;
}.

Record DIR : Type := mkDIR {
  dir_fd : Z;
  last_read : option dirent;
}.

(** The word at [HEAP_CURSOR], the objects on the heap by address, and [stdout]. *)
Record user (K : Type) : Type := mkuser {
  cursor : Z;
  streams : gmap Z FILE;
  dirs : gmap Z DIR;
  stdout : Z;
  os : K;
}.
Arguments mkuser {K} _ _ _ _ _.
Arguments cursor {K} _.
Arguments streams {K} _.
Arguments dirs {K} _.
Arguments stdout {K} _.
Arguments os {K} _.

Section stdio.
Context {K : Type} `{!Os K}.
Abbreviation MU := (M (user K)).

#[global] Program Instance user_os : Has (user K) K := {
  comp_get := os;
  comp_set k u := mkuser (cursor u) (streams u) (dirs u) (stdout u) k;
}.
Solve All Obligations with by intros; repeat match goal with u : user K |- _ => destruct u end.

#[global] Program Instance user_streams : Has (user K) (gmap Z FILE) := {
  comp_get := streams;
  comp_set m u := mkuser (cursor u) m (dirs u) (stdout u) (os u);
}.
Solve All Obligations with by intros; repeat match goal with u : user K |- _ => destruct u end.

#[global] Program Instance user_dirs : Has (user K) (gmap Z DIR) := {
  comp_get := dirs;
  comp_set m u := mkuser (cursor u) (streams u) m (stdout u) (os u);
}.
Solve All Obligations with by intros; repeat match goal with u : user K |- _ => destruct u end.

(** ** [stdlib.c] *)

Definition HEAP_START : Z := 0x00881000.
Definition HEAP_END : Z := 0x00900000.

Definition malloc (size : Z) : MU Z := λ u,
  let old_cursor := if cursor u =? 0 then HEAP_START else cursor u in
  let new_cursor := Z.land (u32 (old_cursor + size + 3)) 0xFFFFFC in
  if new_cursor >? HEAP_END then Ret (0, mkuser old_cursor (streams u) (dirs u) (stdout u) (os u))
  else Ret (old_cursor, mkuser new_cursor (streams u) (dirs u) (stdout u) (os u)).

Definition free (ptr : Z) : MU unit := ret ().

(** ** [stdio.c]: streams *)

Definition get_stream (stream : Z) : MU FILE := mget stream.

(** The heap is zero where nothing was allocated. *)
Definition fdopen (fd : Z) : MU Z :=
  let* file := malloc SIZEOF_FILE in
  if file =? 0 then ret 0
  else
    let* _ := mput file (mkFILE fd 0 (replicate (Z.to_nat WRITE_BUFFER_SIZE) 0)) in
    ret file.

Definition fopen (path : name_t) : MU Z :=
  let* fd := zoom (os_open path 0 0) in
  if fd <? 0 then ret 0
  else
    let* desc := fdopen fd in
    if desc =? 0 then
      let* _ := zoom (os_close fd) in ret 0
    else ret desc.

Definition fflush (stream : Z) : MU Z :=
  let* f := get_stream stream in
  if write_buffer_cursor f >? 0 then
    let* status := zoom (os_write (fd f)
      (take (Z.to_nat (write_buffer_cursor f)) (write_buffer f))) in
    if status <? 0 then ret (-1)
    else
      let* _ := mupd (A := FILE) stream (λ f, mkFILE (fd f) 0 (write_buffer f)) in
      ret 0
  else ret 0.

Definition fclose (file : Z) : MU Z :=
  let* flush_status := fflush file in
  if flush_status <? 0 then ret flush_status
  else
    let* f := get_stream file in
    let* status := zoom (os_close (fd f)) in
    if negb (status =? 0) then ret status
    else
      let* _ := free file in
      ret 0.

Definition fseek (stream offset whence : Z) : MU Z :=
  let* status := fflush stream in
  if status <? 0 then ret status
  else
    let* f := get_stream stream in
    zoom (os_lseek (fd f) offset whence).

Definition ftell (stream : Z) : MU Z :=
  let* status := fflush stream in
  if status <? 0 then ret status
  else
    let* f := get_stream stream in
    zoom (os_lseek (fd f) 0 SEEK_CUR).

Definition rewind (stream : Z) : MU unit :=
  let* status := fflush stream in
  if status <? 0 then ret ()
  else
    let* f := get_stream stream in
    let* _ := zoom (os_lseek (fd f) 0 SEEK_SET) in
    ret ().

(** The result, and the bytes read. *)
Definition fread (size n stream : Z) : MU (Z * list Z) :=
  let data_size := u32 (size * n) in
  let* f := get_stream stream in
  let* r := zoom (os_read (fd f) data_size) in
  if fst r <? 0 then ret (0, snd r) else ret r.

(** The loop of [fwrite].  Without a failing flush every second turn at least copies a
    byte; with one it never ends. *)
Fixpoint fwrite_loop (fuel : nat) (stream : Z) (data : list Z) : MU unit :=
  match data with
  | [] => ret ()
  | _ =>
      match fuel with
      | O => λ _, Timeout
      | S fuel =>
          let* f := get_stream stream in
          let remaining_buffer_size := u32 (WRITE_BUFFER_SIZE - write_buffer_cursor f) in
          if remaining_buffer_size =? 0 then
            let* _ := fflush stream in
            fwrite_loop fuel stream data
          else
            let total_size := Z.of_nat (length data) in
            let chunk_size := if total_size >? remaining_buffer_size
                              then remaining_buffer_size else total_size in
            let c := Z.to_nat (write_buffer_cursor f) in
            let k := Z.to_nat chunk_size in
            let* _ := mput stream (mkFILE (fd f) (u32 (write_buffer_cursor f + chunk_size))
              (take c (write_buffer f) ++ take k data ++ drop (c + k) (write_buffer f))) in
            fwrite_loop fuel stream (drop k data)
      end
  end.

(** The bytes are those of the object at [ptr], [size * n] of them.  The result is
    [total_size], which the loop brings to 0. *)
Definition fwrite (data : list Z) (stream : Z) : MU Z :=
  let* _ := fwrite_loop (2 * length data + 1) stream data in
  ret 0.

Definition fputs (s : name_t) (stream : Z) : MU Z := fwrite s stream.

(** ** Formatted printing *)

Definition _fput_uint (stream x : Z) : MU unit :=
  let* r := lift (digits_of (λ x, 48 + x `mod` 10) (λ x, x / 10) x 10 (replicate 11 0)) in
  let* _ := fwrite (drop (Z.to_nat (snd r)) (fst r)) stream in ret ().

Definition _fput_int (stream x : Z) : MU unit :=
  if x <? 0 then
    let* _ := fputs [45] stream in
    _fput_uint stream (u32 (- x))
  else _fput_uint stream (u32 x).

Definition _fput_uint_hex (stream x : Z) : MU unit :=
  let* r := lift (digits_of (λ x, nth (Z.to_nat (Z.land x 0xF)) hex_cars 0)
                    (λ x, Z.shiftr x 4) x 15 (replicate 16 0)) in
  let* _ := fwrite (drop (Z.to_nat (snd r)) (fst r)) stream in ret ().

Definition printf_directive (stream c : Z) (ap : list va) : MU (list va) :=
  if c =? 117 then
    let* r := lift (va_int ap) in
    let* _ := _fput_uint stream (fst r) in ret (snd r)
  else if c =? 100 then
    let* r := lift (va_int ap) in
    let* _ := _fput_int stream (s32 (fst r)) in ret (snd r)
  else if c =? 120 then
    let* r := lift (va_int ap) in
    let* _ := _fput_uint_hex stream (fst r) in ret (snd r)
  else if c =? 115 then
    let* r := lift (va_str ap) in
    let* _ := fwrite (fst r) stream in ret (snd r)
  else if c =? 99 then
    let* r := lift (va_int ap) in
    let* _ := fwrite [u8 (fst r)] stream in ret (snd r)
  else
    let* _ := fwrite [c] stream in ret ap.

(** The loop of [vfprintf], on a C string without its NUL. *)
Fixpoint vfprintf_loop (stream : Z) (escape : bool) (format : name_t) (ap : list va) : MU unit :=
  match format with
  | [] => ret ()
  | c :: format =>
      if escape then
        let* ap := printf_directive stream c ap in
        vfprintf_loop stream false format ap
      else if c =? 37 then vfprintf_loop stream true format ap
      else
        let* _ := fwrite [c] stream in
        vfprintf_loop stream false format ap
  end.

Definition vfprintf (stream : Z) (format : name_t) (ap : list va) : MU Z :=
  let* _ := vfprintf_loop stream false format ap in
  let* _ := fflush stream in
  ret 0.

Definition fprintf (stream : Z) (format : name_t) (ap : list va) : MU Z := vfprintf stream format ap.

Definition printf (format : name_t) (ap : list va) : MU Z :=
  let* s := gets stdout in vfprintf s format ap.

(** ** Input *)

(** [c] is not initialised: when nothing is read, its value is undefined. *)
Definition getchar : MU Z :=
  let* r := zoom (os_read 0 1) in
  if fst r <? 0 then ret (fst r)
  else match snd r with c :: _ => ret (u8 c) | [] => fault end.

(** The line in the array [data], NULL when nothing could be read. *)
Definition gets_s (data : list Z) (size : Z) : MU (option (list Z)) :=
  let* r := zoom (os_read 0 (u32 (size - 1))) in
  let '(status, bytes) := r in
  let data := bytes ++ drop (length bytes) data in
  if status <? 0 then ret None
  else
    let* c := lift (arr_get data (status - 1)) in
    if c =? 10 then
      let* data := lift (arr_set data (status - 1) 0) in ret (Some data)
    else
      let* data := lift (arr_set data status 0) in ret (Some data).

(** ** [dirent.c] *)

Definition opendir (name : name_t) : MU Z :=
  let* fd := zoom (os_open name O_DIRECTORY 0) in
  if fd <? 0 then ret 0
  else
    let* dir := malloc SIZEOF_DIR in
    if dir =? 0 then
      let* _ := zoom (os_close fd) in ret 0
    else
      let* _ := mput dir (mkDIR fd None) in
      ret dir.

Definition dirfd (dirp : Z) : MU Z :=
  let* d := mget (A := DIR) dirp in ret (dir_fd d).

(** The entry, or NULL; the entry stays in [last_read]. *)
Definition readdir (dirp : Z) : MU (option dirent) :=
  let* d := mget (A := DIR) dirp in
  let* r := zoom (os_readdir (dir_fd d) 1) in
  let entry := match snd r with e :: _ => Some e | [] => last_read d end in
  let* _ := mput dirp (mkDIR (dir_fd d) entry) in
  if negb (u32 (fst r) =? 1) then ret None else ret entry.

Definition closedir (dirp : Z) : MU Z :=
  let* fd := dirfd dirp in
  let* _ := free dirp in
  zoom (os_close fd).

Definition rewinddir (dirp : Z) : MU unit :=
  let* d := mget (A := DIR) dirp in
  let* _ := zoom (os_lseek (dir_fd d) 0 SEEK_SET) in ret ().

Definition telldir (dirp : Z) : MU Z :=
  let* d := mget (A := DIR) dirp in
  zoom (os_lseek (dir_fd d) 0 SEEK_CUR).

Definition seekdir (dirp loc : Z) : MU unit :=
  let* d := mget (A := DIR) dirp in
  let* _ := zoom (os_lseek (dir_fd d) loc SEEK_SET) in ret ().
End stdio.

End Stdio.
