(* ===== verification/StdioSpec.v ===== *)
(** * What the user programs' library promises

    A stream is a buffered way to write on a descriptor: nothing is lost, repeated or
    reordered, and [printf] writes the rendered format. *)
From S2P Require Import Prelude Mmu Alloc Heap Fs FsState Devices Format Log Stdio.
Import Fs FsState Format Log Stdio.

Module StdioSpec.

(** ** Descriptors that can be written

    In a state of [P l] the bytes [l] have been written on [fd]; writing appends. *)
Class Sink {K} `{!Os K} (fd : Z) (P : list Z → K → Prop) : Prop :=
  sink_write l bytes k : P l k → (0 < length bytes ≤ 128)%nat → Forall is_u8 bytes →
    ∃ n k', os_write fd bytes k = Ret (n, k') ∧ 0 ≤ n ∧ P (l ++ bytes) k'.

Section spec.
Context {K : Type} `{!Os K} (d : Z) (P : list Z → K → Prop) `{!Sink d P} (stream : Z).
Implicit Types (u : user K) (l : list Z).

(** The stream is open on [d], and what was written on it is [l]: the first part is on
    the descriptor, the rest in the buffer. *)
Inductive wrote l u : Prop :=
| wrote_intro f l1 :
    streams u !! stream = Some f → fd f = d →
    0 ≤ write_buffer_cursor f ≤ 128 → length (write_buffer f) = 128%nat →
    Forall is_u8 (write_buffer f) →
    P l1 (os u) → l = l1 ++ take (Z.to_nat (write_buffer_cursor f)) (write_buffer f) →
    wrote l u.

(** Nothing else of the program changes. *)
Definition same_program u u' : Prop :=
  cursor u' = cursor u ∧ dirs u' = dirs u ∧ stdout u' = stdout u ∧
  ∀ g, g ≠ stream → streams u' !! g = streams u !! g.

#[export] Instance same_program_preorder : PreOrder same_program.
Proof.
  split; [by intros u; split_and!|]. intros u1 u2 u3 (? & ? & ? & Hs1) (? & ? & ? & Hs2).
  split_and!; [congruence..|]. intros g Hg. by rewrite Hs2, Hs1.
Qed.

Definition put_stream (f : FILE) u : user K :=
  mkuser (cursor u) (<[stream := f]> (streams u)) (dirs u) (stdout u) (os u).
Definition put_os (k : K) u : user K :=
  mkuser (cursor u) (streams u) (dirs u) (stdout u) k.

Lemma same_put f k u : same_program u (put_stream f (put_os k u)).
Proof. split_and!; try done. intros g Hg. simpl. by rewrite lookup_insert_ne. Qed.

Lemma fflush_run l u : wrote l u →
  ∃ u', fflush stream u = Ret (0, u') ∧ wrote l u' ∧ same_program u u' ∧ P l (os u') ∧
    ∃ f, streams u' !! stream = Some f ∧ write_buffer_cursor f = 0.
Proof.
  intros [f l1 Hf Hd Hc Hlen Hu8 HP ->]. unfold fflush, get_stream.
  rewrite (bind_Ret _ _ _ f u) by (apply mget_Ret; exact Hf).
  destruct (Z.gtb_spec (write_buffer_cursor f) 0) as [Hpos|Hz].
  - set (bytes := take (Z.to_nat (write_buffer_cursor f)) (write_buffer f)).
    assert (length bytes = Z.to_nat (write_buffer_cursor f)) as Hb
      by (unfold bytes; rewrite length_take; lia).
    destruct (sink_write l1 bytes (os u) HP) as (n & k' & E & Hn & HP'); [lia|by apply Forall_take|].
    erewrite (bind_Ret (zoom _) _ _ n (put_os k' u)).
    2:{ unfold zoom. cbn [comp_get user_os]. rewrite Hd, E. done. }
    rewrite (proj2 (Z.ltb_ge n 0)) by lia.
    erewrite bind_Ret by (apply mupd_Ret; exact Hf).
    eexists. split; [reflexivity|]. split_and!.
    + apply (wrote_intro _ _ (mkFILE (fd f) 0 (write_buffer f)) (l1 ++ bytes)); simpl; try done.
      * apply lookup_insert_eq.
      * by rewrite app_nil_r.
    + exact (same_put _ k' u).
    + exact HP'.
    + exists (mkFILE (fd f) 0 (write_buffer f)). split; [apply lookup_insert_eq|done].
  - assert (write_buffer_cursor f = 0) as H0 by lia. exists u. split_and!; [done| |done| |eauto].
    + by eapply wrote_intro.
    + by rewrite H0, app_nil_r.
Qed.

Lemma put_chunk (b data : list Z) (c k : nat) : length b = 128%nat → (c + k ≤ 128)%nat →
  (k ≤ length data)%nat →
  let b' := take c b ++ take k data ++ drop (c + k) b in
  length b' = 128%nat ∧ take (c + k) b' = take c b ++ take k data.
Proof.
  intros Hb Hck Hk b'. assert (length (take c b ++ take k data) = (c + k)%nat) as Hl
    by (rewrite length_app, !length_take; lia).
  unfold b'. rewrite app_assoc. split.
  - rewrite length_app, Hl, length_drop. lia.
  - rewrite <- Hl at 1. by rewrite take_app_length.
Qed.

(** One turn of the loop for every flush and every chunk: a flush is followed by a
    chunk, and a chunk is a byte at least. *)
Lemma fwrite_loop_run (fuel : nat) : ∀ data l u, wrote l u → Forall is_u8 data →
  (∀ f, streams u !! stream = Some f →
    (2 * length data + (if decide (write_buffer_cursor f = 128%Z) then 1 else 0) ≤ fuel)%nat) →
  ∃ u', fwrite_loop fuel stream data u = Ret ((), u') ∧ wrote (l ++ data) u' ∧ same_program u u'.
Proof.
  induction fuel as [|fuel IH]; intros data l u Hw Hdata Hfuel;
    pose proof Hw as [f l1 Hf Hd Hc Hlen Hu8 HP Hl]; specialize (Hfuel f Hf);
    (destruct data as [|x data]; [exists u; rewrite app_nil_r; by split_and!|]).
  { simpl in Hfuel. lia. }
  cbn [fwrite_loop]. set (bytes := x :: data) in *. unfold get_stream.
  rewrite (bind_Ret _ _ _ f u) by (apply mget_Ret; exact Hf).
  unfold WRITE_BUFFER_SIZE. rewrite u32_small by lia. cbv zeta.
  destruct (Z.eqb_spec (128 - write_buffer_cursor f) 0) as [Hfull|Hroom].
  - destruct (fflush_run l u Hw) as (u1 & E1 & Hw1 & Hs1 & _ & f1 & Hf1 & H0).
    rewrite (bind_Ret _ _ _ _ _ E1).
    destruct (IH bytes l u1) as (u2 & E2 & Hw2 & Hs2); [done|done| |].
    { intros f' Hf'. rewrite Hf1 in Hf'. injection Hf' as <-. rewrite H0.
      rewrite decide_True in Hfuel by lia. rewrite decide_False by lia. lia. }
    exists u2. split_and!; [done|done|by etransitivity].
  - set (n := Z.of_nat (length bytes)).
    set (chunk := if n >? 128 - write_buffer_cursor f then 128 - write_buffer_cursor f else n).
    assert (0 < chunk ≤ n ∧ chunk ≤ 128 - write_buffer_cursor f) as Hchunk.
    { unfold chunk, n, bytes. cbn [length].
      destruct (Z.gtb_spec (Z.of_nat (S (length data))) (128 - write_buffer_cursor f)); lia. }
    rewrite u32_small by lia.
    destruct (put_chunk (write_buffer f) bytes (Z.to_nat (write_buffer_cursor f)) (Z.to_nat chunk))
      as [Hlen' Htake]; [done|lia|unfold n in *; lia|].
    set (b' := take _ _ ++ take _ bytes ++ drop _ _) in *.
    set (f' := mkFILE (fd f) (write_buffer_cursor f + chunk) b').
    erewrite (bind_Ret _ _ _ () (put_stream f' u)) by done.
    destruct (IH (drop (Z.to_nat chunk) bytes) (l ++ take (Z.to_nat chunk) bytes) (put_stream f' u))
      as (u2 & E2 & Hw2 & Hs2).
    + apply (wrote_intro _ _ f' l1); simpl; try done; [apply lookup_insert_eq|lia| |].
      * unfold b'. apply Forall_app. split; [by apply Forall_take|].
        apply Forall_app. split; [by apply Forall_take|by apply Forall_drop].
      * rewrite Z2Nat.inj_add by lia. rewrite Htake, Hl. by rewrite app_assoc.
    + by apply Forall_drop.
    + intros f2 Hf2. simpl in Hf2. rewrite lookup_insert_eq in Hf2. injection Hf2 as <-.
      rewrite length_drop. cbn [write_buffer_cursor f'].
      rewrite decide_False in Hfuel by lia. unfold n in *. case_decide; lia.
    + exists u2. split_and!; [done| |].
      * by rewrite <- app_assoc, take_drop in Hw2.
      * etransitivity; [|exact Hs2]. apply (same_put f' (os u) u).
Qed.

Lemma fwrite_run data l u : wrote l u → Forall is_u8 data →
  ∃ u', fwrite data stream u = Ret (0, u') ∧ wrote (l ++ data) u' ∧ same_program u u'.
Proof.
  intros Hw Hdata. destruct (fwrite_loop_run (2 * length data + 1) data l u Hw Hdata)
    as (u' & E & H); [intros; case_decide; lia|].
  exists u'. split; [|exact H]. unfold fwrite. by rewrite (bind_Ret _ _ _ _ _ E).
Qed.

(** ** Formatted printing *)

(** What [vfprintf] renders: a number is followed by the NUL of its buffer, a character
    that is no directive stands for itself. *)
Definition stdio_render := render (directive [0] false (λ c, [c])).

Lemma cars_u8 s : Forall is_car s → Forall is_u8 s.
Proof. intros H. eapply Forall_impl; [exact H|]. intros c [??]. unfold is_u8. lia. Qed.

(** A computation that writes [l'] on the stream. *)
Definition writes {A} (m : M (user K) A) (a : A) (l' : list Z) : Prop :=
  ∀ l u, wrote l u → ∃ u', m u = Ret (a, u') ∧ wrote (l ++ l') u' ∧ same_program u u'.

Lemma writes_fwrite data : Forall is_u8 data → writes (fwrite data stream) 0 data.
Proof. intros Hd l u Hw. by apply fwrite_run. Qed.

Lemma writes_bind {A B} (m : M (user K) A) (f : A → M (user K) B) a b l1 l2 :
  writes m a l1 → writes (f a) b l2 → writes (bind m f) b (l1 ++ l2).
Proof.
  intros H1 H2 l u Hw. destruct (H1 l u Hw) as (u1 & E1 & Hw1 & Hs1).
  destruct (H2 _ u1 Hw1) as (u2 & E2 & Hw2 & Hs2). exists u2.
  rewrite (bind_Ret _ _ _ _ _ E1), app_assoc. split_and!; [done|done|by etransitivity].
Qed.

Lemma writes_ret {A} (a : A) : writes (ret a) a [].
Proof. intros l u Hw. exists u. by rewrite app_nil_r. Qed.

Lemma writes_then {A B} (m : M (user K) A) (a : A) (b : B) l :
  writes m a l → writes (let* _ := m in ret b) b l.
Proof.
  intros H. rewrite <- (app_nil_r l). eapply writes_bind; [exact H|apply writes_ret].
Qed.

Lemma writes_lift {A} (o : outcome A) a : o = Ret a → writes (lift o) a [].
Proof. intros -> l u Hw. exists u. by rewrite app_nil_r. Qed.

(** A number, with the NUL behind it: [k] digits fit in a buffer of [n + 1]. *)
Lemma writes_number b car rest k n i m x :
  1 < b ≤ 16 → i = Z.of_nat n → m = S n →
  (∀ x, 0 ≤ x → rest x = x / b) → (∀ x, 0 ≤ x → car x = digit_car (x `mod` b)) →
  0x100000000 ≤ b ^ Z.of_nat k → (0 < k ≤ n)%nat → (k ≤ 32)%nat → is_u32 x →
  writes (let* r := lift (digits_of car rest x i (replicate m 0)) in
          let* _ := fwrite (drop (Z.to_nat (snd r)) (fst r)) stream in ret ()) ()
    (number b x ++ [0]).
Proof.
  intros Hb Hi Hm Hrest Hcar Hpow Hk Hk32 Hx.
  destruct (digits_buffer b car rest k n i m x Hb Hi Hm Hrest Hcar Hpow Hk Hk32 Hx)
    as (r & j & E & Hd).
  apply (writes_bind _ _ _ _ [] _ (writes_lift _ _ E)). cbn [fst snd]. rewrite Hd.
  eapply writes_then, writes_fwrite, Forall_app. split; [|by repeat constructor].
  apply cars_u8, number_cars; [done|apply Hx].
Qed.

Lemma writes_uint x : is_u32 x → writes (_fput_uint stream x) () (number 10 x ++ [0]).
Proof.
  intros Hx. apply (writes_number 10 _ _ 10 10); try done; try lia. apply decimal_car.
Qed.

Lemma writes_hex x : is_u32 x → writes (_fput_uint_hex stream x) () (number 16 x ++ [0]).
Proof.
  intros Hx. apply (writes_number 16 _ _ 8 15); try done; try lia.
  - intros y Hy. by rewrite Z.shiftr_div_pow2 by lia.
  - apply hex_car.
Qed.

Lemma writes_int x : -0x80000000 ≤ x < 0x80000000 →
  writes (_fput_int stream x) () (signed x ++ [0]).
Proof.
  intros Hx. unfold _fput_int, signed. destruct (Z.ltb_spec x 0).
  - apply (writes_bind _ _ 0 () [45] (number 10 (u32 (- x)) ++ [0])).
    + apply writes_fwrite. by repeat constructor.
    + apply writes_uint, u32_range.
  - rewrite u32_small by lia. apply writes_uint. unfold is_u32. lia.
Qed.

Lemma writes_directive c ap l ap' : is_car c → Forall va_ok ap →
  directive [0] false (λ c, [c]) c ap = Ret (l, ap') →
  writes (printf_directive stream c ap) ap' l ∧ Forall va_ok ap'.
Proof.
  intros Hc Hap E. unfold directive in E. unfold printf_directive.
  pose proof (va_int_ok ap Hap) as Hint.
  repeat case_match; simplify_eq/=;
    try (apply obind_inv in E as ([x ap1] & E1 & E); injection E as <- <-;
         destruct (Hint _ _ E1) as [Hx Hap1]; split; [|done];
         apply (writes_bind _ _ _ _ [] _ (writes_lift _ _ E1)); cbn [fst snd];
         eapply writes_then).
  - by apply writes_uint.
  - apply writes_int, s32_range.
  - by apply writes_hex.
  - destruct ap as [|[z|l1] ap]; [done..|]. injection E as <- <-.
    apply Forall_cons in Hap as [Hl Hap]. split; [|done].
    apply (writes_bind _ _ _ _ [] _ (writes_lift (va_str (VaStr l1 :: ap)) _ eq_refl)). cbn [fst snd].
    by eapply writes_then, writes_fwrite, cars_u8.
  - apply writes_fwrite. repeat constructor; apply u8_range.
  - split; [|done]. by eapply writes_then, writes_fwrite, cars_u8, Forall_singleton.
Qed.

Lemma writes_loop format : ∀ escape ap l, Forall is_car format → Forall va_ok ap →
  stdio_render (pieces_from escape format) ap = Ret l →
  writes (vfprintf_loop stream escape format ap) () l.
Proof.
  induction format as [|c format IH]; intros escape ap l Hf Hap E.
  { assert (l = []) as -> by (destruct escape; by injection E). apply writes_ret. }
  apply Forall_cons in Hf as [Hc Hf]. cbn [vfprintf_loop]. destruct escape.
  - cbn in E. apply obind_inv in E as ([l1 ap1] & E1 & E).
    apply obind_inv in E as (l2 & E2 & E). injection E as <-.
    destruct (writes_directive c ap l1 ap1 Hc Hap E1) as [Hw Hap1].
    eapply writes_bind; [exact Hw|]. by apply (IH false).
  - cbn [pieces_from pieces] in E. destruct (c =? 37); [by apply (IH true)|].
    cbn in E. apply obind_inv in E as (l2 & E2 & E). injection E as <-.
    apply (writes_bind _ _ 0 () [c] l2); [|by apply (IH false)].
    apply writes_fwrite. by apply cars_u8, Forall_singleton.
Qed.

Lemma vfprintf_run format ap l l0 u : Forall is_car format → Forall va_ok ap →
  stdio_render (pieces format) ap = Ret l → wrote l0 u →
  ∃ u', vfprintf stream format ap u = Ret (0, u') ∧ wrote (l0 ++ l) u' ∧ same_program u u' ∧
    P (l0 ++ l) (os u').
Proof.
  intros Hf Hap E Hw. destruct (writes_loop format false ap l Hf Hap E l0 u Hw)
    as (u1 & E1 & Hw1 & Hs1). destruct (fflush_run _ _ Hw1) as (u2 & E2 & Hw2 & Hs2 & HP & _).
  exists u2. unfold vfprintf. rewrite (bind_Ret _ _ _ _ _ E1), (bind_Ret _ _ _ _ _ E2).
  split_and!; [done|done|by etransitivity|done].
Qed.

(** A stream that was just opened. *)
Lemma fdopen_run u : P [] (os u) → cursor u = 0 ∨ HEAP_START ≤ cursor u ≤ 0x008FFF00 →
  stream = (if cursor u =? 0 then HEAP_START else cursor u) → cursor u `mod` 4 = 0 →
  ∃ u', fdopen d u = Ret (stream, u') ∧ wrote [] u' ∧ os u' = os u.
Proof.
  unfold HEAP_START. intros HP Hc Hs Hal.
  assert (0x00881000 ≤ stream ≤ 0x008FFF00 ∧ stream `mod` 4 = 0) as [Hr Hal'].
  { rewrite Hs. destruct (Z.eqb_spec (cursor u) 0); lia. }
  assert (Z.land (stream + 136 + 3) 0xFFFFFC = stream + 136) as Hl.
  { change 0xFFFFFC with (Z.shiftl (Z.ones 22) 2). rewrite land_field by lia.
    change (2 ^ 2) with 4. change (2 ^ 22) with 0x400000. lia. }
  unfold fdopen. erewrite bind_Ret.
  2:{ unfold malloc, HEAP_START, HEAP_END, SIZEOF_FILE. rewrite <- Hs, u32_small, Hl by lia.
      destruct (Z.gtb_spec (stream + 136) 0x00900000); [lia|reflexivity]. }
  rewrite (proj2 (Z.eqb_neq stream 0)) by lia.
  eexists. split; [reflexivity|]. split; [|done].
  apply (wrote_intro _ _ (mkFILE d 0 (replicate 128 0)) []); simpl; try done.
  - apply lookup_insert_eq.
  - by repeat constructor.
Qed.
End spec.

(** ** The two printers compared *)

Definition drop_nuls (l : list Z) : list Z := filter (λ c, c ≠ 0) l.

Lemma drop_nuls_app l l' : drop_nuls (l ++ l') = drop_nuls l ++ drop_nuls l'.
Proof. apply filter_app. Qed.

(** The directives that both know: u, d, x, s, c and %. *)
Definition shared (p : piece) : Prop :=
  match p with Lit _ => True | Dir c => c ∈ [117; 100; 120; 115; 99; 37] end.

Lemma directive_shared c ap l ap' : shared (Dir c) →
  directive [] true (λ _, [37]) c ap = Ret (l, ap') →
  ∃ l', directive [0] false (λ c, [c]) c ap = Ret (l', ap') ∧ drop_nuls l' = drop_nuls l.
Proof.
  intros Hc E. unfold shared in Hc. rewrite !elem_of_cons, elem_of_nil in Hc. unfold directive in *.
  destruct Hc as [->|[->|[->|[->|[->|[->|[]]]]]]]; simpl in *;
    try (apply obind_inv in E as ([x ap1] & -> & E); injection E as <- <-);
    try (eexists; split; [reflexivity|]; rewrite ?drop_nuls_app, ?app_nil_r; reflexivity).
  - eexists. split; [exact E|]. done.
  - injection E as <- <-. by exists [37].
Qed.

Lemma render_shared ps : ∀ ap l, Forall shared ps → log_render ps ap = Ret l →
  ∃ l', stdio_render ps ap = Ret l' ∧ drop_nuls l' = drop_nuls l.
Proof.
  induction ps as [|[c|c] ps IH]; intros ap l Hs E; cbn in E |- *.
  - injection E as <-. by exists [].
  - apply Forall_cons in Hs as [_ Hs]. apply obind_inv in E as (l2 & E2 & E). injection E as <-.
    destruct (IH ap l2 Hs E2) as (l2' & -> & Hl). exists (c :: l2'). split; [done|].
    change (drop_nuls ([c] ++ l2') = drop_nuls ([c] ++ l2)). by rewrite !drop_nuls_app, Hl.
  - apply Forall_cons in Hs as [Hc Hs]. apply obind_inv in E as ([l1 ap1] & E1 & E).
    apply obind_inv in E as (l2 & E2 & E). injection E as <-.
    destruct (directive_shared c ap l1 ap1 Hc E1) as (l1' & -> & H1).
    destruct (IH ap1 l2 Hs E2) as (l2' & E2' & H2). exists (l1' ++ l2'). split.
    + cbn [obind]. by rewrite E2'.
    + by rewrite !drop_nuls_app, H1, H2.
Qed.

(** ** Properties *)

(** C31. A stream implements appending to its descriptor: after any [fwrite] what was
    written on the stream is longer by exactly the data, and after [fflush] all of it is
    on the descriptor, in order; the rest of the program's memory is as it was. *)
Theorem stdio_refines {K} `{!Os K} d P `{!Sink d P} stream (data l : list Z) (u : user K) :
  wrote d P stream l u → Forall is_u8 data →
  ∃ u1 u2, fwrite data stream u = Ret (0, u1) ∧ wrote d P stream (l ++ data) u1 ∧
    same_program stream u u1 ∧
    fflush stream u1 = Ret (0, u2) ∧ P (l ++ data) (os u2) ∧ same_program stream u u2.
Proof.
  intros Hw Hd. destruct (fwrite_run d P stream data l u Hw Hd) as (u1 & E1 & Hw1 & Hs1).
  destruct (fflush_run d P stream _ u1 Hw1) as (u2 & E2 & _ & Hs2 & HP & _).
  exists u1, u2. split_and!; try done. by etransitivity.
Qed.

(** C33. [printf] in a program and [kernel_log] in the kernel render a format with the
    directives u, d, x, s, c and % to the same text, but for the NULs that [printf] adds
    after numbers. *)
Theorem printf_like_kernel_log {K} `{!Os K} d P `{!Sink d P} format ap l l0 s (u : user K) :
  Forall is_car format → Forall va_ok ap → Forall shared (pieces format) →
  log_render (pieces format) ap = Ret l → wrote d P (stdout u) l0 u →
  kernel_log format ap s = Ret ((), sent (LOG_PREFIX ++ l ++ LOG_SUFFIX) s) ∧
  ∃ l' u', printf format ap u = Ret (0, u') ∧ P (l0 ++ l') (os u') ∧ drop_nuls l' = drop_nuls l.
Proof.
  intros Hf Hap Hs E Hw. split; [by apply kernel_log_run|].
  destruct (render_shared _ _ _ Hs E) as (l' & E' & Hl).
  destruct (vfprintf_run d P (stdout u) format ap l' l0 u Hf Hap E' Hw) as (u' & Ep & _ & _ & HP).
  by exists l', u'.
Qed.

End StdioSpec.
