(* ===== verification/Usr.v ===== *)
(** * System calls as programs make them: [userland/lib/usr_syscalls.c]

    The wrappers, from the [svc] instruction to the result in r0, and the operating
    system that the library of [Stdio] finds when it runs on this kernel. *)
From S2P Require Import Prelude Bitfield Mmu Alloc Heap Hash Fs FsState Devices Ramfs Fat32 Vfs Elf Scheduler Exec Syscalls Format Stdio.
Import Fs FsState Devices Fat32 Vfs Scheduler Exec Syscalls Stdio.

Module Usr.

Definition SYSCALL__YIELD : Z := 0.
Definition SYSCALL__REBOOT : Z := 1.
Definition SYSCALL__OPEN : Z := 3.
Definition SYSCALL__CLOSE : Z := 4.
Definition SYSCALL__READ : Z := 5.
Definition SYSCALL__READDIR : Z := 6.
Definition SYSCALL__WRITE : Z := 7.
Definition SYSCALL__MOUNT : Z := 8.
Definition SYSCALL__MKDIR : Z := 9.
Definition SYSCALL__MKNOD : Z := 10.
Definition SYSCALL__LSEEK : Z := 11.
Definition SYSCALL__GETPPID : Z := 15.
Definition SYSCALL__GETPID : Z := 16.

Section usr.
(** The registers of the program at the call. *)
Context (regs : task_context).

(** [__syscall]: the kernel's handler, and r0 when the program is resumed.  When another
    process is resumed first, what it does is not the caller's. *)
Definition syscall (syscall_num arg0 arg1 arg2 : Z) : MS Z :=
  let* caller := scheduler_cur_proc_get_id in
  let* resumed_proc := _svc_handler regs syscall_num arg0 arg1 arg2 in
  let* resumed := scheduler_cur_proc_get_id in
  if negb (resumed =? caller) then λ _, Timeout
  else
    let* p := get_proc resumed_proc in
    ret (s32 (r0 (context p))).

Definition usr_syscall_yield (status : Z) : MS Z := syscall SYSCALL__YIELD (u32 status) 0 0.
Definition usr_syscall_reboot : MS Z := syscall SYSCALL__REBOOT 0 0 0.
Definition usr_syscall_exit (status : Z) : MS Z :=
  let* _ := syscall SYSCALL__EXIT (u32 status) 0 0 in ret 0.

Definition usr_syscall_fork : MS Z := syscall SYSCALL__FORK 0 0 0.
Definition usr_syscall_getpid : MS Z := syscall SYSCALL__GETPID 0 0 0.
Definition usr_syscall_getppid : MS Z := syscall SYSCALL__GETPPID 0 0 0.
Definition usr_syscall_waitpid (pid wstatus : Z) : MS Z :=
  syscall SYSCALL__WAITPID (u32 pid) wstatus 0.
Definition usr_syscall_exec (path argv : Z) : MS Z := syscall SYSCALL__EXEC path argv 0.

Definition usr_syscall_open (path flags mode : Z) : MS Z :=
  syscall SYSCALL__OPEN path (u32 flags) (u32 mode).
Definition usr_syscall_close (fd : Z) : MS Z := syscall SYSCALL__CLOSE (u32 fd) 0 0.
Definition usr_syscall_read (fd data size : Z) : MS Z := syscall SYSCALL__READ (u32 fd) data size.
Definition usr_syscall_readdir (fd entries count : Z) : MS Z :=
  syscall SYSCALL__READDIR (u32 fd) entries count.
Definition usr_syscall_write (fd data size : Z) : MS Z :=
  syscall SYSCALL__WRITE (u32 fd) data size.
Definition usr_syscall_lseek (fd offset whence : Z) : MS Z :=
  syscall SYSCALL__LSEEK (u32 fd) (u32 offset) (u32 whence).
Definition usr_syscall_mount (dev target fstype : Z) : MS Z :=
  syscall SYSCALL__MOUNT dev target fstype.
Definition usr_syscall_mkdir (path mode : Z) : MS Z := syscall SYSCALL__MKDIR path mode 0.
Definition usr_syscall_mknod (path mode dev : Z) : MS Z := syscall SYSCALL__MKNOD path mode dev.

(** ** The program's own memory *)

(** The program writes and reads its section, at virtual addresses. *)
Definition user_store (va : Z) (l : list Z) : MS unit :=
  let* cur := _get_current_proc in
  let* p := get_proc cur in
  store_bytes (memory_section p + (va - PROCESS_SECTION_VIRTUAL_ADDRRESS)) l.

Definition user_load (va n : Z) : MS (list Z) :=
  let* cur := _get_current_proc in
  let* p := get_proc cur in
  load_bytes (memory_section p + (va - PROCESS_SECTION_VIRTUAL_ADDRRESS)) n.

(** A [dirent] of 32 bytes. *)
Definition load_dirent (bytes : list Z) : dirent :=
  mkdirent (get8 bytes 0) (cstring (drop 1 bytes)).

(** The calls on buffers at [buf], which is large enough. *)
#[global] Instance kernel_os (buf : Z) : Os system := {
  os_open path flags mode :=
    let* _ := user_store buf (path ++ [0]) in usr_syscall_open buf flags mode;
  os_close := usr_syscall_close;
  os_read fd size :=
    let* status := usr_syscall_read fd buf size in
    let* bytes := if status <? 0 then ret [] else user_load buf status in
    ret (status, bytes);
  os_write fd bytes :=
    let* _ := user_store buf bytes in
    usr_syscall_write fd buf (Z.of_nat (length bytes));
  os_lseek := usr_syscall_lseek;
  os_readdir fd count :=
    let* status := usr_syscall_readdir fd buf count in
    let* bytes := if status <? 0 then ret [] else user_load buf (32 * status) in
    ret (status, map (λ i, load_dirent (slice bytes (32 * i) 32)) (seq 0 (Z.to_nat status)));
}.

(** Strings one after the other from [va] on: their addresses, and where they end. *)
Fixpoint user_store_strings (va : Z) (l : list name_t) : MS (list Z * Z) :=
  match l with
  | [] => ret ([], va)
  | s :: l =>
      let* _ := user_store va (s ++ [0]) in
      let* r := user_store_strings (va + Z.of_nat (length s) + 1) l in
      ret (va :: fst r, snd r)
  end.

(** The array of arguments, or NULL. *)
Definition user_store_argv (va : Z) (argv : option (list name_t)) : MS Z :=
  match argv with
  | None => ret 0
  | Some argv =>
      let* r := user_store_strings va argv in
      let vector := (snd r + 3) / 4 * 4 in
      let* _ := user_store vector (concat (map word_bytes (fst r ++ [0]))) in
      ret vector
  end.

(** The calls on processes, with what they point to at [buf]: [wstatus] is 0 before.  When
    EXEC succeeds the caller is replaced, and never gets a result: the new program's r0 is
    its argument, which is not negative. *)
#[global] Instance kernel_proc (buf : Z) : OsProc system := {
  os_exit := usr_syscall_exit;
  os_yield := usr_syscall_yield;
  os_reboot := usr_syscall_reboot;
  os_fork := usr_syscall_fork;
  os_getpid := usr_syscall_getpid;
  os_waitpid pid :=
    let* _ := user_store buf (word_bytes 0) in
    let* status := usr_syscall_waitpid pid buf in
    let* bytes := user_load buf 4 in
    ret (status, Some (s32 (le32 bytes 0)));
  os_exec path argv :=
    let* _ := user_store buf (path ++ [0]) in
    let* vector := user_store_argv (buf + Z.of_nat (length path) + 1) argv in
    let* status := usr_syscall_exec buf vector in
    if status <? 0 then ret status else λ _, Timeout;
}.
End usr.

End Usr.
