(* ===== verification/UsrCalls.v ===== *)
(** * System calls of a process that runs alone

    From the call in the program to its result: the generic step, and the calls on files
    for any file whose operations are known. *)
From S2P Require Import Prelude Bitfield Mmu Alloc Heap Hash Fs FsState Devices Ramfs Fat32 Vfs VfsFiles Keeps Scheduler SchedulerInv SchedulerOps SchedulerFork SchedulerSpec SchedulerReach Exec Syscalls SystemInv ExecSpec Stdio Usr.
Import Fs FsState Devices Fat32 Vfs VfsFiles Keeps Scheduler SchedulerInv SchedulerOps SchedulerFork SchedulerSpec SchedulerReach Exec Syscalls SystemInv ExecSpec Stdio Usr.

Module UsrCalls.

Abbreviation BASE := PROCESS_SECTION_VIRTUAL_ADDRRESS.

(** ** A system call by the only process that can run *)

Definition alone (w : system) : Prop :=
  ∀ i, 0 ≤ i → ready w i = true → i = current_proc (sched w).

Lemma switch_alone w p : wf w → running w p → alone w →
  scheduler_switch_task w = Ret (current_proc (sched w), w).
Proof.
  intros H [Hp Hst] Ha.
  destruct (switch_run w H) as [(d & _ & Hr & _ & E & _)|[Hnone _]].
  - apply Ha in Hr; [|apply after_range, H]. rewrite E, Hr. f_equal. f_equal. destruct w as [? ? ? [] ?]. done.
  - pose proof (wf_current w H) as Hc. specialize (Hnone _ Hc). unfold ready in Hnone.
    rewrite Hp in Hnone. unfold is_scheduled in Hnone. by rewrite Hst in Hnone.
Qed.

(** The process with other registers. *)
Definition set_context (c : task_context) (p : process) (w : system) : system :=
  put_proc (current_proc (sched w)) (with_context c p) w.

Lemma context_step c w p : wf w → running w p →
  wf (set_context c p w) ∧ running (set_context c p w) (with_context c p).
Proof.
  intros H [Hp Hst]. pose proof (wf_current w H). split.
  - apply wf_put_context; done || lia.
  - split; [|done]. unfold set_context. rewrite put_live. apply list_lookup_insert_eq.
    by eapply lookup_lt_Some.
Qed.

Lemma context_alone c w p : running w p → alone w → alone (set_context c p w).
Proof.
  intros [Hp Hst] Ha i Hi Hr. change (current_proc (sched (set_context c p w)))
    with (current_proc (sched w)). apply Ha; [done|]. unfold ready in *. unfold set_context in Hr.
  rewrite put_live in Hr.
  destruct (decide (Z.to_nat i = Z.to_nat (current_proc (sched w)))) as [E|E].
  - rewrite E, Hp. unfold is_scheduled. by rewrite Hst.
  - by rewrite list_lookup_insert_ne in Hr by done.
Qed.

Section call.
Context (regs : task_context).

(** The handler returns [status] in a state where the caller still runs: so does the
    call, and nothing else happens but that the registers are saved. *)
Lemma syscall_alone num a0 a1 a2 h w p w2 q status :
  wf w → running w p →
  0 ≤ num < 17 → _syscall_table !! Z.to_nat num = Some h →
  h a0 a1 a2 (set_context regs p w) = Ret (status, w2) →
  wf w2 → running w2 q → alone w2 → id q = id p → (num = SYSCALL__EXEC → status ≠ 0) →
  syscall regs num a0 a1 a2 w =
    Ret (s32 status, set_context (set_r0 (u32 status) (context q)) q w2).
Proof.
  intros H Hp Hnum Hh E H2 Hq Ha2 Hid Hexec. unfold syscall.
  rewrite (bind_Ret _ _ _ _ _ (get_id_run w p H Hp)).
  destruct (context_step regs w p H Hp) as [H1 Hp1].
  destruct (context_step (set_r0 (u32 status) (context q)) w2 q H2 Hq) as [H3 Hq3].
  pose proof (wf_current w H) as Hc. pose proof (wf_current w2 H2) as Hc2.
  set (w3 := set_context (set_r0 (u32 status) (context q)) q w2) in *.
  assert (kernel_syscall_handler num a0 a1 a2 (set_context regs p w) = Ret ((), w3)) as Ek.
  { unfold kernel_syscall_handler, SYSCALL_COUNT.
    destruct (num >=? 17) eqn:Hge; [apply Z.geb_le in Hge; lia|].
    rewrite (bind_Ret _ _ _ _ _ (get_id_run _ _ H1 Hp1)).
    erewrite bind_Ret by (apply lift_Ret; split; [apply arr_get_lookup; [lia|exact Hh]|reflexivity]).
    rewrite (bind_Ret _ _ _ _ _ E), (bind_Ret _ _ _ _ _ (get_id_run _ _ H2 Hq)).
    cbn [id with_context]. rewrite Hid, Z.eqb_refl. cbn [negb].
    destruct (negb _) eqn:Hn.
    - unfold scheduler_cur_proc_set_syscall_status.
      rewrite (bind_Ret _ _ _ _ _ (get_current_eq w2 H2)).
      exact (upd_proc_live w2 _ q (λ p, with_context (set_r0 (u32 status) (context p)) p)
        (proj1 Hc2) (proj1 Hq)).
    - apply negb_false_iff, andb_prop in Hn as [Hn Hs].
      apply Z.eqb_eq in Hn, Hs. by apply Hexec in Hn. }
  assert (_svc_handler regs num a0 a1 a2 w = Ret (current_proc (sched w3), w3)) as Es.
  { unfold _svc_handler. erewrite bind_Ret.
    2:{ unfold scheduler_save_current_context. rewrite (bind_Ret _ _ _ _ _ (get_current_eq w H)).
        apply (upd_proc_live w _ p); [lia|apply Hp]. }
    fold (set_context regs p w). rewrite (bind_Ret _ _ _ _ _ Ek).
    eapply switch_alone; [exact H3|exact Hq3|]. by apply context_alone. }
  rewrite (bind_Ret _ _ _ _ _ Es), (bind_Ret _ _ _ _ _ (get_id_run _ _ H3 Hq3)).
  cbn [id with_context]. rewrite Hid, Z.eqb_refl. cbn [negb].
  erewrite bind_Ret.
  2:{ apply get_proc_live; [|apply Hq3]. unfold w3. simpl. lia. }
  cbn [context with_context set_r0 r0]. by rewrite s32_u32.
Qed.
End call.

(** The bytes of the section that were stored. *)
Lemma load_bytes_has m sec s l : ∀ o, sec `mod` 0x100000 = 0 → 0 ≤ o →
  o + Z.of_nat (length l) ≤ 0x100000 → m !! sec = Some s → has_bytes s o l →
  ram_load_bytes (length l) (sec + o) m = Ret l.
Proof.
  induction l as [|b l IH]; intros o Hal Ho Hlen Hm Hs; [done|]. cbn [length ram_load_bytes] in *.
  rewrite (ram_load_in m sec s) by (done || lia).
  pose proof (Hs 0%nat b eq_refl) as Hb. rewrite Z.add_0_r in Hb. rewrite Hb. cbn [obind].
  rewrite <- Z.add_assoc, (IH (o + 1)); try done; try lia.
  intros j c Hj. replace (o + 1 + Z.of_nat j) with (o + Z.of_nat (S j)) by lia. by apply Hs.
Qed.


(** ** The calling process *)

(** The process [p] runs alone, and [s] are the bytes of its section. *)
Record caller (w : system) (p : process) (s : gmap Z Z) : Prop := {
  ca_wf : wf w;
  ca_running : running w p;
  ca_alone : alone w;
  ca_ram : ram w !! memory_section p = Some s;
}.

(** Its descriptor [d] stands for the open file [f]. *)
Definition has_fd (p : process) (d f : Z) : Prop :=
  0 ≤ d < 16 ∧ Bitfield.used (files_bitfield p) d = true ∧ files p !! Z.to_nat d = Some f ∧ f ≠ 0.

(** The same descriptors and memory, with other registers perhaps. *)
Definition same_fds (p q : process) : Prop :=
  files q = files p ∧ files_bitfield q = files_bitfield p ∧ memory_section q = memory_section p.

Lemma has_fd_same p q d f : same_fds p q → has_fd p d f → has_fd q d f.
Proof. unfold has_fd. by intros (-> & -> & _). Qed.

Lemma caller_context c w p s : caller w p s → caller (set_context c p w) (with_context c p) s.
Proof.
  intros [H Hp Ha Hs]. destruct (context_step c w p H Hp). split; try done. by apply context_alone.
Qed.

Lemma caller_quiet w w' p s s' : caller w p s → quiet w w' →
  ram w' !! memory_section p = Some s' → caller w' p s'.
Proof.
  intros [H Hp Ha Hs] Hq Hs'. split; [by eapply wf_quiet|by eapply running_quiet| |done].
  unfold alone, ready in *. by rewrite (quiet_sched _ _ Hq).
Qed.

Lemma quiet_ram_insert w sec s : quiet w (with_ram (<[sec := s]> (ram w)) w).
Proof.
  split; try done. intros q Hq. simpl. apply lookup_insert_is_Some'. auto.
Qed.

Lemma caller_ram w p s s' : caller w p s →
  caller (with_ram (<[memory_section p := s']> (ram w)) w) p s'.
Proof.
  intros H. eapply caller_quiet; [exact H|apply quiet_ram_insert|]. simpl. apply lookup_insert_eq.
Qed.

Lemma cur_fd_run w p s d f : caller w p s → has_fd p d f →
  scheduler_cur_proc_get_fd (s32 d) w = Ret (f, w).
Proof.
  intros [H Hp _ _] (Hd & Hu & Hf & _). unfold scheduler_cur_proc_get_fd.
  rewrite (bind_Ret _ _ _ _ _ (get_current_eq w H)).
  pose proof (get_fd_spec w _ p d H (proj1 (wf_current w H)) (proj1 Hp) Hd) as Hget.
  rewrite Hu in Hget. destruct Hget as (f' & Hf' & _ & E). rewrite s32_small by lia. congruence.
Qed.

Lemma onfile_run {A} (m : MF A) w a fs' : m (vs_fs (filesys w)) = Ret (a, fs') →
  onfile m w = Ret (a, with_fs (mkvs fs' (vs_vfs (filesys w))) w).
Proof.
  intros E. unfold onfile, onvfs, zoom. simpl. by rewrite (onfs_Ret _ _ _ _ E).
Qed.

Lemma onfile_id {A} (m : MF A) w a : m (vs_fs (filesys w)) = Ret (a, vs_fs (filesys w)) →
  onfile m w = Ret (a, w).
Proof. intros E. rewrite (onfile_run _ _ _ _ E). by destruct w as [? ? ? ? []]. Qed.

(** ** Calls that leave the process table alone *)

Lemma quiet_write a0 a1 a2 : keeps quiet (_syscall__WRITE a0 a1 a2).
Proof. unfold _syscall__WRITE. keeps. Qed.
Lemma quiet_read a0 a1 a2 : keeps quiet (_syscall__READ a0 a1 a2).
Proof. unfold _syscall__READ. keeps. Qed.
Lemma quiet_readdir a0 a1 a2 : keeps quiet (_syscall__READDIR a0 a1 a2).
Proof. unfold _syscall__READDIR. keeps. Qed.

Section calls.
Context (regs : task_context).

(** The handler runs, the caller is resumed: its descriptors are as before. *)
Lemma call_quiet num h a0 a1 a2 w p s w2 s2 status :
  caller w p s → 0 ≤ num < 17 → num ≠ SYSCALL__EXEC → _syscall_table !! Z.to_nat num = Some h →
  keeps quiet (h a0 a1 a2) → h a0 a1 a2 (set_context regs p w) = Ret (status, w2) →
  ram w2 !! memory_section p = Some s2 →
  ∃ w' p', syscall regs num a0 a1 a2 w = Ret (s32 status, w') ∧ caller w' p' s2 ∧
    same_fds p p' ∧ filesys w' = filesys w2 ∧ ram w' = ram w2.
Proof.
  intros Hc Hnum Hne Hh Hk E Hs2. pose proof (caller_context regs w p s Hc) as Hc1.
  pose proof (caller_quiet _ w2 _ _ s2 Hc1 (Hk _ _ _ E) Hs2) as Hc2.
  exists (set_context (set_r0 (u32 status) regs) (with_context regs p) w2),
    (with_context (set_r0 (u32 status) regs) (with_context regs p)).
  split_and!; try done; [|by apply caller_context].
  by eapply (syscall_alone regs num a0 a1 a2 h w p w2 (with_context regs p)); try done; apply Hc || apply Hc2.
Qed.

Context (buf : Z).

(** The program's own memory. *)
Lemma user_store_run bytes w p s : caller w p s → BASE ≤ buf →
  buf + Z.of_nat (length bytes) ≤ BASE + 0x100000 → Forall is_u8 bytes →
  user_store buf bytes w =
    Ret ((), with_ram (<[memory_section p := put_bytes (buf - BASE) bytes s]> (ram w)) w).
Proof.
  intros [H Hp _ Hs] Hlo Hlen Hu8. destruct (sec_range w p H Hp) as (Hal & _).
  unfold user_store. rewrite (bind_Ret _ _ _ _ _ (get_current_eq w H)).
  rewrite (bind_Ret _ _ _ _ _ (get_proc_live w _ p (proj1 (wf_current w H)) (proj1 Hp))).
  unfold store_bytes, PROCESS_SECTION_VIRTUAL_ADDRRESS in *.
  rewrite (store_bytes_in bytes _ _ s) by (done || lia). by rewrite map_u8.
Qed.

Lemma user_load_run bytes w p s : caller w p s → BASE ≤ buf →
  buf + Z.of_nat (length bytes) ≤ BASE + 0x100000 → has_bytes s (buf - BASE) bytes →
  user_load buf (Z.of_nat (length bytes)) w = Ret (bytes, w).
Proof.
  intros [H Hp _ Hs] Hlo Hlen Hb. destruct (sec_range w p H Hp) as (Hal & _).
  unfold user_load. rewrite (bind_Ret _ _ _ _ _ (get_current_eq w H)).
  rewrite (bind_Ret _ _ _ _ _ (get_proc_live w _ p (proj1 (wf_current w H)) (proj1 Hp))).
  unfold load_bytes. apply lift_Ret. split; [|reflexivity]. rewrite Nat2Z.id.
  unfold PROCESS_SECTION_VIRTUAL_ADDRRESS in *.
  by apply (load_bytes_has _ _ s); try done; try lia.
Qed.

(** *** WRITE *)

Lemma write_handler w p s d f bytes st fs' : caller w p s → has_fd p d f →
  BASE ≤ buf < BASE + 0x100000 → buf + Z.of_nat (length bytes) ≤ BASE + 0x100000 →
  has_bytes s (buf - BASE) bytes →
  write_reads f (vs_fs (filesys w)) = Ret (true, vs_fs (filesys w)) →
  vfs_file_write f bytes (vs_fs (filesys w)) = Ret (st, fs') →
  _syscall__WRITE d buf (Z.of_nat (length bytes)) w =
    Ret (st, with_fs (mkvs fs' (vs_vfs (filesys w))) w).
Proof.
  intros Hc Hd Hlo Hlen Hb Hr Ew. pose proof Hc as [H Hp _ Hs].
  destruct (sec_range w p H Hp) as (Hal & _). unfold _syscall__WRITE.
  rewrite (bind_Ret _ _ _ _ _ (to_kernel_run w p s H Hp Hs buf Hlo)).
  rewrite (bind_Ret _ _ _ _ _ (cur_fd_run w p s d f Hc Hd)).
  destruct Hd as (_ & _ & _ & Hf0). rewrite (proj2 (Z.eqb_neq f 0) Hf0).
  rewrite (bind_Ret _ _ _ _ _ (onfile_id _ _ _ Hr)). erewrite bind_Ret; [by apply onfile_run|].
  unfold load_bytes. apply lift_Ret. split; [|reflexivity]. rewrite Nat2Z.id.
  unfold PROCESS_SECTION_VIRTUAL_ADDRRESS in *.
  by apply (load_bytes_has _ _ s); try done; try lia.
Qed.

Lemma call_write w p s d f bytes st fs' : caller w p s → has_fd p d f →
  BASE ≤ buf < BASE + 0x100000 → buf + Z.of_nat (length bytes) ≤ BASE + 0x100000 →
  Forall is_u8 bytes →
  write_reads f (vs_fs (filesys w)) = Ret (true, vs_fs (filesys w)) →
  vfs_file_write f bytes (vs_fs (filesys w)) = Ret (st, fs') →
  ∃ w' p' s', os_write (Os := kernel_os regs buf) d bytes w = Ret (s32 st, w') ∧
    caller w' p' s' ∧ same_fds p p' ∧ filesys w' = mkvs fs' (vs_vfs (filesys w)).
Proof.
  intros Hc Hd Hlo Hlen Hu8 Hr Ew.
  set (s' := put_bytes (buf - BASE) bytes s).
  pose proof (caller_ram w p s s' Hc) as Hc1.
  set (w1 := with_ram (<[memory_section p := s']> (ram w)) w) in *.
  pose proof (caller_context regs w1 p s' Hc1) as Hc2.
  assert (has_bytes s' (buf - BASE) bytes) as Hb by apply has_put_bytes.
  pose proof (write_handler _ _ s' d f bytes st fs' Hc2 Hd Hlo Hlen Hb Hr Ew) as Eh.
  assert (u32 d = d) as Hd' by (destruct Hd; apply u32_small; lia).
  destruct (call_quiet SYSCALL__WRITE _ _ _ _ w1 p s' _ s' st Hc1 ltac:(done) ltac:(done) eq_refl
    (quiet_write _ _ _) Eh (ca_ram _ _ _ Hc1)) as (w' & p' & E & Hc' & Hfd & Hfs & _).
  exists w', p', s'. split_and!; [|done|done|by rewrite Hfs].
  cbn [os_write kernel_os]. rewrite (bind_Ret _ _ _ _ _ (user_store_run bytes w p s Hc
    ltac:(lia) Hlen Hu8)). fold s' w1. unfold usr_syscall_write. by rewrite Hd'.
Qed.

(** *** READ *)

Lemma read_handler w p s d f n bytes st fs' : caller w p s → has_fd p d f →
  BASE ≤ buf < BASE + 0x100000 → buf + Z.of_nat (length bytes) ≤ BASE + 0x100000 →
  Forall is_u8 bytes → vfs_file_read f n (vs_fs (filesys w)) = Ret ((st, bytes), fs') →
  _syscall__READ d buf n w =
    Ret (st, with_ram (<[memory_section p := put_bytes (buf - BASE) bytes s]> (ram w))
               (with_fs (mkvs fs' (vs_vfs (filesys w))) w)).
Proof.
  intros Hc Hd Hlo Hlen Hu8 Er. pose proof Hc as [H Hp _ Hs].
  destruct (sec_range w p H Hp) as (Hal & _). unfold _syscall__READ.
  rewrite (bind_Ret _ _ _ _ _ (to_kernel_run w p s H Hp Hs buf Hlo)).
  rewrite (bind_Ret _ _ _ _ _ (cur_fd_run w p s d f Hc Hd)).
  destruct Hd as (_ & _ & _ & Hf0). rewrite (proj2 (Z.eqb_neq f 0) Hf0).
  rewrite (bind_Ret _ _ _ _ _ (onfile_run _ _ _ _ Er)). cbn [fst snd].
  erewrite bind_Ret; [reflexivity|]. unfold store_bytes, PROCESS_SECTION_VIRTUAL_ADDRRESS in *.
  simpl ram. rewrite (store_bytes_in bytes _ _ s) by (done || lia). by rewrite map_u8.
Qed.

(** The status is the number of bytes, or negative when there are none. *)
Lemma call_read w p s d f n bytes st fs' : caller w p s → has_fd p d f →
  BASE ≤ buf < BASE + 0x100000 → buf + Z.of_nat (length bytes) ≤ BASE + 0x100000 →
  Forall is_u8 bytes → vfs_file_read f n (vs_fs (filesys w)) = Ret ((st, bytes), fs') →
  st = Z.of_nat (length bytes) ∨ -0x80000000 ≤ st < 0 ∧ bytes = [] →
  ∃ w' p' s', os_read (Os := kernel_os regs buf) d n w = Ret ((st, bytes), w') ∧
    caller w' p' s' ∧ same_fds p p' ∧ filesys w' = mkvs fs' (vs_vfs (filesys w)).
Proof.
  intros Hc Hd Hlo Hlen Hu8 Er Hst. pose proof (caller_context regs w p s Hc) as Hc1.
  pose proof (read_handler _ _ s d f n bytes st fs' Hc1 Hd Hlo Hlen Hu8 Er) as Eh.
  assert (u32 d = d) as Hd' by (destruct Hd; apply u32_small; lia).
  assert (s32 st = st) as Hst'.
  { apply s32_small. unfold PROCESS_SECTION_VIRTUAL_ADDRRESS in *. lia. }
  destruct (call_quiet SYSCALL__READ _ _ _ _ w p s _ (put_bytes (buf - BASE) bytes s) st Hc
    ltac:(done) ltac:(done) eq_refl (quiet_read _ _ _) Eh (lookup_insert_eq _ _ _))
    as (w' & p' & E & Hc' & Hfd & Hfs & _).
  rewrite Hst' in E. exists w', p', (put_bytes (buf - BASE) bytes s).
  split_and!; [|done|done|by rewrite Hfs].
  cbn [os_read kernel_os]. unfold usr_syscall_read. rewrite Hd', (bind_Ret _ _ _ _ _ E).
  destruct Hst as [->|[Hneg ->]].
  - rewrite (proj2 (Z.ltb_ge _ 0)) by lia.
    rewrite (bind_Ret _ _ _ _ _ (user_load_run bytes w' p' _ Hc' ltac:(lia) Hlen (has_put_bytes _ _ _))).
    done.
  - by rewrite (proj2 (Z.ltb_lt st 0)) by lia.
Qed.
(** *** READDIR *)

(** What the handler stores for an entry. *)
Definition dirent_bytes (e : dirent) : list Z := d_type e :: d_name e ++ [0].

(** An entry that fits in its 32 bytes. *)
Definition dirent_ok (e : dirent) : Prop :=
  is_u8 (d_type e) ∧ Forall (λ b, 0 < b < 0x100) (d_name e) ∧ (length (d_name e) ≤ 30)%nat.

Lemma dirent_bytes_u8 e : dirent_ok e → Forall is_u8 (dirent_bytes e).
Proof.
  intros (Ht & Hn & _). constructor; [done|]. apply Forall_app. split; [|by repeat constructor].
  eapply Forall_impl; [exact Hn|]. unfold is_u8. lia.
Qed.

(** Memory behind the entry may hold anything. *)
Lemma ram_load_any n : ∀ m sec s o, sec `mod` 0x100000 = 0 → 0 ≤ o →
  o + Z.of_nat n ≤ 0x100000 → m !! sec = Some s →
  ∃ l, ram_load_bytes n (sec + o) m = Ret l ∧ length l = n ∧
    ∀ bytes, has_bytes s o bytes → (length bytes ≤ n)%nat → take (length bytes) l = bytes.
Proof.
  induction n as [|n IH]; intros m sec s o Hal Ho Hn Hm.
  - exists []. split; [done|]. split; [done|]. intros [|b bytes] _ Hb; [done|simpl in Hb; lia].
  - cbn [ram_load_bytes]. rewrite (ram_load_in m sec s) by (done || lia). cbn [obind].
    rewrite <- Z.add_assoc. destruct (IH m sec s (o + 1)) as (l & -> & Hl & H); try done; try lia.
    cbn [obind]. eexists. split; [done|]. split; [simpl; by rewrite Hl|].
    intros [|b bytes] Hb Hlen; [done|]. cbn [length take].
    pose proof (Hb 0%nat b eq_refl) as H0. rewrite Z.add_0_r in H0. rewrite H0. cbn [default from_option].
    f_equal. apply H; [|simpl in Hlen; lia].
    intros j c Hj. replace (o + 1 + Z.of_nat j) with (o + Z.of_nat (S j)) by lia. by apply Hb.
Qed.

Lemma load_dirent_run e bytes : dirent_ok e →
  take (length (dirent_bytes e)) bytes = dirent_bytes e → load_dirent bytes = e.
Proof.
  intros (Ht & Hn & _) Hb. rewrite <- (take_drop (length (dirent_bytes e)) bytes), Hb. clear Hb.
  generalize (drop (length (dirent_bytes e)) bytes). intros rest. destruct e as [t name].
  unfold load_dirent. cbn [d_type d_name] in *. f_equal.
  change (cstring ((name ++ [0]) ++ rest) = name). rewrite <- app_assoc.
  unfold cstring. induction Hn as [|c cs Hc _ IH]; [done|].
  cbn [app until] in *. rewrite (proj2 (Z.eqb_neq 0 c)) by lia. by rewrite IH.
Qed.

(** The call for one entry: the status is the number of entries. *)
Lemma call_readdir w p s d f l st fs' : caller w p s → has_fd p d f →
  BASE ≤ buf → buf + 32 ≤ BASE + 0x100000 → Forall dirent_ok l → (length l ≤ 1)%nat →
  vfs_file_readdir f 1 (vs_fs (filesys w)) = Ret ((st, l), fs') → st = Z.of_nat (length l) →
  ∃ w' p' s', os_readdir (Os := kernel_os regs buf) d 1 w = Ret ((st, l), w') ∧
    caller w' p' s' ∧ same_fds p p' ∧ filesys w' = mkvs fs' (vs_vfs (filesys w)).
Proof.
  intros Hc Hd Hlo Hhi Hl Hlen Er Hst. pose proof (caller_context regs w p s Hc) as Hc1.
  set (w1 := set_context regs p w) in *. pose proof Hc1 as [H Hp _ Hs].
  set (s' := put_bytes (buf - BASE) (concat (map dirent_bytes l)) s).
  assert (_syscall__READDIR d buf 1 w1 = Ret (st, with_ram (<[memory_section p := s']> (ram w1))
    (with_fs (mkvs fs' (vs_vfs (filesys w1))) w1))) as Eh.
  { destruct (sec_range w1 _ H Hp) as (Hal & _). unfold _syscall__READDIR.
    unfold PROCESS_SECTION_VIRTUAL_ADDRRESS in *.
    rewrite (bind_Ret _ _ _ _ _ (to_kernel_run w1 _ s H Hp Hs buf
      ltac:(unfold PROCESS_SECTION_VIRTUAL_ADDRRESS; lia))).
    rewrite (bind_Ret _ _ _ _ _ (cur_fd_run w1 _ s d f Hc1 Hd)).
    destruct Hd as (_ & _ & _ & Hf0). rewrite (proj2 (Z.eqb_neq f 0) Hf0).
    rewrite (bind_Ret _ _ _ _ _ (onfile_run _ w1 _ _ Er)). cbn [fst snd].
    erewrite bind_Ret; [reflexivity|]. unfold s'.
    destruct l as [|e [|]]; [..|simpl in Hlen; lia]; cbn [store_dirents map concat].
    - cbn [put_bytes]. rewrite insert_id by exact Hs. by destruct w1.
    - apply Forall_cons in Hl as [He _]. erewrite bind_Ret; [reflexivity|].
      rewrite app_nil_r. unfold store_bytes, PROCESS_SECTION_VIRTUAL_ADDRRESS in *. simpl ram.
      fold (dirent_bytes e). destruct He as (Ht & Hn & Hl').
      rewrite (store_bytes_in _ _ _ s) by (done || (unfold dirent_bytes; simpl; rewrite ?length_app; simpl; lia)).
      by rewrite map_u8 by (by apply dirent_bytes_u8). }
  assert (u32 d = d) as Hd' by (destruct Hd; apply u32_small; lia).
  destruct (call_quiet SYSCALL__READDIR _ _ _ _ w p s _ s' st Hc
    ltac:(done) ltac:(done) eq_refl (quiet_readdir _ _ _) Eh (lookup_insert_eq _ _ _))
    as (w' & p' & E & Hc' & Hfd & Hfs & _).
  rewrite s32_small in E by lia.
  exists w', p', s'. split_and!; [|done|done|by rewrite Hfs].
  cbn [os_readdir kernel_os]. unfold usr_syscall_readdir. rewrite Hd', (bind_Ret _ _ _ _ _ E).
  rewrite (proj2 (Z.ltb_ge st 0)) by lia. pose proof Hc' as [H' Hp' _ Hs'].
  destruct (sec_range w' p' H' Hp') as (Hal' & _).
  destruct (ram_load_any (Z.to_nat (32 * st)) (ram w') (memory_section p') s' (buf - BASE))
    as (bytes & El & Hbl & Hbytes); try done; try (unfold PROCESS_SECTION_VIRTUAL_ADDRRESS in *; lia).
  assert (user_load buf (32 * st) w' = Ret (bytes, w')) as Eu.
  { unfold user_load. rewrite (bind_Ret _ _ _ _ _ (get_current_eq w' H')).
    rewrite (bind_Ret _ _ _ _ _ (get_proc_live w' _ p' (proj1 (wf_current w' H')) (proj1 Hp'))).
    unfold load_bytes. by apply lift_Ret. }
  rewrite (bind_Ret _ _ _ _ _ Eu). subst st. rewrite Nat2Z.id.
  destruct l as [|e [|]]; [done| |simpl in Hlen; lia].
  apply Forall_cons in Hl as [He _].
  assert (length (dirent_bytes e) ≤ 32)%nat as Hle
    by (destruct He as (_ & _ & ?); unfold dirent_bytes; simpl; rewrite length_app; simpl; lia).
  assert (load_dirent (slice bytes (32 * 0) 32) = e) as Ee.
  { apply load_dirent_run; [done|]. unfold slice. rewrite take_take, Nat.min_l by done.
    change (drop (32 * 0) bytes) with bytes. apply Hbytes; [|cbn [length]; lia].
    unfold s'. cbn [map concat]. rewrite app_nil_r. apply has_put_bytes. }
  unfold ret. cbn [length seq map]. by rewrite Ee.
Qed.

(** *** OPEN and CLOSE *)

Lemma lift_state {S A} (o : outcome A) (w w' : S) a : lift o w = Ret (a, w') → w' = w.
Proof. unfold lift. destruct o; intros E; by inv_run. Qed.

Lemma upd_proc_fs i g w r w' : upd_proc (F := vstate) i g w = Ret (r, w') → filesys w' = filesys w.
Proof.
  unfold upd_proc. intros E. apply bind_inv in E as (p & w1 & E1%lift_state & E). subst w1.
  unfold set_proc in E. apply obind_inv in E as (ps & _ & E). by inv_run.
Qed.

Lemma add_count_fs f d w r w' n : zoom (add_fd_count (F := vstate) f d) w = Ret (r, w') →
  fd_count (filesys w) f = Some n → filesys w' = set_fd_count f (u32 (n + d)) (filesys w).
Proof.
  unfold zoom, add_fd_count. intros E Hn. simpl comp_get in E. rewrite Hn in E. by inv_run.
Qed.

(** All that adding and removing a descriptor does to the file system. *)
Lemma add_fd_fs i f w fd w' n : _proc_add_fd (F := vstate) i f w = Ret (fd, w') → 0 ≤ fd →
  fd_count (filesys w) f = Some n → filesys w' = set_fd_count f (u32 (n + 1)) (filesys w).
Proof.
  intros E Hfd Hn. unfold _proc_add_fd in E.
  apply bind_inv in E as (p & w1 & E1%lift_state & E). subst w1.
  apply bind_inv in E as ([x bf] & w2 & E2%lift_state & E). subst w2.
  apply bind_inv in E as ([] & w3 & E3%upd_proc_fs & E).
  destruct (Z.geb_spec x 0) as [|Hx]; [|inv_run; lia].
  apply bind_inv in E as (? & w4 & E4 & E). rewrite <- E3 in Hn.
  apply (add_count_fs _ _ _ _ _ _ E4) in Hn.
  apply bind_inv in E as (q & w5 & E5%lift_state & E). subst w5.
  apply bind_inv in E as (fs & w6 & E6%lift_state & E). subst w6.
  apply bind_inv in E as (? & w7 & E7%upd_proc_fs & E). inv_run. congruence.
Qed.

Lemma rem_fd_fs i d f w r w' n p : _proc_rem_fd (F := vstate) i d w = Ret (r, w') →
  get_proc i w = Ret (p, w) → 0 ≤ d < 16 → Bitfield.wf 2 (files_bitfield p) →
  Bitfield.used (files_bitfield p) d = true → files p !! Z.to_nat d = Some f →
  fd_count (filesys w) f = Some n → filesys w' = set_fd_count f (u32 (n + -1)) (filesys w).
Proof.
  intros E Hp Hd Hbf Hu Hf Hn. unfold _proc_rem_fd in E. rewrite (bind_Ret _ _ _ _ _ Hp) in E.
  rewrite u32_small in E by lia. change FD_BITFIELD_COUNT with 2 in E.
  erewrite bind_Ret in E by (unfold lift; by rewrite (Bitfield.bit_spec 2) by (done || lia)).
  rewrite Hu in E. cbn [Z.eqb] in E.
  erewrite bind_Ret in E by (unfold lift; by rewrite (arr_get_lookup _ _ f) by (done || lia)).
  erewrite bind_Ret in E by (by rewrite Hn).
  apply bind_inv in E as (? & w4 & E4 & E).
  assert (w4 = w) as -> by (unfold kassert in E4; destruct (n >? 0); by inv_run).
  apply bind_inv in E as (? & w5 & E5 & E). apply (add_count_fs _ _ _ _ _ _ E5) in Hn.
  apply bind_inv in E as (bf & w6 & E6%lift_state & E). subst w6.
  apply upd_proc_fs in E. congruence.
Qed.

(** The process changes its descriptors. *)
Lemma caller_put fs q w p s : caller w p s → wf (with_fs fs (put_proc (current_proc (sched w)) q w)) →
  schedule_state q = schedule_state p → memory_section q = memory_section p →
  caller (with_fs fs (put_proc (current_proc (sched w)) q w)) q s.
Proof.
  intros [H [Hp Hst] Ha Hs] Hwf Hq Hm. set (i := current_proc (sched w)) in *.
  pose proof (lookup_lt_Some _ _ _ Hp) as Hlt.
  assert (live (sched (with_fs fs (put_proc i q w))) = <[Z.to_nat i := q]> (live (sched w))) as Hl
    by apply put_live.
  split; [done| | |by rewrite Hm].
  - split; [|congruence]. rewrite Hl. change (current_proc (sched (with_fs fs (put_proc i q w)))) with i.
    by apply list_lookup_insert_eq.
  - intros j Hj Hr. change (current_proc (sched (with_fs fs (put_proc i q w)))) with i.
    apply Ha; [done|]. unfold ready in *. rewrite Hl in Hr.
    destruct (decide (Z.to_nat j = Z.to_nat i)) as [E|E].
    + rewrite E, Hp. unfold is_scheduled. by rewrite Hst.
    + by rewrite list_lookup_insert_ne in Hr by done.
Qed.

(** The descriptors that were open still are, apart from [d]. *)
Definition keeps_fds (d : Z) (p q : process) : Prop := ∀ e g, e ≠ d → has_fd p e g → has_fd q e g.

Lemma add_fd_call w p s f n : caller w p s → fd_count (filesys w) f = Some n → f ≠ 0 →
  (∃ e, 0 ≤ e < 16 ∧ Bitfield.used (files_bitfield p) e = false) →
  ∃ d q, scheduler_cur_proc_add_fd f w =
      Ret (d, with_fs (set_fd_count f (u32 (n + 1)) (filesys w))
                (put_proc (current_proc (sched w)) q w)) ∧
    caller (with_fs (set_fd_count f (u32 (n + 1)) (filesys w))
              (put_proc (current_proc (sched w)) q w)) q s ∧
    id q = id p ∧ context q = context p ∧ memory_section q = memory_section p ∧
    has_fd q d f ∧ keeps_fds d p q ∧ Bitfield.used (files_bitfield p) d = false.
Proof.
  intros Hc Hn Hf0 (e & He & Hfree). pose proof Hc as [H Hp _ _]. pose proof (wf_current w H) as Hcur.
  unfold scheduler_cur_proc_add_fd. rewrite (bind_Ret _ _ _ _ _ (get_current_eq w H)).
  destruct (add_fd_spec w _ p f H (proj1 Hcur) (proj1 Hp) ltac:(by exists n))
    as [[_ Hfull]|(d & bf & fs & E & Hwf & Hd & Hnew & _ & Hset & _)].
  { rewrite Hfull in Hfree by done. done. }
  pose proof (add_fd_fs _ _ _ _ _ n E (proj1 Hd) Hn) as Hfs. simpl in Hfs. subst fs.
  set (q := with_files (<[Z.to_nat d := f]> (files p)) bf p) in *.
  pose proof (Forall_lookup_1 _ _ _ _ (wf_fds w H) (proj1 Hp)) as (Hflen & _).
  exists d, q. split_and!; try done.
  - by apply (caller_put _ _ _ p).
  - split_and!; try lia; [|simpl; apply list_lookup_insert_eq; lia].
    simpl. rewrite Hset, Z.eqb_refl by lia. by rewrite orb_true_r.
  - intros e' g Hne (He' & Hu & Hg & Hg0). split_and!; try lia.
    + simpl. by rewrite Hset, Hu by lia.
    + simpl. by rewrite list_lookup_insert_ne by lia.
Qed.

Lemma open_handler w p s flags m path f v' n : caller w p s →
  BASE ≤ buf → buf + Z.of_nat (length path) < BASE + 0x100000 →
  Forall (λ b, 0 < b < 0x100) path → has_bytes s (buf - BASE) (path ++ [0]) →
  vfs_file_open path flags m (filesys w) = Ret (f, v') → f ≠ 0 → fd_count v' f = Some n →
  (∃ e, 0 ≤ e < 16 ∧ Bitfield.used (files_bitfield p) e = false) →
  ∃ d q, let w2 := with_fs (set_fd_count f (u32 (n + 1)) v')
                     (put_proc (current_proc (sched w)) q w) in
    _syscall__OPEN buf flags m w = Ret (d, w2) ∧ caller w2 q s ∧
    id q = id p ∧ context q = context p ∧ memory_section q = memory_section p ∧
    has_fd q d f ∧ keeps_fds d p q ∧ Bitfield.used (files_bitfield p) d = false.
Proof.
  intros Hc Hlo Hhi Hpath Hb Eo Hf0 Hn Hfree. pose proof Hc as [H Hp _ Hs].
  assert (onvfs (vfs_file_open path flags m) w = Ret (f, with_fs v' w)) as E.
  { unfold onvfs, zoom. simpl comp_get. by rewrite Eo. }
  assert (quiet w (with_fs v' w)) as Hq.
  { assert (keeps quiet (onvfs (vfs_file_open path flags m))) as Hk by keeps. by eapply Hk. }
  pose proof (caller_quiet _ _ _ _ s Hc Hq Hs) as Hc1.
  destruct (add_fd_call (with_fs v' w) p s f n Hc1 Hn Hf0 Hfree)
    as (d & q & Ea & Hc2 & Hid & Hctx & Hsec & Hfd & Hkeep & Hnew).
  exists d, q. cbv zeta. split_and!; try done. unfold _syscall__OPEN.
  unfold PROCESS_SECTION_VIRTUAL_ADDRRESS in *.
  rewrite (bind_Ret _ _ _ _ _ (to_kernel_run w p s H Hp Hs buf
    ltac:(unfold PROCESS_SECTION_VIRTUAL_ADDRRESS; lia))).
  unfold PROCESS_SECTION_VIRTUAL_ADDRRESS.
  rewrite (bind_Ret _ _ _ _ _ (load_cstr_run w p s H Hp Hs (buf - 0x00800000) path Hpath
    ltac:(lia) ltac:(lia) Hb)).
  rewrite (bind_Ret _ _ _ _ _ E), (proj2 (Z.eqb_neq f 0) Hf0), (bind_Ret _ _ _ _ _ Ea).
  rewrite (proj2 (Z.ltb_ge d 0)) by (destruct Hfd; lia). by erewrite bind_Ret by reflexivity.
Qed.

Lemma call_open w p s flags m path f v' n : caller w p s →
  BASE ≤ buf → buf + Z.of_nat (length path) < BASE + 0x100000 →
  Forall (λ b, 0 < b < 0x100) path →
  vfs_file_open path (u32 flags) (u32 m) (filesys w) = Ret (f, v') → f ≠ 0 → fd_count v' f = Some n →
  (∃ e, 0 ≤ e < 16 ∧ Bitfield.used (files_bitfield p) e = false) →
  ∃ d w' p' s', os_open (Os := kernel_os regs buf) path flags m w = Ret (d, w') ∧
    caller w' p' s' ∧ has_fd p' d f ∧ keeps_fds d p p' ∧ Bitfield.used (files_bitfield p) d = false ∧
    filesys w' = set_fd_count f (u32 (n + 1)) v'.
Proof.
  intros Hc Hlo Hhi Hpath Eo Hf0 Hn Hfree.
  set (s' := put_bytes (buf - BASE) (path ++ [0]) s).
  pose proof (caller_ram w p s s' Hc) as Hc1.
  set (w1 := with_ram (<[memory_section p := s']> (ram w)) w) in *.
  pose proof (caller_context regs w1 p s' Hc1) as Hc2.
  destruct (open_handler (set_context regs p w1) (with_context regs p) s' (u32 flags) (u32 m) path f v' n
    Hc2 Hlo Hhi Hpath (has_put_bytes _ _ _) Eo Hf0 Hn Hfree)
    as (d & q & Eh & Hc3 & Hid & Hctx & Hsec & Hfd & Hkeep & Hnew).
  set (w3 := with_fs _ _) in *.
  pose proof (syscall_alone regs SYSCALL__OPEN buf (u32 flags) (u32 m) _ w1 p w3 q d
    (ca_wf _ _ _ Hc1) (ca_running _ _ _ Hc1) ltac:(done) eq_refl Eh (ca_wf _ _ _ Hc3)
    (ca_running _ _ _ Hc3) (ca_alone _ _ _ Hc3) Hid ltac:(done)) as E.
  rewrite s32_small in E by (destruct Hfd; lia).
  eexists d, _, _, s'. split; [|split; [apply (caller_context (set_r0 (u32 d) (context q)) _ _ _ Hc3)|]].
  - cbn [os_open kernel_os].
    rewrite (bind_Ret _ _ _ _ _ (user_store_run (path ++ [0]) w p s Hc Hlo
      ltac:(rewrite length_app; simpl; lia)
      ltac:(apply Forall_app; split; [eapply Forall_impl; [exact Hpath|unfold is_u8; lia]|by repeat constructor]))).
    fold s' w1. exact E.
  - split_and!; done.
Qed.

Lemma call_close w p s d f n fs' : caller w p s → has_fd p d f →
  fd_count (filesys w) f = Some n → 0 < n →
  onfs (vfs_file_close f) (set_fd_count f (u32 (n + -1)) (filesys w)) = Ret (0, fs') →
  ∃ w' p', os_close (Os := kernel_os regs buf) d w = Ret (0, w') ∧
    caller w' p' s ∧ keeps_fds d p p' ∧ filesys w' = fs'.
Proof.
  intros Hc Hd Hn Hpos Ec. pose proof (caller_context regs w p s Hc) as Hc1.
  set (w1 := set_context regs p w) in *. set (p1 := with_context regs p) in *.
  pose proof Hc1 as [H Hp Ha Hs]. pose proof (wf_current w1 H) as Hcur.
  pose proof Hd as (Hdr & Hu & Hf & Hf0).
  destruct (rem_fd_spec w1 _ p1 d f n H (proj1 Hcur) (proj1 Hp) Hdr Hu Hf Hn Hpos)
    as (bf & fs & E & Hwf & Hbits & _).
  set (q := with_files (files p1) bf p1) in *.
  pose proof (Forall_lookup_1 _ _ _ _ (wf_fds w1 H) (proj1 Hp)) as (_ & Hbf & _).
  pose proof (rem_fd_fs _ _ f _ _ _ n p1 E (get_proc_live w1 _ p1 (proj1 Hcur) (proj1 Hp))
    Hdr Hbf Hu Hf Hn) as Hfs. simpl in Hfs. subst fs.
  pose proof (caller_put _ q w1 p1 s Hc1 Hwf eq_refl eq_refl) as Hc2.
  set (w2 := with_fs _ (put_proc _ q w1)) in *.
  assert (onfile (vfs_file_close f) w2 = Ret (0, with_fs fs' w2)) as E2.
  { unfold onfile, onvfs, zoom.
    change (comp_get w2) with (set_fd_count f (u32 (n + -1)) (filesys w)). by rewrite Ec. }
  assert (quiet w2 (with_fs fs' w2)) as Hq.
  { assert (keeps quiet (onfile (vfs_file_close f))) as Hk by keeps. by eapply Hk. }
  pose proof (caller_quiet _ _ _ _ s Hc2 Hq (ca_ram _ _ _ Hc2)) as Hc3.
  assert (_syscall__CLOSE d 0 0 w1 = Ret (0, with_fs fs' w2)) as Eh.
  { unfold _syscall__CLOSE.
    rewrite (bind_Ret _ _ _ _ _ (cur_fd_run w1 p1 s d f Hc1 Hd)), (proj2 (Z.eqb_neq f 0) Hf0).
    rewrite s32_small by lia. erewrite bind_Ret.
    2:{ unfold scheduler_cur_proc_rem_fd. rewrite (bind_Ret _ _ _ _ _ (get_current_eq w1 H)). exact E. }
    by rewrite (bind_Ret _ _ _ _ _ E2). }
  pose proof (syscall_alone regs SYSCALL__CLOSE d 0 0 _ w p (with_fs fs' w2) q 0
    (ca_wf _ _ _ Hc) (ca_running _ _ _ Hc) ltac:(done) eq_refl Eh (ca_wf _ _ _ Hc3)
    (ca_running _ _ _ Hc3) (ca_alone _ _ _ Hc3) eq_refl ltac:(done)) as Es.
  eexists _, _. split; [|split; [apply (caller_context (set_r0 (u32 0) (context q)) _ _ _ Hc3)|]].
  - cbn [os_close kernel_os]. unfold usr_syscall_close. rewrite u32_small by lia. exact Es.
  - split; [|done]. intros e g Hne (He & Hue & Hg & Hg0). split_and!; try done; try lia.
    simpl. rewrite Hbits by lia. change (files_bitfield p1) with (files_bitfield p).
    by rewrite Hue, (proj2 (Z.eqb_neq e d) Hne).
Qed.
End calls.

End UsrCalls.
