(* ===== verification/UsrSpec.v ===== *)
(** * A program that prints on the terminal

    The system call WRITE, from the program's buffer to the serial line; with it the
    terminal is a [Sink] for the library of [Stdio]. *)
From S2P Require Import Prelude Bitfield Mmu Alloc Heap Hash Fs FsState Devices Ramfs Fat32 Vfs VfsFiles Scheduler SchedulerInv Exec Syscalls SystemInv ExecSpec Format Log Stdio StdioSpec Usr UsrCalls.
Import Fs FsState Devices Vfs VfsFiles Scheduler SchedulerInv Exec Syscalls SystemInv ExecSpec Format Log Stdio StdioSpec Usr UsrCalls.

Module UsrSpec.

(** ** The terminal *)

(** What is sent for the bytes [l]: a carriage return before each newline. *)
Definition cooked (l : list Z) : list Z := flat_map (λ c, if c =? 10 then [13; 10] else [c]) l.

Lemma tty_write_run data s : tty_write_loop data s = Ret ((), sent (cooked data) s).
Proof.
  revert s. induction data as [|c data IH]; intros s; cbn [tty_write_loop].
  { by rewrite sent_nil. }
  unfold cooked. cbn [flat_map]. destruct (c =? 10) eqn:E.
  - apply Z.eqb_eq in E as ->. rewrite (bind_Ret _ _ _ _ _ (putc_run 13 s)).
    rewrite (bind_Ret _ _ _ _ _ (putc_run 10 _)), IH. by rewrite !sent_app.
  - rewrite (bind_Ret _ _ s () s) by done.
    rewrite (bind_Ret _ _ _ _ _ (putc_run c _)), IH. by rewrite (sent_app [c]).
Qed.

(** The file [f] is open on the terminal, on which [l] was written after [out] was sent. *)
Inductive tty_open (f : Z) (out l : list Z) (s : fs) : Prop :=
| tty_open_intro fl node :
    fs_files s !! f = Some fl → fs_inodes s !! f_inode fl = Some node →
    file_ops node = DEV_TTY_OPS → uart_out (fs_uart s) = rev (cooked l) ++ out →
    tty_open f out l s.

Lemma tty_reads f out l s : tty_open f out l s → write_reads f s = Ret (true, s).
Proof.
  intros [fl node Hf Hn Hops _]. unfold write_reads, get_file, get_inode.
  erewrite bind_Ret by (apply mget_Ret; exact Hf).
  erewrite bind_Ret by (apply mget_Ret; exact Hn). by rewrite Hops.
Qed.

Lemma tty_written f out l s bytes : tty_open f out l s →
  vfs_file_write f bytes s = Ret (Z.of_nat (length bytes), sent (cooked bytes) s) ∧
  tty_open f out (l ++ bytes) (sent (cooked bytes) s).
Proof.
  intros [fl node Hf Hn Hops Hout]. split.
  - unfold vfs_file_write. rewrite (bind_Ret _ _ _ _ _ (ops_of_run _ _ _ _ Hf Hn)), Hops.
    unfold _tty_mini_uart_write. by rewrite (bind_Ret _ _ _ _ _ (tty_write_run bytes _)).
  - apply (tty_open_intro _ _ _ _ fl node); try done. simpl.
    rewrite Hout, app_assoc, <- rev_app_distr. unfold cooked. by rewrite flat_map_app.
Qed.

(** The running process is alone, and its descriptor [d] is open on the terminal, on
    which [l] was written after [out] was sent. *)
Inductive terminal (d : Z) (out l : list Z) (w : system) : Prop :=
| terminal_intro p s f :
    caller w p s → has_fd p d f → tty_open f out l (vs_fs (filesys w)) → terminal d out l w.

Section terminal.
Context (regs : task_context) (buf : Z).

(** A write on the terminal, and all that it changes. *)
Lemma terminal_call d out l bytes w p s f : caller w p s → has_fd p d f →
  tty_open f out l (vs_fs (filesys w)) →
  BASE ≤ buf < BASE + 0x100000 → buf + Z.of_nat (length bytes) ≤ BASE + 0x100000 →
  Forall is_u8 bytes →
  ∃ w' p' s', os_write (Os := kernel_os regs buf) d bytes w = Ret (Z.of_nat (length bytes), w') ∧
    caller w' p' s' ∧ same_fds p p' ∧
    filesys w' = mkvs (sent (cooked bytes) (vs_fs (filesys w))) (vs_vfs (filesys w)) ∧
    tty_open f out (l ++ bytes) (vs_fs (filesys w')).
Proof.
  intros Hc Hd Ht Hlo Hlen Hu8. destruct (tty_written f out l _ bytes Ht) as [E Ht'].
  destruct (call_write regs buf w p s d f bytes _ _ Hc Hd Hlo Hlen Hu8 (tty_reads _ _ _ _ Ht) E)
    as (w' & p' & s' & Ew & Hc' & Hfd & Hfs).
  exists w', p', s'. rewrite Hfs. split_and!; try done. rewrite Ew, s32_small; [done|].
  unfold PROCESS_SECTION_VIRTUAL_ADDRRESS in *. lia.
Qed.

(** The buffer of 128 bytes is in the program's section. *)
Hypothesis Hbuf : BASE ≤ buf ∧ buf + 128 ≤ BASE + 0x100000.

#[export] Instance terminal_sink d out : Sink (Os0 := kernel_os regs buf) d (terminal d out).
Proof.
  intros l bytes w [p s f Hc Hd Ht] Hlen Hu8.
  destruct (terminal_call d out l bytes w p s f Hc Hd Ht ltac:(lia) ltac:(lia) Hu8)
    as (w' & p' & s' & E & Hc' & Hfd & _ & Ht').
  exists (Z.of_nat (length bytes)), w'. split_and!; [done|lia|].
  by apply (terminal_intro _ _ _ _ p' s' f); [|by eapply has_fd_same|].
Qed.

(** A program that starts opens its standard output on the terminal. *)
Lemma start_stream d out u : terminal d out [] (os u) → cursor u = 0 →
  ∃ u', fdopen d u = Ret (HEAP_START, u') ∧
    wrote d (terminal d out) HEAP_START [] u' ∧ os u' = os u.
Proof.
  intros Ht Hc. unshelve eapply (fdopen_run d (terminal d out)
    HEAP_START u Ht); [by left|by rewrite Hc|by rewrite Hc].
Qed.
End terminal.

(** ** Properties *)

(** C18. A program prints on the terminal: [printf] in a process whose descriptor [d] is
    the terminal's file sends, through the buffer of its stream, the system call WRITE and
    the driver, the rendered text after all that was written before, with a carriage
    return before each newline; the kernel's invariant still holds. *)
Theorem printf_terminal regs buf d out l0 format ap l (u : user system) :
  BASE ≤ buf ∧ buf + 128 ≤ BASE + 0x100000 →
  wrote d (terminal d out) (stdout u) l0 u →
  Forall is_car format → Forall va_ok ap → stdio_render (pieces format) ap = Ret l →
  ∃ u', printf (Os0 := kernel_os regs buf) format ap u = Ret (0, u') ∧ wf (os u') ∧
    uart_out (fs_uart (vs_fs (filesys (os u')))) = rev (cooked (l0 ++ l)) ++ out.
Proof.
  intros Hbuf Hw Hf Hap E.
  pose proof (terminal_sink regs buf Hbuf d out) as Hsink.
  destruct (vfprintf_run (Os0 := kernel_os regs buf) d (terminal d out) (stdout u) format ap l l0 u
    Hf Hap E Hw) as (u' & Ep & _ & _ & [p s f Hc _ [fl node _ _ _ Hout]]).
  exists u'. split; [done|]. split; [apply Hc|done].
Qed.

End UsrSpec.
