(* ===== verification/Lucifer.v ===== *)
(** * The shell's command line: [userland/bin/lucifer.c]

    The line is cut into words in place; the array of tokens has nine entries, the last
    for NULL. *)
From S2P Require Import Prelude Fs.
Import Fs.

Module Lucifer.

(** ** The code *)

Definition LINE_SIZE : Z := 128.
Definition MAX_ARG_COUNT : Z := 8.

(** [strlen(line + i)]; without a NUL it runs out of the array. *)
Fixpoint strlen_at (l : list Z) : outcome Z :=
  match l with
  | [] => Fault
  | c :: l => if c =? 0 then Ret 0 else let? n := strlen_at l in Ret (1 + n)
  end.
Definition line_strlen (line : list Z) (i : Z) : outcome Z :=
  if (0 <=? i) && (i <=? Z.of_nat (length line)) then strlen_at (drop (Z.to_nat i) line) else Fault.

(** [tokens[token_count++] = token], where a token is [Some] offset in the line, or NULL. *)
Definition push_token (tokens : list (option Z)) (token : option Z) : outcome (list (option Z)) :=
  if Z.of_nat (length tokens) <? 1 + MAX_ARG_COUNT then Ret (tokens ++ [token]) else Fault.

(** The loop, with [n] characters of the array to go. *)
Fixpoint token_loop (n : nat) (i : Z) (line : list Z) (token : Z) (tokens : list (option Z)) :
    outcome (list Z * Z * list (option Z)) :=
  match n with
  | O => Ret (line, token, tokens)
  | S n =>
      let? c := arr_get line i in
      if (c =? 0) || negb (Z.of_nat (length tokens) <? MAX_ARG_COUNT) then Ret (line, token, tokens)
      else if c =? 32 then
        let? line := arr_set line i 0 in
        let? len := line_strlen line token in
        let? tokens := if len >? 0 then push_token tokens (Some token) else Ret tokens in
        token_loop n (i + 1) line (i + 1) tokens
      else token_loop n (i + 1) line token tokens
  end.

(** The end of the line is the last token; NULL ends the array. *)
Definition last_token (r : list Z * Z * list (option Z)) : outcome (list Z * list (option Z)) :=
  let '(line, token, tokens) := r in
  let? len := line_strlen line token in
  let? tokens := if len >? 0 then push_token tokens (Some token) else Ret tokens in
  let? tokens := push_token tokens None in
  Ret (line, tokens).

(** The line cut into tokens, and the array of tokens. *)
Definition tokenize (line : list Z) : outcome (list Z * list (option Z)) :=
  let? r := token_loop (Z.to_nat LINE_SIZE) 0 line 0 [] in
  last_token r.

(** ** Words *)

(** The words of a text: what stands between blanks. *)
Fixpoint words_from (w : list Z) (s : list Z) : list (list Z) :=
  match s with
  | [] => if bool_decide (w = []) then [] else [w]
  | c :: s =>
      if c =? 32 then
        if bool_decide (w = []) then words_from [] s else w :: words_from [] s
      else words_from (w ++ [c]) s
  end.
Definition words (s : list Z) : list (list Z) := words_from [] s.

(** The C string at offset [i] of the array is [w]. *)
Definition string_at (line : list Z) (i : Z) (w : list Z) : Prop :=
  0 ≤ i ∧ ∃ rest, drop (Z.to_nat i) line = w ++ 0 :: rest.

Definition token_is (line : list Z) (t : option Z) (w : list Z) : Prop :=
  match t with Some i => string_at line i w | None => False end.

Lemma token_app line x t w : token_is line t w → token_is (line ++ x) t w.
Proof.
  destruct t as [i|]; [|done]. intros [Hi [rest E]]. split; [done|]. exists (rest ++ x).
  assert (Z.to_nat i < length line)%nat as Hlt.
  { apply (f_equal length) in E. rewrite length_drop, length_app in E. simpl in E. lia. }
  by rewrite drop_app_le, E, <- app_assoc by lia.
Qed.

Lemma tokens_app line x ts ws : Forall2 (token_is line) ts ws → Forall2 (token_is (line ++ x)) ts ws.
Proof. intros H. eapply Forall2_impl; [exact H|]. intros. by apply token_app. Qed.

Lemma strlen_run w rest : Forall (λ c, c ≠ 0) w → strlen_at (w ++ 0 :: rest) = Ret (Z.of_nat (length w)).
Proof.
  induction 1 as [|c w Hc _ IH]; [done|]. cbn [app strlen_at].
  rewrite (proj2 (Z.eqb_neq c 0) Hc), IH. cbn [obind length]. f_equal. lia.
Qed.

Lemma line_strlen_run done w rest : Forall (λ c, c ≠ 0) w →
  line_strlen (done ++ w ++ 0 :: rest) (Z.of_nat (length done)) = Ret (Z.of_nat (length w)).
Proof.
  intros Hw. unfold line_strlen. rewrite (proj2 (Z.leb_le 0 _)) by lia.
  rewrite (proj2 (Z.leb_le _ _)) by (rewrite !length_app; lia). cbn [andb].
  rewrite Nat2Z.id, drop_app_length. by apply strlen_run.
Qed.

Lemma push_run ts t : (length ts < 9)%nat → push_token ts t = Ret (ts ++ [t]).
Proof.
  intros H. unfold push_token, MAX_ARG_COUNT. by rewrite (proj2 (Z.ltb_lt _ _)) by lia.
Qed.
Lemma push_full ts t : (9 ≤ length ts)%nat → push_token ts t = Fault.
Proof.
  intros H. unfold push_token, MAX_ARG_COUNT. by rewrite (proj2 (Z.ltb_ge _ _)) by lia.
Qed.

(** The last token, when the word at [token] ends the line. *)
Lemma last_token_run done w rest ts ws : Forall (λ c, c ≠ 0) w →
  Forall2 (token_is done) ts ws → (length ts ≤ 8)%nat →
  let line := done ++ w ++ 0 :: rest in
  let all := ws ++ if bool_decide (w = []) then [] else [w] in
  ((length all ≤ 8)%nat → ∃ ts', last_token (line, Z.of_nat (length done), ts) = Ret (line, ts' ++ [None]) ∧
     Forall2 (token_is line) ts' all) ∧
  ((9 ≤ length all)%nat → last_token (line, Z.of_nat (length done), ts) = Fault).
Proof.
  intros Hw Hts Hlen line all. pose proof (Forall2_length _ _ _ Hts) as Hl.
  unfold last_token, line, all. rewrite line_strlen_run by done. cbn [obind].
  destruct w as [|c w].
  - rewrite bool_decide_eq_true_2, app_nil_r by done. cbn [length].
    change (Z.of_nat 0 >? 0) with false. cbn [obind]. rewrite push_run by lia. split; [|lia]. intros _. exists ts. split; [done|by apply tokens_app].
  - rewrite bool_decide_eq_false_2, length_app by done. cbn [length].
    rewrite (proj2 (Z.gtb_lt _ 0)) by lia. rewrite push_run by lia. cbn [obind]. split; intros Ha.
    + rewrite push_run by (rewrite length_app; simpl; lia). eexists. split; [done|].
      apply Forall2_app; [by apply tokens_app|]. constructor; [|constructor].
      split; [lia|]. exists rest. by rewrite Nat2Z.id, drop_app_length.
    + by rewrite push_full by (rewrite length_app; simpl; lia).
Qed.

Lemma words_nil s : words_from [] s = [] → Forall (λ c, c = 32) s.
Proof.
  assert (∀ s w, w ≠ [] → words_from w s ≠ []) as Hne.
  { clear s. induction s as [|c s IH]; intros w Hw; cbn [words_from].
    - by rewrite bool_decide_eq_false_2.
    - destruct (c =? 32); [by rewrite bool_decide_eq_false_2|].
      apply IH. intros H. by apply app_nil in H as [_ ?]. }
  induction s as [|c s IH]; intros H; [constructor|]. cbn [words_from] in H.
  destruct (Z.eqb_spec c 32) as [->|]; [|by apply Hne in H].
  rewrite bool_decide_eq_true_2 in H by done. constructor; [done|by apply IH].
Qed.

(** The character under the cursor, and the line with a NUL in its place. *)
Lemma line_at done w c rest :
  let i := Z.of_nat (length done) + Z.of_nat (length w) in
  arr_get (done ++ w ++ c :: rest) i = Ret c ∧
  arr_set (done ++ w ++ c :: rest) i 0 = Ret (done ++ w ++ 0 :: rest).
Proof.
  intros i. assert (Z.to_nat i = (length done + length w)%nat) as Hi by lia. split.
  - apply arr_get_lookup; [lia|]. by rewrite Hi, app_assoc, <- length_app, list_lookup_middle.
  - rewrite arr_set_Ret by (rewrite !length_app; simpl; lia).
    rewrite Hi, app_assoc, <- length_app, insert_app_r_alt, Nat.sub_diag by lia.
    by rewrite <- app_assoc.
Qed.

(** At a blank the word before it, if there is one, becomes a token. *)
Lemma word_closed done w rest ts ws : Forall2 (token_is done) ts ws → (length ts < 8)%nat →
  ∃ ts1 ws1, (if Z.of_nat (length w) >? 0 then push_token ts (Some (Z.of_nat (length done))) else Ret ts) =
      Ret ts1 ∧ Forall2 (token_is (done ++ w ++ [0])) ts1 ws1 ∧ (length ts1 ≤ 8)%nat ∧
    ws ++ words_from w (32 :: rest) = ws1 ++ words_from [] rest.
Proof.
  intros Hts Hlt. cbn [words_from]. rewrite Z.eqb_refl. destruct w as [|d w].
  - rewrite bool_decide_eq_true_2 by done. exists ts, ws.
    split_and!; [done|by apply tokens_app|lia|done].
  - rewrite bool_decide_eq_false_2 by done. cbn [length].
    rewrite (proj2 (Z.gtb_lt _ 0)) by lia. exists (ts ++ [Some (Z.of_nat (length done))]), (ws ++ [d :: w]).
    rewrite push_run, length_app, <- app_assoc by lia. split_and!; [done| |simpl; lia|done].
    apply Forall2_app; [by apply tokens_app|]. constructor; [|constructor].
    split; [lia|]. exists []. by rewrite Nat2Z.id, drop_app_length.
Qed.

(** A rest that does not end in a blank holds a word. *)
Lemma last_word c rest : last (c :: rest) ≠ Some 32 → words_from [] (c :: rest) ≠ [].
Proof.
  intros Hlast Hnil%words_nil. apply Hlast.
  destruct (last (c :: rest)) as [x|] eqn:E; [|by apply last_None in E].
  f_equal. rewrite Forall_forall in Hnil. apply Hnil. by apply last_Some_elem_of.
Qed.

(** The last character of the line is that of its rest. *)
Lemma not_blank_rest (n : nat) c rest : (n ≤ 7)%nat ∨ ((n ≤ 8)%nat ∧ last (c :: rest) ≠ Some 32) →
  (n ≤ 7)%nat ∨ ((n ≤ 8)%nat ∧ last rest ≠ Some 32).
Proof. intros [?|[? Hl]]; [by left|right]. split; [done|]. intros E. apply Hl. by destruct rest. Qed.

(** The line [done ++ w ++ rest] with its tokens so far, the cursor behind [w]: the rest
    of the work succeeds or runs over the end of the array. *)
Lemma token_loop_run rest : ∀ n done w tail ts ws,
  Forall (λ c, c ≠ 0) w → Forall (λ c, c ≠ 0) rest → Forall2 (token_is done) ts ws →
  (length ts ≤ 8)%nat → (length ts = 8%nat → w = []) → (length rest < n)%nat →
  let line := done ++ w ++ rest ++ 0 :: tail in
  let all := ws ++ words_from w rest in
  let r := let? r := token_loop n (Z.of_nat (length done) + Z.of_nat (length w)) line
                       (Z.of_nat (length done)) ts in last_token r in
  ((length all ≤ 7)%nat ∨ ((length all ≤ 8)%nat ∧ last rest ≠ Some 32) →
   ∃ line' ts', r = Ret (line', ts' ++ [None]) ∧ Forall2 (token_is line') ts' all ∧
     length line' = length line) ∧
  ((9 ≤ length all)%nat → r = Fault).
Proof.
  induction rest as [|c rest IH]; intros n done w tail ts ws Hw Hrest Hts Hlen H8 Hn line all r.
  all: destruct n as [|n]; [simpl in Hn; lia|]; pose proof (Forall2_length _ _ _ Hts) as Hl.
  - unfold r, line, all. cbn [app token_loop words_from].
    destruct (line_at done w 0 tail) as [-> _]. cbn [obind Z.eqb orb].
    destruct (last_token_run done w tail ts ws Hw Hts Hlen) as [Hok Hbad]. split.
    + intros Ha. destruct Hok as (ts' & E & Hts'); [lia|]. by exists (done ++ w ++ 0 :: tail), ts'.
    + intros Ha. by apply Hbad.
  - apply Forall_cons in Hrest as [Hc Hrest]. unfold r, line. cbn [app token_loop].
    destruct (line_at done w c (rest ++ 0 :: tail)) as [-> Eset]. cbn [obind].
    rewrite (proj2 (Z.eqb_neq c 0) Hc). cbn [orb].
    destruct (Z.ltb_spec (Z.of_nat (length ts)) MAX_ARG_COUNT) as [Hlt|Hge]; cbn [negb].
    + unfold MAX_ARG_COUNT in Hlt. destruct (Z.eqb_spec c 32) as [->|Hnb].
      * rewrite Eset. cbn [obind]. rewrite line_strlen_run by done. cbn [obind].
        destruct (word_closed done w rest ts ws Hts ltac:(lia)) as (ts1 & ws1 & -> & Hts1 & Hl1 & Hall).
        fold all in Hall.
        cbn [obind]. destruct (IH n (done ++ w ++ [0]) [] tail ts1 ws1) as [Hok Hbad];
          [done|done|done|done|done|simpl in Hn; lia|].
        assert (Z.of_nat (length (done ++ w ++ [0])) =
          Z.of_nat (length done) + Z.of_nat (length w) + 1) as Hpos by (rewrite !length_app; simpl; lia).
        rewrite Hpos in Hok, Hbad. change (Z.of_nat (length [])) with 0 in Hok, Hbad.
        rewrite Z.add_0_r in Hok, Hbad. cbn [app] in Hok, Hbad.
        rewrite <- !app_assoc in Hok, Hbad. cbn [app] in Hok, Hbad. rewrite <- Hall in Hok, Hbad.
        split; [|exact Hbad]. intros Ha%not_blank_rest. destruct (Hok Ha) as (line' & ts' & E & H1 & H2).
        exists line', ts'. split_and!; [exact E|done|]. rewrite H2, !length_app. simpl.
        rewrite !length_app. simpl. lia.
      * destruct (IH n done (w ++ [c]) tail ts ws) as [Hok Hbad];
          [apply Forall_app; split; [done|by apply Forall_singleton]|done|done|done|lia|simpl in Hn; lia|].
        assert (Z.of_nat (length done) + Z.of_nat (length (w ++ [c])) =
          Z.of_nat (length done) + Z.of_nat (length w) + 1) as Hpos by (rewrite length_app; simpl; lia).
        rewrite Hpos in Hok, Hbad.
        rewrite <- !app_assoc in Hok, Hbad. cbn [app] in Hok, Hbad.
        assert (all = ws ++ words_from (w ++ [c]) rest) as Hall
          by (unfold all; cbn [words_from]; by rewrite (proj2 (Z.eqb_neq c 32) Hnb)).
        rewrite <- Hall in Hok, Hbad. split; [|exact Hbad]. intros Ha%not_blank_rest. exact (Hok Ha).
    + unfold MAX_ARG_COUNT in Hge. assert (length ts = 8%nat) as H8' by lia.
      rewrite (H8 H8') in *. cbn [app obind] in *.
      destruct (last_token_run done (c :: rest) tail ts ws) as [_ Hbad]; [by constructor|done|done|].
      rewrite bool_decide_eq_false_2, length_app in Hbad by done. split.
      * intros Ha. exfalso. unfold all in Ha. rewrite (H8 H8'), length_app in Ha.
        destruct Ha as [?|[Ha Hlast]]; [lia|]. apply (last_word _ _ Hlast), length_zero_iff_nil. lia.
      * intros _. apply Hbad. simpl. lia.
Qed.

Example tokens_ls : tokenize (str "ls  /dev" ++ replicate 120 0) =
  Ret (str "ls" ++ [0; 0] ++ str "/dev" ++ replicate 120 0, [Some 0; Some 4; None]).
Proof. vm_compute. reflexivity. Qed.

(** ** Properties *)

(** C35. The shell cuts a line into the words between blanks, each a C string in the line
    and in order, with NULL behind them, when there are at most seven words, or eight and
    no blank at the end; with nine words or more it writes past the array of tokens. *)
Theorem tokenize_correct (s : list Z) (tail : list Z) :
  Forall (λ c, c ≠ 0) s → (length s + 1 + length tail = 128)%nat →
  ((length (words s) ≤ 7)%nat ∨ ((length (words s) ≤ 8)%nat ∧ last s ≠ Some 32) →
   ∃ line tokens, tokenize (s ++ 0 :: tail) = Ret (line, tokens ++ [None]) ∧
     Forall2 (token_is line) tokens (words s) ∧ length line = 128%nat) ∧
  ((9 ≤ length (words s))%nat → tokenize (s ++ 0 :: tail) = Fault).
Proof.
  intros Hs Hlen.
  destruct (token_loop_run s (Z.to_nat LINE_SIZE) [] [] tail [] []) as [Hok Hbad];
    [done|done|constructor|simpl; lia|done|unfold LINE_SIZE; lia|].
  cbn [app length] in Hok, Hbad. split; [|exact Hbad].
  intros Hw. destruct (Hok Hw) as (line & tokens & E & Ht & Hl). exists line, tokens.
  split_and!; [exact E|exact Ht|]. rewrite Hl, length_app. simpl. lia.
Qed.

Lemma tokenize_correct_witness :
  (∃ line tokens, tokenize (str "cat  /dev/tty" ++ 0 :: replicate 114 0) =
     Ret (line, tokens ++ [None]) ∧
     Forall2 (token_is line) tokens [str "cat"; str "/dev/tty"] ∧ length line = 128%nat) ∧
  tokenize (str "a b c d e f g h i" ++ 0 :: replicate 110 0) = Fault.
Proof.
  split.
  - apply (tokenize_correct (str "cat  /dev/tty") (replicate 114 0)).
    + repeat (constructor; [discriminate|]). constructor.
    + reflexivity.
    + left. apply Nat.leb_le. reflexivity.
  - apply (tokenize_correct (str "a b c d e f g h i") (replicate 110 0)).
    + repeat (constructor; [discriminate|]). constructor.
    + reflexivity.
    + apply Nat.leb_le. reflexivity.
Defined.

End Lucifer.
