(* ===== verification/Programs.v ===== *)
(** * The programs: [userland/bin]

    The entry point and the mains of cat, ls, hello, reboot, init and the shell, on any
    operating system with the calls of [Os] and [OsProc]. *)
From S2P Require Import Prelude Fs Format Stdio Lucifer.
Import Fs Format Stdio Lucifer.

Module Programs.

(** ** Data *)

(** An array of strings that ends with NULL. *)
Abbreviation argv_t := (list (option name_t)).

Definition DT_name (d_type : Z) : name_t :=
  if d_type =? DT_DIR then str "dir"
  else if d_type =? DT_REG then str "reg"
  else if d_type =? DT_CHR then str "character device"
  else if d_type =? DT_BLK then str "block device"
  else str "unknown".

(** A text and a line end. *)
Definition line (s : string) : name_t := str s ++ [10].

Section programs.
Context {K : Type} `{!Os K} `{!OsProc K}.
Abbreviation MU := (M (user K)).

(** ** [_start.c] *)

(** Without a NULL the loop runs out of the array. *)
Fixpoint _argv_len (argv : argv_t) : outcome Z :=
  match argv with
  | [] => Fault
  | None :: _ => Ret 0
  | Some _ :: argv => let? len := _argv_len argv in Ret (1 + len)
  end.

Definition set_stdout (s : Z) : MU unit :=
  modify (λ u, mkuser (cursor u) (streams u) (dirs u) s (os u)).

Definition _start (main : Z → argv_t → MU Z) (argv : argv_t) : MU Z :=
  let* s := fdopen 1 in
  let* _ := set_stdout s in
  let* argc := lift (_argv_len argv) in
  let* status := main argc argv in
  zoom (os_exit status).

(** [argv[i]] as a string: NULL is not one. *)
Definition argv_str (argv : argv_t) (i : Z) : MU name_t :=
  let* arg := lift (arr_get argv i) in
  match arg with Some s => ret s | None => fault end.

(** ** [cat.c] *)

(** The loop, which ends with the file; [fuel] bounds the turns. *)
Fixpoint cat_loop (fuel : nat) (fd : Z) : MU unit :=
  match fuel with
  | O => λ _, Timeout
  | S fuel =>
      let* r := fread 512 1 fd in
      let sz := s32 (fst r) in
      if sz =? 0 then ret ()
      else if sz <? 0 then
        let* _ := printf (line "read error (status=%d). Exiting") [VaInt (u32 sz)] in ret ()
      else
        (* what was not read is undefined *)
        let* data := lift (if sz <=? Z.of_nat (length (snd r)) then Ret (take (Z.to_nat sz) (snd r))
                           else Fault) in
        let* out := gets stdout in
        let* _ := fwrite data out in
        cat_loop fuel fd
  end.

Definition cat_main (fuel : nat) (argc : Z) (argv : argv_t) : MU Z :=
  if negb (argc =? 1) then
    let* _ := printf (line "usage: cat <path>") [] in ret 1
  else
    let* path := argv_str argv 0 in
    let* fd := fopen path in
    if fd =? 0 then
      let* _ := printf (line "no file at '%s'") [VaStr path] in ret 1
    else
      let* _ := cat_loop fuel fd in
      let* out := gets stdout in
      let* _ := fflush out in
      let* _ := fclose fd in
      ret 0.

(** ** [ls.c] *)

Fixpoint ls_loop (fuel : nat) (dir : Z) : MU unit :=
  match fuel with
  | O => λ _, Timeout
  | S fuel =>
      let* entity := readdir dir in
      match entity with
      | None => ret ()
      | Some e =>
          let* _ := printf (line " %s (%s)") [VaStr (d_name e); VaStr (DT_name (d_type e))] in
          ls_loop fuel dir
      end
  end.

Definition ls (fuel : nat) (path : name_t) : MU Z :=
  let* dir := opendir path in
  if dir =? 0 then
    let* _ := printf (line "ls: directory %s does not exists") [VaStr path] in ret 1
  else
    let* _ := ls_loop fuel dir in
    let* _ := closedir dir in
    ret 0.

Definition ls_main (fuel : nat) (argc : Z) (argv : argv_t) : MU Z :=
  if argc >? 1 then
    let* _ := printf (line "usage: ls [path]") [] in
    let* _ := printf (line "usage: got argc = %d") [VaInt (u32 argc)] in
    ret 1
  else
    let* path := if argc =? 0 then ret (str "/") else argv_str argv 0 in
    ls fuel path.

(** ** [hello.c] *)

(** The loop from [i] on, with [n] turns to go. *)
Fixpoint hello_loop (n : nat) (i : Z) (argv : argv_t) : MU unit :=
  match n with
  | O => ret ()
  | S n =>
      let* arg := argv_str argv i in
      let* _ := printf (line " argv[%d] = '%s'") [VaInt (u32 i); VaStr arg] in
      hello_loop n (i + 1) argv
  end.

Definition hello_main (argc : Z) (argv : argv_t) : MU Z :=
  let* _ := zoom (os_yield 0) in
  let* _ := printf (line "Hello World !" ++ line "argc = %d") [VaInt (u32 argc)] in
  let* _ := hello_loop (Z.to_nat argc) 0 argv in
  ret 42.

(** ** [reboot.c] *)

Definition reboot_main : MU Z :=
  let* _ := printf (line "reboot system...") [] in
  let* _ := zoom os_reboot in
  ret 0.

(** ** [init.c] *)

Definition _fork_exec_wait (exec : name_t) : MU Z :=
  let* _ := printf (line "init: exec %s") [VaStr exec] in
  let* status := zoom os_fork in
  if status <? 0 then
    let* _ := printf (line "init: fork failed") [] in ret status
  else if status =? 0 then
    let* exec_status := zoom (os_exec exec None) in
    let* _ := if exec_status <? 0 then printf (line "init: exec failed") [] else ret 0 in
    let* _ := zoom (os_exit exec_status) in
    ret (-1)
  else
    let* r := zoom (os_waitpid status) in
    let wstatus := default 0 (snd r) in
    let* _ := printf (line "init: child exited with status %u") [VaInt (u32 wstatus)] in
    ret wstatus.

(** The loop has no end. *)
Fixpoint init_main (fuel : nat) : MU Z :=
  match fuel with
  | O => λ _, Timeout
  | S fuel =>
      let* _ := printf (line "init: starting lucifer shell !!") [] in
      let* _ := _fork_exec_wait (str "/bin/lucifer") in
      init_main fuel
  end.

(** ** [lucifer.c] *)

Definition _fork_exec (exec : name_t) (argv : list name_t) : MU Z :=
  let* status := zoom os_fork in
  if status <? 0 then
    let* _ := printf (line "fork failed with status %d") [VaInt (u32 status)] in ret status
  else if status =? 0 then
    let* status := zoom (os_exec exec (Some argv)) in
    let* _ := printf (line "exec failed with status %d") [VaInt (u32 status)] in
    ret status
  else
    let* r := zoom (os_waitpid status) in
    let* _ := if fst r <? 0
              then printf (line "waitpid failed with status %d") [VaInt (u32 (fst r))]
              else ret 0 in
    ret (default 0 (snd r)).

(** The C string at offset [i] of the line. *)
Definition line_str (l : list Z) (i : Z) : outcome name_t :=
  let? n := line_strlen l i in
  Ret (take (Z.to_nat n) (drop (Z.to_nat i) l)).

(** [tokens[i]] as a string: NULL is not one. *)
Definition token_str (l : list Z) (tokens : list (option Z)) (i : Z) : outcome name_t :=
  let? token := arr_get tokens i in
  match token with Some i => line_str l i | None => Fault end.

(** The strings of [tokens], up to NULL. *)
Fixpoint token_strs (l : list Z) (tokens : list (option Z)) : outcome (list name_t) :=
  match tokens with
  | [] => Fault
  | None :: _ => Ret []
  | Some i :: tokens =>
      let? s := line_str l i in
      let? rest := token_strs l tokens in
      Ret (s :: rest)
  end.

Definition EXEC_PATH_SIZE : Z := 256.

(** The command of a line. *)
Definition lucifer_command (pid : Z) (exec_path : name_t) (argv : list name_t) : MU unit :=
  let* status := _fork_exec exec_path argv in
  let* _ := if negb (status =? 0)
            then printf (line "[%u] child failed with status %d") [VaInt (u32 pid); VaInt (u32 status)]
            else ret 0 in
  ret ().

(** The loop of main, on the array [l]; when the line could not be read, it is as before. *)
Fixpoint lucifer_loop (fuel : nat) (pid : Z) (l : list Z) : MU Z :=
  match fuel with
  | O => λ _, Timeout
  | S fuel =>
      let* _ := printf (str "[%u] lucifer ~ ") [VaInt (u32 pid)] in
      let* r := gets_s l LINE_SIZE in
      let l := default l r in
      let* text := lift (line_str l 0) in
      if Z.of_nat (length text) =? 0 then lucifer_loop fuel pid l
      else if streq (str "exit") text then
        let* _ := printf (line "[%u] exiting lucifer shell !") [VaInt (u32 pid)] in
        ret 0
      else
        let* r := lift (tokenize l) in
        let '(l, tokens) := r in
        let* name := lift (token_str l tokens 0) in
        let* exec_path := lift (strcpy_buf EXEC_PATH_SIZE (str "/bin/" ++ name)) in
        let* argv := lift (token_strs l (drop 1 tokens)) in
        let* _ := lucifer_command pid exec_path argv in
        lucifer_loop fuel pid l
  end.

Definition lucifer_main (fuel : nat) : MU Z :=
  let* pid := zoom os_getpid in
  let* _ := printf (line "[%u] welcome in lucifer shell") [VaInt (u32 pid)] in
  lucifer_loop fuel pid (replicate (Z.to_nat LINE_SIZE) 0).
End programs.

End Programs.
