(* ===== verification/ProgramsSpec.v ===== *)
(** * What the programs do

    From their start to their exit, with what they have written then. *)
From S2P Require Import Prelude Mmu Alloc Heap Fs FsState Devices Format Log Stdio StdioSpec Lucifer Programs.
Import Fs FsState Format Log Stdio StdioSpec Lucifer Programs.

Module ProgramsSpec.

(** ** Text files

    What cat expects of the operating system: in a state of [Q []] nothing was written yet
    on descriptor 1 and [path] names a file of bytes [content]; in one of [R d rest out] the
    bytes [out] were written, and the descriptor [d] is open on that file, of which [rest]
    was not read yet; in one of [Q' out] it was closed.  Reading at the end gives no byte,
    or an error. *)
Class TextFile {K} `{!Os K} (path : name_t) (content : list Z)
    (Q : list Z → K → Prop) (R : Z → list Z → list Z → K → Prop) (Q' : list Z → K → Prop) : Prop := {
  text_open k : Q [] k → ∃ d k', os_open path 0 0 k = Ret (d, k') ∧ 0 ≤ d ∧ R d content [] k';
  text_read d rest out k n : R d rest out k → 0 < n ≤ 512 →
    ∃ st k', os_read d n k = Ret ((st, take (Z.to_nat n) rest), k') ∧
      (rest = [] → -0x80000000 ≤ st ≤ 0) ∧ (rest ≠ [] → st = Z.min n (Z.of_nat (length rest))) ∧
      R d (drop (Z.to_nat n) rest) out k';
  text_close d out k : R d [] out k → ∃ k', os_close d k = Ret (0, k') ∧ Q' out k';
  text_out_open d rest :: Sink 1 (R d rest);
  text_u8 : Forall is_u8 content;
}.

(** ** Starting a program *)

Section start.
Context {K : Type} `{!Os K} `{!OsProc K}.
Implicit Types (u : user K).

(** The heap has room for a stream. *)
Definition stream_room u : Prop :=
  cursor u = 0 ∨ HEAP_START ≤ cursor u ≤ 0x008FFF00 ∧ cursor u `mod` 4 = 0.
Definition next_stream u : Z := if cursor u =? 0 then HEAP_START else cursor u.
Definition new_FILE (d : Z) : FILE := mkFILE d 0 (replicate 128 0).
Definition opened_stream (d : Z) u : user K :=
  mkuser (next_stream u + 136) (<[next_stream u := new_FILE d]> (streams u)) (dirs u) (stdout u)
    (os u).

Lemma fdopen_new d u : stream_room u → fdopen d u = Ret (next_stream u, opened_stream d u).
Proof.
  intros Hr. assert (0x00881000 ≤ next_stream u ≤ 0x008FFF00 ∧ next_stream u `mod` 4 = 0) as [Hn Hal].
  { unfold stream_room, next_stream, HEAP_START in *. destruct Hr as [->|[Hr Hal]]; [done|].
    destruct (Z.eqb_spec (cursor u) 0); lia. }
  assert (Z.land (next_stream u + 136 + 3) 0xFFFFFC = next_stream u + 136) as Hl.
  { change 0xFFFFFC with (Z.shiftl (Z.ones 22) 2). rewrite land_field by lia.
    change (2 ^ 2) with 4. change (2 ^ 22) with 0x400000. lia. }
  unfold fdopen. erewrite bind_Ret.
  2:{ unfold malloc, HEAP_END, SIZEOF_FILE. fold (next_stream u). rewrite u32_small, Hl by lia.
      destruct (Z.gtb_spec (next_stream u + 136) 0x00900000); [lia|reflexivity]. }
  rewrite (proj2 (Z.eqb_neq (next_stream u) 0)) by lia. done.
Qed.

(** The program starts without a heap, with nothing written. *)
Definition fresh (P : list Z → K → Prop) u : Prop := cursor u = 0 ∧ P [] (os u).

(** The program, started with the arguments, comes to exit with the status when it has
    written [text] on descriptor 1. *)
Definition exits (main : Z → argv_t → M (user K) Z) (argv : argv_t) (status : Z)
    (P : list Z → K → Prop) (text : list Z) u : Prop :=
  ∃ u', _start main argv u = zoom (os_exit status) u' ∧ P text (os u').

(** The state in which main runs: standard output is the first object of the heap. *)
Record started (P : list Z → K → Prop) (l : list Z) u : Prop := {
  st_stdout : stdout u = HEAP_START;
  st_cursor : HEAP_START < cursor u;
  st_wrote : wrote 1 P HEAP_START l u;
}.

Lemma argv_len_run args : _argv_len (map Some args ++ [None]) = Ret (Z.of_nat (length args)).
Proof.
  induction args as [|a args IH]; [done|]. cbn [map app _argv_len length]. rewrite IH.
  cbn [obind]. f_equal. lia.
Qed.

Lemma start_exits main args status P P' text u : fresh P u →
  (∀ u1, started P [] u1 → cursor u1 = 0x00881088 → P [] (os u1) →
    ∃ u', main (Z.of_nat (length args)) (map Some args ++ [None]) u1 = Ret (status, u') ∧
      P' text (os u')) →
  exits main (map Some args ++ [None]) status P' text u.
Proof.
  intros [Hc HP] Hm. unfold exits, _start.
  rewrite (bind_Ret _ _ _ _ _ (fdopen_new 1 u (or_introl Hc))).
  assert (next_stream u = HEAP_START) as Hn by (unfold next_stream; by rewrite Hc).
  unfold opened_stream. rewrite Hn. erewrite bind_Ret by done.
  erewrite bind_Ret by (apply lift_Ret; split; [apply argv_len_run|reflexivity]).
  cbn [cursor streams dirs os].
  match goal with |- context [bind (main _ _) _ ?x] => destruct (Hm x) as (u' & E & HP') end.
  - split; [done|cbn [cursor]; unfold HEAP_START; lia|].
    apply (wrote_intro _ _ _ _ _ (new_FILE 1) []); try done.
    + simpl. apply lookup_insert_eq.
    + by repeat constructor.
  - done.
  - done.
  - exists u'. by rewrite (bind_Ret _ _ _ _ _ E).
Qed.

(** Printing by a program that has started. *)
Lemma printf_started P `{!Sink 1 P} format ap l l0 u : started P l0 u →
  Forall is_car format → Forall va_ok ap → stdio_render (pieces format) ap = Ret l →
  ∃ u', printf format ap u = Ret (0, u') ∧ started P (l0 ++ l) u' ∧
    same_program HEAP_START u u' ∧ P (l0 ++ l) (os u').
Proof.
  intros [Hs Hc Hw] Hf Hap E.
  destruct (vfprintf_run 1 P HEAP_START format ap l l0 u Hf Hap E Hw) as (u' & Ep & Hw' & Hsame & HP).
  exists u'. unfold printf. erewrite bind_Ret by done. rewrite Hs. split_and!; try done.
  destruct Hsame as (Hcur & _ & Hout & _). split; [congruence|lia|done].
Qed.
End start.

(** ** cat *)

Section cat.
Context {K : Type} `{!Os K} `{!OsProc K} (path content : list Z) (Q : list Z → K → Prop)
  (R : Z → list Z → list Z → K → Prop) (Q' : list Z → K → Prop) `{!TextFile path content Q R Q'}.
Implicit Types (u : user K).

(** The file is open in the stream [fd], at [rest]; [l] was written on standard output. *)
Record reading (d fd : Z) (rest l : list Z) u : Prop := {
  rd_stdout : stdout u = HEAP_START;
  rd_other : fd ≠ HEAP_START;
  rd_stream : streams u !! fd = Some (new_FILE d);
  rd_wrote : wrote 1 (R d rest) HEAP_START l u;
}.

(** The state of the operating system changes, with what is known of it. *)
Lemma wrote_move P P' s l u k : wrote 1 P s l u → (∀ l1, P l1 (os u) → P' l1 k) →
  wrote 1 P' s l (put_os k u).
Proof. intros [f l1 Hf Hd Hc Hlen Hu8 HP Hl] H. by eapply wrote_intro; eauto. Qed.

Lemma fread_run d fd rest l u : reading d fd rest l u →
  ∃ st u', fread 512 1 fd u = Ret ((st, take 512 rest), u') ∧
    st = (if bool_decide (rest = []) then 0 else Z.min 512 (Z.of_nat (length rest))) ∧
    reading d fd (drop 512 rest) l u'.
Proof.
  intros [Hs Hne Hf [f l1 Hsf Hd Hc Hlen Hu8 HP Hl]].
  destruct (text_read d rest l1 (os u) 512 HP ltac:(lia)) as (st & k' & E & H0 & H1 & HR).
  exists (if st <? 0 then 0 else st), (put_os k' u). split_and!.
  - unfold fread. erewrite bind_Ret by (apply mget_Ret; exact Hf).
    change (u32 (512 * 1)) with 512. erewrite bind_Ret.
    2:{ unfold zoom. cbn [comp_get user_os new_FILE Stdio.fd]. rewrite E. reflexivity. }
    cbn [fst snd]. by destruct (st <? 0).
  - case_bool_decide as Hr; [specialize (H0 Hr)|specialize (H1 Hr)]; destruct (Z.ltb_spec st 0); lia.
  - split; try done. by eapply wrote_intro.
Qed.

(** The loop copies what is left, in as many turns as it has blocks, and one. *)
Lemma cat_loop_run fuel : ∀ d fd rest l u, reading d fd rest l u → Forall is_u8 rest →
  (length rest + 512 ≤ 512 * fuel)%nat →
  ∃ u', cat_loop fuel fd u = Ret ((), u') ∧ reading d fd [] (l ++ rest) u'.
Proof.
  induction fuel as [|fuel IH]; intros d fd rest l u Hr Hu8 Hfuel; [lia|]. cbn [cat_loop].
  destruct (fread_run d fd rest l u Hr) as (st & u1 & E & Hst & Hr1).
  rewrite (bind_Ret _ _ _ _ _ E). cbn [fst snd]. case_bool_decide as Hz.
  - subst. exists u1. by rewrite app_nil_r.
  - assert (0 < length rest)%nat by (destruct rest; [done|simpl; lia]).
    rewrite s32_small by lia.
    rewrite (proj2 (Z.eqb_neq st 0)), (proj2 (Z.ltb_ge st 0)) by lia.
    rewrite (proj2 (Z.leb_le st _)) by (rewrite length_take; lia).
    rewrite (take_ge (take 512 rest)) by (rewrite length_take; lia).
    erewrite bind_Ret by done. erewrite bind_Ret by done.
    destruct Hr1 as [Hs Hne Hf Hw]. rewrite Hs.
    destruct (fwrite_run 1 (R d (drop 512 rest)) HEAP_START (take 512 rest) l u1 Hw)
      as (u2 & E2 & Hw2 & (_ & _ & Hout & Hother)); [by apply Forall_take|].
    rewrite (bind_Ret _ _ _ _ _ E2).
    destruct (IH d fd (drop 512 rest) (l ++ take 512 rest) u2) as (u3 & E3 & Hr3).
    + split; try done; [congruence|by rewrite Hother].
    + by apply Forall_drop.
    + rewrite length_drop. lia.
    + exists u3. by rewrite <- app_assoc, take_drop in Hr3.
Qed.

(** Closing a stream with nothing in its buffer. *)
Lemma fclose_run d fd l u : streams u !! fd = Some (new_FILE d) → R d [] l (os u) →
  ∃ u', fclose fd u = Ret (0, u') ∧ Q' l (os u').
Proof.
  intros Hf HP. destruct (text_close d l (os u) HP) as (k' & E & HQ).
  exists (put_os k' u). split; [|done]. unfold fclose.
  erewrite bind_Ret.
  2:{ unfold fflush, get_stream. erewrite bind_Ret by (apply mget_Ret; exact Hf). reflexivity. }
  change (0 <? 0) with false. cbn iota. unfold get_stream.
  erewrite bind_Ret by (apply mget_Ret; exact Hf). erewrite bind_Ret.
  2:{ unfold zoom. cbn [comp_get user_os new_FILE Stdio.fd]. rewrite E. reflexivity. }
  done.
Qed.

Lemma cat_main_run fuel u : started Q [] u → cursor u = 0x00881088 →
  (length content + 512 ≤ 512 * fuel)%nat →
  ∃ u', cat_main fuel 1 [Some path; None] u = Ret (0, u') ∧ Q' content (os u').
Proof.
  intros [Hs _ [f l1 Hsf Hd Hc Hlen Hu8 HP Hl]] Hcur Hfuel.
  pose proof Hl as [-> _]%eq_sym%app_nil. destruct (text_open (os u) HP) as (d & k' & E & Hd0 & HR).
  set (u1 := opened_stream d (put_os k' u)). set (fd := 0x00881088).
  assert (reading d fd content [] u1) as Hr.
  { split; try done.
    - unfold u1, opened_stream, next_stream. cbn. rewrite Hcur. apply lookup_insert_eq.
    - apply (wrote_intro _ _ _ _ _ f []); try done. unfold u1, opened_stream, next_stream. cbn.
      rewrite Hcur. by rewrite lookup_insert_ne. }
  unfold cat_main. change (negb (1 =? 1)) with false. cbn iota.
  erewrite bind_Ret by reflexivity. rewrite (bind_Ret _ _ _ fd u1).
  2:{ unfold fopen. erewrite bind_Ret by (unfold zoom; cbn [comp_get user_os]; rewrite E; done).
      rewrite (proj2 (Z.ltb_ge d 0)) by lia. change (comp_set k' u) with (put_os k' u).
      erewrite bind_Ret.
      2:{ apply fdopen_new. right. cbn. rewrite Hcur. unfold HEAP_START. split; [lia|done]. }
      unfold next_stream. cbn [cursor put_os]. rewrite Hcur. done. }
  destruct (cat_loop_run fuel d fd content [] u1 Hr (text_u8) Hfuel) as (u2 & E2 & Hr2).
  change (fd =? 0) with false. cbn iota.
  rewrite (bind_Ret _ _ _ _ _ E2). destruct Hr2 as [Hs2 Hne Hf2 Hw2].
  erewrite bind_Ret by done. rewrite Hs2.
  destruct (fflush_run 1 (R d []) HEAP_START content u2 Hw2) as (u3 & E3 & _ & Hsame & HP3 & _).
  rewrite (bind_Ret _ _ _ _ _ E3). destruct Hsame as (_ & _ & _ & Hother).
  destruct (fclose_run d fd content u3) as (u4 & E4 & HQ); [by rewrite Hother|done|].
  rewrite (bind_Ret _ _ _ _ _ E4). by exists u4.
Qed.

(** From its start to its exit; one turn of the loop for every 512 bytes and one for the end
    are enough. *)
Lemma cat_exits fuel u : fresh Q u → (length content + 512 ≤ 512 * fuel)%nat →
  exits (cat_main fuel) [Some path; None] 0 Q' content u.
Proof.
  intros Hfresh Hfuel. eapply (start_exits _ [path]); [exact Hfresh|]. intros u1 Hst Hcur _.
  by apply cat_main_run.
Qed.
End cat.

(** ** ls *)

(** What ls expects, in the same way: [path] names a directory of entries [es], of which
    [rest] was not listed yet.  Past the last entry there is none, or an error. *)
Class TextDir {K} `{!Os K} (path : name_t) (es : list dirent)
    (Q : list Z → K → Prop) (R : Z → list dirent → list Z → K → Prop) (Q' : list Z → K → Prop) :
    Prop := {
  dir_open k : Q [] k → ∃ d k', os_open path O_DIRECTORY 0 k = Ret (d, k') ∧ 0 ≤ d ∧ R d es [] k';
  dir_read d rest out k : R d rest out k →
    ∃ st k', os_readdir d 1 k = Ret ((st, take 1 rest), k') ∧
      (rest = [] → -0x80000000 ≤ st ≤ 0) ∧ (rest ≠ [] → st = 1) ∧ R d (drop 1 rest) out k';
  dir_close d out k : R d [] out k → ∃ st k', os_close d k = Ret (st, k') ∧ Q' out k';
  dir_out_open d rest :: Sink 1 (R d rest);
  dir_names : Forall (λ e, Forall is_car (d_name e)) es;
}.

(** A line of the listing. *)
Definition entry_line (e : dirent) : list Z :=
  [32] ++ d_name e ++ str " (" ++ DT_name (d_type e) ++ line ")".

Section ls.
Context {K : Type} `{!Os K} `{!OsProc K} (path : list Z) (es : list dirent) (Q : list Z → K → Prop)
  (R : Z → list dirent → list Z → K → Prop) (Q' : list Z → K → Prop) `{!TextDir path es Q R Q'}.
Implicit Types (u : user K).

(** The object [dir] is the directory, open in [d] at [rest]; [l] was written. *)
Record listing (d dir : Z) (rest : list dirent) (l : list Z) u : Prop := {
  ls_started : started (R d rest) l u;
  ls_dir : ∃ e, dirs u !! dir = Some (mkDIR d e);
  ls_flushed : R d rest l (os u);
}.

Lemma DT_name_cars t : Forall is_car (DT_name t).
Proof. unfold DT_name. repeat case_match; repeat constructor; done. Qed.

Lemma readdir_run d dir rest l u : listing d dir rest l u →
  ∃ u', readdir dir u = Ret (head rest, u') ∧ listing d dir (drop 1 rest) l u'.
Proof.
  intros [[Hs Hcur [f l1 Hsf Hd Hc Hlen Hu8 HP Hl]] [e He] HR].
  destruct (dir_read d rest l (os u) HR) as (st & k' & E & H0 & H1 & HR').
  destruct (dir_read d rest l1 (os u) HP) as (st' & k & E' & _ & _ & HP').
  rewrite E in E'. injection E' as <- <-.
  set (entry := match take 1 rest with e :: _ => Some e | [] => e end).
  exists (mkuser (cursor u) (streams u) (<[dir := mkDIR d entry]> (dirs u)) (stdout u) k'). split.
  - unfold readdir. erewrite bind_Ret by (apply mget_Ret; exact He). cbn [dir_fd].
    erewrite bind_Ret by (unfold zoom; cbn [comp_get user_os]; rewrite E; reflexivity).
    cbn [fst snd last_read]. fold entry.
    erewrite bind_Ret by reflexivity. destruct rest as [|x rest].
    + specialize (H0 eq_refl). replace (u32 st =? 1) with false; [done|].
      symmetry. apply Z.eqb_neq. unfold u32. lia.
    + rewrite H1 by done. done.
  - split; [split; try done; by eapply wrote_intro| |done]. eexists. apply lookup_insert_eq.
Qed.

Lemma ls_loop_run fuel : ∀ d dir rest l u, listing d dir rest l u →
  Forall (λ e, Forall is_car (d_name e)) rest → (length rest < fuel)%nat →
  ∃ u', ls_loop fuel dir u = Ret ((), u') ∧ listing d dir [] (l ++ concat (map entry_line rest)) u'.
Proof.
  induction fuel as [|fuel IH]; intros d dir rest l u Hls Hcars Hfuel; [lia|]. cbn [ls_loop].
  destruct (readdir_run d dir rest l u Hls) as (u1 & E1 & Hls1).
  rewrite (bind_Ret _ _ _ _ _ E1). destruct rest as [|x rest]; cbn [head].
  - exists u1. by rewrite app_nil_r.
  - cbn [drop] in Hls1. destruct Hls1 as [Hst1 [e He] HR1].
    apply Forall_cons in Hcars as [Hx Hcars].
    destruct (printf_started (R d rest) (line " %s (%s)") [VaStr (d_name x); VaStr (DT_name (d_type x))]
      (entry_line x) l u1 Hst1) as (u2 & E2 & Hst2 & Hsame & HR2).
    + repeat constructor; done.
    + repeat constructor; [exact Hx|apply DT_name_cars].
    + done.
    + rewrite (bind_Ret _ _ _ _ _ E2).
      destruct (IH d dir rest (l ++ entry_line x) u2) as (u3 & E3 & Hls3); [|done|simpl in Hfuel; lia|].
      { split; [done| |done]. exists e. destruct Hsame as (_ & -> & _). done. }
      exists u3. cbn [map concat]. by rewrite app_assoc.
Qed.

(** The directory's object, behind the stream. *)
Lemma opendir_run u : started Q [] u → cursor u = 0x00881088 →
  ∃ d u', opendir path u = Ret (0x00881088, u') ∧ listing d 0x00881088 es [] u'.
Proof.
  intros [Hs _ [f l1 Hsf Hd Hc Hlen Hu8 HP Hl]] Hcur.
  pose proof Hl as [-> _]%eq_sym%app_nil.
  destruct (dir_open (os u) HP) as (d & k' & E & Hd0 & HR). exists d. eexists. split.
  - unfold opendir. erewrite bind_Ret by (unfold zoom; cbn [comp_get user_os]; rewrite E; done).
    rewrite (proj2 (Z.ltb_ge d 0)) by lia. erewrite bind_Ret.
    2:{ unfold malloc. cbn [cursor comp_set user_os]. rewrite Hcur. reflexivity. }
    cbn [Z.eqb Pos.eqb]. by erewrite bind_Ret by reflexivity.
  - split; [split; try done| |done].
    + by eapply wrote_intro.
    + eexists. apply lookup_insert_eq.
Qed.

Lemma ls_run fuel u : started Q [] u → cursor u = 0x00881088 → (length es < fuel)%nat →
  ∃ u', ls fuel path u = Ret (0, u') ∧ Q' (concat (map entry_line es)) (os u').
Proof.
  intros Hst Hcur Hfuel. destruct (opendir_run u Hst Hcur) as (d & u1 & E1 & Hls1).
  unfold ls. rewrite (bind_Ret _ _ _ _ _ E1). cbn [Z.eqb Pos.eqb].
  destruct (ls_loop_run fuel d 0x00881088 es [] u1 Hls1 dir_names Hfuel) as (u2 & E2 & [_ [e He] HR]).
  rewrite (bind_Ret _ _ _ _ _ E2).
  destruct (dir_close d _ (os u2) HR) as (st & k' & E & HQ').
  exists (put_os k' u2). split; [|exact HQ'].
  unfold closedir, dirfd. erewrite bind_Ret; [reflexivity|].
  erewrite bind_Ret by (erewrite bind_Ret by (apply mget_Ret; exact He); reflexivity).
  erewrite bind_Ret by reflexivity.
  unfold zoom. cbn [comp_get user_os dir_fd]. by rewrite E.
Qed.

(** From its start to its exit, with a path or, for the root, without. *)
Lemma ls_exits fuel u : fresh Q u → (length es < fuel)%nat →
  exits (ls_main fuel) [Some path; None] 0 Q' (concat (map entry_line es)) u.
Proof.
  intros Hfresh Hfuel. eapply (start_exits _ [path]); [exact Hfresh|]. intros u1 Hst Hcur _.
  by apply ls_run.
Qed.

Lemma ls_root_exits fuel u : fresh Q u → (length es < fuel)%nat → path = str "/" →
  exits (ls_main fuel) [None] 0 Q' (concat (map entry_line es)) u.
Proof.
  intros Hfresh Hfuel Hp. eapply (start_exits _ []); [exact Hfresh|]. intros u1 Hst Hcur _.
  change (∃ u', ls fuel (str "/") u1 = Ret (0, u') ∧ Q' (concat (map entry_line es)) (os u')).
  rewrite <- Hp. by apply ls_run.
Qed.
End ls.

(** ** hello and init *)

Section others.
Context {K : Type} `{!Os K} `{!OsProc K} (P : list Z → K → Prop) `{!Sink 1 P}.
Implicit Types (u : user K).

(** A number as the programs print it. *)
Definition shown (l : list Z) : list Z := l ++ [0].

Fixpoint hello_args (i : Z) (args : list name_t) : list Z :=
  match args with
  | [] => []
  | arg :: args =>
      str " argv[" ++ shown (signed i) ++ str "] = '" ++ arg ++ line "'" ++ hello_args (i + 1) args
  end.

Lemma hello_loop_run args : ∀ before l u, started P l u → Forall (Forall is_car) args →
  Z.of_nat (length before + length args) < 0x80000000 →
  ∃ u', hello_loop (length args) (Z.of_nat (length before)) (map Some (before ++ args) ++ [None]) u =
      Ret ((), u') ∧ started P (l ++ hello_args (Z.of_nat (length before)) args) u'.
Proof.
  induction args as [|arg args IH]; intros before l u Hst Hargs Hlen.
  { exists u. split; [done|]. cbn [hello_args]. by rewrite app_nil_r. }
  apply Forall_cons in Hargs as [Harg Hargs]. cbn [length hello_loop hello_args] in *.
  set (i := Z.of_nat (length before)) in *.
  erewrite (bind_Ret _ _ u arg u).
  2:{ unfold argv_str. erewrite bind_Ret; [|apply lift_Ret; split; [|reflexivity]].
      2:{ apply (arr_get_lookup _ _ (Some arg)); [lia|]. unfold i. rewrite Nat2Z.id.
          rewrite map_app, <- app_assoc, lookup_app_r by (by rewrite length_map).
          by rewrite length_map, Nat.sub_diag. }
      done. }
  destruct (printf_started P (line " argv[%d] = '%s'") [VaInt (u32 i); VaStr arg]
    (str " argv[" ++ shown (signed i) ++ str "] = '" ++ arg ++ line "'") l u Hst) as (u1 & E1 & Hst1 & _).
  - repeat constructor; done.
  - repeat constructor; [apply u32_range..|done].
  - transitivity (Ret (str " argv[" ++ shown (signed (s32 (u32 (u32 i)))) ++ str "] = '" ++ arg ++ line "'"));
      [reflexivity|]. by rewrite u32_u32, s32_u32, s32_small by lia.
  - rewrite (bind_Ret _ _ _ _ _ E1).
    destruct (IH (before ++ [arg]) _ u1 Hst1 Hargs) as (u2 & E2 & Hst2).
    { rewrite length_app. simpl. lia. }
    rewrite length_app, Nat2Z.inj_add in E2, Hst2. cbn [length] in E2, Hst2.
    change (Z.of_nat 1) with 1 in E2, Hst2. fold i in E2, Hst2.
    rewrite <- app_assoc in E2. exists u2. split; [exact E2|].
    by rewrite <- !app_assoc in *.
Qed.

(** One turn of init: the shell was started, and its exit status is reported. *)
Lemma init_turn_run exec child st l u k1 k2 : started P l u → Forall is_car exec →
  -0x80000000 ≤ st < 0x80000000 → 0 < child →
  (∀ out k, P out k → os_fork k = Ret (child, k1) ∧ os_waitpid child k1 = Ret ((child, Some st), k2) ∧
    P out k2) →
  ∃ u', _fork_exec_wait exec u = Ret (st, u') ∧
    started P (l ++ (str "init: exec " ++ exec ++ [10]) ++
      str "init: child exited with status " ++ shown (number 10 (u32 st)) ++ [10]) u'.
Proof.
  intros Hst Hexec Hr Hchild Hos. unfold _fork_exec_wait.
  destruct (printf_started P (line "init: exec %s") [VaStr exec] (str "init: exec " ++ exec ++ [10]) l u Hst)
    as (u1 & E1 & Hst1 & _ & HP); [repeat constructor; done|by repeat constructor|reflexivity|].
  rewrite (bind_Ret _ _ _ _ _ E1). destruct (Hos _ _ HP) as (Ef & Ew & HP2).
  erewrite bind_Ret by (unfold zoom; cbn [comp_get user_os]; rewrite Ef; reflexivity).
  rewrite (proj2 (Z.ltb_ge child 0)), (proj2 (Z.eqb_neq child 0)) by lia.
  erewrite bind_Ret by (unfold zoom; cbn; rewrite Ew; reflexivity). cbn [snd default].
  change (comp_set k2 (comp_set k1 u1)) with (put_os k2 u1).
  assert (started P (l ++ str "init: exec " ++ exec ++ [10]) (put_os k2 u1)) as Hst2.
  { destruct Hst1 as [Hs Hc [f l1 Hsf Hd Hcur Hlen Hu8 HP1 Hl]]. split; [done|done|].
    apply (wrote_intro _ _ _ _ _ f l1); try done. by destruct (Hos _ _ HP1) as (_ & _ & ?). }
  destruct (printf_started P (line "init: child exited with status %u") [VaInt (u32 st)]
    (str "init: child exited with status " ++ shown (number 10 (u32 st)) ++ [10]) _ _ Hst2)
    as (u3 & E3 & Hst3 & _).
  - repeat constructor; done.
  - repeat constructor; apply u32_range.
  - transitivity (Ret (str "init: child exited with status " ++ shown (number 10 (u32 (u32 st))) ++ [10]));
      [reflexivity|by rewrite u32_u32].
  - exists u3. split; [|by rewrite <- app_assoc in Hst3]. by rewrite (bind_Ret _ _ _ _ _ E3).
Qed.
End others.

End ProgramsSpec.
