(* ===== verification/ShellSpec.v ===== *)
(** * What the shell does: [userland/bin/lucifer.c]

    A session of the shell against the lines that are typed. *)
From S2P Require Import Prelude Mmu Alloc Heap Fs FsState Devices Format Log Stdio StdioSpec Lucifer Programs ProgramsSpec.
Import Fs FsState Format Log Stdio StdioSpec Lucifer Programs ProgramsSpec.

Module ShellSpec.

(** ** Sessions

    What the shell of process [pid] expects: in a state of [Q lines sts out], [lines] will
    be typed, each with its line end, the children that are started and waited for exit
    with the statuses [sts], and [out] was written on descriptor 1. *)
Class Session {K} `{!Os K} `{!OsProc K} (pid : Z)
    (Q : list (list Z) → list Z → list Z → K → Prop) : Prop := {
  session_read s lines sts out k : Q (s :: lines) sts out k → (length s ≤ 126)%nat →
    ∃ k', os_read 0 127 k = Ret ((Z.of_nat (length s) + 1, s ++ [10]), k') ∧ Q lines sts out k';
  session_launch st lines sts out k : Q lines (st :: sts) out k →
    ∃ child k1 k2, os_fork k = Ret (child, k1) ∧ 0 < child ∧
      os_waitpid child k1 = Ret ((child, Some st), k2) ∧ Q lines sts out k2;
  session_getpid lines sts out k : Q lines sts out k →
    ∃ k', os_getpid k = Ret (pid, k') ∧ Q lines sts out k';
  session_pid : is_u32 pid;
  session_out lines sts :: Sink 1 (Q lines sts);
}.

(** A line the shell can take: no NUL or line end in it, within the array, and words that
    fit in the array of tokens. *)
Definition line_ok (s : list Z) : Prop :=
  (length s ≤ 126)%nat ∧ Forall (λ c, c ≠ 0 ∧ c ≠ 10) s ∧
  ((length (words s) ≤ 7)%nat ∨ ((length (words s) ≤ 8)%nat ∧ last s ≠ Some 32)).

(** An exit status: an [int32_t]. *)
Definition is_status (st : Z) : Prop := -0x80000000 ≤ st < 0x80000000.

Definition tag (pid : Z) : list Z := str "[" ++ shown (number 10 pid) ++ str "] ".

Definition prompt (pid : Z) : list Z := tag pid ++ str "lucifer ~ ".
Definition welcome (pid : Z) : list Z := tag pid ++ line "welcome in lucifer shell".
Definition goodbye (pid : Z) : list Z := tag pid ++ line "exiting lucifer shell !".
Definition report (pid st : Z) : list Z :=
  if st =? 0 then [] else tag pid ++ str "child failed with status " ++ shown (signed st) ++ [10].

(** What a session writes after the welcome, if it comes to its end: a line of blanks
    stops the shell, and so does the end of the input. *)
Fixpoint session (pid : Z) (lines : list (list Z)) (sts : list Z) : option (list Z) :=
  match lines with
  | [] => None
  | s :: lines =>
      let rest :=
        if bool_decide (s = []) then session pid lines sts
        else if bool_decide (s = str "exit") then Some (goodbye pid)
        else match words s, sts with
             | _ :: _, st :: sts => (report pid st ++.) <$> session pid lines sts
             | _, _ => None
             end in
      (prompt pid ++.) <$> rest
  end.

(** Messages that begin with the shell's id. *)
Lemma render_tag pid s ap l : is_u32 pid → stdio_render (pieces s) ap = Ret l →
  stdio_render (pieces (str "[%u] " ++ s)) (VaInt (u32 pid) :: ap) = Ret (tag pid ++ l).
Proof.
  intros Hp E. rewrite u32_small by done. unfold tag. rewrite <- !app_assoc.
  change (pieces (str "[%u] " ++ s)) with (Lit 91 :: Dir 117 :: Lit 93 :: Lit 32 :: pieces s).
  cbn [stdio_render render directive Z.eqb Pos.eqb va_int obind].
  rewrite E. cbn [obind]. by rewrite u32_small.
Qed.

(** ** Reading a line *)

Section shell.
Context {K : Type} `{!Os K} `{!OsProc K} (pid : Z) (Q : list (list Z) → list Z → list Z → K → Prop)
  `{!Session pid Q}.
Implicit Types (u : user K).

Lemma gets_s_run s lines sts l a u : started (Q (s :: lines) sts) l u → (length s ≤ 126)%nat →
  length a = 128%nat →
  ∃ u', gets_s a LINE_SIZE u = Ret (Some (s ++ 0 :: drop (length s + 1) a), u') ∧
    started (Q lines sts) l u'.
Proof.
  intros [Hs Hcur [f l1 Hsf Hd Hc Hlen Hu8 HP Hl]] Hslen Ha.
  destruct (session_read s lines sts l1 (os u) HP Hslen) as (k' & E & HP').
  exists (put_os k' u). split.
  - unfold gets_s. change (u32 (LINE_SIZE - 1)) with 127.
    erewrite bind_Ret by (unfold zoom; cbn [comp_get user_os]; rewrite E; reflexivity).
    cbv zeta beta iota.
    rewrite (proj2 (Z.ltb_ge _ 0)) by lia. rewrite Z.add_simpl_r, length_app. cbn [length].
    rewrite <- app_assoc. cbn [app]. erewrite bind_Ret.
    2:{ apply lift_Ret. split; [apply (arr_get_lookup _ _ 10); [lia|]|reflexivity].
        by rewrite Nat2Z.id, list_lookup_middle. }
    cbn [Z.eqb Pos.eqb]. erewrite bind_Ret.
    2:{ apply lift_Ret. split; [|reflexivity].
        rewrite arr_set_Ret by (rewrite !length_app; simpl; lia). reflexivity. }
    rewrite Nat2Z.id, insert_app_r_alt, Nat.sub_diag by lia. done.
  - split; [done|done|by eapply wrote_intro].
Qed.

Lemma line_str_run i n l w rest : (∀ c, c ∈ w → c ≠ 0) → i = Z.of_nat n → drop n l = w ++ 0 :: rest →
  line_str l i = Ret w.
Proof.
  intros Hw -> E. assert (l = take n l ++ w ++ 0 :: rest) as Hl by (by rewrite <- E, take_drop).
  assert (n ≤ length l)%nat as Hn.
  { apply (f_equal length) in E. rewrite length_drop, length_app in E. simpl in E. lia. }
  unfold line_str. rewrite Hl at 1. replace n with (length (take n l)) at 2 by (rewrite length_take; lia).
  rewrite line_strlen_run by (by apply Forall_forall). cbn [obind].
  by rewrite !Nat2Z.id, E, take_app_length.
Qed.
(** Each step of the shell that prints something, in the state of [lines] and [sts]. *)
Lemma say_run lines sts format ap l l0 u : started (Q lines sts) l0 u →
  Forall is_car format → Forall va_ok ap → stdio_render (pieces format) ap = Ret l →
  ∃ u', printf format ap u = Ret (0, u') ∧ started (Q lines sts) (l0 ++ l) u' ∧
    Q lines sts (l0 ++ l) (os u').
Proof.
  intros Hst Hf Hap E. destruct (printf_started _ _ _ _ _ _ Hst Hf Hap E) as (u' & ? & ? & _ & ?).
  by exists u'.
Qed.

(** The parent: the child runs, and what it did is reported. *)
Lemma parent_run path argv st lines sts l u : started (Q lines (st :: sts)) l u →
  is_status st →
  ∃ u', lucifer_command pid path argv u = Ret ((), u') ∧
    started (Q lines sts) (l ++ report pid st) u'.
Proof.
  intros [Hs Hcur [f l1 Hsf Hd Hc Hlen Hu8 HP Hl]] Hst.
  destruct (session_launch st lines sts l1 (os u) HP) as (child & k1 & k2 & E1 & Hch & E2 & HP2).
  assert (_fork_exec path argv u = Ret (st, put_os k2 u)) as E.
  { unfold _fork_exec. erewrite bind_Ret by (unfold zoom; cbn [comp_get user_os]; rewrite E1; done).
    rewrite (proj2 (Z.ltb_ge _ 0)), (proj2 (Z.eqb_neq _ 0)) by lia.
    erewrite bind_Ret by (unfold zoom; cbn; rewrite E2; done). cbn [fst snd].
    rewrite (proj2 (Z.ltb_ge _ 0)) by lia. by erewrite bind_Ret by reflexivity. }
  assert (started (Q lines sts) l (put_os k2 u)) as Hst2 by (split; [done|done|by eapply wrote_intro]).
  unfold lucifer_command. rewrite (bind_Ret _ _ _ _ _ E). unfold report.
  destruct (Z.eqb_spec st 0) as [->|Hn]; cbn [negb].
  { exists (put_os k2 u). rewrite app_nil_r. split; [|done]. by erewrite bind_Ret by reflexivity. }
  pose proof session_pid as Hpid.
  destruct (say_run lines sts (line "[%u] child failed with status %d") [VaInt (u32 pid); VaInt (u32 st)]
    (tag pid ++ str "child failed with status " ++ shown (signed st) ++ [10]) l _ Hst2)
    as (u' & E' & Hst' & _).
  - repeat constructor; done.
  - repeat constructor; apply u32_range.
  - apply (render_tag pid (line "child failed with status %d")); [done|].
    change (Ret (str "child failed with status " ++ shown (signed (s32 (u32 (u32 st)))) ++ [10]) =
            Ret (str "child failed with status " ++ shown (signed st) ++ [10])).
    by rewrite u32_u32, s32_u32, s32_small.
  - exists u'. split; [|done]. by rewrite (bind_Ret _ _ _ _ _ E').
Qed.
End shell.

(** ** The words of a line *)

Lemma words_from_all (P : Z → Prop) s : ∀ w, Forall P w → Forall P s → Forall (Forall P) (words_from w s).
Proof.
  induction s as [|c s IH]; intros w Hw Hs; cbn [words_from].
  - case_bool_decide; repeat constructor; done.
  - apply Forall_cons in Hs as [Hc Hs]. destruct (c =? 32).
    + case_bool_decide; [by apply IH|]. constructor; [done|]. by apply IH.
    + apply IH; [|done]. apply Forall_app. split; [done|by repeat constructor].
Qed.

Lemma words_from_short s : ∀ w, Forall (λ x, (length x ≤ length w + length s)%nat) (words_from w s).
Proof.
  induction s as [|c s IH]; intros w; cbn [words_from length].
  - case_bool_decide; repeat constructor. lia.
  - assert (∀ w' n, (length w' + length s ≤ n)%nat → Forall (λ x, (length x ≤ n)%nat) (words_from w' s)) as Hle.
    { intros w' n Hn. eapply Forall_impl; [apply IH|]. simpl. lia. }
    destruct (c =? 32).
    + case_bool_decide; [apply Hle; simpl; lia|]. constructor; [lia|]. apply Hle. simpl. lia.
    + apply Hle. rewrite length_app. simpl. lia.
Qed.

Lemma token_str_run l t w : Forall (λ c, c ≠ 0) w → token_is l t w →
  ∃ i, t = Some i ∧ line_str l i = Ret w.
Proof.
  intros Hw Ht. destruct t as [i|]; [|done]. destruct Ht as [Hi [rest E]]. exists i. split; [done|].
  rewrite Forall_forall in Hw. eapply (line_str_run i (Z.to_nat i)); [done|lia|exact E].
Qed.

Lemma token_strs_run l ts ws : Forall2 (token_is l) ts ws → Forall (Forall (λ c, c ≠ 0)) ws →
  token_strs l (ts ++ [None]) = Ret ws.
Proof.
  induction 1 as [|t w ts ws Ht _ IH]; intros Hw; [done|]. apply Forall_cons in Hw as [Hw Hws].
  destruct (token_str_run l t w Hw Ht) as (i & -> & E). cbn [app token_strs].
  by rewrite E, IH.
Qed.

(** A line becomes a path and arguments. *)
Lemma line_command s a w ws : line_ok s → length a = 128%nat → words s = w :: ws →
  ∃ l tokens, length l = 128%nat ∧
    tokenize (s ++ 0 :: drop (length s + 1) a) = Ret (l, tokens) ∧
    token_str l tokens 0 = Ret w ∧
    strcpy_buf EXEC_PATH_SIZE (str "/bin/" ++ w) = Ret (str "/bin/" ++ w) ∧
    token_strs l (drop 1 tokens) = Ret ws.
Proof.
  intros (Hlen & Hs & Hok) Ha Hw.
  assert (Forall (λ c, c ≠ 0) s) as Hs0 by (eapply Forall_impl; [exact Hs|]; by intros c []).
  assert (Forall (Forall (λ c, c ≠ 0)) (words s)) as Hws by (by apply words_from_all).
  destruct (token_loop_run s (Z.to_nat LINE_SIZE) [] [] (drop (length s + 1) a) [] []) as [Hrun _];
    [done|done|constructor|simpl; lia|done|unfold LINE_SIZE; lia|].
  destruct (Hrun Hok) as (l & ts & E & Ht & Hl). cbn [app] in *.
  change (words_from [] s) with (words s) in *. rewrite Hw in Ht, Hws.
  apply Forall2_cons_inv_r in Ht as (t & ts' & Ht0 & Ht & ->).
  apply Forall_cons in Hws as [Hw0 Hws].
  destruct (token_str_run l t w Hw0 Ht0) as (i & -> & Ei).
  exists l, ((Some i :: ts') ++ [None]). split_and!.
  - rewrite Hl, length_app. cbn [length]. rewrite length_drop. lia.
  - exact E.
  - unfold token_str. cbn. exact Ei.
  - pose proof (words_from_short s []) as Hsh. change (words_from [] s) with (words s) in Hsh.
    rewrite Hw in Hsh. apply Forall_cons in Hsh as [Hsh _]. simpl in Hsh.
    unfold strcpy_buf, EXEC_PATH_SIZE. rewrite (proj2 (Z.leb_le _ _)); [done|].
    rewrite length_app. simpl. lia.
  - by apply token_strs_run.
Qed.

(** ** A session *)

Section session.
Context {K : Type} `{!Os K} `{!OsProc K} (pid : Z) (Q : list (list Z) → list Z → list Z → K → Prop)
  `{!Session pid Q}.
Implicit Types (u : user K).

(** One turn of the loop: the prompt, and the line in the array. *)
Lemma turn_run s lines sts l a u : started (Q (s :: lines) sts) l u → line_ok s →
  length a = 128%nat →
  ∃ u1 u2, printf (str "[%u] lucifer ~ ") [VaInt (u32 pid)] u = Ret (0, u1) ∧
    gets_s a LINE_SIZE u1 = Ret (Some (s ++ 0 :: drop (length s + 1) a), u2) ∧
    line_str (s ++ 0 :: drop (length s + 1) a) 0 = Ret s ∧
    length (s ++ 0 :: drop (length s + 1) a) = 128%nat ∧
    started (Q lines sts) (l ++ prompt pid) u2.
Proof.
  intros Hst (Hlen & Hs & _) Ha. pose proof session_pid as Hpid.
  destruct (say_run pid Q (s :: lines) sts (str "[%u] lucifer ~ ") [VaInt (u32 pid)] (prompt pid) l u Hst)
    as (u1 & E1 & Hst1 & _).
  - repeat constructor; done.
  - repeat constructor; apply u32_range.
  - by apply (render_tag pid (str "lucifer ~ ")).
  - destruct (gets_s_run pid Q s lines sts _ a u1 Hst1 Hlen Ha) as (u2 & E2 & Hst2).
    exists u1, u2. split_and!; try done.
    + apply (line_str_run 0 0 _ s (drop (length s + 1) a)); [|done|done].
      rewrite Forall_forall in Hs. intros c Hc. by apply Hs.
    + rewrite length_app. cbn [length]. rewrite length_drop. lia.
Qed.

Lemma lucifer_loop_run lines : ∀ fuel sts text l a u,
  started (Q lines sts) l u → length a = 128%nat → Forall line_ok lines → Forall is_status sts →
  session pid lines sts = Some text → (length lines ≤ fuel)%nat →
  ∃ lines' sts' u', lucifer_loop fuel pid a u = Ret (0, u') ∧ Q lines' sts' (l ++ text) (os u').
Proof.
  induction lines as [|s lines IH]; intros fuel sts text l a u Hst Ha Hok Hsts Htext Hfuel; [done|].
  destruct fuel as [|fuel]; [simpl in Hfuel; lia|]. apply Forall_cons in Hok as [Hs Hok].
  destruct (turn_run s lines sts l a u Hst Hs Ha) as (u1 & u2 & E1 & E2 & Estr & Hlen & Hst2).
  cbn [session] in Htext. apply fmap_Some in Htext as (rest & Hrest & ->). rewrite app_assoc.
  cbn [lucifer_loop]. rewrite (bind_Ret _ _ _ _ _ E1), (bind_Ret _ _ _ _ _ E2). cbn [default].
  erewrite bind_Ret by (apply lift_Ret; split; [exact Estr|reflexivity]).
  case_bool_decide as He; [subst s; by eapply IH; try done; simpl in Hfuel; lia|].
  rewrite (proj2 (Z.eqb_neq _ 0)) by (destruct s; done || (simpl; lia)).
  unfold streq. destruct (bool_decide_reflect (s = str "exit")) as [->|Hx].
  - injection Hrest as <-. rewrite bool_decide_eq_true_2 by done.
    pose proof session_pid as Hpid.
    destruct (say_run pid Q lines sts (line "[%u] exiting lucifer shell !") [VaInt (u32 pid)] (goodbye pid)
      (l ++ prompt pid) u2 Hst2) as (u3 & E3 & _ & HQ).
    + repeat constructor; done.
    + repeat constructor; apply u32_range.
    + by apply (render_tag pid (line "exiting lucifer shell !")).
    + exists lines, sts, u3. split; [|exact HQ]. by rewrite (bind_Ret _ _ _ _ _ E3).
  - rewrite bool_decide_eq_false_2 by congruence.
    destruct (words s) as [|w ws] eqn:Hw; [done|]. destruct sts as [|st sts]; [done|].
    apply fmap_Some in Hrest as (rest' & Hrest & ->). apply Forall_cons in Hsts as [Hu Hsts].
    destruct (line_command s a w ws Hs Ha Hw) as (l' & tokens & Hl' & Et & Ew & Ep & Ea).
    erewrite bind_Ret by (apply lift_Ret; split; [exact Et|reflexivity]). cbn beta iota.
    erewrite bind_Ret by (apply lift_Ret; split; [exact Ew|reflexivity]).
    erewrite bind_Ret by (apply lift_Ret; split; [exact Ep|reflexivity]).
    erewrite bind_Ret by (apply lift_Ret; split; [exact Ea|reflexivity]).
    destruct (parent_run pid Q (str "/bin/" ++ w) ws st lines sts _ u2 Hst2 Hu) as (u3 & E3 & Hst3).
    rewrite (bind_Ret _ _ _ _ _ E3). rewrite app_assoc. eapply IH; try done. simpl in Hfuel. lia.
Qed.

(** A line of blanks: there is no first word, and NULL is not a string. *)
Lemma blank_line_faults fuel s lines sts l a u : started (Q (s :: lines) sts) l u → line_ok s →
  length a = 128%nat → s ≠ [] → words s = [] → lucifer_loop (S fuel) pid a u = Fault.
Proof.
  intros Hst Hs Ha Hne Hw. pose proof Hs as (_ & Hs0 & Hwords).
  destruct (turn_run s lines sts l a u Hst Hs Ha) as (u1 & u2 & E1 & E2 & Estr & Hlen & _).
  cbn [lucifer_loop]. rewrite (bind_Ret _ _ _ _ _ E1), (bind_Ret _ _ _ _ _ E2). cbn [default].
  erewrite bind_Ret by (apply lift_Ret; split; [exact Estr|reflexivity]).
  rewrite (proj2 (Z.eqb_neq _ 0)) by (destruct s; done || (simpl; lia)).
  unfold streq. rewrite bool_decide_eq_false_2 by (intros <-; done).
  destruct (token_loop_run s (Z.to_nat LINE_SIZE) [] [] (drop (length s + 1) a) [] []) as [Hrun _].
  - done.
  - eapply Forall_impl; [exact Hs0|]. by intros c [].
  - constructor.
  - simpl. lia.
  - done.
  - destruct Hs as [? _]. unfold LINE_SIZE. lia.
  - destruct (Hrun Hwords) as (l' & ts & E & Ht & _). cbn [app] in *.
    change (words_from [] s) with (words s) in Ht. rewrite Hw in Ht. apply Forall2_nil_inv_r in Ht as ->.
    by erewrite bind_Ret by (apply lift_Ret; split; [exact E|reflexivity]).
Qed.

(** The child of a command that cannot be executed: it says so, and goes on as a shell. *)
Lemma child_stays path argv st l u k1 k2 P `{!Sink 1 P} : is_u32 pid → started P l u →
  -0x80000000 ≤ st < 0 →
  os_fork (os u) = Ret (0, k1) → os_exec path (Some argv) k1 = Ret (st, k2) →
  (∀ out, P out (os u) → P out k2) →
  ∃ u', lucifer_command pid path argv u = Ret ((), u') ∧
    started P (l ++ (str "exec failed with status " ++ shown (signed st) ++ [10]) ++
                 tag pid ++ str "child failed with status " ++ shown (signed st) ++ [10]) u'.
Proof.
  intros Hpid [Hs Hcur [f l1 Hsf Hd Hc Hlen Hu8 HP Hl]] Hst E1 E2 Hk.
  assert (started P l (put_os k2 u)) as Hst2 by (split; [done|done|eapply wrote_intro; eauto]).
  assert (s32 (u32 (u32 st)) = st) as Hst32 by (rewrite u32_u32, s32_u32, s32_small; lia).
  destruct (printf_started P (line "exec failed with status %d") [VaInt (u32 st)]
    (str "exec failed with status " ++ shown (signed st) ++ [10]) l _ Hst2) as (u3 & E3 & Hst3 & _).
  - repeat constructor; done.
  - repeat constructor; apply u32_range.
  - transitivity (Ret (str "exec failed with status " ++ shown (signed (s32 (u32 (u32 st)))) ++ [10]));
      [reflexivity|by rewrite Hst32].
  - destruct (printf_started P (line "[%u] child failed with status %d") [VaInt (u32 pid); VaInt (u32 st)]
      (tag pid ++ str "child failed with status " ++ shown (signed st) ++ [10]) _ _ Hst3)
      as (u4 & E4 & Hst4 & _).
    + repeat constructor; done.
    + repeat constructor; apply u32_range.
    + apply (render_tag pid (line "child failed with status %d")); [done|].
      transitivity (Ret (str "child failed with status " ++ shown (signed (s32 (u32 (u32 st)))) ++ [10]));
        [reflexivity|by rewrite Hst32].
    + exists u4. split; [|by rewrite <- app_assoc in Hst4]. unfold lucifer_command, _fork_exec.
      erewrite bind_Ret.
      2:{ erewrite bind_Ret by (unfold zoom; cbn [comp_get user_os]; rewrite E1; done).
          cbn [Z.ltb Z.compare Z.eqb].
          erewrite bind_Ret by (unfold zoom; cbn; rewrite E2; done).
          by erewrite bind_Ret by exact E3. }
      rewrite (proj2 (Z.eqb_neq st 0)) by lia. cbn [negb].
      by rewrite (bind_Ret _ _ _ _ _ E4).
Qed.
End session.

(** ** Properties *)


End ShellSpec.
