(* ===== verification/UsrFiles.v ===== *)
(** * Files of a program that runs on this kernel

    Opening, writing to the terminal and closing, with what they leave as it is: the part
    that a program that reads a file and one that lists a directory have in common. *)
From S2P Require Import Prelude Bitfield Mmu Alloc Heap Hash Fs FsState Devices Ramfs RamfsSpec Fat32 Fat32Spec Vfs VfsSpec VfsFiles ElfSpec Scheduler SchedulerInv Exec Syscalls SystemInv ExecSpec Log Stdio StdioSpec Usr UsrCalls UsrSpec.
Import Fs FsState Devices Ramfs RamfsSpec Fat32 Fat32Spec Vfs VfsFiles ElfSpec Scheduler SchedulerInv Exec Syscalls SystemInv Log Stdio StdioSpec Usr UsrCalls UsrSpec.

Module UsrFiles.

(** ** Open files *)

Definition set_count (f n : Z) (s : fs) : fs := comp_set (alter (with_count n) f (fs_files s)) s.

(** In the states of [P c x], [f] is open [c] times, at place [x].  Output on the serial line
    does not matter, and closing it when it is not open leaves everything as it is. *)
Class OpenFile (P : Z → nat → fs → Prop) (f : Z) : Prop := {
  of_file c x s : P c x s → f ≠ 0 ∧ ∃ fl, fs_files s !! f = Some fl ∧ f_count fl = c;
  of_count c c' x s : P c x s → P c' x (set_count f c' s);
  of_sent c x s l : P c x s → P c x (sent l s);
  of_close x s : P 0 x s → vfs_file_close f s = Ret (0, s);
}.

Section kernel.
Context (regs : task_context) (buf : Z).
(** The program's buffer, of 512 bytes. *)
Hypothesis Hbuf : BASE ≤ buf ∧ buf + 512 ≤ BASE + 0x100000.

Context (P : Z → nat → fs → Prop) (f : Z) `{!OpenFile P f} (tty : Z) (sent0 : list Z).

(** Before: the process runs alone, its standard output is the terminal, it has a free
    descriptor, and opening the path gives [f]. *)
Inductive ready (path : name_t) (flags : Z) (out : list Z) (w : system) : Prop :=
| ready_intro p s v' :
    out = [] → caller w p s → has_fd p 1 tty → tty ≠ f →
    (∃ e, 0 ≤ e < 16 ∧ Bitfield.used (files_bitfield p) e = false) →
    vfs_file_open path flags 0 (filesys w) = Ret (f, v') →
    tty_open tty sent0 [] (vs_fs v') → P 0 0 (vs_fs v') →
    ready path flags out w.

(** Meanwhile: descriptor [d] is open on the file, at place [x], and [out] was written on
    the terminal. *)
Inductive in_use (d : Z) (x : nat) (out : list Z) (w : system) : Prop :=
| in_use_intro p s :
    caller w p s → has_fd p 1 tty → has_fd p d f → d ≠ 1 → tty ≠ f →
    tty_open tty sent0 out (vs_fs (filesys w)) → P 1 x (vs_fs (filesys w)) →
    in_use d x out w.

(** What is done to the file does not matter to the terminal. *)
Lemma tty_other s s' out : tty ≠ f → same_open s s' f → tty_open tty sent0 out s →
  tty_open tty sent0 out s'.
Proof.
  intros Hne [Hi Hu Ho _] [fl node Hf Hn Hops Hout].
  apply (tty_open_intro _ _ _ _ fl node); rewrite ?Hi, ?Hu, ?Ho; done.
Qed.

Lemma tty_count s c out : tty ≠ f → tty_open tty sent0 out s →
  tty_open tty sent0 out (set_count f c s).
Proof.
  intros Hne [fl node Hf Hn Hops Hout]. apply (tty_open_intro _ _ _ _ fl node); try done.
  simpl. by rewrite lookup_alter_ne.
Qed.

Lemma set_fd_count_vs n v : set_fd_count f n v = mkvs (set_count f n (vs_fs v)) (vs_vfs v).
Proof. done. Qed.

Lemma count_of c x v : P c x (vs_fs v) → fd_count v f = Some c.
Proof.
  intros HP. destruct (of_file c x _ HP) as (_ & fl & Hf & Hc). simpl. by rewrite Hf, <- Hc.
Qed.

Lemma ready_open path flags w : Forall (λ b, 0 < b < 0x100) path → (length path < 512)%nat →
  is_u32 flags → ready path flags [] w →
  ∃ d w', os_open (Os := kernel_os regs buf) path flags 0 w = Ret (d, w') ∧ 0 ≤ d ∧
    in_use d 0 [] w'.
Proof.
  destruct Hbuf as [Hlo Hhi].
  intros Hchars Hlen Hflags [p s v' _ Hc H1 Hne Hfree Eo Ht HP].
  destruct (of_file 0 0 _ HP) as (Hf0 & _).
  assert (vfs_file_open path (u32 flags) (u32 0) (filesys w) = Ret (f, v')) as Eo'
    by (by rewrite (u32_small flags)).
  destruct (call_open regs buf w p s flags 0 path f v' 0 Hc Hlo ltac:(lia) Hchars Eo' Hf0
    (count_of _ _ _ HP) Hfree) as (d & w' & p' & s' & E & Hc' & Hd & Hkeep & Hnew & Hfs).
  assert (d ≠ 1) as Hd1 by (intros ->; destruct H1 as (_ & Hu & _); congruence).
  exists d, w'. split; [exact E|]. split; [destruct Hd; lia|].
  apply (in_use_intro _ _ _ _ p' s'); try done.
  - by apply Hkeep.
  - rewrite Hfs. by apply tty_count.
  - rewrite Hfs, set_fd_count_vs. by apply (of_count 0).
Qed.

Lemma in_use_close d x out w : in_use d x out w →
  ∃ w', os_close (Os := kernel_os regs buf) d w = Ret (0, w') ∧ terminal 1 sent0 out w'.
Proof.
  intros [p s Hc H1 Hd Hd1 Hne Ht HP].
  pose proof (of_count 1 0 x _ HP) as HP0. pose proof (of_close x _ HP0) as Ec.
  destruct (call_close regs buf w p s d f 1 (set_fd_count f 0 (filesys w)) Hc Hd (count_of _ _ _ HP)
    ltac:(lia)) as (w' & p' & E & Hc' & Hkeep & Hfs).
  { change (u32 (1 + -1)) with 0. rewrite set_fd_count_vs.
    by rewrite (onfs_Ret _ (mkvs (set_count f 0 (vs_fs (filesys w))) (vs_vfs (filesys w))) _ _ Ec). }
  exists w'. split; [exact E|]. apply (terminal_intro _ _ _ _ p' s tty); [done|by apply Hkeep|].
  rewrite Hfs. by apply tty_count.
Qed.

#[export] Instance in_use_sink d x : Sink (Os0 := kernel_os regs buf) 1 (in_use d x).
Proof.
  intros out bytes w [p s Hc H1 Hd Hd1 Hne Ht HP] Hb Hu8.
  destruct (terminal_call regs buf 1 sent0 out bytes w p s tty Hc H1 Ht ltac:(lia) ltac:(lia) Hu8)
    as (w' & p' & s' & E & Hc' & Hfd & Hfs & Ht').
  exists (Z.of_nat (length bytes)), w'. split_and!; [exact E|lia|].
  apply (in_use_intro _ _ _ _ p' s'); try done; [by eapply has_fd_same|by eapply has_fd_same|].
  rewrite Hfs. by apply of_sent.
Qed.

(** The file moved, and the process did nothing else. *)
Lemma in_use_move d x y out w w' p p' s s' fs' : in_use d x out w → caller w p s →
  caller w' p' s' → same_fds p p' → filesys w' = mkvs fs' (vs_vfs (filesys w)) →
  same_open (vs_fs (filesys w)) fs' f → P 1 y fs' → in_use d y out w'.
Proof.
  intros [q r Hq H1 Hd Hd1 Hne Ht HP] Hc Hc' Hfd Hfs Hsame HP'.
  assert (q = p) as -> by (destruct (ca_running _ _ _ Hq), (ca_running _ _ _ Hc); congruence).
  apply (in_use_intro _ _ _ _ p' s'); try done; [by eapply has_fd_same|by eapply has_fd_same| |];
    rewrite Hfs; [by eapply tty_other|done].
Qed.
End kernel.

End UsrFiles.
