(* ===== verification/CatSpec.v ===== *)
(** * cat on this kernel

    From the file systems to the serial line: the files that can be read from start to end
    are text files for the program cat, when it runs on the kernel's system calls. *)
From S2P Require Import Prelude Bitfield Mmu Alloc Heap Hash Fs FsState Devices Ramfs RamfsSpec Fat32 Fat32Spec Vfs VfsSpec VfsFiles ElfSpec Scheduler SchedulerInv Exec Syscalls SystemInv ExecSpec Log Stdio StdioSpec Usr UsrCalls UsrSpec UsrFiles Programs ProgramsSpec.
Import Fs FsState Devices Ramfs RamfsSpec Fat32 Fat32Spec Vfs VfsFiles ElfSpec Scheduler SchedulerInv Exec Syscalls SystemInv Log Stdio StdioSpec Usr UsrCalls UsrSpec UsrFiles Programs ProgramsSpec.

Module CatSpec.

(** ** Files that are read from start to end *)

(** The place in the file is a byte of [content]. *)
Class Sequential (P : Z → nat → fs → Prop) (f : Z) (content : list Z) : Prop := {
  seq_open :: OpenFile P f;
  seq_read c x s n : P c x s → (0 < n ≤ 512)%nat →
    let bytes := take n (drop x content) in
    ∃ st s', vfs_file_read f (Z.of_nat n) s = Ret ((st, bytes), s') ∧
      (st = Z.of_nat (length bytes) ∨ -0x80000000 ≤ st < 0 ∧ bytes = []) ∧
      P c (x + length bytes)%nat s' ∧ same_open s s' f;
  seq_u8 : Forall is_u8 content;
}.

(** Asking for more than is left gives what is left. *)
Lemma take_left (l : list Z) n x : take (Nat.min n (length l - x)) (drop x l) = take n (drop x l).
Proof.
  destruct (Nat.le_ge_cases n (length l - x)).
  - by rewrite Nat.min_l.
  - rewrite Nat.min_r by done. rewrite !take_ge; rewrite ?length_drop; lia || done.
Qed.

(** *** RAM files *)

(** [f] is open [c] times at byte [x] of the RAM file [i]. *)
Inductive ram_at (f i p b : Z) (content : list Z) (c : Z) (x : nat) (s : fs) : Prop :=
| ram_at_intro fl node :
    fs_files s !! f = Some fl → f_inode fl = i → f_count fl = c → pos fl = Z.of_nat x →
    fs_inodes s !! i = Some node → file_ops node = RAMFS_REG_FILE_OPS → i ≠ 0 → f ≠ 0 →
    rfile s i p b content → (x ≤ length content)%nat →
    Z.of_nat (length content) + 512 < 0x80000000 →
    ram_at f i p b content c x s.

#[export] Instance ram_open_file f i p b content : OpenFile (ram_at f i p b content) f.
Proof.
  split.
  - intros c x s [fl node]. eauto.
  - intros c c' x s [fl node Hf Hi Hc Hp Hn Hops Hi0 Hf0 Hr Hx Hlen].
    eapply (ram_at_intro _ _ _ _ _ _ _ _ (with_count c' fl) node); try done.
    + simpl. by rewrite lookup_alter_eq, Hf.
    + by eapply rfile_keep.
  - intros c x s l [fl node Hf Hi Hc Hp Hn Hops Hi0 Hf0 Hr Hx Hlen].
    eapply (ram_at_intro _ _ _ _ _ _ _ _ fl node); try done. by eapply rfile_keep.
  - intros x s [fl node Hf Hi Hc Hp Hn Hops Hi0 Hf0 Hr Hx Hlen]. subst i.
    apply (file_close_run s f fl node); auto.
Qed.

#[export] Instance ram_sequential f i p b content : Forall is_u8 content →
  Sequential (ram_at f i p b content) f content.
Proof.
  intros Hu8. split; [apply _| |done].
  intros c x s n [fl node Hf Hi Hc Hp Hn Hops Hi0 Hf0 Hr Hx Hlen] Hn0 bytes.
  subst i. pose proof (reg_read_run s f fl p b content (Z.of_nat n) Hf Hi0 Hr ltac:(lia) ltac:(lia)
    ltac:(lia)) as E. cbv zeta in E. rewrite Hp in E.
  assert (length bytes = Nat.min n (length content - x)) as Hb
    by (unfold bytes; rewrite length_take, length_drop; lia).
  replace (Z.min (Z.of_nat n) (Z.of_nat (length content) - Z.of_nat x))
    with (Z.of_nat (length bytes)) in E by lia.
  rewrite !Nat2Z.id in E.
  assert (take (length bytes) (drop x content) = bytes) as Et by (rewrite Hb; apply take_left).
  rewrite Et in E.
  assert (∀ r, _ramfs_reg_file_read f (Z.of_nat n) s = r → vfs_file_read f (Z.of_nat n) s = r) as Hv.
  { intros r <-. unfold vfs_file_read.
    by rewrite (bind_Ret _ _ _ _ _ (ops_of_run _ _ _ _ Hf Hn)), Hops. }
  apply Hv in E. destruct (Z.leb_spec (Z.of_nat (length bytes)) 0).
  + assert (bytes = []) as Hnil by (apply length_zero_iff_nil; lia). rewrite Hnil in *.
    exists (-1), s. split_and!; [exact E|by right| |apply same_open_id].
    rewrite Nat.add_0_r. by apply (ram_at_intro _ _ _ _ _ _ _ _ fl node).
  + eexists _, _. split; [exact E|]. split_and!; [by left| |by eapply same_open_move].
    apply (ram_at_intro _ _ _ _ _ _ _ _ (with_pos (Z.of_nat x + Z.of_nat (length bytes)) fl) node);
      try done; [apply lookup_insert_eq|simpl; lia|by eapply rfile_keep|lia].
Qed.

(** *** FAT32 files *)

(** [f] is open [c] times at byte [x] of a FAT32 file of [n] bytes. *)
Inductive fat_at (f : Z) (v : fat32_sb_private_t) (chain : list Z) (secs : list (list Z))
    (n : nat) (c : Z) (x : nat) (s : fs) : Prop :=
| fat_at_intro fl node :
    fat_file s f v chain secs n x → (x ≤ n)%nat →
    fs_files s !! f = Some fl → f_count fl = c →
    fs_inodes s !! f_inode fl = Some node → file_ops node = FAT32_FILE_OPS → f ≠ 0 →
    fat_at f v chain secs n c x s.

(** What [fat_file] depends on. *)
Lemma fat_file_same s s' f v chain secs n x (g : file → file) : fat_file s f v chain secs n x →
  same_disks s s' → fs_inodes s' = fs_inodes s → fs_sbs s' = fs_sbs s → fs_fat s' = fs_fat s →
  fs_fat_files s' = fs_fat_files s → fs_files s' !! f = g <$> fs_files s !! f →
  (∀ fl, f_inode (g fl) = f_inode fl ∧ pos (g fl) = pos fl ∧ f_private (g fl) = f_private fl) →
  fat_file s' f v chain secs n x.
Proof.
  intros [fl node sb p Hv Hf Hi0 Hp0 Hi Hsb Hfat Hp Hx Hpl Hn Hle Hb] Hd Ei Es Ef Eff Eg Hg.
  destruct (Hg fl) as (Hg1 & Hg2 & Hg3).
  apply (mkff _ _ _ _ _ _ _ (g fl) node sb p); rewrite ?Hg1, ?Hg2, ?Hg3, ?Ei, ?Es, ?Ef, ?Eff; try done.
  - by eapply on_volume_same.
  - by rewrite Eg, Hf.
Qed.

#[export] Instance fat_open_file f v chain secs n : OpenFile (fat_at f v chain secs n) f.
Proof.
  split.
  - intros c x s [fl node]. eauto.
  - intros c c' x s [fl node Hff Hx Hf Hc Hn Hops Hf0].
    assert (fs_files (set_count f c' s) !! f = with_count c' <$> fs_files s !! f) as E
      by (simpl; apply lookup_alter_eq).
    apply (fat_at_intro _ _ _ _ _ _ _ _ (with_count c' fl) node); try done.
    + by apply (fat_file_same s _ f v chain secs n x (with_count c')).
    + by rewrite E, Hf.
  - intros c x s l [fl node Hff Hx Hf Hc Hn Hops Hf0].
    apply (fat_at_intro _ _ _ _ _ _ _ _ fl node); try done.
    apply (fat_file_same s _ f v chain secs n x (λ fl, fl)); try done. simpl. by rewrite Hf.
  - intros x s [fl node Hff Hx Hf Hc Hn Hops Hf0].
    destruct Hff as [fl' node' sb p _ Hf' Hi0 _ _ _ _ _ _ _ _ _ _].
    assert (fl' = fl) as -> by congruence. apply (file_close_run s f fl node); auto.
Qed.

#[export] Instance fat_sequential f v chain secs n : Forall is_u8 (fat_content secs n) →
  Sequential (fat_at f v chain secs n) f (fat_content secs n).
Proof.
  intros Hu8. split; [apply _| |done].
  intros c x s m [fl node Hff Hx Hf Hc Hn Hops Hf0] Hm bytes.
  assert (length (fat_content secs n) = n) as HL.
  { destruct Hff as [fl' node' sb p Hv _ _ _ _ _ _ _ _ _ _ Hle _].
    unfold fat_content. rewrite length_take, (length_content v s chain secs Hv). lia. }
  destruct (fat_read_run s f v chain secs n x m Hff Hx ltac:(lia)) as (s' & E & Hff' & Hs).
  assert (length bytes = Nat.min m (n - x)) as Hb
    by (unfold bytes; rewrite length_take, length_drop; lia).
  assert (take (Nat.min m (n - x)) (drop x (fat_content secs n)) = bytes) as Et
    by (rewrite <- HL at 1; apply take_left).
  rewrite Et in E. exists (Z.of_nat (length bytes)), s'. split_and!; [|by left| |done].
  + unfold vfs_file_read. by rewrite (bind_Ret _ _ _ _ _ (ops_of_run _ _ _ _ Hf Hn)), Hops, E, Hb.
  + destruct (so_file _ _ _ Hs fl Hf) as [y Hy].
    apply (fat_at_intro _ _ _ _ _ _ _ _ (with_pos y fl) node); try done; rewrite ?Hb.
    * done.
    * lia.
    * by rewrite (so_inodes _ _ _ Hs).
Qed.

(** ** cat's operating system *)

Section kernel.
Context (regs : task_context) (buf : Z).
Hypothesis Hbuf : BASE ≤ buf ∧ buf + 512 ≤ BASE + 0x100000.
Context (P : Z → nat → fs → Prop) (f : Z) (content : list Z) `{!Sequential P f content}.
Context (path : name_t) (tty : Z) (sent0 : list Z).
Hypothesis Hpath : Forall (λ b, 0 < b < 0x100) path ∧ (length path < 512)%nat.

(** The file is open, and [rest] is left of it. *)
Definition cat_reading (d : Z) (rest out : list Z) (w : system) : Prop :=
  ∃ x, in_use P f tty sent0 d x out w ∧ rest = drop x content.

(** What is read from [x] on, and what is left behind it. *)
Lemma drop_read (n x : nat) :
  drop (x + length (take n (drop x content))) content = drop n (drop x content).
Proof.
  rewrite length_take, !drop_drop. destruct (Nat.le_ge_cases n (length (drop x content))).
  - by rewrite Nat.min_l.
  - rewrite Nat.min_r by done. rewrite !drop_ge; [done| |]; rewrite length_drop in *; lia.
Qed.

Lemma reading_read d rest out w n : cat_reading d rest out w → 0 < n ≤ 512 →
  ∃ st w', os_read (Os := kernel_os regs buf) d n w = Ret ((st, take (Z.to_nat n) rest), w') ∧
    (rest = [] → -0x80000000 ≤ st ≤ 0) ∧ (rest ≠ [] → st = Z.min n (Z.of_nat (length rest))) ∧
    cat_reading d (drop (Z.to_nat n) rest) out w'.
Proof.
  intros (x & Hu & ->) Hn. pose proof Hu as [p s Hc H1 Hd Hd1 Hne Ht HP].
  destruct (seq_read 1 x _ (Z.to_nat n) HP ltac:(lia)) as (st & fs' & E & Hst & HP' & Hsame).
  rewrite Z2Nat.id in E by lia.
  set (bytes := take (Z.to_nat n) (drop x content)) in *.
  assert (length bytes = Nat.min (Z.to_nat n) (length (drop x content))) as Hb
    by (unfold bytes; by rewrite length_take).
  destruct (call_read regs buf w p s d f n bytes st fs' Hc Hd ltac:(lia) ltac:(lia)
    ltac:(apply Forall_take, Forall_drop, seq_u8) E Hst) as (w' & p' & s' & Er & Hc' & Hfd & Hfs).
  exists st, w'. split_and!; [exact Er| | |].
  - intros Hr. rewrite Hr in Hb. simpl in Hb. lia.
  - intros Hr. assert (0 < length (drop x content))%nat by (destruct (drop x content); [done|simpl; lia]).
    destruct Hst as [->|[_ Hnil]]; [lia|]. rewrite Hnil in Hb. simpl in Hb. lia.
  - exists (x + length bytes)%nat. split; [by eapply in_use_move|]. by rewrite <- drop_read.
Qed.

#[export] Instance kernel_text_file : TextFile (Os0 := kernel_os regs buf) path content
  (ready P f tty sent0 path 0) cat_reading (terminal 1 sent0).
Proof.
  destruct Hpath as [Hchars Hlen]. split.
  - intros w Hr. destruct (ready_open regs buf Hbuf P f tty sent0 path 0 w Hchars Hlen ltac:(done) Hr)
      as (d & w' & E & Hd & Hu). exists d, w'. split_and!; try done. by exists 0%nat.
  - intros d rest out w n. apply reading_read.
  - intros d out w (x & Hu & _). by apply (in_use_close regs buf P f tty sent0 d x).
  - intros d rest out bytes w (x & Hu & Hr) Hb Hu8.
    pose proof (in_use_sink regs buf Hbuf P f tty sent0 d x) as Hsink.
    destruct (Hsink out bytes w Hu Hb Hu8) as (n & w' & E & Hn & Hu').
    exists n, w'. split_and!; try done. by exists x.
  - apply seq_u8.
Qed.
End kernel.

(** From the start of cat to its exit *)
Lemma cat_sends regs buf P f content `{!Sequential P f content} path tty out0 fuel
    (u : user system) :
  BASE ≤ buf ∧ buf + 512 ≤ BASE + 0x100000 →
  Forall (λ b, 0 < b < 0x100) path ∧ (length path < 512)%nat →
  cursor u = 0 → ready P f tty out0 path 0 [] (os u) → (length content + 512 ≤ 512 * fuel)%nat →
  ∃ u', _start (OsProc0 := kernel_proc regs buf) (cat_main (Os0 := kernel_os regs buf) fuel)
          [Some path; None] u = zoom (usr_syscall_exit regs 0) u' ∧
    wf (os u') ∧ (∃ p, running (os u') p) ∧
    uart_out (fs_uart (vs_fs (filesys (os u')))) = rev (cooked content) ++ out0.
Proof.
  intros Hbuf Hpath Hcur Hready Hfuel.
  pose proof (kernel_text_file regs buf Hbuf P f content path tty out0 Hpath) as Htext.
  destruct (cat_exits (Os0 := kernel_os regs buf) (OsProc0 := kernel_proc regs buf) path content _ _ _ fuel u (conj Hcur Hready) Hfuel)
    as (u' & E & [p s g Hc _ [fl node _ _ _ Hout]]).
  exists u'. split_and!; [exact E|apply Hc|exists p; apply Hc|done].
Qed.

(** ** Properties *)


End CatSpec.
