(* ===== verification/FileCalls.v ===== *)
(** * A file through the system calls

    A program creates a file in a RAM directory, writes to it, seeks and reads: the bytes
    go from its memory through the calls, the VFS and the file system to the kernel's heap,
    and come back. *)
From S2P Require Import Prelude Bitfield Mmu Alloc Heap Hash Fs FsState FsInv Devices Ramfs RamfsSpec Fat32 Vfs VfsSpec VfsFiles Keeps Scheduler SchedulerInv SchedulerOps SchedulerFork SchedulerSpec SchedulerReach Exec Syscalls SystemInv ExecSpec Stdio Usr UsrCalls UsrFiles CatSpec.
Import Fs FsState FsInv Devices Ramfs RamfsSpec Fat32 Vfs VfsFiles Keeps Scheduler SchedulerInv SchedulerOps SchedulerFork SchedulerSpec SchedulerReach Exec Syscalls SystemInv ExecSpec Stdio Usr UsrCalls UsrFiles CatSpec.

Module FileCalls.

(** ** RAM files that are open *)

Lemma ram_write f i p b content c x s data : ram_at f i p b content c x s → fs_wf s →
  let n := length data in
  Z.of_nat (x + n) + 512 < 0x80000000 →
  room s (2 * Z.max (Z.of_nat (x + n)) (Z.of_nat (length content))) →
  write_reads f s = Ret (true, s) ∧
  ∃ s' b', vfs_file_write f data s = Ret (Z.of_nat n, s') ∧ fs_wf s' ∧
    ram_at f i p b' (take x content ++ data ++ drop (x + n) content) c (x + n) s'.
Proof.
  intros [fl node Hf Hi Hc Hp Hn Hops Hi0 Hf0 Hr Hx Hlen] Hwf n Hsmall Hroom. subst i. split.
  { unfold write_reads. erewrite bind_Ret by (apply mget_Ret; exact Hf).
    erewrite bind_Ret by (apply mget_Ret; exact Hn). rewrite Hops.
    destruct Hr as [node' bytes Hn' _ _ _ Hsz _ _ _ _]. assert (node' = node) as -> by congruence.
    by rewrite Hp, Hsz, (proj2 (Z.leb_le 0 _)), (proj2 (Z.leb_le _ _)) by lia. }
  destruct (reg_write_run s f fl p b content data Hwf Hf Hr ltac:(lia)) as
    (s' & b' & E & Hwf' & Hr' & Hf' & _ & Hops'); [fold n; lia|rewrite Hp; fold n; by rewrite Nat2Z.inj_add in Hroom|].
  rewrite Hp, Nat2Z.id in Hr'. fold n in E, Hr', Hf'. exists s', b'. split_and!; [|done|].
  - unfold vfs_file_write. by rewrite (bind_Ret _ _ _ _ _ (ops_of_run _ _ _ _ Hf Hn)), Hops.
  - specialize (Hops' (f_inode fl)). rewrite Hn in Hops'. simpl in Hops'.
    apply fmap_Some in Hops' as (node' & Hn' & Ho). rewrite Hops in Ho.
    assert (length (take x content ++ data ++ drop (x + n) content) =
      Nat.max (x + n) (length content)) as Hl.
    { rewrite !length_app, length_take, length_drop. fold n. lia. }
    apply (ram_at_intro _ _ _ _ _ _ _ _ (with_pos (pos fl + Z.of_nat n) fl) node'); try done;
      rewrite ?Hl; try lia; [by rewrite Hf', lookup_insert_eq|simpl; lia].
Qed.

Lemma ram_seek f i p b content c x s y : ram_at f i p b content c x s → (y ≤ length content)%nat →
  ∃ s', vfs_file_lseek f (Z.of_nat y) SEEK_SET s = Ret (Z.of_nat y, s') ∧
    ram_at f i p b content c y s' ∧ (fs_wf s → fs_wf s').
Proof.
  intros [fl node Hf Hi Hc Hp Hn Hops Hi0 Hf0 Hr Hx Hlen] Hy. subst i.
  exists (comp_set (<[f := with_pos (Z.of_nat y) fl]> (fs_files s)) s). split_and!.
  - unfold vfs_file_lseek. rewrite (bind_Ret _ _ _ _ _ (ops_of_run _ _ _ _ Hf Hn)), Hops.
    unfold _ramfs_reg_file_seek, get_seek_ref_offset.
    erewrite bind_Ret by (erewrite bind_Ret by (apply mget_Ret; exact Hf); done).
    rewrite Z.add_0_l, s32_small, (proj2 (Z.ltb_ge _ 0)) by lia.
    by erewrite bind_Ret by (apply mupd_Ret; exact Hf).
  - apply (ram_at_intro _ _ _ _ _ _ _ _ (with_pos (Z.of_nat y) fl) node); try done.
    + apply lookup_insert_eq.
    + by eapply rfile_keep.
  - intros []. split; simpl; try done. eapply in_heap_upd; [done|by eexists].
Qed.

(** ** The calls *)

Section calls.
Context (regs : task_context) (buf : Z).
Hypothesis Hbuf : BASE ≤ buf.

Lemma call_lseek w p s d f offset whence st fs' : caller w p s → has_fd p d f →
  -0x80000000 ≤ offset < 0x80000000 → 0 ≤ whence < 0x80000000 →
  vfs_file_lseek f offset whence (vs_fs (filesys w)) = Ret (st, fs') →
  ∃ w' p', os_lseek (Os := kernel_os regs buf) d offset whence w = Ret (s32 st, w') ∧
    caller w' p' s ∧ same_fds p p' ∧ filesys w' = mkvs fs' (vs_vfs (filesys w)).
Proof.
  intros Hc Hd Ho Hw E. pose proof (caller_context regs w p s Hc) as Hc1.
  assert (_syscall__LSEEK (u32 d) (u32 offset) (u32 whence) (set_context regs p w) =
    Ret (st, with_fs (mkvs fs' (vs_vfs (filesys w))) (set_context regs p w))) as Eh.
  { unfold _syscall__LSEEK. assert (u32 d = d) as -> by (destruct Hd; apply u32_small; lia).
    rewrite (bind_Ret _ _ _ _ _ (cur_fd_run (set_context regs p w) (with_context regs p) s d f Hc1 Hd)).
    destruct Hd as (_ & _ & _ & Hf0). rewrite (proj2 (Z.eqb_neq f 0) Hf0), !s32_u32.
    rewrite (s32_small offset), (s32_small whence) by lia. exact (onfile_run _ (set_context regs p w) _ _ E). }
  assert (keeps quiet (_syscall__LSEEK (u32 d) (u32 offset) (u32 whence))) as Hq
    by (unfold _syscall__LSEEK; keeps).
  destruct (call_quiet regs SYSCALL__LSEEK _ _ _ _ w p s _ s st Hc ltac:(done) ltac:(done) eq_refl Hq Eh
    (ca_ram _ _ _ Hc1)) as (w' & p' & E' & Hc' & Hfd & Hfs & _).
  exists w', p'. split_and!; [exact E'|done|done|by rewrite Hfs].
Qed.

(** The calling process has the file open as [d], at byte [x]. *)
Inductive ram_used (f i pf b : Z) (content : list Z) (d : Z) (x : nat) (w : system) : Prop :=
| ram_used_intro p s :
    caller w p s → has_fd p d f → ram_at f i pf b content 1 x (vs_fs (filesys w)) →
    fs_wf (vs_fs (filesys w)) → ram_used f i pf b content d x w.

Lemma used_write f i pf b content d x w data : ram_used f i pf b content d x w →
  let n := length data in
  buf < BASE + 0x100000 → buf + Z.of_nat n ≤ BASE + 0x100000 → Forall is_u8 data →
  Z.of_nat (x + n) + 512 < 0x80000000 →
  room (vs_fs (filesys w)) (2 * Z.max (Z.of_nat (x + n)) (Z.of_nat (length content))) →
  ∃ w' b', os_write (Os := kernel_os regs buf) d data w = Ret (Z.of_nat n, w') ∧
    ram_used f i pf b' (take x content ++ data ++ drop (x + n) content) d (x + n) w'.
Proof using Hbuf.
  intros [p s Hc Hd Hr Hwf] n Hlo Hhi Hu8 Hsmall Hroom.
  destruct (ram_write _ _ _ _ _ _ _ _ data Hr Hwf Hsmall Hroom) as (Hreads & fs' & b' & E & Hwf' & Hr').
  destruct (call_write regs buf w p s d f data _ fs' Hc Hd ltac:(lia) Hhi Hu8 Hreads E)
    as (w' & p' & s' & Ew & Hc' & Hfd & Hfs).
  rewrite s32_small in Ew by (fold n; lia). exists w', b'. split; [exact Ew|].
  apply (ram_used_intro _ _ _ _ _ _ _ _ p' s'); rewrite ?Hfs; try done. by eapply has_fd_same.
Qed.

Lemma used_seek f i pf b content d x w y : ram_used f i pf b content d x w →
  (y ≤ length content)%nat →
  ∃ w', os_lseek (Os := kernel_os regs buf) d (Z.of_nat y) SEEK_SET w = Ret (Z.of_nat y, w') ∧
    ram_used f i pf b content d y w'.
Proof using.
  intros [p s Hc Hd Hr Hwf] Hy.
  assert (Z.of_nat y < 0x80000000) as Hsmall by (destruct Hr; lia).
  destruct (ram_seek _ _ _ _ _ _ _ _ y Hr Hy) as (fs' & E & Hr' & Hwf').
  destruct (call_lseek w p s d f (Z.of_nat y) SEEK_SET _ fs' Hc Hd ltac:(lia) ltac:(unfold SEEK_SET; lia) E)
    as (w' & p' & Es & Hc' & Hfd & Hfs).
  rewrite s32_small in Es by lia. exists w'. split; [exact Es|].
  apply (ram_used_intro _ _ _ _ _ _ _ _ p' s); rewrite ?Hfs; auto. by eapply has_fd_same.
Qed.

Lemma used_read f i pf b content d x w m : ram_used f i pf b content d x w →
  let bytes := take m (drop x content) in
  Forall is_u8 content → buf < BASE + 0x100000 → buf + Z.of_nat m ≤ BASE + 0x100000 →
  (0 < m)%nat → (x < length content)%nat → Z.of_nat (x + m) < 0x80000000 →
  ∃ w', os_read (Os := kernel_os regs buf) d (Z.of_nat m) w =
      Ret ((Z.of_nat (length bytes), bytes), w') ∧
    ram_used f i pf b content d (x + length bytes) w'.
Proof using Hbuf.
  intros [p s Hc Hd Hr Hwf] bytes Hu8 Hlo Hhi Hm Hx Hxm.
  assert (length bytes = Nat.min m (length content - x)) as Hl
    by (unfold bytes; by rewrite length_take, length_drop).
  pose proof Hr as [fl node Hf Hi Hcnt Hp Hn Hops Hi0 Hf0 Hrf _ Hlen]. subst i.
  pose proof (reg_read_run _ f fl pf b content (Z.of_nat m) Hf Hi0 Hrf ltac:(lia) ltac:(lia)
    ltac:(unfold PROCESS_SECTION_VIRTUAL_ADDRRESS in *; lia)) as E.
  cbv zeta in E. rewrite Hp, Nat2Z.id in E.
  replace (Z.min (Z.of_nat m) (Z.of_nat (length content) - Z.of_nat x)) with (Z.of_nat (length bytes))
    in E by lia.
  rewrite (proj2 (Z.leb_gt (Z.of_nat (length bytes)) 0)), !Nat2Z.id in E by lia.
  assert (take (length bytes) (drop x content) = bytes) as Et
    by (rewrite Hl; apply take_left).
  rewrite Et in E. set (fs' := comp_set _ _) in E.
  assert (vfs_file_read f (Z.of_nat m) (vs_fs (filesys w)) = Ret ((Z.of_nat (length bytes), bytes), fs')) as Ev.
  { unfold vfs_file_read. by rewrite (bind_Ret _ _ _ _ _ (ops_of_run _ _ _ _ Hf Hn)), Hops. }
  destruct (call_read regs buf w p s d f (Z.of_nat m) bytes _ fs' Hc Hd ltac:(lia) ltac:(lia)
    ltac:(by apply Forall_take, Forall_drop) Ev ltac:(by left)) as (w' & p' & s' & Er & Hc' & Hfd & Hfs).
  exists w'. split; [exact Er|].
  apply (ram_used_intro _ _ _ _ _ _ _ _ p' s'); rewrite ?Hfs; try done; [by eapply has_fd_same| |].
  - apply (ram_at_intro _ _ _ _ _ _ _ _ (with_pos (Z.of_nat x + Z.of_nat (length bytes)) fl) node);
      try done; [apply lookup_insert_eq|simpl; lia|by eapply rfile_keep|lia].
  - destruct Hwf. split; simpl; try done. eapply in_heap_upd; [done|by eexists].
Qed.

Lemma used_close f i pf b content d x w : ram_used f i pf b content d x w →
  ∃ w' p s, os_close (Os := kernel_os regs buf) d w = Ret (0, w') ∧ caller w' p s ∧
    ram_at f i pf b content 0 x (vs_fs (filesys w')).
Proof using.
  intros [p s Hc Hd Hr Hwf]. pose proof (of_count 1 0 x _ Hr) as H0. pose proof (of_close x _ H0) as Ec.
  destruct (call_close regs buf w p s d f 1 (set_fd_count f 0 (filesys w)) Hc Hd (count_of _ _ _ _ _ Hr)
    ltac:(lia)) as (w' & p' & E & Hc' & Hkeep & Hfs).
  { change (u32 (1 + -1)) with 0. rewrite set_fd_count_vs.
    by rewrite (onfs_Ret _ (mkvs (set_count f 0 (vs_fs (filesys w))) (vs_vfs (filesys w))) _ _ Ec). }
  exists w', p', s. split; [exact E|]. split; [done|]. by rewrite Hfs, set_fd_count_vs.
Qed.
Lemma used_create w p s path v1 e name dir q cs : caller w p s →
  (∃ j, 0 ≤ j < 16 ∧ Bitfield.used (files_bitfield p) j = false) →
  Forall (λ b, 0 < b < 0x100) path → buf + Z.of_nat (length path) < BASE + 0x100000 →
  _vfs_dentry_lookup path (filesys w) = Ret (e, v1) → missing_at v1 e name dir q cs →
  fs_wf (vs_fs v1) → ∀ n, 0 ≤ n → room (vs_fs v1) (800 + n) →
  ∃ d f i pf b w', os_open (Os := kernel_os regs buf) path O_CREAT S_IFREG w = Ret (d, w') ∧
    ram_used f i pf b [] d 0 w' ∧ room (vs_fs (filesys w')) n.
Proof using Hbuf.
  intros Hc Hfree Hpath Hlen Hl Hmiss Hwf n Hn Hroom.
  destruct (open_create_run _ _ _ _ _ _ _ _ Hl Hmiss Hwf ltac:(eapply room_le; [exact Hroom|lia]))
    as (i & f & v2 & Eo & [Hwf2 _ _ [Hi0 (node & Hi & Hops)] [Hf0 Hf] (pf & b & Hrf) Hcu He]).
  destruct (call_open regs buf w p s O_CREAT S_IFREG path f v2 0 Hc Hbuf Hlen Hpath Eo Hf0
    ltac:(unfold fd_count; simpl; by rewrite Hf) Hfree)
    as (d & w' & p' & s' & E & Hc' & Hfd & _ & _ & Hfs).
  rewrite set_fd_count_vs in Hfs. change (u32 (0 + 1)) with 1 in Hfs.
  exists d, f, i, pf, b, w'. split; [exact E|]. split.
  - apply (ram_used_intro _ _ _ _ _ _ _ _ p' s'); rewrite ?Hfs; try done; [|by apply fs_wf_files].
    apply (ram_at_intro _ _ _ _ _ _ _ _ (mkfile 1 i 0 0) node); try done;
      [simpl; by rewrite lookup_alter_eq, Hf|by eapply rfile_keep].
  - rewrite Hfs. destruct Hroom. split; simpl; lia.
Qed.

(** C24. A program saves a file and loads from it, by system calls alone: [open] with O_CREAT
    makes the file that the RAM directory did not have, [write] stores the program's bytes,
    and after [lseek] to byte [y], [read] of [m] bytes gives what was written from there on,
    at most to the end; [close] succeeds, and the file keeps the bytes. The heap needs room
    for the new inode and file and for the doubling of the file's buffer. *)
Theorem save_and_load w p s path v1 e name dir q cs data y m : caller w p s →
  (∃ j, 0 ≤ j < 16 ∧ Bitfield.used (files_bitfield p) j = false) →
  Forall (λ b, 0 < b < 0x100) path → buf + Z.of_nat (length path) < BASE + 0x100000 →
  _vfs_dentry_lookup path (filesys w) = Ret (e, v1) → missing_at v1 e name dir q cs →
  fs_wf (vs_fs v1) → room (vs_fs v1) (800 + 2 * Z.of_nat (length data)) →
  Forall is_u8 data → buf + Z.of_nat (length data) ≤ BASE + 0x100000 →
  (y < length data)%nat → (0 < m)%nat → buf + Z.of_nat m ≤ BASE + 0x100000 →
  let bytes := take m (drop y data) in
  ∃ d f i pf b w1 w2 w3 w4 w5 p5 s5,
    os_open (Os := kernel_os regs buf) path O_CREAT S_IFREG w = Ret (d, w1) ∧
    os_write (Os := kernel_os regs buf) d data w1 = Ret (Z.of_nat (length data), w2) ∧
    os_lseek (Os := kernel_os regs buf) d (Z.of_nat y) SEEK_SET w2 = Ret (Z.of_nat y, w3) ∧
    os_read (Os := kernel_os regs buf) d (Z.of_nat m) w3 =
      Ret ((Z.of_nat (length bytes), bytes), w4) ∧
    os_close (Os := kernel_os regs buf) d w4 = Ret (0, w5) ∧
    caller w5 p5 s5 ∧ ram_at f i pf b data 0 (y + length bytes) (vs_fs (filesys w5)).
Proof using Hbuf.
  intros Hc Hfree Hpath Hlen Hl Hmiss Hwf Hroom Hu8 Hdata Hy Hm Hbytes bytes.
  destruct (used_create w p s path v1 e name dir q cs Hc Hfree Hpath Hlen Hl Hmiss Hwf
    (2 * Z.of_nat (length data)) ltac:(lia) Hroom) as (d & f & i & pf & b0 & w1 & E1 & H1 & Hroom1).
  destruct (used_write f i pf b0 [] d 0 w1 data H1) as (w2 & b & E2 & H2);
    [lia..|done|lia|eapply room_le; [exact Hroom1|simpl; lia]|].
  simpl in H2. rewrite drop_nil, app_nil_r in H2.
  destruct (used_seek f i pf b data d _ w2 y H2 ltac:(lia)) as (w3 & E3 & H3).
  destruct (used_read f i pf b data d y w3 m H3 Hu8) as (w4 & E4 & H4); [lia..|].
  destruct (used_close f i pf b data d _ w4 H4) as (w5 & p5 & s5 & E5 & Hc5 & H5).
  exists d, f, i, pf, b, w1, w2, w3, w4, w5, p5, s5. by split_and!.
Qed.
End calls.
End FileCalls.
