(* ===== verification/LsSpec.v ===== *)
(** * ls on this kernel

    The directories that can be listed from start to end are directories for the program
    ls, when it runs on the kernel's system calls. *)
From S2P Require Import Prelude Bitfield Mmu Alloc Heap Hash Fs FsState Devices Ramfs RamfsSpec Fat32 Fat32Spec Fat32DirSpec Vfs VfsSpec VfsFiles ElfSpec Scheduler SchedulerInv Exec Syscalls SystemInv ExecSpec Format Log Stdio StdioSpec Usr UsrCalls UsrSpec UsrFiles Programs ProgramsSpec.
Import Fs FsState Devices Ramfs RamfsSpec Fat32Spec Fat32DirSpec Vfs VfsFiles ElfSpec Scheduler SchedulerInv Exec SystemInv Format Log Stdio StdioSpec Usr UsrCalls UsrSpec UsrFiles Programs ProgramsSpec.

Module LsSpec.

(** ** Directories that are listed from start to end *)

(** The place in the directory is an entry of [es]. *)
Class Listing (P : Z → nat → fs → Prop) (f : Z) (es : list dirent) : Prop := {
  list_open :: OpenFile P f;
  list_read c x s : P c x s →
    let l := take 1 (drop x es) in
    ∃ s', vfs_file_readdir f 1 s = Ret ((Z.of_nat (length l), l), s') ∧
      P c (x + length l)%nat s' ∧ same_open s s' f;
  list_entries : Forall dirent_ok es;
}.

(** *** RAM directories *)

(** [f] is open [c] times at child [x] of the RAM directory [i], whose children [cs] are the
    entries [es]. *)
Inductive dir_at (f i p : Z) (cs : list ramfs_inode_child_t) (es : list dirent) (c : Z) (x : nat)
    (s : fs) : Prop :=
| dir_at_intro fl :
    fs_files s !! f = Some fl → f_inode fl = i → f_count fl = c → pos fl = Z.of_nat x →
    i ≠ 0 → f ≠ 0 → p ≠ 0 → rdir s i p cs → Some <$> es = entry_of s <$> cs →
    dir_at f i p cs es c x s.

Lemma rdir_same s s' i p cs : rdir s i p cs → fs_inodes s' = fs_inodes s → fs_dirs s' = fs_dirs s →
  fs_sbs s' = fs_sbs s → fs_ramfs s' = fs_ramfs s → rdir s' i p cs.
Proof.
  intros [node sb rp ? ? ? ? ? ? ? ? ? ?] E1 E2 E3 E4.
  apply (mkrd _ _ _ _ node sb rp); by rewrite ?E1, ?E2, ?E3, ?E4.
Qed.

#[export] Instance dir_open_file f i p cs es : OpenFile (dir_at f i p cs es) f.
Proof.
  split.
  - intros c x s [fl]. eauto.
  - intros c c' x s [fl Hf Hi Hc Hp Hi0 Hf0 Hp0 Hr He].
    apply (dir_at_intro _ _ _ _ _ _ _ _ (with_count c' fl)); try done.
    + simpl. by rewrite lookup_alter_eq, Hf.
    + by eapply rdir_same.
  - intros c x s l [fl Hf Hi Hc Hp Hi0 Hf0 Hp0 Hr He].
    apply (dir_at_intro _ _ _ _ _ _ _ _ fl); try done. by eapply rdir_same.
  - intros x s [fl Hf Hi Hc Hp Hi0 Hf0 Hp0 [node sb rp Hn _ _ Hops _ _ _ _ _ _] He]. subst i.
    apply (file_close_run s f fl node); auto.
Qed.

Lemma entry_take s cs es x n : Some <$> es = entry_of s <$> cs →
  Some <$> take n (drop x es) = entry_of s <$> take n (drop x cs).
Proof. intros H. by rewrite !fmap_take, !fmap_drop, H. Qed.

#[export] Instance dir_listing f i p cs es :
  Forall dirent_ok es → Forall (λ c, (length (c_name c) ≤ 30)%nat) cs → Listing (dir_at f i p cs es) f es.
Proof.
  intros Hes Hcs. split; [apply _| |done].
  intros c x s [fl Hf Hi Hc Hp Hi0 Hf0 Hp0 Hr He] l. subst i.
  assert (length es = length cs) as Hlen by (apply (f_equal length) in He; by rewrite !length_fmap in He).
  destruct (ramfs_readdir_correct s f fl p cs 1 Hf Hi0 Hp0 Hr ltac:(lia) ltac:(lia)) as (es' & E & He').
  { intros ch Hch. split; [by rewrite Forall_forall in Hcs; apply Hcs|].
    apply list_elem_of_lookup in Hch as [j Hj].
    assert ((Some <$> es) !! j = Some (entry_of s ch)) as Hj' by (by rewrite He, list_lookup_fmap, Hj).
    rewrite list_lookup_fmap in Hj'. apply fmap_Some in Hj' as (e & _ & ->). eauto. }
  rewrite Hp, Nat2Z.id in E, He'.
  assert (take (Z.to_nat (Z.min 1 (Z.of_nat (length cs)))) (drop x cs) = take 1 (drop x cs)) as Et.
  { destruct cs as [|c0 cs]; [by rewrite drop_nil|]. by rewrite Z.min_l by (simpl; lia). }
  rewrite Et in E, He'. pose proof (entry_take s cs es x 1 He) as Hl. fold l in Hl. rewrite <- He' in Hl.
  assert (es' = l) as -> by (by apply (inj (fmap Some)) in Hl).
  assert (length (take 1 (drop x cs)) = length l) as Hll
    by (unfold l; by rewrite !length_take, !length_drop, Hlen).
  rewrite Hll in E. eexists. split; [|split].
  - unfold vfs_file_readdir. destruct Hr as [node sb rp Hn _ _ Hops _ _ _ _ _ _].
    rewrite (bind_Ret _ _ _ _ _ (ops_of_run _ _ _ _ Hf Hn)), Hops. exact E.
  - apply (dir_at_intro _ _ _ _ _ _ _ _ (with_pos (Z.of_nat x + Z.of_nat (length l)) fl)); try done;
      [apply lookup_insert_eq|simpl; lia|by eapply rdir_same].
  - by eapply same_open_move.
Qed.

(** *** FAT32 directories *)

(** [f] is open [c] times on a directory of a FAT32 volume, of whose entries [es] the first
    [x] were listed. *)
Inductive fat_dir_at (f : Z) (v : fat32_sb_private_t) (chain : list Z) (secs : list (list Z))
    (es : list dirent) (c : Z) (x : nat) (s : fs) : Prop :=
| fat_dir_at_intro fl node rest :
    fat_dir s f v chain secs rest → map dirent_of rest = drop x es →
    fs_files s !! f = Some fl → f_count fl = c →
    fs_inodes s !! f_inode fl = Some node → file_ops node = FAT32_DIR_OPS → f ≠ 0 →
    fat_dir_at f v chain secs es c x s.

(** What [fat_dir] depends on. *)
Lemma fat_dir_same s s' f v chain secs rest (g : file → file) : fat_dir s f v chain secs rest →
  same_disks s s' → fs_inodes s' = fs_inodes s → fs_sbs s' = fs_sbs s → fs_fat s' = fs_fat s →
  fs_fat_dirs s' = fs_fat_dirs s → fs_files s' !! f = g <$> fs_files s !! f →
  (∀ fl, f_inode (g fl) = f_inode fl ∧ f_private (g fl) = f_private fl) →
  fat_dir s' f v chain secs rest.
Proof.
  intros [fl node sb k items Hv Hf Hi0 Hp0 Hi Hsb Hfat Hd Hfrom Hr] Hs Ei Es Ef Ed Eg Hg.
  destruct (Hg fl) as [Hg1 Hg2].
  apply (mkfd _ _ _ _ _ _ (g fl) node sb k items); rewrite ?Hg1, ?Hg2, ?Ei, ?Es, ?Ef, ?Ed; try done.
  - by eapply on_volume_same.
  - by rewrite Eg, Hf.
Qed.

#[export] Instance fat_dir_open_file f v chain secs es : OpenFile (fat_dir_at f v chain secs es) f.
Proof.
  split.
  - intros c x s [fl]. eauto.
  - intros c c' x s [fl node rest Hd Hr Hf Hc Hn Hops Hf0].
    assert (fs_files (set_count f c' s) !! f = with_count c' <$> fs_files s !! f) as E
      by (simpl; apply lookup_alter_eq).
    apply (fat_dir_at_intro _ _ _ _ _ _ _ _ (with_count c' fl) node rest); try done.
    + by apply (fat_dir_same s _ f v chain secs rest (with_count c')).
    + by rewrite E, Hf.
  - intros c x s l [fl node rest Hd Hr Hf Hc Hn Hops Hf0].
    apply (fat_dir_at_intro _ _ _ _ _ _ _ _ fl node rest); try done.
    apply (fat_dir_same s _ f v chain secs rest (λ fl, fl)); try done. simpl. by rewrite Hf.
  - intros x s [fl node rest Hd Hr Hf Hc Hn Hops Hf0].
    destruct Hd as [fl' node' sb k items _ Hf' Hi0].
    assert (fl' = fl) as -> by congruence. apply (file_close_run s f fl node); auto.
Qed.

#[export] Instance fat_dir_listing f v chain secs es :
  Forall dirent_ok es → Listing (fat_dir_at f v chain secs es) f es.
Proof.
  intros Hes. split; [apply _| |done].
  intros c x s [fl node rest Hd Hr Hf Hc Hn Hops Hf0] l.
  assert (Forall (λ e, (length e.2 ≤ 30)%nat) rest) as Hlen.
  { assert (Forall dirent_ok (map dirent_of rest)) as H by (rewrite Hr; by apply Forall_drop).
    rewrite Forall_map in H. eapply Forall_impl; [exact H|]. by intros e (_ & _ & ?). }
  destruct (fat_readdir_run s f v chain secs rest 1 Hd Hlen) as (s' & E & Hd' & Hs).
  assert (map dirent_of (take 1 rest) = l) as El
    by (change (dirent_of <$> take 1 rest = l); rewrite fmap_take; unfold l; by rewrite <- Hr).
  rewrite El in E. exists s'. split; [|split; [|done]].
  - unfold vfs_file_readdir. by rewrite (bind_Ret _ _ _ _ _ (ops_of_run _ _ _ _ Hf Hn)), Hops.
  - destruct (so_file _ _ _ Hs fl Hf) as [y Hy].
    apply (fat_dir_at_intro _ _ _ _ _ _ _ _ (with_pos y fl) node (drop 1 rest)); try done.
    + change (dirent_of <$> drop 1 rest = drop (x + length l) es).
      rewrite fmap_drop. change (dirent_of <$> rest) with (map dirent_of rest). rewrite Hr, drop_drop.
      unfold l. rewrite length_take, length_drop.
      destruct (decide (x < length es)%nat); [f_equal; lia|]. by rewrite !drop_ge by lia.
    + by rewrite (so_inodes _ _ _ Hs).
Qed.

(** ** ls's operating system *)

Section kernel.
Context (regs : task_context) (buf : Z).
Hypothesis Hbuf : BASE ≤ buf ∧ buf + 512 ≤ BASE + 0x100000.
Context (P : Z → nat → fs → Prop) (f : Z) (es : list dirent) `{!Listing P f es}.
Context (path : name_t) (tty : Z) (sent0 : list Z).
Hypothesis Hpath : Forall (λ b, 0 < b < 0x100) path ∧ (length path < 512)%nat.

(** The directory is open, and [rest] is left of it. *)
Definition ls_reading (d : Z) (rest : list dirent) (out : list Z) (w : system) : Prop :=
  ∃ x, in_use P f tty sent0 d x out w ∧ rest = drop x es.

Lemma ls_read d rest out w : ls_reading d rest out w →
  ∃ st w', os_readdir (Os := kernel_os regs buf) d 1 w = Ret ((st, take 1 rest), w') ∧
    (rest = [] → -0x80000000 ≤ st ≤ 0) ∧ (rest ≠ [] → st = 1) ∧ ls_reading d (drop 1 rest) out w'.
Proof.
  intros (x & Hu & ->). pose proof Hu as [p s Hc H1 Hd Hd1 Hne Ht HP].
  destruct (list_read 1 x _ HP) as (fs' & E & HP' & Hsame). set (l := take 1 (drop x es)) in *.
  assert (Forall dirent_ok l) as Hok by apply Forall_take, Forall_drop, list_entries.
  assert (length l = Nat.min 1 (length (drop x es))) as Hl by (unfold l; by rewrite length_take).
  destruct (call_readdir regs buf w p s d f l _ fs' Hc Hd ltac:(lia) ltac:(lia) Hok ltac:(lia) E eq_refl)
    as (w' & p' & s' & Er & Hc' & Hfd & Hfs).
  exists (Z.of_nat (length l)), w'. split_and!; [exact Er| | |].
  - intros Hr. rewrite Hr in Hl. simpl in Hl. lia.
  - intros Hr. assert (0 < length (drop x es))%nat by (destruct (drop x es); [done|simpl; lia]). lia.
  - exists (x + length l)%nat. split; [by eapply in_use_move|]. rewrite Hl, drop_drop.
    destruct (drop x es) as [|e r] eqn:Ex; [|done]. assert (length es ≤ x)%nat.
    { apply (f_equal length) in Ex. rewrite length_drop in Ex. simpl in Ex. lia. }
    by rewrite !drop_ge by (simpl; lia).
Qed.

#[export] Instance kernel_text_dir : TextDir (Os0 := kernel_os regs buf) path es
  (ready P f tty sent0 path O_DIRECTORY) ls_reading (terminal 1 sent0).
Proof.
  destruct Hpath as [Hchars Hlen]. split.
  - intros w Hr. destruct (ready_open regs buf Hbuf P f tty sent0 path O_DIRECTORY w Hchars Hlen
      ltac:(done) Hr) as (d & w' & E & Hd & Hu). exists d, w'. split_and!; try done. by exists 0%nat.
  - apply ls_read.
  - intros d out w (x & Hu & _). exists 0. by apply (in_use_close regs buf P f tty sent0 d x).
  - intros d rest out bytes w (x & Hu & Hr) Hb Hu8.
    pose proof (in_use_sink regs buf Hbuf P f tty sent0 d x) as Hsink.
    destruct (Hsink out bytes w Hu Hb Hu8) as (n & w' & E & Hn & Hu').
    exists n, w'. split_and!; try done. by exists x.
  - eapply Forall_impl; [apply list_entries|]. by intros e (_ & ? & _).
Qed.
End kernel.

(** From the start of ls to its exit *)
Lemma ls_sends regs buf P f es `{!Listing P f es} path tty out0 fuel (u : user system) :
  BASE ≤ buf ∧ buf + 512 ≤ BASE + 0x100000 →
  Forall (λ b, 0 < b < 0x100) path ∧ (length path < 512)%nat →
  cursor u = 0 → ready P f tty out0 path O_DIRECTORY [] (os u) → (length es < fuel)%nat →
  ∃ u', _start (OsProc0 := kernel_proc regs buf) (ls_main (Os0 := kernel_os regs buf) fuel)
          [Some path; None] u = zoom (usr_syscall_exit regs 0) u' ∧
    wf (os u') ∧ (∃ p, running (os u') p) ∧
    uart_out (fs_uart (vs_fs (filesys (os u')))) = rev (cooked (concat (map entry_line es))) ++ out0.
Proof.
  intros Hbuf Hpath Hcur Hready Hfuel.
  pose proof (kernel_text_dir regs buf Hbuf P f es path tty out0 Hpath) as Hdir.
  destruct (ls_exits (Os0 := kernel_os regs buf) (OsProc0 := kernel_proc regs buf) path es _ _ _ fuel u
    (conj Hcur Hready) Hfuel) as (u' & E & [p s g Hc _ [fl node _ _ _ Hout]]).
  exists u'. split_and!; [exact E|apply Hc|exists p; apply Hc|done].
Qed.

(** ** Properties *)


End LsSpec.
