(* ===== verification/DiskFiles.v ===== *)
(** * From the disk to the serial line

    What the sectors of a FAT32 volume say about a path is what cat and ls, running on the
    kernel, send for it. *)
From S2P Require Import Prelude Bitfield Mmu Alloc Heap Hash Fs FsState Devices Ramfs Fat32 Fat32Spec Fat32DirSpec Vfs VfsSpec VfsFiles FatFiles Scheduler SchedulerInv Exec Syscalls SystemInv ExecSpec Format Log Stdio StdioSpec Usr UsrCalls UsrSpec UsrFiles Programs ProgramsSpec CatSpec LsSpec.
Import Fs FsState Devices Fat32 Fat32Spec Fat32DirSpec Vfs VfsFiles FatFiles Scheduler SchedulerInv Exec SystemInv Format Log Stdio StdioSpec Usr UsrCalls UsrSpec UsrFiles Programs ProgramsSpec CatSpec LsSpec.

Module DiskFiles.

(** The terminal while another file is opened *)
Lemma tty_opened tty out0 s s1 s' i x f : new_inode s s1 i x → opened s1 s' i f →
  tty_open tty out0 [] s → tty_open tty out0 [] s' ∧ tty ≠ f.
Proof.
  intros [[_ Hi] Ein Efi Eu] [[_ Hf] [p Ef] Ei' Eu'] [fl node Hfl Hn Hops Hout].
  rewrite Efi in Hf, Ef. assert (tty ≠ f) as Hne by congruence. split; [|done].
  apply (tty_open_intro _ _ _ _ fl node); rewrite ?Ef, ?Ei', ?Ein, ?Eu', ?Eu; try done.
  - by rewrite lookup_insert_ne.
  - rewrite lookup_insert_ne; [done|]. congruence.
Qed.

(** The new file and its inode *)
Lemma opened_file s s1 s' i x f : new_inode s s1 i x → opened s1 s' i f →
  ∃ p, fs_files s' !! f = Some (mkfile 0 i 0 p) ∧ fs_inodes s' !! i = Some x.
Proof.
  intros [_ Ein _ _] [_ [p Ef] Ei' _]. exists p.
  by rewrite Ef, Ei', Ein, !lookup_insert_eq.
Qed.

Section path.
Context (w : system) (p : process) (mem : gmap Z Z) (tty : Z) (out0 : list Z).
Context (path : name_t) (q : Z) (d : dentry) (name : name_t).
Context (v : fat32_sb_private_t) (chain : list Z) (secs : list (list Z)) (items : list dir_item) (sb : Z).
Context (e : fat_sfn_directory_entry_t) (ino : Z) (l : name_t).
Context (chain' : list Z) (secs' : list (list Z)).
Hypothesis Hcaller : caller w p mem.
Hypothesis Hout : has_fd p 1 tty.
Hypothesis Htty : tty_open tty out0 [] (vs_fs (filesys w)).
Hypothesis Hfree : ∃ j, 0 ≤ j < 16 ∧ Bitfield.used (files_bitfield p) j = false.
Hypothesis Hpath : fat_path (filesys w) path q d name v chain secs items sb.
Hypothesis Hfind : find (named name) (listed v chain 0 items) = Some (e, ino, l).
Hypothesis Hvol : on_volume v (vs_fs (filesys w)) chain' secs'.
Hypothesis Hstart : chain' !! 0%nat = Some (first_cluster e).

Lemma ready_file n : is_dir e = false → file_size e = Z.of_nat n →
  (n ≤ 512 * length secs')%nat → Z.of_nat (length secs') * 512 < 0x80000000 →
  ∃ f, ready (fat_at f v chain' secs' n) f tty out0 path 0 [] w.
Proof using All.
  intros Hd Hn Hle Hbig.
  destruct (open_found _ _ _ _ _ _ _ _ _ _ Hpath e ino l 0 0 chain' secs' Hfind eq_refl Hvol Hstart) as [H _].
  destruct (H Hd eq_refl n Hn Hle Hbig) as (f & i & fs1 & v' & E & Hi & Ho & Hff).
  destruct (tty_opened _ _ _ _ _ _ _ _ Hi Ho Htty) as [Ht Hne].
  destruct (opened_file _ _ _ _ _ _ Hi Ho) as (pr & Hfl & Hnode).
  exists f. apply (ready_intro _ _ _ _ _ _ _ _ p mem v'); try done.
  apply (fat_at_intro _ _ _ _ _ _ _ _ (mkfile 0 i 0 pr) (inode_of e sb ino)); try done; [lia| |apply Ho].
  unfold inode_of. fold (is_dir e). by rewrite Hd.
Qed.

Lemma ready_dir items' : is_dir e = true → dir_from secs' 0 items' →
  ∃ f, ready (fat_dir_at f v chain' secs' (map dirent_of (listed v chain' 0 items'))) f tty out0 path
    O_DIRECTORY [] w.
Proof using All.
  intros Hd Hitems.
  destruct (open_found _ _ _ _ _ _ _ _ _ _ Hpath e ino l O_DIRECTORY 0 chain' secs' Hfind eq_refl Hvol
    Hstart) as [_ H].
  destruct (H Hd items' Hitems) as (f & i & fs1 & v' & E & Hi & Ho & Hff).
  destruct (tty_opened _ _ _ _ _ _ _ _ Hi Ho Htty) as [Ht Hne].
  destruct (opened_file _ _ _ _ _ _ Hi Ho) as (pr & Hfl & Hnode).
  exists f. apply (ready_intro _ _ _ _ _ _ _ _ p mem v'); try done.
  apply (fat_dir_at_intro _ _ _ _ _ _ _ _ (mkfile 0 i 0 pr) (inode_of e sb ino)
    (listed v chain' 0 items')); try done; [|apply Ho].
  unfold inode_of. fold (is_dir e). by rewrite Hd.
Qed.
End path.

(** ** Properties *)

End DiskFiles.
