(* ===== verification/ProgramsWitness.v ===== *)
(** * The user programs at work

    [UsrWitness]: init of the machine of [SystemExamples] prints on its terminal;
    [ProgramsWitness]: cat and ls on that machine, and the shell on a console. *)
From S2P Require Import Prelude Bitfield Mmu Alloc Heap Hash Scheduler SchedulerInv SchedulerOps Fs FsState Devices Ramfs RamfsSpec Fat32 Fat32Spec Fat32DirSpec Vfs VfsFiles FsWitness ElfSpec Exec Syscalls SystemInv ExecSpec Kernel SystemExamples KernelSpec SystemWitness Format Log Stdio StdioSpec Usr UsrCalls UsrSpec Lucifer Programs ProgramsSpec ShellSpec UsrFiles CatSpec FileCalls LsSpec.
Import Fs FsState Devices Vfs Scheduler SchedulerInv SchedulerOps Exec Syscalls SystemInv Kernel SystemExamples KernelSpec SystemWitness Format Log Stdio StdioSpec Usr UsrCalls UsrSpec.

Module UsrWitness.

(** The buffer of the first stream. *)
Definition buffer : Z := 0x00881008.
Definition u0 : user system := mkuser 0 ∅ ∅ HEAP_START w_boot.

Definition tty_file : Z := Eval vm_compute in default 0 (files init_proc !! 1%nat).
Definition tty_entry : file := Eval vm_compute in
  default zero_file (fs_files (vs_fs (filesys w_boot)) !! tty_file).
Definition tty_node : inode := Eval vm_compute in
  default zero_inode (fs_inodes (vs_fs (filesys w_boot)) !! f_inode tty_entry).

Lemma boot_alone : alone w_boot.
Proof.
  intros i Hi. unfold ready.
  assert (live (sched w_boot) = [init_proc]) as -> by (vm_compute; reflexivity).
  assert (current_proc (sched w_boot) = 0) as -> by (vm_compute; reflexivity).
  destruct (Z.to_nat i) eqn:E; [lia|done].
Qed.

Lemma boot_wf : wf w_boot.
Proof. destruct w_boot_run as [i E]. by eapply (boot_inv _ _ _ _ _ i). Qed.

(** What was sent so far: the echo of nothing. *)
Lemma boot_caller : caller w_boot init_proc (image w_boot).
Proof.
  split; [exact boot_wf|exact boot_init|exact boot_alone|vm_compute; reflexivity].
Qed.

Lemma boot_stdout : has_fd init_proc 1 tty_file.
Proof. split; [lia|]. split_and!; [reflexivity|reflexivity|discriminate]. Qed.

Lemma boot_terminal : terminal 1 [] [] w_boot.
Proof.
  apply (terminal_intro _ _ _ _ init_proc (image w_boot) tty_file boot_caller boot_stdout).
  by apply (tty_open_intro _ _ _ _ tty_entry tty_node); vm_compute.
Qed.

Definition u1 : user system :=
  match fdopen 1 u0 with Ret (_, u) => u | _ => u0 end.

Lemma u1_wrote : wrote 1 (terminal 1 []) HEAP_START [] u1.
Proof.
  destruct (start_stream 1 [] u0 boot_terminal eq_refl) as (u' & E & Hw & _).
  assert (u' = u1) as <-; [|exact Hw].
  assert (fdopen 1 u0 = Ret (HEAP_START, u1)) as E' by reflexivity.
  rewrite E' in E. by injection E.
Qed.

(** The text of "pid %d" and a line end. *)
Definition text : list Z := str "pid %d!" ++ [10].

Lemma text_renders : stdio_render (pieces text) [VaInt 1] = Ret (str "pid 1" ++ 0 :: str "!" ++ [10]).
Proof. vm_compute. reflexivity. Qed.

Lemma buffer_ok : PROCESS_SECTION_VIRTUAL_ADDRRESS ≤ buffer ∧
  buffer + 128 ≤ PROCESS_SECTION_VIRTUAL_ADDRRESS + 0x100000.
Proof. split; vm_compute; discriminate. Qed.

Lemma stdio_refines_witness :
  ∃ u2 u3, fwrite (Os0 := kernel_os zero_context buffer) (str "hello") HEAP_START u1 = Ret (0, u2) ∧
    fflush (Os0 := kernel_os zero_context buffer) HEAP_START u2 = Ret (0, u3) ∧
    terminal 1 [] (str "hello") (os u3).
Proof.
  pose proof (terminal_sink zero_context buffer buffer_ok 1 []) as Hsink.
  destruct (stdio_refines (Os0 := kernel_os zero_context buffer) 1 (terminal 1 []) HEAP_START
    (str "hello") [] u1 u1_wrote) as (u2 & u3 & E2 & _ & _ & E3 & Ht & _).
  - repeat constructor; discriminate.
  - exists u2, u3. split; [exact E2|]. split; [exact E3|exact Ht].
Defined.

Lemma printf_like_kernel_log_witness :
  ∃ l' u', printf (Os0 := kernel_os zero_context buffer) text [VaInt 1] u1 = Ret (0, u') ∧
    terminal 1 [] l' (os u') ∧ drop_nuls l' = str "pid 1!" ++ [10].
Proof.
  pose proof (terminal_sink zero_context buffer buffer_ok 1 []) as Hsink.
  destruct (printf_like_kernel_log (Os0 := kernel_os zero_context buffer) 1 (terminal 1 []) text
    [VaInt 1] (str "pid 1!" ++ [10]) [] (vs_fs (filesys w_boot)) u1) as (_ & l' & u' & E & Ht & El).
  - repeat constructor.
  - repeat constructor.
  - assert (pieces text = map Lit (str "pid ") ++ [Dir 100] ++ map Lit (str "!" ++ [10])) as ->
      by (vm_compute; reflexivity).
    repeat (constructor; [exact I|]). constructor; [|repeat constructor].
    apply (bool_decide_eq_true_1 (100 ∈ [117; 100; 120; 115; 99; 37])). vm_compute. reflexivity.
  - vm_compute. reflexivity.
  - exact u1_wrote.
  - exists l', u'. split; [exact E|]. split; [exact Ht|]. rewrite El. vm_compute. reflexivity.
Defined.

Lemma printf_terminal_witness :
  ∃ u', printf (Os0 := kernel_os zero_context buffer) text [VaInt 1] u1 = Ret (0, u') ∧
    uart_out (fs_uart (vs_fs (filesys (os u')))) = rev (str "pid 1" ++ 0 :: str "!" ++ [13; 10]).
Proof.
  destruct (printf_terminal zero_context buffer 1 [] [] text [VaInt 1]
    (str "pid 1" ++ 0 :: str "!" ++ [10]) u1) as (u' & E & _ & Hout).
  - exact buffer_ok.
  - exact u1_wrote.
  - repeat constructor.
  - repeat constructor.
  - exact text_renders.
  - exists u'. split; [exact E|]. rewrite Hout. vm_compute. reflexivity.
Defined.

End UsrWitness.

Import RamfsSpec Fat32Spec Fat32DirSpec VfsFiles FsExamples Lucifer Programs ProgramsSpec ShellSpec UsrFiles CatSpec FileCalls LsSpec UsrWitness.

Module ProgramsWitness.

(** ** A console

    An operating system with one terminal: what will be typed, the statuses of the
    children, and what was written. *)
Record console : Type := mkconsole {
  typed : list (list Z);
  statuses : list Z;
  written : list Z;
}.

#[export] Instance console_os : Os console := {
  os_open path flags mode := ret 3;
  os_close d := ret 0;
  os_read d n := λ k,
    match typed k with
    | s :: l => Ret ((Z.of_nat (length s) + 1, s ++ [10]), mkconsole l (statuses k) (written k))
    | [] => Ret ((-1, []), k)
    end;
  os_write d bytes := λ k,
    Ret (Z.of_nat (length bytes), mkconsole (typed k) (statuses k) (written k ++ bytes));
  os_lseek d offset whence := ret (-1);
  os_readdir d n := ret (-1, []);
}.

#[export] Instance console_proc : OsProc console := {
  os_exit status := ret status;
  os_yield status := ret 0;
  os_reboot := ret 0;
  os_fork := ret 2;
  os_getpid := ret 1;
  os_waitpid pid := λ k,
    match statuses k with
    | st :: l => Ret ((pid, Some st), mkconsole (typed k) l (written k))
    | [] => Ret ((-1, None), k)
    end;
  os_exec path argv := ret (-1);
}.

Definition console_session (lines : list (list Z)) (sts : list Z) (out : list Z) (k : console) : Prop :=
  typed k = lines ∧ statuses k = sts ∧ written k = out.

#[export] Instance console_is_session : Session 1 console_session.
Proof.
  split.
  - intros s lines sts out [t st o] (Ht & Hs & Ho) _. simpl in *. subst. eexists. by split.
  - intros st lines sts out [t ss o] (Ht & Hs & Ho). simpl in *. subst.
    eexists 2, _, _. split; [done|]. split; [done|]. split; [done|]. by split_and!.
  - intros lines sts out k H. by exists k.
  - done.
  - intros lines sts l bytes [t ss o] (Ht & Hs & Ho) Hb _. simpl in *. subst.
    eexists _, _. split; [done|]. split; [lia|]. by split_and!.
Qed.

Definition fresh_program (k : console) : user console := mkuser 0 ∅ ∅ 0 k.


(** ** cat of init's program *)

Definition opened_file : file := Eval vm_compute in
  default zero_file (fs_files (vs_fs v_opened) !! f_init).
Definition opened_place : fat32_file_reg_private_t := Eval vm_compute in
  default (mkfreg (mkloc 0 0 0) 0) (fs_fat_files (vs_fs v_opened) !! f_private opened_file).

Lemma opened_on_volume : on_volume the_volume (vs_fs v_opened) [4] [sector_4].
Proof.
  apply (on_volume_same the_volume s_read); [|exact init_on_volume].
  split_and!; vm_compute; reflexivity.
Qed.

Lemma opened_at : fat_at f_init the_volume [4] [sector_4] 92 0 0 (vs_fs v_opened).
Proof.
  apply (fat_at_intro _ _ _ _ _ _ _ _ opened_file the_inode); try (vm_compute; reflexivity);
    [|lia|discriminate].
  apply (mkff _ _ _ _ _ _ _ opened_file the_inode the_sb opened_place);
    try (vm_compute; reflexivity); try discriminate.
  - exact opened_on_volume.
  - exists 0%nat, 0%nat. split; [reflexivity|]. split; [reflexivity|].
    split; apply Nat.leb_le; reflexivity.
  - apply Nat.leb_le. reflexivity.
Qed.

Definition program : list Z := fat_content [sector_4] 92.

Lemma program_u8 : Forall is_u8 program.
Proof.
  apply (Forall_impl (λ c, (0 <=? c) && (c <? 256) = true)).
  - assert (forallb (λ c, (0 <=? c) && (c <? 256)) program = true) as H by (vm_compute; reflexivity).
    rewrite forallb_forall in H. apply Forall_forall. intros c Hc. apply H.
    by apply list_elem_of_In.
  - intros c [H1%Z.leb_le H2%Z.ltb_lt]%andb_prop. unfold is_u8. lia.
Qed.

#[export] Instance program_sequential : Sequential (fat_at f_init the_volume [4] [sector_4] 92)
  f_init program.
Proof. apply fat_sequential, program_u8. Qed.

Definition cat_buffer : Z := 0x008E0000.

Lemma cat_buffer_ok : PROCESS_SECTION_VIRTUAL_ADDRRESS ≤ cat_buffer ∧
  cat_buffer + 512 ≤ PROCESS_SECTION_VIRTUAL_ADDRRESS + 0x100000.
Proof. split; vm_compute; discriminate. Qed.

Lemma init_path_ok : Forall (λ b, 0 < b < 0x100) (str "/bin/init") ∧ (length (str "/bin/init") < 512)%nat.
Proof. split; [repeat constructor|apply Nat.ltb_lt; reflexivity]. Qed.

Lemma boot_cat : ready (fat_at f_init the_volume [4] [sector_4] 92) f_init tty_file []
  (str "/bin/init") 0 [] w_boot.
Proof.
  apply (ready_intro _ _ _ _ _ _ _ _ init_proc (image w_boot) v_opened eq_refl boot_caller
    boot_stdout).
  - discriminate.
  - exists 3. split; [lia|]. vm_compute. reflexivity.
  - vm_compute. reflexivity.
  - apply (tty_open_intro _ _ _ _ tty_entry tty_node); vm_compute; reflexivity.
  - exact opened_at.
Qed.


(** ** ls of the directory of the devices *)

Definition dev_opened : outcome (Z * vstate) :=
  vfs_file_open (str "/dev") O_DIRECTORY 0 (filesys w_boot).
Definition f_dev : Z := Eval vm_compute in match dev_opened with Ret (f, _) => f | _ => 0 end.
Definition v_dev : vstate := match dev_opened with Ret (_, v) => v | _ => filesys w_boot end.
Definition dev_file : file := Eval vm_compute in default zero_file (fs_files (vs_fs v_dev) !! f_dev).
Definition dev_node : inode := Eval vm_compute in
  default zero_inode (fs_inodes (vs_fs v_dev) !! f_inode dev_file).
Definition dev_children : list ramfs_inode_child_t := Eval vm_compute in
  default [] (children <$> fs_dirs (vs_fs v_dev) !! i_private dev_node).
Definition dev_sb : super_block_t := Eval vm_compute in
  default (mksb 0 RAMFS_SB_OPS 0) (fs_sbs (vs_fs v_dev) !! super_block dev_node).
Definition dev_entries : list dirent :=
  [mkdirent DT_CHR (str "tty"); mkdirent DT_BLK (str "ramdisk"); mkdirent DT_BLK (str "sdcard")].

Lemma dev_rdir : rdir (vs_fs v_dev) (f_inode dev_file) (i_private dev_node) dev_children.
Proof.
  apply (mkrd _ _ _ _ dev_node dev_sb (sb_private dev_sb)); try (vm_compute; reflexivity).
  - vm_compute. by eexists.
  - intros c Hc. repeat (apply elem_of_cons in Hc as [->|Hc]; [discriminate|]).
    by apply elem_of_nil in Hc.
Qed.

Lemma dev_at : dir_at f_dev (f_inode dev_file) (i_private dev_node) dev_children dev_entries 0 0
  (vs_fs v_dev).
Proof.
  apply (dir_at_intro _ _ _ _ _ _ _ _ dev_file); try (vm_compute; reflexivity); try discriminate.
  exact dev_rdir.
Qed.

#[export] Instance dev_listing :
  Listing (dir_at f_dev (f_inode dev_file) (i_private dev_node) dev_children dev_entries) f_dev
    dev_entries.
Proof.
  apply dir_listing.
  - repeat constructor; try done; apply Nat.leb_le; reflexivity.
  - repeat constructor; apply Nat.leb_le; reflexivity.
Qed.

Lemma boot_ls : ready (dir_at f_dev (f_inode dev_file) (i_private dev_node) dev_children dev_entries)
  f_dev tty_file [] (str "/dev") O_DIRECTORY [] w_boot.
Proof.
  apply (ready_intro _ _ _ _ _ _ _ _ init_proc (image w_boot) v_dev eq_refl boot_caller boot_stdout).
  - discriminate.
  - exists 3. split; [lia|]. vm_compute. reflexivity.
  - vm_compute. reflexivity.
  - apply (tty_open_intro _ _ _ _ tty_entry tty_node); vm_compute; reflexivity.
  - exact dev_at.
Qed.

Lemma dev_path_ok : Forall (λ b, 0 < b < 0x100) (str "/dev") ∧ (length (str "/dev") < 512)%nat.
Proof. split; [repeat constructor|apply Nat.ltb_lt; reflexivity]. Qed.

(** ** ls of the directory of the programs, on the card *)

Definition bin_opened : outcome (Z * vstate) :=
  vfs_file_open (str "/bin") O_DIRECTORY 0 (filesys w_boot).
Definition f_bin : Z := Eval vm_compute in match bin_opened with Ret (f, _) => f | _ => 0 end.
Definition v_bin : vstate := match bin_opened with Ret (_, v) => v | _ => filesys w_boot end.
Definition bin_file : file := Eval vm_compute in default zero_file (fs_files (vs_fs v_bin) !! f_bin).
Definition bin_node : inode := Eval vm_compute in
  default zero_inode (fs_inodes (vs_fs v_bin) !! f_inode bin_file).
Definition bin_sb : super_block_t := Eval vm_compute in
  default (mksb 0 RAMFS_SB_OPS 0) (fs_sbs (vs_fs v_bin) !! super_block bin_node).
Definition sector_3 : list Z := Eval vm_compute in bin_block.
Definition bin_items : list Fat32DirSpec.dir_item := Eval vm_compute in
  [Named None (take 32 sector_3); Named (Some (0x5A, str "notes.txt")) (Fat32.slice sector_3 64 32)].
Definition bin_entries : list dirent :=
  [mkdirent DT_REG (str "init"); mkdirent DT_REG (str "notes.txt")].

Lemma bin_from : dir_from [sector_3] 0 bin_items.
Proof.
  split.
  - repeat (apply Forall_cons; split); [..|by apply Forall_nil].
    all: split; [reflexivity|]; split; [discriminate|].
    all: split; [discriminate|]; split; [reflexivity|]; split; [discriminate|].
    + done.
    + split; [split; apply Nat.leb_le; reflexivity|]. repeat constructor.
  - exists (replicate 415 0). vm_compute. reflexivity.
Qed.

Lemma bin_dir : fat_dir (vs_fs v_bin) f_bin the_volume [3] [sector_3] (listed the_volume [3] 0 bin_items).
Proof.
  apply (mkfd _ _ _ _ _ _ bin_file bin_node bin_sb 0 bin_items); try (vm_compute; reflexivity);
    try discriminate.
  - split.
    + simpl. lia.
    + intros [|j] c c' H1 H2; discriminate.
    + reflexivity.
    + intros [|k] c b H1 H2; [|discriminate]. vm_compute in H1.
      injection H1 as <-. injection H2 as <-. vm_compute. reflexivity.
    + intros b Hb%list_elem_of_singleton. by subst b.
    + by apply (bool_decide_eq_true_1 (NoDup [3])).
    + apply Nat.leb_le. reflexivity.
  - exact bin_from.
Qed.

#[export] Instance bin_listing : Listing (fat_dir_at f_bin the_volume [3] [sector_3] bin_entries) f_bin
  bin_entries.
Proof. apply fat_dir_listing. repeat constructor; try done. Qed.

Lemma boot_ls_bin : ready (fat_dir_at f_bin the_volume [3] [sector_3] bin_entries) f_bin tty_file []
  (str "/bin") O_DIRECTORY [] w_boot.
Proof.
  apply (ready_intro _ _ _ _ _ _ _ _ init_proc (image w_boot) v_bin eq_refl boot_caller boot_stdout).
  - discriminate.
  - exists 3. split; [lia|]. vm_compute. reflexivity.
  - vm_compute. reflexivity.
  - apply (tty_open_intro _ _ _ _ tty_entry tty_node); vm_compute; reflexivity.
  - apply (fat_dir_at_intro _ _ _ _ _ _ _ _ bin_file bin_node _ bin_dir); try (vm_compute; reflexivity).
    discriminate.
Qed.

Lemma bin_path_ok : Forall (λ b, 0 < b < 0x100) (str "/bin") ∧ (length (str "/bin") < 512)%nat.
Proof. split; [repeat constructor|apply Nat.ltb_lt; reflexivity]. Qed.


(** ** A note kept in memory *)

Definition note_lookup : outcome (Z * vstate) := _vfs_dentry_lookup (str "/dev/note") (filesys w_boot).
Definition note_entry : Z := Eval vm_compute in match note_lookup with Ret (e, _) => e | _ => 0 end.
Definition v_note : vstate := match note_lookup with Ret (_, v) => v | _ => filesys w_boot end.
Definition note_dentry : dentry := Eval vm_compute in
  default (mkdentry [] 0 0 []) (dentries (vs_vfs v_note) !! note_entry).
Definition dev_dentry : dentry := Eval vm_compute in
  default (mkdentry [] 0 0 []) (dentries (vs_vfs v_note) !! d_parent note_dentry).

Lemma note_missing : missing_at v_note note_entry (str "note") (f_inode dev_file) (i_private dev_node)
  dev_children.
Proof.
  split.
  - exists note_dentry, dev_dentry. split_and!; vm_compute; reflexivity.
  - discriminate.
  - apply (mkrd _ _ _ _ dev_node dev_sb (sb_private dev_sb)); try (vm_compute; reflexivity).
    + vm_compute. by eexists.
    + intros c Hc. repeat (apply elem_of_cons in Hc as [->|Hc]; [discriminate|]).
      by apply elem_of_nil in Hc.
  - apply Nat.leb_le. reflexivity.
  - reflexivity.
Qed.

Lemma save_and_load_witness :
  ∃ d w1 w2 w3 w4 w5,
    os_open (Os := kernel_os zero_context cat_buffer) (str "/dev/note") O_CREAT S_IFREG w_boot =
      Ret (d, w1) ∧
    os_write (Os := kernel_os zero_context cat_buffer) d (str "hello") w1 = Ret (5, w2) ∧
    os_lseek (Os := kernel_os zero_context cat_buffer) d 1 SEEK_SET w2 = Ret (1, w3) ∧
    os_read (Os := kernel_os zero_context cat_buffer) d 512 w3 = Ret ((4, str "ello"), w4) ∧
    os_close (Os := kernel_os zero_context cat_buffer) d w4 = Ret (0, w5).
Proof.
  destruct (save_and_load zero_context cat_buffer (proj1 cat_buffer_ok) w_boot init_proc (image w_boot)
    (str "/dev/note") v_note note_entry (str "note") (f_inode dev_file) (i_private dev_node)
    dev_children (str "hello") 1 512 boot_caller)
    as (d & f & i & pf & b & w1 & w2 & w3 & w4 & w5 & p5 & s5 & E1 & E2 & E3 & E4 & E5 & _).
  - exists 3. split; [lia|]. vm_compute. reflexivity.
  - repeat constructor.
  - vm_compute. reflexivity.
  - vm_compute. reflexivity.
  - exact note_missing.
  - decide_wf.
  - split; vm_compute; discriminate.
  - repeat constructor; discriminate.
  - vm_compute. discriminate.
  - apply Nat.ltb_lt. reflexivity.
  - lia.
  - vm_compute. discriminate.
  - exists d, w1, w2, w3, w4, w5.
    split; [exact E1|]. split; [exact E2|]. split; [exact E3|]. split; [exact E4|exact E5].
Defined.

End ProgramsWitness.
