(* ===== verification/DiskWitness.v ===== *)
(** * The card of the examples

    Its sectors decoded: [/bin/notes.txt] and [/doc] on the machine of [SystemExamples]. *)
From S2P Require Import Prelude Bitfield Mmu Alloc Heap Hash Scheduler SchedulerInv Fs FsState Devices Ramfs RamfsSpec Fat32 Fat32Spec Fat32DirSpec Vfs VfsSpec VfsFiles FatFiles MountSpec FsWitness ElfSpec FsInv Exec Syscalls SystemInv ExecSpec Kernel SystemExamples KernelSpec KernelFs InitSpec SystemWitness Format Log Stdio StdioSpec Usr UsrCalls UsrSpec Programs ProgramsSpec UsrFiles CatSpec LsSpec DiskFiles ProgramsWitness.
Import Fs FsState Devices Fat32 RamfsSpec Fat32Spec Fat32DirSpec Vfs VfsSpec VfsFiles FatFiles MountSpec FsExamples Scheduler SchedulerInv Exec SystemInv ExecSpec SystemExamples KernelSpec KernelFs InitSpec SystemWitness Format Stdio StdioSpec Usr UsrCalls UsrSpec Programs ProgramsSpec UsrFiles CatSpec LsSpec DiskFiles UsrWitness ProgramsWitness.

Module DiskWitness.

Definition v_boot : vstate := filesys w_boot.

Lemma one_sector s c b : length b = 512%nat → _fat_read_sector the_volume (mkloc 0 c 0) s = Ret (b, s) →
  on_volume the_volume s [c] [b].
Proof.
  intros Hb E. split.
  - vm_compute. by split.
  - intros [|[|j]] x y H1 H2; discriminate.
  - reflexivity.
  - intros [|k] x y H1 H2; [|discriminate]. vm_compute in H1. injection H1 as <-. injection H2 as <-. exact E.
  - intros x ->%list_elem_of_singleton. exact Hb.
  - apply NoDup_singleton.
  - apply Nat.leb_le. vm_compute. reflexivity.
Qed.

(** ** The entries in the cache *)

Definition root_entry : Z := Eval vm_compute in root (vs_vfs v_boot).
Definition root_dentry : dentry := Eval vm_compute in
  default (mkdentry [] 0 0 []) (dentries (vs_vfs v_boot) !! root_entry).
Definition bin_entry : Z := Eval vm_compute in
  default 0 (cached (vs_vfs v_boot) (d_children root_dentry) (str "bin")).
Definition bin_dentry : dentry := Eval vm_compute in
  default (mkdentry [] 0 0 []) (dentries (vs_vfs v_boot) !! bin_entry).
Definition root_node : inode := Eval vm_compute in
  default zero_inode (fs_inodes (vs_fs v_boot) !! d_inode root_dentry).
Definition bin_inode : inode := Eval vm_compute in
  default zero_inode (fs_inodes (vs_fs v_boot) !! d_inode bin_dentry).

Definition sector_2 : list Z := Eval vm_compute in root_block.
Definition root_items : list Fat32DirSpec.dir_item := Eval vm_compute in
  [Named None (take 32 sector_2); Named None (Fat32.slice sector_2 32 32);
   Named None (Fat32.slice sector_2 64 32)].

Lemma root_from : dir_from [sector_2] 0 root_items.
Proof.
  split.
  - repeat (apply Forall_cons; split); [..|by apply Forall_nil].
    all: split; [reflexivity|]; split; [discriminate|].
    all: split; [discriminate|]; split; [reflexivity|]; by split.
  - exists (replicate 415 0). vm_compute. reflexivity.
Qed.

Lemma boot_vfs_wf : vfs_wf (vs_vfs v_boot).
Proof. exact (reachable_tree _ _ _ _ _ w_boot_reachable). Qed.

Lemma root_dir : fat_dir_inode (vs_fs v_boot) (d_inode root_dentry) the_volume [2] [sector_2] root_items
  (super_block root_node).
Proof.
  apply (mkfdi _ _ _ _ _ _ _ root_node the_sb); try (vm_compute; reflexivity).
  - apply one_sector; vm_compute; reflexivity.
  - exact root_from.
Qed.

Lemma bin_dir_inode : fat_dir_inode (vs_fs v_boot) (d_inode bin_dentry) the_volume [3] [sector_3] bin_items
  (super_block bin_inode).
Proof.
  apply (mkfdi _ _ _ _ _ _ _ bin_inode the_sb); try (vm_compute; reflexivity).
  - apply one_sector; vm_compute; reflexivity.
  - exact bin_from.
Qed.

Lemma boot_fs_wf : fs_wf (vs_fs v_boot).
Proof. apply FsInv.fi_wf. exact (reachable_fs_inv 0x8000 ∅ card [13; 104; 105; 13] _ eq_refl w_boot_reachable). Qed.

(** A new name in [/bin] *)
Lemma bin_path name : 47 ∉ name → name ≠ [] → (length name ≤ 15)%nat →
  cached (vs_vfs v_boot) (d_children bin_dentry) name = None →
  fat_path v_boot (str "/bin/" ++ name) bin_entry bin_dentry name the_volume [3] [sector_3] bin_items
    (super_block bin_inode).
Proof.
  intros H47 Hne Hlen Hnew. split.
  - exists (str "bin" ++ 47 :: name). split; [reflexivity|].
    apply (cp_step _ _ root_dentry _ bin_entry bin_dentry).
    + by apply (bool_decide_eq_true_1 (47 ∉ str "bin")).
    + apply Nat.leb_le. reflexivity.
    + vm_compute. reflexivity.
    + vm_compute. reflexivity.
    + vm_compute. reflexivity.
    + split; [discriminate|]. exists bin_inode. split; vm_compute; reflexivity.
    + by apply cp_last.
  - vm_compute. reflexivity.
  - exact Hnew.
  - split; [exact Hlen|]. split; [apply Nat.ltb_lt; reflexivity|].
    exists 20. split; [lia|]. vm_compute. reflexivity.
  - exact bin_dir_inode.
  - split; [discriminate|]. exists bin_inode. split_and!; vm_compute; reflexivity.
  - split; [exact boot_vfs_wf|]. split; [exact boot_fs_wf|]. split; vm_compute; discriminate.
Qed.

Lemma notes_path : fat_path v_boot (str "/bin/notes.txt") bin_entry bin_dentry (str "notes.txt")
  the_volume [3] [sector_3] bin_items (super_block bin_inode).
Proof.
  apply (bin_path (str "notes.txt")); [|discriminate|apply Nat.leb_le; reflexivity|vm_compute; reflexivity].
  by apply (bool_decide_eq_true_1 (47 ∉ str "notes.txt")).
Qed.

Lemma none_path : fat_path v_boot (str "/bin/none") bin_entry bin_dentry (str "none")
  the_volume [3] [sector_3] bin_items (super_block bin_inode).
Proof.
  apply (bin_path (str "none")); [|discriminate|apply Nat.leb_le; reflexivity|vm_compute; reflexivity].
  by apply (bool_decide_eq_true_1 (47 ∉ str "none")).
Qed.

Lemma none_found : find (named (str "none")) (listed the_volume [3] 0 bin_items) = None.
Proof. vm_compute. reflexivity. Qed.

(** ** The text [/bin/notes.txt] *)

Abbreviation entry_t := (fat_sfn_directory_entry_t * Z * name_t)%type.
Definition no_entry : entry_t := (sfn_entry [], 0, []).

Definition notes_entry : entry_t := Eval vm_compute in
  default no_entry (find (named (str "notes.txt")) (listed the_volume [3] 0 bin_items)).
Definition sector_6 : list Z := Eval vm_compute in take 512 notes.
Definition sector_7 : list Z := Eval vm_compute in pad 512 (drop 512 notes).

Lemma notes_found : find (named (str "notes.txt")) (listed the_volume [3] 0 bin_items) =
  Some (notes_entry.1.1, notes_entry.1.2, notes_entry.2).
Proof. vm_compute. reflexivity. Qed.

Lemma notes_volume : on_volume the_volume (vs_fs v_boot) [6; 7] [sector_6; sector_7].
Proof.
  split.
  - vm_compute. by split.
  - intros [|[|j]] x y H1 H2; try discriminate. injection H1 as <-. injection H2 as <-.
    vm_compute. reflexivity.
  - reflexivity.
  - intros [|[|k]] x y H1 H2; try discriminate; vm_compute in H1;
      injection H1 as <-; injection H2 as <-; vm_compute; reflexivity.
  - intros x Hx. repeat (apply elem_of_cons in Hx as [->|Hx]; [reflexivity|]). by apply elem_of_nil in Hx.
  - by apply (bool_decide_eq_true_1 (NoDup [6; 7])).
  - apply Nat.leb_le. vm_compute. reflexivity.
Qed.

(** ** The directory [/doc] *)

Definition doc_entry : entry_t := Eval vm_compute in
  default no_entry (find (named (str "doc")) (listed the_volume [2] 0 root_items)).
Definition sector_8 : list Z := Eval vm_compute in doc_block.
Definition doc_items : list Fat32DirSpec.dir_item := Eval vm_compute in
  [Skipped (take 32 sector_8); Skipped (Fat32.slice sector_8 32 32); Named None (Fat32.slice sector_8 64 32)].

Lemma doc_path : fat_path v_boot (str "/doc") root_entry root_dentry (str "doc")
  the_volume [2] [sector_2] root_items (super_block root_node).
Proof.
  split.
  - exists (str "doc"). split; [reflexivity|]. apply cp_last; [|discriminate].
    by apply (bool_decide_eq_true_1 (47 ∉ str "doc")).
  - vm_compute. reflexivity.
  - vm_compute. reflexivity.
  - split; [apply Nat.leb_le; reflexivity|]. split; [apply Nat.ltb_lt; reflexivity|].
    exists 20. split; [lia|]. vm_compute. reflexivity.
  - exact root_dir.
  - split; [discriminate|]. exists root_node. split_and!; vm_compute; reflexivity.
  - split; [exact boot_vfs_wf|]. split; [exact boot_fs_wf|]. split; vm_compute; discriminate.
Qed.

Lemma doc_found : find (named (str "doc")) (listed the_volume [2] 0 root_items) =
  Some (doc_entry.1.1, doc_entry.1.2, doc_entry.2).
Proof. vm_compute. reflexivity. Qed.

Lemma doc_volume : on_volume the_volume (vs_fs v_boot) [8] [sector_8].
Proof. apply one_sector; vm_compute; reflexivity. Qed.

Lemma doc_from : dir_from [sector_8] 0 doc_items.
Proof.
  split.
  - repeat (apply Forall_cons; split); [..|by apply Forall_nil].
    all: split; [reflexivity|]; split; [discriminate|].
    1-2: right; split; [reflexivity|]; split; reflexivity.
    split; [discriminate|]. split; [reflexivity|]. by split.
  - exists (replicate 415 0). vm_compute. reflexivity.
Qed.

(** ** The properties at these paths *)


Lemma boot_tty : tty_open tty_file [] [] (vs_fs (filesys w_boot)).
Proof. apply (tty_open_intro _ _ _ _ tty_entry tty_node); vm_compute; reflexivity. Qed.

Lemma free_descriptor : ∃ j, 0 ≤ j < 16 ∧ Bitfield.used (files_bitfield init_proc) j = false.
Proof. exists 3. split; [lia|]. vm_compute. reflexivity. Qed.

Lemma notes_path_ok : Forall (λ b, 0 < b < 0x100) (str "/bin/notes.txt") ∧
  (length (str "/bin/notes.txt") < 512)%nat.
Proof. split; [repeat constructor|apply Nat.ltb_lt; reflexivity]. Qed.
Lemma doc_path_ok : Forall (λ b, 0 < b < 0x100) (str "/doc") ∧ (length (str "/doc") < 512)%nat.
Proof. split; [repeat constructor|apply Nat.ltb_lt; reflexivity]. Qed.

(** ** The boot *)

Definition s_init : fs := vs_fs (filesys (initialized 0x8000 ∅ card [13; 104; 105; 13])).

Lemma card_volume : volume SDCARD boot_block = the_volume.
Proof. vm_compute. reflexivity. Qed.

Definition found_in (cluster : Z) (items : list Fat32DirSpec.dir_item) (name : name_t) : entry_t :=
  default no_entry (find (named name) (listed the_volume [cluster] 0 items)).

Lemma card_has cluster sector items name e :
  length sector = 512%nat → _fat_read_sector the_volume (mkloc 0 cluster 0) s_init = Ret (sector, s_init) →
  dir_from [sector] 0 items → find (named name) (listed the_volume [cluster] 0 items) = Some e →
  dir_has s_init the_volume cluster name e.1.1.
Proof.
  intros Hl E Hd Hf. exists [cluster], [sector], items, e.1.2, e.2.
  split; [by apply one_sector|]. split; [done|]. split; [done|]. rewrite Hf. by destruct e as [[]].
Qed.

Lemma card_boot_volume : boot_volume s_init boot_block (fat_content [sector_4] 92).
Proof.
  split; rewrite ?card_volume.
  - split; [exists create_sdcard_disk; split_and!; vm_compute; reflexivity|split; vm_compute; reflexivity].
  - exists (found_in 2 root_items (str "dev")).1.1. split; [|vm_compute; reflexivity].
    apply (card_has _ sector_2 root_items); [reflexivity|vm_compute; reflexivity|exact root_from|vm_compute; reflexivity].
  - exists (found_in 2 root_items (str "bin")).1.1, (found_in 3 bin_items (str "init")).1.1. split_and!.
    + apply (card_has _ sector_2 root_items); [reflexivity|vm_compute; reflexivity|exact root_from|vm_compute; reflexivity].
    + vm_compute. reflexivity.
    + apply (card_has _ sector_3 bin_items); [reflexivity|vm_compute; reflexivity|exact bin_from|vm_compute; reflexivity].
    + vm_compute. reflexivity.
    + exists [4], [sector_4], 92%nat. split_and!; [|vm_compute; reflexivity..| |reflexivity|reflexivity].
      * apply one_sector; vm_compute; reflexivity.
      * apply Nat.leb_le. reflexivity.
Qed.
End DiskWitness.
