(* ===== verification/Peripherals.v ===== *)
(** * Peripherals behind memory-mapped registers: [hardware/]

    The drivers of the pins, the serial line, the timer, the interrupt controller and
    the watchdog ([gpio.c], [mini_uart.c], [system_timer.c], [interupts.c],
    [watchdog.c]), on any hardware that answers to reads and writes of registers.  The
    contracts of the hardware are in [PeripheralsSpec]. *)
From S2P Require Import Prelude.

Module Peripherals.

(** ** Registers ([io_registers.h]) *)

Definition REG__IRQ_PEND_1 : Z := 0x2000B204.
Definition REG__IRQ_ENABLE_1 : Z := 0x2000B210.
Definition REG__PM_RSTC : Z := 0x2010001C.
Definition REG__PM_WDOG : Z := 0x20100024.
Definition REG__GPIO_GPFSEL (n : Z) : Z := u32 (0x20200000 + 4 * n).
Definition REG__GPIO_GPPUD : Z := 0x20200094.
Definition REG__GPIO_GPPUDCLK0 : Z := 0x20200098.
Definition REG__GPIO_GPPUDCLK1 : Z := 0x2020009C.
Definition REG__AUX_ENABLES : Z := 0x20215004.
Definition REG__AUX_MU_IO : Z := 0x20215040.
Definition REG__AUX_MU_IER : Z := 0x20215044.
Definition REG__AUX_MU_IIR : Z := 0x20215048.
Definition REG__AUX_MU_LCR : Z := 0x2021504C.
Definition REG__AUX_MU_LSR : Z := 0x20215054.
Definition REG__AUX_MU_CNTL : Z := 0x20215060.
Definition REG__AUX_MU_BAUD : Z := 0x20215068.
Definition REG__SYS_TIMER_CS : Z := 0x20003000.
Definition REG__SYS_TIMER_CLO : Z := 0x20003004.
Definition REG__SYS_TIMER_C3 : Z := 0x20003018.

(** ** The bus

    What a load and a store of a word do, and what becomes of the hardware while the
    processor counts down in [cpu_delay] or sleeps in [wfe]. *)
Class Mmio (H : Type) : Type := {
  bus_read : Z → H → Z * H;
  bus_write : Z → Z → H → H;
  bus_delay : Z → H → H;
  bus_wfe : H → H;
}.

Section drivers.
Context {H : Type} `{!Mmio H}.
Abbreviation MH := (M H).

(** The times a register is polled before the model gives up a loop that the code
    leaves only when the hardware answers. *)
Context (fuel : nat).

Definition mmio_read (addr : Z) : MH Z := λ h,
  let '(v, h') := bus_read addr h in Ret (u32 v, h').
Definition mmio_write (addr value : Z) : MH unit := modify (bus_write addr (u32 value)).
Definition cpu_delay (cycles : Z) : MH unit := modify (bus_delay cycles).
Definition wfe : MH unit := modify bus_wfe.

(** ** [gpio.c] *)

Definition GPIO_F_ALT_3 : Z := 7.
Definition GPIO_F_ALT_5 : Z := 2.
Definition GPIO_F_MASK : Z := 0x7.
Definition GPIO_MODE_PULL_FLOATING : Z := 0.
Definition GPIO_MODE_PULL_DOWN : Z := 1.
Definition GPIO_MODE_PULL_UP : Z := 2.
Definition GPIO_PIN_COUNT : Z := 54.

(** The register, and the shift that the C function stores through its argument. *)
Definition _select_gpfsel_register (gpio_index : Z) : Z * Z :=
  let gpfsel_index := gpio_index / 10 in
  (REG__GPIO_GPFSEL gpfsel_index, 3 * (gpio_index `mod` 10)).

Definition _select_gppud_clk_register (pin : Z) : Z :=
  if pin <? 32 then REG__GPIO_GPPUDCLK0 else REG__GPIO_GPPUDCLK1.

Definition gpio_select_function (pin function : Z) : MH unit :=
  if pin >=? GPIO_PIN_COUNT then fatal "gpio: invalid pin number"
  else
    let '(gpfsel_register, gpfsel_shift) := _select_gpfsel_register pin in
    let* gpfsel := mmio_read gpfsel_register in
    let gpfsel := Z.land gpfsel (u32 (Z.lnot (u32 (Z.shiftl GPIO_F_MASK gpfsel_shift)))) in
    let gpfsel := Z.lor gpfsel (u32 (Z.shiftl (Z.land function GPIO_F_MASK) gpfsel_shift)) in
    mmio_write gpfsel_register gpfsel.

Definition gpio_set_pin_mode (pin mode : Z) : MH unit :=
  if pin >=? GPIO_PIN_COUNT then fatal "gpio: invalid pin number"
  else
    let gppud_clk := _select_gppud_clk_register pin in
    let bit := Z.land pin 0xf in
    let* _ := mmio_write REG__GPIO_GPPUD mode in
    let* _ := cpu_delay 150 in
    let* _ := mmio_write gppud_clk (Z.shiftl 1 bit) in
    let* _ := cpu_delay 150 in
    let* _ := mmio_write REG__GPIO_GPPUD 0 in
    mmio_write gppud_clk 0.

(** ** [mini_uart.c] *)

Definition AUX_MINI_UART : Z := 0x1.
Definition AUX_MU_LCR_DATA_8BIT : Z := 0x1.
Definition AUX_MU_CNTL_RX_EN : Z := 0x1.
Definition AUX_MU_CNTL_TX_EN : Z := 0x1.

Definition mini_uart_init : MH unit :=
  let* _ := mmio_write REG__AUX_ENABLES AUX_MINI_UART in
  let* _ := mmio_write REG__AUX_MU_IER 0 in
  let* _ := mmio_write REG__AUX_MU_CNTL 0 in
  let* _ := mmio_write REG__AUX_MU_LCR AUX_MU_LCR_DATA_8BIT in
  let* _ := mmio_write REG__AUX_MU_IIR 0xC6 in
  let* _ := mmio_write REG__AUX_MU_BAUD 270 in
  let* _ := gpio_select_function 14 GPIO_F_ALT_5 in
  let* _ := gpio_select_function 15 GPIO_F_ALT_5 in
  let* _ := gpio_set_pin_mode 14 GPIO_MODE_PULL_FLOATING in
  let* _ := gpio_set_pin_mode 15 GPIO_MODE_PULL_FLOATING in
  mmio_write REG__AUX_MU_CNTL (Z.lor AUX_MU_CNTL_RX_EN AUX_MU_CNTL_TX_EN).

(** [while (1) { if (mmio_read(reg) & mask) break; idle }] *)
Fixpoint poll (n : nat) (reg mask : Z) (idle : MH unit) : MH unit :=
  match n with
  | O => λ _, Timeout
  | S n =>
      let* v := mmio_read reg in
      if negb (Z.land v mask =? 0) then ret ()
      else let* _ := idle in poll n reg mask idle
  end.

Definition mini_uart_putc (c : Z) : MH unit :=
  let* _ := poll fuel REG__AUX_MU_LSR 0x20 wfe in
  mmio_write REG__AUX_MU_IO c.

Definition mini_uart_wait_tx_idle : MH unit := poll fuel REG__AUX_MU_LSR 0x40 wfe.

Definition mini_uart_getc : MH Z :=
  let* _ := poll fuel REG__AUX_MU_LSR 0x01 wfe in
  let* v := mmio_read REG__AUX_MU_IO in
  ret (u8 (Z.land v 0xFF)).

(** [n] bytes to go. *)
Fixpoint recv_loop (n : nat) (data : list Z) : MH (list Z) :=
  match n with
  | O => ret data
  | S n => let* c := mini_uart_getc in recv_loop n (data ++ [c])
  end.

(** The number of bytes, and the bytes. *)
Definition mini_uart_recv (size : Z) : MH (Z * list Z) :=
  let* data := recv_loop (Z.to_nat size) [] in ret (size, data).

(** ** [system_timer.c] and [interupts.c] *)

Definition SYS_TIMER_CS_M3 : Z := 0x8.
Definition IRQ1_SYSTEM_TIMER_3 : Z := 0x8.

Definition system_timer_init : MH unit :=
  let delay := 20000 in
  let* clo := mmio_read REG__SYS_TIMER_CLO in
  let next_tick := u32 (clo + delay) in
  let* _ := mmio_write REG__SYS_TIMER_C3 next_tick in
  mmio_write REG__IRQ_ENABLE_1 IRQ1_SYSTEM_TIMER_3.

Definition irq_handler : MH unit :=
  let* grp1_pending := mmio_read REG__IRQ_PEND_1 in
  if negb (Z.land grp1_pending IRQ1_SYSTEM_TIMER_3 =? 0) then
    let* _ := mmio_write REG__SYS_TIMER_CS SYS_TIMER_CS_M3 in
    let delay := 10000 in
    let* clo := mmio_read REG__SYS_TIMER_CLO in
    let next_tick := u32 (clo + delay) in
    mmio_write REG__SYS_TIMER_C3 next_tick
  else ret ().

(** ** [watchdog.c] *)

Definition PM_PASSWORD : Z := 0x5A000000.
Definition PM_WDOG_TIME_MASK : Z := 0x000FFFFF.
Definition PM_RSTC_WRCFG_FULL_RESET : Z := 0x00000020.

(** The two writes before the processor spins until the reset. *)
Definition watchdog_arm : MH unit :=
  let timeout_ticks := 1 in
  let* _ := mmio_write REG__PM_RSTC (Z.lor PM_PASSWORD PM_RSTC_WRCFG_FULL_RESET) in
  mmio_write REG__PM_WDOG (Z.lor PM_PASSWORD (Z.land timeout_ticks PM_WDOG_TIME_MASK)).

Definition watchdog_reboot : MH unit :=
  let* _ := watchdog_arm in λ _, Timeout.
End drivers.

End Peripherals.
