(* ===== verification/PeripheralsSpec.v ===== *)
(** * Contracts of the pins and the serial line, and that the drivers fulfil theirs

    [Uart] and [Gpio] state what the BCM2835 manual promises of the mini UART and of the
    pin registers.  On any such hardware the driver of the serial line is the byte
    stream that [Devices] works with, and the driver of the pins changes one pin. *)
From S2P Require Import Prelude Mmu Alloc Heap Fs FsState Devices Peripherals.
Import FsState Peripherals.

Module PeripheralsSpec.

(** ** The serial line *)

(** What is at the other end of the line: it may answer each byte it gets. *)
Class Peer (P : Type) : Type := react : P → Z → P * list Z.

(** The bytes on their way to the processor, and the other end. *)
Record line (P : Type) : Type := mkline { pending : list Z; peer : P }.
Arguments mkline {P} _ _.
Arguments pending {P} _.
Arguments peer {P} _.

Definition line_send {P} `{!Peer P} (c : Z) (l : line P) : line P :=
  let '(p, reply) := react (peer l) c in mkline (pending l ++ map u8 reply) p.

Definition line_rest {P} (l : line P) (rest : list Z) : line P := mkline rest (peer l).

Definition lsr {H} `{!Mmio H} (h : H) : Z := u32 (fst (bus_read REG__AUX_MU_LSR h)).
Definition lsr_next {H} `{!Mmio H} (h : H) : H := snd (bus_read REG__AUX_MU_LSR h).

(** The mini UART: bit 5 of the line status says that a byte may be written, which is so
    again after at most [patience] polls; bit 0 that one may be read, which is so after
    at most [patience] polls when one is on its way. *)
Class Uart (H P : Type) `{!Mmio H, !Peer P} : Type := {
  uart : H → line P;
  patience : nat;
  tx_wait : H → nat;
  rx_wait : H → nat;
  tx_patient h : (tx_wait h < patience)%nat;
  rx_patient h : (rx_wait h < patience)%nat;
  lsr_line h : uart (lsr_next h) = uart h;
  lsr_tx h : Z.testbit (lsr h) 5 = true ∨ (tx_wait (lsr_next h) < tx_wait h)%nat;
  lsr_rx h : pending (uart h) ≠ [] →
    Z.testbit (lsr h) 0 = true ∨ (rx_wait (lsr_next h) < rx_wait h)%nat;
  lsr_empty h : pending (uart h) = [] → Z.testbit (lsr h) 0 = false;
  wfe_line h : uart (bus_wfe h) = uart h;
  wfe_tx h : (tx_wait (bus_wfe h) ≤ tx_wait h)%nat;
  wfe_rx h : (rx_wait (bus_wfe h) ≤ rx_wait h)%nat;
  io_write h c : is_u8 c → Z.testbit (lsr h) 5 = true →
    uart (bus_write REG__AUX_MU_IO c (lsr_next h)) = line_send c (uart h);
  io_read h c rest : Z.testbit (lsr h) 0 = true → pending (uart h) = c :: rest →
    u8 (fst (bus_read REG__AUX_MU_IO (lsr_next h))) = c ∧
    uart (snd (bus_read REG__AUX_MU_IO (lsr_next h))) = line_rest (uart h) rest;
}.

Lemma mmio_read_run {H} `{!Mmio H} reg (h : H) :
  mmio_read reg h = Ret (u32 (fst (bus_read reg h)), snd (bus_read reg h)).
Proof. unfold mmio_read. by destruct (bus_read reg h). Qed.

Lemma land_bit v k : 0 ≤ k → negb (Z.land v (2 ^ k) =? 0) = Z.testbit v k.
Proof.
  intros Hk. by rewrite <- (Z.shiftl_1_l k), Z.land_comm, testbit_land_pow2, negb_involutive by lia.
Qed.

Section line.
Context {H P : Type} `{!Mmio H, !Peer P, U : !Uart H P}.

(** A loop that polls a status bit, while the hardware does not change [f] and [wait]
    counts the polls that are left. *)
Section polling.
Context {V : Type} (f : H → V) (wait : H → nat) (idle : M H unit) (k : Z).
Hypothesis Hk : 0 ≤ k.
Hypothesis Hnext : ∀ h, f (lsr_next h) = f h.
Hypothesis Hidle : ∀ h, ∃ h', idle h = Ret ((), h') ∧ f h' = f h ∧ (wait h' ≤ wait h)%nat.

Lemma poll_run n h :
  (∀ h', f h' = f h → Z.testbit (lsr h') k = true ∨ (wait (lsr_next h') < wait h')%nat) →
  (wait h < n)%nat →
  ∃ h', poll n REG__AUX_MU_LSR (2 ^ k) idle h = Ret ((), lsr_next h') ∧
    f h' = f h ∧ Z.testbit (lsr h') k = true.
Proof.
  revert h. induction n as [|n IH]; intros h Hgo Hn; [lia|].
  cbn [poll]. rewrite (bind_Ret _ _ _ _ _ (mmio_read_run _ _)), land_bit by done.
  fold (lsr h) (lsr_next h).
  destruct (Z.testbit (lsr h) k) eqn:Eb; [by exists h|].
  destruct (Hidle (lsr_next h)) as (h' & E & Hf & Hw). rewrite (bind_Ret _ _ _ _ _ E).
  assert (f h' = f h) as Hff by by rewrite Hf, Hnext.
  destruct (Hgo h eq_refl) as [?|?]; [congruence|].
  destruct (IH h') as (h2 & E2 & H2 & Hb); [intros h3; rewrite Hff; by apply Hgo|lia|].
  exists h2. by rewrite H2, Hff.
Qed.

Lemma poll_for_ever n h :
  (∀ h', f h' = f h → Z.testbit (lsr h') k = false) →
  poll n REG__AUX_MU_LSR (2 ^ k) idle h = Timeout.
Proof.
  revert h. induction n as [|n IH]; intros h Hgo; [done|].
  cbn [poll]. rewrite (bind_Ret _ _ _ _ _ (mmio_read_run _ _)), land_bit by done.
  fold (lsr h) (lsr_next h). rewrite (Hgo h eq_refl).
  destruct (Hidle (lsr_next h)) as (h' & E & Hf & Hw). rewrite (bind_Ret _ _ _ _ _ E).
  apply IH. intros h3 E3. apply Hgo. by rewrite E3, Hf, Hnext.
Qed.
End polling.

(** Both ways of idling: [wfe] in the kernel, nothing in the loader. *)
Definition idles (idle : M H unit) : Prop :=
  ∀ h, ∃ h', idle h = Ret ((), h') ∧ uart h' = uart h ∧
    (tx_wait h' ≤ tx_wait h)%nat ∧ (rx_wait h' ≤ rx_wait h)%nat.

Lemma idles_wfe : idles wfe.
Proof.
  intros h. exists (bus_wfe h). split; [done|].
  split; [apply wfe_line|]. split; [apply wfe_tx|apply wfe_rx].
Qed.

Lemma idles_ret : idles (ret ()).
Proof. intros h. by exists h. Qed.

Context (idle : M H unit) (Hidle : idles idle) (fuel : nat) (Hfuel : (patience ≤ fuel)%nat).

(** The two drivers' ways of sending a byte and of receiving one. *)
Definition put (c : Z) : M H unit :=
  let* _ := poll fuel REG__AUX_MU_LSR 0x20 idle in mmio_write REG__AUX_MU_IO c.
Definition get : M H Z :=
  let* _ := poll fuel REG__AUX_MU_LSR 0x01 idle in
  let* v := mmio_read REG__AUX_MU_IO in
  ret (u8 (Z.land v 0xFF)).

Lemma put_run c h : is_u8 c →
  ∃ h', put c h = Ret ((), h') ∧ uart h' = line_send c (uart h).
Proof.
  intros Hc. unfold put. change 0x20 with (2 ^ 5).
  destruct (poll_run uart tx_wait idle 5 ltac:(lia) lsr_line
    ltac:(intros h0; destruct (Hidle h0) as (? & ? & ? & ? & ?); by eauto) fuel h
    ltac:(intros; apply lsr_tx) ltac:(pose proof (tx_patient h); lia)) as (h' & E & Hf & Hb).
  rewrite (bind_Ret _ _ _ _ _ E). unfold mmio_write, modify.
  eexists. split; [done|]. unfold is_u8 in Hc.
  rewrite u32_small, io_write, Hf by (done || lia). done.
Qed.

Lemma low_byte v : u8 (Z.land (u32 v) 0xFF) = u8 v.
Proof.
  change 0xFF with (Z.ones 8). rewrite Z.land_ones by lia. unfold u8, u32.
  change (2 ^ 8) with 0x100. lia.
Qed.

Lemma get_run c rest h : pending (uart h) = c :: rest →
  ∃ h', get h = Ret (c, h') ∧ uart h' = line_rest (uart h) rest.
Proof.
  intros Hp. unfold get. change 0x01 with (2 ^ 0) at 1.
  destruct (poll_run uart rx_wait idle 0 ltac:(lia) lsr_line
    ltac:(intros h0; destruct (Hidle h0) as (? & ? & ? & ? & ?); by eauto) fuel h
    ltac:(intros h0 E0; apply lsr_rx; by rewrite E0, Hp)
    ltac:(pose proof (rx_patient h); lia)) as (h' & E & Hf & Hb).
  rewrite (bind_Ret _ _ _ _ _ E), (bind_Ret _ _ _ _ _ (mmio_read_run _ _)), low_byte.
  destruct (io_read h' c rest Hb ltac:(by rewrite Hf)) as [-> E2].
  eexists. split; [done|]. by rewrite E2, Hf.
Qed.

(** Without a byte on its way the processor waits for ever. *)
Lemma get_empty h : pending (uart h) = [] → get h = Timeout.
Proof.
  intros Hp. unfold get. change 0x01 with (2 ^ 0) at 1. unfold bind at 1.
  rewrite (poll_for_ever uart rx_wait idle 0 ltac:(lia) lsr_line
    ltac:(intros h0; destruct (Hidle h0) as (? & ? & ? & ? & ?); by eauto) fuel h
    ltac:(intros h0 E0; apply lsr_empty; by rewrite E0)).
  done.
Qed.
End line.

(** ** The serial line is the stream of bytes of [Devices] *)

(** A terminal that records what it is sent, the last byte first. *)
#[global] Instance terminal : Peer (list Z) := λ l c, (c :: l, []).

Section stream.
Context {H : Type} `{!Mmio H, U : !Uart H (list Z)}.

Definition serves (h : H) (s : fs) : Prop :=
  uart h = mkline (uart_in (fs_uart s)) (uart_out (fs_uart s)).

(** The driver does what the operation on the stream does; undefined behaviour of the
    latter aside. *)
Definition implements {A} (m : M H A) (m' : M fs A) : Prop :=
  ∀ h s, serves h s →
  match m' s with
  | Ret (a, s') => ∃ h', m h = Ret (a, h') ∧ serves h' s'
  | Fatal r => m h = Fatal r
  | Fault => True
  | Timeout => m h = Timeout
  end.

Lemma implements_ret {A} (a : A) : implements (ret a) (ret a).
Proof. intros h s Hs. by exists h. Qed.

Lemma implements_bind {A B} (m : M H A) (m' : M fs A) (f : A → M H B) (f' : A → M fs B) :
  implements m m' → (∀ a, implements (f a) (f' a)) → implements (bind m f) (bind m' f').
Proof.
  intros Hm Hf h s Hs. specialize (Hm h s Hs). unfold bind.
  destruct (m' s) as [[a s']|r| |].
  - destruct Hm as (h' & -> & Hs'). apply (Hf a h' s' Hs').
  - by rewrite Hm.
  - done.
  - by rewrite Hm.
Qed.

Context (fuel : nat) (Hfuel : (patience (P := list Z) ≤ fuel)%nat).

Lemma putc_implements c : is_u8 c → implements (mini_uart_putc fuel c) (Devices.mini_uart_putc c).
Proof.
  intros Hc h s Hs.
  destruct (put_run wfe idles_wfe fuel Hfuel c h Hc) as (h' & E & Eu).
  exists h'. split; [exact E|]. unfold serves. rewrite Eu, Hs.
  unfold line_send. simpl. by rewrite app_nil_r.
Qed.

Lemma getc_implements : implements (mini_uart_getc fuel) Devices.mini_uart_getc.
Proof.
  intros h s Hs. unfold Devices.mini_uart_getc, bind, gets.
  destruct (uart_in (fs_uart s)) as [|c rest] eqn:Ei.
  - apply (get_empty wfe idles_wfe fuel Hfuel). by rewrite Hs, Ei.
  - destruct (get_run wfe idles_wfe fuel Hfuel c rest h) as (h' & E & Eu); [by rewrite Hs, Ei|].
    exists h'. split; [exact E|]. unfold serves. by rewrite Eu, Hs.
Qed.

Lemma recv_run l data rest h : pending (uart h) = l ++ rest →
  ∃ h', recv_loop fuel (length l) data h = Ret (data ++ l, h') ∧ uart h' = line_rest (uart h) rest.
Proof.
  revert data h. induction l as [|c l IH]; intros data h Hp.
  { exists h. rewrite app_nil_r. split; [done|].
    unfold line_rest. simpl in Hp. rewrite <- Hp. by destruct (uart h). }
  destruct (get_run wfe idles_wfe fuel Hfuel c (l ++ rest) h Hp) as (h1 & E1 & U1).
  cbn [length recv_loop]. rewrite (bind_Ret _ _ _ _ _ E1).
  destruct (IH (data ++ [c]) h1) as (h2 & E2 & U2); [by rewrite U1|].
  exists h2. rewrite E2, <- app_assoc. split; [done|]. by rewrite U2, U1.
Qed.

(** C21. The driver of the mini UART, polling the line status register of any hardware
    that keeps the contract [Uart], is the stream of bytes on which the terminal device
    and the kernel's log are modelled: [mini_uart_putc] sends the byte,
    [mini_uart_getc] takes the next one received and waits for ever when none comes,
    so every computation made of them by [ret] and [bind] does on the registers what it
    does on the stream; [mini_uart_recv] takes as many bytes as it is asked for. *)
Theorem uart_refines :
  (∀ c, is_u8 c → implements (mini_uart_putc fuel c) (Devices.mini_uart_putc c)) ∧
  implements (mini_uart_getc fuel) Devices.mini_uart_getc ∧
  (∀ A B (m : M H A) m' (f : A → M H B) f',
    implements m m' → (∀ a, implements (f a) (f' a)) → implements (bind m f) (bind m' f')) ∧
  (∀ h s l rest, serves h s → uart_in (fs_uart s) = l ++ rest →
    ∃ h', mini_uart_recv fuel (Z.of_nat (length l)) h = Ret ((Z.of_nat (length l), l), h') ∧
      uart h' = mkline rest (uart_out (fs_uart s))).
Proof.
  split; [apply putc_implements|]. split; [apply getc_implements|].
  split; [intros; by apply implements_bind|].
  intros h s l rest Hs Hl. unfold mini_uart_recv. rewrite Nat2Z.id.
  destruct (recv_run l [] rest h) as (h' & E & U'); [by rewrite Hs|].
  exists h'. rewrite (bind_Ret _ _ _ _ _ E). split; [done|]. by rewrite U', Hs.
Qed.
End stream.

(** ** The pins *)

(** The function select registers, the pull-up/down control, and what each pin is pulled
    to. *)
Record gpio : Type := mkgpio { fsel : list Z; gppud : Z; pull : list Z }.

(** Clock register [n] with [mask] written to it: its 32 pins whose bit is set take over
    the control value. *)
Definition clocked (n mask : Z) (g : gpio) : gpio :=
  mkgpio (fsel g) (gppud g)
    (imap (λ p old, if (Z.of_nat p / 32 =? n) && Z.testbit mask (Z.of_nat p `mod` 32)
                    then gppud g else old) (pull g)).

Class Gpio (H : Type) `{!Mmio H} : Type := {
  pins : H → gpio;
  fsel_words h : length (fsel (pins h)) = 6%nat ∧ Forall is_u32 (fsel (pins h));
  pull_pins h : length (pull (pins h)) = 54%nat;
  fsel_read h n : 0 ≤ n < 6 →
    fsel (pins h) !! Z.to_nat n = Some (fst (bus_read (REG__GPIO_GPFSEL n) h)) ∧
    pins (snd (bus_read (REG__GPIO_GPFSEL n) h)) = pins h;
  fsel_write h n v : 0 ≤ n < 6 → is_u32 v →
    pins (bus_write (REG__GPIO_GPFSEL n) v h) =
    mkgpio (<[Z.to_nat n := v]> (fsel (pins h))) (gppud (pins h)) (pull (pins h));
  pud_write h v : pins (bus_write REG__GPIO_GPPUD v h) = mkgpio (fsel (pins h)) v (pull (pins h));
  clk0_write h v : pins (bus_write REG__GPIO_GPPUDCLK0 v h) = clocked 0 v (pins h);
  clk1_write h v : pins (bus_write REG__GPIO_GPPUDCLK1 v h) = clocked 1 v (pins h);
  delay_pins h n : pins (bus_delay n h) = pins h;
}.

(** The function of a pin: three bits of its register. *)
Definition pin_function (g : gpio) (pin : Z) : Z :=
  Z.land (Z.shiftr (nth (Z.to_nat (pin / 10)) (fsel g) 0) (3 * (pin `mod` 10))) 7.

(** A field of three bits replaced, read back at the same and at another place. *)
Definition put_field (v f s : Z) : Z :=
  Z.lor (Z.land v (u32 (Z.lnot (u32 (Z.shiftl 7 s))))) (u32 (Z.shiftl (Z.land f 7) s)).

Lemma testbit_7 i : 0 ≤ i → Z.testbit 7 i = (i <? 3).
Proof. intros Hi. change 7 with (Z.ones 3). by apply Z.testbit_ones_nonneg. Qed.

Lemma testbit_7' i : Z.testbit 7 i = (0 <=? i) && (i <? 3).
Proof.
  destruct (Z.leb_spec 0 i); [by rewrite testbit_7|]. by rewrite Z.testbit_neg_r by lia.
Qed.

Lemma testbit_u32 v i : 0 ≤ i < 32 → Z.testbit (u32 v) i = Z.testbit v i.
Proof. intros Hi. unfold u32. change 0x100000000 with (2 ^ 32). apply Z.mod_pow2_bits_low. lia. Qed.

Lemma put_field_bit v f s i : 0 ≤ s → 0 ≤ i < 32 →
  Z.testbit (put_field v f s) i =
  if (s <=? i) && (i <? s + 3) then Z.testbit f (i - s) else Z.testbit v i.
Proof.
  intros Hs Hi. unfold put_field.
  rewrite Z.lor_spec, Z.land_spec, !testbit_u32, Z.lnot_spec, testbit_u32 by lia.
  rewrite !Z.shiftl_spec, Z.land_spec, !testbit_7' by lia.
  destruct (Z.leb_spec s i), (Z.leb_spec 0 (i - s)), (Z.ltb_spec (i - s) 3),
    (Z.ltb_spec i (s + 3)); try lia; simpl;
    by destruct (Z.testbit v i), (Z.testbit f (i - s)).
Qed.

Lemma put_field_get v f s t : 0 ≤ s ≤ 29 → 0 ≤ t ≤ 29 → t = s ∨ t + 3 ≤ s ∨ s + 3 ≤ t →
  Z.land (Z.shiftr (put_field v f s) t) 7 =
  if t =? s then Z.land f 7 else Z.land (Z.shiftr v t) 7.
Proof.
  intros Hs Ht Hd. apply Z.bits_inj'. intros i Hi.
  rewrite Z.land_spec, Z.shiftr_spec, testbit_7 by lia.
  destruct (Z.ltb_spec i 3) as [H3|H3].
  - rewrite put_field_bit by lia.
    destruct (Z.eqb_spec t s) as [->|].
    + rewrite Z.land_spec, testbit_7 by lia.
      destruct (Z.leb_spec s (i + s)), (Z.ltb_spec (i + s) (s + 3)); try lia.
      replace (i + s - s) with i by lia. by destruct (Z.ltb_spec i 3); try lia.
    + rewrite Z.land_spec, Z.shiftr_spec, testbit_7 by lia.
      destruct (Z.leb_spec s (i + t)), (Z.ltb_spec (i + t) (s + 3)), (Z.ltb_spec i 3); try lia; done.
  - rewrite andb_false_r. destruct (t =? s);
      rewrite Z.land_spec, testbit_7 by lia; destruct (Z.ltb_spec i 3); try lia;
      by rewrite andb_false_r.
Qed.

Section gpio.
Context {H : Type} `{!Mmio H, G : !Gpio H}.

(** The pin whose pull-up/down control [gpio_set_pin_mode] clocks in. *)
Definition clocked_pin (pin : Z) : Z := 32 * (pin / 32) + pin `mod` 16.

Lemma gpio_select_run pin f h : 0 ≤ pin < GPIO_PIN_COUNT → is_u32 f →
  ∃ h', gpio_select_function pin f h = Ret ((), h') ∧
    pins h' = mkgpio (<[Z.to_nat (pin / 10) :=
      put_field (nth (Z.to_nat (pin / 10)) (fsel (pins h)) 0) f (3 * (pin `mod` 10))]> (fsel (pins h)))
      (gppud (pins h)) (pull (pins h)).
Proof.
  intros Hp Hf. unfold GPIO_PIN_COUNT in Hp. unfold gpio_select_function, GPIO_PIN_COUNT.
  destruct (Z.geb_spec pin 54); [lia|]. unfold _select_gpfsel_register.
  destruct (fsel_read h (pin / 10) ltac:(lia)) as [Hr Hn].
  destruct (fsel_words h) as [Hl Hw].
  pose proof (Forall_lookup_1 _ _ _ _ Hw Hr) as Hv.
  rewrite (bind_Ret _ _ _ _ _ (mmio_read_run _ _)).
  unfold mmio_write, modify. eexists. split; [done|].
  rewrite (nth_lookup_Some _ _ _ _ Hr).
  rewrite (u32_small (fst _)) by exact Hv.
  rewrite fsel_write by (lia || exact (u32_range _)). rewrite Hn. f_equal. f_equal.
  rewrite u32_small; [done|].
  split; [apply Z.lor_nonneg; split; [apply Z.land_nonneg; left; apply Hv|apply u32_range]|].
  change 0x100000000 with (2 ^ 32).
  apply (bits_bounded _ 32); [lia| |].
  - apply Z.lor_nonneg. split; [apply Z.land_nonneg; left; apply Hv|apply u32_range].
  - intros k Hk. rewrite Z.lor_spec, Z.land_spec.
    rewrite (testbit_high _ k 32) by (lia || exact Hv).
    rewrite !(testbit_high (u32 _) k 32); [done|lia|exact (u32_range _)|lia|exact (u32_range _)].
Qed.

Lemma imap_single {A} (l : list A) i (a : A) (b : nat → bool) :
  (∀ j, (j < length l)%nat → b j = bool_decide (j = i)) → (i < length l)%nat →
  imap (λ j old, if b j then a else old) l = <[i := a]> l.
Proof.
  intros Hb Hi. apply list_eq. intros j. rewrite list_lookup_imap.
  destruct (decide (j < length l)%nat) as [Hj|Hj].
  - destruct (lookup_lt_is_Some_2 l j Hj) as [x Hx]. rewrite Hx. simpl. rewrite Hb by done.
    case_bool_decide as E; [subst; by rewrite list_lookup_insert_eq|].
    by rewrite list_lookup_insert_ne.
  - rewrite (lookup_ge_None_2 l j) by lia.
    symmetry. apply lookup_ge_None_2. rewrite length_insert. lia.
Qed.

Lemma clocked_single n p g : 0 ≤ n ≤ 1 → 0 ≤ p < 32 → length (pull g) = 54%nat →
  32 * n + p < 54 →
  clocked n (Z.shiftl 1 p) g = mkgpio (fsel g) (gppud g) (<[Z.to_nat (32 * n + p) := gppud g]> (pull g)).
Proof.
  intros Hn Hp Hl Hb. unfold clocked. f_equal. apply imap_single; [|lia].
  intros j Hj. rewrite Z.shiftl_1_l, Z.pow2_bits_eqb by lia.
  case_bool_decide as E; lia.
Qed.

Lemma clocked_none n g : clocked n 0 g = g.
Proof.
  unfold clocked. destruct g as [a b l]. f_equal. simpl.
  apply list_eq. intros j. rewrite list_lookup_imap. destruct (l !! j); simpl; [|done].
  by rewrite Z.bits_0, andb_false_r.
Qed.

Lemma gpio_mode_run pin m h : 0 ≤ pin < GPIO_PIN_COUNT → is_u32 m →
  ∃ h', gpio_set_pin_mode pin m h = Ret ((), h') ∧
    pins h' = mkgpio (fsel (pins h)) 0 (<[Z.to_nat (clocked_pin pin) := m]> (pull (pins h))).
Proof.
  intros Hp Hm. unfold GPIO_PIN_COUNT in Hp. unfold gpio_set_pin_mode, GPIO_PIN_COUNT.
  destruct (Z.geb_spec pin 54); [lia|].
  unfold mmio_write, cpu_delay, modify, bind. eexists. split; [done|].
  change 0xf with (Z.ones 4). rewrite Z.land_ones by lia. change (2 ^ 4) with 16.
  assert (0 < Z.shiftl 1 (pin `mod` 16) < 0x100000000) as Hs.
  { rewrite Z.shiftl_1_l. split; [apply Z.pow_pos_nonneg; lia|].
    change 0x100000000 with (2 ^ 32). apply Z.pow_lt_mono_r; lia. }
  rewrite (u32_small (Z.shiftl _ _)), (u32_small m) by (exact Hm || lia). change (u32 0) with 0.
  pose proof (pull_pins h) as Hl. unfold clocked_pin, _select_gppud_clk_register.
  destruct (Z.ltb_spec pin 32).
  - rewrite clk0_write, pud_write, delay_pins, clk0_write, delay_pins, pud_write, clocked_none.
    rewrite (clocked_single 0) by (simpl; lia). simpl. f_equal. f_equal. lia.
  - rewrite clk1_write, pud_write, delay_pins, clk1_write, delay_pins, pud_write, clocked_none.
    rewrite (clocked_single 1) by (simpl; lia). simpl. f_equal. f_equal. lia.
Qed.

(** [gpio_select_function] gives a pin its function, three bits among the sixty of
    its register, and leaves every other pin its own; [gpio_set_pin_mode] leaves the
    functions alone and clears the control register, but it sets the pull-up/down of
    [clocked_pin pin], which is the pin itself only when [pin mod 32 < 16]: for the
    pins 48 to 53 of the card it changes the pins 32 to 37 instead.  Both refuse pins
    above 53 by stopping the kernel. *)
Theorem gpio_correct pin f m h : is_u32 f → is_u32 m →
  if decide (0 ≤ pin < GPIO_PIN_COUNT) then
    (∃ h', gpio_select_function pin f h = Ret ((), h') ∧
      pull (pins h') = pull (pins h) ∧ gppud (pins h') = gppud (pins h) ∧
      ∀ p, 0 ≤ p < 60 → pin_function (pins h') p =
        if p =? pin then Z.land f GPIO_F_MASK else pin_function (pins h) p) ∧
    (∃ h', gpio_set_pin_mode pin m h = Ret ((), h') ∧
      fsel (pins h') = fsel (pins h) ∧ gppud (pins h') = 0 ∧
      (∀ p, 0 ≤ p < GPIO_PIN_COUNT → pull (pins h') !! Z.to_nat p =
        if p =? clocked_pin pin then Some m else pull (pins h) !! Z.to_nat p) ∧
      (clocked_pin pin = pin ↔ pin `mod` 32 < 16))
  else 0 ≤ pin →
    gpio_select_function pin f h = Fatal "gpio: invalid pin number" ∧
    gpio_set_pin_mode pin m h = Fatal "gpio: invalid pin number".
Proof.
  intros Hf Hm. destruct (fsel_words h) as [Hl _]. pose proof (pull_pins h) as Hpl.
  case_decide as Hp.
  - split.
    + destruct (gpio_select_run pin f h Hp Hf) as (h' & E & Hg).
      exists h'. rewrite Hg. do 3 (split; [done|]). intros p Hr. unfold GPIO_PIN_COUNT in Hp.
      unfold pin_function, GPIO_F_MASK. simpl. rewrite !nth_lookup.
      destruct (decide (p / 10 = pin / 10)) as [Ed|Ed].
      * rewrite Ed, list_lookup_insert_eq by lia. simpl. rewrite put_field_get by lia.
        destruct (Z.eqb_spec (3 * (p `mod` 10)) (3 * (pin `mod` 10))), (Z.eqb_spec p pin); try lia; done.
      * rewrite list_lookup_insert_ne by lia.
        destruct (Z.eqb_spec p pin); [subst; done|done].
    + destruct (gpio_mode_run pin m h Hp Hm) as (h' & E & Hg).
      exists h'. rewrite Hg. do 3 (split; [done|]). unfold GPIO_PIN_COUNT, clocked_pin in *. simpl.
      split; [|lia]. intros p Hr. destruct (Z.eqb_spec p (32 * (pin / 32) + pin `mod` 16)) as [->|].
      * rewrite list_lookup_insert_eq by lia. done.
      * rewrite list_lookup_insert_ne by lia. done.
  - intros H0. unfold gpio_select_function, gpio_set_pin_mode, GPIO_PIN_COUNT in *.
    destruct (Z.geb_spec pin 54); [done|lia].
Qed.
End gpio.

End PeripheralsSpec.
