(* ===== verification/SdHost.v ===== *)
(** * The driver of the SD card: [hardware/sd_host/sd_host.c]

    Commands to the card, the initialisation of controller and card, and reading a block,
    on any hardware.  The log messages of the driver are not modelled.  The contract of
    the controller and of the card is in [SdHostSpec]. *)
From S2P Require Import Prelude Peripherals.
Import Peripherals.

Module SdHost.

(** ** Registers and constants ([io_registers.h], [sd_host_internals.h]) *)

Definition REG__SDCARD_BLKSIZECNT : Z := 0x20300004.
Definition REG__SDCARD_ARG1 : Z := 0x20300008.
Definition REG__SDCARD_CMDTM : Z := 0x2030000C.
Definition REG__SDCARD_RESP0 : Z := 0x20300010.
Definition REG__SDCARD_RESP1 : Z := 0x20300014.
Definition REG__SDCARD_RESP2 : Z := 0x20300018.
Definition REG__SDCARD_RESP3 : Z := 0x2030001C.
Definition REG__SDCARD_DATA : Z := 0x20300020.
Definition REG__SDCARD_CONTROL1 : Z := 0x2030002C.
Definition REG__SDCARD_INTERRUPT : Z := 0x20300030.
Definition REG__SDCARD_IRPT_MASK : Z := 0x20300034.
Definition REG__SDCARD_IRPT_EN : Z := 0x20300038.

Definition SDCARD_INTERUPT_DTO_ERR : Z := 0x00100000.
Definition SDCARD_INTERUPT_READ_READY : Z := 0x00000020.
Definition SDCARD_INTERUPT_CMD_DONE : Z := 0x00000001.
Definition SDCARD_CONTROL1_CLK_EN : Z := 0x00000004.
Definition SDCARD_CONTROL1_INTLEN : Z := 0x00000001.
Definition SDCARD_BLKSIZECNT_BLKSIZE : Z := 0x00000FFF.
Definition SDCARD_BLKSIZECNT_CNT_LSB : Z := 16.

Definition SDCARD_CMD_GO_IDLE_STATE : Z := 0.
Definition SDCARD_CMD_ALL_SEND_CID : Z := 2.
Definition SDCARD_CMD_SEND_RELATIVE_ADDR : Z := 3.
Definition SDCARD_CMD_SELECT_DESELECT : Z := 7.
Definition SDCARD_CMD_SEND_IF_COND : Z := 8.
Definition SDCARD_CMD_SEND_STATUS : Z := 13.
Definition SDCARD_CMD_READ_SINGLE_BLOCK : Z := 17.
Definition SDCARD_CMD_APP : Z := 55.
Definition SDCARD_ACMD_SD_SEND_OP_COND : Z := 41.

Definition SDCARD_CMDTM_RESP_TYPE_NONE : Z := 0x0.
Definition SDCARD_CMDTM_RESP_TYPE_136_BITS : Z := 0x1.
Definition SDCARD_CMDTM_RESP_TYPE_48_BITS : Z := 0x2.
Definition SDCARD_CMDTM_RESP_TYPE_48_BITS_BUSY : Z := 0x3.
Definition SDCARD_CMDTM_DIR_HOST_TO_CARD : Z := 0x0.
Definition SDCARD_CMDTM_DIR_CARD_TO_HOST : Z := 0x1.

Definition SDCARD_ACMD41_RESP_HIGH_CAPACITY : Z := 0x40000000.
Definition SDCARD_ACMD41_RESP_POWER_UP : Z := 0x80000000.
Definition SDCARD_RCA_LSB : Z := 16.
Definition SDCARD_RCA_MASK : Z := 0xFFFF0000.

Section sd_host.
Context {H : Type} `{!Mmio H}.
Abbreviation MH := (M H).

(** ** Commands *)

(** [counter] polls were in vain. *)
Fixpoint wait_cmd_loop (n : nat) (counter : Z) : MH unit :=
  match n with
  | O => λ _, Timeout
  | S n =>
      let* interupt := mmio_read REG__SDCARD_INTERRUPT in
      if negb (Z.land SDCARD_INTERUPT_CMD_DONE interupt =? 0) then
        mmio_write REG__SDCARD_INTERRUPT 0x1
      else
        let counter := counter + 1 in
        let* _ := cpu_delay 150 in
        if (Z.land counter 0xFF =? 0) && (counter >? 2048) then
          fatal "failed to wait for a commmand"
        else wait_cmd_loop n counter
  end.

(** The counter ends the loop at 2304, the first multiple of 256 above 2048. *)
Definition _sdhost_wait_for_cmd_done : MH unit := wait_cmd_loop (Z.to_nat 2304) 0.

Definition clk_ctl1 (divider timeout : Z) : Z :=
  Z.lor (Z.lor (Z.lor (Z.shiftl (Z.land divider 0xFF) 8) (Z.shiftr (Z.land divider 0x300) 2))
    (Z.shiftl timeout 16)) SDCARD_CONTROL1_INTLEN.

Definition _sdhost_enable_clock (freq_khz : Z) : MH unit :=
  if freq_khz =? 0 then fault
  else
    let divider := u16 (100000 / freq_khz) in
    let timeout := 0xE in
    let clk := clk_ctl1 divider timeout in
    let* _ := mmio_write REG__SDCARD_CONTROL1 clk in
    let* _ := cpu_delay 8048 in
    mmio_write REG__SDCARD_CONTROL1 (Z.lor clk SDCARD_CONTROL1_CLK_EN).

Definition _sdhost_configure_blk_size_count (block_size block_count : Z) : MH unit :=
  mmio_write REG__SDCARD_BLKSIZECNT
    (Z.lor (Z.land SDCARD_BLKSIZECNT_BLKSIZE block_size)
           (u32 (Z.shiftl block_count SDCARD_BLKSIZECNT_CNT_LSB))).

Definition _sdhost_cmdtm_val (cmd resp_type direction : Z) : Z :=
  let cmdtm := 0 in
  let cmdtm := Z.lor cmdtm (u32 (Z.shiftl (Z.land cmd 0x3F) 24)) in
  let cmdtm := Z.lor cmdtm (Z.shiftl (Z.land 0x3 resp_type) 16) in
  let cmdtm := Z.lor cmdtm (Z.shiftl (if direction =? 0 then 0 else 1) 4) in
  if negb (resp_type =? SDCARD_CMDTM_RESP_TYPE_NONE) then
    let cmdtm := Z.lor cmdtm (Z.shiftl 1 19) in
    Z.lor cmdtm (Z.shiftl 1 20)
  else cmdtm.

Definition _sdhost_send_data_command (cmd resp_type direction : Z) : MH unit :=
  let cmdtm := _sdhost_cmdtm_val cmd resp_type direction in
  let cmdtm := Z.lor cmdtm (Z.shiftl 1 21) in
  mmio_write REG__SDCARD_CMDTM cmdtm.

Definition _sdhost_send_command (cmd resp_type direction : Z) : MH unit :=
  let cmdtm := _sdhost_cmdtm_val cmd resp_type direction in
  mmio_write REG__SDCARD_CMDTM cmdtm.

(** What the driver repeats for every command: argument, command, wait. *)
Definition command (arg cmd resp_type : Z) : MH unit :=
  let* _ := mmio_write REG__SDCARD_ARG1 arg in
  let* _ := _sdhost_send_command cmd resp_type SDCARD_CMDTM_DIR_HOST_TO_CARD in
  _sdhost_wait_for_cmd_done.

(** ** [sdhost_init] *)

(** [fuel] bounds the loops that only the hardware ends. *)
Context (fuel : nat).

(** [while ((mmio_read(REG__SDCARD_CONTROL1) & mask)) ...] *)
Fixpoint reset_loop (n : nat) (mask : Z) : MH unit :=
  match n with
  | O => λ _, Timeout
  | S n =>
      let* v := mmio_read REG__SDCARD_CONTROL1 in
      if negb (Z.land v mask =? 0) then reset_loop n mask else ret ()
  end.

(** [for (int i = 47; i <= 53; i++)], with [n] pins to go. *)
Fixpoint select_pins (n : nat) (i : Z) : MH unit :=
  match n with
  | O => ret ()
  | S n => let* _ := gpio_select_function i GPIO_F_ALT_3 in select_pins n (i + 1)
  end.

Definition card_pins : MH unit :=
  let* _ := select_pins 7 47 in
  let* _ := gpio_set_pin_mode 47 GPIO_MODE_PULL_UP in
  let* _ := gpio_set_pin_mode 48 GPIO_MODE_PULL_DOWN in
  let* _ := gpio_set_pin_mode 49 GPIO_MODE_PULL_UP in
  let* _ := gpio_set_pin_mode 50 GPIO_MODE_PULL_UP in
  let* _ := gpio_set_pin_mode 51 GPIO_MODE_PULL_UP in
  let* _ := gpio_set_pin_mode 52 GPIO_MODE_PULL_UP in
  gpio_set_pin_mode 53 GPIO_MODE_PULL_UP.

(** The loop that powers the card up. *)
Fixpoint power_loop (n : nat) : MH unit :=
  match n with
  | O => λ _, Timeout
  | S n =>
      let* _ := command 0 SDCARD_CMD_APP SDCARD_CMDTM_RESP_TYPE_48_BITS in
      let* _ := command 0x40FF8000 SDCARD_ACMD_SD_SEND_OP_COND SDCARD_CMDTM_RESP_TYPE_48_BITS_BUSY in
      let* operation_condition := mmio_read REG__SDCARD_RESP0 in
      if negb (Z.land operation_condition SDCARD_ACMD41_RESP_POWER_UP =? 0) then
        if negb (Z.land operation_condition SDCARD_ACMD41_RESP_HIGH_CAPACITY =? 0) then ret ()
        else fatal "sdcard: card type SDSC is NOT supported."
      else
        let* _ := cpu_delay 512 in
        power_loop n
  end.

(** The pattern of CMD8, and the card's echo of it. *)
Definition negotiate : MH unit :=
  let* _ := command 0x000001AA SDCARD_CMD_SEND_IF_COND SDCARD_CMDTM_RESP_TYPE_48_BITS in
  let* negotiation_resp := mmio_read REG__SDCARD_RESP0 in
  kassert (negotiation_resp =? 0x1AA) "negotiation_resp == 0x1AAu".

(** The card identification, which is only printed. *)
Definition read_cid : MH (list Z) :=
  let* _ := command 0 SDCARD_CMD_ALL_SEND_CID SDCARD_CMDTM_RESP_TYPE_136_BITS in
  let* resp0 := mmio_read REG__SDCARD_RESP0 in
  let* resp1 := mmio_read REG__SDCARD_RESP1 in
  let* resp2 := mmio_read REG__SDCARD_RESP2 in
  let* resp3 := mmio_read REG__SDCARD_RESP3 in
  ret [resp0; resp1; resp2; resp3; 0].

(** From stand-by to the transfer state, and the size of the blocks to transfer. *)
Definition select_card (relative_card_address : Z) : MH unit :=
  let* _ := command (Z.shiftl relative_card_address SDCARD_RCA_LSB)
              SDCARD_CMD_SELECT_DESELECT SDCARD_CMDTM_RESP_TYPE_48_BITS_BUSY in
  let* _ := command (Z.shiftl relative_card_address SDCARD_RCA_LSB)
              SDCARD_CMD_SEND_STATUS SDCARD_CMDTM_RESP_TYPE_48_BITS in
  let* card_status := mmio_read REG__SDCARD_RESP0 in
  let block_size := 512 in
  let block_count := 1 in
  _sdhost_configure_blk_size_count block_size block_count.

Definition sdhost_init : MH unit :=
  let mask := Z.shiftl 1 24 in
  let* _ := mmio_write REG__SDCARD_CONTROL1 mask in
  let* _ := reset_loop fuel mask in
  let* _ := mmio_write REG__SDCARD_IRPT_EN 0 in
  let* _ := mmio_write REG__SDCARD_IRPT_MASK 0xFFFFFFFF in
  let* _ := card_pins in
  let* _ := cpu_delay 2048 in
  let* _ := _sdhost_enable_clock 400 in
  let* _ := cpu_delay 248 in
  let* _ := command 0 SDCARD_CMD_GO_IDLE_STATE SDCARD_CMDTM_RESP_TYPE_NONE in
  let* _ := negotiate in
  let* _ := power_loop fuel in
  let* _ := read_cid in
  let* _ := command 0 SDCARD_CMD_SEND_RELATIVE_ADDR SDCARD_CMDTM_RESP_TYPE_48_BITS in
  let* rca_resp := mmio_read REG__SDCARD_RESP0 in
  let relative_card_address := Z.shiftr (Z.land rca_resp SDCARD_RCA_MASK) SDCARD_RCA_LSB in
  select_card relative_card_address.

(** ** [sdhost_read_block] *)

(** The loop that waits for data. *)
Fixpoint wait_data_loop (n : nat) : MH unit :=
  match n with
  | O => λ _, Timeout
  | S n =>
      let* interupt := mmio_read REG__SDCARD_INTERRUPT in
      if negb (Z.land interupt SDCARD_INTERUPT_READ_READY =? 0) then ret ()
      else if negb (Z.land interupt SDCARD_INTERUPT_DTO_ERR =? 0) then
        fatal "sdcard: read timeout"
      else
        let* _ := cpu_delay 64 in
        wait_data_loop n
  end.

(** [n] words to go; [buffer] holds the bytes of those that were read. *)
Fixpoint read_data_loop (n : nat) (buffer : list Z) : MH (list Z) :=
  match n with
  | O => ret buffer
  | S n =>
      let* v := mmio_read REG__SDCARD_DATA in
      read_data_loop n (buffer ++ word_bytes v)
  end.

(** The status, and the block. *)
Definition sdhost_read_block (block_index : Z) : MH (Z * list Z) :=
  let* _ := mmio_write REG__SDCARD_ARG1 block_index in
  let* _ := _sdhost_send_data_command SDCARD_CMD_READ_SINGLE_BLOCK
              SDCARD_CMDTM_RESP_TYPE_48_BITS SDCARD_CMDTM_DIR_CARD_TO_HOST in
  let* _ := _sdhost_wait_for_cmd_done in
  let* _ := wait_data_loop fuel in
  let* block := read_data_loop 128 [] in
  let* _ := mmio_write REG__SDCARD_INTERRUPT SDCARD_INTERUPT_READ_READY in
  ret (0, block).

(** [sdcard.c] on this driver. *)
Definition _sdcard_disk_read_block (index : Z) : MH (Z * list Z) :=
  let* r := sdhost_read_block index in
  let* _ := kassert (0 =? fst r) "0 == sdhost_read_block(index, block)" in
  ret (1, snd r).
End sd_host.

End SdHost.
