(* ===== verification/SdHostSpec.v ===== *)
(** * Contract of the SD controller and the card, and what the driver makes of them

    [Emmc] states what the BCM2835 manual says of the controller's registers and the SD
    specification of a card's commands.  On any such hardware [sdhost_init] brings the
    card into the transfer state, and reading a block then is the function from block
    numbers to blocks that [Devices] works with. *)
From S2P Require Import Prelude Mmu Alloc Heap Fs FsState Devices Peripherals PeripheralsSpec SdHost.
Import FsState Peripherals SdHost.

Module SdHostSpec.

(** ** Waiting for a command, on any hardware *)

Section wait.
Context {H : Type} `{!Mmio H}.

Definition irq (h : H) : Z := u32 (fst (bus_read REG__SDCARD_INTERRUPT h)).
Definition irq_next (h : H) : H := snd (bus_read REG__SDCARD_INTERRUPT h).

(** The hardware after [k] polls. *)
Definition polled (k : nat) : H → H := Nat.iter k (λ h, bus_delay 150 (irq_next h)).

Lemma polled_S k h : polled k (bus_delay 150 (irq_next h)) = polled (S k) h.
Proof. unfold polled. by rewrite Nat.iter_succ_r. Qed.

Lemma cmd_done_bit h : negb (Z.land SDCARD_INTERUPT_CMD_DONE (irq h) =? 0) = Z.testbit (irq h) 0.
Proof. rewrite Z.land_comm. apply (PeripheralsSpec.land_bit _ 0). lia. Qed.

(** One turn, with [n] turns left after it. *)
Lemma wait_turn n counter h : counter + Z.of_nat n = 2303 → 0 ≤ counter →
  wait_cmd_loop (S n) counter h =
  if Z.testbit (irq h) 0 then Ret ((), bus_write REG__SDCARD_INTERRUPT 1 (irq_next h))
  else match n with
       | O => Fatal "failed to wait for a commmand"
       | S _ => wait_cmd_loop n (counter + 1) (bus_delay 150 (irq_next h))
       end.
Proof.
  intros Hn Hc. cbn [wait_cmd_loop].
  rewrite (bind_Ret _ _ _ _ _ (PeripheralsSpec.mmio_read_run _ _)).
  fold (irq h) (irq_next h). rewrite cmd_done_bit. destruct (Z.testbit (irq h) 0); [done|].
  unfold cpu_delay, modify, bind. change 0xFF with (Z.ones 8). rewrite Z.land_ones by lia.
  change (2 ^ 8) with 256. destruct n as [|n].
  - replace (counter + 1) with 2304 by lia. done.
  - destruct (Z.eqb_spec ((counter + 1) `mod` 256) 0), (Z.gtb_spec (counter + 1) 2048); try done. lia.
Qed.

Lemma wait_after k n counter h : counter + Z.of_nat n = 2304 → 0 ≤ counter → (k < n)%nat →
  (∀ j, (j < k)%nat → Z.testbit (irq (polled j h)) 0 = false) →
  Z.testbit (irq (polled k h)) 0 = true →
  wait_cmd_loop n counter h = Ret ((), bus_write REG__SDCARD_INTERRUPT 1 (irq_next (polled k h))).
Proof.
  revert n counter h. induction k as [|k IH]; intros n counter h Hn Hc Hk Hb Ht;
    (destruct n as [|n]; [lia|]); rewrite wait_turn by lia.
  - change (polled 0 h) with h in Ht. by rewrite Ht.
  - pose proof (Hb 0%nat ltac:(lia)) as H0. change (polled 0 h) with h in H0. rewrite H0.
    destruct n as [|n]; [lia|].
    rewrite (IH (S n) (counter + 1) (bus_delay 150 (irq_next h))); try lia.
    + by rewrite polled_S.
    + intros j Hj. rewrite polled_S. apply Hb. lia.
    + by rewrite polled_S.
Qed.

Lemma wait_in_vain n counter h : counter + Z.of_nat n = 2304 → 0 ≤ counter → (0 < n)%nat →
  (∀ j, (j < n)%nat → Z.testbit (irq (polled j h)) 0 = false) →
  wait_cmd_loop n counter h = Fatal "failed to wait for a commmand".
Proof.
  revert counter h. induction n as [|n IH]; intros counter h Hn Hc H0 Hb; [lia|].
  rewrite wait_turn by lia. pose proof (Hb 0%nat ltac:(lia)) as E. change (polled 0 h) with h in E. rewrite E.
  destruct n as [|n]; [done|]. apply IH; try lia.
  intros j Hj. rewrite polled_S. apply Hb. lia.
Qed.

Lemma wait_ends n counter h : counter + Z.of_nat n = 2304 → 0 ≤ counter → (0 < n)%nat →
  (∃ h', wait_cmd_loop n counter h = Ret ((), h')) ∨
  wait_cmd_loop n counter h = Fatal "failed to wait for a commmand".
Proof.
  revert counter h. induction n as [|n IH]; intros counter h Hn Hc H0; [lia|].
  rewrite wait_turn by lia. destruct (Z.testbit (irq h) 0); [left; by eexists|].
  destruct n as [|n]; [by right|]. apply IH; lia.
Qed.

(** C36. Whatever the hardware does, [_sdhost_wait_for_cmd_done] ends: it returns at the
    first of 2304 polls that shows the command done, having acknowledged it, and stops
    the kernel when none of them does - 2304 polls, and not 2048, because the counter is
    compared at multiples of 256 only. *)
Theorem sdhost_wait_bounded (h : H) :
  (∀ k, (k < Z.to_nat 2304)%nat →
    (∀ j, (j < k)%nat → Z.testbit (irq (polled j h)) 0 = false) →
    Z.testbit (irq (polled k h)) 0 = true →
    _sdhost_wait_for_cmd_done h =
      Ret ((), bus_write REG__SDCARD_INTERRUPT 1 (irq_next (polled k h)))) ∧
  ((∀ j, (j < Z.to_nat 2304)%nat → Z.testbit (irq (polled j h)) 0 = false) →
    _sdhost_wait_for_cmd_done h = Fatal "failed to wait for a commmand") ∧
  ((∃ h', _sdhost_wait_for_cmd_done h = Ret ((), h')) ∨
   _sdhost_wait_for_cmd_done h = Fatal "failed to wait for a commmand").
Proof.
  unfold _sdhost_wait_for_cmd_done. split; [|split].
  - intros k Hk Hb Ht. apply wait_after; [lia|lia|done|done|done].
  - intros Hb. apply wait_in_vain; [lia|lia|lia|done].
  - apply wait_ends; lia.
Qed.
End wait.

(** ** The card and its controller *)

(** The states of a card that the initialisation goes through. *)
Inductive card_state : Type := Idle | Ready | Ident | Stby | Tran.
#[global] Instance card_state_dec : EqDecision card_state.
Proof. solve_decision. Defined.

(** A card: whether the next command is an application command, its relative address,
    and the times ACMD41 finds it still powering up. *)
Record sd : Type := mksd {
  state : card_state;
  app : bool;
  rca : Z;
  powering : nat;
  high_capacity : bool;
}.

Definition with_state (st : card_state) (c : sd) : sd :=
  mksd st false (rca c) (powering c) (high_capacity c).

(** The transition of the card on command [cmd] with argument [arg]. *)
Definition sd_command (cmd arg : Z) (c : sd) : sd :=
  if cmd =? SDCARD_CMD_GO_IDLE_STATE then with_state Idle c
  else if app c then
    if cmd =? SDCARD_ACMD_SD_SEND_OP_COND then
      match powering c with
      | O => with_state Ready c
      | S n => mksd (state c) false (rca c) n (high_capacity c)
      end
    else with_state (state c) c
  else if cmd =? SDCARD_CMD_APP then mksd (state c) true (rca c) (powering c) (high_capacity c)
  else if (cmd =? SDCARD_CMD_ALL_SEND_CID) && bool_decide (state c = Ready) then with_state Ident c
  else if (cmd =? SDCARD_CMD_SEND_RELATIVE_ADDR) && bool_decide (state c = Ident) then with_state Stby c
  else if (cmd =? SDCARD_CMD_SELECT_DESELECT) && bool_decide (state c = Stby) &&
          (Z.shiftr arg 16 =? u16 (rca c)) then with_state Tran c
  else c.

(** The transfer of a block: none, the words still to be read, or a card that does not
    answer. *)
Inductive transfer : Type := NoData | Words (ws : list Z) | TimedOut.

(** The controller: registers, whether a command is under way or not acknowledged, the
    last command (was it an application command?) with its argument, the transfer, and
    the card. *)
Record host : Type := mkhost {
  arg1 : Z;
  blksizecnt : Z;
  control1 : Z;
  irpt_mask : Z;
  busy : bool;
  last : option (bool * Z * Z);
  data : transfer;
  card : sd;
}.

(** The clock runs, and the interrupt register shows what happens. *)
Definition armed (s : host) : Prop := Z.testbit (control1 s) 2 = true ∧ irpt_mask s = 0xFFFFFFFF.

Definition cmd_index (cmdtm : Z) : Z := Z.land (Z.shiftr cmdtm 24) 0x3F.

(** A command that reads one block of 512 bytes from a selected card. *)
Definition reads_block (cmdtm : Z) (s : host) : bool :=
  (cmd_index cmdtm =? SDCARD_CMD_READ_SINGLE_BLOCK) && Z.testbit cmdtm 21 && Z.testbit cmdtm 4 &&
  bool_decide (state (card s) = Tran) && (blksizecnt s =? 0x10200).

(** [cmdtm] written to the command register. *)
Definition issue (blocks : sd_card) (cmdtm : Z) (s : host) : host :=
  mkhost (arg1 s) (blksizecnt s) (control1 s) (irpt_mask s) true
    (Some (app (card s), cmd_index cmdtm, arg1 s))
    (if reads_block cmdtm s then
       match blocks (arg1 s) with Some b => Words (le_words b) | None => TimedOut end
     else data s)
    (sd_command (cmd_index cmdtm) (arg1 s) (card s)).

Definition with_arg1 (v : Z) (s : host) : host :=
  mkhost v (blksizecnt s) (control1 s) (irpt_mask s) (busy s) (last s) (data s) (card s).
Definition with_blksizecnt (v : Z) (s : host) : host :=
  mkhost (arg1 s) v (control1 s) (irpt_mask s) (busy s) (last s) (data s) (card s).
Definition with_control1 (v : Z) (s : host) : host :=
  mkhost (arg1 s) (blksizecnt s) v (irpt_mask s) (busy s) (last s) (data s) (card s).
Definition with_irpt_mask (v : Z) (s : host) : host :=
  mkhost (arg1 s) (blksizecnt s) (control1 s) v (busy s) (last s) (data s) (card s).
Definition acknowledged (s : host) : host :=
  mkhost (arg1 s) (blksizecnt s) (control1 s) (irpt_mask s) false (last s) (data s) (card s).
Definition with_data (d : transfer) (s : host) : host :=
  mkhost (arg1 s) (blksizecnt s) (control1 s) (irpt_mask s) (busy s) (last s) d (card s).
(** The reset of the controller; the card keeps its state. *)
Definition reset (s : host) : host := mkhost 0 0 0 0 false None NoData (card s).

(** What RESP0 shows of the response to the last command. *)
Definition answers (s : host) (v : Z) : Prop :=
  match last s with
  | Some (application, cmd, arg) =>
      if application then
        if cmd =? SDCARD_ACMD_SD_SEND_OP_COND then
          Z.testbit v 31 = bool_decide (state (card s) = Ready) ∧
          Z.testbit v 30 = high_capacity (card s)
        else True
      else if cmd =? SDCARD_CMD_SEND_IF_COND then v = u32 arg
      else if cmd =? SDCARD_CMD_SEND_RELATIVE_ADDR then Z.shiftr v 16 = u16 (rca (card s))
      else True
  | None => True
  end.

Definition emmc_reg (a : Z) : Prop := 0x20300000 ≤ a < 0x20300100.

(** The controller with a card that holds [blocks].  A flag that is due is shown after
    finitely many polls; a command is done before the driver gives up. *)
Class Emmc (H : Type) `{!Mmio H} (blocks : sd_card) : Type := {
  host_of : H → host;
  cmd_wait : H → nat;
  data_wait : H → nat;
  reset_wait : H → nat;
  emmc_patience : nat;
  cmd_patient h : (cmd_wait h < Z.to_nat 2304)%nat;
  data_patient h : (data_wait h < emmc_patience)%nat;
  reset_patient h : (reset_wait h < emmc_patience)%nat;
  other_write a v h : ¬ emmc_reg a → host_of (bus_write a v h) = host_of h;
  other_read a h : ¬ emmc_reg a → host_of (snd (bus_read a h)) = host_of h;
  delay_host n h : host_of (bus_delay n h) = host_of h;
  delay_cmd n h : (cmd_wait (bus_delay n h) ≤ cmd_wait h)%nat;
  delay_data n h : (data_wait (bus_delay n h) ≤ data_wait h)%nat;
  arg1_write v h : host_of (bus_write REG__SDCARD_ARG1 v h) = with_arg1 v (host_of h);
  blksizecnt_write v h :
    host_of (bus_write REG__SDCARD_BLKSIZECNT v h) = with_blksizecnt v (host_of h);
  irpt_en_write v h : host_of (bus_write REG__SDCARD_IRPT_EN v h) = host_of h;
  irpt_mask_write v h :
    host_of (bus_write REG__SDCARD_IRPT_MASK v h) = with_irpt_mask v (host_of h);
  control1_write v h : Z.testbit v 24 = false →
    host_of (bus_write REG__SDCARD_CONTROL1 v h) = with_control1 v (host_of h);
  control1_reset v h : Z.testbit v 24 = true →
    host_of (bus_write REG__SDCARD_CONTROL1 v h) = reset (host_of h);
  control1_read h : let '(v, h') := bus_read REG__SDCARD_CONTROL1 h in
    host_of h' = host_of h ∧
    (Z.testbit (u32 v) 24 = false ∨ (reset_wait h' < reset_wait h)%nat);
  cmdtm_write v h : armed (host_of h) → busy (host_of h) = false →
    host_of (bus_write REG__SDCARD_CMDTM v h) = issue blocks v (host_of h);
  irq_host h : host_of (irq_next h) = host_of h;
  irq_done h : busy (host_of h) = true →
    Z.testbit (irq h) 0 = true ∨ (cmd_wait (irq_next h) < cmd_wait h)%nat;
  irq_ack h : Z.testbit (irq h) 0 = true →
    host_of (bus_write REG__SDCARD_INTERRUPT 1 (irq_next h)) = acknowledged (host_of h);
  resp0_read h : busy (host_of h) = false →
    let '(v, h') := bus_read REG__SDCARD_RESP0 h in
    host_of h' = host_of h ∧ answers (host_of h) (u32 v);
  resp_read r h : r = REG__SDCARD_RESP1 ∨ r = REG__SDCARD_RESP2 ∨ r = REG__SDCARD_RESP3 →
    host_of (snd (bus_read r h)) = host_of h;
  (** a word can be read: the flag was seen, and there is one *)
  readable : H → Prop;
  irq_words h ws : data (host_of h) = Words ws → Z.testbit (irq h) 20 = false ∧
    (Z.testbit (irq h) 5 = true ∧ readable (irq_next h) ∨
     Z.testbit (irq h) 5 = false ∧ (data_wait (irq_next h) < data_wait h)%nat);
  irq_timeout h : data (host_of h) = TimedOut → Z.testbit (irq h) 5 = false ∧
    (Z.testbit (irq h) 20 = true ∨ (data_wait (irq_next h) < data_wait h)%nat);
  data_read h w ws : readable h → data (host_of h) = Words (w :: ws) →
    let '(v, h') := bus_read REG__SDCARD_DATA h in
    u32 v = u32 w ∧ host_of h' = with_data (Words ws) (host_of h) ∧ readable h';
  irq_ack_data h : host_of (bus_write REG__SDCARD_INTERRUPT 0x20 h) =
    with_data (match data (host_of h) with Words [] => NoData | d => d end) (host_of h);
}.

(** [m] runs first in a sequence that was grouped otherwise. *)
Lemma bind_regroup {S A B} (m : M S A) (f : A → M S B) s r {a s'} :
  m s = Ret (a, s') → r = bind m f s → r = f a s'.
Proof. intros E ->. by apply bind_Ret. Qed.

Lemma bind_assoc {S A B C} (m : M S A) (f : A → M S B) (g : B → M S C) s :
  bind (bind m f) g s = bind m (λ a, bind (f a) g) s.
Proof. unfold bind. by destruct (m s) as [[]| | |]. Qed.

Lemma bind_ext {S A B} (m : M S A) (f g : A → M S B) s :
  (∀ a s', f a s' = g a s') → bind m f s = bind m g s.
Proof. intros E. unfold bind. by destruct (m s) as [[]| | |]. Qed.

Ltac regroup := repeat (rewrite bind_assoc; apply bind_ext; intros ? ?).

Section emmc.
Context {H : Type} `{!Mmio H} {blocks : sd_card} `{E : !Emmc H blocks}.
Context (fuel : nat) (Hfuel : (emmc_patience ≤ fuel)%nat).

(** Steps that do not touch the controller, or only read it. *)
Lemma cmd_wait_run n counter h : counter + Z.of_nat n = 2304 → 0 ≤ counter →
  busy (host_of h) = true → (cmd_wait h < n)%nat →
  ∃ h', wait_cmd_loop n counter h = Ret ((), h') ∧ host_of h' = acknowledged (host_of h).
Proof.
  revert counter h. induction n as [|n IH]; intros counter h Hn Hc Hb Hw; [lia|].
  rewrite wait_turn by lia. destruct (Z.testbit (irq h) 0) eqn:Ei.
  - eexists. split; [done|]. by apply irq_ack.
  - destruct (irq_done h Hb) as [?|Hd]; [congruence|].
    pose proof (delay_cmd 150 (irq_next h)) as Hl.
    destruct n as [|n]; [lia|].
    destruct (IH (counter + 1) (bus_delay 150 (irq_next h))) as (h' & Er & Eh); try lia.
    { by rewrite delay_host, irq_host. }
    exists h'. split; [done|]. by rewrite Eh, delay_host, irq_host.
Qed.

Lemma wait_done h : busy (host_of h) = true →
  ∃ h', _sdhost_wait_for_cmd_done h = Ret ((), h') ∧ host_of h' = acknowledged (host_of h).
Proof. intros Hb. apply cmd_wait_run; [lia|lia|done|apply cmd_patient]. Qed.

(** A command that transfers no data. *)
Definition commanded (arg cmd : Z) (s : host) : host :=
  mkhost arg (blksizecnt s) (control1 s) (irpt_mask s) false (Some (app (card s), cmd, arg))
    (data s) (sd_command cmd arg (card s)).

Definition plain (cmd resp_type : Z) : bool :=
  let v := u32 (_sdhost_cmdtm_val cmd resp_type SDCARD_CMDTM_DIR_HOST_TO_CARD) in
  (cmd_index v =? cmd) && negb (Z.testbit v 21).

Lemma command_run arg cmd resp_type h : armed (host_of h) → busy (host_of h) = false →
  is_u32 arg → plain cmd resp_type = true →
  ∃ h', command arg cmd resp_type h = Ret ((), h') ∧ host_of h' = commanded arg cmd (host_of h).
Proof.
  intros Ha Hb Hu Hp. unfold plain in Hp. apply andb_prop in Hp as [Hi H21].
  unfold command, _sdhost_send_command, mmio_write, modify, bind. rewrite (u32_small arg) by exact Hu.
  set (v := u32 (_sdhost_cmdtm_val _ _ _)) in *. clearbody v.
  set (h1 := bus_write REG__SDCARD_ARG1 arg h).
  assert (host_of (bus_write REG__SDCARD_CMDTM v h1) = issue blocks v (with_arg1 arg (host_of h))) as E1.
  { rewrite cmdtm_write; unfold h1; rewrite arg1_write; done. }
  destruct (wait_done (bus_write REG__SDCARD_CMDTM v h1)) as (h' & Er & Eh).
  { by rewrite E1. }
  exists h'. split; [exact Er|]. rewrite Eh, E1. unfold issue, acknowledged, commanded, with_arg1.
  cbn [arg1 blksizecnt control1 irpt_mask busy last data card].
  apply Z.eqb_eq in Hi. rewrite Hi. unfold reads_block. apply negb_true_iff in H21. by rewrite H21, andb_false_r.
Qed.

Lemma resp0_run h : busy (host_of h) = false →
  ∃ v h', mmio_read REG__SDCARD_RESP0 h = Ret (v, h') ∧ host_of h' = host_of h ∧
    answers (host_of h) v ∧ is_u32 v.
Proof.
  intros Hb. pose proof (resp0_read h Hb) as Hr. unfold mmio_read.
  destruct (bus_read REG__SDCARD_RESP0 h) as [v h'].
  exists (u32 v), h'. destruct Hr. by repeat split; try apply u32_range.
Qed.

(** ** Reading a block *)

Lemma wait_data_run n ws h : data (host_of h) = Words ws → (data_wait h < n)%nat →
  ∃ h', wait_data_loop n h = Ret ((), h') ∧ host_of h' = host_of h ∧ readable h'.
Proof.
  revert h. induction n as [|n IH]; intros h Hd Hw; [lia|]. cbn [wait_data_loop].
  rewrite (bind_Ret _ _ _ _ _ (PeripheralsSpec.mmio_read_run _ _)). fold (irq h) (irq_next h).
  rewrite (PeripheralsSpec.land_bit (irq h) 5), (PeripheralsSpec.land_bit (irq h) 20) by lia.
  destruct (irq_words h ws Hd) as [H20 [[H5 Hr]|[H5 Hl]]]; rewrite H5.
  - exists (irq_next h). split; [done|]. by rewrite irq_host.
  - rewrite H20. unfold cpu_delay, modify. rewrite (bind_Ret _ _ _ () (bus_delay 64 (irq_next h))) by done.
    pose proof (delay_data 64 (irq_next h)).
    destruct (IH (bus_delay 64 (irq_next h))) as (h' & Er & Eh & Hr).
    { by rewrite delay_host, irq_host. } { lia. }
    exists h'. by rewrite Eh, delay_host, irq_host.
Qed.

Lemma wait_data_timeout n h : data (host_of h) = TimedOut → (data_wait h < n)%nat →
  wait_data_loop n h = Fatal "sdcard: read timeout".
Proof.
  revert h. induction n as [|n IH]; intros h Hd Hw; [lia|]. cbn [wait_data_loop].
  rewrite (bind_Ret _ _ _ _ _ (PeripheralsSpec.mmio_read_run _ _)). fold (irq h) (irq_next h).
  rewrite (PeripheralsSpec.land_bit (irq h) 5), (PeripheralsSpec.land_bit (irq h) 20) by lia.
  destruct (irq_timeout h Hd) as [-> H20].
  destruct (Z.testbit (irq h) 20); [done|]. destruct H20 as [?|Hl]; [done|].
  unfold cpu_delay, modify. rewrite (bind_Ret _ _ _ () (bus_delay 64 (irq_next h))) by done.
  pose proof (delay_data 64 (irq_next h)). apply IH; [|lia]. by rewrite delay_host, irq_host.
Qed.

Lemma read_data_run ws buffer h : readable h → data (host_of h) = Words ws →
  ∃ h', read_data_loop (length ws) buffer h = Ret (buffer ++ concat (map word_bytes ws), h') ∧
    host_of h' = with_data (Words []) (host_of h).
Proof.
  revert buffer h. induction ws as [|w ws IH]; intros buffer h Hr Hd.
  { exists h. rewrite app_nil_r. split; [done|]. unfold with_data. rewrite <- Hd. by destruct (host_of h). }
  cbn [length read_data_loop map concat]. unfold mmio_read.
  pose proof (data_read h w ws Hr Hd) as Hw.
  destruct (bus_read REG__SDCARD_DATA h) as [v h1] eqn:Eb. destruct Hw as (Ew & Eh & Hr1).
  unfold bind at 1. rewrite Eb, Ew, word_bytes_u32.
  destruct (IH (buffer ++ word_bytes w) h1 Hr1) as (h2 & E2 & Eh2); [by rewrite Eh|].
  exists h2. rewrite E2, <- app_assoc. split; [done|]. by rewrite Eh2, Eh.
Qed.

(** The controller after its initialisation, with the card selected: between blocks. *)
Definition operational (s : host) : Prop :=
  armed s ∧ busy s = false ∧ blksizecnt s = 0x10200 ∧ data s = NoData ∧ state (card s) = Tran ∧
  app (card s) = false.

Lemma sd_command_read arg c : app c = false → sd_command 17 arg c = c.
Proof. intros Ha. unfold sd_command. rewrite Ha. done. Qed.

(** The first half: the command is sent and done. *)
Lemma read_request index h : operational (host_of h) → is_u32 index →
  ∃ h', sdhost_read_block fuel index h =
      bind (wait_data_loop fuel) (λ _,
        let* block := read_data_loop 128 [] in
        let* _ := mmio_write REG__SDCARD_INTERRUPT SDCARD_INTERUPT_READ_READY in
        ret (0, block)) h' ∧
    host_of h' = mkhost index (blksizecnt (host_of h)) (control1 (host_of h)) (irpt_mask (host_of h))
      false (Some (false, 17, index))
      match blocks index with Some b => Words (le_words b) | None => TimedOut end
      (card (host_of h)).
Proof.
  intros (Ha & Hb & Hk & Hd & Ht & Hap) Hu.
  unfold sdhost_read_block, _sdhost_send_data_command.
  set (v := Z.lor (_sdhost_cmdtm_val _ _ _) _).
  set (h1 := bus_write REG__SDCARD_ARG1 index h).
  rewrite (bind_Ret _ _ _ () h1)
    by (unfold mmio_write, modify; by rewrite (u32_small index) by exact Hu).
  set (h2 := bus_write REG__SDCARD_CMDTM (u32 v) h1). rewrite (bind_Ret _ _ _ () h2) by done.
  assert (host_of h1 = with_arg1 index (host_of h)) as E1 by apply arg1_write.
  assert (host_of h2 = issue blocks (u32 v) (host_of h1)) as E2.
  { apply cmdtm_write; rewrite E1; done. }
  assert (reads_block (u32 v) (host_of h1) = true) as Hrd.
  { rewrite E1. unfold reads_block, with_arg1.
    cbn [arg1 blksizecnt control1 irpt_mask busy last data card]. by rewrite bool_decide_true, Hk. }
  unfold issue in E2. rewrite Hrd in E2.
  change (cmd_index (u32 v)) with 17 in E2. rewrite sd_command_read in E2 by by rewrite E1.
  destruct (wait_done h2) as (h3 & Er & E3); [by rewrite E2|].
  rewrite (bind_Ret _ _ _ _ _ Er). exists h3. split; [done|].
  rewrite E3, E2, E1. unfold acknowledged, with_arg1.
  cbn [arg1 blksizecnt control1 irpt_mask busy last data card]. by rewrite Hap.
Qed.

Lemma read_block_run index h : operational (host_of h) → is_u32 index →
  match blocks index with
  | Some b => length b = 512%nat → Forall is_u8 b →
      ∃ h', sdhost_read_block fuel index h = Ret ((0, b), h') ∧ operational (host_of h') ∧
        card (host_of h') = card (host_of h)
  | None => sdhost_read_block fuel index h = Fatal "sdcard: read timeout"
  end.
Proof.
  intros Ho Hu. destruct (read_request index h Ho Hu) as (h3 & -> & E3).
  destruct Ho as ([Ha1 Ha2] & Hb & Hk & Hd & Ht & Hap). destruct (blocks index) as [b|].
  - intros Hl Hb8. destruct (words_bytes 128 b Hl Hb8) as (Ew & Lw & _).
    destruct (wait_data_run fuel (le_words b) h3) as (h4 & E4 & Eh4 & Hr4).
    { by rewrite E3. } { pose proof (data_patient h3). lia. }
    rewrite (bind_Ret _ _ _ _ _ E4).
    destruct (read_data_run (le_words b) [] h4 Hr4) as (h5 & E5 & Eh5).
    { by rewrite Eh4, E3. }
    rewrite <- Lw, (bind_Ret _ _ _ _ _ E5), Ew. unfold mmio_write, modify, bind.
    eexists. split; [done|].
    change (u32 SDCARD_INTERUPT_READ_READY) with 0x20. rewrite irq_ack_data, Eh5, Eh4, E3.
    by unfold operational, armed.
  - apply bind_Fatal, wait_data_timeout; [by rewrite E3|]. pose proof (data_patient h3). lia.
Qed.

(** C19. Once the controller is set up and the card selected, [_sdcard_disk_read_block] is
    the card that the file systems see in [Devices]: on a block that exists it returns
    the block's 512 bytes, put together from 128 words, and leaves the controller
    ready for the next block; where the model of the card stops the kernel, because
    there is no such block, the driver does so too. *)
Theorem sdhost_read_refines h s index : fs_card s = blocks → operational (host_of h) →
  is_u32 index → (∀ b, blocks index = Some b → length b = 512%nat ∧ Forall is_u8 b) →
  match Devices._sdcard_disk_read_block index s with
  | Ret (r, s') => s' = s ∧ ∃ h', _sdcard_disk_read_block fuel index h = Ret (r, h') ∧
      operational (host_of h')
  | Fatal _ => ∃ reason, _sdcard_disk_read_block fuel index h = Fatal reason
  | Fault => False
  | Timeout => False
  end.
Proof.
  intros Hs Ho Hu Hb. unfold Devices._sdcard_disk_read_block, _sdcard_disk_read_block, gets, bind.
  rewrite Hs. pose proof (read_block_run index h Ho Hu) as Hr.
  destruct (blocks index) as [b|].
  - destruct (Hb b eq_refl) as [Hl H8]. destruct (Hr Hl H8) as (h' & -> & Ho' & _).
    split; [done|]. by exists h'.
  - rewrite Hr. by eexists.
Qed.
(** ** The initialisation *)

Lemma gpfsel_other n : 0 ≤ n < 6 → ¬ emmc_reg (REG__GPIO_GPFSEL n).
Proof. intros Hn. unfold REG__GPIO_GPFSEL. rewrite u32_small by lia. unfold emmc_reg. lia. Qed.

Lemma gpio_select_host pin f h : 0 ≤ pin < 54 →
  ∃ h', gpio_select_function pin f h = Ret ((), h') ∧ host_of h' = host_of h.
Proof.
  intros Hp. unfold gpio_select_function, GPIO_PIN_COUNT. destruct (Z.geb_spec pin 54); [lia|].
  unfold _select_gpfsel_register. rewrite (bind_Ret _ _ _ _ _ (PeripheralsSpec.mmio_read_run _ _)).
  eexists. split; [done|]. by rewrite other_write, other_read by (apply gpfsel_other; lia).
Qed.

Lemma gpio_mode_host pin m h : pin < 54 →
  ∃ h', gpio_set_pin_mode pin m h = Ret ((), h') ∧ host_of h' = host_of h.
Proof.
  intros Hp. unfold gpio_set_pin_mode, GPIO_PIN_COUNT. destruct (Z.geb_spec pin 54); [lia|].
  unfold mmio_write, cpu_delay, modify, bind. eexists. split; [done|].
  assert (¬ emmc_reg (_select_gppud_clk_register pin)) as Hc.
  { unfold _select_gppud_clk_register. destruct (pin <? 32); unfold emmc_reg; by intros []. }
  assert (¬ emmc_reg REG__GPIO_GPPUD) as Hg by (unfold emmc_reg; by intros []).
  by rewrite !other_write, delay_host, other_write, delay_host, other_write by done.
Qed.

Lemma select_pins_host n i h : 0 ≤ i → i + Z.of_nat n ≤ 54 →
  ∃ h', select_pins n i h = Ret ((), h') ∧ host_of h' = host_of h.
Proof.
  revert i h. induction n as [|n IH]; intros i h Hi Hn; [by exists h|]. cbn [select_pins].
  destruct (gpio_select_host i GPIO_F_ALT_3 h ltac:(lia)) as (h1 & E1 & Eh1).
  rewrite (bind_Ret _ _ _ _ _ E1).
  destruct (IH (i + 1) h1 ltac:(lia) ltac:(lia)) as (h2 & E2 & Eh2).
  exists h2. by rewrite E2, Eh2, Eh1.
Qed.

(** One pin set up in a sequence. *)
Ltac next_pin p m :=
  match goal with
  | |- ∃ h', bind _ _ ?h = _ ∧ _ =>
      let h' := fresh "h" in let E' := fresh "E" in let Eh' := fresh "Eh" in
      destruct (gpio_mode_host p m h ltac:(lia)) as (h' & E' & Eh');
      rewrite (bind_Ret _ _ _ _ _ E')
  end.

(** The pins are set up without the controller noticing. *)
Lemma card_pins_host h : ∃ h', card_pins h = Ret ((), h') ∧ host_of h' = host_of h.
Proof.
  unfold card_pins.
  destruct (select_pins_host 7 47 h ltac:(lia) ltac:(lia)) as (h1 & E1 & Eh1).
  rewrite (bind_Ret _ _ _ _ _ E1).
  next_pin 47 GPIO_MODE_PULL_UP. next_pin 48 GPIO_MODE_PULL_DOWN. next_pin 49 GPIO_MODE_PULL_UP.
  next_pin 50 GPIO_MODE_PULL_UP. next_pin 51 GPIO_MODE_PULL_UP. next_pin 52 GPIO_MODE_PULL_UP.
  destruct (gpio_mode_host 53 GPIO_MODE_PULL_UP h6 ltac:(lia)) as (h8 & E8 & Eh8).
  exists h8. split; [done|]. congruence.
Qed.

Lemma reset_loop_run n h : (reset_wait h < n)%nat →
  ∃ h', reset_loop n (Z.shiftl 1 24) h = Ret ((), h') ∧ host_of h' = host_of h.
Proof.
  revert h. induction n as [|n IH]; intros h Hn; [lia|]. cbn [reset_loop].
  pose proof (control1_read h) as Hr. unfold mmio_read, bind.
  destruct (bus_read REG__SDCARD_CONTROL1 h) as [v h1]. destruct Hr as [Eh Hr].
  change (Z.shiftl 1 24) with (2 ^ 24) in *. rewrite PeripheralsSpec.land_bit by lia.
  destruct (Z.testbit (u32 v) 24); [|by exists h1].
  destruct Hr as [?|Hl]; [done|]. destruct (IH h1 ltac:(lia)) as (h2 & E2 & Eh2).
  exists h2. by rewrite E2, Eh2.
Qed.

(** 400 kHz with the longest timeout. *)
Definition CONTROL1_400KHZ : Z := 0x000EFA05.

(** The controller during the identification of the card. *)
Definition at_rest (arg : Z) (lst : option (bool * Z * Z)) (c : sd) : host :=
  mkhost arg 0 CONTROL1_400KHZ 0xFFFFFFFF false lst NoData c.

Lemma command_at_rest a l c arg cmd resp_type h : host_of h = at_rest a l c →
  is_u32 arg → plain cmd resp_type = true →
  ∃ h', command arg cmd resp_type h = Ret ((), h') ∧
    host_of h' = at_rest arg (Some (app c, cmd, arg)) (sd_command cmd arg c).
Proof.
  intros Eh Hu Hp.
  destruct (command_run arg cmd resp_type h) as (h' & Er & E'); [by rewrite Eh|by rewrite Eh|done|done|].
  exists h'. split; [done|]. by rewrite E', Eh.
Qed.

(** The clock is started. *)
Lemma clock_run s h : host_of h = s →
  ∃ h', _sdhost_enable_clock 400 h = Ret ((), h') ∧ host_of h' = with_control1 CONTROL1_400KHZ s.
Proof.
  intros Eh. unfold _sdhost_enable_clock. cbn [Z.eqb].
  unfold mmio_write, cpu_delay, modify, bind. eexists. split; [done|].
  change (u32 (Z.lor _ SDCARD_CONTROL1_CLK_EN)) with CONTROL1_400KHZ.
  change (u32 (clk_ctl1 _ _)) with 0x000EFA01.
  rewrite control1_write, delay_host, control1_write, Eh by done. done.
Qed.

(** ACMD41 until the card is powered up. *)
Lemma power_run n a l c h : host_of h = at_rest a l c → state c = Idle → app c = false →
  (powering c < n)%nat →
  if high_capacity c then
    ∃ h' l', power_loop n h = Ret ((), h') ∧
      host_of h' = at_rest 0x40FF8000 l' (mksd Ready false (rca c) 0 true)
  else power_loop n h = Fatal "sdcard: card type SDSC is NOT supported.".
Proof.
  revert a l c h. induction n as [|n IH]; intros a l c h Eh Hs Ha Hn; [lia|]. cbn [power_loop].
  destruct (command_at_rest _ _ _ 0 SDCARD_CMD_APP SDCARD_CMDTM_RESP_TYPE_48_BITS h Eh)
    as (h1 & E1 & Eh1); [done|done|].
  rewrite (bind_Ret _ _ _ _ _ E1).
  destruct (command_at_rest _ _ _ 0x40FF8000 SDCARD_ACMD_SD_SEND_OP_COND
    SDCARD_CMDTM_RESP_TYPE_48_BITS_BUSY h1 Eh1) as (h2 & E2 & Eh2); [done|done|].
  rewrite (bind_Ret _ _ _ _ _ E2).
  destruct (resp0_run h2) as (v & h3 & E3 & Eh3 & Hv & _); [by rewrite Eh2|].
  rewrite (bind_Ret _ _ _ _ _ E3).
  change SDCARD_ACMD41_RESP_POWER_UP with (2 ^ 31). change SDCARD_ACMD41_RESP_HIGH_CAPACITY with (2 ^ 30).
  rewrite (PeripheralsSpec.land_bit v 31), (PeripheralsSpec.land_bit v 30) by lia.
  rewrite Eh2 in Hv. rewrite <- Eh3 in Eh2. clear E1 E2 E3 Eh3 Eh1.
  destruct c as [st ap rc pw hc]. cbn in Hs, Ha, Hn. subst st ap.
  assert (Z.testbit v 31 = match pw with O => true | S _ => false end ∧ Z.testbit v 30 = hc)
    as [H31 H30] by (destruct pw; exact Hv).
  rewrite H31, H30. destruct pw as [|pw].
  - cbn [high_capacity negb]. destruct hc; [|done]. exists h3. eexists. split; [done|]. exact Eh2.
  - unfold cpu_delay, modify. rewrite (bind_Ret _ _ _ () (bus_delay 512 h3)) by done.
    apply (IH 0x40FF8000 (Some (true, 41, 0x40FF8000)) (mksd Idle false rc pw hc)); [|done|done|cbn; lia].
    rewrite delay_host. exact Eh2.
Qed.

Lemma negotiate_run a l c h : host_of h = at_rest a l c → state c = Idle → app c = false →
  ∃ h' l', negotiate h = Ret ((), h') ∧ host_of h' = at_rest 0x1AA l' c.
Proof.
  intros Eh Hs Ha. unfold negotiate.
  destruct (command_at_rest _ _ _ 0x1AA SDCARD_CMD_SEND_IF_COND SDCARD_CMDTM_RESP_TYPE_48_BITS h Eh)
    as (h1 & E1 & Eh1); [done|done|].
  rewrite (bind_Ret _ _ _ _ _ E1).
  destruct (resp0_run h1) as (v & h2 & E2 & Eh2 & Hv & _); [by rewrite Eh1|].
  rewrite (bind_Ret _ _ _ _ _ E2). rewrite Eh1 in Hv, Eh2.
  destruct c as [st ap rc pw hc]. simpl in Hs, Ha. subst.
  unfold answers, at_rest in Hv. simpl in Hv. subst v.
  exists h2. eexists. split; [done|]. rewrite Eh2. done.
Qed.

(** The relative address of the card, as the driver takes it from the response. *)
Lemma rca_argument v r : is_u32 v → Z.shiftr v 16 = r →
  Z.shiftl (Z.shiftr (Z.land v SDCARD_RCA_MASK) SDCARD_RCA_LSB) SDCARD_RCA_LSB = r * 0x10000 ∧
  is_u32 (r * 0x10000).
Proof.
  unfold is_u32. intros Hv <-. unfold SDCARD_RCA_LSB, SDCARD_RCA_MASK.
  rewrite Z.shiftr_land. change (Z.shiftr 0xFFFF0000 16) with (Z.ones 16).
  rewrite Z.land_ones, Z.shiftl_mul_pow2, Z.shiftr_div_pow2 by lia.
  change (2 ^ 16) with 0x10000. lia.
Qed.

(** Up to the card being asked to identify itself. *)
Lemma setup_run h c : card (host_of h) = c →
  ∃ h' l, (let* _ := mmio_write REG__SDCARD_CONTROL1 (Z.shiftl 1 24) in
           let* _ := reset_loop fuel (Z.shiftl 1 24) in
           let* _ := mmio_write REG__SDCARD_IRPT_EN 0 in
           let* _ := mmio_write REG__SDCARD_IRPT_MASK 0xFFFFFFFF in
           let* _ := card_pins in
           let* _ := cpu_delay 2048 in
           let* _ := _sdhost_enable_clock 400 in
           let* _ := cpu_delay 248 in
           let* _ := command 0 SDCARD_CMD_GO_IDLE_STATE SDCARD_CMDTM_RESP_TYPE_NONE in
           negotiate) h = Ret ((), h') ∧ host_of h' = at_rest 0x1AA l (with_state Idle c).
Proof.
  intros Hc. set (h0 := bus_write REG__SDCARD_CONTROL1 (Z.shiftl 1 24) h).
  rewrite (bind_Ret _ _ _ () h0) by done.
  assert (host_of h0 = reset (host_of h)) as E0 by by apply control1_reset.
  destruct (reset_loop_run fuel h0) as (h1 & R1 & E1); [pose proof (reset_patient h0); lia|].
  rewrite (bind_Ret _ _ _ _ _ R1).
  set (h2 := bus_write REG__SDCARD_IRPT_EN 0 h1). rewrite (bind_Ret _ _ _ () h2) by done.
  set (h3 := bus_write REG__SDCARD_IRPT_MASK 0xFFFFFFFF h2). rewrite (bind_Ret _ _ _ () h3) by done.
  assert (host_of h3 = mkhost 0 0 0 0xFFFFFFFF false None NoData c) as E3.
  { unfold h3, h2. by rewrite irpt_mask_write, irpt_en_write, E1, E0, <- Hc. }
  destruct (card_pins_host h3) as (h4 & R4 & E4). rewrite (bind_Ret _ _ _ _ _ R4).
  rewrite (bind_Ret _ _ _ () (bus_delay 2048 h4)) by done.
  destruct (clock_run _ (bus_delay 2048 h4) eq_refl) as (h5 & R5 & E5).
  rewrite (bind_Ret _ _ _ _ _ R5), (bind_Ret _ _ _ () (bus_delay 248 h5)) by done.
  rewrite delay_host, E4, E3 in E5.
  destruct (command_at_rest 0 None c 0 SDCARD_CMD_GO_IDLE_STATE SDCARD_CMDTM_RESP_TYPE_NONE
    (bus_delay 248 h5)) as (h6 & R6 & E6); [by rewrite delay_host, E5|done|done|].
  rewrite (bind_Ret _ _ _ _ _ R6).
  apply (negotiate_run _ _ _ _ E6); done.
Qed.

(** From a powered card to a selected one. *)
Lemma card_select_run h a l r : host_of h = at_rest a l (mksd Ready false r 0 true) →
  ∃ h', (let* _ := read_cid in
         let* _ := command 0 SDCARD_CMD_SEND_RELATIVE_ADDR SDCARD_CMDTM_RESP_TYPE_48_BITS in
         let* rca_resp := mmio_read REG__SDCARD_RESP0 in
         let relative_card_address := Z.shiftr (Z.land rca_resp SDCARD_RCA_MASK) SDCARD_RCA_LSB in
         let* _ := command (Z.shiftl relative_card_address SDCARD_RCA_LSB)
                     SDCARD_CMD_SELECT_DESELECT SDCARD_CMDTM_RESP_TYPE_48_BITS_BUSY in
         let* _ := command (Z.shiftl relative_card_address SDCARD_RCA_LSB)
                     SDCARD_CMD_SEND_STATUS SDCARD_CMDTM_RESP_TYPE_48_BITS in
         let* card_status := mmio_read REG__SDCARD_RESP0 in
         _sdhost_configure_blk_size_count 512 1) h = Ret ((), h') ∧
    operational (host_of h') ∧ control1 (host_of h') = CONTROL1_400KHZ.
Proof.
  intros E0. unfold read_cid.
  destruct (command_at_rest _ _ _ 0 SDCARD_CMD_ALL_SEND_CID SDCARD_CMDTM_RESP_TYPE_136_BITS h E0)
    as (h1 & R1 & E1); [done|done|].
  destruct (resp0_run h1) as (v1 & h2 & R2 & E2 & _); [by rewrite E1|].
  erewrite bind_Ret; [|rewrite (bind_Ret _ _ _ _ _ R1), (bind_Ret _ _ _ _ _ R2);
    do 3 rewrite (bind_Ret _ _ _ _ _ (PeripheralsSpec.mmio_read_run _ _)); reflexivity].
  set (h3 := snd (bus_read REG__SDCARD_RESP3 _)).
  assert (host_of h3 = at_rest 0 (Some (false, 2, 0)) (mksd Ident false r 0 true)) as E3.
  { unfold h3. rewrite !resp_read, E2, E1 by auto. done. }
  destruct (command_at_rest _ _ _ 0 SDCARD_CMD_SEND_RELATIVE_ADDR SDCARD_CMDTM_RESP_TYPE_48_BITS h3 E3)
    as (h4 & R4 & E4); [done|done|].
  rewrite (bind_Ret _ _ _ _ _ R4).
  destruct (resp0_run h4) as (v & h5 & R5 & E5 & Hv & Hu); [by rewrite E4|].
  rewrite (bind_Ret _ _ _ _ _ R5). rewrite E4 in Hv, E5.
  destruct (rca_argument v (u16 r) Hu Hv) as [-> Hr].
  destruct (command_at_rest _ _ _ (u16 r * 0x10000) SDCARD_CMD_SELECT_DESELECT
    SDCARD_CMDTM_RESP_TYPE_48_BITS_BUSY h5 E5) as (h6 & R6 & E6); [done|done|].
  rewrite (bind_Ret _ _ _ _ _ R6).
  destruct (command_at_rest _ _ _ (u16 r * 0x10000) SDCARD_CMD_SEND_STATUS
    SDCARD_CMDTM_RESP_TYPE_48_BITS h6 E6) as (h7 & R7 & E7); [done|done|].
  rewrite (bind_Ret _ _ _ _ _ R7).
  destruct (resp0_run h7) as (v8 & h8 & R8 & E8 & _); [by rewrite E7|].
  rewrite (bind_Ret _ _ _ _ _ R8). rewrite E7 in E8.
  eexists. split; [done|]. change (u32 (Z.lor _ _)) with 0x10200.
  rewrite blksizecnt_write, E8.
  assert (sd_command SDCARD_CMD_SELECT_DESELECT (u16 r * 0x10000) (mksd Stby false r 0 true) =
    mksd Tran false r 0 true) as Es.
  { unfold sd_command. cbn [app state rca]. rewrite Z.shiftr_div_pow2 by lia.
    change (2 ^ 16) with 0x10000. rewrite Z.div_mul, (Z.eqb_refl (u16 r)) by done. done. }
  change (sd_command SDCARD_CMD_SEND_RELATIVE_ADDR 0 (mksd Ident false r 0 true))
    with (mksd Stby false r 0 true).
  by rewrite Es.
Qed.

(** C20. From any state of a controller and of a high capacity card that keep the contract
    [Emmc], [sdhost_init] ends with the card selected and in the transfer state, blocks
    of 512 bytes read one at a time, and the clock at 400 kHz - the state in which blocks
    can be read; a card of standard capacity stops the kernel. *)
Theorem sdhost_init_correct h : (powering (card (host_of h)) < fuel)%nat →
  if high_capacity (card (host_of h)) then
    ∃ h', sdhost_init fuel h = Ret ((), h') ∧ operational (host_of h') ∧
      control1 (host_of h') = CONTROL1_400KHZ
  else sdhost_init fuel h = Fatal "sdcard: card type SDSC is NOT supported.".
Proof.
  intros Hn. destruct (setup_run h _ eq_refl) as (h1 & l1 & R1 & E1).
  pose proof (power_run fuel _ _ _ _ E1 eq_refl eq_refl Hn) as Hp. cbn [high_capacity with_state] in Hp.
  erewrite (bind_regroup _ _ _ (sdhost_init fuel h) R1); [|unfold sdhost_init; by regroup].
  destruct (high_capacity (card (host_of h))).
  - destruct Hp as (h2 & l2 & R2 & E2). rewrite (bind_Ret _ _ _ _ _ R2).
    exact (card_select_run h2 _ _ _ E2).
  - by apply bind_Fatal.
Qed.
End emmc.

End SdHostSpec.
