(* ===== verification/Loader.v ===== *)
(** * The serial boot loader: [serial_loader/]

    [lib.c] (the mini UART without [wfe]) and [loader.c]: the loader moves itself out of
    the way, receives the kernel over the serial line and jumps to it.  The program at
    the other end of the line is [tools/serial_boot.py]; its side of the protocol is
    here too, as what it answers to each byte. *)
From S2P Require Import Prelude Libc Peripherals PeripheralsSpec.
Import Peripherals PeripheralsSpec.

Module Loader.

(** [loader.c] and [serial_boot.py] *)
Definition SERIAL_LOADER_INIT : Z := 0xFA.
Definition SERIAL_LOADER_INIT_ACK : Z := 0xFB.
Definition SERIAL_LOADER_END : Z := 0xFC.
Definition SERIAL_LOADER_END_ACK : Z := 0xFD.
Definition LOADER_START_ADDRESS : Z := 0x007000.
Definition LOADER_MAX_SIZE : Z := 0x001000.
Definition KERNEL_START_ADRESS : Z := 0x008000.
Definition KERNEL_MAX_SIZE : Z := 0x7f8000.

(** [lib.c]: the pins' register of GPIO 14 and 15. *)
Definition GPFSEL1 : Z := 0x20200004.

(** The peripherals and the memory. *)
Record boot (H : Type) : Type := mkboot { hw : H; ram : gmap Z Z }.
Arguments mkboot {H} _ _.
Arguments hw {H} _.
Arguments ram {H} _.

Section loader.
Context {H : Type} `{!Mmio H}.
Abbreviation ML := (M (boot H)).

#[global] Program Instance boot_hw : Has (boot H) H := {
  comp_get := hw;
  comp_set h b := mkboot h (ram b);
}.
Solve All Obligations with by intros; repeat match goal with b : boot H |- _ => destruct b end.

(** [lib.S] *)
Definition loader_mmio_read (addr : Z) : M H Z := mmio_read addr.
Definition loader_mmio_write (addr value : Z) : M H unit := mmio_write addr value.
Definition loader_cpu_delay (cycles : Z) : M H unit := cpu_delay cycles.

(** ** [lib.c] *)

Definition loader_mini_uart_init : M H unit :=
  let* _ := loader_mmio_write REG__AUX_ENABLES 1 in
  let* _ := loader_mmio_write REG__AUX_MU_IER 0 in
  let* _ := loader_mmio_write REG__AUX_MU_CNTL 0 in
  let* _ := loader_mmio_write REG__AUX_MU_LCR 3 in
  let* _ := loader_mmio_write REG__AUX_MU_IIR 0xC6 in
  let* _ := loader_mmio_write REG__AUX_MU_BAUD 270 in
  let* ra := loader_mmio_read GPFSEL1 in
  let ra := Z.land ra (u32 (Z.lnot (Z.lor (Z.shiftl 7 12) (Z.shiftl 7 15)))) in
  let ra := Z.lor ra (Z.lor (Z.shiftl 2 12) (Z.shiftl 2 15)) in
  let* _ := loader_mmio_write GPFSEL1 ra in
  let* _ := loader_mmio_write REG__GPIO_GPPUD 0 in
  let* _ := loader_cpu_delay 150 in
  let* _ := loader_mmio_write REG__GPIO_GPPUDCLK0 (Z.lor (Z.shiftl 1 14) (Z.shiftl 1 15)) in
  let* _ := loader_cpu_delay 150 in
  let* _ := loader_mmio_write REG__GPIO_GPPUDCLK0 0 in
  loader_mmio_write REG__AUX_MU_CNTL 3.

(** [fuel] bounds the polls of a register, the bytes skipped before a transfer and the
    attempts at one: the code ends these loops only when the other side acts. *)
Context (fuel : nat).

Definition loader_mini_uart_putc (c : Z) : M H unit :=
  let* _ := poll fuel REG__AUX_MU_LSR 0x20 (ret ()) in
  loader_mmio_write REG__AUX_MU_IO c.

Definition loader_mini_uart_getc : M H Z :=
  let* _ := poll fuel REG__AUX_MU_LSR 0x01 (ret ()) in
  let* v := loader_mmio_read REG__AUX_MU_IO in
  ret (u8 (Z.land v 0xFF)).

Fixpoint loader_recv_loop (n : nat) (data : list Z) : M H (list Z) :=
  match n with
  | O => ret data
  | S n => let* c := loader_mini_uart_getc in loader_recv_loop n (data ++ [c])
  end.

Definition loader_mini_uart_recv (size : Z) : M H (Z * list Z) :=
  let* data := loader_recv_loop (Z.to_nat size) [] in ret (size, data).

(** ** [loader.c] *)

(** [while (loader_mini_uart_getc() != SERIAL_LOADER_INIT);] *)
Fixpoint wait_init (n : nat) : M H unit :=
  match n with
  | O => λ _, Timeout
  | S n =>
      let* c := loader_mini_uart_getc in
      if c =? SERIAL_LOADER_INIT then ret () else wait_init n
  end.

Definition store_byte (p b : Z) : ML unit := λ s,
  let? m := Libc.store (ram s) p b in Ret ((), mkboot (hw s) m).

(** The loop over the data, with [n] bytes to go. *)
Fixpoint receive_loop (n : nat) (i buffer : Z) : ML unit :=
  match n with
  | O => ret ()
  | S n =>
      let* byte := zoom loader_mini_uart_getc in
      let* _ := zoom (loader_mini_uart_putc byte) in
      let* _ := store_byte (buffer + i) byte in
      receive_loop n (i + 1) buffer
  end.

Definition serial_load (buffer max_size : Z) : ML Z :=
  let* _ := zoom (wait_init fuel) in
  let* _ := zoom (loader_mini_uart_putc SERIAL_LOADER_INIT_ACK) in
  let* r := zoom (loader_mini_uart_recv 4) in
  let datasize := hd 0 (le_words (snd r)) in
  if datasize >? max_size then ret 0
  else
    let* _ := receive_loop (Z.to_nat datasize) 0 buffer in
    let* _ := zoom (loader_mini_uart_putc SERIAL_LOADER_END) in
    let* c := zoom loader_mini_uart_getc in
    if c =? SERIAL_LOADER_END_ACK then ret datasize else ret 0.

(** [while (serial_load(...) == 0) loader_cpu_delay(250);] *)
Fixpoint load_loop (n : nat) : ML unit :=
  match n with
  | O => λ _, Timeout
  | S n =>
      let* size := serial_load KERNEL_START_ADRESS KERNEL_MAX_SIZE in
      if size =? 0 then
        let* _ := zoom (loader_cpu_delay 250) in load_loop n
      else ret ()
  end.

(** Run at [pc]: the address that is jumped to in the end. *)
Definition loader_main (pc : Z) : ML Z :=
  if pc >? KERNEL_START_ADRESS then
    let* _ := λ s, let? r := UserString.loader_memcpy LOADER_START_ADDRESS KERNEL_START_ADRESS LOADER_MAX_SIZE (ram s) in
                   Ret ((), mkboot (hw s) (snd r)) in
    ret LOADER_START_ADDRESS
  else
    let* _ := zoom loader_mini_uart_init in
    let* _ := load_loop fuel in
    ret KERNEL_START_ADRESS.
End loader.

(** ** [tools/serial_boot.py] *)

(** [serial_send]: waiting for the handshake, for the echo of a byte with the rest to
    send, for the end of the transfer, and the two outcomes. *)
Inductive sender : Type :=
| Handshake (data : list Z)
| Sending (byte : Z) (rest : list Z)
| Sent
| Success
| Failure.

(** The next byte of [data], or the wait for the final acknowledgement. *)
Definition send_next (data : list Z) : sender * list Z :=
  match data with
  | [] => (Sent, [])
  | byte :: rest => (Sending byte rest, [byte])
  end.

(** What the program does with a byte that it reads; a read without a byte times out,
    which in the handshake sends [INIT] again. *)
#[global] Instance serial_send : Peer sender := λ p c,
  match p with
  | Handshake data =>
      if c =? SERIAL_LOADER_INIT_ACK then
        let '(p, l) := send_next data in (p, word_bytes (Z.of_nat (length data)) ++ l)
      else if c =? SERIAL_LOADER_INIT then (p, [SERIAL_LOADER_INIT])
      else (p, [])
  | Sending byte rest => if c =? byte then send_next rest else (Failure, [])
  | Sent => if c =? SERIAL_LOADER_END then (Success, [SERIAL_LOADER_END_ACK]) else (Failure, [])
  | Success | Failure => (p, [])
  end.

End Loader.
