(* ===== verification/LoaderSpec.v ===== *)
(** * The serial boot loader and the program that feeds it

    [loader.c] and [tools/serial_boot.py] joined by the line of [PeripheralsSpec]: the
    transfer of a kernel, and of one that is too large. *)
From S2P Require Import Prelude Libc Peripherals PeripheralsSpec Loader.
Import Peripherals PeripheralsSpec Loader.

Module LoaderSpec.

Section spec.
Context {H : Type} `{!Mmio H, U : !Uart H sender}.
Context (fuel : nat) (Hfuel : (patience (P := sender) ≤ fuel)%nat).
Implicit Types (h : H) (b : boot H).

Lemma loader_putc_run c h : is_u8 c →
  ∃ h', loader_mini_uart_putc fuel c h = Ret ((), h') ∧ uart h' = line_send c (uart h).
Proof. exact (put_run (ret ()) idles_ret fuel Hfuel c h). Qed.

Lemma loader_getc_run c rest h : pending (uart h) = c :: rest →
  ∃ h', loader_mini_uart_getc fuel h = Ret (c, h') ∧ uart h' = line_rest (uart h) rest.
Proof. exact (get_run (ret ()) idles_ret fuel Hfuel c rest h). Qed.

Lemma hw_step {A B} (m : M H A) (f : A → M (boot H) B) h mem a h' : m h = Ret (a, h') →
  bind (zoom m) f (mkboot h mem) = f a (mkboot h' mem).
Proof. intros E. unfold bind, zoom. simpl. by rewrite E. Qed.

(** What precedes the start signal is skipped. *)
Lemma start_run n junk rest h : pending (uart h) = junk ++ SERIAL_LOADER_INIT :: rest →
  SERIAL_LOADER_INIT ∉ junk → (length junk < n)%nat →
  ∃ h', wait_init fuel n h = Ret ((), h') ∧ uart h' = line_rest (uart h) rest.
Proof.
  revert junk h. induction n as [|n IH]; intros junk h Hp Hj Hn; [lia|]. cbn [wait_init].
  destruct junk as [|c junk].
  - destruct (loader_getc_run _ _ h Hp) as (h' & E & Eu). rewrite (bind_Ret _ _ _ _ _ E). by exists h'.
  - destruct (loader_getc_run _ _ h Hp) as (h' & E & Eu). rewrite (bind_Ret _ _ _ _ _ E).
    apply not_elem_of_cons in Hj as [Hc Hj].
    destruct (Z.eqb_spec c SERIAL_LOADER_INIT); [congruence|].
    destruct (IH junk h') as (h2 & E2 & Eu2); [by rewrite Eu|done|simpl in Hn; lia|].
    exists h2. split; [done|]. by rewrite Eu2, Eu.
Qed.

Lemma loader_recv_run l data rest h : pending (uart h) = l ++ rest →
  ∃ h', loader_recv_loop fuel (length l) data h = Ret (data ++ l, h') ∧
    uart h' = line_rest (uart h) rest.
Proof.
  revert data h. induction l as [|c l IH]; intros data h Hp.
  { exists h. rewrite app_nil_r. split; [done|].
    unfold line_rest. simpl in Hp. rewrite <- Hp. by destruct (uart h). }
  destruct (loader_getc_run c (l ++ rest) h Hp) as (h1 & E1 & U1).
  cbn [length loader_recv_loop]. rewrite (bind_Ret _ _ _ _ _ E1).
  destruct (IH (data ++ [c]) h1) as (h2 & E2 & U2); [by rewrite U1|].
  exists h2. rewrite E2, <- app_assoc. split; [done|]. by rewrite U2, U1.
Qed.

(** The sender has written the first byte of [data] and waits for its echo, or for the
    end. *)
Definition sends (data : list Z) (l : line sender) : Prop :=
  l = mkline (snd (send_next data)) (fst (send_next data)).

Lemma send_next_bytes data : Forall is_u8 data → Forall is_u8 (snd (send_next data)).
Proof.
  intros []; [by apply Forall_nil|]. apply Forall_cons. split; [done|by apply Forall_nil].
Qed.

(** The answers to the start signal and to an echo. *)
Lemma handshake_reply data : Forall is_u8 data →
  line_send SERIAL_LOADER_INIT_ACK (mkline [] (Handshake data)) =
  mkline (word_bytes (Z.of_nat (length data)) ++ snd (send_next data)) (fst (send_next data)).
Proof.
  intros H8. pose proof (send_next_bytes _ H8) as Hb. unfold line_send, react, serial_send.
  cbn [peer pending]. rewrite Z.eqb_refl. destruct (send_next data) as [p l].
  rewrite map_u8; [done|]. apply Forall_app. split; [|done].
  rewrite <- app_nil_r. apply (word_bytes_u8 [_]).
Qed.

Lemma echo_reply d data : Forall is_u8 data → sends data (line_send d (mkline [] (Sending d data))).
Proof.
  intros H8. pose proof (send_next_bytes _ H8) as Hb. unfold sends, line_send, react, serial_send.
  cbn [peer pending]. rewrite Z.eqb_refl. destruct (send_next data). by rewrite map_u8.
Qed.

Lemma receive_run data i buffer b : Forall is_u8 data → sends data (uart (hw b)) →
  Libc.mapped (ram b) buffer (i + Z.of_nat (length data)) → 0 ≤ i →
  ∃ b', receive_loop fuel (length data) i buffer b = Ret ((), b') ∧ sends [] (uart (hw b')) ∧
    (∀ p, ram b' !! p = if decide (buffer + i ≤ p < buffer + i + Z.of_nat (length data))
                        then data !! Z.to_nat (p - (buffer + i)) else ram b !! p).
Proof.
  intros H8. revert i b. induction H8 as [|d data Hd H8 IH]; intros i b Hs Hm Hi.
  { exists b. split; [done|]. split; [done|]. intros p. by rewrite decide_False by (simpl; lia). }
  destruct b as [h m]. cbn [hw ram] in *.
  cbn [length receive_loop]. unfold sends, send_next in Hs. simpl in Hs.
  destruct (loader_getc_run d [] h) as (h1 & E1 & U1); [by rewrite Hs|].
  rewrite (hw_step _ _ _ _ _ _ E1).
  destruct (loader_putc_run d h1 Hd) as (h2 & E2 & U2).
  rewrite (hw_step _ _ _ _ _ _ E2).
  unfold store_byte at 1. unfold bind at 1. cbn [ram].
  rewrite (Libc.store_mapped _ _ _ _ _ Hm) by (simpl; lia). cbn [obind hw].
  rewrite (u8_small d) by exact Hd.
  destruct (IH (i + 1) (mkboot h2 (<[buffer + i := d]> m))) as (b' & E3 & Hs' & Hr).
  - cbn [hw]. rewrite U2, U1, Hs. by apply echo_reply.
  - simpl. apply Libc.mapped_insert. intros j Hj. apply Hm. simpl. lia.
  - lia.
  - exists b'. split; [done|]. split; [done|]. intros p. rewrite Hr. cbn [ram length].
    destruct (decide (p = buffer + i)) as [->|Hp].
    + rewrite decide_False, lookup_insert_eq, decide_True by lia.
      by rewrite Z.sub_diag.
    + rewrite lookup_insert_ne by done.
      destruct (decide (buffer + (i + 1) ≤ p < _)) as [Hi1|Hi1].
      * rewrite decide_True by lia.
        replace (Z.to_nat (p - (buffer + i))) with (S (Z.to_nat (p - (buffer + (i + 1))))) by lia. done.
      * by rewrite decide_False by lia.
Qed.

Lemma le_words_size n : is_u32 n → hd 0 (le_words (word_bytes n)) = n.
Proof.
  unfold is_u32, word_bytes. intros Hn. cbn [le_words hd].
  rewrite !Z.shiftr_div_pow2 by lia. change (2 ^ 8) with 0x100. change (2 ^ 16) with 0x10000.
  change (2 ^ 24) with 0x1000000. unfold u8. lia.
Qed.

(** Handshake and size: what is left is the data, already asked for. *)
Lemma handshake_run junk data buffer max_size b : (length junk < fuel)%nat →
  SERIAL_LOADER_INIT ∉ junk → Forall is_u8 data → Z.of_nat (length data) < 0x100000000 →
  uart (hw b) = mkline (junk ++ [SERIAL_LOADER_INIT]) (Handshake data) →
  ∃ h', sends data (uart h') ∧
    serial_load fuel buffer max_size b =
    (let datasize := Z.of_nat (length data) in
     if datasize >? max_size then ret 0
     else
       let* _ := receive_loop fuel (length data) 0 buffer in
       let* _ := zoom (loader_mini_uart_putc fuel SERIAL_LOADER_END) in
       let* c := zoom (loader_mini_uart_getc fuel) in
       if c =? SERIAL_LOADER_END_ACK then ret datasize else ret 0) (mkboot h' (ram b)).
Proof.
  intros Hj Hn H8 Hl Hu. unfold serial_load. destruct b as [h0 m]. cbn [hw ram] in *.
  destruct (start_run fuel junk [] h0) as (h1 & E1 & U1); [by rewrite Hu|done|lia|].
  rewrite (hw_step _ _ _ _ _ _ E1).
  destruct (loader_putc_run SERIAL_LOADER_INIT_ACK h1) as (h2 & E2 & U2); [done|].
  rewrite (hw_step _ _ _ _ _ _ E2).
  rewrite U1, Hu in U2. unfold line_rest in U2. cbn [peer] in U2.
  rewrite handshake_reply in U2 by done. destruct (send_next data) as [p l] eqn:Es. cbn [fst snd] in U2.
  destruct (loader_recv_run (word_bytes (Z.of_nat (length data))) [] l h2) as (h3 & E3 & U3).
  { by rewrite U2. }
  assert (loader_mini_uart_recv fuel 4 h2 = Ret ((4, word_bytes (Z.of_nat (length data))), h3)) as E4.
  { unfold loader_mini_uart_recv.
    change (Z.to_nat 4) with (length (word_bytes (Z.of_nat (length data)))).
    by rewrite (bind_Ret _ _ _ _ _ E3). }
  rewrite (hw_step _ _ _ _ _ _ E4). cbn [snd]. rewrite le_words_size by (unfold is_u32; lia).
  exists h3. split; [unfold sends; by rewrite U3, U2, Es|]. by rewrite Nat2Z.id.
Qed.

Lemma init_run h : ∃ h', loader_mini_uart_init h = Ret ((), h').
Proof.
  unfold loader_mini_uart_init, loader_mmio_write, loader_mmio_read, loader_cpu_delay, mmio_write,
    cpu_delay, mmio_read, modify, bind.
  destruct (bus_read GPFSEL1 _) as [v h1]. by eexists.
Qed.

Lemma load_run junk data buffer max_size b : (length junk < fuel)%nat →
  SERIAL_LOADER_INIT ∉ junk → Forall is_u8 data →
  Z.of_nat (length data) < 0x100000000 → Z.of_nat (length data) ≤ max_size →
  uart (hw b) = mkline (junk ++ [SERIAL_LOADER_INIT]) (Handshake data) →
  Libc.mapped (ram b) buffer (Z.of_nat (length data)) →
  ∃ b', serial_load fuel buffer max_size b = Ret (Z.of_nat (length data), b') ∧
    uart (hw b') = mkline [] Success ∧
    ∀ p, ram b' !! p = if decide (buffer ≤ p < buffer + Z.of_nat (length data))
                       then data !! Z.to_nat (p - buffer) else ram b !! p.
Proof.
  intros Hj Hn H8 Hl Hle Hu Hm.
  destruct (handshake_run junk data buffer max_size b Hj Hn H8 Hl Hu) as (h1 & Hs & ->). cbv zeta.
  destruct (Z.gtb_spec (Z.of_nat (length data)) max_size); [lia|].
  destruct (receive_run data 0 buffer (mkboot h1 (ram b)) H8 Hs) as (b2 & E2 & Hs2 & Hr); [done|done|].
  rewrite (bind_Ret _ _ _ _ _ E2). destruct b2 as [h2 m2]. cbn [hw ram] in *.
  destruct (loader_putc_run SERIAL_LOADER_END h2) as (h3 & E3 & U3); [done|].
  rewrite (hw_step _ _ _ _ _ _ E3).
  rewrite Hs2 in U3. unfold line_send in U3. simpl in U3.
  destruct (loader_getc_run SERIAL_LOADER_END_ACK [] h3) as (h4 & E4 & U4); [by rewrite U3|].
  rewrite (hw_step _ _ _ _ _ _ E4).
  eexists. split; [done|]. split; [cbn; by rewrite U4, U3|].
  intros p. cbn [ram]. by rewrite Hr, Z.add_0_r.
Qed.

(** C22. A transfer between the loader and [serial_boot.py]: whatever bytes without a start
    signal come first, [serial_load] returns the size of the kernel that the program
    sends, the memory holds exactly its bytes at the buffer and is otherwise unchanged,
    and the program has seen every byte echoed and ends with success; a kernel larger
    than the limit is refused before a byte of memory is written, and leaves the
    program waiting for the echo of its first byte. *)
Theorem serial_load_correct junk data buffer max_size b : (length junk < fuel)%nat →
  SERIAL_LOADER_INIT ∉ junk → Forall is_u8 data → Z.of_nat (length data) < 0x100000000 →
  uart (hw b) = mkline (junk ++ [SERIAL_LOADER_INIT]) (Handshake data) →
  Libc.mapped (ram b) buffer (Z.of_nat (length data)) →
  if decide (Z.of_nat (length data) ≤ max_size) then
    ∃ b', serial_load fuel buffer max_size b = Ret (Z.of_nat (length data), b') ∧
      uart (hw b') = mkline [] Success ∧
      ∀ p, ram b' !! p = if decide (buffer ≤ p < buffer + Z.of_nat (length data))
                         then data !! Z.to_nat (p - buffer) else ram b !! p
  else
    ∃ b', serial_load fuel buffer max_size b = Ret (0, b') ∧ ram b' = ram b ∧
      sends data (uart (hw b')).
Proof.
  intros Hj Hn H8 Hl Hu Hm. destruct (decide _) as [Hle|Hgt].
  - by apply (load_run junk).
  - destruct (handshake_run junk data buffer max_size b Hj Hn H8 Hl Hu) as (h1 & Hs & ->). cbv zeta.
    destruct (Z.gtb_spec (Z.of_nat (length data)) max_size); [|lia].
    eexists. done.
Qed.

(** The loader's first run, from where it was put at [KERNEL_START_ADRESS], copies its
    4 KiB to [LOADER_START_ADDRESS] and goes on there.  The copy initialises the line and,
    when [serial_boot.py] is at its other end, jumps to [KERNEL_START_ADRESS] with
    exactly the kernel that was sent there, the program having ended with success. *)
Theorem loader_boots b pc :
  if decide (pc > KERNEL_START_ADRESS) then
    Libc.bytes_ok (ram b) → Libc.mapped (ram b) LOADER_START_ADDRESS LOADER_MAX_SIZE →
    Libc.mapped (ram b) KERNEL_START_ADRESS LOADER_MAX_SIZE →
    ∃ m, loader_main fuel pc b = Ret (LOADER_START_ADDRESS, mkboot (hw b) m) ∧
      Libc.copied (ram b) m LOADER_START_ADDRESS KERNEL_START_ADRESS LOADER_MAX_SIZE
  else
    ∃ h0, loader_mini_uart_init (hw b) = Ret ((), h0) ∧
    ∀ junk data, uart h0 = mkline (junk ++ [SERIAL_LOADER_INIT]) (Handshake data) →
      (length junk < fuel)%nat → SERIAL_LOADER_INIT ∉ junk → Forall is_u8 data →
      0 < Z.of_nat (length data) ≤ KERNEL_MAX_SIZE →
      Libc.mapped (ram b) KERNEL_START_ADRESS (Z.of_nat (length data)) →
      ∃ b', loader_main fuel pc b = Ret (KERNEL_START_ADRESS, b') ∧
        uart (hw b') = mkline [] Success ∧
        ∀ i x, data !! i = Some x → ram b' !! (KERNEL_START_ADRESS + Z.of_nat i) = Some x.
Proof.
  unfold loader_main. destruct (decide _) as [Hpc|Hpc], (Z.gtb_spec pc KERNEL_START_ADRESS); try lia.
  - intros Hok Hd Hs. unfold UserString.loader_memcpy, Libc._memcpy, Libc.__aeabi_memcpy, bind.
    destruct (Libc.copy_up_spec (Z.to_nat LOADER_MAX_SIZE) 0 LOADER_START_ADDRESS KERNEL_START_ADRESS
      LOADER_MAX_SIZE (ram b) (ram b) Hok Hok) as (m & -> & Hm); try (done || lia).
    { left. done. } { intros q. by rewrite decide_False by lia. }
    by exists m.
  - destruct (init_run (hw b)) as [h0 E0]. exists h0. split; [done|].
    intros junk data Hu Hf Hj H8 Hl Hm. unfold KERNEL_MAX_SIZE in Hl.
    destruct (load_run junk data KERNEL_START_ADRESS KERNEL_MAX_SIZE (mkboot h0 (ram b)) Hf Hj H8)
      as (b' & E & Hu' & Hr); try (done || unfold KERNEL_MAX_SIZE; lia).
    exists b'. destruct b as [h m]. cbn [hw ram] in *. rewrite (hw_step _ _ _ _ _ _ E0).
    destruct fuel as [|n]; [lia|]. cbn [load_loop].
    rewrite (bind_Ret _ _ _ () b'); [|rewrite (bind_Ret _ _ _ _ _ E)]; [|].
    + split; [done|]. split; [done|]. intros i x Hi. pose proof (lookup_lt_Some _ _ _ Hi).
      rewrite Hr, decide_True by lia. by replace (Z.to_nat _) with i by lia.
    + by destruct (Z.eqb_spec (Z.of_nat (length data)) 0); [lia|].
Qed.
End spec.

End LoaderSpec.
