(* ===== verification/Boards.v ===== *)
(** * Concrete hardware that keeps the contracts

    A serial line, pins and an SD controller with a card, each as a small machine that
    answers to the registers; and the properties of the drivers applied to them. *)
From S2P Require Import Prelude Mmu Alloc Heap Fs FsState Devices Libc Peripherals PeripheralsSpec SdHost SdHostSpec Loader LoaderSpec.
Import FsState Peripherals PeripheralsSpec SdHost SdHostSpec Loader.

Module Boards.

(** Three polls at most until something that is due shows. *)
Definition soon (w : nat) : nat := Nat.min w 3.

(** ** A serial line *)

Section serial.
Context {P : Type} `{!Peer P}.

Record serial : Type := mkserial { s_line : line P; s_tx : nat; s_rx : nat }.

Definition status (s : serial) : Z :=
  (if decide (soon (s_tx s) = O) then 0x20 else 0) +
  (if decide (soon (s_rx s) = O ∧ pending (s_line s) ≠ []) then 1 else 0).

#[global] Instance serial_mmio : Mmio serial := {
  bus_read a s :=
    if a =? REG__AUX_MU_LSR then
      (status s, mkserial (s_line s) (soon (s_tx s) - 1) (soon (s_rx s) - 1))
    else if a =? REG__AUX_MU_IO then
      match pending (s_line s) with
      | [] => (0, s)
      | c :: rest => (c, mkserial (line_rest (s_line s) rest) (s_tx s) 2)
      end
    else (0, s);
  bus_write a v s :=
    if a =? REG__AUX_MU_IO then mkserial (line_send v (s_line s)) 2 (s_rx s) else s;
  bus_delay _ s := s;
  bus_wfe s := s;
}.

Lemma lsr_status s : lsr s = status s.
Proof.
  unfold lsr. simpl. unfold status.
  by destruct (decide (soon (s_tx s) = O)), (decide (soon (s_rx s) = O ∧ pending (s_line s) ≠ [])).
Qed.

Lemma status_tx s : Z.testbit (status s) 5 = bool_decide (soon (s_tx s) = O).
Proof.
  unfold status, bool_decide.
  repeat case_decide; done.
Qed.

Lemma status_rx s : Z.testbit (status s) 0 = bool_decide (soon (s_rx s) = O ∧ pending (s_line s) ≠ []).
Proof. unfold status. case_bool_decide; repeat case_decide; done || tauto. Qed.

(** The line carries bytes. *)
#[global] Program Instance serial_uart : Uart serial P := {
  uart s := mkline (map u8 (pending (s_line s))) (peer (s_line s));
  patience := 4;
  tx_wait s := soon (s_tx s);
  rx_wait s := soon (s_rx s);
}.
Next Obligation. intros. unfold soon. lia. Qed.
Next Obligation. intros. unfold soon. lia. Qed.
Next Obligation. done. Qed.
Next Obligation.
  intros s. rewrite lsr_status, status_tx. unfold lsr_next. simpl.
  destruct (decide (soon (s_tx s) = O)); [left; by rewrite bool_decide_true|right].
  unfold soon in *. lia.
Qed.
Next Obligation.
  intros s Hp. rewrite lsr_status, status_rx. unfold lsr_next. simpl in *.
  assert (pending (s_line s) ≠ []) as Hp' by (intros E; by rewrite E in Hp).
  destruct (decide (soon (s_rx s) = O)); [left; by rewrite bool_decide_true|right].
  unfold soon in *. lia.
Qed.
Next Obligation.
  intros s Hp. rewrite lsr_status, status_rx. apply bool_decide_false. intros [_ Hn].
  simpl in Hp. by destruct (pending (s_line s)).
Qed.
Next Obligation. done. Qed.
Next Obligation. done. Qed.
Next Obligation. done. Qed.
Next Obligation.
  intros s c _ _. unfold lsr_next. simpl. unfold line_send. simpl.
  destruct (react (peer (s_line s)) c) as [p reply].
  simpl. rewrite map_app, map_map. f_equal. f_equal. apply map_ext. intros x. unfold u8. lia.
Qed.
Next Obligation.
  intros s c rest _ Hp. unfold lsr_next. simpl in *. unfold line_rest. simpl.
  destruct (pending (s_line s)); [done|]. by injection Hp as <- <-.
Qed.
End serial.

(** ** Pins *)

(** The registers as functions; the pull-up/down of each pin. *)
Record header : Type := mkheader { h_fsel : Z → Z; h_pud : Z; h_pull : nat → Z }.

Definition fsel_index (a : Z) : option Z :=
  let n := (a - 0x20200000) / 4 in
  if decide (0 ≤ n < 6 ∧ a = 0x20200000 + 4 * n) then Some n else None.

Definition clock_in (n mask : Z) (h : header) : header :=
  mkheader (h_fsel h) (h_pud h)
    (λ p, if (Z.of_nat p / 32 =? n) && Z.testbit mask (Z.of_nat p `mod` 32)
          then h_pud h else h_pull h p).

#[global] Instance header_mmio : Mmio header := {
  bus_read a h := match fsel_index a with Some n => (u32 (h_fsel h n), h) | None => (0, h) end;
  bus_write a v h :=
    match fsel_index a with
    | Some n => mkheader (λ k, if k =? n then v else h_fsel h k) (h_pud h) (h_pull h)
    | None =>
        if a =? REG__GPIO_GPPUD then mkheader (h_fsel h) v (h_pull h)
        else if a =? REG__GPIO_GPPUDCLK0 then clock_in 0 v h
        else if a =? REG__GPIO_GPPUDCLK1 then clock_in 1 v h
        else h
    end;
  bus_delay _ h := h;
  bus_wfe h := h;
}.

Lemma fsel_index_reg n : 0 ≤ n < 6 → fsel_index (REG__GPIO_GPFSEL n) = Some n.
Proof.
  intros Hn. unfold REG__GPIO_GPFSEL. rewrite u32_small by lia. unfold fsel_index.
  replace ((0x20200000 + 4 * n - 0x20200000) / 4) with n by lia. by rewrite decide_True by lia.
Qed.

Definition header_pins (h : header) : gpio :=
  mkgpio ((λ n, u32 (h_fsel h (Z.of_nat n))) <$> seq 0 6) (h_pud h) (h_pull h <$> seq 0 54).

Lemma clock_in_pins n v h : header_pins (clock_in n v h) = clocked n v (header_pins h).
Proof.
  unfold header_pins, clock_in, clocked. by cbn [fsel gppud pull h_fsel h_pud h_pull].
Qed.

#[global] Program Instance header_gpio : Gpio header := { pins := header_pins }.
Next Obligation.
  intros h. split; [done|]. apply Forall_fmap, Forall_forall. intros n _. apply u32_range.
Qed.
Next Obligation. done. Qed.
Next Obligation.
  intros h n Hn. cbn [bus_read header_mmio]. rewrite fsel_index_reg by done. split; [|done].
  unfold header_pins. cbn [fsel]. rewrite list_lookup_fmap, lookup_seq_lt by lia.
  cbn [fmap option_fmap option_map fst Nat.add]. by rewrite Z2Nat.id by lia.
Qed.
Next Obligation.
  intros h n v Hn Hv. cbn [bus_write header_mmio]. rewrite fsel_index_reg by done.
  unfold header_pins. cbn [h_fsel h_pud h_pull fsel gppud pull]. apply (f_equal (λ l, mkgpio l _ _)).
  apply list_eq. intros i.
  destruct (decide (i = Z.to_nat n)) as [->|Hi].
  - rewrite list_lookup_insert_eq by (simpl; lia).
    rewrite list_lookup_fmap, lookup_seq_lt by lia. cbn [fmap option_fmap option_map Nat.add].
    rewrite Z2Nat.id, Z.eqb_refl by lia. f_equal. by apply u32_small.
  - rewrite list_lookup_insert_ne, !list_lookup_fmap by done.
    destruct (seq 0 6 !! i) as [j|] eqn:E; [|done]. apply lookup_seq in E as [-> _].
    cbn [fmap option_fmap option_map Nat.add]. destruct (Z.eqb_spec (Z.of_nat i) n); [lia|done].
Qed.
Next Obligation. done. Qed.
Next Obligation. intros h v. apply (clock_in_pins 0). Qed.
Next Obligation. intros h v. apply (clock_in_pins 1). Qed.
Next Obligation. done. Qed.

(** ** An SD controller with a card *)

Record slot : Type := mkslot {
  t_host : host;
  t_cmd : nat;      (** polls until a command is done *)
  t_data : nat;     (** and until its data is there *)
  t_reset : nat;
  t_readable : bool;
}.

Section slot.
Context (blocks : sd_card).

Definition flags (t : slot) : Z :=
  (if decide (busy (t_host t) = true ∧ soon (t_cmd t) = O) then 1 else 0) +
  match data (t_host t) with
  | NoData => 0
  | Words _ => if decide (soon (t_data t) = O) then 0x20 else 0
  | TimedOut => if decide (soon (t_data t) = O) then 0x100000 else 0
  end.

(** The response in RESP0. *)
Definition response (s : host) : Z :=
  match last s with
  | Some (application, cmd, arg) =>
      if application then
        (if bool_decide (state (card s) = Ready) then 2 ^ 31 else 0) +
        (if high_capacity (card s) then 2 ^ 30 else 0)
      else if cmd =? SDCARD_CMD_SEND_IF_COND then u32 arg
      else u16 (rca (card s)) * 2 ^ 16
  | None => 0
  end.

Definition slot_read (a : Z) (t : slot) : Z * slot :=
  if a =? REG__SDCARD_INTERRUPT then
    (flags t, mkslot (t_host t) (soon (t_cmd t) - 1) (soon (t_data t) - 1) (t_reset t)
                (Z.testbit (flags t) 5))
  else if a =? REG__SDCARD_CONTROL1 then
    (if decide (soon (t_reset t) = O) then 0 else 2 ^ 24,
     mkslot (t_host t) (t_cmd t) (t_data t) (soon (t_reset t) - 1) (t_readable t))
  else if a =? REG__SDCARD_RESP0 then (response (t_host t), t)
  else if a =? REG__SDCARD_DATA then
    match data (t_host t) with
    | Words (w :: ws) =>
        (w, mkslot (with_data (Words ws) (t_host t)) (t_cmd t) (t_data t) (t_reset t) (t_readable t))
    | _ => (0, t)
    end
  else (0, t).

Definition with_host (s : host) (t : slot) : slot :=
  mkslot s (t_cmd t) (t_data t) (t_reset t) (t_readable t).

Definition slot_write (a v : Z) (t : slot) : slot :=
  let s := t_host t in
  if a =? REG__SDCARD_ARG1 then with_host (with_arg1 v s) t
  else if a =? REG__SDCARD_BLKSIZECNT then with_host (with_blksizecnt v s) t
  else if a =? REG__SDCARD_IRPT_MASK then with_host (with_irpt_mask v s) t
  else if a =? REG__SDCARD_CONTROL1 then
    if Z.testbit v 24 then mkslot (reset s) 3 3 3 false else with_host (with_control1 v s) t
  else if a =? REG__SDCARD_CMDTM then mkslot (issue blocks v s) 3 3 (t_reset t) false
  else if a =? REG__SDCARD_INTERRUPT then
    if v =? 1 then with_host (acknowledged s) t
    else with_host (with_data (match data s with Words [] => NoData | d => d end) s) t
  else t.
#[global] Instance slot_mmio : Mmio slot := {
  bus_read := slot_read;
  bus_write := slot_write;
  bus_delay _ t := t;
  bus_wfe t := t;
}.

Lemma irq_flags t : irq t = flags t.
Proof.
  unfold irq. cbn [bus_read slot_mmio]. unfold slot_read. cbn [Z.eqb]. unfold flags. cbn [fst].
  destruct (data (t_host t)); repeat case_decide; done.
Qed.

Lemma flags_bits t :
  Z.testbit (flags t) 0 = bool_decide (busy (t_host t) = true ∧ soon (t_cmd t) = O) ∧
  Z.testbit (flags t) 5 =
    match data (t_host t) with Words _ => bool_decide (soon (t_data t) = O) | _ => false end ∧
  Z.testbit (flags t) 20 =
    match data (t_host t) with TimedOut => bool_decide (soon (t_data t) = O) | _ => false end.
Proof.
  unfold flags. destruct (data (t_host t)); repeat case_bool_decide; repeat case_decide;
    try (exfalso; tauto); done.
Qed.

Lemma slot_other a v t : ¬ emmc_reg a → t_host (snd (slot_read a t)) = t_host t ∧ slot_write a v t = t.
Proof.
  intros Ha. assert (∀ r, emmc_reg r → (a =? r) = false) as Hr.
  { intros r Hr. apply Z.eqb_neq. by intros ->. }
  unfold slot_read, slot_write. rewrite !Hr by done. done.
Qed.

Lemma slot_control1 v t : slot_write REG__SDCARD_CONTROL1 v t =
  if Z.testbit v 24 then mkslot (reset (t_host t)) 3 3 3 false
  else with_host (with_control1 v (t_host t)) t.
Proof. done. Qed.

Lemma soon_step w : soon w = O ∨ (soon (soon w - 1) < soon w)%nat.
Proof. unfold soon. lia. Qed.

#[global] Program Instance slot_emmc : Emmc slot blocks := {
  host_of := t_host;
  cmd_wait t := soon (t_cmd t);
  data_wait t := soon (t_data t);
  reset_wait t := soon (t_reset t);
  emmc_patience := 4;
  readable t := t_readable t = true;
}.
Next Obligation. intros. unfold soon. lia. Qed.
Next Obligation. intros. unfold soon. lia. Qed.
Next Obligation. intros. unfold soon. lia. Qed.
Next Obligation. intros a v t Ha. apply (f_equal t_host (proj2 (slot_other a v t Ha))). Qed.
Next Obligation. intros a t Ha. apply (proj1 (slot_other a 0 t Ha)). Qed.
Next Obligation. done. Qed.
Next Obligation. done. Qed.
Next Obligation. done. Qed.
Next Obligation. done. Qed.
Next Obligation. done. Qed.
Next Obligation. done. Qed.
Next Obligation. done. Qed.
Next Obligation.
  intros v t Hv. refine (eq_trans (f_equal t_host (slot_control1 v t)) _). by rewrite Hv.
Qed.
Next Obligation.
  intros v t Hv. refine (eq_trans (f_equal t_host (slot_control1 v t)) _). by rewrite Hv.
Qed.
Next Obligation.
  intros t. cbn. split; [done|]. destruct (soon_step (t_reset t)) as [E|E].
  - left. by rewrite decide_True by done.
  - by right.
Qed.
Next Obligation. done. Qed.
Next Obligation. done. Qed.
Next Obligation.
  intros t Hb. rewrite irq_flags. destruct (flags_bits t) as [-> _].
  destruct (soon_step (t_cmd t)) as [E|E]; [left; by rewrite bool_decide_true|by right].
Qed.
Next Obligation. done. Qed.
Next Obligation.
  intros t Hb. cbn. split; [done|]. unfold answers, response.
  destruct (last (t_host t)) as [[[application cmd] arg]|]; [|done]. destruct application.
  - destruct (cmd =? _); [|done].
    by destruct (bool_decide _), (high_capacity _).
  - destruct (cmd =? SDCARD_CMD_SEND_IF_COND); [by rewrite u32_u32|].
    destruct (cmd =? _); [|done]. rewrite Z.shiftr_div_pow2 by lia.
    change (2 ^ 16) with 0x10000. unfold u32, u16. lia.
Qed.
Next Obligation. intros r t [->|[-> | ->]]; done. Qed.
Next Obligation.
  intros t ws Hd. rewrite irq_flags. destruct (flags_bits t) as (_ & H5 & H20). rewrite H5, H20, Hd.
  split; [done|]. destruct (soon_step (t_data t)) as [E|E].
  - left. rewrite bool_decide_true by done. split; [done|].
    change (Z.testbit (flags t) 5 = true). rewrite H5, Hd. by apply bool_decide_true.
  - right. split; [apply bool_decide_false; lia|done].
Qed.
Next Obligation.
  intros t Hd. rewrite irq_flags. destruct (flags_bits t) as (_ & H5 & H20). rewrite H5, H20, Hd.
  split; [done|]. destruct (soon_step (t_data t)) as [E|E]; [left; by rewrite bool_decide_true|by right].
Qed.
Next Obligation. intros t w ws Hr Hd. cbn. unfold slot_read. cbn. rewrite Hd. done. Qed.
Next Obligation. done. Qed.
End slot.

(** ** The properties on these machines *)

(** A terminal from which three bytes arrive, and the state of the kernel that sees it. *)
Definition typed_line : serial (P := list Z) := mkserial (mkline [104; 105; 33] []) 5 7.
Definition typed_fs : fs :=
  comp_set (mkuart [104; 105; 33] []) (empty_fs 0 0 (λ _, None)).

Lemma uart_refines_witness :
  ∃ h', mini_uart_recv 4 2 typed_line = Ret ((2, [104; 105]), h') ∧ uart h' = mkline [33] [].
Proof.
  destruct (uart_refines (U := serial_uart) 4 (le_n 4)) as (_ & _ & _ & R).
  exact (R typed_line typed_fs [104; 105] [33] eq_refl eq_refl).
Defined.

Definition all_zero : header := mkheader (λ _, 0) 0 (λ _, 0).

(** Pin 48 of the card: its function is set, but it is pin 32 that is pulled. *)
Lemma gpio_correct_witness :
  (∃ h', gpio_select_function 48 GPIO_F_ALT_3 all_zero = Ret ((), h') ∧
    pin_function (pins h') 48 = 7) ∧
  (∃ h', gpio_set_pin_mode 48 GPIO_MODE_PULL_DOWN all_zero = Ret ((), h') ∧
    pull (pins h') !! 32%nat = Some 1 ∧ pull (pins h') !! 48%nat = Some 0).
Proof.
  pose proof (gpio_correct (H := header) 48 GPIO_F_ALT_3 GPIO_MODE_PULL_DOWN all_zero
    ltac:(done) ltac:(done)) as W.
  rewrite decide_True in W by done. destruct W as [(h1 & E1 & _ & _ & W1) (h2 & E2 & _ & _ & W2 & _)].
  split.
  - exists h1. split; [exact E1|]. exact (W1 48 ltac:(done)).
  - exists h2. split; [exact E2|]. split; [exact (W2 32 ltac:(done))|exact (W2 48 ltac:(done))].
Defined.

(** A card with one block, in a controller that was reset. *)
Definition block_3 : list Z := replicate 512 7.
Definition one_block : sd_card := λ i, if i =? 3 then Some block_3 else None.

Lemma block_3_ok b : one_block 3 = Some b → length b = 512%nat ∧ Forall is_u8 b.
Proof.
  intros Hb. assert (b = block_3) as -> by (unfold one_block in Hb; simpl in Hb; congruence).
  split; [done|]. by apply Forall_replicate.
Qed.

Definition sdhc : sd := mksd Tran false 0x1234 2 true.
Definition inserted : slot := mkslot (mkhost 0 0 0 0 false None NoData sdhc) 9 9 9 false.
Definition selected : slot :=
  mkslot (mkhost 0 0x10200 CONTROL1_400KHZ 0xFFFFFFFF false None NoData sdhc) 9 9 9 false.

Lemma sdhost_wait_bounded_witness :
  (∃ h', _sdhost_wait_for_cmd_done (Mmio0 := slot_mmio one_block) selected = Ret ((), h')) ∨
  _sdhost_wait_for_cmd_done (Mmio0 := slot_mmio one_block) selected =
    Fatal "failed to wait for a commmand".
Proof. exact (proj2 (proj2 (sdhost_wait_bounded (Mmio0 := slot_mmio one_block) selected))). Defined.

Lemma sdhost_read_refines_witness :
  ∃ h', SdHost._sdcard_disk_read_block (Mmio0 := slot_mmio one_block) 4 3 selected =
      Ret ((1, block_3), h') ∧
    operational (host_of (Emmc := slot_emmc one_block) h').
Proof.
  destruct (sdhost_read_refines (E := slot_emmc one_block) 4 (le_n 4) selected
    (empty_fs 0 0 one_block) 3) as [_ W].
  - done.
  - by split.
  - done.
  - exact block_3_ok.
  - exact W.
Defined.

Lemma sdhost_init_correct_witness :
  ∃ h', sdhost_init (Mmio0 := slot_mmio one_block) 4 inserted = Ret ((), h') ∧
    operational (host_of (Emmc := slot_emmc one_block) h') ∧
    control1 (host_of (Emmc := slot_emmc one_block) h') = CONTROL1_400KHZ.
Proof. apply (sdhost_init_correct (E := slot_emmc one_block) 4 (le_n 4) inserted). simpl. lia. Defined.

(** [serial_boot.py] with a kernel of three bytes; a byte of noise before the handshake. *)
Definition python : serial (P := sender) :=
  mkserial (mkline [0x20; SERIAL_LOADER_INIT] (Handshake [1; 2; 3])) 0 0.
Definition blank : gmap Z Z := Libc.mem_of KERNEL_START_ADRESS (replicate 8 0).

Lemma blank_mapped : Libc.mapped blank KERNEL_START_ADRESS 3.
Proof.
  intros i Hi. assert (i = 0 ∨ i = 1 ∨ i = 2) as [->|[->| ->]] by lia; by eexists.
Qed.

Lemma noise_ok : SERIAL_LOADER_INIT ∉ [0x20].
Proof. by apply (bool_decide_unpack _). Qed.

Lemma kernel_bytes : Forall is_u8 [1; 2; 3].
Proof. by repeat constructor. Qed.

Lemma serial_load_correct_witness :
  ∃ b', serial_load 4 KERNEL_START_ADRESS KERNEL_MAX_SIZE (mkboot python blank) = Ret (3, b') ∧
    uart (hw b') = mkline [] Success ∧ ram b' !! 0x8001 = Some 2.
Proof.
  destruct (LoaderSpec.serial_load_correct (U := serial_uart) 4 (le_n 4) [0x20] [1; 2; 3]
    KERNEL_START_ADRESS KERNEL_MAX_SIZE (mkboot python blank)) as (b' & E & Eu & W).
  - simpl. lia.
  - exact noise_ok.
  - exact kernel_bytes.
  - done.
  - done.
  - exact blank_mapped.
  - exists b'. split; [exact E|]. split; [exact Eu|]. exact (W 0x8001).
Defined.

Lemma loader_boots_witness :
  ∃ b', loader_main 4 0x7100 (mkboot python blank) = Ret (KERNEL_START_ADRESS, b') ∧
    uart (hw b') = mkline [] Success ∧ ram b' !! 0x8002 = Some 3.
Proof.
  destruct (LoaderSpec.loader_boots (U := serial_uart) 4 (le_n 4) (mkboot python blank) 0x7100)
    as (h0 & E0 & W).
  injection E0 as <-.
  destruct (W [0x20] [1; 2; 3]) as (b' & E & Eu & Hr).
  - done.
  - simpl. lia.
  - exact noise_ok.
  - exact kernel_bytes.
  - done.
  - exact blank_mapped.
  - exists b'. split; [exact E|]. split; [exact Eu|]. exact (Hr 2%nat 3 eq_refl).
Defined.

End Boards.
