(* ===== verification/Cpu.v ===== *)
(** * The processor

    The ARM1176 as the assembly of the kernel sees it: banked registers, status registers,
    the system control coprocessor, the memory of the kernel's stacks; the instructions
    that [src/src/kernel] uses, one computation each; exceptions; and what a call of a C
    function does to the registers. *)
From stdpp Require Import functions.
From S2P Require Import Prelude Bitfield Mmu Alloc Heap Hash Fs FsState Devices Ramfs Fat32 Vfs Elf Scheduler Exec.
Import Scheduler Exec.

Module Cpu.

(** ** Registers *)

Inductive reg : Set :=
| R0 | R1 | R2 | R3 | R4 | R5 | R6 | R7 | R8 | R9 | R10 | R11 | R12 | SP | LR.

Inductive mode : Set := Usr | Fiq | Irq | Svc | Abt | Und | Sys.

#[global] Instance reg_eq_dec : EqDecision reg.
Proof. solve_decision. Defined.
#[global] Instance mode_eq_dec : EqDecision mode.
Proof. solve_decision. Defined.

(** A physical register: one that the user's programs see, or one that a mode has for
    itself. *)
Inductive preg : Set := User (r : reg) | Banked (md : mode) (r : reg).

#[global] Instance preg_eq_dec : EqDecision preg.
Proof. solve_decision. Defined.

Definition bank (md : mode) (r : reg) : preg :=
  match md, r with
  | Usr, _ | Sys, _ => User r
  | _, SP | _, LR => Banked md r
  | Fiq, R8 | Fiq, R9 | Fiq, R10 | Fiq, R11 | Fiq, R12 => Banked Fiq r
  | _, _ => User r
  end.

(** ** The status registers *)

Definition CPU_MODE_USER : Z := 0x10.
Definition CPU_MODE_FIQ : Z := 0x11.
Definition CPU_MODE_IRQ : Z := 0x12.
Definition CPU_MODE_SVC : Z := 0x13.
Definition CPU_MODE_ABORT : Z := 0x17.
Definition CPU_MODE_SYS : Z := 0x1F.

Definition mode_bits (md : mode) : Z :=
  match md with
  | Usr => 0x10 | Fiq => 0x11 | Irq => 0x12 | Svc => 0x13 | Abt => 0x17 | Und => 0x1B | Sys => 0x1F
  end.

Definition decode_mode (bits : Z) : option mode :=
  find (λ md, mode_bits md =? bits) [Usr; Fiq; Irq; Svc; Abt; Und; Sys].

Definition mode_of (psr : Z) : option mode := decode_mode (Z.land psr 0x1F).

(** Replace the bits of [mask] by those of [v]. *)
Definition write_fields (mask v psr : Z) : Z :=
  Z.lor (Z.land psr (Z.lnot mask)) (Z.land v mask).

(** The control field, [_c], and the two fields that a plain [msr] writes. *)
Definition FIELD_C : Z := 0x000000FF.
Definition FIELDS_FC : Z := 0xFF0000FF.
(** N, Z, C, V, Q and GE, which a function need not preserve *)
Definition FLAGS : Z := 0xF80F0000.

(** ** The machine *)

(** [pc] is the next instruction of a program; the kernel's own code is followed by its
    structure.  [tlb_stale] is whether the TLB may hold entries of a table other than
    [ttbr0].  [mem] holds the words of the memory outside the process table that the
    assembly reads and writes: the vectors and the stacks.  [ktable] is the variable
    [kernel_translation_table], and [sys] all the rest of the kernel's state. *)
Record machine : Type := mkmachine {
  regs : preg → Z;
  pc : Z;
  cpsr : Z;
  spsrs : mode → Z;
  ttbr0 : Z;
  dacr : Z;
  sctlr : Z;
  tlb_stale : bool;
  mem : Z → Z;
  ktable : Z;
  sys : system;
}.

Definition with_regs f (m : machine) : machine := mkmachine f (pc m) (cpsr m) (spsrs m) (ttbr0 m) (dacr m) (sctlr m) (tlb_stale m) (mem m) (ktable m) (sys m).
Definition with_pc a (m : machine) : machine := mkmachine (regs m) a (cpsr m) (spsrs m) (ttbr0 m) (dacr m) (sctlr m) (tlb_stale m) (mem m) (ktable m) (sys m).
Definition with_cpsr v (m : machine) : machine := mkmachine (regs m) (pc m) v (spsrs m) (ttbr0 m) (dacr m) (sctlr m) (tlb_stale m) (mem m) (ktable m) (sys m).
Definition with_spsrs f (m : machine) : machine := mkmachine (regs m) (pc m) (cpsr m) f (ttbr0 m) (dacr m) (sctlr m) (tlb_stale m) (mem m) (ktable m) (sys m).
Definition with_mmu t d s b (m : machine) : machine := mkmachine (regs m) (pc m) (cpsr m) (spsrs m) t d s b (mem m) (ktable m) (sys m).
Definition with_mem f (m : machine) : machine := mkmachine (regs m) (pc m) (cpsr m) (spsrs m) (ttbr0 m) (dacr m) (sctlr m) (tlb_stale m) f (ktable m) (sys m).
Definition with_ktable t (m : machine) : machine := mkmachine (regs m) (pc m) (cpsr m) (spsrs m) (ttbr0 m) (dacr m) (sctlr m) (tlb_stale m) (mem m) t (sys m).
Definition with_sys w (m : machine) : machine := mkmachine (regs m) (pc m) (cpsr m) (spsrs m) (ttbr0 m) (dacr m) (sctlr m) (tlb_stale m) (mem m) (ktable m) w.

#[global] Program Instance machine_sys : Has machine system := {
  comp_get := sys;
  comp_set := with_sys;
}.
Solve All Obligations with by intros; destruct_all machine || done.

Abbreviation MM := (M machine).

(** Whether the processor translates addresses by the kernel's table, or not at all.  The
    tables of the processes map the kernel's code and stacks, but not the sections that its
    functions work on. *)
Definition kernel_mapped (m : machine) : bool :=
  negb (Z.testbit (sctlr m) 0) || (ttbr0 m =? ktable m) && negb (tlb_stale m).

(** ** Access to registers *)

(** The mode: with any other number in the status register the processor is
    unpredictable. *)
Definition cpu_mode : MM mode := λ m, deref (mode_of (cpsr m)) m.

Definition reg_get (r : reg) : MM Z :=
  let* md := cpu_mode in gets (λ m, regs m (bank md r)).
Definition reg_set (r : reg) (v : Z) : MM unit :=
  let* md := cpu_mode in modify (λ m, with_regs (<[bank md r := v]> (regs m)) m).

(** User mode has no saved status register, and no access to the coprocessor. *)
Definition privileged : MM unit :=
  let* md := cpu_mode in match md with Usr => fault | _ => ret () end.

Definition has_spsr (md : mode) : bool := match md with Usr | Sys => false | _ => true end.

Inductive operand : Set := Imm (n : Z) | Reg (r : reg).
Definition operand_get (o : operand) : MM Z :=
  match o with Imm n => ret n | Reg r => reg_get r end.

(** ** Data processing *)

Definition mov (rd : reg) (o : operand) : MM unit :=
  let* v := operand_get o in reg_set rd v.
Definition add (rd rn : reg) (o : operand) : MM unit :=
  let* a := reg_get rn in let* b := operand_get o in reg_set rd (u32 (a + b)).
Definition sub (rd rn : reg) (o : operand) : MM unit :=
  let* a := reg_get rn in let* b := operand_get o in reg_set rd (u32 (a - b)).
Definition and (rd rn : reg) (o : operand) : MM unit :=
  let* a := reg_get rn in let* b := operand_get o in reg_set rd (Z.land a b).
Definition orr (rd rn : reg) (o : operand) : MM unit :=
  let* a := reg_get rn in let* b := operand_get o in reg_set rd (Z.lor a b).
Definition bic (rd rn : reg) (o : operand) : MM unit :=
  let* a := reg_get rn in let* b := operand_get o in reg_set rd (Z.land a (Z.lnot b)).

(** ** Status registers *)

Definition mrs_cpsr (rd : reg) : MM unit :=
  let* v := gets cpsr in reg_set rd v.
Definition mrs_spsr (rd : reg) : MM unit :=
  let* md := cpu_mode in
  if has_spsr md then let* v := gets (λ m, spsrs m md) in reg_set rd v else fault.

(** A program cannot write the control field. *)
Definition msr_cpsr_c (rm : reg) : MM unit :=
  let* md := cpu_mode in
  let* v := reg_get rm in
  match md with
  | Usr => ret ()
  | _ => modify (λ m, with_cpsr (write_fields FIELD_C v (cpsr m)) m)
  end.

(** [msr spsr, rm]: without a list of fields, the assembler means [spsr_fc]. *)
Definition msr_spsr (rm : reg) : MM unit :=
  let* md := cpu_mode in
  let* v := reg_get rm in
  if has_spsr md
  then modify (λ m, with_spsrs (<[md := write_fields FIELDS_FC v (spsrs m md)]> (spsrs m)) m)
  else fault.

(** ** The system control coprocessor *)

Definition mcr_ttbr0 (rm : reg) : MM unit :=
  let* _ := privileged in
  let* v := reg_get rm in
  modify (λ m, with_mmu v (dacr m) (sctlr m) true m).
Definition mcr_invalidate_tlb (rm : reg) : MM unit :=
  let* _ := privileged in
  modify (λ m, with_mmu (ttbr0 m) (dacr m) (sctlr m) false m).
Definition mcr_dacr (rm : reg) : MM unit :=
  let* _ := privileged in
  let* v := reg_get rm in
  modify (λ m, with_mmu (ttbr0 m) v (sctlr m) (tlb_stale m) m).
Definition mrc_sctlr (rd : reg) : MM unit :=
  let* _ := privileged in
  let* v := gets sctlr in reg_set rd v.
Definition mcr_sctlr (rm : reg) : MM unit :=
  let* _ := privileged in
  let* v := reg_get rm in
  modify (λ m, with_mmu (ttbr0 m) (dacr m) v (tlb_stale m) m).

(** ** Memory *)

(** [task_context_t] in memory *)
Definition context_words (c : task_context) : list Z :=
  [r0 c; lr_usr c; sp c; spsr c; r1 c; r2 c; r3 c; r4 c; r5 c; r6 c; r7 c; r8 c; r9 c;
   r10 c; r11 c; r12 c; lr c].

Definition words_context (l : list Z) : option task_context :=
  match l with
  | [x0; x1; x2; x3; x4; x5; x6; x7; x8; x9; x10; x11; x12; x13; x14; x15; x16] =>
      Some (mkctx x0 x1 x2 x3 x4 x5 x6 x7 x8 x9 x10 x11 x12 x13 x14 x15 x16)
  | _ => None
  end.

Definition SIZEOF_CONTEXT : Z := 68.
Definition SIZEOF_PROCESS : Z := 164.
Definition OFFSETOF_TRANSLATION_TABLE : Z := 88.

(** The words of a [process_t] that the assembly reads: the context, at offset 0, and the
    translation table. *)
Definition process_word (p : process) (offset : Z) : option Z :=
  if offset =? OFFSETOF_TRANSLATION_TABLE then Some (translation_table p)
  else context_words (context p) !! Z.to_nat (offset / 4).

Section cpu.
(** The address of [_scheduler->processes]. *)
Context (processes_base : Z).

Definition process_address (i : Z) : Z := processes_base + SIZEOF_PROCESS * i.

Definition in_table (a : Z) : bool :=
  (processes_base <=? a) && (a <? processes_base + SIZEOF_PROCESS * SCHEDULER_MAX_TASK_COUNT).

Definition mem_load (a : Z) : MM Z :=
  if negb (a `mod` 4 =? 0) then fault
  else if in_table a then
    let* mapped := gets kernel_mapped in
    let* _ := if mapped : bool then ret () else fault in
    let* p := λ m, lift (arr_get (processes (sched (sys m))) ((a - processes_base) / SIZEOF_PROCESS)) m in
    deref (process_word p ((a - processes_base) `mod` SIZEOF_PROCESS))
  else gets (λ m, mem m a).

(** The assembly does not write to the process table. *)
Definition mem_store (a v : Z) : MM unit :=
  if negb (a `mod` 4 =? 0) || in_table a then fault
  else modify (λ m, with_mem (<[a := v]> (mem m)) m).

Definition ldr (rd rn : reg) (offset : Z) : MM unit :=
  let* a := reg_get rn in
  let* v := mem_load (u32 (a + offset)) in
  reg_set rd v.

(** The registers of a list, lowest first, are at ascending addresses. *)
Fixpoint load_multiple (a : Z) (rs : list reg) : MM unit :=
  match rs with
  | [] => ret ()
  | r :: rs =>
      let* v := mem_load a in
      let* _ := reg_set r v in
      load_multiple (a + 4) rs
  end.

Fixpoint store_multiple (a : Z) (rs : list reg) : MM unit :=
  match rs with
  | [] => ret ()
  | r :: rs =>
      let* v := reg_get r in
      let* _ := mem_store a v in
      store_multiple (a + 4) rs
  end.

Definition size_of (rs : list reg) : Z := 4 * Z.of_nat (length rs).

(** [ldmfd rn, {rs}], and the same with [!] *)
Definition ldmfd (rn : reg) (rs : list reg) : MM unit :=
  let* a := reg_get rn in load_multiple a rs.
Definition ldmia_w (rn : reg) (rs : list reg) : MM unit :=
  let* a := reg_get rn in
  let* _ := load_multiple a rs in
  reg_set rn (u32 (a + size_of rs)).
Definition stmia_w (rn : reg) (rs : list reg) : MM unit :=
  let* a := reg_get rn in
  let* _ := store_multiple a rs in
  reg_set rn (u32 (a + size_of rs)).

(** [push {rs}] is [stmfd sp!, {rs}]; [pop {rs}] is [ldmfd sp!, {rs}]. *)
Definition push (rs : list reg) : MM unit :=
  let* a := reg_get SP in
  let* _ := store_multiple (u32 (a - size_of rs)) rs in
  reg_set SP (u32 (a - size_of rs)).
Definition pop (rs : list reg) : MM unit :=
  let* a := reg_get SP in
  let* _ := reg_set SP (u32 (a + size_of rs)) in
  load_multiple a rs.

(** ** Calls and returns *)

(** The address behind the call instruction: nothing depends on it. *)
Context (link : Z).

(** A routine ends by branching to the link register. *)
Definition bx_lr : MM Z := reg_get LR.

(** Calling a routine of the assembly: it has to come back. *)
Definition bl (body : MM Z) : MM unit :=
  let* _ := reg_set LR link in
  let* target := body in
  if target =? link then ret () else fault.

(** What the code of a C function leaves in the registers and flags that it need not
    preserve, and on the stack below its caller's. *)
Record leftovers : Type := mkleft {
  left_regs : reg → Z;
  left_flags : Z;
  left_mem : Z → Z;
}.

(** That is up to the compiler; so is how much of the stack the functions use. *)
Context (leave : machine → leftovers) (depth : Z).

Definition clobbered : list reg := [R0; R1; R2; R3; R12; LR].

(** After a C function: r4-r11, sp, the control field and the stack are as before, r0
    holds the result if there is one. *)
Definition after_c (result : option Z) : MM unit :=
  let* md := cpu_mode in
  modify (λ m,
    let l := leave m in
    let f := fold_right (λ r f, <[bank md r := left_regs l r]> f) (regs m) clobbered in
    let f := match result with Some v => <[bank md R0 := v]> f | None => f end in
    let top := regs m (bank md SP) in
    with_mem (λ a, if (top - depth <=? a) && (a <? top) then left_mem l a else mem m a)
      (with_cpsr (write_fields FLAGS (left_flags l) (cpsr m)) (with_regs f m))).

(** Calling a C function, which works on sections that are mapped for the kernel alone. *)
Definition bl_c {A} (result : A → option Z) (body : MS A) : MM unit :=
  let* _ := reg_set LR link in
  let* mapped := gets kernel_mapped in
  let* _ := if mapped : bool then ret () else fault in
  let* a := zoom body in
  after_c (result a).

Definition no_result {A} (_ : A) : option Z := None.

(** A [const task_context_t *] argument *)
Fixpoint load_words (n : nat) (a : Z) : MM (list Z) :=
  match n with
  | O => ret []
  | S n =>
      let* v := mem_load a in
      let* l := load_words n (a + 4) in
      ret (v :: l)
  end.

Definition load_context (a : Z) : MM task_context :=
  let* l := load_words 17 a in deref (words_context l).

(** ** Exceptions *)

(** Bits 0 and 1 of a branch to ARM code do not count, nor bit 0 of one to Thumb code. *)
Definition thumb (psr : Z) : bool := Z.testbit psr 5.
Definition branch_target (psr a : Z) : Z :=
  if thumb psr then Z.land a (Z.lnot 1) else Z.land a (Z.lnot 3).

(** [movs pc, lr] and [subs pc, lr, #n]: back to the interrupted program. *)
Definition subs_pc_lr (n : Z) : MM unit :=
  let* md := cpu_mode in
  let* a := reg_get LR in
  if has_spsr md
  then modify (λ m, with_pc (branch_target (spsrs m md) (u32 (a - n))) (with_cpsr (spsrs m md) m))
  else fault.
Definition movs_pc_lr : MM unit := subs_pc_lr 0.

Inductive exception : Set :=
| Reset | Undefined | SupervisorCall | PrefetchAbort | DataAbort | Reserved | Interrupt
| FastInterrupt.

Definition vector_index (e : exception) : Z :=
  match e with
  | Reset => 0 | Undefined => 1 | SupervisorCall => 2 | PrefetchAbort => 3 | DataAbort => 4
  | Reserved => 5 | Interrupt => 6 | FastInterrupt => 7
  end.

Definition exception_mode (e : exception) : mode :=
  match e with
  | Reset | SupervisorCall | Reserved => Svc
  | Undefined => Und
  | PrefetchAbort | DataAbort => Abt
  | Interrupt => Irq
  | FastInterrupt => Fiq
  end.

(** How far the link register is from the address of the instruction: the one that raised
    the exception, or the one that an interrupt came before. *)
Definition link_offset (e : exception) (psr : Z) : Z :=
  match e with
  | SupervisorCall | Undefined => if thumb psr then 2 else 4
  | DataAbort => 8
  | _ => 4
  end.

(** Interrupts are disabled; so are fast ones and imprecise aborts by some exceptions. *)
Definition masks (e : exception) : Z :=
  match e with
  | Reset | FastInterrupt => 0x1C0
  | PrefetchAbort | DataAbort | Interrupt => 0x180
  | _ => 0x80
  end.

(** The new status: the mode, ARM code (bits 5 and 24), and the masks. *)
Definition exception_psr (e : exception) (psr : Z) : Z :=
  Z.lor (write_fields 0x0100003F (mode_bits (exception_mode e)) psr) (masks e).

Definition enter (e : exception) : MM unit :=
  modify (λ m,
    let md := exception_mode e in
    with_cpsr (exception_psr e (cpsr m))
      (with_spsrs (<[md := cpsr m]> (spsrs m))
        (with_regs (<[Banked md LR := u32 (pc m + link_offset e (cpsr m))]> (regs m)) m))).

End cpu.
End Cpu.
