(* ===== verification/Vectors.v ===== *)
(** * The assembly of the kernel

    [kernel/hardware/]: [boot.S], [interupts.S], [mmu.S], [cpu.S], [cpu_modes.inc];
    [kernel/scheduler/scheduler.S].  Every routine is the sequence of its instructions;
    what it calls in C is the model of that function, run on the rest of the state. *)
From stdpp Require Import functions.
From S2P Require Import Prelude Bitfield Mmu Alloc Heap Hash Fs FsState Devices Ramfs Fat32 Vfs Elf Scheduler Exec Syscalls Kernel Cpu.
Import Fs FsState Devices Vfs Scheduler Exec Syscalls Kernel Cpu.

Module Vectors.

(** ** [cpu_modes.inc] *)

Definition SET_CPU_MODE (mode : operand) : MM unit :=
  let* _ := mrs_cpsr R12 in
  let* _ := bic R12 R12 (Imm 0x1F) in
  let* _ := orr R12 R12 mode in
  msr_cpsr_c R12.

Definition GET_CPU_MODE (r : reg) : MM unit :=
  let* _ := mrs_cpsr r in
  and r r (Imm 0x1F).

(** ** [mmu.S]: the argument is in r0 *)

Definition mmu_set_translation_table : MM Z :=
  let* _ := mcr_ttbr0 R0 in
  let* _ := mcr_invalidate_tlb R0 in
  bx_lr.

Definition mmu_set_dacr : MM Z :=
  let* _ := mcr_dacr R0 in
  bx_lr.

Definition mmu_enable : MM Z :=
  let* _ := mrc_sctlr R0 in
  let* _ := orr R0 R0 (Imm 1) in
  let* _ := mcr_sctlr R0 in
  bx_lr.

(** ** [cpu.S] *)

Definition cpu_get_execution_mode : MM Z :=
  let* _ := mrs_cpsr R0 in
  let* _ := and R0 R0 (Imm 0x1F) in
  bx_lr.

Definition cpu_irq_enable : MM Z :=
  let* _ := mrs_cpsr R0 in
  let* _ := bic R0 R0 (Imm 0x80) in
  let* _ := msr_cpsr_c R0 in
  bx_lr.

Definition cpu_irq_disable : MM Z :=
  let* _ := mrs_cpsr R0 in
  let* _ := orr R0 R0 (Imm 0x80) in
  let* _ := msr_cpsr_c R0 in
  bx_lr.

Definition cpu_fiq_enable : MM Z :=
  let* _ := mrs_cpsr R0 in
  let* _ := bic R0 R0 (Imm 0x40) in
  let* _ := msr_cpsr_c R0 in
  bx_lr.

Definition cpu_fiq_disable : MM Z :=
  let* _ := mrs_cpsr R0 in
  let* _ := orr R0 R0 (Imm 0x40) in
  let* _ := msr_cpsr_c R0 in
  bx_lr.

(** ** The vectors

    The parameters are those of [Cpu]: the address of the process table, a return address,
    and what C functions leave behind. *)

Section vectors.
Context (processes_base link : Z) (leave : machine → leftovers) (depth : Z).

Abbreviation bl := (bl link).
Abbreviation bl_c := (bl_c link leave depth).
Abbreviation push := (push processes_base).
Abbreviation pop := (pop processes_base).
Abbreviation ldr := (ldr processes_base).
Abbreviation ldmfd := (ldmfd processes_base).
Abbreviation ldmia_w := (ldmia_w processes_base).
Abbreviation stmia_w := (stmia_w processes_base).

(** *** The C functions that the vectors call *)

(** C around a call of [mmu_set_translation_table], and the only one that works under any
    table: its variable is in the memory that all of them map. *)
Definition kernel_restore_translation_table : MM unit :=
  let* table := gets ktable in
  let* _ := mov R0 (Imm table) in
  let* _ := bl mmu_set_translation_table in
  after_c leave depth None.

Definition bl_scheduler_save_current_context : MM unit :=
  let* current_context := reg_get R0 in
  let* context := load_context processes_base current_context in
  bl_c no_result (scheduler_save_current_context context).

Definition bl_kernel_syscall_handler : MM unit :=
  let* syscall_num := reg_get R0 in
  let* arg0 := reg_get R1 in
  let* arg1 := reg_get R2 in
  let* arg2 := reg_get R3 in
  bl_c no_result (kernel_syscall_handler syscall_num arg0 arg1 arg2).

(** It returns a [const process_t *]. *)
Definition bl_scheduler_switch_task : MM unit :=
  bl_c (λ i, Some (process_address processes_base i)) scheduler_switch_task.

Definition bl_scheduler_data_exception : MM unit :=
  let* spsr := reg_get R0 in
  bl_c no_result (scheduler_data_exception spsr).

(** It restarts the timer, which is not part of the state. *)
Definition bl_irq_handler : MM unit := bl_c no_result (ret ()).

Definition bl_kernel_unhandled_interupt_fatal_error : MM unit :=
  bl_c no_result (kernel_fatal_error "unhandled interupt").

(** *** [scheduler.S] *)

Definition r1_r12 : list reg := [R1; R2; R3; R4; R5; R6; R7; R8; R9; R10; R11; R12].

Definition __scheduler_set_task_context : MM unit :=
  let* _ := ldr R1 R0 88 in
  let* _ := ldr R2 R0 0 in
  let* _ := push [R2] in
  let* _ := add R0 R0 (Imm 4) in
  let* _ := push [R1] in
  let* _ := ldr R1 R0 0 in
  let* _ := add R0 R0 (Imm 4) in
  let* _ := ldr R2 R0 0 in
  let* _ := add R0 R0 (Imm 4) in
  let* _ := GET_CPU_MODE R3 in
  let* _ := SET_CPU_MODE (Imm CPU_MODE_SYS) in
  let* _ := mov LR (Reg R1) in
  let* _ := mov SP (Reg R2) in
  let* _ := SET_CPU_MODE (Reg R3) in
  let* _ := ldr R1 R0 0 in
  let* _ := add R0 R0 (Imm 4) in
  let* _ := msr_spsr R1 in
  let* _ := ldmfd R0 (r1_r12 ++ [LR]) in
  let* _ := pop [R0] in
  let* _ := push [LR] in
  let* _ := bl mmu_set_translation_table in
  let* _ := pop [LR] in
  let* _ := pop [R0] in
  movs_pc_lr.

(** *** [interupts.S] *)

Definition _svc_handler : MM unit :=
  let* _ := push (r1_r12 ++ [LR]) in
  let* _ := mrs_spsr R4 in
  let* _ := push [R4] in
  let* _ := SET_CPU_MODE (Imm CPU_MODE_SYS) in
  let* _ := mov R4 (Reg LR) in
  let* _ := mov R5 (Reg SP) in
  let* _ := SET_CPU_MODE (Imm CPU_MODE_SVC) in
  let* _ := push [R4; R5] in
  let* _ := push [R0; R1; R2; R3] in
  let* _ := kernel_restore_translation_table in
  let* _ := mov R0 (Reg SP) in
  let* _ := add R0 R0 (Imm 12) in
  let* _ := bl_scheduler_save_current_context in
  let* _ := pop [R0; R1; R2; R3] in
  let* _ := bl_kernel_syscall_handler in
  let* _ := add SP SP (Imm 64) in
  let* _ := bl_scheduler_switch_task in
  __scheduler_set_task_context.

Definition _irq_handler : MM unit :=
  let* _ := sub LR LR (Imm 4) in
  let* _ := push (r1_r12 ++ [LR]) in
  let* _ := mrs_spsr R1 in
  let* _ := push [R1] in
  let* _ := SET_CPU_MODE (Imm CPU_MODE_SYS) in
  let* _ := mov R4 (Reg LR) in
  let* _ := mov R5 (Reg SP) in
  let* _ := SET_CPU_MODE (Imm CPU_MODE_IRQ) in
  let* _ := push [R4; R5] in
  let* _ := push [R0] in
  let* _ := kernel_restore_translation_table in
  let* _ := mov R0 (Reg SP) in
  let* _ := bl_scheduler_save_current_context in
  let* _ := add SP SP (Imm 68) in
  let* _ := bl_irq_handler in
  let* _ := bl_scheduler_switch_task in
  __scheduler_set_task_context.

Definition _fiq_handler : MM unit := subs_pc_lr 4.

Definition _data_abort : MM unit :=
  let* _ := mrs_spsr R0 in
  let* _ := SET_CPU_MODE (Imm CPU_MODE_SVC) in
  let* _ := push [R0] in
  let* _ := kernel_restore_translation_table in
  let* _ := pop [R0] in
  let* _ := bl_scheduler_data_exception in
  let* _ := bl_scheduler_switch_task in
  __scheduler_set_task_context.

(** [_undefined_handler], [_prefetch_abort] and [_reserved_handler]; [b .] never ends. *)
Definition _unhandled : MM unit :=
  let* _ := SET_CPU_MODE (Imm CPU_MODE_SVC) in
  let* _ := kernel_restore_translation_table in
  let* _ := bl_kernel_unhandled_interupt_fatal_error in
  λ _, Timeout.

(** [_reset_handler] up to the call of [kernel_main] *)
Definition _reset_handler : MM unit :=
  let* _ := mov R0 (Imm 0x8000) in
  let* _ := mov R1 (Imm 0x0000) in
  let* _ := ldmia_w R0 [R2; R3; R4; R5; R6; R7; R8; R9] in
  let* _ := stmia_w R1 [R2; R3; R4; R5; R6; R7; R8; R9] in
  let* _ := ldmia_w R0 [R2; R3; R4; R5; R6; R7; R8; R9] in
  let* _ := stmia_w R1 [R2; R3; R4; R5; R6; R7; R8; R9] in
  let* _ := SET_CPU_MODE (Imm CPU_MODE_SVC) in
  let* _ := mov SP (Imm 0x00006000) in
  let* _ := SET_CPU_MODE (Imm CPU_MODE_FIQ) in
  let* _ := mov SP (Imm 0x00001000) in
  let* _ := SET_CPU_MODE (Imm CPU_MODE_IRQ) in
  let* _ := mov SP (Imm 0x00002000) in
  let* _ := SET_CPU_MODE (Imm CPU_MODE_ABORT) in
  let* _ := mov SP (Imm 0x00007000) in
  SET_CPU_MODE (Imm CPU_MODE_SVC).

(** *** [boot.S] *)

(** The addresses that the linker gave the handlers. *)
Context (symbol : exception → Z).

Definition vectors : list exception :=
  [Reset; Undefined; SupervisorCall; PrefetchAbort; DataAbort; Reserved; Interrupt; FastInterrupt].

(** [ldr pc, x], where [x] is 32 bytes behind the instruction: pc is 8 bytes ahead. *)
Definition LDR_PC_24 : Z := 0xE59FF018.

Definition _interupt_vector : list Z := map (λ _, LDR_PC_24) vectors ++ map symbol vectors.

Definition handler (e : exception) : MM unit :=
  match e with
  | Reset => _reset_handler
  | Undefined | PrefetchAbort | Reserved => _unhandled
  | SupervisorCall => _svc_handler
  | DataAbort => _data_abort
  | Interrupt => _irq_handler
  | FastInterrupt => _fiq_handler
  end.

(** An exception: the processor fetches the instruction of the vector, which is to load the
    address of the handler. *)
Definition raise (e : exception) : MM unit :=
  let* _ := enter e in
  let vector := 4 * vector_index e in
  let* instruction := mem_load processes_base vector in
  let* target := mem_load processes_base (vector + 8 + 24) in
  if (instruction =? LDR_PC_24) && (target =? symbol e) then handler e else fault.

(** *** The start of init *)

(** [svc #0] at the address [at_]: what comes behind it in the kernel runs only when the
    call comes back to the kernel. *)
Definition svc (at_ : Z) : MM unit :=
  let* _ := modify (with_pc at_) in
  raise SupervisorCall.

Definition __scheduler_exec_init (at_ : Z) : MM unit :=
  let* _ := mov R1 (Reg R0) in
  let* _ := mov R0 (Imm 14) in
  let* _ := mov R2 (Imm 0) in
  let* _ := mov R3 (Imm 0) in
  let* _ := svc at_ in
  let* md := cpu_mode in
  match md with
  | Usr => ret ()
  | _ => bl_c no_result (kernel_fatal_error "Unexpected return to scheduler start avec initial SVC")
  end.

End vectors.
End Vectors.
