(* ===== verification/CpuSpec.v ===== *)
(** * Running the processor

    What single instructions do in a known mode, how C functions are followed through
    their results, and what the kernel keeps while it works in an exception's mode. *)
From stdpp Require Import functions.
From S2P Require Import Prelude Bitfield Mmu Alloc Heap Hash Fs FsState Devices Ramfs Fat32 Vfs Elf Scheduler Exec Cpu.
Import Scheduler Exec Cpu.

Module CpuSpec.

(** ** Status registers *)

(** The status with another mode. *)
Definition set_mode (bits psr : Z) : Z := Z.lor (Z.land psr (Z.lnot 0x1F)) bits.

Lemma set_mode_land bits psr : 0 ≤ bits < 32 → Z.land (set_mode bits psr) 0x1F = bits.
Proof.
  intros Hb. unfold set_mode. rewrite Z.land_lor_distr_l, <- Z.land_assoc.
  change (Z.land (Z.lnot 0x1F) 0x1F) with 0. rewrite Z.land_0_r, Z.lor_0_l.
  change 0x1F with (Z.ones 5). rewrite Z.land_ones by lia. by apply Z.mod_small.
Qed.

Lemma set_mode_twice a b psr : 0 ≤ a < 32 → set_mode b (set_mode a psr) = set_mode b psr.
Proof.
  intros Ha. unfold set_mode. f_equal. rewrite Z.land_lor_distr_l, <- Z.land_assoc, Z.land_diag.
  assert (Z.land a (Z.lnot 0x1F) = 0) as ->; [|by rewrite Z.lor_0_r].
  apply Z.bits_inj'. intros k Hk. rewrite Z.land_spec, Z.bits_0, Z.lnot_spec by lia.
  change 0x1F with (Z.ones 5). rewrite Z.testbit_ones_nonneg by lia.
  destruct (Z.ltb_spec k 5); [apply andb_false_r|].
  by rewrite (testbit_high a k 5) by (simpl; lia).
Qed.

Lemma set_mode_same psr : set_mode (Z.land psr 0x1F) psr = psr.
Proof.
  unfold set_mode. rewrite <- Z.land_lor_distr_r.
  change (Z.lor (Z.lnot 0x1F) 0x1F) with (-1). apply Z.land_m1_r.
Qed.

(** Writing the control field with another mode changes the mode. *)
Lemma write_mode bits psr : 0 ≤ bits < 32 →
  write_fields FIELD_C (set_mode bits psr) psr = set_mode bits psr.
Proof.
  intros Hb. unfold write_fields, set_mode, FIELD_C. apply Z.bits_inj'. intros k Hk.
  rewrite !Z.lor_spec, !Z.land_spec, Z.lor_spec, Z.land_spec, !Z.lnot_spec by lia.
  change 0xFF with (Z.ones 8). change 0x1F with (Z.ones 5).
  rewrite !Z.testbit_ones_nonneg by lia.
  destruct (Z.ltb_spec k 8), (Z.ltb_spec k 5); try lia;
    rewrite ?(testbit_high bits k 5) by (simpl; lia);
    by destruct (Z.testbit psr k), (Z.testbit bits k).
Qed.

Lemma write_fields_land mask keep v psr : Z.land mask keep = 0 →
  Z.land (write_fields mask v psr) keep = Z.land psr keep.
Proof.
  intros H. unfold write_fields. rewrite Z.land_lor_distr_l, <- !Z.land_assoc, H, Z.land_0_r, Z.lor_0_r.
  f_equal. apply Z.bits_inj'. intros k Hk. rewrite Z.land_spec, Z.lnot_spec by lia.
  apply (f_equal (λ z, Z.testbit z k)) in H. rewrite Z.land_spec, Z.bits_0 in H.
  by destruct (Z.testbit mask k), (Z.testbit keep k).
Qed.

Lemma mode_of_bits md psr : Z.land psr 0x1F = mode_bits md → mode_of psr = Some md.
Proof. intros H. unfold mode_of. rewrite H. by destruct md. Qed.

Lemma mode_of_set md psr : mode_of (set_mode (mode_bits md) psr) = Some md.
Proof. apply mode_of_bits, set_mode_land. by destruct md. Qed.

Lemma mode_of_inv md psr : mode_of psr = Some md → Z.land psr 0x1F = mode_bits md.
Proof.
  unfold mode_of, decode_mode. intros H. apply find_some in H as [_ H]. by apply Z.eqb_eq in H.
Qed.

Lemma mode_of_same psr psr' : Z.land psr 0xFF = Z.land psr' 0xFF → mode_of psr = mode_of psr'.
Proof.
  intros H. unfold mode_of. change 0x1F with (Z.land 0xFF 0x1F). by rewrite !Z.land_assoc, H.
Qed.

(** ** Single instructions *)

Definition in_mode (md : mode) (m : machine) : Prop := mode_of (cpsr m) = Some md.

Section instructions.
Context (md : mode) (m : machine) (Hmode : in_mode md m).

Lemma cpu_mode_run : cpu_mode m = Ret (md, m).
Proof. unfold cpu_mode. by rewrite Hmode. Qed.

Lemma reg_get_run r : reg_get r m = Ret (regs m (bank md r), m).
Proof. unfold reg_get. by rewrite (bind_Ret _ _ _ _ _ cpu_mode_run). Qed.

Lemma reg_set_run r v : reg_set r v m = Ret ((), with_regs (<[bank md r := v]> (regs m)) m).
Proof. unfold reg_set. by rewrite (bind_Ret _ _ _ _ _ cpu_mode_run). Qed.

(** The value of an operand *)
Definition value (o : operand) : Z :=
  match o with Imm n => n | Reg r => regs m (bank md r) end.

Lemma operand_get_run o : operand_get o m = Ret (value o, m).
Proof. destruct o; [done|apply reg_get_run]. Qed.

Lemma mov_run rd o : mov rd o m = Ret ((), with_regs (<[bank md rd := value o]> (regs m)) m).
Proof. unfold mov. rewrite (bind_Ret _ _ _ _ _ (operand_get_run o)). apply reg_set_run. Qed.

Lemma add_reg_run rd rn o :
  add rd rn o m = Ret ((), with_regs (<[bank md rd := u32 (regs m (bank md rn) + value o)]> (regs m)) m).
Proof.
  unfold add. rewrite (bind_Ret _ _ _ _ _ (reg_get_run rn)), (bind_Ret _ _ _ _ _ (operand_get_run o)).
  apply reg_set_run.
Qed.

Lemma sub_run rd rn o :
  sub rd rn o m = Ret ((), with_regs (<[bank md rd := u32 (regs m (bank md rn) - value o)]> (regs m)) m).
Proof.
  unfold sub. rewrite (bind_Ret _ _ _ _ _ (reg_get_run rn)), (bind_Ret _ _ _ _ _ (operand_get_run o)).
  apply reg_set_run.
Qed.

Lemma and_run rd rn o :
  and rd rn o m = Ret ((), with_regs (<[bank md rd := Z.land (regs m (bank md rn)) (value o)]> (regs m)) m).
Proof.
  unfold and. rewrite (bind_Ret _ _ _ _ _ (reg_get_run rn)), (bind_Ret _ _ _ _ _ (operand_get_run o)).
  apply reg_set_run.
Qed.

Lemma orr_run rd rn o :
  orr rd rn o m = Ret ((), with_regs (<[bank md rd := Z.lor (regs m (bank md rn)) (value o)]> (regs m)) m).
Proof.
  unfold orr. rewrite (bind_Ret _ _ _ _ _ (reg_get_run rn)), (bind_Ret _ _ _ _ _ (operand_get_run o)).
  apply reg_set_run.
Qed.

Lemma bic_run rd rn o : bic rd rn o m =
  Ret ((), with_regs (<[bank md rd := Z.land (regs m (bank md rn)) (Z.lnot (value o))]> (regs m)) m).
Proof.
  unfold bic. rewrite (bind_Ret _ _ _ _ _ (reg_get_run rn)), (bind_Ret _ _ _ _ _ (operand_get_run o)).
  apply reg_set_run.
Qed.

Lemma mrs_cpsr_run rd : mrs_cpsr rd m = Ret ((), with_regs (<[bank md rd := cpsr m]> (regs m)) m).
Proof. apply reg_set_run. Qed.

Context (Hspsr : has_spsr md = true).

Lemma mrs_spsr_run rd : mrs_spsr rd m = Ret ((), with_regs (<[bank md rd := spsrs m md]> (regs m)) m).
Proof.
  unfold mrs_spsr. rewrite (bind_Ret _ _ _ _ _ cpu_mode_run), Hspsr. apply reg_set_run.
Qed.

Lemma msr_spsr_run rm : msr_spsr rm m = Ret ((), with_spsrs
  (<[md := write_fields FIELDS_FC (regs m (bank md rm)) (spsrs m md)]> (spsrs m)) m).
Proof.
  unfold msr_spsr.
  by rewrite (bind_Ret _ _ _ _ _ cpu_mode_run), (bind_Ret _ _ _ _ _ (reg_get_run rm)), Hspsr.
Qed.

Lemma subs_pc_lr_run n : subs_pc_lr n m = Ret ((),
  with_pc (branch_target (spsrs m md) (u32 (regs m (bank md LR) - n))) (with_cpsr (spsrs m md) m)).
Proof.
  unfold subs_pc_lr.
  by rewrite (bind_Ret _ _ _ _ _ cpu_mode_run), (bind_Ret _ _ _ _ _ (reg_get_run LR)), Hspsr.
Qed.
End instructions.

Lemma msr_cpsr_c_run md m rm : in_mode md m → md ≠ Usr →
  msr_cpsr_c rm m = Ret ((), with_cpsr (write_fields FIELD_C (regs m (bank md rm)) (cpsr m)) m).
Proof.
  intros H Hne. unfold msr_cpsr_c.
  rewrite (bind_Ret _ _ _ _ _ (cpu_mode_run md m H)), (bind_Ret _ _ _ _ _ (reg_get_run md m H rm)).
  by destruct md.
Qed.

(** ** Words in memory *)

(** The words at [a] are [vs]. *)
Definition words_at (f : Z → Z) (a : Z) (vs : list Z) : Prop :=
  ∀ (k : nat) v, vs !! k = Some v → f (a + 4 * Z.of_nat k) = v.

Fixpoint store_words (a : Z) (vs : list Z) (f : Z → Z) : Z → Z :=
  match vs with
  | [] => f
  | v :: vs => store_words (a + 4) vs (<[a := v]> f)
  end.

Lemma store_words_out a vs f b : b < a ∨ a + 4 * Z.of_nat (length vs) ≤ b →
  store_words a vs f b = f b.
Proof.
  revert a f. induction vs as [|v vs IH]; intros a f Hb; [done|]. cbn [store_words length] in *.
  rewrite IH by lia. apply fn_lookup_insert_ne. lia.
Qed.

Lemma store_words_at a vs f : words_at (store_words a vs f) a vs.
Proof.
  revert a f. induction vs as [|v vs IH]; intros a f k x Hk; [done|]. cbn [store_words].
  destruct k as [|k]; cbn in Hk.
  - injection Hk as ->. rewrite Z.add_0_r, store_words_out by lia. apply fn_lookup_insert.
  - rewrite <- (IH (a + 4) (<[a := v]> f) k x Hk). f_equal. lia.
Qed.

Lemma words_at_app f a l vs : words_at f a (l ++ vs) ↔
  words_at f a l ∧ words_at f (a + 4 * Z.of_nat (length l)) vs.
Proof.
  split.
  - intros H. split; intros k v Hk.
    + apply H. by apply lookup_app_l_Some.
    + rewrite <- (H (length l + k)%nat v); [f_equal; lia|].
      by rewrite lookup_app_r, Nat.add_comm, Nat.add_sub by lia.
  - intros [H1 H2] k v Hk. apply lookup_app_Some in Hk as [Hk|[Hle Hk]]; [by apply H1|].
    rewrite <- (H2 _ _ Hk). f_equal. lia.
Qed.

Lemma words_at_same f g a vs :
  (∀ b, a ≤ b < a + 4 * Z.of_nat (length vs) → g b = f b) → words_at f a vs → words_at g a vs.
Proof.
  intros Hsame H k v Hk. pose proof (lookup_lt_Some _ _ _ Hk). rewrite Hsame by lia. by apply H.
Qed.

Lemma words_at_cons f a v vs : words_at f a (v :: vs) ↔ f a = v ∧ words_at f (a + 4) vs.
Proof.
  change (v :: vs) with ([v] ++ vs). rewrite words_at_app. cbn [length].
  split; intros [H1 H2]; (split; [|exact H2]).
  - rewrite <- (H1 O v eq_refl). f_equal. lia.
  - intros [|k] x Hk; [|done]. injection Hk as <-. rewrite <- H1. f_equal. lia.
Qed.

Section memory.
Context (base : Z).

(** [n] words from [a] on that lie outside the process table *)
Definition plain (a : Z) (n : nat) : Prop :=
  a `mod` 4 = 0 ∧ (a + 4 * Z.of_nat n ≤ base).

Lemma plain_S a n : plain a (S n) →
  a `mod` 4 = 0 ∧ in_table base a = false ∧ plain (a + 4) n.
Proof.
  unfold plain, in_table. intros [H1 H2]. split; [done|]. split; [|lia].
  apply andb_false_iff. left. apply Z.leb_gt. lia.
Qed.

Lemma mem_load_run a m : a `mod` 4 = 0 → in_table base a = false → mem_load base a m = Ret (mem m a, m).
Proof. intros H1 H2. unfold mem_load. by rewrite H1, H2. Qed.

Lemma mem_store_run a v m : a `mod` 4 = 0 → in_table base a = false →
  mem_store base a v m = Ret ((), with_mem (<[a := v]> (mem m)) m).
Proof. intros H1 H2. unfold mem_store. by rewrite H1, H2. Qed.

Lemma store_multiple_run md rs a m : in_mode md m → plain a (length rs) →
  store_multiple base a rs m =
    Ret ((), with_mem (store_words a (map (λ r, regs m (bank md r)) rs) (mem m)) m).
Proof.
  revert a m. induction rs as [|r rs IH]; intros a m Hmode Ha; [by destruct m|].
  apply plain_S in Ha as (H1 & H2 & Ha). cbn [store_multiple map store_words].
  rewrite (bind_Ret _ _ _ _ _ (reg_get_run md m Hmode r)).
  rewrite (bind_Ret _ _ _ _ _ (mem_store_run a _ m H1 H2)). by rewrite IH.
Qed.

Fixpoint load_regs (md : mode) (rs : list reg) (vs : list Z) (f : preg → Z) : preg → Z :=
  match rs, vs with
  | r :: rs, v :: vs => load_regs md rs vs (<[bank md r := v]> f)
  | _, _ => f
  end.

(** Loading the words [vs], wherever they are. *)
Lemma load_multiple_any md rs vs a m : in_mode md m → length vs = length rs →
  (∀ f (k : nat) v, vs !! k = Some v →
    mem_load base (a + 4 * Z.of_nat k) (with_regs f m) = Ret (v, with_regs f m)) →
  load_multiple base a rs m = Ret ((), with_regs (load_regs md rs vs (regs m)) m).
Proof.
  revert vs a m. induction rs as [|r rs IH]; intros vs a m Hmode Hl Hw; [by destruct m|].
  destruct vs as [|v vs]; [done|]. cbn [load_multiple load_regs].
  pose proof (Hw (regs m) O v eq_refl) as Hv. rewrite Z.add_0_r in Hv.
  replace (with_regs (regs m) m) with m in Hv by (by destruct m).
  rewrite (bind_Ret _ _ _ _ _ Hv), (bind_Ret _ _ _ _ _ (reg_set_run md m Hmode r v)).
  rewrite (IH vs); [done|done|by injection Hl|].
  intros f k x Hk. rewrite <- (Z.add_assoc a 4).
  replace (4 + 4 * Z.of_nat k) with (4 * Z.of_nat (S k)) by lia. by apply (Hw f (S k)).
Qed.

(** Loading words outside the process table. *)
Lemma load_multiple_run md rs vs a m : in_mode md m → plain a (length rs) → length vs = length rs →
  words_at (mem m) a vs →
  load_multiple base a rs m = Ret ((), with_regs (load_regs md rs vs (regs m)) m).
Proof.
  intros Hmode [Ha Hb] Hl Hw. apply load_multiple_any; [done..|]. intros f k v Hk.
  pose proof (lookup_lt_Some _ _ _ Hk). rewrite mem_load_run; [by rewrite <- (Hw k v Hk)|lia|].
  unfold in_table. apply andb_false_iff. left. apply Z.leb_gt. lia.
Qed.

(** Loading words of a process. *)
Lemma table_load_run i o p v m : 0 ≤ i < SCHEDULER_MAX_TASK_COUNT →
  processes (sched (sys m)) !! Z.to_nat i = Some p →
  0 ≤ o < SIZEOF_PROCESS → o `mod` 4 = 0 → base `mod` 4 = 0 →
  process_word p o = Some v → kernel_mapped m = true →
  mem_load base (process_address base i + o) m = Ret (v, m).
Proof.
  unfold SCHEDULER_MAX_TASK_COUNT, SIZEOF_PROCESS. intros Hi Hp Ho Hal Hb Hv Hmap.
  unfold mem_load, process_address, SIZEOF_PROCESS.
  replace ((base + 164 * i + o) `mod` 4 =? 0) with true by (symmetry; apply Z.eqb_eq; lia).
  replace (in_table base (base + 164 * i + o)) with true; cbn [negb].
  2: { symmetry. unfold in_table, SIZEOF_PROCESS, SCHEDULER_MAX_TASK_COUNT.
       apply andb_true_iff. split; [apply Z.leb_le|apply Z.ltb_lt]; lia. }
  unfold bind at 1, gets at 1. rewrite Hmap. unfold bind at 1, ret at 1.
  replace ((base + 164 * i + o - base) / 164) with i by lia.
  replace ((base + 164 * i + o - base) `mod` 164) with o by lia.
  erewrite bind_Ret; [|by rewrite (arr_get_lookup _ _ p) by (done || lia)].
  by rewrite Hv.
Qed.

Lemma load_words_run vs a m : plain a (length vs) → words_at (mem m) a vs →
  load_words base (length vs) a m = Ret (vs, m).
Proof.
  revert a. induction vs as [|v vs IH]; intros a Ha Hw; [done|].
  apply words_at_cons in Hw as [Hv Hw]. apply plain_S in Ha as (H1 & H2 & Ha).
  cbn [load_words length]. rewrite (bind_Ret _ _ _ _ _ (mem_load_run a m H1 H2)).
  by rewrite (bind_Ret _ _ _ _ _ (IH _ Ha Hw)), Hv.
Qed.

Lemma load_context_run c a m : plain a 17 → words_at (mem m) a (context_words c) →
  load_context base a m = Ret (c, m).
Proof.
  intros Ha Hw. unfold load_context.
  rewrite (bind_Ret _ _ _ _ _ (load_words_run (context_words c) a m Ha Hw)). by destruct c.
Qed.

(** [push] and [pop], where the stack is aligned and below the table. *)
Lemma push_regs_run md rs m : in_mode md m →
  size_of rs ≤ regs m (bank md SP) ≤ base → regs m (bank md SP) `mod` 4 = 0 → base < 0x100000000 →
  push base rs m = Ret ((), with_regs (<[bank md SP := regs m (bank md SP) - size_of rs]> (regs m))
    (with_mem (store_words (regs m (bank md SP) - size_of rs)
       (map (λ r, regs m (bank md r)) rs) (mem m)) m)).
Proof.
  unfold size_of. intros Hmode Hsp Hal Hb. unfold push, size_of.
  rewrite (bind_Ret _ _ _ _ _ (reg_get_run md m Hmode SP)).
  rewrite u32_small by lia.
  erewrite bind_Ret; [|apply (store_multiple_run md); [done|unfold plain; lia]].
  by rewrite (reg_set_run md).
Qed.

Lemma pop_run md rs vs m : in_mode md m → (0 < length rs)%nat →
  0 ≤ regs m (bank md SP) → regs m (bank md SP) + size_of rs ≤ base →
  regs m (bank md SP) `mod` 4 = 0 → base < 0x100000000 → length vs = length rs →
  words_at (mem m) (regs m (bank md SP)) vs →
  pop base rs m = Ret ((), with_regs
    (load_regs md rs vs (<[bank md SP := regs m (bank md SP) + size_of rs]> (regs m))) m).
Proof.
  unfold size_of. intros Hmode Hrs Hlo Hhi Hal Hb Hl Hw. unfold pop, size_of.
  rewrite (bind_Ret _ _ _ _ _ (reg_get_run md m Hmode SP)).
  rewrite (bind_Ret _ _ _ _ _ (reg_set_run md m Hmode SP _)), u32_small by lia.
  rewrite (load_multiple_run md rs vs); [done|done|unfold plain; lia|done|done].
Qed.
End memory.

(** ** Following a computation of the model

    The machine does what the model of the C code says: the same result, or the same
    failure. *)
Definition follows {A B} (c : outcome (A * machine)) (o : outcome B)
    (Q : B → A → machine → Prop) : Prop :=
  match o with
  | Ret b => ∃ a m', c = Ret (a, m') ∧ Q b a m'
  | Fatal r => c = Fatal r
  | Fault => c = Fault
  | Timeout => c = Timeout
  end.

Lemma follows_step {A A' B} (i : MM A) (k : A → MM A') m a m1 (o : outcome B) Q :
  i m = Ret (a, m1) → follows (k a m1) o Q → follows (bind i k m) o Q.
Proof. intros E H. by rewrite (bind_Ret _ _ _ _ _ E). Qed.

Lemma follows_bind {A A' B B'} (c : MM A) (k : A → MM A') m (b : MS B) (g : B → MS B') w P Q :
  follows (c m) (b w) P →
  (∀ x w' a m', b w = Ret (x, w') → P (x, w') a m' → follows (k a m') (g x w') Q) →
  follows (bind c k m) (bind b g w) Q.
Proof.
  intros Hc Hk. unfold bind at 1 2. unfold follows at 1 in Hc.
  destruct (b w) as [[x w']| | |] eqn:E; [|by rewrite Hc..].
  destruct Hc as (a & m' & -> & HP). by apply Hk.
Qed.

Lemma follows_mono {A B} (c : outcome (A * machine)) (o : outcome B) (P Q : B → A → machine → Prop) :
  follows c o P → (∀ b a m', o = Ret b → P b a m' → Q b a m') → follows c o Q.
Proof. destruct o; simpl; [|done..]. intros (x & m' & E & HP) H. exists x, m'. auto. Qed.

(** ** The kernel at work in an exception's mode *)

Definition top (md : mode) (m : machine) : Z := regs m (Banked md SP).

(** The kernel entered [md] as [m0], and is at [m]: it has put [vs] on the stack, changed
    nothing else but what is less than [room] bytes below the top of the stack, and kept the
    stacks of the other modes. *)
Record inside (md : mode) (room : Z) (m0 : machine) (vs : list Z) (m : machine) : Prop := {
  ins_psr : Z.land (cpsr m) 0xFF = Z.land (cpsr m0) 0xFF;
  ins_sp : top md m = top md m0 - 4 * Z.of_nat (length vs);
  ins_words : words_at (mem m) (top md m0 - 4 * Z.of_nat (length vs)) vs;
  ins_mem : ∀ a, ¬ (top md m0 - room ≤ a < top md m0) → mem m a = mem m0 a;
  ins_banks : ∀ md', md' ≠ md → top md' m = top md' m0;
  ins_spsr : spsrs m = spsrs m0;
  ins_dacr : dacr m = dacr m0;
  ins_sctlr : sctlr m = sctlr m0;
  ins_ktable : ktable m = ktable m0;
}.

Lemma inside_start md room m : inside md room m [] m.
Proof. split; try done; cbn; lia. Qed.

Section inside.
Context (link : Z) (leave : machine → leftovers) (depth : Z).
Context (md : mode) (Hmd : md = Svc ∨ md = Irq).
Context (room : Z) (m0 : machine) (Hmode : in_mode md m0).

Lemma inside_mode vs m : inside md room m0 vs m → in_mode md m.
Proof. intros H. unfold in_mode. rewrite (mode_of_same _ _ (ins_psr _ _ _ _ _ H)). apply Hmode. Qed.

Lemma kernel_bank r :
  bank md r = match r with SP | LR => Banked md r | _ => User r end.
Proof. destruct Hmd as [E|E]; rewrite E; by destruct r. Qed.

Lemma inside_reg vs m r v : inside md room m0 vs m → r ≠ SP →
  inside md room m0 vs (with_regs (<[bank md r := v]> (regs m)) m).
Proof.
  intros [] Hr.
  assert (∀ md', Banked md' SP ≠ bank md r) as Hne by (intros ?; rewrite kernel_bank; destruct r; congruence).
  split; intros; unfold top in *; cbn; rewrite ?fn_lookup_insert_ne by auto; auto.
Qed.

(** Whatever a C function leaves behind. *)
Lemma inside_after_c vs m result : inside md room m0 vs m → 0 ≤ depth →
  4 * Z.of_nat (length vs) + depth ≤ room →
  ∃ m', after_c leave depth result m = Ret ((), m') ∧ inside md room m0 vs m' ∧
    sys m' = sys m ∧ kernel_mapped m' = kernel_mapped m ∧
    (∀ v, result = Some v → regs m' (User R0) = v) ∧ ttbr0 m' = ttbr0 m ∧ tlb_stale m' = tlb_stale m.
Proof.
  intros H Hd Hroom. unfold after_c.
  rewrite (bind_Ret _ _ _ _ _ (cpu_mode_run md m (inside_mode _ _ H))).
  eexists. split; [reflexivity|]. destruct H.
  set (l := leave m). cbv [clobbered fold_right].
  assert (∀ md', Banked md' SP ≠ User R0) as Hne by done.
  split_and!; try done.
  - split; try done.
    + cbn. rewrite write_fields_land; done.
    + rewrite <- ins_sp0. unfold top. cbn.
      rewrite !kernel_bank. destruct result; by rewrite !fn_lookup_insert_ne.
    + cbn. eapply words_at_same; [|exact ins_words0]. intros b Hb. cbn.
      rewrite kernel_bank. fold (top md m). rewrite ins_sp0.
      replace (b <? _) with false by (symmetry; apply Z.ltb_ge; lia). by rewrite andb_false_r.
    + intros a Ha. cbn. rewrite kernel_bank. fold (top md m). rewrite ins_sp0.
      rewrite <- ins_mem0 by done. destruct (_ && _) eqn:E; [|done].
      apply andb_true_iff in E as [E1%Z.leb_le E2%Z.ltb_lt]. lia.
    + intros md' Hmd'. rewrite <- ins_banks0 by done. unfold top. cbn.
      rewrite !kernel_bank. destruct result; by rewrite !fn_lookup_insert_ne.
  - intros v ->. cbn. rewrite !kernel_bank. by rewrite fn_lookup_insert.
Qed.

(** A C function does what its model does. *)
Lemma bl_c_follows {A} vs m (result : A → option Z) (body : MS A) w : inside md room m0 vs m →
  0 ≤ depth → 4 * Z.of_nat (length vs) + depth ≤ room → kernel_mapped m = true → sys m = w →
  follows (bl_c link leave depth result body m) (body w) (λ aw _ m',
    inside md room m0 vs m' ∧ sys m' = aw.2 ∧ kernel_mapped m' = true ∧
    ∀ v, result aw.1 = Some v → regs m' (User R0) = v).
Proof.
  intros H Hd Hroom Hmap <-. unfold bl_c.
  eapply follows_step; [apply (reg_set_run md), (inside_mode _ _ H)|].
  apply (inside_reg _ _ LR link) in H; [|done].
  unfold bind at 1, gets at 1.
  change (kernel_mapped (with_regs _ m)) with (kernel_mapped m). rewrite Hmap.
  unfold bind at 1, ret at 1.
  unfold bind at 1, zoom at 1. cbn [comp_get machine_sys sys with_regs].
  destruct (body (sys m)) as [[a w]| | |]; [|done..]. cbn [follows].
  set (m1 := comp_set w _).
  destruct (inside_after_c vs m1 (result a)) as (m' & E & H' & Hsys & Hmap' & Hres & _);
    [by destruct H; split|done..|].
  exists (), m'. rewrite E, Hsys. split_and!; try done. by rewrite Hmap'.
Qed.

End inside.

(** *** The stack *)

Section stack.
Context (base : Z) (md : mode) (Hmd : md = Svc ∨ md = Irq).
Context (room : Z) (m0 : machine) (Hmode : in_mode md m0).

(** Taking words off it, in any way. *)
Lemma inside_drop l vs m : inside md room m0 (l ++ vs) m → ∀ f,
  f (Banked md SP) = top md m + 4 * Z.of_nat (length l) →
  (∀ md', md' ≠ md → f (Banked md' SP) = top md' m) →
  inside md room m0 vs (with_regs f m).
Proof.
  intros [] f Hf Hfb. rewrite length_app in *.
  split; try done; unfold top in *; cbn.
  - rewrite Hf, ins_sp0. lia.
  - apply words_at_app in ins_words0 as [_ H]. eapply words_at_same; [|].
    2: { replace (regs m0 (Banked md SP) - 4 * Z.of_nat (length vs)) with
           (regs m0 (Banked md SP) - 4 * Z.of_nat (length l + length vs) + 4 * Z.of_nat (length l)) by lia.
         exact H. }
    done.
  - intros md' H. rewrite Hfb by done. by apply ins_banks0.
Qed.

(** It is aligned, and its [room] lies above address 0 and below the process table. *)
Definition stack_ready : Prop :=
  top md m0 `mod` 4 = 0 ∧ 0 ≤ room ≤ top md m0 ∧ top md m0 ≤ base ∧ base < 0x100000000.

Context (Hstack : stack_ready).

Lemma inside_push vs m rs : inside md room m0 vs m → (0 < length rs)%nat →
  4 * Z.of_nat (length rs + length vs) ≤ room →
  ∃ m', push base rs m = Ret ((), m') ∧
    inside md room m0 (map (λ r, regs m (bank md r)) rs ++ vs) m' ∧
    sys m' = sys m ∧ kernel_mapped m' = kernel_mapped m ∧
    (∀ r, r ≠ Banked md SP → regs m' r = regs m r).
Proof.
  intros H Hrs Hroom. destruct Hstack as (Hal & Hlo & Hhi & Hb).
  pose proof (ins_sp _ _ _ _ _ H) as Hsp. unfold top in *.
  rewrite (push_regs_run base md); rewrite ?(kernel_bank md Hmd), ?Hsp; unfold size_of;
    [|by eapply inside_mode|lia..].
  eexists. split; [reflexivity|]. set (l := map _ rs).
  assert (length l = length rs) as Hl by apply length_map.
  split_and!; [|done|done|].
  - destruct H. split; try done; unfold top in *; cbn; rewrite ?length_app, ?Hl.
    + rewrite fn_lookup_insert. lia.
    + rewrite <- Hl. apply words_at_app. split.
      * replace (regs m0 (Banked md SP) - 4 * Z.of_nat (length l + length vs)) with
          (regs m0 (Banked md SP) - 4 * Z.of_nat (length vs) - 4 * Z.of_nat (length l)) by lia.
        apply store_words_at.
      * eapply words_at_same; [|by replace (regs m0 (Banked md SP) - _ + _) with
          (regs m0 (Banked md SP) - 4 * Z.of_nat (length vs)) by lia].
        intros b Hbb. apply store_words_out. lia.
    + intros a Ha. rewrite store_words_out by (rewrite Hl; lia). by apply ins_mem0.
    + intros md' Hne. rewrite fn_lookup_insert_ne by congruence. by apply ins_banks0.
  - intros r Hr. cbn. by rewrite fn_lookup_insert_ne by congruence.
Qed.

Lemma load_regs_other rs vs f r : (∀ q, q ∈ rs → r ≠ bank md q) → load_regs md rs vs f r = f r.
Proof.
  revert vs f. induction rs as [|q rs IH]; intros [|v vs] f H; try done. cbn [load_regs].
  rewrite IH by (intros; apply H; by right).
  rewrite fn_lookup_insert_ne; [done|]. intros E. by apply (H q); [left|].
Qed.

Lemma load_regs_ext rs vs f g r : f r = g r → load_regs md rs vs f r = load_regs md rs vs g r.
Proof.
  revert vs f g. induction rs as [|q rs IH]; intros [|v vs] f g H; try done. cbn [load_regs].
  apply IH. destruct (decide (r = bank md q)) as [->|]; [by rewrite !fn_lookup_insert|].
  by rewrite !fn_lookup_insert_ne by congruence.
Qed.

Lemma inside_pop l vs m rs : inside md room m0 (l ++ vs) m → length l = length rs →
  (0 < length rs)%nat → SP ∉ rs → 4 * Z.of_nat (length l + length vs) ≤ room →
  ∃ m', pop base rs m = Ret ((), m') ∧ inside md room m0 vs m' ∧
    sys m' = sys m ∧ kernel_mapped m' = kernel_mapped m ∧
    ttbr0 m' = ttbr0 m ∧ tlb_stale m' = tlb_stale m ∧
    (∀ r, r ≠ Banked md SP → regs m' r = load_regs md rs l (regs m) r).
Proof.
  intros H Hl Hrs Hnsp Hroom. destruct Hstack as (Hal & Hlo & Hhi & Hb).
  pose proof (ins_sp _ _ _ _ _ H) as Hsp. pose proof (ins_words _ _ _ _ _ H) as Hw.
  rewrite length_app in *. apply words_at_app in Hw as [Hw _]. unfold top in *.
  assert (∀ md' q, q ∈ rs → Banked md' SP ≠ bank md q) as Hbank.
  { intros md' q Hq. rewrite (kernel_bank md Hmd). destruct q; congruence. }
  rewrite (pop_run base md rs l); rewrite ?(kernel_bank md Hmd), ?Hsp; unfold size_of;
    [|by eapply inside_mode|done|lia|lia|lia|lia|done|done].
  eexists. split; [reflexivity|]. split_and!; [|done|done|done|done|].
  - apply (inside_drop l); [done| |].
    + rewrite load_regs_other by auto. rewrite fn_lookup_insert. unfold top. lia.
    + intros md' Hne. rewrite load_regs_other by auto. by rewrite fn_lookup_insert_ne by congruence.
  - intros r Hr. cbn. apply load_regs_ext. by rewrite fn_lookup_insert_ne by congruence.
Qed.

(** [add sp, sp, #n] frees words. *)
Lemma inside_free l vs m n : inside md room m0 (l ++ vs) m → n = 4 * Z.of_nat (length l) →
  4 * Z.of_nat (length l + length vs) ≤ room →
  ∃ m', add SP SP (Imm n) m = Ret ((), m') ∧ inside md room m0 vs m' ∧
    sys m' = sys m ∧ kernel_mapped m' = kernel_mapped m.
Proof.
  intros H -> Hroom. destruct Hstack as (Hal & Hlo & Hhi & Hb).
  pose proof (ins_sp _ _ _ _ _ H) as Hsp. unfold top in *. rewrite length_app in Hsp.
  rewrite (add_reg_run md) by (by eapply inside_mode). rewrite (kernel_bank md Hmd), Hsp. cbn [value].
  eexists. split; [reflexivity|]. split_and!; [|done|done]. apply (inside_drop l); [done| |].
  - rewrite fn_lookup_insert. unfold top. rewrite Hsp. unfold u32.
    destruct (decide (length vs = O)) as [E|E]; lia.
  - intros md' Hne. by rewrite fn_lookup_insert_ne by congruence.
Qed.
End stack.

End CpuSpec.
