(* ===== verification/ContextSwitch.v ===== *)
(** * Saving and restoring a program's registers

    What the sequences of instructions that the exception vectors share do: the changes of
    mode that reach the user's banked registers, the change of the translation table, and
    [__scheduler_set_task_context], which resumes a process. *)
From stdpp Require Import functions.
From S2P Require Import Prelude Bitfield Mmu Alloc Heap Hash Fs FsState Devices Ramfs Fat32 Vfs Elf Scheduler Exec Syscalls Kernel Cpu CpuSpec Vectors.
Import Fs FsState Devices Vfs Scheduler Exec Syscalls Kernel Cpu CpuSpec Vectors.

Module ContextSwitch.

(** ** Changes of mode *)

(** [SET_CPU_MODE] changes the mode and r12. *)
Lemma SET_CPU_MODE_run md md' m o : in_mode md m → md ≠ Usr →
  o ≠ Reg R12 → value md m o = mode_bits md' →
  ∃ f, SET_CPU_MODE o m = Ret ((), with_cpsr (set_mode (mode_bits md') (cpsr m)) (with_regs f m)) ∧
    ∀ r, r ≠ bank md R12 → f r = regs m r.
Proof.
  intros Hm Hne Ho Hv. unfold SET_CPU_MODE.
  rewrite (bind_Ret _ _ _ _ _ (mrs_cpsr_run md m Hm R12)).
  rewrite (bind_Ret _ _ _ _ _ (bic_run md (with_regs _ m) Hm R12 R12 (Imm 0x1F))).
  rewrite (bind_Ret _ _ _ _ _ (orr_run md (with_regs _ (with_regs _ m)) Hm R12 R12 o)).
  rewrite (msr_cpsr_c_run md (with_regs _ (with_regs _ (with_regs _ m)))) by done.
  cbn [regs cpsr with_regs value]. rewrite !fn_lookup_insert.
  replace (value md (with_regs _ (with_regs _ m)) o) with (mode_bits md').
  2: { rewrite <- Hv. destruct o as [n|r]; [done|]. cbn.
       by rewrite !fn_lookup_insert_ne by (destruct md, r; simpl; congruence). }
  eexists. split.
  - change (Z.lor (Z.land (cpsr m) (Z.lnot 31)) (mode_bits md'))
      with (set_mode (mode_bits md') (cpsr m)).
    rewrite write_mode by (by destruct md'). reflexivity.
  - intros r Hr. by rewrite !fn_lookup_insert_ne by congruence.
Qed.

(** The mode that is restored was the mode before. *)
Lemma set_mode_back md psr : mode_of psr = Some md →
  set_mode (mode_bits md) (set_mode (mode_bits Sys) psr) = psr.
Proof.
  intros H. rewrite set_mode_twice by done. rewrite <- (mode_of_inv _ _ H). apply set_mode_same.
Qed.

(** ** The program that an exception interrupts, and the one that is resumed *)

(** The registers that a program sees, with its status and its next instruction. *)
Definition user_context (m : machine) (psr a : Z) : task_context :=
  let u r := regs m (User r) in
  mkctx (u R0) (u LR) (u SP) psr (u R1) (u R2) (u R3) (u R4) (u R5) (u R6) (u R7) (u R8)
        (u R9) (u R10) (u R11) (u R12) a.

Definition visible (m : machine) : task_context := user_context m (cpsr m) (pc m).

(** On entry to an exception, at the address [a]. *)
Definition interrupted (md : mode) (a : Z) (m : machine) : task_context :=
  user_context m (spsrs m md) a.

(** A context as the processor takes it on: of the status, the flags and the control field
    are the saved ones and the other fields, [old], are those of the last exception. *)
Definition taken_on (old : Z) (c : task_context) : task_context :=
  let psr := write_fields FIELDS_FC (spsr c) old in
  mkctx (r0 c) (lr_usr c) (sp c) psr (r1 c) (r2 c) (r3 c) (r4 c) (r5 c) (r6 c) (r7 c) (r8 c)
        (r9 c) (r10 c) (r11 c) (r12 c) (branch_target psr (u32 (lr c))).

(** The kernel, entered in mode [md] as [m0], has resumed [p]: its registers and its table,
    and the stacks of all modes as they were. *)
Record resumed (md : mode) (room : Z) (m0 : machine) (w : system) (p : process) (m' : machine) : Prop := {
  res_sys : sys m' = w;
  res_visible : visible m' = taken_on (spsrs m0 md) (context p);
  res_ttbr0 : ttbr0 m' = translation_table p;
  res_tlb : tlb_stale m' = false;
  res_tops : ∀ md', top md' m' = top md' m0;
  res_mem : ∀ a, ¬ (top md m0 - room ≤ a < top md m0) → mem m' a = mem m0 a;
  res_mmu : dacr m' = dacr m0 ∧ sctlr m' = sctlr m0;
  res_ktable : ktable m' = ktable m0;
}.

Section vectors.
Context (base : Z) (md : mode) (Hmd : md = Svc ∨ md = Irq).
Context (room : Z) (m0 : machine) (Hmode : in_mode md m0) (Hstack : stack_ready base md room m0).
Abbreviation inside := (inside md room m0).

(** A change of the registers that leaves the stacks alone. *)
Lemma inside_regs vs m f : inside vs m → (∀ md', f (Banked md' SP) = top md' m) →
  inside vs (with_regs f m).
Proof.
  intros [] Hf. split; try done; unfold top in *; cbn; intros; rewrite ?Hf; auto.
Qed.

(** Reading the user's link register and stack pointer in system mode. *)
Lemma save_user_bank vs m : inside vs m → ∃ m', (∀ k : MM (),
    bind (SET_CPU_MODE (Imm CPU_MODE_SYS)) (λ _,
    bind (mov R4 (Reg LR)) (λ _,
    bind (mov R5 (Reg SP)) (λ _,
    bind (SET_CPU_MODE (Imm (mode_bits md))) (λ _, k)))) m = k m') ∧
  inside vs m' ∧ sys m' = sys m ∧
  regs m' (User R4) = regs m (User LR) ∧ regs m' (User R5) = regs m (User SP) ∧
  ∀ r, r ∉ [User R4; User R5; User R12] → regs m' r = regs m r.
Proof.
  intros H. pose proof (inside_mode md room m0 Hmode vs m H) as Hm.
  assert (md ≠ Usr) as Hne by (destruct Hmd; congruence).
  destruct (SET_CPU_MODE_run md Sys m (Imm CPU_MODE_SYS) Hm Hne ltac:(done) eq_refl) as (f & E1 & Hf).
  set (m1 := with_cpsr (set_mode (mode_bits Sys) (cpsr m)) (with_regs f m)) in *.
  assert (∀ g, in_mode Sys (with_regs g m1)) as Hs by (intros g; apply mode_of_set).
  set (g := <[User R5 := regs m (User SP)]> (<[User R4 := regs m (User LR)]> f)).
  destruct (SET_CPU_MODE_run Sys md (with_regs g m1) (Imm (mode_bits md)) (Hs g) ltac:(done)
    ltac:(done) eq_refl) as (h & E2 & Hh).
  assert (bank md R12 = User R12) as Hb by (by rewrite (kernel_bank md Hmd)).
  rewrite Hb in Hf. cbn [bank] in Hh.
  assert (∀ r, r ∉ [User R4; User R5; User R12] → h r = regs m r) as Hsame.
  { intros r Hr. rewrite !not_elem_of_cons in Hr. destruct Hr as (H1 & H2 & H3 & _).
    rewrite Hh by done. cbn. unfold g. rewrite !fn_lookup_insert_ne by congruence. by apply Hf. }
  exists (with_regs h m). split; [|split; [|split]].
  - intros k. rewrite (bind_Ret _ _ _ _ _ E1).
    rewrite (bind_Ret _ _ _ _ _ (mov_run Sys m1 (Hs f) R4 (Reg LR))).
    erewrite bind_Ret; [|apply (mov_run Sys), Hs].
    cbn [value bank regs with_regs m1 with_cpsr]. rewrite fn_lookup_insert_ne by done.
    rewrite !Hf by done. fold g. change (with_regs g (with_regs _ m1)) with (with_regs g m1).
    rewrite (bind_Ret _ _ _ _ _ E2). cbn [cpsr with_regs m1 with_cpsr].
    rewrite set_mode_back by done. by destruct m.
  - apply inside_regs; [done|]. intros md'. apply Hsame. set_solver.
  - done.
  - cbn. rewrite !Hh by done. cbn. unfold g. by rewrite fn_lookup_insert, fn_lookup_insert_ne, fn_lookup_insert by done.
Qed.

(** Writing them back from r1 and r2, with the mode in r3. *)
Lemma restore_user_bank vs m : inside vs m → ∃ m', (∀ k : MM (),
    bind (GET_CPU_MODE R3) (λ _,
    bind (SET_CPU_MODE (Imm CPU_MODE_SYS)) (λ _,
    bind (mov LR (Reg R1)) (λ _,
    bind (mov SP (Reg R2)) (λ _,
    bind (SET_CPU_MODE (Reg R3)) (λ _, k))))) m = k m') ∧
  inside vs m' ∧ sys m' = sys m ∧ kernel_mapped m' = kernel_mapped m ∧
  regs m' (User LR) = regs m (User R1) ∧ regs m' (User SP) = regs m (User R2) ∧
  regs m' (User R0) = regs m (User R0).
Proof.
  intros H. pose proof (inside_mode md room m0 Hmode vs m H) as Hm.
  assert (md ≠ Usr) as Hne by (destruct Hmd; congruence).
  set (m1 := with_regs (<[User R3 := mode_bits md]> (<[User R3 := cpsr m]> (regs m))) m).
  assert (GET_CPU_MODE R3 m = Ret ((), m1)) as E0.
  { unfold GET_CPU_MODE. rewrite (bind_Ret _ _ _ _ _ (mrs_cpsr_run md m Hm R3)).
    rewrite (and_run md (with_regs _ m) Hm). cbn [regs with_regs value].
    rewrite fn_lookup_insert, (mode_of_inv _ _ Hm), kernel_bank by done. done. }
  destruct (SET_CPU_MODE_run md Sys m1 (Imm CPU_MODE_SYS) Hm Hne ltac:(done) eq_refl) as (f & E1 & Hf).
  rewrite kernel_bank in Hf by done. cbn in Hf.
  set (m2 := with_cpsr (set_mode (mode_bits Sys) (cpsr m1)) (with_regs f m1)) in *.
  assert (∀ g, in_mode Sys (with_regs g m2)) as Hs by (intros g; apply mode_of_set).
  set (g := <[User SP := regs m (User R2)]> (<[User LR := regs m (User R1)]> f)).
  assert (∀ r, r ∉ [User R3; User R12] → f r = regs m r) as Hsame.
  { intros r Hr. rewrite !not_elem_of_cons in Hr. destruct Hr as (H1 & H2 & _).
    rewrite Hf by done. by rewrite !fn_lookup_insert_ne by congruence. }
  assert (value Sys (with_regs g m2) (Reg R3) = mode_bits md) as Hv.
  { cbn. unfold g. rewrite !fn_lookup_insert_ne by done. rewrite Hf by done.
    by rewrite fn_lookup_insert. }
  destruct (SET_CPU_MODE_run Sys md (with_regs g m2) (Reg R3) (Hs g) ltac:(done) ltac:(done) Hv)
    as (h & E2 & Hh). cbn [bank] in Hh.
  exists (with_regs h m). split.
  { intros k. rewrite (bind_Ret _ _ _ _ _ E0), (bind_Ret _ _ _ _ _ E1).
    rewrite (bind_Ret _ _ _ _ _ (mov_run Sys m2 (Hs f) LR (Reg R1))).
    erewrite bind_Ret; [|apply (mov_run Sys), Hs].
    cbn [value bank regs with_regs m2 m1 with_cpsr]. rewrite fn_lookup_insert_ne by done.
    rewrite !Hsame by set_solver. fold g.
    change (with_regs g (with_regs _ _)) with (with_regs g m2).
    rewrite (bind_Ret _ _ _ _ _ E2). cbn [cpsr with_regs m2 m1 with_cpsr].
    rewrite set_mode_back by done. by destruct m. }
  assert (∀ r, r ∉ [User R3; User R12; User LR; User SP] → h r = regs m r) as Hkeep.
  { intros r Hr. rewrite !not_elem_of_cons in Hr. destruct Hr as (H1 & H2 & H3 & H4 & _).
    rewrite Hh by done. cbn. unfold g. rewrite !fn_lookup_insert_ne by congruence.
    apply Hsame. set_solver. }
  split_and!; [|done|done|..].
  - apply inside_regs; [done|]. intros md'. apply Hkeep. set_solver.
  - cbn. rewrite Hh by done. cbn. unfold g. by rewrite fn_lookup_insert_ne, fn_lookup_insert by done.
  - cbn. rewrite Hh by done. cbn. unfold g. by rewrite fn_lookup_insert.
  - cbn. apply Hkeep. set_solver.
Qed.

(** ** The translation table *)

Lemma set_table_run m : in_mode md m → mmu_set_translation_table m =
  Ret (regs m (Banked md LR), with_mmu (regs m (User R0)) (dacr m) (sctlr m) false m).
Proof.
  intros Hm. unfold mmu_set_translation_table, mcr_ttbr0, mcr_invalidate_tlb, privileged.
  repeat (unfold bind at 1; rewrite ?(cpu_mode_run md) by done).
  destruct Hmd as [E|E]; rewrite E in *; cbn [bind ret]; rewrite (reg_get_run _ _ Hm);
    cbn [modify]; unfold bind; rewrite ?(cpu_mode_run _ (with_mmu _ _ _ _ m) Hm);
    cbn; unfold bx_lr; by rewrite (reg_get_run _ (with_mmu _ _ _ _ (with_mmu _ _ _ _ m)) Hm).
Qed.

Lemma bl_set_table link vs m : inside vs m → ∃ m', bl link mmu_set_translation_table m = Ret ((), m') ∧
  inside vs m' ∧ sys m' = sys m ∧ ttbr0 m' = regs m (User R0) ∧ tlb_stale m' = false ∧
  ∀ r, r ≠ Banked md LR → regs m' r = regs m r.
Proof.
  intros H. pose proof (inside_mode md room m0 Hmode vs m H) as Hm. unfold bl.
  rewrite (bind_Ret _ _ _ _ _ (reg_set_run md m Hm LR link)).
  rewrite (bind_Ret _ _ _ _ _ (set_table_run (with_regs _ m) Hm)).
  cbn [regs with_regs]. rewrite (kernel_bank md Hmd), fn_lookup_insert, Z.eqb_refl.
  eexists. split; [reflexivity|]. split_and!; try done.
  - apply (inside_reg md Hmd room m0 vs m LR link) in H; [|done]. rewrite (kernel_bank md Hmd) in H.
    by destruct H; split.
  - intros r Hr. cbn. by rewrite fn_lookup_insert_ne by congruence.
Qed.

Lemma restore_table_run link leave depth vs m : inside vs m → 0 ≤ depth →
  4 * Z.of_nat (length vs) + depth ≤ room →
  ∃ m', kernel_restore_translation_table link leave depth m = Ret ((), m') ∧
    inside vs m' ∧ sys m' = sys m ∧ kernel_mapped m' = true ∧ ttbr0 m' = ktable m0 ∧ tlb_stale m' = false.
Proof.
  intros H Hdepth Hroom. pose proof (inside_mode md room m0 Hmode vs m H) as Hm.
  unfold kernel_restore_translation_table. unfold bind at 1, gets at 1.
  rewrite (bind_Ret _ _ _ _ _ (mov_run md m Hm R0 (Imm (ktable m)))).
  apply (inside_reg md Hmd room m0 vs m R0 (ktable m)) in H as H'; [|done].
  destruct (bl_set_table link vs _ H') as (m1 & E & H1 & Hsys & Htt & Hst & _).
  cbn [value]. rewrite (bind_Ret _ _ _ _ _ E).
  destruct (inside_after_c leave depth md Hmd room m0 Hmode vs m1 None H1 Hdepth Hroom)
    as (m2 & E2 & H2 & Hsys2 & Hmap & _ & Htt2 & Hst2).
  assert (ttbr0 m1 = ktable m0) as Htk.
  { rewrite Htt. cbn [regs with_regs]. rewrite (kernel_bank md Hmd), fn_lookup_insert.
    exact (ins_ktable _ _ _ _ _ H). }
  exists m2. split; [exact E2|]. split_and!; [done|by rewrite Hsys2| |by rewrite Htt2|by rewrite Hst2].
  rewrite Hmap. unfold kernel_mapped. rewrite Htk, Hst, (ins_ktable _ _ _ _ _ H1), Z.eqb_refl.
  apply orb_true_r.
Qed.

(** ** Resuming a process *)

Section resume.
Context (w : system) (i : Z) (p : process).
Context (Hi : 0 ≤ i < SCHEDULER_MAX_TASK_COUNT) (Hp : processes (sched w) !! Z.to_nat i = Some p).
Context (Hbase : base `mod` 4 = 0) (Hend : base + SIZEOF_PROCESS * SCHEDULER_MAX_TASK_COUNT ≤ 0x100000000).
Context (Hroom : 8 ≤ room).

(** r0 points into the chosen process. *)
Record at_word (o : Z) (vs : list Z) (m : machine) : Prop := {
  at_inside : inside vs m;
  at_sys : sys m = w;
  at_mapped : kernel_mapped m = true;
  at_r0 : regs m (User R0) = process_address base i + o;
}.

Lemma at_address o : 0 ≤ o < SIZEOF_PROCESS → u32 (process_address base i + o) = process_address base i + o.
Proof.
  pose proof Hstack as (_ & ? & ? & _). intros. apply u32_small.
  unfold process_address, SIZEOF_PROCESS, SCHEDULER_MAX_TASK_COUNT in *. lia.
Qed.

Lemma at_load o vs m off v : at_word o vs m → 0 ≤ o + off < SIZEOF_PROCESS → (o + off) `mod` 4 = 0 →
  process_word p (o + off) = Some v →
  mem_load base (process_address base i + (o + off)) m = Ret (v, m).
Proof.
  intros [] Ho Hal Hv. eapply table_load_run; try done. by rewrite at_sys0.
Qed.

Lemma at_ldr o vs m rd off v : at_word o vs m → rd ∈ [R1; R2] → 0 ≤ o + off < SIZEOF_PROCESS →
  (o + off) `mod` 4 = 0 → process_word p (o + off) = Some v →
  ∃ m', ldr base rd R0 off m = Ret ((), m') ∧ at_word o vs m' ∧ regs m' (User rd) = v ∧
    ∀ r, r ≠ User rd → regs m' r = regs m r.
Proof.
  intros H Hrd Ho Hal Hv. pose proof (at_load _ _ _ _ _ H Ho Hal Hv) as Hl.
  pose proof H as [Hin Hs Hmap Hr0]. pose proof (inside_mode md room m0 Hmode vs m Hin) as Hm.
  assert (bank md rd = User rd ∧ rd ≠ SP ∧ rd ≠ R0) as (Hb & Hsp & Hne).
  { rewrite (kernel_bank md Hmd). rewrite !elem_of_cons, elem_of_nil in Hrd.
    by destruct Hrd as [->|[->|[]]]. }
  unfold ldr. rewrite (bind_Ret _ _ _ _ _ (reg_get_run md m Hm R0)), (kernel_bank md Hmd), Hr0.
  rewrite <- Z.add_assoc, at_address by done. rewrite (bind_Ret _ _ _ _ _ Hl).
  rewrite (reg_set_run md m Hm rd v), Hb. eexists. split; [reflexivity|]. split_and!.
  - split; [rewrite <- Hb; by apply inside_reg|done|done|].
    cbn. by rewrite fn_lookup_insert_ne by congruence.
  - cbn. by rewrite fn_lookup_insert.
  - intros r Hr. cbn. by rewrite fn_lookup_insert_ne by congruence.
Qed.

(** r0 steps to the next word. *)
Lemma at_next o vs m : at_word o vs m → 0 ≤ o + 4 < SIZEOF_PROCESS →
  ∃ m', add R0 R0 (Imm 4) m = Ret ((), m') ∧ at_word (o + 4) vs m' ∧
    ∀ r, r ≠ User R0 → regs m' r = regs m r.
Proof.
  intros [Hin Hs Hmap Hr0] Ho. pose proof (inside_mode md room m0 Hmode vs m Hin) as Hm.
  rewrite (add_reg_run md m Hm), (kernel_bank md Hmd), Hr0. cbn [value].
  rewrite <- Z.add_assoc, at_address by done. eexists. split; [reflexivity|]. split.
  - split; [|done|done|cbn; by rewrite fn_lookup_insert].
    replace (User R0) with (bank md R0) by (by rewrite (kernel_bank md Hmd)). by apply inside_reg.
  - intros r Hr. cbn. by rewrite fn_lookup_insert_ne by congruence.
Qed.

Lemma at_push o vs m r : at_word o vs m → r ∈ [R1; R2] → 4 * Z.of_nat (S (length vs)) ≤ room →
  ∃ m', push base [r] m = Ret ((), m') ∧ at_word o (regs m (User r) :: vs) m' ∧
    ∀ q, q ≠ Banked md SP → regs m' q = regs m q.
Proof.
  intros [Hin Hs Hmap Hr0] Hr Hl.
  destruct (inside_push base md Hmd room m0 Hmode Hstack vs m [r] Hin) as (m' & E & Hin' & Hs' & Hm' & Hrg);
    [cbn; lia|cbn; lia|].
  exists m'. split; [done|]. split; [|done]. split.
  - replace (User r) with (bank md r); [done|]. rewrite (kernel_bank md Hmd).
    rewrite !elem_of_cons, elem_of_nil in Hr. by destruct Hr as [->|[->|[]]].
  - by rewrite Hs'.
  - by rewrite Hm'.
  - by rewrite Hrg.
Qed.

Lemma resume_head m : at_word 0 [] m → ∃ m', (∀ k : MM (),
    bind (ldr base R1 R0 88) (λ _,
    bind (ldr base R2 R0 0) (λ _,
    bind (push base [R2]) (λ _,
    bind (add R0 R0 (Imm 4)) (λ _,
    bind (push base [R1]) (λ _,
    bind (ldr base R1 R0 0) (λ _,
    bind (add R0 R0 (Imm 4)) (λ _,
    bind (ldr base R2 R0 0) (λ _,
    bind (add R0 R0 (Imm 4)) (λ _,
    bind (GET_CPU_MODE R3) (λ _,
    bind (SET_CPU_MODE (Imm CPU_MODE_SYS)) (λ _,
    bind (mov LR (Reg R1)) (λ _,
    bind (mov SP (Reg R2)) (λ _,
    bind (SET_CPU_MODE (Reg R3)) (λ _,
    bind (ldr base R1 R0 0) (λ _,
    bind (add R0 R0 (Imm 4)) (λ _, k)))))))))))))))) m = k m') ∧
  at_word 16 [translation_table p; r0 (context p)] m' ∧
  regs m' (User LR) = lr_usr (context p) ∧ regs m' (User SP) = sp (context p) ∧
  regs m' (User R1) = spsr (context p).
Proof.
  intros H. unfold SIZEOF_PROCESS in *.
  destruct (at_ldr 0 [] m R1 88 _ H ltac:(set_solver) ltac:(done) eq_refl eq_refl) as (m1 & E1 & H1 & A1 & F1).
  destruct (at_ldr 0 [] m1 R2 0 _ H1 ltac:(set_solver) ltac:(done) eq_refl eq_refl) as (m2 & E2 & H2 & A2 & F2).
  destruct (at_push 0 [] m2 R2 H2 ltac:(set_solver) ltac:(cbn; lia)) as (m3 & E3 & H3 & F3).
  destruct (at_next 0 _ m3 H3 ltac:(done)) as (m4 & E4 & H4 & F4).
  destruct (at_push 4 _ m4 R1 H4 ltac:(set_solver) ltac:(cbn; lia)) as (m5 & E5 & H5 & F5).
  destruct (at_ldr 4 _ m5 R1 0 _ H5 ltac:(set_solver) ltac:(done) eq_refl eq_refl) as (m6 & E6 & H6 & A6 & F6).
  destruct (at_next 4 _ m6 H6 ltac:(done)) as (m7 & E7 & H7 & F7).
  destruct (at_ldr 8 _ m7 R2 0 _ H7 ltac:(set_solver) ltac:(done) eq_refl eq_refl) as (m8 & E8 & H8 & A8 & F8).
  destruct (at_next 8 _ m8 H8 ltac:(done)) as (m9 & E9 & H9 & F9).
  destruct (restore_user_bank _ m9 (at_inside _ _ _ H9)) as (m10 & E10 & I10 & S10 & M10 & L10 & P10 & R10).
  assert (at_word 12 [regs m4 (User R1); regs m2 (User R2)] m10) as H10.
  { destruct H9. split; [done|by rewrite S10|by rewrite M10|by rewrite R10]. }
  destruct (at_ldr 12 _ m10 R1 0 _ H10 ltac:(set_solver) ltac:(done) eq_refl eq_refl) as (m11 & E11 & H11 & A11 & F11).
  destruct (at_next 12 _ m11 H11 ltac:(done)) as (m12 & E12 & H12 & F12).
  rewrite F4, F3, F2, A1, A2 in H12 by done.
  exists m12. split; [|split; [exact H12|split_and!]].
  - intros k. rewrite (bind_Ret _ _ _ _ _ E1), (bind_Ret _ _ _ _ _ E2), (bind_Ret _ _ _ _ _ E3),
      (bind_Ret _ _ _ _ _ E4), (bind_Ret _ _ _ _ _ E5), (bind_Ret _ _ _ _ _ E6),
      (bind_Ret _ _ _ _ _ E7), (bind_Ret _ _ _ _ _ E8), (bind_Ret _ _ _ _ _ E9), E10.
    by rewrite (bind_Ret _ _ _ _ _ E11), (bind_Ret _ _ _ _ _ E12).
  - by rewrite F12, F11, L10, F9, F8, F7, A6 by done.
  - by rewrite F12, F11, P10, F9, A8 by done.
  - by rewrite F12, A11 by done.
Qed.

(** [ldmfd r0, {r1-r12, lr}] *)
Lemma at_ldmfd vs m : at_word 16 vs m → ∃ m', ldmfd base R0 (r1_r12 ++ [LR]) m = Ret ((), m') ∧
  inside vs m' ∧ sys m' = w ∧ regs m' (Banked md LR) = lr (context p) ∧
  regs m' (User SP) = regs m (User SP) ∧ regs m' (User LR) = regs m (User LR) ∧
  map (λ r, regs m' (User r)) r1_r12 = take 12 (drop 4 (context_words (context p))).
Proof.
  intros [Hin Hs Hmap Hr0]. pose proof (inside_mode md room m0 Hmode vs m Hin) as Hm.
  unfold ldmfd. rewrite (bind_Ret _ _ _ _ _ (reg_get_run md m Hm R0)), (kernel_bank md Hmd), Hr0.
  rewrite (load_multiple_any base md (r1_r12 ++ [LR]) (drop 4 (context_words (context p)))); [|done..|].
  2: { intros f k v Hk. rewrite <- Z.add_assoc. pose proof (lookup_lt_Some _ _ _ Hk) as Hlt.
       cbn in Hlt. unfold SIZEOF_PROCESS in *.
       eapply table_load_run; try done; [cbn; by rewrite Hs|unfold SIZEOF_PROCESS; lia|lia|].
       unfold process_word, OFFSETOF_TRANSLATION_TABLE. rewrite (proj2 (Z.eqb_neq _ _)) by lia.
       rewrite lookup_drop in Hk. rewrite <- Hk. f_equal. lia. }
  eexists. split; [reflexivity|].
  assert (∀ q, q ∈ r1_r12 ++ [LR] → bank md q ∈ Banked md LR :: map User r1_r12) as Hbank.
  { intros q Hq. rewrite (kernel_bank md Hmd). unfold r1_r12 in *. cbn in *. set_solver. }
  split_and!; [|exact Hs|..].
  - apply inside_regs; [done|]. intros md'. apply load_regs_other. intros q Hq E.
    apply Hbank in Hq. rewrite <- E in Hq. unfold r1_r12 in Hq. cbn in Hq. set_solver.
  - unfold r1_r12. cbn. rewrite !(kernel_bank md Hmd). apply fn_lookup_insert.
  - cbn [regs with_regs]. apply load_regs_other. intros q Hq E.
    apply Hbank in Hq. rewrite <- E in Hq. unfold r1_r12 in Hq. cbn in Hq. set_solver.
  - cbn [regs with_regs]. apply load_regs_other. intros q Hq E.
    apply Hbank in Hq. rewrite <- E in Hq. unfold r1_r12 in Hq. cbn in Hq. set_solver.
  - unfold r1_r12. cbn. rewrite !(kernel_bank md Hmd). repeat f_equal;
      repeat (rewrite fn_lookup_insert_ne by done); apply fn_lookup_insert.
Qed.

(** The program takes over, with the status that is in the saved status register. *)
Lemma resume_tail link m : at_word 16 [translation_table p; r0 (context p)] m → ∃ m',
  (let* _ := ldmfd base R0 (r1_r12 ++ [LR]) in
   let* _ := pop base [R0] in
   let* _ := push base [LR] in
   let* _ := bl link mmu_set_translation_table in
   let* _ := pop base [LR] in
   let* _ := pop base [R0] in
   movs_pc_lr) m = Ret ((), m') ∧
  (∃ m1, inside [] m1 ∧ sys m1 = w ∧ ttbr0 m1 = translation_table p ∧ tlb_stale m1 = false ∧
    m' = with_pc (branch_target (spsrs m0 md) (u32 (lr (context p)))) (with_cpsr (spsrs m0 md) m1) ∧
    regs m1 (User R0) = r0 (context p) ∧
    regs m1 (User SP) = regs m (User SP) ∧ regs m1 (User LR) = regs m (User LR) ∧
    map (λ r, regs m1 (User r)) r1_r12 = take 12 (drop 4 (context_words (context p)))).
Proof.
  intros H. destruct (at_ldmfd _ m H) as (m1 & E1 & H1 & S1 & L1 & P1 & R1' & A1).
  assert (∀ (r : reg) f v, r ∉ [R0] → load_regs md [R0] [v] f (User r) = f (User r)) as Hr0.
  { intros r f v Hr. cbn. rewrite (kernel_bank md Hmd), fn_lookup_insert_ne; [done|]. set_solver. }
  destruct (inside_pop base md Hmd room m0 Hmode Hstack [translation_table p] [r0 (context p)] m1 [R0] H1
    eq_refl ltac:(cbn; lia) ltac:(set_solver) ltac:(cbn; lia)) as (m2 & E2 & H2 & S2 & _ & _ & _ & F2).
  destruct (inside_push base md Hmd room m0 Hmode Hstack _ m2 [LR] H2 ltac:(cbn; lia) ltac:(cbn; lia))
    as (m3 & E3 & H3 & S3 & _ & F3). cbn [map app] in H3. rewrite (kernel_bank md Hmd) in H3.
  destruct (bl_set_table link _ m3 H3) as (m4 & E4 & H4 & S4 & T4 & B4 & F4).
  destruct (inside_pop base md Hmd room m0 Hmode Hstack [regs m2 (Banked md LR)] [r0 (context p)] m4 [LR] H4
    eq_refl ltac:(cbn; lia) ltac:(set_solver) ltac:(cbn; lia)) as (m5 & E5 & H5 & S5 & _ & T5 & B5 & F5).
  destruct (inside_pop base md Hmd room m0 Hmode Hstack [r0 (context p)] [] m5 [R0] H5
    eq_refl ltac:(cbn; lia) ltac:(set_solver) ltac:(cbn; lia)) as (m6 & E6 & H6 & S6 & _ & T6 & B6 & F6).
  assert (∀ r, r ∉ [R0] → regs m6 (User r) = regs m1 (User r)) as Hkeep.
  { intros r Hr. rewrite F6, Hr0 by done. rewrite F5 by done. cbn [load_regs].
    rewrite (kernel_bank md Hmd), fn_lookup_insert_ne by congruence.
    rewrite F4, F3, F2 by congruence. by apply Hr0. }
  eexists. split; [|exists m6; split_and!].
  - rewrite (bind_Ret _ _ _ _ _ E1), (bind_Ret _ _ _ _ _ E2), (bind_Ret _ _ _ _ _ E3),
      (bind_Ret _ _ _ _ _ E4), (bind_Ret _ _ _ _ _ E5), (bind_Ret _ _ _ _ _ E6).
    unfold movs_pc_lr. rewrite (subs_pc_lr_run md) by
      (done || (by destruct Hmd as [E|E]; rewrite E) || by eapply inside_mode). reflexivity.
  - done.
  - by rewrite S6, S5, S4, S3, S2.
  - rewrite T6, T5, T4, F3, F2 by done. cbn. rewrite (kernel_bank md Hmd). apply fn_lookup_insert.
  - by rewrite B6, B5.
  - rewrite (ins_spsr _ _ _ _ _ H6), Z.sub_0_r, (kernel_bank md Hmd).
    rewrite F6 by done. cbn. rewrite (kernel_bank md Hmd), fn_lookup_insert_ne by done.
    rewrite F5 by done. cbn. rewrite (kernel_bank md Hmd), fn_lookup_insert.
    rewrite F2 by done. cbn. rewrite (kernel_bank md Hmd), fn_lookup_insert_ne by done. by rewrite L1.
  - rewrite F6 by done. cbn. rewrite (kernel_bank md Hmd). apply fn_lookup_insert.
  - by rewrite Hkeep by set_solver.
  - by rewrite Hkeep by set_solver.
  - rewrite <- A1. apply map_ext_in. intros r Hr. apply Hkeep. unfold r1_r12 in Hr. cbn in Hr.
    set_solver.
Qed.
End resume.
End vectors.

(** The whole of [__scheduler_set_task_context]. *)
Section resume_run.
Context (base link : Z) (md : mode) (Hmd : md = Svc ∨ md = Irq).
Context (room : Z) (m0 : machine) (Hmode : in_mode md m0) (Hstack : stack_ready base md room m0).
Context (Hbase : base `mod` 4 = 0) (Hend : base + SIZEOF_PROCESS * SCHEDULER_MAX_TASK_COUNT ≤ 0x100000000).
Context (Hroom : 8 ≤ room).

Lemma resume_run w i p m : 0 ≤ i < SCHEDULER_MAX_TASK_COUNT →
  processes (sched w) !! Z.to_nat i = Some p →
  inside md room m0 [] m → sys m = w → kernel_mapped m = true →
  regs m (User R0) = process_address base i →
  ∃ m', __scheduler_set_task_context base link m = Ret ((), m') ∧ resumed md room m0 w p m'.
Proof.
  intros Hi Hp Hin Hs Hmap Hr0.
  assert (at_word base md room m0 w i 0 [] m) as H by (split; [done..|by rewrite Z.add_0_r]).
  destruct (resume_head base md Hmd room m0 Hmode Hstack w i p Hi Hp Hbase Hend Hroom m H)
    as (m1 & E1 & H1 & L1 & P1 & V1).
  pose proof (inside_mode md room m0 Hmode _ m1 (at_inside _ _ _ _ _ _ _ _ _ H1)) as Hm1.
  assert (has_spsr md = true) as Hsp by (destruct Hmd as [-> | ->]; done).
  assert (bank md R1 = User R1) as Hb by (by rewrite (kernel_bank md Hmd)).
  set (f := <[md := write_fields FIELDS_FC (spsr (context p)) (spsrs m0 md)]> (spsrs m0)).
  assert (msr_spsr R1 m1 = Ret ((), with_spsrs f m1)) as E2.
  { rewrite (msr_spsr_run md) by done. rewrite Hb, V1.
    by rewrite (ins_spsr _ _ _ _ _ (at_inside _ _ _ _ _ _ _ _ _ H1)). }
  assert (at_word base md room (with_spsrs f m0) w i 16 [translation_table p; r0 (context p)]
    (with_spsrs f m1)) as H2.
  { destruct H1 as [[] ? ? ?]. split; [by split|done..]. }
  destruct (resume_tail base md Hmd room (with_spsrs f m0) Hmode Hstack w i p Hi Hp Hbase Hend Hroom
    link _ H2) as (m' & E3 & m2 & [] & S & T & B & -> & A0 & AP & AL & A).
  eexists. split.
  { unfold __scheduler_set_task_context. rewrite E1. rewrite (bind_Ret _ _ _ _ _ E2). exact E3. }
  cbn [spsrs with_spsrs] in *. unfold f in *. rewrite fn_lookup_insert in *.
  split; try done.
  - unfold r1_r12 in A. cbn in A. injection A as Q1 Q2 Q3 Q4 Q5 Q6 Q7 Q8 Q9 Q10 Q11 Q12.
    unfold visible, user_context, taken_on. cbn [regs pc cpsr with_pc with_cpsr].
    rewrite A0, AP, AL, Q1, Q2, Q3, Q4, Q5, Q6, Q7, Q8, Q9, Q10, Q11, Q12.
    cbn [regs with_spsrs]. by rewrite L1, P1.
  - intros md'. destruct (decide (md' = md)) as [->|Hne]; [|by apply ins_banks0].
    change (top md m2 = top md m0). rewrite ins_sp0. cbn. unfold top. cbn. lia.
Qed.
End resume_run.

End ContextSwitch.
