(* ===== verification/VectorsSpec.v ===== *)
(** * The exception vectors keep their promise

    The assembly saves the registers of the interrupted program, calls what [Syscalls]
    says, and resumes the chosen process: the machine follows the model of the system, and
    its stacks are balanced. *)
From stdpp Require Import functions.
From S2P Require Import Prelude Bitfield Mmu Alloc Heap Hash Fs FsState Devices Ramfs Fat32 Vfs Elf Scheduler SchedulerInv SchedulerOps SchedulerSpec SchedulerReach Exec Syscalls SystemInv Kernel Cpu CpuSpec Vectors ContextSwitch.
Import Fs FsState Devices Vfs Scheduler SchedulerInv SchedulerOps SchedulerSpec SchedulerReach Exec SystemInv Kernel Cpu CpuSpec Vectors ContextSwitch.

Module VectorsSpec.

(** What the vectors save: after an interrupt, the link register is one instruction ahead;
    a system call leaves its third argument where its result will be. *)
Definition irq_context (m : machine) : task_context :=
  interrupted Irq (u32 (regs m (Banked Irq LR) - 4)) m.
Definition svc_context (m : machine) : task_context :=
  set_r0 (regs m (User R3)) (interrupted Svc (regs m (Banked Svc LR)) m).

(** ** The chosen process *)

(** It is the current one. *)
Lemma switch_chosen (w : system) i w' : wf w → scheduler_switch_task w = Ret (i, w') →
  wf w' ∧ 0 ≤ i < SCHEDULER_MAX_TASK_COUNT ∧ i = current_proc (sched w') ∧
  ∃ p, processes (sched w') !! Z.to_nat i = Some p ∧ running w' p.
Proof.
  intros H E. destruct (switch_running w i w' H E) as [H' [p Hp]].
  destruct (switch_run w H) as [(d & _ & _ & _ & E' & _)|[_ E']]; rewrite E' in E; [|done].
  injection E as <- <-. pose proof (wf_current _ H'). pose proof (wf_count _ H').
  pose proof Hp as [Hl _]. apply live_lookup in Hl as [Hl _].
  split; [done|]. split; [unfold SCHEDULER_MAX_TASK_COUNT; cbn in *; lia|].
  split; [done|]. exists p. by split.
Qed.

Lemma follows_tail {A A' B} (c : MM A) (k : A → MM A') m (o : outcome B) P Q :
  follows (c m) o P →
  (∀ b a m', o = Ret b → P b a m' → ∃ a' m'', k a m' = Ret (a', m'') ∧ Q b a' m'') →
  follows (bind c k m) o Q.
Proof.
  intros Hc Hk. destruct o as [b| | |]; cbn in *; [|unfold bind; by rewrite Hc..].
  destruct Hc as (a & m' & E & HP). rewrite (bind_Ret _ _ _ _ _ E). by apply Hk.
Qed.

Lemma save_run c (w : system) p : wf w → running w p →
  ∃ w', scheduler_save_current_context c w = Ret ((), w').
Proof.
  intros H [Hp Hst]. unfold scheduler_save_current_context. pose proof (wf_current w H).
  rewrite (bind_Ret _ _ _ _ _ (get_current_eq w H)).
  rewrite (upd_proc_live w _ p) by (done || lia). eauto.
Qed.

Section vectors.
Context (base link : Z) (leave : machine → leftovers) (depth : Z) (Hdepth : 0 ≤ depth).
Context (Hbase : base `mod` 4 = 0) (Hend : base + SIZEOF_PROCESS * SCHEDULER_MAX_TASK_COUNT ≤ 0x100000000).

(** ** The end of every vector *)

(** The next process is chosen and resumed. *)
Lemma switch_and_resume md room m0 m w : md = Svc ∨ md = Irq → in_mode md m0 →
  stack_ready base md room m0 → 8 ≤ room → depth ≤ room → wf w →
  inside md room m0 [] m → sys m = w → kernel_mapped m = true →
  follows ((let* _ := bl_scheduler_switch_task base link leave depth in
            __scheduler_set_task_context base link) m) (scheduler_switch_task w)
    (λ iw _ m', ∃ p, processes (sched iw.2) !! Z.to_nat iw.1 = Some p ∧ running iw.2 p ∧
       resumed md room m0 iw.2 p m').
Proof.
  intros Hmd Hmode Hstack Hroom Hd H Hin Hs Hmap. unfold bl_scheduler_switch_task.
  eapply follows_tail.
  { apply (bl_c_follows link leave depth md Hmd room m0 Hmode [] m); [done|done|cbn; lia|done|done]. }
  intros [i w'] a m1 E (Hin1 & Hs1 & Hmap1 & Hres). cbn [fst snd] in *.
  destruct (switch_chosen w i w' H E) as (_ & Hi & _ & p & Hp & Hrun).
  destruct (resume_run base link md Hmd room m0 Hmode Hstack Hbase Hend Hroom w' i p m1 Hi Hp Hin1 Hs1
    Hmap1 (Hres _ eq_refl)) as (m' & E' & Hr).
  exists (), m'. split; [done|]. by exists p.
Qed.

(** ** The timer's interrupt *)

(** The registers are on the stack, in the order of [task_context_t]. *)
Lemma irq_saved room m : in_mode Irq m → stack_ready base Irq room m → 68 ≤ room →
  ∃ m', (∀ k : MM (),
    bind (sub LR LR (Imm 4)) (λ _,
    bind (push base (r1_r12 ++ [LR])) (λ _,
    bind (mrs_spsr R1) (λ _,
    bind (push base [R1]) (λ _,
    bind (SET_CPU_MODE (Imm CPU_MODE_SYS)) (λ _,
    bind (mov R4 (Reg LR)) (λ _,
    bind (mov R5 (Reg SP)) (λ _,
    bind (SET_CPU_MODE (Imm CPU_MODE_IRQ)) (λ _,
    bind (push base [R4; R5]) (λ _,
    bind (push base [R0]) (λ _, k)))))))))) m = k m') ∧
  inside Irq room m (context_words (irq_context m)) m' ∧ sys m' = sys m.
Proof.
  intros Hm Hstack Hroom. assert (Irq = Svc ∨ Irq = Irq) as Hmd by auto.
  set (m1 := with_regs (<[Banked Irq LR := u32 (regs m (Banked Irq LR) - 4)]> (regs m)) m).
  assert (inside Irq room m [] m1) as H1.
  { apply (inside_reg Irq Hmd room m [] m LR); [apply inside_start|done]. }
  destruct (inside_push base Irq Hmd room m Hm Hstack [] m1 (r1_r12 ++ [LR]) H1) as (m2 & E2 & H2 & S2 & _ & F2);
    [cbn; lia|cbn; lia|].
  set (m3 := with_regs (<[User R1 := spsrs m2 Irq]> (regs m2)) m2).
  pose proof (inside_reg Irq Hmd room m _ m2 R1 (spsrs m2 Irq) H2 ltac:(done)) as H3.
  change (with_regs _ m2) with m3 in H3.
  destruct (inside_push base Irq Hmd room m Hm Hstack _ m3 [R1] H3) as (m4 & E4 & H4 & S4 & _ & F4);
    [cbn; lia|cbn; lia|].
  destruct (save_user_bank base Irq Hmd room m Hm Hstack _ m4 H4) as (m5 & E5 & H5 & S5 & L5 & P5 & F5).
  destruct (inside_push base Irq Hmd room m Hm Hstack _ m5 [R4; R5] H5) as (m6 & E6 & H6 & S6 & _ & F6);
    [cbn; lia|cbn; lia|].
  destruct (inside_push base Irq Hmd room m Hm Hstack _ m6 [R0] H6) as (m7 & E7 & H7 & S7 & _ & F7);
    [cbn; lia|cbn; lia|].
  exists m7. split; [|split].
  - intros k. rewrite (bind_Ret _ _ _ _ _ (sub_run Irq m Hm LR LR (Imm 4))).
    change (with_regs _ m) with m1. rewrite (bind_Ret _ _ _ _ _ E2).
    rewrite (bind_Ret _ _ _ _ _ (mrs_spsr_run Irq m2 (inside_mode _ _ _ Hm _ _ H2) eq_refl R1)).
    change (with_regs _ m2) with m3. rewrite (bind_Ret _ _ _ _ _ E4).
    change (Imm CPU_MODE_IRQ) with (Imm (mode_bits Irq)). rewrite E5.
    by rewrite (bind_Ret _ _ _ _ _ E6), (bind_Ret _ _ _ _ _ E7).
  - replace (context_words _) with (map (λ r, regs m6 (bank Irq r)) [R0] ++
      map (λ r, regs m5 (bank Irq r)) [R4; R5] ++ map (λ r, regs m3 (bank Irq r)) [R1] ++
      map (λ r, regs m1 (bank Irq r)) (r1_r12 ++ [LR]) ++ []); [done|].
    cbn -[m1 m3]. rewrite L5, P5, F6, F5, F4 by set_solver.
    unfold m3. cbn [regs with_regs]. rewrite fn_lookup_insert, !fn_lookup_insert_ne by done.
    rewrite !F4 by done. unfold m3. cbn [regs with_regs]. rewrite !fn_lookup_insert_ne by done.
    rewrite !F2 by done. rewrite (ins_spsr _ _ _ _ _ H2). unfold m1. cbn [regs with_regs].
    rewrite fn_lookup_insert, !fn_lookup_insert_ne by done. reflexivity.
  - rewrite S7, S6, S5, S4. change (sys m3) with (sys m2). by rewrite S2.
Qed.

(** The saved registers become the context of the running process. *)
Lemma saved_context md room m0 m vs c p : md = Svc ∨ md = Irq → in_mode md m0 →
  stack_ready base md room m0 → 4 * Z.of_nat (length vs) + depth ≤ room →
  wf (sys m) → running (sys m) p →
  inside md room m0 vs m → kernel_mapped m = true →
  plain base (regs m (User R0)) 17 → words_at (mem m) (regs m (User R0)) (context_words c) →
  ∃ m', bl_scheduler_save_current_context base link leave depth m = Ret ((), m') ∧
    inside md room m0 vs m' ∧ kernel_mapped m' = true ∧
    scheduler_save_current_context c (sys m) = Ret ((), sys m') ∧
    wf (sys m') ∧ running (sys m') (with_context c p) ∧ id_gen (sched (sys m')) = id_gen (sched (sys m)).
Proof.
  intros Hmd Hmode Hstack Hroom H Hp Hin Hmap Hpl Hw.
  unfold bl_scheduler_save_current_context.
  rewrite (bind_Ret _ _ _ _ _ (reg_get_run md m (inside_mode md room m0 Hmode _ _ Hin) R0)).
  rewrite (kernel_bank md Hmd).
  rewrite (bind_Ret _ _ _ _ _ (load_context_run base c _ m Hpl Hw)).
  pose proof (bl_c_follows link leave depth md Hmd room m0 Hmode vs m no_result
    (scheduler_save_current_context c) (sys m) Hin Hdepth Hroom Hmap eq_refl) as Hf.
  destruct (save_run c (sys m) p H Hp) as [w' E]. rewrite E in Hf.
  destruct Hf as ([] & m' & E' & Hin' & Hs' & Hmap' & _). cbn in Hs'. rewrite <- Hs' in E.
  destruct (save_running c (sys m) p _ H Hp E) as (H' & Hp' & Hg).
  exists m'. split_and!; done.
Qed.

(** The timer's interrupt: the vector saves the registers of the program it interrupts as
    the context that the scheduler's model is given, does what the model does, and ends
    with the chosen process on the processor: all its registers, its status, its translation
    table.  The stacks of all modes are as before. *)
Lemma irq_follows room m : in_mode Irq m → stack_ready base Irq room m → 68 + depth ≤ room →
  sys_inv (sys m) →
  follows (Vectors._irq_handler base link leave depth m)
    (Syscalls._irq_handler (irq_context m) (sys m))
    (λ iw _ m', ∃ p, processes (sched iw.2) !! Z.to_nat iw.1 = Some p ∧ running iw.2 p ∧
       resumed Irq room m iw.2 p m').
Proof.
  intros Hm Hstack Hroom [H [p0 Hp0]]. assert (Irq = Svc ∨ Irq = Irq) as Hmd by auto.
  destruct (irq_saved room m Hm Hstack ltac:(lia)) as (m1 & E1 & H1 & S1).
  destruct (restore_table_run base Irq Hmd room m Hm Hstack link leave depth _ m1 H1 Hdepth
    ltac:(cbn; lia)) as (m2 & E2 & H2 & S2 & M2 & _).
  set (m3 := with_regs (<[User R0 := regs m2 (Banked Irq SP)]> (regs m2)) m2).
  pose proof (inside_reg Irq Hmd room m _ m2 R0 (regs m2 (Banked Irq SP)) H2 ltac:(done)) as H3.
  change (with_regs _ m2) with m3 in H3. destruct Hstack as (Hal & Hlo & Hhi & Hb).
  destruct (saved_context Irq room m m3 (context_words (irq_context m)) (irq_context m) p0
    Hmd Hm) as
    (m4 & E4 & H4 & M4 & Es & Hwf4 & Hrun4 & _); [done|cbn; lia| | |exact H3|exact M2| | |].
  { cbn. by rewrite S2, S1. }
  { cbn. by rewrite S2, S1. }
  { cbn. rewrite fn_lookup_insert. fold (top Irq m2). rewrite (ins_sp _ _ _ _ _ H2). unfold plain. cbn. lia. }
  { cbn. rewrite fn_lookup_insert. fold (top Irq m2). rewrite (ins_sp _ _ _ _ _ H2). apply H2. }
  destruct (inside_free base Irq Hmd room m Hm ltac:(done) (context_words (irq_context m)) [] m4 68)
    as (m5 & E5 & H5 & S5 & M5); [by rewrite app_nil_r|done|cbn; lia|].
  pose proof (bl_c_follows link leave depth Irq Hmd room m Hm [] m5 no_result (ret ()) (sys m5) H5
    Hdepth ltac:(cbn; lia) ltac:(by rewrite M5) eq_refl) as ([] & m6 & E6 & H6 & S6 & M6 & _).
  cbn [snd] in S6. unfold Syscalls._irq_handler, Vectors._irq_handler.
  change (sys m3) with (sys m2) in Es. rewrite S2, S1 in Es. rewrite (bind_Ret _ _ _ _ _ Es).
  rewrite E1, (bind_Ret _ _ _ _ _ E2).
  rewrite (bind_Ret _ _ _ _ _ (mov_run Irq m2 (inside_mode _ _ _ Hm _ _ H2) R0 (Reg SP))).
  change (with_regs _ m2) with m3. rewrite (bind_Ret _ _ _ _ _ E4), (bind_Ret _ _ _ _ _ E5).
  unfold bl_irq_handler. rewrite (bind_Ret _ _ _ _ _ E6).
  apply switch_and_resume; try done; try lia. by rewrite S6, S5.
Qed.

(** ** System calls *)

Lemma svc_saved room m : in_mode Svc m → stack_ready base Svc room m → 80 ≤ room →
  ∃ m', (∀ k : MM (),
    bind (push base (r1_r12 ++ [LR])) (λ _,
    bind (mrs_spsr R4) (λ _,
    bind (push base [R4]) (λ _,
    bind (SET_CPU_MODE (Imm CPU_MODE_SYS)) (λ _,
    bind (mov R4 (Reg LR)) (λ _,
    bind (mov R5 (Reg SP)) (λ _,
    bind (SET_CPU_MODE (Imm CPU_MODE_SVC)) (λ _,
    bind (push base [R4; R5]) (λ _,
    bind (push base [R0; R1; R2; R3]) (λ _, k))))))))) m = k m') ∧
  inside Svc room m (map (λ r, regs m (User r)) [R0; R1; R2] ++ context_words (svc_context m)) m' ∧
  sys m' = sys m.
Proof.
  intros Hm Hstack Hroom. assert (Svc = Svc ∨ Svc = Irq) as Hmd by auto.
  destruct (inside_push base Svc Hmd room m Hm Hstack [] m (r1_r12 ++ [LR]) (inside_start _ _ _))
    as (m2 & E2 & H2 & S2 & _ & F2); [cbn; lia|cbn; lia|].
  set (m3 := with_regs (<[User R4 := spsrs m2 Svc]> (regs m2)) m2).
  pose proof (inside_reg Svc Hmd room m _ m2 R4 (spsrs m2 Svc) H2 ltac:(done)) as H3.
  change (with_regs _ m2) with m3 in H3.
  destruct (inside_push base Svc Hmd room m Hm Hstack _ m3 [R4] H3) as (m4 & E4 & H4 & S4 & _ & F4);
    [cbn; lia|cbn; lia|].
  destruct (save_user_bank base Svc Hmd room m Hm Hstack _ m4 H4) as (m5 & E5 & H5 & S5 & L5 & P5 & F5).
  destruct (inside_push base Svc Hmd room m Hm Hstack _ m5 [R4; R5] H5) as (m6 & E6 & H6 & S6 & _ & F6);
    [cbn; lia|cbn; lia|].
  destruct (inside_push base Svc Hmd room m Hm Hstack _ m6 [R0; R1; R2; R3] H6)
    as (m7 & E7 & H7 & S7 & _ & F7); [cbn; lia|cbn; lia|].
  exists m7. split; [|split].
  - intros k. rewrite (bind_Ret _ _ _ _ _ E2).
    rewrite (bind_Ret _ _ _ _ _ (mrs_spsr_run Svc m2 (inside_mode _ _ _ Hm _ _ H2) eq_refl R4)).
    change (with_regs _ m2) with m3. rewrite (bind_Ret _ _ _ _ _ E4).
    change (Imm CPU_MODE_SVC) with (Imm (mode_bits Svc)). rewrite E5.
    by rewrite (bind_Ret _ _ _ _ _ E6), (bind_Ret _ _ _ _ _ E7).
  - replace (map _ [R0; R1; R2] ++ context_words _) with (map (λ r, regs m6 (bank Svc r)) [R0; R1; R2; R3] ++
      map (λ r, regs m5 (bank Svc r)) [R4; R5] ++ map (λ r, regs m3 (bank Svc r)) [R4] ++
      map (λ r, regs m (bank Svc r)) (r1_r12 ++ [LR]) ++ []); [done|].
    cbn -[m3]. rewrite L5, P5, !F6, !F5, !F4 by set_solver.
    unfold m3. cbn [regs with_regs]. rewrite fn_lookup_insert, !fn_lookup_insert_ne by done.
    rewrite !F2 by done. rewrite (ins_spsr _ _ _ _ _ H2). reflexivity.
  - rewrite S7, S6, S5, S4. change (sys m3) with (sys m2). by rewrite S2.
Qed.

(** Popping the number and the arguments of the call. *)
Lemma arguments_back room m m1 x0 x1 x2 x3 vs : in_mode Svc m → stack_ready base Svc room m →
  inside Svc room m ([x0; x1; x2; x3] ++ vs) m1 → 16 + 4 * Z.of_nat (length vs) ≤ room →
  ∃ m', pop base [R0; R1; R2; R3] m1 = Ret ((), m') ∧ inside Svc room m vs m' ∧ sys m' = sys m1 ∧
    kernel_mapped m' = kernel_mapped m1 ∧
    regs m' (User R0) = x0 ∧ regs m' (User R1) = x1 ∧ regs m' (User R2) = x2 ∧ regs m' (User R3) = x3.
Proof.
  intros Hm Hstack H Hroom. assert (Svc = Svc ∨ Svc = Irq) as Hmd by auto.
  destruct (inside_pop base Svc Hmd room m Hm Hstack _ _ m1 [R0; R1; R2; R3] H eq_refl)
    as (m' & E & H' & S & M & _ & _ & F); [cbn; lia|set_solver|cbn; lia|].
  exists m'. rewrite !F by done. by split_and!.
Qed.

(** A system call: the vector saves the registers of the calling program, runs the handler
    of the number in r0 with the arguments in r1 to r3, and ends with the chosen process on
    the processor - the caller with its result, or another - with its registers, status and
    translation table.  The stacks of all modes are as before. *)
Lemma svc_follows room m : in_mode Svc m → stack_ready base Svc room m → 80 + depth ≤ room →
  sys_inv (sys m) → call_ok (sys m) (regs m (User R0)) (regs m (User R2)) →
  follows (Vectors._svc_handler base link leave depth m)
    (Syscalls._svc_handler (svc_context m)
       (regs m (User R0)) (regs m (User R1)) (regs m (User R2)) (regs m (User R3)) (sys m))
    (λ iw _ m', ∃ p, processes (sched iw.2) !! Z.to_nat iw.1 = Some p ∧ running iw.2 p ∧
       resumed Svc room m iw.2 p m').
Proof.
  intros Hm Hstack Hroom [H [p0 Hp0]] [Hfork Hwait]. assert (Svc = Svc ∨ Svc = Irq) as Hmd by auto.
  destruct (svc_saved room m Hm Hstack ltac:(lia)) as (m1 & E1 & H1 & S1).
  destruct (restore_table_run base Svc Hmd room m Hm Hstack link leave depth _ m1 H1 Hdepth
    ltac:(cbn; lia)) as (m2 & E2 & H2 & S2 & M2 & _).
  set (m3 := with_regs (<[User R0 := regs m2 (Banked Svc SP)]> (regs m2)) m2).
  pose proof (inside_reg Svc Hmd room m _ m2 R0 (regs m2 (Banked Svc SP)) H2 ltac:(done)) as H3.
  change (with_regs _ m2) with m3 in H3.
  set (m4 := with_regs (<[User R0 := u32 (regs m3 (User R0) + 12)]> (regs m3)) m3).
  pose proof (inside_reg Svc Hmd room m _ m3 R0 (u32 (regs m3 (User R0) + 12)) H3 ltac:(done)) as H4.
  change (with_regs _ m3) with m4 in H4.
  assert (regs m4 (User R0) = top Svc m - 4 * 17) as Hr0.
  { destruct Hstack as (Hal & Hlo & Hhi & Hb). unfold m4, m3. cbn. rewrite !fn_lookup_insert.
    fold (top Svc m2). rewrite (ins_sp _ _ _ _ _ H2). cbn. rewrite u32_small; lia. }
  destruct (saved_context Svc room m m4 (map (λ r, regs m (User r)) [R0; R1; R2] ++
    context_words (svc_context m)) (svc_context m) p0 Hmd Hm Hstack ltac:(cbn; lia)
    ltac:(cbn; by rewrite S2, S1) ltac:(cbn; by rewrite S2, S1) H4 M2) as
    (m5 & E5 & H5 & M5 & Es & Hwf5 & Hrun5 & Hgen).
  { rewrite Hr0. destruct Hstack as (Hal & Hlo & Hhi & Hb). unfold plain. lia. }
  { rewrite Hr0. pose proof (ins_words _ _ _ _ _ H4) as Hw. apply words_at_app in Hw as [_ Hw].
    replace (top Svc m - 4 * 17) with (top Svc m - 4 * Z.of_nat (length (map (λ r, regs m (User r))
      [R0; R1; R2] ++ context_words (svc_context m))) + 4 * Z.of_nat (length (map (λ r, regs m (User r))
      [R0; R1; R2]))) by (cbn; lia). exact Hw. }
  change (sys m4) with (sys m2) in *. rewrite S2, S1 in *.
  destruct (arguments_back room m m5 _ _ _ _ _ Hm Hstack H5 ltac:(cbn; lia)) as
    (m6 & E6 & H6 & S6 & M6 & A0 & A1 & A2 & A3).
  unfold Syscalls._svc_handler, Vectors._svc_handler. rewrite (bind_Ret _ _ _ _ _ Es).
  rewrite E1, (bind_Ret _ _ _ _ _ E2).
  rewrite (bind_Ret _ _ _ _ _ (mov_run Svc m2 (inside_mode _ _ _ Hm _ _ H2) R0 (Reg SP))).
  change (with_regs _ m2) with m3.
  rewrite (bind_Ret _ _ _ _ _ (add_reg_run Svc m3 (inside_mode _ _ _ Hm _ _ H3) R0 R0 (Imm 12))).
  change (with_regs _ m3) with m4.
  rewrite (bind_Ret _ _ _ _ _ E5), (bind_Ret _ _ _ _ _ E6).
  eapply follows_bind.
  { unfold bl_kernel_syscall_handler. pose proof (inside_mode _ _ _ Hm _ _ H6) as Hm6.
    do 4 rewrite (bind_Ret _ _ _ _ _ (reg_get_run Svc m6 Hm6 _)). cbn [bank].
    rewrite A0, A1, A2, A3.
    apply (bl_c_follows link leave depth Svc Hmd room m Hm (drop 1 (context_words (svc_context m))) m6);
      [exact H6|done|cbn; lia| |].
    - by rewrite M6.
    - by rewrite S6. }
  intros [] w' a m7 Ew (H7 & S7 & M7 & _). cbn [fst snd] in *.
  destruct (inside_free base Svc Hmd room m Hm Hstack (drop 1 (context_words (svc_context m))) [] m7 64)
    as (m8 & E8 & H8 & S8 & M8); [exact H7|done|cbn; lia|].
  rewrite (bind_Ret _ _ _ _ _ E8).
  apply switch_and_resume; try done; try lia.
  - eapply (syscall_wf (sys m5)); [done|exact Hrun5| |exact Ew]. split; [by rewrite Hgen|done].
  - by rewrite S8.
  - by rewrite M8.
Qed.

(** ** Memory faults *)

(** A memory fault: the vector leaves the mode of aborts for the kernel's, hands the status of
    the faulting program to the model - which ends the process, or stops the machine when
    the kernel was at fault - and ends with the next process on the processor. *)
Lemma abort_follows room m : in_mode Abt m → stack_ready base Svc room m → 8 + depth ≤ room →
  sys_inv (sys m) →
  follows (Vectors._data_abort base link leave depth m)
    (Syscalls._data_abort (spsrs m Abt) (sys m))
    (λ iw _ m', ∃ p, processes (sched iw.2) !! Z.to_nat iw.1 = Some p ∧ running iw.2 p ∧
       resumed Svc room m iw.2 p m').
Proof.
  intros Hm Hstack Hroom [H [p0 Hp0]]. assert (Svc = Svc ∨ Svc = Irq) as Hmd by auto.
  set (m1 := with_regs (<[User R0 := spsrs m Abt]> (regs m)) m).
  destruct (SET_CPU_MODE_run Abt Svc m1 (Imm CPU_MODE_SVC) Hm ltac:(done) ltac:(done) eq_refl)
    as (f & E1 & Hf). cbn [bank] in Hf.
  set (m2 := with_cpsr _ (with_regs f m1)) in E1.
  assert (in_mode Svc m2) as Hm2 by apply (mode_of_set Svc).
  assert (∀ md, top md m2 = top md m) as Htop.
  { intros md. unfold top. cbn. rewrite Hf by done. cbn. by rewrite fn_lookup_insert_ne. }
  assert (stack_ready base Svc room m2) as Hstack2 by (unfold stack_ready; by rewrite Htop).
  destruct (inside_push base Svc Hmd room m2 Hm2 Hstack2 [] m2 [R0] (inside_start _ _ _))
    as (m3 & E3 & H3 & S3 & _ & F3); [cbn; lia|cbn; lia|]. cbn in H3.
  destruct (restore_table_run base Svc Hmd room m2 Hm2 Hstack2 link leave depth _ m3 H3 Hdepth
    ltac:(cbn; lia)) as (m4 & E4 & H4 & S4 & M4 & _).
  destruct (inside_pop base Svc Hmd room m2 Hm2 Hstack2 [regs m2 (User R0)] [] m4 [R0] H4 eq_refl)
    as (m5 & E5 & H5 & S5 & M5 & _ & _ & F5); [cbn; lia|set_solver|cbn; lia|].
  unfold Vectors._data_abort, Syscalls._data_abort.
  rewrite (bind_Ret _ _ _ _ _ (mrs_spsr_run Abt m Hm eq_refl R0)).
  change (with_regs _ m) with m1. rewrite (bind_Ret _ _ _ _ _ E1), (bind_Ret _ _ _ _ _ E3),
    (bind_Ret _ _ _ _ _ E4), (bind_Ret _ _ _ _ _ E5).
  eapply follows_bind.
  { unfold bl_scheduler_data_exception.
    rewrite (bind_Ret _ _ _ _ _ (reg_get_run Svc m5 (inside_mode _ _ _ Hm2 _ _ H5) R0)). cbn [bank].
    replace (regs m5 (User R0)) with (spsrs m Abt).
    2: { rewrite F5 by done. cbn. rewrite fn_lookup_insert, Hf by done. cbn. by rewrite fn_lookup_insert. }
    apply (bl_c_follows link leave depth Svc Hmd room m2 Hm2 [] m5); [exact H5|done|cbn; lia| |].
    - by rewrite M5.
    - rewrite S5, S4, S3. reflexivity. }
  intros [] w' a m6 Ew (H6 & S6 & M6 & _). cbn [fst snd] in *.
  eapply follows_mono; [apply (switch_and_resume Svc room m2 m6 w'); try done; try lia|].
  - unfold scheduler_data_exception in Ew. destruct (_ =? _); [|done]. by eapply wf_exit_step.
  - intros [i w] [] m' _ (p & Hp & Hrun & []). exists p. split; [done|]. split; [done|].
    rewrite (Htop Svc) in res_mem0. split; try done. intros md. by rewrite res_tops0.
Qed.
End vectors.
End VectorsSpec.
