(* ===== verification/Privilege.v ===== *)
(** * Programs run unprivileged

    The status that the kernel keeps of a live process is one of user mode: no system call,
    interrupt or fault makes it another. *)
From S2P Require Import Prelude Bitfield Mmu Alloc Heap Hash Fs FsState Devices Ramfs Fat32 Vfs Elf Keeps Scheduler SchedulerInv SchedulerOps SchedulerFork SchedulerSpec SchedulerReach Exec Syscalls SystemInv.
Import Fs FsState Devices Vfs Elf Keeps Scheduler SchedulerInv SchedulerOps SchedulerFork
  SchedulerSpec SchedulerReach Exec Syscalls SystemInv.

Module Privilege.

Implicit Types (w : system) (p : process).

(** The mode field of a status is user mode. *)
Definition user_status (psr : Z) : Prop := Z.land psr CPU_CPSR_MODE_MASK = CPU_CPSR_MODE_USER.

Definition user_proc p : Prop := alive p = true → user_status (spsr (context p)).
Definition users w : Prop := Forall user_proc (live (sched w)).

(** The invariant does not depend on anything else. *)
Definition users_kept w w' : Prop := users w → users w'.

#[export] Instance users_kept_preorder : PreOrder users_kept.
Proof. split; repeat intro; auto. Qed.

Lemma users_quiet {A} (m : MS A) : keeps quiet m → keeps users_kept m.
Proof. intros H w a w' E. apply H in E. unfold users_kept, users. by rewrite (quiet_sched _ _ E). Qed.
#[export] Hint Extern 2 (keeps users_kept _) => apply users_quiet; solve [eauto 3 with keeps] : keeps.

Lemma users_put w i p : users w → user_proc p → users (put_proc i p w).
Proof. intros H Hp. unfold users. rewrite put_live. by apply Forall_insert. Qed.

Lemma users_upd i f : (∀ p, user_proc p → user_proc (f p)) → keeps users_kept (upd_proc i f).
Proof.
  intros Hf w a w' E H. unfold upd_proc in E. apply bind_inv in E as (p & w1 & E1 & E).
  unfold get_proc in E1. apply lift_Ret in E1 as [[Hi Hp]%arr_get_Ret ->].
  unfold set_proc in E. apply obind_inv in E as (ps & E1 & E). injection E as _ <-.
  apply arr_set_inv in E1 as [_ ->]. change (users (put_proc i (f p) w)).
  unfold users. rewrite put_live. destruct (decide (Z.to_nat i < length (live (sched w)))%nat).
  - apply Forall_insert; [done|]. apply Hf.
    apply (Forall_lookup_1 _ _ (Z.to_nat i) _ H). unfold live in *. rewrite length_take in *.
    rewrite lookup_take_lt by lia. done.
  - by rewrite list_insert_ge by lia.
Qed.

Lemma users_context i c : user_status (spsr c) → keeps users_kept (upd_proc i (with_context c)).
Proof. intros Hc. apply users_upd. by intros p _ _. Qed.

Lemma users_files i fs bf : keeps users_kept (upd_proc i (λ p, with_files fs (bf p) p)).
Proof. apply users_upd. by intros p. Qed.
Lemma users_files' i bf : keeps users_kept (upd_proc i (λ p, with_files (files p) bf p)).
Proof. apply users_upd. by intros p. Qed.
Lemma users_result i v : keeps users_kept (upd_proc i (λ p, with_context (set_r0 v (context p)) p)).
Proof. apply users_upd. by intros p. Qed.
#[export] Hint Resolve users_files users_files' users_result : keeps.

Lemma users_fd_count (m : M vstate ()) : keeps users_kept (zoom m : MS ()).
Proof.
  intros w a w' E. unfold zoom in E. destruct (m _) as [[? ?]| | |]; inv_run. by intros H.
Qed.
#[export] Hint Resolve users_fd_count : keeps.

(** ** Every system call *)

Lemma users_add_fd f : keeps users_kept (scheduler_cur_proc_add_fd f).
Proof. unfold scheduler_cur_proc_add_fd, _proc_add_fd. keeps. Qed.
Lemma users_rem_fd fd : keeps users_kept (scheduler_cur_proc_rem_fd fd).
Proof.
  unfold scheduler_cur_proc_rem_fd, _proc_rem_fd. keeps.
  apply keeps_id; [apply _|]. intros w x w1 E. destruct (fd_count _ _); inv_run; done.
Qed.
Lemma users_set_status st : keeps users_kept (scheduler_cur_proc_set_syscall_status st).
Proof. unfold scheduler_cur_proc_set_syscall_status. keeps. Qed.
#[export] Hint Resolve users_add_fd users_rem_fd users_set_status : keeps.

Lemma users_init_context i a b c : keeps users_kept (upd_proc i (with_context (_proc_context_init a b c))).
Proof. by apply users_context. Qed.
#[export] Hint Resolve users_init_context : keeps.

Lemma users_load i path args : keeps users_kept (__load_proc_from_elf i path args).
Proof. unfold __load_proc_from_elf. keeps. Qed.
#[export] Hint Resolve users_load : keeps.

Lemma users_exec path args : keeps users_kept (scheduler_cur_proc_exec path args).
Proof. unfold scheduler_cur_proc_exec. keeps. Qed.
#[export] Hint Resolve users_exec : keeps.

Lemma users_fork w p r w' : wf w → running w p → id_gen (sched w) + 1 < 0x80000000 →
  scheduler_cur_proc_fork w = Ret (r, w') → users_kept w w'.
Proof.
  intros H Hp Hgen E Hu. pose proof (wf_count w H).
  destruct (Z.eq_dec (proc_count (sched w)) 32) as [Hfull|].
  - unfold scheduler_cur_proc_fork in E. erewrite bind_Ret in E by done.
    rewrite Hfull in E. simpl in E. by inv_run.
  - destruct (fork_inv w p r w' H Hp ltac:(lia) Hgen E) as (_ & tab & sec & fl & Hl & _).
    unfold users. rewrite Hl. apply Forall_app. split; [done|]. apply Forall_singleton.
    intros _. destruct Hp as [Hp Hst]. apply (Forall_lookup_1 _ _ _ _ Hu Hp).
    unfold alive. by rewrite Hst.
Qed.

Lemma users_exited status k p l : Forall user_proc l → Forall user_proc (exited_table status k p l).
Proof.
  intros H. apply Forall_lookup_2. intros j x Hx. apply exited_lookup in Hx as (y & -> & Hy).
  unfold user_proc. rewrite alive_reparent. destruct (reparent_fields (id p) y) as (_ & _ & _ & _ & -> & _).
  destruct Hy as [[_ ->]|[_ Hy]]; [done|]. exact (Forall_lookup_1 _ _ _ _ H Hy).
Qed.

Lemma users_woken pid p : alive p = true → user_proc p → user_proc (woken pid p).
Proof. intros Ha H _. by apply H. Qed.

Lemma users_exit w p status w' : wf w → running w p →
  scheduler_cur_proc_exit status w = Ret ((), w') → users_kept w w'.
Proof.
  intros H Hp E Hu. destruct (Z.eq_dec (id p) INIT_PROC_ID) as [Hid|Hid].
  { unfold scheduler_cur_proc_exit in E. rewrite (bind_Ret _ _ _ _ _ (get_current_eq w H)) in E.
    pose proof (wf_current w H). destruct Hp as [Hp _].
    erewrite bind_Ret in E by (apply get_proc_live; [lia|exact Hp]). by rewrite Hid in E. }
  destruct (exit_prefix w p status H Hp Hid)
    as (s & t & w2 & _ & Hrun & Hwf & _ & _ & _ & _ & Ec & En & Hlive).
  destruct (running_parent w p H Hp Hid) as (j & q & Hq & Hqid & Hqa & Hjk & Hlt).
  pose proof (wf_current w H). destruct Hp as [Hp _].
  assert (users w2) as Hu2 by (unfold users; rewrite Hlive; by apply users_exited).
  destruct (exit_reschedule_spec w2 (current_proc (sched w)) status
    (Z.to_nat (current_proc (sched w))) j (reparent (id p) (zombie status p))
    (reparent (id p) q)) as (w3 & Hrun' & _ & _ & _ & _ & Hcase); try done; try lia.
  - rewrite Hlive. unfold exited_table. by rewrite list_lookup_fmap, list_lookup_insert_eq
      by (by eapply lookup_lt_Some).
  - by rewrite alive_reparent.
  - rewrite Hlive. apply exited_lookup_ne; [lia|done].
  - rewrite (proj1 (reparent_fields _ _)). unfold reparent. simpl.
    destruct (Z.eqb_spec (parent_id p) (id p)); [lia|done].
  - rewrite Hrun, Hrun' in E. injection E as <-.
    assert (user_proc (reparent (id p) q)) as Hq'.
    { apply (Forall_lookup_1 _ _ j _ Hu2). rewrite Hlive. apply exited_lookup_ne; [lia|exact Hq]. }
    destruct (schedule_state (reparent (id p) q)) as [|wpid ref|]; [by subst|..|by subst].
    destruct (_ =? _); [|by subst]. destruct Hcase as [Hl _]. unfold users. rewrite Hl.
    apply Forall_delete, Forall_insert; [done|]. apply users_woken; [by rewrite alive_reparent|done].
Qed.

Lemma user_alive p : alive p = true → user_proc p → user_status (spsr (context p)).
Proof. intros Ha H. by apply H. Qed.

Lemma running_user w p : users w → running w p → user_status (spsr (context p)).
Proof.
  intros H [Hp Hst]. apply user_alive; [unfold alive; by rewrite Hst|].
  exact (Forall_lookup_1 _ _ _ _ H Hp).
Qed.

Lemma users_wait w p pid ref r w' : wf w → running w p → own_word p ref →
  scheduler_cur_proc_wait_id pid ref w = Ret (r, w') → users_kept w w'.
Proof.
  intros H Hrun Href E Hu. pose proof Hrun as [Hp Hst]. pose proof (wf_current w H) as Hc.
  unfold scheduler_cur_proc_wait_id in E. rewrite (bind_Ret _ _ _ _ _ (get_current_eq w H)) in E.
  destruct (Z.eqb_spec pid (-1)) as [|Hpid]; [by inv_run|].
  destruct (find_proc_spec w pid H) as ([j|] & Hfind & Hr); rewrite (bind_Ret _ _ _ _ _ Hfind) in E;
    [|by inv_run].
  destruct Hr as (Hj & c & Hlive & <-).
  destruct (schedule_state c) as [| |st] eqn:Hcst.
  3: { destruct (wait_reap w p (Z.to_nat j) c st ref H Hrun Href Hlive Hpid Hcst) as (m & E' & Hwf & _).
       unfold scheduler_cur_proc_wait_id in E'. rewrite (bind_Ret _ _ _ _ _ (get_current_eq w H)) in E'.
       rewrite (proj2 (Z.eqb_neq (id c) (-1)) Hpid), (bind_Ret _ _ _ _ _ Hfind) in E'.
       rewrite E' in E. injection E as _ <-. rewrite Z2Nat.id by lia. unfold users.
       rewrite removed_live by (done || (simpl; apply live_lookup in Hlive as [_ ?]; lia)).
       by apply Forall_delete. }
  all: (erewrite bind_Ret in E by (apply get_proc_live; [lia|exact Hlive])); rewrite Hcst in E;
    (erewrite bind_Ret in E by (apply upd_proc_live; [lia|exact Hp])); unfold ret in E;
    injection E as _ <-; apply users_put; [done|]; intros _; exact (running_user w p Hu Hrun).
Qed.

Lemma users_handler w p num h a0 a1 a2 st w' :
  wf w → running w p → call_ok w num a1 → arr_get _syscall_table num = Ret h →
  h a0 a1 a2 w = Ret (st, w') → users_kept w w'.
Proof.
  intros H Hp [Hfork Hwait] [Hnum Hh]%arr_get_Ret E.
  assert (∀ m : MS Z, keeps users_kept m → m w = Ret (st, w') → users_kept w w') as Hquiet
    by (intros m Hm Em; by eapply Hm).
  remember (Z.to_nat num) as n eqn:Hn.
  destruct n as [|[|[|[|[|[|[|[|[|[|[|[|[|[|[|[|[|n]]]]]]]]]]]]]]]]]; try done;
    injection Hh as <-;
    try (revert E; apply Hquiet;
         unfold _syscall__YIELD, _syscall__REBOOT, _syscall__OPEN, _syscall__CLOSE, _syscall__READ,
           _syscall__READDIR, _syscall__WRITE, _syscall__MOUNT, _syscall__MKDIR, _syscall__MKNOD,
           _syscall__LSEEK, _syscall__EXEC, _syscall__GETPPID, _syscall__GETPID; solve [keeps]).
  - unfold _syscall__EXIT in E. apply bind_inv in E as ([] & w1 & E1 & E). inv_run.
    by eapply users_exit.
  - eapply users_fork; [done|exact Hp|apply Hfork; unfold SYSCALL__FORK; lia|exact E].
  - unfold _syscall__WAITPID in E. apply bind_inv in E as (ref & w1 & E1 & E).
    destruct Hwait as (Hva & Hnz & Hfit); [unfold SYSCALL__WAITPID; lia|].
    destruct (translated_own w p a1 ref w1 H Hp Hva Hnz Hfit E1) as [-> Hown].
    by eapply users_wait.
Qed.

Lemma users_syscall w p num a0 a1 a2 w' :
  wf w → running w p → call_ok w num a1 →
  kernel_syscall_handler num a0 a1 a2 w = Ret ((), w') → users_kept w w'.
Proof.
  intros H Hp Hok E Hu. unfold kernel_syscall_handler in E.
  destruct (num >=? SYSCALL_COUNT); [by eapply users_set_status|].
  rewrite (bind_Ret _ _ _ _ _ (get_id_run w p H Hp)) in E.
  apply bind_inv in E as (h & w1 & Eh & E). apply lift_Ret in Eh as [Eh ->].
  apply bind_inv in E as (st & w2 & Ew & E). apply bind_inv in E as (pid & w3 & Ei & E).
  pose proof (users_handler w p num h a0 a1 a2 st w2 H Hp Hok Eh Ew Hu) as H2.
  pose proof (users_quiet _ quiet_get_id _ _ _ Ei H2) as H3.
  destruct (negb (pid =? id p)); [by destruct (num =? SYSCALL__EXIT); inv_run|].
  destruct (negb _); [by eapply users_set_status|by inv_run].
Qed.

(** ** Every step of the system *)

Lemma users_switch w i w' : wf w → scheduler_switch_task w = Ret (i, w') → users_kept w w'.
Proof.
  intros H E Hu. destruct (switch_run w H) as [(d & _ & _ & _ & E' & _)|[_ E']];
    rewrite E' in E; [|done]. by injection E as <- <-.
Qed.

Lemma users_save c w p w' : wf w → running w p → user_status (spsr c) →
  scheduler_save_current_context c w = Ret ((), w') → users_kept w w'.
Proof.
  intros H [Hp _] Hc E Hu. unfold scheduler_save_current_context in E. pose proof (wf_current w H).
  rewrite (bind_Ret _ _ _ _ _ (get_current_eq w H)) in E. by eapply users_context.
Qed.

Lemma users_svc w p c num a0 a1 a2 i w' : wf w → running w p → call_ok w num a1 →
  user_status (spsr c) → _svc_handler c num a0 a1 a2 w = Ret (i, w') → users_kept w w'.
Proof.
  intros H Hp [Hfork Hwait] Hc E Hu. unfold _svc_handler in E.
  apply bind_inv in E as ([] & w1 & E1 & E). apply bind_inv in E as ([] & w2 & E2 & E).
  destruct (save_running c w p w1 H Hp E1) as (H1 & Hp1 & Hgen).
  assert (call_ok w1 num a1) as Hok by (split; [by rewrite Hgen|done]).
  eapply users_switch; [|exact E|]; [by eapply syscall_wf|].
  eapply (users_syscall w1); [done|exact Hp1|exact Hok|exact E2|]. by eapply (users_save c w p).
Qed.

Lemma users_irq w p c i w' : wf w → running w p → user_status (spsr c) →
  _irq_handler c w = Ret (i, w') → users_kept w w'.
Proof.
  intros H Hp Hc E Hu. unfold _irq_handler in E. apply bind_inv in E as ([] & w1 & E1 & E).
  destruct (save_running c w p w1 H Hp E1) as (H1 & _ & _).
  eapply users_switch; [exact H1|exact E|]. by eapply (users_save c w p).
Qed.

Lemma users_abort w p psr i w' : wf w → running w p → _data_abort psr w = Ret (i, w') → users_kept w w'.
Proof.
  intros H Hp E Hu. unfold _data_abort in E. apply bind_inv in E as ([] & w1 & E1 & E).
  unfold scheduler_data_exception in E1. destruct (_ =? _); [|done].
  eapply users_switch; [by eapply wf_exit_step|exact E|]. by eapply users_exit.
Qed.
End Privilege.
