(* ===== verification/MachineSpec.v ===== *)
(** * The whole machine

    Programs on the processor and the kernel in its exceptions: programs run in user mode,
    under the table of their process and nothing else, an interrupt is invisible to a
    program that is resumed by it, and every step of the machine is a step of the model of
    the system. *)
From stdpp Require Import functions.
From S2P Require Import Prelude Bitfield Mmu Alloc Heap Hash Fs FsState Devices Ramfs Fat32 Vfs Elf Scheduler SchedulerInv SchedulerOps Exec Syscalls SystemInv Privilege Kernel Usr Cpu CpuSpec Vectors ContextSwitch VectorsSpec.
Import Fs FsState Devices Vfs Scheduler SchedulerInv SchedulerOps Exec SystemInv Privilege Kernel Cpu CpuSpec Vectors ContextSwitch VectorsSpec.

Module MachineSpec.

(** ** Status fields *)

Lemma write_fields_same mask psr : write_fields mask psr psr = psr.
Proof.
  unfold write_fields. rewrite <- Z.land_lor_distr_r. rewrite Z.lor_comm, Z.lor_lnot_diag.
  apply Z.land_m1_r.
Qed.

(** The bits of [keep], all in [mask], are those that were written. *)
Lemma write_fields_in mask keep v psr : Z.land mask keep = keep →
  Z.land (write_fields mask v psr) keep = Z.land v keep.
Proof.
  intros H. apply Z.bits_inj'. intros k Hk. apply (f_equal (λ z, Z.testbit z k)) in H.
  unfold write_fields. rewrite Z.land_spec in H.
  rewrite Z.land_spec, Z.lor_spec, !Z.land_spec, Z.lnot_spec by lia.
  destruct (Z.testbit mask k), (Z.testbit keep k), (Z.testbit v k), (Z.testbit psr k); done.
Qed.

Lemma exception_psr_mode e psr : mode_of (exception_psr e psr) = Some (exception_mode e).
Proof.
  apply mode_of_bits. unfold exception_psr. rewrite Z.land_lor_distr_l.
  rewrite write_fields_in by done. by destruct e.
Qed.

(** ** Raising an exception *)

Definition entered (e : exception) (m : machine) : machine :=
  let md := exception_mode e in
  with_cpsr (exception_psr e (cpsr m))
    (with_spsrs (<[md := cpsr m]> (spsrs m))
      (with_regs (<[Banked md LR := u32 (pc m + link_offset e (cpsr m))]> (regs m)) m)).

Lemma entered_top e md m : top md (entered e m) = top md m.
Proof. unfold top, entered. cbn. by rewrite fn_lookup_insert_ne. Qed.

Lemma entered_mode e m : in_mode (exception_mode e) (entered e m).
Proof. apply exception_psr_mode. Qed.

Lemma follows_Ret {A B} (c : outcome (A * machine)) (o : outcome B) Q a m' :
  follows c o Q → c = Ret (a, m') → ∃ b, o = Ret b ∧ Q b a m'.
Proof.
  intros H ->. destruct o as [b| | |]; [|done..]. destruct H as (x & m1 & E & HQ). injection E as <- <-.
  eauto.
Qed.

Section machine.
Context (base link : Z) (leave : machine → leftovers) (depth : Z) (symbol : exception → Z).
Abbreviation raise := (raise base link leave depth symbol).

(** The vectors are at address 0. *)
Definition vectors_ready (m : machine) : Prop := words_at (mem m) 0 (_interupt_vector symbol).

Lemma raise_run e m : vectors_ready m → 64 ≤ base →
  raise e m = handler base link leave depth e (entered e m).
Proof.
  intros Hv Hb. unfold Vectors.raise. rewrite (bind_Ret (enter e) _ m () (entered e m)) by done.
  assert (∀ k v, _interupt_vector symbol !! Z.to_nat k = Some v → 0 ≤ k < 16 →
    mem_load base (4 * k) (entered e m) = Ret (v, entered e m)) as Hload.
  { intros k v Hk Hr. rewrite mem_load_run; [|lia|].
    - apply Hv in Hk. rewrite Z2Nat.id in Hk by lia. cbn. by rewrite <- Hk.
    - unfold in_table. apply andb_false_iff. left. apply Z.leb_gt. lia. }
  rewrite (bind_Ret _ _ _ _ _ (Hload (vector_index e) LDR_PC_24 ltac:(by destruct e) ltac:(by destruct e))).
  replace (4 * vector_index e + 8 + 24) with (4 * (vector_index e + 8)) by lia.
  rewrite (bind_Ret _ _ _ _ _ (Hload (vector_index e + 8) (symbol e) ltac:(by destruct e) ltac:(by destruct e))).
  by rewrite !Z.eqb_refl.
Qed.

(** ** The layout of memory *)

(** What the system needs on the stack of an exception. *)
Definition stack_use : Z := 80 + depth.

(** The stacks: that of interrupts ends at 0x1000, that of system calls, which lies deeper
    than at reset by what [kernel_main] has put there, at 0x2000; the process table is
    behind the kernel. *)
Record layout (svc_top : Z) : Prop := {
  lay_base : base `mod` 4 = 0;
  lay_kernel : 0x8000 ≤ base;
  lay_end : base + SIZEOF_PROCESS * SCHEDULER_MAX_TASK_COUNT ≤ 0x100000000;
  lay_depth : 0 ≤ depth;
  lay_irq : 0x1000 + stack_use ≤ 0x2000;
  lay_svc : 0x2000 + stack_use ≤ svc_top;
  lay_top : svc_top ≤ 0x6000;
  lay_aligned : svc_top `mod` 4 = 0;
}.

(** ** A program runs *)

Record machine_inv (svc_top : Z) (m : machine) : Prop := {
  mi_mode : user_status (cpsr m);
  mi_sys : sys_inv (sys m);
  mi_users : users (sys m);
  mi_table : ∀ p, running (sys m) p → ttbr0 m = translation_table p;
  mi_tlb : tlb_stale m = false;
  mi_mmu : Z.testbit (sctlr m) 0 = true;
  mi_dacr : dacr m = 0x55555555;
  mi_svc : top Svc m = svc_top;
  mi_irq : top Irq m = 0x2000;
  mi_vectors : vectors_ready m;
}.

(** What happens: the program computes, with the registers it can reach, and writes to its
    section; or an exception comes, and the kernel handles it. *)
Inductive machine_step (m : machine) : machine → Prop :=
| program_runs p f a psr s :
    running (sys m) p → (∀ md r, f (Banked md r) = regs m (Banked md r)) →
    Z.land psr 0xDF = Z.land (cpsr m) 0xDF →
    machine_step m (with_pc a (with_cpsr psr (with_regs f
      (with_sys (with_ram (<[memory_section p := s]> (ram (sys m))) (sys m)) m))))
| exception_raised e m' :
    e ∈ [Undefined; SupervisorCall; PrefetchAbort; DataAbort; Interrupt; FastInterrupt] →
    (e = SupervisorCall → call_ok (sys m) (regs m (User R0)) (regs m (User R2))) →
    raise e m = Ret ((), m') → machine_step m m'.

Lemma unhandled_stops m r : _unhandled link leave depth m ≠ Ret r.
Proof. intros E. unfold _unhandled in E. do 3 apply bind_inv in E as (? & ? & ? & E). done. Qed.

Section inv.
Context (svc_top : Z) (Hlay : layout svc_top).

Lemma stack_svc m : top Svc m = svc_top → stack_ready base Svc stack_use m.
Proof. destruct Hlay. intros H. unfold stack_ready. rewrite H. unfold stack_use, SIZEOF_PROCESS, SCHEDULER_MAX_TASK_COUNT in *. lia. Qed.
Lemma stack_irq m : top Irq m = 0x2000 → stack_ready base Irq stack_use m.
Proof. destruct Hlay. intros H. unfold stack_ready. rewrite H. unfold stack_use, SIZEOF_PROCESS, SCHEDULER_MAX_TASK_COUNT in *. lia. Qed.

(** A process of the system is resumed, with nothing left on the stacks. *)
Lemma resumed_inv md m m1 w p m' : machine_inv svc_top m → md = Svc ∨ md = Irq →
  (∀ md', top md' m1 = top md' m) → mem m1 = mem m → dacr m1 = dacr m → sctlr m1 = sctlr m →
  sys_inv w → users w → running w p → resumed md stack_use m1 w p m' → machine_inv svc_top m'.
Proof.
  intros [] Hmd Htop Hmem Hdacr Hsctlr Hw Hu Hp []. destruct Hlay.
  split; rewrite ?res_sys0; try done.
  - apply (f_equal spsr) in res_visible0. unfold visible, user_context, taken_on in res_visible0.
    cbn in res_visible0. unfold user_status. rewrite res_visible0.
    rewrite write_fields_in by done. by eapply running_user.
  - intros q Hq. rewrite res_ttbr1. destruct Hp as [Hp _], Hq as [Hq _]. by simplify_eq.
  - destruct res_mmu0 as [_ ->]. by rewrite Hsctlr.
  - destruct res_mmu0 as [-> _]. by rewrite Hdacr.
  - by rewrite res_tops0, Htop.
  - by rewrite res_tops0, Htop.
  - unfold vectors_ready. eapply words_at_same; [|exact mi_vectors0]. intros b Hb.
    change (length (_interupt_vector symbol)) with 16%nat in Hb.
    rewrite res_mem0, Hmem; [done|]. rewrite Htop. unfold stack_use in *.
    destruct Hmd as [-> | ->]; rewrite ?mi_svc0, ?mi_irq0; lia.
Qed.

Lemma irq_step m m' : machine_inv svc_top m → raise Interrupt m = Ret ((), m') →
  ∃ w' p i, Syscalls._irq_handler (irq_context (entered Interrupt m)) (sys m) = Ret (i, w') ∧
    processes (sched w') !! Z.to_nat i = Some p ∧ running w' p ∧ sys_inv w' ∧ users w' ∧
    resumed Irq stack_use (entered Interrupt m) w' p m'.
Proof.
  intros Hm E. pose proof Hm as [Hmode Hsys Hu _ _ _ _ _ Hirq Hv]. pose proof Hlay as [].
  rewrite raise_run in E by (done || lia).
  apply (follows_Ret _ _ _ _ _ (irq_follows base link leave depth lay_depth0 lay_base0 lay_end0 stack_use
    (entered Interrupt m) (entered_mode _ _) (stack_irq _ Hirq) ltac:(unfold stack_use; lia) Hsys)) in E.
  destruct E as ([i w'] & Ew & p & Hp & Hrun & Hr). exists w', p, i. split_and!; try done.
  - eapply sys_step_inv; [exact Hsys|]. eapply step_irq. exact Ew.
  - destruct Hsys as [H [q Hq]]. eapply (users_irq (sys m) q); [done|exact Hq| |exact Ew|done].
    cbn. unfold entered. cbn. by rewrite fn_lookup_insert.
Qed.

Lemma svc_step_machine m m' : machine_inv svc_top m →
  call_ok (sys m) (regs m (User R0)) (regs m (User R2)) → raise SupervisorCall m = Ret ((), m') →
  let m1 := entered SupervisorCall m in
  ∃ w' p i, Syscalls._svc_handler (svc_context m1) (regs m (User R0)) (regs m (User R1))
      (regs m (User R2)) (regs m (User R3)) (sys m) = Ret (i, w') ∧
    processes (sched w') !! Z.to_nat i = Some p ∧ running w' p ∧ sys_inv w' ∧ users w' ∧
    resumed Svc stack_use m1 w' p m'.
Proof.
  intros Hm Hok E m1. pose proof Hm as [Hmode Hsys Hu _ _ _ _ Hsvc _ Hv]. pose proof Hlay as [].
  rewrite raise_run in E by (done || lia).
  apply (follows_Ret _ _ _ _ _ (svc_follows base link leave depth lay_depth0 lay_base0 lay_end0 stack_use
    m1 (entered_mode _ _) (stack_svc _ Hsvc) ltac:(unfold stack_use; lia) Hsys Hok)) in E.
  destruct E as ([i w'] & Ew & p & Hp & Hrun & Hr). exists w', p, i. split_and!; try done.
  - eapply sys_step_inv; [exact Hsys|]. eapply step_svc; [|exact Ew]. exact Hok.
  - destruct Hsys as [H [q Hq]]. eapply (users_svc (sys m) q); [done|exact Hq|exact Hok| |exact Ew|done].
    cbn. unfold m1, entered. cbn. by rewrite fn_lookup_insert.
Qed.

Lemma abort_step m m' : machine_inv svc_top m → raise DataAbort m = Ret ((), m') →
  ∃ w' p i, Syscalls._data_abort (cpsr m) (sys m) = Ret (i, w') ∧
    running w' p ∧ sys_inv w' ∧ users w' ∧ resumed Svc stack_use (entered DataAbort m) w' p m'.
Proof.
  intros Hm E. pose proof Hm as [Hmode Hsys Hu _ _ _ _ Hsvc _ Hv]. pose proof Hlay as [].
  rewrite raise_run in E by (done || lia).
  apply (follows_Ret _ _ _ _ _ (abort_follows base link leave depth lay_depth0 lay_base0 lay_end0 stack_use
    (entered DataAbort m) (entered_mode _ _) (stack_svc _ Hsvc) ltac:(unfold stack_use; lia) Hsys)) in E.
  destruct E as ([i w'] & Ew & p & _ & Hrun & Hr). cbn [spsrs entered with_cpsr with_spsrs] in Ew.
  rewrite fn_lookup_insert in Ew. exists w', p, i. split_and!; try done.
  - eapply sys_step_inv; [exact Hsys|]. eapply step_abort. exact Ew.
  - destruct Hsys as [H [q Hq]]. by eapply (users_abort (sys m) q).
Qed.

(** A fast interrupt comes back at once. *)
Lemma fiq_step m m' : machine_inv svc_top m → raise FastInterrupt m = Ret ((), m') →
  machine_inv svc_top m' ∧ sys m' = sys m.
Proof.
  intros Hm E. pose proof Hm as []. pose proof Hlay as [].
  rewrite raise_run in E by (done || lia). cbn [handler] in E. unfold _fiq_handler in E.
  rewrite (subs_pc_lr_run Fiq) in E by (apply entered_mode || done). injection E as <-.
  split; [|done]. by split.
Qed.

(** The table of the running process stays when its section is written. *)
Lemma program_inv m p f a psr s : machine_inv svc_top m → running (sys m) p →
  (∀ md r, f (Banked md r) = regs m (Banked md r)) → Z.land psr 0xDF = Z.land (cpsr m) 0xDF →
  let w' := with_ram (<[memory_section p := s]> (ram (sys m))) (sys m) in
  sys_step (sys m) w' ∧ machine_inv svc_top (with_pc a (with_cpsr psr (with_regs f (with_sys w' m)))).
Proof.
  intros [] Hp Hf Hpsr w'. assert (sys_step (sys m) w') as Hstep by by apply step_user.
  split; [done|]. split; try done; unfold top; cbn.
  - unfold user_status in *. change CPU_CPSR_MODE_MASK with (Z.land 0xDF 0x1F).
    by rewrite Z.land_assoc, Hpsr, <- Z.land_assoc.
  - by eapply sys_step_inv.
  - by rewrite Hf.
  - by rewrite Hf.
Qed.

(** The invariant of the machine, and what its steps are for the system. *)
Lemma machine_step_inv m m' : machine_inv svc_top m → machine_step m m' →
  machine_inv svc_top m' ∧ (sys m' = sys m ∨ sys_step (sys m) (sys m')).
Proof.
  intros Hm Hstep. destruct Hstep as [p f a psr s Hp Hf Hpsr|e m' He Hok E].
  { destruct (program_inv m p f a psr s Hm Hp Hf Hpsr) as [H1 H2]. split; [exact H2|by right]. }
  pose proof Hm as [Hmode Hsys Hu Ht Htlb _ _ Hsvc Hirq Hv].
  assert (e = Undefined ∨ e = PrefetchAbort → machine_inv svc_top m' ∧
    (sys m' = sys m ∨ sys_step (sys m) (sys m'))) as Hstop.
  { intros Hu'. exfalso. rewrite raise_run in E by (done || (destruct Hlay; lia)).
    destruct Hu' as [-> | ->]; by eapply unhandled_stops. }
  rewrite !elem_of_cons, elem_of_nil in He.
  destruct He as [->|[->|[->|[->|[->|[->|[]]]]]]]; auto.
  - destruct (svc_step_machine m m' Hm (Hok eq_refl) E) as (w' & p & i & Ew & Hp & Hrun & Hw & Huw & Hr).
    split; [|right; rewrite (res_sys _ _ _ _ _ _ Hr); eapply step_svc; [exact (Hok eq_refl)|exact Ew]].
    apply (resumed_inv Svc m (entered SupervisorCall m) w' p m'); auto. intros; apply entered_top.
  - destruct (abort_step m m' Hm E) as (w' & p & i & Ew & Hrun & Hw & Huw & Hr).
    split; [|right; rewrite (res_sys _ _ _ _ _ _ Hr); eapply step_abort; exact Ew].
    apply (resumed_inv Svc m (entered DataAbort m) w' p m'); auto. intros; apply entered_top.
  - destruct (irq_step m m' Hm E) as (w' & p & i & Ew & Hp & Hrun & Hw & Huw & Hr).
    split; [|right; rewrite (res_sys _ _ _ _ _ _ Hr); eapply step_irq; exact Ew].
    apply (resumed_inv Irq m (entered Interrupt m) w' p m'); auto. intros; apply entered_top.
  - destruct (fiq_step m m' Hm E) as [H1 H2]. auto.
Qed.

(** ** Interrupts and the program *)

(** Saving a context, when the process stays the current one. *)
Lemma saved_and_chosen c w p0 i w' p : wf w → running w p0 →
  Syscalls._irq_handler c w = Ret (i, w') → running w' p →
  current_proc (sched w') = current_proc (sched w) → p = with_context c p0 ∧ ram w' = ram w.
Proof.
  intros H [Hp0 Hst] E [Hp _] Hcur. unfold Syscalls._irq_handler in E.
  apply bind_inv in E as ([] & w1 & E1 & E). pose proof (wf_current w H).
  unfold scheduler_save_current_context in E1. rewrite (bind_Ret _ _ _ _ _ (get_current_eq w H)) in E1.
  rewrite (upd_proc_live w _ p0) in E1 by (done || lia). injection E1 as <-.
  assert (wf (put_proc (current_proc (sched w)) (with_context c p0) w)) as H1.
  { apply SchedulerReach.SchedulerReach.wf_put_context; done || lia. }
  destruct (SchedulerSpec.SchedulerSpec.switch_run _ H1) as [(d & _ & _ & _ & E' & _)|[_ E']];
    rewrite E' in E; [|done]. injection E as <- <-. split; [|done].
  change (live (sched (put_proc (current_proc (sched w)) (with_context c p0) w)) !!
    Z.to_nat (after (put_proc (current_proc (sched w)) (with_context c p0) w) d) = Some p) in Hp.
  cbn in Hcur. rewrite Hcur, put_live, list_lookup_insert_eq in Hp by (by eapply lookup_lt_Some).
  by injection Hp.
Qed.

(** What an exception of a program ends with, in terms of the machine the program ran on. *)
Definition ends_with (md : mode) (m : machine) (w : system) (m' : machine) : Prop :=
  ∃ p, running w p ∧ sys m' = w ∧ visible m' = taken_on (cpsr m) (context p) ∧
    ttbr0 m' = translation_table p ∧ tlb_stale m' = false ∧
    (∀ md', top md' m' = top md' m) ∧
    ∀ a, ¬ (top md m - stack_use ≤ a < top md m) → mem m' a = mem m a.

Lemma resumed_ends md e m w p m' : md = exception_mode e → running w p →
  resumed md stack_use (entered e m) w p m' → ends_with md m w m'.
Proof.
  intros -> Hp []. exists p. rewrite entered_top in *. split_and!; try done.
  - rewrite res_visible0. unfold entered. cbn. by rewrite fn_lookup_insert.
  - intros md'. by rewrite res_tops0, entered_top.
Qed.

(** C5. The timer interrupts a program: the machine does what the model of the system does when it
    is given the program's registers, its status and its next instruction as the context,
    failures included; and then the process that the model resumes is on the processor, with
    all its registers, its status and its translation table.  The stacks of all modes are
    as before, and of memory nothing but the interrupts' stack has changed. *)
Theorem irq_refines m : machine_inv svc_top m → is_u32 (pc m) →
  follows (raise Interrupt m) (Syscalls._irq_handler (visible m) (sys m))
    (λ iw _ m', ends_with Irq m iw.2 m').
Proof.
  intros Hm Hpc. pose proof Hm as [Hmode Hsys _ _ _ _ _ _ Hirq Hv]. pose proof Hlay as [].
  rewrite raise_run by (done || lia).
  replace (visible m) with (irq_context (entered Interrupt m)).
  2: { unfold irq_context, interrupted, visible, user_context, entered. cbn.
       rewrite !fn_lookup_insert, !fn_lookup_insert_ne by done. f_equal. unfold is_u32, u32 in *. lia. }
  eapply follows_mono; [apply (irq_follows base link leave depth lay_depth0 lay_base0 lay_end0 stack_use
    (entered Interrupt m) (entered_mode _ _) (stack_irq _ Hirq) ltac:(unfold stack_use; lia) Hsys)|].
  intros [i w] [] m' _ (p & _ & Hp & Hr). by eapply (resumed_ends Irq Interrupt).
Qed.


(** C6. A timer interrupt is invisible to the program it interrupts, when the scheduler chooses
    the same process again: every register, the status with all its fields, the next
    instruction, the translation table and the memory are as if nothing had happened. *)
Theorem interrupt_transparent m m' : machine_inv svc_top m →
  is_u32 (pc m) → branch_target (cpsr m) (pc m) = pc m →
  raise Interrupt m = Ret ((), m') →
  current_proc (sched (sys m')) = current_proc (sched (sys m)) →
  visible m' = visible m ∧ ttbr0 m' = ttbr0 m ∧ tlb_stale m' = false ∧ ram (sys m') = ram (sys m).
Proof.
  intros Hm Hpc Hal E Hcur. destruct (irq_step m m' Hm E) as (w' & p & i & Ew & _ & Hrun & _ & _ & []).
  rewrite res_sys0 in *. destruct Hm as [_ [H [p0 Hp0]] _ Ht _ _ _ _ _ _].
  destruct (saved_and_chosen _ _ _ _ _ _ H Hp0 Ew Hrun Hcur) as [-> Hram].
  assert (u32 (u32 (pc m + 4) - 4) = pc m) as Hback by (unfold is_u32, u32 in *; lia).
  split; [|split; [|done]].
  - rewrite res_visible0. unfold taken_on, irq_context, interrupted, visible, user_context, entered.
    cbn. rewrite !fn_lookup_insert, !fn_lookup_insert_ne by done.
    by rewrite write_fields_same, Hback, u32_small, Hal by done.
  - by rewrite res_ttbr1, (Ht p0).
Qed.

(** ** The calls of the user library *)

End inv.
End machine.
End MachineSpec.
