(* ===== verification/Boot.v ===== *)
(** * From power on to the first program

    The reset vector, [kernel_main] with what it does to the processor, and the system call
    that starts init. *)
From stdpp Require Import functions.
From S2P Require Import Prelude Bitfield Mmu Alloc Heap Hash Fs FsState Devices Ramfs Fat32 Vfs Elf Scheduler Exec Syscalls Kernel Cpu Vectors.
Import Fs FsState Devices Vfs Scheduler Exec Syscalls Kernel Cpu Vectors.

Module Boot.

Section boot.
Context (base link : Z) (leave : machine → leftovers) (depth : Z) (symbol : exception → Z).
(** The address of the static variable [init_root_node] of [vfs.c], what the memory that
    becomes the RAM disk holds, the bytes that [kernel_main] and the functions it is in have on
    the stack, and the address of the system call. *)
Context (init_root_node : Z) (memory : gmap Z Z) (frame svc_address : Z).

Definition scratch : list reg := [R0; R1; R2; R3; R4; R5; R6; R7; R8; R9; R10; R11; R12; LR].

(** Within a C function, [body] has run, and [pushed] bytes were put on the stack: the
    compiler may have used any register. *)
Definition in_c {A} (pushed : Z) (body : MS A) : MM A :=
  let* mapped := gets kernel_mapped in
  let* _ := if mapped : bool then ret () else fault in
  let* a := zoom body in
  let* md := cpu_mode in
  let* _ := modify (λ m,
    let l := leave m in
    let f := fold_right (λ r f, <[bank md r := left_regs l r]> f) (regs m) scratch in
    let old := regs m (bank md SP) in
    let top := u32 (old - pushed) in
    with_mem (λ a, if (top - depth <=? a) && (a <? old) then left_mem l a else mem m a)
      (with_cpsr (write_fields FLAGS (left_flags l) (cpsr m))
        (with_regs (<[bank md SP := top]> f) m))) in
  ret a.

(** [_kernel_init] of [kernel.c], with the MMU *)
Definition _kernel_init : MM unit :=
  let* kernel_translation_table := in_c frame _kernel_init_memory in
  let* _ := modify (with_ktable kernel_translation_table) in
  let* _ := kernel_restore_translation_table link leave depth in
  let* _ := mov R0 (Imm 0x55555555) in
  let* _ := bl link mmu_set_dacr in
  let* _ := bl link mmu_enable in
  in_c 0 (_kernel_init_services init_root_node memory).

(** [kernel_main] of [kernel.c], and [scheduler_start], which it ends in *)
Definition kernel_main : MM unit :=
  let* _ := _kernel_init in
  let* _ := in_c 0 _kernel_mount_root_fs in
  let* _ := in_c 0 _kernel_mount_dev_tmpfs in
  let* _ := in_c 0 (onfile mini_uart_getc) in
  let* _ := bl link cpu_get_execution_mode in
  let* _ := in_c 0 (start_init (str "/bin/init")) in
  let* _ := mov R0 (Imm PROCESS_SECTION_VIRTUAL_ADDRRESS) in
  __scheduler_exec_init base link leave depth symbol svc_address.

(** [_reset_handler], to its end: [bl kernel_main] *)
Definition boot : MM unit :=
  let* _ := _reset_handler base in
  let* _ := reg_set LR link in
  kernel_main.

End boot.
End Boot.
