(* ===== verification/BootSpec.v ===== *)
(** * What the boot makes of the processor

    The reset vector installs the vectors and the stacks; after [kernel_main] the first
    program runs, in user mode, with the MMU on, and the machine satisfies its invariant. *)
From stdpp Require Import functions.
From S2P Require Import Prelude Bitfield Mmu Alloc Heap Hash Fs FsState Devices Ramfs Fat32 Vfs Elf Keeps Scheduler SchedulerInv SchedulerOps SchedulerReach Exec Syscalls SystemInv Privilege Kernel KernelSpec MountSpec KernelFs ExecSpec InitSpec Cpu CpuSpec Vectors ContextSwitch VectorsSpec MachineSpec Boot.
Import Fs FsState Devices Vfs Keeps Scheduler SchedulerInv SchedulerOps SchedulerReach Exec SystemInv Privilege Kernel KernelSpec MountSpec KernelFs ExecSpec InitSpec Cpu CpuSpec Vectors ContextSwitch VectorsSpec MachineSpec Boot.

Module BootSpec.

(** ** Copying with [ldmia] and [stmia] *)

Section copy.
Context (base : Z) (md : mode).

Lemma ldmia_w_run rn rs vs m : in_mode md m → plain base (regs m (bank md rn)) (length rs) →
  length vs = length rs → words_at (mem m) (regs m (bank md rn)) vs →
  ldmia_w base rn rs m = Ret ((), with_regs
    (<[bank md rn := u32 (regs m (bank md rn) + size_of rs)]> (load_regs md rs vs (regs m))) m).
Proof.
  intros Hm Hp Hl Hw. unfold ldmia_w. rewrite (bind_Ret _ _ _ _ _ (reg_get_run md m Hm rn)).
  rewrite (bind_Ret _ _ _ _ _ (load_multiple_run base md rs vs _ m Hm Hp Hl Hw)).
  by rewrite (reg_set_run md).
Qed.

Lemma stmia_w_run rn rs m : in_mode md m → plain base (regs m (bank md rn)) (length rs) →
  stmia_w base rn rs m = Ret ((), with_regs
    (<[bank md rn := u32 (regs m (bank md rn) + size_of rs)]> (regs m))
    (with_mem (store_words (regs m (bank md rn)) (map (λ r, regs m (bank md r)) rs) (mem m)) m)).
Proof.
  intros Hm Hp. unfold stmia_w. rewrite (bind_Ret _ _ _ _ _ (reg_get_run md m Hm rn)).
  rewrite (bind_Ret _ _ _ _ _ (store_multiple_run base md rs _ m Hm Hp)).
  by rewrite (reg_set_run md).
Qed.
End copy.

(** The stack of a mode is set. *)
Lemma set_stack m md md' v : in_mode md m → md ≠ Usr → has_spsr md' = true →
  ∃ f, (∀ k : MM (), bind (SET_CPU_MODE (Imm (mode_bits md'))) (λ _, bind (mov SP (Imm v)) (λ _, k)) m =
      k (with_cpsr (set_mode (mode_bits md') (cpsr m)) (with_regs f m))) ∧
    f (Banked md' SP) = v ∧
    ∀ r, r ≠ bank md R12 → r ≠ Banked md' SP → f r = regs m r.
Proof.
  intros Hm Hne Hs.
  destruct (SET_CPU_MODE_run md md' m (Imm (mode_bits md')) Hm Hne ltac:(done) eq_refl) as (f & E & Hf).
  assert (bank md' SP = Banked md' SP) as Hb by (by destruct md').
  exists (<[Banked md' SP := v]> f). split; [|split].
  - intros k. rewrite (bind_Ret _ _ _ _ _ E).
    erewrite bind_Ret by (apply (mov_run md'), (mode_of_set md')). by rewrite Hb.
  - apply fn_lookup_insert.
  - intros r H1 H2. rewrite fn_lookup_insert_ne by congruence. auto.
Qed.

Section reset.
Context (base : Z) (symbol : exception → Z).

Definition r2_r9 : list reg := [R2; R3; R4; R5; R6; R7; R8; R9].

(** The vectors are copied, eight words at a time. *)
Lemma copy_vectors m : in_mode Svc m → 0x8040 ≤ base →
  words_at (mem m) 0x8000 (_interupt_vector symbol) →
  ∃ m', (∀ k : MM (),
    bind (mov R0 (Imm 0x8000)) (λ _,
    bind (mov R1 (Imm 0x0000)) (λ _,
    bind (ldmia_w base R0 r2_r9) (λ _,
    bind (stmia_w base R1 r2_r9) (λ _,
    bind (ldmia_w base R0 r2_r9) (λ _,
    bind (stmia_w base R1 r2_r9) (λ _, k)))))) m = k m') ∧
  m' = with_mem (mem m') (with_regs (regs m') m) ∧
  words_at (mem m') 0 (_interupt_vector symbol) ∧ (∀ a, ¬ (0 ≤ a < 64) → mem m' a = mem m a) ∧
  regs m' (User R0) = 0x8040 ∧ regs m' (User R1) = 0x40.
Proof.
  intros Hm Hb Hw. set (w0 := replicate 8 LDR_PC_24). set (w1 := map symbol vectors).
  change (_interupt_vector symbol) with (w0 ++ w1) in *.
  apply words_at_app in Hw as [Hw0 Hw1].
  set (m1 := with_regs (<[User R1 := 0]> (<[User R0 := 0x8000]> (regs m))) m).
  assert (regs m1 (User R0) = 0x8000) as A1.
  { unfold m1. cbn. by rewrite fn_lookup_insert_ne, fn_lookup_insert by done. }
  eassert (ldmia_w base R0 r2_r9 m1 = _) as E1.
  { apply (ldmia_w_run base Svc R0 r2_r9 w0 m1 Hm); cbn [bank]; cbn [bank]; rewrite ?A1; [unfold plain; cbn; lia|done|done]. }
  cbn [bank] in E1. rewrite A1 in E1. set (m2 := with_regs _ m1) in E1.
  assert (regs m2 (User R1) = 0 ∧ map (λ r, regs m2 (bank Svc r)) r2_r9 = w0) as [A2 V2].
  { unfold m2, m1, r2_r9. cbn -[LDR_PC_24]. repeat (rewrite fn_lookup_insert_ne by done).
    rewrite fn_lookup_insert. split; [done|].
    repeat f_equal; repeat (rewrite fn_lookup_insert_ne by done); apply fn_lookup_insert. }
  eassert (stmia_w base R1 r2_r9 m2 = _) as E2.
  { apply (stmia_w_run base Svc R1 r2_r9 m2 Hm); cbn [bank]; rewrite ?A2; unfold plain; cbn; lia. }
  change (bank Svc R1) with (User R1) in E2. rewrite A2, V2 in E2. set (m3 := with_regs _ (with_mem _ m2)) in E2.
  assert (regs m3 (User R0) = 0x8020) as A3.
  { unfold m3, m2. cbn. by rewrite fn_lookup_insert_ne, fn_lookup_insert by done. }
  eassert (ldmia_w base R0 r2_r9 m3 = _) as E3.
  { apply (ldmia_w_run base Svc R0 r2_r9 w1 m3 Hm); cbn [bank]; cbn [bank]; rewrite ?A3; [unfold plain; cbn; lia|done|].
    eapply words_at_same; [|exact Hw1]. intros b Hbb. cbn in Hbb. unfold m3. cbn [mem with_regs with_mem].
    apply store_words_out. cbn. lia. }
  cbn [bank] in E3. rewrite A3 in E3. set (m4 := with_regs _ m3) in E3.
  assert (regs m4 (User R1) = 0x20 ∧ map (λ r, regs m4 (bank Svc r)) r2_r9 = w1) as [A4 V4].
  { unfold m4, m3, r2_r9. cbn. repeat (rewrite fn_lookup_insert_ne by done).
    rewrite fn_lookup_insert. split; [done|].
    repeat f_equal; repeat (rewrite fn_lookup_insert_ne by done); apply fn_lookup_insert. }
  eassert (stmia_w base R1 r2_r9 m4 = _) as E4.
  { apply (stmia_w_run base Svc R1 r2_r9 m4 Hm); cbn [bank]; rewrite ?A4; unfold plain; cbn; lia. }
  change (bank Svc R1) with (User R1) in E4. rewrite A4, V4 in E4. set (m5 := with_regs _ (with_mem _ m4)) in E4.
  exists m5. split; [|split; [done|split_and!]].
  - intros k. rewrite (bind_Ret _ _ _ _ _ (mov_run Svc m Hm R0 (Imm 0x8000))).
    erewrite bind_Ret by (by apply (mov_run Svc)). change (with_regs _ (with_regs _ m)) with m1.
    by rewrite (bind_Ret _ _ _ _ _ E1), (bind_Ret _ _ _ _ _ E2), (bind_Ret _ _ _ _ _ E3),
      (bind_Ret _ _ _ _ _ E4).
  - apply words_at_app. unfold m5. cbn [mem with_regs with_mem m4 m3]. split; [|apply store_words_at].
    eapply words_at_same; [|apply store_words_at]. intros b Hbb. cbn in Hbb.
    apply store_words_out. cbn. lia.
  - intros a Ha. unfold m5. cbn [mem with_regs with_mem m4 m3].
    rewrite !store_words_out by (cbn; lia). done.
  - unfold m5, m4. cbn. by rewrite fn_lookup_insert_ne, fn_lookup_insert by done.
  - unfold m5. cbn. by rewrite fn_lookup_insert.
Qed.

(** The reset vector: on any machine in supervisor mode it ends in that mode, with the vectors
    at address 0 and the stack of every mode in its place; only the registers and the first
    64 bytes have changed. *)
Record reset_done (m m' : machine) : Prop := {
  rst_same : m' = with_mem (mem m') (with_regs (regs m') m);
  rst_svc : top Svc m' = 0x6000;
  rst_fiq : top Fiq m' = 0x1000;
  rst_irq : top Irq m' = 0x2000;
  rst_abt : top Abt m' = 0x7000;
  rst_vectors : vectors_ready symbol m';
  rst_mem : ∀ a, ¬ (0 ≤ a < 64) → mem m' a = mem m a;
  rst_r0 : regs m' (User R0) = 0x8040;
  rst_r1 : regs m' (User R1) = 0x40;
}.

Lemma reset_run m : in_mode Svc m → 0x8040 ≤ base →
  words_at (mem m) 0x8000 (_interupt_vector symbol) →
  ∃ m', _reset_handler base m = Ret ((), m') ∧ reset_done m m'.
Proof.
  intros Hm Hb Hw. destruct (copy_vectors m Hm Hb Hw) as (m0 & E0 & Hsame & Hv & Hmem & A0 & A1).
  assert (in_mode Svc m0) as Hm0 by (by rewrite Hsame).
  destruct (set_stack m0 Svc Svc 0x6000 Hm0 ltac:(done) eq_refl) as (f1 & E1 & P1 & F1).
  set (m1 := with_cpsr _ (with_regs f1 m0)) in E1.
  destruct (set_stack m1 Svc Fiq 0x1000 (mode_of_set Svc _) ltac:(done) eq_refl) as (f2 & E2 & P2 & F2).
  set (m2 := with_cpsr _ (with_regs f2 m1)) in E2.
  destruct (set_stack m2 Fiq Irq 0x2000 (mode_of_set Fiq _) ltac:(done) eq_refl) as (f3 & E3 & P3 & F3).
  set (m3 := with_cpsr _ (with_regs f3 m2)) in E3.
  destruct (set_stack m3 Irq Abt 0x7000 (mode_of_set Irq _) ltac:(done) eq_refl) as (f4 & E4 & P4 & F4).
  set (m4 := with_cpsr _ (with_regs f4 m3)) in E4.
  destruct (SET_CPU_MODE_run Abt Svc m4 (Imm CPU_MODE_SVC) (mode_of_set Abt _) ltac:(done) ltac:(done) eq_refl)
    as (f5 & E5 & F5).
  cbn [bank] in *. cbn [regs m1 m2 m3 m4 with_cpsr with_regs] in F2, F3, F4, F5.
  eexists. split; [|split].
  - unfold _reset_handler. fold r2_r9. rewrite E0.
    change (Imm CPU_MODE_FIQ) with (Imm (mode_bits Fiq)). change (Imm CPU_MODE_IRQ) with (Imm (mode_bits Irq)).
    change (Imm CPU_MODE_ABORT) with (Imm (mode_bits Abt)). change (Imm CPU_MODE_SVC) with (Imm (mode_bits Svc)).
    rewrite E1, E2, E3, E4. exact E5.
  - cbn [cpsr m1 m2 m3 m4 with_cpsr with_regs]. rewrite !set_mode_twice by done.
    rewrite <- (mode_of_inv _ _ Hm0), set_mode_same.
    transitivity (with_regs f5 m0); [by destruct m0|]. rewrite Hsame at 1. reflexivity.
  - unfold top. cbn. by rewrite F5, F4, F3, F2, P1 by done.
  - unfold top. cbn. by rewrite F5, F4, F3, P2 by done.
  - unfold top. cbn. by rewrite F5, F4, P3 by done.
  - unfold top. cbn. by rewrite F5, P4 by done.
  - exact Hv.
  - exact Hmem.
  - cbn. by rewrite F5, F4, F3, F2, F1, A0 by done.
  - cbn. by rewrite F5, F4, F3, F2, F1, A1 by done.
Qed.
End reset.

(** ** One process *)

Definition count_kept (w w' : system) : Prop := proc_count (sched w') = proc_count (sched w).

#[export] Instance count_kept_preorder : PreOrder count_kept.
Proof. split; repeat intro; unfold count_kept in *; congruence. Qed.

Lemma count_quiet {A} (m : MS A) : keeps quiet m → keeps count_kept m.
Proof. intros H w a w' E. apply H in E. unfold count_kept. by rewrite (quiet_sched _ _ E). Qed.
#[export] Hint Extern 2 (keeps count_kept _) => apply count_quiet; solve [eauto 3 with keeps] : keeps.

Lemma count_upd i f : keeps count_kept (upd_proc (F := vstate) i f).
Proof.
  intros w a w' E. unfold upd_proc, get_proc, set_proc in E. inv_run. by destruct (arr_set _ _ _); inv_run.
Qed.
Lemma count_fd_count (m : M vstate ()) : keeps count_kept (zoom m : MS ()).
Proof. intros w a w' E. unfold zoom in E. destruct (m _) as [[? ?]| | |]; by inv_run. Qed.
#[export] Hint Resolve count_upd count_fd_count : keeps.

Lemma count_select n : keeps count_kept (select_loop (F := vstate) n).
Proof.
  assert (∀ i, keeps count_kept (set_current (F := vstate) i)) as Hset.
  { intros i w a w' E. unfold set_current, modify in E. by injection E as _ <-. }
  induction n as [|n IH]; cbn [select_loop]; [keeps|].
  apply keeps_bind; [apply _|keeps|intros s]. apply keeps_bind; [apply _|apply Hset|intros []].
  apply keeps_bind; [apply _|keeps|intros s']. apply keeps_bind; [apply _| |intros []].
  { destruct (_ =? _); [apply Hset|keeps]. }
  apply keeps_bind; [apply _|keeps|intros i]. apply keeps_bind; [apply _|keeps|intros p].
  destruct (schedule_state p); [keeps|exact IH|exact IH].
Qed.

Lemma count_switch : keeps count_kept (scheduler_switch_task (F := vstate)).
Proof.
  unfold scheduler_switch_task, _select_next_scheduled_proc. keeps. apply count_select.
Qed.
#[export] Hint Resolve count_switch : keeps.

Lemma count_load i path args : keeps count_kept (__load_proc_from_elf i path args).
Proof. unfold __load_proc_from_elf. keeps. Qed.
#[export] Hint Resolve count_load : keeps.

Lemma count_exec_handler a0 a1 a2 : keeps count_kept (Syscalls.kernel_syscall_handler 14 a0 a1 a2).
Proof.
  intros w a w' E. unfold Syscalls.kernel_syscall_handler in E.
  change (14 >=? Syscalls.SYSCALL_COUNT) with false in E. cbn match in E.
  apply bind_inv in E as (pid & w1 & E1 & E). apply quiet_get_id in E1.
  apply bind_inv in E as (h & w2 & E2 & E). apply lift_Ret in E2 as [E2 ->]. injection E2 as <-.
  transitivity w1; [unfold count_kept; by rewrite (quiet_sched _ _ E1)|]. clear E1. revert E.
  assert (keeps count_kept (Syscalls._syscall__EXEC a0 a1 a2)) as Hexec.
  { unfold Syscalls._syscall__EXEC, scheduler_cur_proc_exec. keeps. }
  assert (∀ st, keeps count_kept (scheduler_cur_proc_set_syscall_status (F := vstate) st)) as Hset.
  { intros st. unfold scheduler_cur_proc_set_syscall_status. keeps. }
  revert w1 a w'. apply (keeps_bind count_kept); [exact Hexec|intros st].
  apply keeps_bind; [apply _|keeps|intros x]. destruct (negb _); [keeps|].
  destruct (negb _); [apply Hset|keeps].
Qed.

Lemma count_exec_call c a0 a1 a2 : keeps count_kept (Syscalls._svc_handler c 14 a0 a1 a2).
Proof.
  unfold Syscalls._svc_handler, scheduler_save_current_context.
  apply keeps_bind; [apply _|keeps|intros _].
  apply keeps_bind; [apply _|apply count_exec_handler|intros _]. apply count_switch.
Qed.

Lemma count_start path w0 w : booted w0 → Syscalls.start_init path w0 = Ret ((), w) →
  proc_count (sched w) = 1.
Proof.
  intros Hboot E. unfold Syscalls.start_init in E.
  destruct (start_init_spec w0 Hboot) as [[r E']|(w1 & p & E' & H1 & Hp & Hl & _)].
  { by rewrite (bind_Fatal _ _ _ _ E') in E. }
  rewrite (bind_Ret _ _ _ _ _ E') in E.
  transitivity (proc_count (sched w1)).
  - revert E. apply (keeps_bind count_kept); [keeps|intros tty].
    apply keeps_bind; [apply _| |intros []; keeps].
    unfold start_init_fds, _proc_add_fd. keeps.
  - apply (f_equal length) in Hl. rewrite live_length in Hl; cbn in Hl.
    + pose proof (wf_count w1 H1). lia.
    + apply H1.
    + pose proof (wf_count w1 H1). lia.
Qed.

(** The only process runs. *)
Lemma single_user w p : wf w → running w p → proc_count (sched w) = 1 →
  user_status (spsr (context p)) → users w.
Proof.
  intros H [Hp Hst] Hc Hu. pose proof (wf_current w H).
  assert (length (live (sched w)) = 1%nat) as Hl by (rewrite live_length, Hc; [done|apply H|lia]).
  unfold users. replace (current_proc (sched w)) with 0 in Hp by lia.
  destruct (live (sched w)) as [|q [|]]; [done| |done]. injection Hp as ->.
  apply Forall_singleton. by intros _.
Qed.

(** ** [kernel_main] on the processor *)

Section boot.
Context (base link : Z) (leave : machine → leftovers) (depth : Z) (symbol : exception → Z).
Context (init_root_node : Z) (memory : gmap Z Z) (frame svc_address : Z).
Context (Hlay : layout base depth (0x6000 - frame)) (Hframe : 0 ≤ frame).

(** The kernel boots, its stack at [svc_top]. *)
Record booting (svc_top : Z) (m : machine) : Prop := {
  bt_mode : in_mode Svc m;
  bt_svc : top Svc m = svc_top;
  bt_irq : top Irq m = 0x2000;
  bt_vectors : vectors_ready symbol m;
}.

(** The kernel runs on its own table, with the MMU on. *)
Record on_own_table (m : machine) : Prop := {
  ot_mapped : kernel_mapped m = true;
  ot_mmu : Z.testbit (sctlr m) 0 = true;
  ot_dacr : dacr m = 0x55555555;
}.

(** A C function of the boot does what its model does. *)
Lemma in_c_follows {A} s pushed (body : MS A) m : booting s m → 0x6000 - frame ≤ s - pushed →
  s ≤ 0x6000 → 0 ≤ pushed → kernel_mapped m = true →
  follows (in_c leave depth pushed body m) (body (sys m)) (λ aw a m', aw = (a, sys m') ∧
    booting (s - pushed) m' ∧ (on_own_table m → on_own_table m')).
Proof.
  intros [Hm Hs Hi Hv] Hlo Hhi Hp Hmap. pose proof Hlay as []. unfold in_c, stack_use in *.
  unfold bind at 1, gets at 1. rewrite Hmap. unfold bind at 1, ret at 1. unfold bind at 1, zoom.
  cbn [comp_get machine_sys]. destruct (body (sys m)) as [[a w]| | |]; [|done..]. cbn [comp_set machine_sys].
  rewrite (bind_Ret _ _ _ _ _ (cpu_mode_run Svc (with_sys w m) Hm)).
  unfold bind at 1, modify at 1, ret. eexists _, _. split; [done|]. split; [done|]. split.
  - split.
    + unfold in_mode. cbn [cpsr with_mem with_cpsr with_regs with_sys].
      rewrite (mode_of_same _ (cpsr m)); [exact Hm|]. by rewrite write_fields_land.
    + unfold top. cbn [regs with_mem with_cpsr with_regs with_sys bank]. rewrite fn_lookup_insert.
      unfold top in Hs. rewrite Hs, u32_small; lia.
    + unfold top. cbn [regs with_mem with_cpsr with_regs with_sys]. cbn. by rewrite !fn_lookup_insert_ne.
    + unfold vectors_ready. cbn [mem with_mem]. eapply words_at_same; [|exact Hv].
      intros b Hb. change (length (_interupt_vector symbol)) with 16%nat in Hb.
      unfold top in Hs. cbn [regs mem with_cpsr with_regs with_sys bank]. rewrite Hs, u32_small by lia.
      by rewrite (proj2 (Z.leb_gt _ _)) by lia.
  - intros []. by split.
Qed.

Lemma stack_booting s m : booting s m → 0x6000 - frame ≤ s → s ≤ 0x6000 → s `mod` 4 = 0 →
  stack_ready base Svc (stack_use depth) m.
Proof.
  intros [_ Hs _ _] Hlo Hhi Hal. pose proof Hlay as []. unfold stack_ready. rewrite Hs.
  unfold stack_use, SIZEOF_PROCESS, SCHEDULER_MAX_TASK_COUNT in *. lia.
Qed.

Lemma bl_dacr_run m : in_mode Svc m → bl link mmu_set_dacr m = Ret ((),
  with_mmu (ttbr0 m) (regs m (User R0)) (sctlr m) (tlb_stale m)
    (with_regs (<[Banked Svc LR := link]> (regs m)) m)).
Proof.
  intros Hm. unfold bl. rewrite (bind_Ret _ _ _ _ _ (reg_set_run Svc m Hm LR link)).
  set (m1 := with_regs _ m). unfold mmu_set_dacr, mcr_dacr, privileged.
  rewrite (bind_Ret _ _ m1 (regs m1 (Banked Svc LR)) (with_mmu (ttbr0 m) (regs m (User R0)) (sctlr m) (tlb_stale m) m1)).
  - cbn. by rewrite fn_lookup_insert, Z.eqb_refl.
  - rewrite (bind_Ret _ _ m1 () (with_mmu (ttbr0 m) (regs m (User R0)) (sctlr m) (tlb_stale m) m1)).
    + unfold bx_lr. by rewrite (reg_get_run Svc (with_mmu _ _ _ _ m1) Hm LR).
    + rewrite (bind_Ret _ _ m1 () m1); [|by rewrite (bind_Ret _ _ _ _ _ (cpu_mode_run Svc m1 Hm))].
      rewrite (bind_Ret _ _ _ _ _ (reg_get_run Svc m1 Hm R0)). cbn. by rewrite fn_lookup_insert_ne.
Qed.

Lemma bl_enable_run m : in_mode Svc m → ∃ f, bl link mmu_enable m = Ret ((),
  with_mmu (ttbr0 m) (dacr m) (Z.lor (sctlr m) 1) (tlb_stale m) (with_regs f m)) ∧
  ∀ md, f (Banked md SP) = top md m.
Proof.
  intros Hm. unfold bl. rewrite (bind_Ret _ _ _ _ _ (reg_set_run Svc m Hm LR link)).
  set (m1 := with_regs _ m). unfold mmu_enable, mrc_sctlr, mcr_sctlr, privileged.
  set (m2 := with_regs (<[User R0 := sctlr m]> (regs m1)) m).
  set (m3 := with_regs (<[User R0 := Z.lor (sctlr m) 1]> (regs m2)) m).
  exists (regs m3). split.
  - rewrite (bind_Ret _ _ m1 link (with_mmu (ttbr0 m) (dacr m) (Z.lor (sctlr m) 1) (tlb_stale m) m3)).
    { by rewrite Z.eqb_refl. }
    rewrite (bind_Ret _ _ m1 () m2).
    2: { rewrite (bind_Ret _ _ m1 () m1); [|by rewrite (bind_Ret _ _ _ _ _ (cpu_mode_run Svc m1 Hm))].
         unfold bind at 1, gets at 1. by rewrite (reg_set_run Svc m1 Hm R0). }
    rewrite (bind_Ret _ _ m2 () m3).
    2: { rewrite (orr_run Svc m2 Hm). cbn. by rewrite fn_lookup_insert. }
    rewrite (bind_Ret _ _ m3 () (with_mmu (ttbr0 m) (dacr m) (Z.lor (sctlr m) 1) (tlb_stale m) m3)).
    2: { rewrite (bind_Ret _ _ m3 () m3); [|by rewrite (bind_Ret _ _ _ _ _ (cpu_mode_run Svc m3 Hm))].
         rewrite (bind_Ret _ _ _ _ _ (reg_get_run Svc m3 Hm R0)). cbn. by rewrite fn_lookup_insert. }
    unfold bx_lr. rewrite (reg_get_run Svc (with_mmu _ _ _ _ m3) Hm LR). cbn.
    by rewrite !fn_lookup_insert_ne, fn_lookup_insert by done.
  - intros md. unfold m3, m2, m1. cbn. by rewrite !fn_lookup_insert_ne by done.
Qed.

(** The MMU is switched on. *)
Lemma mmu_on s m (k : MM ()) r : booting s m → 0x6000 - frame ≤ s → s ≤ 0x6000 → s `mod` 4 = 0 →
  (let* _ := kernel_restore_translation_table link leave depth in
   let* _ := mov R0 (Imm 0x55555555) in
   let* _ := bl link mmu_set_dacr in
   let* _ := bl link mmu_enable in k) m = r →
  ∃ m', k m' = r ∧ booting s m' ∧ sys m' = sys m ∧ on_own_table m'.
Proof.
  intros Hb Hlo Hhi Hal E. pose proof Hlay as []. pose proof (bt_mode _ _ Hb) as Hm.
  destruct (restore_table_run base Svc (or_introl eq_refl) (stack_use depth) m Hm
    (stack_booting s m Hb Hlo Hhi Hal) link leave depth [] m (inside_start _ _ _) lay_depth0)
    as (m1 & E1 & H1 & S1 & _ & T1 & B1); [unfold stack_use; cbn; lia|].
  pose proof (inside_mode Svc _ m Hm _ _ H1) as Hm1.
  rewrite (bind_Ret _ _ _ _ _ E1) in E. rewrite (bind_Ret _ _ _ _ _ (mov_run Svc m1 Hm1 R0 _)) in E.
  set (m2 := with_regs _ m1) in E. assert (in_mode Svc m2) as Hm2 by exact Hm1.
  rewrite (bind_Ret _ _ _ _ _ (bl_dacr_run m2 Hm2)) in E. set (m3 := with_mmu _ _ _ _ _) in E.
  assert (in_mode Svc m3) as Hm3 by exact Hm1.
  destruct (bl_enable_run m3 Hm3) as (f & E4 & Hf). rewrite (bind_Ret _ _ _ _ _ E4) in E.
  eexists. split; [exact E|]. destruct Hb as [_ Hs Hi Hv].
  assert (∀ md, f (Banked md SP) = top md m1) as Htop.
  { intros md. rewrite Hf. unfold m3, m2, top. cbn. by rewrite !fn_lookup_insert_ne. }
  split; [split|split_and!].
  - exact Hm1.
  - unfold top at 1. cbn. rewrite Htop, (ins_sp _ _ _ _ _ H1), Hs. cbn. lia.
  - unfold top at 1. cbn. by rewrite Htop, (ins_banks _ _ _ _ _ H1), Hi by done.
  - unfold vectors_ready. eapply words_at_same; [|exact Hv]. intros b Hbb.
    change (length (_interupt_vector symbol)) with 16%nat in Hbb.
    apply (ins_mem _ _ _ _ _ H1). rewrite Hs. unfold stack_use in *. lia.
  - exact S1.
  - split.
    + unfold kernel_mapped. cbn [ttbr0 tlb_stale ktable sctlr with_mmu with_regs m3 m2].
      rewrite T1, B1, (ins_ktable _ _ _ _ _ H1), Z.eqb_refl. apply orb_true_r.
    + cbn [sctlr with_mmu]. by rewrite Z.lor_spec, orb_true_r.
    + cbn. rewrite ?fn_lookup_insert_ne by done. by rewrite ?fn_lookup_insert.
Qed.

(** The registers of a routine of the assembly change, but no stack. *)
Lemma booting_regs s m f : booting s m → (∀ md, f (Banked md SP) = top md m) → booting s (with_regs f m).
Proof. intros [] Hf. split; try done; unfold top at 1; cbn; by rewrite Hf. Qed.

Lemma bl_execution_mode m : in_mode Svc m → ∃ f, bl link cpu_get_execution_mode m = Ret ((), with_regs f m) ∧
  ∀ md, f (Banked md SP) = top md m.
Proof.
  intros Hm. unfold bl. rewrite (bind_Ret _ _ _ _ _ (reg_set_run Svc m Hm LR link)).
  set (m1 := with_regs _ m). unfold cpu_get_execution_mode.
  set (m2 := with_regs (<[User R0 := cpsr m]> (regs m1)) m).
  set (m3 := with_regs (<[User R0 := Z.land (cpsr m) 0x1F]> (regs m2)) m).
  exists (regs m3). split.
  - rewrite (bind_Ret _ _ m1 link m3); [by rewrite Z.eqb_refl|].
    rewrite (bind_Ret _ _ m1 () m2) by apply (mrs_cpsr_run Svc m1 Hm R0).
    rewrite (bind_Ret _ _ m2 () m3).
    2: { rewrite (and_run Svc m2 Hm). cbn. by rewrite fn_lookup_insert. }
    unfold bx_lr. rewrite (reg_get_run Svc m3 Hm LR). cbn.
    by rewrite !fn_lookup_insert_ne, fn_lookup_insert by done.
  - intros md. unfold m3, m2, m1. cbn. by rewrite !fn_lookup_insert_ne by done.
Qed.

Lemma fatal_stops (reason : string) m r :
  bl_c link leave depth no_result (kernel_fatal_error reason) m ≠ Ret r.
Proof.
  intros E. unfold bl_c in E. apply bind_inv in E as (? & m1 & _ & E). unfold bind at 1, gets at 1 in E.
  destruct (kernel_mapped m1); [|done]. unfold bind at 1, ret at 1 in E.
  apply bind_inv in E as (? & m2 & E & _). unfold zoom, kernel_fatal_error, bind in E.
  by destruct (onfile mini_uart_getc _) as [[? ?]| | |].
Qed.

(** A computation that goes on with [Q] where the model has its result. *)
Definition leads {A B} (c : outcome (A * machine)) (o : outcome B) (Q : B → outcome (A * machine) → Prop) : Prop :=
  match o with
  | Ret b => Q b c
  | Fatal r => c = Fatal r
  | Fault => c = Fault
  | Timeout => c = Timeout
  end.

(** What follows the system call that starts init: it must not come back to the kernel. *)
Definition after_exec : MM unit :=
  let* md := cpu_mode in
  match md with
  | Usr => ret ()
  | _ => bl_c link leave depth no_result (kernel_fatal_error "Unexpected return to scheduler start avec initial SVC")
  end.

(** The system call that starts init does what its model does. *)
Lemma exec_leads m : booting (0x6000 - frame) m → sys_inv (sys m) → ∃ c m0,
  (∀ md, top md m0 = top md m) ∧ mem m0 = mem m ∧ dacr m0 = dacr m ∧ sctlr m0 = sctlr m ∧
  leads (__scheduler_exec_init base link leave depth symbol svc_address m)
    (Syscalls._svc_handler c 14 (regs m (User R0)) 0 0 (sys m))
    (λ iw o, ∃ p m', running iw.2 p ∧ resumed Svc (stack_use depth) m0 iw.2 p m' ∧ o = after_exec m').
Proof.
  intros Hb Hsys. pose proof Hlay as []. pose proof (bt_mode _ _ Hb) as Hm.
  unfold __scheduler_exec_init.
  rewrite (bind_Ret _ _ _ _ _ (mov_run Svc m Hm R1 (Reg R0))). set (m1 := with_regs _ m).
  rewrite (bind_Ret _ _ _ _ _ (mov_run Svc m1 Hm R0 (Imm 14))). set (m2 := with_regs _ m1).
  rewrite (bind_Ret _ _ _ _ _ (mov_run Svc m2 Hm R2 (Imm 0))). set (m3 := with_regs _ m2).
  rewrite (bind_Ret _ _ _ _ _ (mov_run Svc m3 Hm R3 (Imm 0))). set (m4 := with_regs _ m3).
  set (m5 := with_pc svc_address m4).
  assert (regs m5 (User R0) = 14 ∧ regs m5 (User R1) = regs m (User R0) ∧ regs m5 (User R2) = 0 ∧
    regs m5 (User R3) = 0) as (A0 & A1 & A2 & A3).
  { unfold m5, m4, m3, m2, m1. cbn. rewrite ?fn_lookup_insert_ne, ?fn_lookup_insert by done. done. }
  assert (∀ md, top md m5 = top md m) as Htop.
  { intros md. unfold m5, m4, m3, m2, m1, top. cbn. by rewrite !fn_lookup_insert_ne by done. }
  assert (booting (0x6000 - frame) m5) as Hb5 by (destruct Hb; split; rewrite ?Htop; done).
  assert (stack_ready base Svc (stack_use depth) (entered SupervisorCall m5)) as Hst.
  { pose proof (stack_booting _ m5 Hb5 ltac:(lia) ltac:(lia) ltac:(lia)) as Hst.
    unfold stack_ready in *. by rewrite entered_top. }
  assert (∀ r, regs (entered SupervisorCall m5) (User r) = regs m5 (User r)) as Hu.
  { intros r. unfold entered. cbn. by rewrite fn_lookup_insert_ne. }
  assert (call_ok (sys m) (regs (entered SupervisorCall m5) (User R0))
    (regs (entered SupervisorCall m5) (User R2))) as Hok by (rewrite !Hu, A0, A2; by split).
  pose proof (svc_follows base link leave depth lay_depth0 lay_base0 lay_end0
    (stack_use depth) (entered SupervisorCall m5) (entered_mode _ _) Hst ltac:(unfold stack_use; lia)
    Hsys Hok) as Hf.
  change (sys (entered SupervisorCall m5)) with (sys m) in Hf. rewrite !Hu, A0, A1, A2, A3 in Hf.
  exists (svc_context (entered SupervisorCall m5)), (entered SupervisorCall m5).
  split; [intros md; by rewrite entered_top, Htop|]. split_and!; [done..|].
  assert (svc base link leave depth symbol svc_address m4 =
    handler base link leave depth SupervisorCall (entered SupervisorCall m5)) as E.
  { unfold svc. unfold bind at 1, modify at 1. change (with_pc svc_address m4) with m5.
    rewrite raise_run; [done|apply Hb5|lia]. }
  unfold bind at 1. rewrite E. cbn [handler].
  destruct (Syscalls._svc_handler _ _ _ _ _ _) as [[i w]| | |]; cbn [follows leads] in *; [|by rewrite Hf..].
  destruct Hf as ([] & m6 & -> & p & _ & Hrun & Hr). by exists p, m6.
Qed.

(** When it has come back to a program, the machine satisfies its invariant. *)
Lemma exec_inv m m0 m' w p i c : booting (0x6000 - frame) m → sys_inv (sys m) → on_own_table m →
  proc_count (sched (sys m)) = 1 →
  (∀ md, top md m0 = top md m) → mem m0 = mem m → dacr m0 = dacr m → sctlr m0 = sctlr m →
  Syscalls._svc_handler c 14 (regs m (User R0)) 0 0 (sys m) = Ret (i, w) →
  running w p → resumed Svc (stack_use depth) m0 w p m' → user_status (cpsr m') →
  machine_inv symbol (0x6000 - frame) m'.
Proof.
  intros [_ Hs Hi Hv] Hsys [_ Hon Hdacr] Hone Htop Hmem Hd Hc Ew Hrun [] Hmode. pose proof Hlay as [].
  assert (sys_inv w) as Hw.
  { eapply sys_step_inv; [exact Hsys|]. eapply step_svc; [|exact Ew]. by split. }
  assert (user_status (spsr (context p))) as Hup.
  { apply (f_equal spsr) in res_visible0. unfold visible, user_context, taken_on in res_visible0.
    cbn in res_visible0. unfold user_status in Hmode. rewrite res_visible0, write_fields_in in Hmode by done.
    exact Hmode. }
  destruct Hw as [Hwf Hrun'].
  split; rewrite ?res_sys0; try done.
  - apply (single_user w p); [done..| |done]. by rewrite (count_exec_call _ _ _ _ _ _ _ Ew).
  - intros q Hq. rewrite res_ttbr1. destruct Hrun as [Hr' _], Hq as [Hq _]. by simplify_eq.
  - destruct res_mmu0 as [_ ->]. congruence.
  - destruct res_mmu0 as [-> _]. congruence.
  - by rewrite res_tops0, Htop.
  - by rewrite res_tops0, Htop.
  - unfold vectors_ready. eapply words_at_same; [|exact Hv]. intros b Hbb.
    change (length (_interupt_vector symbol)) with 16%nat in Hbb. rewrite <- Hmem. apply res_mem0.
    rewrite Htop, Hs. unfold stack_use in *. lia.
Qed.

Lemma exec_init_run m m' : booting (0x6000 - frame) m → sys_inv (sys m) → on_own_table m →
  proc_count (sched (sys m)) = 1 →
  __scheduler_exec_init base link leave depth symbol svc_address m = Ret ((), m') →
  ∃ c i, Syscalls._svc_handler c 14 (regs m (User R0)) 0 0 (sys m) = Ret (i, sys m') ∧
    machine_inv symbol (0x6000 - frame) m'.
Proof.
  intros Hb Hsys Ho Hone E. destruct (exec_leads m Hb Hsys) as (c & m0 & Htop & Hmem & Hd & Hc & Hlead).
  rewrite E in Hlead. destruct (Syscalls._svc_handler _ _ _ _ _ _) as [[i w]| | |] eqn:Ew; [|done..].
  destruct Hlead as (p & m6 & Hrun & Hr & E6). cbn [snd] in *. symmetry in E6.
  apply bind_inv in E6 as (md & m7 & E7 & E6). unfold cpu_mode in E7.
  destruct (mode_of (cpsr m6)) as [md'|] eqn:Hmd; [|done]. injection E7 as -> <-.
  destruct md; try (exfalso; by eapply fatal_stops).
  unfold ret in E6. injection E6 as <-. exists c, i. rewrite (res_sys _ _ _ _ _ _ Hr). split; [exact Ew|].
  apply (exec_inv m m0 m6 w p i c); try done. by apply mode_of_inv in Hmd.
Qed.

(** The kernel image in memory, before the first instruction: the processor is in supervisor
    mode with the MMU off, and the card is in the slot. *)
Record powered_on (card : sd_card) (typed : list Z) (m : machine) : Prop := {
  on_mode : in_mode Svc m;
  on_mmu : Z.testbit (sctlr m) 0 = false;
  on_image : words_at (mem m) 0x8000 (_interupt_vector symbol);
  on_sys : sys m = Kernel.reset card typed;
}.

(** [_kernel_init], the MMU included *)
Lemma init_follows m : booting 0x6000 m → Z.testbit (sctlr m) 0 = false →
  follows (Boot._kernel_init link leave depth init_root_node memory frame m)
    (Kernel._kernel_init init_root_node memory (sys m))
    (λ tw _ m', tw.2 = sys m' ∧ booting (0x6000 - frame) m' ∧ on_own_table m').
Proof.
  intros Hb Hoff. pose proof Hlay as []. unfold Boot._kernel_init, Kernel._kernel_init.
  eapply follows_bind.
  { apply (in_c_follows 0x6000); [done|lia..|]. unfold kernel_mapped. by rewrite Hoff. }
  intros t w a m1 _ (E & B1 & _). injection E as <- ->.
  unfold bind at 1, modify at 1. assert (booting (0x6000 - frame) (with_ktable t m1)) as B2 by (by destruct B1).
  destruct (mmu_on _ _ (in_c leave depth 0 (_kernel_init_services init_root_node memory)) _ B2
    ltac:(lia) ltac:(lia) ltac:(lia) eq_refl) as (m2 & <- & B3 & S3 & O3).
  change (sys (with_ktable t m1)) with (sys m1) in S3. rewrite <- S3.
  pose proof (in_c_follows _ 0 (_kernel_init_services init_root_node memory) m2 B3
    ltac:(lia) ltac:(lia) ltac:(lia) (ot_mapped _ O3)) as Hf.
  unfold bind. destruct (_kernel_init_services init_root_node memory (sys m2)) as [[x w']| | |]; [|done..].
  destruct Hf as (a & m3 & E & E' & B & O). cbn [follows]. injection E' as -> ->. exists a, m3.
  split; [exact E|]. split; [done|]. rewrite Z.sub_0_r in B. auto.
Qed.

Lemma leads_bind {A A' B B'} (c : MM A) (k : A → MM A') m (b : MS B) (g : B → MS B') w P Q :
  follows (c m) (b w) P →
  (∀ x w' a m', P (x, w') a m' → leads (k a m') (g x w') Q) →
  leads (bind c k m) (bind b g w) Q.
Proof.
  intros Hc Hk. unfold bind. destruct (b w) as [[x w']| | |]; cbn [follows] in Hc;
    [destruct Hc as (a & m' & -> & HP); by apply Hk|by rewrite Hc..].
Qed.

(** What runs up to the system call that starts init *)
Definition boot_prefix : MS unit :=
  let* _ := Kernel._kernel_init init_root_node memory in
  let* _ := _kernel_mount_root_fs in
  let* _ := _kernel_mount_dev_tmpfs in
  let* _ := onfile mini_uart_getc in
  Syscalls.start_init (str "/bin/init").

(** The kernel is about to make the system call. *)
Record about_to_exec (m : machine) : Prop := {
  ae_booting : booting (0x6000 - frame) m;
  ae_table : on_own_table m;
  ae_path : regs m (User R0) = PROCESS_SECTION_VIRTUAL_ADDRRESS;
}.

(** From power on the machine does what the model of the boot does, failures included, up to
    the system call. *)
Lemma boot_leads card typed m : powered_on card typed m → 0x8040 ≤ base →
  leads (boot base link leave depth symbol init_root_node memory frame svc_address m)
    (boot_prefix (Kernel.reset card typed))
    (λ uw c, ∃ m1, sys m1 = uw.2 ∧ about_to_exec m1 ∧
      c = __scheduler_exec_init base link leave depth symbol svc_address m1).
Proof.
  intros [Hm Hoff Himg Hsys] Hb. pose proof Hlay as [].
  unfold boot. destruct (reset_run base symbol m Hm Hb Himg) as (r0 & E0 & []).
  rewrite (bind_Ret _ _ _ _ _ E0).
  assert (in_mode Svc r0) as Hr0 by (by rewrite rst_same0).
  rewrite (bind_Ret _ _ _ _ _ (reg_set_run Svc r0 Hr0 LR link)). set (m0 := with_regs _ r0).
  assert (booting 0x6000 m0) as B0.
  { split; [exact Hr0|..|exact rst_vectors0]; unfold top, m0 in *; cbn; by rewrite fn_lookup_insert_ne. }
  assert (sys m0 = Kernel.reset card typed ∧ sctlr m0 = sctlr m) as [S0 X0].
  { change (sys m0) with (sys r0). change (sctlr m0) with (sctlr r0). by rewrite rst_same0. }
  rewrite <- S0. rewrite <- X0 in Hoff. unfold kernel_main, boot_prefix.
  eapply leads_bind; [apply (init_follows m0 B0 Hoff)|]. intros t w [] m1 (E1 & B1 & O1).
  cbn [snd] in E1. subst w.
  assert (∀ A (body : MS A) m, booting (0x6000 - frame) m → on_own_table m →
    follows (in_c leave depth 0 body m) (body (sys m)) (λ aw a m', aw = (a, sys m') ∧
      booting (0x6000 - frame) m' ∧ on_own_table m')) as Hc.
  { intros A body x Hx Ho. eapply follows_mono; [apply (in_c_follows _ 0 body x Hx); [lia..|apply Ho]|].
    intros aw a x' _ (? & B & O). rewrite Z.sub_0_r in B. auto. }
  eapply leads_bind; [by apply Hc|]. intros [] w [] m2 (E & B2 & O2). injection E as ->.
  eapply leads_bind; [by apply Hc|]. intros [] w [] m3 (E & B3 & O3). injection E as ->.
  eapply leads_bind; [by apply Hc|]. intros key w key' m4 (E & B4 & O4). injection E as _ ->.
  destruct (bl_execution_mode m4 (bt_mode _ _ B4)) as (f & E5 & Hf).
  rewrite (bind_Ret _ _ _ _ _ E5). apply (booting_regs _ _ f B4) in Hf as B5.
  assert (on_own_table (with_regs f m4)) as O5 by (by destruct O4).
  pose proof (Hc _ (Syscalls.start_init (str "/bin/init")) _ B5 O5) as H6.
  change (sys (with_regs f m4)) with (sys m4) in H6. unfold bind at 1.
  destruct (Syscalls.start_init (str "/bin/init") (sys m4)) as [[u w]| | |]; cbn [leads follows] in *;
    [|by rewrite H6..].
  destruct H6 as ([] & m6 & -> & E & B6 & O6). injection E as _ ->.
  rewrite (bind_Ret _ _ _ _ _ (mov_run Svc m6 (bt_mode _ _ B6) R0 _)). set (m7 := with_regs _ m6).
  exists m7. split; [done|]. split; [|done]. split.
  - apply booting_regs; [exact B6|]. intros md. by rewrite fn_lookup_insert_ne.
  - by destruct O6.
  - unfold m7. cbn. by rewrite fn_lookup_insert.
Qed.

(** What the kernel has done by then: it has one process. *)
Lemma prefix_booted card typed w : boot_prefix (Kernel.reset card typed) = Ret ((), w) →
  sys_inv w ∧ proc_count (sched w) = 1 ∧
  ∀ c, Kernel.kernel_main init_root_node memory c (Kernel.reset card typed) =
    Syscalls.__scheduler_exec_init c PROCESS_SECTION_VIRTUAL_ADDRRESS w.
Proof.
  intros C. unfold boot_prefix in C. pose proof (kernel_init_run init_root_node memory card typed) as E.
  rewrite (bind_Ret _ _ _ _ _ E) in C.
  apply bind_inv in C as ([] & w1 & C1 & C). apply bind_inv in C as ([] & w2 & C2 & C).
  apply bind_inv in C as (key & w3 & C3 & C).
  assert (booted w3) as Hboot.
  { eapply (boot_kept_quiet _ quiet_getc); [exact C3|].
    eapply (boot_kept_quiet _ quiet_mount_dev); [exact C2|].
    eapply (boot_kept_quiet _ quiet_mount_root); [exact C1|]. apply initialized_booted. }
  split; [exact (start_init_inv w3 _ _ Hboot C)|]. split; [exact (count_start _ _ _ Hboot C)|]. intros c.
  unfold Kernel.kernel_main. rewrite (bind_Ret _ _ _ _ _ E).
  rewrite (bind_Ret _ _ _ _ _ C1), (bind_Ret _ _ _ _ _ C2), (bind_Ret _ _ _ _ _ C3).
  unfold Syscalls.scheduler_start. rewrite (bind_Ret _ _ _ _ _ C). reflexivity.
Qed.

(** From power on: when the reset vector and [kernel_main] have run and init has been
    started, the machine is in the state that the model of the boot gives, init runs in user
    mode under its own table with the MMU on, the vectors are in place, and the stacks of
    the exceptions are empty. *)
Lemma boot_run card typed m m' : powered_on card typed m → 0x8040 ≤ base →
  boot base link leave depth symbol init_root_node memory frame svc_address m = Ret ((), m') →
  machine_inv symbol (0x6000 - frame) m' ∧
  ∃ c i, Kernel.kernel_main init_root_node memory c (Kernel.reset card typed) = Ret (i, sys m').
Proof.
  intros Hon Hb E. pose proof (boot_leads card typed m Hon Hb) as Hlead. rewrite E in Hlead.
  destruct (boot_prefix (Kernel.reset card typed)) as [[[] w]| | |] eqn:C; [|done..].
  destruct Hlead as (m1 & Ew & [B O A] & E1). cbn [snd] in Ew. subst w. symmetry in E1.
  destruct (prefix_booted _ _ _ C) as (Hsys & Hone & Hmain).
  destruct (exec_init_run m1 m' B Hsys O Hone E1) as (c & i & Ec & Hinv).
  split; [exact Hinv|]. exists c, i. rewrite Hmain. rewrite A in Ec. exact Ec.
Qed.

(** From power on the machine comes up, when the model of the boot does: the program's
    registers are those of its context. *)
Lemma boot_comes_up card typed m w1 content u : powered_on card typed m → 0x8040 ≤ base →
  boot_prefix (Kernel.reset card typed) = Ret ((), w1) →
  (∀ ctx, ∃ w p f, Syscalls.__scheduler_exec_init ctx PROCESS_SECTION_VIRTUAL_ADDRRESS w1 = Ret (0, w) ∧
    init_runs w p f content ∧ fs_uart (vs_fs (filesys w)) = u) →
  ∃ m' p f, boot base link leave depth symbol init_root_node memory frame svc_address m = Ret ((), m') ∧
    init_runs (sys m') p f content ∧ fs_uart (vs_fs (filesys (sys m'))) = u ∧
    (∃ old, visible m' = taken_on old (exec_context content [])) ∧
    ttbr0 m' = translation_table p.
Proof.
  intros Hon Hb C Hup. pose proof (boot_leads card typed m Hon Hb) as Hlead. rewrite C in Hlead.
  destruct Hlead as (m1 & Ew & [B O A] & ->). cbn [snd] in Ew. subst w1.
  destruct (prefix_booted _ _ _ C) as (Hsys & _ & _). clear C.
  destruct (exec_leads m1 B Hsys) as (c & m0 & _ & _ & _ & _ & Hlead).
  destruct (Hup c) as (w & p & f & Ew & Hi & Hu). unfold Syscalls.__scheduler_exec_init in Ew.
  change Syscalls.SYSCALL__EXEC with 14 in Ew. rewrite A, Ew in Hlead.
  destruct Hlead as (p' & m' & [Hp' _] & [] & ->). cbn [snd] in *.
  destruct (ir_process _ _ _ _ Hi) as (_ & [Hp _] & _). subst w.
  rewrite Hp' in Hp. injection Hp as <-. exists m', p', f.
  rewrite (ir_context _ _ _ _ Hi) in res_visible0. split; [|by split_and!; eauto].
  assert (user_status (cpsr m')) as Hus.
  { apply (f_equal spsr) in res_visible0. cbn in res_visible0. unfold user_status.
    rewrite res_visible0, write_fields_in; done. }
  unfold after_exec. rewrite (bind_Ret _ _ _ _ _ (cpu_mode_run Usr m' (mode_of_bits Usr _ Hus))). done.
Qed.


(** The states of the machine from its start on. *)
Inductive machine_reachable (card : sd_card) (typed : list Z) : machine → Prop :=
| reach_started m m' :
    powered_on card typed m →
    boot base link leave depth symbol init_root_node memory frame svc_address m = Ret ((), m') →
    machine_reachable card typed m'
| reach_machine m m' :
    machine_reachable card typed m → machine_step base link leave depth symbol m m' →
    machine_reachable card typed m'.

End boot.
End BootSpec.
