(* ===== verification/MachineWitness.v ===== *)
(** * The machine at work

    The card of [SystemExamples] in a machine that is powered on: the properties of the
    processor are instantiated after its boot. *)
From stdpp Require Import functions.
From S2P Require Import Prelude Bitfield Mmu Alloc Heap Hash Fs FsState Devices Ramfs Fat32 Vfs Elf Scheduler SchedulerInv Exec Syscalls SystemInv ExecSpec Kernel SystemExamples KernelSpec KernelFs Fat32Spec InitSpec SystemWitness DiskWitness Usr Cpu CpuSpec Vectors ContextSwitch MachineSpec Boot BootSpec.
Import Fs FsState Devices Vfs Scheduler SchedulerInv Exec SystemInv ExecSpec Kernel SystemExamples KernelSpec KernelFs Fat32Spec InitSpec SystemWitness DiskWitness Cpu CpuSpec Vectors ContextSwitch MachineSpec Boot BootSpec.

Module MachineWitness.

(** The process table in the heap's section, 2 kB of stack for the C functions. *)
Definition base : Z := 0x00800010.
Definition link : Z := 0x8100.
Definition depth : Z := 0x800.
Definition frame : Z := 0x100.
Definition leave (m : machine) : leftovers :=
  mkleft (λ r, match r with R0 => 7 | R12 => regs m (User R4) | _ => 0xBAD end) 0xF0000000 (λ a, a).
Definition symbol (e : exception) : Z := 0x8040 + 0x100 * vector_index e.

Definition image_word (a : Z) : Z :=
  nth (Z.to_nat ((a - 0x8000) / 4)) (_interupt_vector symbol) 0.

Definition m_on : machine :=
  mkmachine (λ _, 0) 0x8000 0x1D3 (λ _, 0) 0 0 0x00050078 true
    (λ a, if (0x8000 <=? a) && (a <? 0x8040) then image_word a else 0) 0 w_reset.

(** The machine after a computation that returns. *)
Definition then_run (c : MM ()) (m : machine) : machine := match c m with Ret (_, m') => m' | _ => m end.

Lemma then_run_eq (c : MM ()) m : is_ret (c m) = true → c m = Ret ((), then_run c m).
Proof. unfold then_run. by destruct (c m) as [[[] ?]| | |]. Qed.

#[local] Opaque then_run.

Definition m_booted : machine :=
  then_run (boot base link leave depth symbol 0x8000 ∅ frame 0x9000) m_on.

Lemma m_booted_run : boot base link leave depth symbol 0x8000 ∅ frame 0x9000 m_on = Ret ((), m_booted).
Proof.
  assert (is_ret (boot base link leave depth symbol 0x8000 ∅ frame 0x9000 m_on) = true) as H
    by (vm_compute; reflexivity).
  exact (then_run_eq _ _ H).
Qed.

Lemma m_layout : layout base depth (0x6000 - frame).
Proof.
  split; unfold stack_use, base, depth, frame, SIZEOF_PROCESS, SCHEDULER_MAX_TASK_COUNT; done.
Qed.

Lemma m_powered : powered_on symbol card [13; 104; 105; 13] m_on.
Proof.
  split; [done|done| |done]. intros k v Hk.
  do 16 (destruct k as [|k]; [injection Hk as <-; vm_compute; reflexivity|]). discriminate.
Qed.

Lemma m_booted_reachable :
  machine_reachable base link leave depth symbol 0x8000 ∅ frame 0x9000 card [13; 104; 105; 13] m_booted.
Proof. exact (reach_started _ _ _ _ _ _ _ _ _ _ _ _ _ m_powered m_booted_run). Qed.

Lemma m_booted_inv : machine_inv symbol (0x6000 - frame) m_booted.
Proof.
  apply (boot_run base link leave depth symbol 0x8000 ∅ frame 0x9000 m_layout ltac:(done)
    card [13; 104; 105; 13] m_on m_booted m_powered); [done|exact m_booted_run].
Qed.

(** init is at its first instruction, in user mode; interrupts are enabled, and imprecise aborts
    masked, as they were when the kernel started it. *)
Lemma m_booted_pc : pc m_booted = 0x00840000 ∧ cpsr m_booted = 0x150.
Proof. split; vm_compute; reflexivity. Qed.



Definition after_irq : machine := then_run (raise base link leave depth symbol Interrupt) m_booted.

Lemma after_irq_run : raise base link leave depth symbol Interrupt m_booted = Ret ((), after_irq).
Proof.
  assert (is_ret (raise base link leave depth symbol Interrupt m_booted) = true) as H
    by (vm_compute; reflexivity).
  exact (then_run_eq _ _ H).
Qed.

Lemma irq_refines_witness :
  follows (raise base link leave depth symbol Interrupt m_booted)
    (Syscalls._irq_handler (visible m_booted) (sys m_booted))
    (λ iw _ m', ends_with depth Irq m_booted iw.2 m').
Proof.
  apply (irq_refines base link leave depth symbol (0x6000 - frame) m_layout).
  - exact m_booted_inv.
  - rewrite (proj1 m_booted_pc). done.
Defined.

(** A program that is about to make the system call [n]. *)
Definition calling (n : Z) (m : machine) : machine := with_regs (<[User R0 := n]> (regs m)) m.

Lemma calling_inv s n m : machine_inv symbol s m → machine_inv symbol s (calling n m).
Proof. intros []. split; try done; unfold top; cbn; by rewrite fn_lookup_insert_ne. Qed.
Lemma calling_same n m : pc (calling n m) = pc m ∧ cpsr (calling n m) = cpsr m ∧
  regs (calling n m) (User R0) = n.
Proof. split_and!; [done..|]. apply fn_lookup_insert. Qed.

Lemma call_ok_other n w a : n ≠ 12 → n ≠ 13 → call_ok w n a.
Proof. intros H1 H2. by split. Qed.

(** A call of GETPID, with what the registers hold. *)
Definition m_getpid : machine := calling 16 m_booted.


(** The value that a computation returns. *)
Definition value_of {A} (c : MS A) (w : system) : option A :=
  match c w with Ret (a, _) => Some a | _ => None end.

Lemma value_run {A} (c : MS A) w a : value_of c w = Some a → ∃ w', c w = Ret (a, w').
Proof. unfold value_of. destruct (c w) as [[x w']| | |]; [|done..]. intros [= <-]. by exists w'. Qed.


Lemma interrupt_transparent_witness :
  visible after_irq = visible m_booted ∧ ttbr0 after_irq = ttbr0 m_booted ∧
  tlb_stale after_irq = false ∧ ram (sys after_irq) = ram (sys m_booted).
Proof.
  apply (interrupt_transparent base link leave depth symbol (0x6000 - frame) m_layout m_booted after_irq).
  - exact m_booted_inv.
  - rewrite (proj1 m_booted_pc). done.
  - rewrite (proj1 m_booted_pc), (proj2 m_booted_pc). reflexivity.
  - exact after_irq_run.
  - vm_compute. reflexivity.
Defined.

End MachineWitness.
